(* ===== verification/_CoqProject ===== *)
-Q . S2P
Prelude.v
PyVal.v
World.v
TraceState.v
Replies.v
ZbkcManager.v
ManagerWait.v
Conf.v
Scrub.v
FSStatus.v
Filesystem.v
FsOps.v
FsSetup.v
ZbkcCluster.v
ZbkcTask.v
ClientMount.v
FuseMount.v
KernelMount.v
MountTasks.v
TestCase.v
TestRunner.v
Workunit.v
Rbd.v
FsFacts.v
Daemons.v
Sim.v
WaitFacts.v
ZbkcFacts.v
ZbkcOrder.v
MountFacts.v
TestFacts.v
ClientFacts.v
PoolFacts.v
PgFacts.v
Rados.v
RgwUtil.v
Rgw.v
RgwTask.v
Claims.v
ClientTasks.v
ServiceTasks.v
Vstart.v
VstartFacts.v
S3Tasks.v
RgwAdmin.v
RgwFacts.v
Qemu.v
ObjectstoreTest.v
Deploy.v
DeployFacts.v
OsdScenarios.v
LostUnfound.v
Divergent.v
Workloads.v
SmallTasks.v
MonScenarios.v
Thrasher.v
ThrasherFacts.v
ThrasherChoice.v
ThrasherRuns.v
ThrasherSpec.v
ObjectStoreTool.v
ScenarioFacts.v
MonScenarioFacts.v
RepairTests.v
Mondb.v
TaskFacts.v
BenchTasks.v
InstallTasks.v
MonThrash.v
MonFacts.v
MdsThrash.v
MdsFacts.v
Thrashosds.v
Witnesses.v
TaskWitnesses.v
ZbkcWitnesses.v
MountWitnesses.v
RgwWitnesses.v
TestWitnesses.v
