(* ===== verification/Prelude.v ===== *)
(** * Verification of the zbkc QA tasks

    The repository is a suite of test tasks, in Python 2, that a scheduler (teuthology)
    runs against a cluster of storage daemons: OSDs that hold data, monitors that keep
    the cluster map, metadata servers (MDS) that run file systems.  Its own logic is the
    code that drives and damages such a cluster: a _manager_ that wraps the cluster's
    command line, and _thrashers_ that kill, freeze, revive and reconfigure daemons at
    random while other tasks put load on the cluster.  A thrasher that loses track of
    what it stopped, or stops too much, makes a test fail for no fault of the cluster;
    that it never does is what most of this development is about.

    ** The program's parts and where they are modelled

    - The environment.  The machines, the daemons, the consoles, the clock, the random
      generator and the helpers of teuthology are not part of the repository.  They are
      the class [Env] of World.v: [respond] answers an [event] (a command run on a remote
      machine, a sleep, a daemon started or stopped, a file copied, ...) and moves to the
      next state of the environment, [now] is the clock, [draw] the n-th random number.
      The class [EnvLaws] has the documented facts some theorems need: draws lie in
      [[0,1)], the clock does not go back, a sleep takes its time.  Most theorems hold
      for every environment, so for every answer of the cluster, failures of the
      connection included.  Sim.v is a concrete environment for the witnesses.
    - Python.  World.v has the monad [M S A] of a method on an object with fields [S]:
      it threads the object and the world and ends in [Ret], [Exc] (a Python exception)
      or [Stuck] (a loop used up its fuel).  PyVal.v has the values of configurations and
      JSON documents with Python 2's truth values, its order on mixed types, [str] of
      numbers, and [json.loads]; Prelude.v the methods of [str].
    - tasks/zbkc_manager.py, class [ZbkcManager]: ZbkcManager.v (commands, administration
      sockets, the pool table, placement-group counters, scrubbing), ManagerWait.v
      (polling loops, killing and reviving OSDs and monitors) and Conf.v ([write_conf]);
      the fields are the record [mgr].  tasks/util/__init__.py and tasks/util/rados.py
      are in ZbkcManager.v and Rados.v.
    - tasks/zbkc_manager.py, class [Thrasher]: Thrasher.v, fields [thr].  The four lists
      [in_osds], [out_osds], [live_osds], [dead_osds], every action, [choose_action],
      [do_thrash], the side greenlets, the constructor.
    - tasks/zbkc_manager.py, class [ObjectStoreTool]: ObjectStoreTool.v.
    - tasks/scrub.py: Scrub.v.  tasks/thrashosds.py: Thrashosds.v.
      tasks/mon_thrash.py: MonThrash.v, fields [mthr].  tasks/mds_thrash.py: MdsThrash.v,
      fields [mdst].
    - tasks/zbkcfs/filesystem.py: FSStatus.v (queries over a dumped map), Filesystem.v
      ([MDSCluster], creating and inspecting a file system), FsOps.v (health of the
      daemons, objects, xattrs, offline tools), FsSetup.v (constructors, configuration,
      firewall, data pools); fields [fsys].
    - tasks/zbkc.py: ZbkcCluster.v ([cluster]: devices, keys, formatting and mounting,
      and the way back) and ZbkcTask.v (logs, daemons, health waits, the final scrub,
      restarting, and the nesting of all of it).
    - Scripted scenarios over the manager: OsdScenarios.v (osd_backfill, osd_recovery,
      peer, object_source_down, resolve_stuck_peering, dump_stuck), LostUnfound.v,
      Divergent.v, MonScenarios.v (mon_recovery, mon_seesaw, mon_clock_skew_check),
      RepairTests.v (scrub_test, repair_test), Mondb.v (rebuild_mondb).
    - Workloads: Workloads.v (rados, radosbench, thrash_pool_snaps, recovery_bench and
      others), SmallTasks.v (osd_failsafe_enospc, admin_socket, restart),
      ObjectstoreTest.v (zbkc_objectstore_tool), Workunit.v (workunit), BenchTasks.v
      (radosbenchsweep, multibench, rbd_fio, rbd_mirror, autotest, aver), ClientTasks.v
      (locktest, omapbench, watch_notify_stress, filestore_idempotent, rbd_fsx, cram).
    - Clients: ClientMount.v (class [ClientMount], what a kind of client provides, and
      the methods over it), FuseMount.v, KernelMount.v, MountTasks.v (zbkc_fuse, kclient,
      with the objects in a store so that two names for one client are one), Rbd.v (rbd
      images, devices, xfstests), Qemu.v.
    - Test cases: TestCase.v (zbkc_test_case, zbkcfs_test_case, mgr_test_case),
      TestRunner.v (zbkcfs_test_runner), Vstart.v (vstart_runner, the runner on the
      developer's machine).
    - The object gateway: RgwUtil.v, Rgw.v, RgwTask.v (rgw, util/rgw, radosgw_agent),
      S3Tasks.v (s3tests, s3readwrite, s3roundtrip, rgw_logsocket), RgwAdmin.v
      (radosgw_admin, radosgw_admin_rest).
    - Services and deployment: ServiceTasks.v (samba, cifs_mount, tgt, rest_api, systemd,
      blktrace, mds_creation_failure), Deploy.v (zbkc_deploy), InstallTasks.v
      (calamari_setup, calamari_nosetests, devstack, buildpackages).

    The thrashers call the manager through [zoom], which runs a method of the manager on
    the manager held in a field.  The MDS thrasher uses [Filesystem], the thrashosds task
    builds a [Thrasher], and that starts [Scrubber]s.  The tasks around a body are
    functions on the body, and nest as the code nests its context managers.

    ** How properties are stated and proved

    [wp m Q s w] says that [m], run on the object [s] in the world [w], ends in an
    outcome, an object and a world that satisfy [Q].  [wp_run] steps through a method;
    the rules [wp_while], [wp_while_total], [wp_loop_total] treat loops by an invariant,
    and a variant where the loop must end.  For facts that only say how a method moves
    the state ([Runs], [Moves]) the database [runs] and the tactic [runs_tac] walk over
    the whole body, given that the relation is a preorder ([WorldRel]).  The world keeps
    the list of all events; what is stopped or frozen at a moment is read off it
    (Daemons.v), and [always] says that something holds after every event of a run.

    Two computations that no run tells apart are [same] (InstallTasks.v), an equivalence
    that [bind] respects.  Facts about what is taken and given back (mounts, images, exports, users) are read off
    the trace by a step function (TraceState.v); Claims.v has the rules for context
    managers that take something around a body ([Leaves], [Around], [nested_around]).
    Replies.v counts the failures in a trace.

    ** What the theorems show

    - The OSD thrasher (ThrasherFacts.v, ThrasherChoice.v, ThrasherRuns.v): the lists
      stay partitions of the OSDs; a run that returns has everything in and up; never
      fewer than [min_in] OSDs in, nor than [min_live] up unless the options ask for
      map-discontinuity tests; an action is chosen only when its guard holds, and one is
      chosen whenever the weights allow; [all_up] ends; a placement group is exported
      before it is removed and imported afterwards; the scrub flags are cleared.
      ThrasherSpec.v has an abstract machine of the sets, with the one kill of a
      map-discontinuity test that [min_live] does not guard, and that [do_thrash], with
      every option, refines it: at any time at least [min_live - 1] OSDs are up.
    - The monitor thrasher (MonFacts.v): fewer than half of the monitors are stopped at
      every moment, and nothing is left stopped or frozen.  The MDS thrasher
      (MdsFacts.v): at most one MDS is down at every moment.
    - ObjectStoreTool.v: the tool runs once on a stopped OSD, and whatever comes of it the
      OSD is sent its restart, unless the caller does not want it or its power-cycled
      machine does not come back.
    - The manager (PoolFacts.v, PgFacts.v, WaitFacts.v): the pool table follows the
      commands, names do not repeat, retries and waits are bounded and return only on
      the condition they wait for, and return when the cluster recovers; counters and
      histograms mean what they say, paged answers are complete.
    - File systems (FsFacts.v): health, waiting for daemons, order of ranks, which
      objects make up a file.
    - The zbkc task (ZbkcFacts.v, ZbkcOrder.v): it leaves nothing mounted, takes a
      cluster up and down in order however it ends, and on an existing cluster mounts
      devices only after everything stopped and never returns; its final scrub ends;
      journals, validation.
    - Scripted scenarios (ScenarioFacts.v, MonScenarioFacts.v, RepairTests.v, Mondb.v,
      TaskFacts.v): every daemon that a script stops is started again, or which are not;
      pools and snapshots that workloads make are removed; checks of reports and of
      clocks accept exactly what they should.
    - Clients (MountFacts.v, ClientFacts.v, Qemu.v): mounts, images, mapped devices and
      exports are given back, but for the mount of a kernel client whose id is listed
      again; work units run exactly the scripts that were named.
    - Test cases (TestFacts.v, VstartFacts.v): a wait is a bounded number of looks; a
      test gives the clients their ids back and removes exactly the settings it made; the
      runner, with every option, goes on exactly when each test counts as passed; the
      configuration file is kept; exactly the marked tests are left out.
    - The gateway (RgwFacts.v, S3Tasks.v): gateways are stopped, users removed, regions
      list exactly their gateways.  ObjectstoreTest.v: every command with the tool that
      fails is counted.
      RgwAdmin.v: the test of its administration removes its users, and its wait ends.
      DeployFacts.v: no device is given twice.
    - BenchTasks.v: a sweep runs exactly the combinations that were asked for.
    - InstallTasks.v: exactly the install tasks of a job are built, the disks of a
      deployment are the same in all its steps, a printed table is read back, and what
      Calamari's set-up and tests put on machines is taken away.
    - Places where the code does something else than it means to are stated as what it
      does; the manifest lists them as findings.

    Witnesses.v, TaskWitnesses.v, ZbkcWitnesses.v, MountWitnesses.v, RgwWitnesses.v and
    TestWitnesses.v apply the theorems that have hypotheses to concrete clusters.

    ** Bounds and fuel

    [while] and [loop] take [fuel] (class [Fuel]) as their number of rounds, and a loop
    that uses it up ends in [Stuck].  Theorems on termination state how much is enough:
    [ceil(timeout / 3)] rounds for a polling loop, [floor(timeout / 5) + 1] for a socket,
    51 for a pool setting, 37 for a scrub, the number of pages for a listing, the number
    of dead OSDs and of OSDs that are out for [all_up], [13 (N + 1)] rounds for the final
    scrub of [N] placement groups, [mount_timeout + 1] for mounting a FUSE client,
    [ceil((T - now) / 3)] sleeps until a cluster that recovers at time [T] is seen to
    have, 90 rounds for a deployed cluster to be healthy, [ceil(timeout / 5)] pauses of a
    test's wait, 1201 rounds for the usage data of a gateway.  The thrashing loops run until they are told to stop; their theorems hold
    of every prefix of a run, [Stuck] included, and so for every number of rounds.

    ** What is not modelled

    Log output and the full text of some exception messages.  [self.lock], and the
    interleaving of greenlets: each is modelled by itself, the branches of a [parallel]
    run one after the other, and only [do_thrash] changes the lists that the others read.
    The rounding of floating-point arithmetic: a float is the rational it denotes.
    [utility_task] and [log_exc] of zbkc_manager.py; [get_lines] of
    zbkc_objectstore_tool.py, which is never called; [LocalFilesystem.__init__],
    [respawn_in_path] and the second copies of two classes in vstart_runner.py; there
    [sys.exit] is the code that [exec_test] returns, the test directory that a destructor
    removes is left out, and the only pattern character in the names of settings is the dot.
    A generator that an exception leaves suspended ends there: its clean-up, which the
    interpreter runs when it frees the generator, is not part of the run.  What [unittest]
    does with a test is modelled after its documentation.
    The test modules tasks/zbkcfs/test_<name>.py, which the runner loads by name; the YAML
    suites, which are data.  The libraries that tasks call (boto, requests, configparser,
    OpenStack's client) are events that the environment answers. *)
From Stdlib Require Import Ascii QArith Qround Qreduction Lqa.
From stdpp Require Export base list strings gmap pretty.

#[global] Open Scope Z_scope.

(** ** Hint databases and tactics *)

Create Rewrite HintDb pystr.

(** [split_ands] splits every conjunction of the goal. *)
Ltac split_ands := repeat match goal with |- _ /\ _ => split end.

(** [ands] closes a conjunction of trivial and arithmetical facts. *)
Ltac ands := split_ands; first [done | lia].

(** ** Python strings

    Python 2 [str] values are modelled by [string]; the functions below are the
    methods of [str] the sources call. *)

Definition nl : ascii := "010"%char.
Definition nls : string := String nl EmptyString.
Definition dquote : ascii := "034"%char.
Definition dqs : string := String dquote EmptyString.

(** [pat in s] *)
Fixpoint str_in (pat s : string) : bool :=
  String.prefix pat s ||
  match s with
  | EmptyString => false
  | String _ s' => str_in pat s'
  end.

(** [s.startswith(pat)] *)
Definition startswith (pat s : string) : bool := String.prefix pat s.

(** [s.count(pat)] for a non-empty [pat]: non-overlapping occurrences, scanning
    left to right and skipping over each match. *)
Fixpoint count_from (pat : string) (skip : nat) (s : string) : nat :=
  match s with
  | EmptyString => 0%nat
  | String _ s' =>
      match skip with
      | S k => count_from pat k s'
      | O => if String.prefix pat s
             then S (count_from pat (pred (String.length pat)) s')
             else count_from pat 0 s'
      end
  end.
Definition str_count (pat s : string) : nat := count_from pat 0 s.

(** [s.split(c)] for a one-character separator. *)
Fixpoint split_on (c : ascii) (s : string) : list string :=
  match s with
  | EmptyString => [EmptyString]
  | String a s' =>
      if Ascii.eqb a c then EmptyString :: split_on c s'
      else match split_on c s' with
           | [] => [String a EmptyString]
           | w :: ws => String a w :: ws
           end
  end.

Definition is_space (a : ascii) : bool :=
  let n := Ascii.nat_of_ascii a in
  Nat.eqb n 32 || (Nat.leb 9 n && Nat.leb n 13).

(** [s.split()]: the maximal runs of non-blank characters. *)
Fixpoint split_ws_go (s : string) : string * list string :=
  match s with
  | EmptyString => (EmptyString, [])
  | String a s' =>
      let '(w, ws) := split_ws_go s' in
      if is_space a
      then (EmptyString, if String.eqb w EmptyString then ws else w :: ws)
      else (String a w, ws)
  end.
Definition split_ws (s : string) : list string :=
  let '(w, ws) := split_ws_go s in
  if String.eqb w EmptyString then ws else w :: ws.

(** [sep.join(l)] *)
Fixpoint str_join (sep : string) (l : list string) : string :=
  match l with
  | [] => EmptyString
  | [w] => w
  | w :: ws => w +:+ sep +:+ str_join sep ws
  end.

(** [s[n:]] *)
Fixpoint str_from (n : nat) (s : string) : string :=
  match n, s with
  | S k, String _ s' => str_from k s'
  | _, _ => s
  end.

Fixpoint str_lstrip (s : string) : string :=
  match s with
  | String a s' => if is_space a then str_lstrip s' else s
  | EmptyString => EmptyString
  end.
Fixpoint str_rstrip (s : string) : string :=
  match s with
  | EmptyString => EmptyString
  | String a s' =>
      match str_rstrip s' with
      | EmptyString => if is_space a then EmptyString else String a EmptyString
      | r => String a r
      end
  end.
(** [s.strip()] *)
Definition str_strip (s : string) : string := str_rstrip (str_lstrip s).

(** [l[:-1]] and [l[1:]] *)
Definition list_init {A} (l : list A) : list A := removelast l.

(** Decimal digits, [int(s)] and [str(n)] *)
Definition digit_of (a : ascii) : option Z :=
  let n := Z.of_nat (Ascii.nat_of_ascii a) in
  if (48 <=? n) && (n <=? 57) then Some (n - 48) else None.
Fixpoint digits_go (acc : Z) (s : string) : option Z :=
  match s with
  | EmptyString => Some acc
  | String a s' =>
      match digit_of a with
      | Some d => digits_go (10 * acc + d) s'
      | None => None
      end
  end.
Definition parse_digits (s : string) : option Z :=
  match s with EmptyString => None | _ => digits_go 0 s end.
(** [int(s)], [None] for ValueError. *)
Definition py_int (s : string) : option Z :=
  match str_strip s with
  | String "-" s' => Z.opp <$> parse_digits s'
  | String "+" s' => parse_digits s'
  | s' => parse_digits s'
  end.
(** [str(n)] of an integer. *)
Definition str_of_Z (z : Z) : string := pretty z.

(** [{0:x}] of a non-negative integer. *)
Definition hex_digit (z : Z) : ascii :=
  Ascii.ascii_of_nat (Z.to_nat (if z <? 10 then 48 + z else 87 + z)).
Fixpoint hex_go (fuel : nat) (z : Z) (acc : string) : string :=
  match fuel with
  | O => acc
  | S k =>
      let acc' := String (hex_digit (z mod 16)) acc in
      if z / 16 =? 0 then acc' else hex_go k (z / 16) acc'
  end.
Definition hex_of_Z (z : Z) : string :=
  if z <? 0 then String "-" (hex_go (Z.to_nat (Z.log2 (- z)) + 1) (- z) EmptyString)
  else hex_go (Z.to_nat (Z.log2 z) + 1) z EmptyString.

(** ** Lemmas on strings *)

Lemma append_assoc (a b c : string) : (a +:+ b) +:+ c = a +:+ (b +:+ c).
Proof. induction a as [|x a IH]; [done|]. change (String x ((a +:+ b) +:+ c) = String x (a +:+ (b +:+ c))). by rewrite IH. Qed.

Lemma append_nil (s : string) : s +:+ EmptyString = s.
Proof. induction s as [|x s IH]; [done|]. change (String x (s +:+ EmptyString) = String x s). by rewrite IH. Qed.
Lemma length_append (a b : string) : String.length (a +:+ b) = (String.length a + String.length b)%nat.
Proof. induction a as [|x a IH]; [done|]. change (S (String.length (a +:+ b)) = S (String.length a + String.length b)). by rewrite IH. Qed.

(** All characters of a string satisfy [p]. *)
Fixpoint every (p : ascii -> bool) (s : string) : bool :=
  match s with EmptyString => true | String a s' => p a && every p s' end.
Lemma every_append p (a b : string) : every p (a +:+ b) = every p a && every p b.
Proof. induction a as [|x a IH]; [done|]. change (p x && every p (a +:+ b) = p x && every p a && every p b). by rewrite IH, andb_assoc. Qed.
Lemma every_impl (p q : ascii -> bool) s : (forall a, p a = true -> q a = true) -> every p s = true -> every q s = true.
Proof. intros H. induction s as [|a s IH]; cbn; [done|]. intros [?%H ?]%andb_true_iff. apply andb_true_iff. by split; [|apply IH]. Qed.

(** Splitting what was joined *)
Definition is_not (c a : ascii) : bool := negb (Ascii.eqb a c).
Lemma split_on_last c s : every (is_not c) s = true -> split_on c s = [s].
Proof.
  induction s as [|a s IH]; cbn; [done|]. intros [Ha%negb_true_iff Hs]%andb_true_iff. by rewrite Ha, IH.
Qed.
Lemma split_on_more c s t : every (is_not c) s = true -> split_on c (s +:+ String c t) = s :: split_on c t.
Proof.
  induction s as [|a s IH].
  - intros _. change (split_on c (String c t) = EmptyString :: split_on c t). cbn. by rewrite Ascii.eqb_refl.
  - cbn [every]. intros [Ha%negb_true_iff Hs]%andb_true_iff. change (split_on c (String a (s +:+ String c t)) = String a s :: split_on c t).
    cbn [split_on]. by rewrite Ha, IH.
Qed.
Lemma split_on_join c ls : ls <> [] -> Forall (fun l => every (is_not c) l = true) ls ->
  split_on c (str_join (String c EmptyString) ls) = ls.
Proof.
  intros Hne Hl. induction Hl as [|l ls Hl Hls IH]; [done|]. destruct ls as [|l' ls]; [by apply split_on_last|].
  change (split_on c (l +:+ String c (str_join (String c EmptyString) (l' :: ls))) = l :: l' :: ls). by rewrite split_on_more, IH.
Qed.
Lemma split_ws_go_app a c b : is_space c = true ->
  split_ws_go (a +:+ String c b) = ((split_ws_go a).1, (split_ws_go a).2 ++ split_ws b).
Proof.
  intros Hc. induction a as [|x a IH].
  - change (split_ws_go (String c b) = (EmptyString, split_ws b)). cbn. rewrite Hc. unfold split_ws. by destruct (split_ws_go b).
  - change (split_ws_go (String x (a +:+ String c b)) = ((split_ws_go (String x a)).1, (split_ws_go (String x a)).2 ++ split_ws b)).
    cbn [split_ws_go]. rewrite IH. destruct (split_ws_go a) as [w ws]. cbn. destruct (is_space x); [|done]. by destruct (String.eqb w EmptyString).
Qed.
Lemma split_ws_app a c b : is_space c = true -> split_ws (a +:+ String c b) = split_ws a ++ split_ws b.
Proof.
  intros Hc. unfold split_ws at 1 2. rewrite split_ws_go_app by done. destruct (split_ws_go a) as [w ws]. cbn. by destruct (String.eqb w EmptyString).
Qed.
(** A word: something, without padding *)
Definition is_word (s : string) : bool := negb (String.eqb s EmptyString) && every (fun a => negb (is_space a)) s.
Lemma split_ws_word s : is_word s = true -> split_ws s = [s].
Proof.
  intros [Hne%negb_true_iff Hs]%andb_true_iff. enough (split_ws_go s = (s, [])) as H by (unfold split_ws; by rewrite H, Hne).
  clear Hne. induction s as [|a s IH]; cbn in *; [done|]. apply andb_true_iff in Hs as [Ha%negb_true_iff Hs]. by rewrite IH, Ha.
Qed.
Fixpoint padding (n : nat) : string := match n with O => EmptyString | S n => String " "%char (padding n) end.
Lemma split_ws_padding n s : split_ws (padding n +:+ s) = split_ws s.
Proof.
  induction n as [|n IH]; [done|]. change (split_ws (EmptyString +:+ String " "%char (padding n +:+ s)) = split_ws s).
  by rewrite split_ws_app.
Qed.
Lemma split_ws_padded s n : is_word s = true -> split_ws (s +:+ padding n) = [s].
Proof.
  intros Hs. destruct n as [|n]; cbn [padding]; [by rewrite append_nil, split_ws_word|]. rewrite split_ws_app, split_ws_word by done.
  by rewrite <- (append_nil (padding n)), split_ws_padding.
Qed.

(** Python's [s.count(pat)] is truthy exactly when [pat in s]. *)
Lemma str_count_in (pat s : string) :
  pat <> EmptyString -> (0 <? str_count pat s)%nat = str_in pat s.
Proof.
  intros Hp. unfold str_count. induction s as [|a s IH].
  - destruct pat; simpl; [done|reflexivity].
  - cbn [count_from str_in]. destruct (String.prefix pat (String a s)) eqn:Hpre.
    + simpl. by destruct (count_from _ _ s).
    + exact IH.
Qed.

#[export] Hint Rewrite str_count_in using discriminate : pystr.
