(* ===== verification/PyVal.v ===== *)
(** * Python values, comparisons, numbers as text, and the [json] module

    The tasks are driven by YAML configuration and by the JSON the cluster's
    command line prints, so both are values of the one type [pyval].  Floats are
    the rationals they denote (rounding of float arithmetic is not modelled).
    This file models the Python 2 operations the sources apply to such values:
    truth testing, [dict.get], subscription, the mixed-type order, [str], and
    [json.loads]/[json.dumps]. *)
From Stdlib Require Import Ascii QArith Qround Lqa.
From S2P Require Import Prelude.

#[warnings="-register-all"]
Inductive pyval : Type :=
| PNone
| PBool (b : bool)
| PInt (z : Z)
| PFloat (q : Q)
| PStr (s : string)
| PList (l : list pyval)
| PDict (d : list (string * pyval)).

Abbreviation dict := (list (string * pyval)).

(** ** Dictionaries *)

Fixpoint dict_lookup (k : string) (d : dict) : option pyval :=
  match d with
  | [] => None
  | (k', v) :: d' => if String.eqb k k' then Some v else dict_lookup k d'
  end.
Definition dict_has (k : string) (d : dict) : bool :=
  match dict_lookup k d with Some _ => true | None => false end.
(** [d.get(k, dflt)] *)
Definition dict_get (k : string) (dflt : pyval) (d : dict) : pyval :=
  default dflt (dict_lookup k d).
(** [d[k] = v]: in place for a present key, appended for a new one. *)
Fixpoint dict_set (k : string) (v : pyval) (d : dict) : dict :=
  match d with
  | [] => [(k, v)]
  | (k', v') :: d' => if String.eqb k k' then (k', v) :: d' else (k', v') :: dict_set k v d'
  end.
(** [del d[k]] for a present key *)
Fixpoint dict_del (k : string) (d : dict) : dict :=
  match d with
  | [] => []
  | (k', v') :: d' => if String.eqb k k' then d' else (k', v') :: dict_del k d'
  end.

Lemma dict_lookup_set k k' v d :
  dict_lookup k (dict_set k' v d) = if String.eqb k k' then Some v else dict_lookup k d.
Proof.
  induction d as [|[k1 v1] d IH]; simpl; [done|].
  destruct (String.eqb_spec k' k1) as [->|Hne]; simpl.
  - by destruct (String.eqb k k1).
  - rewrite IH. destruct (String.eqb_spec k k1) as [->|]; [|done].
    by destruct (String.eqb_spec k1 k'); [congruence|].
Qed.

Lemma dict_lookup_notin k (d : dict) : k ∉ d.*1 -> dict_lookup k d = None.
Proof.
  induction d as [|[k' v] d IH]; simpl; [done|]. intros [Hne Hk]%not_elem_of_cons.
  by rewrite (proj2 (String.eqb_neq k k') Hne), IH.
Qed.
Lemma dict_lookup_del k k' d : k <> k' -> dict_lookup k (dict_del k' d) = dict_lookup k d.
Proof.
  intros Hk. induction d as [|[k1 v1] d IH]; simpl; [done|].
  destruct (String.eqb_spec k' k1) as [->|Hne]; simpl; [|by rewrite IH].
  by destruct (String.eqb_spec k k1).
Qed.

(** ** Truth, numbers, and the Python 2 order *)

Definition num_of (v : pyval) : option Q :=
  match v with
  | PBool b => Some (if b then 1 else 0)%Q
  | PInt z => Some (inject_Z z)
  | PFloat q => Some q
  | _ => None
  end.

(** [bool(v)] *)
Definition truthy (v : pyval) : bool :=
  match v with
  | PNone => false
  | PBool b => b
  | PInt z => negb (z =? 0)
  | PFloat q => negb (Qeq_bool q 0)
  | PStr s => negb (String.eqb s EmptyString)
  | PList l => match l with [] => false | _ => true end
  | PDict d => match d with [] => false | _ => true end
  end.

(** Values of different kinds are ordered by kind: [None] first, then numbers,
    then the others by the name of their type. *)
Definition kind_rank (v : pyval) : Z :=
  match v with
  | PNone => 0
  | PBool _ | PInt _ | PFloat _ => 1
  | PDict _ => 2
  | PList _ => 3
  | PStr _ => 4
  end.

Fixpoint str_cmp (s t : string) : comparison :=
  match s, t with
  | EmptyString, EmptyString => Eq
  | EmptyString, _ => Lt
  | _, EmptyString => Gt
  | String a s', String b t' =>
      match Nat.compare (nat_of_ascii a) (nat_of_ascii b) with
      | Eq => str_cmp s' t'
      | c => c
      end
  end.

(** [cmp(a, b)]; [None] for two dictionaries, whose order no source relies on. *)
Fixpoint py_cmp (a b : pyval) {struct a} : option comparison :=
  match num_of a, num_of b with
  | Some x, Some y => Some (Qcompare x y)
  | _, _ =>
      match a, b with
      | PNone, PNone => Some Eq
      | PStr s, PStr t => Some (str_cmp s t)
      | PList l, PList m =>
          (fix go (l : list pyval) (m : list pyval) : option comparison :=
             match l, m with
             | [], [] => Some Eq
             | [], _ => Some Lt
             | _, [] => Some Gt
             | x :: l', y :: m' =>
                 match py_cmp x y with
                 | Some Eq => go l' m'
                 | r => r
                 end
             end) l m
      | PDict _, PDict _ => None
      | _, _ => Some (Z.compare (kind_rank a) (kind_rank b))
      end
  end.
Definition py_gt (a b : pyval) : bool :=
  match py_cmp a b with Some Gt => true | _ => false end.
(** [a == b], for values that are not both dictionaries *)
Definition py_eq (a b : pyval) : bool :=
  match py_cmp a b with Some Eq => true | _ => false end.
Definition py_le (a b : pyval) : bool :=
  match py_cmp a b with Some Lt | Some Eq => true | _ => false end.

(** Booleans on rationals *)
Definition Qlt_bool (a b : Q) : bool := negb (Qle_bool b a).

Lemma Qlt_bool_iff (a b : Q) : Qlt_bool a b = true <-> (a < b)%Q.
Proof.
  unfold Qlt_bool. rewrite negb_true_iff, <- not_true_iff_false, Qle_bool_iff.
  split; [apply Qnot_le_lt | apply Qlt_not_le].
Qed.

Lemma Qlt_bool_false (a b : Q) : Qlt_bool a b = false <-> (b <= a)%Q.
Proof. unfold Qlt_bool. by rewrite negb_false_iff, Qle_bool_iff. Qed.

(** A number is below every list and every string in the Python 2 order. *)
Lemma py_gt_num_list (v : pyval) (q : Q) (l : list pyval) :
  num_of v = Some q -> py_gt v (PList l) = false.
Proof. intros Hq; destruct v; simpl in Hq; simplify_eq; reflexivity. Qed.
Lemma py_le_str_num (v : pyval) (q : Q) (s : string) :
  num_of v = Some q -> py_le (PStr s) v = false.
Proof. intros Hq; destruct v; simpl in Hq; simplify_eq; reflexivity. Qed.

(** ** [str] of a float: twelve significant digits, as [%.12g], with [.0] added
    to a result that would read as an integer *)

Fixpoint zeros (n : nat) : string :=
  match n with O => EmptyString | S k => String "0" (zeros k) end.
Definition pad_left (width : nat) (s : string) : string :=
  zeros (width - String.length s) +:+ s.
Fixpoint rstrip_zeros (s : string) : string :=
  match s with
  | EmptyString => EmptyString
  | String a s' =>
      match rstrip_zeros s' with
      | EmptyString => if Ascii.eqb a "0" then EmptyString else String a EmptyString
      | r => String a r
      end
  end.
Fixpoint exp10_below (fuel : nat) (k : Z) (q : Q) : Z :=
  match fuel with
  | O => k
  | S n => if Qle_bool 1 (q * inject_Z (10 ^ k)) then k else exp10_below n (k + 1) q
  end.
Definition exp10 (q : Q) : Z :=
  if Qle_bool 1 q then Z.of_nat (String.length (str_of_Z (Qfloor q))) - 1
  else - exp10_below 400 1 q.
Definition round_half_even (q : Q) : Z :=
  let f := Qfloor q in
  match Qcompare (q - inject_Z f) (1 # 2) with
  | Lt => f
  | Gt => f + 1
  | Eq => if Z.even f then f else f + 1
  end.
Definition scale10 (e : Z) (q : Q) : Q :=
  (if 0 <=? e then q * inject_Z (10 ^ e) else q / inject_Z (10 ^ (- e)))%Q.
Definition str_of_posQ (q : Q) : string :=
  let e0 := exp10 q in
  let m0 := round_half_even (scale10 (11 - e0) q) in
  let '(e, m) := if m0 =? 10 ^ 12 then (e0 + 1, 10 ^ 11) else (e0, m0) in
  let ds := pad_left 12 (str_of_Z m) in
  let frac s := match rstrip_zeros s with EmptyString => "0" | r => r end in
  if (-5 <? e) && (e <? 12) then
    if 0 <=? e
    then String.substring 0 (Z.to_nat (e + 1)) ds +:+ "." +:+ frac (str_from (Z.to_nat (e + 1)) ds)
    else "0." +:+ zeros (Z.to_nat (- e - 1)) +:+ rstrip_zeros ds
  else
    String.substring 0 1 ds +:+
    match rstrip_zeros (str_from 1 ds) with EmptyString => EmptyString | r => "." +:+ r end +:+
    "e" +:+ (if e <? 0 then "-" else "+") +:+ pad_left 2 (str_of_Z (Z.abs e)).
Definition str_of_Q (q : Q) : string :=
  match Qcompare q 0 with
  | Eq => "0.0"
  | Lt => "-" +:+ str_of_posQ (- q)
  | Gt => str_of_posQ q
  end.

Example str_of_Q_ex1 : str_of_Q (3 # 8) = "0.375". Proof. reflexivity. Qed.
Example str_of_Q_ex2 : str_of_Q (2 # 3) = "0.666666666667". Proof. reflexivity. Qed.
Example str_of_Q_ex3 : str_of_Q 150 = "150.0". Proof. reflexivity. Qed.
Example str_of_Q_ex4 : str_of_Q (1 # 100000) = "1e-05". Proof. reflexivity. Qed.

(** [repr(s)] of a text of printable characters: single quotes, unless only those occur in it. *)
Fixpoint repr_body (q : ascii) (s : string) : string :=
  match s with
  | EmptyString => EmptyString
  | String a s' =>
      (if Ascii.eqb a "\" then "\\"
       else if Ascii.eqb a nl then "\n"
       else if Ascii.eqb a q then String "\" (String a EmptyString)
       else String a EmptyString) +:+ repr_body q s'
  end.
Definition squote : ascii := "'"%char.
Definition repr_str (s : string) : string :=
  let q := if str_in (String squote EmptyString) s && negb (str_in dqs s) then dquote else squote in
  String q (repr_body q s +:+ String q EmptyString).
Fixpoint py_repr (v : pyval) : string :=
  match v with
  | PNone => "None"
  | PBool b => if b then "True" else "False"
  | PInt z => str_of_Z z
  | PFloat q => str_of_Q q
  | PStr s => repr_str s
  | PList l => "[" +:+ str_join ", " (map py_repr l) +:+ "]"
  | PDict d => "{" +:+ str_join ", " (map (fun kv => repr_str kv.1 +:+ ": " +:+ py_repr kv.2) d) +:+ "}"
  end.
(** [str(v)], which is also what ["{0}".format(v)] inserts; inside a container a float is
    written with as many digits as [str] gives it *)
Definition py_str (v : pyval) : string := match v with PStr s => s | _ => py_repr v end.

Example py_str_ex : py_str (PList [PStr "a"; PInt 3; PNone; PBool true]) = "['a', 3, None, True]".
Proof. reflexivity. Qed.

(** ** Lists *)

(** [l.remove(x)]: the first occurrence; [None] when there is none. *)
Fixpoint py_remove (x : Z) (l : list Z) : option (list Z) :=
  match l with
  | [] => None
  | y :: l' => if x =? y then Some l' else cons y <$> py_remove x l'
  end.
Lemma py_remove_perm (x : Z) (l l' : list Z) : py_remove x l = Some l' -> l ≡ₚ x :: l'.
Proof.
  revert l'; induction l as [|y l IH]; intros l'; simpl; [done|].
  destruct (Z.eqb_spec x y) as [->|Hne]; [by intros [= ->]|].
  destruct (py_remove x l) as [m|]; simpl; [|done]. intros [= <-].
  rewrite (IH m eq_refl). apply Permutation_swap.
Qed.
Lemma py_remove_length (x : Z) (l l' : list Z) :
  py_remove x l = Some l' -> length l = S (length l').
Proof. intros H%py_remove_perm. by rewrite H. Qed.
Lemma py_remove_elem (x : Z) (l : list Z) : x ∈ l -> exists l', py_remove x l = Some l'.
Proof.
  induction l as [|y l IH]; [by intros ?%not_elem_of_nil|].
  intros [Hx|Hx]%elem_of_cons; simpl; destruct (x =? y) eqn:Heq; eauto; [lia|].
  destruct (IH Hx) as [m ->]. eauto.
Qed.

(** ** [json] *)
Module Json.

Definition escape_char (a : ascii) : string :=
  if Ascii.eqb a dquote then String "\" dqs
  else if Ascii.eqb a "\" then "\\"
  else if Ascii.eqb a nl then "\n"
  else String a EmptyString.
Fixpoint escape (s : string) : string :=
  match s with
  | EmptyString => EmptyString
  | String a s' => escape_char a +:+ escape s'
  end.
Definition quote (s : string) : string := dqs +:+ escape s +:+ dqs.

(** [json.dumps(v)] with the default separators *)
Fixpoint dumps (v : pyval) : string :=
  match v with
  | PNone => "null"
  | PBool b => if b then "true" else "false"
  | PInt z => str_of_Z z
  | PFloat q => str_of_Q q
  | PStr s => quote s
  | PList l => "[" +:+ str_join ", " (map dumps l) +:+ "]"
  | PDict d => "{" +:+ str_join ", " (map (fun kv => quote kv.1 +:+ ": " +:+ dumps kv.2) d) +:+ "}"
  end.

(** [json.loads(s)]: [None] stands for ValueError.  Each parser returns the rest
    of its input; the fuel of [value] is the length of the text, which bounds the
    nesting and the number of elements. *)
Fixpoint skip_ws (s : string) : string :=
  match s with
  | String a s' => if is_space a then skip_ws s' else s
  | EmptyString => EmptyString
  end.

Fixpoint take_digits (s : string) : string * string :=
  match s with
  | String a s' =>
      match digit_of a with
      | Some _ => let '(d, r) := take_digits s' in (String a d, r)
      | None => (EmptyString, s)
      end
  | EmptyString => (EmptyString, EmptyString)
  end.

Definition unescape (a : ascii) : option ascii :=
  if Ascii.eqb a "n" then Some nl
  else if Ascii.eqb a "t" then Some "009"%char
  else if Ascii.eqb a "r" then Some "013"%char
  else if Ascii.eqb a "b" then Some "008"%char
  else if Ascii.eqb a "f" then Some "012"%char
  else if Ascii.eqb a dquote || Ascii.eqb a "\" || Ascii.eqb a "/" then Some a
  else None.

(** The body of a string literal, after its opening quote. *)
Fixpoint string_body (s : string) : option (string * string) :=
  match s with
  | EmptyString => None
  | String a s' =>
      if Ascii.eqb a dquote then Some (EmptyString, s')
      else if Ascii.eqb a "\" then
        match s' with
        | EmptyString => None
        | String b s'' =>
            match unescape b, string_body s'' with
            | Some c, Some (w, r) => Some (String c w, r)
            | _, _ => None
            end
        end
      else match string_body s' with
           | Some (w, r) => Some (String a w, r)
           | None => None
           end
  end.

Definition exponent (s : string) : option (Z * string) :=
  match s with
  | String c s' =>
      if Ascii.eqb c "e" || Ascii.eqb c "E" then
        let '(sgn, s'') := match s' with
                           | String "-" r => (-1, r)
                           | String "+" r => (1, r)
                           | _ => (1, s')
                           end in
        let '(d, r) := take_digits s'' in
        match parse_digits d with Some n => Some (sgn * n, r) | None => None end
      else None
  | EmptyString => None
  end.

Definition number (s : string) : option (pyval * string) :=
  let '(sgn, s1) := match s with String "-" r => (-1, r) | _ => (1, s) end in
  let '(d, r) := take_digits s1 in
  match parse_digits d with
  | None => None
  | Some n =>
      let '(fd, r1) := match r with
                       | String "." r' => take_digits r'
                       | _ => (EmptyString, r)
                       end in
      let frac := default 0 (parse_digits fd) in
      let k := Z.of_nat (String.length fd) in
      let m := (inject_Z sgn * (inject_Z (n * 10 ^ k + frac) / inject_Z (10 ^ k)))%Q in
      match exponent r1 with
      | Some (e, r2) => Some (PFloat (Qred (scale10 e m)), r2)
      | None => if String.eqb fd EmptyString then Some (PInt (sgn * n), r1)
                else Some (PFloat (Qred m), r1)
      end
  end.

Definition lit (word : string) (v : pyval) (s : string) : option (pyval * string) :=
  if startswith word s then Some (v, str_from (String.length word) s) else None.

Fixpoint value (fuel : nat) (s : string) : option (pyval * string) :=
  match fuel with
  | O => None
  | S n =>
      let s := skip_ws s in
      match s with
      | EmptyString => None
      | String c r =>
          if Ascii.eqb c dquote then
            match string_body r with Some (w, r') => Some (PStr w, r') | None => None end
          else if Ascii.eqb c "[" then
            match skip_ws r with
            | String "]" r' => Some (PList [], r')
            | _ => match elements n r with Some (l, r') => Some (PList l, r') | None => None end
            end
          else if Ascii.eqb c "{" then
            match skip_ws r with
            | String "}" r' => Some (PDict [], r')
            | _ => match members n r with Some (d, r') => Some (PDict d, r') | None => None end
            end
          else if Ascii.eqb c "n" then lit "null" PNone s
          else if Ascii.eqb c "t" then lit "true" (PBool true) s
          else if Ascii.eqb c "f" then lit "false" (PBool false) s
          else number s
      end
  end
with elements (fuel : nat) (s : string) : option (list pyval * string) :=
  match fuel with
  | O => None
  | S n =>
      match value n s with
      | None => None
      | Some (v, r) =>
          match skip_ws r with
          | String "," r' =>
              match elements n r' with Some (l, r'') => Some (v :: l, r'') | None => None end
          | String "]" r' => Some ([v], r')
          | _ => None
          end
      end
  end
with members (fuel : nat) (s : string) : option (dict * string) :=
  match fuel with
  | O => None
  | S n =>
      match skip_ws s with
      | String c r =>
          if Ascii.eqb c dquote then
            match string_body r with
            | None => None
            | Some (k, r1) =>
                match skip_ws r1 with
                | String ":" r2 =>
                    match value n r2 with
                    | None => None
                    | Some (v, r3) =>
                        match skip_ws r3 with
                        | String "," r4 =>
                            match members n r4 with
                            | Some (d, r5) => Some ((k, v) :: d, r5)
                            | None => None
                            end
                        | String "}" r4 => Some ([(k, v)], r4)
                        | _ => None
                        end
                    end
                | _ => None
                end
            end
          else None
      | EmptyString => None
      end
  end.

Definition loads (s : string) : option pyval :=
  match value (S (S (String.length s))) s with
  | Some (v, r) => if String.eqb (skip_ws r) EmptyString then Some v else None
  | None => None
  end.

Definition sample_doc : pyval :=
  PDict [("pgid", PStr "1.0"); ("acting", PList [PInt 2; PInt (-1)]);
         ("up", PBool true); ("x", PNone); ("r", PFloat (5 # 2)); ("n", PDict [])].
Example loads_dumps_sample : loads (dumps sample_doc) = Some sample_doc.
Proof. vm_compute. reflexivity. Qed.

End Json.
