(* ===== verification/World.v ===== *)
(** * The world of a task: environment, exceptions, monad, random choices

    A task talks to machines, daemons, consoles and the clock through teuthology;
    none of that code is part of the sources, so it is the parameter [Env].  Every
    interaction is an [event]; the environment answers it with a [reply] and moves
    to its next state, and the monad [M] records it in the trace.  [M S A] is a
    Python method on an object with fields [S] that returns an [A]: it threads the
    object and the world, and ends in a value, an exception, or [Stuck] when a
    loop ran out of fuel. *)
From Stdlib Require Import QArith Qround Lqa Permutation.
From S2P Require Import Prelude PyVal.

(** ** Exceptions and outcomes *)

Inductive exn : Type :=
| CommandFailedError (status : Z)
| AssertionError (msg : string)
| IndexError
| KeyError (key : string)
| TypeError (msg : string)
| ValueError (msg : string)
| AttributeError (msg : string)
| RuntimeError (msg : string)
| ObjectNotFound (name : string)
| MaxWhileTries
| SkipTest (reason : string)
| PyException (msg : string)
| OtherError (msg : string).

Inductive outcome (A : Type) : Type :=
| Ret (a : A)
| Exc (e : exn)
| Stuck.
Arguments Ret {A} a.
Arguments Exc {A} e.
Arguments Stuck {A}.

Definition is_ret {A} (o : outcome A) : Prop := match o with Ret _ => True | _ => False end.
Definition is_exc {A} (o : outcome A) : Prop := match o with Exc _ => True | _ => False end.

(** ** The environment *)

Abbreviation remote := string (only parsing).

Inductive daemon_op :=
| DStop | DRestart (args : list string) | DReset | DWait | DSignal (sig : Z)
| DWaitFor (timeout : Z)                             (* .wait(timeout) *)
| DWaitForExit                                       (* .wait_for_exit() *)
| DExtendArgs (args : list string)                   (* .command_kwargs['args'].extend(args) *)
| DAdd (r : string) (args : list string).            (* ctx.daemons.add_daemon(r, ..., args=args) *)
(** What is done to a process started with [wait=False]. *)
Inductive proc_op :=
| PStart | PWait | PReadline | PWrite (data : string) | PCloseStdin
| PPoll                                              (* .poll(): 0 while it runs *)
| PFinished                                          (* .finished *)
| PGetValue.                                         (* .stdout.getvalue() *)
Inductive file_op := FGet | FWrite (data : string) | FDelete (sudo : bool).
Inductive console_op := PowerOff | PowerOn | CheckStatus (timeout : option Z).

Inductive event : Type :=
| EvRun (r : remote) (args : list string)            (* remote.run(args=...) *)
| EvDaemon (op : daemon_op) (role id cluster : string) (* ctx.daemons.get_daemon(...).op() *)
| EvConsole (op : console_op) (r : remote)           (* remote.console.op() *)
| EvReconnect (r : remote) (timeout : Z)             (* teuthology.reconnect *)
| EvTransfer (src dst : remote) (path : string)      (* Remote.get_file then put_file *)
| EvProceed (sleep tries : Z) (action : string)      (* one call of safe_while's proceed() *)
| EvSleep (d : Q)                                    (* time.sleep / gevent.sleep *)
| EvWait (d : Q)                                     (* gevent.event.Event.wait(d) *)
| EvSpawn (name : string)                            (* gevent.spawn *)
| EvJoin (name : string)                             (* greenlet.get() / .join() *)
| EvStopping                                         (* a read of self.stopping *)
| EvProc (op : proc_op) (pid : nat) (r : remote) (args : list string)
| EvFile (op : file_op) (r : remote) (path : string)  (* teuthology.get_file and the like *)
| EvCall (f : string) (args : list string).          (* another function that is not in the sources *)

Record reply := Reply
  { exitstatus : Z; stdout : string; stderr : string; raised : option exn }.
Definition ok_reply (out : string) : reply := Reply 0 out EmptyString None.

(** What the tasks use of code outside the sources: how the environment answers
    an event, the clock it shows, the [random.random()] draws, the daemons that
    exist, and a few pure teuthology helpers. *)
Class Env := {
  cstate : Type;
  respond : event -> cstate -> reply * cstate;
  now : cstate -> Q;
  draw : nat -> Q;
  daemons_of : string -> string -> cstate -> list (Z * bool);  (* id_, running() *)
  has_ipmi_credentials : remote -> bool;
  split_role : string -> string * string * string;  (* misc.split_role *)
  is_type : string -> string -> string -> bool       (* misc.is_type(type, cluster)(role) *)
}.

(** Documented behaviour the timing and randomness theorems rely on. *)
Class EnvLaws (E : Env) : Prop := {
  draw_range : forall n, (0 <= draw n)%Q /\ (draw n < 1)%Q;
  clock_mono : forall ev c, (now c <= now (respond ev c).2)%Q;
  sleep_passes : forall d c, (now c + d <= now (respond (EvSleep d) c).2)%Q
}.

(** The number of iterations a [while] loop of the model may take. *)
Class Fuel := fuel : nat.

Section WithEnv.
Context {E : Env}.

Record world := World { w_env : cstate; w_draws : nat; w_trace : list event }.

(** ** The monad *)

Definition M (S A : Type) : Type := S -> world -> outcome A * S * world.

Definition ret {S A} (a : A) : M S A := fun s w => (Ret a, s, w).
Definition raise {S A} (e : exn) : M S A := fun s w => (Exc e, s, w).
Definition stuck {S A} : M S A := fun s w => (Stuck, s, w).
Definition bind {S A B} (m : M S A) (k : A -> M S B) : M S B :=
  fun s w =>
    match m s w with
    | (Ret a, s', w') => k a s' w'
    | (Exc e, s', w') => (Exc e, s', w')
    | (Stuck, s', w') => (Stuck, s', w')
    end.
Definition get {S} : M S S := fun s w => (Ret s, s, w).
Definition gets {S A} (f : S -> A) : M S A := fun s w => (Ret (f s), s, w).
Definition modify {S} (f : S -> S) : M S unit := fun s w => (Ret tt, f s, w).

(** [try: m except ...: h e], where [h] re-raises what it does not handle. *)
Definition catch {S A} (m : M S A) (h : exn -> M S A) : M S A :=
  fun s w =>
    match m s w with
    | (Exc e, s', w') => h e s' w'
    | r => r
    end.
(** [try: m finally: f]: an exception of [f] replaces the outcome of [m]. *)
Definition finally {S A} (m : M S A) (f : M S unit) : M S A :=
  fun s w =>
    match m s w with
    | (Stuck, s', w') => (Stuck, s', w')
    | (o, s', w') =>
        match f s' w' with
        | (Ret _, s'', w'') => (o, s'', w'')
        | (Exc e, s'', w'') => (Exc e, s'', w'')
        | (Stuck, s'', w'') => (Stuck, s'', w'')
        end
    end.

(** A method of an object held in a field, called from its owner. *)
Definition zoom {S T A} (view : S -> T) (put : T -> S -> S) (m : M T A) : M S A :=
  fun s w => match m (view s) w with (o, t, w') => (o, put t s, w') end.

(** A method of an object made for the occasion: its result and the object. *)
Definition fresh {S T A} (t0 : T) (m : M T A) : M S (A * T) :=
  fun s w =>
    match m t0 w with
    | (Ret a, t, w') => (Ret (a, t), s, w')
    | (Exc e, _, w') => (Exc e, s, w')
    | (Stuck, _, w') => (Stuck, s, w')
    end.

(** One interaction with the environment. *)
Definition emit {S} (ev : event) : M S reply :=
  fun s w =>
    let '(r, c) := respond ev (w_env w) in
    let w' := World c (w_draws w) (w_trace w ++ [ev]) in
    match raised r with
    | Some e => (Exc e, s, w')
    | None => (Ret r, s, w')
    end.
Definition time {S} : M S Q := fun s w => (Ret (now (w_env w)), s, w).
Definition observe {S A} (f : cstate -> A) : M S A := fun s w => (Ret (f (w_env w)), s, w).

End WithEnv.

Declare Scope py_scope.
Delimit Scope py_scope with py.
Bind Scope py_scope with M.
Notation "x <- m ;; k" := (bind m (fun x => k))
  (at level 100, m at next level, k at level 200, right associativity) : py_scope.
Notation "m ;; k" := (bind m (fun _ => k))
  (at level 100, k at level 200, right associativity) : py_scope.
#[global] Open Scope py_scope.

Section Control.
Context {E : Env}.

(** [assert b, msg] *)
Definition assert_ {S} (b : bool) (msg : string) : M S unit :=
  if b then ret tt else raise (AssertionError msg).
Definition when {S} (b : bool) (m : M S unit) : M S unit := if b then m else ret tt.
Definition of_option {S A} (e : exn) (o : option A) : M S A :=
  match o with Some a => ret a | None => raise e end.

(** [for x in l: body x] *)
Fixpoint for_ {S A} (l : list A) (body : A -> M S unit) : M S unit :=
  match l with
  | [] => ret tt
  | x :: l' => body x ;; for_ l' body
  end.

(** [for x in l: body x] with a [return] or [break] in it: [body] gives [Some r] to leave
    the loop with [r]. *)
Fixpoint for_return {S A R} (l : list A) (body : A -> M S (option R)) : M S (option R) :=
  match l with
  | [] => ret None
  | x :: l' =>
      r <- body x ;;
      match r with Some _ => ret r | None => for_return l' body end
  end.

(** [while cond(): body], with the loop's local variables as [L]. *)
Fixpoint while {S L} (n : nat) (cond : L -> M S bool) (body : L -> M S L) (l : L) : M S L :=
  match n with
  | O => stuck
  | Datatypes.S k =>
      b <- cond l ;;
      if b : bool then l' <- body l ;; while k cond body l' else ret l
  end.

(** [while True: body], where [body] returns [inr] to leave the loop. *)
Fixpoint loop {S L R} (n : nat) (body : L -> M S (L + R)) (l : L) : M S R :=
  match n with
  | O => stuck
  | Datatypes.S k =>
      x <- body l ;;
      match x with inl l' => loop k body l' | inr r => ret r end
  end.

(** ** Python's [random] module over the environment's draws *)

Definition random {S} : M S Q :=
  fun s w => (Ret (draw (w_draws w)), s, World (w_env w) (Datatypes.S (w_draws w)) (w_trace w)).
(** [random.choice(l)] is [l[int(random() * len(l))]]. *)
Definition index_of_draw (r : Q) (n : nat) : nat := Z.to_nat (Qfloor (r * inject_Z (Z.of_nat n))).
Definition choice {S A} (l : list A) : M S A :=
  r <- random ;; of_option IndexError (l !! index_of_draw r (length l)).
(** [random.uniform(a, b)] *)
Definition uniform {S} (a b : Q) : M S Q := r <- random ;; ret (a + (b - a) * r)%Q.
(** [random.randrange(a, b)] *)
Definition randrange {S} (a b : Z) : M S Z :=
  if (a <? b) then r <- random ;; ret (a + Qfloor (r * inject_Z (b - a)))
  else raise (ValueError "empty range for randrange()").
(** [random.randrange] on floats: both ends must be integral. *)
Definition randrange_float {S} (a b : Q) : M S Z :=
  if Qeq_bool (inject_Z (Qfloor a)) a then
    if Qeq_bool (inject_Z (Qfloor b)) b then randrange (Qfloor a) (Qfloor b)
    else raise (ValueError "non-integer stop for randrange()")
  else raise (ValueError "non-integer arg 1 for randrange()").
(** [random.sample(l, k)] by repeated selection from the remaining pool: each
    round takes the drawn position and moves the last remaining element there. *)
Fixpoint sample_go {S A} (k : nat) (pool : list A) : M S (list A) :=
  match k with
  | O => ret []
  | Datatypes.S k' =>
      r <- random ;;
      let j := index_of_draw r (length pool) in
      x <- of_option IndexError (pool !! j) ;;
      y <- of_option IndexError (last pool) ;;
      xs <- sample_go k' (removelast (<[j := y]> pool)) ;;
      ret (x :: xs)
  end.
Definition sample {S A} (l : list A) (k : Z) : M S (list A) :=
  if (0 <=? k) && (k <=? Z.of_nat (length l)) then sample_go (Z.to_nat k) l
  else raise (ValueError "sample larger than population").

(** ** Values read from dictionaries, with Python's errors *)

(** [v[k]] for a string key *)
Definition subscript {S} (v : pyval) (k : string) : M S pyval :=
  match v with
  | PDict d => of_option (KeyError k) (dict_lookup k d)
  | PList _ => raise (TypeError "list indices must be integers, not str")
  | _ => raise (TypeError "object has no attribute '__getitem__'")
  end.
Definition as_list {S} (v : pyval) : M S (list pyval) :=
  match v with
  | PList l => ret l
  | _ => raise (TypeError "object is not iterable")
  end.
Definition as_dict {S} (v : pyval) : M S dict :=
  match v with
  | PDict d => ret d
  | _ => raise (AttributeError "object has no attribute 'get'")
  end.
Definition as_str {S} (v : pyval) : M S string :=
  match v with
  | PStr s => ret s
  | _ => raise (AttributeError "object is not a string")
  end.
Definition as_num {S} (v : pyval) : M S Q := of_option (TypeError "a number is required") (num_of v).
(** [int(v)] *)
Definition as_int {S} (v : pyval) : M S Z :=
  match v with
  | PBool b => ret (if b then 1 else 0)
  | PInt z => ret z
  | PFloat q => ret (if Qle_bool 0 q then Qfloor q else Qceiling q)
  | PStr s => of_option (ValueError "invalid literal for int()") (py_int s)
  | _ => raise (TypeError "int() argument must be a string or a number")
  end.
(** [float(v)] *)
Definition float_ {S} (v : pyval) : M S Q :=
  match v with
  | PStr s =>
      match Json.number (str_strip s) with
      | Some (n, EmptyString) => as_num n
      | _ => raise (ValueError "could not convert string to float")
      end
  | _ => as_num v
  end.
(** [len(v)] *)
Definition len_ {S} (v : pyval) : M S Z :=
  match v with
  | PStr s => ret (Z.of_nat (String.length s))
  | PList l => ret (Z.of_nat (length l))
  | PDict d => ret (Z.of_nat (length d))
  | _ => raise (TypeError "object has no len()")
  end.
(** [v == s] and [v == z] *)
Definition eq_str (v : pyval) (s : string) : bool :=
  match v with PStr t => String.eqb t s | _ => false end.
Definition eq_int (v : pyval) (z : Z) : bool :=
  match num_of v with Some q => Qeq_bool q (inject_Z z) | None => false end.
(** [a / b] on floats *)
Definition div_ {S} (a b : Q) : M S Q :=
  if Qeq_bool b 0 then raise (OtherError "ZeroDivisionError") else ret (a / b)%Q.
(** [json.loads(s)] *)
Definition json_loads {S} (s : string) : M S pyval :=
  of_option (ValueError "No JSON object could be decoded") (Json.loads s).

(** ** Interactions *)

(** [remote.run(args=args, check_status=chk)] *)
Definition run {S} (r : remote) (args : list string) (check_status : bool) : M S reply :=
  p <- emit (EvRun r args) ;;
  if check_status && negb (exitstatus p =? 0) then raise (CommandFailedError (exitstatus p))
  else ret p.
(** [remote.run(args=args, wait=False)]: the handle of a process is the position of its
    start among the events, so that two processes never share one. *)
Record proc := Proc { pid : nat; p_remote : remote; p_args : list string }.
Definition start {S} (r : remote) (args : list string) : M S proc :=
  fun s w =>
    let h := Proc (length (w_trace w)) r args in
    (emit (EvProc PStart (pid h) r args) ;; ret h) s w.
Definition on_proc {S} (op : proc_op) (h : proc) : M S reply := emit (EvProc op (pid h) (p_remote h) (p_args h)).
(** [proc.wait()]: the status of a process started with [check_status] is checked here. *)
Definition wait_proc {S} (h : proc) (check_status : bool) : M S reply :=
  p <- on_proc PWait h ;;
  if check_status && negb (exitstatus p =? 0) then raise (CommandFailedError (exitstatus p))
  else ret p.
Definition file {S} (op : file_op) (r : remote) (path : string) : M S string :=
  p <- emit (EvFile op r path) ;; ret (stdout p).
(** A function outside the sources, called for its effect: what it gives back is [stdout]. *)
Definition call {S} (f : string) (args : list string) : M S string := p <- emit (EvCall f args) ;; ret (stdout p).
Definition sleep {S} (d : Q) : M S unit := emit (EvSleep d) ;; ret tt.
Definition daemon {S} (op : daemon_op) (role id cluster : string) : M S unit :=
  emit (EvDaemon op role id cluster) ;; ret tt.
(** A boolean answer is carried by [exitstatus]: non-zero is [True]. *)
Definition ask {S} (ev : event) : M S bool := p <- emit ev ;; ret (negb (exitstatus p =? 0)).
(** [self.stopping], which another greenlet may have set *)
Definition stopping {S} : M S bool := ask EvStopping.

(** Monadic [map] and [filter] over a list, as comprehensions evaluate. *)
Fixpoint map_ {S A B} (f : A -> M S B) (l : list A) : M S (list B) :=
  match l with
  | [] => ret []
  | x :: l' => y <- f x ;; ys <- map_ f l' ;; ret (y :: ys)
  end.

(** [for x in l: b = f(b, x)], the loop's variables as [b] *)
Fixpoint fold_ {S A B} (f : B -> A -> M S B) (l : list A) (b : B) : M S B :=
  match l with
  | [] => ret b
  | x :: l' => b' <- f b x ;; fold_ f l' b'
  end.

End Control.

(** ** Weakest preconditions

    [wp m Q s w] holds when every outcome of [m] from [s] and [w] satisfies [Q]. *)
Section Logic.
Context {E : Env}.

Definition post (S A : Type) : Type := outcome A -> S -> world -> Prop.
Definition wp {S A} (m : M S A) (Q : post S A) (s : S) (w : world) : Prop :=
  match m s w with (o, s', w') => Q o s' w' end.

(** The postcondition with the run it is about *)
Lemma wp_with_eq {S A} (m : M S A) (Q : post S A) s w :
  wp m Q s w -> wp m (fun o s' w' => m s w = (o, s', w') /\ Q o s' w') s w.
Proof. unfold wp. by destruct (m s w) as [[o s'] w']. Qed.

(** The postcondition of a continuation: [K] on a value, [Q] on an early end. *)
Definition then_ {S A B} (K : A -> S -> world -> Prop) (Q : post S B) : post S A :=
  fun o s w => match o with
               | Ret a => K a s w
               | Exc e => Q (Exc e) s w
               | Stuck => Q Stuck s w
               end.

Lemma wp_conseq {S A} (m : M S A) (P Q : post S A) s w :
  wp m P s w -> (forall o s' w', P o s' w' -> Q o s' w') -> wp m Q s w.
Proof. unfold wp. destruct (m s w) as [[o s'] w']. auto. Qed.

Lemma wp_and {S A} (m : M S A) (P Q : post S A) s w :
  wp m P s w -> wp m Q s w -> wp m (fun o s w => P o s w /\ Q o s w) s w.
Proof. unfold wp. destruct (m s w) as [[o s'] w']. auto. Qed.

Lemma wp_ret {S A} (a : A) (Q : post S A) s w : Q (Ret a) s w -> wp (ret a) Q s w.
Proof. done. Qed.
Lemma wp_raise {S A} e (Q : post S A) s w : Q (Exc e) s w -> wp (raise e) Q s w.
Proof. done. Qed.
Lemma wp_bind {S A B} (m : M S A) (k : A -> M S B) (Q : post S B) s w :
  wp m (then_ (fun a => wp (k a) Q) Q) s w -> wp (bind m k) Q s w.
Proof. unfold wp, bind, then_. destruct (m s w) as [[[a|e|] s'] w']; auto. Qed.
(** Nothing is known of the first step: the rest establishes the postcondition. *)
Lemma wp_bind_any {S A B} (m : M S A) (k : A -> M S B) (Q : post S B) s w :
  (forall a s w, wp (k a) Q s w) -> (forall e s w, Q (Exc e) s w) -> (forall s w, Q Stuck s w) ->
  wp (bind m k) Q s w.
Proof. intros Hk He Hs. apply wp_bind. unfold wp at 1. destruct (m s w) as [[[a|e|] s'] w']; unfold then_; [apply Hk|apply He|apply Hs]. Qed.
Lemma wp_gets {S A} (f : S -> A) (Q : post S A) s w : Q (Ret (f s)) s w -> wp (gets f) Q s w.
Proof. done. Qed.
Lemma wp_get {S} (Q : post S S) s w : Q (Ret s) s w -> wp get Q s w.
Proof. done. Qed.
Lemma wp_modify {S} (f : S -> S) (Q : post S unit) s w : Q (Ret tt) (f s) w -> wp (modify f) Q s w.
Proof. done. Qed.
Lemma wp_time {S} (Q : post S QArith_base.Q) s w : Q (Ret (now (w_env w))) s w -> wp time Q s w.
Proof. done. Qed.
Lemma wp_random {S} (Q : post S QArith_base.Q) s w :
  Q (Ret (draw (w_draws w))) s (World (w_env w) (Datatypes.S (w_draws w)) (w_trace w)) -> wp random Q s w.
Proof. done. Qed.
Lemma wp_of_option {S A} e (o : option A) (Q : post S A) s w :
  (forall a, o = Some a -> Q (Ret a) s w) -> (o = None -> Q (Exc e) s w) -> wp (of_option e o) Q s w.
Proof. destruct o; unfold wp, of_option, ret, raise; auto. Qed.
Lemma wp_catch {S A} (m : M S A) h (Q : post S A) s w :
  wp m (fun o s' w' => match o with Exc e => wp (h e) Q s' w' | o => Q o s' w' end) s w ->
  wp (catch m h) Q s w.
Proof. unfold wp, catch. destruct (m s w) as [[[a|e|] s'] w']; auto. Qed.
Lemma wp_finally {S A} (m : M S A) (f : M S unit) (Q : post S A) s w :
  wp m (fun o s1 w1 =>
    match o with
    | Stuck => Q Stuck s1 w1
    | _ => wp f (fun o' s2 w2 => match o' with Ret _ => Q o s2 w2 | Exc e => Q (Exc e) s2 w2 | Stuck => Q Stuck s2 w2 end)
             s1 w1
    end) s w ->
  wp (finally m f) Q s w.
Proof.
  unfold wp, finally. destruct (m s w) as [[[a|e|] s1] w1]; [..|done];
    destruct (f s1 w1) as [[[]?]?]; auto.
Qed.

Lemma wp_emit {S} ev (Q : post S reply) s w :
  (forall r c, respond ev (w_env w) = (r, c) ->
     match raised r with
     | None => Q (Ret r) s (World c (w_draws w) (w_trace w ++ [ev]))
     | Some e => Q (Exc e) s (World c (w_draws w) (w_trace w ++ [ev]))
     end) -> wp (emit ev) Q s w.
Proof.
  intros H. unfold wp, emit. destruct (respond ev (w_env w)) as [r c]. specialize (H r c eq_refl).
  by destruct (raised r).
Qed.

Lemma wp_for {S A} (I : S -> world -> Prop) (Q : post S unit) (l : list A) body s w :
  (forall x s w, x ∈ l -> I s w -> wp (body x) (then_ (fun _ => I) Q) s w) ->
  (forall s w, I s w -> Q (Ret tt) s w) ->
  I s w -> wp (for_ l body) Q s w.
Proof.
  revert s w; induction l as [|x l IH]; intros s w Hbody HQ HI; simpl.
  - by apply wp_ret, HQ.
  - apply wp_bind. eapply wp_conseq; [apply Hbody; [set_solver|done]|].
    intros [a|e|] s' w'; simpl; auto. intros HI'. apply IH; auto. set_solver.
Qed.

(** The same with an invariant indexed by the elements still to come. *)
Lemma wp_for_rest {S A} (I : list A -> S -> world -> Prop) (Q : post S unit) (l : list A) body s w :
  (forall x l s w, I (x :: l) s w -> wp (body x) (then_ (fun _ => I l) Q) s w) ->
  (forall s w, I [] s w -> Q (Ret tt) s w) ->
  I l s w -> wp (for_ l body) Q s w.
Proof.
  intros Hbody HQ. revert s w; induction l as [|x l IH]; intros s w HI; simpl; [by apply wp_ret, HQ|].
  apply wp_bind. eapply wp_conseq; [by apply Hbody|]. intros [a|e|] s' w'; simpl; auto.
Qed.

(** The rule of [while]: an invariant indexed by the remaining fuel. *)
Lemma wp_while {S L} (I : L -> S -> world -> Prop) (Q : post S L) cond body :
  (forall l s w, I l s w ->
     wp (cond l) (then_ (fun b s w =>
       if b : bool then wp (body l) (then_ I Q) s w else Q (Ret l) s w) Q) s w) ->
  (forall l s w, I l s w -> Q Stuck s w) ->
  forall n l s w, I l s w -> wp (while n cond body l) Q s w.
Proof.
  intros Hstep Hstuck n; induction n as [|n IH]; intros l s w HI; simpl.
  - by eapply Hstuck.
  - apply wp_bind. eapply wp_conseq; [by apply Hstep|].
    intros [b|e|] s' w'; simpl; auto. destruct b; [|by intros; apply wp_ret].
    intros Hb. apply wp_bind. eapply wp_conseq; [exact Hb|].
    intros [l'|e|] s'' w''; simpl; auto.
Qed.

(** A terminating [while]: a variant [v] bounds the iterations still to come. *)
Lemma wp_while_total {S L} (v : L -> S -> world -> nat) (I : L -> S -> world -> Prop)
  (Q : post S L) cond body :
  (forall l s w, I l s w ->
     wp (cond l) (then_ (fun b s1 w1 =>
       if b : bool
       then wp (body l) (then_ (fun l' s2 w2 => I l' s2 w2 /\ (v l' s2 w2 < v l s w)%nat) Q) s1 w1
       else Q (Ret l) s1 w1) Q) s w) ->
  forall n l s w, I l s w -> (v l s w < n)%nat -> wp (while n cond body l) Q s w.
Proof.
  intros Hstep n; induction n as [|n IH]; intros l s w HI Hn; simpl; [lia|].
  apply wp_bind. eapply wp_conseq; [by apply Hstep|].
  intros [b|e|] s' w'; simpl; auto. destruct b; [|by intros; apply wp_ret].
  intros Hb. apply wp_bind. eapply wp_conseq; [exact Hb|].
  intros [l'|e|] s'' w''; simpl; auto. intros [HI' Hv]. apply IH; [done|lia].
Qed.

Lemma wp_loop_total {S L R} (v : L -> S -> world -> nat) (I : L -> S -> world -> Prop)
  (Q : post S R) (body : L -> M S (L + R)) :
  (forall l s w, I l s w ->
     wp (body l) (then_ (fun x s2 w2 =>
       match x with
       | inl l' => I l' s2 w2 /\ (v l' s2 w2 < v l s w)%nat
       | inr r => Q (Ret r) s2 w2
       end) Q) s w) ->
  forall n l s w, I l s w -> (v l s w < n)%nat -> wp (loop n body l) Q s w.
Proof.
  intros Hstep n; induction n as [|n IH]; intros l s w HI Hn; simpl; [lia|].
  apply wp_bind. eapply wp_conseq; [by apply Hstep|].
  intros [[l'|r]|e|] s' w'; simpl; auto. intros [HI' Hv]. apply IH; [done|lia].
Qed.

Lemma wp_loop {S L R} (I : L -> S -> world -> Prop) (Q : post S R) (body : L -> M S (L + R)) :
  (forall l s w, I l s w ->
     wp (body l) (then_ (fun x s2 w2 =>
       match x with inl l' => I l' s2 w2 | inr r => Q (Ret r) s2 w2 end) Q) s w) ->
  (forall l s w, I l s w -> Q Stuck s w) ->
  forall n l s w, I l s w -> wp (loop n body l) Q s w.
Proof.
  intros Hstep Hstuck n; induction n as [|n IH]; intros l s w HI; simpl; [by eapply Hstuck|].
  apply wp_bind. eapply wp_conseq; [by apply Hstep|].
  intros [[l'|r]|e|] s' w'; simpl; auto.
Qed.

End Logic.

(** Commands run so far *)
Definition is_run (ev : event) : bool := match ev with EvRun _ _ => true | _ => false end.
Definition count_run (l : list event) : nat := length (List.filter is_run l).

Section Effects.
Context {E : Env}.
Definition runs_made (w : world) : nat := count_run (w_trace w).
(** The world after [ev] was answered with [r] in the new environment state [c]. *)
Definition after (ev : event) (c : cstate) (w : world) : world :=
  World c (w_draws w) (w_trace w ++ [ev]).
Lemma runs_made_after ev c w :
  runs_made (after ev c w) = (runs_made w + if is_run ev then 1 else 0)%nat.
Proof.
  unfold runs_made, count_run, after. cbn [w_trace]. rewrite List.filter_app, length_app. simpl.
  by destruct (is_run ev).
Qed.

Lemma wp_run_args {S} r args chk (Q : post S reply) s w :
  (forall p c, respond (EvRun r args) (w_env w) = (p, c) -> forall w', w' = after (EvRun r args) c w ->
     runs_made w' = Datatypes.S (runs_made w) ->
     match raised p with
     | Some e => Q (Exc e) s w'
     | None => if chk && negb (exitstatus p =? 0) then Q (Exc (CommandFailedError (exitstatus p))) s w'
               else Q (Ret p) s w'
     end) -> wp (run r args chk) Q s w.
Proof.
  intros H. unfold run. apply wp_bind, wp_emit. intros p c Hr.
  specialize (H p c Hr _ eq_refl ltac:(rewrite runs_made_after; simpl; lia)).
  destruct (raised p); [exact H|]. cbn. by destruct (chk && _).
Qed.
Lemma wp_sleep {S} d (Q : post S unit) s w :
  (forall r c, respond (EvSleep d) (w_env w) = (r, c) -> forall w', w' = after (EvSleep d) c w ->
     runs_made w' = runs_made w ->
     match raised r with Some e => Q (Exc e) s w' | None => Q (Ret tt) s w' end) ->
  wp (sleep d) Q s w.
Proof.
  intros H. unfold sleep. apply wp_bind, wp_emit. intros p c Hr.
  specialize (H p c Hr _ eq_refl ltac:(rewrite runs_made_after; simpl; lia)).
  by destruct (raised p).
Qed.
End Effects.

(** A loop that returns saw its condition fail last. *)
Lemma while_ret {E : Env} {S L} n (cond : L -> M S bool) body l l' s w s' w' :
  while n cond body l s w = (Ret l', s', w') -> exists s0 w0, cond l' s0 w0 = (Ret false, s', w').
Proof.
  revert l s w; induction n as [|n IH]; intros l s w; simpl; [done|].
  unfold bind at 1. destruct (cond l s w) as [[[b|e|] s1] w1] eqn:Hc; [|done..].
  destruct b; [|intros [= <- <- <-]; eauto].
  unfold bind. destruct (body l s1 w1) as [[[l1|e|] s2] w2]; [|done..]. apply IH.
Qed.
Lemma bind_run {E : Env} {S A B} (m : M S A) (k : A -> M S B) s w a s1 w1 :
  m s w = (Ret a, s1, w1) -> bind m k s w = k a s1 w1.
Proof. unfold bind. by intros ->. Qed.
Lemma bind_ret_inv {E : Env} {S A B} (m : M S A) (k : A -> M S B) b s w s' w' :
  bind m k s w = (Ret b, s', w') ->
  exists a s1 w1, m s w = (Ret a, s1, w1) /\ k a s1 w1 = (Ret b, s', w').
Proof. unfold bind. destruct (m s w) as [[[a|e|] s1] w1]; [eauto|done..]. Qed.

Arguments wp : simpl never.
Arguments then_ : simpl never.

(** [wp_step] runs one operation of a [wp] goal forward; a case distinction in the
    program splits the goal. *)
Ltac wp_step :=
  match goal with
  | |- wp (bind _ _) _ _ _ => apply wp_bind
  | |- wp (ret _) _ _ _ => apply wp_ret
  | |- wp (raise _) _ _ _ => apply wp_raise
  | |- wp get _ _ _ => apply wp_get
  | |- wp (gets _) _ _ _ => apply wp_gets
  | |- wp (modify _) _ _ _ => apply wp_modify
  | |- wp time _ _ _ => apply wp_time
  | |- wp random _ _ _ => apply wp_random
  | |- wp (assert_ _ _) _ _ _ => unfold assert_
  | |- wp (when _ _) _ _ _ => unfold when
  | |- wp (of_option _ _) _ _ _ => unfold of_option
  | |- wp (match _ with _ => _ end) _ _ _ => case_match
  | |- then_ _ _ (Ret _) _ _ => unfold then_
  | |- then_ _ _ (Exc _) _ _ => unfold then_
  | |- then_ _ _ Stuck _ _ => unfold then_
  end; cbv beta iota.
Ltac wp_run := repeat wp_step.

(** ** What a method does, whatever its outcome

    [Runs total R m]: every run of [m] relates the object and the world before and
    after by [R], whether it returns or raises; with [total] it also never runs out
    of fuel.  For a preorder [R] that a single draw respects ([WorldRel]) this is
    compositional, so the rules below follow the shape of a method; [EmitOk] says
    which interactions [R] allows. *)
Class Runs {E : Env} {S A} (total : bool) (R : relation (S * world)) (m : M S A) : Prop :=
  runs : forall s w, wp m (fun o s' w' => R (s, w) (s', w') /\ (total = true -> o <> Stuck)) s w.

Class WorldRel {E : Env} {S} (R : relation (S * world)) : Prop := {
  world_rel_preorder :: PreOrder R;
  draw_ok : forall s w, R (s, w) (s, World (w_env w) (Datatypes.S (w_draws w)) (w_trace w))
}.

Class EmitOk {E : Env} {S} (R : relation (S * world)) (ev : event) : Prop :=
  emit_ok : forall s w, R (s, w) (s, after ev (respond ev (w_env w)).2 w).

(** A relation on the object alone; no relation; time passing; the events of the
    run all satisfy [P]. *)
Definition on_self {E : Env} {S} (R : relation S) : relation (S * world) := fun p q => R p.1 q.1.
Definition anything {E : Env} {S} : relation (S * world) := fun _ _ => True.
Definition later {E : Env} {S} : relation (S * world) :=
  fun p q => (now (w_env p.2) <= now (w_env q.2))%Q.
Definition emits {E : Env} {S} (P : event -> Prop) : relation (S * world) :=
  fun p q => exists evs, w_trace q.2 = w_trace p.2 ++ evs /\ Forall P evs.
Abbreviation Moves R m := (Runs false (on_self R) m).
Abbreviation Total m := (Runs true anything m).

#[export] Instance on_self_rel {E : Env} {S} (R : relation S) `{!PreOrder R} : WorldRel (on_self R).
Proof.
  split.
  - split; [intros [s w]; unfold on_self; reflexivity|].
    intros [s1 w1] [s2 w2] [s3 w3] H1 H2. unfold on_self in *; simpl in *. by etrans.
  - intros. unfold on_self; simpl. reflexivity.
Qed.
#[export] Instance on_self_emit {E : Env} {S} (R : relation S) `{!PreOrder R} ev : EmitOk (on_self R) ev.
Proof. intros s w. unfold on_self; simpl. reflexivity. Qed.
#[export] Instance anything_rel {E : Env} {S} : WorldRel (@anything E S).
Proof. by repeat split. Qed.
#[export] Instance anything_emit {E : Env} {S} ev : EmitOk (@anything E S) ev.
Proof. done. Qed.
#[export] Instance later_rel {E : Env} {S} : WorldRel (@later E S).
Proof.
  split.
  - split; [intros [s w]; apply Qle_refl|]. intros ??? H1 H2. eapply Qle_trans; eassumption.
  - intros. apply Qle_refl.
Qed.
#[export] Instance later_emit {E : Env} {EL : EnvLaws E} {S} ev : EmitOk (@later E S) ev.
Proof. intros s w. apply clock_mono. Qed.
#[export] Instance emits_rel {E : Env} {S} (P : event -> Prop) : WorldRel (@emits E S P).
Proof.
  split.
  - split; [intros [s w]; exists []; by rewrite app_nil_r|].
    intros p1 p2 p3 (e1 & H1 & F1) (e2 & H2 & F2). exists (e1 ++ e2).
    rewrite H2, H1, (assoc_L (++)). split; [done|]. by apply Forall_app.
  - intros s w. exists []. by rewrite app_nil_r.
Qed.
(** The object is unchanged and the events of the run all satisfy [P]. *)
Definition quiet {E : Env} {S} (P : event -> Prop) : relation (S * world) :=
  fun p q => p.1 = q.1 /\ emits P p q.
#[export] Instance quiet_rel {E : Env} {S} (P : event -> Prop) : WorldRel (@quiet E S P).
Proof.
  split.
  - split; [intros p; by split|]. intros p1 p2 p3 [] []. split; [congruence|by etrans].
  - intros s w. split; [done|]. apply draw_ok.
Qed.
Lemma emits_emit {E : Env} {S} (P : event -> Prop) ev : P ev -> EmitOk (@emits E S P) ev.
Proof. intros H s w. exists [ev]. split; [done|]. by apply Forall_singleton. Qed.
Lemma emits_nothing {E : Env} {S} (P : event -> Prop) (s s' : S) w : emits P (s, w) (s', w).
Proof. exists []. by rewrite app_nil_r. Qed.
Lemma quiet_emit {E : Env} {S} (P : event -> Prop) ev : P ev -> EmitOk (@quiet E S P) ev.
Proof. intros H s w. split; [done|]. by apply emits_emit. Qed.
Lemma emits_mono {E : Env} {S} (P P' : event -> Prop) (p q : S * world) :
  (forall ev, P ev -> P' ev) -> emits P p q -> emits P' p q.
Proof. intros H (evs & ? & Hf). exists evs. split; [done|]. by eapply Forall_impl. Qed.

Section RunsRules.
Context {E : Env} {S : Type} (total : bool) (R : relation (S * world)) `{!WorldRel R}.

Lemma runs_pure {A} (m : M S A) :
  (forall s w, exists o, m s w = (o, s, w) /\ o <> Stuck) -> Runs total R m.
Proof.
  intros H s w. unfold wp. destruct (H s w) as (o & -> & Ho). by split.
Qed.
Lemma runs_ret {A} (a : A) : Runs total R (ret a).
Proof. apply runs_pure. eauto. Qed.
Lemma runs_raise {A} e : Runs total R (raise e : M S A).
Proof. apply runs_pure. eauto. Qed.
Lemma runs_get : Runs total R (get : M S S).
Proof. apply runs_pure. eauto. Qed.
Lemma runs_gets {A} (f : S -> A) : Runs total R (gets f).
Proof. apply runs_pure. eauto. Qed.
Lemma runs_time : Runs total R (time : M S Q).
Proof. apply runs_pure. eauto. Qed.
Lemma runs_observe {A} (f : cstate -> A) : Runs total R (observe f).
Proof. apply runs_pure. eauto. Qed.
Lemma runs_random : Runs total R (random : M S Q).
Proof. intros s w. unfold wp, random. split; [apply draw_ok|done]. Qed.
Lemma runs_emit ev : EmitOk R ev -> Runs total R (emit ev : M S reply).
Proof.
  intros Hok s w. pose proof (Hok s w) as H. unfold wp, emit, after in *.
  destruct (respond ev (w_env w)) as [r c]. by destruct (raised r).
Qed.
Lemma runs_start r args :
  (forall pid, EmitOk R (EvProc PStart pid r args)) -> Runs total R (start r args : M S proc).
Proof.
  intros Hok s w. pose proof (Hok (length (w_trace w)) s w) as H. unfold wp, start, bind, emit, after in *.
  destruct (respond _ (w_env w)) as [p c]. cbn in H. cbn [pid]. by destruct (raised p).
Qed.
Lemma runs_modify f : (forall s w, R (s, w) (f s, w)) -> Runs total R (modify f).
Proof. intros H s w. by split; [apply H|]. Qed.
Lemma runs_bind {A B} (m : M S A) (k : A -> M S B) :
  Runs total R m -> (forall a, Runs total R (k a)) -> Runs total R (bind m k).
Proof.
  intros Hm Hk s w. apply wp_bind. eapply wp_conseq; [apply Hm|].
  intros [a|e|] s' w' [H Ht]; unfold then_; [|by split..|split; [done|by intros ?%Ht]].
  eapply wp_conseq; [apply Hk|]. intros o s'' w'' [H' Ht']. split; [by etrans|done].
Qed.
Lemma runs_bind_raise {A B} e (k : A -> M S B) : Runs total R (bind (raise e) k).
Proof. intros s w. by split. Qed.
Lemma runs_catch {A} (m : M S A) h :
  Runs total R m -> (forall e, Runs total R (h e)) -> Runs total R (catch m h).
Proof.
  intros Hm Hh s w. apply wp_catch. eapply wp_conseq; [apply Hm|].
  intros [a|e|] s' w' [H Ht]; [by split| |by split].
  eapply wp_conseq; [apply Hh|]. intros o s'' w'' [H' Ht']. split; [by etrans|done].
Qed.
Lemma runs_finally {A} (m : M S A) f :
  Runs total R m -> Runs total R f -> Runs total R (finally m f).
Proof.
  intros Hm Hf s w. specialize (Hm s w). unfold wp, finally in *.
  destruct (m s w) as [[[a|e|] s'] w']; [| |done]; destruct Hm as [Hm Ht];
    specialize (Hf s' w'); unfold wp in Hf; destruct (f s' w') as [[[]?]?]; destruct Hf as [Hf Hs];
    (split; [by etrans|]); try done; intros ?; by destruct Hs.
Qed.
Lemma runs_for {A} (l : list A) body : (forall x, Runs total R (body x)) -> Runs total R (for_ l body).
Proof.
  intros H. induction l as [|x l IH]; simpl; [apply runs_ret|].
  by apply runs_bind.
Qed.
Lemma runs_for_return {A B} (l : list A) (body : A -> M S (option B)) :
  (forall x, Runs total R (body x)) -> Runs total R (for_return l body).
Proof.
  intros H. induction l as [|x l IH]; simpl; [apply runs_ret|].
  apply runs_bind; [done|]. intros []; [apply runs_ret|done].
Qed.
Lemma runs_map {A B} (f : A -> M S B) (l : list A) :
  (forall x, Runs total R (f x)) -> Runs total R (map_ f l).
Proof.
  intros H. induction l as [|x l IH]; simpl; [apply runs_ret|].
  apply runs_bind; [done|intros]. apply runs_bind; [done|intros]. apply runs_ret.
Qed.
Lemma runs_fold {A B} (f : B -> A -> M S B) (l : list A) :
  (forall b x, Runs total R (f b x)) -> forall b, Runs total R (fold_ f l b).
Proof.
  intros H. induction l as [|x l IH]; intros b; simpl; [apply runs_ret|]. apply runs_bind; [done|intros; apply IH].
Qed.
Lemma runs_zoom {T A} (R' : relation (T * world)) view put (m : M T A) :
  (forall s t w w', R' (view s, w) (t, w') -> R (s, w) (put t s, w')) ->
  Runs total R' m -> Runs total R (zoom view put m).
Proof.
  intros H Hm s w. specialize (Hm (view s) w). unfold wp, zoom in *.
  destruct (m (view s) w) as [[o t] w']. destruct Hm as [Hm ?]. split; [by apply H|done].
Qed.
Lemma runs_of_option {A} e (o : option A) : Runs total R (of_option e o).
Proof. destruct o; [apply runs_ret|apply runs_raise]. Qed.
Lemma runs_sample_go {A} k (pool : list A) : Runs total R (sample_go k pool : M S (list A)).
Proof.
  revert pool; induction k as [|k IH]; intros pool; simpl; [apply runs_ret|].
  apply runs_bind; [apply runs_random|intros r].
  apply runs_bind; [apply runs_of_option|intros x].
  apply runs_bind; [apply runs_of_option|intros y].
  apply runs_bind; [apply IH|intros]. apply runs_ret.
Qed.
End RunsRules.

(** Loops, when nothing is asked about fuel *)
Section MovesRules.
Context {E : Env} {S : Type} (R : relation (S * world)) `{!WorldRel R}.
Lemma runs_stuck {A} : Runs false R (stuck : M S A).
Proof. by intros s w. Qed.
Lemma runs_while {L} n (cond : L -> M S bool) body l :
  (forall l, Runs false R (cond l)) -> (forall l, Runs false R (body l)) ->
  Runs false R (while n cond body l).
Proof.
  intros Hc Hb. revert l; induction n as [|n IH]; intros l; simpl; [apply runs_stuck|].
  apply runs_bind; [exact _|done|]. intros []; [by apply runs_bind|by apply runs_ret].
Qed.
Lemma runs_loop {L B} n (body : L -> M S (L + B)) l :
  (forall l, Runs false R (body l)) -> Runs false R (loop n body l).
Proof.
  intros Hb. revert l; induction n as [|n IH]; intros l; simpl; [apply runs_stuck|].
  apply runs_bind; [exact _|done|]. intros []; [done|by apply runs_ret].
Qed.
End MovesRules.

Lemma moves_zoom {E : Env} {S T A} (R : relation S) view put (m : M T A) :
  (forall t s, R s (put t s)) -> Moves R (zoom view put m).
Proof.
  intros H s w. unfold wp, zoom. destruct (m (view s) w) as [[o t] w']. split; [apply H|done].
Qed.
Lemma moves_self {E : Env} {S A} (R : relation S) (m : M S A) total s w :
  Runs total (on_self R) m -> wp m (fun _ s' _ => R s s') s w.
Proof. intros H. eapply wp_conseq; [apply H|]. by intros ??? []. Qed.

Create HintDb runs discriminated.
#[export] Hint Constants Opaque : runs.
#[export] Hint Resolve runs_ret runs_raise runs_stuck runs_get runs_gets runs_time
  runs_observe runs_random runs_emit runs_sample_go runs_of_option : runs.
#[export] Hint Extern 0 (WorldRel _) => exact _ : runs.
#[export] Hint Extern 0 (EmitOk _ _) => exact _ : runs.

(** [runs_step] takes a [Runs] goal apart along the method's syntax; [runs_tac]
    repeats it.  A method with its own lemma is found in the hint database [runs];
    any other is unfolded. *)
Ltac head_of t := match t with ?f _ => head_of f | _ => t end.
Ltac runs_step :=
  match goal with
  | |- forall _, _ => intro
  | |- WorldRel _ => exact _
  | |- EmitOk _ _ => exact _
  | |- Runs _ _ _ => solve [auto with runs]
  | |- Runs _ _ (bind _ _) => apply runs_bind
  | |- Runs _ _ (catch _ _) => apply runs_catch
  | |- Runs _ _ (finally _ _) => apply runs_finally
  | |- Runs _ _ (for_ _ _) => apply runs_for
  | |- Runs _ _ (for_return _ _) => apply runs_for_return
  | |- Runs _ _ (map_ _ _) => apply runs_map
  | |- Runs _ _ (fold_ _ _ _) => apply runs_fold
  | |- Runs false _ (while _ _ _ _) => apply runs_while
  | |- Runs false _ (loop _ _ _) => apply runs_loop
  | |- Runs _ _ (while _ _ _ _) => fail 1
  | |- Runs _ _ (loop _ _ _) => fail 1
  | |- Runs _ _ (emit _) => apply runs_emit
  | |- Runs _ _ (start _ _) => apply runs_start
  | |- Runs _ _ (modify _) => apply runs_modify; try (by intros)
  | |- Runs _ _ (match _ with _ => _ end) => case_match
  | |- Runs _ _ ?m => let h := head_of m in unfold h; cbv beta
  end.
Ltac runs_tac := repeat runs_step.

(** ** Triples on the object: what holds of it, and of the result, when a method returns *)
Section Hoare.
Context {E : Env} {S : Type}.
Implicit Types P : S -> Prop.
Definition hoare {A} P (m : M S A) (Q : A -> S -> Prop) : Prop :=
  forall s w, P s -> wp m (fun o s' _ => forall a, o = Ret a -> Q a s') s w.
Lemma hoare_bind {A B} P (m : M S A) (k : A -> M S B) Q R :
  hoare P m Q -> (forall a, hoare (Q a) (k a) R) -> hoare P (bind m k) R.
Proof.
  intros Hm Hk s w HP. apply wp_bind. eapply wp_conseq; [by apply Hm|].
  intros [a|e|] s' w' H; unfold then_; [|done..]. by apply Hk, H.
Qed.
Lemma hoare_ret {A} P (a : A) (Q : A -> S -> Prop) : (forall s, P s -> Q a s) -> hoare P (ret a) Q.
Proof. intros H s w HP. intros ? [= <-]. by apply H. Qed.
Lemma hoare_conseq {A} P P' (m : M S A) (Q R : A -> S -> Prop) :
  hoare P m Q -> (forall s, P' s -> P s) -> (forall a s, Q a s -> R a s) -> hoare P' m R.
Proof. intros Hm HP HQ s w H. eapply wp_conseq; [by apply Hm, HP|]. eauto. Qed.
Lemma hoare_get {B} P (k : S -> M S B) R : (forall s, P s -> hoare P (k s) R) -> hoare P (bind get k) R.
Proof. intros Hk s w HP. apply wp_bind, wp_get. by apply Hk. Qed.
Lemma hoare_finally {A} P (m : M S A) f Q (R : A -> S -> Prop) :
  hoare P m Q -> (forall a, hoare (Q a) f (fun _ => R a)) -> hoare P (finally m f) R.
Proof.
  intros Hm Hf s w HP. apply wp_finally. eapply wp_conseq; [by apply Hm|].
  intros o s1 w1 H. assert (Ha : forall a, o = Ret a ->
    wp f (fun o' s2 _ => forall u, o' = Ret u -> R a s2) s1 w1).
  { intros a ->. by apply Hf, H. }
  destruct o as [a|e|]; [|by unfold wp; destruct (f s1 w1) as [[[]?]?]|done].
  eapply wp_conseq; [by apply (Ha a)|]. intros [u|e|] s2 w2 H2 a' [= <-]. by eapply H2.
Qed.
(** A method that moves the object along [R] keeps what [R] keeps. *)
Lemma hoare_moves {A} (R : relation S) P (m : M S A) :
  Runs false (on_self R) m -> (forall s s', R s s' -> P s -> P s') -> hoare P m (fun _ => P).
Proof. intros Hm HR s w HP. eapply wp_conseq; [apply Hm|]. intros o s' w' [H _] a _. by eapply HR. Qed.
Lemma hoare_moves_bind {A B} (R : relation S) P (m : M S A) (k : A -> M S B) Q :
  Runs false (on_self R) m -> (forall s s', R s s' -> P s -> P s') ->
  (forall a, hoare P (k a) Q) -> hoare P (bind m k) Q.
Proof. intros Hm HR Hk. eapply hoare_bind; [by eapply hoare_moves|done]. Qed.
Lemma hoare_for {A} P (l : list A) (body : A -> M S unit) :
  (forall x, x ∈ l -> hoare P (body x) (fun _ => P)) -> hoare P (for_ l body) (fun _ => P).
Proof.
  induction l as [|x l IH]; intros H; simpl; [by apply hoare_ret|].
  eapply hoare_bind; [apply H, elem_of_cons; by left|]. intros a. apply IH. intros y Hy. by apply H, elem_of_cons; right.
Qed.
(** The same with an invariant indexed by the elements that are done *)
Lemma hoare_for_done {A} (I : list A -> S -> Prop) (l : list A) (body : A -> M S unit) :
  (forall before x rest, l = before ++ x :: rest -> hoare (I before) (body x) (fun _ => I (before ++ [x]))) ->
  hoare (I []) (for_ l body) (fun _ => I l).
Proof.
  intros H. enough (forall rest before, l = before ++ rest -> hoare (I before) (for_ rest body) (fun _ => I l)) as Hr by by apply Hr.
  induction rest as [|x rest IH]; intros before Hl; simpl.
  - rewrite app_nil_r in Hl. subst before. by apply hoare_ret.
  - eapply hoare_bind; [by eapply H|]. intros ?. apply IH. by rewrite Hl, <- (assoc_L (++)).
Qed.
End Hoare.

(** Lemmas on the random choices *)
Section RandomFacts.
Context {E : Env} {EL : EnvLaws E}.

Lemma index_of_draw_lt (r : Q) (n : nat) :
  (0 <= r)%Q -> (r < 1)%Q -> (0 < n)%nat -> (index_of_draw r n < n)%nat.
Proof.
  intros H0 H1 Hn. unfold index_of_draw.
  assert (Hlt : (r * inject_Z (Z.of_nat n) < inject_Z (Z.of_nat n))%Q).
  { rewrite <- (Qmult_1_l (inject_Z (Z.of_nat n))) at 2.
    apply Qmult_lt_compat_r; [|done]. change 0%Q with (inject_Z 0). rewrite <- Zlt_Qlt. lia. }
  pose proof (Qfloor_le (r * inject_Z (Z.of_nat n))) as Hf.
  assert (Qfloor (r * inject_Z (Z.of_nat n)) < Z.of_nat n).
  { rewrite Zlt_Qlt. eapply Qle_lt_trans; eassumption. }
  lia.
Qed.

(** A choice from a list gives an element of it, and fails only on the empty list. *)
Lemma wp_choice {S A} (l : list A) (Q : post S A) s w :
  (forall x w', x ∈ l -> w' = World (w_env w) (Datatypes.S (w_draws w)) (w_trace w) -> Q (Ret x) s w') ->
  (l = [] -> forall w', Q (Exc IndexError) s w') ->
  wp (choice l) Q s w.
Proof.
  intros Hx He. unfold choice, wp, bind, random. cbn.
  destruct (draw_range (w_draws w)) as [H0 H1].
  destruct (l !! index_of_draw (draw (w_draws w)) (length l)) as [x|] eqn:Hl.
  - apply Hx; [|done]. by eapply list_elem_of_lookup_2.
  - destruct l as [|y l]; [by apply He|].
    apply lookup_ge_None in Hl.
    pose proof (index_of_draw_lt (draw (w_draws w)) (length (y :: l)) H0 H1 ltac:(simpl; lia)). lia.
Qed.

(** [randrange(a, b)] is in its range. *)
Lemma wp_randrange {S} (a b : Z) (Q : post S Z) s w :
  (forall r w', a <= r < b -> w' = World (w_env w) (Datatypes.S (w_draws w)) (w_trace w) -> Q (Ret r) s w') ->
  (b <= a -> forall e, Q (Exc e) s w) -> wp (randrange a b) Q s w.
Proof.
  intros Hr He. unfold randrange. destruct (Z.ltb_spec a b); [|wp_run; by apply He].
  wp_run. apply Hr; [|done]. destruct (draw_range (w_draws w)) as [H0 H1].
  assert (Hf : Qfloor (draw (w_draws w) * inject_Z (b - a)) < b - a).
  { rewrite Zlt_Qlt. eapply Qle_lt_trans; [apply Qfloor_le|].
    rewrite <- (Qmult_1_l (inject_Z (b - a))) at 2. apply Qmult_lt_compat_r; [|done].
    change 0%Q with (inject_Z 0). rewrite <- Zlt_Qlt. lia. }
  assert (Hp : 0 <= Qfloor (draw (w_draws w) * inject_Z (b - a))).
  { change 0 with (Qfloor 0). apply Qfloor_resp_le. apply Qmult_le_0_compat; [done|].
    change 0%Q with (inject_Z 0). rewrite <- Zle_Qle. lia. }
  lia.
Qed.

(** A sample has the size asked for and draws from the population; nothing else moves. *)
Lemma wp_sample_go {S A} k (pool : list A) (Q : post S (list A)) s w :
  (forall xs w', length xs = k -> (forall x, x ∈ xs -> x ∈ pool) -> w_trace w' = w_trace w ->
     w_env w' = w_env w -> Q (Ret xs) s w') ->
  (forall e w', w_trace w' = w_trace w -> w_env w' = w_env w -> Q (Exc e) s w') ->
  wp (sample_go k pool) Q s w.
Proof.
  revert pool Q w; induction k as [|k IH]; intros pool Q w Hr He; simpl.
  { apply wp_ret, Hr; [done|set_solver|done..]. }
  apply wp_bind, wp_random. unfold then_. apply wp_bind, wp_of_option; [|by intros; apply He].
  intros x Hx. unfold then_. apply wp_bind, wp_of_option; [|by intros; apply He].
  intros y Hy. unfold then_. apply wp_bind, IH; cbn [w_trace w_env]; [|by intros; apply He].
  intros xs w' Hlen Hin Ht Hc. unfold then_. apply wp_ret, Hr; [simpl; lia| |done..].
  intros z [->|Hz]%elem_of_cons; [by eapply list_elem_of_lookup_2|].
  apply Hin in Hz. clear - Hz Hy.
  assert (Hz' : z ∈ <[index_of_draw (draw (w_draws w)) (length pool):=y]> pool).
  { clear Hy. remember (<[_:=y]> pool) as l eqn:Hl. clear Hl. induction l as [|a l IHl] using rev_ind; [done|].
    rewrite removelast_last in Hz. set_solver. }
  apply list_elem_of_lookup in Hz' as [i Hi]. apply list_lookup_insert_Some in Hi as [(_ & -> & _)|[_ Hi]].
  - rewrite last_lookup in Hy. by eapply list_elem_of_lookup_2.
  - by eapply list_elem_of_lookup_2.
Qed.
Lemma wp_sample {S A} (l : list A) (k : Z) (Q : post S (list A)) s w :
  (forall xs w', Z.of_nat (length xs) = k -> (forall x, x ∈ xs -> x ∈ l) -> w_trace w' = w_trace w ->
     w_env w' = w_env w -> Q (Ret xs) s w') ->
  (forall e w', w_trace w' = w_trace w -> w_env w' = w_env w -> Q (Exc e) s w') ->
  wp (sample l k) Q s w.
Proof.
  intros Hr He. unfold sample. case_match eqn:Hk; [|by apply wp_raise, He].
  apply wp_sample_go; [|done]. intros xs w' Hlen. apply Hr. lia.
Qed.
End RandomFacts.
