(* ===== verification/TraceState.v ===== *)
(** * What the events of a run add up to

    A quantity that is read off the trace (the devices that are mounted, the clients that are
    connected, ...) is given by a [step] on events.  [triple P m Q]: from an object and a
    quantity that satisfy [P], a run of [m] that returns [a] ends in ones that satisfy [Q a]. *)
From Stdlib Require Import QArith Qround Lqa.
From S2P Require Import Prelude PyVal World.

Section TraceState.
Context {E : Env} {S T : Type} (step : T -> event -> T) (init : T).
Abbreviation MS A := (M S A).

Definition after_events (evs : list event) : T := fold_left step evs init.
Definition idle (ev : event) : Prop := forall t, step t ev = t.
Lemma after_events_snoc evs ev : after_events (evs ++ [ev]) = step (after_events evs) ev.
Proof. unfold after_events. by rewrite fold_left_app. Qed.
Lemma after_events_idle evs evs' : Forall idle evs' -> after_events (evs ++ evs') = after_events evs.
Proof.
  revert evs; induction evs' as [|ev evs' IH]; intros evs H; [by rewrite app_nil_r|].
  apply Forall_cons in H as [Hev H]. change (ev :: evs') with ([ev] ++ evs').
  by rewrite (assoc_L (++)), (IH (evs ++ [ev]) H), after_events_snoc.
Qed.

Definition triple {A} (P : S -> T -> Prop) (m : MS A) (Q : A -> S -> T -> Prop) : Prop :=
  forall s w, P s (after_events (w_trace w)) ->
  wp m (fun o s' w' => forall a, o = Ret a -> Q a s' (after_events (w_trace w'))) s w.
(** The object and the quantity stay as they are. *)
Abbreviation Calm m := (Runs false (quiet idle) m).

Lemma triple_bind {A B} P (m : MS A) (k : A -> MS B) Q R :
  triple P m Q -> (forall a, triple (Q a) (k a) R) -> triple P (bind m k) R.
Proof.
  intros Hm Hk s w HP. apply wp_bind. eapply wp_conseq; [by apply Hm|].
  intros [a|e|] s' w' H; unfold then_; [|done..]. by apply Hk, H.
Qed.
Lemma triple_calm {A} (P : S -> T -> Prop) (m : MS A) : Calm m -> triple P m (fun _ => P).
Proof.
  intros Hm s w HP. eapply wp_conseq; [apply Hm|]. intros o s' w' [[Hs (evs & He & Hf)] _] a _. cbn in Hs, He. subst s'.
  by rewrite He, after_events_idle.
Qed.
(** The same for a method that may change the object *)
Lemma triple_still {A} (P : T -> Prop) (m : MS A) :
  Runs false (emits idle) m -> triple (fun _ => P) m (fun _ _ => P).
Proof.
  intros Hm s w HP. eapply wp_conseq; [apply Hm|]. intros o s' w' [(evs & He & Hf) _] a _. cbn in He.
  by rewrite He, after_events_idle.
Qed.
Lemma triple_calm_bind {A B} P (m : MS A) (k : A -> MS B) R :
  Calm m -> (forall a, triple P (k a) R) -> triple P (bind m k) R.
Proof. intros Hm Hk. eapply triple_bind; [by apply triple_calm|done]. Qed.
Lemma triple_get {B} (P : S -> T -> Prop) (k : S -> MS B) R :
  (forall s, triple (fun s' t => s' = s /\ P s' t) (k s) R) -> triple P (bind get k) R.
Proof. intros Hk s w HP. apply wp_bind, wp_get. unfold then_. by apply Hk. Qed.
Lemma triple_ret {A} (P : S -> T -> Prop) (a : A) (Q : A -> S -> T -> Prop) :
  (forall s t, P s t -> Q a s t) -> triple P (ret a) Q.
Proof. intros H s w HP ? [= <-]. by apply H. Qed.
Lemma triple_raise {A} P e (Q : A -> S -> T -> Prop) : triple P (raise e) Q.
Proof. by intros s w HP a. Qed.
Lemma triple_modify (P : S -> T -> Prop) f (Q : unit -> S -> T -> Prop) :
  (forall s t, P s t -> Q tt (f s) t) -> triple P (modify f) Q.
Proof. intros H s w HP [] _. by apply H. Qed.
Lemma triple_conseq {A} (P P' : S -> T -> Prop) (m : MS A) (Q R : A -> S -> T -> Prop) :
  triple P m Q -> (forall s t, P' s t -> P s t) -> (forall a s t, Q a s t -> R a s t) -> triple P' m R.
Proof. intros Hm HP HQ s w H. eapply wp_conseq; [by apply Hm, HP|]. eauto. Qed.
(** The precondition has a part that does not depend on the object. *)
Lemma triple_pure {A} (P : S -> T -> Prop) (m : MS A) (Q : A -> S -> T -> Prop) :
  (forall s t, P s t -> triple (fun s' t' => s' = s /\ t' = t) m Q) -> triple P m Q.
Proof. intros H s w HP. by eapply H. Qed.
Lemma triple_emit (P : S -> T -> Prop) ev (Q : reply -> S -> T -> Prop) :
  (forall r s t, P s t -> Q r s (step t ev)) -> triple P (emit ev) Q.
Proof.
  intros H s w HP. apply wp_emit. intros r c _. destruct (raised r); intros a Ha; [done|]. injection Ha as <-.
  cbn [w_trace]. rewrite after_events_snoc. by apply H.
Qed.
Lemma triple_run (P : S -> T -> Prop) r args chk (Q : reply -> S -> T -> Prop) :
  (forall p s t, P s t -> Q p s (step t (EvRun r args))) -> triple P (run r args chk) Q.
Proof.
  intros H. unfold run. eapply triple_bind; [by apply (triple_emit _ _ Q)|]. intros p. destruct (_ && _); [apply triple_raise|].
  by apply triple_ret.
Qed.
(** A handler that establishes the postcondition wherever it starts *)
Lemma triple_catch {A} P (m : MS A) h Q :
  triple P m Q -> (forall e, triple (fun _ _ => True) (h e) Q) -> triple P (catch m h) Q.
Proof.
  intros Hm Hh s w HP. apply wp_catch. eapply wp_conseq; [by apply Hm|].
  intros [a|e|] s' w' H; [done| |done]. by apply Hh.
Qed.
Lemma triple_finally {A} P (m : MS A) (f : MS unit) Q R :
  triple P m Q -> (forall a, triple (Q a) f (fun _ => R a)) -> triple P (finally m f) R.
Proof.
  intros Hm Hf s w HP. apply wp_finally. eapply wp_conseq; [by apply Hm|].
  intros [a|e|] s1 w1 H; [|by unfold wp; destruct (f s1 w1) as [[[]?]?]|done].
  eapply wp_conseq; [by apply (Hf a), H|]. intros [u|e|] s2 w2 H2 a' [= <-]. by apply (H2 u).
Qed.
(** An invariant indexed by the elements still to come *)
Lemma triple_for {A} (I : list A -> S -> T -> Prop) (body : A -> MS unit) l :
  (forall x l, triple (I (x :: l)) (body x) (fun _ => I l)) -> triple (I l) (for_ l body) (fun _ => I []).
Proof.
  intros H. induction l as [|x l IH]; simpl; [by apply triple_ret|]. eapply triple_bind; [apply H|done].
Qed.
Lemma triple_fold {A B : Type} (I : B -> S -> T -> Prop) (f : B -> A -> MS B) l b :
  (forall b x, triple (I b) (f b x) I) -> triple (I b) (fold_ f l b) I.
Proof.
  intros H. revert b; induction l as [|x l IH]; intros b; simpl; [by apply triple_ret|]. eapply triple_bind; [apply H|done].
Qed.
End TraceState.
