(* ===== verification/Replies.v ===== *)
(** * What the environment answered

    The environment is a function of its state and of the events, so that the answers of a run
    can be read off its trace.  [charged hit v m] bounds the number of answers that are a [hit]
    during a run of [m] that returns [a] by [v a]. *)
From Stdlib Require Import QArith Qround Lqa.
From S2P Require Import Prelude PyVal World.

Section Replies.
Context {E : Env} (hit : event -> reply -> bool).

Fixpoint env_after (c : cstate) (evs : list event) : cstate :=
  match evs with [] => c | ev :: evs' => env_after (respond ev c).2 evs' end.
(** The answers to [evs] from the state [c] on that are hits *)
Fixpoint hits (c : cstate) (evs : list event) : Z :=
  match evs with
  | [] => 0
  | ev :: evs' => (if hit ev (respond ev c).1 then 1 else 0) + hits (respond ev c).2 evs'
  end.
Lemma env_after_app c evs evs' : env_after c (evs ++ evs') = env_after (env_after c evs) evs'.
Proof. revert c; induction evs as [|ev evs IH]; intros c; simpl; [done|apply IH]. Qed.
Lemma hits_app c evs evs' : hits c (evs ++ evs') = hits c evs + hits (env_after c evs) evs'.
Proof. revert c; induction evs as [|ev evs IH]; intros c; simpl; [done|]. rewrite IH. lia. Qed.

(** The events of a run, with the answers they got; none of them can be a hit. *)
Definition never (ev : event) : Prop := forall p, hit ev p = false.
Definition answered {S} (P : event -> Prop) : relation (S * world) := fun p q =>
  exists evs, w_trace q.2 = w_trace p.2 ++ evs /\ w_env q.2 = env_after (w_env p.2) evs /\ Forall P evs.
#[export] Instance answered_rel {S} (P : event -> Prop) : WorldRel (@answered S P).
Proof.
  split; [split|].
  - intros [s w]. exists []. by rewrite app_nil_r.
  - intros p1 p2 p3 (e1 & H1 & V1 & F1) (e2 & H2 & V2 & F2). exists (e1 ++ e2).
    rewrite H2, H1, (assoc_L (++)), V2, V1, env_after_app. split; [done|]. split; [done|]. by apply Forall_app.
  - intros s w. exists []. by rewrite app_nil_r.
Qed.
Lemma answered_emit {S} (P : event -> Prop) ev : P ev -> EmitOk (@answered S P) ev.
Proof. intros H s w. exists [ev]. split; [done|]. split; [done|]. by apply Forall_singleton. Qed.
Lemma answered_nothing {S} (P : event -> Prop) (s s' : S) w : answered P (s, w) (s', w).
Proof. exists []. by rewrite app_nil_r. Qed.
Lemma never_hits c evs : Forall never evs -> hits c evs = 0.
Proof. intros H. revert c; induction H as [|ev evs Hev _ IH]; intros c; simpl; [done|]. by rewrite Hev, IH. Qed.

Section Charged.
Context {S : Type}.
Abbreviation MS A := (M S A).
Definition charged {A} (v : A -> Z) (m : MS A) : Prop := forall s w,
  wp m (fun o _ w' => exists evs, w_trace w' = w_trace w ++ evs /\ w_env w' = env_after (w_env w) evs /\
                                  forall a, o = Ret a -> hits (w_env w) evs <= v a) s w.

Lemma charged_ret {A} (v : A -> Z) a : 0 <= v a -> charged v (ret a).
Proof. intros H s w. exists []. rewrite app_nil_r. split; [done|]. split; [done|]. by intros ? [= <-]. Qed.
Lemma charged_raise {A} (v : A -> Z) e : charged v (raise e).
Proof. intros s w. exists []. by rewrite app_nil_r. Qed.
Lemma charged_mono {A} (v v' : A -> Z) m : charged v m -> (forall a, v a <= v' a) -> charged v' m.
Proof.
  intros Hm Hv s w. eapply wp_conseq; [apply Hm|]. intros o s' w' (evs & He & Hc & Hh). exists evs.
  split; [done|]. split; [done|]. intros a Ha. specialize (Hh a Ha). specialize (Hv a). lia.
Qed.
Lemma charged_bind {A B} (u : A -> Z) (v : B -> Z) (m : MS A) (k : A -> MS B) :
  charged u m -> (forall a, charged (fun b => v b - u a) (k a)) -> charged v (bind m k).
Proof.
  intros Hm Hk s w. apply wp_bind. eapply wp_conseq; [apply Hm|].
  intros [a|e|] s1 w1 (evs & He & Hc & Hh); unfold then_; [|exists evs; by split_ands..].
  eapply wp_conseq; [apply Hk|]. intros o s2 w2 (evs' & He' & Hc' & Hh'). exists (evs ++ evs').
  rewrite He', He, (assoc_L (++)), Hc', Hc, env_after_app. split; [done|]. split; [done|]. intros b Hb.
  rewrite hits_app, <- Hc. specialize (Hh a eq_refl). specialize (Hh' b Hb). lia.
Qed.
Lemma charged_answered {A} (v : A -> Z) (m : MS A) : Runs false (answered never) m -> (forall a, 0 <= v a) -> charged v m.
Proof.
  intros Hm Hv s w. eapply wp_conseq; [apply Hm|]. intros o s' w' [(evs & He & Hc & Hf) _]. exists evs.
  split; [done|]. split; [done|]. intros a _. by rewrite never_hits.
Qed.
(** A method without hits, then the rest *)
Lemma charged_never {A B} (v : B -> Z) (m : MS A) (k : A -> MS B) :
  Runs false (answered never) m -> (forall a, charged v (k a)) -> charged v (bind m k).
Proof.
  intros Hm Hk. apply (charged_bind (fun _ => 0)); [by apply charged_answered|].
  intros a. eapply charged_mono; [apply Hk|]. intros b. cbv beta. lia.
Qed.
Lemma charged_run (v : reply -> Z) r args chk :
  (forall p, (if hit (EvRun r args) p then 1 else 0) <= v p) -> charged v (run r args chk).
Proof.
  intros Hv s w. unfold run. apply wp_bind, wp_emit. intros p c Hr.
  assert (Hh : hits (w_env w) [EvRun r args] <= v p) by (cbn; rewrite Hr; specialize (Hv p); cbn; lia).
  assert (Hc : c = env_after (w_env w) [EvRun r args]) by (cbn; by rewrite Hr).
  destruct (raised p); unfold then_; [by exists [EvRun r args]|].
  case_match; exists [EvRun r args]; (split; [done|]); (split; [done|]); [done|]. by intros ? [= <-].
Qed.
Lemma charged_fold {A B} (v : B -> Z) (f : B -> A -> MS B) l b :
  (forall b x, charged (fun b' => v b' - v b) (f b x)) -> charged (fun b' => v b' - v b) (fold_ f l b).
Proof.
  intros Hf. revert b; induction l as [|x l IH]; intros b; simpl; [apply charged_ret; cbv beta; lia|].
  eapply charged_bind; [apply Hf|]. intros b'. cbv beta. eapply charged_mono; [apply IH|]. intros b''. cbv beta. lia.
Qed.
End Charged.
End Replies.
