(* ===== verification/ZbkcManager.v ===== *)
(** * [ZbkcManager] (tasks/zbkc_manager.py): driving a cluster from its command line

    The manager's fields are the record [mgr]; each method is a definition of the
    same name.  Log output is not modelled, and [self.lock] is left out: it is a
    re-entrant lock around bodies that this model runs one at a time.  [pools] is a
    finite map; the order of [self.pools.keys()] is the map's own. *)
From Stdlib Require Import Ascii QArith Qround Lqa.
From S2P Require Import Prelude PyVal World.

(** What the tasks use of teuthology's [ctx]. *)
Record context := Context_
  { testdir : string;                              (* teuthology.get_testdir(ctx) *)
    cluster_roles : list (remote * list string);   (* ctx.cluster.remotes *)
    conf : gmap string (gmap string dict);         (* ctx.zbkc[cluster].conf[section] *)
    roles_to_dev : gmap string (gmap string string);
    roles_to_dev_mount_options : gmap string (gmap string (list string));
    roles_to_dev_fstype : gmap string (gmap string string) }.

Record mgr := Mgr
  { ctx : context;
    controller : remote;
    cluster : string;
    config : dict;
    next_pool_id : Z;
    pools : gmap string Z }.
Definition set_pools (f : gmap string Z -> gmap string Z) (m : mgr) : mgr :=
  Mgr (ctx m) (controller m) (cluster m) (config m) (next_pool_id m) (f (pools m)).
Definition set_next_pool_id (n : Z) (m : mgr) : mgr :=
  Mgr (ctx m) (controller m) (cluster m) (config m) n (pools m).

Definition REPLICATED_POOL : Z := 1.
Definition ERASURE_CODED_POOL : Z := 3.

Record osd_status := OsdStatus
  { st_in : list Z; st_out : list Z; st_up : list Z; st_down : list Z;
    st_dead : list Z; st_live : list Z; st_raw : list string }.

Section Manager.
Context {E : Env} {F : Fuel}.

Abbreviation MM A := (M mgr A).

Definition zs (z : Z) : string := str_of_Z z.

(** ** Finding machines *)

(** util.get_remote *)
Definition only (p : string -> bool) (c : context) : list remote :=
  map fst (filter (fun rr => existsb p rr.2 = true) (cluster_roles c)).
Definition get_remote (c : context) (cl service_type service_id : string) : MM remote :=
  let _is_instance role :=
    let '(rc, rt, ri) := split_role role in
    String.eqb rc cl && String.eqb rt service_type && String.eqb ri service_id in
  match only _is_instance c with
  | [r] => ret r
  | _ => raise (KeyError ("Service " +:+ cl +:+ "." +:+ service_type +:+ "." +:+ service_id +:+ " not found"))
  end.
Definition find_remote (service_type service_id : string) : MM remote :=
  s <- get ;; get_remote (ctx s) (cluster s) service_type service_id.

(** ** Running commands *)

Definition coverage (s : mgr) : string := testdir (ctx s) +:+ "/archive/coverage".

Definition zbkc_args (s : mgr) : list string :=
  ["sudo"; "adjust-ulimits"; "zbkc-coverage"; coverage s; "timeout"; "120"; "zbkc"; "--cluster"; cluster s].
Definition raw_cluster_cmd (args : list string) : MM string :=
  s <- get ;;
  proc <- run (controller s) (zbkc_args s ++ args) true ;;
  ret (stdout proc).

Definition raw_cluster_cmd_result (args : list string) : MM Z :=
  s <- get ;;
  proc <- run (controller s) (zbkc_args s ++ args) false ;;
  ret (exitstatus proc).

Definition do_rados (r : remote) (cmd : list string) (check_status : bool) : MM reply :=
  s <- get ;;
  run r (["adjust-ulimits"; "zbkc-coverage"; coverage s; "rados"; "--cluster"; cluster s] ++ cmd)
    check_status.

Definition rados_write_objects (pool : string) (num_objects size timelimit : Z) (cleanup : bool)
  : MM reply :=
  s <- get ;;
  do_rados (controller s)
    (["-p"; pool; "--num-objects"; zs num_objects; "-b"; zs size; "bench"; zs timelimit; "write"]
       ++ (if cleanup then [] else ["--no-cleanup"])) true.

Definition namespace_args (namespace : option string) : list string :=
  match namespace with Some ns => ["-N"; ns] | None => [] end.
Definition do_put (pool obj fname : string) (namespace : option string) : MM Z :=
  s <- get ;;
  p <- do_rados (controller s) (["-p"; pool] ++ namespace_args namespace ++ ["put"; obj; fname]) false ;;
  ret (exitstatus p).
Definition do_get (pool obj fname : string) (namespace : option string) : MM Z :=
  s <- get ;;
  p <- do_rados (controller s) (["-p"; pool] ++ namespace_args namespace ++ ["get"; obj; fname]) false ;;
  ret (exitstatus p).
Definition do_rm (pool obj : string) (namespace : option string) : MM Z :=
  s <- get ;;
  p <- do_rados (controller s) (["-p"; pool] ++ namespace_args namespace ++ ["rm"; obj]) false ;;
  ret (exitstatus p).

Definition admin_socket (service_type service_id : string) (command : list string)
  (check_status : bool) (timeout : Z) : MM reply :=
  s <- get ;;
  r <- find_remote service_type service_id ;;
  run r
    (["sudo"; "adjust-ulimits"; "zbkc-coverage"; coverage s; "timeout"; zs timeout; "zbkc";
      "--cluster"; cluster s; "--admin-daemon";
      "/var/run/zbkc/" +:+ cluster s +:+ "-" +:+ service_type +:+ "." +:+ service_id +:+ ".asok"]
       ++ command) check_status.
Definition osd_admin_socket (osd_id : Z) (command : list string) (check_status : bool) (timeout : Z)
  : MM reply :=
  admin_socket "osd" (zs osd_id) command check_status timeout.

(** Retry every five seconds until the socket answers or [timeout] is exceeded. *)
Definition wait_run_admin_socket (service_type service_id : string) (args : list string) (timeout : Q)
  : MM unit :=
  loop fuel (fun tries : Z =>
    proc <- admin_socket service_type service_id args false 0 ;;
    if exitstatus proc =? 0 then ret (inr tt)
    else
      let tries := tries + 1 in
      if Qlt_bool timeout (inject_Z (tries * 5)) then
        raise (PyException ("timed out waiting for admin_socket to appear after "
                              +:+ service_type +:+ "." +:+ service_id +:+ " restart"))
      else sleep 5 ;; ret (inl tries)) 0.

Definition set_config (osdnum : Z) (argdict : list (string * string)) : MM unit :=
  for_ argdict (fun kv =>
    wait_run_admin_socket "osd" (zs osdnum) ["config"; "set"; kv.1; kv.2] 75).

Definition kick_recovery_wq (osdnum : Z) : MM string :=
  raw_cluster_cmd ["tell"; "osd." +:+ zs osdnum; "debug"; "kick_recovery_wq"; "0"].

(** ** Cluster dumps *)

(** [json.loads('\n'.join(out.split('\n')[1:]))] *)
Definition json_skip_first (out : string) : MM pyval :=
  json_loads (str_join nls (tail (split_on nl out))).

Definition raw_cluster_status : MM pyval :=
  status <- raw_cluster_cmd ["status"; "--format=json-pretty"] ;; json_loads status.
Definition raw_osd_status : MM string := raw_cluster_cmd ["osd"; "dump"].
Definition get_osd_dump_json : MM pyval :=
  out <- raw_cluster_cmd ["osd"; "dump"; "--format=json"] ;; json_skip_first out.
Definition get_osd_dump : MM (list pyval) :=
  j <- get_osd_dump_json ;; v <- subscript j "osds" ;; as_list v.
Definition get_stuck_pgs (type_ : string) (threshold : Z) : MM pyval :=
  out <- raw_cluster_cmd ["pg"; "dump_stuck"; type_; zs threshold; "--format=json"] ;; json_loads out.
Definition get_object_map (pool name : string) : MM pyval :=
  out <- raw_cluster_cmd ["--format=json"; "osd"; "map"; pool; name] ;; json_skip_first out.
Definition get_pg_stats : MM (list pyval) :=
  out <- raw_cluster_cmd ["pg"; "dump"; "--format=json"] ;;
  j <- json_skip_first out ;;
  v <- subscript j "pg_stats" ;; as_list v.

(** The first element of [l] whose field [key] equals [val]. *)
Fixpoint find_by (key val : string) (l : list pyval) : MM (option pyval) :=
  match l with
  | [] => ret None
  | x :: l' =>
      v <- subscript x key ;;
      match v with
      | PStr s => if String.eqb s val then ret (Some x) else find_by key val l'
      | _ => find_by key val l'
      end
  end.

Definition get_pool_dump (pool : string) : MM pyval :=
  osd_dump <- get_osd_dump_json ;;
  v <- subscript osd_dump "pools" ;; ps <- as_list v ;;
  r <- find_by "pool_name" pool ps ;;
  of_option (AssertionError "") r.
Definition get_pool_num (pool : string) : MM Z :=
  d <- get_pool_dump pool ;; v <- subscript d "pool" ;; as_int v.
Definition list_pools : MM (list string) :=
  osd_dump <- get_osd_dump_json ;;
  v <- subscript osd_dump "pools" ;; ps <- as_list v ;;
  map_ (fun i => n <- subscript i "pool_name" ;; as_str n) ps.

(** [pgnum] is the text that [format] makes of it: the callers pass numbers and parts of
    pg names. *)
Definition get_pgid (pool pgnum : string) : MM string :=
  poolnum <- get_pool_num pool ;; ret (zs poolnum +:+ "." +:+ pgnum).
Definition get_single_pg_stats (pgid : string) : MM (option pyval) :=
  all_stats <- get_pg_stats ;; find_by "pgid" pgid all_stats.

(** [pg['acting'][i]] of the named pg; [pick] selects the element. *)
Definition acting_of (pick : list pyval -> option pyval) (pool pgnum : string) : MM Z :=
  out <- raw_cluster_cmd ["pg"; "dump"; "--format=json"] ;;
  j <- json_skip_first out ;;
  pg_str <- get_pgid pool pgnum ;;
  v <- subscript j "pg_stats" ;; stats <- as_list v ;;
  r <- find_by "pgid" pg_str stats ;;
  pg <- of_option (AssertionError "") r ;;
  v <- subscript pg "acting" ;; l <- as_list v ;;
  x <- of_option IndexError (pick l) ;; as_int x.
Definition get_pg_replica (pool pgnum : string) : MM Z := acting_of last pool pgnum.
Definition get_pg_primary (pool pgnum : string) : MM Z := acting_of head pool pgnum.

Definition get_object_primary (pool name : string) : MM Z :=
  object_map <- get_object_map pool name ;;
  v <- subscript object_map "acting_primary" ;; as_int v.

(** [list.index]: the position of the first occurrence. *)
Fixpoint index_in (x : Z) (l : list pyval) : option nat :=
  match l with
  | [] => None
  | y :: l' =>
      match num_of y with
      | Some q => if Qeq_bool q (inject_Z x) then Some O else S <$> index_in x l'
      | None => S <$> index_in x l'
      end
  end.
Definition get_object_pg_with_shard (pool name : string) (osdid : Z) : MM string :=
  pool_dump <- get_pool_dump pool ;;
  object_map <- get_object_map pool name ;;
  ty <- subscript pool_dump "type" ;;
  if match ty with PInt z => z =? ERASURE_CODED_POOL | _ => false end then
    v <- subscript object_map "acting" ;; acting <- as_list v ;;
    shard <- of_option (ValueError "not in list") (index_in osdid acting) ;;
    p <- subscript object_map "pgid" ;; pgid <- as_str p ;;
    ret (pgid +:+ "s" +:+ zs (Z.of_nat shard))
  else p <- subscript object_map "pgid" ;; as_str p.

(** ** OSD status *)

(** [int(i[4:].split()[0])] *)
Definition osd_of_line (i : string) : MM Z :=
  w <- of_option IndexError (head (split_ws (str_from 4 i))) ;;
  of_option (ValueError "invalid literal for int()") (py_int w).
Definition is_osd_line (x : string) : bool :=
  startswith "osd." x && (str_in "up" x || str_in "down" x).
Definition osds_with (word : string) (osd_lines : list string) : MM (list Z) :=
  map_ osd_of_line (filter (fun x => str_in word x = true) osd_lines).

Definition get_osd_status : MM osd_status :=
  raw <- raw_osd_status ;;
  let osd_lines := filter (fun x => is_osd_line x = true) (split_on nl raw) in
  in_osds <- osds_with " in " osd_lines ;;
  out_osds <- osds_with " out " osd_lines ;;
  up_osds <- osds_with " up " osd_lines ;;
  down_osds <- osds_with " down " osd_lines ;;
  s <- get ;;
  dead <- observe (fun c => map fst (filter (fun d => d.2 = false) (daemons_of "osd" (cluster s) c))) ;;
  live <- observe (fun c => map fst (filter (fun d => d.2 = true) (daemons_of "osd" (cluster s) c))) ;;
  ret (OsdStatus in_osds out_osds up_osds down_osds dead live osd_lines).

(** ** Pools *)

Definition get_pool_property (pool_name prop : string) : MM Z :=
  output <- raw_cluster_cmd ["osd"; "pool"; "get"; pool_name; prop] ;;
  w <- of_option IndexError (split_ws output !! 1%nat) ;;
  of_option (ValueError "invalid literal for int()") (py_int w).

(** The constructor's pool table: failures to read a pool are ignored. *)
Definition init_pools : MM unit :=
  ps <- list_pools ;;
  modify (set_pools (fun _ => ∅)) ;;
  for_ ps (fun pool =>
    catch (n <- get_pool_property pool "pg_num" ;; modify (set_pools <[pool := n]>))
      (fun e => match e with CommandFailedError _ => ret tt | _ => raise e end)).

Definition create_pool (pool_name : string) (pg_num : Z) (erasure_code_profile_name : option string)
  (min_size : option Z) (erasure_code_use_hacky_overwrites : bool) : MM unit :=
  s <- get ;;
  assert_ (bool_decide (pools s !! pool_name = None)) "pool_name not in self.pools" ;;
  match erasure_code_profile_name with
  | Some profile =>
      if negb (String.eqb profile EmptyString)
      then raw_cluster_cmd ["osd"; "pool"; "create"; pool_name; zs pg_num; zs pg_num; "erasure"; profile]
      else raw_cluster_cmd ["osd"; "pool"; "create"; pool_name; zs pg_num]
  | None => raw_cluster_cmd ["osd"; "pool"; "create"; pool_name; zs pg_num]
  end ;;
  match min_size with
  | Some n => raw_cluster_cmd ["osd"; "pool"; "set"; pool_name; "min_size"; zs n] ;; ret tt
  | None => ret tt
  end ;;
  when erasure_code_use_hacky_overwrites
    (raw_cluster_cmd ["osd"; "pool"; "set"; pool_name; "debug_white_box_testing_ec_overwrites"; "true"] ;;
     ret tt) ;;
  modify (set_pools <[pool_name := pg_num]>) ;;
  sleep 1.

Definition create_pool_with_unique_name (pg_num : Z) (erasure_code_profile_name : option string)
  (min_size : option Z) (erasure_code_use_hacky_overwrites : bool) : MM string :=
  s <- get ;;
  let name := "unique_pool_" +:+ zs (next_pool_id s) in
  modify (set_next_pool_id (next_pool_id s + 1)) ;;
  create_pool name pg_num erasure_code_profile_name min_size erasure_code_use_hacky_overwrites ;;
  ret name.

Definition remove_pool (pool_name : string) : MM unit :=
  s <- get ;;
  assert_ (bool_decide (is_Some (pools s !! pool_name))) "pool_name in self.pools" ;;
  modify (set_pools (delete pool_name)) ;;
  do_rados (controller s) ["rmpool"; pool_name; pool_name; "--yes-i-really-really-mean-it"] true ;;
  ret tt.

(** [with manager.pool(...): body] *)
Definition pool {A} (pool_name : string) (pg_num : Z) (erasure_code_profile_name : option string)
  (body : MM A) : MM A :=
  create_pool pool_name pg_num erasure_code_profile_name None false ;;
  a <- body ;;
  remove_pool pool_name ;;
  ret a.

Definition clear_pools : MM unit := ps <- list_pools ;; for_ ps remove_pool.
Definition add_pool_snap (pool_name snap_name : string) : MM unit :=
  raw_cluster_cmd ["osd"; "pool"; "mksnap"; pool_name; snap_name] ;; ret tt.
Definition remove_pool_snap (pool_name snap_name : string) : MM unit :=
  raw_cluster_cmd ["osd"; "pool"; "rmsnap"; pool_name; snap_name] ;; ret tt.
Definition pool_keys (s : mgr) : list string := map fst (map_to_list (pools s)).
Definition get_pool : MM string := s <- get ;; choice (pool_keys s).
Definition get_pool_pg_num (pool_name : string) : MM Z :=
  gets (fun s => default 0 (pools s !! pool_name)).

(** util.rados.cmd_erasure_code_profile *)
Definition cmd_erasure_code_profile (profile_name : string) (profile : list (string * string))
  : list string :=
  let profile := match profile with
                 | [] => [("k", "2"); ("m", "1"); ("ruleset-failure-domain", "osd")]
                 | _ => profile
                 end in
  ["osd"; "erasure-code-profile"; "set"; profile_name] ++ map (fun kv => kv.1 +:+ "=" +:+ kv.2) profile.
Definition create_erasure_code_profile (profile_name : string) (profile : list (string * string))
  : MM unit :=
  raw_cluster_cmd (cmd_erasure_code_profile profile_name profile) ;; ret tt.

Definition EAGAIN : Z := 11.
Definition eagain_timeout (pool_name prop : string) (val : Z) : exn :=
  PyException ("timed out getting EAGAIN when setting pool property " +:+ pool_name +:+ " " +:+ prop +:+ " = "
               +:+ zs val).
Definition set_pool_property (pool_name prop : string) (val : Z) : MM unit :=
  loop fuel (fun tries : Z =>
    r <- raw_cluster_cmd_result ["osd"; "pool"; "set"; pool_name; prop; zs val] ;;
    if negb (r =? EAGAIN) then ret (inr tt)
    else
      let tries := tries + 1 in
      if 50 <? tries then raise (eagain_timeout pool_name prop val)
      else sleep 2 ;; ret (inl tries)) 0.

(** ** Placement-group counters *)

Definition pg_state (pg : pyval) : MM string := v <- subscript pg "state" ;; as_str v.
(** [num = 0; for pg in pgs: if test(pg['state']): num += 1] *)
Fixpoint count_states (test : string -> bool) (pgs : list pyval) (num : Z) : MM Z :=
  match pgs with
  | [] => ret num
  | pg :: pgs' =>
      st <- pg_state pg ;; count_states test pgs' (if test st then num + 1 else num)
  end.
(** [pg['state'].count(w)], as a condition *)
Definition has (w : string) (st : string) : bool := (0 <? str_count w st)%nat.

Definition is_creating (st : string) : bool := str_in "creating" st.
Definition is_active_clean (st : string) : bool := has "active" st && has "clean" st && negb (has "stale" st).
Definition is_active_recovered (st : string) : bool :=
  has "active" st && negb (has "recover" st) && negb (has "backfill" st) && negb (has "stale" st).
Definition is_active_pg (st : string) : bool := has "active" st && negb (has "stale" st).
Definition is_down_pg (st : string) : bool :=
  (has "down" st && negb (has "stale" st)) || (has "incomplete" st && negb (has "stale" st)).
Definition is_active_down (st : string) : bool :=
  (has "active" st && negb (has "stale" st)) || (has "down" st && negb (has "stale" st))
  || (has "incomplete" st && negb (has "stale" st)).

Definition get_num_creating : MM Z := pgs <- get_pg_stats ;; count_states is_creating pgs 0.
Definition get_num_active_clean : MM Z := pgs <- get_pg_stats ;; count_states is_active_clean pgs 0.
Definition get_num_active_recovered : MM Z := pgs <- get_pg_stats ;; count_states is_active_recovered pgs 0.
Definition get_num_active : MM Z := pgs <- get_pg_stats ;; count_states is_active_pg pgs 0.
Definition get_num_down : MM Z := pgs <- get_pg_stats ;; count_states is_down_pg pgs 0.
Definition get_num_active_down : MM Z := pgs <- get_pg_stats ;; count_states is_active_down pgs 0.

Definition get_num_pgs : MM Z :=
  status <- raw_cluster_status ;;
  m <- subscript status "pgmap" ;; v <- subscript m "num_pgs" ;; as_int v.
Definition get_num_unfound_objects : MM pyval :=
  status <- raw_cluster_status ;;
  m <- subscript status "pgmap" ;; d <- as_dict m ;; ret (dict_get "unfound_objects" (PInt 0) d).
Definition get_is_making_recovery_progress : MM bool :=
  status <- raw_cluster_status ;;
  m <- subscript status "pgmap" ;; d <- as_dict m ;;
  let kps := dict_get "recovering_keys_per_sec" (PInt 0) d in
  let bps := dict_get "recovering_bytes_per_sec" (PInt 0) d in
  let ops := dict_get "recovering_objects_per_sec" (PInt 0) d in
  ret (py_gt kps (PInt 0) || py_gt bps (PInt 0) || py_gt ops (PInt 0)).

(** A histogram of the [+]-separated words of the pg states. *)
Definition bump (status : string) (hist : gmap string Z) : gmap string Z :=
  <[status := default 0 (hist !! status) + 1]> hist.
Fixpoint compile_states (pgs : list pyval) (hist : gmap string Z) : MM (gmap string Z) :=
  match pgs with
  | [] => ret hist
  | pg :: pgs' => st <- pg_state pg ;; compile_states pgs' (foldl (fun h w => bump w h) hist (split_on "+" st))
  end.
Definition compile_pg_status : MM (gmap string Z) := j <- get_pg_stats ;; compile_states j ∅.

Definition is_clean : MM bool := a <- get_num_active_clean ;; n <- get_num_pgs ;; ret (a =? n).
Definition is_recovered : MM bool := a <- get_num_active_recovered ;; n <- get_num_pgs ;; ret (a =? n).
Definition is_active_or_down : MM bool := a <- get_num_active_down ;; n <- get_num_pgs ;; ret (a =? n).
Definition is_active : MM bool := a <- get_num_active ;; n <- get_num_pgs ;; ret (a =? n).

Definition expand_pool (pool_name : string) (by_ : Z) (max_pgs : pyval) : MM unit :=
  s <- get ;;
  assert_ (bool_decide (is_Some (pools s !! pool_name))) "pool_name in self.pools" ;;
  creating <- get_num_creating ;;
  if 0 <? creating then ret tt
  else
    s <- get ;;
    cur <- of_option (KeyError pool_name) (pools s !! pool_name) ;;
    if py_gt (PInt (cur + by_)) max_pgs then ret tt
    else
      let new_pg_num := cur + by_ in
      set_pool_property pool_name "pg_num" new_pg_num ;;
      modify (set_pools <[pool_name := new_pg_num]>).

Definition set_pool_pgpnum (pool_name : string) : MM unit :=
  s <- get ;;
  assert_ (bool_decide (is_Some (pools s !! pool_name))) "pool_name in self.pools" ;;
  creating <- get_num_creating ;;
  if 0 <? creating then ret tt
  else
    s <- get ;;
    n <- of_option (KeyError pool_name) (pools s !! pool_name) ;;
    set_pool_property pool_name "pgp_num" n.

(** All pages of [pg <pgid> list_missing], concatenated. *)
Definition extend_objects (r j : pyval) : MM pyval :=
  ro <- subscript r "objects" ;; rl <- as_list ro ;;
  jo <- subscript j "objects" ;; jl <- as_list jo ;;
  d <- as_dict r ;;
  ret (PDict (dict_set "objects" (PList (rl ++ jl)) d)).
Definition list_pg_missing (pgid : string) : MM pyval :=
  r <- loop fuel (fun st : option pyval * pyval =>
    let '(r, offset) := st in
    out <- raw_cluster_cmd ["--"; "pg"; pgid; "list_missing"; Json.dumps offset] ;;
    j <- json_loads out ;;
    r <- match r with None => ret j | Some r => extend_objects r j end ;;
    jd <- as_dict j ;;
    match dict_lookup "more" jd with
    | None => ret (inr r)
    | Some more =>
        if match num_of more with Some q => Qeq_bool q 0 | None => false end then ret (inr r)
        else
          jo <- subscript j "objects" ;; jl <- as_list jo ;;
          o <- of_option IndexError (last jl) ;;
          offset <- subscript o "oid" ;;
          ret (inl (Some r, offset))
    end) (None, PDict []) ;;
  d <- as_dict r ;;
  ret (PDict (if dict_has "more" d then dict_del "more" d else d)).

(** ** Scrubbing *)

Definition pg_flag (flag pool pgnum : string) : MM bool :=
  pgstr <- get_pgid pool pgnum ;;
  r <- get_single_pg_stats pgstr ;;
  stats <- of_option (TypeError "'NoneType' object has no attribute '__getitem__'") r ;;
  v <- subscript stats "state" ;; st <- as_str v ;;
  ret (str_in flag st).
Definition pg_scrubbing := pg_flag "scrub".
Definition pg_repairing := pg_flag "repair".
Definition pg_inconsistent := pg_flag "inconsistent".
Definition get_last_scrub_stamp (pool pgnum : string) : MM pyval :=
  pgstr <- get_pgid pool pgnum ;;
  r <- get_single_pg_stats pgstr ;;
  stats <- of_option (TypeError "'NoneType' object has no attribute '__getitem__'") r ;;
  subscript stats "last_scrub_stamp".

Definition RESEND_TIMEOUT : Z := 120.
Definition FATAL_TIMEOUT : Z := RESEND_TIMEOUT * 3.
Definition SLEEP_TIME : Z := 10.
Definition do_pg_scrub (pool pgnum : string) (stype : string) : MM unit :=
  init <- get_last_scrub_stamp pool pgnum ;;
  while fuel
    (fun _ => stamp <- get_last_scrub_stamp pool pgnum ;; ret (py_eq init stamp))
    (fun timer : Z =>
       assert_ (timer <? FATAL_TIMEOUT) ("fatal timeout trying to " +:+ stype) ;;
       when (timer mod RESEND_TIMEOUT =? 0)
         (pgid <- get_pgid pool pgnum ;; raw_cluster_cmd ["pg"; stype; pgid] ;; ret tt) ;;
       sleep (inject_Z SLEEP_TIME) ;;
       ret (timer + SLEEP_TIME)) 0 ;;
  ret tt.

End Manager.
