(* ===== verification/ManagerWait.v ===== *)
(** * [ZbkcManager] (tasks/zbkc_manager.py): waiting for the cluster, and daemons

    The polling loops and the kill/revive operations of the manager.  A [timeout]
    is [None] or a number of seconds; the clock is the environment's. *)
From Stdlib Require Import Ascii QArith Qround Lqa.
From S2P Require Import Prelude PyVal World ZbkcManager.

Section Waits.
Context {E : Env} {F : Fuel}.
Abbreviation MM A := (M mgr A).

(** [if time.time() - start >= timeout: dump the pgs and assert that it is not so] *)
Definition dump_and_fail (start timeout : Q) (msg : string) : MM unit :=
  t <- time ;;
  when (Qle_bool timeout (t - start))
    (raw_cluster_cmd ["pg"; "dump"] ;;
     t' <- time ;;
     assert_ (Qlt_bool (t' - start) timeout) msg).

Definition wait_for_clean (timeout : option Q) : MM unit :=
  start <- time ;;
  num_active_clean <- get_num_active_clean ;;
  while fuel
    (fun _ => b <- is_clean ;; ret (negb b))
    (fun '(start, num_active_clean) =>
       start <- match timeout with
                | None => ret start
                | Some tmo =>
                    progress <- get_is_making_recovery_progress ;;
                    if progress : bool then time
                    else dump_and_fail start tmo "failed to become clean before timeout expired" ;; ret start
                end ;;
       cur_active_clean <- get_num_active_clean ;;
       l <- (if negb (cur_active_clean =? num_active_clean)
             then t <- time ;; ret (t, cur_active_clean) else ret (start, num_active_clean)) ;;
       sleep 3 ;;
       ret l) (start, num_active_clean) ;;
  ret tt.

Definition are_all_osds_up : MM bool :=
  x <- get_osd_dump ;;
  ups <- map_ (fun y => v <- subscript y "up" ;; ret (py_gt v (PInt 0))) x ;;
  ret (Nat.eqb (length x) (length (filter (fun b => b = true) ups))).

Definition wait_for_all_up (timeout : option Q) : MM unit :=
  start <- time ;;
  while fuel
    (fun _ => b <- are_all_osds_up ;; ret (negb b))
    (fun _ =>
       match timeout with
       | None => ret tt
       | Some tmo => t <- time ;; assert_ (Qlt_bool (t - start) tmo) "timeout expired in wait_for_all_up"
       end ;;
       sleep 3) tt.

Definition wait_for_recovery (timeout : option Q) : MM unit :=
  start <- time ;;
  num_active_recovered <- get_num_active_recovered ;;
  while fuel
    (fun _ => b <- is_recovered ;; ret (negb b))
    (fun '(start, num_active_recovered) =>
       now_ <- time ;;
       start <- match timeout with
                | None => ret start
                | Some tmo =>
                    progress <- get_is_making_recovery_progress ;;
                    if progress : bool then time
                    else
                      when (Qle_bool tmo (now_ - start))
                        (raw_cluster_cmd ["pg"; "dump"] ;;
                         assert_ (Qlt_bool (now_ - start) tmo) "failed to recover before timeout expired") ;;
                      ret start
                end ;;
       cur_active_recovered <- get_num_active_recovered ;;
       l <- (if negb (cur_active_recovered =? num_active_recovered)
             then t <- time ;; ret (t, cur_active_recovered) else ret (start, num_active_recovered)) ;;
       sleep 3 ;;
       ret l) (start, num_active_recovered) ;;
  ret tt.

(** The body shared by [wait_for_active] and [wait_for_active_or_down]: fail at
    the timeout, and restart it when the counter moved. *)
Definition wait_step (timeout : option Q) (count : MM Z) (l : Q * Z) : MM (Q * Z) :=
  let '(start, num) := l in
  match timeout with
  | None => ret tt
  | Some tmo => dump_and_fail start tmo "failed to recover before timeout expired"
  end ;;
  cur <- count ;;
  l <- (if negb (cur =? num) then t <- time ;; ret (t, cur) else ret (start, num)) ;;
  sleep 3 ;;
  ret l.

Definition wait_for_active (timeout : option Q) : MM unit :=
  start <- time ;;
  num_active <- get_num_active ;;
  while fuel (fun _ => b <- is_active ;; ret (negb b)) (wait_step timeout get_num_active)
    (start, num_active) ;;
  ret tt.

Definition wait_for_active_or_down (timeout : option Q) : MM unit :=
  start <- time ;;
  num_active_down <- get_num_active_down ;;
  while fuel (fun _ => b <- is_active_or_down ;; ret (negb b)) (wait_step timeout get_num_active_down)
    (start, num_active_down) ;;
  ret tt.

Definition osd_is_up (osd : Z) : MM bool :=
  osds <- get_osd_dump ;;
  o <- of_option IndexError
         (if 0 <=? osd then osds !! Z.to_nat osd
          else if - osd <=? Z.of_nat (length osds) then osds !! Z.to_nat (Z.of_nat (length osds) + osd) else None) ;;
  v <- subscript o "up" ;; ret (py_gt v (PInt 0)).

Definition wait_till_osd_is_up (osd : Z) (timeout : option Q) : MM unit :=
  start <- time ;;
  while fuel
    (fun _ => b <- osd_is_up osd ;; ret (negb b))
    (fun _ =>
       match timeout with
       | None => ret tt
       | Some tmo =>
           t <- time ;;
           assert_ (Qlt_bool (t - start) tmo)
             ("osd." +:+ zs osd +:+ " failed to come up before timeout expired")
       end ;;
       sleep 3) tt.

Definition wait_till_active (timeout : option Q) : MM unit :=
  start <- time ;;
  while fuel
    (fun _ => b <- is_active ;; ret (negb b))
    (fun _ =>
       match timeout with
       | None => ret tt
       | Some tmo => dump_and_fail start tmo "failed to become active before timeout expired"
       end ;;
       sleep 3) tt.

(** ** OSD daemons *)

Definition mark_out_osd (osd : Z) : MM unit := raw_cluster_cmd ["osd"; "out"; zs osd] ;; ret tt.
Definition mark_down_osd (osd : Z) : MM unit := raw_cluster_cmd ["osd"; "down"; zs osd] ;; ret tt.
Definition mark_in_osd (osd : Z) : MM unit := raw_cluster_cmd ["osd"; "in"; zs osd] ;; ret tt.

Definition _assert_ipmi (r : remote) : MM unit :=
  assert_ (has_ipmi_credentials r)
    "powercycling requested but RemoteConsole is not initialized.  Check ipmi config.".
Definition cfg (key : string) : MM pyval := gets (fun s => dict_get key PNone (config s)).

Definition daemon_of (op : daemon_op) (role id : string) : MM unit :=
  s <- get ;; daemon op role id (cluster s).

(** [d % n] of a number *)
Definition fmt_d (v : pyval) : MM string :=
  match v with
  | PStr _ => raise (TypeError "%d format: a number is required, not str")
  | _ => n <- as_int v ;; ret (zs n)
  end.

Definition kill_osd (osd : Z) : MM unit :=
  powercycle <- cfg "powercycle" ;;
  crash <- cfg "bdev_inject_crash" ;;
  prob <- cfg "bdev_inject_crash_probability" ;;
  if truthy powercycle then
    r <- find_remote "osd" (zs osd) ;;
    _assert_ipmi r ;;
    emit (EvConsole PowerOff r) ;; ret tt
  else if truthy crash && truthy prob then
    u <- uniform 0 1 ;;
    p <- as_num prob ;;
    if Qlt_bool u p then
      delay <- fmt_d crash ;;
      raw_cluster_cmd ["--"; "tell"; "osd." +:+ zs osd; "injectargs"; "--bdev-inject-crash " +:+ delay] ;;
      survived <- catch (daemon_of DWait "osd" (zs osd) ;; ret true) (fun _ => ret false) ;;
      if survived : bool then raise (RuntimeError ("osd." +:+ zs osd +:+ " did not fail")) else ret tt
    else daemon_of DStop "osd" (zs osd)
  else daemon_of DStop "osd" (zs osd).

Definition blackhole_kill_osd (osd : Z) : MM unit :=
  raw_cluster_cmd ["--"; "tell"; "osd." +:+ zs osd; "injectargs"; "--objectstore-blackhole"] ;;
  sleep 2 ;;
  daemon_of DStop "osd" (zs osd).

Definition make_admin_daemon_dir (r : remote) : MM unit :=
  run r ["sudo"; "install"; "-d"; "-m0777"; "--"; "/var/run/zbkc"] true ;; ret tt.

(** [d[a][b]] on nested maps *)
Definition lookup2 {V} (m : gmap string (gmap string V)) (a b : string) : MM V :=
  inner <- of_option (KeyError a) (m !! a) ;; of_option (KeyError b) (inner !! b).
Definition mount_osd_data (c : context) (r : remote) (cl osd : string) : MM unit :=
  let role := cl +:+ ".osd." +:+ osd in
  let alt_role := if negb (String.eqb cl "zbkc") then role else "osd." +:+ osd in
  match roles_to_dev c !! r with
  | None => ret tt
  | Some devs =>
      let role := if bool_decide (is_Some (devs !! alt_role)) then alt_role else role in
      match devs !! role with
      | None => ret tt
      | Some dev =>
          mount_options <- lookup2 (roles_to_dev_mount_options c) r role ;;
          fstype <- lookup2 (roles_to_dev_fstype c) r role ;;
          let mnt := "/var/lib/zbkc/osd/" +:+ cl +:+ "-" +:+ osd in
          run r ["sudo"; "mount"; "-t"; fstype; "-o"; str_join "," mount_options; dev; mnt] true ;; ret tt
      end
  end.

Definition revive_osd (osd : Z) (timeout : Q) (skip_admin_check : bool) : MM unit :=
  powercycle <- cfg "powercycle" ;;
  when (truthy powercycle)
    (r <- find_remote "osd" (zs osd) ;;
     _assert_ipmi r ;;
     emit (EvConsole PowerOn r) ;;
     up <- ask (EvConsole (CheckStatus (Some 300)) r) ;;
     (if negb up then raise (PyException ("Failed to revive osd." +:+ zs osd +:+ " via ipmi")) else ret tt) ;;
     emit (EvReconnect r 60) ;;
     s <- get ;;
     mount_osd_data (ctx s) r (cluster s) (zs osd) ;;
     make_admin_daemon_dir r ;;
     daemon_of DReset "osd" (zs osd)) ;;
  daemon_of (DRestart []) "osd" (zs osd) ;;
  when (negb skip_admin_check)
    (wait_run_admin_socket "osd" (zs osd) ["dump_ops_in_flight"] timeout).

Definition signal_osd (osd : Z) (sig : Z) : MM unit := daemon_of (DSignal sig) "osd" (zs osd).

(** ** Monitors and metadata servers *)

Definition signal_mon (mon : string) (sig : Z) : MM unit := daemon_of (DSignal sig) "mon" mon.
Definition kill_mon (mon : string) : MM unit :=
  powercycle <- cfg "powercycle" ;;
  if truthy powercycle then
    r <- find_remote "mon" mon ;; _assert_ipmi r ;; emit (EvConsole PowerOff r) ;; ret tt
  else daemon_of DStop "mon" mon.
Definition revive_mon (mon : string) : MM unit :=
  powercycle <- cfg "powercycle" ;;
  when (truthy powercycle)
    (r <- find_remote "mon" mon ;; _assert_ipmi r ;; emit (EvConsole PowerOn r) ;; make_admin_daemon_dir r) ;;
  daemon_of (DRestart []) "mon" mon.

Definition get_mon_status (mon : string) : MM pyval :=
  s <- get ;;
  c <- of_option (KeyError (cluster s)) (conf (ctx s) !! cluster s) ;;
  sec <- of_option (KeyError ("mon." +:+ mon)) (c !! ("mon." +:+ mon)) ;;
  a <- of_option (KeyError "mon addr") (dict_lookup "mon addr" sec) ;;
  addr <- as_str a ;;
  out <- raw_cluster_cmd ["-m"; addr; "mon_status"] ;; json_loads out.
Definition get_mon_quorum : MM (list pyval) :=
  out <- raw_cluster_cmd ["quorum_status"] ;;
  j <- json_loads out ;; q <- subscript j "quorum" ;; as_list q.
Definition wait_for_mon_quorum_size (size : Z) (timeout : option Q) : MM unit :=
  start <- time ;;
  while fuel
    (fun _ => q <- get_mon_quorum ;; ret (negb (Z.of_nat (length q) =? size)))
    (fun _ =>
       match timeout with
       | None => ret tt
       | Some tmo =>
           t <- time ;;
           assert_ (Qlt_bool (t - start) tmo)
             ("failed to reach quorum size " +:+ zs size +:+ " before timeout expired")
       end ;;
       sleep 3) tt.
Definition get_mon_health : MM pyval :=
  out <- raw_cluster_cmd ["health"; "--format=json"] ;; json_loads out.

(** [out.splitlines()] for texts with newline line ends *)
Definition splitlines (s : string) : list string :=
  match split_on nl s with
  | [] => []
  | l => match last l with Some EmptyString => removelast l | _ => l end
  end.
Definition get_mds_status (mds : string) : MM (option pyval) :=
  out <- raw_cluster_cmd ["mds"; "dump"; "--format=json"] ;;
  j <- json_loads (str_join " " (tail (splitlines out))) ;;
  v <- subscript j "info" ;; info <- as_dict v ;;
  find_by "name" mds (map snd info).

(** [zbkc -w] in the background *)
Definition run_zbkc_w : MM proc :=
  s <- get ;; start (controller s) ["sudo"; "daemon-helper"; "kill"; "zbkc"; "--cluster"; cluster s; "-w"].

Definition get_filepath (s : mgr) : string := "/var/lib/zbkc/osd/" +:+ cluster s +:+ "-{id}".

End Waits.
