(* ===== verification/Conf.v ===== *)
(** * The cluster's configuration file: [write_conf] (tasks/zbkc_manager.py)

    [ctx.zbkc[cluster].conf] belongs to teuthology's [ctx], which the manager, the file
    system objects and the tasks share.  Whatever holds a [ctx] is an instance of
    [HasCtx]; the text of a configuration ([ConfigObj.write]) is an argument. *)
From Stdlib Require Import Ascii QArith Qround Lqa.
From S2P Require Import Prelude PyVal World ZbkcManager.

Class HasCtx (S : Type) := the_ctx : S -> context.
#[global] Instance mgr_ctx : HasCtx mgr := ctx.

(** [ctx.zbkc[cluster].conf] changed *)
Definition with_conf (f : gmap string (gmap string dict) -> gmap string (gmap string dict)) (c : context) : context :=
  Context_ (testdir c) (cluster_roles c) (f (conf c)) (roles_to_dev c) (roles_to_dev_mount_options c)
    (roles_to_dev_fstype c).
Definition set_conf (f : gmap string (gmap string dict) -> gmap string (gmap string dict)) (m : mgr) : mgr :=
  Mgr (with_conf f (ctx m)) (controller m) (cluster m) (config m) (next_pool_id m) (pools m).

Section Conf.
Context {E : Env} {S : Type} `{!HasCtx S} (render_conf : gmap string dict -> string).
Abbreviation MS A := (M S A).

(** [ctx.zbkc[cluster].conf] *)
Definition cluster_conf (cl : string) : MS (gmap string dict) :=
  s <- get ;; of_option (KeyError cl) (conf (the_ctx s) !! cl).
(** [cluster.run(args=args, wait=False)]: a process on every machine of a (sub-)cluster *)
Definition start_on (rs : list remote) (args : list string) : MS (list proc) := map_ (fun r => start r args) rs.
(** [run.wait(procs)] *)
Definition wait_all (procs : list proc) : MS unit := for_ procs (fun p => wait_proc p true ;; ret tt).
(** [teuthology.feed_many_stdins_and_close(fp, procs)] *)
Definition feed_many_stdins_and_close (data : string) (procs : list proc) : MS unit :=
  for_ procs (fun p => on_proc (PWrite data) p ;; ret tt) ;;
  for_ procs (fun p => on_proc PCloseStdin p ;; ret tt).
Definition machines (c : context) : list remote := map fst (cluster_roles c).
Definition run_everywhere (args : list string) : MS (list proc) :=
  s <- get ;; start_on (machines (the_ctx s)) args.

Definition write_conf (conf_path cl : string) : MS unit :=
  c <- cluster_conf cl ;;
  writes <- run_everywhere
    ["sudo"; "mkdir"; "-p"; "/etc/zbkc"; "&&"; "sudo"; "chmod"; "0755"; "/etc/zbkc"; "&&";
     "sudo"; "python"; "-c";
     "import shutil, sys; shutil.copyfileobj(sys.stdin, file(sys.argv[1], " +:+ dqs +:+ "wb" +:+ dqs +:+ "))";
     conf_path; "&&"; "sudo"; "chmod"; "0644"; conf_path] ;;
  feed_many_stdins_and_close (render_conf c) writes ;;
  wait_all writes.

End Conf.
