(* ===== verification/Scrub.v ===== *)
(** * [Scrubber] (tasks/scrub.py): scrubbing random OSDs

    The scrubber's fields are the record [scr].  [teuthology.get_first_mon] and
    [num_instances_of_type] are not part of the sources and are arguments of the
    section. *)
From Stdlib Require Import Ascii QArith Qround Lqa.
From S2P Require Import Prelude PyVal World ZbkcManager ManagerWait.

Record scr := Scr { sc_manager : mgr; osds : list Z; sc_config : dict }.
Definition set_sc_manager (m : mgr) (s : scr) : scr := Scr m (osds s) (sc_config s).

Section Scrub.
Context {E : Env} {F : Fuel}.
Context (get_first_mon : context -> dict -> string) (num_instances_of_type : context -> string -> Z).
Abbreviation MS A := (M scr A).

(** [Scrubber(manager, config)]: wait for clean, read the status, start scrubbing. *)
Definition init (config : dict) : M mgr scr :=
  wait_for_clean None ;;
  st <- get_osd_status ;;
  emit (EvSpawn "do_scrub") ;;
  m <- get ;;
  ret (Scr m (st_up st) config).

Definition do_join : MS unit := emit (EvJoin "do_scrub") ;; ret tt.

Definition do_scrub : MS unit :=
  s <- get ;;
  let frequency := dict_get "frequency" (PInt 30) (sc_config s) in
  let deep := dict_get "deep" (PInt 0) (sc_config s) in
  while fuel (fun _ => b <- stopping ;; ret (negb b))
    (fun _ =>
       s <- get ;;
       osd <- choice (osds s) ;;
       let cmd := if truthy deep then "deep-scrub" else "scrub" in
       zoom sc_manager set_sc_manager (raw_cluster_cmd ["osd"; cmd; zs osd]) ;;
       d <- as_num frequency ;;
       sleep d) tt.

(** [(mon,) = ctx.cluster.only(first_mon).remotes.iterkeys()] and
    [ZbkcManager(mon, ctx=ctx, logger=...)] *)
Definition first_mon_manager (c : context) (config : dict) : M mgr unit :=
  match only (String.eqb (get_first_mon c config)) c with
  | [mon] => modify (fun _ => Mgr c mon "zbkc" [] 0 ∅) ;; init_pools
  | _ => raise (ValueError "need exactly one value to unpack")
  end.

(** The task around the code it is entered for. *)
Definition task {A} (c : context) (config : dict) (body : M mgr A) : M mgr A :=
  first_mon_manager c config ;;
  let num_osds := num_instances_of_type c "osd" in
  while fuel (fun _ => st <- get_osd_status ;; ret (Z.of_nat (length (st_up st)) <? num_osds))
    (fun _ => sleep 10) tt ;;
  proc <- init config ;;
  finally body (zoom (fun m => set_sc_manager m proc) (fun s _ => sc_manager s) do_join).

End Scrub.
