(* ===== verification/FSStatus.v ===== *)
(** * [FSStatus] (tasks/zbkcfs/filesystem.py): a snapshot of the FSMap

    The snapshot is the decoded JSON value [map].  A generator is a function of the
    loop body that consumes it ([Some r] leaves the loop), so that it is as lazy as
    in the source: fields that a [return] never reaches are never read.  The order of
    [dict.values()] is the order of the document. *)
From Stdlib Require Import Ascii QArith Qround Lqa.
From S2P Require Import Prelude PyVal World ZbkcManager.

Section FSStatus.
Context {E : Env} {S : Type}.
Abbreviation MF A := (M S A).

(** [d.values()] *)
Definition values (v : pyval) : MF (list pyval) := d <- as_dict v ;; ret (d.*2).
Definition subscript_list (v : pyval) (k : string) : MF (list pyval) := x <- subscript v k ;; as_list x.

Definition mdsmap_of (fs : pyval) : MF pyval := subscript fs "mdsmap".
Definition infos_of (fs : pyval) : MF (list pyval) :=
  m <- mdsmap_of fs ;; i <- subscript m "info" ;; values i.

Section Generators.
Context {R : Type} (map : pyval) (body : pyval -> MF (option R)).
Definition get_filesystems : MF (option R) :=
  l <- subscript_list map "filesystems" ;; for_return l body.
Definition get_standbys : MF (option R) :=
  l <- subscript_list map "standbys" ;; for_return l body.
Definition get_all : MF (option R) :=
  r <- get_standbys ;;
  match r with
  | Some _ => ret r
  | None =>
      l <- subscript_list map "filesystems" ;;
      for_return l (fun fs => infos <- infos_of fs ;; for_return infos body)
  end.
End Generators.

Definition get_fsmap (map fscid : pyval) : MF pyval :=
  r <- get_filesystems map (fun fs =>
    match fscid with
    | PNone => ret (Some fs)
    | _ => i <- subscript fs "id" ;; ret (if py_eq i fscid then Some fs else None)
    end) ;;
  of_option (RuntimeError "FSCID not in map") r.

Definition get_fsmap_byname (map : pyval) (name : option string) : MF pyval :=
  r <- get_filesystems map (fun fs =>
    match name with
    | None => ret (Some fs)
    | Some n =>
        m <- mdsmap_of fs ;; v <- subscript m "fs_name" ;; ret (if eq_str v n then Some fs else None)
    end) ;;
  of_option (RuntimeError "FS not in map") r.

Definition get_replays {R} (map fscid : pyval) (body : pyval -> MF (option R)) : MF (option R) :=
  fs <- get_fsmap map fscid ;;
  infos <- infos_of fs ;;
  for_return infos (fun info =>
    st <- subscript info "state" ;;
    if eq_str st "up:standby-replay" then body info else ret None).

Definition get_ranks {R} (map fscid : pyval) (body : pyval -> MF (option R)) : MF (option R) :=
  fs <- get_fsmap map fscid ;;
  infos <- infos_of fs ;;
  for_return infos (fun info =>
    r <- subscript info "rank" ;;
    if py_le (PInt 0) r then body info else ret None).

Definition get_rank (map fscid rank : pyval) : MF pyval :=
  r <- get_ranks map fscid (fun info =>
    r <- subscript info "rank" ;; ret (if py_eq r rank then Some info else None)) ;;
  of_option (RuntimeError "FSCID has no rank") r.

Definition get_mds (map : pyval) (name : string) : MF (option pyval) :=
  get_all map (fun info =>
    n <- subscript info "name" ;; ret (if eq_str n name then Some info else None)).

Definition get_mds_addr (map : pyval) (name : string) : MF pyval :=
  info <- get_mds map name ;;
  match info with
  | Some i => if truthy i then subscript i "addr" else raise (RuntimeError "MDS id not found in map")
  | None => raise (RuntimeError "MDS id not found in map")
  end.

(** [list(gen)], for a generator *)
Definition collect (gen : (pyval -> M (S * list pyval) (option unit)) -> M (S * list pyval) (option unit))
  : MF (list pyval) :=
  fun s w =>
    match gen (fun x => modify (fun p => (p.1, p.2 ++ [x])) ;; ret None) (s, []) w with
    | (Ret _, (s', l), w') => (Ret l, s', w')
    | (Exc e, (s', _), w') => (Exc e, s', w')
    | (Stuck, (s', _), w') => (Stuck, s', w')
    end.
End FSStatus.

(** A generator that respects [R] gives a list that does. *)
Definition lifted {E : Env} {S T} (R : relation (S * world)) : relation ((S * T) * world) :=
  fun p q => R (p.1.1, p.2) (q.1.1, q.2).
#[export] Instance lifted_rel {E : Env} {S T} (R : relation (S * world)) `{!WorldRel R} :
  WorldRel (@lifted E S T R).
Proof.
  split.
  - split; [intros [[s t] w]; unfold lifted; reflexivity|].
    intros p1 p2 p3 H1 H2. unfold lifted in *. by etrans.
  - intros [s t] w. unfold lifted; cbn. apply (draw_ok (R := R)).
Qed.
Lemma runs_collect {E : Env} {S} total (R : relation (S * world)) `{!WorldRel R}
  (gen : (pyval -> M (S * list pyval) (option unit)) -> M (S * list pyval) (option unit)) :
  (forall body, (forall x, Runs total (lifted R) (body x)) -> Runs total (lifted R) (gen body)) ->
  Runs total R (collect gen).
Proof.
  intros Hg s w. unfold wp, collect.
  set (b := fun x => modify (fun p : S * list pyval => (p.1, p.2 ++ [x])) ;; ret None).
  assert (Hb : forall x, Runs total (lifted R) (b x)).
  { intros x [s1 l1] w1. split; [|done]. unfold lifted; cbn. reflexivity. }
  specialize (Hg b Hb (s, []) w). unfold wp in Hg.
  destruct (gen b (s, []) w) as [[[] [s' l]] w']; destruct Hg as [Hr Ht]; (split; [exact Hr|]); auto;
    intros ->; by destruct (Ht eq_refl).
Qed.
#[export] Hint Extern 1 (Runs _ _ (collect _)) =>
  (apply runs_collect; [exact _|intros; runs_tac]) : runs.

(** [FSStatus(mon_manager)]: the map it reads *)
Definition status {E : Env} : M mgr pyval :=
  out <- raw_cluster_cmd ["fs"; "dump"; "--format=json-pretty"] ;; json_loads out.
