(* ===== verification/Filesystem.v ===== *)
(** * [MDSCluster] and [Filesystem] (tasks/zbkcfs/filesystem.py)

    The fields of both classes are the record [fsys]; [PNone] is an unset [id] and
    [None] an unset name.  Not part of the sources, and arguments of the section:
    [misc.all_roles_of_type], [misc.get_clients] (the remote of a client role), the
    remote a daemon handle runs on, and [schedule], the order in which
    [teuthology.parallel] runs its callbacks. *)
From Stdlib Require Import Ascii QArith Qround Lqa.
From S2P Require Import Prelude PyVal World ZbkcManager ManagerWait FSStatus.

Record fsys := Fsys
  { mon_manager : mgr;
    mds_ids : list string;
    client_id : string; client_remote : remote;
    id : pyval; name : option string;
    metadata_pool_name : option string;
    data_pools : option (list (pyval * string)) }.
Definition set_mon_manager (m : mgr) (f : fsys) : fsys :=
  Fsys m (mds_ids f) (client_id f) (client_remote f) (id f) (name f) (metadata_pool_name f) (data_pools f).
Definition set_ident (i : pyval) (n : option string) (f : fsys) : fsys :=
  Fsys (mon_manager f) (mds_ids f) (client_id f) (client_remote f) i n (metadata_pool_name f) (data_pools f).
Definition set_metadata_pool (p : option string) (f : fsys) : fsys :=
  Fsys (mon_manager f) (mds_ids f) (client_id f) (client_remote f) (id f) (name f) p (data_pools f).
Definition set_data_pools (d : option (list (pyval * string))) (f : fsys) : fsys :=
  Fsys (mon_manager f) (mds_ids f) (client_id f) (client_remote f) (id f) (name f) (metadata_pool_name f) d.

Definition DAEMON_WAIT_TIMEOUT : Q := 120.
Definition EINVAL : Z := 22.

(** A dict with values other than strings as keys *)
Fixpoint pd_set (k : pyval) (v : string) (d : list (pyval * string)) : list (pyval * string) :=
  match d with
  | [] => [(k, v)]
  | (k', v') :: d' => if py_eq k k' then (k', v) :: d' else (k', v') :: pd_set k v d'
  end.
Fixpoint pd_get (k : pyval) (d : list (pyval * string)) : option string :=
  match d with
  | [] => None
  | (k', v) :: d' => if py_eq k k' then Some v else pd_get k d'
  end.

(** [sorted(l, lambda a, b: cmp(a[0], b[0]))]: the sort is stable *)
Fixpoint insert_by (x : pyval * pyval) (l : list (pyval * pyval)) : list (pyval * pyval) :=
  match l with
  | [] => [x]
  | y :: l' => if py_le x.1 y.1 then x :: l else y :: insert_by x l'
  end.
Definition sort_by (l : list (pyval * pyval)) : list (pyval * pyval) := fold_right insert_by [] l.

Section Filesystem.
Context {E : Env} {F : Fuel}.
Context (all_roles_of_type : context -> string -> list string)
        (client_remote_of : context -> string -> remote)
        (daemon_remote : string -> remote)
        (schedule : list string -> list string).
Abbreviation MF A := (M fsys A).

Definition fman {A} (m : M mgr A) : MF A := zoom mon_manager set_mon_manager m.
Definition cmd (args : list string) : MF string := fman (raw_cluster_cmd args).
Definition fs_status : MF pyval := fman status.
Definition the {A} (what : string) (o : option A) : MF A := of_option (TypeError what) o.

(** ** Configuration *)

Definition json_asok (command : list string) (service_type service_id : string) : MF pyval :=
  proc <- fman (admin_socket service_type service_id command true 0) ;;
  if String.eqb (str_strip (stdout proc)) EmptyString then ret PNone else json_loads (stdout proc).

(** [sorted(names)[0]] *)
Definition first_name (l : list string) : option string :=
  match l with
  | [] => None
  | x :: l' => Some (fold_left (fun a b => match str_cmp b a with Lt => b | _ => a end) l' x)
  end.
Definition get_config (key : string) (service_type : option string) : MF pyval :=
  let service_type := default "mon" service_type in
  f <- get ;;
  service_id <- of_option IndexError (first_name (all_roles_of_type (ctx (mon_manager f)) service_type)) ;;
  j <- json_asok ["config"; "get"; key] service_type service_id ;;
  subscript j key.

(** ** Daemons of the cluster *)

Definition _one_or_all (mds_id : option string) (cb : string -> MF unit) (in_parallel : bool) : MF unit :=
  match mds_id with
  | None => f <- get ;; for_ (if in_parallel then schedule (mds_ids f) else mds_ids f) cb
  | Some i => cb i
  end.
(** [self.mds_daemons[id_].op()] *)
Definition mds_daemon (op : daemon_op) (id_ : string) : MF unit :=
  f <- get ;;
  if bool_decide (id_ ∈ mds_ids f) then daemon op "mds" id_ "zbkc" else raise (KeyError id_).

Definition mds_stop (mds_id : option string) : MF unit := _one_or_all mds_id (mds_daemon DStop) true.
Definition mds_fail_one (id_ : string) : MF unit := cmd ["mds"; "fail"; id_] ;; ret tt.
Definition mds_fail (mds_id : option string) : MF unit := _one_or_all mds_id mds_fail_one true.
Definition mds_restart (mds_id : option string) : MF unit := _one_or_all mds_id (mds_daemon (DRestart [])) true.
Definition mds_fail_restart (mds_id : option string) : MF unit :=
  _one_or_all mds_id (fun id_ =>
    mds_daemon DStop id_ ;; mds_fail_one id_ ;; mds_daemon (DRestart []) id_) true.

Definition osd_dump_field (k : string) : MF pyval :=
  out <- cmd ["osd"; "dump"; "--format=json-pretty"] ;; j <- json_loads out ;; subscript j k.

(** [{p['pool']: p['pool_name'] for p in pools}] *)
Definition pool_names (pools : list pyval) : MF (list (pyval * string)) :=
  kvs <- map_ (fun p => k <- subscript p "pool" ;; v <- subscript p "pool_name" ;;
                        n <- as_str v ;; ret (k, n)) pools ;;
  ret (fold_left (fun d kv => pd_set kv.1 kv.2 d) kvs []).

Definition str_of_scalar (v : pyval) : MF string :=
  match v with
  | PInt z => ret (zs z)
  | PFloat q => ret (str_of_Q q)
  | PStr s => ret s
  | PBool b => ret (if b then "True" else "False")
  | PNone => ret "None"
  | _ => raise (TypeError "not a scalar")
  end.
Definition delete_pool (p : string) : MF unit :=
  cmd ["osd"; "pool"; "delete"; p; p; "--yes-i-really-really-mean-it"] ;; ret tt.
Definition fs_name_of (fs : pyval) : MF string :=
  m <- mdsmap_of fs ;; n <- subscript m "fs_name" ;; as_str n.

(** Remove one filesystem: fail its ranks, remove it, delete its pools. *)
Definition delete_filesystem (pool_id_name : list (pyval * string)) (fs : pyval) : MF unit :=
  mdsmap <- mdsmap_of fs ;;
  mp <- subscript mdsmap "metadata_pool" ;;
  metadata_pool <- of_option (KeyError "metadata_pool") (pd_get mp pool_id_name) ;;
  up <- subscript mdsmap "up" ;; gids <- values up ;;
  for_ gids (fun gid => g <- str_of_scalar gid ;; cmd ["mds"; "fail"; g] ;; ret tt) ;;
  n <- fs_name_of fs ;;
  cmd ["fs"; "rm"; n; "--yes-i-really-mean-it"] ;;
  delete_pool metadata_pool ;;
  dps <- subscript_list mdsmap "data_pools" ;;
  for_ dps (fun d =>
    data_pool <- of_option (KeyError "data_pool") (pd_get d pool_id_name) ;;
    delete_pool data_pool).
Definition delete_all_filesystems : MF unit :=
  v <- osd_dump_field "pools" ;; pools <- as_list v ;;
  pool_id_name <- pool_names pools ;;
  status <- fs_status ;;
  get_filesystems status (fun fs =>
    n <- fs_name_of fs ;; cmd ["fs"; "set"; n; "cluster_down"; "true"] ;; ret (@None unit)) ;;
  status <- fs_status ;;
  get_filesystems status (fun fs => delete_filesystem pool_id_name fs ;; ret (@None unit)) ;;
  ret tt.

Definition get_standby_daemons : MF (gset string) :=
  st <- fs_status ;;
  l <- collect (get_standbys st) ;;
  names <- map_ (fun s => n <- subscript s "name" ;; as_str n) l ;;
  ret (list_to_set names).

Definition get_mds_info (mds_id : string) : MF (option pyval) := st <- fs_status ;; get_mds st mds_id.

Definition is_full : MF bool :=
  v <- osd_dump_field "flags" ;;
  match v with
  | PStr s => ret (str_in "full" s)
  | PList l => ret (existsb (fun x => eq_str x "full") l)
  | PDict d => ret (dict_has "full" d)
  | _ => raise (TypeError "argument is not iterable")
  end.
Definition is_pool_full (pool_name : string) : MF bool :=
  v <- osd_dump_field "pools" ;; pools <- as_list v ;;
  r <- for_return pools (fun pool =>
    n <- subscript pool "pool_name" ;;
    if eq_str n pool_name then
      fl <- subscript pool "flags_names" ;; s <- as_str fl ;;
      ret (Some (bool_decide ("full" ∈ split_on "," s)))
    else ret None) ;;
  of_option (RuntimeError ("Pool not found '" +:+ pool_name +:+ "'")) r.

(** ** Filesystems *)

(** [get_pool_names(status, refresh)] with the names refreshed when asked or unset *)
Definition get_pool_names (refresh : bool) (status : option pyval) : MF unit :=
  f <- get ;;
  when (refresh || match metadata_pool_name f, data_pools f with Some _, Some _ => false | _, _ => true end)
    (status <- match status with Some s => ret s | None => fs_status end ;;
     fsmap <- get_fsmap status (id f) ;;
     osd_map <- fman get_osd_dump_json ;;
     pools <- subscript_list osd_map "pools" ;;
     id_to_name <- pool_names pools ;;
     mdsmap <- mdsmap_of fsmap ;;
     mp <- subscript mdsmap "metadata_pool" ;;
     mname <- of_option (KeyError "metadata_pool") (pd_get mp id_to_name) ;;
     modify (set_metadata_pool (Some mname)) ;;
     modify (set_data_pools (Some [])) ;;
     dps <- subscript_list mdsmap "data_pools" ;;
     for_ dps (fun d =>
       n <- of_option (KeyError "data_pool") (pd_get d id_to_name) ;;
       modify (fun f => set_data_pools (Some (pd_set d n (default [] (data_pools f)))) f))).

Definition getinfo (refresh : bool) : MF pyval :=
  status <- fs_status ;;
  f <- get ;;
  fsmap <- match id f, name f with
           | PNone, Some n => get_fsmap_byname status (Some n)
           | PNone, None =>
               fss <- collect (get_filesystems status) ;;
               match fss with
               | [fs] => ret fs
               | [] => raise (RuntimeError "no file system available")
               | _ => raise (RuntimeError "more than one file system available")
               end
           | i, _ => get_fsmap status i
           end ;;
  i <- subscript fsmap "id" ;;
  modify (fun f => set_ident i (name f) f) ;;
  n <- fs_name_of fsmap ;;
  modify (fun f => set_ident (id f) (Some n) f) ;;
  get_pool_names refresh (Some status) ;;
  ret status.

Definition deactivate (rank : Z) : MF unit :=
  if rank <? 0 then raise (RuntimeError "invalid rank")
  else if rank =? 0 then raise (RuntimeError "cannot deactivate rank 0")
  else
    f <- get ;;
    i <- fman (fmt_d (id f)) ;;
    cmd ["mds"; "deactivate"; i +:+ ":" +:+ zs rank] ;; ret tt.

Definition set_max_mds (max_mds : Z) : MF unit :=
  f <- get ;;
  n <- the "expected string" (name f) ;;
  cmd ["fs"; "set"; n; "max_mds"; zs max_mds] ;; ret tt.

Definition get_pgs_per_fs_pool : MF Z :=
  v <- get_config "mon_pg_warn_min_per_osd" None ;;
  pg_warn_min_per_osd <- as_int v ;;
  f <- get ;;
  ret (pg_warn_min_per_osd * Z.of_nat (length (all_roles_of_type (ctx (mon_manager f)) "osd"))).

Definition create : MF unit :=
  modify (fun f => set_ident (id f) (Some (default "zbkcfs" (name f))) f) ;;
  f <- get ;;
  let nm := default "zbkcfs" (name f) in
  modify (fun f => set_metadata_pool (Some (default (nm +:+ "_metadata") (metadata_pool_name f))) f) ;;
  f <- get ;;
  let md := default (nm +:+ "_metadata") (metadata_pool_name f) in
  let data_pool_name := nm +:+ "_data" in
  pgs <- get_pgs_per_fs_pool ;;
  cmd ["osd"; "pool"; "create"; md; zs pgs] ;;
  cmd ["osd"; "pool"; "create"; data_pool_name; zs pgs] ;;
  cmd ["fs"; "new"; nm; md; data_pool_name] ;;
  getinfo true ;;
  ret tt.

Definition exists_ : MF bool :=
  out <- cmd ["fs"; "ls"; "--format=json-pretty"] ;;
  j <- json_loads out ;; l <- as_list j ;;
  names <- map_ (fun fs => subscript fs "name") l ;;
  f <- get ;;
  ret (match name f with Some n => existsb (fun v => eq_str v n) names | None => false end).

Definition legacy_configured : MF bool :=
  catch
    (out <- cmd ["--format=json-pretty"; "osd"; "lspools"] ;;
     j <- json_loads out ;; l <- as_list j ;;
     names <- map_ (fun p => subscript p "poolname") l ;;
     let metadata_pool_exists := existsb (fun v => eq_str v "metadata") names in
     when metadata_pool_exists (modify (set_metadata_pool (Some "metadata"))) ;;
     ret metadata_pool_exists)
    (fun e => match e with
              | CommandFailedError st => if st =? 22 then ret true else raise e
              | _ => raise e
              end).

Definition get_mds_map : MF pyval :=
  st <- fs_status ;; f <- get ;; fs <- get_fsmap st (id f) ;; mdsmap_of fs.

Definition recreate : MF unit :=
  delete_all_filesystems ;;
  modify (fun f => set_ident PNone (name f) f) ;;
  create.

End Filesystem.
