(* ===== verification/FsOps.v ===== *)
(** * [Filesystem] (tasks/zbkcfs/filesystem.py): daemons' health, objects and tools

    The second half of the class: which daemons hold ranks, waiting for them, the
    objects of the metadata and data pools, and the recovery tools. *)
From Stdlib Require Import Ascii QArith Qround Lqa.
From S2P Require Import Prelude PyVal World ZbkcManager ManagerWait FSStatus Filesystem.

Section FsOps.
Context {E : Env} {F : Fuel} (daemon_remote : string -> remote).
Abbreviation MF A := (M fsys A).

(** ** Ranks *)

Definition info_name (i : pyval) : MF string := n <- subscript i "name" ;; as_str n.

(** [sorted(status['info'].values(), lambda a, b: cmp(a['rank'], b['rank']))]; a single
    value is never compared *)
Definition sorted_infos (status : pyval) : MF (list pyval) :=
  i <- subscript status "info" ;; infos <- values i ;;
  if (length infos <? 2)%nat then ret infos
  else
    keyed <- map_ (fun x => r <- subscript x "rank" ;; ret (r, x)) infos ;;
    ret (sort_by keyed).*2.

(** The names of the daemons that [keep] keeps, in the order of their ranks. *)
Fixpoint select_infos {A} (keep : pyval -> MF bool) (field : pyval -> MF A) (infos : list pyval) : MF (list A) :=
  match infos with
  | [] => ret []
  | x :: l =>
      b <- keep x ;;
      if b : bool then y <- field x ;; ys <- select_infos keep field l ;; ret (y :: ys)
      else select_infos keep field l
  end.
Definition get_daemon_names (state : option string) : MF (list string) :=
  status <- get_mds_map ;;
  infos <- sorted_infos status ;;
  select_infos (fun i => st <- subscript i "state" ;;
                         ret (match state with Some s => eq_str st s | None => true end)) info_name infos.
Definition get_active_names : MF (list string) := get_daemon_names (Some "up:active").

(** [mds_status['rank'] != -1 and mds_status['state'] != 'up:standby-replay'] *)
Definition holds_rank (i : pyval) : MF bool :=
  r <- subscript i "rank" ;;
  if py_eq r (PInt (-1)) then ret false
  else st <- subscript i "state" ;; ret (negb (eq_str st "up:standby-replay")).
Definition get_all_mds_rank : MF (list pyval) :=
  status <- get_mds_map ;;
  infos <- sorted_infos status ;;
  select_infos holds_rank (fun i => subscript i "rank") infos.
Definition get_rank_names : MF (list string) :=
  status <- get_mds_map ;;
  infos <- sorted_infos status ;;
  select_infos holds_rank info_name infos.

Definition get_lone_mds_id : MF string :=
  f <- get ;;
  match mds_ids f with
  | [i] => ret i
  | _ =>
      alive <- get_rank_names ;;
      match alive with
      | [i] => ret i
      | _ => raise (ValueError "Explicit MDS argument required when multiple MDSs in use")
      end
  end.

Definition mds_asok (command : list string) (mds_id : option string) : MF pyval :=
  i <- match mds_id with Some i => ret i | None => get_lone_mds_id end ;;
  json_asok command "mds" i.

Definition read_cache (path : string) (depth : option Z) : MF pyval :=
  result <- mds_asok (["dump"; "tree"; path] ++ match depth with Some d => [zs d] | None => [] end) None ;;
  n <- len_ result ;;
  if n =? 0 then raise (RuntimeError ("Path not found in cache: " +:+ path)) else ret result.

(** ** Health *)

Definition healthy_states : list string := ["up:active"; "up:standby"; "up:standby-replay"].

(** The first loop: [None] as soon as a daemon is in another state, else the number of
    active daemons. *)
Fixpoint count_active (infos : list pyval) (active_count : Z) : MF (option Z) :=
  match infos with
  | [] => ret (Some active_count)
  | i :: l =>
      st <- subscript i "state" ;;
      if negb (existsb (eq_str st) healthy_states) then ret None
      else count_active l (if eq_str st "up:active" then active_count + 1 else active_count)
  end.
(** The second loop: each active daemon says so itself. *)
Fixpoint confirm_active (infos : list pyval) : MF bool :=
  match infos with
  | [] => ret true
  | i :: l =>
      st <- subscript i "state" ;;
      if eq_str st "up:active" then
        n <- info_name i ;;
        answer <- catch (d <- mds_asok ["status"] (Some n) ;; ret (Some d, true))
                    (fun e => match e with
                              | CommandFailedError x => ret (None, x =? EINVAL)
                              | _ => raise e
                              end) ;;
        match answer with
        | (Some d, _) =>
            ds <- subscript d "state" ;;
            if eq_str ds "up:active" then confirm_active l else ret false
        | (None, old_version) => if old_version : bool then confirm_active l else ret false
        end
      else confirm_active l
  end.
Definition read_mds_map : MF pyval :=
  catch get_mds_map
    (fun e => match e with
              | CommandFailedError x =>
                  if x =? EINVAL then out <- cmd ["mds"; "dump"; "--format=json"] ;; json_loads out
                  else raise e
              | _ => raise e
              end).
Definition are_daemons_healthy : MF bool :=
  mds_map <- read_mds_map ;;
  i <- subscript mds_map "info" ;; infos <- values i ;;
  active <- count_active infos 0 ;;
  match active with
  | None => ret false
  | Some active_count =>
      max_mds <- subscript mds_map "max_mds" ;;
      if py_le max_mds (PInt active_count) then confirm_active infos else ret false
  end.

Definition wait_for_daemons (timeout : option Q) : MF unit :=
  let timeout := default DAEMON_WAIT_TIMEOUT timeout in
  loop fuel (fun elapsed : Z =>
    b <- are_daemons_healthy ;;
    if b : bool then ret (inr tt)
    else
      sleep 1 ;;
      let elapsed := elapsed + 1 in
      if Qlt_bool timeout (inject_Z elapsed) then
        raise (RuntimeError "Timed out waiting for MDS daemons to become healthy")
      else ret (inl elapsed)) 0.

(** What [wait_for_state] reads as the current state; [PNone] is Python's [None]. *)
Definition current_state (status : pyval) (goal_state : string) (reject mds_id : option string) : MF pyval :=
  match mds_id with
  | Some i =>
      info <- get_mds status i ;;
      match info with
      | Some v => if truthy v then subscript v "state" else ret PNone
      | None => ret PNone
      end
  | None =>
      f <- get ;;
      l <- collect (get_ranks status (id f)) ;;
      states <- map_ (fun m => subscript m "state") l ;;
      if (length (List.filter (fun s => eq_str s goal_state) states) =? 1)%nat then ret (PStr goal_state)
      else match reject with
           | Some r => if existsb (fun s => eq_str s r) states then ret (PStr r) else ret PNone
           | None => ret PNone
           end
  end.
Definition wait_for_state (goal_state : string) (reject : option string) (timeout : option Q)
  (mds_id : option string) : MF Q :=
  started_at <- time ;;
  loop fuel (fun _ : unit =>
    status <- fs_status ;;
    st <- current_state status goal_state reject mds_id ;;
    t <- time ;;
    let elapsed := (t - started_at)%Q in
    if eq_str st goal_state then ret (inr elapsed)
    else if match reject with Some r => eq_str st r | None => false end then
      raise (RuntimeError "MDS in reject state")
    else if match timeout with Some tmo => Qlt_bool tmo elapsed | None => false end then
      f <- get ;; get_fsmap status (id f) ;; raise (RuntimeError "Reached timeout")
    else sleep 1 ;; ret (inl tt)) tt.

(** ** Objects *)

(** [os.path.join("", "rados")] *)
Definition tool_path (tool : string) : string := tool.

Definition first_mds_remote : MF remote :=
  f <- get ;;
  i <- of_option IndexError (head (mds_ids f)) ;;
  ret (daemon_remote i).

Definition rados (args : list string) (pool : option string) (namespace : option string) : MF string :=
  f <- get ;;
  pool <- the "pool" (match pool with Some p => Some p | None => metadata_pool_name f end) ;;
  r <- first_mds_remote ;;
  p <- run r ([tool_path "rados"; "-p"; pool]
                ++ match namespace with
                   | Some n => if String.eqb n EmptyString then [] else ["--namespace"; n]
                   | None => []
                   end ++ args) true ;;
  ret (str_strip (stdout p)).

Definition only_data_pool (refresh : bool) : MF (pyval * string) :=
  f <- get ;;
  when (refresh || match data_pools f with None => true | Some _ => false end) (get_pool_names true None) ;;
  f <- get ;;
  match data_pools f with
  | Some [kv] => ret kv
  | _ => raise (AssertionError "len(self.data_pools) == 1")
  end.
Definition get_data_pool_name (refresh : bool) : MF string := kv <- only_data_pool refresh ;; ret kv.2.
Definition get_data_pool_id (refresh : bool) : MF pyval := kv <- only_data_pool refresh ;; ret kv.1.

(** ["{0:x}.00000000"] and ["{0:x}.{1:08x}"] *)
Definition pad8 (s : string) : string := pad_left 8 s.
Definition object_name (ino n : Z) : string := hex_of_Z ino +:+ "." +:+ pad8 (hex_of_Z n).

Definition stripe_size : Z := 1024 * 1024 * 4.
Definition want_objects (ino size : Z) : list string :=
  let size := Z.max stripe_size size in
  map (fun n => object_name ino (Z.of_nat n)) (seq 0 (Z.to_nat ((size - 1) / stripe_size + 1))).
Definition _enumerate_data_objects (ino size : Z) : MF (list string * list string) :=
  pool <- get_data_pool_name false ;;
  out <- rados ["ls"] (Some pool) None ;;
  ret (want_objects ino size, split_on nl out).
Definition data_objects_present (ino size : Z) : MF bool :=
  oo <- _enumerate_data_objects ino size ;;
  ret (bool_decide ((list_to_set oo.1 : gset string) ∖ list_to_set oo.2 = ∅)).
Definition data_objects_absent (ino size : Z) : MF bool :=
  oo <- _enumerate_data_objects ino size ;;
  ret (bool_decide ((list_to_set oo.1 : gset string) ∩ list_to_set oo.2 = ∅)).

(** Reading an xattr; the environment hands the decoder its input. *)
Definition _read_data_xattr (ino_no : Z) (xattr_name type : string) (pool : option string) : MF pyval :=
  r <- first_mds_remote ;;
  pool <- match pool with Some p => ret p | None => get_data_pool_name false end ;;
  let obj_name := object_name ino_no 0 in
  catch (run r [tool_path "rados"; "-p"; pool; "getxattr"; obj_name; xattr_name] true)
    (fun e => match e with CommandFailedError _ => raise (ObjectNotFound obj_name) | _ => raise e end) ;;
  p <- run r [tool_path "zbkc-dencoder"; "type"; type; "import"; "-"; "decode"; "dump_json"] true ;;
  json_loads (str_strip (stdout p)).
Definition _write_data_xattr (ino_no : Z) (xattr_name data : string) (pool : option string) : MF unit :=
  r <- first_mds_remote ;;
  pool <- match pool with Some p => ret p | None => get_data_pool_name false end ;;
  run r [tool_path "rados"; "-p"; pool; "setxattr"; object_name ino_no 0; xattr_name; data] true ;; ret tt.
Definition read_backtrace (ino_no : Z) (pool : option string) : MF pyval :=
  _read_data_xattr ino_no "parent" "inode_backtrace_t" pool.
Definition read_layout (ino_no : Z) (pool : option string) : MF pyval :=
  _read_data_xattr ino_no "layout" "file_layout_t" pool.

Definition list_dirfrag (dir_ino : Z) : MF (list string) :=
  let dirfrag_obj_name := object_name dir_ino 0 in
  s <- catch (rados ["listomapkeys"; dirfrag_obj_name] None None)
         (fun e => match e with CommandFailedError _ => raise (ObjectNotFound dirfrag_obj_name) | _ => raise e end) ;;
  ret (if String.eqb s EmptyString then [] else split_on nl s).

Definition erase_metadata_objects (prefix : string) : MF unit :=
  out <- rados ["ls"] None None ;;
  for_ (List.filter (startswith prefix) (split_on nl out)) (fun o => rados ["rm"; o] None None ;; ret tt).
Definition obj_prefix (rank multiplier : Z) : string := hex_of_Z (multiplier * 256 + rank) +:+ ".".
Definition erase_mds_objects (rank : Z) : MF unit :=
  erase_metadata_objects (obj_prefix rank 2) ;;
  erase_metadata_objects (obj_prefix rank 3) ;;
  erase_metadata_objects (obj_prefix rank 4) ;;
  erase_metadata_objects ("mds" +:+ zs rank +:+ "_").

Definition metadata_object (object_id path : string) (op : string) : MF unit :=
  f <- get ;;
  p <- the "pool" (metadata_pool_name f) ;;
  run (client_remote f) ["sudo"; tool_path "rados"; "-p"; p; op; object_id; path] true ;; ret tt.
Definition put_metadata_object_raw (object_id infile : string) : MF unit :=
  metadata_object object_id infile "put".
Definition get_metadata_object_raw (object_id : string) : MF string :=
  metadata_object object_id ("/tmp/" +:+ object_id +:+ ".bin") "get" ;;
  ret ("/tmp/" +:+ object_id +:+ ".bin").
Definition get_metadata_object (object_type object_id : string) : MF pyval :=
  metadata_object object_id "/tmp/out.bin" "get" ;;
  f <- get ;;
  p <- run (client_remote f) ["sudo"; tool_path "zbkc-dencoder"; "type"; object_type; "import"; "/tmp/out.bin";
                              "decode"; "dump_json"] true ;;
  json_loads (str_strip (stdout p)).
Definition get_journal_version : MF pyval :=
  d <- get_metadata_object "JournalPointer" "400.00000000" ;;
  jp <- subscript d "journal_pointer" ;; front <- subscript jp "front" ;; journal_ino <- as_int front ;;
  h <- get_metadata_object "Journaler::Header" (object_name journal_ino 0) ;;
  jh <- subscript h "journal_header" ;; subscript jh "stream_format".

(** ** Tools *)

Definition _run_tool (tool : string) (args : list string) (rank : option Z) (quiet : bool) : MF string :=
  r <- first_mds_remote ;;
  p <- run r ([tool_path tool; if quiet then "--debug-mds=1" else "--debug-mds=4"; "--debug-objecter=1"]
                ++ match rank with Some k => ["--rank"; zs k] | None => [] end ++ args) true ;;
  ret (str_strip (stdout p)).
Definition journal_tool (args : list string) (rank : option Z) (quiet : bool) : MF string :=
  _run_tool "zbkcfs-journal-tool" args rank quiet.
Definition table_tool (args : list string) (quiet : bool) : MF string :=
  _run_tool "zbkcfs-table-tool" args None quiet.

(** The arguments of worker [n] of [count]: after the command, which worker it is. *)
Definition worker_args (args : list string) (count n : Z) : MF (list string) :=
  if 1 <? count then
    c <- of_option IndexError (head args) ;;
    ret ([c; "--worker_n"; zs n; "--worker_m"; zs count] ++ tail args)
  else ret args.
(** The workers are greenlets, which run here one after the other; all of them run,
    and the first exception in their order is the one raised. *)
Definition data_scan (args : list string) (quiet : bool) (worker_count : Z) : MF (option string) :=
  wargs <- map_ (fun n => worker_args args worker_count (Z.of_nat n)) (seq 0 (Z.to_nat worker_count)) ;;
  results <- map_ (fun a => catch (o <- _run_tool "zbkcfs-data-scan" a None quiet ;; ret (inl o))
                              (fun e => ret (inr e))) wargs ;;
  outs <- map_ (fun r => match r with inl o => ret o | inr e => raise e end) results ;;
  ret (if worker_count =? 1 then head outs else None).

(** ** Usage *)

Definition _df : MF pyval := out <- cmd ["df"; "--format=json-pretty"] ;; json_loads out.
Definition get_pool_df (pool_name : string) : MF pyval :=
  d <- _df ;; pools <- subscript_list d "pools" ;;
  r <- for_return pools (fun p =>
    n <- subscript p "name" ;;
    if eq_str n pool_name then st <- subscript p "stats" ;; ret (Some st) else ret None) ;;
  of_option (RuntimeError ("Pool name '" +:+ pool_name +:+ "' not found")) r.
Definition get_usage : MF pyval :=
  d <- _df ;; st <- subscript d "stats" ;; subscript st "total_used_bytes".

End FsOps.
