(* ===== verification/FsSetup.v ===== *)
(** * Making [MDSCluster] and [Filesystem] objects, and the methods that reconfigure

    The constructors of tasks/zbkcfs/filesystem.py and the methods that change the cluster's
    configuration file, its firewall or the set of data pools.  A constructor builds a new
    manager; [ctx] itself stays shared through the context inside it.  [ctx.filesystem], a
    reference for the interactive shell, is left out. *)
From Stdlib Require Import Ascii QArith Qround Lqa.
From S2P Require Import Prelude PyVal World ZbkcManager ManagerWait Conf FSStatus Filesystem FsOps.

(** The splits of [s] at the character [c], the rightmost first *)
Fixpoint splits_at (c : ascii) (s : string) : list (string * string) :=
  match s with
  | EmptyString => []
  | String a s' =>
      map (fun p => (String a p.1, p.2)) (splits_at c s') ++
      (if Ascii.eqb a c then [(EmptyString, s')] else [])
  end.
Definition nonempty (s : string) : bool := negb (String.eqb s EmptyString).
(** The rightmost split of [s] at [c] into texts that [p] and [q] accept *)
Definition rsplit_where (c : ascii) (p q : string -> bool) (s : string) : option (string * string) :=
  head (filter (fun ab => (p ab.1 && q ab.2) = true) (splits_at c s)).
(** [re.match("(.+):(.+)/(.+)", s).groups()]: each [.+] takes what it can, from the left *)
Definition match_addr (s : string) : option (string * string * string) :=
  let port_inst r := rsplit_where "/" nonempty nonempty r in
  match rsplit_where ":" nonempty (fun r => match port_inst r with Some _ => true | None => false end) s with
  | Some (ip, rest) => (fun pi => (ip, pi.1, pi.2)) <$> port_inst rest
  | None => None
  end.

Section FsSetup.
Context {E : Env} {F : Fuel}.
Context (get_first_mon : context -> dict -> string).
Context (all_roles_of_type : context -> string -> list string)
        (client_remote_of : context -> string -> remote)
        (render_conf : gmap string dict -> string)
        (hostname : remote -> string).
Abbreviation MF A := (M fsys A).

(** [(r,) = ctx.cluster.only(role).remotes.iterkeys()] *)
Definition lone {S} (c : context) (role : string) : M S remote :=
  match only (String.eqb role) c with
  | [r] => ret r
  | _ => raise (ValueError "need exactly one value to unpack")
  end.
(** [ZbkcManager(controller, ctx=ctx, cluster=cl)] *)
Definition make_manager {S} (c : context) (controller : remote) (cl : string) : M S mgr :=
  x <- fresh (Mgr c controller cl [] 0 ∅) init_pools ;; ret x.2.

(** [ZbkcCluster.admin_remote] and [ZbkcCluster.__init__] *)
Definition admin_remote {S} (c : context) : M S remote := lone c (get_first_mon c []).
Definition new_zbkc_cluster {S} (c : context) : M S mgr :=
  r <- admin_remote c ;; make_manager c r "zbkc".

(** [MDSCluster.__init__]: the manager and [mds_ids] *)
Definition new_mds_cluster {S} (c : context) : M S (mgr * list string) :=
  m <- new_zbkc_cluster c ;;
  match all_roles_of_type c "mds" with
  | [] => raise (RuntimeError "This task requires at least one MDS")
  | ids => ret (m, ids)
  end.

(** [Filesystem.__init__(ctx, fscid, create)]; [create=True] is [Some "zbkcfs"] *)
Definition init_ident (fscid : option pyval) (create_ : option string) : MF unit :=
  match create_, fscid with
  | Some _, Some _ => raise (RuntimeError "cannot specify fscid when creating fs")
  | Some n, None =>
      modify (fun f => set_ident (id f) (Some n) f) ;;
      legacy <- legacy_configured ;;
      when (negb legacy) (create all_roles_of_type)
  | None, Some i => modify (fun f => set_ident i (name f) f)
  | None, None => ret tt
  end.
Definition new_filesystem {S} (c : context) (fscid : option pyval) (create_ : option string) : M S fsys :=
  mc <- new_mds_cluster c ;;
  cid <- of_option IndexError (head (all_roles_of_type c "client")) ;;
  x <- fresh (Fsys mc.1 mc.2 cid (client_remote_of c ("client." +:+ cid)) PNone None None None)
         (init_ident fscid create_ ;; getinfo true) ;;
  ret x.2.
Definition newfs (n : string) : MF fsys :=
  f <- get ;; new_filesystem (ctx (mon_manager f)) None (Some n).

(** ** The configuration file *)

Definition DEFAULT_CONF_PATH : string := "/etc/zbkc/zbkc.conf".

(** [ctx.zbkc['zbkc'].conf[subsys][key] = value] *)
Definition set_zbkc_conf (subsys key : string) (value : pyval) : MF unit :=
  fman (c <- cluster_conf "zbkc" ;;
        modify (set_conf <["zbkc" := <[subsys := dict_set key value (default [] (c !! subsys))]> c]>) ;;
        write_conf render_conf DEFAULT_CONF_PATH "zbkc").
Definition clear_zbkc_conf (subsys key : string) : MF unit :=
  fman (c <- cluster_conf "zbkc" ;;
        sec <- of_option (KeyError subsys) (c !! subsys) ;;
        when (negb (dict_has key sec)) (raise (KeyError key)) ;;
        modify (set_conf <["zbkc" := <[subsys := dict_del key sec]> c]>) ;;
        write_conf render_conf DEFAULT_CONF_PATH "zbkc").

(** ** The firewall *)

Definition get_mds_hostnames : MF (gset string) :=
  f <- get ;;
  rs <- map_ (fun i => fman (find_remote "mds" i)) (mds_ids f) ;;
  ret (list_to_set (map hostname rs)).

Definition reject (da_flag chain dir port : string) : list string :=
  ["sudo"; "iptables"; da_flag; chain; "-p"; "tcp"; dir; port; "-j"; "REJECT"; "-m"; "comment"; "--comment"; "teuthology"].
Definition set_block (da_flag mds_id : string) : MF unit :=
  r <- fman (find_remote "mds" mds_id) ;;
  st <- fs_status ;;
  v <- get_mds_addr st mds_id ;; addr <- as_str v ;;
  g <- of_option (AttributeError "'NoneType' object has no attribute 'groups'") (match_addr addr) ;;
  run r (reject da_flag "OUTPUT" "--sport" g.1.2) true ;;
  run r (reject da_flag "INPUT" "--dport" g.1.2) true ;;
  ret tt.
(** One MDS, or all of them one after the other *)
Definition set_clients_block (blocked : bool) (mds_id : option string) : MF unit :=
  _one_or_all (fun l => l) mds_id (set_block (if blocked then "-A" else "-D")) false.
Definition clear_firewall : MF unit := call "clear_firewall" [] ;; ret tt.

(** ** Data pools *)

Definition add_data_pool (n : string) : MF pyval :=
  pgs <- get_pgs_per_fs_pool all_roles_of_type ;;
  cmd ["osd"; "pool"; "create"; n; zs pgs] ;;
  f <- get ;;
  fsname <- the "expected string" (name f) ;;
  cmd ["fs"; "add_data_pool"; fsname; n] ;;
  get_pool_names true None ;;
  f <- get ;;
  dps <- the "data_pools" (data_pools f) ;;
  of_option (RuntimeError ("could not get just created pool '" +:+ n +:+ "'"))
    (fst <$> head (filter (fun kv => kv.2 = n) dps)).
Definition get_data_pool_names (refresh : bool) : MF (list string) :=
  f <- get ;;
  when (refresh || match data_pools f with None => true | _ => false end) (get_pool_names true None) ;;
  f <- get ;;
  dps <- the "data_pools" (data_pools f) ;;
  ret (map snd dps).

End FsSetup.
