(* ===== verification/ZbkcCluster.v ===== *)
(** * Bringing a cluster up and down: [cluster] of tasks/zbkc.py

    The parts of teuthology's [ctx] that the task reads and writes are the record [job].
    A manager refers to the same [ctx]: [on_manager] runs a method on it with the context
    the job has now, and takes the context back.

    Arguments of the section are functions of teuthology and ConfigObj: the first monitor,
    the roles of a type, the section name of a role, the configuration a cluster starts
    from, the address of a machine, the number of OSDs, [deep_merge], and the text of a
    configuration.  Functions called for their effect are events ([EvCall]). *)
From Stdlib Require Import Ascii QArith Qround Lqa.
From S2P Require Import Prelude PyVal World ZbkcManager ManagerWait Conf FSStatus Filesystem FsOps FsSetup.

Record job := Job
  { j_ctx : context;
    j_journals : gmap string (gmap string string);   (* disk_config.remote_to_roles_to_journals *)
    j_managers : gmap string mgr;                    (* ctx.managers *)
    j_daemons : bool;                                (* hasattr(ctx, 'daemons') *)
    j_success : bool;                                (* ctx.summary['success'] *)
    j_failure : option string;                       (* ctx.summary['failure_reason'] *)
    j_config : dict;                                 (* ctx.config *)
    j_archive : option string }.                     (* ctx.archive *)
#[export] Instance job_ctx : HasCtx job := j_ctx.
Definition set_ctx (c : context) (j : job) : job :=
  Job c (j_journals j) (j_managers j) (j_daemons j) (j_success j) (j_failure j) (j_config j) (j_archive j).
Definition set_journals (d : gmap string (gmap string string)) (j : job) : job :=
  Job (j_ctx j) d (j_managers j) (j_daemons j) (j_success j) (j_failure j) (j_config j) (j_archive j).
Definition set_managers (f : gmap string mgr -> gmap string mgr) (j : job) : job :=
  Job (j_ctx j) (j_journals j) (f (j_managers j)) (j_daemons j) (j_success j) (j_failure j) (j_config j) (j_archive j).
Definition set_daemons (j : job) : job :=
  Job (j_ctx j) (j_journals j) (j_managers j) true (j_success j) (j_failure j) (j_config j) (j_archive j).
Definition set_failed (reason : option string) (j : job) : job :=
  Job (j_ctx j) (j_journals j) (j_managers j) (j_daemons j) false
    (match j_failure j with Some r => Some r | None => reason end) (j_config j) (j_archive j).

Definition mgr_with_ctx (c : context) (m : mgr) : mgr :=
  Mgr c (controller m) (cluster m) (config m) (next_pool_id m) (pools m).

Definition ctx_conf (f : gmap string (gmap string dict) -> gmap string (gmap string dict)) (j : job) : job :=
  set_ctx (with_conf f (j_ctx j)) j.
(** [ctx.disk_config.remote_to_roles_to_dev_mount_options[remote][role] = ...] and the like *)
Definition with_disk (f : gmap string (gmap string string) -> gmap string (gmap string string))
  (g : gmap string (gmap string (list string)) -> gmap string (gmap string (list string)))
  (h : gmap string (gmap string string) -> gmap string (gmap string string)) (c : context) : context :=
  Context_ (testdir c) (cluster_roles c) (conf c) (f (roles_to_dev c)) (g (roles_to_dev_mount_options c))
    (h (roles_to_dev_fstype c)).
Definition insert2 {V} (a b : string) (v : V) (m : gmap string (gmap string V)) : gmap string (gmap string V) :=
  <[a := <[b := v]> (default ∅ (m !! a))]> m.

(** ** Devices *)

(** [dict(zip(roles, devs))] *)
Definition assign_devs (roles devs : list string) : gmap string string := list_to_map (rev (zip roles devs)).

(** The devices left for the journals: all of them when none is left over. *)
Definition journal_devs (roles_to_devs : gmap string string) (iddevs : list string) : list string :=
  if (size roles_to_devs <? length iddevs)%nat then drop (size roles_to_devs) iddevs else iddevs.

(** The options of [mkfs] and [mount] for a file system without configured ones *)
Definition default_mount_options (fs : string) : list string :=
  if String.eqb fs "btrfs" then ["noatime"; "user_subvol_rm_allowed"]
  else if String.eqb fs "xfs" then ["noatime"]
  else if String.eqb fs "ext4" || String.eqb fs "ext3" then ["noatime"; "user_xattr"]
  else [].
Definition default_mkfs_options (fs : string) : list string :=
  if String.eqb fs "btrfs" then ["-m"; "single"; "-l"; "32768"; "-n"; "32768"]
  else if String.eqb fs "xfs" then ["-f"; "-i"; "size=2048"]
  else [].

(** [generate_caps(type_)]: the dictionary's own order is left to it; here it is as written *)
Definition generate_caps (type_ : string) : option (list string) :=
  let caps l := Some (flat_map (fun kv => ["--cap"; kv.1; kv.2]) l) in
  if String.eqb type_ "osd" then caps [("mon", "allow *"); ("osd", "allow *")]
  else if String.eqb type_ "mgr" then caps [("mon", "allow *")]
  else if String.eqb type_ "mds" then caps [("mon", "allow *"); ("osd", "allow *"); ("mds", "allow")]
  else if String.eqb type_ "client" then caps [("mon", "allow rw"); ("osd", "allow rwx"); ("mds", "allow")]
  else None.

(** [s.rstrip('\n')] *)
Fixpoint str_rstrip_nl (s : string) : string :=
  match s with
  | EmptyString => EmptyString
  | String a s' =>
      match str_rstrip_nl s' with
      | EmptyString => if Ascii.eqb a nl then EmptyString else String a EmptyString
      | r => String a r
      end
  end.

(** The configuration of [cluster], as [task] makes it *)
Record cluster_config := ClusterConfig
  { cc_conf : list (string * dict);
    cc_fs : option string;
    cc_mkfs_options : option (list string);
    cc_mount_options : option (list string);
    cc_block_journal : bool; cc_tmpfs_journal : bool;
    cc_log_whitelist : list string;
    cc_cluster : string;
    cc_keyring_path : option string; cc_conf_path : option string }.

Section Cluster.
Context {E : Env} {F : Fuel}.
Context (get_first_mon : context -> string -> string)
        (cluster_roles_of_type : list string -> string -> string -> list string)
        (zbkc_role : string -> string)
        (skeleton_config : context -> list (list string) -> list string -> string -> gmap string dict)
        (peer_address : remote -> string)
        (num_osds : context -> string -> Z)
        (merge_devs : gmap string (gmap string string) -> gmap string (gmap string string) -> gmap string (gmap string string))
        (render_conf : gmap string dict -> string).
Abbreviation MJ A := (M job A).

Definition on_manager {A} (cl : string) (m : M mgr A) : MJ A :=
  fun j w =>
    match j_managers j !! cl with
    | None => (Exc (KeyError cl), j, w)
    | Some mg =>
        match m (mgr_with_ctx (j_ctx j) mg) w with
        | (o, mg', w') => (o, set_managers <[cl := mg']> (set_ctx (ctx mg') j), w')
        end
    end.

(** [ctx.cluster.only(...).remotes]: the machines with a matching role, with their roles *)
Definition sub_cluster (p : string -> bool) (c : context) : list (remote * list string) :=
  filter (fun rr => existsb p rr.2 = true) (cluster_roles c).
Definition of_type (type_ cl : string) (c : context) : list (remote * list string) := sub_cluster (is_type type_ cl) c.
(** [run.wait(cluster.run(args=args, wait=False))] *)
Definition run_on (rs : list remote) (args : list string) : MJ unit := ps <- start_on rs args ;; wait_all ps.
Definition run_all (args : list string) : MJ unit := j <- get ;; run_on (machines (j_ctx j)) args.
(** [cluster.run(args=args)], which waits for each machine in turn *)
Definition run_each (rs : list remote) (args : list string) : MJ unit := for_ rs (fun r => run r args true ;; ret tt).
Definition role_id (role : string) : string := (split_role role).2.
Definition coverage_dir (c : context) : string := testdir c +:+ "/archive/coverage".

(** ** Devices of the OSDs *)

(** What is known of one machine: [roles_to_devs] and [roles_to_journals] *)
Definition plan_host (cc : cluster_config) (r : remote) (roles_for_host : list string)
  : MJ (gmap string string * gmap string string) :=
  let osds := cluster_roles_of_type roles_for_host "osd" (cc_cluster cc) in
  out <- call "get_scratch_devices" [r] ;;
  let devs := split_ws out in
  (* [iddevs] is bound only with [fs] *)
  plan <- match cc_fs cc with
          | Some _ =>
              ids <- call "get_wwn_id_map" (r :: devs) ;;
              let iddevs := split_ws ids in
              let roles_to_devs := assign_devs osds iddevs in
              ret (roles_to_devs, Some (journal_devs roles_to_devs iddevs))
          | None => ret (∅, None)
          end ;;
  let '(roles_to_devs, iddevs) := plan in
  journals <- (if cc_block_journal cc then
                 left_devs <- of_option (OtherError "UnboundLocalError") iddevs ;;
                 ret (assign_devs osds left_devs)
               else ret ∅) ;;
  journals <- (if cc_tmpfs_journal cc then
                 run r ["sudo"; "mount"; "-t"; "tmpfs"; "tmpfs"; "/mnt"] true ;;
                 fold_ (fun journals role =>
                   let tmpfs := "/mnt/" +:+ role in
                   run r ["truncate"; "-s"; "1500M"; tmpfs] true ;;
                   ret (<[role := tmpfs]> journals)) osds ∅
               else ret journals) ;;
  ret (roles_to_devs, journals).
Definition plan_devices (cc : cluster_config) (osds : list (remote * list string))
  : MJ (gmap string (gmap string string) * gmap string (gmap string string)) :=
  fold_ (fun acc rr =>
    p <- plan_host cc rr.1 rr.2 ;;
    ret (<[rr.1 := p.1]> acc.1, <[rr.1 := p.2]> acc.2)) osds (∅, ∅).

(** ** The configuration *)

(** [conf[name][key] = v], with the section made when it is missing *)
Definition conf_set (name key : string) (v : pyval) (c : gmap string dict) : gmap string dict :=
  <[name := dict_set key v (default [] (c !! name))]> c.
(** The journals, then the configured sections; a scalar outside of the sections is kept
    under the empty name. *)
Definition make_conf (cc : cluster_config) (journals : gmap string (gmap string string)) (skeleton : gmap string dict)
  : gmap string dict :=
  let c := fold_left (fun c rj =>
             fold_left (fun c kv => conf_set (zbkc_role kv.1) "osd journal" (PStr kv.2) c)
               (map_to_list (snd rj)) c) (map_to_list journals) skeleton in
  let c := fold_left (fun c sec =>
             fold_left (fun c kv => conf_set sec.1 kv.1 kv.2 c) sec.2 c) (cc_conf cc) c in
  if cc_tmpfs_journal cc then conf_set EmptyString "journal dio" (PBool false) c else c.
Definition install_conf (cc : cluster_config) (journals : gmap string (gmap string string)) : MJ unit :=
  j <- get ;;
  let c := j_ctx j in
  let skeleton := skeleton_config c (map snd (cluster_roles c)) (map peer_address (machines c)) (cc_cluster cc) in
  modify (ctx_conf <[cc_cluster cc := make_conf cc journals skeleton]>).

Definition keyring_path (cc : cluster_config) : string :=
  default ("/etc/zbkc/" +:+ cc_cluster cc +:+ ".keyring") (cc_keyring_path cc).
Definition conf_path (cc : cluster_config) : string :=
  default ("/etc/zbkc/" +:+ cc_cluster cc +:+ ".conf") (cc_conf_path cc).
Definition monmap_path (c : context) (cc : cluster_config) : string := testdir c +:+ "/" +:+ cc_cluster cc +:+ ".monmap".
Definition osdmap_path (c : context) (cc : cluster_config) : string := testdir c +:+ "/" +:+ cc_cluster cc +:+ ".osdmap".
Definition data_dir (c : context) (cc : cluster_config) : string := testdir c +:+ "/" +:+ cc_cluster cc +:+ ".data".
Definition authtool (c : context) (args : list string) : list string :=
  ["sudo"; "adjust-ulimits"; "zbkc-coverage"; coverage_dir c; "zbkc-authtool"] ++ args.

(** ** The first monitor: keys, the monmap, the configuration file *)

(** Create the keyring and the monmap on the first monitor, write the configuration with
    the cluster's id, make the admin key, and send both files to every machine. *)
Definition setup_first_mon (cc : cluster_config) : MJ unit :=
  j <- get ;;
  let c := j_ctx j in
  let cl := cc_cluster cc in
  let keyring := keyring_path cc in
  let firstmon := get_first_mon c cl in
  let mons0 := only (String.eqb firstmon) c in
  run_each mons0 (authtool c ["--create-keyring"; keyring]) ;;
  run_each mons0 (authtool c ["--gen-key"; "--name=mon."; keyring]) ;;
  run_each mons0 ["sudo"; "chmod"; "0644"; keyring] ;;
  mon0_remote <- lone c firstmon ;;
  fsid <- call "create_simple_monmap" [mon0_remote; monmap_path c cc] ;;
  modify (ctx_conf (fun cs => <[cl := conf_set "global" "fsid" (PStr fsid) (default ∅ (cs !! cl))]> cs)) ;;
  write_conf render_conf (conf_path cc) cl ;;
  run_each mons0 (authtool c ["--gen-key"; "--name=client.admin"; "--set-uid=0"; "--cap"; "mon"; "allow *";
                              "--cap"; "osd"; "allow *"; "--cap"; "mds"; "allow *"; keyring]) ;;
  keys <- file FGet mon0_remote keyring ;;
  monmap <- file FGet mon0_remote (monmap_path c cc) ;;
  for_ (machines c) (fun rem =>
    call "sudo_write_file" [rem; keyring; keys; "0644"] ;;
    file (FWrite monmap) rem (monmap_path c cc) ;; ret tt).

(** A directory with a keyring for each manager or metadata daemon *)
Definition setup_daemon_dirs (cc : cluster_config) (type_ : string) : MJ unit :=
  j <- get ;;
  let c := j_ctx j in
  for_ (of_type type_ (cc_cluster cc) c) (fun rr =>
    for_ (cluster_roles_of_type rr.2 type_ (cc_cluster cc)) (fun role =>
      let dir := "/var/lib/zbkc/" +:+ type_ +:+ "/" +:+ cc_cluster cc +:+ "-" +:+ role_id role in
      run rr.1 (["sudo"; "mkdir"; "-p"; dir; "&&"] ++
                authtool c ["--create-keyring"; "--gen-key"; "--name=" +:+ type_ +:+ "." +:+ role_id role;
                            dir +:+ "/keyring"]) true ;;
      ret tt)).

(** [create_keyring] of tasks/zbkc_client.py *)
Definition create_keyring (cl : string) : MJ unit :=
  j <- get ;;
  let c := j_ctx j in
  for_ (of_type "client" cl c) (fun rr =>
    for_ (cluster_roles_of_type rr.2 "client" cl) (fun role =>
      let nm := zbkc_role role in
      let client_keyring := "/etc/zbkc/" +:+ cl +:+ "." +:+ nm +:+ ".keyring" in
      run rr.1 (authtool c ["--create-keyring"; "--gen-key"; "--name=" +:+ nm; client_keyring; "&&";
                            "sudo"; "chmod"; "0644"; client_keyring]) true ;;
      ret tt)).

(** ** The OSDs *)

Definition mnt_point (cl id_ : string) : string := "/var/lib/zbkc/osd/" +:+ cl +:+ "-" +:+ id_.
(** [mkfs], and once more with [-f] when it fails.  [mkfs_options] is the configuration's
    own list when there is one: the [-f] stays in it for the OSDs that follow. *)
Definition mkfs_osd (cc : cluster_config) (r : remote) (dev fs : string) (mkfs_cfg : option (list string))
  : MJ (option (list string)) :=
  let mount_options := default (default_mount_options fs) (cc_mount_options cc) in
  let mkfs_options := default (default_mkfs_options fs) mkfs_cfg in
  let mkfs opts := run r (["yes"; "|"; "sudo"; "mkfs." +:+ fs] ++ opts ++ [dev]) true in
  let forced := bool_decide ("-f" ∉ mount_options) in
  catch (mkfs mkfs_options ;; ret mkfs_cfg)
    (fun e => match e with
              | CommandFailedError _ =>
                  mkfs (if forced then mkfs_options ++ ["-f"] else mkfs_options) ;;
                  ret (if forced then (fun l => l ++ ["-f"]) <$> mkfs_cfg else mkfs_cfg)
              | _ => raise e
              end).
Definition mount_cmd (fs opts dev mnt : string) : list string := ["sudo"; "mount"; "-t"; fs; "-o"; opts; dev; mnt].
(** Format and mount the device of one OSD, and remember how. *)
Definition mount_osd (cc : cluster_config) (r : remote) (role dev : string) (mkfs_cfg : option (list string))
  : MJ (option (list string)) :=
  fs <- of_option (TypeError "unsupported operand") (cc_fs cc) ;;
  let mnt := mnt_point (cc_cluster cc) (role_id role) in
  let mount_options := default (default_mount_options fs) (cc_mount_options cc) in
  mkfs_cfg <- mkfs_osd cc r dev fs mkfs_cfg ;;
  run r (mount_cmd fs (str_join "," mount_options) dev mnt) true ;;
  run r ["sudo"; "/sbin/restorecon"; mnt] false ;;
  modify (fun j => set_ctx (with_disk (fun d => d) (insert2 r role mount_options) (insert2 r role fs) (j_ctx j)) j) ;;
  ret mkfs_cfg.
(** What is left to unmount, machine by machine, and the list of [mkfs] options *)
Definition to_clean : Type := list (remote * string) * option (list string).
Definition setup_osd (cc : cluster_config) (r : remote) (roles_to_devs : gmap string string) (acc : to_clean)
  (role : string) : MJ to_clean :=
  let mnt := mnt_point (cc_cluster cc) (role_id role) in
  run r ["sudo"; "mkdir"; "-p"; mnt] true ;;
  match roles_to_devs !! role with
  | Some dev =>
      if String.eqb dev EmptyString then ret acc
      else mkfs_cfg <- mount_osd cc r role dev acc.2 ;; ret (acc.1 ++ [(r, mnt)], mkfs_cfg)
  | None => ret acc
  end.
Definition setup_osds (cc : cluster_config) (roles_to_devs : gmap string (gmap string string))
  (osds : list (remote * list string)) : MJ to_clean :=
  j <- get ;;
  let c := j_ctx j in
  fold_ (fun acc rr =>
    let roles := cluster_roles_of_type rr.2 "osd" (cc_cluster cc) in
    devs <- of_option (KeyError rr.1) (roles_to_devs !! rr.1) ;;
    acc <- fold_ (setup_osd cc rr.1 devs) roles acc ;;
    for_ roles (fun role =>
      run rr.1 ["sudo"; "MALLOC_CHECK_=3"; "adjust-ulimits"; "zbkc-coverage"; coverage_dir c; "zbkc-osd";
                "--cluster"; cc_cluster cc; "--mkfs"; "--mkkey"; "-i"; role_id role; "--monmap"; monmap_path c cc] true ;;
      ret tt) ;;
    ret acc) osds ([], cc_mkfs_options cc).

(** ** The keys, and the stores of the monitors *)

(** [(type_, id_, data)] of every daemon, then of every client *)
Definition read_keys (cc : cluster_config) : MJ (list (string * string * string)) :=
  j <- get ;;
  let c := j_ctx j in
  let cl := cc_cluster cc in
  daemon_keys <- fold_ (fun keys rr =>
    fold_ (fun keys type_ =>
      fold_ (fun keys role =>
        data <- call "get_file" [rr.1; "/var/lib/zbkc/" +:+ type_ +:+ "/" +:+ cl +:+ "-" +:+ role_id role +:+ "/keyring"; "sudo"] ;;
        ret (keys ++ [(type_, role_id role, data)])) (cluster_roles_of_type rr.2 type_ cl) keys)
      ["mgr"; "mds"; "osd"] keys) (cluster_roles c) [] ;;
  fold_ (fun keys rr =>
    fold_ (fun keys role =>
      data <- file FGet rr.1 ("/etc/zbkc/" +:+ cl +:+ ".client." +:+ role_id role +:+ ".keyring") ;;
      ret (keys ++ [("client", role_id role, data)])) (cluster_roles_of_type rr.2 "client" cl) keys)
    (cluster_roles c) daemon_keys.
Definition add_keys (cc : cluster_config) (keys : list (string * string * string)) : MJ unit :=
  j <- get ;;
  let c := j_ctx j in
  let mons := map fst (of_type "mon" (cc_cluster cc) c) in
  writes <- start_on mons ["sudo"; "tee"; "-a"; keyring_path cc] ;;
  feed_many_stdins_and_close (String.concat EmptyString (map snd keys)) writes ;;
  wait_all writes ;;
  for_ keys (fun k =>
    caps <- of_option (KeyError k.1.1) (generate_caps k.1.1) ;;
    run_on mons (authtool c ([keyring_path cc; "--name=" +:+ k.1.1 +:+ "." +:+ k.1.2] ++ caps))).
Definition mkfs_mons (cc : cluster_config) : MJ unit :=
  j <- get ;;
  let c := j_ctx j in
  let cl := cc_cluster cc in
  for_ (of_type "mon" cl c) (fun rr =>
    for_ (cluster_roles_of_type rr.2 "mon" cl) (fun role =>
      run rr.1 ["sudo"; "mkdir"; "-p"; "/var/lib/zbkc/mon/" +:+ cl +:+ "-" +:+ role_id role] true ;;
      run rr.1 ["sudo"; "adjust-ulimits"; "zbkc-coverage"; coverage_dir c; "zbkc-mon"; "--cluster"; cl; "--mkfs";
                "-i"; role_id role; "--monmap"; monmap_path c cc; "--osdmap"; osdmap_path c cc;
                "--keyring"; keyring_path cc] true ;;
      ret tt)) ;;
  run_on (map fst (of_type "mon" cl c)) ["rm"; "--"; monmap_path c cc; osdmap_path c cc].

(** Everything up to the [yield]; what is left to unmount *)
Definition setup (cc : cluster_config) : MJ (list (remote * string)) :=
  j <- get ;;
  let c := j_ctx j in
  let cl := cc_cluster cc in
  run_all ["install"; "-d"; "-m0755"; "--"; data_dir c cc] ;;
  run_all ["sudo"; "install"; "-d"; "-m0777"; "--"; "/var/run/zbkc"] ;;
  let osds := of_type "osd" cl c in
  plan <- plan_devices cc osds ;;
  install_conf cc plan.2 ;;
  setup_first_mon cc ;;
  run_on (map fst (of_type "mon" cl c))
    ["adjust-ulimits"; "zbkc-coverage"; coverage_dir c; "osdmaptool"; "-c"; conf_path cc; "--clobber";
     "--createsimple"; zs (num_osds c cl); osdmap_path c cc; "--pg_bits"; "2"; "--pgp_bits"; "4"] ;;
  setup_daemon_dirs cc "mgr" ;;
  setup_daemon_dirs cc "mds" ;;
  create_keyring cl ;;
  modify (fun j => set_ctx (with_disk (fun d => merge_devs d plan.1) (fun d => d) (fun d => d) (j_ctx j)) j) ;;
  modify (fun j => set_journals (merge_devs (j_journals j) plan.2) j) ;;
  clean <- setup_osds cc plan.1 osds ;;
  keys <- read_keys cc ;;
  add_keys cc keys ;;
  mkfs_mons cc ;;
  ret clean.1.

(** ** After the tests *)

(** [first_in_zbkc_log(pattern, excludes)]: [None] when nothing is found *)
Definition first_in_zbkc_log (cl : string) (mon0 : remote) (pattern : string) (excludes : list string)
  : MJ (option string) :=
  r <- run mon0 (["sudo"; "egrep"; pattern; "/var/log/zbkc/" +:+ cl +:+ ".log"] ++
                 flat_map (fun e => ["|"; "egrep"; "-v"; e]) excludes ++ ["|"; "head"; "-n"; "1"]) true ;;
  ret (if String.eqb (stdout r) EmptyString then None else Some (stdout r)).

(** The run is marked as failed when the cluster log has an error, a warning or a security
    message, with the most severe one as the reason. *)
Definition check_log (cc : cluster_config) (mon0 : remote) : MJ unit :=
  bad <- first_in_zbkc_log (cc_cluster cc) mon0 "\[ERR\]|\[WRN\]|\[SEC\]" (cc_log_whitelist cc) ;;
  match bad with
  | None => ret tt
  | Some _ =>
      modify (set_failed None) ;;
      j <- get ;;
      when (match j_failure j with None => true | _ => false end)
        (m <- for_return ["\[SEC\]"; "\[ERR\]"; "\[WRN\]"] (fun pattern =>
                first_in_zbkc_log (cc_cluster cc) mon0 pattern (cc_log_whitelist cc)) ;;
         match m with
         | Some line => modify (set_failed (Some (dqs +:+ str_rstrip_nl line +:+ dqs +:+ " in cluster log")))
         | None => ret tt
         end)
  end.

Definition umount_cmd (dir : string) : list string := ["sync"; "&&"; "sudo"; "umount"; "-f"; dir].
(** Unmount one device; when that fails, list what is open and give up. *)
Definition unmount (rd : remote * string) : MJ unit :=
  catch (run rd.1 (umount_cmd rd.2) true ;; ret tt)
    (fun e => run rd.1 ["sudo"; "PATH=/usr/sbin:$PATH"; "lsof"; ";"; "ps"; "auxf"] true ;; raise e).

(** [ctx.archive is not None and not (ctx.config.get('archive-on-error') and ctx.summary['success'])] *)
Definition keeps_archive (j : job) : option string :=
  match j_archive j with
  | Some a => if truthy (dict_get "archive-on-error" PNone (j_config j)) && j_success j then None else Some a
  | None => None
  end.
(** [os.makedirs(path)], where a path that exists is fine; it is an [OSError] with [EEXIST] *)
Definition makedirs_if_missing (path : string) : MJ unit :=
  catch (call "makedirs" [path] ;; ret tt)
    (fun e => match e with OtherError "EEXIST" => ret tt | _ => raise e end).
Definition archive_mons (cc : cluster_config) : MJ unit :=
  j <- get ;;
  match keeps_archive j with
  | None => ret tt
  | Some a =>
      let path := a +:+ "/data" in
      makedirs_if_missing path ;;
      for_ (of_type "mon" (cc_cluster cc) (j_ctx j)) (fun rr =>
        for_ rr.2 (fun role =>
          when (is_type "mon" (cc_cluster cc) role)
            (call "pull_directory_tarball"
               [rr.1; "/var/lib/zbkc/mon/" +:+ cc_cluster cc +:+ "-" +:+ role_id role; path +:+ "/" +:+ role +:+ ".tgz"] ;;
             ret tt)))
  end.

(** The [finally] clause of [cluster] *)
Definition teardown (cc : cluster_config) (devs_to_clean : list (remote * string)) : MJ unit :=
  j <- get ;;
  let c := j_ctx j in
  let cl := cc_cluster cc in
  mon0_remote <- lone c (get_first_mon c cl) ;;
  check_log cc mon0_remote ;;
  for_ devs_to_clean unmount ;;
  when (cc_tmpfs_journal cc)
    (for_ (of_type "osd" cl c) (fun rr => run rr.1 ["sudo"; "umount"; "-f"; "/mnt"] false ;; ret tt)) ;;
  archive_mons cc ;;
  run_all ["sudo"; "rm"; "-rf"; "--"; conf_path cc; keyring_path cc; data_dir c cc; monmap_path c cc; osdmap_path c cc;
           testdir c +:+ "/../*.pid"].

(** [with cluster(ctx, config): body].  With [use_existing_cluster] the body runs first, at a
    [yield] that is not followed by a [return]: the set-up runs after it, up to the second
    [yield], which a context manager refuses with the exception.  The model ends there: the
    generator is left suspended at that [yield], and the interpreter runs its clean-up when it
    frees the generator, at a time the code does not determine. *)
Definition cluster {A} (cc : cluster_config) (body : MJ A) : MJ A :=
  j <- get ;;
  match dict_get "use_existing_cluster" (PBool false) (j_config j) with
  | PBool true => body ;; setup cc ;; raise (RuntimeError "generator didn't stop")
  | _ =>
      devs_to_clean <- setup cc ;;
      finally (catch body (fun e => modify (set_failed None) ;; raise e)) (teardown cc devs_to_clean)
  end.

End Cluster.
