(* ===== verification/ZbkcTask.v ===== *)
(** * The zbkc task: the rest of tasks/zbkc.py

    Log rotation, valgrind, daemons of a role, waiting for a healthy cluster, scrubbing at
    the end, restarting and stopping daemons, and [task], which nests them.  A context
    manager is a definition that takes the body it is entered for.

    Arguments that are not part of the sources, besides those of [ZbkcCluster]: the roles a
    list of patterns stands for, the command line of valgrind, and [time.localtime]. *)
From Stdlib Require Import Ascii QArith Qround Lqa.
From stdpp Require Import sorting.
From S2P Require Import Prelude PyVal World ZbkcManager ManagerWait Conf FSStatus Filesystem FsOps FsSetup ZbkcCluster.

(** ** [time.strptime(s, '%Y-%m-%d %H:%M:%S')]: year, month, day, hour, minute, second *)

(** A number of one or two digits (of four for a year) within its range, and the rest *)
Definition stamp_field (width : nat) (lo hi : Z) (s : string) : option (Z * string) :=
  let '(ds, rest) := Json.take_digits s in
  if Nat.leb 1 (String.length ds) && Nat.leb (String.length ds) width then
    match py_int ds with
    | Some n => if (lo <=? n) && (n <=? hi) then Some (n, rest) else None
    | None => None
    end
  else None.
Definition literal (c : ascii) (s : string) : option string :=
  match s with String a s' => if Ascii.eqb a c then Some s' else None | EmptyString => None end.
(** White space in the format stands for any amount of it. *)
Definition blanks (s : string) : option string :=
  match s with String a s' => if is_space a then Some (str_lstrip s') else None | EmptyString => None end.
Definition leap (y : Z) : bool := (y mod 4 =? 0) && (negb (y mod 100 =? 0) || (y mod 400 =? 0)).
Definition days_in_month (y m : Z) : Z :=
  if m =? 2 then (if leap y then 29 else 28)
  else if (m =? 4) || (m =? 6) || (m =? 9) || (m =? 11) then 30 else 31.
Definition strptime (s : string) : option (list Z) :=
  '(y, s) ← (let '(ds, _) := Json.take_digits s in
             if Nat.eqb (String.length ds) 4 then stamp_field 4 1 9999 s else None);
  s ← literal "-" s; '(mo, s) ← stamp_field 2 1 12 s;
  s ← literal "-" s; '(d, s) ← stamp_field 2 1 31 s;
  s ← blanks s; '(h, s) ← stamp_field 2 0 23 s;
  s ← literal ":" s; '(mi, s) ← stamp_field 2 0 59 s;
  s ← literal ":" s; '(se, s) ← stamp_field 2 0 61 s;
  if String.eqb s EmptyString && (d <=? days_in_month y mo) then Some [y; mo; d; h; mi; se] else None.
(** [a > b] on [time.struct_time]s; the fields after the sixth follow from the six, but for
    the last, which is smaller in a parsed one. *)
Fixpoint later_stamp (a b : list Z) : bool :=
  match a, b with
  | x :: a', y :: b' => (y <? x) || ((x =? y) && later_stamp a' b')
  | _, _ => false
  end.
(** [s[0:s.find('.')]]: without a point the last character goes *)
Fixpoint before_point (s : string) : option string :=
  match s with
  | EmptyString => None
  | String a s' => if Ascii.eqb a "." then Some EmptyString else String a <$> before_point s'
  end.
Fixpoint but_last (s : string) : string :=
  match s with
  | EmptyString => EmptyString
  | String a s' => if String.eqb s' EmptyString then EmptyString else String a (but_last s')
  end.
Definition stamp_of (s : string) : string := default (but_last s) (before_point s).

(** Position of a text in another, as [s.find(pat)] gives it when it is there *)
Fixpoint str_find (pat s : string) : option nat :=
  if startswith pat s then Some 0%nat
  else match s with EmptyString => None | String _ s' => Datatypes.S <$> str_find pat s' end.

Definition ZBKC_ROLE_TYPES : list string := ["mon"; "mgr"; "osd"; "mds"; "rgw"].

Section ZbkcTask.
Context {E : Env} {F : Fuel}.
Context (get_first_mon : context -> string -> string)
        (cluster_roles_of_type : list string -> string -> string -> list string)
        (zbkc_role : string -> string)
        (skeleton_config : context -> list (list string) -> list string -> string -> gmap string dict)
        (peer_address : remote -> string)
        (num_osds : context -> string -> Z)
        (merge_devs : gmap string (gmap string string) -> gmap string (gmap string string) -> gmap string (gmap string string))
        (render_conf : gmap string dict -> string)
        (all_roles_of_type : context -> string -> list string)
        (client_remote_of : context -> string -> remote)
        (daemon_remote : string -> remote)
        (deep_merge : dict -> pyval -> dict)
        (resolve_role_list : context -> pyval -> list string)
        (get_valgrind_args : string -> string -> list string -> pyval -> list string)
        (localtime : Q -> list Z).
Abbreviation MJ A := (M job A).

(** ** Logs *)

(** Errors of a machine that is powered off are ignored. *)
Definition machine_is_off (e : exn) : bool :=
  match e with
  | OtherError "ConnectionLostError" | OtherError "EOFError" | OtherError "EHOSTUNREACH" => true
  | _ => false
  end.
(** [Rotater.invoke_logrotate]: [self.stop_event] is read through [EvStopping] *)
Definition invoke_logrotate : MJ unit :=
  while fuel (fun _ => b <- stopping ;; ret (negb b))
    (fun _ =>
       emit (EvWait 30) ;;
       catch (run_all ["sudo"; "logrotate"; "/etc/logrotate.d/zbkc-test.conf"])
         (fun e => if machine_is_off e then ret tt else raise e)) tt.

(** tasks/logrotate.conf with [{daemon_type}] and [{max_size}] filled in *)
Definition rotate_stanza (daemon_type max_size : string) : string :=
  str_join nls
    ["/var/log/zbkc/*" +:+ daemon_type +:+ "*.log {"; "    rotate 100"; "    size " +:+ max_size; "    compress";
     "    sharedscripts"; "    postrotate"; "        killall " +:+ daemon_type +:+ " -1 || true"; "    endscript";
     "    missingok"; "    notifempty"; "    su root root"; "}"; ""].
Definition rotate_conf_cmd (c : context) : list string :=
  let target := "/etc/logrotate.d/zbkc-test.conf" in
  ["sudo"; "mv"; testdir c +:+ "/logrotate.zbkc-test.conf"; target; "&&"; "sudo"; "chmod"; "0644"; target; "&&";
   "sudo"; "chown"; "root.root"; target].
Definition write_rotate_conf (daemons : dict) : MJ unit :=
  j <- get ;;
  let c := j_ctx j in
  let text := String.concat EmptyString (map (fun kv => rotate_stanza kv.1 (py_str kv.2)) daemons) in
  for_ (machines c) (fun r =>
    file (FWrite text) r (testdir c +:+ "/logrotate.zbkc-test.conf") ;;
    run r (rotate_conf_cmd c) true ;;
    call "chcon" [r; "/etc/logrotate.d/zbkc-test.conf"; "system_u:object_r:etc_t:s0"] ;;
    ret tt).

Definition archive_logs : MJ unit :=
  j <- get ;;
  match keeps_archive j with
  | None => ret tt
  | Some a =>
      run_all ["sudo"; "find"; "/var/log/zbkc"; "-name"; "*.log"; "-print0"; "|"; "sudo"; "xargs"; "-0";
               "--no-run-if-empty"; "--"; "gzip"; "--"] ;;
      let path := a +:+ "/remote" in
      call "makedirs" [path] ;;
      for_ (machines (j_ctx j)) (fun r =>
        sub <- call "shortname" [r] ;;
        call "makedirs" [path +:+ "/" +:+ sub] ;;
        call "pull_directory" [r; "/var/log/zbkc"; path +:+ "/" +:+ sub +:+ "/log"] ;;
        ret tt)
  end.
Definition zbkc_log {A} (body : MJ A) : MJ A :=
  run_all ["sudo"; "chmod"; "777"; "/var/log/zbkc"] ;;
  run_all ["sudo"; "rm"; "-f"; "--"; "/etc/logrotate.d/zbkc"] ;;
  run_all ["sudo"; "install"; "-d"; "-m0777"; "--"; "/var/log/zbkc/valgrind"; "/var/log/zbkc/profiling-logger"] ;;
  j <- get ;;
  let rotation := dict_get "log-rotate" PNone (j_config j) in
  when (truthy rotation)
    (daemons <- as_dict rotation ;; write_rotate_conf daemons ;; emit (EvSpawn "invoke_logrotate") ;; ret tt) ;;
  finally body
    (j <- get ;;
     when (truthy (dict_get "log-rotate" PNone (j_config j)))
       (emit (EvJoin "invoke_logrotate") ;;
        run_each (machines (j_ctx j)) ["sudo"; "rm"; "/etc/logrotate.d/zbkc-test.conf"]) ;;
     archive_logs).

(** ** Valgrind *)

(** A line of the form [file:kind]: a leak of the MDS is not counted. *)
Definition valgrind_line (line : string) : MJ bool :=
  if String.eqb line EmptyString then ret false
  else
    match split_on ":" line with
    | [file_; kind] =>
        ret (negb (match str_find "mds" file_ with Some _ => true | None => false end &&
                   match str_find "Lost" kind with Some (Datatypes.S _) => true | _ => false end))
    | _ => raise (ValueError "too many values to unpack")
    end.
Definition valgrind_check (p : proc) (found : bool) : MJ bool :=
  r <- wait_proc p false ;;
  fold_ (fun found line => b <- valgrind_line line ;; ret (found || b)) (split_on nl (stdout r)) found.
(** Issues that were not expected, or none that were, end the task. *)
Definition valgrind_verdict (expect_errors found : bool) : MJ unit :=
  if expect_errors then
    when (negb found) (raise (PyException "expected valgrind issues and found none"))
  else when found (raise (PyException "saw valgrind issues")).
Definition valgrind_post {A} (config : dict) (body : MJ A) : MJ A :=
  finally body
    (j <- get ;;
     procs <- start_on (machines (j_ctx j))
       ["sudo"; "zgrep"; "<kind>"; "/var/log/zbkc/valgrind/*"; "/dev/null"; "|"; "sort"; "|"; "uniq"] ;;
     found <- fold_ (fun found p => valgrind_check p found) procs false ;;
     valgrind_verdict (truthy (dict_get "expect_valgrind_errors" PNone config)) found).

(** ** Set-up after the monitors are up *)

Definition cluster_name (config : dict) : MJ string := v <- subscript (PDict config) "cluster" ;; as_str v.
Definition mon_remote_of (cl : string) : MJ remote := j <- get ;; lone (j_ctx j) (get_first_mon (j_ctx j) cl).

Definition crush_setup {A} (config : dict) (body : MJ A) : MJ A :=
  cl <- cluster_name config ;;
  mon_remote <- mon_remote_of cl ;;
  profile <- as_str (dict_get "crush_tunables" (PStr "default") config) ;;
  run mon_remote ["sudo"; "zbkc"; "--cluster"; cl; "osd"; "crush"; "tunables"; profile] true ;;
  body.

(** ['mds.' in role and not role.endswith('-s') and '-s-' not in role] *)
Definition is_active_mds (role : string) : bool :=
  str_in "mds." role &&
  negb (startswith "-s" (str_from (String.length role - 2) role) && Nat.leb 2 (String.length role)) &&
  negb (str_in "-s-" role).
Definition zbkcfs_setup {A} (config : dict) (body : MJ A) : MJ A :=
  cl <- cluster_name config ;;
  mon_remote <- mon_remote_of cl ;;
  j <- get ;;
  let c := j_ctx j in
  let mdss := of_type "mds" cl c in
  let zbkc_cmd args := ["sudo"; "adjust-ulimits"; "zbkc-coverage"; coverage_dir c; "zbkc"] ++ args in
  (match mdss with
   | [] => ret tt
   | _ =>
       new_filesystem (fun c _ => get_first_mon c "zbkc") all_roles_of_type client_remote_of c None (Some "zbkcfs") ;;
       let num_active := length (filter (fun r => is_active_mds r = true) (concat (map snd mdss))) in
       run mon_remote (zbkc_cmd ["mds"; "set"; "allow_multimds"; "true"; "--yes-i-really-mean-it"]) false ;;
       run mon_remote (zbkc_cmd ["--cluster"; cl; "mds"; "set_max_mds"; zs (Z.of_nat num_active)]) true ;;
       run mon_remote (zbkc_cmd ["mds"; "set"; "allow_dirfrags"; "true"; "--yes-i-really-mean-it"]) false ;;
       ret tt
   end) ;;
  body.

(** ** Scrubbing everything at the end *)

(** [len(set(states)) == 1 and states[0] == 'active+clean'] *)
Definition all_active_clean (states : list pyval) : bool :=
  match states with
  | [] => false
  | st :: _ => forallb (py_eq st) states && eq_str st "active+clean"
  end.
(** Up to twelve looks at the pgs, ten seconds apart *)
Fixpoint wait_active_clean (cl : string) (retries : nat) : MJ bool :=
  match retries with
  | O => ret false
  | Datatypes.S k =>
      stats <- on_manager cl get_pg_stats ;;
      states <- map_ (fun stat => subscript stat "state") stats ;;
      if all_active_clean states then ret true else sleep 10 ;; wait_active_clean cl k
  end.
(** How many of the stamps are later than [since] *)
Definition count_scrubbed (since : list Z) (stats : list pyval) : MJ Z :=
  timez <- map_ (fun stat => v <- subscript stat "last_scrub_stamp" ;; as_str v) stats ;;
  fold_ (fun n tmval =>
    pgtm <- of_option (ValueError "time data does not match format") (strptime (stamp_of tmval)) ;;
    ret (if later_stamp pgtm since then n + 1 else n)) timez 0.
(** The loop over [prev_good] and [gap_cnt]: all scrubbed, or no progress for too long *)
Definition scrub_round (cl : string) (since : list Z) (l : Z * Z) : MJ (Z * Z + unit) :=
  let '(prev_good, gap_cnt) := l in
  stats <- on_manager cl get_pg_stats ;;
  thiscnt <- count_scrubbed since stats ;;
  let again := thiscnt <? Z.of_nat (length stats) in
  let next := if prev_good <? thiscnt then (thiscnt, 0) else (prev_good, gap_cnt + 1) in
  if 12 <? next.2 then ret (inr tt)
  else if again then sleep 10 ;; ret (inl next)
  else ret (inr tt).
Definition osd_scrub_pgs (config : dict) : MJ unit :=
  cl <- cluster_name config ;;
  all_clean <- wait_active_clean cl 12 ;;
  if negb all_clean then ret tt
  else
    t <- time ;;
    sleep 1 ;;
    j <- get ;;
    for_ (cluster_roles_of_type (concat (map snd (cluster_roles (j_ctx j)))) "osd" cl) (fun role =>
      on_manager cl (raw_cluster_cmd ["osd"; "deep-scrub"; role_id role]) ;; ret tt) ;;
    loop fuel (scrub_round cl (localtime t)) (0, 0).

(** ** Daemons *)

(** [type_ in config['valgrind']] and the arguments for it; those of the role come first *)
Definition valgrind_args (valgrind : dict) (type_ role : string) : pyval :=
  match dict_lookup role valgrind with
  | Some a => a
  | None => dict_get type_ PNone valgrind
  end.
Definition daemon_cmd (c : context) (config : dict) (type_ cl role : string) : MJ (list string) :=
  let daemon_signal :=
    if truthy (dict_get "coverage" PNone config) ||
       negb (match dict_get "valgrind" PNone config with PNone => true | _ => false end) then "term" else "kill" in
  let run_cmd := ["sudo"; "adjust-ulimits"; "zbkc-coverage"; coverage_dir c; "daemon-helper"; daemon_signal] in
  profiled <- as_list (dict_get "cpu_profile" (PList []) config) ;;
  let run_cmd :=
    if existsb (fun v => eq_str v type_) profiled
    then run_cmd ++ ["env"; "CPUPROFILE=/var/log/zbkc/profiling-logger/" +:+ role +:+ ".prof"] else run_cmd in
  run_cmd <- match dict_get "valgrind" PNone config with
             | PNone => ret run_cmd
             | v => d <- as_dict v ;; ret (get_valgrind_args (testdir c) role run_cmd (valgrind_args d type_ role))
             end ;;
  ret (run_cmd ++ ["zbkc-" +:+ type_; "-f"; "--cluster"; cl; "-i"; role_id role]).
Definition run_daemon {A} (config : dict) (type_ : string) (body : MJ A) : MJ A :=
  cl <- cluster_name config ;;
  j <- get ;;
  let c := j_ctx j in
  for_ (of_type type_ cl c) (fun rr =>
    for_ rr.2 (fun role =>
      when (is_type type_ cl role)
        (cmd <- daemon_cmd c config type_ cl role ;;
         daemon (DAdd rr.1 cmd) type_ (role_id role) cl))) ;;
  finally body (call "stop_daemons_of_type" [type_; cl] ;; ret tt).

(** ** Waiting *)

Definition healthy (cl : string) : MJ unit :=
  mon0_remote <- mon_remote_of cl ;;
  call "wait_until_osds_up" [mon0_remote; cl] ;;
  call "wait_until_healthy" [mon0_remote; cl] ;;
  j <- get ;;
  match of_type "mds" cl (j_ctx j) with
  | [] => ret tt
  | _ =>
      f <- new_filesystem (fun c _ => get_first_mon c "zbkc") all_roles_of_type client_remote_of (j_ctx j) None None ;;
      fresh f (wait_for_daemons (Some 300%Q)) ;; ret tt
  end.
(** The cluster's name is not handed on to [wait_until_osds_up]. *)
Definition wait_for_osds_up (cl : string) : MJ unit :=
  mon0_remote <- mon_remote_of cl ;;
  call "wait_until_osds_up" [mon0_remote] ;; ret tt.

Definition str_leb (a b : string) : bool := match str_cmp a b with Gt => false | _ => true end.
Definition str_le (a b : string) : Prop := str_leb a b = true.
#[local] Instance str_le_dec : RelDecision str_le := fun a b => decide (str_leb a b = true).
Definition sorted (l : list string) : list string := merge_sort str_le l.
Definition wait_for_mon_quorum (config : pyval) : MJ unit :=
  mc <- match config with
        | PDict d =>
            v <- subscript config "daemons" ;; l <- as_list v ;;
            cl <- as_str (dict_get "cluster" (PStr "zbkc") d) ;; ret (l, cl)
        | PList l => ret (l, "zbkc")
        | _ => raise (AssertionError "isinstance(config, list)")
        end ;;
  mons <- map_ as_str mc.1 ;;
  r <- mon_remote_of mc.2 ;;
  loop fuel (fun _ : unit =>
    go <- ask (EvProceed 10 60 "wait for monitor quorum") ;;
    if go : bool then
      p <- run r ["sudo"; "zbkc"; "quorum_status"] true ;;
      jv <- json_loads (stdout p) ;; d <- as_dict jv ;;
      ql <- as_list (dict_get "quorum_names" (PList []) d) ;; q <- map_ as_str ql ;;
      ret (if bool_decide (sorted q = sorted mons) then inr tt else inl tt)
    else ret (inr tt)) tt.

(** Pools made behind the manager's back *)
Definition created_pool (config : list string) : MJ unit :=
  for_ config (fun new_pool =>
    known <- on_manager "zbkc" (m <- get ;; ret (bool_decide (is_Some (pools m !! new_pool)))) ;;
    when (negb known)
      (on_manager "zbkc" (n <- get_pool_property new_pool "pg_num" ;; modify (set_pools <[new_pool := n]>)))).

(** ** Restarting, stopping, and waiting for a failure *)

(** [None] is the empty configuration, a list is one of daemons *)
Definition daemons_config (config : pyval) : MJ dict :=
  match config with
  | PNone => ret []
  | PList _ => ret [("daemons", config)]
  | _ => as_dict config
  end.
Definition resolved (config : dict) : MJ (list string) :=
  j <- get ;; ret (resolve_role_list (j_ctx j) (dict_get "daemons" PNone config)).
Definition is_digits (s : string) : bool :=
  nonempty s && String.eqb (snd (Json.take_digits s)) EmptyString.
(** [osd.N], split at its points, is marked down *)
Definition mark_restarted (dmon : string) : MJ unit :=
  match split_on "." dmon with
  | t :: i :: _ =>
      when (is_digits i && String.eqb t "osd")
        (n <- of_option (ValueError "invalid literal for int()") (py_int i) ;; on_manager "zbkc" (mark_down_osd n))
  | _ => ret tt
  end.
Definition restart {A} (config : pyval) (body : MJ A) : MJ A :=
  config <- daemons_config config ;;
  daemons <- resolved config ;;
  for_ daemons (fun role => let '(cl, type_, id_) := split_role role in daemon (DRestart []) type_ id_ cl) ;;
  let clusters := remove_dups (map (fun role => (split_role role).1.1) daemons) in
  when (truthy (dict_get "wait-for-healthy" (PBool true) config)) (for_ clusters healthy) ;;
  when (truthy (dict_get "wait-for-osds-up" (PBool false) config)) (for_ clusters wait_for_osds_up) ;;
  on_manager "zbkc" (ret tt) ;;
  for_ daemons mark_restarted ;;
  body.
Definition stop {A} (config : pyval) (body : MJ A) : MJ A :=
  config <- daemons_config config ;;
  daemons <- resolved config ;;
  for_ daemons (fun role => let '(cl, type_, id_) := split_role role in daemon DStop type_ id_ cl) ;;
  body.
Definition wait_for_failure {A} (config : pyval) (body : MJ A) : MJ A :=
  config <- daemons_config config ;;
  daemons <- resolved config ;;
  for_ daemons (fun role =>
    let '(cl, type_, id_) := split_role role in
    survived <- catch (daemon DWait type_ id_ cl ;; ret true) (fun _ => ret false) ;;
    if survived : bool then raise (RuntimeError ("daemon " +:+ role +:+ " did not fail")) else ret tt) ;;
  body.

(** ** The task *)

(** No machine has OSDs of two clusters: the loop over the roles of one *)
Fixpoint validate_roles (roles : list string) (last_cluster : option string) : MJ unit :=
  match roles with
  | [] => ret tt
  | role :: roles' =>
      let '(role_cluster, role_type, _) := split_role role in
      if negb (String.eqb role_type "osd") then validate_roles roles' last_cluster
      else
        match last_cluster with
        | Some cl =>
            if nonempty cl && negb (String.eqb cl role_cluster)
            then raise (OtherError "ConfigError: Host should not have osds from multiple clusters")
            else validate_roles roles' (Some role_cluster)
        | None => validate_roles roles' (Some role_cluster)
        end
  end.
Definition validate_config : MJ unit :=
  j <- get ;; for_ (cluster_roles (j_ctx j)) (fun rr => validate_roles rr.2 None).

Definition opt_strs (v : pyval) : MJ (option (list string)) :=
  match v with PNone => ret None | _ => l <- as_list v ;; l' <- map_ as_str l ;; ret (Some l') end.
(** The configuration handed to [cluster]; its keys [keyring_path] and [conf_path] are never set *)
Definition make_cluster_config (config : dict) (cl : string) : MJ cluster_config :=
  secs <- as_dict (dict_get "conf" (PDict []) config) ;;
  conf <- map_ (fun kv => d <- as_dict kv.2 ;; ret (kv.1, d)) secs ;;
  fs <- match dict_get "fs" (PStr "xfs") config with
        | PStr s => ret (if String.eqb s EmptyString then None else Some s)
        | v => if truthy v then raise (TypeError "fs is a name") else ret None
        end ;;
  mkfs <- opt_strs (dict_get "mkfs_options" PNone config) ;;
  mount <- opt_strs (dict_get "mount_options" PNone config) ;;
  wl <- as_list (dict_get "log-whitelist" (PList []) config) ;; whitelist <- map_ as_str wl ;;
  ret (ClusterConfig conf fs mkfs mount (truthy (dict_get "block_journal" PNone config))
         (truthy (dict_get "tmpfs_journal" PNone config)) whitelist cl None None).

(** What runs inside of everything: the manager, the wait for health, the body, the scrub *)
Definition with_manager {A} (config : dict) (cl : string) (body : MJ A) : MJ A :=
  mon <- mon_remote_of cl ;;
  j <- get ;;
  m <- make_manager (j_ctx j) mon cl ;;
  modify (set_managers <[cl := m]>) ;;
  finally
    (when (truthy (dict_get "wait-for-healthy" (PBool true) config)) (healthy cl) ;; body)
    (when (truthy (dict_get "wait-for-scrub" (PBool true) config)) (osd_scrub_pgs config)).

(** [contextutil.nested]: from the logs to the metadata servers *)
Definition nested {A} (config : dict) (cl : string) (body : MJ A) : MJ A :=
  cc <- make_cluster_config config cl ;;
  cluster get_first_mon cluster_roles_of_type zbkc_role skeleton_config peer_address num_osds merge_devs render_conf cc
    (run_daemon config "mon"
      (run_daemon config "mgr"
        (crush_setup config
          (run_daemon config "osd"
            (zbkcfs_setup config
              (run_daemon config "mds" (with_manager config cl body))))))).
Definition task {A} (config : dict) (body : MJ A) : MJ A :=
  j <- get ;;
  overrides <- as_dict (dict_get "overrides" (PDict []) (j_config j)) ;;
  let config := deep_merge config (dict_get "zbkc" (PDict []) overrides) in
  let first_zbkc_cluster := negb (j_daemons j) in
  modify set_daemons ;;
  when (truthy (dict_get "coverage" PNone config))
    (run_all ["install"; "-d"; "-m0755"; "--"; coverage_dir (j_ctx j)]) ;;
  let config := if dict_has "cluster" config then config else dict_set "cluster" (PStr "zbkc") config in
  validate_config ;;
  cl <- cluster_name config ;;
  if first_zbkc_cluster then zbkc_log (valgrind_post config (nested config cl body))
  else nested config cl body.

End ZbkcTask.
