(* ===== verification/ClientMount.v ===== *)
(** * Client mounts: [ZbkcFSMount] (tasks/zbkcfs/mount.py)

    The abstract base class of the two kinds of client.  Its own fields are the record
    [mount_base]; the methods it leaves to its subclasses are the class [ClientMount], and the
    methods it has are defined over that interface.  The scripts handed to a remote Python
    are texts; in the literals below a backquote stands for a double quote. *)
From Stdlib Require Import Ascii QArith Qround Lqa.
From S2P Require Import Prelude PyVal World.

Record mount_base := MountBase
  { test_dir : string;
    client_id : string;
    client_remote : remote;
    mountpoint_dir_name : string;
    background_procs : list proc }.
Definition test_files : list string := ["a"; "b"; "c"].
Definition init_base (test_dir client_id : string) (client_remote : remote) : mount_base :=
  MountBase test_dir client_id client_remote ("mnt." +:+ client_id) [].
Definition set_procs (ps : list proc) (b : mount_base) : mount_base :=
  MountBase (test_dir b) (client_id b) (client_remote b) (mountpoint_dir_name b) ps.

(** [os.path.join(a, b)] *)
Fixpoint ends_in_slash (s : string) : bool :=
  match s with
  | EmptyString => false
  | String a EmptyString => Ascii.eqb a "/"
  | String _ s' => ends_in_slash s'
  end.
Definition path_join (a b : string) : string :=
  if startswith "/" b then b
  else if String.eqb a EmptyString || ends_in_slash a then a +:+ b
  else a +:+ "/" +:+ b.
Definition mountpoint (b : mount_base) : string := path_join (test_dir b) (mountpoint_dir_name b).
Definition get_keyring_path (b : mount_base) : string := "/etc/zbkc/zbkc.client." +:+ client_id b +:+ ".keyring".
Definition config_path : string := "/etc/zbkc/zbkc.conf".

(** A literal with backquotes for double quotes; a script, line by line *)
Fixpoint bq (s : string) : string :=
  match s with
  | EmptyString => EmptyString
  | String a s' => String (if Ascii.eqb a "`" then dquote else a) (bq s')
  end.
Definition script (lines : list string) : string := nls +:+ str_join nls lines +:+ nls.
Definition py_bool (b : bool) : string := if b then "True" else "False".

(** ** What a kind of client provides *)
Class ClientMount {E : Env} (S : Type) := {
  base_of : S -> mount_base;
  set_base : mount_base -> S -> S;
  is_mounted : M S bool;
  mount : option string -> option string -> M S unit;     (* mount_path, mount_fs_name *)
  umount : M S unit;
  umount_wait : bool -> bool -> M S unit;                 (* force, require_clean *)
  kill : M S unit;
  kill_cleanup : M S unit;
  cleanup : M S unit;
  wait_until_mounted : M S unit;
  teardown : M S unit
}.

(** ** Background processes, which every kind of client inherits *)
Section Procs.
Context {E : Env} {S : Type} (base_of : S -> mount_base) (set_base : mount_base -> S -> S).
Abbreviation MS A := (M S A).

(** [_run_python]: a process with a pipe for its standard input *)
Definition _run_python (pyscript : string) : MS proc :=
  s <- get ;;
  start (client_remote (base_of s)) ["sudo"; "adjust-ulimits"; "daemon-helper"; "kill"; "python"; "-c"; pyscript].
Definition run_python (pyscript : string) : MS string :=
  p <- _run_python pyscript ;; r <- wait_proc p true ;; ret (str_strip (stdout r)).
(** Errors of the process or of the connection do not matter any more. *)
Definition _kill_background (p : proc) : MS unit :=
  on_proc PCloseStdin p ;;
  catch (wait_proc p true ;; ret tt)
    (fun e => match e with
              | CommandFailedError _ | OtherError "ConnectionLostError" => ret tt
              | _ => raise e
              end).
Definition add_proc (p : proc) : MS unit :=
  modify (fun s => set_base (set_procs (background_procs (base_of s) ++ [p]) (base_of s)) s).
Definition base_teardown : MS unit :=
  s <- get ;;
  for_ (background_procs (base_of s)) _kill_background ;;
  modify (fun s => set_base (set_procs [] (base_of s)) s).
End Procs.

Definition proc_eqb (p q : proc) : bool :=
  Nat.eqb (pid p) (pid q) && String.eqb (p_remote p) (p_remote q) && bool_decide (p_args p = p_args q).
Fixpoint remove_proc (p : proc) (l : list proc) : option (list proc) :=
  match l with
  | [] => None
  | q :: l' => if proc_eqb p q then Some l' else cons q <$> remove_proc p l'
  end.

(** ** The methods of the base class *)
Section Base.
Context {E : Env} {F : Fuel} {S : Type} `{!ClientMount S}.
Context (datetime_now : Q -> string).                     (* str(datetime.datetime.now()) *)
Abbreviation MS A := (M S A).

Definition here (name : string) : MS string := s <- get ;; ret (path_join (mountpoint (base_of s)) name).
Definition on_client (args : list string) (check_status : bool) : MS reply :=
  s <- get ;; run (client_remote (base_of s)) args check_status.
Definition assert_mounted : MS unit := b <- is_mounted ;; assert_ b "self.is_mounted()".
(** A script that runs until it is killed *)
Definition background (pyscript : string) : MS proc :=
  p <- _run_python base_of pyscript ;; add_proc base_of set_base p ;; ret p.

(** [with mount.mounted(): body] *)
Definition mounted {A} (body : MS A) : MS A :=
  mount None None ;; wait_until_mounted ;; finally body (umount_wait false false).

Definition create_files : MS unit :=
  assert_mounted ;;
  for_ test_files (fun suffix => p <- here suffix ;; on_client ["sudo"; "touch"; p] true ;; ret tt).
Definition check_files : MS unit :=
  assert_mounted ;;
  for_ test_files (fun suffix =>
    p <- here suffix ;;
    r <- on_client ["sudo"; "ls"; p] false ;;
    when (negb (exitstatus r =? 0)) (raise (RuntimeError ("Expected file " +:+ suffix +:+ " not found")))).
Definition create_destroy : MS unit :=
  assert_mounted ;;
  t <- time ;; s <- get ;;
  p <- here (datetime_now t +:+ " " +:+ client_id (base_of s)) ;;
  on_client ["sudo"; "touch"; p] true ;;
  on_client ["sudo"; "rm"; "-f"; p] true ;;
  ret tt.

(** The reply, or the process when it is not waited for *)
Definition run_shell (args : list string) (wait : bool) : MS (reply + proc) :=
  s <- get ;;
  let cmd := ["cd"; mountpoint (base_of s); "&&"; "sudo"] ++ args in
  if wait then r <- run (client_remote (base_of s)) cmd true ;; ret (inl r)
  else p <- start (client_remote (base_of s)) cmd ;; ret (inr p).
Definition shell_out (args : list string) : MS string :=
  r <- run_shell args true ;; ret (match r with inl r => stdout r | inr _ => EmptyString end).

Definition open_no_data (basename : string) : MS unit :=
  assert_mounted ;;
  path <- here basename ;;
  p <- _run_python base_of (script [bq "f = open(`" +:+ path +:+ bq "`, 'w')"]) ;;
  wait_proc p true ;; ret tt.
Definition open_background (basename : string) : MS proc :=
  assert_mounted ;;
  path <- here basename ;;
  background (script ["import time"; ""; bq "f = open(`" +:+ path +:+ bq "`, 'w')"; "f.write('content')"; "f.flush()";
                      "f.write('content2')"; "while True:"; "    time.sleep(1)"]).

(** A look every second, [timeout] of them at most *)
Definition wait_for_visible (basename : string) (timeout : Z) : MS unit :=
  loop fuel (fun i : Z =>
    if i <? timeout then
      p <- here basename ;;
      r <- on_client ["sudo"; "ls"; p] false ;;
      if exitstatus r =? 0 then ret (inr tt) else sleep 1 ;; ret (inl (i + 1))
    else raise (RuntimeError "Timed out waiting to become visible")) 0.

Definition lock_background (basename : string) (do_flock : bool) : MS proc :=
  assert_mounted ;;
  path <- here basename ;;
  background (script
    (["import time"; "import fcntl"; "import struct"] ++
     (if do_flock then [bq "f1 = open(`" +:+ path +:+ bq "-1`, 'w')"; "fcntl.flock(f1, fcntl.LOCK_EX | fcntl.LOCK_NB)"] else []) ++
     [bq "f2 = open(`" +:+ path +:+ bq "-2`, 'w')"; "lockdata = struct.pack('hhllhh', fcntl.F_WRLCK, 0, 0, 0, 0, 0)";
      "fcntl.fcntl(f2, fcntl.F_SETLK, lockdata)"; "while True:"; "    time.sleep(1)"])).
(** The error of a lock that is not there, around the call that should not get it *)
Definition expect_locked (call : list string) (what path : string) : list string :=
  ["try:"] ++ call ++
  ["except IOError, e:"; "    if e.errno == errno.EAGAIN:"; "        pass"; "else:";
   bq "    raise RuntimeError(`" +:+ what +:+ " on file " +:+ path +:+ bq " not found`)"].
Definition check_filelock (basename : string) (do_flock : bool) : MS unit :=
  assert_mounted ;;
  path <- here basename ;;
  let pyscript := script
    (["import fcntl"; "import errno"; "import struct"] ++
     (if do_flock then
        [bq "f1 = open(`" +:+ path +:+ bq "-1`, 'r')"] ++
        expect_locked ["    fcntl.flock(f1, fcntl.LOCK_EX | fcntl.LOCK_NB)"] "flock" (path +:+ "-1") else []) ++
     [bq "f2 = open(`" +:+ path +:+ bq "-2`, 'r')"] ++
     expect_locked ["    lockdata = struct.pack('hhllhh', fcntl.F_WRLCK, 0, 0, 0, 0, 0)";
                    "    fcntl.fcntl(f2, fcntl.F_SETLK, lockdata)"] "posix lock" (path +:+ "-2")) in
  on_client ["sudo"; "python"; "-c"; pyscript] true ;; ret tt.
Definition write_background (basename : string) (loop_ : bool) : MS proc :=
  assert_mounted ;;
  path <- here basename ;;
  background (script
    ["import os"; "import time"; ""; bq "fd = os.open(`" +:+ path +:+ bq "`, os.O_RDWR | os.O_CREAT, 0644)"; "try:";
     "    while True:"; "        os.write(fd, 'content')"; "        time.sleep(1)"; "        if not " +:+ py_bool loop_ +:+ ":";
     "            break"; "except IOError, e:"; "    pass"; "os.close(fd)"]).
Definition write_n_mb (filename : string) (n_mb seek : Z) (wait : bool) : MS (reply + proc) :=
  assert_mounted ;;
  run_shell ["dd"; "if=/dev/urandom"; "of=" +:+ filename; "bs=1M"; "conv=fdatasync"; "count=" +:+ str_of_Z n_mb;
             "seek=" +:+ str_of_Z seek] wait.
Definition write_test_pattern (filename : string) (size : Z) : MS string :=
  path <- here filename ;;
  run_python base_of (script
    ["import zlib"; bq "path = `" +:+ path +:+ bq "`"; "f = open(path, 'w')"; "for i in range(0, " +:+ str_of_Z size +:+ "):";
     bq "    val = zlib.crc32(`%s` % i) & 7"; "    f.write(chr(val))"; "f.close()"]).
Definition validate_test_pattern (filename : string) (size : Z) : MS string :=
  path <- here filename ;;
  let n := str_of_Z size in
  run_python base_of (script
    ["import zlib"; bq "path = `" +:+ path +:+ bq "`"; "f = open(path, 'r')"; "bytes = f.read()"; "f.close()";
     "if len(bytes) != " +:+ n +:+ ":"; bq "    raise RuntimeError(`Bad length {0} vs. expected {1}`.format(";
     "        len(bytes), " +:+ n; "    ))"; "for i, b in enumerate(bytes):"; bq "    val = zlib.crc32(`%s` % i) & 7";
     "    if b != chr(val):"; bq "        raise RuntimeError(`Bad data at offset {0}`.format(i))"]).

(** The head of the scripts that make files below [abs_path] *)
Definition many_files (abs_path : string) (count : Z) : list string :=
  ["import sys"; "import time"; "import os"; ""; "n = " +:+ str_of_Z count; bq "abs_path = `" +:+ abs_path +:+ bq "`"; "";
   "if not os.path.exists(os.path.dirname(abs_path)):"; "    os.makedirs(os.path.dirname(abs_path))"; ""].
Definition open_n_background (fs_path : string) (count : Z) : MS proc :=
  assert_mounted ;;
  abs_path <- here fs_path ;;
  background (script (many_files abs_path count ++
    ["handles = []"; "for i in range(0, n):"; bq "    fname = `{0}_{1}`.format(abs_path, i)";
     "    handles.append(open(fname, 'w'))"; ""; "while True:"; "    time.sleep(1)"])).
Definition create_n_files (fs_path : string) (count : Z) (sync : bool) : MS unit :=
  assert_mounted ;;
  abs_path <- here fs_path ;;
  run_python base_of (script (many_files abs_path count ++
    ["for i in range(0, n):"; bq "    fname = `{0}_{1}`.format(abs_path, i)"; "    h = open(fname, 'w')";
     "    h.write('content')"; "    if " +:+ py_bool sync +:+ ":"; "        h.flush()"; "        os.fsync(h.fileno())";
     "    h.close()"])) ;;
  ret tt.
Definition spam_dir_background (path : string) : MS proc :=
  assert_mounted ;;
  abs_path <- here path ;;
  background (script
    ["import sys"; "import time"; "import os"; ""; bq "abs_path = `" +:+ abs_path +:+ bq "`"; "";
     "if not os.path.exists(abs_path):"; "    os.makedirs(abs_path)"; ""; "n = 0"; "while True:";
     bq "    file_path = os.path.join(abs_path, `tmp%d` % n)"; "    f = open(file_path, 'w')"; "    f.close()"; "    n = n + 1"]).

(** Killed, and forgotten; a process that is not in the list is a [ValueError] *)
Definition kill_background (p : proc) : MS unit :=
  _kill_background p ;;
  s <- get ;;
  ps <- of_option (ValueError "list.remove(x): x not in list") (remove_proc p (background_procs (base_of s))) ;;
  modify (fun s => set_base (set_procs ps (base_of s)) s).

(** ** Looking at files *)
Definition stat (fs_path : string) (wait : bool) : MS (pyval + proc) :=
  abs_path <- here fs_path ;;
  p <- _run_python base_of (script
    ["import os"; "import stat"; "import json"; "import sys"; ""; "try:"; bq "    s = os.stat(`" +:+ abs_path +:+ bq "`)";
     "except OSError as e:"; "    sys.exit(e.errno)"; "";
     bq "attrs = [`st_mode`, `st_ino`, `st_dev`, `st_nlink`, `st_uid`, `st_gid`, `st_size`, `st_atime`, `st_mtime`, `st_ctime`]";
     "print json.dumps("; "    dict([(a, getattr(s, a)) for a in attrs]),"; "    indent=2)"]) ;;
  if wait then r <- wait_proc p true ;; v <- json_loads (str_strip (stdout r)) ;; ret (inl v) else ret (inr p).
Definition touch (fs_path : string) : MS unit :=
  abs_path <- here fs_path ;;
  p <- _run_python base_of (script
    ["import sys"; "import errno"; ""; "try:"; bq "    f = open(`" +:+ abs_path +:+ bq "`, `w`)"; "    f.close()";
     "except IOError as e:"; "    sys.exit(errno.EIO)"]) ;;
  wait_proc p true ;; ret tt.
Definition print_stat (fs_path call field : string) : MS Z :=
  abs_path <- here fs_path ;;
  p <- _run_python base_of (script
    ["import os"; "import stat"; ""; "print os." +:+ call +:+ bq "(`" +:+ abs_path +:+ bq "`)." +:+ field]) ;;
  r <- wait_proc p true ;;
  of_option (ValueError "invalid literal for int()") (py_int (str_strip (stdout r))).
Definition path_to_ino (fs_path : string) (follow_symlinks : bool) : MS Z :=
  print_stat fs_path (if follow_symlinks then "stat" else "lstat") "st_ino".
Definition path_to_nlink (fs_path : string) : MS Z := print_stat fs_path "stat" "st_nlink".
Definition ls (path : option string) : MS (list string) :=
  out <- shell_out (["ls"] ++ match path with
                             | Some p => if String.eqb p EmptyString then [] else [p]
                             | None => []
                             end) ;;
  let ls_text := str_strip out in
  ret (if String.eqb ls_text EmptyString then [] else split_on nl ls_text).
Definition getfattr (path attr : string) : MS string := shell_out ["getfattr"; "--only-values"; "-n"; attr; path].
(** [total], [used] and [available] *)
Definition df : MS (Z * Z * Z) :=
  out <- shell_out ["df"; "-B1"; "."] ;;
  line <- of_option IndexError (split_on nl (str_strip out) !! 1%nat) ;;
  match split_ws line with
  | _ :: total :: used :: avail :: _ =>
      let int s := of_option (ValueError "invalid literal for int()") (py_int s) in
      t <- int total ;; u <- int used ;; a <- int avail ;; ret (t, u, a)
  | _ => raise (ValueError "need more values to unpack")
  end.

End Base.
