(* ===== verification/FuseMount.v ===== *)
(** * The FUSE client: [FuseMount] (tasks/zbkcfs/fuse_mount.py)

    The fields are the record [fuse]; [FuseMount] is an instance of [ClientMount].  The command
    line of valgrind is an argument. *)
From Stdlib Require Import Ascii QArith Qround Lqa.
From S2P Require Import Prelude PyVal World ZbkcCluster ClientMount.

Record fuse := Fuse
  { f_base : mount_base;
    client_config : dict;
    fuse_daemon : option proc;
    _fuse_conn : option Z }.
Definition init_fuse (client_config : dict) (test_dir client_id : string) (r : remote) : fuse :=
  Fuse (init_base test_dir client_id r) client_config None None.
Definition set_fbase (b : mount_base) (f : fuse) : fuse := Fuse b (client_config f) (fuse_daemon f) (_fuse_conn f).
Definition set_daemon (p : proc) (f : fuse) : fuse := Fuse (f_base f) (client_config f) (Some p) (_fuse_conn f).
Definition set_conn (c : option Z) (f : fuse) : fuse := Fuse (f_base f) (client_config f) (fuse_daemon f) c.

Section Fuse.
Context {E : Env} {F : Fuel}.
Context (get_valgrind_args : string -> string -> list string -> pyval -> list string).
Abbreviation MF A := (M fuse A).

Definition on_host (args : list string) (check_status : bool) : MF reply :=
  f <- get ;; run (client_remote (f_base f)) args check_status.
Definition the_mountpoint : MF string := f <- get ;; ret (mountpoint (f_base f)).
(** [self.fuse_daemon], of which something is asked *)
Definition the_daemon : MF proc :=
  f <- get ;; of_option (AttributeError "'NoneType' object has no attribute") (fuse_daemon f).

(** ** Mounting *)

(** The command line of zbkc-fuse *)
Definition fuse_cmd (f : fuse) (mount_path mount_fs_name : option string) : list string :=
  let cfg := client_config f in
  let valgrind := dict_get "valgrind" PNone cfg in
  let name := "client." +:+ client_id (f_base f) in
  let has_valgrind := match valgrind with PNone => false | _ => true end in
  let daemon_signal := if truthy (dict_get "coverage" PNone cfg) || has_valgrind then "term" else "kill" in
  let run_cmd := ["sudo"; "adjust-ulimits"; "zbkc-coverage"; test_dir (f_base f) +:+ "/archive/coverage"; "daemon-helper";
                  daemon_signal] in
  let run_cmd := if has_valgrind then get_valgrind_args (test_dir (f_base f)) name run_cmd valgrind else run_cmd in
  run_cmd ++ ["zbkc-fuse"; "-f"] ++
  match mount_path with Some p => ["--client_mountpoint=" +:+ p] | None => [] end ++
  match mount_fs_name with Some n => ["--client_mds_namespace=" +:+ n] | None => [] end ++
  ["--name"; name; mountpoint (f_base f)].
(** The numbers of the connections the kernel knows of *)
Definition list_connections : MF (list Z) :=
  on_host ["sudo"; "mount"; "-t"; "fusectl"; "/sys/fs/fuse/connections"; "/sys/fs/fuse/connections"] false ;;
  p <- on_host ["ls"; "/sys/fs/fuse/connections"] false ;;
  if negb (exitstatus p =? 0) then ret []
  else
    let ls_str := str_strip (stdout p) in
    if String.eqb ls_str EmptyString then ret []
    else map_ (fun n => of_option (ValueError "invalid literal for int()") (py_int n)) (split_on nl ls_str).
(** The loop until a connection more is listed than before: [waited] and the last list *)
Definition await_connection (pre : list Z) (timeout : Z) (post : list Z) : MF (list Z) :=
  loop fuel (fun l : Z * list Z =>
    let '(waited, post) := l in
    if Nat.leb (length post) (length pre) then
      p <- the_daemon ;;
      done <- ask (EvProc PFinished (pid p) (p_remote p) (p_args p)) ;;
      when done (wait_proc p true ;; ret tt) ;;
      sleep 1 ;;
      let waited := waited + 1 in
      if timeout <? waited then raise (RuntimeError "Fuse mount failed to populate /sys/")
      else post <- list_connections ;; ret (inl (waited, post))
    else ret (inr post)) (0, post).
(** [list(set(post) - set(pre))], of which there must be one *)
Definition new_connection (pre post : list Z) : MF Z :=
  match filter (fun c => c ∉ pre) (remove_dups post) with
  | [] => raise (RuntimeError "New fuse connection directory not found")
  | [c] => ret c
  | _ => raise (RuntimeError "Unexpectedly numerous fuse connections")
  end.
Definition fuse_mount (mount_path mount_fs_name : option string) : MF unit :=
  mnt <- the_mountpoint ;;
  on_host ["mkdir"; "--"; mnt] true ;;
  pre <- list_connections ;;
  f <- get ;;
  p <- start (client_remote (f_base f)) (fuse_cmd f mount_path mount_fs_name) ;;
  modify (set_daemon p) ;;
  let mount_wait := dict_get "mount_wait" (PInt 0) (client_config f) in
  when (py_gt mount_wait (PInt 0)) (d <- as_num mount_wait ;; sleep d) ;;
  timeout <- as_int (dict_get "mount_timeout" (PInt 30) (client_config f)) ;;
  post <- list_connections ;;
  post <- await_connection pre timeout post ;;
  c <- new_connection pre post ;;
  modify (set_conn (Some c)).

(** A stale mount point, whose client is gone, counts as mounted. *)
Definition fuse_is_mounted : MF bool :=
  mnt <- the_mountpoint ;;
  f <- get ;;
  p <- start (client_remote (f_base f)) ["stat"; "--file-system"; "--printf=%T" +:+ nls; "--"; mnt] ;;
  r <- on_proc PWait p ;;
  if exitstatus r =? 0 then ret (String.eqb (str_rstrip_nl (stdout r)) "fuseblk")
  else ret (str_in "endpoint is not connected" (stderr r) || str_in "Software caused connection abort" (stderr r)).
Definition fuse_wait_until_mounted : MF unit :=
  while fuel (fun _ => b <- fuse_is_mounted ;; ret (negb b))
    (fun _ =>
       p <- the_daemon ;;
       r <- on_proc PPoll p ;;
       assert_ (exitstatus r =? 0) "not self.fuse_daemon.poll()" ;;
       sleep 5) tt ;;
  mnt <- the_mountpoint ;;
  on_host ["sudo"; "chmod"; "1777"; mnt] true ;; ret tt.
Definition _mountpoint_exists : MF bool :=
  mnt <- the_mountpoint ;; r <- on_host ["ls"; "-d"; mnt] false ;; ret (exitstatus r =? 0).

(** ** Unmounting *)

Definition abort_script (conn : Z) : string :=
  script ["import os"; bq "path = `/sys/fs/fuse/connections/" +:+ str_of_Z conn +:+ bq "/abort`"; "if os.path.exists(path):";
          bq "    open(path, `w`).write(`1`)"].
(** Abort the connection, killing all hung processes, and unmount by force. *)
Definition force_umount : MF unit :=
  f <- get ;;
  match _fuse_conn f with
  | Some c =>
      when (negb (c =? 0)) (run_python f_base (abort_script c) ;; modify (set_conn None))
  | None => ret tt
  end ;;
  mnt <- the_mountpoint ;;
  catch (on_host ["sudo"; "umount"; "-l"; "-f"; mnt] true ;; ret tt)
    (fun e => match e with
              | CommandFailedError _ => b <- fuse_is_mounted ;; if b : bool then raise e else ret tt
              | _ => raise e
              end).
Definition fuse_umount : MF unit :=
  mnt <- the_mountpoint ;;
  catch (on_host ["sudo"; "fusermount"; "-u"; mnt] true ;; ret tt)
    (fun e => match e with CommandFailedError _ => force_umount | _ => raise e end) ;;
  b <- fuse_is_mounted ;;
  assert_ (negb b) "not self.is_mounted()" ;;
  modify (set_conn None).
(** Remove the mount point; one that is not there is fine. *)
Definition fuse_cleanup : MF unit :=
  mnt <- the_mountpoint ;;
  r <- on_host ["rmdir"; "--"; mnt] false ;;
  when (negb (exitstatus r =? 0))
    (if str_in "No such file or directory" (stderr r) then ret tt else raise (CommandFailedError (exitstatus r))).
Definition close_daemon : MF unit := p <- the_daemon ;; on_proc PCloseStdin p ;; ret tt.
(** [self.fuse_daemon.wait()], where a failure of the process does not matter *)
Definition reap_daemon : MF unit :=
  p <- the_daemon ;;
  catch (wait_proc p true ;; ret tt)
    (fun e => match e with CommandFailedError _ => ret tt | _ => raise e end).
Definition fuse_umount_wait (force require_clean : bool) : MF unit :=
  when force (assert_ (negb require_clean) "not require_clean" ;; close_daemon) ;;
  fuse_umount ;;
  f <- get ;;
  match fuse_daemon f with
  | Some p =>
      catch (wait_proc p true ;; ret tt)
        (fun e => match e with
                  | CommandFailedError _ => if require_clean then raise e else ret tt
                  | _ => raise e
                  end)
  | None => ret tt
  end ;;
  fuse_cleanup.
Definition fuse_kill : MF unit := close_daemon ;; reap_daemon.
Definition fuse_kill_cleanup : MF unit := fuse_umount ;; fuse_cleanup.
(** Whatever the state of the mount, get it gone. *)
Definition fuse_teardown : MF unit :=
  base_teardown f_base set_fbase ;;
  fuse_umount ;;
  f <- get ;;
  match fuse_daemon f with
  | Some p =>
      done <- ask (EvProc PFinished (pid p) (p_remote p) (p_args p)) ;;
      when (negb done) (close_daemon ;; reap_daemon)
  | None => ret tt
  end ;;
  mnt <- the_mountpoint ;;
  on_host ["rm"; "-rf"; mnt] true ;; ret tt.

#[export] Instance fuse_client : ClientMount fuse := {|
  base_of := f_base; set_base := set_fbase; is_mounted := fuse_is_mounted; mount := fuse_mount; umount := fuse_umount;
  umount_wait := fuse_umount_wait; kill := fuse_kill; kill_cleanup := fuse_kill_cleanup; cleanup := fuse_cleanup;
  wait_until_mounted := fuse_wait_until_mounted; teardown := fuse_teardown |}.

(** ** The client's administration socket *)

Definition _asok_path (f : fuse) : string := "/var/run/zbkc/zbkc-client." +:+ client_id (f_base f) +:+ ".*.asok".
Definition find_socket_script (asok_path client_name : string) : string :=
  script
    ["import glob"; "import re"; "import os"; "import subprocess"; ""; "def find_socket(client_name):";
     bq "        asok_path = `" +:+ asok_path +:+ bq "`"; "        files = glob.glob(asok_path)"; "";
     "        # Given a non-glob path, it better be there"; bq "        if `*` not in asok_path:";
     "            assert(len(files) == 1)"; "            return files[0]"; ""; "        for f in files:";
     bq "                pid = re.match(`.*\.(\d+)\.asok$`, f).group(1)";
     bq "                if os.path.exists(`/proc/{0}`.format(pid)):"; "                        return f";
     bq "        raise RuntimeError(`Client socket {0} not found`.format(client_name))"; "";
     bq "print find_socket(`" +:+ client_name +:+ bq "`)"].
Definition fuse_admin_socket (args : list string) : MF pyval :=
  f <- get ;;
  p <- on_host ["python"; "-c"; find_socket_script (_asok_path f) ("client." +:+ client_id (f_base f))] true ;;
  r <- on_host (["sudo"; "zbkc"; "--admin-daemon"; str_strip (stdout p)] ++ args) true ;;
  json_loads (stdout r).
Definition fuse_get_global_id : MF pyval := v <- fuse_admin_socket ["mds_sessions"] ;; subscript v "id".
Definition status_pair (a b : string) : MF (pyval * pyval) :=
  st <- fuse_admin_socket ["status"] ;; x <- subscript st a ;; y <- subscript st b ;; ret (x, y).
Definition fuse_get_osd_epoch : MF (pyval * pyval) := status_pair "osd_epoch" "osd_epoch_barrier".
Definition get_dentry_count : MF (pyval * pyval) := status_pair "dentry_count" "dentry_pinned_count".
Definition set_cache_size (size : Z) : MF pyval := fuse_admin_socket ["config"; "set"; "client_cache_size"; str_of_Z size].

End Fuse.
