(* ===== verification/KernelMount.v ===== *)
(** * The kernel client: [KernelMount] (tasks/zbkcfs/kernel_mount.py)

    The fields are the record [kmount]; [KernelMount] is an instance of [ClientMount].  The
    console of a machine is reached through [EvConsole]. *)
From Stdlib Require Import Ascii QArith Qround Lqa.
From S2P Require Import Prelude PyVal World ClientMount.

Record kmount := KMount
  { k_base : mount_base;
    mons : list string;
    k_mounted : bool }.
Definition init_kernel (mons : list string) (test_dir client_id : string) (r : remote) : kmount :=
  KMount (init_base test_dir client_id r) mons false.
Definition set_kbase (b : mount_base) (k : kmount) : kmount := KMount b (mons k) (k_mounted k).
Definition set_mounted (b : bool) (k : kmount) : kmount := KMount (k_base k) (mons k) b.

Section Kernel.
Context {E : Env}.
Abbreviation MK A := (M kmount A).

Definition on_kclient (args : list string) : MK unit :=
  k <- get ;; run (client_remote (k_base k)) args true ;; ret tt.

(** The key of a role, written to a file *)
Definition write_secret_file (r : remote) (role keyring filename : string) : MK unit :=
  k <- get ;;
  run r ["adjust-ulimits"; "zbkc-coverage"; test_dir (k_base k) +:+ "/archive/coverage"; "zbkc-authtool";
         "--name=" +:+ role; "--print-key"; keyring; ">"; filename] true ;;
  ret tt.
Definition kernel_mount (mount_path mount_fs_name : option string) : MK unit :=
  k <- get ;;
  let b := k_base k in
  let secret := test_dir b +:+ "/zbkc.data/client." +:+ client_id b +:+ ".secret" in
  write_secret_file (client_remote b) ("client." +:+ client_id b) (get_keyring_path b) secret ;;
  on_kclient ["mkdir"; "--"; mountpoint b] ;;
  let opts := "name=" +:+ client_id b +:+ ",secretfile=" +:+ secret +:+ ",norequire_active_mds" +:+
    match mount_fs_name with Some n => ",mds_namespace=" +:+ n | None => EmptyString end in
  on_kclient ["sudo"; "adjust-ulimits"; "zbkc-coverage"; test_dir b +:+ "/archive/coverage"; "/sbin/mount.zbkc";
              str_join "," (mons k) +:+ ":" +:+ default "/" mount_path; mountpoint b; "-v"; "-o"; opts] ;;
  on_kclient ["sudo"; "chmod"; "1777"; mountpoint b] ;;
  modify (set_mounted true).
Definition kernel_umount : MK unit :=
  k <- get ;;
  on_kclient ["sudo"; "umount"; mountpoint (k_base k)] ;;
  on_kclient ["rmdir"; "--"; mountpoint (k_base k)] ;;
  modify (set_mounted false).
Definition kernel_is_mounted : MK bool := gets k_mounted.
Definition kernel_wait_until_mounted : MK unit := k <- get ;; assert_ (k_mounted k) "self.mounted".
(** The machine is switched off: the client must not release anything. *)
Definition kernel_kill : MK unit :=
  k <- get ;;
  emit (EvConsole PowerOff (client_remote (k_base k))) ;;
  modify (set_mounted false).
Definition kernel_kill_cleanup : MK unit :=
  k <- get ;;
  assert_ (negb (k_mounted k)) "not self.mounted" ;;
  emit (EvConsole PowerOn (client_remote (k_base k))) ;;
  emit (EvReconnect (client_remote (k_base k)) 300) ;;
  on_kclient ["rmdir"; "--"; mountpoint (k_base k)].
Definition kernel_umount_wait (force require_clean : bool) : MK unit :=
  b <- kernel_is_mounted ;;
  if negb b then ret tt
  else
    catch kernel_umount
      (fun e => match e with
                | CommandFailedError _ => if force then kernel_kill ;; kernel_kill_cleanup else raise e
                | _ => raise e
                end) ;;
    modify (set_mounted false).
Definition kernel_teardown : MK unit :=
  base_teardown k_base set_kbase ;;
  k <- get ;;
  when (k_mounted k) kernel_umount.

#[export] Instance kernel_client : ClientMount kmount := {|
  base_of := k_base; set_base := set_kbase; is_mounted := kernel_is_mounted; mount := kernel_mount; umount := kernel_umount;
  umount_wait := kernel_umount_wait; kill := kernel_kill; kill_cleanup := kernel_kill_cleanup; cleanup := ret tt;
  wait_until_mounted := kernel_wait_until_mounted; teardown := kernel_teardown |}.

(** ** debugfs *)

Definition debug_dirs_script : string :=
  script
    ["import glob"; "import os"; "import json"; ""; "def get_id_to_dir():"; "    result = {}";
     bq "    for dir in glob.glob(`/sys/kernel/debug/zbkc/*`):";
     bq "        mds_sessions_lines = open(os.path.join(dir, `mds_sessions`)).readlines()";
     "        client_id = mds_sessions_lines[1].split()[1].strip('" +:+ bq "`" +:+ "')"; "";
     "        result[client_id] = dir"; "    return result"; ""; "print json.dumps(get_id_to_dir())"].
Definition sudo_python (pyscript : string) : MK string :=
  k <- get ;; p <- run (client_remote (k_base k)) ["sudo"; "python"; "-c"; pyscript] true ;; ret (stdout p).
Definition _find_debug_dir : MK pyval :=
  out <- sudo_python debug_dirs_script ;;
  v <- json_loads out ;;
  k <- get ;; subscript v (client_id (k_base k)).
Definition _read_debug_file (filename : string) : MK string :=
  dir <- _find_debug_dir ;;
  sudo_python (script
    ["import os"; ""; bq "print open(os.path.join(`" +:+ py_str dir +:+ bq "`, `" +:+ filename +:+ bq "`)).read()"]).
(** The second word of a line *)
Definition word_of (text : string) (line : nat) : MK string :=
  l <- of_option IndexError (split_on nl text !! line) ;; of_option IndexError (split_ws l !! 1%nat).
(** [s.strip('c')] for one character [c] *)
Fixpoint lstrip_char (c : ascii) (s : string) : string :=
  match s with String a s' => if Ascii.eqb a c then lstrip_char c s' else s | EmptyString => EmptyString end.
Fixpoint rstrip_char (c : ascii) (s : string) : string :=
  match s with
  | EmptyString => EmptyString
  | String a s' =>
      match rstrip_char c s' with
      | EmptyString => if Ascii.eqb a c then EmptyString else String a EmptyString
      | r => String a r
      end
  end.
Definition int_of (s : string) : MK Z := of_option (ValueError "invalid literal for int()") (py_int s).
Definition kernel_get_global_id : MK Z :=
  k <- get ;;
  assert_ (k_mounted k) "self.mounted" ;;
  text <- _read_debug_file "mds_sessions" ;; w <- word_of text 0 ;; int_of w.
Definition kernel_get_osd_epoch : MK (Z * Z) :=
  osdmap <- _read_debug_file "osdmap" ;;
  w <- word_of osdmap 0 ;; epoch <- int_of w ;;
  sessions <- _read_debug_file "mds_sessions" ;;
  w <- word_of sessions 2 ;; barrier <- int_of (rstrip_char dquote (lstrip_char dquote w)) ;;
  ret (epoch, barrier).

End Kernel.
