(* ===== verification/MountTasks.v ===== *)
(** * The tasks that mount clients: tasks/zbkc_fuse.py and tasks/kclient.py

    Both tasks keep their clients in the dictionary [ctx.mounts], which other tasks of the same
    job see and change: the second task to run adds its clients to the dictionary of the
    first.  The objects and the dictionaries are therefore kept in a store, [objs] and
    [dicts], and referred to by their position.

    Arguments are functions of teuthology: the clients of a list of roles with their machines,
    the ids of all clients, the addresses of the monitors, [deep_merge]. *)
From Stdlib Require Import Ascii QArith Qround Lqa.
From S2P Require Import Prelude PyVal World ZbkcManager ClientMount FuseMount KernelMount.

Inductive any_mount := AFuse (f : fuse) | AKernel (k : kmount).

Record clients := Clients
  { cl_ctx : context;
    cl_config : dict;                      (* ctx.config *)
    objs : list any_mount;
    dicts : list (gmap string nat);
    mounts_attr : option nat }.            (* ctx.mounts *)
Definition set_objs (l : list any_mount) (s : clients) : clients :=
  Clients (cl_ctx s) (cl_config s) l (dicts s) (mounts_attr s).
Definition set_dicts (l : list (gmap string nat)) (s : clients) : clients :=
  Clients (cl_ctx s) (cl_config s) (objs s) l (mounts_attr s).
Definition set_attr (r : nat) (s : clients) : clients := Clients (cl_ctx s) (cl_config s) (objs s) (dicts s) (Some r).

Section Dispatch.
Context {E : Env} {F : Fuel}.
Context (get_valgrind_args : string -> string -> list string -> pyval -> list string).
(** A method of whichever class the object has *)
Definition virtual {A} (mf : M fuse A) (mk : M kmount A) : M any_mount A :=
  fun a w =>
    match a with
    | AFuse f => match mf f w with (o, f', w') => (o, AFuse f', w') end
    | AKernel k => match mk k w with (o, k', w') => (o, AKernel k', w') end
    end.
Definition any_base (a : any_mount) : mount_base := match a with AFuse f => f_base f | AKernel k => k_base k end.
Definition set_any_base (b : mount_base) (a : any_mount) : any_mount :=
  match a with AFuse f => AFuse (set_fbase b f) | AKernel k => AKernel (set_kbase b k) end.
#[export] Instance any_client : ClientMount any_mount := {|
  base_of := any_base; set_base := set_any_base;
  is_mounted := virtual fuse_is_mounted kernel_is_mounted;
  mount := fun p n => virtual (fuse_mount get_valgrind_args p n) (kernel_mount p n);
  umount := virtual fuse_umount kernel_umount;
  umount_wait := fun a b => virtual (fuse_umount_wait a b) (kernel_umount_wait a b);
  kill := virtual fuse_kill kernel_kill;
  kill_cleanup := virtual fuse_kill_cleanup kernel_kill_cleanup;
  cleanup := virtual fuse_cleanup (ret tt);
  wait_until_mounted := virtual fuse_wait_until_mounted kernel_wait_until_mounted;
  teardown := virtual fuse_teardown kernel_teardown |}.
End Dispatch.

Section Tasks.
Context {E : Env} {F : Fuel}.
Context (get_valgrind_args : string -> string -> list string -> pyval -> list string)
        (get_clients : context -> list string -> list (string * remote))
        (all_roles_of_type : context -> string -> list string)
        (mon_addresses : context -> list string)
        (deep_merge : dict -> pyval -> dict).
Abbreviation MC A := (M clients A).
#[local] Instance the_client : ClientMount any_mount := any_client get_valgrind_args.

(** ** The store *)
Definition new_obj (a : any_mount) : MC nat :=
  s <- get ;; modify (set_objs (objs s ++ [a])) ;; ret (length (objs s)).
Definition new_dict (d : gmap string nat) : MC nat :=
  s <- get ;; modify (set_dicts (dicts s ++ [d])) ;; ret (length (dicts s)).
Definition dict_at (r : nat) : MC (gmap string nat) :=
  s <- get ;; of_option (OtherError "dangling reference") (dicts s !! r).
Definition dict_put (r : nat) (k : string) (v : nat) : MC unit :=
  d <- dict_at r ;; modify (fun s => set_dicts (<[r := <[k := v]> d]> (dicts s)) s).
Definition obj_at (r : nat) : MC any_mount :=
  s <- get ;; of_option (OtherError "dangling reference") (objs s !! r).
Definition on_obj {A} (r : nat) (m : M any_mount A) : MC A :=
  fun s w =>
    match objs s !! r with
    | None => (Exc (OtherError "dangling reference"), s, w)
    | Some a => match m a w with (o, a', w') => (o, set_objs (<[r := a']> (objs s)) s, w') end
    end.
Definition values (d : gmap string nat) : list nat := map snd (map_to_list d).

(** ** zbkc_fuse.py *)

Definition client_names : MC (list string) :=
  s <- get ;; ret (map (fun id_ => "client." +:+ id_) (all_roles_of_type (cl_ctx s) "client")).
Definition overrides_for (task : string) : MC pyval :=
  s <- get ;;
  o <- as_dict (dict_get "overrides" (PDict []) (cl_config s)) ;; ret (dict_get task (PDict []) o).
Definition get_client_configs (config : pyval) : MC dict :=
  d <- match config with
       | PNone => names <- client_names ;; ret (map (fun n => (n, PNone)) names)
       | PList l => names <- map_ as_str l ;; ret (map (fun n => (n, PNone)) names)
       | _ => as_dict config
       end ;;
  o <- overrides_for "zbkc-fuse" ;;
  ret (deep_merge d o).
Definition client_config_of (config : dict) (id_ : string) : MC dict :=
  match dict_get ("client." +:+ id_) PNone config with PNone => ret [] | v => as_dict v end.
Definition client_roles (config : dict) : list string :=
  filter (fun k => str_in "client." k = true) (map fst config).
(** [getattr(ctx, 'mounts', {})] *)
Definition all_mounts : MC nat :=
  s <- get ;; match mounts_attr s with Some r => ret r | None => new_dict ∅ end.
(** The client's object, made when there is none; whether it is to be mounted *)
Definition configure_client (config : dict) (r : nat) (id_ : string) (rem : remote) : MC bool :=
  s <- get ;;
  cfg <- client_config_of config id_ ;;
  d <- dict_at r ;;
  match d !! id_ with
  | None => o <- new_obj (AFuse (init_fuse cfg (testdir (cl_ctx s)) id_ rem)) ;; dict_put r id_ o
  | Some o => a <- obj_at o ;; assert_ (match a with AFuse _ => true | AKernel _ => false end) "isinstance(all_mounts[id_], FuseMount)"
  end ;;
  ret (negb (truthy (dict_get "disabled" (PBool false) config)) && truthy (dict_get "mounted" (PBool true) cfg)).
(** [mounted_by_me]: the ids with their objects *)
Definition configure_clients (config : dict) (r : nat) (cs : list (string * remote)) : MC (gmap string nat) :=
  fold_ (fun mine c =>
    b <- configure_client config r c.1 c.2 ;;
    if b : bool then
      d <- dict_at r ;; o <- of_option (KeyError c.1) (d !! c.1) ;; ret (<[c.1 := o]> mine)
    else ret mine) cs ∅.
Definition unmount_if_mounted (o : nat) : MC unit :=
  b <- on_obj o is_mounted ;; when b (on_obj o (umount_wait false false)).
Definition zbkc_fuse_task {A} (config : pyval) (body : MC A) : MC A :=
  config <- get_client_configs config ;;
  s <- get ;;
  let cs := get_clients (cl_ctx s) (client_roles config) in
  r <- all_mounts ;;
  mine <- configure_clients config r cs ;;
  modify (set_attr r) ;;
  for_ (values mine) (fun o => on_obj o (mount None None)) ;;
  for_ (values mine) (fun o => on_obj o wait_until_mounted) ;;
  d <- dict_at r ;;
  for_ (values (filter (fun kv => mine !! kv.1 = None) d)) unmount_if_mounted ;;
  finally body (for_ (values mine) unmount_if_mounted).

(** ** kclient.py *)

(** The roles to mount, and the configuration by client *)
Definition kclient_config (config : pyval) : MC (list string * dict) :=
  rc <- match config with
        | PNone => names <- client_names ;; ret (names, map (fun n => (n, PDict [])) names)
        | PList l => names <- map_ as_str l ;; ret (names, map (fun n => (n, PDict [])) names)
        | PDict d => ret (client_roles d, d)
        | _ => raise (AssertionError "task kclient got invalid config")
        end ;;
  o <- overrides_for "kclient" ;;
  ret (rc.1, deep_merge rc.2 o).
Definition debug_cmd (module : string) : list string :=
  ["sudo"; "bash"; "-c"; "echo 'module " +:+ module +:+ " +p' > /sys/kernel/debug/dynamic_debug/control"].
(** One client: its object, mounted, under its id; nothing when it is not asked for *)
Definition mount_kclient (config : dict) (r : nat) (id_ : string) (rem : remote) : MC unit :=
  s <- get ;;
  cfg <- client_config_of config id_ ;;
  if truthy (dict_get "disabled" (PBool false) config) || negb (truthy (dict_get "mounted" (PBool true) cfg)) then ret tt
  else
    o <- new_obj (AKernel (init_kernel (mon_addresses (cl_ctx s)) (testdir (cl_ctx s)) id_ rem)) ;;
    dict_put r id_ o ;;
    when (truthy (dict_get "debug" (PBool false) cfg))
      (run rem (debug_cmd "zbkc") true ;; run rem (debug_cmd "libzbkc") true ;; ret tt) ;;
    on_obj o (mount None None).
Definition umount_if_mounted (o : nat) : MC unit := b <- on_obj o is_mounted ;; when b (on_obj o umount).
Definition kclient_task {A} (config : pyval) (body : MC A) : MC A :=
  rc <- kclient_config config ;;
  s <- get ;;
  let cs := get_clients (cl_ctx s) rc.1 in
  r <- new_dict ∅ ;;
  for_ cs (fun c => mount_kclient rc.2 r c.1 c.2) ;;
  modify (set_attr r) ;;
  finally body (d <- dict_at r ;; for_ (values d) umount_if_mounted).

End Tasks.
