(* ===== verification/TestCase.v ===== *)
(** * Test cases: [ZbkcTestCase], [ZbkcFSTestCase], [MgrTestCase]

    tasks/zbkc_test_case.py, tasks/zbkcfs/zbkcfs_test_case.py, tasks/mgr/mgr_test_case.py: the
    waits and assertions a test uses, and how a test prepares the cluster and leaves it.

    A test is an object [tcase].  What the runner puts on the class (the managers, the clusters,
    the mounted clients) is shared by all tests; [fs], [mount_a], [mount_b], the stored client
    ids and the set of changed settings belong to one test.  Clients are positions in the store
    of [MountTasks.clients], so that [mount_a] and [mounts[0]] are one object.  The names
    [mount_a], [mount_b], ... are the list [mount_attr].  The managers of the clusters each
    carry the context; the configuration is only changed through [mds_cluster]. *)
From Stdlib Require Import Ascii QArith Qround Lqa.
From S2P Require Import Prelude PyVal World ZbkcManager ManagerWait FSStatus Filesystem FsOps FsSetup ClientMount FuseMount KernelMount MountTasks.

(** ** Waiting *)
Section Waits.
Context {E : Env} {F : Fuel} {S : Type}.
Abbreviation MS A := (M S A).

Definition period : Z := 5.
Definition wait_until_equal (get_fn : MS pyval) (expect_val : pyval) (timeout : Q) (reject_fn : option (pyval -> bool)) : MS unit :=
  loop fuel (fun elapsed : Z =>
    val <- get_fn ;;
    if py_eq val expect_val then ret (inr tt)
    else if match reject_fn with Some r => r val | None => false end then
      raise (RuntimeError ("wait_until_equal: forbidden value " +:+ py_str val +:+ " seen"))
    else if Qle_bool timeout (inject_Z elapsed) then
      raise (RuntimeError ("Timed out after " +:+ zs elapsed +:+ " seconds waiting for " +:+ py_str expect_val +:+
                           " (currently " +:+ py_str val +:+ ")"))
    else sleep (inject_Z period) ;; ret (inl (elapsed + period))) 0.
Definition wait_until_true (condition : MS bool) (timeout : Q) : MS unit :=
  loop fuel (fun elapsed : Z =>
    b <- condition ;;
    if b : bool then ret (inr tt)
    else if Qle_bool timeout (inject_Z elapsed) then raise (RuntimeError ("Timed out after " +:+ zs elapsed +:+ "s"))
    else sleep (inject_Z period) ;; ret (inl (elapsed + period))) 0.
End Waits.

(** ** The objects *)

(** [MgrCluster] *)
Record mgrs := Mgrs { mg_man : mgr; mgr_ids : list string }.
Definition set_mg_man (m : mgr) (g : mgrs) : mgrs := Mgrs m (mgr_ids g).

(** What a class of tests asks for *)
Record needs := Needs
  { CLIENTS_REQUIRED : nat; MDSS_REQUIRED : nat;
    REQUIRE_KCLIENT_REMOTE : bool; REQUIRE_ONE_CLIENT_REMOTE : bool; REQUIRE_MEMSTORE : bool;
    REQUIRE_FILESYSTEM : bool;
    LOAD_SETTINGS : list string }.
Definition default_needs : needs := Needs 1 1 false false false true [].

Record tcase := TCase
  { tc_id : string;                              (* self.id() *)
    zbkc_cluster : mgr;                          (* zbkc_cluster.mon_manager *)
    mds_cluster : option fsys;
    mgr_cluster : option mgrs;
    tc_clients : clients;
    mounts : list nat;
    fs : option fsys;
    mount_attr : list nat;
    _original_client_ids : option (list string);
    configs_set : option (gset (string * string));
    settings : list (string * Z) }.
Definition set_cluster (m : mgr) (t : tcase) : tcase :=
  TCase (tc_id t) m (mds_cluster t) (mgr_cluster t) (tc_clients t) (mounts t) (fs t) (mount_attr t) (_original_client_ids t) (configs_set t) (settings t).
Definition set_mds_cluster (f : fsys) (t : tcase) : tcase :=
  TCase (tc_id t) (zbkc_cluster t) (Some f) (mgr_cluster t) (tc_clients t) (mounts t) (fs t) (mount_attr t) (_original_client_ids t) (configs_set t) (settings t).
Definition set_mgr_cluster (g : mgrs) (t : tcase) : tcase :=
  TCase (tc_id t) (zbkc_cluster t) (mds_cluster t) (Some g) (tc_clients t) (mounts t) (fs t) (mount_attr t) (_original_client_ids t) (configs_set t) (settings t).
Definition set_tc_clients (c : clients) (t : tcase) : tcase :=
  TCase (tc_id t) (zbkc_cluster t) (mds_cluster t) (mgr_cluster t) c (mounts t) (fs t) (mount_attr t) (_original_client_ids t) (configs_set t) (settings t).
Definition set_fs (f : option fsys) (t : tcase) : tcase :=
  TCase (tc_id t) (zbkc_cluster t) (mds_cluster t) (mgr_cluster t) (tc_clients t) (mounts t) f (mount_attr t) (_original_client_ids t) (configs_set t) (settings t).
Definition set_mount_attr (l : list nat) (t : tcase) : tcase :=
  TCase (tc_id t) (zbkc_cluster t) (mds_cluster t) (mgr_cluster t) (tc_clients t) (mounts t) (fs t) l (_original_client_ids t) (configs_set t) (settings t).
Definition set_original_ids (l : list string) (t : tcase) : tcase :=
  TCase (tc_id t) (zbkc_cluster t) (mds_cluster t) (mgr_cluster t) (tc_clients t) (mounts t) (fs t) (mount_attr t) (Some l) (configs_set t) (settings t).
Definition set_configs (c : gset (string * string)) (t : tcase) : tcase :=
  TCase (tc_id t) (zbkc_cluster t) (mds_cluster t) (mgr_cluster t) (tc_clients t) (mounts t) (fs t) (mount_attr t) (_original_client_ids t) (Some c) (settings t).
Definition set_settings (l : list (string * Z)) (t : tcase) : tcase :=
  TCase (tc_id t) (zbkc_cluster t) (mds_cluster t) (mgr_cluster t) (tc_clients t) (mounts t) (fs t) (mount_attr t) (_original_client_ids t) (configs_set t) l.

(** [m.client_id = id_] *)
Definition set_client_id (id_ : string) (b : mount_base) : mount_base :=
  MountBase (test_dir b) id_ (ClientMount.client_remote b) (mountpoint_dir_name b) (background_procs b).

(** A dictionary with any values as keys: the later entry of a key replaces the earlier one *)
Fixpoint by_id_set (k v : pyval) (d : list (pyval * pyval)) : list (pyval * pyval) :=
  match d with
  | [] => [(k, v)]
  | (k', v') :: d' => if py_eq k k' then (k', v) :: d' else (k', v') :: by_id_set k v d'
  end.
Fixpoint by_id_get (k : pyval) (d : list (pyval * pyval)) : option pyval :=
  match d with
  | [] => None
  | (k', v) :: d' => if py_eq k k' then Some v else by_id_get k d'
  end.

(** [s.replace("%p", pid)] and [re.sub("%[a-z]", "*", s)] *)
Fixpoint subst_pid (pid s : string) : string :=
  match s with
  | String "%" (String "p" s') => pid +:+ subst_pid pid s'
  | String a s' => String a (subst_pid pid s')
  | EmptyString => EmptyString
  end.
Definition is_lower (a : ascii) : bool :=
  let n := Ascii.nat_of_ascii a in Nat.leb 97 n && Nat.leb n 122.
Fixpoint star_tokens (s : string) : string :=
  match s with
  | String "%" (String a s' as s1) => if is_lower a then String "*" (star_tokens s') else String "%" (star_tokens s1)
  | String a s' => String a (star_tokens s')
  | EmptyString => EmptyString
  end.

Section TestCase.
Context {E : Env} {F : Fuel}.
Context (get_valgrind_args : string -> string -> list string -> pyval -> list string)
        (get_first_mon : context -> dict -> string)
        (all_roles_of_type : context -> string -> list string)
        (client_remote_of : context -> string -> remote)
        (render_conf : gmap string dict -> string)
        (hostname : remote -> string)
        (daemon_remote : string -> remote)
        (schedule : list string -> list string).
Abbreviation MT A := (M tcase A).
#[local] Instance the_mount : ClientMount any_mount := any_client get_valgrind_args.

Definition no_attr : exn := AttributeError "'NoneType' object has no attribute".
Definition on_man {A} (m : M mgr A) : MT A := zoom zbkc_cluster set_cluster m.
Definition on_mds {A} (m : M fsys A) : MT A :=
  fun t w =>
    match mds_cluster t with
    | None => (Exc no_attr, t, w)
    | Some f => match m f w with (o, f', w') => (o, set_mds_cluster f' t, w') end
    end.
Definition on_fs {A} (m : M fsys A) : MT A :=
  fun t w =>
    match fs t with
    | None => (Exc no_attr, t, w)
    | Some f => match m f w with (o, f', w') => (o, set_fs (Some f') t, w') end
    end.
Definition on_mgrs {A} (m : M mgrs A) : MT A :=
  fun t w =>
    match mgr_cluster t with
    | None => (Exc no_attr, t, w)
    | Some g => match m g w with (o, g', w') => (o, set_mgr_cluster g' t, w') end
    end.
Definition on_mount {A} (o : nat) (m : M any_mount A) : MT A := zoom tc_clients set_tc_clients (on_obj o m).
Definition mount_at (i : nat) : MT nat := t <- get ;; of_option IndexError (mounts t !! i).

(** ** tasks/zbkc_test_case.py *)

Definition base_setUp : MT unit :=
  t <- get ;; on_man (raw_cluster_cmd ["log"; "Starting test " +:+ tc_id t]) ;; ret tt.
Definition base_tearDown : MT unit :=
  t <- get ;; on_man (raw_cluster_cmd ["log"; "Ended test " +:+ tc_id t]) ;; ret tt.

(** [match] of the context manager *)
Definition log_match (expected_pattern : string) (invert_match : bool) (p : proc) : MT bool :=
  r <- on_proc PGetValue p ;;
  let found := str_in expected_pattern (stdout r) in
  ret (if invert_match then negb found else found).
(** [__exit__]: an early match leaves the watcher alone *)
Definition log_exit (expected_pattern : string) (invert_match : bool) (timeout : Q) (p : proc) : MT unit :=
  fin <- ask (EvProc PFinished (pid p) (p_remote p) (p_args p)) ;;
  early <- (if fin : bool then ret false
            else
              m <- log_match expected_pattern invert_match p ;;
              if m : bool then ret true else sleep (5 + timeout) ;; ret false) ;;
  if early : bool then ret tt
  else
    on_proc PCloseStdin p ;;
    catch (wait_proc p true ;; ret tt) (fun e => match e with CommandFailedError _ => ret tt | _ => raise e end) ;;
    m <- log_match expected_pattern invert_match p ;;
    when (negb m) (raise (AssertionError ("Expected log message not found: '" +:+ expected_pattern +:+ "'"))).
(** [with self.assert_cluster_log(...): body] *)
Definition assert_cluster_log {A} (expected_pattern : string) (invert_match : bool) (timeout : Q) (body : MT A) : MT A :=
  p <- on_man run_zbkc_w ;;
  finally body (log_exit expected_pattern invert_match timeout p).

Definition health_summary : MT (list pyval) :=
  health <- on_man get_mon_health ;; s <- subscript health "summary" ;; as_list s.
(** [pattern in ss] *)
Definition contains (pattern : string) (ss : pyval) : MT bool :=
  match ss with PStr s => ret (str_in pattern s) | _ => raise (TypeError "argument is not iterable") end.
Definition seen_health_warning (pattern : string) : MT bool :=
  l <- health_summary ;;
  summary_strings <- map_ (fun s => subscript s "summary") l ;;
  r <- for_return summary_strings (fun ss => b <- contains pattern ss ;; ret (if b : bool then Some tt else None)) ;;
  ret (match r with Some _ => true | None => false end).
Definition wait_for_health (pattern : string) (timeout : Q) : MT unit :=
  wait_until_true (seen_health_warning pattern) timeout.
Definition wait_for_health_clear (timeout : Q) : MT unit :=
  wait_until_true (h <- on_man get_mon_health ;; s <- subscript h "summary" ;; n <- len_ s ;; ret (n =? 0)) timeout.

(** ** tasks/mgr/mgr_test_case.py *)

Definition new_mgr_cluster {S} (c : context) : M S mgrs :=
  m <- new_zbkc_cluster get_first_mon c ;;
  match all_roles_of_type c "mgr" with
  | [] => raise (RuntimeError "This task requires at least one manager daemon")
  | ids => ret (Mgrs m ids)
  end.
(** [self.mgr_daemons[mgr_id].op()] *)
Definition mgr_daemon (op : daemon_op) (mgr_id : string) : M mgrs unit :=
  g <- get ;;
  if bool_decide (mgr_id ∈ mgr_ids g) then daemon op "mgr" mgr_id "zbkc" else raise (KeyError mgr_id).
Definition mgr_stop (mgr_id : string) : M mgrs unit := mgr_daemon DStop mgr_id.
Definition mgr_fail (mgr_id : string) : M mgrs unit := zoom mg_man set_mg_man (raw_cluster_cmd ["mgr"; "fail"; mgr_id]) ;; ret tt.
Definition mgr_restart (mgr_id : string) : M mgrs unit := mgr_daemon (DRestart []) mgr_id.
Definition get_mgr_map : M mgrs pyval :=
  out <- zoom mg_man set_mg_man (raw_cluster_cmd ["status"; "--format=json-pretty"]) ;;
  status <- json_loads out ;; subscript status "mgrmap".
Definition get_active_id : M mgrs pyval := m <- get_mgr_map ;; subscript m "active_name".
Definition get_standby_ids : M mgrs (list pyval) :=
  m <- get_mgr_map ;; l <- subscript m "standbys" ;; l <- as_list l ;; map_ (fun s => subscript s "name") l.

(** Equality of the two sets of names; [PStr s] is the only standby name that can be in the second *)
Definition same_names (l : list pyval) (names : gset string) : bool :=
  forallb (fun v => match v with PStr s => bool_decide (s ∈ names) | _ => false end) l &&
  forallb (fun n => existsb (fun v => eq_str v n) l) (elements names).
Definition mgr_setUp (REQUIRE_MGRS : nat) : MT unit :=
  base_setUp ;;
  t <- get ;;
  assert_ (match mgr_cluster t with Some _ => true | None => false end) "self.mgr_cluster is not None" ;;
  ids <- on_mgrs (gets mgr_ids) ;;
  when (length ids <? REQUIRE_MGRS)%nat
    (raise (SkipTest ("Only have " +:+ zs (Z.of_nat (length ids)) +:+ " manager daemons, " +:+
                      zs (Z.of_nat REQUIRE_MGRS) +:+ " are required"))) ;;
  for_ ids (fun i => on_mgrs (mgr_stop i)) ;;
  for_ ids (fun i => on_mgrs (mgr_fail i)) ;;
  for_ ids (fun i => on_mgrs (mgr_restart i)) ;;
  wait_until_true (a <- on_mgrs get_active_id ;; ret (negb (eq_str a EmptyString))) 20 ;;
  active <- on_mgrs get_active_id ;;
  let expect_standbys := (list_to_set (filter (fun i => eq_str active i = false) ids) : gset string) in
  wait_until_true (l <- on_mgrs get_standby_ids ;; ret (same_names l expect_standbys)) 20.

(** ** tasks/zbkcfs/zbkcfs_test_case.py: preparing a test *)

Definition client_base (o : nat) : MT mount_base := on_mount o (gets base_of).
Definition is_fuse (o : nat) : MT bool := on_mount o (gets (fun a => match a with AFuse _ => true | AKernel _ => false end)).
Definition host_of (o : nat) : MT string := b <- client_base o ;; ret (hostname (ClientMount.client_remote b)).

(** Requirements that are not met skip the test. *)
Definition kclient_hosts : MT unit :=
  m0 <- mount_at 0 ;;
  f0 <- is_fuse m0 ;;
  both <- (if f0 : bool then m1 <- mount_at 1 ;; is_fuse m1 else ret false) ;;
  when (negb both)
    (m1 <- mount_at 1 ;;
     h0 <- host_of m0 ;; h1 <- host_of m1 ;;
     when (String.eqb h0 h1) (raise (SkipTest "kclient clients must be on separate nodes"))).
Definition separate_client : MT unit :=
  m0 <- mount_at 0 ;;
  h0 <- host_of m0 ;;
  hs <- on_mds (get_mds_hostnames hostname) ;;
  when (bool_decide (h0 ∈ hs)) (raise (SkipTest "Require first client to be on separate server from MDSs")).
Definition memstore : MT unit :=
  objectstore <- on_mds (get_config all_roles_of_type "osd_objectstore" (Some "osd")) ;;
  when (negb (eq_str objectstore "memstore")) (raise (SkipTest "Require `memstore` OSD backend to simulate full drives")).
Definition check_needs (n : needs) : MT unit :=
  ids <- on_mds (gets mds_ids) ;;
  when (length ids <? MDSS_REQUIRED n)%nat
    (raise (SkipTest ("Only have " +:+ zs (Z.of_nat (length ids)) +:+ " MDSs, require " +:+ zs (Z.of_nat (MDSS_REQUIRED n))))) ;;
  t <- get ;;
  when (length (mounts t) <? CLIENTS_REQUIRED n)%nat
    (raise (SkipTest ("Only have " +:+ zs (Z.of_nat (length (mounts t))) +:+ " clients, require " +:+ zs (Z.of_nat (CLIENTS_REQUIRED n))))) ;;
  when (REQUIRE_KCLIENT_REMOTE n) kclient_hosts ;;
  when (REQUIRE_ONE_CLIENT_REMOTE n) separate_client ;;
  when (REQUIRE_MEMSTORE n) memstore.

(** [self.mount_a], [self.mount_b] and so on *)
Definition name_mounts (k : nat) : MT unit :=
  for_ (seq 0 k) (fun i => m <- mount_at i ;; modify (fun t => set_mount_attr (mount_attr t ++ [m]) t)).
Definition mount_a : MT nat := t <- get ;; of_option no_attr (mount_attr t !! 0%nat).
Definition unmount_client (o : nat) : MT unit :=
  b <- on_mount o is_mounted ;; when b (on_mount o (umount_wait false false)).
Definition mount_client (o : nat) : MT unit :=
  b <- on_mount o is_mounted ;;
  when (negb b) (on_mount o (mount None None) ;; on_mount o wait_until_mounted).
(** [mount_a], and [mount_b] when there is one *)
Definition first_two (f : nat -> MT unit) : MT unit :=
  a <- mount_a ;;
  f a ;;
  t <- get ;;
  match mount_attr t !! 1%nat with Some b => f b | None => ret tt end.

Definition mds_cmd (args : list string) : MT string := on_mds (cmd args).
Definition clear_blacklist : MT unit :=
  catch (mds_cmd ["osd"; "blacklist"; "clear"] ;; ret tt)
    (fun e => match e with
              | CommandFailedError _ =>
                  v <- on_mds (osd_dump_field "blacklist") ;;
                  blacklist <- as_dict v ;;
                  for_ (map fst blacklist) (fun addr => mds_cmd ["osd"; "blacklist"; "rm"; addr] ;; ret tt)
              | _ => raise e
              end).
Definition auth_list : MT (list pyval) :=
  out <- mds_cmd ["auth"; "list"; "--format=json-pretty"] ;;
  j <- json_loads out ;; l <- subscript j "auth_dump" ;; as_list l.
(** Identities of clients that are not mounted are left from an earlier test. *)
Definition del_stale_auth (client_mount_ids : list string) (entry : pyval) : MT unit :=
  v <- subscript entry "entity" ;; entity <- as_str v ;;
  match split_on "." entity with
  | [ent_type; ent_id] =>
      when (String.eqb ent_type "client" && negb (bool_decide (ent_id ∈ client_mount_ids)) && negb (String.eqb ent_id "admin"))
        (mds_cmd ["auth"; "del"; entity] ;; ret tt)
  | _ => raise (ValueError "wrong number of values to unpack")
  end.
Definition reset_caps (client_id : string) : MT unit :=
  pool <- on_fs (get_data_pool_name false) ;;
  on_mds (fman (raw_cluster_cmd_result ["auth"; "caps"; "client." +:+ client_id; "mds"; "allow"; "mon"; "allow r"; "osd";
                                        "allow rw pool=" +:+ pool])) ;;
  ret tt.
Definition new_fs (client_mount_ids : list string) : MT unit :=
  f <- on_mds (newfs get_first_mon all_roles_of_type client_remote_of "zbkcfs") ;;
  modify (set_fs (Some f)) ;;
  on_fs (mds_restart schedule None) ;;
  for_ client_mount_ids reset_caps ;;
  on_fs (wait_for_daemons None) ;;
  first_two mount_client.
Definition load_setting (setting : string) : MT unit :=
  i <- on_mds (f <- get ;; of_option IndexError (head (mds_ids f))) ;;
  j <- on_fs (mds_asok ["config"; "get"; setting] (Some i)) ;;
  v <- subscript j setting ;; z <- as_int v ;;
  modify (fun t => set_settings (settings t ++ [(setting, z)]) t).

Definition fs_setUp (n : needs) : MT unit :=
  base_setUp ;;
  check_needs n ;;
  t <- get ;;
  for_ (drop (CLIENTS_REQUIRED n) (mounts t)) (fun o => on_mount o (umount_wait false false)) ;;
  name_mounts (CLIENTS_REQUIRED n) ;;
  on_mds clear_firewall ;;
  first_two unmount_client ;;
  on_mds (mds_stop schedule None) ;;
  on_mds delete_all_filesystems ;;
  modify (set_fs None) ;;
  v <- on_mds (get_config all_roles_of_type "osd_mon_report_interval_max" (Some "osd")) ;;
  osd_mon_report_interval_max <- as_int v ;;
  wait_until_true (b <- on_mds is_full ;; ret (negb b)) (inject_Z (osd_mon_report_interval_max * 5)) ;;
  clear_blacklist ;;
  t <- get ;;
  client_mount_ids <- map_ (fun o => b <- client_base o ;; ret (ClientMount.client_id b)) (mounts t) ;;
  modify (set_original_ids client_mount_ids) ;;
  entries <- auth_list ;;
  for_ entries (del_stale_auth client_mount_ids) ;;
  when (REQUIRE_FILESYSTEM n) (new_fs client_mount_ids) ;;
  for_ (LOAD_SETTINGS n) load_setting ;;
  modify (set_configs ∅).

(** ** Leaving a test *)

Definition restore_id (i o : nat) : MT unit :=
  t <- get ;;
  ids <- of_option (AttributeError "object has no attribute '_original_client_ids'") (_original_client_ids t) ;;
  id_ <- of_option IndexError (ids !! i) ;;
  on_mount o (modify (fun a => set_base (set_client_id id_ (base_of a)) a)).
Definition the_configs : MT (gset (string * string)) :=
  t <- get ;; of_option (AttributeError "object has no attribute 'configs_set'") (configs_set t).
Definition fs_tearDown : MT unit :=
  base_tearDown ;;
  on_mds clear_firewall ;;
  t <- get ;;
  for_ (mounts t) (fun o => on_mount o teardown) ;;
  for_ (imap pair (mounts t)) (fun io => restore_id io.1 io.2) ;;
  cs <- the_configs ;;
  for_ (elements cs) (fun sk => on_mds (clear_zbkc_conf render_conf sk.1 sk.2)).
Definition set_conf (subsys key : string) (value : pyval) : MT unit :=
  cs <- the_configs ;;
  modify (set_configs ({[ (subsys, key) ]} ∪ cs)) ;;
  on_mds (set_zbkc_conf render_conf subsys key value).

(** ** What tests ask *)

Definition session_ls (mds_id : option string) : MT (list pyval) :=
  l <- on_fs (mds_asok ["session"; "ls"] mds_id) ;; as_list l.
Definition assert_session_count (expected : Z) (ls_data : option (list pyval)) (mds_id : option string) : MT unit :=
  l <- match ls_data with Some l => ret l | None => session_ls mds_id end ;;
  assert_ (expected =? Z.of_nat (length l))
    ("Expected " +:+ zs expected +:+ " sessions, found " +:+ zs (Z.of_nat (length l))).
Definition _session_by_id (session_ls : list pyval) : MT (list (pyval * pyval)) :=
  fold_ (fun d s => i <- subscript s "id" ;; ret (by_id_set i s d)) session_ls [].
Definition assert_session_state (client_id : pyval) (expected_state : pyval) : MT unit :=
  l <- session_ls None ;;
  d <- _session_by_id l ;;
  st <- subscript (default (PDict [("state", PNone)]) (by_id_get client_id d)) "state" ;;
  assert_ (py_eq st expected_state) "session state".
(** The argument is taken for the list of sessions. *)
Definition get_session_data (client_id : pyval) : MT (list (pyval * pyval)) := l <- as_list client_id ;; _session_by_id l.
Definition _session_list : MT (list pyval) :=
  l <- session_ls None ;;
  keep <- map_ (fun s => st <- subscript s "state" ;; ret (s, negb (eq_str st "stale" || eq_str st "closed"))) l ;;
  ret (map fst (filter (fun sb => sb.2 = true) keep)).
Definition get_session (client_id : pyval) (ls : option (list pyval)) : MT pyval :=
  l <- match ls with Some l => ret l | None => session_ls None end ;;
  d <- _session_by_id l ;;
  of_option (KeyError (py_str client_id)) (by_id_get client_id d).

Definition daemon_names : MT (list pyval) :=
  on_mds (st <- fs_status ;; l <- collect (get_all st) ;; map_ (fun info => subscript info "name") l).
Definition all_there (daemon_ids : list string) (names : list pyval) : bool :=
  forallb (fun i => existsb (fun v => eq_str v i) names) daemon_ids.
Definition wait_for_daemon_start (daemon_ids : option (list string)) : MT unit :=
  ids <- match daemon_ids with Some l => ret l | None => on_mds (gets mds_ids) end ;;
  catch (wait_until_true (names <- daemon_names ;; ret (all_there ids names)) 30)
    (fun e => match e with RuntimeError _ => daemon_names ;; raise e | _ => raise e end).

(** Removing the core of a crashed daemon; a pattern without a directory means there is none. *)
Definition remove_core (daemon_id : string) : MT unit :=
  let r := daemon_remote daemon_id in
  p <- run r ["sudo"; "sysctl"; "-n"; "kernel.core_pattern"] true ;;
  let core_pattern := str_strip (stdout p) in
  when (str_in "/" core_pattern)
    (st <- on_mds (fman (get_mds_status daemon_id)) ;;
     st <- of_option (TypeError "'NoneType' object has no attribute '__getitem__'") st ;;
     a <- subscript st "addr" ;; addr <- as_str a ;;
     pid_str <- of_option IndexError (split_on "/" addr !! 1%nat) ;;
     let core_glob := star_tokens (subst_pid pid_str core_pattern) in
     q <- run r ["sudo"; "ls"; core_glob] true ;;
     let cores := filter (fun f => negb (String.eqb f EmptyString) = true) (split_on nl (str_strip (stdout q))) in
     assert_ (length cores =? 1)%nat "len(cores) == 1" ;;
     core <- of_option IndexError (head cores) ;;
     run r ["sudo"; "rm"; "-f"; core] true ;; ret tt).
Definition assert_mds_crash (daemon_id : string) : MT unit :=
  ids <- on_mds (gets mds_ids) ;;
  when (negb (bool_decide (daemon_id ∈ ids))) (raise (KeyError daemon_id)) ;;
  crashed <- catch (daemon DWait "mds" daemon_id "zbkc" ;; ret false)
               (fun e => match e with CommandFailedError _ => ret true | _ => raise e end) ;;
  if crashed : bool then
    call "mds_daemons.proc = None" [daemon_id] ;;
    remove_core daemon_id
  else raise (AssertionError ("MDS daemon '" +:+ daemon_id +:+ "' did not crash as expected")).

End TestCase.
