(* ===== verification/TestRunner.v ===== *)
(** * Running test cases: tasks/zbkcfs_test_runner.py

    The task builds the objects the tests share, loads the tests and has [unittest] run them.
    The tests themselves are modules that are loaded by name: [load_name] and [discovered] are
    arguments.  What [unittest] does with a test is its documented behaviour: [setUp], the test,
    [tearDown], each failure handed to the result object; [failfast] stops the run in the
    inherited [addError] and [addFailure].  The result object is the record [result]. *)
From Stdlib Require Import Ascii QArith Qround Lqa.
From S2P Require Import Prelude PyVal World ZbkcManager Conf FSStatus Filesystem FsSetup ClientMount MountTasks TestCase.

(** ** [LogStream]: text comes in pieces, lines go to the log *)
Module LogStream.
Record stream := Stream { buffer : string; logged : list string }.
Definition init : stream := Stream EmptyString [].
Definition write (data : string) (st : stream) : stream :=
  let buf := buffer st +:+ data in
  if str_in nls buf then
    let lines := split_on nl buf in
    Stream (default EmptyString (last lines)) (logged st ++ removelast lines)
  else Stream buf (logged st).
End LogStream.

(** ** Results *)

Record result := Result { failures : list (string * string); errors : list (string * exn); should_stop : bool }.
Definition no_result : result := Result [] [] false.
Definition was_successful (r : result) : bool :=
  match failures r, errors r with [], [] => true | _, _ => false end.
Definition bad_tests (r : result) : list string := map fst (errors r) ++ map fst (failures r).


Section Runner.
Context {E : Env} {F : Fuel}.
(** How the result object was chosen *)
Context (interactive fail_on_skip : bool).
Abbreviation MT A := (M tcase A).

Definition exn_msg (e : exn) : string :=
  match e with AssertionError m | RuntimeError m | SkipTest m | PyException m | OtherError m => m | _ => EmptyString end.
(** [InteractiveFailureResult] records nothing and lets the user look around. *)
Definition addFailure (name : string) (e : exn) (r : result) : MT result :=
  if interactive then call "interactive.task" [name] ;; ret r
  else ret (Result (failures r ++ [(name, exn_msg e)]) (errors r) true).
Definition addError (name : string) (e : exn) (r : result) : MT result :=
  if interactive then call "interactive.task" [name] ;; ret r
  else ret (Result (failures r) (errors r ++ [(name, e)]) true).
(** [LoggingResult.addSkip] *)
Definition addSkip (name reason : string) (r : result) : result :=
  if fail_on_skip then Result (failures r ++ [(name, reason)]) (errors r) (should_stop r) else r.

(** What a class of tests provides *)
Record case_class := CaseClass { case_name : string; setUp : MT unit; method : MT unit; tearDown : MT unit }.

(** The fields of a new test object: what is on the class is shared *)
Definition fresh_test (name : string) (class_fs : option fsys) (t : tcase) : tcase :=
  TCase name (zbkc_cluster t) (mds_cluster t) (mgr_cluster t) (tc_clients t) (mounts t) class_fs [] None None [].
(** How a part of a test ended *)
Definition attempt (m : MT unit) : MT (option exn) := catch (m ;; ret None) (fun e => ret (Some e)).

(** [TestCase.run(result)] *)
Definition run_method (c : case_class) (r : result) : MT result :=
  o <- attempt (method c) ;;
  r <- match o with
       | None => ret r
       | Some (SkipTest reason) => ret (addSkip (case_name c) reason r)
       | Some (AssertionError m) => addFailure (case_name c) (AssertionError m) r
       | Some e => addError (case_name c) e r
       end ;;
  o <- attempt (tearDown c) ;;
  match o with None => ret r | Some e => addError (case_name c) e r end.
Definition run_case (class_fs : option fsys) (c : case_class) (r : result) : MT result :=
  modify (fresh_test (case_name c) class_fs) ;;
  o <- attempt (setUp c) ;;
  match o with
  | None => run_method c r
  | Some (SkipTest reason) => ret (addSkip (case_name c) reason r)
  | Some e => addError (case_name c) e r
  end.
(** [TestSuite.run(result)] *)
Fixpoint run_suite (class_fs : option fsys) (l : list case_class) (r : result) : MT result :=
  match l with
  | [] => ret r
  | c :: l' => if should_stop r then ret r else r' <- run_case class_fs c r ;; run_suite class_fs l' r'
  end.
End Runner.

(** ** The task *)
Section Task.
Context {E : Env} {F : Fuel}.
Context (get_first_mon : context -> dict -> string)
        (all_roles_of_type : context -> string -> list string)
        (client_remote_of : context -> string -> remote)
        (load_name : string -> list case_class)
        (discovered : list case_class).
Abbreviation MC A := (M clients A).

(** [sorted(ctx.mounts.items(), lambda a, b: cmp(a[0], b[0]))] *)
Fixpoint insert_name (x : string * nat) (l : list (string * nat)) : list (string * nat) :=
  match l with
  | [] => [x]
  | y :: l' => match str_cmp x.1 y.1 with Gt => y :: insert_name x l' | _ => x :: l end
  end.
Definition sorted_mounts (d : gmap string nat) : list nat := map snd (foldr insert_name [] (map_to_list d)).

(** What the tests share *)
Record objects := Objects
  { ob_cluster : mgr; ob_mds : option fsys; ob_fs : option fsys; ob_mgrs : option mgrs; ob_mounts : list nat }.
Definition make_objects : MC objects :=
  s <- get ;;
  let c := cl_ctx s in
  man <- new_zbkc_cluster get_first_mon c ;;
  fsm <- (match all_roles_of_type c "mds" with
          | [] => ret (None, None)
          | _ =>
              mc <- new_mds_cluster get_first_mon all_roles_of_type c ;;
              f <- new_filesystem get_first_mon all_roles_of_type client_remote_of c None None ;;
              ret (Some (Fsys mc.1 mc.2 EmptyString EmptyString PNone None None None), Some f)
          end) ;;
  mgrs_ <- (match all_roles_of_type c "mgr" with
            | [] => ret None
            | _ => g <- new_mgr_cluster get_first_mon all_roles_of_type c ;; ret (Some g)
            end) ;;
  ms <- (match mounts_attr s with None => ret [] | Some r => d <- dict_at r ;; ret (sorted_mounts d) end) ;;
  ret (Objects man fsm.1 fsm.2 mgrs_ ms).
(** The modules that are named, or all of them *)
Definition load_tests (config : dict) : MC (list case_class) :=
  let modules := dict_get "modules" PNone config in
  if truthy modules then
    l <- as_list modules ;; names <- map_ as_str l ;; ret (concat (map load_name names))
  else ret discovered.

(** The tests on the objects made for them: the clients are those of the job. *)
Definition first_test (ob : objects) (s : clients) : tcase :=
  TCase EmptyString (ob_cluster ob) (ob_mds ob) (ob_mgrs ob) s (ob_mounts ob) (ob_fs ob) [] None None [].
Definition run_tests (interactive fail_on_skip : bool) (ob : objects) (suite : list case_class) : MC result :=
  s <- get ;;
  x <- fresh (first_test ob s)
         (catch (r <- run_suite interactive fail_on_skip (ob_fs ob) suite no_result ;; ret (inl r)) (fun e => ret (inr e))) ;;
  modify (fun _ => tc_clients x.2) ;;
  match x.1 with inl r => ret r | inr e => raise e end.

(** Everything up to the run of the tests *)
Definition prepare (config : pyval) : MC (objects * dict * list case_class) :=
  ob <- make_objects ;;
  config <- as_dict config ;;
  suite <- load_tests config ;;
  ret (ob, config, suite).
Definition runner_task {A} (config : pyval) (body : MC A) : MC A :=
  s <- get ;;
  p <- prepare config ;;
  let '(ob, config, suite) := p in
  let fail_on_skip := truthy (dict_get "fail_on_skip" (PBool true) config) in
  let interactive := truthy (dict_get "interactive-on-error" (PBool false) (cl_config s)) in
  r <- run_tests interactive fail_on_skip ob suite ;;
  if was_successful r then body
  else raise (RuntimeError ("Test failure: " +:+ str_join ", " (bad_tests r))).

End Task.
