(* ===== verification/Workunit.v ===== *)
(** * Work units: tasks/workunit.py

    Scripts of the cluster's own repository, run on the clients.  [parallel()] runs its bodies
    as greenlets and raises one of their exceptions when it is left: here they run one after
    the other, and the first exception is raised after the last of them. *)
From Stdlib Require Import Ascii QArith Qround Lqa.
From stdpp Require Import sorting.
From S2P Require Import Prelude PyVal World ZbkcManager Conf ClientMount ZbkcCluster ZbkcTask.

(** [pipes.quote(s)] *)
Definition safe_char (a : ascii) : bool :=
  let n := Ascii.nat_of_ascii a in
  (Nat.leb 48 n && Nat.leb n 57) || (Nat.leb 65 n && Nat.leb n 90) || (Nat.leb 97 n && Nat.leb n 122) ||
  existsb (Ascii.eqb a) ["@"; "%"; "_"; "-"; "+"; "="; ":"; ","; "."; "/"]%char.
Fixpoint all_chars (p : ascii -> bool) (s : string) : bool :=
  match s with EmptyString => true | String a s' => p a && all_chars p s' end.
Definition squote_char : ascii := "039".
Fixpoint escape_quotes (s : string) : string :=
  match s with
  | EmptyString => EmptyString
  | String a s' => (if Ascii.eqb a squote_char then "'" +:+ dqs +:+ "'" +:+ dqs +:+ "'" else String a EmptyString) +:+ escape_quotes s'
  end.
Definition pipes_quote (s : string) : string :=
  if all_chars safe_char s then (if String.eqb s EmptyString then "''" else s) else "'" +:+ escape_quotes s +:+ "'".

Section Workunit.
Context {E : Env} {S : Type} `{!HasCtx S}.
Context (remote_user : remote -> string) (git_url : string) (deep_merge : dict -> pyval -> dict).
Abbreviation MS A := (M S A).

(** ** Parallel bodies *)
Fixpoint run_all_of (bodies : list (MS unit)) (failed : option exn) : MS (option exn) :=
  match bodies with
  | [] => ret failed
  | b :: bs =>
      e <- catch (b ;; ret None) (fun e => ret (Some e)) ;;
      run_all_of bs (match failed with Some _ => failed | None => e end)
  end.
Definition parallel (bodies : list (MS unit)) : MS unit :=
  failed <- run_all_of bodies None ;; match failed with Some e => raise e | None => ret tt end.

(** [get_remote_for_role(ctx, role)] *)
Definition get_remote_for_role (role : string) : MS remote :=
  s <- get ;;
  let same r := bool_decide (split_role r = split_role role) in
  match only same (the_ctx s) with
  | [r] => ret r
  | _ => let '(c, t, i) := split_role role in raise (KeyError ("Service " +:+ c +:+ "." +:+ t +:+ "." +:+ i +:+ " not found"))
  end.
Definition _client_mountpoint (c : context) (cl id_ : string) : string :=
  path_join (testdir c) (if String.eqb cl "zbkc" then "mnt." +:+ id_ else "mnt." +:+ cl +:+ "." +:+ id_).

Definition _delete_dir (role : string) (created_mountpoint : bool) : MS unit :=
  let '(cl, _, id_) := split_role role in
  r <- get_remote_for_role role ;;
  s <- get ;;
  let mnt := _client_mountpoint (the_ctx s) cl id_ in
  run r ["sudo"; "rm"; "-rf"; "--"; path_join mnt ("client." +:+ id_)] true ;;
  when created_mountpoint (run r ["rmdir"; "--"; mnt] true ;; ret tt).
(** Whether the mount point had to be made *)
Definition make_mountpoint (r : remote) (mnt : string) : MS bool :=
  catch (run r ["stat"; "--"; mnt] true ;; ret false)
    (fun e => match e with
              | CommandFailedError _ => run r ["mkdir"; "--"; mnt] true ;; ret true
              | _ => raise e
              end).
Definition _make_scratch_dir (role : string) (subdir : pyval) : MS bool :=
  let '(cl, _, id_) := split_role role in
  r <- get_remote_for_role role ;;
  s <- get ;;
  let mnt := _client_mountpoint (the_ctx s) cl id_ in
  created <- make_mountpoint r mnt ;;
  let subdir := if truthy subdir then py_str subdir else "client." +:+ id_ in
  (if created : bool then run r ["cd"; "--"; mnt; "&&"; "mkdir"; "--"; subdir] true
   else run r ["cd"; "--"; mnt; "&&"; "sudo"; "install"; "-d"; "-m"; "0755"; "--owner=" +:+ remote_user r; "--"; subdir] true) ;;
  ret created.

(** ** Running tests *)

(** The directories of one run *)
Definition srcdir (c : context) (role : string) : string := testdir c +:+ "/workunit." +:+ role.
Definition clonedir (c : context) (role : string) : string := testdir c +:+ "/clone." +:+ role.
Definition workunits_file (c : context) (role : string) : string := testdir c +:+ "/workunits.list." +:+ role.
Definition scratch_tmp (c : context) (cl id_ : string) (subdir : option string) : string :=
  let mnt := _client_mountpoint c cl id_ in
  match subdir with
  | None => path_join (path_join mnt ("client." +:+ id_)) "tmp"
  | Some d => path_join mnt d
  end.
(** [env], quoted for a shell *)
Definition env_words (env : option dict) : MS (list string) :=
  match env with
  | Some d => map_ (fun kv => v <- as_str kv.2 ;; ret (kv.1 +:+ "=" +:+ pipes_quote v)) d
  | None => ret []
  end.
Definition unit_cmd (c : context) (refspec role : string) (env : list string) (subdir : option string)
  (timeout : pyval) (unit_ : string) : list string :=
  let '(cl, _, id_) := split_role role in
  let tmp := scratch_tmp c cl id_ subdir in
  ["mkdir"; "-p"; "--"; tmp; "&&"; "cd"; "--"; tmp; "&&"; "ZBKC_CLI_TEST_DUP_COMMAND=1"; "ZBKC_REF=" +:+ refspec;
   "TESTDIR=" +:+ dqs +:+ testdir c +:+ dqs; "ZBKC_ARGS=" +:+ dqs +:+ "--cluster " +:+ cl +:+ dqs;
   "ZBKC_ID=" +:+ dqs +:+ id_ +:+ dqs; "PATH=$PATH:/usr/sbin"] ++
  env ++
  ["adjust-ulimits"; "zbkc-coverage"; testdir c +:+ "/archive/coverage"] ++
  (if truthy timeout && negb (eq_str timeout "0") then ["timeout"; py_str timeout] else []) ++
  [srcdir c role +:+ "/" +:+ unit_].
(** [w == spec or w.startswith(spec + '/')] *)
Definition matches (spec w : string) : bool := String.eqb w spec || startswith (spec +:+ "/") w.
Definition nul : ascii := "000".
Definition fetch_cmd (c : context) (refspec role : string) : list string :=
  ["git"; "clone"; git_url; clonedir c role; ";"; "cd"; "--"; clonedir c role; "&&"; "git"; "checkout"; refspec; "&&";
   "mv"; "qa/workunits"; srcdir c role].
Definition list_cmd (c : context) (role : string) : list string :=
  ["cd"; "--"; srcdir c role; "&&"; "if"; "test"; "-e"; "Makefile"; ";"; "then"; "make"; ";"; "fi"; "&&";
   "find"; "-executable"; "-type"; "f"; "-printf"; "%P\0"; ">" +:+ workunits_file c role].
Definition run_spec (c : context) (refspec role : string) (r : remote) (workunits : list string)
  (env : option dict) (subdir : option string) (timeout : pyval) (spec : string) : MS unit :=
  let '(cl, _, id_) := split_role role in
  match filter (fun w => matches spec w = true) workunits with
  | [] => raise (RuntimeError ("Spec did not match any workunits: " +:+ spec))
  | to_run =>
      for_ to_run (fun w =>
        words <- env_words env ;;
        run r (unit_cmd c refspec role words subdir timeout w) true ;;
        run r ["sudo"; "rm"; "-rf"; "--"; scratch_tmp c cl id_ subdir] true ;; ret tt)
  end.
Definition _run_tests (refspec role : string) (tests : pyval) (env : option dict) (subdir : option string)
  (timeout : pyval) : MS unit :=
  let '(cl, type_, id_) := split_role role in
  assert_ (String.eqb type_ "client") "type_ == 'client'" ;;
  r <- get_remote_for_role role ;;
  s <- get ;;
  let c := the_ctx s in
  run r (fetch_cmd c refspec role) true ;;
  run r (list_cmd c role) true ;;
  text <- file FGet r (workunits_file c role) ;;
  let workunits := sorted (split_on nul text) in
  finally
    (l <- match tests with PList l => ret l | _ => raise (AssertionError "isinstance(tests, list)") end ;;
     for_ l (fun v => spec <- as_str v ;; run_spec c refspec role r workunits env subdir timeout spec))
    (run r ["rm"; "-rf"; "--"; workunits_file c role; srcdir c role; clonedir c role] true ;; ret tt).

Definition _spawn_on_all_clients (refspec : string) (tests : list pyval) (env : option dict) (subdir timeout : pyval)
  : MS unit :=
  s <- get ;;
  let roles := filter (fun role => (split_role role).1.2 = "client") (concat (map snd (cluster_roles (the_ctx s)))) in
  created <- map_ (fun role => b <- _make_scratch_dir role subdir ;; ret (role, b)) roles ;;
  let sub := match subdir with PNone => None | v => Some (py_str v) end in
  for_ tests (fun unit_ => parallel (map (fun rb => _run_tests refspec rb.1 (PList [unit_]) env sub timeout) created)) ;;
  for_ created (fun rb => _delete_dir rb.1 rb.2).

(** ** The task *)

Definition refspec_of (config : dict) : string :=
  let get k := match dict_get k PNone config with PNone => None | v => Some (py_str v) end in
  match get "branch" with
  | Some v => v
  | None => match get "tag" with Some v => v | None => default "HEAD" (get "sha1") end
  end.
Definition env_of (config : dict) : MS (option dict) :=
  match dict_get "env" PNone config with
  | PNone => ret None
  | PDict d => ret (Some d)
  | _ => raise (AssertionError "env must be a dictionary")
  end.
Definition clients_of (config : dict) : MS dict :=
  match dict_get "clients" PNone config with
  | PDict d => ret d
  | _ => raise (AssertionError "configuration must contain a dictionary of clients")
  end.
(** The scripts of single clients, then those of all *)
Definition task (config overrides : dict) : MS unit :=
  clients_of config ;;
  let config := deep_merge config (dict_get "workunit" (PDict []) overrides) in
  let refspec := refspec_of config in
  let timeout := dict_get "timeout" (PStr "3h") config in
  env <- env_of config ;;
  clients <- clients_of config ;;
  let subdir := dict_get "subdir" PNone config in
  let single := filter (fun kv : string * pyval => kv.1 <> "all") clients in
  created <- map_ (fun kv =>
    assert_ (str_in "client" kv.1) "'client' in role" ;;
    b <- _make_scratch_dir kv.1 subdir ;; ret (kv.1, b)) single ;;
  parallel (map (fun kv => _run_tests refspec kv.1 kv.2 env None timeout) single) ;;
  for_ created (fun rb => _delete_dir rb.1 rb.2) ;;
  match dict_lookup "all" clients with
  | Some tests => l <- as_list tests ;; _spawn_on_all_clients refspec l env subdir timeout
  | None => ret tt
  end.

End Workunit.
