(* ===== verification/Rbd.v ===== *)
(** * Block-device images: tasks/rbd.py

    Each context manager takes the body it is entered for.  Arguments are functions of
    teuthology: the default name of an image, the clients a configuration for all stands for,
    and the context managers that format and mount a device. *)
From Stdlib Require Import Ascii QArith Qround Lqa.
From S2P Require Import Prelude PyVal World ZbkcManager Conf FsSetup ClientMount ZbkcCluster Workunit.

Section Rbd.
Context {E : Env} {S : Type} `{!HasCtx S}.
Context (default_image_name : string -> string)
        (replace_all_with_clients : context -> dict -> dict)
        (generic_mkfs generic_mount : forall A, pyval -> M S A -> M S A).
Abbreviation MS A := (M S A).

Definition remote_of (role : string) : MS remote := s <- get ;; lone (the_ctx s) role.
Definition coverage : MS string := s <- get ;; ret (testdir (the_ctx s) +:+ "/archive/coverage").
(** [config.items()], or the listed roles without properties *)
Definition images_of (what : string) (config : pyval) : MS dict :=
  match config with
  | PDict d => ret d
  | PList l => roles <- map_ as_str l ;; ret (map (fun r => (r, PNone)) roles)
  | _ => raise (AssertionError ("task " +:+ what +:+ " only supports a list or dictionary for configuration"))
  end.
Definition properties_of (v : pyval) : MS dict := match v with PNone => ret [] | _ => as_dict v end.
Definition image_name (role : string) (properties : dict) : MS string :=
  as_str (dict_get "image_name" (PStr (default_image_name role)) properties).
Definition rbd_cmd (cov : string) (args : list string) : list string :=
  ["adjust-ulimits"; "zbkc-coverage"; cov; "rbd"; "-p"; "rbd"] ++ args.

(** ** Images *)
Definition make_image (rp : string * pyval) : MS unit :=
  properties <- properties_of rp.2 ;;
  name <- image_name rp.1 properties ;;
  let size := dict_get "image_size" (PInt 10240) properties in
  let fmt := dict_get "image_format" (PInt 1) properties in
  r <- remote_of rp.1 ;;
  cov <- coverage ;;
  f <- as_int fmt ;;
  run r (rbd_cmd cov (["create"; "--size"; py_str size; name] ++
                      (if f =? 1 then [] else ["--image-format"; py_str fmt]))) true ;;
  ret tt.
Definition delete_image (rp : string * pyval) : MS unit :=
  properties <- properties_of rp.2 ;;
  name <- image_name rp.1 properties ;;
  r <- remote_of rp.1 ;;
  cov <- coverage ;;
  run r (rbd_cmd cov ["rm"; name]) true ;; ret tt.
Definition create_image {A} (config : pyval) (body : MS A) : MS A :=
  images <- images_of "create_image" config ;;
  for_ images make_image ;;
  finally body (for_ images delete_image).

(** ** Clones *)
Definition make_clone (rp : string * pyval) : MS unit :=
  properties <- properties_of rp.2 ;;
  name <- image_name rp.1 properties ;;
  let parent := dict_get "parent_name" PNone properties in
  assert_ (match parent with PNone => false | _ => true end) "parent_name is required" ;;
  let spec := py_str parent +:+ "@" +:+ name in
  r <- remote_of rp.1 ;;
  cov <- coverage ;;
  for_ [["snap"; "create"; spec]; ["snap"; "protect"; spec]; ["clone"; spec; name]]
    (fun cmd => run r (rbd_cmd cov cmd) true ;; ret tt).
Definition delete_clone (rp : string * pyval) : MS unit :=
  properties <- properties_of rp.2 ;;
  name <- image_name rp.1 properties ;;
  let spec := py_str (dict_get "parent_name" PNone properties) +:+ "@" +:+ name in
  r <- remote_of rp.1 ;;
  cov <- coverage ;;
  for_ [["rm"; name]; ["snap"; "unprotect"; spec]; ["snap"; "rm"; spec]]
    (fun cmd => run r (rbd_cmd cov cmd) true ;; ret tt).
Definition clone_image {A} (config : pyval) (body : MS A) : MS A :=
  images <- images_of "clone_image" config ;;
  for_ images make_clone ;;
  finally body (for_ images delete_clone).

(** ** The kernel module, and the devices *)

(** [for role in config] *)
Definition roles_of (config : pyval) : MS (list string) :=
  match config with
  | PDict d => ret (map fst d)
  | PList l => map_ as_str l
  | _ => raise (TypeError "object is not iterable")
  end.
Definition modprobe {A} (config : pyval) (body : MS A) : MS A :=
  roles <- roles_of config ;;
  for_ roles (fun role => r <- remote_of role ;; run r ["sudo"; "modprobe"; "rbd"] true ;; ret tt) ;;
  finally body
    (for_ roles (fun role => r <- remote_of role ;; run r ["sudo"; "modprobe"; "-r"; "rbd"; "||"; "true"] true ;; ret tt)).

Definition rbd_devname_rtn (image : string) : string := "/dev/rbd/rbd/" +:+ image.
Definition device_image (ri : string * pyval) : MS string :=
  match ri.2 with PNone => ret (default_image_name ri.1) | v => as_str v end.
(** [role.rsplit('.')[-1]] *)
Definition last_part (role : string) : string := List.last (split_on "." role) EmptyString.
Definition map_cmd (cov role image : string) : list string :=
  ["sudo"; "adjust-ulimits"; "zbkc-coverage"; cov; "rbd"; "--user"; last_part role; "-p"; "rbd"; "map"; image; "&&";
   "while"; "test"; "!"; "-e"; rbd_devname_rtn image; ";"; "do"; "sleep"; "1"; ";"; "done"].
Definition unmap_cmd (tdir cov image : string) : list string :=
  ["LD_LIBRARY_PATH=" +:+ tdir +:+ "/binary/usr/local/lib"; "sudo"; "adjust-ulimits"; "zbkc-coverage"; cov; "rbd"; "-p"; "rbd";
   "unmap"; rbd_devname_rtn image; "&&"; "while"; "test"; "-e"; rbd_devname_rtn image; ";"; "do"; "sleep"; "1"; ";"; "done"].
Definition map_device (ri : string * pyval) : MS unit :=
  image <- device_image ri ;; r <- remote_of ri.1 ;; cov <- coverage ;;
  run r (map_cmd cov ri.1 image) true ;; ret tt.
Definition unmap_device (ri : string * pyval) : MS unit :=
  image <- device_image ri ;; r <- remote_of ri.1 ;; cov <- coverage ;; s <- get ;;
  run r (unmap_cmd (testdir (the_ctx s)) cov image) true ;; ret tt.
Definition dev_create {A} (config : pyval) (body : MS A) : MS A :=
  role_images <- images_of "dev_create" config ;;
  for_ role_images map_device ;;
  finally body (for_ role_images unmap_device).

(** ** xfstests *)

(** The output of [readlink] on every machine that has the role *)
Definition canonical_path (role path : string) : MS string :=
  s <- get ;;
  outs <- map_ (fun r => p <- run r ["readlink"; "-f"; path] true ;; ret (stdout p)) (only (String.eqb role) (the_ctx s)) ;;
  ret (str_rstrip_nl (String.concat EmptyString outs)).
Definition device_of (role key : string) (properties : dict) : MS string :=
  let dev := dict_get key PNone properties in
  assert_ (match dev with PNone => false | _ => true end) ("task run_xfstests requires " +:+ key +:+ " to be defined") ;;
  d <- as_str dev ;; canonical_path role d.
Definition xfstests_cmd (tdir url test_path fs_type : string) (properties : dict) (test_dev scratch_dev : string) : list string :=
  let tests := dict_get "tests" PNone properties in
  ["/usr/bin/sudo"; "TESTDIR=" +:+ tdir; "URL_BASE=" +:+ url; "adjust-ulimits"; "zbkc-coverage"; tdir +:+ "/archive/coverage";
   "/bin/bash"; test_path; "-c"; py_str (dict_get "count" PNone properties); "-f"; fs_type; "-t"; test_dev; "-s"; scratch_dev] ++
  (if truthy (dict_get "randomize" PNone properties) then ["-r"] else []) ++
  (if truthy tests then ["--"; py_str tests] else []).
(** The script is removed however the tests end; a failure before its name is known becomes an
    [UnboundLocalError] of the [finally] clause. *)
Definition run_xfstests_one_client (role : string) (properties : dict) : MS unit :=
  s <- get ;;
  let tdir := testdir (the_ctx s) in
  rd <- catch (test_dev <- device_of role "test_dev" properties ;;
               scratch_dev <- device_of role "scratch_dev" properties ;;
               r <- remote_of role ;; ret (r, test_dev, scratch_dev))
          (fun _ => raise (OtherError "UnboundLocalError")) ;;
  let '(r, test_dev, scratch_dev) := rd in
  let test_path := path_join tdir "run_xfstests_krbd.sh" in
  finally
    (let url := dict_get "xfstests_url" PNone properties in
     assert_ (match url with PNone => false | _ => true end) "task run_xfstests requires xfstests_url to be defined" ;;
     u <- as_str url ;;
     run r ["wget"; "-O"; test_path; "--"; u +:+ "/run_xfstests_krbd.sh"] true ;;
     fs_type <- as_str (dict_get "fs_type" PNone properties) ;;
     run r (xfstests_cmd tdir u test_path fs_type properties test_dev scratch_dev) true ;; ret tt)
    (run r ["rm"; "-f"; test_path] true ;; ret tt).
Definition run_xfstests {A} (config : list (string * dict)) (body : MS A) : MS A :=
  parallel (map (fun rp => run_xfstests_one_client rp.1 rp.2) config) ;; body.

(** No machine runs two instances. *)
Definition check_hosts (roles : list string) : MS unit :=
  s <- get ;;
  fold_ (fun running role =>
    assert_ (startswith "client." role) "task xfstests can only run on client nodes" ;;
    fold_ (fun running (rr : remote * list string) =>
      if bool_decide (role ∈ rr.2) then
        assert_ (bool_decide (rr.1 ∉ running)) "task xfstests allows only one instance at a time per host" ;;
        ret (rr.1 :: running)
      else ret running) (cluster_roles (the_ctx s)) running) roles [] ;;
  ret tt.
(** The configurations of one client: the two images, their names, the tests *)
Definition xfs_config (role : string) (properties : dict) : MS (dict * dict * dict) :=
  test_image <- as_str (dict_get "test_image" (PStr ("test_image." +:+ role)) properties) ;;
  scratch_image <- as_str (dict_get "scratch_image" (PStr ("scratch_image." +:+ role)) properties) ;;
  let image name kind :=
    [("image_name", PStr name); ("image_size", dict_get (kind +:+ "_size") (PInt 10000) properties);
     ("image_format", dict_get (kind +:+ "_format") (PInt 1) properties)] in
  let branch := py_str (dict_get "xfstests_branch" (PStr "master") properties) in
  ret (image test_image "test", image scratch_image "scratch",
       [("count", dict_get "count" (PInt 1) properties);
        ("test_dev", PStr (rbd_devname_rtn test_image)); ("scratch_dev", PStr (rbd_devname_rtn scratch_image));
        ("fs_type", dict_get "fs_type" (PStr "xfs") properties); ("randomize", dict_get "randomize" (PBool false) properties);
        ("tests", dict_get "tests" PNone properties);
        ("xfstests_url", dict_get "xfstests_url" (PStr ("https://raw.github.com/zbkc/zbkc/" +:+ branch +:+ "/qa")) properties)]).
Definition xfstests {A} (config : pyval) (body : MS A) : MS A :=
  s <- get ;;
  runs <- match config with
          | PNone => ret (replace_all_with_clients (the_ctx s) [("all", PNone)])
          | PDict d => ret (replace_all_with_clients (the_ctx s) d)
          | _ => images_of "xfstests" config
          end ;;
  check_hosts (map fst runs) ;;
  cfgs <- map_ (fun rp => props <- properties_of rp.2 ;; c <- xfs_config rp.1 props ;; ret (rp.1, c)) runs ;;
  let images k := PDict (map (fun rc => (rc.1, PDict (k rc.2))) cfgs) in
  let names k := PDict (map (fun rc => (rc.1, dict_get "image_name" PNone (k rc.2))) cfgs) in
  create_image (images (fun c => c.1.1))
    (create_image (images (fun c => c.1.2))
      (modprobe (PDict (map (fun rc => (rc.1, PNone)) cfgs))
        (dev_create (names (fun c => c.1.1))
          (dev_create (names (fun c => c.1.2))
            (run_xfstests (map (fun rc => (rc.1, rc.2.2)) cfgs) body))))).

(** ** The task *)
Definition role_images_of (norm : pyval) : MS pyval :=
  match norm with
  | PDict d =>
      l <- map_ (fun rp => props <- properties_of rp.2 ;; ret (rp.1, dict_get "image_name" PNone props)) d ;; ret (PDict l)
  | _ => ret norm
  end.
Definition task {A} (config : pyval) (body : MS A) : MS A :=
  s <- get ;;
  let norm := match config with
              | PNone => PDict (replace_all_with_clients (the_ctx s) [("all", PNone)])
              | PDict d => PDict (replace_all_with_clients (the_ctx s) d)
              | v => v
              end in
  role_images <- role_images_of norm ;;
  create_image norm
    (modprobe norm
      (dev_create role_images
        (generic_mkfs _ norm (generic_mount _ role_images body)))).

End Rbd.
