(* ===== verification/FsFacts.v ===== *)
(** * Filesystems: health, ranks, objects

    Theorems about [FsOps]: what [are_daemons_healthy] answers, how long
    [wait_for_daemons] waits, the order of the rank names, and which objects make up a
    file. *)
From Stdlib Require Import QArith Qround Lqa Permutation Sorting.Sorted.
From S2P Require Import Prelude PyVal World ZbkcManager ManagerWait FSStatus Filesystem FsOps.

(** ** Fields of a daemon's entry *)

Definition field (k : string) (i : pyval) : option pyval :=
  match i with PDict d => dict_lookup k d | _ => None end.
Definition state_of (i : pyval) : string :=
  match field "state" i with Some (PStr s) => s | _ => EmptyString end.
Definition has_state (i : pyval) : Prop := exists s, field "state" i = Some (PStr s).
Definition healthy (i : pyval) : bool := bool_decide (state_of i ∈ healthy_states).
Definition active (i : pyval) : bool := String.eqb (state_of i) "up:active".
Definition active_count (infos : list pyval) : Z := Z.of_nat (length (List.filter active infos)).

Section Health.
Context {E : Env} {F : Fuel}.

Lemma subscript_field {S} k i v (s : S) w :
  field k i = Some v -> subscript i k s w = (Ret v, s, w).
Proof. destruct i; simpl; try done. unfold of_option. by intros ->. Qed.

Lemma count_active_spec infos n f w :
  Forall has_state infos ->
  count_active infos n f w =
    (Ret (if forallb healthy infos then Some (n + active_count infos) else None), f, w).
Proof.
  intros Hall. revert n; induction Hall as [|i l [s Hs] Hall IH]; intros n; simpl.
  { unfold ret, active_count. simpl. by rewrite Z.add_0_r. }
  rewrite (bind_run _ _ _ _ _ _ _ (subscript_field _ _ _ f w Hs)).
  assert (Hst : state_of i = s) by (unfold state_of; by rewrite Hs).
  unfold healthy at 1, active_count. simpl. unfold active at 1. rewrite Hst.
  destruct (bool_decide_reflect (s ∈ healthy_states)) as [Hin|Hin].
  - assert (Hex : existsb (eq_str (PStr s)) healthy_states = true).
    { apply existsb_exists. exists s. rewrite <- list_elem_of_In. split; [done|]. simpl. apply String.eqb_refl. }
    unfold healthy_states in Hex. simpl in Hex. rewrite Hex. simpl. rewrite IH. do 3 f_equal.
    destruct (forallb healthy l); [|done]. f_equal. unfold active_count.
    destruct (String.eqb s "up:active"); simpl; lia.
  - assert (Hex : existsb (eq_str (PStr s)) healthy_states = false).
    { apply not_true_is_false. intros (x & Hx & Heq)%existsb_exists. rewrite <- list_elem_of_In in Hx.
      simpl in Heq. apply String.eqb_eq in Heq. by subst. }
    unfold healthy_states in Hex. simpl in Hex. by rewrite Hex.
Qed.

(** On a well-formed MDS map [are_daemons_healthy] answers no as soon as one daemon
    is in a state other than active, standby or standby-replay, or fewer than [max_mds]
    daemons are active; otherwise it asks each active daemon itself, and its answer is
    theirs. *)
Theorem are_daemons_healthy_spec (f : fsys) (w : world) (m : dict) (infos : dict) (k : Z)
  (f1 : fsys) (w1 : world) :
  read_mds_map f w = (Ret (PDict m), f1, w1) ->
  dict_lookup "info" m = Some (PDict infos) -> dict_lookup "max_mds" m = Some (PInt k) ->
  Forall has_state infos.*2 ->
  are_daemons_healthy f w =
    if forallb healthy infos.*2 && (k <=? active_count infos.*2)
    then confirm_active infos.*2 f1 w1 else (Ret false, f1, w1).
Proof.
  intros Hm Hi Hk Hall. unfold are_daemons_healthy. rewrite (bind_run _ _ _ _ _ _ _ Hm).
  rewrite (bind_run _ _ _ _ _ _ _ (subscript_field "info" (PDict m) _ f1 w1 Hi)).
  rewrite (bind_run (values (PDict infos)) _ f1 w1 infos.*2 f1 w1 eq_refl).
  rewrite (bind_run _ _ _ _ _ _ _ (count_active_spec _ 0 f1 w1 Hall)).
  destruct (forallb healthy infos.*2); [|done]. cbn [andb].
  rewrite (bind_run _ _ _ _ _ _ _ (subscript_field "max_mds" (PDict m) _ f1 w1 Hk)).
  rewrite Z.add_0_l.
  assert (Hle : py_le (PInt k) (PInt (active_count infos.*2)) = (k <=? active_count infos.*2)).
  { unfold py_le. simpl. unfold Qcompare. simpl. rewrite !Z.mul_1_r. unfold Z.leb.
    by destruct (k ?= active_count infos.*2). }
  rewrite Hle. by destruct (k <=? active_count infos.*2).
Qed.
End Health.

(** ** Waiting for the daemons *)
Section Waiting.
Context {E : Env} {F : Fuel}.

Lemma zoom_total {A} (m : M mgr A) : Total m -> Total (fman m).
Proof. apply runs_zoom. done. Qed.
#[local] Hint Extern 1 (Runs true anything (fman _)) => (apply zoom_total; runs_tac) : runs.
Lemma count_active_total l n : Total (count_active l n).
Proof. revert n; induction l as [|i l IH]; intros n; simpl; runs_tac. Qed.
Lemma select_infos_total {A} keep (g : pyval -> M fsys A) l :
  (forall x, Total (keep x)) -> (forall x, Total (g x)) -> Total (select_infos keep g l).
Proof. intros Hk Hg. induction l as [|i l IH]; simpl; runs_tac; by auto. Qed.
#[local] Hint Extern 1 (Runs true anything (select_infos _ _ _)) =>
  (apply select_infos_total; intros; runs_tac) : runs.
Lemma lone_total : Total get_lone_mds_id.
Proof. unfold get_lone_mds_id, get_rank_names. runs_tac. Qed.
#[local] Hint Resolve lone_total count_active_total : runs.
Lemma confirm_active_total l : Total (confirm_active l).
Proof. induction l as [|i l IH]; simpl; runs_tac. Qed.
#[local] Hint Resolve confirm_active_total : runs.
Lemma are_daemons_healthy_total : Total are_daemons_healthy.
Proof. unfold are_daemons_healthy, read_mds_map. runs_tac. Qed.

(** The seconds [wait_for_daemons] sleeps at most *)
Definition daemon_wait (timeout : option Q) : Z := Z.max 1 (Qfloor (default DAEMON_WAIT_TIMEOUT timeout) + 1).
Lemma next_second (n : Z) (tmo : Q) : Qlt_bool tmo (inject_Z n) = false -> n <= Qfloor tmo.
Proof. intros H%Qlt_bool_false. rewrite <- (Qfloor_Z n). by apply Qfloor_resp_le. Qed.

(** [wait_for_daemons] always ends, after at most [floor(timeout) + 1] checks (120
    seconds when no timeout is given): it returns only right after a check that found
    the daemons healthy, and otherwise raises. *)
Theorem wait_for_daemons_bounded (timeout : option Q) (f : fsys) (w : world) :
  (Z.to_nat (daemon_wait timeout) < fuel)%nat ->
  wp (wait_for_daemons timeout) (fun o f' w' => o <> Stuck /\
    (o = Ret tt -> exists f0 w0, are_daemons_healthy f0 w0 = (Ret true, f', w'))) f w.
Proof.
  intros Hf. unfold wait_for_daemons. set (tmo := default DAEMON_WAIT_TIMEOUT timeout).
  apply wp_loop_total with (v := fun n _ _ => Z.to_nat (daemon_wait timeout - n))
    (I := fun n _ _ => 0 <= n < daemon_wait timeout); [|unfold daemon_wait; lia|lia].
  intros n f1 w1 Hn. apply wp_bind.
  pose proof (are_daemons_healthy_total f1 w1) as Ht. unfold wp in Ht |- * at 1.
  destruct (are_daemons_healthy f1 w1) as [[[b|e|] f2] w2] eqn:Heq; destruct Ht as [_ Ht]; unfold then_;
    [|done|by destruct (Ht eq_refl)].
  destruct b; [wp_run; split; [done|]; by eauto|].
  apply wp_bind. unfold sleep. apply wp_bind, wp_emit. intros r c _. destruct (raised r); [done|]. unfold then_.
  wp_run; [done|]. apply next_second in H. unfold daemon_wait in *. fold tmo in H |- *. fold tmo in Hn. lia.
Qed.
End Waiting.

(** ** Ranks in order *)

Lemma insert_by_perm x l : insert_by x l ≡ₚ x :: l.
Proof.
  induction l as [|y l IH]; simpl; [done|]. case_match; [done|]. rewrite IH. apply Permutation_swap.
Qed.
Lemma sort_by_perm l : sort_by l ≡ₚ l.
Proof. induction l as [|x l IH]; simpl; [done|]. by rewrite insert_by_perm, IH. Qed.

Definition int_key (x : pyval * pyval) : Prop := exists z, x.1 = PInt z.
Definition key_le (x y : pyval * pyval) : Prop := py_le x.1 y.1 = true.
Lemma py_le_int a b : py_le (PInt a) (PInt b) = (a <=? b).
Proof.
  unfold py_le. simpl. unfold Qcompare. simpl. rewrite !Z.mul_1_r. unfold Z.leb. by destruct (a ?= b).
Qed.
Lemma key_le_trans x y z : int_key x -> int_key y -> int_key z -> key_le x y -> key_le y z -> key_le x z.
Proof. unfold key_le. intros [a ->] [b ->] [c ->]. rewrite !py_le_int. lia. Qed.
Lemma key_le_total x y : int_key x -> int_key y -> py_le x.1 y.1 = false -> key_le y x.
Proof. unfold key_le. intros [a ->] [b ->]. rewrite !py_le_int. lia. Qed.
Lemma insert_by_sorted x l :
  int_key x -> Forall int_key l -> StronglySorted key_le l -> StronglySorted key_le (insert_by x l).
Proof.
  intros Hx Hl Hs. induction Hs as [|y l Hs IH Hy]; simpl; [by repeat constructor|].
  apply Forall_cons in Hl as [Hky Hl]. destruct (py_le x.1 y.1) eqn:Hle.
  - constructor; [by constructor|]. constructor; [exact Hle|].
    rewrite Forall_forall in Hl, Hy |- *. intros z Hz.
    apply (key_le_trans x y z); [done|done|by apply Hl|done|by apply Hy].
  - constructor; [by apply IH|]. rewrite insert_by_perm. constructor; [by apply key_le_total|done].
Qed.
Lemma sort_by_sorted l : Forall int_key l -> StronglySorted key_le (sort_by l).
Proof.
  intros H. induction H as [|x l Hx Hl IH]; simpl; [constructor|]. apply insert_by_sorted; [done| |done].
  by rewrite sort_by_perm.
Qed.

Definition rank_of (i : pyval) : Z := match field "rank" i with Some (PInt z) => z | _ => 0 end.
Definition has_rank (i : pyval) : Prop := exists z, field "rank" i = Some (PInt z).

Section Ranks.
Context {E : Env}.
Lemma keyed_spec infos (f : fsys) w :
  Forall has_rank infos ->
  map_ (fun x => r <- subscript x "rank" ;; ret (r, x)) infos f w =
    (Ret (map (fun i => (PInt (rank_of i), i)) infos), f, w).
Proof.
  intros H. induction H as [|i l [z Hz] Hl IH]; simpl; [done|].
  erewrite bind_run; [|rewrite (bind_run _ _ _ _ _ _ _ (subscript_field _ _ _ f w Hz)); reflexivity].
  rewrite (bind_run _ _ _ _ _ _ _ IH). unfold ret. assert (rank_of i = z) as -> by (unfold rank_of; by rewrite Hz). done.
Qed.

Lemma sorted_values (l : list (pyval * pyval)) infos :
  l ≡ₚ map (fun i => (PInt (rank_of i), i)) infos -> StronglySorted key_le l ->
  StronglySorted (fun a b => rank_of a <= rank_of b) l.*2.
Proof.
  intros Hp Hs. assert (Hk : Forall (fun x => x.1 = PInt (rank_of x.2)) l).
  { rewrite Hp. apply Forall_forall. by intros x (i & -> & _)%list_elem_of_fmap. }
  clear Hp. induction Hs as [|x l Hs IH Hx]; simpl; [constructor|].
  apply Forall_cons in Hk as [Hkx Hk]. constructor; [by apply IH|].
  apply Forall_fmap, Forall_forall. intros y Hy. rewrite Forall_forall in Hk, Hx.
  specialize (Hx y Hy). unfold key_le in Hx. rewrite Hkx, (Hk y Hy), py_le_int in Hx. simpl. lia.
Qed.

(** The daemons of a well-formed MDS map come out in the order of their ranks, each
    exactly once. *)
Theorem sorted_infos_by_rank (m infos : dict) (f : fsys) (w : world) :
  dict_lookup "info" m = Some (PDict infos) -> Forall has_rank infos.*2 ->
  exists l, sorted_infos (PDict m) f w = (Ret l, f, w) /\
    l ≡ₚ infos.*2 /\ StronglySorted (fun a b => rank_of a <= rank_of b) l.
Proof.
  intros Hi Hall. unfold sorted_infos.
  rewrite (bind_run _ _ _ _ _ _ _ (subscript_field "info" (PDict m) _ f w Hi)).
  rewrite (bind_run (values (PDict infos)) _ f w infos.*2 f w eq_refl).
  destruct (Nat.ltb_spec (length infos.*2) 2) as [Hlt|Hge].
  - exists infos.*2. split; [done|]. split; [done|].
    destruct (infos.*2) as [|x [|y l]]; simpl in Hlt; [constructor|by repeat constructor|lia].
  - rewrite (bind_run _ _ _ _ _ _ _ (keyed_spec _ f w Hall)). eexists. split; [reflexivity|].
    assert (Hp : sort_by (map (fun i => (PInt (rank_of i), i)) infos.*2) ≡ₚ
                 map (fun i => (PInt (rank_of i), i)) infos.*2) by apply sort_by_perm.
    split.
    + rewrite Hp, <- list_fmap_compose. by rewrite list_fmap_id.
    + eapply sorted_values; [exact Hp|]. apply sort_by_sorted. apply Forall_fmap, Forall_forall.
      intros i _. by eexists.
Qed.
End Ranks.

(** ** The objects of a file *)
Section Objects.
Context {E : Env} (daemon_remote : string -> remote).

Lemma want_objects_iff ino size o :
  0 < size ->
  o ∈ want_objects ino size <-> exists off, 0 <= off < size /\ o = object_name ino (off / stripe_size).
Proof.
  intros Hs. unfold want_objects. rewrite list_elem_of_fmap.
  assert (Hst : 0 < stripe_size) by done.
  assert (Hlast : (Z.max stripe_size size - 1) / stripe_size = (size - 1) / stripe_size).
  { destruct (Z.max_spec stripe_size size) as [[_ ->]|[Hle ->]]; [done|].
    rewrite !Z.div_small by lia. done. }
  rewrite Hlast. split.
  - intros (n & -> & Hn). apply elem_of_seq in Hn.
    exists (Z.min (size - 1) (Z.of_nat n * stripe_size)). 
    assert (Hb : Z.of_nat n * stripe_size <= size - 1).
    { assert (Z.of_nat n <= (size - 1) / stripe_size) by lia.
      pose proof (Z.mul_div_le (size - 1) stripe_size Hst). nia. }
    rewrite Z.min_r by done. rewrite Z.div_mul by lia. split; [lia|done].
  - intros (off & Hoff & ->). exists (Z.to_nat (off / stripe_size)).
    assert (0 <= off / stripe_size) by (apply Z.div_pos; lia).
    assert (off / stripe_size <= (size - 1) / stripe_size) by (apply Z.div_le_mono; lia).
    rewrite Z2Nat.id by done. split; [done|]. apply elem_of_seq. lia.
Qed.

(** [data_objects_present] answers yes exactly when the object of every byte of the
    file is in the data pool's listing, and [data_objects_absent] exactly when none is;
    the object of byte [off] is named by the inode and [off / 4MB], both in hex. *)
Theorem data_objects_decided (ino size : Z) (f f' : fsys) (w w' : world) (want exist : list string) :
  0 < size ->
  _enumerate_data_objects daemon_remote ino size f w = (Ret (want, exist), f', w') ->
  exists present absent,
    data_objects_present daemon_remote ino size f w = (Ret present, f', w') /\
    data_objects_absent daemon_remote ino size f w = (Ret absent, f', w') /\
    (present = true <-> forall off, 0 <= off < size -> object_name ino (off / stripe_size) ∈ exist) /\
    (absent = true <-> forall off, 0 <= off < size -> object_name ino (off / stripe_size) ∉ exist).
Proof.
  intros Hs Henum. assert (Hw : want = want_objects ino size).
  { unfold _enumerate_data_objects in Henum.
    apply bind_ret_inv in Henum as (p & f1 & w1 & _ & Henum).
    apply bind_ret_inv in Henum as (out & f2 & w2 & _ & Henum). by injection Henum. }
  subst want. unfold data_objects_present, data_objects_absent.
  rewrite !(bind_run _ _ _ _ _ _ _ Henum). unfold ret. cbn [fst snd]. do 2 eexists.
  split; [reflexivity|]. split; [reflexivity|]. rewrite !bool_decide_eq_true. split.
  - split.
    + intros H off Hoff. assert (Hin : object_name ino (off / stripe_size) ∈ want_objects ino size).
      { apply want_objects_iff; [done|]. by exists off. }
      destruct (decide (object_name ino (off / stripe_size) ∈ exist)) as [|Hn]; [done|]. set_solver.
    + intros H. apply set_eq. intros o. split; [|set_solver].
      rewrite elem_of_difference, !elem_of_list_to_set. intros [Hin Hn].
      apply want_objects_iff in Hin as (off & Hoff & ->); [|done]. by destruct Hn; apply H.
  - split.
    + intros H off Hoff Hn. assert (Hin : object_name ino (off / stripe_size) ∈ want_objects ino size).
      { apply want_objects_iff; [done|]. by exists off. }
      set_solver.
    + intros H. apply set_eq. intros o. split; [|set_solver].
      rewrite elem_of_intersection, !elem_of_list_to_set. intros [Hin Hn].
      apply want_objects_iff in Hin as (off & Hoff & ->); [|done]. by destruct (H off Hoff).
Qed.
End Objects.
