(* ===== verification/Daemons.v ===== *)
(** * Daemons started and stopped, read off the events

    Which daemons of a role are stopped after a sequence of events, and what it means
    for a run that something held at every moment of it. *)
From Stdlib Require Import QArith Qround Lqa.
From S2P Require Import Prelude PyVal World ZbkcManager ManagerWait.

Lemma length_list_to_set (l : list string) : (size (list_to_set l : gset string) <= length l)%nat.
Proof.
  induction l as [|x l IH]; [done|]. cbn [length].
  rewrite list_to_set_cons, size_union_alt, size_singleton.
  assert (H : (list_to_set l : gset string) ∖ {[x]} ⊆ list_to_set l) by set_solver.
  apply subseteq_size in H. lia.
Qed.

Definition no_daemon (ev : event) : Prop := match ev with EvDaemon _ _ _ _ => False | _ => True end.
(** Only daemons of [ks] are stopped. *)
Definition stops_only (ks : list string) (ev : event) : Prop :=
  match ev with EvDaemon DStop role id _ => id ∈ ks | _ => True end.

(** The daemons of [role] that are stopped after a sequence of events. *)
Section Down.
Context (role : string).
Definition down_step (d : gset string) (ev : event) : gset string :=
  match ev with
  | EvDaemon DStop r id _ => if String.eqb r role then {[id]} ∪ d else d
  | EvDaemon (DRestart _) r id _ => if String.eqb r role then d ∖ {[id]} else d
  | _ => d
  end.
Definition down (evs : list event) : gset string := fold_left down_step evs ∅.

Lemma down_snoc evs ev : down (evs ++ [ev]) = down_step (down evs) ev.
Proof. unfold down. by rewrite fold_left_app. Qed.
Lemma no_daemon_down evs evs' : Forall no_daemon evs' -> down (evs ++ evs') = down evs.
Proof.
  revert evs; induction evs' as [|ev evs' IH]; intros evs H; [by rewrite app_nil_r|].
  apply Forall_cons in H as [Hev H]. change (ev :: evs') with ([ev] ++ evs').
  rewrite (assoc_L (++)), (IH (evs ++ [ev]) H), down_snoc. by destruct ev.
Qed.
Lemma stops_only_subset ks evs evs' :
  Forall (stops_only ks) evs' -> down (evs ++ evs') ⊆ down evs ∪ list_to_set ks.
Proof.
  revert evs; induction evs' as [|ev evs' IH]; intros evs H; [rewrite app_nil_r; set_solver|].
  apply Forall_cons in H as [Hev H]. change (ev :: evs') with ([ev] ++ evs'). rewrite (assoc_L (++)).
  etrans; [by apply IH|]. rewrite down_snoc. destruct ev as [|[] r id cl| | | | | | | | | | | |]; simpl in *;
    try case_match; set_solver.
Qed.
End Down.

(** ** At every moment *)
Section Always.
Context {E : Env} (P : list event -> Prop).
(** [P] held of the trace at every moment from [w] to [w']. *)
Definition always (w w' : world) : Prop :=
  exists evs, w_trace w' = w_trace w ++ evs /\ forall pre, pre `prefix_of` evs -> P (w_trace w ++ pre).
Lemma always_refl w : P (w_trace w) -> always w w.
Proof.
  intros H. exists []. rewrite app_nil_r. split; [done|]. intros pre Hp.
  apply prefix_nil_inv in Hp as ->. by rewrite app_nil_r.
Qed.
Lemma always_trans w1 w2 w3 : always w1 w2 -> always w2 w3 -> always w1 w3.
Proof.
  intros (e1 & H1 & P1) (e2 & H2 & P2). exists (e1 ++ e2). rewrite H2, H1, (assoc_L (++)).
  split; [done|]. intros pre [suf Hs]. apply app_eq_app in Hs as (mid & [[-> _]|[-> ->]]).
  - apply P1. by exists mid.
  - rewrite (assoc_L (++)), <- H1. apply P2. by exists suf.
Qed.
(** When only daemons of [ks] are stopped, at most that many are down at any moment. *)
Lemma always_of_stops {S} role ks (s s' : S) w w' :
  (forall tr, (size (down role tr) <= length ks)%nat -> P tr) -> down role (w_trace w) = ∅ ->
  emits (stops_only ks) (s, w) (s', w') -> always w w'.
Proof.
  intros HP Hd (evs & He & Hall). exists evs. split; [done|]. intros pre [suf ->]. apply HP.
  apply Forall_app in Hall as [Hall _].
  pose proof (stops_only_subset role ks (w_trace w) pre Hall) as Hsub. rewrite Hd, (left_id_L ∅ (∪)) in Hsub.
  apply subseteq_size in Hsub. pose proof (length_list_to_set ks). lia.
Qed.
Lemma emits_stops {S} ks (p q : S * world) : emits no_daemon p q -> emits (stops_only ks) p q.
Proof. apply emits_mono. by intros []. Qed.
End Always.

(** ** Following a run

    [f] picks what the run must leave alone in the object; only daemons of [ks] may be
    stopped since [s0], [w0]; [I] is what holds of the trace. *)
Definition keeping {E : Env} {S C} (f : S -> C) (P : event -> Prop) : relation (S * world) :=
  fun p q => f p.1 = f q.1 /\ emits P p q.
#[export] Instance keeping_rel {E : Env} {S C} (f : S -> C) P : WorldRel (@keeping E S C f P).
Proof.
  split.
  - split; [intros p; by split|]. intros p1 p2 p3 [] []. split; [congruence|by etrans].
  - intros s w. split; [done|]. apply draw_ok.
Qed.
Lemma keeping_emit {E : Env} {S C} (f : S -> C) (P : event -> Prop) ev : P ev -> EmitOk (@keeping E S C f P) ev.
Proof. intros H s w. split; [done|]. by apply emits_emit. Qed.

Section Tracking.
Context {E : Env} {S C : Type} (f : S -> C) (ks : list string) (s0 : S) (w0 : world).
Implicit Types I J : list event -> Prop.

Definition base (s : S) (w : world) : Prop := f s0 = f s /\ emits (stops_only ks) (s0, w0) (s, w).
Definition track I (s : S) (w : world) : Prop := base s w /\ I (w_trace w).
(** What holds on every outcome, and what a return adds. *)
Definition tri {A} I : post S A := fun o s w => base s w /\ (is_ret o -> I (w_trace w)).

Lemma track_seq {A B} I J (m : M S A) (k : A -> M S B) s w :
  wp m (tri I) s w -> (forall a s w, track I s w -> wp (k a) (tri J) s w) -> wp (bind m k) (tri J) s w.
Proof.
  intros Hm Hk. apply wp_bind. eapply wp_conseq; [exact Hm|].
  intros [a|e|] s1 w1 [Hb Hr]; unfold then_; [apply Hk; split; [done|by apply Hr]|by split..].
Qed.
Lemma track_ret {A} I (a : A) s w : track I s w -> wp (ret a) (tri I) s w.
Proof. intros [Hb HI]. by split. Qed.
(** Code that sends nothing to a daemon *)
Lemma track_quiet {A} I (m : M S A) s w :
  (forall tr evs, Forall no_daemon evs -> I tr -> I (tr ++ evs)) ->
  Runs false (keeping f no_daemon) m -> track I s w -> wp m (tri I) s w.
Proof.
  intros HI Hm [[Hf Hb] H]. eapply wp_conseq; [apply Hm|].
  intros o s' w' [[Hs He] _]. cbn in Hs. split.
  - split; [congruence|]. etrans; [exact Hb|]. by apply emits_stops.
  - intros _. destruct He as (evs & Heq & Hall). cbn in Heq. rewrite Heq. by apply HI.
Qed.
(** Code that sends one event, to a daemon *)
Lemma track_send {A} I J (m : M S A) ev s w :
  wp m (fun _ s' w' => f s = f s' /\ exists c, w' = after ev c w) s w ->
  stops_only ks ev -> (I (w_trace w) -> J (w_trace w ++ [ev])) -> track I s w -> wp m (tri J) s w.
Proof.
  intros Hm Hs HJ [[Hf Hb] H]. eapply wp_conseq; [exact Hm|]. intros o s' w' [Hf' [c ->]]. split.
  - split; [congruence|]. etrans; [exact Hb|]. exists [ev]. split; [done|by apply Forall_singleton].
  - intros _. by apply HJ.
Qed.
Lemma track_for {A} (body : A -> M S unit) (I : list A -> list event -> Prop) l s w :
  (forall x l s w, track (I (x :: l)) s w -> wp (body x) (tri (I l)) s w) ->
  track (I l) s w -> wp (for_ l body) (tri (I [])) s w.
Proof.
  intros Hbody H. apply wp_for_rest with (I := fun l => track (I l)); [| |done].
  - intros x l' s1 w1 H1. eapply wp_conseq; [by apply Hbody|].
    intros [a|e|] s2 w2 [Hb Hr]; unfold then_; [by split; [|apply Hr]|by split..].
  - intros s1 w1 [Hb H1]. by split.
Qed.
Lemma track_each {A} I (body : A -> M S unit) l s w :
  (forall x s w, x ∈ l -> track I s w -> wp (body x) (tri I) s w) ->
  track I s w -> wp (for_ l body) (tri I) s w.
Proof.
  intros Hbody H. apply wp_for with (I := track I); [| |done].
  - intros x s1 w1 Hx H1. eapply wp_conseq; [by apply Hbody|].
    intros [a|e|] s2 w2 [Hb Hr]; unfold then_; [by split; [|apply Hr]|by split..].
  - intros s1 w1 [Hb H1]. by split.
Qed.
End Tracking.
