(* ===== verification/Sim.v ===== *)
(** * A simulated environment

    A concrete instance of [Env], used to show that the hypotheses of the theorems
    can hold: commands are answered from a script and then succeed with no output,
    [time.sleep] advances the clock, [self.stopping] stays false for a number of
    reads, and [random.random()] always draws one half. *)
From Stdlib Require Import Ascii QArith Qround Qminmax Lqa.
From S2P Require Import Prelude PyVal World ZbkcManager.

Record simstate := Sim { sim_clock : Q; sim_rounds : nat; sim_script : list reply }.

Definition sim_respond (ev : event) (c : simstate) : reply * simstate :=
  match ev with
  | EvSleep d => (ok_reply "", Sim (sim_clock c + Qmax 0 d) (sim_rounds c) (sim_script c))
  | EvStopping =>
      match sim_rounds c with
      | O => (Reply 1 "" "" None, c)
      | S k => (Reply 0 "" "" None, Sim (sim_clock c) k (sim_script c))
      end
  | _ =>
      match sim_script c with
      | [] => (ok_reply "", c)
      | r :: rs => (r, Sim (sim_clock c) (sim_rounds c) rs)
      end
  end.

(** Roles are written [type.id], in the cluster "zbkc". *)
Definition sim_split_role (role : string) : string * string * string :=
  match split_on "." role with
  | [t; i] => ("zbkc", t, i)
  | [c; t; i] => (c, t, i)
  | _ => (role, "", "")
  end.

Definition sim : Env := {|
  cstate := simstate;
  respond := sim_respond;
  now := sim_clock;
  draw := fun _ => (1 # 2)%Q;
  daemons_of := fun _ _ _ => [(0, true); (1, true); (2, true); (3, true)];
  has_ipmi_credentials := fun _ => true;
  split_role := sim_split_role;
  is_type := fun t c role => let '(rc, rt, _) := sim_split_role role in String.eqb rc c && String.eqb rt t
|}.

#[export] Instance sim_laws : EnvLaws sim.
Proof.
  split.
  - intros n; simpl; split; lra.
  - intros ev c; simpl. destruct ev; simpl; try (destruct (sim_script c); simpl; lra).
    + pose proof (Q.le_max_l 0 d). lra.
    + destruct (sim_rounds c); simpl; lra.
  - intros d c; simpl. pose proof (Q.le_max_r 0 d). lra.
Qed.

Definition sim_ctx : context :=
  Context_ "/home/ubuntu/zbkctest"
    [("host0", ["mon.a"; "osd.0"; "osd.1"]); ("host1", ["mon.b"; "osd.2"; "osd.3"]); ("host2", ["mon.c"; "client.0"])]
    {[ "zbkc" := {[ "osd" := [] ]} ]} ∅ ∅ ∅.
Definition sim_mgr : mgr := Mgr sim_ctx "host0" "zbkc" [] 0 {[ "rbd" := 64 ]}.

(** A world at time zero with [rounds] thrashing rounds to come and a script. *)
Definition sim_world (rounds : nat) (script : list reply) : @world sim :=
  @World sim (Sim 0 rounds script) 0 [].
