(* ===== verification/WaitFacts.v ===== *)
(** * Waiting and retrying

    Theorems about the polling loops of [ZbkcManager] and [ManagerWait]: what a
    return means, and how many rounds a loop can make. *)
From Stdlib Require Import QArith Qround Lqa.
From S2P Require Import Prelude PyVal World ZbkcManager ManagerWait.

Section Retry.
Context {E : Env} {F : Fuel}.

(** ** Retrying an admin socket *)

(** The most attempts [wait_run_admin_socket] makes before it gives up. *)
Definition socket_tries (timeout : Q) : Z := Z.max 1 (Qfloor (timeout / 5) + 1).

Lemma next_try_bound (tries : Z) (timeout : Q) :
  Qlt_bool timeout (inject_Z (tries * 5)) = false -> tries < socket_tries timeout.
Proof.
  intros H. assert (Hle : (inject_Z tries * 5 <= timeout)%Q).
  { apply Qlt_bool_false in H. by rewrite inject_Z_mult in H. }
  assert (Hd : (inject_Z tries <= timeout / 5)%Q) by (apply Qle_shift_div_l; [reflexivity|exact Hle]).
  pose proof (Qfloor_resp_le _ _ Hd) as Hf. rewrite Qfloor_Z in Hf. unfold socket_tries. lia.
Qed.

Lemma wp_find_remote ty id (Q : post mgr string) s w :
  (forall r, Q (Ret r) s w) -> (forall e, Q (Exc e) s w) -> wp (find_remote ty id) Q s w.
Proof. intros Hr He. unfold find_remote, get_remote. wp_run; auto. Qed.

Lemma wait_run_admin_socket_spec ty id args timeout s w :
  (Z.to_nat (socket_tries timeout) < fuel)%nat ->
  wp (wait_run_admin_socket ty id args timeout)
     (fun o s' w' => o <> Stuck /\ s' = s /\
        (runs_made w' <= runs_made w + Z.to_nat (socket_tries timeout))%nat) s w.
Proof.
  intros Hfuel. unfold wait_run_admin_socket.
  set (K := socket_tries timeout) in *. assert (1 <= K) by (unfold K, socket_tries; lia).
  apply wp_loop_total with
    (v := fun tries _ _ => Z.to_nat (K - tries))
    (I := fun tries s1 w1 => s1 = s /\ 0 <= tries < K /\ (runs_made w1 <= runs_made w + Z.to_nat tries)%nat);
    [|ands|lia].
  intros tries s1 w1 (-> & Ht & Hr). apply wp_bind. unfold admin_socket. wp_step. wp_step. wp_run.
  apply wp_find_remote; [intros r|intros e; unfold then_; ands].
  unfold then_. apply wp_run_args. intros p c Hp w' _ Hr'. rewrite andb_false_l.
  destruct (raised p); [unfold then_; ands|].
  unfold then_. wp_run; [ands..|].
  apply wp_sleep. intros q c' Hq w'' _ Hr''.
  destruct (raised q); wp_run; [ands|].
  match goal with H : Qlt_bool _ _ = false |- _ => apply next_try_bound in H; fold K in H end.
  ands.
Qed.
Lemma wait_run_admin_socket_total ty id args timeout :
  (Z.to_nat (socket_tries timeout) < fuel)%nat -> Total (wait_run_admin_socket ty id args timeout).
Proof.
  intros Hf s w. eapply wp_conseq; [by apply wait_run_admin_socket_spec|]. by intros o s' w' (? & _).
Qed.

(** [wait_run_admin_socket] makes at most [floor(timeout / 5) + 1] attempts (one at
    least) and then raises; it never touches the manager's fields. *)
Theorem wait_run_admin_socket_bounded (ty id : string) (args : list string) (timeout : Q)
  (s : mgr) (w : world) :
  (Z.to_nat (socket_tries timeout) < fuel)%nat ->
  wp (wait_run_admin_socket ty id args timeout)
     (fun o s' w' => o <> Stuck /\ s' = s /\
        (runs_made w' <= runs_made w + Z.to_nat (socket_tries timeout))%nat) s w.
Proof. apply wait_run_admin_socket_spec. Qed.
End Retry.

(** ** Methods without unbounded loops *)
Section Bounded.
Context {E : Env} {F : Fuel} (total : bool) (R : relation (mgr * world)) `{!WorldRel R}.

Lemma runs_find_by k v l : Runs total R (find_by k v l).
Proof. induction l as [|x l IH]; simpl; runs_tac. Qed.
Lemma runs_count_states test pgs n : Runs total R (count_states test pgs n).
Proof. revert n; induction pgs as [|x l IH]; intros n; simpl; runs_tac. Qed.
Lemma runs_compile_states pgs h : Runs total R (compile_states pgs h).
Proof. revert h; induction pgs as [|x l IH]; intros h; simpl; runs_tac. Qed.
End Bounded.
#[export] Hint Resolve runs_find_by runs_count_states runs_compile_states : runs.

(** ** Waiting *)
Section Deadline.
Context {E : Env} {EL : EnvLaws E} {F : Fuel}.

(** The most rounds a loop makes that sleeps three seconds a round until [timeout]. *)
Definition rounds (timeout : Q) : Z := Qceiling (timeout / 3).

Lemma rounds_step (a b t : Q) :
  (a + 3 <= b)%Q -> (0 < t - a)%Q -> rounds (t - b) < rounds (t - a) /\ 0 < rounds (t - a).
Proof.
  intros Hab Hta. unfold rounds.
  assert (H1 : ((t - b) / 3 <= (t - a) / 3 - 1)%Q) by (unfold Qdiv; change (/ 3)%Q with (1 # 3)%Q; lra).
  assert (Hpos : (0 < (t - a) / 3)%Q) by (unfold Qdiv; change (/ 3)%Q with (1 # 3)%Q; lra).
  revert H1 Hpos. generalize ((t - a) / 3)%Q ((t - b) / 3)%Q. intros x y H1 Hpos.
  pose proof (Qle_ceiling x) as Hle. pose proof (Qceiling_lt y) as Hlt.
  rewrite !Zlt_Qlt. unfold Z.sub in Hlt. rewrite inject_Z_plus, inject_Z_opp in Hlt.
  change (inject_Z 1) with 1%Q in Hlt. change (inject_Z 0) with 0%Q. split; lra.
Qed.

Lemma rounds_mono (a b : Q) : (a <= b)%Q -> rounds a <= rounds b.
Proof.
  intros H. apply Qceiling_resp_le. unfold Qdiv. change (/ 3)%Q with (1 # 3)%Q. lra.
Qed.

(** A [check] that passes only before the deadline. *)
Definition before_deadline {S} (timeout : Q) (check : Q -> M S unit) : Prop :=
  forall start s w, wp (check start) (fun o s' w' =>
    o <> Stuck /\ later (s, w) (s', w') /\
    (o = Ret tt -> (now (w_env w) - start < timeout)%Q)) s w.

Lemma deadline_loop_total {S} (cond : M S bool) (check : Q -> M S unit) timeout s w :
  Runs true later cond -> before_deadline timeout check ->
  (Z.to_nat (rounds timeout) < fuel)%nat ->
  wp (start <- time ;; while fuel (fun _ : unit => cond) (fun _ => check start ;; sleep 3) tt)
     (fun o _ _ => o <> Stuck) s w.
Proof.
  intros Hcond Hcheck Hfuel. apply wp_bind. set (start := now (w_env w)).
  change (wp (while fuel (fun _ : unit => cond) (fun _ => check start ;; sleep 3) tt)
            (fun o _ _ => o <> Stuck) s w).
  apply wp_while_total with
    (v := fun _ _ w1 => Z.to_nat (rounds (start + timeout - now (w_env w1)))) (I := fun _ _ _ => True);
    [|done|].
  - intros [] s1 w1 _. eapply wp_conseq; [apply Hcond|].
    intros [[]|e|] s2 w2 [Hl2 Hs2]; unfold then_; try done; [|by destruct (Hs2 eq_refl)].
    apply wp_bind. eapply wp_conseq; [apply Hcheck|].
    intros [[]|e|] s3 w3 (Hs3 & Hl3 & Hd); unfold then_; try done.
    specialize (Hd eq_refl). apply wp_sleep. intros r c Hr w4 -> _.
    destruct (raised r); [done|]. split; [done|].
    pose proof (sleep_passes 3 (w_env w3)) as Hp. rewrite Hr in Hp. unfold later in *; cbn in *.
    destruct (rounds_step (now (w_env w2)) (now c) (start + timeout)) as [H1 H2]; [lra|lra|].
    pose proof (rounds_mono (start + timeout - now (w_env w2)) (start + timeout - now (w_env w1))
                  ltac:(lra)). lia.
  - enough (rounds (start + timeout - now (w_env w)) <= rounds timeout) by lia.
    apply rounds_mono. unfold start. lra.
Qed.

Lemma assert_before_deadline {S} timeout msg :
  before_deadline (S := S) timeout
    (fun start => t <- time ;; assert_ (Qlt_bool (t - start) timeout) msg).
Proof.
  intros start s w.
  wp_run; (split; [done|]); (split; [unfold later; cbn; lra|]); [|done].
  intros _. by apply Qlt_bool_iff.
Qed.
Lemma dump_before_deadline timeout msg :
  before_deadline timeout (fun start => dump_and_fail start timeout msg).
Proof.
  intros start s w.
  assert (Hr : Runs true later (dump_and_fail start timeout msg)) by (unfold dump_and_fail; runs_tac).
  apply wp_conseq with (P := fun o s' w' => (later (s, w) (s', w') /\ (true = true -> o <> Stuck)) /\
    (o = Ret tt -> (now (w_env w) - start < timeout)%Q)); [|by intros ??? [[] ]; auto].
  apply wp_and; [apply Hr|]. unfold dump_and_fail. do 5 wp_step.
  2: { wp_step. intros _. apply Qnot_le_lt. rewrite <- Qle_bool_iff. congruence. }
  apply wp_bind.
  assert (Hc : Runs true later (raw_cluster_cmd ["pg"; "dump"])) by runs_tac.
  eapply wp_conseq; [apply Hc|]. intros [out|e|] s1 w1 [Hl _]; unfold then_; [|done..].
  wp_run; [|done]. intros _. unfold later in Hl; cbn in Hl.
  match goal with H : Qlt_bool _ _ = true |- _ => apply Qlt_bool_iff in H end. lra.
Qed.

(** C26: with a timeout, the waits that never restart their clock end: they return or
    raise within [ceil(timeout / 3)] rounds. *)
Theorem waits_end_by_timeout (timeout : Q) (osd size : Z) (s : mgr) (w : world) :
  (Z.to_nat (rounds timeout) < fuel)%nat ->
  wp (wait_for_all_up (Some timeout)) (fun o _ _ => o <> Stuck) s w /\
  wp (wait_till_osd_is_up osd (Some timeout)) (fun o _ _ => o <> Stuck) s w /\
  wp (wait_till_active (Some timeout)) (fun o _ _ => o <> Stuck) s w /\
  wp (wait_for_mon_quorum_size size (Some timeout)) (fun o _ _ => o <> Stuck) s w.
Proof.
  intros Hf. split_ands.
  - apply deadline_loop_total with (check := fun start => _) (timeout := timeout);
      [runs_tac|apply assert_before_deadline|done].
  - apply deadline_loop_total with (check := fun start => _) (timeout := timeout);
      [runs_tac|apply assert_before_deadline|done].
  - apply deadline_loop_total with (check := fun start => _) (timeout := timeout);
      [runs_tac|apply dump_before_deadline|done].
  - apply deadline_loop_total with (check := fun start => _) (timeout := timeout);
      [runs_tac|apply assert_before_deadline|done].
Qed.
End Deadline.

(** ** Waits without a timeout

    They have no bound of their own: they end when the cluster does its part. *)
Section Liveness.
Context {E : Env} {EL : EnvLaws E} {F : Fuel}.

(** The check is always answered, and answered with true from time [T] on. *)
Definition settles {S} (T : Q) (m : M S bool) : Prop :=
  forall s w, wp m (fun o s' w' => later (s, w) (s', w') /\
    exists b, o = Ret b /\ ((T <= now (w_env w))%Q -> b = true)) s w.
(** [time.sleep] returns. *)
Definition sleeps_return : Prop := forall d c, raised (respond (EvSleep d) c).1 = None.

Lemma poll_returns {S} (m : M S bool) (T : Q) s w :
  settles T m -> sleeps_return -> (Z.to_nat (rounds (T - now (w_env w))) < fuel)%nat ->
  wp (while fuel (fun _ : unit => b <- m ;; ret (negb b)) (fun _ => ret tt ;; sleep 3) tt)
     (fun o _ _ => o = Ret tt) s w.
Proof.
  intros Hm Hs Hf. apply wp_while_total with
    (v := fun _ _ w1 => Z.to_nat (rounds (T - now (w_env w1)))) (I := fun _ _ _ => True); [|done|done].
  intros [] s1 w1 _. apply wp_bind. eapply wp_conseq; [apply Hm|].
  intros o s2 w2 (Hl & b & -> & Hb). unfold then_. apply wp_ret. destruct b; cbn [negb]; [done|].
  apply wp_bind, wp_ret. unfold then_. apply wp_sleep. intros r c Hr w3 -> _.
  pose proof (Hs 3%Q (w_env w2)) as Hq. rewrite Hr in Hq. cbn in Hq. rewrite Hq. split; [done|].
  pose proof (sleep_passes 3 (w_env w2)) as Hp. rewrite Hr in Hp. unfold later in Hl; cbn in *.
  assert (Hlt : (now (w_env w1) < T)%Q).
  { destruct (Qlt_le_dec (now (w_env w1)) T) as [?|Hge]; [done|]. by discriminate (Hb Hge). }
  destruct (rounds_step (now (w_env w1)) (now c) T) as [H1 H2]; [lra|lra|]. lia.
Qed.

(** C27: a wait without a timeout returns when the cluster recovers: if from some time [T] on
    its check answers true (and is answered before, too), it returns after at most
    [ceil((T - now) / 3)] sleeps. *)
Theorem waits_return_on_recovery (T : Q) (osd : Z) (s : mgr) (w : world) :
  sleeps_return -> (Z.to_nat (rounds (T - now (w_env w))) < fuel)%nat ->
  (settles T are_all_osds_up -> wp (wait_for_all_up None) (fun o _ _ => o = Ret tt) s w) /\
  (settles T (osd_is_up osd) -> wp (wait_till_osd_is_up osd None) (fun o _ _ => o = Ret tt) s w) /\
  (settles T is_active -> wp (wait_till_active None) (fun o _ _ => o = Ret tt) s w).
Proof.
  intros Hs Hf. split_ands; intros Hm; apply wp_bind; by apply (poll_returns _ T).
Qed.
End Liveness.

(** ** What a return means *)
Section Sound.
Context {E : Env} {F : Fuel}.

(** [m] returned in [s'], [w'] as the very last thing a run did. *)
Definition ended_with {A} (m : M mgr A) (a : A) (s' : mgr) (w' : world) : Prop :=
  exists s0 w0, m s0 w0 = (Ret a, s', w').

Lemma negb_cond (m : M mgr bool) s w s' w' :
  bind m (fun b => ret (negb b)) s w = (Ret false, s', w') -> m s w = (Ret true, s', w').
Proof. intros (b & s1 & w1 & Hm & [= Hb <- <-])%bind_ret_inv. by destruct b. Qed.

Lemma while_ended {L} (m : M mgr bool) n body (l : L) l' s w s' w' :
  while n (fun _ => b <- m ;; ret (negb b)) body l s w = (Ret l', s', w') -> ended_with m true s' w'.
Proof. intros (s0 & w0 & H%negb_cond)%while_ret. by exists s0, w0. Qed.

Ltac peel :=
  match goal with
  | H : bind time _ _ _ = _ |- _ => apply bind_ret_inv in H as (? & ? & ? & _ & H)
  | H : bind (while _ _ _ _) _ _ _ = _ |- _ =>
      apply bind_ret_inv in H as (? & ? & ? & H & [= <- <-])
  | H : bind _ _ _ _ = _ |- _ => apply bind_ret_inv in H as (? & ? & ? & _ & H)
  end.

(** A wait that returns has just seen the condition it waits for: the last thing
    it did was a check that answered true. *)
Theorem waits_return_when_done (timeout : option Q) (osd : Z) (s : mgr) (w : world) (s' : mgr) (w' : world) :
  (wait_for_clean timeout s w = (Ret tt, s', w') -> ended_with is_clean true s' w') /\
  (wait_for_recovery timeout s w = (Ret tt, s', w') -> ended_with is_recovered true s' w') /\
  (wait_for_active timeout s w = (Ret tt, s', w') -> ended_with is_active true s' w') /\
  (wait_for_active_or_down timeout s w = (Ret tt, s', w') -> ended_with is_active_or_down true s' w') /\
  (wait_for_all_up timeout s w = (Ret tt, s', w') -> ended_with are_all_osds_up true s' w') /\
  (wait_till_active timeout s w = (Ret tt, s', w') -> ended_with is_active true s' w') /\
  (wait_till_osd_is_up osd timeout s w = (Ret tt, s', w') -> ended_with (osd_is_up osd) true s' w').
Proof.
  unfold wait_for_clean, wait_for_recovery, wait_for_active, wait_for_active_or_down, wait_for_all_up,
    wait_till_active, wait_till_osd_is_up.
  split_ands; intros H; repeat peel; by eapply while_ended.
Qed.
End Sound.
