(* ===== verification/ZbkcFacts.v ===== *)
(** * The zbkc task: devices, mounts, roles, scrubbing

    Theorems about [ZbkcCluster] and [ZbkcTask]. *)
From Stdlib Require Import QArith Qround Lqa.
From S2P Require Import Prelude PyVal World TraceState ZbkcManager ManagerWait Conf FSStatus Filesystem FsOps FsSetup.
From S2P Require Import WaitFacts ZbkcCluster ZbkcTask.

(** ** What is mounted *)

Definition mount_step (m : gset (string * string)) (ev : event) : gset (string * string) :=
  match ev with
  | EvRun r ["sudo"; "mount"; "-t"; _; "-o"; _; _; mnt] => {[(r, mnt)]} ∪ m
  | EvRun r ["sync"; "&&"; "sudo"; "umount"; "-f"; dir] => m ∖ {[(r, dir)]}
  | _ => m
  end.
(** The devices mounted by a sequence of events, by machine and directory *)
Definition mounted : list event -> gset (string * string) := after_events mount_step ∅.
Definition mounts_nothing : event -> Prop := idle mount_step.
#[export] Hint Extern 0 (EmitOk (emits mounts_nothing) _) => apply emits_emit; by intros ? : runs.
Ltac mounts_tac := repeat (runs_step || (apply emits_emit; by intros ?) || apply emits_nothing).

Section Mounts.
Context {E : Env} {F : Fuel}.
Context (get_first_mon : context -> string -> string)
        (cluster_roles_of_type : list string -> string -> string -> list string)
        (zbkc_role : string -> string)
        (skeleton_config : context -> list (list string) -> list string -> string -> gmap string dict)
        (peer_address : remote -> string)
        (num_osds : context -> string -> Z)
        (merge_devs : gmap string (gmap string string) -> gmap string (gmap string string) -> gmap string (gmap string string))
        (render_conf : gmap string dict -> string).
Abbreviation MJ A := (M job A).
Implicit Types D : gset (string * string).

(** From the mounts [D], a run of [m] that returns [a] ends with mounts that satisfy [Q a]. *)
Definition mtriple {A} D (m : MJ A) (Q : A -> gset (string * string) -> Prop) : Prop :=
  triple mount_step ∅ (fun _ t => t = D) m (fun a _ => Q a).
Abbreviation Still m := (Runs false (emits mounts_nothing) m).

Lemma mt_bind {A B} D (m : MJ A) (k : A -> MJ B) Q R :
  mtriple D m Q -> (forall a D', Q a D' -> mtriple D' (k a) R) -> mtriple D (bind m k) R.
Proof.
  intros Hm Hk. eapply triple_bind; [exact Hm|]. intros a. apply triple_pure. intros s t HQ.
  eapply triple_conseq; [by apply Hk| |done]. by intros s' t' [-> ->].
Qed.
Lemma mt_still {A} D (m : MJ A) : Still m -> mtriple D m (fun _ D' => D' = D).
Proof. intros Hm. by apply (triple_still _ _ (fun t => t = D)). Qed.
Lemma mt_still_bind {A B} D (m : MJ A) (k : A -> MJ B) R :
  Still m -> (forall a, mtriple D (k a) R) -> mtriple D (bind m k) R.
Proof. intros Hm Hk. eapply mt_bind; [by apply mt_still|]. by intros a D' ->. Qed.
Lemma mt_ret {A} D (a : A) (Q : A -> gset (string * string) -> Prop) : Q a D -> mtriple D (ret a) Q.
Proof. intros H. apply triple_ret. by intros s t ->. Qed.
Lemma mt_conseq {A} D (m : MJ A) (Q R : A -> gset (string * string) -> Prop) :
  mtriple D m Q -> (forall a D', Q a D' -> R a D') -> mtriple D m R.
Proof. intros Hm HQ. eapply triple_conseq; [exact Hm|done|]. eauto. Qed.
(** A command that mounts or unmounts: it counts even when it fails later. *)
Lemma mt_run D r args chk : mtriple D (run r args chk) (fun _ D' => D' = mount_step D (EvRun r args)).
Proof. apply triple_run. by intros p s t ->. Qed.

(** ** Mounting *)
Lemma mount_osd_mounts D cc r role dev mk :
  mtriple D (mount_osd cc r role dev mk)
    (fun _ D' => D' = {[(r, mnt_point (cc_cluster cc) (role_id role))]} ∪ D).
Proof.
  unfold mount_osd. apply mt_still_bind; [mounts_tac|intros fs]. apply mt_still_bind; [mounts_tac|intros mk'].
  eapply mt_bind; [apply mt_run|]. intros _ D' ->. do 2 (apply mt_still_bind; [mounts_tac|intros _]). by apply mt_ret.
Qed.
(** The mounts are those at the start and the list to clean. *)
Lemma setup_osd_mounts D0 cc r devs acc role :
  mtriple (D0 ∪ list_to_set acc.1) (setup_osd cc r devs acc role)
    (fun acc' D' => D' = D0 ∪ list_to_set acc'.1).
Proof.
  unfold setup_osd. apply mt_still_bind; [mounts_tac|intros _]. repeat case_match; try by apply mt_ret.
  eapply mt_bind; [apply mount_osd_mounts|]. intros mk D' ->. apply mt_ret. cbn. set_solver.
Qed.
Lemma mt_fold {A B : Type} (I : B -> gset (string * string)) (f : B -> A -> MJ B) l b :
  (forall b x, mtriple (I b) (f b x) (fun b' D' => D' = I b')) -> mtriple (I b) (fold_ f l b) (fun b' D' => D' = I b').
Proof. intros Hf. by apply (triple_fold _ _ (fun b _ t => t = I b)). Qed.
Lemma setup_osds_mounts D0 cc devs osds :
  mtriple D0 (setup_osds cluster_roles_of_type cc devs osds) (fun acc D' => D' = D0 ∪ list_to_set acc.1).
Proof.
  unfold setup_osds. apply mt_still_bind; [mounts_tac|intros j]. cbv zeta.
  match goal with |- mtriple _ (fold_ ?f _ ?b) _ =>
    assert (Hb : D0 = D0 ∪ list_to_set b.1) by set_solver; rewrite Hb at 1;
    apply (mt_fold (fun acc : to_clean => D0 ∪ list_to_set acc.1)) end.
  intros acc rr. apply mt_still_bind; [mounts_tac|intros d].
  eapply mt_bind; [apply (mt_fold (fun acc : to_clean => D0 ∪ list_to_set acc.1)); intros; apply setup_osd_mounts|].
  intros acc' D' ->. apply mt_still_bind; [mounts_tac|intros _]. by apply mt_ret.
Qed.
Lemma setup_mounts D0 cc :
  mtriple D0 (setup get_first_mon cluster_roles_of_type zbkc_role skeleton_config peer_address num_osds merge_devs render_conf cc)
    (fun clean D' => D' = D0 ∪ list_to_set clean).
Proof.
  unfold setup. apply mt_still_bind; [mounts_tac|intros j]. cbv zeta.
  do 11 (apply mt_still_bind; [mounts_tac|intros ?]). eapply mt_bind; [apply setup_osds_mounts|].
  intros clean D' ->. do 3 (apply mt_still_bind; [mounts_tac|intros ?]). by apply mt_ret.
Qed.

(** ** Unmounting *)
Lemma unmount_unmounts D rd : mtriple D (unmount rd) (fun _ D' => D' = D ∖ {[rd]}).
Proof.
  intros j w HD. unfold unmount. apply wp_catch, wp_bind. eapply wp_conseq; [by apply mt_run|].
  intros [p|e|] j1 w1 H; unfold then_; [|by apply wp_bind_any|done].
  apply wp_ret. intros [] _. rewrite (H p eq_refl). by destruct rd.
Qed.
Lemma unmount_all D l : mtriple D (for_ l unmount) (fun _ D' => D' = D ∖ list_to_set l).
Proof.
  revert D; induction l as [|rd l IH]; intros D; simpl; [apply mt_ret; set_solver|].
  eapply mt_bind; [apply unmount_unmounts|]. intros _ D' ->. eapply mt_conseq; [apply IH|]. intros _ D' ->. set_solver.
Qed.
Lemma teardown_unmounts D cc clean :
  mtriple D (teardown get_first_mon cc clean) (fun _ D' => D' = D ∖ list_to_set clean).
Proof.
  unfold teardown. apply mt_still_bind; [mounts_tac|intros j]. cbv zeta.
  do 2 (apply mt_still_bind; [mounts_tac|intros ?]).
  eapply mt_bind; [apply unmount_all|]. intros _ D' ->.
  do 2 (apply mt_still_bind; [mounts_tac|intros ?]). apply mt_still. mounts_tac.
Qed.

Lemma mt_finally {A} D (m : MJ A) (f : MJ unit) (Q : gset (string * string) -> Prop) :
  Still m -> mtriple D f (fun _ => Q) -> mtriple D (finally m f) (fun _ => Q).
Proof. intros Hm Hf. eapply triple_finally; [by apply mt_still|done]. Qed.
Abbreviation setup_ := (setup get_first_mon cluster_roles_of_type zbkc_role skeleton_config peer_address num_osds
  merge_devs render_conf).
Abbreviation cluster_ := (ZbkcCluster.cluster get_first_mon cluster_roles_of_type zbkc_role skeleton_config peer_address
  num_osds merge_devs render_conf).
(** With an existing cluster nothing is returned. *)
Lemma existing_raises {A} (cc : cluster_config) (body : MJ A) (j : job) (w : world) :
  wp (body ;; setup_ cc ;; raise (RuntimeError "generator didn't stop") : MJ A) (fun o _ _ => forall a, o <> Ret a) j w.
Proof. by do 2 (apply wp_bind_any; [intros ???|done|done]). Qed.
Lemma cluster_mounts {A} D (cc : cluster_config) (body : MJ A) : Still body -> mtriple D (cluster_ cc body) (fun _ D' => D' ⊆ D).
Proof.
  intros Hb. unfold ZbkcCluster.cluster. apply mt_still_bind; [mounts_tac|intros j].
  assert (Hnew : mtriple D (clean <- setup_ cc ;;
    finally (catch body (fun e => modify (set_failed None) ;; raise e)) (teardown get_first_mon cc clean)) (fun _ D' => D' ⊆ D)).
  { eapply mt_bind; [apply setup_mounts|]. intros clean D' ->. apply mt_finally; [mounts_tac|].
    eapply mt_conseq; [apply teardown_unmounts|]. intros _ D' ->. set_solver. }
  repeat case_match; try done. intros j1 w1 _. eapply wp_conseq; [apply existing_raises|]. by intros o ?? Hn a ?%Hn.
Qed.

(** C8: [cluster] leaves nothing of its own mounted: when it returns and its body did not mount
    or unmount devices, what is mounted then was mounted before. *)
Theorem cluster_unmounts {A} (cc : cluster_config) (body : MJ A) (j : job) (w : world) :
  Runs false (emits mounts_nothing) body ->
  wp (cluster_ cc body) (fun o _ w' => forall a, o = Ret a -> mounted (w_trace w') ⊆ mounted (w_trace w)) j w.
Proof. intros Hb. by apply (cluster_mounts (mounted (w_trace w))). Qed.

(** With [use_existing_cluster] the task never returns: after its body the set-up of a new
    cluster runs all the same, and the context manager ends in an exception. *)
Theorem existing_cluster_fails {A} (cc : cluster_config) (body : MJ A) (j : job) (w : world) :
  dict_get "use_existing_cluster" (PBool false) (j_config j) = PBool true ->
  wp (cluster_ cc body) (fun o _ _ => ~ is_ret o) j w.
Proof.
  intros Hx. unfold ZbkcCluster.cluster. apply wp_bind, wp_get. unfold then_. rewrite Hx.
  eapply wp_conseq; [apply existing_raises|]. intros [a|e|] ?? H; [by destruct (H a)|by intros []..].
Qed.

End Mounts.

(** ** Data devices and journals *)

Lemma zip_fst_nodup (roles devs : list string) : NoDup roles -> NoDup (zip roles devs).*1.
Proof.
  intros Hn. revert devs; induction Hn as [|r roles Hr Hn IH]; intros [|d devs]; simpl; try by constructor.
  constructor; [|done]. by intros ([r' d'] & -> & H%elem_of_zip_l)%list_elem_of_fmap.
Qed.
Lemma assign_devs_eq roles devs : NoDup roles -> assign_devs roles devs = list_to_map (zip roles devs).
Proof.
  intros Hn. symmetry. apply list_to_map_proper; [by apply zip_fst_nodup|apply Permutation_rev].
Qed.
Lemma assign_devs_lookup roles devs role dev :
  NoDup roles -> assign_devs roles devs !! role = Some dev <-> (role, dev) ∈ zip roles devs.
Proof. intros Hn. rewrite assign_devs_eq by done. symmetry. by apply elem_of_list_to_map, zip_fst_nodup. Qed.
Lemma assign_devs_size roles devs : NoDup roles -> size (assign_devs roles devs) = Nat.min (length roles) (length devs).
Proof.
  intros Hn. rewrite assign_devs_eq by done. rewrite map_size_list_to_map by by apply zip_fst_nodup. apply length_zip_with.
Qed.
Lemma zip_take {A B} (l : list A) (k : list B) : zip l k = zip l (take (length l) k).
Proof. revert k; induction l as [|x l IH]; intros [|y k]; simpl; [done..|]. by rewrite <- IH. Qed.

(** Block journals.  With more devices than OSDs no journal is on a device that holds data;
    with as many devices or fewer, every journal is on the data device of its own OSD. *)
Theorem block_journals (osds devs : list string) :
  NoDup osds -> NoDup devs ->
  let data := assign_devs osds devs in
  let journals := assign_devs osds (journal_devs data devs) in
  ((length osds < length devs)%nat ->
     forall role role' dev dev', data !! role = Some dev -> journals !! role' = Some dev' -> dev <> dev') /\
  ((length devs <= length osds)%nat -> journals = data).
Proof.
  intros Ho Hd data journals. unfold journals, journal_devs, data.
  rewrite assign_devs_size by done. split; intros Hl.
  - intros role role' dev dev' H1 H2 <-. apply assign_devs_lookup in H1; [|done]. apply assign_devs_lookup in H2; [|done].
    rewrite zip_take in H1. apply elem_of_zip_r in H1, H2.
    rewrite (proj2 (Nat.ltb_lt _ _)) in H2 by lia. rewrite Nat.min_l in H2 by lia.
    rewrite <- (take_drop (length osds) devs) in Hd. apply NoDup_app in Hd as (_ & Hd & _). by apply (Hd dev).
  - by rewrite (proj2 (Nat.ltb_ge _ _)) by lia.
Qed.

(** ** One cluster per machine *)
Section Roles.
Context {E : Env}.
(** The clusters of a machine's OSDs *)
Definition osd_clusters (roles : list string) : list string :=
  map (fun role => (split_role role).1.1) (filter (fun role => (split_role role).1.2 = "osd") roles).
Definition agree (l : list string) : Prop := forall a b, a ∈ l -> b ∈ l -> a = b.
Definition so_far (last : option string) : list string := match last with Some cl => [cl] | None => [] end.
(** The role belongs to a cluster with a name. *)
Definition named (role : string) : Prop := (split_role role).1.1 <> EmptyString.
Definition config_error : exn := OtherError "ConfigError: Host should not have osds from multiple clusters".

Lemma agree_cons a b l : agree (a :: b :: l) <-> a = b /\ agree (b :: l).
Proof.
  split.
  - intros H. split; [apply H; set_solver|]. intros x y Hx Hy. apply H; set_solver.
  - intros [-> H] x y Hx Hy. apply H; set_solver.
Qed.
Lemma validate_roles_spec roles last (j : job) w :
  Forall named roles -> (forall cl, last = Some cl -> cl <> EmptyString) ->
  exists o, validate_roles roles last j w = (o, j, w) /\
    (o = Ret tt /\ agree (so_far last ++ osd_clusters roles) \/
     o = Exc config_error /\ ~ agree (so_far last ++ osd_clusters roles)).
Proof.
  intros Hns. revert last; induction Hns as [|role roles Hc Hns IH]; intros last Hl; cbn [validate_roles].
  { exists (Ret tt). split; [done|]. left. split; [done|]. destruct last; simpl; intros x y; set_solver. }
  unfold named in Hc. unfold osd_clusters. rewrite filter_cons. destruct (split_role role) as [[rc rt] ri] eqn:Hs. cbn [fst snd] in *.
  destruct (String.eqb_spec rt "osd") as [->|Hne]; cbn [negb]; [|by rewrite decide_False by done; apply IH].
  rewrite decide_True by done. cbn [map]. rewrite Hs. cbn [fst].
  destruct (IH (Some rc)) as (o & Ho & Hspec); [by intros ? [= <-]|]. cbn [so_far app] in Hspec.
  destruct last as [cl|]; [|by exists o]. specialize (Hl cl eq_refl). cbn [so_far app]. setoid_rewrite agree_cons.
  replace (nonempty cl) with true by (by destruct cl). cbn [andb].
  destruct (String.eqb_spec cl rc) as [->|Hn]; cbn [negb].
  - exists o. split; [done|]. tauto.
  - exists (Exc config_error). split; [done|]. right. split; [done|]. by intros [].
Qed.

(** The configuration is accepted exactly when no machine has OSDs of two clusters, and
    refused with a [ConfigError] otherwise; neither touches anything. *)
Theorem validate_config_spec (j : job) (w : world) :
  Forall (fun rr => Forall named rr.2) (cluster_roles (j_ctx j)) ->
  let accepted := Forall (fun rr => agree (osd_clusters rr.2)) (cluster_roles (j_ctx j)) in
  exists o, validate_config j w = (o, j, w) /\ (o = Ret tt /\ accepted \/ o = Exc config_error /\ ~ accepted).
Proof.
  intros Hc accepted. unfold validate_config, bind at 1. cbn. unfold accepted.
  induction Hc as [|rr rrs Hr Hc IH]; [exists (Ret tt); split; [done|]; by left|].
  cbn [for_]. destruct (validate_roles_spec rr.2 None j w Hr) as (o & Ho & Hspec); [done|].
  unfold bind. rewrite Ho. cbn [so_far app] in Hspec. setoid_rewrite Forall_cons.
  destruct Hspec as [[-> H]|[-> H]]; [|exists (Exc config_error); split; [done|]; right; tauto].
  destruct IH as (o & Ho' & IH). exists o. split; [done|]. tauto.
Qed.
End Roles.

(** ** The scrub at the end *)
Section ScrubEnd.
Context {E : Env} {F : Fuel}.
Context (cluster_roles_of_type : list string -> string -> string -> list string) (localtime : Q -> list Z).
Abbreviation MJ A := (M job A).

Lemma runs_on_manager {A} cl (m : M mgr A) : Total m -> Runs true anything (on_manager cl m).
Proof.
  intros Hm j w. unfold wp, on_manager. destruct (j_managers j !! cl) as [mg|]; [|by split].
  specialize (Hm (mgr_with_ctx (j_ctx j) mg) w). unfold wp in Hm. by destruct (m _ w) as [[o mg'] w'].
Qed.
(** What a manager's method returns satisfies [P]. *)
Lemma on_manager_returns {A} (P : A -> Prop) cl (m : M mgr A) (j : job) w :
  Total m -> (forall s w, wp m (fun o _ _ => forall a, o = Ret a -> P a) s w) ->
  wp (on_manager cl m) (fun o _ _ => o <> Stuck /\ forall a, o = Ret a -> P a) j w.
Proof.
  intros Ht Hm. unfold wp, on_manager. destruct (j_managers j !! cl) as [mg|]; [|by split].
  specialize (Ht (mgr_with_ctx (j_ctx j) mg) w). specialize (Hm (mgr_with_ctx (j_ctx j) mg) w). unfold wp in *.
  destruct (m _ w) as [[o mg'] w']. split; [by apply Ht|done].
Qed.
Lemma ends_bind {S A B} (m : M S A) (k : A -> M S B) s w :
  Total m -> (forall a s w, wp (k a) (fun o _ _ => o <> Stuck) s w) -> wp (bind m k) (fun o _ _ => o <> Stuck) s w.
Proof.
  intros Hm Hk. apply wp_bind. eapply wp_conseq; [apply Hm|]. intros [a|e|] s1 w1 [_ Hs]; unfold then_; [apply Hk|done|by destruct (Hs eq_refl)].
Qed.
Lemma wait_active_clean_total cl n : Total (wait_active_clean cl n).
Proof. induction n as [|n IH]; simpl; repeat (runs_step || apply runs_on_manager). Qed.

(** At most one pg is counted for each stamp. *)
Lemma fold_count_le (since : list Z) (l : list string) (n : Z) (j : job) w :
  wp (fold_ (fun n tmval =>
        pgtm <- of_option (ValueError "time data does not match format") (strptime (stamp_of tmval)) ;;
        ret (if later_stamp pgtm since then n + 1 else n)) l n : MJ Z)
     (fun o _ _ => o <> Stuck /\ forall k, o = Ret k -> n <= k <= n + Z.of_nat (length l)) j w.
Proof.
  revert n j w; induction l as [|x l IH]; intros n j w; cbn [fold_ length].
  { split; [done|]. intros k [= <-]. lia. }
  wp_run; [|split; done]. eapply wp_conseq; [apply IH|]. intros o ?? [? Hk]. split; [done|]. intros k Hr%Hk. case_match; lia.
Qed.
Lemma map_length_ret {S A B} (f : A -> M S B) l (s : S) w :
  (forall x s w, wp (f x) (fun o _ _ => o <> Stuck) s w) ->
  wp (map_ f l) (fun o _ _ => o <> Stuck /\ forall k, o = Ret k -> length k = length l) s w.
Proof.
  intros Hf. revert s w; induction l as [|x l IH]; intros s w; cbn [map_].
  { split; [done|]. by intros k [= <-]. }
  apply wp_bind. eapply wp_conseq; [apply Hf|]. intros [y|e|] s1 w1 H1; unfold then_; [|done..].
  apply wp_bind. eapply wp_conseq; [apply IH|]. intros [ys|e|] s2 w2 [H2 Hl]; unfold then_; [|done..].
  apply wp_ret. split; [done|]. intros k [= <-]. simpl. f_equal. by apply Hl.
Qed.
Lemma count_scrubbed_le since stats (j : job) w :
  wp (count_scrubbed since stats) (fun o _ _ => o <> Stuck /\ forall k, o = Ret k -> 0 <= k <= Z.of_nat (length stats)) j w.
Proof.
  unfold count_scrubbed. apply wp_bind. eapply wp_conseq.
  { apply map_length_ret. intros x s w1. unfold subscript, as_str. by wp_run. }
  intros [ts|e|] s1 w1 [H1 Hl]; unfold then_; [|done..]. rewrite <- (Hl ts eq_refl). apply fold_count_le.
Qed.
(** Rounds the loop can still make: one for each pg that is not scrubbed yet, and twelve
    without progress after each. *)
Definition rounds_left (N : nat) (l : Z * Z) : nat := Z.to_nat ((Z.of_nat N - l.1) * 13 + (12 - l.2)).
Definition few_pgs (N : nat) : Prop :=
  forall s w, wp get_pg_stats (fun o _ _ => forall l, o = Ret l -> (length l <= N)%nat) s w.

Lemma scrub_round_progress N cl since l (j : job) w :
  few_pgs N -> 0 <= l.1 <= Z.of_nat N -> 0 <= l.2 <= 12 ->
  wp (scrub_round cl since l) (fun o _ _ => o <> Stuck /\ forall l', o = Ret (inl l') ->
    (0 <= l'.1 <= Z.of_nat N /\ 0 <= l'.2 <= 12) /\ (rounds_left N l' < rounds_left N l)%nat) j w.
Proof.
  intros HN H1 H2. destruct l as [prev gap]. cbn [fst snd] in *. unfold scrub_round. apply wp_bind.
  eapply wp_conseq; [apply (on_manager_returns (fun l => (length l <= N)%nat)); [runs_tac|apply HN]|].
  intros [stats|e|] j1 w1 [Hs Hlen]; unfold then_; [|done..]. specialize (Hlen stats eq_refl).
  apply wp_bind. eapply wp_conseq; [apply count_scrubbed_le|].
  intros [k|e|] j2 w2 [Hs2 Hk]; unfold then_; [|done..]. specialize (Hk k eq_refl).
  destruct (12 <? _) eqn:Hgap; [done|]. destruct (k <? _); [|done].
  apply wp_bind, wp_sleep. intros r c _ w3 _ _. destruct (raised r); [done|]. apply wp_ret. split; [done|].
  intros l' [= <-]. unfold rounds_left. destruct (Z.ltb_spec prev k); cbn [fst snd] in *; lia.
Qed.

(** C38: the scrub at the end of the task ends: when the cluster reports at most [N] pgs, the
    loop makes at most [13 * (N + 1)] rounds, whatever the time stamps are. *)
Theorem osd_scrub_pgs_ends (N : nat) (config : dict) (j : job) (w : world) :
  few_pgs N -> (13 * (N + 1) < fuel)%nat ->
  wp (osd_scrub_pgs cluster_roles_of_type localtime config) (fun o _ _ => o <> Stuck) j w.
Proof.
  intros HN Hf. unfold osd_scrub_pgs.
  assert (Hloop : forall since cl j w, wp (loop fuel (scrub_round cl since) (0, 0)) (fun o _ _ => o <> Stuck) j w).
  { intros since cl j1 w1. apply wp_loop_total with (v := fun l _ _ => rounds_left N l)
      (I := fun l _ _ => 0 <= l.1 <= Z.of_nat N /\ 0 <= l.2 <= 12); [|cbn; lia|unfold rounds_left; cbn; lia].
    intros l j2 w2 [H1 H2]. eapply wp_conseq; [by apply scrub_round_progress|].
    intros [[l'|[]]|e|] j3 w3 [Hs Hn]; unfold then_; [by apply Hn|done..]. }
  apply ends_bind; [unfold cluster_name; runs_tac|intros cl j1 w1].
  apply ends_bind; [apply wait_active_clean_total|intros b j2 w2]. destruct b; cbn [negb]; [|done].
  do 3 (apply ends_bind; [runs_tac|intros ? ? ?]). apply ends_bind; [repeat (runs_step || apply runs_on_manager)|done].
Qed.
End ScrubEnd.
