(* ===== verification/ZbkcOrder.v ===== *)
(** * The zbkc task: the order of its phases

    The context managers of [ZbkcTask.nested] bring a cluster up and take it down.  Each event
    that mounts a device, starts or stops daemons or unmounts a device belongs to a phase, and
    the phases of a run come in order, however the run ends. *)
From Stdlib Require Import QArith Qround Lqa.
From S2P Require Import Prelude PyVal World ZbkcManager ManagerWait Conf FSStatus Filesystem FsOps FsSetup.
From S2P Require Import WaitFacts ZbkcCluster ZbkcTask.

(** ** Phases *)

(** The position of a daemon type in the order of starting *)
Definition rank_of (type_ : string) : nat :=
  if String.eqb type_ "mon" then 1 else if String.eqb type_ "mgr" then 2 else if String.eqb type_ "osd" then 3 else 4.
(** Devices are mounted; monitors, managers, OSDs, metadata servers start, and stop in the
    opposite order; devices are unmounted. *)
Definition phase (ev : event) : option nat :=
  match ev with
  | EvRun _ ["sudo"; "mount"; "-t"; _; "-o"; _; _; _] => Some 0%nat
  | EvDaemon (DAdd _ _) type_ _ _ => Some (rank_of type_)
  | EvCall "stop_daemons_of_type" [type_; _] => Some (9 - rank_of type_)%nat
  | EvRun _ ["sync"; "&&"; "sudo"; "umount"; "-f"; _] => Some 9%nat
  | _ => None
  end.
Definition no_phase (ev : event) : Prop := phase ev = None.
(** The phases of the events are sorted, and lie between [lo] and [hi]. *)
Fixpoint ordered (lo hi : nat) (evs : list event) : Prop :=
  match evs with
  | [] => (lo <= hi)%nat
  | ev :: evs' => match phase ev with Some p => (lo <= p)%nat /\ ordered p hi evs' | None => ordered lo hi evs' end
  end.
Lemma ordered_le lo hi evs : ordered lo hi evs -> (lo <= hi)%nat.
Proof. revert lo; induction evs as [|ev evs IH]; intros lo; simpl; [done|]. case_match; [intros [? ?%IH]; lia|apply IH]. Qed.
Lemma ordered_weaken lo lo' hi evs : (lo' <= lo)%nat -> ordered lo hi evs -> ordered lo' hi evs.
Proof. revert lo; induction evs as [|ev evs IH]; intros lo; simpl; [lia|]. intros ?. case_match; [intros []; split; [lia|done]|by apply IH]. Qed.
Lemma ordered_app a b c evs evs' : ordered a b evs -> ordered b c evs' -> ordered a c (evs ++ evs').
Proof.
  revert a; induction evs as [|ev evs IH]; intros a; simpl; [apply ordered_weaken|].
  case_match; [intros [? ?] ?; split; [done|by apply IH]|apply IH].
Qed.
(** Every event belongs to phase [p] or to none. *)
Definition in_phase (p : nat) (ev : event) : Prop := phase ev = None \/ phase ev = Some p.
Lemma ordered_phase p evs : Forall (in_phase p) evs -> ordered p p evs.
Proof. induction 1 as [|ev evs [H|H] _ IH]; simpl; [done|by rewrite H|by rewrite H]. Qed.

Section Order.
Context {E : Env} {F : Fuel}.
Abbreviation MJ A := (M job A).

(** The events of a run go through the phases from [lo] to [hi] in order, and a run that
    returns has done all of [must]. *)
Definition Between {A} (lo hi : nat) (must : list event) (m : MJ A) : Prop :=
  forall j w, wp m (fun o _ w' => exists evs, w_trace w' = w_trace w ++ evs /\ ordered lo hi evs /\
                                              (is_ret o -> must ⊆ evs)) j w.

Lemma between_phase {A} p (m : MJ A) : Runs false (emits (in_phase p)) m -> Between p p [] m.
Proof.
  intros Hm j w. eapply wp_conseq; [apply Hm|]. intros o j' w' [(evs & He & Hf) _]. exists evs.
  split; [done|]. split; [by apply ordered_phase|set_solver].
Qed.
Lemma between_weaken {A} lo hi lo' hi' must must' (m : MJ A) :
  (lo' <= lo)%nat -> (hi <= hi')%nat -> must' ⊆ must -> Between lo hi must m -> Between lo' hi' must' m.
Proof.
  intros Hl Hh Hm HB j w. eapply wp_conseq; [apply HB|]. intros o j' w' (evs & He & Ho & Hr). exists evs.
  split; [done|]. split; [|set_solver]. eapply ordered_weaken; [done|]. rewrite <- (app_nil_r evs).
  by eapply ordered_app; [done|].
Qed.
Lemma between_bind {A B} a b c m1 m2 (m : MJ A) (k : A -> MJ B) :
  (b <= c)%nat -> Between a b m1 m -> (forall x, Between b c m2 (k x)) -> Between a c (m1 ++ m2) (bind m k).
Proof.
  intros Hbc Hm Hk j w. apply wp_bind. eapply wp_conseq; [apply Hm|].
  intros o j1 w1 (evs & He & Ho & Hr).
  assert (Ho' : ordered a c evs) by (rewrite <- (app_nil_r evs); by eapply ordered_app).
  destruct o as [x|e|]; unfold then_; [|exists evs; split; [done|]; by split; [|intros []]..].
  eapply wp_conseq; [apply Hk|]. intros o' j2 w2 (evs' & He' & Ho2 & Hr'). exists (evs ++ evs').
  rewrite He', He, (assoc_L (++)). split; [done|]. split; [by apply (ordered_app _ b)|].
  specialize (Hr I). set_solver.
Qed.
Lemma between_finally {A} a b c m1 m2 (m : MJ A) (f : MJ unit) :
  (b <= c)%nat -> Between a b m1 m -> Between b c m2 f -> Between a c (m1 ++ m2) (finally m f).
Proof.
  intros Hbc Hm Hf j w. apply wp_finally. eapply wp_conseq; [apply Hm|].
  intros o j1 w1 (evs & He & Ho & Hr).
  assert (Hrest : wp f (fun o' j2 w2 => exists evs', w_trace w2 = w_trace w ++ evs' /\ ordered a c evs' /\
     (is_ret o -> is_ret o' -> m1 ++ m2 ⊆ evs')) j1 w1).
  { eapply wp_conseq; [apply Hf|]. intros o' j2 w2 (evs' & He' & Ho2 & Hr'). exists (evs ++ evs').
    rewrite He', He, (assoc_L (++)). split; [done|]. split; [by apply (ordered_app _ b)|]. set_solver. }
  destruct o as [x|e|].
  - eapply wp_conseq; [exact Hrest|]. intros [u|e|] j2 w2 (evs' & ? & ? & Hr2); exists evs'; (split; [done|]); (split; [done|]); [by intros; apply Hr2|by intros []..].
  - eapply wp_conseq; [exact Hrest|]. intros [u|e'|] j2 w2 (evs' & ? & ? & Hr2); exists evs'; (split; [done|]); by split.
  - exists evs. split; [done|]. split; [|by intros []]. rewrite <- (app_nil_r evs). by eapply ordered_app.
Qed.
Lemma emits_on_manager {A} P cl (m : M mgr A) : Runs false (emits P) m -> Runs false (emits P) (on_manager cl m).
Proof.
  intros Hm j w. unfold wp, on_manager. destruct (j_managers j !! cl) as [mg|]; [|by split; [apply emits_nothing|]].
  specialize (Hm (mgr_with_ctx (j_ctx j) mg) w). unfold wp in Hm. by destruct (m _ w) as [[o mg'] w'].
Qed.
Lemma runs_fresh {S A} P (t0 : S) (m : M S A) : Runs false (emits P) m -> Runs false (emits P) (fresh t0 m : MJ (A * S)).
Proof.
  intros Hm j w. specialize (Hm t0 w). unfold wp, fresh in *. destruct (m t0 w) as [[[] t] w']; destruct Hm as [Hm _]; by split.
Qed.
End Order.

Ltac order_tac :=
  repeat (runs_step || apply emits_on_manager || apply runs_fresh || (apply emits_emit; first [by left | by right]) || apply emits_nothing).

Section Nested.
Context {E : Env} {F : Fuel}.
Context (get_first_mon : context -> string -> string)
        (cluster_roles_of_type : list string -> string -> string -> list string)
        (zbkc_role : string -> string)
        (skeleton_config : context -> list (list string) -> list string -> string -> gmap string dict)
        (peer_address : remote -> string)
        (num_osds : context -> string -> Z)
        (merge_devs : gmap string (gmap string string) -> gmap string (gmap string string) -> gmap string (gmap string string))
        (render_conf : gmap string dict -> string)
        (all_roles_of_type : context -> string -> list string)
        (client_remote_of : context -> string -> remote)
        (deep_merge : dict -> pyval -> dict)
        (get_valgrind_args : string -> string -> list string -> pyval -> list string)
        (localtime : Q -> list Z).
Abbreviation MJ A := (M job A).
Abbreviation Stays p m := (Runs false (emits (in_phase p)) m).

(** How long the file system is watched for, and what is looked at *)
Lemma count_active_phase p infos n : Stays p (count_active infos n).
Proof. revert n; induction infos as [|i l IH]; intros n; cbn [count_active]; order_tac. Qed.
Lemma runs_fman {A} P (m : M mgr A) : Runs false (emits P) m -> Runs false (emits P) (fman m).
Proof.
  intros Hm f w. unfold wp, fman, zoom. specialize (Hm (mon_manager f) w). unfold wp in Hm.
  by destruct (m _ w) as [[o mg'] w'].
Qed.
#[local] Hint Extern 1 (Runs false (emits _) (fman _)) => (apply runs_fman; order_tac) : runs.
#[local] Hint Resolve count_active_phase : runs.
Lemma confirm_active_phase p infos : Stays p (confirm_active infos).
Proof. induction infos as [|i l IH]; cbn [confirm_active]; order_tac. Qed.
#[local] Hint Resolve confirm_active_phase : runs.

Lemma setup_phase cc : Stays 0 (setup get_first_mon cluster_roles_of_type zbkc_role skeleton_config peer_address num_osds
  merge_devs render_conf cc).
Proof. order_tac. Qed.
Lemma teardown_phase cc clean : Stays 9 (teardown get_first_mon cc clean).
Proof. order_tac. Qed.
Lemma healthy_phase p cl : Stays p (healthy get_first_mon all_roles_of_type client_remote_of cl).
Proof. order_tac. Qed.
Lemma wait_active_clean_phase p cl n : Stays p (wait_active_clean cl n).
Proof. induction n as [|n IH]; cbn [wait_active_clean]; order_tac. Qed.
#[local] Hint Resolve healthy_phase wait_active_clean_phase : runs.
Lemma scrub_phase p config : Stays p (osd_scrub_pgs cluster_roles_of_type localtime config).
Proof. order_tac. Qed.
#[local] Hint Resolve scrub_phase : runs.
Lemma new_filesystem_phase p (c : context) fscid create_ :
  Stays p (new_filesystem (fun c _ => get_first_mon c "zbkc") all_roles_of_type client_remote_of c fscid create_ : MJ fsys).
Proof. order_tac. Qed.
#[local] Hint Resolve new_filesystem_phase : runs.

(** ** One context manager at a time *)
Definition stopped (type_ cl : string) : event := EvCall "stop_daemons_of_type" [type_; cl].
Lemma still_bind {A B} a c must (m : MJ A) (k : A -> MJ B) :
  (a <= c)%nat -> Stays a m -> (forall x, Between a c must (k x)) -> Between a c must (bind m k).
Proof. intros Hac Hm Hk. change must with ([] ++ must). apply (between_bind a a c); [done|by apply between_phase|done]. Qed.
Lemma between_reraise {A} a c must (m : MJ A) (f : job -> job) :
  Between a c must m -> Between a c must (catch m (fun e => modify f ;; raise e)).
Proof.
  intros Hm j w. apply wp_catch. eapply wp_conseq; [apply Hm|]. intros [x|e|] j1 w1 H; [done| |done].
  apply wp_bind, wp_modify. unfold then_. by apply wp_raise.
Qed.
Lemma stop_between type_ cl p :
  phase (stopped type_ cl) = Some p -> Between p p [stopped type_ cl] (call "stop_daemons_of_type" [type_; cl] ;; ret tt).
Proof.
  intros Hp j w. unfold call. do 2 apply wp_bind. apply wp_emit. intros r c _.
  assert (Ho : ordered p p [stopped type_ cl]) by (cbn [ordered]; rewrite Hp; by split).
  destruct (raised r); unfold then_; wp_run; (exists [stopped type_ cl]; split; [done|]; split; [done|]);
    [by intros []|set_solver].
Qed.
Lemma bind_ret_l {A B} (a : A) (k : A -> MJ B) : bind (ret a) k = k a.
Proof. done. Qed.
Lemma cluster_name_ret config cl : dict_lookup "cluster" config = Some (PStr cl) -> cluster_name config = ret cl.
Proof. intros Hcl. unfold cluster_name, subscript. by rewrite Hcl. Qed.
Lemma run_daemon_order {A} a b must config cl type_ (body : MJ A) :
  dict_lookup "cluster" config = Some (PStr cl) -> (rank_of type_ <= a <= b)%nat -> (b <= 9 - rank_of type_)%nat ->
  Between a b must body ->
  Between (rank_of type_) (9 - rank_of type_) (must ++ [stopped type_ cl]) (run_daemon get_valgrind_args config type_ body).
Proof.
  intros Hcl Ha Hb HB. unfold run_daemon.
  rewrite (cluster_name_ret _ _ Hcl), bind_ret_l. apply still_bind; [lia|order_tac|intros j]. cbv zeta.
  apply still_bind; [lia|order_tac|intros []].
  assert (Hr : (1 <= rank_of type_ <= 4)%nat) by (unfold rank_of; repeat case_match; lia).
  apply (between_finally _ b); [done|by eapply between_weaken; [| | |exact HB]; [lia|lia|]|].
  apply (between_weaken (9 - rank_of type_) (9 - rank_of type_) _ _ [stopped type_ cl]); [done..|]. by apply stop_between.
Qed.
Lemma crush_setup_order {A} a b must config (body : MJ A) :
  (a <= b)%nat -> Between a b must body -> Between a b must (crush_setup get_first_mon config body).
Proof. intros Hab HB. unfold crush_setup. do 4 (apply still_bind; [done|order_tac|intros ?]). done. Qed.
Lemma zbkcfs_setup_order {A} a b must config (body : MJ A) :
  (a <= b)%nat -> Between a b must body ->
  Between a b must (zbkcfs_setup get_first_mon all_roles_of_type client_remote_of config body).
Proof.
  intros Hab HB. unfold zbkcfs_setup. do 3 (apply still_bind; [done|order_tac|intros ?]). cbv zeta.
  apply still_bind; [done|order_tac|done].
Qed.
Lemma with_manager_phase {A} p config cl (body : MJ A) :
  Runs false (emits no_phase) body ->
  Stays p (with_manager get_first_mon cluster_roles_of_type all_roles_of_type client_remote_of localtime config cl body).
Proof.
  intros Hb. assert (HB : Stays p body).
  { intros j w. eapply wp_conseq; [apply Hb|]. intros o j' w' [H _]. split; [|done].
    eapply emits_mono; [|exact H]. by left. }
  order_tac.
Qed.
Lemma make_cluster_config_quiet config cl : Runs false (quiet (fun _ => False)) (make_cluster_config config cl).
Proof. runs_tac. Qed.

Abbreviation nested_ := (nested get_first_mon cluster_roles_of_type zbkc_role skeleton_config peer_address num_osds
  merge_devs render_conf all_roles_of_type client_remote_of get_valgrind_args localtime).
(** The daemons inside of the cluster's set-up and teardown *)
Lemma daemons_order {A} config cl (body : MJ A) :
  dict_lookup "cluster" config = Some (PStr cl) -> Runs false (emits no_phase) body ->
  Between 1 8 [stopped "mds" cl; stopped "osd" cl; stopped "mgr" cl; stopped "mon" cl]
    (run_daemon get_valgrind_args config "mon"
      (run_daemon get_valgrind_args config "mgr"
        (crush_setup get_first_mon config
          (run_daemon get_valgrind_args config "osd"
            (zbkcfs_setup get_first_mon all_roles_of_type client_remote_of config
              (run_daemon get_valgrind_args config "mds"
                (with_manager get_first_mon cluster_roles_of_type all_roles_of_type client_remote_of localtime config cl body))))))).
Proof.
  intros Hcl Hb. assert (Hw := between_phase 4 _ (with_manager_phase 4 config cl body Hb)).
  assert (Hmds := run_daemon_order 4 4 [] config cl "mds" _ Hcl ltac:(cbn; lia) ltac:(cbn; lia) Hw).
  assert (Hosd := run_daemon_order 4 5 _ config cl "osd" _ Hcl ltac:(cbn; lia) ltac:(cbn; lia)
                    (zbkcfs_setup_order 4 5 _ config _ ltac:(lia) Hmds)).
  assert (Hmgr := run_daemon_order 3 6 _ config cl "mgr" _ Hcl ltac:(cbn; lia) ltac:(cbn; lia)
                    (crush_setup_order 3 6 _ config _ ltac:(lia) Hosd)).
  exact (run_daemon_order 2 7 _ config cl "mon" _ Hcl ltac:(cbn; lia) ltac:(cbn; lia) Hmgr).
Qed.
Lemma new_cluster_order {A} must cc (body : MJ A) :
  Between 1 8 must body ->
  Between 0 9 must (clean <- setup get_first_mon cluster_roles_of_type zbkc_role skeleton_config peer_address num_osds
                              merge_devs render_conf cc ;;
                    finally (catch body (fun e => modify (set_failed None) ;; raise e)) (teardown get_first_mon cc clean)).
Proof.
  intros HB. apply still_bind; [lia|apply setup_phase|intros clean]. rewrite <- (app_nil_r must).
  apply (between_finally 0 9 9); [done| |apply between_phase, teardown_phase].
  apply (between_weaken 1 8 _ _ must); [lia..|done|]. by apply between_reraise.
Qed.
Lemma cluster_new {A} (cc : cluster_config) (body : MJ A) (j : job) (w : world) :
  dict_get "use_existing_cluster" (PBool false) (j_config j) <> PBool true ->
  ZbkcCluster.cluster get_first_mon cluster_roles_of_type zbkc_role skeleton_config peer_address num_osds merge_devs
    render_conf cc body j w =
  (clean <- setup get_first_mon cluster_roles_of_type zbkc_role skeleton_config peer_address num_osds
              merge_devs render_conf cc ;;
   finally (catch body (fun e => modify (set_failed None) ;; raise e)) (teardown get_first_mon cc clean)) j w.
Proof. intros Hx. unfold ZbkcCluster.cluster, bind at 1. cbn. by repeat case_match. Qed.
(** ** The whole task *)
Abbreviation task_ := (task get_first_mon cluster_roles_of_type zbkc_role skeleton_config peer_address num_osds
  merge_devs render_conf all_roles_of_type client_remote_of deep_merge get_valgrind_args localtime).
(** The options of the task once the job's overrides are in *)
Definition task_config (config : dict) (j : job) : dict :=
  let overrides := match dict_get "overrides" (PDict []) (j_config j) with PDict d => d | _ => [] end in
  let config := deep_merge config (dict_get "zbkc" (PDict []) overrides) in
  if dict_has "cluster" config then config else dict_set "cluster" (PStr "zbkc") config.
Definition use_existing (j : job) : bool :=
  match dict_get "use_existing_cluster" (PBool false) (j_config j) with PBool true => true | _ => false end.
Definition all_stopped (cl : string) : list event := [stopped "mds" cl; stopped "osd" cl; stopped "mgr" cl; stopped "mon" cl].
(** A run on a new cluster goes through all phases in order; one on an existing cluster goes
    through those of the daemons, has devices mounted after that, and does not return. *)
Definition shaped {A} (existing : bool) (cfg : dict) (o : outcome A) (evs : list event) : Prop :=
  if existing then ~ is_ret o /\ exists up late, evs = up ++ late /\ ordered 1 8 up /\ ordered 0 0 late
  else ordered 0 9 evs /\ (is_ret o -> exists cl, dict_lookup "cluster" cfg = Some (PStr cl) /\ all_stopped cl ⊆ evs).
Lemma ordered_none lo hi evs : (lo <= hi)%nat -> Forall no_phase evs -> ordered lo hi evs.
Proof. intros Hle. induction 1 as [|ev evs H _ IH]; [done|]. cbn [ordered]. by rewrite H. Qed.
Lemma ordered_around lo hi pre evs post :
  Forall no_phase pre -> ordered lo hi evs -> Forall no_phase post -> ordered lo hi (pre ++ evs ++ post).
Proof.
  intros Hpre Ho Hpost. assert (Hle := ordered_le _ _ _ Ho).
  apply (ordered_app lo lo); [by apply ordered_none|]. apply (ordered_app lo hi); [done|by apply ordered_none].
Qed.
Lemma shaped_none {A} existing cfg (o : outcome A) evs : ~ is_ret o -> Forall no_phase evs -> shaped existing cfg o evs.
Proof.
  intros Ho Hf. destruct existing; [|split; [apply ordered_none; [lia|done]|by intros ?%Ho]]. split; [done|].
  exists evs, []. rewrite app_nil_r. split; [done|]. split; [apply ordered_none; [lia|done]|cbn; lia].
Qed.
Lemma shaped_around {A} existing cfg (o o' : outcome A) pre evs post :
  (is_ret o' -> is_ret o) -> Forall no_phase pre -> shaped existing cfg o evs -> Forall no_phase post ->
  shaped existing cfg o' (pre ++ evs ++ post).
Proof.
  intros Hi Hpre Hs Hpost. destruct existing; cbn in *.
  - destruct Hs as (Hr & up & late & -> & Hu & Hl). split; [tauto|]. exists (pre ++ up), (late ++ post).
    rewrite <- !(assoc_L (++)). split; [done|]. split.
    + rewrite <- (app_nil_r up). by apply ordered_around.
    + by apply (ordered_around 0 0 []).
  - destruct Hs as [Ho Hr]. split; [by apply ordered_around|]. intros H. destruct (Hr (Hi H)) as (cl & ? & ?). exists cl. set_solver.
Qed.
(** From [w] on, a run has this shape. *)
Abbreviation shapes existing cfg w := (fun o _ w' => exists evs, w_trace w' = w_trace w ++ evs /\ shaped existing cfg o evs).
Lemma shapes_exc {A} existing cfg (m : MJ A) e j j' w : m j w = (Exc e, j', w) -> wp m (shapes existing cfg w) j w.
Proof.
  intros H. unfold wp. rewrite H. exists []. rewrite app_nil_r. split; [done|]. apply shaped_none; [by intros []|constructor].
Qed.
Ltac hush := repeat (runs_step || (by apply quiet_emit) || (by apply emits_emit)).
Lemma shapes_bind {A B} existing cfg (m : MJ A) (k : A -> MJ B) j w :
  Runs false (quiet no_phase) m -> (forall a w1, wp (k a) (shapes existing cfg w1) j w1) ->
  wp (bind m k) (shapes existing cfg w) j w.
Proof.
  intros Hm Hk. apply wp_bind. eapply wp_conseq; [apply Hm|]. intros o j1 w1 [[Hj (pre & He & Hpre)] _]. cbn in Hj, He. subst j1.
  destruct o as [a|e|]; unfold then_; [|exists pre; split; [done|]; by apply shaped_none; [intros []|]..].
  eapply wp_conseq; [apply Hk|]. intros o j2 w2 (evs & He2 & Hs). exists (pre ++ evs).
  rewrite He2, He, (assoc_L (++)). split; [done|]. rewrite <- (app_nil_r evs). by eapply shaped_around.
Qed.
Lemma shapes_finally {A} existing cfg (m : MJ A) (f : MJ unit) j w :
  wp m (shapes existing cfg w) j w -> Runs false (emits no_phase) f -> wp (finally m f) (shapes existing cfg w) j w.
Proof.
  intros Hm Hf. apply wp_finally. eapply wp_conseq; [exact Hm|]. intros o j1 w1 (evs & He & Hs).
  assert (Hrest : wp f (fun _ _ w2 => forall o', (is_ret o' -> is_ret o) -> shapes existing cfg w (o' : outcome A) j w2) j1 w1).
  { eapply wp_conseq; [apply Hf|]. intros o1 j2 w2 [(post & He2 & Hpost) _] o' Hi. cbn in He2. exists (evs ++ post).
    rewrite He2, He, (assoc_L (++)). split; [done|]. by apply (shaped_around _ _ o o' [] evs post). }
  destruct o as [a|e|]; [| |by exists evs]; (eapply wp_conseq; [exact Hrest|]); intros [] ? ? H; apply H; cbn; tauto.
Qed.
Lemma validate_roles_hush roles last : Runs false (quiet no_phase) (validate_roles roles last : MJ unit).
Proof.
  revert last; induction roles as [|role roles IH]; intros last; cbn [validate_roles]; [hush|].
  destruct (split_role role) as [[role_cluster role_type] ?]. destruct (negb _); [apply IH|].
  destruct last as [cl|]; [destruct (_ && _); [hush|]|]; apply IH.
Qed.
#[local] Hint Resolve validate_roles_hush : runs.
Lemma nested_shape {A} (config : dict) (cl : string) (body : MJ A) (j : job) (w : world) :
  dict_lookup "cluster" config = Some (PStr cl) -> Runs false (emits no_phase) body ->
  wp (nested_ config cl body) (shapes (use_existing j) config w) j w.
Proof.
  intros Hcl Hb. unfold nested. apply shapes_bind.
  { intros j0 w0. eapply wp_conseq; [apply make_cluster_config_quiet|]. intros o j1 w1 [[Hj Hf] Hs]. split; [|done].
    split; [done|]. eapply emits_mono; [|exact Hf]. done. }
  intros cc w1. assert (Hd := daemons_order config cl body Hcl Hb). revert Hd.
  generalize (run_daemon get_valgrind_args config "mon"
      (run_daemon get_valgrind_args config "mgr"
        (crush_setup get_first_mon config
          (run_daemon get_valgrind_args config "osd"
            (zbkcfs_setup get_first_mon all_roles_of_type client_remote_of config
              (run_daemon get_valgrind_args config "mds"
                (with_manager get_first_mon cluster_roles_of_type all_roles_of_type client_remote_of localtime config cl body))))))).
  intros m Hm. destruct (use_existing j) eqn:Hx; unfold use_existing in Hx.
  - assert (Hx' : dict_get "use_existing_cluster" (PBool false) (j_config j) = PBool true) by by repeat case_match.
    unfold ZbkcCluster.cluster. apply wp_bind, wp_get. unfold then_ at 1. rewrite Hx'. apply wp_bind.
    eapply wp_conseq; [apply Hm|]. intros o j1 w2 (up & He & Hu & _).
    destruct o as [a|e|]; unfold then_;
      [|exists up; split; [done|]; split; [by intros []|]; exists up, []; rewrite app_nil_r; split; [done|]; split; [done|cbn; lia]..].
    apply wp_bind. eapply wp_conseq; [apply between_phase, setup_phase|]. intros o j2 w3 (late & He2 & Hl & _).
    assert (shapes true config w1 (Exc (RuntimeError "generator didn't stop") : outcome A) j2 w3) as Hs.
    { exists (up ++ late). rewrite He2, He, (assoc_L (++)). split; [done|]. split; [by intros []|]. by exists up, late. }
    destruct o; unfold then_; [exact Hs|..]; destruct Hs as (evs & ? & _ & ?); exists evs; split; [done|by split; [intros []|]|done|by split; [intros []|]].
  - unfold wp. rewrite cluster_new by (intros H; by rewrite H in Hx). apply (new_cluster_order _ cc) in Hm.
    eapply wp_conseq; [apply Hm|]. intros o j1 w2 (evs & He & Ho & Hr). exists evs. split; [done|]. split; [done|]. eauto.
Qed.
(** C7: the zbkc task takes a cluster up and down in order, however it ends, around a body that
    mounts no device and starts or stops no daemons.  On a new cluster it mounts the devices,
    starts monitors, managers, OSDs and metadata servers, stops them in the opposite order and
    only then unmounts; when it returns, the daemons of all four types were stopped.  With
    [use_existing_cluster] it starts and stops the daemons in that order too, but only then
    mounts devices, for a cluster nobody uses, and it never returns. *)
Theorem task_in_order {A} (config : dict) (body : MJ A) (j : job) (w : world) :
  Runs false (emits no_phase) body ->
  wp (task_ config body) (fun o _ w' => exists evs, w_trace w' = w_trace w ++ evs /\
    shaped (use_existing j) (task_config config j) o evs) j w.
Proof.
  intros Hb. unfold task. apply wp_bind, wp_get. unfold then_. set (j1 := set_daemons j).
  destruct (dict_get "overrides" (PDict []) (j_config j)) as [| | | | | |ov] eqn:Hov; try (by eapply shapes_exc).
  unfold as_dict. apply wp_bind, wp_ret. unfold then_. cbv zeta.
  set (merged := deep_merge config (dict_get "zbkc" (PDict []) ov)). apply wp_bind, wp_modify. unfold then_. fold j1.
  assert (Hcfg : task_config config j = if dict_has "cluster" merged then merged else dict_set "cluster" (PStr "zbkc") merged)
    by (unfold task_config; by rewrite Hov).
  rewrite <- Hcfg. change (use_existing j) with (use_existing j1). generalize (task_config config j) as cfg. clear Hcfg. intros cfg.
  apply shapes_bind; [by hush|]. intros _ w1. apply shapes_bind; [by hush|]. intros _ w2.
  destruct (dict_lookup "cluster" cfg) as [[| | | |cl| |]|] eqn:Hv;
    try (eapply shapes_exc; unfold bind at 1, cluster_name, subscript, bind; by rewrite Hv).
  rewrite (cluster_name_ret _ _ Hv), bind_ret_l.
  assert (Hn : forall w, wp (nested_ cfg cl body) (shapes (use_existing j1) cfg w) j1 w) by (intros; by apply nested_shape).
  destruct (negb (j_daemons j)); [|apply Hn].
  unfold zbkc_log. do 3 (apply shapes_bind; [hush|]; intros ? ?). apply wp_bind, wp_get. unfold then_. cbv zeta.
  apply shapes_bind; [by hush|]. intros ? ?. apply shapes_finally; [|by hush].
  apply shapes_finally; [apply Hn|by hush].
Qed.
End Nested.
