(* ===== verification/MountFacts.v ===== *)
(** * Client mounts: connections, unmounting, what stays mounted

    Theorems about [ClientMount], [FuseMount], [KernelMount] and [MountTasks]. *)
From Stdlib Require Import QArith Qround Lqa Permutation.
From S2P Require Import Prelude PyVal World TraceState ZbkcManager ZbkcCluster ClientMount FuseMount KernelMount MountTasks.

(** ** The FUSE client *)
Section FuseFacts.
Context {E : Env} {F : Fuel}.
Context (get_valgrind_args : string -> string -> list string -> pyval -> list string).

(** The number of a client's own connection is found exactly when one connection is new. *)
Lemma new_connection_spec (pre post : list Z) (c : Z) (f : fuse) (w : world) :
  new_connection pre post f w = (Ret c, f, w) <-> forall x, (x ∈ post /\ x ∉ pre) <-> x = c.
Proof.
  unfold new_connection. set (l := filter (fun c => c ∉ pre) (remove_dups post)).
  assert (Hl : forall x, x ∈ l <-> x ∈ post /\ x ∉ pre).
  { intros x. unfold l. rewrite list_elem_of_filter, elem_of_remove_dups. tauto. }
  assert (Hn : NoDup l) by (apply NoDup_filter, NoDup_remove_dups). setoid_rewrite <- Hl. clearbody l. clear Hl. split.
  - destruct l as [|a [|b l]]; [done| |done]. intros [= <-] x. set_solver.
  - intros H. assert (Hp : l ≡ₚ [c]).
    { apply NoDup_Permutation; [done|apply NoDup_singleton|]. intros x. rewrite H. set_solver. }
    apply Permutation_singleton_r in Hp. by rewrite Hp.
Qed.

Lemma list_connections_total : Runs true (on_self eq) list_connections.
Proof. runs_tac. Qed.
Lemma await_connection_total pre timeout post (f : fuse) w :
  (Z.to_nat (timeout + 1) < fuel)%nat ->
  wp (await_connection pre timeout post) (fun o f' _ => o <> Stuck /\ f' = f) f w.
Proof.
  intros Hf. unfold await_connection.
  apply wp_loop_total with (v := fun l _ _ => Z.to_nat (timeout + 1 - l.1)) (I := fun l f' _ => f' = f /\ 0 <= l.1);
    [|split; [done|cbn; lia]|cbn; lia].
  intros [waited post'] f1 w1 [-> H0]. cbn [fst] in *. destruct (Nat.leb _ _); [|by apply wp_ret].
  match goal with |- wp ?m _ _ _ => set (body := m) end.
  assert (Hb : Runs true (on_self eq) body) by (unfold body, the_daemon; runs_tac).
  enough (Hlt : wp body (fun o _ _ => forall l', o = Ret (inl l') -> l'.1 = waited + 1 /\ waited + 1 <= timeout) f w1).
  { eapply wp_conseq; [apply wp_and; [apply Hb|exact Hlt]|]. intros [[l'|r]|e|] f2 w2 [[Hs Ht] H]; unfold then_;
      unfold on_self in Hs; cbn in Hs; subst f2; [|by split..|by destruct (Ht eq_refl)]. destruct (H l' eq_refl) as [-> ?]. split; [split; [done|lia]|lia]. }
  unfold body. do 4 (apply wp_bind_any; [intros ???|done|done]). destruct (timeout <? waited + 1) eqn:Hw; [done|].
  apply wp_bind_any; [intros ???|done|done]. apply wp_ret. intros l' [= <-]. cbn. lia.
Qed.
(** [m] does not run out of fuel, and leaves the object as it is. *)
Lemma wp_same {A B} (m : M fuse A) (k : A -> M fuse B) Q f w :
  Runs true (on_self eq) m -> (forall a w', wp (k a) Q f w') -> (forall e w', Q (Exc e) f w') -> wp (bind m k) Q f w.
Proof.
  intros Hm Hk He. apply wp_bind. eapply wp_conseq; [apply Hm|]. intros o f' w' [Hs Ht]. unfold on_self in Hs; cbn in Hs; subst f'.
  destruct o; unfold then_; [apply Hk|apply He|by destruct (Ht eq_refl)].
Qed.
(** Mounting a FUSE client ends: it waits for at most [mount_timeout] seconds more than
    [mount_wait] for its connection to show, and when it returns it knows its process, which
    runs the command line for this client, and the number of its connection. *)
Theorem fuse_mount_ends (mount_path mount_fs_name : option string) (timeout : Z) (f : fuse) (w : world) :
  dict_get "mount_timeout" (PInt 30) (client_config f) = PInt timeout -> (Z.to_nat (timeout + 1) < fuel)%nat ->
  wp (fuse_mount get_valgrind_args mount_path mount_fs_name) (fun o f' _ => o <> Stuck /\ (is_ret o -> exists c p,
    _fuse_conn f' = Some c /\ fuse_daemon f' = Some p /\ f_base f' = f_base f /\
    p_remote p = client_remote (f_base f) /\ p_args p = fuse_cmd get_valgrind_args f mount_path mount_fs_name)) f w.
Proof.
  intros Ht Hf. unfold fuse_mount. do 3 (apply wp_same; [runs_tac|intros ? ?|done]). apply wp_bind, wp_get. unfold then_.
  apply wp_bind. eapply (wp_conseq _ (fun o f' _ => o <> Stuck /\ f' = f /\ forall p, o = Ret p ->
    p_remote p = client_remote (f_base f) /\ p_args p = fuse_cmd get_valgrind_args f mount_path mount_fs_name)).
  { unfold start. apply wp_bind, wp_emit. intros r c _. destruct (raised r); [done|]. unfold then_. apply wp_ret.
    split; [done|]. split; [done|]. by intros p [= <-]. }
  intros [p|e|] f1 w1 (Hs & -> & Hp); unfold then_; [|done..]. destruct (Hp p eq_refl) as [Hr Ha]. clear Hp.
  apply wp_bind, wp_modify. unfold then_. set (f1 := set_daemon p f).
  apply wp_same; [runs_tac|intros _ w2|done]. rewrite Ht. apply wp_bind, wp_ret. unfold then_.
  apply wp_same; [runs_tac|intros post w3|done]. apply wp_bind. eapply wp_conseq; [by apply await_connection_total|].
  intros [post'|e|] f2 w4 [Hs2 ->]; unfold then_; [|done..]. apply wp_same; [unfold new_connection; runs_tac|intros c w5|done].
  apply wp_modify. split; [done|]. intros _. by exists c, p.
Qed.

(** ** Unmounting *)
Lemma same_ret {A} (m : M fuse A) f w o f' w' : Runs true (on_self eq) m -> m f w = (o, f', w') -> f' = f.
Proof. intros Hm He. specialize (Hm f w). unfold wp in Hm. rewrite He in Hm. destruct Hm as [Hs _]. by unfold on_self in Hs. Qed.
Lemma is_mounted_same : Runs true (on_self eq) fuse_is_mounted.
Proof. unfold fuse_is_mounted, the_mountpoint. runs_tac. Qed.
(** The base of the object stays. *)
Definition base_kept (f f' : fuse) : Prop := f_base f' = f_base f.
#[local] Instance base_kept_pre : PreOrder base_kept.
Proof. split; [by intros f|intros f1 f2 f3; unfold base_kept; congruence]. Qed.
Lemma force_umount_base : Moves base_kept force_umount.
Proof. unfold force_umount. runs_tac. Qed.
#[local] Hint Resolve force_umount_base : runs.
Lemma moves_ret {A} (R : relation fuse) (m : M fuse A) f w o f' w' : Moves R m -> m f w = (o, f', w') -> R f f'.
Proof. intros Hm He. specialize (Hm f w). unfold wp in Hm. rewrite He in Hm. by destruct Hm as [Hs _]. Qed.
(** A [umount] that returns has just seen that nothing is mounted. *)
Lemma umount_checks (f : fuse) (w : world) (f' : fuse) (w' : world) :
  fuse_umount f w = (Ret tt, f', w') ->
  _fuse_conn f' = None /\ f_base f' = f_base f /\
  exists f1 w1, f_base f1 = f_base f /\ fuse_is_mounted f1 w1 = (Ret false, f1, w').
Proof.
  unfold fuse_umount. intros (mnt & f1 & w1 & [= <- <- <-] & H)%bind_ret_inv. apply bind_ret_inv in H as (u & f2 & w2 & H2 & H).
  apply bind_ret_inv in H as (b & f3 & w3 & H3 & H). apply bind_ret_inv in H as (u2 & f4 & w4 & H4 & [= <- <-]).
  assert (Hb : base_kept f f2) by (eapply moves_ret; [|exact H2]; runs_tac).
  assert (f3 = f2) as -> by (eapply same_ret; [apply is_mounted_same|exact H3]).
  destruct b; [done|]. injection H4 as <- <- <-. split; [done|]. split; [exact Hb|]. by exists f2, w2.
Qed.
(** [teardown] of a FUSE client that returns has got it gone: no background process and no
    connection is left, and the client was seen not to be mounted any more. *)
Theorem fuse_teardown_gone (f : fuse) (w : world) (f' : fuse) (w' : world) :
  fuse_teardown f w = (Ret tt, f', w') ->
  background_procs (f_base f') = [] /\ _fuse_conn f' = None /\
  exists f1 w1 w2, f_base f1 = f_base f' /\ fuse_is_mounted f1 w1 = (Ret false, f1, w2) /\ w_trace w2 `prefix_of` w_trace w'.
Proof.
  unfold fuse_teardown. intros (u & f1 & w1 & H1 & H)%bind_ret_inv. apply bind_ret_inv in H as ([] & f2 & w2 & H2 & H).
  apply umount_checks in H2 as (Hc & Hb & f3 & w3 & Hb3 & H3).
  match type of H with ?m f2 w2 = _ => assert (Hq : Runs true (quiet (fun _ => True)) m)
    by (unfold close_daemon, reap_daemon; repeat (runs_step || (by apply quiet_emit))) end.
  specialize (Hq f2 w2). unfold wp in Hq. rewrite H in Hq. destruct Hq as [[Hs (evs & He & _)] _]. cbn in Hs, He. subst f'.
  assert (Hp : background_procs (f_base f1) = []).
  { unfold base_teardown in H1. apply bind_ret_inv in H1 as (s & f4 & w4 & [= <- <- <-] & H1).
    by apply bind_ret_inv in H1 as (u1 & f5 & w5 & _ & [= <- <- <-]). }
  split; [by rewrite Hb|]. split; [done|]. exists f3, w3, w2. split; [congruence|]. split; [done|]. by exists evs.
Qed.
End FuseFacts.

(** ** The kernel client *)

(** The file systems the kernel has mounted, by machine and directory (a directory is mounted
    once: [mkdir] fails on one that is there); switching a machine off ends all of its mounts. *)
Definition kstep (D : gset (string * string)) (ev : event) : gset (string * string) :=
  match ev with
  | EvRun r ["sudo"; "adjust-ulimits"; "zbkc-coverage"; _; "/sbin/mount.zbkc"; _; mnt; "-v"; "-o"; _] => {[(r, mnt)]} ∪ D
  | EvRun r ["sudo"; "umount"; mnt] => D ∖ {[(r, mnt)]}
  | EvConsole PowerOff r => filter (fun rm => rm.1 <> r) D
  | _ => D
  end.
Definition kernel_mounts : list event -> gset (string * string) := after_events kstep ∅.
Definition key_of (k : kmount) : string * string := (client_remote (k_base k), mountpoint (k_base k)).
Ltac calm_tac := repeat (runs_step || (apply quiet_emit; by intros ?)).

Section KernelFacts.
Context {E : Env}.
Implicit Types D t : gset (string * string).
Abbreviation ktriple k0 D m Q := (triple kstep ∅ (fun k t => k = k0 /\ t = D) m Q).

Lemma on_kclient_step k0 D args :
  ktriple k0 D (on_kclient args) (fun _ k t => k = k0 /\ t = kstep D (EvRun (client_remote (k_base k0)) args)).
Proof.
  apply triple_get. intros k. eapply triple_bind.
  - apply (triple_run _ _ _ _ _ _ (fun _ k' t => k' = k0 /\ t = kstep D (EvRun (client_remote (k_base k0)) args))).
    by intros p s t (-> & -> & ->).
  - intros p. by apply triple_ret.
Qed.
Lemma kernel_mount_mounts k0 D path fs :
  ktriple k0 D (kernel_mount path fs) (fun _ k t => k = set_mounted true k0 /\ t = {[key_of k0]} ∪ D).
Proof.
  unfold kernel_mount. apply triple_get. intros k. apply triple_pure. intros ? ? (-> & Hk & ->). subst k. cbv zeta.
  apply triple_calm_bind; [calm_tac|intros _]. apply triple_calm_bind; [calm_tac|intros _].
  eapply triple_bind; [apply on_kclient_step|]. intros ?. apply triple_calm_bind; [calm_tac|intros _].
  apply triple_modify. by intros s t [-> ->].
Qed.
Lemma kernel_umount_unmounts k0 D :
  ktriple k0 D kernel_umount (fun _ k t => k = set_mounted false k0 /\ t = D ∖ {[key_of k0]}).
Proof.
  unfold kernel_umount. apply triple_get. intros k. apply triple_pure. intros ? ? (-> & Hk & ->). subst k.
  eapply triple_bind; [apply on_kclient_step|]. intros ?. apply triple_calm_bind; [calm_tac|intros _].
  apply triple_modify. by intros s t [-> ->].
Qed.
(** A forced [umount_wait] falls back to switching the machine off. *)
Lemma kernel_kill_kills :
  triple kstep ∅ (fun _ _ => True) kernel_kill (fun _ k t => k_mounted k = false /\ key_of k ∉ t).
Proof.
  unfold kernel_kill. apply triple_get. intros k. eapply triple_bind.
  - apply (triple_emit _ _ _ _ (fun _ k' t => k' = k /\ key_of k ∉ t)). intros r s t [-> _]. split; [done|].
    cbn [kstep]. rewrite elem_of_filter. by intros [? _].
  - intros ?. apply triple_modify. by intros s t [-> H].
Qed.
Lemma umount_or_kill k0 D (force : bool) :
  ktriple k0 D (catch kernel_umount
      (fun e => match e with
                | CommandFailedError _ => if force then kernel_kill ;; kernel_kill_cleanup else raise e
                | _ => raise e
                end) ;; modify (set_mounted false))
    (fun _ k t => k_mounted k = false /\ key_of k ∉ t).
Proof.
  eapply triple_bind; [apply (triple_catch _ _ _ _ _ (fun _ k t => key_of k ∉ t))|].
  - eapply triple_conseq; [apply (kernel_umount_unmounts k0 D)|done|]. intros _ k t [-> ->]. unfold key_of; cbn. set_solver.
  - intros e. destruct e; try apply triple_raise. destruct force; [|apply triple_raise].
    eapply triple_bind; [apply kernel_kill_kills|]. intros u.
    eapply triple_conseq; [apply (triple_calm _ _ (fun k t => key_of k ∉ t)); unfold kernel_kill_cleanup; calm_tac|by intros ?? []|done].
  - intros u. apply triple_modify. by intros k t H.
Qed.
(** After a [umount_wait] of a kernel client that returns, forced or not, the client counts
    as unmounted, and it is: when it was mounted, the kernel has no such mount any more. *)
Theorem kernel_umount_wait_unmounts (force require_clean : bool) (k : kmount) (w : world) :
  wp (kernel_umount_wait force require_clean) (fun o k' w' => is_ret o ->
    k_mounted k' = false /\ key_of k' = key_of k /\ (k_mounted k = true -> key_of k ∉ kernel_mounts (w_trace w'))) k w.
Proof.
  assert (Hp : PreOrder (fun k k' => key_of k' = key_of k)) by (split; [by intros ?|by intros ??? ->]).
  assert (Hb : Moves (fun k k' => key_of k' = key_of k) (kernel_umount_wait force require_clean)) by runs_tac.
  assert (Hw : wp (kernel_umount_wait force require_clean) (fun o k' w' => forall u, o = Ret u ->
    k_mounted k' = false /\ (k_mounted k = true -> key_of k' ∉ kernel_mounts (w_trace w'))) k w).
  { unfold kernel_umount_wait, kernel_is_mounted. apply wp_bind, wp_gets. unfold then_.
    destruct (k_mounted k) eqn:Hk; cbn [negb]; [|by apply wp_ret]. eapply wp_conseq; [by apply (umount_or_kill k (kernel_mounts (w_trace w)) force k w)|].
    intros o k' w' H u Hu. by destruct (H u Hu). }
  eapply wp_conseq; [apply wp_and; [apply (moves_self _ _ _ _ _ Hb)|exact Hw]|].
  intros [u|e|] k' w' [Hkey H] Hr; [|done..]. destruct (H u eq_refl) as [H1 H2]. rewrite Hkey in H2. done.
Qed.
End KernelFacts.

(** ** The kclient task *)
Section KclientFacts.
Context {E : Env} {F : Fuel}.
Context (get_valgrind_args : string -> string -> list string -> pyval -> list string)
        (get_clients : context -> list string -> list (string * remote))
        (all_roles_of_type : context -> string -> list string)
        (mon_addresses : context -> list string)
        (deep_merge : dict -> pyval -> dict).
Implicit Types D t : gset (string * string).
Abbreviation ctriple P m Q := (triple kstep ∅ P m Q).

(** A method of a kernel client in the store *)
Lemma on_obj_kernel {A} o (s0 : clients) k0 D (mf : M fuse A) (mk : M kmount A) Q :
  objs s0 !! o = Some (AKernel k0) ->
  triple kstep ∅ (fun k t => k = k0 /\ t = D) mk Q ->
  ctriple (fun s t => s = s0 /\ t = D) (on_obj o (virtual mf mk))
    (fun a s t => exists k, s = set_objs (<[o := AKernel k]> (objs s0)) s0 /\ Q a k t).
Proof.
  intros Ho Hm s w [-> HD]. specialize (Hm k0 w (conj eq_refl HD)). unfold wp, on_obj, virtual in *. rewrite Ho.
  destruct (mk k0 w) as [[oo k] w']. intros a Ha. exists k. split; [done|]. by apply Hm.
Qed.

Lemma new_obj_spec s D a :
  ctriple (fun s' t => s' = s /\ t = D) (new_obj a)
    (fun o s' t => o = length (objs s) /\ s' = set_objs (objs s ++ [a]) s /\ t = D).
Proof. by intros s' w [-> HD] o [= <-]. Qed.
Lemma dict_at_spec s D r d :
  dicts s !! r = Some d ->
  ctriple (fun s' t => s' = s /\ t = D) (dict_at r) (fun d' s' t => d' = d /\ s' = s /\ t = D).
Proof. intros Hd s' w [-> HD]. unfold dict_at. apply wp_bind, wp_get. unfold then_. rewrite Hd. by intros d' [= <-]. Qed.
Lemma dict_put_spec s D r d id o :
  dicts s !! r = Some d ->
  ctriple (fun s' t => s' = s /\ t = D) (dict_put r id o)
    (fun _ s' t => s' = set_dicts (<[r := <[id := o]> d]> (dicts s)) s /\ t = D).
Proof.
  intros Hd. unfold dict_put. eapply triple_bind; [by apply dict_at_spec|]. intros d'. apply triple_modify.
  by intros s' t (-> & -> & ->).
Qed.

(** The client under [id] in the dictionary *)
Definition client_at (s : clients) (d : gmap string nat) (id : string) (k : kmount) : Prop :=
  exists o, d !! id = Some o /\ objs s !! o = Some (AKernel k).
(** The task's dictionary [r] has kernel clients only, and whatever is mounted was mounted
    before ([D0]) or belongs to one of them that is marked as mounted. *)
Definition accounted (r : nat) D0 (d : gmap string nat) (s : clients) t : Prop :=
  dicts s !! r = Some d /\
  (forall id o, d !! id = Some o -> exists k, objs s !! o = Some (AKernel k)) /\
  (forall x, x ∈ t -> x ∈ D0 \/ exists id k, client_at s d id k /\ k_mounted k = true /\ key_of k = x).

Lemma accounted_update r D0 d s t o k k' :
  objs s !! o = Some (AKernel k) -> key_of k' = key_of k -> accounted r D0 d s t ->
  forall t', (forall x, x ∈ t' -> x ∈ t /\ (x = key_of k -> k_mounted k' = true)) ->
  accounted r D0 d (set_objs (<[o := AKernel k']> (objs s)) s) t'.
Proof.
  intros Ho Hk (Hd & Hobj & Ht) t' Hx. assert (Hlt : (o < length (objs s))%nat) by by eapply lookup_lt_Some.
  split; [done|]. split.
  - intros id o' Hid. destruct (Hobj id o' Hid) as [k1 H1]. cbn [objs set_objs].
    destruct (decide (o = o')) as [<-|Hne]; [exists k'; by rewrite list_lookup_insert_eq|].
    exists k1. by rewrite list_lookup_insert_ne.
  - intros x [Hin Hm]%Hx. destruct (Ht x Hin) as [?|(id & k1 & (o' & Hid & H1) & H2 & H3)]; [by left|right].
    destruct (decide (o = o')) as [<-|Hne].
    + rewrite Ho in H1. injection H1 as <-. exists id, k'. split; [|split; [by apply Hm|congruence]].
      exists o. cbn [objs set_objs]. by rewrite list_lookup_insert_eq.
    + exists id, k1. split; [|done]. exists o'. cbn [objs set_objs]. by rewrite list_lookup_insert_ne.
Qed.
(** The client at [o] is marked as not mounted. *)
Definition let_go (s : clients) (o : nat) : Prop := exists k, objs s !! o = Some (AKernel k) /\ k_mounted k = false.
Definition umounting r D0 (d : gmap string nat) (l : list nat) (s : clients) t : Prop :=
  accounted r D0 d s t /\ (forall o, o ∈ l -> o ∈ values d) /\ (forall o, o ∈ values d -> o ∈ l \/ let_go s o).
Lemma set_objs_id s o a : objs s !! o = Some a -> set_objs (<[o := a]> (objs s)) s = s.
Proof. intros Ho. unfold set_objs. rewrite list_insert_id by done. by destruct s. Qed.
Lemma values_elem (d : gmap string nat) o : o ∈ values d <-> exists id, d !! id = Some o.
Proof.
  unfold values. rewrite list_elem_of_fmap. split.
  - intros ([id o'] & -> & H%elem_of_map_to_list). by exists id.
  - intros [id H%elem_of_map_to_list]. by exists (id, o).
Qed.
Lemma let_go_insert s o o' k : (o < length (objs s))%nat -> k_mounted k = false -> let_go s o' \/ o' = o ->
  let_go (set_objs (<[o := AKernel k]> (objs s)) s) o'.
Proof.
  intros Hlt Hk H. unfold let_go. cbn [objs set_objs]. destruct (decide (o = o')) as [<-|Hne].
  - exists k. by rewrite list_lookup_insert_eq.
  - rewrite list_lookup_insert_ne by done. by destruct H as [? | ->].
Qed.
Lemma umount_client r D0 d o l :
  ctriple (umounting r D0 d (o :: l)) (umount_if_mounted get_valgrind_args o) (fun _ => umounting r D0 d l).
Proof.
  apply triple_pure. intros s t (Hacc & Hl & Hd).
  destruct (proj1 (values_elem d o) (Hl o ltac:(set_solver))) as [id Hid].
  destruct Hacc as (Hr & Hobj & Ht). destruct (Hobj id o Hid) as [k0 Hk0]. unfold umount_if_mounted.
  eapply triple_bind.
  { apply (on_obj_kernel o s k0 t fuse_is_mounted kernel_is_mounted (fun b k t' => b = k_mounted k0 /\ k = k0 /\ t' = t) Hk0).
    by intros k w [-> HD] a [= <-]. }
  intros b. apply triple_pure. intros s1 t1 (k & -> & -> & -> & ->). rewrite set_objs_id by done.
  assert (Hlt : (o < length (objs s))%nat) by by eapply lookup_lt_Some.
  destruct (k_mounted k0) eqn:Hm; cbn [when].
  - eapply triple_conseq; [exact (on_obj_kernel o s k0 t fuse_umount kernel_umount _ Hk0 (kernel_umount_unmounts k0 t))|done|].
    intros _ s2 t2 (k & -> & -> & ->). split; [|split].
    + eapply accounted_update; [exact Hk0|done|by split_ands|]. intros x Hx. set_solver.
    + intros o' Ho'. apply Hl. set_solver.
    + intros o' Ho'. destruct (Hd o' Ho') as [[->|?]%elem_of_cons|Hg]; [right|by left|right]; apply let_go_insert; auto.
  - apply triple_ret. intros s2 t2 [-> ->]. split; [by split_ands|]. split; [intros o' Ho'; apply Hl; set_solver|].
    intros o' Ho'. destruct (Hd o' Ho') as [[->|?]%elem_of_cons|Hg]; [right; by exists k0|by left|by right].
Qed.
(** Once all clients are let go, only what was mounted before still is. *)
Lemma umount_clients r D0 :
  ctriple (fun s t => exists d, accounted r D0 d s t)
    (d <- dict_at r ;; for_ (values d) (umount_if_mounted get_valgrind_args)) (fun _ _ t => t ⊆ D0).
Proof.
  apply triple_pure. intros s t [d Hacc]. eapply triple_bind; [apply dict_at_spec, Hacc|]. intros d'. apply triple_pure. intros s1 t1 (-> & -> & ->).
  eapply triple_conseq; [apply (triple_for _ _ (umounting r D0 d)); intros; apply umount_client| |].
  - intros s2 t2 [-> ->]. split; [done|]. split; [done|by left].
  - intros _ s2 t2 ((_ & Hobj & Ht) & _ & Hg) x Hx.
    destruct (Ht x Hx) as [?|(id & k & (o & Hid & Hk) & Hm & _)]; [done|].
    destruct (Hg o) as [?|(k' & Hk' & Hf)]; [apply values_elem; by exists id|set_solver|]. congruence.
Qed.
(** A new client, not mounted yet; under an id that is taken, the dictionary forgets the old one. *)
Definition with_client (s : clients) (r : nat) (d : gmap string nat) (id : string) (k : kmount) : clients :=
  set_dicts (<[r := <[id := length (objs s)]> d]> (dicts s)) (set_objs (objs s ++ [AKernel k]) s).
Lemma accounted_new r D0 d s t id k :
  accounted r D0 d s t -> (forall k', client_at s d id k' -> key_of k' ∈ D0) ->
  accounted r D0 (<[id := length (objs s)]> d) (with_client s r d id k) t.
Proof.
  intros (Hd & Hobj & Ht) Hf. assert (Hlt : (r < length (dicts s))%nat) by by eapply lookup_lt_Some. split; [|split].
  - cbn. by rewrite list_lookup_insert_eq.
  - intros id' o [[<- <-]|[Hne Ho]]%lookup_insert_Some; cbn; [exists k; by rewrite list_lookup_middle|].
    destruct (Hobj id' o Ho) as [k1 H1]. exists k1. by apply lookup_app_l_Some.
  - intros x Hx. destruct (Ht x Hx) as [?|(id' & k1 & (o & Ho & H1) & H2 & H3)]; [by left|].
    destruct (decide (id' = id)) as [->|Hne]; [left; subst x; apply Hf; by exists o|right]. exists id', k1. split; [|done].
    exists o. cbn. split; [by rewrite lookup_insert_ne|by apply lookup_app_l_Some].
Qed.
Lemma accounted_mount r D0 d s t id o k :
  d !! id = Some o -> objs s !! o = Some (AKernel k) -> accounted r D0 d s t ->
  accounted r D0 d (set_objs (<[o := AKernel (set_mounted true k)]> (objs s)) s) ({[key_of k]} ∪ t).
Proof.
  intros Hid Ho Hacc. assert (Hlt : (o < length (objs s))%nat) by by eapply lookup_lt_Some.
  destruct (accounted_update r D0 d s t o k (set_mounted true k) Ho eq_refl Hacc t) as (H1 & H2 & H3); [done|].
  split; [done|]. split; [done|]. intros x [->%elem_of_singleton|Hx]%elem_of_union; [right|by apply H3].
  exists id, (set_mounted true k). split; [|done]. exists o. cbn. by rewrite list_lookup_insert_eq.
Qed.

(** Where the client of an id is mounted *)
Definition client_key (dir : string) (c : string * remote) : string * string := (c.2, mountpoint (init_base dir c.1 c.2)).
(** The clients whose id is listed again later *)
Fixpoint overwritten (dir : string) (l : list (string * remote)) : gset (string * string) :=
  match l with
  | [] => ∅
  | c :: l' => (if decide (c.1 ∈ map fst l') then {[client_key dir c]} else ∅) ∪ overwritten dir l'
  end.
Lemma overwritten_nodup dir l : NoDup (map fst l) -> overwritten dir l = ∅.
Proof.
  induction l as [|c l IH]; [done|]. cbn [map overwritten]. intros [Hc Hn]%NoDup_cons.
  rewrite decide_False by done. rewrite IH by done. set_solver.
Qed.
Lemma overwritten_elem dir l1 l2 c c' : c ∈ l1 -> c'.1 = c.1 -> client_key dir c ∈ overwritten dir (l1 ++ c' :: l2).
Proof.
  intros Hc Hid. induction l1 as [|x l1 IH]; [by apply not_elem_of_nil in Hc|]. cbn [app overwritten].
  apply elem_of_cons in Hc as [<-|Hc]; [|set_solver]. rewrite decide_True; [set_solver|].
  rewrite map_app, elem_of_app. right. cbn [map]. rewrite Hid. set_solver.
Qed.
(** The clients [before] were dealt with, those of [l] are to come. *)
Definition mounting r D0 dir (full l : list (string * remote)) (s : clients) t : Prop :=
  exists d before, full = before ++ l /\ testdir (cl_ctx s) = dir /\ accounted r (D0 ∪ overwritten dir full) d s t /\
    forall id k, client_at s d id k -> exists c, c ∈ before /\ c.1 = id /\ key_of k = client_key dir c.
Lemma mount_client r D0 dir full config c l :
  ctriple (mounting r D0 dir full (c :: l)) (mount_kclient get_valgrind_args mon_addresses config r c.1 c.2)
    (fun _ => mounting r D0 dir full l).
Proof.
  apply triple_pure. intros s t (d & before & -> & <- & Hacc & Hkeys). unfold mount_kclient.
  assert (Hsplit : before ++ c :: l = (before ++ [c]) ++ l) by by rewrite <- (assoc_L (++)).
  apply triple_get. intros s1. apply triple_pure. intros s2 t2 (-> & -> & ->).
  apply triple_calm_bind; [unfold client_config_of; calm_tac|intros cfg]. case_match.
  { apply triple_ret. intros s2 t2 [-> ->]. exists d, (before ++ [c]). split_and!; [done..|].
    intros id k Hk. destruct (Hkeys id k Hk) as (c' & ? & ?). exists c'. set_solver. }
  set (k := init_kernel _ _ _ _). eapply triple_bind; [apply new_obj_spec|].
  intros o. apply triple_pure. intros s1 t1 (-> & -> & ->). eapply triple_bind; [apply (dict_put_spec _ _ _ d), (proj1 Hacc)|].
  intros u. apply triple_calm_bind; [calm_tac|intros u']. cbn beta.
  assert (Ho : objs (with_client s r d c.1 k) !! length (objs s) = Some (AKernel k)) by (cbn; by rewrite list_lookup_middle).
  eapply triple_conseq; [exact (on_obj_kernel _ _ k t (fuse_mount get_valgrind_args None None) (kernel_mount None None) _ Ho
                                  (kernel_mount_mounts k t None None))|done|].
  intros _ s2 t2 (k' & -> & -> & ->). exists (<[c.1 := length (objs s)]> d), (before ++ [c]). split_and!; [done|done| |].
  - apply (accounted_mount _ _ _ _ _ c.1); [by rewrite lookup_insert_eq|done|]. apply accounted_new; [done|].
    intros k' Hk'. destruct (Hkeys _ _ Hk') as (c' & Hc' & Hid & ->). apply elem_of_union_r. by apply overwritten_elem.
  - intros id k' (o & [[<- <-]|[Hne Hid]]%lookup_insert_Some & Hob); cbn in Hob.
    + exists c. split; [set_solver|]. split; [done|]. rewrite list_lookup_insert_eq in Hob; [by injection Hob as <-|].
      rewrite length_app. cbn. lia.
    + assert (o < length (objs s))%nat as Hlt.
      { destruct Hacc as (_ & Hobj & _). destruct (Hobj id o Hid) as [k1 H1]. by eapply lookup_lt_Some. }
      rewrite list_lookup_insert_ne in Hob by lia. rewrite lookup_app_l in Hob by done.
      destruct (Hkeys id k') as (c' & ? & ?); [by exists o|]. exists c'. set_solver.
Qed.
(** The clients a configuration lists *)
Definition listed (config : pyval) (s : clients) (w : world) : list (string * remote) :=
  match kclient_config all_roles_of_type deep_merge config s w with
  | (Ret rc, _, _) => get_clients (cl_ctx s) rc.1
  | _ => []
  end.
(** C9: when the kclient task returns, around a body that leaves the clients alone, the kernels
    have mounted only what they had before and, where an id is listed again for another
    machine, the mount of the first, which the dictionary has forgotten; if no id is listed
    twice, nothing of the task's own. *)
Theorem kclient_unmounts {A} (config : pyval) (body : M clients A) (s : clients) (w : world) :
  Runs false (quiet (idle kstep)) body ->
  wp (kclient_task get_valgrind_args get_clients all_roles_of_type mon_addresses deep_merge config body)
    (fun o _ w' => is_ret o ->
       kernel_mounts (w_trace w') ⊆ kernel_mounts (w_trace w) ∪ overwritten (testdir (cl_ctx s)) (listed config s w) /\
       (NoDup (map fst (listed config s w)) -> kernel_mounts (w_trace w') ⊆ kernel_mounts (w_trace w))) s w.
Proof.
  intros Hb. set (D0 := kernel_mounts (w_trace w)).
  eapply (wp_conseq _ (fun o _ w' => is_ret o ->
    kernel_mounts (w_trace w') ⊆ D0 ∪ overwritten (testdir (cl_ctx s)) (listed config s w))).
  2: { intros o s' w' H Hr. split; [by apply H|]. intros Hn. specialize (H Hr). rewrite (overwritten_nodup _ _ Hn) in H. set_solver. }
  unfold kclient_task. apply wp_bind.
  assert (Hcfg : Runs false (quiet (idle kstep)) (kclient_config all_roles_of_type deep_merge config))
    by (unfold kclient_config, overrides_for, client_names; calm_tac).
  pose proof (triple_calm kstep ∅ (fun s' t => s' = s /\ t = D0) _ Hcfg s w (conj eq_refl eq_refl)) as H.
  unfold wp at 1. unfold wp in H. unfold listed. destruct (kclient_config _ _ _ _ _) as [[[rc|e|] s1] w1]; unfold then_; [|by intros []..].
  destruct (H rc eq_refl) as [-> HD]. clear H. set (full := get_clients _ _).
  match goal with |- wp ?m _ _ _ => enough (H : ctriple (fun s' t => s' = s /\ t = D0) m
    (fun _ _ t => t ⊆ D0 ∪ overwritten (testdir (cl_ctx s)) full)) end.
  { eapply wp_conseq; [by apply H|]. intros [a|e|] s' w' H1 Hr; [by apply (H1 a)|done..]. }
  apply triple_get. intros s1. cbv zeta. apply triple_pure. intros s2 t2 (-> & -> & ->). eapply triple_bind.
  { instantiate (1 := fun r s' t => r = length (dicts s) /\ s' = set_dicts (dicts s ++ [∅]) s /\ t = D0).
    by intros s' w' [-> HD'] r [= <-]. }
  intros r. apply triple_pure. intros s3 t3 (-> & -> & ->). fold full. eapply triple_bind.
  { eapply triple_conseq; [apply (triple_for _ _ (mounting (length (dicts s)) D0 (testdir (cl_ctx s)) full)); intros c l; apply mount_client
      | |intros ??? Q; exact Q].
    intros s4 t4 [-> ->]. exists ∅, []. split_and!; [done..| |].
    - split; [cbn; by rewrite list_lookup_middle|]. split; [done|]. intros x Hx. left. set_solver.
    - by intros id k (o & ? & _). }
  intros u. eapply triple_bind; [apply (triple_modify _ _ _ _ (fun _ s' t => exists d, accounted (length (dicts s))
    (D0 ∪ overwritten (testdir (cl_ctx s)) full) d s' t))|].
  { intros s4 t4 (d & before & _ & _ & Hacc & _). by exists d. }
  intros u'. eapply triple_finally; [by apply triple_calm|]. intros a. apply umount_clients.
Qed.
End KclientFacts.
