(* ===== verification/TestFacts.v ===== *)
(** * Facts about test cases and their runner

    A wait of a test is a fixed number of looks; the log stream loses nothing; leaving a test
    gives the clients their ids back and clears the settings the test made; what the verdict of
    a run says about the tests. *)
From Stdlib Require Import Ascii QArith Qround Lqa.
From S2P Require Import Prelude PyVal World ZbkcManager Conf FSStatus Filesystem FsSetup ClientMount FuseMount KernelMount MountTasks TestCase TestRunner.

(** ** Waiting *)
Section WaitFacts.
Context {E : Env} {F : Fuel} {S : Type}.

(** [n] more looks after this one, five seconds apart *)
Fixpoint poll (n : nat) (elapsed : Z) (condition : M S bool) : M S unit :=
  b <- condition ;;
  if b : bool then ret tt
  else match n with
       | O => raise (RuntimeError ("Timed out after " +:+ zs elapsed +:+ "s"))
       | Datatypes.S k => sleep 5 ;; poll k (elapsed + 5) condition
       end.
Definition sleeps_within (timeout : Q) : nat := Z.to_nat (Qceiling (timeout / 5)).

Lemma sleeps_enough timeout : (timeout <= inject_Z (5 * Z.of_nat (sleeps_within timeout)))%Q.
Proof.
  unfold sleeps_within. pose proof (Qle_ceiling (timeout / 5)) as H.
  assert (inject_Z (Qceiling (timeout / 5)) <= inject_Z (Z.of_nat (Z.to_nat (Qceiling (timeout / 5)))))%Q as H1 by (rewrite <- Zle_Qle; lia).
  rewrite inject_Z_mult. assert (timeout == 5 * (timeout / 5))%Q as H2 by field. change (inject_Z 5) with 5%Q. lra.
Qed.
Lemma sleeps_needed timeout n : (n < sleeps_within timeout)%nat -> (inject_Z (5 * Z.of_nat n) < timeout)%Q.
Proof.
  unfold sleeps_within. intros Hn. pose proof (Qceiling_lt (timeout / 5)) as H.
  assert (inject_Z (Z.of_nat n) <= inject_Z (Qceiling (timeout / 5) - 1))%Q as H1 by (rewrite <- Zle_Qle; lia).
  rewrite inject_Z_mult. assert (timeout == 5 * (timeout / 5))%Q as H2 by field. change (inject_Z 5) with 5%Q. lra.
Qed.
(** C34: [wait_until_true] looks at its condition once, and then once after each of at most [ceil(timeout/5)] pauses of
    five seconds; it returns at the first look that succeeds and raises after the last one that does not, whatever the
    condition does.  So it ends, however long each look takes. *)
Theorem wait_until_true_polls (condition : M S bool) (timeout : Q) (s : S) (w : world) :
  (sleeps_within timeout < fuel)%nat ->
  wait_until_true condition timeout s w = poll (sleeps_within timeout) 0 condition s w.
Proof.
  unfold wait_until_true. generalize (fuel : nat). intros n Hn.
  assert (forall k i n s w, (i + k = sleeps_within timeout)%nat -> (k < n)%nat ->
    loop n (fun elapsed : Z => b <- condition ;;
      if b : bool then ret (inr tt)
      else if Qle_bool timeout (inject_Z elapsed) then raise (RuntimeError ("Timed out after " +:+ zs elapsed +:+ "s"))
      else sleep (inject_Z period) ;; ret (inl (elapsed + period))) (5 * Z.of_nat i) s w
    = poll k (5 * Z.of_nat i) condition s w) as H; [|exact (H _ 0%nat n s w eq_refl Hn)].
  clear. induction k as [|k IH]; intros i n s w Hik Hn; destruct n as [|n]; try lia; cbn [loop poll]; unfold bind;
    destruct (condition s w) as [[[[]|e|] s1] w1]; try done.
  - assert (Qle_bool timeout (inject_Z (5 * Z.of_nat i)) = true) as ->; [|done].
    apply Qle_bool_iff. pose proof (sleeps_enough timeout). by replace i with (sleeps_within timeout) by lia.
  - assert (Qle_bool timeout (inject_Z (5 * Z.of_nat i)) = false) as ->.
    { apply not_true_iff_false. rewrite Qle_bool_iff. apply Qlt_not_le, sleeps_needed. lia. }
    change (inject_Z period) with 5%Q. destruct (sleep 5 s1 w1) as [[[[]|e|] s2] w2]; [|done..].
    cbn [ret]. replace (5 * Z.of_nat i + period) with (5 * Z.of_nat (Datatypes.S i)) by (unfold period; lia).
    replace (5 * Z.of_nat i + 5) with (5 * Z.of_nat (Datatypes.S i)) by lia. apply IH; lia.
Qed.
End WaitFacts.

(** ** The log stream *)
Section LogFacts.
Import LogStream.

Lemma split_on_cons c s : exists l ls, split_on c s = l :: ls.
Proof. induction s as [|a s (l & ls & IH)]; simpl; [eauto|]. rewrite IH. case_match; eauto. Qed.
(** The text whose lines, each ended, are [ls] and whose rest is [r] *)
Definition text_of (ls : list string) (r : string) : string := foldr (fun l t => l +:+ nls +:+ t) r ls.
Lemma split_text s : text_of (removelast (split_on nl s)) (default EmptyString (last (split_on nl s))) = s.
Proof.
  induction s as [|a s IH]; [done|]. cbn [split_on]. destruct (split_on_cons nl s) as (l & ls & Hs). rewrite Hs in *.
  destruct (Ascii.eqb_spec a nl) as [->|Ha].
  - change (String nl (text_of (removelast (l :: ls)) (default EmptyString (last (l :: ls)))) = String nl s). by rewrite IH.
  - destruct ls as [|l' ls]; [exact (f_equal (String a) IH)|].
    change (String a (text_of (removelast (l :: l' :: ls)) (default EmptyString (last (l :: l' :: ls)))) = String a s). by rewrite IH.
Qed.
Definition no_newline (s : string) : Prop := str_in nls s = false.
Lemma no_newline_cons a s : no_newline (String a s) <-> a <> nl /\ no_newline s.
Proof.
  unfold no_newline, nls. cbn [str_in String.prefix]. destruct (ascii_dec nl a) as [<-|Ha].
  - destruct s; cbn [String.prefix]; naive_solver.
  - naive_solver.
Qed.
Lemma split_lines s : Forall no_newline (split_on nl s).
Proof.
  induction s as [|a s IH]; [by repeat constructor|]. cbn. destruct (split_on_cons nl s) as (l & ls & Hs). rewrite Hs in *.
  destruct (Ascii.eqb_spec a nl); [by constructor|]. inversion IH; subst. constructor; [|done]. by apply no_newline_cons.
Qed.
Lemma text_of_app ls ls' r : text_of (ls ++ ls') r = text_of ls (text_of ls' r).
Proof. apply foldr_app. Qed.
Lemma text_of_tail ls r data : text_of ls r +:+ data = text_of ls (r +:+ data).
Proof.
  induction ls as [|l ls IH]; [done|].
  change ((l +:+ nls +:+ text_of ls r) +:+ data = l +:+ nls +:+ text_of ls (r +:+ data)). by rewrite !append_assoc, IH.
Qed.

Lemma Forall_removelast {A : Type} (P : A -> Prop) (l : list A) : Forall P l -> Forall P (removelast l).
Proof. induction 1 as [|x [|y l] Hx Hl IH]; cbn; [constructor|constructor|]. by constructor. Qed.

Definition written (pieces : list string) : stream := fold_left (fun st d => write d st) pieces init.
(** The log stream cuts its input into lines and loses nothing: whatever the pieces, the lines it logged, each
    ended by a newline, and the rest it holds back are together the text that was written, and neither a logged line nor
    the rest contains a newline. *)
Theorem log_stream_lines (pieces : list string) :
  let st := written pieces in
  text_of (logged st) (buffer st) = str_join EmptyString pieces /\ Forall no_newline (buffer st :: logged st).
Proof.
  cbn zeta. unfold written. induction pieces as [|d pieces IH] using rev_ind; [by repeat constructor|].
  rewrite fold_left_app. cbn [fold_left]. destruct IH as [IH1 IH2].
  assert (str_join EmptyString (pieces ++ [d]) = str_join EmptyString pieces +:+ d) as ->.
  { clear. induction pieces as [|p [|q ps] IH]; [done..|]. cbn [app str_join] in *. by rewrite IH, !append_assoc. }
  rewrite <- IH1, text_of_tail. inversion IH2 as [|? ? Hb Hl]; subst. unfold write. case_match eqn:Hin; cbn [logged buffer].
  - rewrite text_of_app. rewrite split_text. split; [done|].
    pose proof (split_lines (buffer (fold_left (fun st d => write d st) pieces init) +:+ d)) as Hs. rewrite Forall_cons, Forall_app.
    split_and!; [|done|].
    + destruct (last _) eqn:El; [|reflexivity]. eapply Forall_lookup_1; [exact Hs|]. rewrite <- last_lookup. exact El.
    + by apply Forall_removelast.
  - split; [done|]. by constructor.
Qed.
End LogFacts.

(** ** Leaving a test *)
Section TearDown.
Context {E : Env} {F : Fuel}.
Context (get_valgrind_args : string -> string -> list string -> pyval -> list string)
        (render_conf : gmap string dict -> string).

(** A setting of the configuration file *)
Definition setting (f : fsys) (subsys key : string) : option pyval :=
  conf (ctx (mon_manager f)) !! "zbkc" ≫= fun c => c !! subsys ≫= dict_lookup key.
(** The sections are dictionaries: a key occurs once. *)
Definition conf_ok (f : fsys) : Prop :=
  forall c subsys d, conf (ctx (mon_manager f)) !! "zbkc" = Some c -> c !! subsys = Some d -> NoDup d.*1.
Lemma dict_del_in x k (d : dict) : x ∈ (dict_del k d).*1 -> x ∈ d.*1.
Proof.
  induction d as [|[k' v] d IH]; [done|]. cbn [dict_del]. destruct (String.eqb k k'); cbn; rewrite !elem_of_cons; [by right|].
  intros [->|H]; [by left|right; by apply IH].
Qed.
Lemma dict_del_keys k (d : dict) : NoDup d.*1 -> NoDup (dict_del k d).*1 /\ k ∉ (dict_del k d).*1.
Proof.
  induction d as [|[k' v] d IH]; [split; [constructor|apply not_elem_of_nil]|]. cbn [dict_del fmap list_fmap]. cbn.
  intros [Hk Hd]%NoDup_cons. destruct (IH Hd) as (H1 & H2). destruct (String.eqb_spec k k') as [->|Hne]; [done|].
  cbn. rewrite NoDup_cons, not_elem_of_cons. split_and!; [|done..]. by intros ?%dict_del_in.
Qed.
Lemma dict_set_in x k v (d : dict) : x ∈ (dict_set k v d).*1 -> x = k \/ x ∈ d.*1.
Proof.
  induction d as [|[k' v'] d IH]; cbn; [rewrite list_elem_of_singleton; by left|].
  destruct (String.eqb k k'); cbn; rewrite !elem_of_cons; naive_solver.
Qed.
Lemma dict_set_keys k v (d : dict) : NoDup d.*1 -> NoDup (dict_set k v d).*1.
Proof.
  induction d as [|[k' v'] d IH]; cbn; [intros _; apply NoDup_singleton|]. intros [Hk Hd]%NoDup_cons.
  destruct (String.eqb_spec k k') as [->|Hne]; cbn; [by apply NoDup_cons|]. apply NoDup_cons. split; [|by apply IH].
  intros [->|?]%dict_set_in; done.
Qed.

Definition conf_is (g : string -> string -> option pyval) (f : fsys) : Prop := conf_ok f /\ forall subsys key, setting f subsys key = g subsys key.
(** [g] with the setting [sk] changed to [v] *)
Definition upd (g : string -> string -> option pyval) (sk : string * string) (v : option pyval) : string -> string -> option pyval :=
  fun s k => if decide ((s, k) = sk) then v else g s k.
Lemma conf_is_section g f c sk (d : dict) v : conf_is g f -> conf (ctx (mon_manager f)) !! "zbkc" = Some c ->
  NoDup d.*1 -> dict_lookup sk.2 d = v ->
  (forall k, k <> sk.2 -> dict_lookup k d = c !! sk.1 ≫= dict_lookup k) ->
  conf_is (upd g sk v) (set_mon_manager (Conf.set_conf <["zbkc" := <[sk.1 := d]> c]> (mon_manager f)) f).
Proof.
  intros [Hok Hg] Hc Hd Hv Hk. split.
  - intros c' s d'. cbn. rewrite lookup_insert_eq. intros [= <-]. rewrite lookup_insert. case_decide; [by intros [= <-]|by apply Hok].
  - intros s k. unfold setting, upd. cbn. rewrite lookup_insert_eq. cbn. rewrite lookup_insert. destruct sk as [s0 k0]. cbn in *.
    case_decide as Hs; cbn; [subst s0|].
    + case_decide as Hk0; [by simplify_eq|]. rewrite Hk by congruence. rewrite <- Hg. unfold setting. by rewrite Hc.
    + case_decide; [congruence|]. rewrite <- Hg. unfold setting. by rewrite Hc.
Qed.
Lemma write_conf_same path cl : Runs false (on_self eq) (write_conf render_conf path cl : M mgr unit).
Proof. runs_tac. Qed.

(** A method that leaves the configuration as it is, around which nothing else happens *)
Lemma zoom_conf {S T A} (view : S -> T) put (m : M T A) (P : S -> Prop) Q :
  (forall s w, P s -> wp m (fun o t _ => forall a, o = Ret a -> Q a (put t s)) (view s) w) -> hoare P (zoom view put m) Q.
Proof. intros H s w HP. specialize (H s w HP). unfold wp, zoom in *. by destruct (m (view s) w) as [[o t] w']. Qed.
Lemma write_after (Q : mgr -> Prop) m w :
  Q m -> wp (write_conf render_conf DEFAULT_CONF_PATH "zbkc" : M mgr unit) (fun o m' _ => forall a, o = Ret a -> Q m') m w.
Proof. intros H. eapply wp_conseq; [apply write_conf_same|]. intros o m' w' [Hm _] a _. unfold on_self in Hm. cbn in Hm. by subst. Qed.
Lemma clear_conf_spec g sk : hoare (conf_is g) (clear_zbkc_conf render_conf sk.1 sk.2) (fun _ => conf_is (upd g sk None)).
Proof.
  apply zoom_conf. intros f w Hf. unfold cluster_conf. apply wp_bind, wp_bind, wp_get. cbv beta. unfold then_ at 1.
  apply wp_of_option; [|done]. intros c0 Hc. unfold then_.
  apply wp_bind, wp_of_option; [|done]. intros d Hd. unfold then_. destruct Hf as [Hok Hg].
  pose proof (dict_del_keys sk.2 d (Hok _ _ _ Hc Hd)) as [Hn Hk].
  apply wp_bind. unfold when. case_match; [done|]. apply wp_ret. unfold then_. apply wp_bind, wp_modify. unfold then_. apply (write_after (fun m => conf_is (upd g sk None) (set_mon_manager m f))).
  apply conf_is_section with (c := c0); [done|done|done|by apply dict_lookup_notin|]. intros k Hne. rewrite Hd. cbn. by apply dict_lookup_del.
Qed.
(** A test that has [ms] for its clients, started with the ids [ids] and the settings [g], and has recorded in [cs] whatever it set *)
Definition in_test (g : string -> string -> option pyval) (ms : list nat) (ids : list string) (cs : gset (string * string)) (t : tcase) : Prop :=
  mounts t = ms /\ _original_client_ids t = Some ids /\ configs_set t = Some cs /\
  exists f h, mds_cluster t = Some f /\ conf_is h f /\ forall s k, (s, k) ∉ cs -> h s k = g s k.
Lemma on_mds_hoare {A} (m : M fsys A) (P : tcase -> Prop) Q :
  (forall t f w, P t -> mds_cluster t = Some f -> wp m (fun o f' _ => forall a, o = Ret a -> Q a (set_mds_cluster f' t)) f w) ->
  hoare P (on_mds m) Q.
Proof.
  intros H t w HP. unfold wp, on_mds. destruct (mds_cluster t) as [f|] eqn:Hf; [|done].
  specialize (H t f w HP Hf). unfold wp in H. by destruct (m f w) as [[o f'] w'].
Qed.
(** However a call of [set_conf] ends, what it set, if it did, is recorded. *)
Lemma set_zbkc_any h sk v (f : fsys) w : conf_is h f ->
  wp (set_zbkc_conf render_conf sk.1 sk.2 v)
    (fun _ f' _ => exists h', conf_is h' f' /\ forall s k, (s, k) <> sk -> h' s k = h s k) f w.
Proof.
  intros Hf. unfold set_zbkc_conf, fman, wp, zoom.
  match goal with |- context [?m (mon_manager f) w] =>
    enough (H : wp m (fun _ m' _ => exists h', conf_is h' (set_mon_manager m' f) /\ forall s k, (s, k) <> sk -> h' s k = h s k) (mon_manager f) w)
      by (unfold wp in H; by destruct (m (mon_manager f) w) as [[??]?]) end.
  assert (Hsame : exists h', conf_is h' (set_mon_manager (mon_manager f) f) /\ forall s k, (s, k) <> sk -> h' s k = h s k)
    by (exists h; split; [by destruct f|done]).
  unfold cluster_conf. apply wp_bind, wp_bind, wp_get. cbv beta. unfold then_ at 1. apply wp_of_option; [|done]. intros c0 Hc. unfold then_.
  apply wp_bind, wp_modify. unfold then_. eapply wp_conseq; [apply write_conf_same|]. intros o m' w' [Hm _]. unfold on_self in Hm. cbn in Hm. subst m'.
  exists (upd h sk (Some v)). split; [|intros s k Hsk; unfold upd; by rewrite decide_False].
  apply conf_is_section with (c := c0); [done|done| |by rewrite dict_lookup_set, String.eqb_refl|].
  - apply dict_set_keys. destruct (c0 !! sk.1) as [d|] eqn:Hd; cbn; [|constructor]. destruct Hf as [Hok _]. by eapply Hok.
  - intros k Hne. rewrite dict_lookup_set. destruct (String.eqb_spec k sk.2); [done|]. by destruct (c0 !! sk.1).
Qed.
Lemma set_conf_tracked g ms ids cs subsys key v t w : in_test g ms ids cs t ->
  wp (TestCase.set_conf render_conf subsys key v) (fun _ t' _ => in_test g ms ids ({[(subsys, key)]} ∪ cs) t') t w.
Proof.
  intros (Hm & Hi & Hc & f & h & Hf & Hh & Hg). unfold TestCase.set_conf, the_configs.
  apply wp_bind, wp_bind, wp_get. unfold then_ at 1. rewrite Hc. apply wp_ret. unfold then_. apply wp_bind, wp_modify. unfold then_.
  unfold wp, on_mds. cbn [mds_cluster set_configs]. rewrite Hf. pose proof (set_zbkc_any h (subsys, key) v f w Hh) as H. unfold wp in H.
  cbn [fst snd] in H. destruct (set_zbkc_conf _ _ _ _ _ _) as [[o f2] w2]. destruct H as (h' & Hh' & Hk).
  split_and!; [done..|]. exists f2, h'. split_and!; [done..|]. intros s k Hsk. rewrite Hk by set_solver. apply Hg. set_solver.
Qed.

Lemma in_test_clients g ms ids cs t c : in_test g ms ids cs t -> in_test g ms ids cs (set_tc_clients c t).
Proof. done. Qed.
Lemma on_mount_hoare {A} o (m : M any_mount A) (P : tcase -> Prop) Q :
  (forall t a w, P t -> objs (tc_clients t) !! o = Some a ->
     wp m (fun r a' _ => forall x, r = Ret x -> Q x (set_tc_clients (set_objs (<[o := a']> (objs (tc_clients t))) (tc_clients t)) t)) a w) ->
  hoare P (on_mount o m) Q.
Proof.
  intros H. apply zoom_conf. intros t w HP. unfold wp, on_obj. destruct (objs (tc_clients t) !! o) as [a|] eqn:Ha; [|done].
  specialize (H t a w HP Ha). unfold wp in H. by destruct (m a w) as [[r a'] w'].
Qed.
(** The client [o] has the id that was stored for position [i] *)
Definition has_id (ids : list string) (t : tcase) (io : nat * nat) : Prop :=
  exists a, objs (tc_clients t) !! io.2 = Some a /\ ids !! io.1 = Some (ClientMount.client_id (any_base a)).
Lemma restore_id_spec g ms ids cs done_ (io : nat * nat) : io.2 ∉ done_.*2 ->
  hoare (fun t => in_test g ms ids cs t /\ Forall (has_id ids t) done_) (restore_id get_valgrind_args io.1 io.2)
    (fun _ t => in_test g ms ids cs t /\ Forall (has_id ids t) (done_ ++ [io])).
Proof.
  intros Hio t w [Ht Hd]. unfold restore_id. apply wp_bind, wp_get. unfold then_. pose proof Ht as (_ & -> & _). apply wp_bind, wp_ret. unfold then_.
  apply wp_bind, wp_of_option; [|done]. intros id_ Hid. unfold then_.
  apply (on_mount_hoare _ _ (eq t)); [|done]. intros t' a w' <- Ha. apply wp_modify. intros [] _.
  split; [by apply in_test_clients|]. apply Forall_app. split.
  - rewrite Forall_forall in *. intros x Hx. destruct (Hd x Hx) as (b & Hb & Hbi). exists b. split; [|done]. cbn.
    rewrite list_lookup_insert_ne; [done|]. intros Heq. apply Hio. rewrite Heq. by apply list_elem_of_fmap_2.
  - apply Forall_singleton. eexists. split; [cbn; apply list_lookup_insert_eq; by eapply lookup_lt_Some|].
    rewrite Hid. destruct a; done.
Qed.
Lemma base_tearDown_keeps g ms ids cs : hoare (in_test g ms ids cs) base_tearDown (fun _ => in_test g ms ids cs).
Proof.
  apply hoare_get. intros t _. eapply (hoare_bind _ _ _ (fun _ => in_test g ms ids cs)); [|intros ?; by apply hoare_ret]. apply zoom_conf. intros t' w Ht. unfold wp.
  by destruct (raw_cluster_cmd _ _ _) as [[??]?].
Qed.
Lemma clear_firewall_keeps g ms ids cs : hoare (in_test g ms ids cs) (on_mds clear_firewall) (fun _ => in_test g ms ids cs).
Proof.
  apply on_mds_hoare. intros t f w Ht Hf. eapply wp_conseq; [apply (moves_self eq _ false); runs_tac|].
  intros o f' w' <- a _. destruct Ht as (H1 & H2 & H3 & f0 & h & H4 & H5). split_and!; [done..|]. exists f0, h. cbn. by rewrite <- Hf.
Qed.
Lemma clear_settings g ms ids cs : hoare (fun t => in_test g ms ids cs t /\ Forall (has_id ids t) (imap pair ms))
  (for_ (elements cs) (fun sk => on_mds (clear_zbkc_conf render_conf sk.1 sk.2)))
  (fun _ t => Forall (has_id ids t) (imap pair ms) /\ exists f, mds_cluster t = Some f /\
     forall s k, setting f s k = if decide ((s, k) ∈ cs) then None else g s k).
Proof.
  eapply hoare_conseq; [apply hoare_for_done with (I := fun before t => Forall (has_id ids t) (imap pair ms) /\
    exists f h, mds_cluster t = Some f /\ conf_is h f /\ (forall s k, (s, k) ∈ before -> h s k = None) /\
      forall s k, (s, k) ∉ before -> (s, k) ∉ cs -> h s k = g s k)| |].
  - intros before [s0 k0] rest _. apply on_mds_hoare. intros t f w (Hid & f' & h & Hf' & Hh & Hn & Hg) Hf. rewrite Hf' in Hf.
    injection Hf as ->. eapply wp_conseq; [by apply (clear_conf_spec h (s0, k0))|]. intros o f2 w2 H a Ha. split; [done|].
    exists f2, (upd h (s0, k0) None). split_and!; [done|by eapply H|..]; intros s k; unfold upd; rewrite elem_of_app, list_elem_of_singleton.
    + intros [Hb| ->]; case_decide; [done|by apply Hn|done|done].
    + intros Hb Hcs. case_decide as Hd; [destruct Hb; by right|]. apply Hg; [naive_solver|done].
  - intros t [(H1 & H2 & H3 & f & h & H4 & H5 & H6) Hid]. split; [done|]. exists f, h. split_and!; [done|done| |].
    + intros s k Hn. by apply not_elem_of_nil in Hn.
    + intros s k _. apply H6.
  - intros _ t (Hid & f & h & Hf & [_ Hh] & Hn & Hg). split; [done|]. exists f. split; [done|]. intros s k. rewrite Hh.
    case_decide as Hd; [by apply Hn, elem_of_elements|]. apply Hg; [by rewrite elem_of_elements|done].
Qed.
Lemma imap_pair_snd (ms : list nat) : (imap pair ms).*2 = ms.
Proof.
  apply list_eq. intros i. rewrite list_lookup_fmap, list_lookup_imap. by destruct (ms !! i).
Qed.
Lemma tear_down_spec g ms ids cs : NoDup ms -> hoare (in_test g ms ids cs) (fs_tearDown get_valgrind_args render_conf)
  (fun _ t => Forall (has_id ids t) (imap pair ms) /\ exists f, mds_cluster t = Some f /\
     forall s k, setting f s k = if decide ((s, k) ∈ cs) then None else g s k).
Proof.
  intros Hnd. unfold fs_tearDown. eapply hoare_bind; [apply base_tearDown_keeps|intros ?]. eapply hoare_bind; [apply clear_firewall_keeps|intros ?].
  apply hoare_get. intros t (-> & _). eapply (hoare_bind _ _ _ (fun _ => in_test g ms ids cs)).
  { apply hoare_for. intros o _. apply on_mount_hoare. intros t' b w Ht' _. unfold wp. by destruct (teardown b w) as [[??]?]. }
  intros ?. eapply (hoare_bind _ _ _ (fun _ t => in_test g ms ids cs t /\ Forall (has_id ids t) (imap pair ms))).
  { eapply hoare_conseq; [apply hoare_for_done with (I := fun before t => in_test g ms ids cs t /\ Forall (has_id ids t) before)|by intros|by intros].
    intros before io rest Heq. apply restore_id_spec. rewrite <- (imap_pair_snd ms), Heq, fmap_app in Hnd. cbn in Hnd.
    apply NoDup_app in Hnd as (_ & Hd & _). intros Hin. by apply (Hd _ Hin), elem_of_cons; left. }
  intros ?. unfold the_configs. intros t' w [Ht' Hid]. apply wp_bind, wp_bind, wp_get. unfold then_ at 1. pose proof Ht' as (_ & _ & -> & _).
  apply wp_ret. unfold then_. by apply clear_settings.
Qed.
(** ** What a test may do, and what its set-up does *)
Definition id_at (t : tcase) (o : nat) : option string :=
  (fun a => ClientMount.client_id (any_base a)) <$> objs (tc_clients t) !! o.
Definition ctx_of (t : tcase) : option context := (fun f => ctx (mon_manager f)) <$> mds_cluster t.
Definition setting_of (t : tcase) (subsys key : string) : option pyval := mds_cluster t ≫= fun f => setting f subsys key.
(** A step of a test that leaves the configuration and the test's own records alone; it may do
    anything to the clients, their ids included, and to the cluster. *)
Definition leaves_conf (t t' : tcase) : Prop :=
  mounts t' = mounts t /\ _original_client_ids t' = _original_client_ids t /\ configs_set t' = configs_set t /\ ctx_of t' = ctx_of t.
(** A run of a test, up to wherever it ended: calls of [set_conf] (returning or not), and other
    steps; with the settings it made. *)
Inductive test_run : gset (string * string) -> tcase * world -> tcase * world -> Prop :=
| test_done p : test_run ∅ p p
| test_sets subsys key v o t w t1 w1 made q :
    TestCase.set_conf render_conf subsys key v t w = (o, t1, w1) -> test_run made (t1, w1) q ->
    test_run ({[(subsys, key)]} ∪ made) (t, w) q
| test_other t w t1 w1 made q : leaves_conf t t1 -> test_run made (t1, w1) q -> test_run made (t, w) q.
Lemma in_test_leaves g ms ids cs t t' : in_test g ms ids cs t -> leaves_conf t t' -> in_test g ms ids cs t'.
Proof.
  intros (H1 & H2 & H3 & f & h & Hf & [Hok Hh] & Hg) (E1 & E2 & E3 & E4). unfold ctx_of in E4. rewrite Hf in E4. cbn in E4.
  destruct (mds_cluster t') as [f'|] eqn:Hf'; [|done]. injection E4 as Ec.
  split_and!; [congruence..|]. exists f', h. split_and!; [done| |done]. unfold conf_is, conf_ok, setting in *. by rewrite Ec.
Qed.
Lemma test_run_tracked g ms ids made p q : test_run made p q ->
  forall cs, in_test g ms ids cs p.1 -> in_test g ms ids (made ∪ cs) q.1.
Proof.
  induction 1 as [p|subsys key v o t w t1 w1 made q Hs _ IH|t w t1 w1 made q Hl _ IH]; intros cs Ht.
  - by rewrite (left_id_L ∅ (∪)).
  - pose proof (set_conf_tracked _ _ _ _ subsys key v t w Ht) as H. unfold wp in H. rewrite Hs in H. specialize (IH _ H). cbn [fst] in *.
    by rewrite (assoc_L (∪)), (comm_L (∪) made) in IH.
  - apply IH. by eapply in_test_leaves.
Qed.
End TearDown.

(** ** Preparing a test *)

(** Preparing changes neither the ids of the clients nor the configuration. *)
Record kept (t t' : tcase) : Prop := Kept
  { kept_mounts : mounts t' = mounts t;
    kept_ids : forall o, id_at t' o = id_at t o;
    kept_ctx : ctx_of t' = ctx_of t;
    kept_original : _original_client_ids t' = _original_client_ids t }.
#[export] Instance kept_preorder : PreOrder kept.
Proof. split; [by constructor|]. intros t1 t2 t3 [H1 H2 H3 H4] [K1 K2 K3 K4]. constructor; [congruence|intros; by rewrite K2|congruence..]. Qed.
Definition same_ctx (m m' : mgr) : Prop := ctx m' = ctx m.
#[export] Instance same_ctx_pre : PreOrder same_ctx.
Proof. split; [by intros ?|intros ???; unfold same_ctx; congruence]. Qed.
Definition same_fctx (f f' : fsys) : Prop := ctx (mon_manager f') = ctx (mon_manager f).
#[export] Instance same_fctx_pre : PreOrder same_fctx.
Proof. split; [by intros ?|intros ???; unfold same_fctx; congruence]. Qed.
Definition same_id (a a' : any_mount) : Prop := ClientMount.client_id (any_base a') = ClientMount.client_id (any_base a).
#[export] Instance same_id_pre : PreOrder same_id.
Proof. split; [by intros ?|intros ???; unfold same_id; congruence]. Qed.
Definition same_fuse_id (f f' : fuse) : Prop := ClientMount.client_id (f_base f') = ClientMount.client_id (f_base f).
#[export] Instance same_fuse_id_pre : PreOrder same_fuse_id.
Proof. split; [by intros ?|intros ???; unfold same_fuse_id; congruence]. Qed.
Definition same_kernel_id (k k' : kmount) : Prop := ClientMount.client_id (k_base k') = ClientMount.client_id (k_base k).
#[export] Instance same_kernel_id_pre : PreOrder same_kernel_id.
Proof. split; [by intros ?|intros ???; unfold same_kernel_id; congruence]. Qed.

Section SetUp.
Context {E : Env} {F : Fuel}.
Context (get_valgrind_args : string -> string -> list string -> pyval -> list string)
        (get_first_mon : context -> dict -> string)
        (all_roles_of_type : context -> string -> list string)
        (client_remote_of : context -> string -> remote)
        (render_conf : gmap string dict -> string)
        (hostname : remote -> string)
        (schedule : list string -> list string).

Lemma kept_on_man {A} (m : M mgr A) : Moves kept (on_man m).
Proof. apply moves_zoom. by constructor. Qed.
Lemma kept_on_fs {A} (m : M fsys A) : Moves kept (on_fs m).
Proof.
  intros t w. unfold wp, on_fs. destruct (fs t) as [f|]; [|by split; [unfold on_self; cbn|]].
  destruct (m f w) as [[o f'] w']. split; [by constructor|done].
Qed.
Lemma kept_on_mds {A} (m : M fsys A) : Moves same_fctx m -> Moves kept (on_mds m).
Proof.
  intros Hm t w. unfold wp, on_mds. destruct (mds_cluster t) as [f|] eqn:Hf; [|by split; [unfold on_self; cbn|]].
  specialize (Hm f w). unfold wp in Hm. destruct (m f w) as [[o f'] w']. destruct Hm as [Hm _]. split; [|done].
  constructor; try done. unfold ctx_of. cbn. rewrite Hf. cbn. f_equal. exact Hm.
Qed.
Lemma fctx_fman {A} (m : M mgr A) : Moves same_ctx m -> Moves same_fctx (fman m).
Proof. intros Hm. by apply (runs_zoom _ _ (on_self same_ctx)). Qed.
Lemma kept_on_mount {A} o (m : M any_mount A) : Moves same_id m -> Moves kept (on_mount o m).
Proof.
  intros Hm t w. unfold wp, on_mount, zoom, on_obj. destruct (objs (tc_clients t) !! o) as [a|] eqn:Ha; [|by destruct t].
  specialize (Hm a w). unfold wp in Hm. destruct (m a w) as [[r a'] w']. destruct Hm as [Hm _]. split; [|done].
  constructor; try done. intros o'. unfold id_at. cbn. destruct (decide (o = o')) as [<-|Hne].
  - rewrite list_lookup_insert_eq by (by eapply lookup_lt_Some). rewrite Ha. cbn. f_equal. exact Hm.
  - by rewrite list_lookup_insert_ne.
Qed.
Lemma same_virtual {A} (mf : M fuse A) (mk : M kmount A) :
  Moves same_fuse_id mf -> Moves same_kernel_id mk -> Moves same_id (virtual mf mk).
Proof.
  intros Hf Hk [f|k] w; [specialize (Hf f w)|specialize (Hk k w)]; unfold wp, virtual in *;
    [destruct (mf f w) as [[??]?]|destruct (mk k w) as [[??]?]]; done.
Qed.
#[local] Hint Resolve kept_on_man kept_on_fs : runs.
#[local] Hint Extern 1 (Runs _ _ (on_mds _)) => (apply kept_on_mds; runs_tac) : runs.
#[local] Hint Extern 1 (Runs _ _ (fman _)) => (apply fctx_fman; runs_tac) : runs.
#[local] Hint Extern 1 (Runs _ _ (on_mount _ _)) => (apply kept_on_mount; runs_tac) : runs.
#[local] Hint Extern 1 (Runs _ _ (virtual _ _)) => (apply same_virtual; runs_tac) : runs.

Abbreviation client m := (m (the_mount get_valgrind_args)).
Lemma is_mounted_same_id : Moves same_id (client (@is_mounted E any_mount)).
Proof. apply same_virtual; runs_tac. Qed.
Lemma mount_same_id p n : Moves same_id (client (@mount E any_mount) p n).
Proof. apply same_virtual; runs_tac. Qed.
Lemma umount_wait_same_id a b : Moves same_id (client (@umount_wait E any_mount) a b).
Proof. apply same_virtual; runs_tac. Qed.
Lemma wait_mounted_same_id : Moves same_id (client (@wait_until_mounted E any_mount)).
Proof. apply same_virtual; runs_tac. Qed.
#[local] Hint Resolve is_mounted_same_id mount_same_id umount_wait_same_id wait_mounted_same_id : runs.
Lemma moves_fresh {S T A} (R : relation S) `{!PreOrder R} (t0 : T) (m : M T A) : Moves R (fresh t0 m : M S (A * T)).
Proof. intros s w. unfold wp, fresh. destruct (m t0 w) as [[[] ?] ?]; (split; [unfold on_self; cbn; reflexivity|done]). Qed.
#[local] Hint Extern 1 (Runs _ _ (fresh _ _)) => (apply moves_fresh; exact _) : runs.
Lemma newfs_same_ctx n : Moves same_fctx (newfs get_first_mon all_roles_of_type client_remote_of n).
Proof. runs_tac. Qed.
#[local] Hint Resolve newfs_same_ctx : runs.
Lemma check_needs_kept n : Moves kept (check_needs get_valgrind_args all_roles_of_type hostname n).
Proof. runs_tac. Qed.
Lemma new_fs_kept ids : Moves kept (new_fs get_valgrind_args get_first_mon all_roles_of_type client_remote_of schedule ids).
Proof. runs_tac. Qed.
Lemma first_two_kept f : (forall o, Moves kept (f o)) -> Moves kept (first_two f).
Proof. intros Hf. runs_tac. Qed.
(** The ids that are stored are those the clients have. *)
Definition ids_of (t : tcase) (os : list nat) (ids : list string) : Prop := Forall2 (fun o i => id_at t o = Some i) os ids.
Lemma client_ids_spec os t w :
  wp (map_ (fun o => b <- client_base get_valgrind_args o ;; ret (ClientMount.client_id b)) os)
    (fun r t' _ => kept t t' /\ forall ids, r = Ret ids -> ids_of t os ids) t w.
Proof.
  assert (Hb : forall o t w, wp (b <- client_base get_valgrind_args o ;; ret (ClientMount.client_id b))
    (fun r t' _ => kept t t' /\ forall i, r = Ret i -> id_at t o = Some i) t w).
  { intros o t0 w0. assert (Hk : Moves kept (client_base get_valgrind_args o)) by (apply kept_on_mount; runs_tac).
    apply wp_bind. specialize (Hk t0 w0). unfold wp in *. revert Hk. unfold client_base, on_mount, zoom, on_obj, gets, id_at.
    destruct (objs (tc_clients t0) !! o) as [a|]; intros [Hk _]; [|done]. unfold then_. split; [exact Hk|]. by intros i [= <-]. }
  revert t w. induction os as [|o os IH]; intros t w; cbn [map_]; [apply wp_ret; split; [reflexivity|]; intros ids [= <-]; constructor|].
  apply wp_bind. eapply wp_conseq; [apply Hb|]. intros [i|e|] t1 w1 [Hk Hi]; unfold then_; [|by split..].
  apply wp_bind. eapply wp_conseq; [apply IH|]. intros [js|e|] t2 w2 [Hk2 His]; unfold then_; [|split; [by etrans|done]..].
  apply wp_ret. split; [by etrans|]. intros ids [= <-]. constructor; [by apply Hi|].
  eapply Forall2_impl; [by apply His|]. intros o' i' H. by rewrite <- (kept_ids _ _ Hk).
Qed.
(** Code that keeps everything, in front of more *)
Lemma kept_bind {A B} (m : M tcase A) (k : A -> M tcase B) (Q : tcase -> Prop) t0 :
  Moves kept m -> (forall a t1 w1, kept t0 t1 -> wp (k a) (fun o t' _ => forall b, o = Ret b -> Q t') t1 w1) ->
  forall t w, kept t0 t -> wp (bind m k) (fun o t' _ => forall b, o = Ret b -> Q t') t w.
Proof.
  intros Hm Hk t w Ht. apply wp_bind. eapply wp_conseq; [apply (moves_self kept _ false), Hm|].
  intros [a|e|] t1 w1 H1; unfold then_; [|done..]. apply Hk. by etrans.
Qed.
Abbreviation setUp_ := (fs_setUp get_valgrind_args get_first_mon all_roles_of_type client_remote_of hostname schedule).
Abbreviation begun t t' := (mounts t' = mounts t /\ (forall o, id_at t' o = id_at t o) /\ ctx_of t' = ctx_of t /\
  configs_set t' = Some ∅ /\ exists ids, _original_client_ids t' = Some ids /\ ids_of t (mounts t) ids).
Lemma set_up_spec n t w : wp (setUp_ n) (fun o t' _ => forall u, o = Ret u -> begun t t') t w.
Proof.
  pose proof (check_needs_kept n) as H1. pose proof new_fs_kept as H2. pose proof first_two_kept as H3. unfold fs_setUp.
  apply (kept_bind _ _ _ t); [runs_tac| |reflexivity]. intros ? t1 w1 K1. revert t1 w1 K1.
  apply kept_bind; [done|]. intros ? t1 w1 K1. apply wp_bind, wp_get. unfold then_. rewrite (kept_mounts _ _ K1).
  revert t1 w1 K1. do 11 (apply kept_bind; [runs_tac|]; intros ?). intros t1 w1 K1. clear H1 H3.
  apply wp_bind, wp_get. unfold then_. rewrite (kept_mounts _ _ K1). apply wp_bind. eapply wp_conseq; [apply client_ids_spec|].
  intros [ids|e|] t2 w2 [K2 Hids]; unfold then_; [|done..]. specialize (Hids ids eq_refl). apply wp_bind, wp_modify. unfold then_.
  assert (Hid0 : ids_of t (mounts t) ids).
  { eapply Forall2_impl; [exact Hids|]. intros o i Hi. by rewrite <- (kept_ids _ _ K1). }
  assert (K3 : kept t t2) by by etrans. clear K1 K2 Hids. set (t3 := set_original_ids ids t2).
  enough (H : forall t1 w1, kept t3 t1 -> wp (entries <- auth_list ;; for_ entries (del_stale_auth ids) ;;
      when (REQUIRE_FILESYSTEM n) (new_fs get_valgrind_args get_first_mon all_roles_of_type client_remote_of schedule ids) ;;
      for_ (LOAD_SETTINGS n) load_setting ;; modify (set_configs ∅)) (fun o t' _ => forall b : unit, o = Ret b -> begun t t') t1 w1)
    by (apply H; reflexivity).
  do 4 (apply kept_bind; [runs_tac|]; intros ?). intros t4 w4 [M1 M2 M3 M4]. apply wp_modify. intros _ _.
  destruct K3 as [N1 N2 N3 N4]. split_and!; [by rewrite <- N1|intros o; rewrite <- N2; apply M2|by rewrite <- N3|done|].
  exists ids. by split.
Qed.
Lemma set_up_run n t w t' w' : setUp_ n t w = (Ret tt, t', w') -> begun t t'.
Proof. intros H. pose proof (set_up_spec n t w) as Hs. unfold wp in Hs. rewrite H in Hs. by apply (Hs tt). Qed.

(** C13: A test leaves nothing behind: from the state before its [setUp], through whatever run of the test that touches
    the configuration only with [set_conf], wherever that run ended, to the return of its [tearDown].  Every client then
    has the id it had before the test, also if the test changed it; and of the configuration exactly the settings the
    test made are gone (also those that had a value before, which is not put back): every other one is what it was. *)
Theorem tear_down_restores (n : needs) (made : gset (string * string)) (f : fsys) (t t1 t2 t3 : tcase) (w w1 w2 w3 : world) :
  NoDup (mounts t) -> mds_cluster t = Some f -> conf_ok f ->
  setUp_ n t w = (Ret tt, t1, w1) -> test_run render_conf made (t1, w1) (t2, w2) ->
  fs_tearDown get_valgrind_args render_conf t2 w2 = (Ret tt, t3, w3) ->
  (forall o, o ∈ mounts t -> id_at t3 o = id_at t o) /\
  (forall subsys key, setting_of t3 subsys key = if decide ((subsys, key) ∈ made) then None else setting f subsys key).
Proof.
  intros Hnd Hf Hok Hup Hrun Hdown. destruct (set_up_run _ _ _ _ _ Hup) as (Em & _ & Ec & Es & ids & Eo & Hids).
  unfold ctx_of in Ec. rewrite Hf in Ec. destruct (mds_cluster t1) as [f1|] eqn:Hf1; [|done]. injection Ec as Ec.
  assert (Hin : in_test (setting f) (mounts t) ids ∅ t1).
  { split_and!; [done..|]. exists f1, (setting f). split_and!; [done| |done]. unfold conf_is, conf_ok, setting in *. by rewrite Ec. }
  apply (test_run_tracked get_valgrind_args render_conf _ _ _ _ _ _ Hrun) in Hin. cbn [fst] in Hin. rewrite (right_id_L ∅ (∪)) in Hin.
  pose proof (tear_down_spec get_valgrind_args render_conf _ _ _ _ Hnd t2 w2 Hin) as Hd. unfold wp in Hd. rewrite Hdown in Hd.
  destruct (Hd tt eq_refl) as [Hid (f3 & Hf3 & Hs)]. split.
  - intros o [i Hi]%list_elem_of_lookup_1. rewrite Forall_forall in Hid. destruct (Hid (i, o)) as (a & Ha & Hai).
    { apply elem_of_lookup_imap. eauto. }
    cbn [fst snd] in *. destruct (Forall2_lookup_l _ _ _ _ _ Hids Hi) as (x & Hx & ->). unfold id_at. rewrite Ha. cbn. congruence.
  - intros subsys key. unfold setting_of. rewrite Hf3. cbn. apply Hs.
Qed.
End SetUp.

(** ** The verdict of a run *)
Section Verdict.
Context {E : Env} {F : Fuel}.
Variables (interactive fail_on_skip : bool) (class_fs : option fsys).
Implicit Types (p q : tcase * world).

(** A part of a test came to an end that the result object does not hold against it: it
    returned; it skipped the test, where it may and where skipping is allowed; or it failed,
    and the user had a look at it. *)
Inductive settled (may_skip : bool) (name : string) : option exn -> tcase * world -> tcase * world -> Prop :=
| settled_ok p : settled may_skip name None p p
| settled_skip reason p : may_skip = true -> fail_on_skip = false -> settled may_skip name (Some (SkipTest reason)) p p
| settled_shown e t w u t' w' :
    interactive = true -> (may_skip = true -> forall reason, e <> SkipTest reason) ->
    call "interactive.task" [name] t w = (Ret u, t', w') -> settled may_skip name (Some e) (t, w) (t', w').
(** A test that counts as passed, with what it did to the objects and the world *)
Inductive accepted (c : case_class) : tcase * world -> tcase * world -> Prop :=
| accepted_early t w e t1 w1 q :
    attempt (setUp c) (fresh_test (case_name c) class_fs t) w = (Ret (Some e), t1, w1) ->
    settled true (case_name c) (Some e) (t1, w1) q -> accepted c (t, w) q
| accepted_run t w t1 w1 o t2 w2 t3 w3 o' t4 w4 q :
    attempt (setUp c) (fresh_test (case_name c) class_fs t) w = (Ret None, t1, w1) ->
    attempt (method c) t1 w1 = (Ret o, t2, w2) -> settled true (case_name c) o (t2, w2) (t3, w3) ->
    attempt (tearDown c) t3 w3 = (Ret o', t4, w4) -> settled false (case_name c) o' (t4, w4) q -> accepted c (t, w) q.
(** All of them, one after the other *)
Inductive all_accepted : list case_class -> tcase * world -> tcase * world -> Prop :=
| all_nil p : all_accepted [] p p
| all_cons c l p q r : accepted c p q -> all_accepted l q r -> all_accepted (c :: l) p r.

Abbreviation run_case_ := (run_case interactive fail_on_skip class_fs).
Abbreviation run_suite_ := (run_suite interactive fail_on_skip class_fs).
(** What the result object is told of the set-up, of the body and of the clean-up of a test *)
Definition tell_setup (name : string) (o : option exn) (r : result) : M tcase result :=
  match o with
  | None => ret r
  | Some (SkipTest reason) => ret (addSkip fail_on_skip name reason r)
  | Some e => addError interactive name e r
  end.
Definition tell_body (name : string) (o : option exn) (r : result) : M tcase result :=
  match o with
  | None => ret r
  | Some (SkipTest reason) => ret (addSkip fail_on_skip name reason r)
  | Some (AssertionError m) => addFailure interactive name (AssertionError m) r
  | Some e => addError interactive name e r
  end.
Definition tell_cleanup (name : string) (o : option exn) (r : result) : M tcase result :=
  match o with None => ret r | Some e => addError interactive name e r end.

(** What is settled leaves a clean result clean ... *)
Lemma shown_clean name e t w u t' w' : interactive = true -> call "interactive.task" [name] t w = (Ret u, t', w') ->
  addError interactive name e no_result t w = (Ret no_result, t', w') /\
  addFailure interactive name e no_result t w = (Ret no_result, t', w').
Proof. intros Hi Hc. unfold addError, addFailure, bind. by rewrite Hi, Hc. Qed.
Lemma skip_clean name reason : fail_on_skip = false -> addSkip fail_on_skip name reason no_result = no_result.
Proof. intros H. unfold addSkip. by rewrite H. Qed.
Lemma settled_tells name o t w t' w' : settled true name o (t, w) (t', w') ->
  tell_setup name o no_result t w = (Ret no_result, t', w') /\ tell_body name o no_result t w = (Ret no_result, t', w').
Proof.
  intros H. inversion H as [|reason ? _ Hf|e ? ? u ? ? Hi Hns Hc]; subst; cbn [tell_setup tell_body]; [done|by rewrite skip_clean|].
  destruct (shown_clean name e _ _ _ _ _ Hi Hc) as [H1 H2]. destruct e; try done. edestruct Hns; reflexivity.
Qed.
Lemma settled_cleanup name o t w t' w' : settled false name o (t, w) (t', w') -> tell_cleanup name o no_result t w = (Ret no_result, t', w').
Proof.
  intros H. inversion H as [|reason ? ?|e ? ? u ? ? Hi Hns Hc]; subst; [done|done|]. by destruct (shown_clean name e _ _ _ _ _ Hi Hc).
Qed.
(** ... and what leaves it clean is settled. *)
Lemma shown_or_bad name e r t w t' w' :
  addError interactive name e no_result t w = (Ret r, t', w') \/ addFailure interactive name e no_result t w = (Ret r, t', w') ->
  (r = no_result /\ interactive = true /\ exists u, call "interactive.task" [name] t w = (Ret u, t', w')) \/ was_successful r = false.
Proof.
  unfold addError, addFailure. destruct interactive; [|intros [[= <- <- <-]|[= <- <- <-]]; by right].
  intros [(u & t1 & w1 & H & [= <- <- <-])%bind_ret_inv|(u & t1 & w1 & H & [= <- <- <-])%bind_ret_inv]; left; eauto.
Qed.
Lemma tell_settled name o r t w t' w' :
  tell_setup name o no_result t w = (Ret r, t', w') \/ tell_body name o no_result t w = (Ret r, t', w') ->
  (r = no_result /\ settled true name o (t, w) (t', w')) \/ was_successful r = false.
Proof.
  destruct o as [e|]; [|intros [[= <- <- <-]|[= <- <- <-]]; left; split; [done|constructor|done|constructor]].
  assert (Hdec : (exists reason, e = SkipTest reason) \/ ~ exists reason, e = SkipTest reason)
    by (destruct e; first [left; by eexists | right; by intros []]).
  destruct Hdec as [[reason ->]|Hno].
  - intros H. assert (addSkip fail_on_skip name reason no_result = r /\ t = t' /\ w = w') as (<- & <- & <-) by (destruct H as [[= <- <- <-]|[= <- <- <-]]; done).
    unfold addSkip. destruct fail_on_skip eqn:Hf; [by right|]. left. split; [done|]. by constructor.
  - intros H. assert (addError interactive name e no_result t w = (Ret r, t', w') \/ addFailure interactive name e no_result t w = (Ret r, t', w')) as H'.
    { destruct e; cbn in H; try tauto. destruct Hno; eauto. }
    destruct (shown_or_bad _ _ _ _ _ _ _ H') as [(-> & Hi & u & Hc)|?]; [left|by right]. split; [done|].
    eapply settled_shown; [done| |exact Hc]. intros _ reason ->. apply Hno. eauto.
Qed.
Lemma cleanup_settled name o r t w t' w' : tell_cleanup name o no_result t w = (Ret r, t', w') ->
  (r = no_result /\ settled false name o (t, w) (t', w')) \/ was_successful r = false.
Proof.
  destruct o as [e|]; cbn [tell_cleanup]; [|intros [= <- <- <-]; left; split; [done|constructor]]. intros H.
  destruct (shown_or_bad name e r t w t' w') as [(-> & Hi & u & Hc)|?]; [by left|left|by right]. split; [done|]. by eapply settled_shown.
Qed.
(** A bad result stays bad. *)
Lemma bad_app (r : result) fs es b : was_successful r = false -> was_successful (Result (failures r ++ fs) (errors r ++ es) b) = false.
Proof. unfold was_successful. cbn. by destruct (failures r), (errors r), fs, es. Qed.
Abbreviation Bad m := (hoare (fun _ => True) m (fun r' _ => was_successful r' = false)).
Lemma hoare_true {A B} (m : M tcase A) (k : A -> M tcase B) Q :
  (forall a, hoare (fun _ => True) (k a) Q) -> hoare (fun _ => True) (bind m k) Q.
Proof. intros Hk. eapply hoare_bind; [|exact Hk]. intros t w _. unfold wp. by destruct (m t w) as [[??]?]. Qed.
Lemma bad_failure name e r : was_successful r = false -> Bad (addFailure interactive name e r).
Proof.
  intros H. unfold addFailure. destruct interactive; [apply hoare_true; intros _; by apply hoare_ret|].
  apply hoare_ret. intros _ _. rewrite <- (app_nil_r (errors r)). by apply bad_app.
Qed.
Lemma bad_error name e r : was_successful r = false -> Bad (addError interactive name e r).
Proof.
  intros H. unfold addError. destruct interactive; [apply hoare_true; intros _; by apply hoare_ret|].
  apply hoare_ret. intros _ _. rewrite <- (app_nil_r (failures r)). by apply bad_app.
Qed.
Lemma bad_skip name reason r : was_successful r = false -> was_successful (addSkip fail_on_skip name reason r) = false.
Proof. intros H. unfold addSkip. destruct fail_on_skip; [|done]. rewrite <- (app_nil_r (errors r)). by apply bad_app. Qed.
#[local] Hint Resolve bad_failure bad_error : core.
Lemma bad_cleanup name o r : was_successful r = false -> Bad (tell_cleanup name o r).
Proof. intros H. destruct o; cbn; [auto|by apply hoare_ret]. Qed.
Lemma bad_body name o r : was_successful r = false -> Bad (tell_body name o r).
Proof. intros H. destruct o as [[]|]; cbn [tell_body]; auto; apply hoare_ret; intros _ _; [by apply bad_skip|done]. Qed.
Lemma bad_cleaned c r : was_successful r = false -> Bad (o <- attempt (tearDown c) ;; tell_cleanup (case_name c) o r).
Proof. intros H. apply hoare_true. intros o. by apply bad_cleanup. Qed.
Lemma bad_case c r : was_successful r = false -> Bad (run_case_ c r).
Proof.
  intros H. unfold run_case. apply hoare_true. intros _. apply hoare_true. intros [[]|]; auto.
  { apply hoare_ret. intros _ _. by apply bad_skip. }
  unfold run_method. apply hoare_true. intros o. eapply (hoare_bind _ _ _ (fun r' _ => was_successful r' = false)); [by apply (bad_body _ o)|].
  intros r' t w Hr'. by apply (bad_cleaned c r' Hr').
Qed.
Lemma bad_suite l r : was_successful r = false -> Bad (run_suite_ l r).
Proof.
  revert r. induction l as [|c l IH]; intros r H; cbn [run_suite]; [by apply hoare_ret|]. destruct (should_stop r); [by apply hoare_ret|].
  eapply hoare_bind; [by apply bad_case|]. intros r' t w Hr'. by apply IH.
Qed.

Lemma accepted_runs c t w t' w' : accepted c (t, w) (t', w') -> run_case_ c no_result t w = (Ret no_result, t', w').
Proof.
  intros H. inversion H as [? ? e t1 w1 ? Hs He|? ? t1 w1 o t2 w2 t3 w3 o' t4 w4 ? Hs Hm Ho Ht Ho']; subst; unfold run_case, bind at 1;
    cbn [modify]; unfold bind at 1; rewrite Hs.
  - by apply settled_tells in He as [He _].
  - apply settled_tells in Ho as [_ Ho]. apply settled_cleanup in Ho'. unfold run_method, bind at 1. rewrite Hm.
    unfold bind at 1. change (match tell_body (case_name c) o no_result t2 w2 with
      | (Ret a, s', w'0) => (o <- attempt (tearDown c) ;; tell_cleanup (case_name c) o a) s' w'0
      | (Exc e, s', w'0) => (Exc e, s', w'0) | (Stuck, s', w'0) => (Stuck, s', w'0) end = (Ret no_result, t', w')).
    rewrite Ho. unfold bind. by rewrite Ht.
Qed.
(** A test that is not accepted leaves its name in the result. *)
Lemma run_case_result c t w r t' w' : run_case_ c no_result t w = (Ret r, t', w') ->
  (r = no_result /\ accepted c (t, w) (t', w')) \/ was_successful r = false.
Proof.
  unfold run_case. intros (u & t0 & w0 & [= <- <- <-] & H)%bind_ret_inv. apply bind_ret_inv in H as (o & t1 & w1 & Hs & H).
  destruct o as [e|].
  - change (tell_setup (case_name c) (Some e) no_result t1 w1 = (Ret r, t', w')) in H.
    destruct (tell_settled _ _ _ _ _ _ _ (or_introl H)) as [[-> Hse]|?]; [left|by right]. split; [done|]. by eapply accepted_early.
  - unfold run_method in H. apply bind_ret_inv in H as (o & t2 & w2 & Hm & H). apply bind_ret_inv in H as (r1 & t3 & w3 & Hb & H).
    change (tell_body (case_name c) o no_result t2 w2 = (Ret r1, t3, w3)) in Hb.
    destruct (tell_settled _ _ _ _ _ _ _ (or_intror Hb)) as [[-> Hse]|Hbad].
    + apply bind_ret_inv in H as (o' & t4 & w4 & Ht & H).
      destruct (cleanup_settled _ _ _ _ _ _ _ H) as [[-> Hse']|?]; [left|by right]. split; [done|]. by eapply accepted_run.
    + right. pose proof (bad_cleaned c r1 Hbad t3 w3 I) as Hc. unfold wp in Hc.
      change ((o <- attempt (tearDown c) ;; tell_cleanup (case_name c) o r1) t3 w3 = (Ret r, t', w')) in H. rewrite H in Hc. by apply Hc.
Qed.
Lemma suite_accepted l t w t' w' : all_accepted l (t, w) (t', w') -> run_suite_ l no_result t w = (Ret no_result, t', w').
Proof.
  revert t w. induction l as [|c l IH]; intros t w H; inversion H as [|? ? ? [t1 w1] ? Hc Hl]; subst; cbn [run_suite]; [done|].
  cbn [should_stop no_result]. unfold bind. rewrite (accepted_runs _ _ _ _ _ Hc). by apply IH.
Qed.
Lemma suite_verdict l t w r t' w' : run_suite_ l no_result t w = (Ret r, t', w') ->
  (was_successful r = true -> all_accepted l (t, w) (t', w')).
Proof.
  revert t w. induction l as [|c l IH]; intros t w; cbn [run_suite].
  - intros [= <- <- <-] _. constructor.
  - cbn [should_stop no_result]. intros Hrun Hr. apply bind_ret_inv in Hrun as (r1 & t1 & w1 & H1 & H2).
    destruct (run_case_result _ _ _ _ _ _ H1) as [[-> Hp]|Hbad].
    + econstructor; [exact Hp|]. by apply IH.
    + pose proof (bad_suite l r1 Hbad t1 w1 I) as Hb. unfold wp in Hb. rewrite H2 in Hb. specialize (Hb r eq_refl). congruence.
Qed.
End Verdict.

Section RunnerVerdict.
Context {E : Env} {F : Fuel}.
Context (get_first_mon : context -> dict -> string)
        (all_roles_of_type : context -> string -> list string)
        (client_remote_of : context -> string -> remote)
        (load_name : string -> list case_class)
        (discovered : list case_class).
Abbreviation prepare_ := (prepare get_first_mon all_roles_of_type client_remote_of load_name discovered).
Abbreviation runner_ := (runner_task get_first_mon all_roles_of_type client_remote_of load_name discovered).

(** C12: The verdict of the test runner, with every option.  Once its objects are made and its
    tests are loaded, the task goes on to its body exactly when each test, one after the other,
    counts as passed: its set-up, body and clean-up returned; or it skipped itself and
    [fail_on_skip] is off (it is on by default); or, only with [interactive-on-error], it
    failed and the user had a look.  Otherwise it raises, with the names of bad tests, or what
    interrupted the run.  In particular no test is missed although a run stops at its first
    failure, and without [interactive-on-error] no failure is. *)
Theorem runner_task_verdict {A} (config : pyval) (body : M clients A) (s s1 : clients) (w w1 : world)
  (ob : objects) (d : dict) (suite : list case_class) :
  prepare_ config s w = (Ret (ob, d, suite), s1, w1) ->
  let interactive := truthy (dict_get "interactive-on-error" (PBool false) (cl_config s)) in
  let fail_on_skip := truthy (dict_get "fail_on_skip" (PBool true) d) in
  let passed := all_accepted interactive fail_on_skip (ob_fs ob) suite (first_test ob s1, w1) in
  let '(o, t2, w2) := run_suite interactive fail_on_skip (ob_fs ob) suite no_result (first_test ob s1) w1 in
  match o with
  | Ret r =>
      (passed (t2, w2) /\ runner_ config body s w = body (tc_clients t2) w2) \/
      ((forall q, ~ passed q) /\ bad_tests r <> [] /\
       runner_ config body s w = (Exc (RuntimeError ("Test failure: " +:+ str_join ", " (bad_tests r))), tc_clients t2, w2))
  | Exc e => (forall q, ~ passed q) /\ runner_ config body s w = (Exc e, tc_clients t2, w2)
  | Stuck => (forall q, ~ passed q) /\ exists s2, runner_ config body s w = (Stuck, s2, w2)
  end.
Proof.
  intros Hp. cbv zeta. set (i := truthy (dict_get "interactive-on-error" _ _)). set (f := truthy (dict_get "fail_on_skip" _ _)).
  destruct (run_suite i f (ob_fs ob) suite no_result (first_test ob s1) w1) as [[o t2] w2] eqn:Hrun.
  assert (Hno : o <> Ret no_result -> forall q, ~ all_accepted i f (ob_fs ob) suite (first_test ob s1, w1) q).
  { intros Ho [t3 w3] Hq. apply suite_accepted in Hq. rewrite Hrun in Hq. by injection Hq as -> -> ->. }
  assert (Htask : runner_ config body s w =
    (r <- run_tests i f ob suite ;;
     if was_successful r then body else raise (RuntimeError ("Test failure: " +:+ str_join ", " (bad_tests r)))) s1 w1).
  { unfold runner_task, bind at 1. cbn [get]. unfold bind at 1. by rewrite Hp. }
  rewrite Htask. unfold run_tests, fresh, catch, bind, get, ret. rewrite Hrun. clear Htask Hp.
  destruct o as [r|e|]; cbn; [|split; [by apply Hno|done]|split; [by apply Hno|by eexists]].
  destruct (was_successful r) eqn:Hr; [left; split; [by eapply suite_verdict|done]|right]. split_and!; [|by destruct r as [[] []]|done].
  apply Hno. intros [= ->]. done.
Qed.
End RunnerVerdict.

(** ** Interactive runs *)
Section Interactive.
Context {E : Env} {F : Fuel} (class_fs : option fsys).
(** With [interactive-on-error] failures are not recorded: whatever the tests do, a run that returns is successful when
    skipped tests do not count as failures, so the task goes on as if all had passed. *)
Theorem interactive_hides_failures (l : list case_class) (t : tcase) (w : world) (r : result) (t' : tcase) (w' : world) :
  run_suite true false class_fs l no_result t w = (Ret r, t', w') -> was_successful r = true.
Proof.
  assert (H : forall l, hoare (fun _ => True) (run_suite true false class_fs l no_result) (fun r _ => r = no_result)).
  { clear. assert (He : forall n (e : exn), hoare (fun _ => True) (addError true n e no_result) (fun r _ => r = no_result)).
    { intros n e. apply hoare_true. intros _. by apply hoare_ret. }
    induction l as [|c l IH]; cbn [run_suite]; [by apply hoare_ret|]. cbn [should_stop no_result].
    eapply (hoare_bind _ _ _ (fun r _ => r = no_result)); [|intros r; intros t w ->; by apply IH].
    unfold run_case. apply hoare_true. intros _. apply hoare_true. intros [[]|]; try (by apply He); [by apply hoare_ret|].
    unfold run_method. apply hoare_true. intros o. eapply (hoare_bind _ _ _ (fun r _ => r = no_result)).
    { destruct o as [[]|]; try (by apply He); (by apply hoare_ret) || (apply hoare_true; intros _; by apply hoare_ret). }
    intros r' t w ->. apply hoare_true; [|done]. intros [e|]; [by apply He|by apply hoare_ret]. }
  intros Hrun. specialize (H l t w I). unfold wp in H. rewrite Hrun in H. by rewrite (H r eq_refl).
Qed.
End Interactive.
