(* ===== verification/ClientFacts.v ===== *)
(** * Work units and block-device images

    Theorems about [Workunit] and [Rbd]. *)
From Stdlib Require Import Ascii QArith Qround Lqa.
From S2P Require Import Prelude PyVal World TraceState ZbkcManager Conf FsSetup ClientMount ZbkcCluster ZbkcTask Workunit Rbd.

(** ** Which scripts a run executes *)

(** The scripts executed, in order: a script is the last word of the command that makes its
    scratch directory. *)
Definition unit_step (l : list string) (ev : event) : list string :=
  match ev with EvRun _ ("mkdir" :: "-p" :: args) => l ++ [List.last args EmptyString] | _ => l end.
Definition executed : list event -> list string := after_events unit_step [].
Ltac still_tac := repeat (runs_step || (apply emits_emit; by intros ?) || apply emits_nothing).

Ltac calm_units := repeat (runs_step || (apply quiet_emit; by intros ?)).

Section Units.
Context {E : Env} {S : Type} `{!HasCtx S}.
Abbreviation utriple P m Q := (triple unit_step [] P m Q).
Abbreviation Still m := (Runs false (emits (idle unit_step)) m).

Lemma unit_still_bind {A B} (P : list string -> Prop) (m : M S A) (k : A -> M S B) Q :
  Still m -> (forall a, utriple (fun _ => P) (k a) Q) -> utriple (fun _ => P) (bind m k) Q.
Proof. intros Hm Hk. eapply triple_bind; [by apply triple_still|done]. Qed.
Lemma unit_cmd_shape c refspec role env subdir timeout w :
  exists rest, unit_cmd c refspec role env subdir timeout w = "mkdir" :: "-p" :: rest ++ [srcdir c role +:+ "/" +:+ w].
Proof.
  unfold unit_cmd. destruct (split_role role) as [[cl ty] id]. eexists. rewrite !(assoc_L (++)).
  match goal with |- ?a ++ [_] = _ => instantiate (1 := tail (tail a)) end. reflexivity.
Qed.
Lemma unit_cmd_step c refspec role env subdir timeout w l r :
  unit_step l (EvRun r (unit_cmd c refspec role env subdir timeout w)) = l ++ [srcdir c role +:+ "/" +:+ w].
Proof. destruct (unit_cmd_shape c refspec role env subdir timeout w) as [rest ->]. cbn [unit_step]. by rewrite List.last_last. Qed.
(** The scripts of [workunits] that a specification stands for *)
Definition matching (workunits : list string) (spec : string) : list string :=
  filter (fun w => matches spec w = true) workunits.
Lemma run_spec_executes c refspec role r workunits env subdir timeout spec l :
  utriple (fun _ t => t = l) (run_spec c refspec role r workunits env subdir timeout spec : M S unit)
    (fun _ _ t => matching workunits spec <> [] /\
                  t = l ++ map (fun w => srcdir c role +:+ "/" +:+ w) (matching workunits spec)).
Proof.
  unfold run_spec. destruct (split_role role) as [[cl ty] id] eqn:Hr. fold (matching workunits spec).
  set (f := fun w => srcdir c role +:+ "/" +:+ w). destruct (matching workunits spec) as [|w0 ws]; [apply triple_raise|].
  eapply triple_conseq; [apply (triple_for _ _ (fun rest _ t => t ++ map f rest = l ++ map f (w0 :: ws)))| |].
  - intros w rest. apply (unit_still_bind (fun t => t ++ map f (w :: rest) = l ++ map f (w0 :: ws))); [still_tac|intros words].
    eapply triple_bind; [apply (triple_run _ _ _ _ _ _ (fun _ _ t => t ++ map f rest = l ++ map f (w0 :: ws)))|].
    + intros p s t Ht. rewrite unit_cmd_step, <- (assoc_L (++)). exact Ht.
    + intros p. apply (unit_still_bind (fun t => t ++ map f rest = l ++ map f (w0 :: ws))); [still_tac|intros _]. by apply triple_ret.
  - by intros s t ->.
  - intros ? s t Ht. cbv beta in Ht. cbn [map] in Ht. rewrite app_nil_r in Ht. by split.
Qed.
(** All specifications, one after the other *)
Lemma run_specs_execute c refspec role r workunits env subdir timeout specs l :
  utriple (fun _ t => t = l)
    (l' <- ret (map PStr specs) ;;
     for_ l' (fun v => spec <- as_str v ;; run_spec c refspec role r workunits env subdir timeout spec) : M S unit)
    (fun _ _ t => Forall (fun spec => matching workunits spec <> []) specs /\
       t = l ++ map (fun w => srcdir c role +:+ "/" +:+ w) (flat_map (matching workunits) specs)).
Proof.
  change (bind (ret ?a) ?k) with (k a). cbv beta. revert l. induction specs as [|spec specs IH]; intros l; cbn [map for_].
  { apply triple_ret. intros s t ->. split; [done|]. by rewrite app_nil_r. }
  eapply triple_bind; [apply run_spec_executes|]. intros ?. apply triple_pure. intros s t [Hne ->].
  eapply triple_conseq; [apply IH|by intros ?? [_ ->]|]. intros ? s' t' [Hf ->]. split; [by constructor|].
  cbn [flat_map]. by rewrite map_app, (assoc_L (++)).
Qed.
Lemma triple_file (P : S -> list string -> Prop) op r path :
  utriple P (file op r path) (fun text s t => P s t /\ exists c, text = stdout (respond (EvFile op r path) c).1).
Proof.
  intros s w HP. unfold file. apply wp_bind, wp_emit. intros p c Hr. destruct (raised p); [done|]. unfold then_.
  apply wp_ret. intros text [= <-]. split; [|exists (w_env w); by rewrite Hr].
  cbn [w_trace]. by rewrite after_events_snoc.
Qed.
Context (git_url : string).
(** C40: a run of work units executes exactly the scripts its specifications stand for: when it
    returns, every specification matched some of the scripts listed on the client, and the
    scripts were executed in the order of the specifications, sorted within each. *)
Theorem run_tests_executes (refspec role : string) (specs : list string) (env : option dict) (subdir : option string)
  (timeout : pyval) (s : S) (w : world) :
  wp (_run_tests git_url refspec role (PList (map PStr specs)) env subdir timeout) (fun o _ w' => is_ret o ->
    exists r c, let workunits := sorted (split_on nul (stdout (respond (EvFile FGet r (workunits_file (the_ctx s) role)) c).1)) in
      Forall (fun spec => matching workunits spec <> []) specs /\
      executed (w_trace w') = executed (w_trace w) ++
        map (fun u => srcdir (the_ctx s) role +:+ "/" +:+ u) (flat_map (matching workunits) specs)) s w.
Proof.
  set (l := executed (w_trace w)). set (Q := fun l' => exists r c,
    let workunits := sorted (split_on nul (stdout (respond (EvFile FGet r (workunits_file (the_ctx s) role)) c).1)) in
    Forall (fun spec => matching workunits spec <> []) specs /\
    l' = l ++ map (fun u => srcdir (the_ctx s) role +:+ "/" +:+ u) (flat_map (matching workunits) specs)).
  enough (H : utriple (fun s' t => s' = s /\ t = l) (_run_tests git_url refspec role (PList (map PStr specs)) env subdir timeout)
                (fun _ _ => Q)).
  { eapply wp_conseq; [by apply H|]. intros [u|e|] s' w' H1 Hr; [by apply (H1 u)|done..]. }
  unfold _run_tests. destruct (split_role role) as [[cl ty] id]. apply triple_calm_bind; [calm_units|intros _].
  apply triple_calm_bind; [calm_units|intros r]. apply triple_get. intros s1. apply triple_pure. intros ? ? (-> & -> & ->).
  cbv zeta. do 2 (apply triple_calm_bind; [calm_units|intros _]). eapply triple_bind; [apply triple_file|].
  intros text. apply triple_pure. intros ? ? ([-> ->] & c & ->). set (us := sorted _).
  eapply triple_finally; [|intros ?; apply (triple_still _ _ Q); still_tac]. cbn [bind].
  eapply triple_conseq; [apply (run_specs_execute _ _ _ _ us env subdir timeout specs l)|by intros ?? [_ ->]|].
  intros ? s' t' [Hne ->]. by exists r, c.
Qed.
End Units.

(** ** Images and devices *)

(** The images that exist, and the ones that are mapped on a machine, by device *)
Definition rbd_step (t : gset string * gset (string * string)) (ev : event) : gset string * gset (string * string) :=
  match ev with
  | EvRun _ ("adjust-ulimits" :: "zbkc-coverage" :: _ :: "rbd" :: "-p" :: "rbd" :: "create" :: "--size" :: _ :: name :: _) =>
      ({[name]} ∪ t.1, t.2)
  | EvRun _ ["adjust-ulimits"; "zbkc-coverage"; _; "rbd"; "-p"; "rbd"; "rm"; name] => (t.1 ∖ {[name]}, t.2)
  | EvRun r ("sudo" :: "adjust-ulimits" :: "zbkc-coverage" :: _ :: "rbd" :: "--user" :: _ :: "-p" :: "rbd" :: "map" :: image :: _) =>
      (t.1, {[(r, rbd_devname_rtn image)]} ∪ t.2)
  | EvRun r (_ :: "sudo" :: "adjust-ulimits" :: "zbkc-coverage" :: _ :: "rbd" :: "-p" :: "rbd" :: "unmap" :: dev :: _) =>
      (t.1, t.2 ∖ {[(r, dev)]})
  | _ => t
  end.
Definition rbd_state : list event -> gset string * gset (string * string) := after_events rbd_step (∅, ∅).
Definition below (t D : gset string * gset (string * string)) : Prop := t.1 ⊆ D.1 /\ t.2 ⊆ D.2.

Section Rbd.
Context {E : Env} {S : Type} `{!HasCtx S}.
Context (default_image_name : string -> string)
        (replace_all_with_clients : context -> dict -> dict)
        (generic_mkfs generic_mount : forall A, pyval -> M S A -> M S A).
Abbreviation rtriple P m Q := (triple rbd_step (∅, ∅) P m Q).
Abbreviation Still m := (Runs false (emits (idle rbd_step)) m).

Context (c0 : context).
(** The job's context stays, and no more than [D] exists and is mapped. *)
Definition within (D : gset string * gset (string * string)) (s : S) (t : gset string * gset (string * string)) : Prop := the_ctx s = c0 /\ below t D.
(** [m] leaves no image and no device behind. *)
Definition Restores {A} (m : M S A) : Prop := forall D : gset string * gset (string * string), rtriple (within D) m (fun _ => within D).

Lemma restores_calm {A : Type} (m : M S A) : Runs false (quiet (idle rbd_step)) m -> Restores m.
Proof. intros Hm D. by apply triple_calm. Qed.
Lemma restores_bind {A B : Type} (m : M S A) (k : A -> M S B) : Restores m -> (forall a, Restores (k a)) -> Restores (bind m k).
Proof. intros Hm Hk D. eapply triple_bind; [apply Hm|]. intros a. apply Hk. Qed.

Lemma restores_below {A : Type} (m : M S A) (s : S) (w : world) : the_ctx s = c0 -> Restores m ->
  wp m (fun o _ w' => is_ret o -> below (rbd_state (w_trace w')) (rbd_state (w_trace w))) s w.
Proof.
  intros Hs H. eapply wp_conseq; [apply (H (rbd_state (w_trace w))); by split|].
  intros [a|e|] s' w' H1 Hr; [by apply (H1 a)|done..].
Qed.

(** A resource per element: [claim] of an element is taken by [take_], and given back by [drop_]. *)
Definition add (c D : gset string * gset (string * string)) : gset string * gset (string * string) :=
  (D.1 ∪ c.1, D.2 ∪ c.2).
Definition adds {X} (claim : X -> gset string * gset (string * string)) (l : list X)
  (D : gset string * gset (string * string)) : gset string * gset (string * string) := foldr (fun x => add (claim x)) D l.
Lemma adds_claim {X} (claim : X -> gset string * gset (string * string)) (l : list X) (D : gset string * gset (string * string)) x :
  x ∈ l -> below (claim x) (adds claim l D).
Proof.
  induction l as [|y l IH]; intros Hx; [set_solver|]. cbn [adds foldr]. fold (adds claim l D). unfold below, add; cbn.
  apply elem_of_cons in Hx as [->|Hx]; [set_solver|]. destruct (IH Hx). set_solver.
Qed.
Lemma adds_base {X} (claim : X -> gset string * gset (string * string)) (l : list X)
  (D : gset string * gset (string * string)) : below D (adds claim l D).
Proof.
  induction l as [|y l IH]; cbn [adds foldr]; [by split|]. fold (adds claim l D). destruct IH. unfold below, add; cbn. set_solver.
Qed.
Lemma restores_around {A X : Type} (claim : X -> gset string * gset (string * string)) (l : list X)
  (take_ drop_ : X -> M S unit) (body : M S A) :
  (forall x (D : gset string * gset (string * string)), rtriple (within D) (take_ x) (fun _ => within (add (claim x) D))) ->
  (forall x (D : gset string * gset (string * string)), rtriple (within (add (claim x) D)) (drop_ x) (fun _ => within D)) ->
  Restores body -> Restores (for_ l take_ ;; finally body (for_ l drop_)).
Proof.
  intros Ht Hd Hb D. eapply triple_bind.
  - eapply triple_conseq; [apply (triple_for _ _ (fun rest s t => rest ⊆ l /\ within (adds claim l D) s t))| |intros ??? Q; exact Q].
    + intros x rest. apply triple_pure. intros s t [Hr Hl].
      eapply triple_conseq; [apply (Ht x (adds claim l D))|by intros ?? [-> ->]|]. intros ? s' t' [Hc [H1 H2]]. split; [set_solver|].
      split; [done|]. destruct (adds_claim claim l D x); [set_solver|]. unfold below, add in *; cbn in *. set_solver.
    + intros s t [Hc [H1 H2]]. split; [done|]. split; [done|]. destruct (adds_base claim l D). unfold below in *. set_solver.
  - intros ?. eapply triple_finally.
    + eapply triple_conseq; [apply (Hb (adds claim l D))|by intros ?? []|intros ??? Q; exact Q].
    + intros ?. apply (triple_for _ _ (fun rest => within (adds claim rest D))). intros x rest. apply Hd.
Qed.

(** What the configuration names *)
Definition props_of (v : pyval) : option dict := match v with PNone => Some [] | PDict d => Some d | _ => None end.
Definition name_of (rp : string * pyval) : option string :=
  d ← props_of rp.2;
  match dict_get "image_name" (PStr (default_image_name rp.1)) d with PStr n => Some n | _ => None end.
Lemma with_name {A : Type} (P : S -> gset string * gset (string * string) -> Prop) rp (k : dict -> string -> M S A) Q :
  (forall d n, name_of rp = Some n -> rtriple P (k d n) Q) ->
  rtriple P (d <- properties_of rp.2 ;; n <- image_name default_image_name rp.1 d ;; k d n) Q.
Proof.
  intros Hk. destruct rp as [role v]. cbn [fst snd] in *.
  eapply (triple_bind _ _ _ _ _ (fun d s t => P s t /\ props_of v = Some d)).
  { destruct v; try apply triple_raise; by apply triple_ret. }
  intros d. eapply (triple_bind _ _ _ _ _ (fun n s t => P s t /\ name_of (role, v) = Some n)).
  - unfold image_name, as_str, name_of. cbn [fst snd].
    destruct (dict_get _ _ d) eqn:Hd; try apply triple_raise. apply triple_ret. intros ? ? [HP Hv]. split; [done|].
    by rewrite Hv; cbn [mbind option_bind]; rewrite Hd.
  - intros n. apply triple_pure. intros s t [HP Hn]. eapply triple_conseq; [by apply Hk|by intros ?? [-> ->]|done].
Qed.
Definition image_claim (rp : string * pyval) : gset string * gset (string * string) :=
  (match name_of rp with Some n => {[n]} | None => ∅ end, ∅).
Lemma create_image_restores {A : Type} config (body : M S A) :
  Restores body -> Restores (create_image default_image_name config body).
Proof.
  intros Hb. unfold create_image. apply restores_bind; [apply restores_calm; calm_units|intros images].
  apply (restores_around image_claim); [| |done]; intros rp D.
  - apply with_name. intros d n Hn. cbv zeta. do 3 (apply triple_calm_bind; [calm_units|intros ?]).
    eapply triple_bind; [apply (triple_run _ _ _ _ _ _ (fun _ => within (add (image_claim rp) D)))|intros ?; by apply triple_ret].
    intros p s t [Hc [H1 H2]]. split; [done|]. unfold image_claim. rewrite Hn. unfold below, add; cbn. set_solver.
  - apply with_name. intros d n Hn. do 2 (apply triple_calm_bind; [calm_units|intros ?]).
    eapply triple_bind; [apply (triple_run _ _ _ _ _ _ (fun _ => within D))|intros ?; by apply triple_ret].
    intros p s t [Hc [H1 H2]]. split; [done|]. unfold image_claim, add in *. rewrite Hn in *. unfold below; cbn in *. set_solver.
Qed.

(** The machine of a role, and the device of an image there *)
Definition device_claim (ri : string * pyval) : gset string * gset (string * string) :=
  (∅, match only (String.eqb ri.1) c0 with
      | [r] => match ri.2 with
               | PNone => {[(r, rbd_devname_rtn (default_image_name ri.1))]}
               | PStr image => {[(r, rbd_devname_rtn image)]}
               | _ => ∅
               end
      | _ => ∅
      end).
Lemma remote_of_lone (D : gset string * gset (string * string)) role :
  rtriple (within D) (remote_of role) (fun r s t => within D s t /\ only (String.eqb role) c0 = [r]).
Proof.
  unfold remote_of. apply triple_get. intros s. apply triple_pure. intros s' t (-> & Hc & Ht). rewrite Hc. unfold lone.
  destruct (only _ c0) as [|r [|]]; [apply triple_raise| |apply triple_raise]. apply triple_ret. by intros ?? [-> ->].
Qed.
Lemma with_device {A : Type} (D : gset string * gset (string * string)) ri (k : string -> remote -> M S A) Q :
  (forall image r, device_claim ri = (∅, {[(r, rbd_devname_rtn image)]}) -> rtriple (within D) (k image r) Q) ->
  rtriple (within D) (image <- device_image default_image_name ri ;; r <- remote_of ri.1 ;; k image r) Q.
Proof.
  intros Hk. destruct ri as [role v]; cbn [fst snd] in *.
  eapply (triple_bind _ _ _ _ _ (fun image s t => within D s t /\
            (v = PStr image \/ v = PNone /\ image = default_image_name role))).
  { unfold device_image. destruct v; try apply triple_raise; apply triple_ret; eauto. }
  intros image. apply triple_pure. intros s t [HP Hv]. eapply triple_bind.
  { eapply triple_conseq; [apply remote_of_lone|by intros ?? [-> ->]|intros ??? H; exact H]. }
  intros r. apply triple_pure. intros s' t' [HP' Hr].
  eapply triple_conseq; [apply (Hk image r)|by intros ?? [-> ->]|done].
  unfold device_claim. cbn [fst snd]. rewrite Hr. by destruct Hv as [->|[-> ->]].
Qed.
Lemma dev_create_restores {A : Type} config (body : M S A) :
  Restores body -> Restores (dev_create default_image_name config body).
Proof.
  intros Hb. unfold dev_create. apply restores_bind; [apply restores_calm; calm_units|intros role_images].
  apply (restores_around device_claim); [| |done]; intros ri D.
  - apply with_device. intros image r Hd. apply triple_calm_bind; [calm_units|intros cov].
    eapply triple_bind; [apply (triple_run _ _ _ _ _ _ (fun _ => within (add (device_claim ri) D)))|intros ?; by apply triple_ret].
    intros p s t [Hc [H1 H2]]. split; [done|]. rewrite Hd. unfold below, add; cbn. set_solver.
  - apply with_device. intros image r Hd. do 2 (apply triple_calm_bind; [calm_units|intros ?]).
    eapply triple_bind; [apply (triple_run _ _ _ _ _ _ (fun _ => within D))|intros ?; by apply triple_ret].
    intros p s t [Hc [H1 H2]]. split; [done|]. unfold add in *. rewrite Hd in *. unfold below; cbn in *. set_solver.
Qed.
Lemma modprobe_restores {A : Type} config (body : M S A) : Restores body -> Restores (modprobe config body).
Proof.
  intros Hb. unfold modprobe. apply restores_bind; [apply restores_calm; calm_units|intros roles].
  apply restores_bind; [apply restores_calm; calm_units|intros ?]. intros D.
  eapply triple_finally; [apply Hb|intros ?; apply triple_calm; calm_units].
Qed.

(** Branches of [parallel] that touch no image *)
Lemma parallel_calm (bodies : list (M S unit)) :
  Forall (Runs false (quiet (idle rbd_step))) bodies -> Runs false (quiet (idle rbd_step)) (parallel bodies).
Proof.
  intros Hf. unfold parallel. apply runs_bind; [exact _| |calm_units]. generalize (@None exn).
  induction Hf as [|b bs Hb _ IH]; intros failed; cbn [run_all_of]; [calm_units|].
  apply runs_bind; [exact _| |intros e; apply IH]. apply runs_catch; [exact _| |calm_units].
  apply runs_bind; [exact _|done|calm_units].
Qed.
Lemma xfstests_one_calm role properties : Runs false (quiet (idle rbd_step)) (run_xfstests_one_client role properties : M S unit).
Proof.
  unfold run_xfstests_one_client. calm_units.
Qed.
(** The xfstests task leaves nothing behind: when it returns, no image exists and no image is
    mapped on a machine that was not there before, whatever the tests of the clients did. *)
Theorem xfstests_restores {A : Type} (config : pyval) (body : M S A) (s : S) (w : world) :
  the_ctx s = c0 -> Restores body ->
  wp (xfstests default_image_name replace_all_with_clients config body) (fun o _ w' => is_ret o ->
    below (rbd_state (w_trace w')) (rbd_state (w_trace w))) s w.
Proof.
  intros Hs Hb. apply restores_below; [done|]. unfold xfstests. do 2 (apply restores_bind; [apply restores_calm; calm_units|intros ?]).
  apply restores_bind; [apply restores_calm; calm_units|intros ?]. apply restores_bind; [apply restores_calm; calm_units|intros cfgs].
  cbv zeta. apply create_image_restores, create_image_restores, modprobe_restores, dev_create_restores, dev_create_restores.
  apply restores_bind; [apply restores_calm, parallel_calm, Forall_map, Forall_true; intros ?; apply xfstests_one_calm|done].
Qed.

(** What the configuration of the task stands for keeps the machines as they are, and so does the task.
    Formatting and mounting the devices is left to teuthology, which restores what it takes. *)
Hypothesis mkfs_restores : forall (A : Type) config (body : M S A), Restores body -> Restores (generic_mkfs A config body).
Hypothesis mount_restores : forall (A : Type) config (body : M S A), Restores body -> Restores (generic_mount A config body).

(** C10: the rbd task leaves nothing behind: when it returns, no image exists and no image is
    mapped on a machine that was not there before, whatever the configuration, for a body that
    restores what it takes. *)
Theorem rbd_task_restores {A : Type} (config : pyval) (body : M S A) (s : S) (w : world) :
  the_ctx s = c0 -> Restores body ->
  wp (Rbd.task default_image_name replace_all_with_clients generic_mkfs generic_mount config body) (fun o _ w' => is_ret o ->
    below (rbd_state (w_trace w')) (rbd_state (w_trace w))) s w.
Proof.
  intros Hs Hb. apply restores_below; [done|].
  unfold Rbd.task. apply restores_bind; [apply restores_calm; calm_units|intros s']. cbv zeta.
  apply restores_bind; [apply restores_calm; calm_units|intros role_images].
  by apply create_image_restores, modprobe_restores, dev_create_restores, mkfs_restores, mount_restores.
Qed.
End Rbd.
