(* ===== verification/PoolFacts.v ===== *)
(** * Pools

    Theorems about the pool table and the retried pool settings of [ZbkcManager]. *)
From Stdlib Require Import Ascii QArith Qround Lqa.
From S2P Require Import Prelude PyVal World ZbkcManager.

Section Commands.
Context {E : Env} {F : Fuel}.

(** The event of a cluster command. *)
Definition cluster_cmd (s : mgr) (args : list string) : event := EvRun (controller s) (zbkc_args s ++ args).

Lemma wp_raw_cluster_cmd args (Q : post mgr string) s w :
  (forall p c, respond (cluster_cmd s args) (w_env w) = (p, c) ->
     forall w', w' = after (cluster_cmd s args) c w -> runs_made w' = S (runs_made w) ->
     match raised p with
     | Some e => Q (Exc e) s w'
     | None => if exitstatus p =? 0 then Q (Ret (stdout p)) s w'
               else Q (Exc (CommandFailedError (exitstatus p))) s w'
     end) -> wp (raw_cluster_cmd args) Q s w.
Proof.
  intros H. unfold raw_cluster_cmd. wp_run. apply wp_run_args. intros p c Hp w' Hw Hr.
  specialize (H p c Hp w' Hw Hr). destruct (raised p); [exact H|]. cbn [andb].
  destruct (exitstatus p =? 0); simpl; [wp_run|]; exact H.
Qed.

Lemma wp_raw_cluster_cmd_result args (Q : post mgr Z) s w :
  (forall p c, respond (cluster_cmd s args) (w_env w) = (p, c) ->
     forall w', w' = after (cluster_cmd s args) c w -> runs_made w' = S (runs_made w) ->
     match raised p with
     | Some e => Q (Exc e) s w'
     | None => Q (Ret (exitstatus p)) s w'
     end) -> wp (raw_cluster_cmd_result args) Q s w.
Proof.
  intros H. unfold raw_cluster_cmd_result. wp_run. apply wp_run_args. intros p c Hp w' Hw Hr.
  specialize (H p c Hp w' Hw Hr). destruct (raised p); [exact H|]. simpl. wp_run. exact H.
Qed.

(** ** The pool table *)

Definition same_pools (s s' : mgr) : Prop := pools s' = pools s.
Definition ids_grow (s s' : mgr) : Prop := next_pool_id s <= next_pool_id s'.
Definition same_ids (s s' : mgr) : Prop := next_pool_id s' = next_pool_id s.
#[export] Instance same_pools_preorder : PreOrder same_pools.
Proof. split; unfold same_pools; [done|intros ???; congruence]. Qed.
#[export] Instance ids_grow_preorder : PreOrder ids_grow.
Proof. split; unfold ids_grow; [intros ?; lia|intros ???; lia]. Qed.
#[export] Instance same_ids_preorder : PreOrder same_ids.
Proof. split; unfold same_ids; [done|intros ???; congruence]. Qed.

Lemma create_pool_ids name n ec ms h : Runs true (on_self same_ids) (create_pool name n ec ms h).
Proof. runs_tac. Qed.

(** The commands of a successful [create_pool], in order. *)
Definition create_events (s : mgr) (name : string) (n : Z) (ec : option string) (ms : option Z) (h : bool)
  : list event :=
  [cluster_cmd s
     match ec with
     | Some p => if String.eqb p EmptyString then ["osd"; "pool"; "create"; name; zs n]
                 else ["osd"; "pool"; "create"; name; zs n; zs n; "erasure"; p]
     | None => ["osd"; "pool"; "create"; name; zs n]
     end] ++
  match ms with Some m => [cluster_cmd s ["osd"; "pool"; "set"; name; "min_size"; zs m]] | None => [] end ++
  (if h then [cluster_cmd s ["osd"; "pool"; "set"; name; "debug_white_box_testing_ec_overwrites"; "true"]]
   else []) ++ [EvSleep 1].

(** Running a cluster command for its effect: it returns and extends the trace, or
    raises with the object unchanged. *)
Lemma wp_cmd_unit args (Q : post mgr unit) s w :
  (forall w', w_trace w' = w_trace w ++ [cluster_cmd s args] -> Q (Ret tt) s w') ->
  (forall e w', Q (Exc e) s w') -> wp (raw_cluster_cmd args ;; ret tt) Q s w.
Proof.
  intros Hr He. apply wp_bind, wp_raw_cluster_cmd. intros p c _ w' -> _.
  destruct (raised p); [apply He|]. destruct (exitstatus p =? 0); [|apply He].
  unfold then_. apply wp_ret, Hr. done.
Qed.
Lemma wp_cmd args (Q : post mgr string) s w :
  (forall out w', w_trace w' = w_trace w ++ [cluster_cmd s args] -> Q (Ret out) s w') ->
  (forall e w', Q (Exc e) s w') -> wp (raw_cluster_cmd args) Q s w.
Proof.
  intros Hr He. apply wp_raw_cluster_cmd. intros p c _ w' -> _.
  destruct (raised p); [apply He|]. destruct (exitstatus p =? 0); [by apply Hr|apply He].
Qed.

Lemma create_pool_cases (name : string) (n : Z) (ec : option string) (ms : option Z) (h : bool)
  (s : mgr) (w : world) :
  wp (create_pool name n ec ms h) (fun o s' w' =>
    match pools s !! name with
    | Some _ => o = Exc (AssertionError "pool_name not in self.pools") /\ s' = s /\ w' = w
    | None =>
        match o with
        | Ret _ => s' = set_pools <[name := n]> s /\
                   w_trace w' = w_trace w ++ create_events s name n ec ms h
        | Exc _ => s' = s \/ s' = set_pools <[name := n]> s
        | Stuck => False
        end
    end) s w.
Proof.
  unfold create_pool. destruct (pools s !! name) as [x|] eqn:Hx.
  { do 2 wp_step. wp_step. wp_step. rewrite bool_decide_eq_false_2 by congruence. by wp_run. }
  do 2 wp_step. wp_step. wp_step. rewrite bool_decide_eq_true_2 by done. wp_step. wp_step.
  apply wp_bind.
  apply wp_conseq with (P := fun o s1 w1 => s1 = s /\ match o with
    | Ret _ => w_trace w1 = w_trace w ++ take 1 (create_events s name n ec ms h)
    | Exc _ => True | Stuck => False end).
  { unfold create_events. destruct ec as [p|]; [destruct (String.eqb p EmptyString)|];
      apply wp_cmd; intros; split; try done. }
  intros [out|e|] s1 w1 [-> H1]; unfold then_; [|by left|done]. apply wp_bind.
  apply wp_conseq with (P := fun o s2 w2 => s2 = s /\ match o with
    | Ret _ => w_trace w2 = w_trace w1 ++
        match ms with Some m => [cluster_cmd s ["osd"; "pool"; "set"; name; "min_size"; zs m]] | None => [] end
    | Exc _ => True | Stuck => False end).
  { destruct ms; [apply wp_cmd_unit; intros; by split|]. wp_run. by rewrite app_nil_r. }
  intros [out2|e|] s2 w2 [-> H2]; unfold then_; [|by left|done]. apply wp_bind.
  apply wp_conseq with (P := fun o s3 w3 => s3 = s /\ match o with
    | Ret _ => w_trace w3 = w_trace w2 ++
        (if h then [cluster_cmd s ["osd"; "pool"; "set"; name; "debug_white_box_testing_ec_overwrites"; "true"]]
         else [])
    | Exc _ => True | Stuck => False end).
  { unfold when. destruct h; [apply wp_cmd_unit; intros; by split|]. wp_run. by rewrite app_nil_r. }
  intros [out3|e|] s3 w3 [-> H3]; unfold then_; [|by left|done]. wp_run.
  apply wp_sleep. intros r c Hr w4 -> _. destruct (raised r); [by right|]. split; [done|].
  cbn [w_trace after]. rewrite H3, H2, H1. unfold create_events. cbn [take app].
  rewrite <- !(assoc_L (++)). done.
Qed.

(** C22: [create_pool] refuses a name that is already in the table without running
    anything; otherwise, when it returns, the table gains exactly that pool with
    that pg number and the cluster saw exactly the create command, the optional
    [min_size] and overwrite settings, and the pause, in that order; a failure
    leaves the table unchanged or with that one pool added. *)
Theorem create_pool_spec (name : string) (n : Z) (ec : option string) (ms : option Z) (h : bool)
  (s : mgr) (w : world) :
  wp (create_pool name n ec ms h) (fun o s' w' =>
    match pools s !! name with
    | Some _ => o = Exc (AssertionError "pool_name not in self.pools") /\ s' = s /\ w' = w
    | None =>
        match o with
        | Ret _ => s' = set_pools <[name := n]> s /\
                   w_trace w' = w_trace w ++ create_events s name n ec ms h
        | Exc _ => s' = s \/ s' = set_pools <[name := n]> s
        | Stuck => False
        end
    end) s w.
Proof. apply create_pool_cases. Qed.
Lemma create_unique_spec n ec ms h s w :
  wp (create_pool_with_unique_name n ec ms h) (fun o s' _ =>
    next_pool_id s' = next_pool_id s + 1 /\
    forall name, o = Ret name -> name = "unique_pool_" +:+ zs (next_pool_id s)) s w.
Proof.
  unfold create_pool_with_unique_name. wp_run.
  eapply wp_conseq; [apply create_pool_ids|].
  intros [[]|e|] s' w' [Hid Hst]; cbn in Hid; unfold on_self, same_ids in Hid; cbn in Hid;
    wp_run; (split; [done|]); [by intros ? [= <-]|done..].
Qed.

(** The names [create_pool_with_unique_name] hands out differ, whatever happens
    to the manager between two calls (its counter never goes back). *)
Theorem unique_pool_names {A} (mid : M mgr A) (n1 n2 : Z) (ec1 ec2 : option string)
  (ms1 ms2 : option Z) (h1 h2 : bool) (s : mgr) (w : world) :
  Moves ids_grow mid ->
  wp (a <- create_pool_with_unique_name n1 ec1 ms1 h1 ;; mid ;;
      b <- create_pool_with_unique_name n2 ec2 ms2 h2 ;; ret (a, b))
     (fun o _ _ => forall a b, o = Ret (a, b) -> a <> b) s w.
Proof.
  intros Hmid. apply wp_bind. eapply wp_conseq; [apply create_unique_spec|].
  intros [a|e|] s1 w1 [Hid1 Hn1]; unfold then_; [|done..]. specialize (Hn1 a eq_refl).
  apply wp_bind. eapply wp_conseq; [apply (moves_self ids_grow _ false), Hmid|].
  intros [x|e|] s2 w2 Hid2; unfold then_; [|done..].
  apply wp_bind. eapply wp_conseq; [apply create_unique_spec|].
  intros [b|e|] s3 w3 [Hid3 Hn3]; unfold then_; [|done..]. specialize (Hn3 b eq_refl).
  wp_run. intros ?? [= <- <-]. subst. unfold ids_grow in Hid2.
  intros H. apply (inj (String.append "unique_pool_")) in H. apply (inj pretty) in H. lia.
Qed.

Lemma remove_pool_spec name s w :
  wp (remove_pool name) (fun o s' w' =>
    match pools s !! name with
    | None => o = Exc (AssertionError "pool_name in self.pools") /\ s' = s /\ w' = w
    | Some _ => o <> Stuck /\ s' = set_pools (delete name) s
    end) s w.
Proof.
  unfold remove_pool. do 2 wp_step. wp_step. wp_step. destruct (pools s !! name) as [x|] eqn:Hx.
  - rewrite bool_decide_eq_true_2 by eauto. wp_run.
    assert (Hr : Runs true (on_self eq) (do_rados (controller s)
      ["rmpool"; name; name; "--yes-i-really-really-mean-it"] true)) by runs_tac.
    eapply wp_conseq; [apply Hr|]. intros [r|e|] s' w' [Hs Ht]; unfold on_self in Hs; cbn in Hs;
      wp_run; [done..|by destruct (Ht eq_refl)].
  - rewrite bool_decide_eq_false_2 by (intros [? ?]; congruence). by wp_run.
Qed.

(** C23: [with manager.pool(...)] around a body that leaves the pool table alone gives
    the table back as it was.  When the body raises, the exception gets out and the pool
    stays in the table, because the context manager has no [finally]. *)
Theorem pool_round_trip {A} (body : M mgr A) (name : string) (n : Z) (ec : option string)
  (s : mgr) (w : world) :
  Moves same_pools body -> pools s !! name = None ->
  (forall a s' w', pool name n ec body s w = (Ret a, s', w') -> pools s' = pools s) /\
  (forall e s1 w1 s2 w2, create_pool name n ec None false s w = (Ret tt, s1, w1) ->
     body s1 w1 = (Exc e, s2, w2) ->
     pool name n ec body s w = (Exc e, s2, w2) /\ pools s2 = <[name := n]> (pools s)).
Proof.
  intros Hbody Hnone. pose proof (create_pool_cases name n ec None false s w) as Hc. rewrite Hnone in Hc.
  unfold wp in Hc. split.
  - intros a s' w'. unfold pool, bind at 1.
    destruct (create_pool name n ec None false s w) as [[[[]|e|] s1] w1] eqn:Hcr; [|done..].
    destruct Hc as [-> _]. pose proof (moves_self same_pools _ false (set_pools <[name := n]> s) w1 Hbody) as Hb.
    unfold wp in Hb. unfold bind at 1. destruct (body _ w1) as [[[b|e|] s2] w2]; [|done..].
    unfold same_pools in Hb; cbn in Hb.
    pose proof (remove_pool_spec name s2 w2) as Hr. unfold wp in Hr. unfold bind at 1.
    rewrite Hb, lookup_insert_eq in Hr.
    destruct (remove_pool name s2 w2) as [[[[]|e|] s3] w3]; [|done..]. destruct Hr as [_ ->].
    intros [= _ <- _]. cbn. rewrite Hb. by apply delete_insert_id.
  - intros e s1 w1 s2 w2 Hcr Hb. rewrite Hcr in Hc. destruct Hc as [-> _].
    unfold pool, bind at 1. rewrite Hcr. unfold bind at 1. rewrite Hb. split; [done|].
    pose proof (moves_self same_pools _ false (set_pools <[name := n]> s) w1 Hbody) as Hm.
    unfold wp in Hm. by rewrite Hb in Hm.
Qed.

(** ** Retried settings *)

(** How a series of attempts ends: an answer other than EAGAIN, EAGAIN to the last of them, or
    an exception of the connection, or of a pause *)
Inductive attempts_end := Accepted | Exhausted | Broken (e : exn).
(** The answers to [ev], sent [n] times at most, with a pause of two seconds between two of
    them; and how many times it was sent *)
Fixpoint attempts (ev : event) (n : nat) (c : cstate) : attempts_end * nat :=
  match n with
  | O => (Exhausted, O)
  | S n' =>
      let '(p, c1) := respond ev c in
      match raised p with
      | Some e => (Broken e, 1%nat)
      | None =>
          if negb (exitstatus p =? EAGAIN) then (Accepted, 1%nat)
          else
            match n' with
            | O => (Exhausted, 1%nat)
            | S _ =>
                let '(q, c2) := respond (EvSleep 2) c1 in
                match raised q with
                | Some e => (Broken e, 1%nat)
                | None => let '(v, k) := attempts ev n' c2 in (v, S k)
                end
            end
      end
  end.
Definition attempts_outcome (timed_out : exn) (v : attempts_end) : outcome unit :=
  match v with Accepted => Ret tt | Exhausted => Exc timed_out | Broken e => Exc e end.
Lemma attempts_count ev n c : ((attempts ev n c).2 <= n)%nat.
Proof.
  revert c; induction n as [|n IH]; intros c; cbn [attempts]; [done|]. destruct (respond ev c) as [p c1].
  destruct (raised p); [cbn; lia|]. destruct (negb _); [cbn; lia|]. destruct n as [|n]; [done|].
  destruct (respond (EvSleep 2) c1) as [q c2]. destruct (raised q); [cbn; lia|]. specialize (IH c2).
  destruct (attempts ev (S n) c2) as [v k]. cbn [snd] in *. lia.
Qed.

(** C25: [set_pool_property] sends its command at most 51 times, two seconds apart, as long as
    the answer is EAGAIN: it returns after the first other answer, raises the timeout after the
    51st EAGAIN, and passes an exception of the connection on at once; it changes nothing of
    the manager. *)
Theorem set_pool_property_retries (name prop : string) (val : Z) (s : mgr) (w : world) :
  (51 < fuel)%nat ->
  let run := attempts (cluster_cmd s ["osd"; "pool"; "set"; name; prop; zs val]) 51 (w_env w) in
  (run.2 <= 51)%nat /\
  wp (set_pool_property name prop val) (fun o s' w' => s' = s /\
    o = attempts_outcome (eagain_timeout name prop val) run.1 /\ runs_made w' = (runs_made w + run.2)%nat) s w.
Proof.
  intros Hfuel. cbv zeta. split; [apply (attempts_count _ 51)|].
  unfold set_pool_property. set (ev := cluster_cmd s _).
  apply wp_loop_total with (v := fun tries _ _ => Z.to_nat (51 - tries))
    (I := fun tries s1 w1 => s1 = s /\ 0 <= tries <= 50 /\
       let r := attempts ev (S (Z.to_nat (50 - tries))) (w_env w1) in
       (attempts ev 51 (w_env w)).1 = r.1 /\ (runs_made w + (attempts ev 51 (w_env w)).2 = runs_made w1 + r.2)%nat);
    [|split; [done|]; split; [lia|]; by split|lia].
  intros tries s1 w1 (-> & Ht & Hr & Hk). cbv zeta in *. apply wp_bind, wp_raw_cluster_cmd_result.
  fold ev. intros p c Hp w2 -> Hr2. rewrite Hr. rewrite Hk in *. clear Hr Hk. cbn [attempts] in *. rewrite Hp.
  destruct (raised p) as [e|]; unfold then_; [split_ands; [done..|cbn [snd]; lia]|].
  destruct (exitstatus p =? EAGAIN) eqn:He; cbn [negb]; [|apply wp_ret; split_ands; [done..|cbn [snd]; lia]].
  destruct (Z.to_nat (50 - tries)) as [|n] eqn:Hn.
  { rewrite (proj2 (Z.ltb_lt _ _)) by lia. apply wp_raise. split_ands; [done..|cbn [snd]; lia]. }
  rewrite (proj2 (Z.ltb_ge _ _)) by lia. apply wp_bind, wp_sleep. intros r c' Hsl w3 -> Hr3. cbn in Hsl. rewrite Hsl.
  destruct (raised r) as [e|]; unfold then_; [split_ands; [done..|cbn [snd]; lia]|]. apply wp_ret.
  replace (Z.to_nat (50 - (tries + 1))) with n by lia. cbn [after w_env].
  destruct (attempts ev (S n) c') as [v k] eqn:Ha. cbn [attempts] in Ha. rewrite Ha. cbn [fst snd].
  split_ands; [done|lia..|done|lia|lia].
Qed.

(** Only EAGAIN is retried: any other status, failures such as EINVAL included, ends
    [set_pool_property] normally after that one command. *)
Theorem set_pool_property_accepts_failure (name prop : string) (val : Z) (s : mgr) (w : world)
  (p : reply) (c : cstate) :
  respond (cluster_cmd s ["osd"; "pool"; "set"; name; prop; zs val]) (w_env w) = (p, c) ->
  raised p = None -> exitstatus p <> EAGAIN -> (0 < fuel)%nat ->
  set_pool_property name prop val s w =
    (Ret tt, s, after (cluster_cmd s ["osd"; "pool"; "set"; name; prop; zs val]) c w).
Proof.
  intros Hp Hraise Hst Hfuel. unfold set_pool_property. destruct fuel as [|k]; [lia|].
  cbn [loop]. unfold bind at 1 2, raw_cluster_cmd_result, bind, get, run, bind, emit. cbn -[zbkc_args].
  unfold cluster_cmd in *. rewrite Hp. cbn -[zbkc_args]. rewrite Hraise. cbn -[zbkc_args].
  destruct (Z.eqb_spec (exitstatus p) EAGAIN); [done|]. done.
Qed.

End Commands.
