(* ===== verification/PgFacts.v ===== *)
(** * Placement-group reports

    Theorems about the counters computed from [pg dump], the state histogram, the
    paged list of missing objects, scrub requests, and growing a pool. *)
From Stdlib Require Import Ascii QArith Qround Lqa.
From S2P Require Import Prelude PyVal World ZbkcManager WaitFacts PoolFacts.

(** The state string of a pg record, and of all of them. *)
Definition state_of (pg : pyval) : option string :=
  match pg with
  | PDict d => match dict_lookup "state" d with Some (PStr st) => Some st | _ => None end
  | _ => None
  end.
Definition states_of (pgs : list pyval) : option (list string) := mapM state_of pgs.
Definition counted (test : string -> bool) (sts : list string) : Z :=
  Z.of_nat (length (List.filter test sts)).

Lemma counted_le (p q : string -> bool) sts :
  (forall st, p st = true -> q st = true) -> counted p sts <= counted q sts.
Proof.
  intros H. unfold counted. induction sts as [|st sts IH]; simpl; [done|].
  destruct (p st) eqn:Hp, (q st) eqn:Hq; simpl; try lia. by rewrite H in Hq.
Qed.
Lemma counted_or (p q r : string -> bool) sts :
  (forall st, r st = true -> p st = true \/ q st = true) ->
  counted r sts <= counted p sts + counted q sts.
Proof.
  intros H. unfold counted. induction sts as [|st sts IH]; simpl; [done|].
  specialize (H st). destruct (r st), (p st), (q st); simpl; lia.
Qed.
Lemma counted_length p sts : counted p sts <= Z.of_nat (length sts).
Proof. unfold counted. induction sts as [|st sts IH]; simpl; [done|]. destruct (p st); simpl; lia. Qed.
Lemma counted_all p sts :
  counted p sts = Z.of_nat (length sts) <-> Forall (fun st => p st = true) sts.
Proof.
  unfold counted. induction sts as [|st sts IH]; simpl; [by split|].
  pose proof (counted_length p sts) as Hl. unfold counted in Hl.
  rewrite Forall_cons, <- IH. destruct (p st); simpl; split; intros; [split; [done|]|..]; lia.
Qed.

Section Pgs.
Context {E : Env} {F : Fuel}.

Lemma pg_state_ret pg st s w : state_of pg = Some st -> pg_state pg s w = (Ret st, s, w).
Proof.
  unfold state_of, pg_state, subscript. destruct pg as [| | | | | |d]; try done.
  destruct (dict_lookup "state" d) as [v|] eqn:Hd; [|done]. destruct v; try done. intros [= ->].
  done.
Qed.

Lemma count_states_ret test pgs sts n s w :
  states_of pgs = Some sts -> count_states test pgs n s w = (Ret (n + counted test sts), s, w).
Proof.
  unfold states_of. revert sts n; induction pgs as [|pg pgs IH]; intros sts n; simpl.
  - intros [= <-]. unfold counted; simpl. by rewrite Z.add_0_r.
  - destruct (state_of pg) as [st|] eqn:Hst; [|done]. simpl.
    destruct (mapM state_of pgs) as [sts'|] eqn:Hm; [|done]. intros [= <-].
    unfold bind. rewrite (pg_state_ret _ _ _ _ Hst), (IH sts' _ eq_refl).
    unfold counted; simpl. destruct (test st); simpl; do 3 f_equal; lia.
Qed.

(** On one and the same dump the counters of the manager are nested: clean and
    recovered pgs are active, active and down ones are [active_down], nothing else
    is, and no counter exceeds the number of pgs. *)
Theorem pg_counters_nested (pgs : list pyval) (sts : list string) (s : mgr) (w : world) :
  states_of pgs = Some sts ->
  exists clean recovered active down active_down : Z,
    count_states is_active_clean pgs 0 s w = (Ret clean, s, w) /\
    count_states is_active_recovered pgs 0 s w = (Ret recovered, s, w) /\
    count_states is_active_pg pgs 0 s w = (Ret active, s, w) /\
    count_states is_down_pg pgs 0 s w = (Ret down, s, w) /\
    count_states is_active_down pgs 0 s w = (Ret active_down, s, w) /\
    clean <= active /\ recovered <= active /\ active <= active_down /\ down <= active_down /\
    active_down <= active + down /\ active_down <= Z.of_nat (length pgs).
Proof.
  intros Hsts. do 5 eexists. split_ands; [by apply count_states_ret..| | | | | |].
  1-4: simpl; apply counted_le; intros st;
    unfold is_active_clean, is_active_recovered, is_active_pg, is_active_down, is_down_pg;
    destruct (has "active" st), (has "clean" st), (has "stale" st), (has "recover" st),
      (has "backfill" st), (has "down" st), (has "incomplete" st); done.
  - simpl. apply counted_or. intros st. unfold is_active_down, is_active_pg, is_down_pg.
    destruct (has "active" st), (has "stale" st), (has "down" st), (has "incomplete" st); auto.
  - simpl. rewrite (length_mapM _ _ _ Hsts). apply counted_length.
Qed.

(** The count of clean pgs reaches the number of pgs in the dump exactly when every
    state string contains "active" and "clean" and not "stale". *)
Theorem all_pgs_clean_iff (pgs : list pyval) (sts : list string) (s : mgr) (w : world) :
  states_of pgs = Some sts ->
  count_states is_active_clean pgs 0 s w = (Ret (Z.of_nat (length pgs)), s, w) <->
  Forall (fun st => str_in "active" st = true /\ str_in "clean" st = true /\ str_in "stale" st = false) sts.
Proof.
  intros Hsts. rewrite (count_states_ret _ _ _ _ _ _ Hsts), (length_mapM _ _ _ Hsts). simpl.
  transitivity (counted is_active_clean sts = Z.of_nat (length sts)); [split; [by intros [= H]|by intros ->]|].
  rewrite counted_all. apply Forall_iff. intros st. unfold is_active_clean, has.
  autorewrite with pystr. rewrite !andb_true_iff, negb_true_iff. tauto.
Qed.

(** ** The histogram *)

Definition words (sts : list string) : list string := concat (map (split_on "+") sts).
Definition hist_of (ws : list string) : gmap string Z := foldl (fun h w => bump w h) ∅ ws.

Lemma bump_lookup (h : gmap string Z) ws k :
  foldl (fun h w => bump w h) h ws !! k =
    if bool_decide (k ∈ ws) || bool_decide (is_Some (h !! k))
    then Some (default 0 (h !! k) + Z.of_nat (length (List.filter (String.eqb k) ws))) else None.
Proof.
  revert h; induction ws as [|x ws IH]; intros h; cbn [foldl List.filter].
  - rewrite bool_decide_eq_false_2 by apply not_elem_of_nil. simpl.
    destruct (h !! k) eqn:Hk; simpl; [by rewrite Z.add_0_r|done].
  - rewrite IH. unfold bump. destruct (decide (x = k)) as [->|Hne].
    + rewrite lookup_insert_eq, String.eqb_refl. rewrite (bool_decide_eq_true_2 (k ∈ k :: ws)) by set_solver.
      rewrite (bool_decide_eq_true_2 (is_Some (Some _))) by eauto. rewrite orb_true_r. simpl. f_equal. lia.
    + rewrite lookup_insert_ne by done. destruct (String.eqb_spec k x); [congruence|].
      assert (Hiff : k ∈ x :: ws <-> k ∈ ws) by (rewrite elem_of_cons; intuition congruence).
      by rewrite (bool_decide_ext _ _ Hiff).
Qed.

Lemma compile_states_ret pgs sts h s w :
  states_of pgs = Some sts ->
  compile_states pgs h s w = (Ret (foldl (fun h w => bump w h) h (words sts)), s, w).
Proof.
  unfold states_of. revert sts h; induction pgs as [|pg pgs IH]; intros sts h; simpl.
  - by intros [= <-].
  - destruct (state_of pg) as [st|] eqn:Hst; [|done]. simpl.
    destruct (mapM state_of pgs) as [sts'|] eqn:Hm; [|done]. intros [= <-].
    unfold bind. rewrite (pg_state_ret _ _ _ _ Hst), (IH sts' _ eq_refl).
    unfold words. simpl. by rewrite foldl_app.
Qed.

(** [compile_pg_status] counts words: a key is present exactly when some pg's state
    has that word between "+" signs, and its value is the number of occurrences. *)
Theorem compile_states_histogram (pgs : list pyval) (sts : list string) (s : mgr) (w : world) :
  states_of pgs = Some sts ->
  exists hist, compile_states pgs ∅ s w = (Ret hist, s, w) /\
    forall k, hist !! k = if bool_decide (k ∈ words sts)
                          then Some (Z.of_nat (length (List.filter (String.eqb k) (words sts)))) else None.
Proof.
  intros Hsts. eexists. split; [by apply compile_states_ret|]. intros k.
  rewrite bump_lookup, lookup_empty. rewrite (bool_decide_eq_false_2 (is_Some None)) by by intros [].
  by rewrite orb_false_r.
Qed.
(** ** Growing a pool *)

Lemma num_creating_self : Runs true (on_self eq) get_num_creating.
Proof. runs_tac. Qed.
Lemma set_pool_property_self name prop val : Runs false (on_self eq) (set_pool_property name prop val).
Proof. runs_tac. Qed.

(** What [expand_pool] leaves behind: the table as it was, or the one entry grown. *)
Lemma expand_pool_spec name by_ bound cur s w :
  pools s !! name = Some cur ->
  wp (expand_pool name by_ bound) (fun o s' _ =>
    s' = s \/ (s' = set_pools <[name := cur + by_]> s /\ py_gt (PInt (cur + by_)) bound = false)) s w.
Proof.
  intros Hcur. unfold expand_pool. do 3 wp_step. wp_step.
  rewrite bool_decide_eq_true_2 by eauto. wp_step. wp_step. apply wp_bind.
  eapply wp_conseq; [apply num_creating_self|].
  intros [n|e|] s1 w1 [Hs _]; unfold on_self in Hs; cbn in Hs; subst s1; unfold then_; [|by left..].
  wp_step; [by wp_run; left|]. do 3 wp_step. do 2 wp_step. rewrite Hcur.
  do 2 wp_step. wp_step; [by wp_run; left|].
  apply wp_bind. eapply wp_conseq; [apply set_pool_property_self|].
  intros [[]|e|] s2 w2 [Hs _]; unfold on_self in Hs; cbn in Hs; subst s2; unfold then_; [|by left..].
  wp_run. by right.
Qed.

(** With a numeric bound, [expand_pool] never takes a pool past it, whatever the
    cluster answers and however the call ends. *)
Theorem expand_pool_respects_bound (name : string) (by_ cur bound : Z) (s : mgr) (w : world) :
  pools s !! name = Some cur -> cur <= bound ->
  wp (expand_pool name by_ (PInt bound)) (fun _ s' _ =>
    exists n, pools s' !! name = Some n /\ n <= bound) s w.
Proof.
  intros Hcur Hle. eapply wp_conseq; [by apply expand_pool_spec|].
  intros o s' w' [->|[-> Hgt]]; [by eauto|]. exists (cur + by_). cbn.
  split; [apply lookup_insert_eq|]. unfold py_gt in Hgt; simpl in Hgt.
  destruct (Qcompare_spec (inject_Z (cur + by_)) (inject_Z bound)) as [Heq|Hlt|Hgt']; [| |done].
  - unfold Qeq in Heq; simpl in Heq. lia.
  - rewrite <- Zlt_Qlt in Hlt. lia.
Qed.

(** ** Missing objects, page by page *)

Definition page_objects (j : pyval) : option (list pyval) :=
  match j with
  | PDict d => match dict_lookup "objects" d with Some (PList l) => Some l | _ => None end
  | _ => None
  end.
(** No more pages after [j]. *)
Definition last_page (d : dict) : bool :=
  match dict_lookup "more" d with
  | None => true
  | Some more => match num_of more with Some q => Qeq_bool q 0 | None => false end
  end.
Definition missing_cmd (pgid : string) (offset : pyval) : list string :=
  ["--"; "pg"; pgid; "list_missing"; Json.dumps offset].

(** The pages the cluster serves from [offset] on, each page's offset being the
    [oid] of the last object of the page before. *)
Inductive pages (pgid : string) (s : mgr) : pyval -> world -> list (list pyval) -> world -> Prop :=
| pages_last offset w out d l w' :
    raw_cluster_cmd (missing_cmd pgid offset) s w = (Ret out, s, w') ->
    Json.loads out = Some (PDict d) -> page_objects (PDict d) = Some l -> last_page d = true ->
    pages pgid s offset w [l] w'
| pages_more offset w out d l o oid w1 ls w' :
    raw_cluster_cmd (missing_cmd pgid offset) s w = (Ret out, s, w1) ->
    Json.loads out = Some (PDict d) -> page_objects (PDict d) = Some l -> last_page d = false ->
    last l = Some (PDict o) -> dict_lookup "oid" o = Some oid ->
    pages pgid s oid w1 ls w' ->
    pages pgid s offset w (l :: ls) w'.

(** One round of the loop of [list_pg_missing]. *)
Definition missing_round (pgid : string) (st : option pyval * pyval) : M mgr (option pyval * pyval + pyval) :=
  let '(r, offset) := st in
  out <- raw_cluster_cmd (missing_cmd pgid offset) ;;
  j <- json_loads out ;;
  r <- match r with None => ret j | Some r => extend_objects r j end ;;
  jd <- as_dict j ;;
  match dict_lookup "more" jd with
  | None => ret (inr r)
  | Some more =>
      if match num_of more with Some q => Qeq_bool q 0 | None => false end then ret (inr r)
      else
        jo <- subscript j "objects" ;; jl <- as_list jo ;;
        o <- of_option IndexError (last jl) ;;
        offset <- subscript o "oid" ;;
        ret (inl (Some r, offset))
  end.

Lemma extend_objects_ret d1 l1 d2 l2 s w :
  page_objects (PDict d1) = Some l1 -> page_objects (PDict d2) = Some l2 ->
  exists d, extend_objects (PDict d1) (PDict d2) s w = (Ret (PDict d), s, w) /\
    page_objects (PDict d) = Some (l1 ++ l2).
Proof.
  unfold page_objects. destruct (dict_lookup "objects" d1) as [[]|] eqn:H1; try done.
  destruct (dict_lookup "objects" d2) as [[]|] eqn:H2; try done. intros [= ->] [= ->].
  eexists. split.
  - unfold extend_objects, subscript, bind; cbn -[dict_lookup]. rewrite H1. cbn -[dict_lookup].
    rewrite H2. reflexivity.
  - by rewrite dict_lookup_set.
Qed.

(** The accumulator after a page: the page itself, or the earlier ones extended. *)
Definition accumulated (r : option pyval) (ls : list (list pyval)) : Prop :=
  match r with
  | None => ls = []
  | Some (PDict d) => page_objects (PDict d) = Some (concat ls)
  | Some _ => False
  end.

Lemma missing_acc r pre d l s w :
  accumulated r pre -> page_objects (PDict d) = Some l ->
  exists d', (match r with None => ret (PDict d) | Some r => extend_objects r (PDict d) end) s w
             = (Ret (PDict d'), s, w) /\ page_objects (PDict d') = Some (concat pre ++ l).
Proof.
  intros Hacc Hl. destruct r as [[]|]; simpl in Hacc; try done.
  - by apply extend_objects_ret.
  - subst. simpl. eauto.
Qed.

Lemma missing_round_ret pgid r pre offset out d l s w w1 :
  accumulated r pre ->
  raw_cluster_cmd (missing_cmd pgid offset) s w = (Ret out, s, w1) ->
  Json.loads out = Some (PDict d) -> page_objects (PDict d) = Some l ->
  exists d', page_objects (PDict d') = Some (concat pre ++ l) /\
    missing_round pgid (r, offset) s w =
      (if last_page d then ret (inr (PDict d'))
       else o <- of_option IndexError (last l) ;;
            offset <- subscript o "oid" ;; ret (inl (Some (PDict d'), offset))) s w1.
Proof.
  intros Hacc Hcmd Hj Hl. destruct (missing_acc r pre d l s w1 Hacc Hl) as (d' & Hext & Hobj).
  exists d'. split; [done|]. unfold missing_round.
  rewrite (bind_run _ _ _ _ _ _ _ Hcmd).
  erewrite bind_run by (unfold json_loads; rewrite Hj; reflexivity).
  rewrite (bind_run _ _ _ _ _ _ _ Hext).
  erewrite bind_run by reflexivity.
  unfold last_page. destruct (dict_lookup "more" d) as [more|]; [|done].
  destruct (match num_of more with Some q => _ | None => _ end); [done|].
  unfold page_objects in Hl. destruct (dict_lookup "objects" d) as [[]|] eqn:Ho; try done.
  injection Hl as ->. erewrite bind_run by (unfold subscript; rewrite Ho; reflexivity). done.
Qed.

Lemma pages_loop pgid s offset w ls w' :
  pages pgid s offset w ls w' -> forall n r pre, (length ls <= n)%nat -> accumulated r pre ->
  exists d, loop n (missing_round pgid) (r, offset) s w = (Ret (PDict d), s, w') /\
    page_objects (PDict d) = Some (concat (pre ++ ls)).
Proof.
  induction 1 as [offset w out d l w' Hcmd Hj Hl Hlast
                 |offset w out d l o oid w1 ls w' Hcmd Hj Hl Hmore Ho Hoid Hp IH];
    intros n r pre Hn Hacc; (destruct n as [|n]; [simpl in Hn; lia|]);
    destruct (missing_round_ret pgid r pre offset out d l s w _ Hacc Hcmd Hj Hl) as (d' & Hobj & Hround);
    cbn [loop]; unfold bind at 1; rewrite Hround.
  - rewrite Hlast. exists d'. split; [done|]. by rewrite concat_app, Hobj; simpl; rewrite app_nil_r.
  - rewrite Hmore, Ho. erewrite bind_run by reflexivity.
    erewrite bind_run by (unfold subscript; rewrite Hoid; reflexivity). unfold ret at 1.
    destruct (IH n (Some (PDict d')) (pre ++ [l])) as (d2 & Hloop & Hobj2).
    + simpl in Hn; lia.
    + simpl. by rewrite concat_app; simpl; rewrite app_nil_r.
    + exists d2. split; [exact Hloop|]. by rewrite Hobj2, <- (assoc_L (++)).
Qed.

(** C37: [list_pg_missing] follows the cluster's pages to the last one and returns their
    objects, in order and complete, in one dictionary; the number of rounds is the
    number of pages. *)
Theorem list_pg_missing_all_pages (pgid : string) (ls : list (list pyval)) (s : mgr) (w w' : world) :
  pages pgid s (PDict []) w ls w' -> (length ls <= fuel)%nat ->
  exists r, list_pg_missing pgid s w = (Ret r, s, w') /\ page_objects r = Some (concat ls).
Proof.
  intros Hp Hn. destruct (pages_loop _ _ _ _ _ _ Hp fuel None [] Hn eq_refl) as (d & Hloop & Hobj).
  exists (PDict (if dict_has "more" d then dict_del "more" d else d)). split.
  - unfold list_pg_missing. unfold bind at 1.
    change (loop fuel _ _ s w) with (loop fuel (missing_round pgid) (None, PDict []) s w).
    rewrite Hloop. reflexivity.
  - destruct (dict_has "more" d); [|exact Hobj]. simpl. simpl in Hobj.
    by rewrite dict_lookup_del.
Qed.

(** ** Scrubbing a pg *)

(** [ev] asks the cluster to scrub: the command words are [pg <stype> <pgid>]. *)
Definition scrub_request (stype : string) (ev : event) : bool :=
  match ev with
  | EvRun _ args =>
      match drop 9 args with
      | [a; b; _] => String.eqb a "pg" && String.eqb b stype
      | _ => false
      end
  | _ => false
  end.
Definition requests (stype : string) (w : world) : nat :=
  length (List.filter (scrub_request stype) (w_trace w)).

Lemma requests_quiet stype (s s' : mgr) w w' :
  emits (fun ev => scrub_request stype ev = false) (s, w) (s', w') -> requests stype w' = requests stype w.
Proof.
  intros (evs & Htr & Hf). unfold requests. cbn in Htr. rewrite Htr, List.filter_app, length_app.
  enough (length (List.filter (scrub_request stype) evs) = 0%nat) by lia.
  clear Htr. induction Hf as [|ev evs Hev Hf IH]; simpl; [done|]. by rewrite Hev.
Qed.
Lemma requests_after stype ev c w :
  requests stype (after ev c w) = (requests stype w + if scrub_request stype ev then 1 else 0)%nat.
Proof.
  unfold requests, after; cbn [w_trace]. rewrite List.filter_app, length_app. simpl.
  by destruct (scrub_request stype ev).
Qed.

Lemma scrub_cmd_quiet (s : mgr) stype a b c :
  (a =? "pg")%string && (b =? stype)%string = false ->
  EmitOk (S := mgr) (emits (fun ev => scrub_request stype ev = false)) (EvRun (controller s) (zbkc_args s ++ [a; b; c])).
Proof. intros H. by apply emits_emit. Qed.

Lemma quiet_pgid stype pool pgnum :
  Runs true (emits (fun ev => scrub_request stype ev = false)) (get_pgid pool pgnum).
Proof. runs_tac. by apply scrub_cmd_quiet. Qed.
Lemma quiet_stamp stype pool pgnum :
  stype <> "dump" ->
  Runs true (emits (fun ev => scrub_request stype ev = false)) (get_last_scrub_stamp pool pgnum).
Proof.
  intros Hne. pose proof (quiet_pgid stype pool pgnum). runs_tac.
  apply scrub_cmd_quiet. by destruct (String.eqb_spec "dump" stype).
Qed.

Definition scrubs_by (timer : Z) : nat := Z.to_nat ((timer + 119) / 120).
Lemma scrubs_by_le timer : timer <= 360 -> (scrubs_by timer <= 3)%nat.
Proof.
  intros H. unfold scrubs_by. pose proof (Z.div_le_mono (timer + 119) 479 120).
  change (479 / 120) with 3 in *. lia.
Qed.

Lemma scrub_resend (timer : Z) (pool pgnum stype : string) (s : mgr) (w : world) :
  wp (when (timer mod RESEND_TIMEOUT =? 0)
        (pgid <- get_pgid pool pgnum ;; raw_cluster_cmd ["pg"; stype; pgid] ;; ret tt))
     (fun o _ w' => o <> Stuck /\
        (requests stype w' <= requests stype w + if (timer mod 120 =? 0)%Z then 1 else 0)%nat) s w.
Proof.
  unfold when, RESEND_TIMEOUT. destruct (timer mod 120 =? 0); [|wp_run; split; [done|lia]].
  apply wp_bind. eapply wp_conseq; [apply (quiet_pgid stype)|].
  intros [pgid|e|] s3 w3 [Hq3%requests_quiet Ht3]; unfold then_; [|split; [done|lia]|by destruct (Ht3 eq_refl)].
  apply wp_bind, wp_raw_cluster_cmd. intros p c _ w4 -> _.
  assert (Hrq : (requests stype (after (cluster_cmd s3 ["pg"; stype; pgid]) c w3) <= requests stype w + 1)%nat)
    by (rewrite requests_after, Hq3; destruct (scrub_request _ _); lia).
  destruct (raised p); [by split|]. destruct (exitstatus p =? 0); unfold then_; [wp_run|]; by split.
Qed.

(** [do_pg_scrub] ends within 37 rounds and asks the cluster to scrub at most three
    times (at 0, 120 and 240 seconds); when it returns, the last thing it read was a scrub
    stamp that differs from the one it read first. *)
Theorem do_pg_scrub_bounded (pool pgnum stype : string) (s : mgr) (w : world) :
  stype <> "dump" -> (37 < fuel)%nat ->
  wp (do_pg_scrub pool pgnum stype) (fun o s' w' =>
    o <> Stuck /\ (requests stype w' <= requests stype w + 3)%nat /\
    (o = Ret tt -> exists stamp s1 w1 stamp' s2 w2,
       get_last_scrub_stamp pool pgnum s w = (Ret stamp, s1, w1) /\
       get_last_scrub_stamp pool pgnum s2 w2 = (Ret stamp', s', w') /\ py_eq stamp stamp' = false)) s w.
Proof.
  intros Hst Hfuel. unfold do_pg_scrub. apply wp_bind.
  eapply wp_conseq; [apply wp_with_eq; by apply (quiet_stamp stype)|].
  intros [init|e|] s0 w0 [Hi0 [Hq%requests_quiet Ht]]; unfold then_; [|by split_ands; [|lia|]|by destruct (Ht eq_refl)].
  apply wp_bind. apply wp_while_total with
    (v := fun timer _ _ => Z.to_nat ((370 - timer) / 10))
    (I := fun timer _ w1 => (exists i, timer = 10 * i) /\ 0 <= timer <= 360 /\
                            (requests stype w1 <= requests stype w + scrubs_by timer)%nat).
  2: { unfold scrubs_by. split_ands; [by exists 0|lia|lia|lia]. }
  2: { change ((370 - 0) / 10) with 37. lia. }
  intros timer s1 w1 ([i Hi] & Hti & Hreq). apply wp_bind.
  pose proof (scrubs_by_le timer ltac:(lia)) as Hb.
  eapply wp_conseq; [apply wp_with_eq; by apply (quiet_stamp stype)|].
  intros [stamp|e|] s2 w2 [Hi2 [Hq2%requests_quiet Ht2]]; unfold then_; [|by split_ands; [|lia|]|by destruct (Ht2 eq_refl)].
  apply wp_ret. unfold then_. destruct (py_eq init stamp) eqn:Heq; [|wp_run; split_ands; [done|lia|by repeat eexists]].
  do 3 wp_step; [|by wp_run; split_ands; [|lia|]]. do 3 wp_step.
  assert (Hlt : timer < 360) by (unfold FATAL_TIMEOUT, RESEND_TIMEOUT in *; lia).
  pose proof (scrubs_by_le (timer + 10) ltac:(lia)) as Hb'.
  assert (Hstep : (scrubs_by timer + (if (timer mod 120 =? 0)%Z then 1 else 0) <= scrubs_by (timer + 10))%nat).
  { subst timer. unfold scrubs_by. destruct (Z.eqb_spec ((10 * i) mod 120) 0);
      Z.to_euclidean_division_equations; lia. }
  eapply wp_conseq; [apply scrub_resend|].
  intros [[]|e|] s3 w3 [Ht3 Hq3]; unfold then_; [|by split_ands; [|lia|]|done].
  apply wp_bind, wp_sleep. intros r c _ w4 -> _.
  assert (Hsl : requests stype (after (EvSleep (inject_Z SLEEP_TIME)) c w3) = requests stype w3)
    by (rewrite requests_after; simpl; lia).
  destruct (raised r); unfold then_; [by split_ands; [|lia|]|]. wp_run. rewrite Hsl. unfold SLEEP_TIME.
  split; [split; [exists (i + 1); lia|lia]|]. subst timer.
  Z.to_euclidean_division_equations; lia.
Qed.

End Pgs.
