(* ===== verification/Rados.v ===== *)
(** * [util.rados] (tasks/util/rados.py) and what the scripted tasks share

    The scripted tasks drive the cluster through a [ZbkcManager] and write objects with
    the [rados] command.  [ctx] is the context of the manager a task runs on.
    [teuthology.get_first_mon], [num_instances_of_type] and [all_roles_of_type] are not
    part of the sources and are arguments where a task uses them. *)
From Stdlib Require Import Ascii QArith Qround Lqa.
From S2P Require Import Prelude PyVal World ZbkcManager ManagerWait Conf.

(** ** [util.rados], for whatever object holds the [ctx] *)
Section UtilRados.
Context {E : Env} {S : Type} `{!HasCtx S}.
Abbreviation MS A := (M S A).

Definition rados_pre (c : context) : list string :=
  ["adjust-ulimits"; "zbkc-coverage"; testdir c +:+ "/archive/coverage"; "rados"].

(** [rados(ctx, remote, cmd)]: the exit status, which is not checked. *)
Definition rados (r : remote) (cmd : list string) : MS Z :=
  s <- get ;;
  p <- run r (rados_pre (the_ctx s) ++ cmd) false ;;
  ret (exitstatus p).
(** [rados(ctx, remote, cmd, wait=False)] *)
Definition rados_nowait (r : remote) (cmd : list string) : MS proc :=
  s <- get ;; start r (rados_pre (the_ctx s) ++ cmd).
(** [rados_start] of osd_backfill.py and osd_recovery.py *)
Definition rados_start (r : remote) (cmd : list string) : MS proc :=
  s <- get ;; start r (rados_pre (the_ctx s) ++ cmd).

Definition create_ec_pool (r : remote) (name profile_name : string) (pgnum : Z) (profile : list (string * string))
  : MS unit :=
  run r (["sudo"; "zbkc"] ++ cmd_erasure_code_profile profile_name profile) true ;;
  run r ["sudo"; "zbkc"; "osd"; "pool"; "create"; name; zs pgnum; zs pgnum; "erasure"; profile_name] true ;;
  ret tt.
Definition create_replicated_pool (r : remote) (name : string) (pgnum : Z) : MS unit :=
  run r ["sudo"; "zbkc"; "osd"; "pool"; "create"; name; zs pgnum; zs pgnum] true ;; ret tt.
Definition create_cache_pool (r : remote) (base_name cache_name : string) (pgnum size : Z) : MS unit :=
  run r ["sudo"; "zbkc"; "osd"; "pool"; "create"; cache_name; zs pgnum] true ;;
  run r ["sudo"; "zbkc"; "osd"; "tier"; "add-cache"; base_name; cache_name; zs size] true ;;
  ret tt.
End UtilRados.

Section Rados.
Context {E : Env} {F : Fuel}.
Abbreviation MM A := (M mgr A).

(** ** Steps of the scripts *)

(** [(remote,) = ctx.cluster.only(role).remotes.iterkeys()] *)
Definition only_remote (role : string) : MM remote :=
  s <- get ;;
  match only (String.eqb role) (ctx s) with
  | [r] => ret r
  | _ => raise (ValueError "need exactly one value to unpack")
  end.

(** [manager.raw_cluster_cmd(...)] with its output thrown away *)
Definition cmd_ (args : list string) : MM unit := raw_cluster_cmd args ;; ret tt.
(** [manager.raw_cluster_cmd('tell', 'osd.N', 'flush_pg_stats')] *)
Definition osd_name (i : Z) : string := "osd." +:+ zs i.
Definition flush_pg_stats (i : Z) : MM unit := cmd_ ["tell"; osd_name i; "flush_pg_stats"].
(** [while len(manager.get_osd_status()['up']) < n: time.sleep(d)] *)
Definition wait_for_osds_up (n : Z) (d : Q) : MM unit :=
  while fuel (fun _ => st <- get_osd_status ;; ret (Z.of_nat (length (st_up st)) <? n)) (fun _ => sleep d) tt.
(** [for f in range(a, b): body] *)
Definition for_range (a b : Z) (body : Z -> MM unit) : MM unit :=
  for_ (map (fun n => a + Z.of_nat n) (seq 0 (Z.to_nat (b - a)))) body.
(** [rados(...)] with its status thrown away *)
Definition rados_ (r : remote) (cmd : list string) : MM unit := rados r cmd ;; ret tt.

(** [manager.revive_osd(i)], with the defaults of its arguments *)
Definition revive (i : Z) : MM unit := revive_osd i 150 false.
(** [manager.kill_osd(i); manager.mark_down_osd(i)] *)
Definition kill_and_mark_down (i : Z) : MM unit := kill_osd i ;; mark_down_osd i.

End Rados.
