(* ===== verification/RgwUtil.v ===== *)
(** * The object gateway: helpers of tasks/util/rgw.py

    [gw] is what the gateway tasks use of teuthology's [ctx]: the context they share with the
    others, the configuration of the job, and the two namespaces the tasks [rgw] and
    [radosgw-agent] put there.  A section of the cluster's configuration is an object of
    [ConfigObj] that its readers share: [settings_of] updates the section [global] in place,
    as the sources do. *)
From Stdlib Require Import Ascii QArith Qround Lqa.
From S2P Require Import Prelude PyVal World ZbkcManager Conf FsSetup.

(** [ctx.radosgw_agent] *)
Record agent := Agent
  { ag_config : dict; ag_procs : option (list (string * proc)); ag_endpoint : option (string * string) }.
Record gw := Gw
  { g_ctx : context;
    g_config : dict;                                   (* ctx.config *)
    g_endpoints : list (string * (string * Z));        (* ctx.rgw.role_endpoints *)
    g_regions : dict;                                  (* ctx.rgw.regions *)
    g_realm : pyval;                                   (* ctx.rgw.realm *)
    g_ec_data_pool : bool;
    g_profile : dict;                                  (* ctx.rgw.erasure_code_profile *)
    g_idle_timeout : Z;                                (* ctx.rgw.default_idle_timeout *)
    g_cache_pools : bool;
    g_frontend : pyval;
    g_fastcgi : bool;                                  (* ctx.rgw.use_fastcgi *)
    g_agent : option agent }.
#[global] Instance gw_ctx : HasCtx gw := g_ctx.
Definition gw_set_ctx (c : context) (g : gw) : gw :=
  Gw c (g_config g) (g_endpoints g) (g_regions g) (g_realm g) (g_ec_data_pool g) (g_profile g) (g_idle_timeout g)
    (g_cache_pools g) (g_frontend g) (g_fastcgi g) (g_agent g).
Definition gw_set_agent (a : agent) (g : gw) : gw :=
  Gw (g_ctx g) (g_config g) (g_endpoints g) (g_regions g) (g_realm g) (g_ec_data_pool g) (g_profile g) (g_idle_timeout g)
    (g_cache_pools g) (g_frontend g) (g_fastcgi g) (Some a).

(** [d.update(e)] *)
Definition dict_update (d e : dict) : dict := fold_left (fun d kv => dict_set kv.1 kv.2 d) e d.
Lemma dict_update_snoc d e k v : dict_update d (e ++ [(k, v)]) = dict_set k v (dict_update d e).
Proof. unfold dict_update. by rewrite fold_left_app. Qed.

(** [s.split(c, 1)[1]]; [None] when [c] does not occur *)
Fixpoint after_char (c : ascii) (s : string) : option string :=
  match s with
  | EmptyString => None
  | String a s' => if Ascii.eqb a c then Some s' else after_char c s'
  end.
(** [s.replace(a, b)] for characters *)
Fixpoint replace_char (a b : ascii) (s : string) : string :=
  match s with
  | EmptyString => EmptyString
  | String x s' => String (if Ascii.eqb x a then b else x) (replace_char a b s')
  end.

Section RgwUtil.
Context {E : Env}.
Context (split_user : string -> string * string).    (* teuthology.orchestra.connection.split_user *)
Context (urlparse : string -> pyval * option Z).      (* the host and the port of a URL *)
Abbreviation MG A := (M gw A).

(** ** The configuration of the cluster *)

(** [ctx.zbkc['zbkc'].conf.get(k)] *)
Definition section (k : string) : MG (option dict) := sections <- cluster_conf "zbkc" ;; ret (sections !! k).
Definition store_global (d : dict) : MG unit :=
  modify (fun g => gw_set_ctx (with_conf (alter <[ "global" := d ]> "zbkc") (g_ctx g)) g).
(** [c = conf.get('global', {}); c.update(conf.get(k, {}))] for every [k]: when there is a
    section [global] it is [c] itself, and keeps what is put into it. *)
Definition settings_of (ks : list string) : MG dict :=
  shared <- section "global" ;;
  fold_ (fun c k =>
    e <- section k ;;
    let c' := dict_update c (default [] e) in
    when (bool_decide (is_Some shared)) (store_global c') ;;
    ret c') ks (default [] shared).
Definition client_settings (client : string) : MG dict := settings_of ["client"; client].

Definition zone_for_client (client : string) : MG pyval :=
  c <- client_settings client ;; ret (dict_get "rgw zone" PNone c).
Definition region_for_client (client : string) : MG pyval :=
  c <- client_settings client ;; ret (dict_get "rgw region" PNone c).
Definition radosgw_data_log_window (client : string) : MG pyval :=
  c <- client_settings client ;; ret (dict_get "rgw data log window" (PInt 30) c).

(** ** [radosgw-admin] *)

(** [remote.run(args=args, stdin=StringIO(data), check_status=chk)] *)
Definition run_input (r : remote) (args : list string) (data : string) (chk : bool) : MG reply :=
  p <- start r args ;; on_proc (PWrite data) p ;; on_proc PCloseStdin p ;; wait_proc p chk.
Definition rgwadmin_cmd (c : context) (client : string) (cmd : list string) : list string :=
  ["adjust-ulimits"; "zbkc-coverage"; testdir c +:+ "/archive/coverage"; "radosgw-admin"; "--log-to-stderr";
   "--format"; "json"; "-n"; client] ++ cmd.
(** The status, and the document that was printed: the text itself when it is none *)
Definition rgwadmin (client : string) (cmd : list string) (stdin : option string) (chk : bool) : MG (Z * pyval) :=
  g <- get ;;
  r <- lone (the_ctx g) client ;;
  let args := rgwadmin_cmd (the_ctx g) client cmd in
  p <- match stdin with None => run r args chk | Some data => run_input r args data chk end ;;
  ret (exitstatus p,
       if (exitstatus p =? 0) && negb (String.eqb (stdout p) EmptyString)
       then default (PStr (stdout p)) (Json.loads (stdout p)) else PNone).

(** ** Usage summaries *)
Definition get_user_summary (out : pyval) (user : string) : MG pyval :=
  v <- subscript out "summary" ;;
  l <- as_list v ;;
  found <- fold_ (fun found summary =>
    d <- as_dict summary ;;
    ret (if eq_str (dict_get "user" PNone d) user then summary else found)) l PNone ;;
  if truthy found then ret found
  else raise (AssertionError ("No summary info found for user: " +:+ user)).
Definition get_user_successful_ops (out : pyval) (user : string) : MG pyval :=
  summary <- subscript out "summary" ;;
  n <- len_ summary ;;
  if n =? 0 then ret (PInt 0)
  else s <- get_user_summary out user ;; t <- subscript s "total" ;; subscript t "successful_ops".

(** ** The map of regions *)
Definition region_map (client : string) : MG (list pyval) :=
  rj <- rgwadmin client ["-n"; client; "region-map"; "get"] None true ;;
  v <- subscript rj.2 "zonegroups" ;; as_list v.
Definition region_zones (region : pyval) : MG (list pyval) :=
  val <- subscript region "val" ;; z <- subscript val "zones" ;; as_list z.
Definition is_zone (zone : pyval) (zone_info : pyval) : MG bool :=
  name <- subscript zone_info "name" ;; ret (py_eq name zone).
Definition get_zone_host_and_port (client : string) (zone : pyval) : MG (pyval * Z) :=
  regions <- region_map client ;;
  found <- for_return regions (fun region =>
    zones <- region_zones region ;;
    for_return zones (fun zone_info =>
      b <- is_zone zone zone_info ;;
      if b : bool then
        eps <- subscript zone_info "endpoints" ;;
        l <- as_list eps ;;
        e <- of_option IndexError (head l) ;;
        url <- as_str e ;;
        ret (Some ((urlparse url).1, default 80 (urlparse url).2))
      else ret None)) ;;
  of_option (AssertionError ("no endpoint for zone " +:+ py_str zone +:+ " found")) found.
(** [None] when there is no master zone *)
Definition get_master_zone (client : string) : MG pyval :=
  regions <- region_map client ;;
  found <- for_return regions (fun region =>
    val <- subscript region "val" ;;
    m <- subscript val "is_master" ;;
    if negb (eq_str m "true") then ret None
    else
      master_zone <- subscript val "master_zone" ;;
      zones <- region_zones region ;;
      for_return zones (fun zone_info =>
        b <- is_zone master_zone zone_info ;; ret (if b : bool then Some master_zone else None))) ;;
  ret (default PNone found).
Definition get_master_client (clients : list string) : MG (option string) :=
  c0 <- of_option IndexError (head clients) ;;
  master_zone <- get_master_zone c0 ;;
  if negb (truthy master_zone) then ret None
  else for_return clients (fun client =>
         zone <- zone_for_client client ;; ret (if py_eq zone master_zone then Some client else None)).
Definition get_zone_system_keys (client : string) (zone : string) : MG (pyval * pyval) :=
  rj <- rgwadmin client ["-n"; client; "zone"; "get"; "--rgw-zone"; zone] None true ;;
  k <- subscript rj.2 "system_key" ;;
  a <- subscript k "access_key" ;; s <- subscript k "secret_key" ;; ret (a, s).

(** ** The agent's test server *)
Definition multi_region_enabled : MG bool := g <- get ;; ret (bool_decide (is_Some (g_agent g))).
Definition sync_url (what host : string) (port : pyval) (full : bool) : string :=
  "http://" +:+ host +:+ ":" +:+ py_str port +:+ "/" +:+ what +:+ "/" +:+ (if full then "full" else "incremental").
Definition radosgw_agent_sync_data (host : string) (port : pyval) (full : bool) : MG unit :=
  call "requests.post" [sync_url "data" host port full] ;; ret tt.
Definition radosgw_agent_sync_metadata (host : string) (port : pyval) (full : bool) : MG unit :=
  call "requests.post" [sync_url "metadata" host port full] ;; ret tt.
(** [zip(ctx.config['targets'], ctx.config['roles'])], the first that has the role *)
Definition host_for_role (role : string) : MG pyval :=
  g <- get ;;
  t <- subscript (PDict (g_config g)) "targets" ;; targets <- as_dict t ;;
  r <- subscript (PDict (g_config g)) "roles" ;; roles <- as_list r ;;
  found <- for_return (zip (map fst targets) roles) (fun tr =>
    l <- as_list tr.2 ;;
    ret (if existsb (fun v => eq_str v role) l then Some (PStr (split_user tr.1).2) else None)) ;;
  ret (default PNone found).
Definition get_sync_agent (source : string) : MG (pyval * pyval) :=
  g <- get ;;
  t <- subscript (PDict (g_config g)) "tasks" ;; tasks <- as_list t ;;
  found <- for_return tasks (fun task =>
    d <- as_dict task ;;
    match dict_lookup "radosgw-agent" d with
    | None => ret None
    | Some v =>
        clients <- as_dict v ;;
        for_return clients (fun cc =>
          src <- subscript cc.2 "src" ;;
          if eq_str src source then
            host <- host_for_role source ;;
            conf <- as_dict cc.2 ;;
            ret (Some (host, dict_get "port" (PInt 8000) conf))
          else ret None)
    end) ;;
  ret (default (PNone, PNone) found).
Definition radosgw_agent_sync_all (full data : bool) : MG unit :=
  g <- get ;;
  a <- of_option (AttributeError "radosgw_agent") (g_agent g) ;;
  procs <- of_option (AttributeError "procs") (ag_procs a) ;;
  when (negb (bool_decide (procs = [])))
    (for_ (ag_config a) (fun cc =>
       zone_for_client cc.1 ;;
       hp <- get_sync_agent cc.1 ;;
       radosgw_agent_sync_metadata (py_str hp.1) hp.2 full ;;
       when data (radosgw_agent_sync_data (py_str hp.1) hp.2 full))).

End RgwUtil.
