(* ===== verification/Rgw.v ===== *)
(** * The object gateway: tasks/rgw.py

    Each context manager takes the body it is entered for; a subtask of the nesting is a
    function on bodies.  Dictionaries keep the order in which they are filled.  Arguments are
    functions of teuthology (the clients of the job, merging, valgrind's command line, the
    first monitor), the name of a machine, and the text of the Apache configuration: the
    templates beside the task with their fields filled in. *)
From Stdlib Require Import Ascii QArith Qround Lqa.
From S2P Require Import Prelude PyVal World ZbkcManager Conf FsSetup Rados RgwUtil.

(** [d[k] = v] for any values *)
Fixpoint assoc_set {V} (k : string) (v : V) (d : list (string * V)) : list (string * V) :=
  match d with
  | [] => [(k, v)]
  | (k', v') :: d' => if String.eqb k k' then (k', v) :: d' else (k', v') :: assoc_set k v d'
  end.
Fixpoint assoc {V} (k : string) (d : list (string * V)) : option V :=
  match d with [] => None | (k', v) :: d' => if String.eqb k k' then Some v else assoc k d' end.

(** What is known of a client: its region, its zone, the description of the zone, its user *)
Record role_zone := RoleZone { rz_region : string; rz_zone : string; rz_info : dict; rz_user : option dict }.

(** [key.split(' ', 1)[1].replace(' ', '_')] *)
Definition json_key (key : string) : string := replace_char " " "_" (default key (after_char " " key)).
Definition zone_keys : list string :=
  ["rgw control pool"; "rgw gc pool"; "rgw log pool"; "rgw intent log pool"; "rgw usage log pool"; "rgw user keys pool";
   "rgw user email pool"; "rgw user swift pool"; "rgw user uid pool"; "rgw domain root"].
Definition log_keys : list string := ["rgw log meta"; "rgw log data"].
Definition zone_pool (region zone key : string) : string := "." +:+ region +:+ "." +:+ zone +:+ "." +:+ key.

Section Rgw.
Context {E : Env}.
Context (all_roles_of_type : context -> string -> list string)
        (deep_merge : dict -> pyval -> dict)
        (get_valgrind_args : string -> string -> list string -> pyval -> list string)
        (get_first_mon : context -> dict -> string)
        (remote_name : remote -> string)
        (apache_conf : string -> list (string * string) -> string).
Abbreviation MG A := (M gw A).

(** [ctx.cluster.only(role).run(args=args)] *)
Definition run_only (role : string) (args : list string) (chk : bool) : MG unit :=
  g <- get ;; for_ (only (String.eqb role) (the_ctx g)) (fun r => run r args chk ;; ret tt).
Definition tdir : MG string := g <- get ;; ret (testdir (the_ctx g)).
(** [[on_client]], or all clients *)
Definition clients_to (config : dict) (on_client : option string) : list string :=
  match on_client with Some c => [c] | None => map fst config end.
Definition unless (except_client : option string) (client : string) (m : MG unit) : MG unit :=
  if bool_decide (Some client = except_client) then ret tt else m.

(** ** What the configuration says *)
Definition extract_user_info (client_config : dict) : MG (option dict) :=
  match dict_lookup "system user" client_config with
  | None => ret None
  | Some u =>
      d <- as_dict u ;;
      if negb (dict_has "name" d) then ret None
      else
        name <- subscript u "name" ;; a <- subscript u "access key" ;; s <- subscript u "secret key" ;;
        ret (Some [("system_key", PDict [("user", name); ("access_key", a); ("secret_key", s)])])
  end.
Definition zone_info_of (c : dict) (region zone : string) : dict :=
  let named := fold_left (fun d key =>
    dict_set (json_key key) (default (PStr (zone_pool region zone (json_key key))) (dict_lookup key c)) d) zone_keys [] in
  let placed := dict_set "placement_pools"
    (PList [PDict [("key", PStr "default_placement");
                   ("val", PDict [("index_pool", PStr (zone_pool region zone "index_pool"));
                                  ("data_pool", PStr (zone_pool region zone "data_pool"));
                                  ("data_extra_pool", PStr (zone_pool region zone "data_extra_pool"));
                                  ("compression", dict_get "rgw compression type" (PStr "") c)])]]) named in
  fold_left (fun d key => match dict_lookup key c with Some v => dict_set key v d | None => d end) log_keys placed.
Definition extract_zone_info (client : string) : MG role_zone :=
  c <- client_settings client ;;
  for_ ["rgw zone"; "rgw region"; "rgw zone root pool"] (fun key =>
    assert_ (dict_has key c) ("zbkc conf must contain " +:+ key +:+ " for " +:+ client)) ;;
  region <- as_str (dict_get "rgw region" PNone c) ;;
  zone <- as_str (dict_get "rgw zone" PNone c) ;;
  ret (RoleZone region zone (zone_info_of c region zone) None).
Definition extract_region_info (region : string) (region_info : pyval) : MG dict :=
  zones <- subscript region_info "zones" ;;
  d <- as_dict region_info ;;
  match zones with
  | PList (zone0 :: _) =>
      ret [("name", PStr region); ("api_name", dict_get "api name" (PStr region) d);
           ("is_master", dict_get "is master" (PBool false) d); ("log_meta", dict_get "log meta" (PBool false) d);
           ("log_data", dict_get "log data" (PBool false) d); ("master_zone", dict_get "master zone" zone0 d);
           ("placement_targets",
            dict_get "placement targets" (PList [PDict [("name", PStr "default_placement"); ("tags", PList [])]]) d);
           ("default_placement", dict_get "default placement" (PStr "default_placement") d)]
  | _ => raise (AssertionError "zones must be a non-empty list")
  end.
Definition extract_zones (config : dict) : MG (list (string * role_zone)) :=
  map_ (fun cc => z <- extract_zone_info cc.1 ;; ret (cc.1, z)) config.
Definition user_of (c_config : pyval) : MG (option dict) :=
  if truthy c_config then d <- as_dict c_config ;; extract_user_info d else ret None.
(** The user of every client joins what is known of it. *)
Definition add_users (config : dict) (role_zones : list (string * role_zone)) : MG (list (string * role_zone)) :=
  fold_ (fun rz cc =>
    u <- user_of cc.2 ;;
    z <- of_option (KeyError cc.1) (assoc cc.1 rz) ;;
    ret (assoc_set cc.1 (RoleZone (rz_region z) (rz_zone z) (rz_info z) u) rz)) config role_zones.
Definition extract_regions (regions : dict) : MG (list (string * dict)) :=
  map_ (fun rc => i <- extract_region_info rc.1 rc.2 ;; ret (rc.1, i)) regions.

Definition assign_ports (config : dict) : MG (list (string * (string * Z))) :=
  g <- get ;;
  pe <- fold_ (fun pe (rr : remote * list string) =>
    fold_ (fun (pe : Z * list (string * (string * Z))) role =>
      if dict_has role config then
        host <- of_option IndexError (split_on "@" (remote_name rr.1) !! 1%nat) ;;
        ret (pe.1 + 1, assoc_set role (host, pe.1) pe.2)
      else ret pe) rr.2 pe) (cluster_roles (the_ctx g)) (7280, []) ;;
  ret pe.2.
Definition endpoint_url (hp : string * Z) : string := "http://" +:+ hp.1 +:+ ":" +:+ zs hp.2 +:+ "/".

(** [d.setdefault(k, []); d[k].append(v)] *)
Definition dict_append (k : string) (v : pyval) (d : dict) : MG dict :=
  l <- as_list (dict_get k (PList []) d) ;; ret (dict_set k (PList (l ++ [v])) d).
(** The settings for logging move from the zone to the region's list of zones. *)
Definition zone_payload (endpoint zone : string) (zone_info : dict) : dict :=
  fold_left (fun d key => dict_set (json_key key) (default (PStr "false") (dict_lookup key zone_info)) d) log_keys
    [("endpoints", PList [PStr endpoint]); ("name", PStr zone)].
Definition drop_log_keys (zone_info : dict) : dict :=
  fold_left (fun d key => if dict_has key d then dict_del key d else d) log_keys zone_info.
Definition fill_in_endpoints (region_info : list (string * dict)) (role_zones : list (string * role_zone))
  (role_endpoints : list (string * (string * Z))) : MG (list (string * dict) * list (string * role_zone)) :=
  fold_ (fun (st : list (string * dict) * list (string * role_zone)) re =>
    z <- of_option (KeyError re.1) (assoc re.1 st.2) ;;
    region_conf <- of_option (PyException ("Region: " +:+ rz_region z +:+
      " was specified but no corresponding entry was found under 'regions'")) (assoc (rz_region z) st.1) ;;
    c1 <- dict_append "endpoints" (PStr (endpoint_url re.2)) region_conf ;;
    c2 <- dict_append "zones" (PDict (zone_payload (endpoint_url re.2) (rz_zone z) (rz_info z))) c1 ;;
    ret (assoc_set (rz_region z) c2 st.1,
         assoc_set re.1 (RoleZone (rz_region z) (rz_zone z) (drop_log_keys (rz_info z)) (rz_user z)) st.2))
    role_endpoints (region_info, role_zones).

(** The first region that is the master, and its master zone *)
Definition master_region (region_info : list (string * dict)) : option (string * pyval) :=
  match find (fun ri => truthy (dict_get "is_master" PNone ri.2)) region_info with
  | Some ri => Some (ri.1, dict_get "master_zone" PNone ri.2)
  | None => None
  end.
Definition is_master_zone (master : string * pyval) (z : role_zone) : bool :=
  String.eqb (rz_region z) master.1 && py_eq (PStr (rz_zone z)) master.2.
Definition unbound {A} : MG A := raise (OtherError "UnboundLocalError").
Definition get_config_master_client (config regions : dict) : MG (option string) :=
  role_zones <- extract_zones config ;;
  region_info <- extract_regions regions ;;
  match config with
  | [] => ret None
  | _ =>
      master <- match master_region region_info with Some m => ret m | None => unbound end ;;
      ret (fst <$> find (fun rz => is_master_zone master rz.2) role_zones)
  end.
(** What both ways of configuring start from *)
Definition describe (config regions : dict) (role_endpoints : list (string * (string * Z)))
  : MG (list (string * dict) * list (string * role_zone)) :=
  z <- extract_zones config ;;
  role_zones <- add_users config z ;;
  region_info <- extract_regions regions ;;
  fill_in_endpoints region_info role_zones role_endpoints.
(** [json.dumps(dict(zone_info.items() + user_info.items()))] *)
Definition zone_json (z : role_zone) : MG string :=
  u <- of_option (AttributeError "'NoneType' object has no attribute 'items'") (rz_user z) ;;
  ret (Json.dumps (PDict (dict_update (rz_info z) u))).

(** ** Users, pools, regions and zones *)
Definition create_user_cmd (user_info : dict) : MG (list string) :=
  k <- subscript (PDict user_info) "system_key" ;;
  u <- subscript k "user" ;; a <- subscript k "access_key" ;; s <- subscript k "secret_key" ;;
  ret ["user"; "create"; "--uid"; py_str u; "--access-key"; py_str a; "--secret"; py_str s; "--display-name"; py_str u;
       "--system"].
Definition create_users_of (config : dict) (clients_of : string -> list string) : MG unit :=
  for_ config (fun cc =>
    u <- user_of cc.2 ;;
    match u with
    | None => ret tt
    | Some user_info =>
        for_ (clients_of cc.1) (fun client_name =>
          cmd <- create_user_cmd user_info ;; rgwadmin client_name cmd None true ;; ret tt)
    end).
Definition configure_users_for_client {A} (config : dict) (client : string) (everywhere : bool) (body : MG A) : MG A :=
  create_users_of config (fun _ => if everywhere then map fst config else [client]) ;; body.
Definition configure_users {A} (config : dict) (everywhere : bool) (body : MG A) : MG A :=
  create_users_of config (fun client => if everywhere then map fst config else [client]) ;; body.

Definition profile_of (g : gw) : list (string * string) := map (fun kv => (kv.1, py_str kv.2)) (g_profile g).
Definition create_nonregion_pools {A} (config regions : dict) (body : MG A) : MG A :=
  when (bool_decide (regions = [])) (for_ (map fst config) (fun client =>
    g <- get ;;
    r <- lone (the_ctx g) client ;;
    (if g_ec_data_pool g then create_ec_pool r ".rgw.buckets" client 64 (profile_of g)
     else create_replicated_pool r ".rgw.buckets" 64) ;;
    when (g_cache_pools g) (create_cache_pool r ".rgw.buckets" ".rgw.buckets.cache" 64 (64 * 1024 * 1024)))) ;;
  body.
Definition zone_pools (role : string) (z : role_zone) : MG unit :=
  g <- get ;;
  r <- lone (the_ctx g) role ;;
  v <- subscript (PDict (rz_info z)) "placement_pools" ;;
  pools <- as_list v ;;
  for_ pools (fun pool_info =>
    val <- subscript pool_info "val" ;;
    index <- subscript val "index_pool" ;; data <- subscript val "data_pool" ;;
    run r ["sudo"; "zbkc"; "osd"; "pool"; "create"; py_str index; "64"; "64"] true ;;
    if g_ec_data_pool g then create_ec_pool r (py_str data) (rz_zone z) 64 (profile_of g)
    else create_replicated_pool r (py_str data) 64).
Definition admin (client : string) (cmd : list string) : MG unit := rgwadmin client cmd None true ;; ret tt.
Definition admin_in (client : string) (cmd : list string) (data : string) : MG unit :=
  rgwadmin client cmd (Some data) true ;; ret tt.

Definition configure_compression_in_default_zone (config : dict) : MG unit :=
  match config with
  | [] => settings_of ["client"] ;; ret tt
  | (client, _) :: _ =>
      c <- client_settings client ;;
      match dict_lookup "rgw compression type" c with
      | None => ret tt
      | Some compression =>
          admin client ["user"; "list"] ;;
          admin client ["zone"; "placement"; "modify"; "--rgw-zone"; "default"; "--placement-id"; "default-placement";
                        "--compression"; py_str compression]
      end
  end.

Definition configure_multisite_regions_and_zones {A} (config regions : dict) (role_endpoints : list (string * (string * Z)))
  (realm : pyval) (master_client : string) (body : MG A) : MG A :=
  (if bool_decide (regions = []) || negb (truthy realm) then ret tt
   else
     rr <- describe config regions role_endpoints ;;
     let '(region_info, role_zones) := rr in
     g <- get ;;
     lone (the_ctx g) (get_first_mon (the_ctx g) config) ;;
     master <- match master_region region_info with Some m => ret m | None => unbound end ;;
     admin master_client ["realm"; "create"; "--rgw-realm"; py_str realm; "--default"] ;;
     for_ region_info (fun ri => admin_in master_client ["zonegroup"; "set"] (Json.dumps (PDict ri.2))) ;;
     admin master_client ["zonegroup"; "default"; "--rgw-zonegroup"; master.1] ;;
     for_ role_zones (fun rz => zone_pools rz.1 rz.2) ;;
     z <- of_option (KeyError master_client) (assoc master_client role_zones) ;;
     js <- zone_json z ;;
     admin_in master_client ["zone"; "set"; "--rgw-zonegroup"; rz_region z; "--rgw-zone"; rz_zone z] js ;;
     admin master_client ["-n"; master_client; "zone"; "default"; rz_zone z] ;;
     admin master_client ["-n"; master_client; "period"; "update"; "--commit"]) ;;
  body.

Definition EEXIST : Z := 17.
(** One client is told of every zone, of every region, and of its own default zone. *)
Definition configure_client (mon : remote) (region_info : list (string * dict)) (role_zones : list (string * role_zone))
  (master_zonegroup client : string) : MG unit :=
  for_ role_zones (fun rz =>
    root <- subscript (PDict (rz_info rz.2)) "domain_root" ;;
    rados mon ["-p"; py_str root; "rm"; "region_info.default"] ;;
    rados mon ["-p"; py_str root; "rm"; "zone_info.default"] ;;
    zone_pools rz.1 rz.2 ;;
    js <- zone_json rz.2 ;;
    admin_in client ["zone"; "set"; "--rgw-zonegroup"; rz_region rz.2; "--rgw-zone"; rz_zone rz.2] js) ;;
  for_ region_info (fun ri =>
    admin_in client ["zonegroup"; "set"] (Json.dumps (PDict ri.2)) ;;
    when (truthy (dict_get "is_master" PNone ri.2))
      (admin client ["zonegroup"; "default"; "--rgw-zonegroup"; master_zonegroup])) ;;
  z <- of_option (KeyError client) (assoc client role_zones) ;;
  admin client ["zone"; "default"; rz_zone z].
Definition configure_regions_and_zones {A} (config regions : dict) (role_endpoints : list (string * (string * Z)))
  (realm : pyval) (body : MG A) : MG A :=
  (if bool_decide (regions = []) || negb (truthy realm) then configure_compression_in_default_zone config
   else
     rr <- describe config regions role_endpoints ;;
     let '(region_info, role_zones) := rr in
     g <- get ;;
     mon <- lone (the_ctx g) (get_first_mon (the_ctx g) config) ;;
     rados mon ["-p"; ".rgw.root"; "rm"; "region_info.default"] ;;
     rados mon ["-p"; ".rgw.root"; "rm"; "zone_info.default"] ;;
     master <- match master_region region_info with Some m => ret m | None => unbound end ;;
     master_client <- match find (fun c => match assoc c role_zones with
                                           | Some z => is_master_zone master z
                                           | None => false
                                           end) (map fst config) with
                      | Some c => ret c
                      | None => unbound
                      end ;;
     rj <- rgwadmin master_client ["realm"; "create"; "--rgw-realm"; py_str realm; "--default"] None false ;;
     assert_ ((rj.1 =? 0) || negb (rj.1 =? - EEXIST)) "ret == 0 or ret != -errno.EEXIST" ;;
     for_ (map fst config) (configure_client mon region_info role_zones master.1) ;;
     admin master_client ["-n"; master_client; "period"; "update"; "--commit"]) ;;
  body.

(** The keys of the last client's user: the variable keeps its value after the loop. *)
Definition last_user (config : dict) : MG dict :=
  match last config with
  | None => unbound
  | Some cc =>
      u <- user_of cc.2 ;;
      of_option (TypeError "'NoneType' object has no attribute '__getitem__'") u
  end.
Definition key_args (config : dict) : MG (list string) :=
  u <- last_user config ;;
  k <- subscript (PDict u) "system_key" ;;
  a <- subscript k "access_key" ;; s <- subscript k "secret_key" ;;
  ret ["--access_key"; py_str a; "--secret"; py_str s].
Definition pull_configuration {A} (config regions : dict) (role_endpoints : list (string * (string * Z)))
  (realm : pyval) (master_client : string) (body : MG A) : MG A :=
  (if bool_decide (regions = []) || negb (truthy realm) then ret tt
   else
     rr <- describe config regions role_endpoints ;;
     let '(region_info, role_zones) := rr in
     for_ (map fst config) (fun client =>
       when (negb (String.eqb client master_client))
         (hp <- of_option (KeyError master_client) (assoc master_client role_endpoints) ;;
          keys <- key_args config ;;
          admin client (["-n"; client; "realm"; "pull"; "--rgw-realm"; py_str realm; "--default"; "--url"; endpoint_url hp] ++ keys) ;;
          z <- of_option (KeyError client) (assoc client role_zones) ;;
          js <- zone_json z ;;
          admin_in client ["zone"; "set"; "--rgw-zonegroup"; rz_region z; "--rgw-zone"; rz_zone z] js ;;
          admin client (["period"; "update"; "--commit"; "--url"; endpoint_url hp] ++ keys)))) ;;
  body.

End Rgw.
