(* ===== verification/RgwTask.v ===== *)
(** * The object gateway: the servers and the task (tasks/rgw.py)

    Directories and configuration for Apache, the gateways themselves, and the nesting of all
    context managers that [task] puts together. *)
From Stdlib Require Import Ascii QArith Qround Lqa.
From S2P Require Import Prelude PyVal World ZbkcManager Conf FsSetup Rados RgwUtil Rgw.

Section RgwTask.
Context {E : Env}.
Context (all_roles_of_type : context -> string -> list string)
        (deep_merge : dict -> pyval -> dict)
        (get_valgrind_args : string -> string -> list string -> pyval -> list string)
        (get_first_mon : context -> dict -> string)
        (remote_name : remote -> string)
        (apache_conf : string -> list (string * string) -> string).
Abbreviation MG A := (M gw A).

(** ** Apache *)
Definition htdocs (dir client : string) : string := dir +:+ "/apache/htdocs." +:+ client.
Definition apache_tmp (dir client : string) : string := dir +:+ "/apache/tmp." +:+ client.
Definition make_apache_dir (dir client : string) : MG unit :=
  run_only client ["mkdir"; "-p"; htdocs dir client; apache_tmp dir client +:+ "/fastcgi_sock"; "&&";
                   "mkdir"; dir +:+ "/archive/apache." +:+ client] true.
Definition remove_apache_dir (dir client : string) : MG unit :=
  run_only client ["rm"; "-rf"; apache_tmp dir client; "&&"; "rmdir"; htdocs dir client] true.
(** The excluded client is not excluded from the clean-up. *)
Definition create_apache_dirs {A} (config : dict) (on_client except_client : option string) (body : MG A) : MG A :=
  dir <- tdir ;;
  let clients := clients_to config on_client in
  for_ clients (fun client => unless except_client client (make_apache_dir dir client)) ;;
  finally body
    (for_ clients (remove_apache_dir dir) ;;
     for_ clients (fun client => run_only client ["rmdir"; dir +:+ "/apache"] false)).
Definition _use_uds_with_fcgi (r : remote) : bool := false.

(** The words of a Debian system and of the others *)
Definition apache_fields (system_type : string) : list (string * string) :=
  if String.eqb system_type "deb" then
    [("mod_path", "/usr/lib/apache2/modules"); ("print_continue", "on"); ("user", "www-data"); ("group", "www-data");
     ("apache24_modconfig", nls +:+ "  IncludeOptional /etc/apache2/mods-available/mpm_event.conf" +:+ nls +:+
       "  IncludeOptional /etc/apache2/mods-available/mpm_event.load" +:+ nls)]
  else
    [("mod_path", "/usr/lib64/httpd/modules"); ("print_continue", "off"); ("user", "apache"); ("group", "apache");
     ("apache24_modconfig", "IncludeOptional /etc/httpd/conf.modules.d/00-mpm.conf")].
Definition fcgi_template (g : gw) (r : remote) : string :=
  if g_fastcgi g then "mod_fastcgi.conf.template"
  else if _use_uds_with_fcgi r then "mod_proxy_fcgi.uds.conf.template" else "mod_proxy_fcgi.tcp.conf.template".
Definition fcgi_script (client : string) (rgw_options : list string) : string :=
  "#!/bin/sh" +:+ nls +:+ "ulimit -c unlimited" +:+ nls +:+ "exec radosgw -f -n " +:+ client +:+
  " -k /etc/zbkc/zbkc." +:+ client +:+ ".keyring " +:+ str_join " " rgw_options +:+ nls +:+ nls.
Definition socket_path (dir client : string) : string := apache_tmp dir client +:+ "/fastcgi_sock/rgw_sock".
Definition script_options (g : gw) (r : remote) (dir client : string) : list string :=
  if g_fastcgi g || _use_uds_with_fcgi r
  then ["--rgw-socket-path"; socket_path dir client; "--rgw-frontends"; "fastcgi"]
  else ["--rgw-socket-path"; dqs +:+ dqs; "--rgw-print-continue"; "false";
        "--rgw-frontends"; "fastcgi socket_port=9000 socket_host=0.0.0.0"].
Definition apache_path (dir client : string) : string := dir +:+ "/apache/apache." +:+ client +:+ ".conf".
Definition fcgi_path (dir client : string) : string := htdocs dir client +:+ "/rgw.fcgi".
(** [config.get(client) or {}] *)
Definition client_config_of (config : dict) (client : string) : MG dict :=
  match dict_get client PNone config with v => if truthy v then as_dict v else ret [] end.
Definition ship_apache_config (config : dict) (role_endpoints : list (string * (string * Z))) (dir client : string) : MG unit :=
  g <- get ;;
  r <- lone (the_ctx g) client ;;
  system_type <- call "get_system_type" [r] ;;
  conf <- client_config_of config client ;;
  let idle_timeout := dict_get "idle_timeout" (PInt (g_idle_timeout g)) conf in
  hp <- of_option (KeyError client) (assoc client role_endpoints) ;;
  file (FWrite (apache_conf (fcgi_template g r)
                  ([("testdir", dir); ("host", hp.1); ("port", zs hp.2); ("client", client);
                    ("idle_timeout", py_str idle_timeout)] ++ apache_fields system_type))) r (apache_path dir client) ;;
  file (FWrite (fcgi_script client (script_options g r dir client))) r (fcgi_path dir client) ;;
  run r ["chmod"; "a=rx"; fcgi_path dir client] true ;; ret tt.
Definition ship_apache_configs {A} (config : dict) (role_endpoints : list (string * (string * Z)))
  (on_client except_client : option string) (body : MG A) : MG A :=
  dir <- tdir ;;
  let clients := clients_to config on_client in
  for_ clients (fun client => unless except_client client (ship_apache_config config role_endpoints dir client)) ;;
  finally body
    (for_ clients (fun client =>
       run_only client ["rm"; "-f"; apache_path dir client; "&&"; "rm"; "-f"; fcgi_path dir client] true)).

(** The name of the server's program *)
Definition apache_name (r : remote) : MG string :=
  system_type <- call "get_system_type" [r] ;;
  if String.eqb system_type "deb" then ret "apache2"
  else catch (run r ["stat"; "/usr/sbin/httpd.worker"] true ;; ret "/usr/sbin/httpd.worker")
         (fun e => match e with CommandFailedError _ => ret "/usr/sbin/httpd" | _ => raise e end).
Definition start_apache {A} (config : dict) (on_client except_client : option string) (body : MG A) : MG A :=
  dir <- tdir ;;
  apaches <- fold_ (fun (apaches : list (string * proc)) client =>
    if bool_decide (Some client = except_client) then ret apaches
    else
      g <- get ;;
      r <- lone (the_ctx g) client ;;
      name <- apache_name r ;;
      p <- start r ["adjust-ulimits"; "daemon-helper"; "kill"; name; "-X"; "-f"; apache_path dir client] ;;
      ret (assoc_set client p apaches)) (clients_to config on_client) [] ;;
  finally body
    (for_ (map snd apaches) (fun p => on_proc PCloseStdin p ;; ret tt) ;;
     wait_all (map snd apaches)).

(** ** The gateways *)
Definition frontend_args (g : gw) (r : remote) (dir client : string) : MG (list string) :=
  if eq_str (g_frontend g) "apache" then
    ret (if g_fastcgi g || _use_uds_with_fcgi r
         then ["--rgw-socket-path"; socket_path dir client; "--rgw-frontends"; "fastcgi"]
         else ["--rgw-socket-path"; ""; "--rgw-print-continue"; "false";
               "--rgw-frontends"; "fastcgi socket_port=9000 socket_host=0.0.0.0"])
  else if eq_str (g_frontend g) "civetweb" then
    hp <- of_option (KeyError client) (assoc client (g_endpoints g)) ;;
    ret ["--rgw-frontends"; "civetweb port=" +:+ zs hp.2]
  else ret [].
Definition ops_log (dir client : string) : string := dir +:+ "/rgw.opslog." +:+ client +:+ ".sock".
Definition rgw_args (front : list string) (zone : pyval) (dir client : string) : list string :=
  ["radosgw"] ++ front ++ (match zone with PNone => [] | z => ["--rgw-zone"; py_str z] end) ++
  ["-n"; client; "-k"; "/etc/zbkc/zbkc." +:+ client +:+ ".keyring"; "--log-file"; "/var/log/zbkc/rgw." +:+ client +:+ ".log";
   "--rgw_ops_log_socket_path"; ops_log dir client; "--foreground"; "|"; "sudo"; "tee";
   "/var/log/zbkc/rgw." +:+ client +:+ ".stdout"; "2>&1"].
Definition start_gateway (config : dict) (dir client : string) : MG unit :=
  g <- get ;;
  r <- lone (the_ctx g) client ;;
  zone <- zone_for_client client ;;
  client_config <- (match dict_get client PNone config with PNone => ret [] | v => as_dict v end) ;;
  of_option IndexError (after_char "." client) ;;
  front <- frontend_args g r dir client ;;
  let cmd_prefix := ["sudo"; "adjust-ulimits"; "zbkc-coverage"; dir +:+ "/archive/coverage"; "daemon-helper"; "term"] in
  let valgrind := dict_get "valgrind" PNone client_config in
  let prefix := if truthy valgrind then get_valgrind_args dir client cmd_prefix valgrind else cmd_prefix in
  daemon (DAdd r (prefix ++ rgw_args front zone dir client)) "rgw" client "zbkc".
(** The polling of a gateway retries on its own. *)
Definition poll_gateway (client : string) : MG unit :=
  g <- get ;;
  hp <- of_option (KeyError client) (assoc client (g_endpoints g)) ;;
  call "http.request" ["GET"; endpoint_url hp] ;; ret tt.
Definition start_rgw {A} (config : dict) (on_client except_client : option string) (body : MG A) : MG A :=
  dir <- tdir ;;
  let clients := clients_to config on_client in
  for_ clients (fun client => unless except_client client (start_gateway config dir client)) ;;
  for_ clients (fun client => unless except_client client (poll_gateway client)) ;;
  finally body
    (call "stop_daemons_of_type" ["rgw"] ;;
     for_ (map fst config) (fun client => run_only client ["rm"; "-f"; ops_log dir client] true)).

(** ** The task *)

(** [if k in config: v = config[k]; del config[k]] *)
Definition pop_option (k : string) (config : dict) : option pyval * dict :=
  match dict_lookup k config with Some v => (Some v, dict_del k config) | None => (None, config) end.
Definition base_config (c : context) (config : pyval) : MG dict :=
  match config with
  | PNone => ret (map (fun id_ => ("client." +:+ id_, PNone)) (all_roles_of_type c "client"))
  | PList l => names <- map_ as_str l ;; ret (fold_left (fun d n => dict_set n PNone d) names [])
  | PDict d => ret d
  | _ => raise (AttributeError "object has no attribute")
  end.
(** The options that are not clients leave the configuration and become [ctx.rgw]. *)
Definition read_options (config : dict) : MG (dict * dict) :=
  g <- get ;;
  let '(regions, config) := pop_option "regions" config in
  rs <- match regions with Some v => as_dict v | None => ret [] end ;;
  endpoints <- assign_ports remote_name config ;;
  let '(realm, config) := pop_option "realm" config in
  let '(ec, config) := pop_option "ec-data-pool" config in
  let '(profile, config) := pop_option "erasure_code_profile" config in
  pr <- match profile with Some v => as_dict v | None => ret [] end ;;
  let '(idle, config) := pop_option "default_idle_timeout" config in
  timeout <- match idle with Some v => as_int v | None => ret 30 end ;;
  let '(cache, config) := pop_option "cache-pools" config in
  let '(frontend, config) := pop_option "frontend" config in
  let '(fcgi, config) := pop_option "use_fcgi" config in
  modify (fun g => Gw (g_ctx g) (g_config g) endpoints rs (default PNone realm)
    (match ec with Some v => truthy v | None => false end) pr timeout
    (match cache with Some v => truthy v | None => false end) (default (PStr "civetweb") frontend)
    (match fcgi with Some _ => false | None => true end) (g_agent g)) ;;
  ret (config, rs).

Definition more_than_one (v : pyval) : MG bool := n <- len_ v ;; ret (1 <? n).
(** More than one region, or a region with more than one zone *)
Definition is_multisite (regions : dict) : MG bool :=
  if (1 <? length regions)%nat then ret true
  else
    many <- for_return regions (fun ri =>
      z <- subscript ri.2 "zones" ;; b <- more_than_one z ;; ret (if b : bool then Some tt else None)) ;;
    ret (bool_decide (is_Some many)).
Definition bad_frontend {A} : MG A := raise (ValueError "frontend must be 'apache' or 'civetweb'").

Section Nesting.
Context {A : Type} (config regions : dict) (endpoints : list (string * (string * Z))) (realm : pyval).
(** The servers of some clients: what goes before all other subtasks, and what goes after them *)
Definition servers (frontend : pyval) (on_client except_client : option string)
  : MG (list (MG A -> MG A) * list (MG A -> MG A)) :=
  if eq_str frontend "apache" then
    ret ([create_apache_dirs config on_client except_client],
         [ship_apache_configs config endpoints on_client except_client; start_rgw config on_client except_client;
          start_apache config on_client except_client])
  else if eq_str frontend "civetweb" then ret ([], [start_rgw config on_client except_client])
  else bad_frontend.
Definition subtasks (multi_cluster : bool) (frontend : pyval) : MG (list (MG A -> MG A)) :=
  if multi_cluster then
    m <- get_config_master_client config regions ;;
    let client := default "None" m in   (* without a master the commands name no client of the job *)
    first <- servers frontend m None ;;
    others <- servers frontend None m ;;
    ret (others.1 ++ first.1 ++
         [create_nonregion_pools config regions;
          configure_multisite_regions_and_zones get_first_mon config regions endpoints realm client;
          configure_users_for_client config client false] ++
         first.2 ++
         [pull_configuration config regions endpoints realm client; configure_users_for_client config client true] ++
         others.2)
  else
    all <- servers frontend None None ;;
    ret (all.1 ++
         [create_nonregion_pools config regions; configure_regions_and_zones get_first_mon config regions endpoints realm;
          configure_users config true] ++
         all.2).
(** [contextutil.nested]: the first is the outermost, and all of them are left in reverse order *)
Definition nested_all (tasks : list (MG A -> MG A)) (body : MG A) : MG A := foldr (fun t b => t b) body tasks.
End Nesting.

Definition rgw_task {A} (config : pyval) (body : MG A) : MG A :=
  g <- get ;;
  base <- base_config (the_ctx g) config ;;
  overrides <- as_dict (dict_get "overrides" (PDict []) (g_config g)) ;;
  cr <- read_options (deep_merge base (dict_get "rgw" (PDict []) overrides)) ;;
  let '(config, regions) := cr in
  multisite <- is_multisite regions ;;
  multi_cluster <- (if multisite : bool then r <- subscript (PDict (g_config g)) "roles" ;; more_than_one r else ret false) ;;
  g <- get ;;
  tasks <- subtasks config regions (g_endpoints g) (g_realm g) multi_cluster (g_frontend g) ;;
  nested_all tasks body.

End RgwTask.

(** ** The synchronisation agent: tasks/radosgw_agent.py *)
Section Agent.
Context {E : Env}.
Context (deep_merge : dict -> pyval -> dict)
        (urlparse : string -> pyval * option Z).
Abbreviation MG A := (M gw A).

Definition agent_dir (dir client : string) : string := dir +:+ "/radosgw-agent." +:+ client.
Definition addr_url (hp : pyval * Z) : string := "http://" +:+ py_str hp.1 +:+ ":" +:+ zs hp.2.
Definition agent_branch (cconf : dict) : pyval :=
  let b := dict_get "force-branch" PNone cconf in
  if truthy b then b else dict_get "branch" (PStr "master") cconf.
(** The second [&&] of the reset has no command before it. *)
Definition fetch_agent (r : remote) (dir client : string) (cconf : dict) : MG unit :=
  run r ["cd"; dir; "&&"; "git"; "clone"; "-b"; py_str (agent_branch cconf); "git://git.zbkc.com/radosgw-agent.git";
         "radosgw-agent." +:+ client] true ;;
  match dict_get "sha1" PNone cconf with
  | PNone => ret tt
  | sha1 => run r ["cd"; dir; "&&"; "&&"; "git"; "reset"; "--hard"; py_str sha1] true ;; ret tt
  end ;;
  run r ["cd"; dir; "&&"; "cd"; "radosgw-agent." +:+ client; "&&"; "./bootstrap"] true ;; ret tt.
Definition agent_args (dir client : string) (cconf : dict) (src dest : pyval * Z) (src_keys dest_keys : pyval * pyval)
  : list string :=
  let port := py_str (dict_get "port" (PInt 8000) cconf) in
  ["daemon-helper"; "kill"; agent_dir dir client +:+ "/radosgw-agent"; "-v";
   "--src-access-key"; py_str src_keys.1; "--src-secret-key"; py_str src_keys.2; "--source"; addr_url src;
   "--dest-access-key"; py_str dest_keys.1; "--dest-secret-key"; py_str dest_keys.2;
   "--max-entries"; py_str (dict_get "max-entries" (PInt 1000) cconf);
   "--log-file"; dir +:+ "/archive/rgw_sync_agent." +:+ client +:+ ".log"; "--object-sync-timeout"; "30"] ++
  (if truthy (dict_get "metadata-only" (PBool false) cconf) then ["--metadata-only"] else []) ++
  (match dict_get "sync-scope" PNone cconf with
   | PNone => ["--test-server-host"; "0.0.0.0"; "--test-server-port"; port]
   | scope => ["--sync-scope"; py_str scope]
   end) ++
  [addr_url dest].
Definition set_endpoint (e : string * string) (g : gw) : gw :=
  match g_agent g with
  | Some a => gw_set_agent (Agent (ag_config a) (ag_procs a) (Some e)) g
  | None => g
  end.
Definition run_one_agent (client : string) (cconf : dict) : MG (string * proc) :=
  s <- subscript (PDict cconf) "src" ;; src_client <- as_str s ;;
  d <- subscript (PDict cconf) "dest" ;; dest_client <- as_str d ;;
  src_zone <- zone_for_client src_client ;;
  dest_zone <- zone_for_client dest_client ;;
  g <- get ;;
  let dir := testdir (the_ctx g) in
  r <- lone (the_ctx g) client ;;
  fetch_agent r dir client cconf ;;
  src <- get_zone_host_and_port urlparse src_client src_zone ;;
  dest <- get_zone_host_and_port urlparse dest_client dest_zone ;;
  src_keys <- get_zone_system_keys src_client (py_str src_zone) ;;
  dest_keys <- get_zone_system_keys dest_client (py_str dest_zone) ;;
  (match dict_get "sync-scope" PNone cconf with
   | PNone => modify (set_endpoint (client, py_str (dict_get "port" (PInt 8000) cconf)))
   | _ => ret tt
   end) ;;
  p <- start r (agent_args dir client cconf src dest src_keys dest_keys) ;;
  ret (client, p).
Definition run_radosgw_agent (config : dict) : MG (list (string * proc)) :=
  fold_ (fun l cc =>
    if startswith "client." cc.1 then cconf <- as_dict cc.2 ;; cp <- run_one_agent cc.1 cconf ;; ret (l ++ [cp])
    else ret l) config [].
Definition merge_client (overrides : dict) (cc : string * pyval) : MG (string * pyval) :=
  if truthy cc.2 then
    d <- as_dict cc.2 ;; ret (cc.1, PDict (deep_merge d (dict_get "radosgw-agent" (PDict []) overrides)))
  else ret cc.
Definition stop_agents (procs : list (string * proc)) : MG unit :=
  g <- get ;;
  finally
    (for_ procs (fun cp => on_proc PCloseStdin cp.2 ;; wait_proc cp.2 true ;; ret tt))
    (for_ procs (fun cp => run_only cp.1 ["rm"; "-rf"; agent_dir (testdir (the_ctx g)) cp.1] true)).
Definition agent_task {A} (config : pyval) (body : MG A) : MG A :=
  match config with
  | PDict config =>
      g <- get ;;
      overrides <- as_dict (dict_get "overrides" (PDict []) (g_config g)) ;;
      config <- map_ (merge_client overrides) config ;;
      modify (gw_set_agent (Agent config None None)) ;;
      procs <- run_radosgw_agent config ;;
      modify (fun g => match g_agent g with
                       | Some a => gw_set_agent (Agent (ag_config a) (Some procs) (ag_endpoint a)) g
                       | None => g
                       end) ;;
      finally body (stop_agents procs)
  | _ => raise (AssertionError "rgw_sync_agent requires a dictionary config")
  end.
End Agent.
