(* ===== verification/Claims.v ===== *)
(** * What a task puts on machines and takes away again

    The things that are there are a set read off the trace by [step].  A part of a task [Leaves]
    them when, from any set, a run that returns ends within that set, the roles of the machines
    unchanged; a context manager is [Around] when it leaves them if its body does. *)
From Stdlib Require Import QArith Qround Lqa.
From S2P Require Import Prelude PyVal World TraceState ZbkcManager Conf FsSetup RgwUtil RgwTask.

Section Claims.
Context {E : Env} {K : Type} `{Countable K} (step : gset K -> event -> gset K) (roles : list (remote * list string)).
Abbreviation MG A := (M gw A).
Implicit Types D t : gset K.

(** The machines keep their roles, and no event concerns the set. *)
Definition steady : relation (gw * world) :=
  fun p q => cluster_roles (g_ctx q.1) = cluster_roles (g_ctx p.1) /\ emits (idle step) p q.
#[export] Instance steady_rel : WorldRel steady.
Proof.
  split; [split|].
  - intros p. by split.
  - intros p1 p2 p3 [] []. split; [congruence|by etrans].
  - intros s w. split; [done|]. apply draw_ok.
Qed.
Lemma steady_emit ev : idle step ev -> EmitOk steady ev.
Proof. intros Hi s w. split; [done|]. by apply emits_emit. Qed.
Lemma steady_modify s s' w : cluster_roles (g_ctx s') = cluster_roles (g_ctx s) -> steady (s, w) (s', w).
Proof. intros Hs. split; [done|]. apply emits_nothing. Qed.

(** No more than [D] is there. *)
Definition bound_in D (g : gw) t : Prop := cluster_roles (g_ctx g) = roles /\ t ⊆ D.
Abbreviation btriple P m Q := (triple step ∅ P m Q).
Definition Leaves {A : Type} (m : MG A) : Prop := forall D, btriple (bound_in D) m (fun _ => bound_in D).
Lemma steady_triple {A : Type} D (m : MG A) : Runs false steady m -> btriple (bound_in D) m (fun _ => bound_in D).
Proof.
  intros Hm s w [Hr Ht]. eapply wp_conseq; [apply Hm|]. intros o s' w' [[Hs (evs & He & Hf)] _] a _. cbn in Hs, He.
  split; [congruence|]. by rewrite He, after_events_idle.
Qed.
Lemma steady_bind {A B : Type} D (m : MG A) (k : A -> MG B) Q :
  Runs false steady m -> (forall a, btriple (bound_in D) (k a) Q) -> btriple (bound_in D) (bind m k) Q.
Proof. intros Hm Hk. eapply triple_bind; [by apply steady_triple|done]. Qed.

(** The same, with what is known of the value that is returned *)
Lemma steady_value {A B : Type} D (m : MG A) (k : A -> MG B) (R : A -> Prop) Q :
  Runs false steady m -> hoare (fun _ => True) m (fun a _ => R a) ->
  (forall a, R a -> btriple (bound_in D) (k a) Q) -> btriple (bound_in D) (bind m k) Q.
Proof.
  intros Hm Hv Hk. eapply (triple_bind _ _ _ _ _ (fun a g t => R a /\ bound_in D g t)).
  - intros g w Hg. eapply wp_conseq; [apply wp_and; [by apply (steady_triple D m Hm)|by apply Hv]|].
    intros o g' w' [H1 H2] a Ha. split; [by apply (H2 a)|by apply (H1 a)].
  - intros a g w [Ha Hg]. by apply (Hk a Ha).
Qed.

(** An event that adds to the set, or takes from it *)
Lemma emit_claims D D' ev : (forall t, t ⊆ D -> step t ev ⊆ D') -> btriple (bound_in D) (emit ev) (fun _ => bound_in D').
Proof. intros Hs. apply triple_emit. intros r g t [Hg Ht]. split; [done|by apply Hs]. Qed.
Lemma run_claims D D' r args chk : (forall t, t ⊆ D -> step t (EvRun r args) ⊆ D') ->
  btriple (bound_in D) (run r args chk) (fun _ => bound_in D').
Proof. intros Hs. apply triple_run. intros p g t [Hg Ht]. split; [done|by apply Hs]. Qed.
Lemma call_claims D D' f args : (forall t, t ⊆ D -> step t (EvCall f args) ⊆ D') ->
  btriple (bound_in D) (call f args) (fun _ => bound_in D').
Proof. intros Hs. unfold call. eapply triple_bind; [by apply emit_claims|]. intros p. by apply triple_ret. Qed.

Definition Around {A : Type} (t : MG A -> MG A) : Prop := forall b, Leaves b -> Leaves (t b).
Lemma around_steady {A : Type} (setup : MG unit) (cleanup : MG unit) : Runs false steady setup -> Runs false steady cleanup ->
  Around (A := A) (fun b => setup ;; finally b cleanup).
Proof.
  intros Hs Hc b Hb D. apply steady_bind; [done|intros _]. eapply triple_finally; [apply Hb|]. intros a. by apply steady_triple.
Qed.
Lemma nested_around {A : Type} (ts : list (MG A -> MG A)) : Forall Around ts -> Around (nested_all ts).
Proof. induction 1 as [|t ts Ht Hts IH]; intros b Hb; cbn; [done|]. by apply Ht, IH. Qed.
End Claims.
