(* ===== verification/ClientTasks.v ===== *)
(** * Tasks that run programs on the clients

    tasks/locktest.py, omapbench.py, watch_notify_stress.py, filestore_idempotent.py, rbd_fsx.py
    and cram.py.  They run on [gw], the job's [ctx]; what teuthology provides is an argument.  A process thrasher (teuthology's
    [ProcThrasher]) is a greenlet of its own.  The branches of [parallel] run one after the
    other. *)
From Stdlib Require Import Ascii QArith Qround Lqa.
From S2P Require Import Prelude PyVal World ZbkcManager Conf FsSetup ClientMount ZbkcCluster Workunit Rbd RgwUtil.

(** [s.partition(c)[2]] *)
Definition after_first (c : ascii) (s : string) : string := default EmptyString (after_char c s).
(** [s.rsplit('/', 1)[1]]; [None] when there is no slash *)
Definition after_last_slash (s : string) : option string :=
  match split_on "/" s with [] | [_] => None | l => last l end.
(** [s.endswith(suffix)] *)
Fixpoint endswith (suffix s : string) : bool :=
  String.eqb suffix s || match s with EmptyString => false | String _ s' => endswith suffix s' end.
(** [s.format(key=v)] for a text whose only braces are those of [{key}] *)
Fixpoint fill_from (pat v : string) (skip : nat) (s : string) : string :=
  match s with
  | EmptyString => EmptyString
  | String a s' =>
      match skip with
      | Datatypes.S k => fill_from pat v k s'
      | O => if startswith pat s then v +:+ fill_from pat v (pred (String.length pat)) s'
             else String a (fill_from pat v 0 s')
      end
  end.
Definition fill (key v s : string) : string := fill_from ("{" +:+ key +:+ "}") v 0 s.

Section ClientTasks.
Context {E : Env} {F : Fuel}.
Context (all_roles_of_type : context -> string -> list string)
        (replace_all_with_clients : context -> dict -> dict)
        (get_clients : context -> list string -> list (string * remote))
        (deep_merge : dict -> pyval -> dict)
        (get_valgrind_args : string -> string -> list string -> pyval -> list string)
        (remote_name remote_shortname peer_ip : remote -> string).
Abbreviation MG A := (M gw A).

Definition tdir_ : MG string := g <- get ;; ret (testdir (the_ctx g)).
(** [ctx.cluster.only(role).run(args)]: on every machine that has the role *)
Definition run_role (role : string) (args : list string) : MG unit :=
  g <- get ;; for_ (only (String.eqb role) (the_ctx g)) (fun r => run r args true ;; ret tt).
Definition run_ (r : remote) (args : list string) : MG unit := run r args true ;; ret tt.
Definition run_any (r : remote) (args : list string) : MG reply := run r args false.
(** [overrides.get(name, {})] *)
Definition override_of (name : string) : MG pyval :=
  g <- get ;; o <- as_dict (dict_get "overrides" (PDict []) (g_config g)) ;; ret (dict_get name (PDict []) o).
(** [assert role.startswith('client.')] and what follows it *)
Definition client_id_of (role : string) : MG string :=
  assert_ (startswith "client." role) "role.startswith(PREFIX)" ;; ret (str_from 7 role).
(** [config.get('clients', ['client.0'])] *)
Definition clients_of (config : dict) : MG (list string) :=
  l <- as_list (dict_get "clients" (PList [PStr "client.0"]) config) ;;
  map_ (fun v => match v with PStr s => ret s | _ => raise (AssertionError "isinstance(role, basestring)") end) l.
Definition only_dict (config : pyval) : MG dict :=
  match config with PDict d => ret d | _ => raise (AssertionError "please list clients to run on") end.

(** ** locktest.py *)
Definition locktest_url : string := "https://raw.github.com/gregsfortytwo/xfstests-zbkc/master/src/locktest.c".
Definition build_locktest (dir client_name : string) : MG unit :=
  run_role client_name
    ["mkdir"; dir +:+ "/archive/locktest"; "&&"; "mkdir"; dir +:+ "/locktest"; "&&"; "wget"; "-nv"; locktest_url; "-O";
     dir +:+ "/locktest/locktest.c"; "&&"; "g++"; dir +:+ "/locktest/locktest.c"; "-o"; dir +:+ "/locktest/locktest"].
(** The directory is given by [rmdir_dir]: on the host its name was never filled in. *)
Definition clean_locktest (dir : string) (r : remote) (rmdir_dir : string) : MG unit :=
  run_ r ["mkdir"; "-p"; dir +:+ "/locktest"; "&&"; "rm"; "-f"; dir +:+ "/locktest/locktest.c"; "&&"; "rm"; "-f";
          dir +:+ "/locktest/locktest"; "&&"; "rmdir"; rmdir_dir].
Definition locktest_task (config : pyval) : MG unit :=
  l <- match config with PList l => ret l | _ => raise (AssertionError "isinstance(config, list)") end ;;
  names <- map_ as_str l ;;
  n0 <- of_option IndexError (names !! 0%nat) ;;
  host <- remote_of n0 ;;
  n1 <- of_option IndexError (names !! 1%nat) ;;
  client <- remote_of n1 ;;
  dir <- tdir_ ;;
  let file_on name := dir +:+ "/mnt." +:+ after_first "." name +:+ "/locktestfile" in
  finally
    (for_ names (build_locktest dir) ;;
     run_ host ["sudo"; "touch"; file_on n0; "&&"; "sudo"; "chown"; "ubuntu.ubuntu"; file_on n0] ;;
     hostproc <- start host [dir +:+ "/locktest/locktest"; "-p"; "6788"; "-d"; file_on n0] ;;
     clientproc <- start client [dir +:+ "/locktest/locktest"; "-p"; "6788"; "-d"; "-h"; after_first "@" (remote_name host); file_on n1] ;;
     hostresult <- wait_proc hostproc true ;;
     clientresult <- wait_proc clientproc true ;;
     when (negb (exitstatus hostresult =? 0) || negb (exitstatus clientresult =? 0))
       (raise (PyException "Did not pass locking test!")))
    (clean_locktest dir host "{tdir}/locktest" ;; clean_locktest dir client (dir +:+ "/locktest")).

(** ** omapbench.py and watch_notify_stress.py *)
Definition option_text (config : dict) (key : string) (d : pyval) : string := py_str (dict_get key d config).
Definition omapbench_cmd (dir id_ : string) (config : dict) : string :=
  str_join " "
    ["adjust-ulimits"; "zbkc-coverage"; dir +:+ "/archive/coverage"; "omapbench"; "--name"; id_;
     "-t"; option_text config "threads" (PInt 30); "-o"; option_text config "objects" (PInt 1000);
     "--entries"; option_text config "entries" (PInt 10); "--keysize"; option_text config "keysize" (PInt 10);
     "--valsize"; option_text config "valsize" (PInt 1000); "--inc"; option_text config "increment" (PInt 10);
     "--omaptype"; option_text config "omaptype" (PStr "uniform")].
(** The processes by client; a client that is listed twice keeps the last one *)
Definition start_each {B} (roles : list string) (f : string -> remote -> MG B) : MG (list (string * B)) :=
  fold_ (fun procs role =>
    id_ <- client_id_of role ;;
    r <- remote_of role ;;
    p <- f id_ r ;;
    ret (filter (fun ip => ip.1 <> id_) procs ++ [(id_, p)])) roles [].
Definition omapbench_task {A} (config : pyval) (body : MG A) : MG A :=
  config <- only_dict config ;;
  dir <- tdir_ ;;
  roles <- clients_of config ;;
  procs <- start_each roles (fun id_ r => start r ["/bin/sh"; "-c"; omapbench_cmd dir id_ config]) ;;
  finally body (wait_all (map snd procs)).
Definition watch_cmd (id_ : string) (config : dict) : list string :=
  ["ZBKC_CLIENT_ID=" +:+ id_; "ZBKC_ARGS=" +:+ dqs +:+ option_text config "flags" (PStr EmptyString) +:+ dqs; "daemon-helper"; "kill";
   "multi_stress_watch foo foo"].
Definition watch_notify_task {A} (config : pyval) (body : MG A) : MG A :=
  config <- only_dict config ;;
  roles <- clients_of config ;;
  procs <- start_each roles (fun id_ r => emit (EvSpawn (str_join " " (r :: watch_cmd id_ config))) ;; ret (str_join " " (r :: watch_cmd id_ config))) ;;
  finally body (for_ (map snd procs) (fun p => emit (EvJoin p) ;; ret tt)).

(** ** filestore_idempotent.py *)
Definition clients_in (config : pyval) : MG (list string) :=
  match config with
  | PNone => g <- get ;; ret (map (fun id_ => "client." +:+ id_) (all_roles_of_type (the_ctx g) "client"))
  | PList l => map_ as_str l
  | PDict d => ret (map fst d)
  | _ => raise (AssertionError "task only supports a list or dictionary for configuration")
  end.
Definition seed_url (f : string) : string := "http://git.zbkc.com/?p=zbkc.git;a=blob_plain;f=src/test/objectstore/" +:+ f +:+ ";hb=HEAD".
Definition filestore_idempotent_task (config : pyval) : MG unit :=
  clients <- clients_in config ;;
  client <- of_option IndexError (head clients) ;;
  r <- remote_of client ;;
  dir <- tdir_ ;;
  let d := dir +:+ "/zbkc.data/test." +:+ client in
  u <- uniform 1 100 ;;
  let seed := zs (Qfloor u) in
  finally
    (run_ r ["mkdir"; d] ;;
     run_ r ["cd"; d; "&&"; "wget"; "-q"; "-Orun_seed_to.sh"; seed_url "run_seed_to.sh"; "&&"; "wget"; "-q"; "-Orun_seed_to_range.sh";
             seed_url "run_seed_to_range.sh"; "&&"; "chmod"; "+x"; "run_seed_to.sh"; "run_seed_to_range.sh"] ;;
     p <- start r ["cd"; d; "&&"; "./run_seed_to_range.sh"; seed; "50"; "300"] ;;
     result <- wait_proc p false ;;
     when (negb (exitstatus result =? 0))
       (run_ r ["cp"; "-a"; d; dir +:+ "/archive/idempotent_failure"] ;; raise (PyException "./run_seed_to_range.sh errored out")))
    (run_ r ["rm"; "-rf"; "--"; d]).

(** ** rbd_fsx.py *)
Definition flag (b : bool) (o : string) : list string := if b then [o] else [].
Definition fsx_options (dir role : string) (config : dict) (krbd nbd : bool) : list string :=
  let opt k d := option_text config k d in
  ["zbkc_test_librbd_fsx"; "-d"; "-W"; "-R"; "-p"; opt "progress_interval" (PInt 100); "-P"; dir +:+ "/archive";
   "-r"; opt "readbdy" (PInt 1); "-w"; opt "writebdy" (PInt 1); "-t"; opt "truncbdy" (PInt 1); "-h"; opt "holebdy" (PInt 1);
   "-l"; opt "size" (PInt 250000000); "-S"; opt "seed" (PInt 0); "-N"; opt "ops" (PInt 1000)] ++
  flag krbd "-K" ++ flag nbd "-M" ++
  flag (truthy (dict_get "direct_io" (PBool false) config)) "-Z" ++
  flag (negb (truthy (dict_get "randomized_striping" (PBool true) config))) "-U" ++
  flag (negb (truthy (dict_get "punch_holes" (PBool true) config))) "-H" ++
  flag (truthy (dict_get "journal_replay" (PBool false) config)) "-j" ++
  ["pool_" +:+ role; "image_" +:+ role].
(** The overrides are merged after [krbd] and [nbd] were read. *)
Definition fsx_one_client (config : dict) (role : string) : MG unit :=
  let krbd := truthy (dict_get "krbd" (PBool false) config) in
  let nbd := truthy (dict_get "nbd" (PBool false) config) in
  dir <- tdir_ ;;
  r <- remote_of role ;;
  let args := flag (krbd || nbd) "sudo" ++ ["adjust-ulimits"; "zbkc-coverage"; dir +:+ "/archive/coverage"] in
  o <- override_of "rbd_fsx" ;;
  let config := deep_merge config o in
  let valgrind := dict_get "valgrind" PNone config in
  let args := if truthy valgrind then get_valgrind_args dir ("fsx_" +:+ role) args valgrind else args in
  run_ r (args ++ fsx_options dir role config krbd nbd).
(** The merge changes the dictionary all the clients share: from the second on it is merged already. *)
Definition rbd_fsx_task {A} (config : dict) (body : MG A) : MG A :=
  v <- subscript (PDict config) "clients" ;; l <- as_list v ;; roles <- map_ as_str l ;;
  o <- override_of "rbd_fsx" ;;
  parallel (imap (fun i role => fsx_one_client (if (i =? 0)%nat then config else deep_merge config o) role) roles) ;;
  body.

(** ** cram.py *)
Definition cram_dir (dir client : string) : string := dir +:+ "/archive/cram." +:+ client.
Definition refspec_of (config : dict) : string :=
  let get k := dict_get k PNone config in
  match get "branch", get "tag", get "sha1" with
  | PNone, PNone, PNone => "HEAD"
  | PNone, PNone, v | PNone, v, _ | v, _, _ => py_str v
  end.
Definition fetch_cram (dir refspec client : string) (tests : list string) : MG unit :=
  r <- remote_of client ;;
  run_ r ["mkdir"; "--"; cram_dir dir client; "&&"; "virtualenv"; dir +:+ "/virtualenv"; "&&"; dir +:+ "/virtualenv/bin/pip"; "install";
          "cram==0.6"] ;;
  for_ tests (fun t =>
    assert_ (endswith ".t" t) "tests must end in .t" ;;
    run_ r ["wget"; "-nc"; "-nv"; "-P"; cram_dir dir client; "--"; fill "branch" refspec t]).
Definition clean_cram (dir client : string) (tests : list string) : MG unit :=
  r <- remote_of client ;;
  files <- map_ (fun t => of_option IndexError (after_last_slash t)) tests ;;
  for_ (remove_dups files) (fun f =>
    let abs_file := path_join (cram_dir dir client) f in
    run_ r ["test"; "-f"; abs_file +:+ ".err"; "||"; "rm"; "-f"; "--"; abs_file]) ;;
  run_ r ["rm"; "-rf"; "--"; dir +:+ "/virtualenv"; ";"; "rmdir"; "--ignore-fail-on-non-empty"; cram_dir dir client].
Definition run_cram (zbkc_ref dir role : string) : MG unit :=
  id_ <- client_id_of role ;;
  r <- remote_of role ;;
  run_ r ["ZBKC_REF=" +:+ zbkc_ref; "ZBKC_ID=" +:+ dqs +:+ id_ +:+ dqs; "adjust-ulimits"; "zbkc-coverage"; dir +:+ "/archive/coverage";
          dir +:+ "/virtualenv/bin/cram"; "-v"; "--"; cram_dir dir role +:+ "/*.t"].
(** [zbkc_ref] is [ctx.summary.get('zbkc-sha1', 'master')]. *)
Definition cram_task (zbkc_ref : string) (config : pyval) : MG unit :=
  config <- match config with PDict d => ret d | _ => raise (AssertionError "isinstance(config, dict)") end ;;
  cs <- match dict_lookup "clients" config with
        | Some (PDict d) => ret d
        | _ => raise (AssertionError "configuration must contain a dictionary of clients")
        end ;;
  g <- get ;;
  dir <- tdir_ ;;
  o <- override_of "workunit" ;;
  let refspec := refspec_of (deep_merge config o) in
  clients <- map_ (fun ct => l <- as_list ct.2 ;; ts <- map_ as_str l ;; ret (ct.1, ts)) (replace_all_with_clients (the_ctx g) cs) ;;
  finally
    (for_ clients (fun ct => fetch_cram dir refspec ct.1 ct.2) ;;
     parallel (map (fun ct => run_cram zbkc_ref dir ct.1) clients))
    (for_ clients (fun ct => clean_cram dir ct.1 ct.2)).

End ClientTasks.
