(* ===== verification/ServiceTasks.v ===== *)
(** * Tasks that run services beside the cluster

    tasks/samba.py, cifs_mount.py, tgt.py, rest_api.py, systemd.py, blktrace.py and
    mds_creation_failure.py.  The first six run on [gw], the job's [ctx]; the last on a manager.
    Whether [ctx] already has a group of daemons makes no difference here: [add_daemon] and
    [stop] are events. *)
From Stdlib Require Import Ascii QArith Qround Lqa.
From S2P Require Import Prelude PyVal World ZbkcManager ManagerWait Conf FsSetup ClientMount ZbkcCluster Rbd RgwUtil RgwTask ClientTasks.

Section Services.
Context {E : Env} {F : Fuel}.
Context (all_roles_of_type : context -> string -> list string)
        (get_clients : context -> list string -> list (string * remote))
        (remote_shortname peer_ip : remote -> string).
Abbreviation MG A := (M gw A).

(** The machines with a role of the type, each with all its roles *)
Definition machines_with (type_ : string) (c : context) : list (remote * list string) :=
  filter (fun rr => existsb (fun role => String.eqb (split_role role).1.2 type_) rr.2 = true) (cluster_roles c).
(** The configuration by role: all roles of the type, or the listed ones, without settings *)
Definition role_config (type_ what : string) (config : pyval) : MG dict :=
  match config with
  | PNone => g <- get ;; ret (map (fun id_ => (type_ +:+ "." +:+ id_, PNone)) (all_roles_of_type (the_ctx g) type_))
  | PList l => names <- map_ as_str l ;; ret (map (fun n => (n, PNone)) names)
  | PDict d => ret d
  | _ => raise (AssertionError what)
  end.

(** ** samba.py *)
Definition get_sambas (roles : list string) : MG (list (string * remote)) :=
  map_ (fun role =>
    assert_ (startswith "samba." role) "role.startswith(PREFIX)" ;;
    r <- remote_of role ;;
    ret (str_from 6 role, r)) roles.
(** The name of a server's share, the directory behind it and the lines for a module of smbd *)
Definition vfs_extras : string := "vfs objects = zbkc" +:+ nls +:+ "  zbkc:config_file = /etc/zbkc/zbkc.conf".
Definition share_settings (dir : string) (cfg : pyval) : MG (string * string * string) :=
  match cfg with
  | PNone => ret ("zbkc", "/", vfs_extras)
  | _ =>
      d <- as_dict cfg ;;
      match d with
      | [(unc, v)] => s <- as_str v ;; ret (unc, fill "testdir" dir s, EmptyString)
      | _ => raise (PyException "invalid config")
      end
  end.
Definition smb_conf (unc backend extras : string) : string :=
  script ["[global]"; "  workgroup = WORKGROUP"; "  netbios name = DOMAIN"; EmptyString; "[" +:+ unc +:+ "]";
          "  path = " +:+ backend; "  " +:+ extras; "  writeable = yes"; "  valid users = ubuntu"].
Definition open_root : list string :=
  ["mkdir"; "-p"; "/tmp/cmnt"; "&&"; "sudo"; "zbkc-fuse"; "/tmp/cmnt"; "&&"; "sudo"; "chown"; "ubuntu:ubuntu"; "/tmp/cmnt/"; "&&";
   "sudo"; "chmod"; "1777"; "/tmp/cmnt/"; "&&"; "sudo"; "umount"; "/tmp/cmnt/"; "&&"; "rm"; "-rf"; "/tmp/cmnt"].
Definition add_samba_user : list string :=
  ["sudo"; "/usr/local/samba/bin/smbpasswd"; "-e"; "ubuntu"; "||"; "printf"; dqs +:+ "ubuntu" +:+ nls +:+ "ubuntu" +:+ nls +:+ dqs; "|";
   "sudo"; "/usr/local/samba/bin/smbpasswd"; "-s"; "-a"; "ubuntu"].
Definition smbd_cmd : list string := ["sudo"; "daemon-helper"; "term"; "nostdin"; "/usr/local/samba/sbin/smbd"; "-F"].
(** One server; its backend, which the clean-up of all servers uses when it is the last *)
Definition start_samba (dir : string) (config : dict) (first : string) (s : string * remote) : MG string :=
  cfg <- subscript (PDict config) ("samba." +:+ s.1) ;;
  x <- share_settings dir cfg ;;
  let '(unc, backend, extras) := x in
  run_ s.2 (match cfg with
            | PNone => if String.eqb s.1 first then open_root
                       else ["sudo"; "chown"; "ubuntu:ubuntu"; backend; "&&"; "sudo"; "chmod"; "1777"; backend]
            | _ => ["sudo"; "chown"; "ubuntu:ubuntu"; backend; "&&"; "sudo"; "chmod"; "1777"; backend]
            end) ;;
  call "sudo_write_file" [s.2; "/usr/local/samba/etc/smb.conf"; smb_conf unc backend extras] ;;
  run_ s.2 add_samba_user ;;
  daemon (DAdd s.2 smbd_cmd) "smbd" s.1 "zbkc" ;;
  sleep 100 ;;
  ret backend.
(** The failures of [d.stop()] that are noted and raised at the end *)
Definition stop_failure (e : exn) : bool :=
  match e with
  | CommandFailedError _ => true
  | OtherError m => String.eqb m "CommandCrashedError" || String.eqb m "ConnectionLostError"
  | _ => false
  end.
(** Every server is stopped; the last failure, if any *)
Definition stop_sambas (servers : list (string * remote)) : MG (option exn) :=
  fold_ (fun failed (s : string * remote) =>
    catch (daemon DStop "smbd" s.1 "zbkc" ;; ret failed)
      (fun e => if stop_failure e then ret (Some e) else raise e)) servers None.
Definition clean_samba (backend : string) (r : remote) : MG unit :=
  run_ r ["sudo"; "rm"; "-rf"; "/usr/local/samba/etc/smb.conf"; "/usr/local/samba/private/*"; "/usr/local/samba/var/run/";
          "/usr/local/samba/var/locks"; "/usr/local/samba/var/lock"] ;;
  catch
    (run_ r ["while"; "sudo"; "killall"; "-9"; "smbd"; ";"; "do"; "sleep"; "1"; ";"; "done"] ;;
     run_any r ["sudo"; "lsof"; backend] ;;
     run_any r ["sudo"; "fuser"; "-M"; backend] ;; ret tt)
    (fun _ => ret tt).
Definition samba_task {A} (config : pyval) (body : MG A) : MG A :=
  config <- role_config "samba" "task samba got invalid config" config ;;
  servers <- get_sambas (map fst config) ;;
  dir <- tdir_ ;;
  let first := default EmptyString (fst <$> head servers) in
  backend <- fold_ (fun _ s => start_samba dir config first s) servers EmptyString ;;
  finally body
    (failed <- stop_sambas servers ;;
     match failed with Some e => raise e | None => ret tt end ;;
     for_ servers (fun s => clean_samba backend s.2)).

(** ** cifs_mount.py *)
Definition cifs_mnt (dir id_ : string) : string := path_join dir ("mnt." +:+ id_).
Definition share_of (config : dict) (id_ : string) : MG string :=
  cfg <- subscript (PDict config) ("client." +:+ id_) ;;
  match cfg with
  | PDict d => match dict_lookup "share" d with Some v => ret (py_str v) | None => ret "zbkc" end
  | _ => ret "zbkc"
  end.
Definition cifs_cmd (ip unc mnt : string) : list string :=
  ["sudo"; "mount"; "-t"; "cifs"; "//" +:+ ip +:+ "/" +:+ unc; "-o"; "username=ubuntu,password=ubuntu"; mnt].
Definition mount_cifs (config : dict) (dir ip : string) (c : string * remote) : MG unit :=
  let mnt := cifs_mnt dir c.1 in
  run_ c.2 ["mkdir"; "--"; mnt] ;;
  unc <- share_of config c.1 ;;
  run_ c.2 (cifs_cmd ip unc mnt) ;;
  run_ c.2 ["sudo"; "chown"; "ubuntu:ubuntu"; mnt +:+ "/"].
(** [rmdir] is repeated while [grep] finds it busy, that is until the command fails. *)
Definition await_rmdir (mnt : string) (r : remote) : MG unit :=
  loop fuel (fun _ : unit =>
    busy <- catch (run_ r ["rmdir"; "--"; mnt; "2>&1"; "|"; "grep"; "Device or resource busy"] ;; sleep 1 ;; ret true) (fun _ => ret false) ;;
    ret (if busy : bool then inl tt else inr tt)) tt.
(** [mnt] is the variable of the first loop: after it, the mount point of the last client. *)
Definition cifs_mount_task {A} (config : pyval) (body : MG A) : MG A :=
  config <- role_config "client" "object has no attribute 'keys'" config ;;
  g <- get ;;
  let clients := get_clients (the_ctx g) (map fst config) in
  sambas <- get_sambas (map (fun id_ => "samba." +:+ id_) (all_roles_of_type (the_ctx g) "samba")) ;;
  s <- of_option IndexError (head sambas) ;;
  dir <- tdir_ ;;
  for_ clients (mount_cifs config dir (peer_ip s.2)) ;;
  let mnt := default EmptyString ((fun c => cifs_mnt dir c.1) <$> last clients) in
  finally body
    (for_ clients (fun c => run_ c.2 ["sudo"; "umount"; mnt]) ;;
     for_ clients (fun c => await_rmdir mnt c.2)).

(** ** tgt.py *)
Definition tgtadm (args : list string) : list string := ["sudo"; "tgtadm"; "--lld"; "iscsi"] ++ args.
Definition start_tgt (size : pyval) (r : remote) : MG unit :=
  run_ r ["rbd"; "create"; "iscsi-image"; "--size"; py_str size] ;;
  run_ r (tgtadm ["--mode"; "target"; "--op"; "new"; "--tid"; "1"; "--targetname"; "rbd"]) ;;
  run_ r (tgtadm ["--mode"; "logicalunit"; "--op"; "new"; "--tid"; "1"; "--lun"; "1"; "--backing-store"; "iscsi-image"; "--bstype"; "rbd"]) ;;
  run_ r (tgtadm ["--op"; "bind"; "--mode"; "target"; "--tid"; "1"; "-I"; "ALL"]).
Definition stop_tgt (r : remote) : MG unit :=
  run_ r (tgtadm ["--mode"; "target"; "--op"; "delete"; "--force"; "--tid"; "1"]) ;;
  run_ r ["rbd"; "snap"; "purge"; "iscsi-image"] ;;
  run_ r ["sudo"; "rbd"; "rm"; "iscsi-image"].
(** A machine with several of the roles is started once. *)
Definition start_tgt_remotes {A} (start_tgtd : list string) (body : MG A) : MG A :=
  g <- get ;;
  tgtd_list <- fold_ (fun started (rr : remote * list string) =>
    fold_ (fun started role =>
      if bool_decide (role ∈ start_tgtd) && negb (bool_decide (rr.1 ∈ started)) then
        start_tgt (dict_get "image_size" (PInt 10240) (g_config g)) rr.1 ;; ret (started ++ [rr.1])
      else ret started) rr.2 started) (machines_with "client" (the_ctx g)) [] ;;
  finally body (for_ tgtd_list stop_tgt).
Definition tgt_task {A} (config : pyval) (body : MG A) : MG A :=
  config <- (if truthy config then d <- as_dict config ;; ret (filter (fun kv => startswith "client" kv.1 = true) d) else ret []) ;;
  g <- get ;;
  start_tgt_remotes
    (match config with
     | [] => map (fun id_ => "client." +:+ id_) (all_roles_of_type (the_ctx g) "client")
     | _ => map fst config
     end) body.

(** ** rest_api.py *)
(** [for i in range(1, 12)] with a [break]: eleven tries *)
Fixpoint try_rest (n : nat) (r : remote) (last_ : Z) : MG Z :=
  match n with
  | O => ret last_
  | Datatypes.S k =>
      p <- run_any r ["wget"; "-O"; "/dev/null"; "-q"; "http://localhost:5000/api/v0.1/status"] ;;
      if exitstatus p =? 0 then ret 0 else sleep 5 ;; try_rest k r (exitstatus p)
  end.
Definition rest_id (role : string) : string := "client.rest" +:+ str_from 7 role.
Definition start_rest (r : remote) (role : string) : MG unit :=
  daemon (DAdd r ["sudo"; "daemon-helper"; "kill"; "zbkc-rest-api"; "-n"; rest_id role]) "restapi" (rest_id role) "zbkc" ;;
  st <- try_rest 11 r 0 ;;
  when (negb (st =? 0)) (raise (RuntimeError "Cannot contact zbkc-rest-api")).
(** [for rems, roles in remotes: for whole_id_ in roles: if whole_id_ in api_clients] *)
Definition each_api_client (api_clients : list string) (f : remote -> string -> MG unit) : MG unit :=
  g <- get ;;
  for_ (machines_with "client" (the_ctx g)) (fun rr =>
    for_ rr.2 (fun role => when (bool_decide (role ∈ api_clients)) (f rr.1 role))).
Definition run_rest_api_daemon {A} (api_clients : list string) (body : MG A) : MG A :=
  each_api_client api_clients start_rest ;;
  finally body (call "stop_daemons_of_type" ["restapi"] ;; ret tt).
Definition rest_keyring (role : string) : string := "/etc/zbkc/zbkc." +:+ rest_id role +:+ ".keyring".
Definition prepare_rest (coverage_dir : string) (r : remote) (role : string) : MG unit :=
  let keyring := rest_keyring role in
  let q := String (Ascii.ascii_of_nat 39) EmptyString in
  run_ r ["sudo"; "adjust-ulimits"; "zbkc-coverage"; coverage_dir; "zbkc-authtool"; "--create-keyring"; "--gen-key";
          "--name=" +:+ rest_id role; "--set-uid=0"; "--cap"; "mon"; "allow *"; "--cap"; "osd"; "allow *"; "--cap"; "mds"; "allow";
          keyring; "&&"; "sudo"; "chmod"; "0644"; keyring] ;;
  run_ r ["sudo"; "sh"; "-c"; q; "echo"; "[" +:+ rest_id role +:+ "]"; ">>"; "/etc/zbkc/zbkc.conf"; q] ;;
  run_ r ["sudo"; "sh"; "-c"; q; "echo"; "restapi"; "keyring"; "="; keyring; ">>"; "/etc/zbkc/zbkc.conf"; q] ;;
  run_ r ["sudo"; "zbkc"; "auth"; "import"; "-i"; keyring].
Definition rest_api_task {A} (config : pyval) (body : MG A) : MG A :=
  g <- get ;;
  api_clients <- match config with
                 | PNone => ret (map (fun id_ => "client." +:+ id_) (all_roles_of_type (the_ctx g) "client"))
                 | PList l => map_ as_str l
                 | PDict d => ret (map fst d)
                 | _ => raise (TypeError "argument is not iterable")
                 end ;;
  each_api_client api_clients (prepare_rest (testdir (the_ctx g) +:+ "/archive/coverage")) ;;
  run_rest_api_daemon api_clients body.

(** ** systemd.py *)
(** The digits at the start of [s], and what follows them *)
Fixpoint leading_digits (s : string) : string * string :=
  match s with
  | String a s' => match digit_of a with Some _ => let '(d, r) := leading_digits s' in (String a d, r) | None => (EmptyString, s) end
  | EmptyString => (EmptyString, EmptyString)
  end.
(** [re.search('--id (\d+) --setuser zbkc', s)] *)
Fixpoint search_osd (s : string) : option string :=
  let here :=
    if startswith "--id " s then
      let '(d, rest) := leading_digits (str_from 5 s) in
      if negb (String.eqb d EmptyString) && startswith " --setuser zbkc" rest then Some d else None
    else None in
  match here with
  | Some d => Some d
  | None => match s with EmptyString => None | String _ s' => search_osd s' end
  end.
Definition systemctl (op service : string) : list string := ["sudo"; "systemctl"; op; service].
Definition ps_zbkc : list string := ["sudo"; "ps"; "-eaf"; "|"; "grep"; "zbkc"].
(** One service is looked at, stopped, looked at and started; what is found is only logged. *)
Definition cycle_service (r : remote) (service : string) : MG unit :=
  run_ r (systemctl "status" service) ;;
  run_ r (systemctl "stop" service) ;;
  sleep 4 ;;
  run_any r (systemctl "status" service) ;;
  run_ r (systemctl "start" service) ;;
  sleep 4.
Definition cycle_role (r : remote) (roles : list string) (type_ : string) : MG unit :=
  let name := remote_shortname r in
  when (bool_decide ((type_ +:+ "." +:+ name) ∈ roles)) (cycle_service r ("zbkc-" +:+ type_ +:+ "@" +:+ name +:+ ".service")).
Definition systemd_host (rr : remote * list string) : MG unit :=
  let r := rr.1 in
  run_ r ps_zbkc ;;
  run_any r ["sudo"; "systemctl"; "list-units"; "|"; "grep"; "zbkc"] ;;
  run_ r (systemctl "stop" "zbkc.target") ;;
  run_any r (systemctl "status" "zbkc.target") ;;
  run_ r ps_zbkc ;;
  run_ r (systemctl "start" "zbkc.target") ;;
  run_ r (systemctl "status" "zbkc.target") ;;
  p <- run r ps_zbkc true ;;
  sleep 4 ;;
  match search_osd (stdout p) with Some m => cycle_service r ("zbkc-osd@" +:+ m +:+ ".service") | None => ret tt end ;;
  cycle_role r rr.2 "mon" ;;
  cycle_role r rr.2 "mgr" ;;
  cycle_role r rr.2 "mds".
Definition systemd_task {A} (body : MG A) : MG A :=
  g <- get ;; for_ (cluster_roles (the_ctx g)) systemd_host ;; body.

(** ** blktrace.py *)
Definition blktrace_dir (dir : string) : string := dir +:+ "/archive/performance/blktrace".
Definition blktrace_cmd (dir dev name : string) : list string :=
  ["cd"; blktrace_dir dir; ";"; "daemon-helper"; "term"; "sudo"; "/usr/sbin/blktrace"; "-o"; name; "-d"; dev].
(** The device of an OSD; [roles_to_dev] is the part of [ctx.disk_config] that has it *)
Definition start_blktrace (dir cl : string) (rr : remote * list string) : MG (list proc) :=
  g <- get ;;
  devs <- of_option (KeyError rr.1) (roles_to_dev (the_ctx g) !! rr.1) ;;
  fold_ (fun procs role =>
    match devs !! role with
    | Some dev =>
        if String.eqb dev EmptyString then ret procs
        else
          name <- of_option IndexError (after_last_slash dev) ;;
          p <- start rr.1 (blktrace_cmd dir dev name) ;; ret (procs ++ [p])
    | None => ret procs
    end) (filter (fun role => is_type "osd" cl role = true) rr.2) [].
Definition blktrace_task {A} (config : pyval) (body : MG A) : MG A :=
  config <- match config with PNone => ret [] | _ => as_dict config end ;;
  cl <- as_str (dict_get "cluster" (PStr "zbkc") config) ;;
  g <- get ;;
  dir <- tdir_ ;;
  for_ (filter (fun rr => existsb (is_type "osd" cl) rr.2 = true) (cluster_roles (the_ctx g)))
    (fun rr => start rr.1 ["mkdir"; "-p"; "-m0755"; "--"; blktrace_dir dir] ;; ret tt) ;;
  procs <- fold_ (fun procs rr => ps <- start_blktrace dir cl rr ;; ret (procs ++ ps)) (machines_with "osd" (the_ctx g)) [] ;;
  finally body (for_ procs (fun p => on_proc PCloseStdin p ;; ret tt)).

End Services.

(** ** mds_creation_failure.py *)
Section MdsCreation.
Context {E : Env} {F : Fuel}.
Context (all_roles_of_type : context -> string -> list string) (get_archive_dir : context -> string).
Abbreviation MM A := (M mgr A).

(** [manager.get_mds_status(mds_id)['state']] *)
Definition mds_state (mds_id : string) : MM pyval :=
  st <- get_mds_status mds_id ;; subscript (default PNone st) "state".
Definition create_timeout : Z := 120.
(** [while True], with [t] the sleeps so far *)
Definition wait_created (mds_id : string) : MM unit :=
  loop fuel (fun t : Z =>
    state <- mds_state mds_id ;;
    if eq_str state "up:active" then ret (inr tt)
    else if eq_str state "up:creating" then
      if t >? create_timeout then raise (RuntimeError "Creating did not complete within 120s")
      else sleep 1 ;; ret (inl (t + 1))
    else raise (AssertionError "status['state'] in ['up:active', 'up:creating']")) 0.
(** The daemon is to exit with status 1. *)
Definition await_crash (mds_id : string) : MM unit :=
  catch (daemon DWaitForExit "mds" mds_id "zbkc")
    (fun e => match e with CommandFailedError 1 => ret tt | _ => raise e end).
Definition fail_creation (mds_id : string) : MM unit :=
  raw_cluster_cmd ["mds"; "set"; "max_mds"; "0"] ;;
  daemon DStop "mds" mds_id "zbkc" ;;
  raw_cluster_cmd ["mds"; "fail"; mds_id] ;;
  raw_cluster_cmd ["fs"; "rm"; "default"; "--yes-i-really-mean-it"] ;;
  raw_cluster_cmd ["fs"; "new"; "default"; "metadata"; "data"] ;;
  daemon (DRestart ["--mds_kill_create_at=1"]) "mds" mds_id "zbkc" ;;
  await_crash mds_id.
(** Runs on the manager of the machine with the MDS, which is its controller. *)
Definition mds_creation_failure_task {A} (body : MM A) : MM A :=
  s <- get ;;
  match all_roles_of_type (ctx s) "mds" with
  | [mds_id] =>
      fail_creation mds_id ;;
      run (controller s) ["rm"; "-f"; get_archive_dir (ctx s) +:+ "/coredump/*.core"] true ;;
      state <- mds_state mds_id ;;
      assert_ (eq_str state "up:creating") "status['state'] == 'up:creating'" ;;
      daemon (DRestart []) "mds" mds_id "zbkc" ;;
      wait_created mds_id ;;
      body
  | _ => raise (RuntimeError "This task requires exactly one MDS")
  end.

End MdsCreation.
