(* ===== verification/Vstart.v ===== *)
(** * Running tests against a cluster on the developer's machine: tasks/vstart_runner.py

    Local classes with the interface of teuthology's remotes, processes and daemons, and of the
    manager, the cluster and the FUSE client.  [LocalRemote.run] is modelled down to
    [subprocess.Popen]; above it, a call of a remote's [run] is the event [EvRun] or [PStart] on
    the machine ["local"], as everywhere.  The working directory of a process is part of the
    place it runs at.  Functions on local files are [EvFile] and [EvCall] events.  [BIN_PREFIX],
    the user and [os.path.abspath] are arguments, and so is teuthology's [quote]. *)
From Stdlib Require Import Ascii QArith Qround Lqa.
From S2P Require Import Prelude PyVal World ZbkcManager ManagerWait ClientMount FuseMount ClientTasks.

(** ** Text: [re.search] for the patterns of [_write_conf]

    In a section's or a setting's name only the dot has a meaning as a pattern. *)
Module Text.
Fixpoint re_prefix (pat s : string) : option string :=
  match pat, s with
  | EmptyString, _ => Some s
  | String p pat', String a s' =>
      if Ascii.eqb p a || (Ascii.eqb p "." && negb (Ascii.eqb a nl)) then re_prefix pat' s' else None
  | String _ _, EmptyString => None
  end.
(** [[^\[]*], as long as it goes *)
Fixpoint body_length (s : string) : nat :=
  match s with
  | String a s' => if Ascii.eqb a "[" then 0%nat else S (body_length s')
  | EmptyString => 0%nat
  end.
(** The length of a match of [\[name\]$([\n]|[^\[])+] at the start of [s] *)
Definition section_here (name s : string) : option nat :=
  match re_prefix ("[" +:+ name +:+ "]") s with
  | Some (String a rest) =>
      if Ascii.eqb a nl then Some (String.length name + 2 + S (body_length rest))%nat else None
  | _ => None
  end.
(** The first match at the start of a line: its position and length *)
Fixpoint search_section (name : string) (bol : bool) (s : string) : option (nat * nat) :=
  match (if bol then section_here name s else None) with
  | Some n => Some (0%nat, n)
  | None =>
      match s with
      | EmptyString => None
      | String a s' => (fun p => (S p.1, p.2)) <$> search_section name (Ascii.eqb a nl) s'
      end
  end.
(** [[^#](key) =] at the start of [s] *)
Definition key_here (key s : string) : bool :=
  match s with
  | String a s' => negb (Ascii.eqb a "#") && match re_prefix (key +:+ " =") s' with Some _ => true | None => false end
  | EmptyString => false
  end.
(** [\s*[^#](key) =] at the start of [s], with as many blanks as possible: where the key is *)
Fixpoint key_after_blanks (key s : string) : option nat :=
  match s with
  | EmptyString => None
  | String a s' =>
      match (if is_space a then key_after_blanks key s' else None) with
      | Some n => Some (S n)
      | None => if key_here key s then Some 1%nat else None
      end
  end.
Fixpoint search_key (key : string) (bol : bool) (s : string) : option nat :=
  match (if bol then key_after_blanks key s else None) with
  | Some n => Some n
  | None =>
      match s with
      | EmptyString => None
      | String a s' => S <$> search_key key (Ascii.eqb a nl) s'
      end
  end.
(** [s[0:n]] *)
Fixpoint str_take (n : nat) (s : string) : string :=
  match n, s with
  | S k, String a s' => String a (str_take k s')
  | _, _ => EmptyString
  end.
(** [s[0:s.find(pat)]] when [pat in s], and [s] when not *)
Fixpoint before (pat s : string) : string :=
  if startswith pat s then EmptyString
  else match s with EmptyString => EmptyString | String a s' => String a (before pat s') end.

(** ** [LocalZbkcCluster._write_conf], on the text of the file *)
Definition banner : string := nls +:+ "#LOCAL_TEST" +:+ nls.
Definition comment_out (subsys key s : string) : string :=
  match search_section subsys true s with
  | Some (p, n) =>
      match search_key key true (str_take n (str_from p s)) with
      | Some k => str_take (p + k) s +:+ "#" +:+ str_from (p + k) s
      | None => s
      end
  | None => s
  end.
Definition setting (kv : string * pyval) : string := kv.1 +:+ " = " +:+ py_str kv.2 +:+ nls.
Definition heading (subsys : string) : string := nls +:+ "[" +:+ subsys +:+ "]" +:+ nls.
Definition write_key (subsys : string) (s : string) (kv : string * pyval) : string :=
  comment_out subsys kv.1 s +:+ setting kv.
Definition write_section (s : string) (sec : string * dict) : string :=
  foldl (write_key sec.1) (s +:+ heading sec.1) sec.2.
Definition new_conf (conf : list (string * dict)) (s : string) : string :=
  foldl write_section (before banner s +:+ banner) conf.
End Text.

(** ** [LocalRemoteProcess] *)

Record lproc := LProc
  { l_args : list string; subproc : proc; l_check_status : bool; l_stdout : string; l_stderr : string; l_exitstatus : option Z }.
Definition collect (r : reply) (p : lproc) : lproc :=
  LProc (l_args p) (subproc p) (l_check_status p) (l_stdout p +:+ stdout r) (l_stderr p +:+ stderr r) (Some (exitstatus r)).

(** An argument of a command: a string, a [Raw], or something else *)
Inductive arg := Str (s : string) | Raw (s : string) | Other (repr : string).
Definition arg_is (word : string) (a : arg) : bool := match a with Str s => String.eqb s word | _ => false end.
Definition is_raw (a : arg) : bool := match a with Raw _ => true | _ => false end.
(** [while i < len(args)]: the wrappers of the tasks and their arguments are left out. *)
Fixpoint unwrap (args : list arg) : list arg :=
  match args with
  | [] => []
  | a :: l =>
      if arg_is "adjust-ulimits" a then unwrap l
      else if arg_is "zbkc-coverage" a || arg_is "timeout" a then match l with [] => [] | _ :: l' => unwrap l' end
      else a :: unwrap l
  end.
Definition local : remote := "local".
Definition place (cwd : option string) : remote := match cwd with None => local | Some d => local +:+ ":" +:+ d end.

Section Processes.
Context {E : Env} {F : Fuel}.
Abbreviation ML A := (M lproc A).

(** [self.subproc.communicate()] and what is kept of it *)
Definition communicate : ML unit := p <- get ;; r <- on_proc PWait (subproc p) ;; modify (collect r).
Definition finished : ML bool :=
  p <- get ;;
  match l_exitstatus p with
  | Some _ => ret true
  | None =>
      ended <- ask (EvProc PPoll (pid (subproc p)) (p_remote (subproc p)) (p_args (subproc p))) ;;
      if ended : bool then communicate ;; ret true else ret false
  end.
Definition failed (p : lproc) : option Z :=
  match l_exitstatus p with Some st => if st =? 0 then None else Some st | None => None end.
Definition wait : ML unit :=
  b <- finished ;;
  if b : bool then p <- get ;; match failed p with Some st => raise (CommandFailedError st) | None => ret tt end
  else
    communicate ;;
    p <- get ;;
    match failed p with
    | Some st => when (l_check_status p) (raise (CommandFailedError st))
    | None => ret tt
    end.
(** [os.kill(pid, SIGKILL)]; a process that is gone is fine. *)
Definition safe_kill {S} (pid : string) : M S unit :=
  catch (call "os.kill" [pid; "SIGKILL"] ;; ret tt)
    (fun e => match e with OtherError "ESRCH" => ret tt | _ => raise e end).
Definition kill_local : ML unit :=
  b <- finished ;; p <- get ;; when (negb b) (safe_kill (str_of_Z (Z.of_nat (pid (subproc p))))).
(** [proc.stdin.close()] *)
Definition close_stdin : ML unit := kill_local.

(** ** [LocalRemote.run] *)
Context (quote : list arg -> string).
(** The words of a command without a shell *)
Definition words {S} (args : list arg) : M S (list string) :=
  map_ (fun a => match a with Str s => ret s | Raw s | Other s => raise (RuntimeError ("Oops, can't handle arg " +:+ s)) end) args.
Definition local_run {S} (args : list arg) (check_status wait_ : bool) (cwd : option string) (stdin : pyval) : M S lproc :=
  let args := filter (fun a => arg_is "sudo" a = false) args in
  argv <- (if existsb is_raw args then ret [quote (unwrap args)] else words args) ;;
  sub <- start (place cwd) argv ;;
  when (truthy stdin)
    (match stdin with
     | PStr data => on_proc (PWrite data) sub ;; ret tt
     | _ => raise (RuntimeError "Can't handle non-string stdins on a vstart cluster")
     end) ;;
  let p := LProc argv sub check_status EmptyString EmptyString None in
  if wait_ then x <- fresh p wait ;; ret x.2 else ret p.
End Processes.

(** ** [LocalDaemon] *)
Record ldaemon := LDaemon { daemon_type : string; daemon_id : string }.

Section Daemons.
Context {E : Env} {F : Fuel}.
Context (uid : Z) (BIN_PREFIX : string).
Abbreviation MD A := (M ldaemon A).
Definition bin (name : string) : string := path_join BIN_PREFIX name.

(** [int(line.split()[n])] *)
Definition int_field {S} (n : nat) (line : string) : M S Z :=
  f <- of_option IndexError (split_ws line !! n) ;; of_option (ValueError "invalid literal for int()") (py_int f).
(** The lines of [ps] after the first *)
Definition ps_lines {S} (opts : string) : M S (list string) :=
  p <- run local ["ps"; opts +:+ str_of_Z uid] true ;; ret (tail (split_on nl (str_strip (stdout p)))).
Definition _get_pid : MD (option Z) :=
  d <- get ;;
  lines <- ps_lines "-xwwu" ;;
  for_return lines (fun line =>
    if str_in ("zbkc-" +:+ daemon_type d +:+ " -i " +:+ daemon_id d) line then n <- int_field 1 line ;; ret (Some n) else ret None).
Definition running : MD bool := p <- _get_pid ;; ret (match p with Some _ => true | None => false end).
Definition wait_gone (timeout : Z) : MD unit :=
  while fuel
    (fun _ => running)
    (fun waited : Z =>
       when (waited >? timeout) (raise MaxWhileTries) ;;
       sleep 1 ;;
       ret (waited + 1)) 0 ;;
  ret tt.
(** A daemon that ends between the two looks at [ps] leaves [os.kill(None, ...)]. *)
Definition local_stop (timeout : Z) : MD unit :=
  b <- running ;;
  when b
    (p <- _get_pid ;;
     match p with
     | Some pid => call "os.kill" [str_of_Z pid; "SIGKILL"] ;; wait_gone timeout
     | None => raise (TypeError "an integer is required")
     end).
Definition local_restart : MD unit :=
  p <- _get_pid ;;
  when (match p with Some _ => true | None => false end) (local_stop 300) ;;
  d <- get ;;
  run local [bin ("./zbkc-" +:+ daemon_type d); "-i"; daemon_id d] true ;;
  ret tt.

(** ** [LocalFuseMount] *)
Context (abspath : string -> string).
Abbreviation MF A := (M fuse A).
Definition local_config_path : string := "./zbkc.conf".
Definition local_keyring_path (f : fuse) : string := abspath ("./client." +:+ client_id (f_base f) +:+ ".keyring").
(** The reply, or the process when it is not waited for *)
Definition local_run_shell (args : list string) (wait_ : bool) : MF (reply + proc) :=
  f <- get ;;
  let at_ := place (Some (mountpoint (f_base f))) in
  if wait_ then r <- run at_ args true ;; ret (inl r) else p <- start at_ args ;; ret (inr p).
Definition local_asok_path : MF string :=
  f <- get ;; p <- the_daemon ;;
  ret ("./out/client." +:+ client_id (f_base f) +:+ "." +:+ str_of_Z (Z.of_nat (pid p)) +:+ ".asok").
Definition local_umount : MF unit := b <- fuse_is_mounted ;; when b fuse_umount.
(** As [FuseMount]'s, without [sudo] *)
Definition local_list_connections : MF (list Z) :=
  on_host ["mount"; "-t"; "fusectl"; "/sys/fs/fuse/connections"; "/sys/fs/fuse/connections"] false ;;
  p <- on_host ["ls"; "/sys/fs/fuse/connections"] false ;;
  if negb (exitstatus p =? 0) then ret []
  else
    let ls_str := str_strip (stdout p) in
    if String.eqb ls_str EmptyString then ret []
    else map_ (fun n => of_option (ValueError "invalid literal for int()") (py_int n)) (split_on nl ls_str).
Definition local_fuse_cmd (f : fuse) (mount_path mount_fs_name : option string) : list string :=
  [bin "zbkc-fuse"] ++ (if uid =? 0 then [] else ["--client-die-on-failed-remount=false"]) ++
  match mount_path with Some p => ["--client_mountpoint=" +:+ p] | None => [] end ++
  match mount_fs_name with Some n => ["--client_mds_namespace=" +:+ n] | None => [] end ++
  ["-f"; "--name"; "client." +:+ client_id (f_base f); mountpoint (f_base f)].
Definition local_await_connection (pre post : list Z) : MF (list Z) :=
  loop fuel (fun l : Z * list Z =>
    let '(waited, post) := l in
    if Nat.leb (length post) (length pre) then
      p <- the_daemon ;;
      done <- ask (EvProc PFinished (pid p) (p_remote p) (p_args p)) ;;
      when done (wait_proc p true ;; ret tt) ;;
      sleep 1 ;;
      let waited := waited + 1 in
      if 30 <? waited then raise (RuntimeError "Fuse mount failed to populate /sys/")
      else post <- local_list_connections ;; ret (inl (waited, post))
    else ret (inr post)) (0, post).
Definition local_mount (mount_path mount_fs_name : option string) : MF unit :=
  mnt <- the_mountpoint ;;
  on_host ["mkdir"; "--"; mnt] true ;;
  pre <- local_list_connections ;;
  f <- get ;;
  p <- start (client_remote (f_base f)) (local_fuse_cmd f mount_path mount_fs_name) ;;
  modify (set_daemon p) ;;
  post <- local_list_connections ;;
  post <- local_await_connection pre post ;;
  c <- new_connection pre post ;;
  modify (set_conn (Some c)).
Definition local_run_python (pyscript : string) : MF proc :=
  f <- get ;; start (client_remote (f_base f)) ["python"; "-c"; pyscript].

(** ** [LocalZbkcManager]: the same methods over another way to run a command *)
Abbreviation MM A := (M mgr A).
Definition local_find_remote (daemon_type daemon_id : string) : MM remote := ret local.
Definition local_run_zbkc_w : MM proc := start local [bin "zbkc"; "-w"].
Definition local_cluster_cmd (args : list string) : MM string :=
  p <- run local ([bin "zbkc"] ++ args) true ;; ret (stdout p).
Definition local_cluster_cmd_result (args : list string) : MM Z :=
  p <- run local ([bin "zbkc"] ++ args) false ;; ret (exitstatus p).
Definition local_admin_socket (daemon_type daemon_id : string) (command : list string) (check_status : bool) : MM reply :=
  run local ([bin "zbkc"; "daemon"; daemon_type +:+ "." +:+ daemon_id] ++ command) check_status.
Definition local_get_mds_status_all : MM pyval :=
  out <- local_cluster_cmd ["mds"; "dump"; "--format=json"] ;; json_loads (str_join " " (tail (splitlines out))).
Definition local_get_mds_status (mds : string) : MM (option pyval) :=
  j <- local_get_mds_status_all ;;
  v <- subscript j "info" ;; info <- as_dict v ;;
  find_by "name" mds (map snd info).
Definition local_get_mds_status_by_rank (rank : Z) : MM (option pyval) :=
  j <- local_get_mds_status_all ;;
  v <- subscript j "info" ;; info <- as_dict v ;;
  for_return (map snd info) (fun i => r <- subscript i "rank" ;; ret (if eq_int r rank then Some i else None)).

(** ** [LocalZbkcCluster]: the settings of the test, in the order of [self._conf] *)
Abbreviation lconf := (list (string * dict)).
Abbreviation MC A := (M lconf A).
Definition section_of (subsys : string) (c : lconf) : dict :=
  default [] (snd <$> find (fun sd => String.eqb sd.1 subsys) c).
(** [self._conf[subsys] = d], which a [defaultdict] has from the first use on *)
Fixpoint set_section (subsys : string) (d : dict) (c : lconf) : lconf :=
  match c with
  | [] => [(subsys, d)]
  | sd :: c' => if String.eqb sd.1 subsys then (subsys, d) :: c' else sd :: set_section subsys d c'
  end.
Definition _write_conf : MC unit :=
  c <- get ;;
  existing_str <- file FGet local "./zbkc.conf" ;;
  file (FWrite (Text.new_conf c existing_str)) local "./zbkc.conf" ;; ret tt.
Definition local_set_zbkc_conf (subsys key : string) (value : pyval) : MC unit :=
  modify (fun c => set_section subsys (dict_set key value (section_of subsys c)) c) ;; _write_conf.
Definition local_clear_zbkc_conf (subsys key : string) : MC unit :=
  c <- get ;;
  modify (fun c => set_section subsys (dict_del key (section_of subsys c)) c) ;;
  if dict_has key (section_of subsys c) then _write_conf else raise (KeyError key).
Definition service_id_of (service_type : string) : MM string :=
  if String.eqb service_type "mon" || String.eqb service_type "mds" then ret "a"
  else if String.eqb service_type "osd" then ret "0" else raise (KeyError service_type).
Definition local_get_config (key : string) (service_type : option string) : MM pyval :=
  let service_type := default "mon" service_type in
  service_id <- service_id_of service_type ;;
  proc <- local_admin_socket service_type service_id ["config"; "get"; key] true ;;
  j <- (if String.eqb (str_strip (stdout proc)) EmptyString then ret PNone else json_loads (stdout proc)) ;;
  subscript j key.
(** [LocalFilesystem.get_pgs_per_fs_pool] *)
Definition local_get_pgs_per_fs_pool : MM Z :=
  v <- local_get_config "mon_pg_warn_min_per_osd" None ;;
  n <- as_int v ;;
  ret (3 * n).

(** ** Finding the daemons in zbkc.conf *)

(** [re.match("^\[type\.(.+)\]$", line)], its group *)
Definition daemon_heading (type_ line : string) : option string :=
  let start := "[" +:+ type_ +:+ "." in
  if startswith start line && endswith "]" line then
    let id_ := Text.str_take (pred (String.length line - String.length start)) (str_from (String.length start) line) in
    if (String.length start + 1 <? String.length line)%nat then Some id_ else None
  else None.
Definition ids_of (type_ text : string) : list string := omap (daemon_heading type_) (split_on nl text).
(** [LocalContext]: the daemons by type; those of an id are one *)
Definition local_daemons (text : string) : list (string * list ldaemon) :=
  map (fun t => (t, map (LDaemon t) (remove_dups (ids_of t text)))) ["mon"; "osd"; "mds"; "mgr"].
(** [LocalMDSCluster.__init__] and [LocalMgrCluster.__init__]: the ids, of which there must be one *)
Definition local_ids {S} (type_ what text : string) : M S (list string) :=
  match remove_dups (ids_of type_ text) with
  | [] => raise (RuntimeError ("No " +:+ what +:+ " found in zbkc.conf!"))
  | l => ret l
  end.
End Daemons.

(** ** Choosing the tests *)

(** A test method with the marks its decorators left; a suite holds tests and suites *)
Record vtest := VTest { test_id : string; is_for_teuthology : bool; needs_trimming : bool }.
Inductive suite := Case (t : vtest) | Suite (tests : list suite).
Definition case_of (s : suite) : option vtest := match s with Case t => Some t | Suite _ => None end.
(** [enumerate_methods] *)
Fixpoint methods (s : suite) : list vtest :=
  match s with Case t => [t] | Suite l => concat (map methods l) end.
(** The second mark decides alone when it is there. *)
Definition drop_test (uid : Z) (t : vtest) : bool :=
  if needs_trimming t then negb (uid =? 0) else is_for_teuthology t.
Definition is_named (modules : list string) (t : vtest) : bool := existsb (endswith (test_id t)) modules.
Definition victim (uid : Z) (modules : list string) (t : vtest) : bool := drop_test uid t && negb (is_named modules t).
(** [s._tests.remove(method)]: the first test that is equal *)
Fixpoint remove_test (l : list suite) (t : vtest) : list suite :=
  match l with
  | [] => []
  | Case u :: l' => if String.eqb (test_id u) (test_id t) then l' else Case u :: remove_test l' t
  | Suite x :: l' => Suite x :: remove_test l' t
  end.
Fixpoint disable (uid : Z) (modules : list string) (s : suite) : suite :=
  match s with
  | Case t => Case t
  | Suite l =>
      Suite (foldl remove_test (map (disable uid modules) l) (List.filter (victim uid modules) (omap case_of l)))
  end.

(** ** [exec_test] *)
Section ExecTest.
Context {E : Env} {F : Fuel}.
Context (uid gid : Z) (BIN_PREFIX : string).
(** The tests are loaded by name or found in a directory; [unittest] runs them. *)
Context (load_name : string -> suite) (discovered : suite).
Abbreviation MC A := (M (list (string * dict)) A).
Context (run_suite : bool -> suite -> MC bool).
Abbreviation bin := (bin BIN_PREFIX).

Definition require_binaries : list string :=
  ["zbkc-dencoder"; "zbkcfs-journal-tool"; "zbkcfs-data-scan"; "zbkcfs-table-tool"; "zbkc-fuse"; "rados"].
Definition exists_ {S} (path : string) : M S bool := ask (EvCall "os.path.exists" [path]).
Definition missing_binaries : MC (list string) :=
  fold_ (fun missing b => there <- exists_ (bin b) ;; ret (if there : bool then missing else missing ++ [b])) require_binaries [].
Definition kill_strays : MC unit :=
  lines <- ps_lines uid "-u" ;;
  for_ lines (fun line =>
    when (str_in "zbkc-fuse" line || str_in "zbkc-mds" line)
      (n <- int_field 0 line ;; call "os.kill" [str_of_Z n; "SIGKILL"] ;; ret tt)).
Definition populate_keyring (client_id : string) : MC unit :=
  let client_name := "client." +:+ client_id in
  keys <- file FGet local "./keyring" ;;
  when (negb (str_in client_name keys))
    (p <- run local [bin "zbkc"; "auth"; "get-or-create"; client_name; "osd"; "allow rw"; "mds"; "allow"; "mon"; "allow r"] true ;;
     call "append" ["./keyring"; stdout p] ;; ret tt).
(** [umount_wait()] with the local [umount]; the client was not mounted by this process. *)
Definition local_umount_wait : M fuse unit := local_umount ;; fuse_cleanup.
Definition prepare_mount (test_dir client_id : string) : MC fuse :=
  x <- fresh (init_fuse [] test_dir client_id local)
         (b <- fuse_is_mounted ;;
          if b : bool then local_umount_wait
          else
            mnt <- the_mountpoint ;;
            there <- exists_ mnt ;;
            when there (call "os.rmdir" [mnt] ;; ret tt)) ;;
  ret x.2.
Definition local_settings : MC unit :=
  run local [bin "zbkc"; "tell"; "osd.*"; "injectargs"; "--osd-mon-report-interval-max"; "5"] true ;;
  local_set_zbkc_conf "osd" "osd_mon_report_interval_max" (PStr "5") ;;
  local_set_zbkc_conf "mds" "mds log max segments" (PStr "10") ;;
  local_set_zbkc_conf "global" "mds root ino uid" (PStr (str_of_Z uid)) ;;
  local_set_zbkc_conf "global" "mds root ino gid" (PStr (str_of_Z gid)).
Definition starts_with_dash (a : string) : bool := startswith "-" a.
Definition overall_suite (modules : list string) : suite :=
  match modules with [] => discovered | _ => Suite (map load_name modules) end.
(** The status the program exits with *)
Definition exec_test (argv : list string) : MC Z :=
  missing <- missing_binaries ;;
  match missing with
  | _ :: _ => ret (-1)
  | [] =>
      test_dir <- call "tempfile.mkdtemp" [] ;;
      kill_strays ;;
      text <- file FGet local "zbkc.conf" ;;
      for_ ["0"; "1"; "2"; "3"] (fun c => populate_keyring c ;; prepare_mount test_dir c ;; ret tt) ;;
      local_ids "mds" "MDSs" text ;;
      local_ids "mgr" "manager daemonss" text ;;
      local_settings ;;
      let flags := List.filter starts_with_dash argv in
      let modules := List.filter (fun a => negb (starts_with_dash a)) argv in
      if existsb (fun f => negb (String.eqb f "--interactive")) flags then ret (-1)
      else
        ok <- run_suite (existsb (String.eqb "--interactive") flags) (disable uid modules (overall_suite modules)) ;;
        ret (if ok : bool then 0 else -1)
  end.
End ExecTest.
