(* ===== verification/VstartFacts.v ===== *)
(** * The local runner: what its classes promise

    The settings of a test are appended to a file somebody else wrote, which loses nothing but
    what an earlier test appended; a process is waited for once; the tests that are left out are
    the marked ones; a stopped daemon is waited for a bounded time. *)
From Stdlib Require Import Ascii QArith Qround Lqa.
From S2P Require Import Prelude PyVal World ZbkcManager ManagerWait ClientMount FuseMount ClientTasks Vstart.

(** ** Strings *)
Section Strings.
Import Text.
Implicit Types a b s t : string.

Lemma cons_app (x : ascii) s t : String x s +:+ t = String x (s +:+ t).
Proof. done. Qed.
Lemma startswith_spec (p : string) s : startswith p s = true <-> exists t, s = p +:+ t.
Proof.
  unfold startswith. revert s; induction p as [|x p IH]; intros s.
  { split; [by exists s|]. by destruct s. }
  destruct s as [|y s]; simpl.
  { split; [done|]. by intros [t Ht]. }
  destruct (Ascii.ascii_dec x y) as [->|Hne].
  - rewrite IH. split; intros [t Ht]; exists t; [by rewrite Ht|]. rewrite cons_app in Ht. congruence.
  - split; [done|]. intros [t Ht]. rewrite cons_app in Ht. congruence.
Qed.
(** How two ways to cut a text compare *)
Lemma append_split a b s t : a +:+ b = s +:+ t ->
  (exists u, a = s +:+ u /\ t = u +:+ b) \/ (exists u, s = a +:+ u /\ b = u +:+ t /\ u <> EmptyString).
Proof.
  revert s; induction a as [|x a IH]; intros s H.
  - destruct s as [|y s]; [left; by exists EmptyString|]. right. exists (String y s). by split_ands.
  - destruct s as [|y s]; [left; exists (String x a); by rewrite H|].
    rewrite !cons_app in H. injection H as -> H. destruct (IH _ H) as [(u & -> & ->)|(u & -> & -> & Hu)].
    + left. exists u. by rewrite cons_app.
    + right. exists u. by rewrite cons_app.
Qed.
Lemma str_in_spec (p : string) s : str_in p s = true <-> exists a b, s = a +:+ (p +:+ b).
Proof.
  induction s as [|x s IH]; simpl; rewrite orb_true_iff.
  - rewrite (startswith_spec p EmptyString : String.prefix p EmptyString = true <-> _). split.
    + intros [[t Ht]|?]; [by exists EmptyString, t|done].
    + intros (a & b & H). left. exists b. destruct a; [done|]. by rewrite cons_app in H.
  - rewrite (startswith_spec p (String x s) : String.prefix p (String x s) = true <-> _), IH. split.
    + intros [[t Ht]|(a & b & ->)]; [by exists EmptyString, t|by exists (String x a), b].
    + intros (a & b & H). destruct a as [|y a]; [left; by exists b|]. rewrite cons_app in H. injection H as -> ->.
      right. by exists a, b.
Qed.
Lemma take_from n s : str_take n s +:+ str_from n s = s.
Proof.
  revert s; induction n as [|n IH]; intros [|x s]; try done. cbn [str_take str_from]. by rewrite cons_app, IH.
Qed.

(** *** [before] *)
(** No occurrence of [p] begins before [b] and ends in it. *)
Definition apart (p b : string) : Prop := forall u v, p = u +:+ v -> v <> EmptyString -> u <> EmptyString -> startswith v b = false.
Lemma startswith_app_l (p : string) s t : startswith p s = true -> startswith p (s +:+ t) = true.
Proof. rewrite !startswith_spec. intros [u ->]. exists (u +:+ t). by rewrite append_assoc. Qed.
Lemma startswith_app_short (p : string) s t :
  startswith p (s +:+ t) = true -> (String.length p <= String.length s)%nat -> startswith p s = true.
Proof.
  rewrite !startswith_spec. intros [u Hu] Hl. destruct (append_split _ _ _ _ Hu) as [(v & -> & _)|(v & -> & _ & Hv)]; [by exists v|].
  rewrite length_append in Hl. destruct v; [done|]. cbn [String.length] in Hl. lia.
Qed.
Lemma str_in_cons (p : string) (x : ascii) s : str_in p (String x s) = startswith p (String x s) || str_in p s.
Proof. done. Qed.
Lemma str_in_length (p : string) s : str_in p s = true -> (String.length p <= String.length s)%nat.
Proof. intros (a & b & ->)%str_in_spec. rewrite !length_append. lia. Qed.
(** A later text does not matter once the pattern is there. *)
Lemma before_in (p : string) s t : p <> EmptyString -> str_in p s = true -> before p (s +:+ t) = before p s.
Proof.
  intros Hp. induction s as [|x s IH]; intros H; [by destruct p|].
  rewrite cons_app. cbn [before]. rewrite str_in_cons in H.
  destruct (startswith p (String x s)) eqn:Hs.
  - by rewrite <- cons_app, startswith_app_l.
  - simpl in H. destruct (startswith p (String x (s +:+ t))) eqn:Hs'; [|by rewrite IH].
    rewrite <- cons_app in Hs'. apply startswith_app_short in Hs'; [congruence|].
    apply str_in_length in H. cbn [String.length]. lia.
Qed.
Lemma startswith_straddle (p : string) (x : ascii) a b :
  startswith p (String x a +:+ b) = true -> startswith p (String x a) = false ->
  exists v, p = String x a +:+ v /\ startswith v b = true /\ v <> EmptyString.
Proof.
  rewrite startswith_spec. intros [u Hu] Hn. destruct (append_split _ _ _ _ Hu) as [(v & Hv & _)|(v & -> & -> & Hv)].
  - assert (startswith p (String x a) = true) by (apply startswith_spec; by exists v). congruence.
  - exists v. split_ands; [done| |done]. apply startswith_spec. by exists u.
Qed.
(** Before a text without the pattern and without its beginning, nothing is found. *)
Lemma before_app (p : string) a b : apart p b -> str_in p a = false -> before p (a +:+ b) = a +:+ before p b.
Proof.
  intros Hap. induction a as [|x a IH]; intros H; [done|].
  rewrite str_in_cons in H. apply orb_false_iff in H as [H1 H2].
  rewrite !cons_app. cbn [before]. rewrite IH by done.
  destruct (startswith p (String x (a +:+ b))) eqn:Hs; [|done].
  destruct (startswith_straddle p x a b Hs H1) as (v & -> & Hv & Hne).
  by rewrite (Hap (String x a) v) in Hv.
Qed.
Lemma str_in_app (p : string) a b : p <> EmptyString -> apart p b -> str_in p (a +:+ b) = str_in p a || str_in p b.
Proof.
  intros Hp Hap. induction a as [|x a IH]; [by destruct p|].
  rewrite cons_app, !str_in_cons, IH. destruct (startswith p (String x (a +:+ b))) eqn:Hs.
  - destruct (startswith p (String x a)) eqn:Hs'; [done|].
    destruct (startswith_straddle p x a b Hs Hs') as (v & -> & Hv & Hne). by rewrite (Hap (String x a) v) in Hv.
  - destruct (startswith p (String x a)) eqn:Hs'; [|done].
    pose proof (startswith_app_l p (String x a) b Hs') as H. rewrite cons_app in H. congruence.
Qed.
End Strings.

(** ** [_write_conf] *)
Section Conf.
Import Text.
Implicit Types a b s t : string.

Fixpoint no_char (c : ascii) s : bool :=
  match s with EmptyString => true | String x s' => negb (Ascii.eqb x c) && no_char c s' end.
(** A text without its comment marks *)
Fixpoint drop_hash s : string :=
  match s with EmptyString => EmptyString | String x s' => if Ascii.eqb x "#" then drop_hash s' else String x (drop_hash s') end.
Lemma drop_hash_app a b : drop_hash (a +:+ b) = drop_hash a +:+ drop_hash b.
Proof.
  induction a as [|x a IH]; [done|]. rewrite cons_app. cbn [drop_hash]. rewrite IH. by destruct (Ascii.eqb x "#").
Qed.

(** What the two searches find *)
Lemma re_prefix_match (pat s r : string) :
  re_prefix pat s = Some r -> no_char nl pat = true -> exists m, s = m +:+ r /\ no_char nl m = true /\ String.length m = String.length pat.
Proof.
  revert s; induction pat as [|p pat IH]; intros s H Hn; [injection H as ->; by exists EmptyString|].
  destruct s as [|x s]; [done|]. cbn [re_prefix no_char] in *. apply andb_true_iff in Hn as [Hp Hn].
  destruct (Ascii.eqb p x || (Ascii.eqb p "." && negb (Ascii.eqb x nl))) eqn:Hx; [|done].
  destruct (IH _ H Hn) as (m & -> & Hm & Hl). exists (String x m). rewrite cons_app. split_ands; [done| |cbn; lia].
  cbn [no_char]. rewrite Hm, andb_true_r. apply orb_true_iff in Hx as [<-%Ascii.eqb_eq|[_ ?]%andb_true_iff]; done.
Qed.
Lemma re_prefix_app (pat p2 s r : string) :
  re_prefix (pat +:+ p2) s = Some r -> exists t, re_prefix pat s = Some t /\ re_prefix p2 t = Some r.
Proof.
  revert s; induction pat as [|p pat IH]; intros s H; [by exists s|]. rewrite cons_app in H.
  destruct s as [|x s]; [done|]. cbn [re_prefix] in *. case_match; [by apply IH|done].
Qed.
Lemma re_prefix_literal (pat s r : string) : re_prefix pat s = Some r -> no_char "." pat = true -> s = pat +:+ r.
Proof.
  revert s; induction pat as [|p pat IH]; intros s H Hn; [by injection H as ->|].
  destruct s as [|x s]; [done|]. cbn [re_prefix no_char] in *. apply andb_true_iff in Hn as [Hp Hn].
  destruct (Ascii.eqb p ".") eqn:Hd; [done|]. destruct (Ascii.eqb p x) eqn:Hx; [|done].
  apply Ascii.eqb_eq in Hx as ->. by rewrite cons_app, <- (IH s).
Qed.
Lemma key_after_blanks_found key s k :
  key_after_blanks key s = Some k -> is_Some (re_prefix (key +:+ " =") (str_from k s)).
Proof.
  revert k; induction s as [|x s IH]; intros k H; [done|]. cbn [key_after_blanks] in H.
  assert (Hk : key_here key (String x s) = true -> is_Some (re_prefix (key +:+ " =") (str_from 1 (String x s)))).
  { cbn [key_here str_from]. intros [_ Hr]%andb_true_iff. by destruct (re_prefix _ _); [eexists|]. }
  destruct (is_space x); [|destruct (key_here key (String x s)); [injection H as <-; by apply Hk|done]].
  destruct (key_after_blanks key s) as [n|] eqn:Hn; [injection H as <-; by apply IH|].
  destruct (key_here key (String x s)); [injection H as <-; by apply Hk|done].
Qed.
Lemma search_key_found key bol s k :
  search_key key bol s = Some k -> is_Some (re_prefix (key +:+ " =") (str_from k s)).
Proof.
  revert bol k; induction s as [|x s IH]; intros bol k H; cbn [search_key] in H.
  - by destruct bol.
  - destruct (if bol then key_after_blanks key (String x s) else None) as [n|] eqn:Hn.
    + injection H as <-. destruct bol; [by apply key_after_blanks_found|done].
    + destruct (search_key key (Ascii.eqb x nl) s) as [n|] eqn:Hs; [|done]. injection H as <-. by eapply IH.
Qed.
Lemma from_take_prefix n k s : exists r, str_from k s = str_from k (str_take n s) +:+ r.
Proof.
  revert k s; induction n as [|n IH]; intros k s.
  { exists (str_from k s). by destruct k. }
  destruct s as [|x s]; [exists EmptyString; by destruct k|]. destruct k as [|k]; [|apply (IH k s)].
  cbn [str_from str_take]. exists (str_from n s). by rewrite cons_app, take_from.
Qed.
Lemma from_from p k s : str_from k (str_from p s) = str_from (p + k) s.
Proof. revert s; induction p as [|p IH]; intros s; [done|]. destruct s as [|x s]; [by destruct k|]. apply IH. Qed.

(** The marker of the runner does not begin before a setting and end in it. *)
Lemma no_marker v m r : no_char " " v = true -> no_char nl m = true -> startswith (v +:+ nls) (m +:+ (" =" +:+ r)) = false.
Proof.
  revert m; induction v as [|x v IH]; intros m Hv Hm.
  - destruct m as [|y m]; [done|]. cbn [no_char] in Hm. apply andb_true_iff in Hm as [Hy _].
    rewrite cons_app. unfold startswith. change (EmptyString +:+ nls) with (String nl EmptyString). cbn [String.prefix].
    destruct (Ascii.ascii_dec nl y) as [<-|]; [done|done].
  - cbn [no_char] in Hv. apply andb_true_iff in Hv as [Hx Hv]. destruct m as [|y m].
    + change (startswith (String x (v +:+ nls)) (String " " ("=" +:+ r)) = false). unfold startswith. cbn [String.prefix].
      destruct (Ascii.ascii_dec x " ") as [->|]; [done|done].
    + cbn [no_char] in Hm. apply andb_true_iff in Hm as [_ Hm]. rewrite !cons_app. unfold startswith. cbn [String.prefix].
      destruct (Ascii.ascii_dec x y); [|done]. by apply IH.
Qed.
Lemma no_char_app c a b : no_char c (a +:+ b) = no_char c a && no_char c b.
Proof. induction a as [|x a IH]; [done|]. rewrite cons_app. cbn [no_char]. by rewrite IH, andb_assoc. Qed.
Lemma apart_setting m r : no_char nl m = true -> apart banner (m +:+ (" =" +:+ r)).
Proof.
  intros Hm u v H Hv Hu. assert (Hw : (nls +:+ "#LOCAL_TEST") +:+ nls = u +:+ v) by done.
  destruct (append_split _ _ _ _ Hw) as [(v' & Hv' & ->)|(x & -> & Hx & Hne)].
  - apply no_marker; [|done]. assert (Hs : no_char " " (u +:+ v') = true) by by rewrite <- Hv'.
    rewrite no_char_app in Hs. by apply andb_true_iff in Hs as [_ Hs].
  - destruct x as [|y x]; [done|]. rewrite cons_app in Hx. injection Hx as _ Hx. destruct x; [|done]. by destruct v.
Qed.

(** A setting is commented out by one mark, and not within the marker. *)
Lemma comment_out_cases subsys key s : no_char nl key = true ->
  comment_out subsys key s = s \/
  exists a b, s = a +:+ b /\ comment_out subsys key s = a +:+ ("#" +:+ b) /\ apart banner b /\ apart banner ("#" +:+ b).
Proof.
  intros Hk. unfold comment_out. destruct (search_section subsys true s) as [[p n]|]; [|by left].
  destruct (search_key key true (str_take n (str_from p s))) as [k|] eqn:Hs; [|by left]. right.
  exists (str_take (p + k) s), (str_from (p + k) s). rewrite take_from. split; [done|]. split; [done|].
  apply search_key_found in Hs as [r Hr]. destruct (from_take_prefix n k (str_from p s)) as [r' Hr'].
  rewrite from_from in Hr'. rewrite Hr'. clear Hr'.
  destruct (re_prefix_app _ _ _ _ Hr) as (t & Hm & Ht). apply re_prefix_match in Hm as (m & -> & Hm & _); [|done].
  assert (t = " =" +:+ r) as ->.
  { by apply re_prefix_literal. }
  rewrite !append_assoc. split; [by apply apart_setting|]. rewrite <- (append_assoc "#"). apply apart_setting. by cbn.
Qed.
Lemma comment_out_text subsys key s : drop_hash (comment_out subsys key s) = drop_hash s.
Proof.
  unfold comment_out. destruct (search_section subsys true s) as [[p n]|]; [|done].
  destruct (search_key key true _) as [k|]; [|done].
  etrans; [|apply (f_equal drop_hash), (take_from (p + k) s)]. by rewrite !drop_hash_app.
Qed.
Lemma comment_out_marker subsys key s : no_char nl key = true ->
  str_in banner (comment_out subsys key s) = str_in banner s /\
  drop_hash (before banner (comment_out subsys key s)) = drop_hash (before banner s).
Proof.
  intros Hk. destruct (comment_out_cases subsys key s Hk) as [->|(a & b & -> & -> & Hb & Hb')]; [done|].
  split; [by rewrite !str_in_app by done|]. destruct (str_in banner a) eqn:Ha.
  - by rewrite !before_in.
  - rewrite !before_app by done. by rewrite !drop_hash_app.
Qed.

(** The text a call appends *)
Definition rendered (conf : list (string * dict)) : string :=
  foldr (fun sec t => heading sec.1 +:+ foldr (fun kv t' => setting kv +:+ t') EmptyString sec.2 +:+ t) EmptyString conf.
(** The names of the settings are on one line. *)
Definition one_line (conf : list (string * dict)) : bool := forallb (fun sec => forallb (fun kv => no_char nl kv.1) sec.2) conf.

Lemma write_keys_text subsys kvs s :
  drop_hash (foldl (write_key subsys) s kvs) = drop_hash s +:+ drop_hash (foldr (fun kv t' => setting kv +:+ t') EmptyString kvs).
Proof.
  revert s; induction kvs as [|kv kvs IH]; intros s; cbn [foldl foldr]; [by rewrite append_nil|].
  rewrite IH. unfold write_key. by rewrite !drop_hash_app, comment_out_text, append_assoc.
Qed.
Lemma write_sections_text conf s : drop_hash (foldl write_section s conf) = drop_hash s +:+ drop_hash (rendered conf).
Proof.
  revert s; induction conf as [|sec conf IH]; intros s; cbn [foldl foldr rendered]; [by rewrite append_nil|].
  rewrite IH. unfold write_section. rewrite write_keys_text. fold (rendered conf). by rewrite !drop_hash_app, !append_assoc.
Qed.

(** What is kept while settings are appended behind the marker *)
Definition kept s t : Prop :=
  str_in banner s = true -> str_in banner t = true /\ drop_hash (before banner t) = drop_hash (before banner s).
#[local] Instance kept_preorder : PreOrder kept.
Proof. split; [by intros s|]. intros s t u H1 H2 H. destruct (H1 H) as [H3 E1]. destruct (H2 H3) as [H4 E2]. by rewrite E2, E1. Qed.
Lemma kept_append s t : kept s (s +:+ t).
Proof.
  intros H. rewrite before_in by done. split; [|done]. apply str_in_spec in H as (a & b & ->). apply str_in_spec.
  exists a, (b +:+ t). by rewrite !append_assoc.
Qed.
Lemma kept_comment subsys key s : no_char nl key = true -> kept s (comment_out subsys key s).
Proof. intros Hk H. destruct (comment_out_marker subsys key s Hk) as [-> ->]. done. Qed.
Lemma kept_keys subsys kvs s : forallb (fun kv => no_char nl kv.1) kvs = true -> kept s (foldl (write_key subsys) s kvs).
Proof.
  revert s; induction kvs as [|kv kvs IH]; intros s H; cbn [foldl]; [done|]. cbn [forallb] in H. apply andb_true_iff in H as [Hk H].
  etrans; [|by apply IH]. unfold write_key. etrans; [by apply kept_comment|apply kept_append].
Qed.
Lemma kept_sections conf s : one_line conf = true -> kept s (foldl write_section s conf).
Proof.
  revert s; induction conf as [|sec conf IH]; intros s H; cbn [foldl]; [done|]. unfold one_line in H. cbn [forallb] in H.
  apply andb_true_iff in H as [Hk H]. etrans; [|by apply IH]. unfold write_section. etrans; [apply kept_append|by apply kept_keys].
Qed.

(** The marker that is appended is the first one. *)
Lemma before_end s : str_in banner (s +:+ nls) = false -> before banner (s +:+ banner) = s.
Proof.
  induction s as [|x s IH]; intros H; [done|]. rewrite cons_app in *. rewrite str_in_cons in H. apply orb_false_iff in H as [H1 H2].
  cbn [before]. rewrite IH by done. destruct (startswith banner (String x (s +:+ banner))) eqn:Hs; [|done].
  exfalso. rewrite <- cons_app in Hs. assert (Hn : startswith banner (String x s) = false).
  { destruct (startswith banner (String x s)) eqn:Hp; [|done]. apply (startswith_app_l _ _ nls) in Hp. by rewrite cons_app, H1 in Hp. }
  destruct (startswith_straddle banner x s banner Hs Hn) as (v & Hb & Hv & Hne).
  apply startswith_spec in Hv as [r Hr]. destruct v as [|y v]; [done|]. clear Hne.
  assert (y = nl) as -> by (rewrite cons_app in Hr; by injection Hr).
  assert (Hw : (nls +:+ "#LOCAL_TEST") +:+ nls = String x s +:+ String nl v) by done.
  destruct (append_split _ _ _ _ Hw) as [(v' & Hv' & Hv)|(u & _ & Hu & Hne)].
  - destruct v' as [|c v'].
    + injection Hv as ->. assert (startswith banner (String x (s +:+ nls)) = true); [|congruence].
      apply startswith_spec. exists EmptyString. by rewrite append_nil, Hb, cons_app.
    + rewrite cons_app in Hv. injection Hv as <- _. rewrite cons_app in Hv'. injection Hv' as _ Hv'.
      assert (Hc : no_char nl (s +:+ String nl v') = true) by by rewrite <- Hv'. rewrite no_char_app in Hc. by apply andb_true_iff in Hc as [_ Hc].
  - destruct u as [|c u]; [done|]. rewrite cons_app in Hu. injection Hu as _ Hu. by destruct u.
Qed.
Lemma before_absent (p : string) s : str_in p s = false -> before p s = s.
Proof.
  induction s as [|x s IH]; intros H; cbn [before]; [by destruct (startswith p EmptyString)|].
  rewrite str_in_cons in H. apply orb_false_iff in H as [-> H]. by rewrite IH.
Qed.
Lemma before_present (p : string) s : str_in p s = true -> exists r, s = before p s +:+ (p +:+ r).
Proof.
  induction s as [|x s IH]; intros H.
  - destruct p; [|done]. exists EmptyString. done.
  - rewrite str_in_cons in H. cbn [before]. destruct (startswith p (String x s)) eqn:Hs.
    + apply startswith_spec in Hs as [r Hr]. by exists r.
    + destruct (IH H) as [r Hr]. exists r. by rewrite cons_app, <- Hr.
Qed.
Lemma str_in_end s : str_in banner (s +:+ banner) = true.
Proof. apply str_in_spec. exists s, EmptyString. by rewrite append_nil. Qed.
Lemma before_marked s : str_in banner (s +:+ nls) = str_in banner s -> before banner (before banner s +:+ banner) = before banner s.
Proof.
  intros Hn. destruct (str_in banner s) eqn:Hs; [|rewrite (before_absent banner s) by done; by apply before_end].
  destruct (before_present _ _ Hs) as [r Hr]. rewrite <- append_assoc in Hr.
  etrans; [symmetry; apply (before_in _ _ r); [done|apply str_in_end]|]. by rewrite <- Hr.
Qed.

(** Writing the settings of a test to zbkc.conf keeps every character of what was there before the runner's
    marker, except that it may put comment marks in: read without them, the new file is the old one up to the
    marker, the marker and the sections with their settings, in their order. *)
Theorem conf_text_kept conf s :
  drop_hash (new_conf conf s) = drop_hash (before banner s) +:+ drop_hash (banner +:+ rendered conf).
Proof. unfold new_conf. by rewrite write_sections_text, !drop_hash_app, append_assoc. Qed.

(** C30: writing the settings again replaces what an earlier call wrote: apart from comment marks the file is the
    one that the second call alone would have left.  (The names of settings are on one line, and the file does not
    end in the marker without its line end.) *)
Theorem conf_rewritten conf conf' s :
  one_line conf = true -> str_in banner (s +:+ nls) = str_in banner s ->
  drop_hash (new_conf conf' (new_conf conf s)) = drop_hash (new_conf conf' s).
Proof.
  intros Hk Hs. unfold new_conf at 1 3. rewrite !write_sections_text, !drop_hash_app.
  destruct (kept_sections conf (before banner s +:+ banner) Hk) as [_ H]; [apply str_in_end|].
  fold (new_conf conf s) in H. by rewrite H, before_marked.
Qed.
End Conf.

(** ** Choosing the tests *)
Section Suites.
Context (uid : Z) (modules : list string).
Abbreviation disable := (disable uid modules).
Abbreviation victim := (victim uid modules).

Lemma suite_ind' (P : suite -> Prop) :
  (forall t, P (Case t)) -> (forall l, Forall P l -> P (Suite l)) -> forall s, P s.
Proof.
  intros Hc Hs. fix IH 1. intros [t|l]; [apply Hc|]. apply Hs. induction l as [|s l IHl]; constructor; [apply IH|exact IHl].
Qed.
(** Two tests with one name are one test. *)
Definition named_apart (s : suite) : Prop := forall t u, t ∈ methods s -> u ∈ methods s -> test_id t = test_id u -> t = u.

Lemma remove_test_other (l : list suite) t s : (forall u, s = Case u -> test_id u <> test_id t) ->
  remove_test (s :: l) t = s :: remove_test l t.
Proof.
  intros H. destruct s as [u|x]; [|done]. cbn [remove_test].
  destruct (String.eqb_spec (test_id u) (test_id t)); [|done]. by destruct (H u).
Qed.
Lemma remove_tests_other l ts s : (forall u t, s = Case u -> t ∈ ts -> test_id u <> test_id t) ->
  foldl remove_test (s :: l) ts = s :: foldl remove_test l ts.
Proof.
  revert l; induction ts as [|t ts IH]; intros l H; cbn [foldl]; [done|].
  rewrite remove_test_other by (intros u Hu; apply (H u); [done|left]). apply IH. intros u t' Hu Ht. apply (H u); [done|by right].
Qed.
(** The victims among the tests of a suite are all removed, and nothing else *)
Lemma remove_victims l :
  (forall t u, Case t ∈ l -> Case u ∈ l -> test_id t = test_id u -> t = u) ->
  foldl remove_test l (List.filter victim (omap case_of l)) =
  List.filter (fun s => match s with Case t => negb (victim t) | Suite _ => true end) l.
Proof.
  induction l as [|s l IH]; intros H; [done|].
  assert (Hl : forall t u, Case t ∈ l -> Case u ∈ l -> test_id t = test_id u -> t = u).
  { intros t u Ht Hu. apply H; by right. }
  assert (Hin : forall t, t ∈ List.filter victim (omap case_of l) -> Case t ∈ l /\ victim t = true).
  { intros t [Ht Hv]%list_elem_of_In%filter_In. apply list_elem_of_In, list_elem_of_omap in Ht as ([u|x] & Hu & [= ->]). done. }
  destruct s as [t|x]; cbn [omap list_omap case_of List.filter].
  - destruct (victim t) eqn:Hv; cbn [negb foldl].
    + cbn [remove_test]. rewrite String.eqb_refl. by apply IH.
    + rewrite remove_tests_other; [by rewrite IH|]. intros u v [= <-] [Hc Hvv]%Hin He.
      assert (t = v) as <- by (apply H; [left|by right|done]). congruence.
  - rewrite remove_tests_other by done. by rewrite IH.
Qed.
Lemma case_of_disable l : omap case_of (map disable l) = omap case_of l.
Proof. induction l as [|[t|x] l IH]; [done| |]; cbn; [by f_equal|done]. Qed.

Abbreviation wanted := (fun t => negb (victim t)).
Definition keep (s : suite) : bool := match s with Case t => wanted t | Suite _ => true end.
Lemma methods_case t l : Case t ∈ l -> t ∈ methods (Suite l).
Proof.
  intros H. cbn [methods]. apply list_elem_of_In, in_concat. exists [t]. split; [|by left].
  apply in_map_iff. exists (Case t). split; [done|by apply list_elem_of_In].
Qed.
Lemma named_apart_in s l : s ∈ l -> named_apart (Suite l) -> named_apart s.
Proof.
  intros Hs H t u Ht Hu. apply H; cbn [methods]; apply list_elem_of_In, in_concat; exists (methods s);
    (split; [apply in_map, list_elem_of_In|apply list_elem_of_In]); done.
Qed.
Lemma keep_disable l :
  Forall (fun s => methods (disable s) = match s with Case t => [t] | Suite _ => List.filter wanted (methods s) end) l ->
  concat (map methods (List.filter keep (map disable l))) = List.filter wanted (concat (map methods l)).
Proof.
  induction 1 as [|s l Hs _ IH]; [done|]. cbn [map List.filter concat]. rewrite List.filter_app.
  destruct s as [t|x].
  - cbn [Vstart.disable keep methods List.filter]. destruct (wanted t); cbn [map concat methods List.filter app]; by rewrite IH.
  - change (keep (disable (Suite x))) with true. cbn [map concat]. by rewrite IH, Hs.
Qed.
Lemma disable_methods s : named_apart s ->
  methods (disable s) = match s with Case t => [t] | Suite _ => List.filter wanted (methods s) end.
Proof.
  induction s as [t|l IH] using suite_ind'; intros H; [done|].
  assert (Hd : forall t, Case t ∈ map disable l -> Case t ∈ l).
  { intros t ([u|x] & Hu & Hin)%list_elem_of_fmap; [by injection Hu as ->|done]. }
  cbn [Vstart.disable]. rewrite <- (case_of_disable l), remove_victims.
  - apply (keep_disable l). rewrite Forall_forall in IH |- *. intros s Hs. apply IH; [done|]. by eapply named_apart_in.
  - intros t u Ht Hu. apply H; apply methods_case; auto.
Qed.

(** The runner leaves out exactly the marked tests that were not asked for by name: what is left of a tree of
    suites is its other tests, in their order. *)
Theorem disable_exact l : named_apart (Suite l) ->
  methods (disable (Suite l)) = List.filter (fun t => negb (victim t)) (methods (Suite l)).
Proof. apply (disable_methods (Suite l)). Qed.
End Suites.

(** ** Processes *)
Section Process.
Context {E : Env} {F : Fuel}.
(** What the tests do with a process; the caller deals with an exception. *)
Inductive lop := OFinished | OWait | OKill.
Definition do_op (o : lop) : M lproc unit :=
  catch (match o with OFinished => finished ;; ret tt | OWait => wait | OKill => kill_local end) (fun _ => ret tt).
Definition is_communicate (ev : event) : bool := match ev with EvProc PWait _ _ _ => true | _ => false end.
Definition communications (l : list event) : nat := length (List.filter is_communicate l).
(** Nothing is asked of a process whose status is known. *)
Definition asked (p q : lproc * world) : Prop :=
  exists evs, w_trace q.2 = w_trace p.2 ++ evs /\
    (is_Some (l_exitstatus p.1) -> q.1 = p.1 /\ evs = []) /\
    (communications evs = 0%nat \/ communications evs = 1%nat /\ is_Some (l_exitstatus q.1)).
#[local] Instance asked_preorder : PreOrder asked.
Proof.
  split.
  - intros p. exists []. rewrite app_nil_r. split_ands; [done|done|by left].
  - intros p q r (e1 & H1 & S1 & C1) (e2 & H2 & S2 & C2). exists (e1 ++ e2). rewrite H2, H1, (assoc_L (++)). split; [done|]. split.
    + intros Hs. destruct (S1 Hs) as [Hq ->]. rewrite Hq in S2. destruct (S2 Hs) as [-> ->]. done.
    + unfold communications. rewrite List.filter_app, length_app. fold (communications e1) (communications e2).
      destruct C1 as [->|[-> Hs]]; [done|]. destruct (S2 Hs) as [Hr ->]. right. split; [done|]. by rewrite Hr.
Qed.
Context (Hcomm : forall p r args c, raised (respond (EvProc PWait p r args) c).1 = None).

Lemma asked_emit s w ev c : l_exitstatus s = None -> is_communicate ev = false -> asked (s, w) (s, after ev c w).
Proof.
  intros Hs He. exists [ev]. split_ands; [done| |].
  - cbn. rewrite Hs. by intros [].
  - left. unfold communications. cbn. by rewrite He.
Qed.
Lemma communicate_asked s w : l_exitstatus s = None ->
  wp communicate (fun o s' w' => o = Ret tt /\ asked (s, w) (s', w') /\ is_Some (l_exitstatus s')) s w.
Proof.
  intros Hs. unfold communicate, on_proc. apply wp_bind, wp_get. unfold then_. apply wp_bind. unfold wp, emit. cbn.
  specialize (Hcomm (pid (subproc s)) (p_remote (subproc s)) (p_args (subproc s)) (w_env w)).
  destruct (respond _ (w_env w)) as [r c]. cbn in Hcomm. rewrite Hcomm. unfold then_. cbn. split_ands; [done| |by eexists].
  eexists [_]. split_ands; [done| |right; split; [done|by eexists]]. cbn. rewrite Hs. by intros [].
Qed.
(** The answer of [finished], and that it is known from then on *)
Definition told (o : outcome bool) (s : lproc) : Prop :=
  match o with Ret true => is_Some (l_exitstatus s) | Ret false => l_exitstatus s = None | Exc _ => True | Stuck => False end.
Lemma finished_asked s w : wp finished (fun o s' w' => asked (s, w) (s', w') /\ told o s') s w.
Proof.
  unfold finished. apply wp_bind, wp_get. unfold then_. destruct (l_exitstatus s) as [st|] eqn:Hs.
  { apply wp_ret. split; [reflexivity|]. cbn. rewrite Hs. by eexists. }
  unfold ask. apply wp_bind, wp_bind. unfold wp at 1, emit. destruct (respond _ (w_env w)) as [r c].
  destruct (raised r); unfold then_; cbn.
  { split; [by apply asked_emit|done]. }
  destruct (negb (exitstatus r =? 0)); [|split; [by apply asked_emit|done]].
  apply wp_bind. eapply wp_conseq; [by apply communicate_asked|]. cbn. intros o s' w' (-> & Ha & Hk). split; [|done].
  etrans; [|exact Ha]. by apply asked_emit.
Qed.
Lemma safe_kill_asked pid s w : l_exitstatus s = None ->
  wp (safe_kill pid) (fun o s' w' => asked (s, w) (s', w') /\ o <> Stuck) s w.
Proof.
  intros Hs. unfold safe_kill, call. apply wp_catch, wp_bind, wp_bind. unfold wp at 1, emit. destruct (respond _ (w_env w)) as [r c].
  destruct (raised r) as [e|]; unfold then_; cbn; [|split; [by apply asked_emit|done]].
  assert (Hd : forall o : outcome unit, o <> Stuck -> wp (fun s w => (o, s, w)) (fun o s' w' => asked (s, w) (s', w') /\ o <> Stuck) s
    (after (EvCall "os.kill" [pid; "SIGKILL"]) c w)).
  { intros o Ho. split; [by apply asked_emit|done]. }
  destruct e; repeat case_match; first [by apply (Hd (Ret tt))|by apply (Hd (Exc _))].
Qed.
Lemma asked_op o s w : wp (do_op o) (fun r s' w' => asked (s, w) (s', w') /\ r = Ret tt) s w.
Proof.
  unfold do_op. apply wp_catch.
  enough (wp (match o with OFinished => finished ;; ret tt | OWait => wait | OKill => kill_local end)
    (fun r s' w' => asked (s, w) (s', w') /\ r <> Stuck) s w) as H.
  { eapply wp_conseq; [exact H|]. intros [[]|e|] s' w' [Ha Hn]; [done| |done]. by apply wp_ret. }
  destruct o; unfold wait, kill_local; apply wp_bind; (eapply wp_conseq; [apply finished_asked|]);
    intros [[]|e|] s1 w1 [Ha Ht]; unfold then_; try (by split); try done.
  - apply wp_bind, wp_get. unfold then_. destruct (failed s1); [apply wp_raise|apply wp_ret]; by split.
  - apply wp_bind. eapply wp_conseq; [by apply communicate_asked|]. cbn. intros o2 s2 w2 (-> & Hc & Hk). apply wp_bind, wp_get.
    unfold then_, when. assert (Hd : asked (s, w) (s2, w2)) by (by etrans). destruct (failed s2), (l_check_status s2); by split.
  - apply wp_bind, wp_get. unfold then_, when. cbn. eapply wp_conseq; [by apply safe_kill_asked|].
    intros o2 s2 w2 [Hc Hn]. split; [by etrans|done].
Qed.

(** C33: however a process is used (asked whether it ended, waited for, killed, in any order and any number of times),
    [communicate] is called on it at most once, and when its exit status is known nothing more is sent to it. *)
Theorem communicates_once ops s w :
  wp (for_ ops do_op) (fun o s' w' => o = Ret tt /\ exists evs, w_trace w' = w_trace w ++ evs /\
    (communications evs <= 1)%nat /\ (is_Some (l_exitstatus s) -> s' = s /\ evs = [])) s w.
Proof.
  enough (wp (for_ ops do_op) (fun o s' w' => asked (s, w) (s', w') /\ o = Ret tt) s w) as H.
  { eapply wp_conseq; [exact H|]. intros o s' w' [(evs & Ht & Hs & Hc) Ho]. split; [done|]. exists evs. split; [done|]. split; [|done]. lia. }
  revert s w. induction ops as [|o ops IH]; intros s w; cbn [for_]; [by apply wp_ret|].
  apply wp_bind. eapply wp_conseq; [apply asked_op|]. intros r s1 w1 [Ha ->]. unfold then_.
  eapply wp_conseq; [apply IH|]. intros o2 s2 w2 [Hb ->]. split; [by etrans|done].
Qed.
End Process.

(** Waiting for a process that has ended with an error raises, also for a process that was started with
    [check_status=False]; only one that is still running at the time is waited for without the check. *)
Theorem late_wait_raises {E : Env} (s : lproc) (w : world) (st : Z) :
  l_exitstatus s = Some st -> st <> 0 -> wait s w = (Exc (CommandFailedError st), s, w).
Proof.
  intros Hs Hn. unfold wait, finished, bind, get, ret, raise, failed. rewrite Hs. apply Z.eqb_neq in Hn. by rewrite Hs, Hn.
Qed.
