(* ===== verification/S3Tasks.v ===== *)
(** * Tests of the gateway's S3 interface: tasks/s3tests.py, s3readwrite.py, s3roundtrip.py and
    rgw_logsocket.py

    The three tasks nest the same context managers: the test programs are fetched, users are
    created, the programs are configured and run, and everything is taken back in the opposite
    order.  The configuration of the programs, by client, is the list [confs] of dictionaries of
    sections, which a manager hands to the ones inside it.  The texts [ConfigObj] and YAML make of
    it, the template of boto's configuration and the address of the repositories are arguments. *)
From Stdlib Require Import Ascii QArith Qround Lqa.
From S2P Require Import Prelude PyVal World ZbkcManager Conf FsSetup Rbd RgwUtil RgwTask ClientTasks.

(** [d.setdefault(k, v)] *)
Definition setdefault (k : string) (v : pyval) (d : dict) : dict := if dict_has k d then d else dict_set k v d.
Abbreviation confs_t := (list (string * dict)).
Definition uppercase : list string :=
  ["A"; "B"; "C"; "D"; "E"; "F"; "G"; "H"; "I"; "J"; "K"; "L"; "M"; "N"; "O"; "P"; "Q"; "R"; "S"; "T"; "U"; "V"; "W"; "X"; "Y"; "Z"].

Section S3.
Context {E : Env}.
Context (all_roles_of_type : context -> string -> list string)
        (deep_merge : dict -> pyval -> dict)
        (split_user : string -> string * string)
        (configobj_text yaml_text : dict -> string)
        (boto_template zbkc_git_base_url : string).
Abbreviation MG A := (M gw A).

(** ** The sections of a configuration *)
Definition conf_of (client : string) (confs : confs_t) : MG dict :=
  of_option (KeyError client) (snd <$> find (fun cc => String.eqb cc.1 client) confs).
Definition put_conf (client : string) (d : dict) (confs : confs_t) : confs_t :=
  map (fun cc => if String.eqb cc.1 client then (cc.1, d) else cc) confs.
Definition section_in (name : string) (conf : dict) : MG dict := v <- subscript (PDict conf) name ;; as_dict v.
Definition in_section (name : string) (f : dict -> dict) (conf : dict) : MG dict :=
  d <- section_in name conf ;; ret (dict_set name (PDict (f d)) conf).

(** ** Users *)
Definition _config_user (section user : string) (conf : dict) : MG dict :=
  conf <- in_section section (setdefault "user_id" (PStr user)) conf ;;
  conf <- in_section section (setdefault "email" (PStr (user +:+ "+test@test.test"))) conf ;;
  conf <- in_section section (setdefault "display_name" (PStr ("Mr. " +:+ user))) conf ;;
  letters <- map_ (fun _ => choice uppercase) (seq 0 20) ;;
  conf <- in_section section (setdefault "access_key" (PStr (str_join EmptyString letters))) conf ;;
  secret <- call "base64.b64encode(os.urandom)" ["40"] ;;
  in_section section (setdefault "secret_key" (PStr secret)) conf.
Definition admin_cmd (dir client : string) (cmd : list string) : list string :=
  ["adjust-ulimits"; "zbkc-coverage"; dir +:+ "/archive/coverage"; "radosgw-admin"; "-n"; client; "user"] ++ cmd.
Definition create_user (dir client : string) (user : dict) : MG unit :=
  let field k := v <- subscript (PDict user) k ;; ret (py_str v) in
  uid <- field "user_id" ;;
  name <- field "display_name" ;;
  access <- field "access_key" ;;
  secret <- field "secret_key" ;;
  email <- field "email" ;;
  run_role client
    (admin_cmd dir client ["create"; "--uid"; uid; "--display-name"; name; "--access-key"; access; "--secret"; secret; "--email"; email]).
Definition remove_user (dir client uid : string) : MG unit :=
  run_role client (admin_cmd dir client ["rm"; "--uid"; uid; "--purge-data"]).
(** The user a name stands for on a client *)
Definition uid_of (user client : string) : string := user +:+ "." +:+ client.

(** ** Fetching the programs *)
Definition s3_dir (dir : string) : string := dir +:+ "/s3-tests".
Definition clone (dir client branch : string) : MG unit :=
  run_role client ["git"; "clone"; "-b"; branch; zbkc_git_base_url +:+ "s3-tests.git"; s3_dir dir].
Definition reset_to (dir client : string) (sha1 : pyval) : MG unit :=
  match sha1 with
  | PNone => ret tt
  | v => run_role client ["cd"; s3_dir dir; "&&"; "git"; "reset"; "--hard"; py_str v]
  end.
(** [branch_of] decides what is fetched for a client, [with_sha1] whether a commit may be named *)
Definition download {A} (branch_of : dict -> MG string) (with_sha1 : bool) (config : dict) (body : MG A) : MG A :=
  dir <- tdir_ ;;
  for_ config (fun cc =>
    cconf <- as_dict cc.2 ;;
    branch <- branch_of cconf ;;
    clone dir cc.1 branch ;;
    when with_sha1 (reset_to dir cc.1 (dict_get "sha1" PNone cconf))) ;;
  finally body (for_ (map fst config) (fun client => run_role client ["rm"; "-rf"; s3_dir dir])).
(** [if not branch: branch = cconf.get('branch', 'master')] *)
Definition plain_branch (cconf : dict) : MG string :=
  let forced := dict_get "force-branch" PNone cconf in
  ret (py_str (if truthy forced then forced else dict_get "branch" (PStr "master") cconf)).
Definition s3_branches : list string := ["giant"; "firefly"; "firefly-original"; "hammer"].
Definition suite_branch_of (cconf : dict) : MG string :=
  let forced := dict_get "force-branch" PNone cconf in
  branch <-
    (if truthy forced then ret forced
     else
       g <- get ;;
       let suite_branch := dict_get "suite_branch" (dict_get "branch" PNone (g_config g)) (g_config g) in
       if existsb (eq_str suite_branch) s3_branches then ret (dict_get "branch" suite_branch cconf)
       else
         b <- match suite_branch with PStr b => ret b | _ => raise (TypeError "cannot concatenate 'str' and 'NoneType' objects") end ;;
         ret (dict_get "branch" (PStr ("zbkc-" +:+ b)) cconf)) ;;
  if truthy branch then ret (py_str branch) else raise (ValueError "Could not determine what branch to use for s3tests!").

(** ** Where the gateway is: the last machine with the role *)
Definition server_host (role : pyval) : MG string :=
  g <- get ;;
  t <- subscript (PDict (g_config g)) "targets" ;; targets <- as_dict t ;;
  r <- subscript (PDict (g_config g)) "roles" ;; roles <- as_list r ;;
  host <- fold_ (fun host tr =>
    l <- as_list tr.2 ;; ret (if existsb (py_eq role) l then Some (split_user tr.1).2 else host)) (zip (map fst targets) roles) None ;;
  of_option (AssertionError "Invalid client specified as the rgw_server") host.
(** [properties['rgw_server']], or the machine itself *)
Definition host_of (properties : dict) : MG string :=
  match dict_lookup "rgw_server" properties with Some role => server_host role | None => ret "localhost" end.
Definition properties_of (v : pyval) : MG dict := match v with PNone => ret [] | _ => as_dict v end.
Definition bootstrap (dir : string) (r : remote) : MG unit := run_ r ["cd"; s3_dir dir; "&&"; "./bootstrap"].
(** [args.extend(client_config['extra_args'])]; a string gives its characters *)
Definition extra_args (client_config : dict) : MG (list string) :=
  match dict_lookup "extra_args" client_config with
  | None => ret []
  | Some (PStr s) => ret (map (fun a => String a EmptyString) (String.list_ascii_of_string s))
  | Some v => l <- as_list v ;; ret (map py_str l)
  end.

(** ** s3tests.py *)
Definition s3tests_users : list (string * string) := [("s3 main", "foo"); ("s3 alt", "bar")].
Definition s3tests_client (dir client : string) (confs : confs_t) : MG confs_t :=
  conf <- conf_of client confs ;;
  conf <- in_section "fixtures" (setdefault "bucket prefix" (PStr ("test-" +:+ client +:+ "-{random}-"))) (setdefault "fixtures" (PDict []) conf) ;;
  conf <- fold_ (fun conf (su : string * string) =>
    conf <- _config_user su.1 (uid_of su.2 client) conf ;;
    user <- section_in su.1 conf ;;
    create_user dir client user ;;
    ret conf) s3tests_users conf ;;
  ret (put_conf client conf confs).
Definition s3tests_create_users {A} (clients : list string) (confs : confs_t) (body : confs_t -> MG A) : MG A :=
  dir <- tdir_ ;;
  confs <- fold_ (fun confs client => s3tests_client dir client confs) clients confs ;;
  finally (body confs)
    (for_ clients (fun client => for_ s3tests_users (fun su => remove_user dir client (uid_of su.2 client)))).
Definition s3tests_conf_path (dir client : string) : string := dir +:+ "/archive/s3-tests." +:+ client +:+ ".conf".
Definition configure_client (dir : string) (confs : confs_t) (cc : string * pyval) : MG unit :=
  conf <- conf_of cc.1 confs ;;
  properties <- properties_of cc.2 ;;
  host <- host_of properties ;;
  conf <- in_section "DEFAULT" (dict_set "host" (PStr host)) conf ;;
  conf <- match dict_lookup "slow_backend" properties with
          | Some v => in_section "fixtures" (dict_set "slow backend" v) conf
          | None => ret conf
          end ;;
  r <- remote_of cc.1 ;;
  bootstrap dir r ;;
  file (FWrite (configobj_text conf)) r (s3tests_conf_path dir cc.1) ;;
  ret tt.
(** [config.get('idle_timeout', 30)], where [config] has only [clients] and [s3tests_conf] *)
Definition boto_cfg (config : dict) : string :=
  fill "idle_timeout" (py_str (dict_get "idle_timeout" (PInt 30) config)) boto_template.
Definition configure_args (clients : dict) (confs : confs_t) : dict :=
  [("clients", PDict clients); ("s3tests_conf", PDict (map (fun cc => (cc.1, PDict cc.2)) confs))].
Definition s3tests_configure {A} (clients : dict) (confs : confs_t) (body : MG A) : MG A :=
  dir <- tdir_ ;;
  for_ clients (configure_client dir confs) ;;
  for_ clients (fun cc =>
    r <- remote_of cc.1 ;; file (FWrite (boto_cfg (configure_args clients confs))) r (dir +:+ "/boto.cfg") ;; ret tt) ;;
  finally body (for_ clients (fun cc => r <- remote_of cc.1 ;; run_ r ["rm"; dir +:+ "/boto.cfg"])).
Definition sync_users {A} (body : MG A) : MG A :=
  multi <- multi_region_enabled ;;
  when multi (radosgw_agent_sync_all split_user false false) ;;
  body.
Definition nosetests_cmd (dir client : string) (fastcgi : bool) : list string :=
  ["S3TEST_CONF=" +:+ s3tests_conf_path dir client; "BOTO_CONFIG=" +:+ dir +:+ "/boto.cfg"; s3_dir dir +:+ "/virtualenv/bin/nosetests";
   "-w"; s3_dir dir; "-v"; "-a"; str_join "," (["!fails_on_rgw"] ++ (if fastcgi then [] else ["!fails_on_mod_proxy_fcgi"]))].
Definition s3tests_run {A} (config : dict) (body : MG A) : MG A :=
  dir <- tdir_ ;;
  g <- get ;;
  for_ config (fun cc =>
    client_config <- properties_of cc.2 ;;
    extra <- extra_args client_config ;;
    run_role cc.1 (nosetests_cmd dir cc.1 (g_fastcgi g) ++ extra)) ;;
  body.

(** *** Regions that are kept in step by an agent *)

(** [x in v] for a string [x] *)
Definition contains (x : string) (v : pyval) : MG bool :=
  match v with
  | PStr s => ret (str_in x s)
  | PList l => ret (existsb (fun y => eq_str y x) l)
  | PDict d => ret (dict_has x d)
  | _ => raise (TypeError "argument is not iterable")
  end.
Definition endpoint_of (g : gw) (client : string) : option (string * Z) :=
  snd <$> find (fun ce => String.eqb ce.1 client) (g_endpoints g).
Definition region_dict (client : string) (region_data : pyval) : MG dict :=
  g <- get ;;
  api <- subscript region_data "api name" ;;
  master <- subscript region_data "is master" ;;
  let d := [("api_name", api); ("is_master", master);
            ("port", default PNone (PInt <$> (snd <$> endpoint_of g client))); ("host", default PNone (PStr <$> (fst <$> endpoint_of g client)))] in
  if truthy master then ret d
  else
    a <- of_option (AttributeError "radosgw_agent") (g_agent g) ;;
    hp <- of_option (AttributeError "endpoint") (ag_endpoint a) ;;
    e <- of_option (KeyError hp.1) (endpoint_of g hp.1) ;;
    ret (d ++ [("sync_agent_addr", PStr e.1); ("sync_agent_port", PStr hp.2)]).
(** The last region with a zone whose name has that of the client in it *)
Definition extract_sync_client_data (client_name : string) : MG (pyval * pyval) :=
  client <- section client_name ;;
  let zone := dict_get "rgw zone" PNone (default [] client) in
  if truthy zone then
    cur <- as_str zone ;;
    g <- get ;;
    fold_ (fun found (region : string * pyval) =>
      zs <- subscript region.2 "zones" ;; zones <- as_list zs ;;
      fold_ (fun found zone =>
        b <- contains cur zone ;;
        if b : bool then d <- region_dict client_name region.2 ;; ret (PStr region.1, PDict d) else ret found) zones found)
      (g_regions g) (PNone, PNone)
  else ret (PNone, PNone).
(** Whether some agent has the client as its source or destination *)
Definition in_relationship (config : dict) (key : string) : MG bool :=
  found <- for_return config (fun rgwa =>
    src <- subscript rgwa.2 "src" ;;
    b <- contains key src ;;
    if b : bool then ret (Some tt)
    else dest <- subscript rgwa.2 "dest" ;; b <- contains key dest ;; ret (if b : bool then Some tt else None)) ;;
  ret (match found with Some _ => true | None => false end).
(** The data are those of the agent with the client's own name. *)
Definition region_info (config : dict) (key : string) (conf : dict) : MG dict :=
  there <- in_relationship config key ;;
  if negb there then ret conf
  else
    data <- subscript (PDict config) key ;;
    src <- subscript data "src" ;; source_client <- as_str src ;;
    dst <- subscript data "dest" ;; dest_client <- as_str dst ;;
    source <- extract_sync_client_data source_client ;;
    master <- subscript source.2 "is_master" ;;
    conf <- (if truthy master then in_section "fixtures" (setdefault "default_region" source.1) conf else ret conf) ;;
    dest <- extract_sync_client_data dest_client ;;
    ret (dict_set ("region " +:+ py_str dest.1) dest.2 (dict_set ("region " +:+ py_str source.1) source.2 conf)).
Definition update_conf_with_region_info (confs : confs_t) : MG confs_t :=
  g <- get ;;
  match g_agent g with
  | None => ret confs
  | Some a => map_ (fun cc => d <- region_info (ag_config a) cc.1 cc.2 ;; ret (cc.1, d)) confs
  end.

(** ** s3readwrite.py and s3roundtrip.py: [what] is ["readwrite"] or ["roundtrip"] *)
Definition load_defaults (prefix client : string) (d : dict) : MG dict :=
  let d := setdefault "bucket" (PStr (prefix +:+ "-" +:+ client +:+ "-{random}-")) d in
  let d := setdefault "readers" (PInt 10) d in
  let d := setdefault "writers" (PInt 3) d in
  let d := setdefault "duration" (PInt 300) d in
  let d := setdefault "files" (PDict []) d in
  in_section "files" (fun f => setdefault "stddev" (PInt 500) (setdefault "size" (PInt 2000) (setdefault "num" (PInt 10) f))) d.
Definition prepare_load (what prefix client : string) (conf : dict) : MG dict :=
  d <- section_in what (setdefault what (PDict []) conf) ;;
  d <- load_defaults prefix client d ;;
  ret (dict_set what (PDict d) (setdefault what (PDict []) conf)).
Definition roundtrip_client (dir client : string) (confs : confs_t) : MG confs_t :=
  conf <- conf_of client confs ;;
  conf <- prepare_load "roundtrip" "rttest" client conf ;;
  conf <- _config_user "s3" (uid_of "foo" client) conf ;;
  user <- section_in "s3" conf ;;
  create_user dir client user ;;
  ret (put_conf client conf confs).
(** The user that is removed is not the one a configuration may have named. *)
Definition roundtrip_create_users {A} (clients : list string) (confs : confs_t) (body : confs_t -> MG A) : MG A :=
  dir <- tdir_ ;;
  confs <- fold_ (fun confs client => roundtrip_client dir client confs) clients confs ;;
  finally (body confs) (for_ clients (fun client => remove_user dir client (uid_of "foo" client))).
(** The user's name and whether it is to be removed, by client *)
Abbreviation cached_t := (list (string * (pyval * bool))).
Definition readwrite_client (dir client : string) (cs : confs_t * cached_t) : MG (confs_t * cached_t) :=
  conf <- conf_of client cs.1 ;;
  conf <- prepare_load "readwrite" "rwtest" client conf ;;
  conf <- _config_user "s3" (uid_of "foo" client) conf ;;
  user <- section_in "s3" conf ;;
  uid <- subscript (PDict user) "user_id" ;;
  let delete_this_user := match dict_lookup "delete_user" user with Some v => truthy v | None => true end in
  let create := match dict_lookup "create_user" user with Some v => negb (py_eq v (PBool false)) | None => true end in
  when create (create_user dir client user) ;;
  ret (put_conf client conf cs.1, cs.2 ++ [(client, (uid, delete_this_user))]).
Definition cached_user (client : string) (cached : cached_t) : MG (pyval * bool) :=
  of_option (KeyError client) (snd <$> find (fun c => String.eqb c.1 client) (reverse cached)).
Definition readwrite_create_users {A} (clients : list string) (confs : confs_t) (body : confs_t -> MG A) : MG A :=
  dir <- tdir_ ;;
  cs <- fold_ (fun cs client => readwrite_client dir client cs) clients (confs, []) ;;
  finally (body cs.1)
    (for_ clients (fun client =>
       u <- cached_user client cs.2 ;;
       when u.2 (remove_user dir client (py_str u.1)))).
Definition load_path (dir what client : string) : string := dir +:+ "/archive/s3" +:+ what +:+ "." +:+ client +:+ ".config.yaml".
Definition load_configure {A} (what : string) (clients : dict) (confs : confs_t) (body : MG A) : MG A :=
  dir <- tdir_ ;;
  for_ clients (fun cc =>
    conf <- conf_of cc.1 confs ;;
    properties <- properties_of cc.2 ;;
    host <- host_of properties ;;
    conf <- in_section "s3" (dict_set "host" (PStr host)) conf ;;
    def_conf <- section_in "DEFAULT" conf ;;
    port <- subscript (PDict def_conf) "port" ;;
    conf <- in_section "s3" (setdefault "port" port) conf ;;
    is_secure <- subscript (PDict def_conf) "is_secure" ;;
    conf <- in_section "s3" (setdefault "is_secure" is_secure) conf ;;
    r <- remote_of cc.1 ;;
    bootstrap dir r ;;
    s3 <- section_in "s3" conf ;;
    load <- section_in what conf ;;
    file (FWrite (yaml_text [("s3", PDict s3); (what, PDict load)])) r (load_path dir what cc.1) ;;
    ret tt) ;;
  body.
(** The program reads its configuration from its standard input. *)
Definition load_run {A} (what : string) (config : dict) (body : MG A) : MG A :=
  dir <- tdir_ ;;
  for_ config (fun cc =>
    r <- remote_of cc.1 ;;
    conf <- file FGet r (load_path dir what cc.1) ;;
    client_config <- properties_of cc.2 ;;
    extra <- extra_args client_config ;;
    g <- get ;;
    for_ (only (String.eqb cc.1) (the_ctx g)) (fun r =>
      run_input r ([s3_dir dir +:+ "/virtualenv/bin/s3tests-test-" +:+ what] ++ extra) conf true ;; ret tt)) ;;
  body.

(** ** The tasks *)

(** [None]: all clients; a list: those clients, without properties *)
Definition clients_dict (config : pyval) : MG dict :=
  match config with
  | PNone => g <- get ;; ret (map (fun id_ => ("client." +:+ id_, PNone)) (all_roles_of_type (the_ctx g) "client"))
  | PList l => names <- map_ as_str l ;; ret (map (fun n => (n, PNone)) (remove_dups names))
  | PDict d => ret d
  | _ => raise (AssertionError "task s3tests only supports a list or dictionary for configuration")
  end.
(** [if not config[client]: config[client] = {}], with the overrides *)
Definition with_overrides (name : string) (config : dict) : MG dict :=
  o <- override_of name ;;
  map_ (fun cc => d <- (if truthy cc.2 then as_dict cc.2 else ret []) ;; ret (cc.1, PDict (deep_merge d o))) config.
Definition s3tests_conf (config : dict) : confs_t :=
  map (fun cc => (cc.1, [("DEFAULT", PDict [("port", PInt 7280); ("is_secure", PStr "no")]); ("fixtures", PDict []);
                         ("s3 main", PDict []); ("s3 alt", PDict [])])) config.
(** The tests are over when the task's body begins. *)
Definition s3tests_task {A} (config : pyval) (body : MG A) : MG A :=
  config <- clients_dict config ;;
  config <- with_overrides "s3tests" config ;;
  confs <- update_conf_with_region_info (s3tests_conf config) ;;
  download suite_branch_of true config
    (s3tests_create_users (map fst config) confs (fun confs =>
       sync_users (s3tests_configure config confs (s3tests_run config (ret tt))))) ;;
  body.
(** The section of a client gets what its configuration says. *)
Definition load_conf (what : string) (cc : string * pyval) : MG ((string * pyval) * (string * dict)) :=
  d <- as_dict cc.2 ;;
  let d := setdefault what (PDict []) (setdefault "s3" (PDict []) d) in
  load <- subscript (PDict d) what ;;
  s3 <- subscript (PDict d) "s3" ;;
  ret ((cc.1, PDict d), (cc.1, [("DEFAULT", PDict [("port", PInt 7280); ("is_secure", PBool false)]); (what, load); ("s3", s3)])).
Definition none_to_dict (config : dict) : dict := map (fun cc => (cc.1, match cc.2 with PNone => PDict [] | v => v end)) config.
Definition s3roundtrip_task {A} (config : pyval) (body : MG A) : MG A :=
  config <- clients_dict config ;;
  both <- map_ (load_conf "roundtrip") (none_to_dict config) ;;
  let config := map fst both in
  download plain_branch false config
    (roundtrip_create_users (map fst config) (map snd both) (fun confs =>
       load_configure "roundtrip" config confs (load_run "roundtrip" config (ret tt)))) ;;
  body.
Definition s3readwrite_task {A} (config : pyval) (body : MG A) : MG A :=
  config <- clients_dict config ;;
  config <- with_overrides "s3readwrite" config ;;
  both <- map_ (load_conf "readwrite") config ;;
  let config := map fst both in
  download plain_branch true config
    (readwrite_create_users (map fst config) (map snd both) (fun confs =>
       load_configure "readwrite" config confs (load_run "readwrite" config (ret tt)))) ;;
  body.

(** ** rgw_logsocket.py *)

(** [download], [create_users] and [configure] are generators in name only: they return the
    context manager of s3tests.py, and entering theirs asks it for its [next]. *)
Definition logsocket_manager {A} (body : MG A) : MG A :=
  raise (AttributeError "'GeneratorContextManager' object has no attribute 'next'").
(** [s3tests.run_tests] only makes a context manager here: nothing is run. *)
Definition logsocket_run {A} (config : dict) (body : MG A) : MG A :=
  dir <- tdir_ ;;
  for_ config (fun cc => match cc.2 with PDict _ => ret tt | _ => raise (TypeError "object does not support item assignment") end) ;;
  g <- get ;;
  fold_ (fun out (cc : string * pyval) =>
    texts <- map_ (fun r => p <- run r ["netcat"; "-w"; "5"; "-U"; dir +:+ "/rgw.opslog.sock"] true ;; ret (stdout p))
               (only (String.eqb cc.1) (the_ctx g)) ;;
    let out := out +:+ str_join EmptyString texts in
    assert_ (100 <? String.length out)%nat "len(out) > 100" ;;
    ret out) config EmptyString ;;
  body.
(** Merging the overrides into [None] leaves it as it is. *)
Definition logsocket_task {A} (config : pyval) (body : MG A) : MG A :=
  config <- clients_dict config ;;
  o <- override_of "rgw-logsocket" ;;
  config <- map_ (fun cc => match cc.2 with
                            | PNone => ret cc
                            | v => d <- as_dict v ;; ret (cc.1, PDict (deep_merge d o))
                            end) config ;;
  logsocket_manager (logsocket_manager (logsocket_manager (logsocket_run config body))).

End S3.

(** * The S3 tests remove the users they create *)
From S2P Require Import TraceState Claims.

(** The users of the gateway, by name *)
Definition user_step (t : gset string) (ev : event) : gset string :=
  match ev with
  | EvRun _ ("adjust-ulimits" :: "zbkc-coverage" :: _ :: "radosgw-admin" :: "-n" :: _ :: "user" :: "create" :: "--uid" :: uid :: _) => {[uid]} ∪ t
  | EvRun _ ("adjust-ulimits" :: "zbkc-coverage" :: _ :: "radosgw-admin" :: "-n" :: _ :: "user" :: "rm" :: "--uid" :: uid :: _) => t ∖ {[uid]}
  | _ => t
  end.
Definition users : list event -> gset string := after_events user_step ∅.

Section Users.
Context {E : Env} (roles : list (remote * list string)).
Abbreviation MG A := (M gw A).
Implicit Types D t : gset string.
Abbreviation steady := (steady user_step).
Abbreviation bound_in := (bound_in (K := string) roles).
Abbreviation btriple P m Q := (triple user_step ∅ P m Q).
Ltac steady_tac := repeat (runs_step || (apply steady_emit; by intros ?) || (by apply steady_modify)).

(** The machines a client runs on *)
Definition machines_of (client : string) : list remote :=
  map fst (filter (fun rr => existsb (String.eqb client) rr.2 = true) roles).
(** A user that is created on behalf of a client, which may have no machine *)
Definition user_claim (client uid : string) : gset string := match machines_of client with [] => ∅ | _ => {[uid]} end.

Lemma role_triple D D' client args :
  (forall r, r ∈ machines_of client -> forall t, t ⊆ D' -> user_step t (EvRun r args) ⊆ D') ->
  (machines_of client <> [] -> forall r t, t ⊆ D -> user_step t (EvRun r args) ⊆ D') ->
  (machines_of client = [] -> D ⊆ D') ->
  btriple (bound_in D) (run_role client args) (fun _ => bound_in D').
Proof.
  intros Hstay Hfirst Hnone. unfold run_role. apply triple_get. intros g. apply triple_pure. intros s t (-> & Hr & Ht).
  unfold only, the_ctx, gw_ctx. rewrite Hr. fold (machines_of client).
  assert (Hrest : forall l, (forall r, r ∈ l -> r ∈ machines_of client) ->
    btriple (bound_in D') (for_ l (fun r => run r args true ;; ret tt)) (fun _ => bound_in D')).
  { induction l as [|r l IH]; intros Hl; cbn [for_]; [by apply triple_ret|].
    eapply (triple_bind _ _ _ _ _ (fun _ => bound_in D')); [|intros ?; apply IH; intros r' Hr'; apply Hl; by right].
    eapply triple_bind; [apply (triple_run _ _ _ _ _ _ (fun _ => bound_in D'))|intros ?; by apply triple_ret].
    intros p s' t' [Hs' Ht']. split; [done|]. apply Hstay; [apply Hl; left|done]. }
  destruct (machines_of client) as [|r l] eqn:Hm; cbn [for_].
  { apply triple_ret. intros s' t' [-> ->]. split; [done|]. set_solver. }
  eapply (triple_bind _ _ _ _ _ (fun _ => bound_in D')); [|intros ?; apply Hrest; intros r' Hr'; by right].
  eapply triple_bind; [apply (triple_run _ _ _ _ _ _ (fun _ => bound_in D'))|intros ?; by apply triple_ret].
  intros p s' t' [-> ->]. split; [done|]. by apply Hfirst.
Qed.
Lemma create_claims D dir client uid rest :
  btriple (bound_in D) (run_role client (admin_cmd dir client ("create" :: "--uid" :: uid :: rest))) (fun _ => bound_in (D ∪ user_claim client uid)).
Proof.
  unfold user_claim. apply role_triple; unfold admin_cmd; cbn [app user_step].
  - intros r Hr t. destruct (machines_of client); [by apply not_elem_of_nil in Hr|]. set_solver.
  - intros Hm r t. destruct (machines_of client); [done|]. set_solver.
  - set_solver.
Qed.
Lemma remove_claims D dir client uid :
  btriple (bound_in (D ∪ user_claim client uid)) (remove_user dir client uid) (fun _ => bound_in D).
Proof.
  unfold remove_user, user_claim. apply role_triple; unfold admin_cmd; cbn [app user_step].
  - intros r Hr t. set_solver.
  - intros Hm r t. destruct (machines_of client); [done|]. set_solver.
  - intros ->. set_solver.
Qed.

(** ** What the sections say *)
Definition sec (name : string) (conf : dict) : dict := match dict_lookup name conf with Some (PDict d) => d | _ => [] end.
Lemma setdefault_lookup k k' v d :
  dict_lookup k (setdefault k' v d) = if String.eqb k k' then Some (default v (dict_lookup k d)) else dict_lookup k d.
Proof.
  unfold setdefault, dict_has. destruct (String.eqb_spec k k') as [->|Hne].
  - destruct (dict_lookup k' d) eqn:Hl; [by rewrite Hl|]. rewrite dict_lookup_set. by rewrite String.eqb_refl.
  - destruct (dict_lookup k' d); [done|]. rewrite dict_lookup_set. by destruct (String.eqb_spec k k').
Qed.
Abbreviation pure_triple m R := (hoare (fun _ : gw => True) m (fun a _ => R a)).
(** What is in the other sections is left alone. *)
Definition section_moved (name : string) (f : dict -> dict) (conf conf' : dict) : Prop :=
  sec name conf' = f (sec name conf) /\ forall other, other <> name -> sec other conf' = sec other conf.
Lemma section_in_spec name conf : pure_triple (section_in name conf) (fun d => dict_lookup name conf = Some (PDict d)).
Proof.
  intros s w _. unfold wp, section_in, bind, subscript, as_dict, of_option, ret, raise.
  destruct (dict_lookup name conf) as [[]|]; try done. by intros ? [= ->].
Qed.
Lemma in_section_spec name f conf : pure_triple (in_section name f conf) (section_moved name f conf).
Proof.
  unfold in_section. eapply hoare_bind; [apply section_in_spec|]. intros d s w Hd a [= <-]. unfold section_moved, sec. split.
  - by rewrite dict_lookup_set, String.eqb_refl, Hd.
  - intros other Ho. rewrite dict_lookup_set. by destruct (String.eqb_spec other name).
Qed.
(** The user of a section, as a configuration names it or by default *)
Definition user_set (section user : string) (conf conf' : dict) : Prop :=
  dict_lookup "user_id" (sec section conf') = Some (default (PStr user) (dict_lookup "user_id" (sec section conf))) /\
  dict_lookup "delete_user" (sec section conf') = dict_lookup "delete_user" (sec section conf).
Lemma user_set_more section user conf k v conf' conf2 : k <> "user_id" -> k <> "delete_user" ->
  user_set section user conf conf' -> section_moved section (setdefault k v) conf' conf2 -> user_set section user conf conf2.
Proof.
  intros Hk Hk' [H1 H2] [Hs _]. unfold user_set. rewrite Hs, !setdefault_lookup.
  destruct (String.eqb_spec "user_id" k); [done|]. by destruct (String.eqb_spec "delete_user" k).
Qed.
Lemma pure_bind {A B : Type} (m : MG A) (k : A -> MG B) (P : A -> Prop) (R : B -> Prop) :
  pure_triple m P -> (forall a, P a -> pure_triple (k a) R) -> pure_triple (bind m k) R.
Proof. intros Hm Hk. eapply hoare_bind; [exact Hm|]. intros a s w Ha. by apply (Hk a Ha). Qed.
Lemma pure_any {A : Type} (m : MG A) : pure_triple m (fun _ => True).
Proof. intros s w _. unfold wp. by destruct (m s w) as [[o s'] w']. Qed.
Lemma config_user_spec section user conf : pure_triple (_config_user section user conf) (user_set section user conf).
Proof.
  unfold _config_user. eapply pure_bind; [apply in_section_spec|]. intros c1 [H1 _].
  assert (U1 : user_set section user conf c1).
  { unfold user_set. rewrite H1, !setdefault_lookup. done. }
  assert (Hmore : forall k v c c', k <> "user_id" -> k <> "delete_user" -> user_set section user conf c ->
    section_moved section (setdefault k v) c c' -> user_set section user conf c') by (intros; by eapply user_set_more).
  eapply pure_bind; [apply in_section_spec|]. intros c2 H2. apply Hmore in H2; [|done..].
  eapply pure_bind; [apply in_section_spec|]. intros c3 H3. apply Hmore in H3; [|done..].
  eapply pure_bind; [apply pure_any|]. intros letters _.
  eapply pure_bind; [apply in_section_spec|]. intros c4 H4. apply Hmore in H4; [|done..].
  eapply pure_bind; [apply pure_any|]. intros secret _.
  eapply hoare_conseq; [apply in_section_spec|done|]. intros c5 ? H5. by apply Hmore in H5.
Qed.
Lemma prepare_load_spec what prefix client conf : what <> "s3" ->
  pure_triple (prepare_load what prefix client conf) (fun conf' => sec "s3" conf' = sec "s3" conf).
Proof.
  intros Hw. unfold prepare_load. do 2 (eapply pure_bind; [apply pure_any|]; intros ? _). intros s w _ ? [= <-].
  unfold sec. rewrite dict_lookup_set, setdefault_lookup. by destruct (String.eqb_spec "s3" what).
Qed.
Lemma conf_of_spec client confs : pure_triple (conf_of client confs) (fun conf => (client, conf) ∈ confs).
Proof.
  intros s w _. unfold wp, conf_of, of_option. destruct (find _ confs) as [[c d]|] eqn:Hf; [|done]. intros conf [= <-].
  apply find_some in Hf as [Hin Hc]. apply String.eqb_eq in Hc. cbn in Hc. subst c. by apply list_elem_of_In.
Qed.
Lemma put_conf_all (P : string * dict -> Prop) client conf confs :
  Forall P confs -> P (client, conf) -> Forall P (put_conf client conf confs).
Proof.
  intros Hc Hp. unfold put_conf. apply Forall_map. eapply Forall_impl; [exact Hc|]. intros [c d] Hd. cbv beta. cbn [fst].
  destruct (String.eqb_spec c client) as [->|]; done.
Qed.
(** The command names the user of the section. *)
Lemma create_user_claims D dir client user uid :
  dict_lookup "user_id" user = Some uid ->
  btriple (bound_in D) (create_user dir client user) (fun _ => bound_in (D ∪ user_claim client (py_str uid))).
Proof.
  intros Hu. unfold create_user. eapply (steady_value _ _ _ _ _ (fun s => s = py_str uid)); [by steady_tac| |].
  { intros s w _. unfold wp, bind, subscript, of_option. rewrite Hu. by intros ? [= ->]. }
  intros ? ->. do 4 (apply steady_bind; [by steady_tac|intros ?]). apply create_claims.
Qed.
Lemma config_user_steady section user conf : Runs false steady (_config_user section user conf).
Proof. steady_tac. Qed.
Lemma prepare_load_steady what prefix client conf : Runs false steady (prepare_load what prefix client conf).
Proof. steady_tac. Qed.

(** ** The managers *)
Definition claims D (l : list (string * string)) : gset string := foldr (fun cu X => X ∪ user_claim cu.1 cu.2) D l.
Lemma elem_of_claims D l x : x ∈ claims D l <-> x ∈ D \/ Exists (fun cu => x ∈ user_claim cu.1 cu.2) l.
Proof.
  induction l as [|cu l IH]; cbn [claims foldr]; [by rewrite Exists_nil; tauto|].
  fold (claims D l). rewrite elem_of_union, IH, Exists_cons. tauto.
Qed.
Lemma claims_app D l l' : claims (claims D l) l' ⊆ claims D (l ++ l').
Proof. intros x. rewrite !elem_of_claims, Exists_app. tauto. Qed.
Lemma remove_all D dir l :
  btriple (bound_in (claims D l)) (for_ l (fun cu => remove_user dir cu.1 cu.2)) (fun _ => bound_in D).
Proof.
  induction l as [|cu l IH]; cbn [for_]; [by apply triple_ret|].
  eapply triple_bind; [apply (remove_claims (claims D l))|]. intros ?. apply IH.
Qed.

(** *** s3roundtrip.py *)
(** No configuration names a user of its own. *)
Definition default_user (cc : string * dict) : Prop :=
  default (PStr (uid_of "foo" cc.1)) (dict_lookup "user_id" (sec "s3" cc.2)) = PStr (uid_of "foo" cc.1).
Lemma roundtrip_client_claims D dir client confs :
  Forall default_user confs ->
  btriple (bound_in D) (roundtrip_client dir client confs)
    (fun confs' g t => Forall default_user confs' /\ bound_in (D ∪ user_claim client (uid_of "foo" client)) g t).
Proof.
  intros Hd. unfold roundtrip_client. eapply (steady_value _ _ _ _ _ (fun conf => (client, conf) ∈ confs)); [by steady_tac|apply conf_of_spec|].
  intros conf Hin. rewrite Forall_forall in Hd. pose proof (Hd _ Hin) as Hu. unfold default_user in Hu; cbn in Hu.
  eapply (steady_value _ _ _ _ _ (fun conf' => sec "s3" conf' = sec "s3" conf)); [apply prepare_load_steady|by apply prepare_load_spec|].
  intros conf1 H1. eapply (steady_value _ _ _ _ _ (user_set "s3" (uid_of "foo" client) conf1)); [apply config_user_steady|apply config_user_spec|].
  intros conf2 [H2 _]. rewrite H1, Hu in H2.
  eapply (steady_value _ _ _ _ _ (fun d => dict_lookup "s3" conf2 = Some (PDict d))); [by steady_tac|apply section_in_spec|].
  intros user Hs. assert (Hid : dict_lookup "user_id" user = Some (PStr (uid_of "foo" client))) by (unfold sec in H2; by rewrite Hs in H2).
  eapply triple_bind; [by eapply create_user_claims|]. intros ?. apply triple_ret. intros g t Hg. split; [|done].
  apply put_conf_all; [by rewrite Forall_forall|]. unfold default_user; cbn. by rewrite H2.
Qed.
Definition named_users (clients : list string) : list (string * string) := map (fun c => (c, uid_of "foo" c)) clients.
Lemma roundtrip_clients_claim D dir clients confs :
  Forall default_user confs ->
  btriple (bound_in D) (fold_ (fun confs client => roundtrip_client dir client confs) clients confs)
    (fun _ => bound_in (claims D (named_users clients))).
Proof.
  revert D confs. induction clients as [|c l IH]; intros D confs Hd; cbn [fold_]; [by apply triple_ret|].
  eapply triple_bind; [by apply roundtrip_client_claims|]. intros confs'. cbv beta. intros g w [Hd' Hg].
  eapply wp_conseq; [by apply (IH (D ∪ user_claim c (uid_of "foo" c)) confs')|]. intros o g' w' H a Ha. destruct (H a Ha) as [Hr Ht]. split; [done|].
  etrans; [exact Ht|]. apply (claims_app D [(c, uid_of "foo" c)]).
Qed.
Lemma for_map {A B : Type} (f : A -> B) (l : list A) (body : B -> MG unit) :
  for_ (map f l) body = for_ l (fun x => body (f x)).
Proof. induction l as [|x l IH]; cbn [map for_]; [done|]. by rewrite IH. Qed.
Lemma roundtrip_users_leave {A : Type} clients confs (body : list (string * dict) -> MG A) :
  Forall default_user confs -> (forall confs', Leaves user_step roles (body confs')) ->
  Leaves user_step roles (roundtrip_create_users clients confs body).
Proof.
  intros Hd Hb D. unfold roundtrip_create_users. apply steady_bind; [by steady_tac|intros dir].
  eapply triple_bind; [by apply roundtrip_clients_claim|]. intros confs'. eapply triple_finally; [apply Hb|]. intros ?.
  pose proof (remove_all D dir (named_users clients)) as H. unfold named_users in H at 2. by rewrite for_map in H.
Qed.

(** *** s3readwrite.py *)
Abbreviation cached_t := (list (string * (pyval * bool))).
(** No configuration asks for its user to be kept. *)
Definition not_kept (cc : string * dict) : Prop :=
  match dict_lookup "delete_user" (sec "s3" cc.2) with Some v => truthy v | None => true end = true.
Definition users_in (l : cached_t) : list (string * string) := map (fun x => (x.1, py_str x.2.1)) l.
Definition fetched (cached new : cached_t) (clients : list string) (cs : list (string * dict) * cached_t) : Prop :=
  Forall not_kept cs.1 /\ cs.2 = cached ++ new /\ new.*1 = clients /\ Forall (fun x => x.2.2 = true) new.
Lemma readwrite_client_claims D dir client confs cached :
  Forall not_kept confs ->
  btriple (bound_in D) (readwrite_client dir client (confs, cached))
    (fun cs g t => exists new, fetched cached new [client] cs /\ bound_in (claims D (users_in new)) g t).
Proof.
  intros Hd. unfold readwrite_client. eapply (steady_value _ _ _ _ _ (fun conf => (client, conf) ∈ confs)); [by steady_tac|apply conf_of_spec|].
  intros conf Hin. rewrite Forall_forall in Hd. pose proof (Hd _ Hin) as Hu. unfold not_kept in Hu; cbn in Hu.
  eapply (steady_value _ _ _ _ _ (fun conf' => sec "s3" conf' = sec "s3" conf)); [apply prepare_load_steady|by apply prepare_load_spec|].
  intros conf1 H1. eapply (steady_value _ _ _ _ _ (user_set "s3" (uid_of "foo" client) conf1)); [apply config_user_steady|apply config_user_spec|].
  intros conf2 [H2 H2']. rewrite H1 in H2'. rewrite <- H2' in Hu. clear H2'.
  eapply (steady_value _ _ _ _ _ (fun d => dict_lookup "s3" conf2 = Some (PDict d))); [by steady_tac|apply section_in_spec|].
  intros user Hs. eapply (steady_value _ _ _ _ _ (fun uid => dict_lookup "user_id" user = Some uid)); [by steady_tac| |].
  { intros g w _. unfold wp, subscript, of_option. destruct (dict_lookup "user_id" user); [by intros ? [= ->]|done]. }
  intros uid Hid. cbv zeta.
  eapply (triple_bind _ _ _ _ _ (fun _ => bound_in (D ∪ user_claim client (py_str uid)))).
  { unfold when. generalize (match dict_lookup "create_user" user with Some v => negb (py_eq v (PBool false)) | None => true end).
    intros []; [by apply create_user_claims|]. apply triple_ret. intros g t [Hg Ht]. split; [done|]. set_solver. }
  intros ?. apply triple_ret. intros g t Hg.
  assert (Hk : not_kept (client, conf2)) by exact Hu.
  exists [(client, (uid, true))]. split; [|exact Hg]. unfold fetched. split_ands; [by apply put_conf_all; [rewrite Forall_forall|]| |done|by constructor].
  cbn. do 4 f_equal. unfold sec in Hu. rewrite Hs in Hu. by destruct (dict_lookup "delete_user" user).
Qed.
Lemma readwrite_clients_claim D dir clients confs cached :
  Forall not_kept confs ->
  btriple (bound_in D) (fold_ (fun cs client => readwrite_client dir client cs) clients (confs, cached))
    (fun cs g t => exists new, fetched cached new clients cs /\ bound_in (claims D (users_in new)) g t).
Proof.
  revert D confs cached. induction clients as [|c l IH]; intros D confs cached Hd; cbn [fold_].
  { apply triple_ret. intros g t Hg. exists []. split; [|done]. unfold fetched. split_ands; [done|by rewrite app_nil_r|done|done]. }
  eapply triple_bind; [by apply readwrite_client_claims|]. intros [confs' cached']. cbv beta. intros g w (new & (Hd' & Hc & Hf & Ht) & Hg).
  cbn [fst snd] in *. subst cached'.
  eapply wp_conseq; [by apply (IH (claims D (users_in new)) confs')|]. intros o g' w' H a Ha.
  destruct (H a Ha) as (new' & (Hd2 & Hc2 & Hf2 & Ht2) & Hr & Hs). exists (new ++ new'). split.
  - unfold fetched. split_ands; [done|by rewrite Hc2, (assoc_L (++))|by rewrite fmap_app, Hf, Hf2|by apply Forall_app].
  - split; [done|]. etrans; [exact Hs|]. unfold users_in. rewrite map_app. apply claims_app.
Qed.
Lemma keys_unique {V : Type} (l : list (string * V)) x y : NoDup l.*1 -> x ∈ l -> y ∈ l -> x.1 = y.1 -> x = y.
Proof.
  intros Hn [i Hi]%list_elem_of_lookup [j Hj]%list_elem_of_lookup He.
  assert (i = j) as <-; [|congruence]. eapply (NoDup_lookup l.*1); [done|rewrite list_lookup_fmap, Hi; done|].
  by rewrite list_lookup_fmap, Hj, He.
Qed.
Lemma cached_user_found (l : cached_t) x : NoDup l.*1 -> x ∈ l -> cached_user x.1 l = ret x.2.
Proof.
  intros Hn Hx. unfold cached_user. destruct (find _ (reverse l)) as [y|] eqn:Hf.
  - apply find_some in Hf as [Hy Hc]. apply list_elem_of_In in Hy. rewrite elem_of_reverse in Hy. apply String.eqb_eq in Hc.
    by rewrite (keys_unique l x y Hn Hx Hy (eq_sym Hc)).
  - exfalso. assert (Hr : x ∈ reverse l) by by apply elem_of_reverse. apply list_elem_of_In in Hr.
    pose proof (find_none _ _ Hf _ Hr) as He. cbv beta in He. by rewrite String.eqb_refl in He.
Qed.
(** C29: s3readwrite removes every user it created, under whatever name: when its part of the task returns, the users of the
    gateway are among those that were there before, for all clients, unless a configuration asks to keep one. *)
Theorem readwrite_users_removed {A : Type} clients confs (body : list (string * dict) -> MG A) :
  NoDup clients -> Forall not_kept confs -> (forall confs', Leaves user_step roles (body confs')) ->
  Leaves user_step roles (readwrite_create_users clients confs body).
Proof.
  intros Hn Hd Hb D. unfold readwrite_create_users. apply steady_bind; [by steady_tac|intros dir].
  eapply triple_bind; [by apply readwrite_clients_claim|]. intros [confs' cached]. cbv beta. cbn [fst snd].
  apply triple_pure. intros g t (new & (_ & Hc & Hf & Ht) & Hg). cbn [fst snd app] in *. subst cached.
  eapply triple_finally; [eapply triple_conseq; [apply (Hb confs' (claims D (users_in new)))|by intros ?? [-> ->]|intros ??? H; exact H]|].
  intros ?. rewrite <- Hf. change (new.*1) with (map fst new). rewrite for_map.
  assert (Hall : forall l, (forall x, x ∈ l -> x ∈ new /\ x.2.2 = true) ->
    btriple (bound_in (claims D (users_in l)))
      (for_ l (fun x => u <- cached_user x.1 new ;; when u.2 (remove_user dir x.1 (py_str u.1)))) (fun _ => bound_in D)).
  { induction l as [|x l IH]; intros Hl; cbn [for_ users_in map]; [by apply triple_ret|]. destruct (Hl x ltac:(left)) as [Hx Hxt].
    eapply (triple_bind _ _ _ _ _ (fun _ => bound_in (claims D (users_in l)))); [|intros ?; apply IH; intros y Hy; apply Hl; by right].
    rewrite cached_user_found by (by rewrite ?Hf). 
    change (bind (ret x.2) _) with (when x.2.2 (remove_user dir x.1 (py_str x.2.1))).
    rewrite Hxt. apply (remove_claims (claims D (users_in l))). }
  apply Hall. rewrite Forall_forall in Ht. auto.
Qed.
End Users.

(** ** The tasks *)
Section Tasks.
Context {E : Env} (roles : list (remote * list string)).
Context (all_roles_of_type : context -> string -> list string)
        (deep_merge : dict -> pyval -> dict)
        (split_user : string -> string * string)
        (configobj_text yaml_text : dict -> string)
        (boto_template zbkc_git_base_url : string).
Abbreviation MG A := (M gw A).
Abbreviation steady := (steady user_step).
Abbreviation Leaves := (Leaves user_step roles).
Ltac steady_tac := repeat (runs_step || (apply steady_emit; by intros ?) || (by apply steady_modify)).

Lemma download_around {A : Type} branch_of with_sha1 config :
  (forall cconf, Runs false steady (branch_of cconf)) ->
  Around user_step roles (A := A) (download zbkc_git_base_url branch_of with_sha1 config).
Proof.
  intros Hbr b Hb D. unfold download. apply steady_bind; [by steady_tac|intros dir]. apply steady_bind.
  { repeat (apply Hbr || runs_step || (apply steady_emit; by intros ?)). }
  intros ?. eapply triple_finally; [apply Hb|]. intros ?. apply steady_triple. steady_tac.
Qed.
Lemma load_around {A : Type} what config confs :
  Around user_step roles (A := A) (fun b => load_configure split_user yaml_text what config confs (load_run what config b)).
Proof.
  intros b Hb D. unfold load_configure, load_run. do 4 (apply steady_bind; [by steady_tac|intros ?]). apply Hb.
Qed.
Lemma ret_leaves : Leaves (ret tt : MG unit).
Proof. intros D. by apply triple_ret. Qed.

(** A client's configuration does not name a user. *)
Definition unnamed (cc : string * pyval) : Prop :=
  match cc.2 with
  | PDict d => match dict_lookup "s3" d with Some (PDict u) => dict_lookup "user_id" u = None | _ => True end
  | _ => True
  end.
Lemma clients_dict_unnamed config : match config with PDict d => Forall unnamed d | _ => True end ->
  hoare (fun _ : gw => True) (clients_dict all_roles_of_type config) (fun d _ => Forall unnamed d).
Proof.
  intros Hc. unfold clients_dict.
  destruct config as [| | | | | |d]; try (intros g w _; unfold wp, raise; by intros a [=]).
  - eapply pure_bind; [apply pure_any|]. intros g _. apply hoare_ret. intros _ _. by apply Forall_map, Forall_true.
  - eapply pure_bind; [apply pure_any|]. intros names _. apply hoare_ret. intros _ _. by apply Forall_map, Forall_true.
  - by apply hoare_ret.
Qed.
Lemma load_conf_default cc : unnamed cc ->
  hoare (fun _ : gw => True) (load_conf "roundtrip" cc) (fun b _ => default_user b.2).
Proof.
  intros Hu s w _. unfold wp, load_conf, bind, as_dict, subscript, of_option, ret. destruct cc as [c v]. unfold unnamed in Hu. cbn [snd fst] in *.
  destruct v as [| | | | | |d]; try done. cbv beta iota zeta. rewrite !setdefault_lookup. cbn.
  intros b [= <-]. unfold default_user, sec. cbn. destruct (dict_lookup "s3" d) as [[]|]; cbn; try done. by rewrite Hu.
Qed.
Lemma load_confs_default config : Forall unnamed config ->
  hoare (fun _ : gw => True) (map_ (load_conf "roundtrip") config) (fun bs _ => Forall default_user (map snd bs)).
Proof.
  induction 1 as [|cc l Hc _ IH]; cbn [map_]; [by apply hoare_ret; constructor|].
  eapply pure_bind; [by apply load_conf_default|]. intros b Hb. eapply pure_bind; [exact IH|]. intros bs Hbs.
  apply hoare_ret. intros _ _. by constructor.
Qed.
Lemma none_to_dict_unnamed config : Forall unnamed config -> Forall unnamed (none_to_dict config).
Proof. intros Hc. apply Forall_map. eapply Forall_impl; [exact Hc|]. intros [c v]. by destruct v. Qed.
(** An s3roundtrip task that returns has removed the users it created, when no client's configuration names one: the
    users of the gateway are among those that were there before, for every list of clients. *)
Theorem roundtrip_task_users {A : Type} (config : pyval) (body : MG A) :
  match config with PDict d => Forall unnamed d | _ => True end -> Leaves body ->
  Leaves (s3roundtrip_task all_roles_of_type split_user yaml_text zbkc_git_base_url config body).
Proof.
  intros Hc Hb D. unfold s3roundtrip_task. eapply steady_value; [by destruct config; steady_tac|by apply clients_dict_unnamed|].
  cbv beta. intros config1 H1. eapply steady_value; [by steady_tac|by apply load_confs_default, none_to_dict_unnamed|].
  cbv beta. intros both H2. cbv zeta. eapply triple_bind; [|intros ?; apply Hb].
  apply download_around; [by steady_tac|]. apply roundtrip_users_leave; [done|]. intros confs'. apply load_around, ret_leaves.
Qed.
(** Boto's configuration has a timeout of 30 seconds whatever the configuration of the task says: the value is looked up in
    a dictionary that never has it. *)
Theorem boto_timeout_fixed clients confs :
  boto_cfg boto_template (configure_args clients confs) = fill "idle_timeout" "30" boto_template.
Proof. done. Qed.
(** The rgw_logsocket task never gets to its body: whatever its configuration, it ends in an exception. *)
Theorem logsocket_never_runs {A : Type} (config : pyval) (body : MG A) (g : gw) (w : world) :
  wp (logsocket_task all_roles_of_type deep_merge config body) (fun o _ _ => ~ is_ret o) g w.
Proof.
  unfold logsocket_task. do 3 (apply wp_bind, (wp_conseq _ (fun _ _ _ => True)); [by unfold wp; case_match; case_match|];
    intros [?|?|] ? ? _; unfold then_; [|by intros []..]). apply wp_raise. by intros [].
Qed.
End Tasks.
