(* ===== verification/RgwAdmin.v ===== *)
(** * Tests of the gateway's administration: tasks/radosgw_admin.py and radosgw_admin_rest.py

    Both tasks are scripts that drive one gateway, the first through the command line and the
    second over HTTP, and check every answer.  The S3 client (boto) and the HTTP libraries are not
    part of the repository: their calls are events, and what they give back (connections, buckets,
    keys, requests) are names.  An [S3ResponseError] is an exception whose text has its status. *)
From Stdlib Require Import Ascii QArith Qround Lqa.
From S2P Require Import Prelude PyVal World TraceState ZbkcManager Conf FsSetup Rbd ZbkcTask RgwUtil RgwTask ClientTasks.

(** ** Values *)

(** [a == b], for dictionaries too *)
Fixpoint deep_eq (a b : pyval) {struct a} : bool :=
  match a, b with
  | PList l, PList m =>
      (fix go l m := match l, m with
                     | [], [] => true
                     | x :: l', y :: m' => deep_eq x y && go l' m'
                     | _, _ => false
                     end) l m
  | PDict d, PDict e =>
      (length d =? length e)%nat &&
      (fix go d := match d with
                   | [] => true
                   | (k, v) :: d' => match dict_lookup k e with Some v' => deep_eq v v' | None => false end && go d'
                   end) d
  | _, _ => py_eq a b
  end.
(** [s.strip('\n')] *)
Fixpoint lstrip_nl (s : string) : string :=
  match s with String a s' => if Ascii.eqb a nl then lstrip_nl s' else s | EmptyString => EmptyString end.
Fixpoint rstrip_nl (s : string) : string :=
  match s with
  | EmptyString => EmptyString
  | String a s' => match rstrip_nl s' with
                   | EmptyString => if Ascii.eqb a nl then EmptyString else String a EmptyString
                   | r => String a r
                   end
  end.
Definition strip_nl (s : string) : string := rstrip_nl (lstrip_nl s).
(** [s.split(pat)[-1]]: what follows the last occurrence, found from the left *)
Fixpoint last_part (pat : string) (skip : nat) (found s : string) : string :=
  match s with
  | EmptyString => found
  | String a s' =>
      match skip with
      | Datatypes.S k => last_part pat k found s'
      | O => if startswith pat s then last_part pat (pred (String.length pat)) (str_from (String.length pat) s) s'
             else last_part pat 0 found s'
      end
  end.
Definition xml_version : string :=
  "<?xml version=" +:+ dqs +:+ "1.0" +:+ dqs +:+ " encoding=" +:+ dqs +:+ "UTF-8" +:+ dqs +:+ "?>".
Definition remove_version (s : string) : string := last_part xml_version 0 s s.

(** ** Dates: the number of a day, and the day of a number *)
Definition days_of (y m d : Z) : Z :=
  let y := if m <=? 2 then y - 1 else y in
  let era := y / 400 in
  let yoe := y - era * 400 in
  let doy := (153 * (if 2 <? m then m - 3 else m + 9) + 2) / 5 + d - 1 in
  era * 146097 + (yoe * 365 + yoe / 4 - yoe / 100 + doy).
Definition civil_of (z : Z) : Z * Z * Z :=
  let era := z / 146097 in
  let doe := z - era * 146097 in
  let yoe := (doe - doe / 1460 + doe / 36524 - doe / 146096) / 365 in
  let doy := doe - (365 * yoe + yoe / 4 - yoe / 100) in
  let mp := (5 * doy + 2) / 153 in
  let d := doy - (153 * mp + 2) / 5 + 1 in
  let m := if mp <? 10 then mp + 3 else mp - 9 in
  ((if m <=? 2 then 1 else 0) + yoe + era * 400, m, d).
(** [datetime.strptime(s, '%Y-%m-%d %H:%M:%S.%fZ')]: the six fields and the microseconds *)
Definition parse_mtime (s : string) : option (list Z * Z) :=
  match split_on "."%char s with
  | [a; b] =>
      fields ← strptime a;
      let '(ds, rest) := Json.take_digits b in
      n ← py_int ds;
      if String.eqb rest "Z" && Nat.leb (String.length ds) 6 && (nth 5 fields 0 <? 60)
      then Some (fields, n * 10 ^ (6 - Z.of_nat (String.length ds))) else None
  | _ => None
  end.
Definition two (n : Z) : string := pad_left 2 (zs n).
Definition mtime_text (fields : list Z) (micro : Z) : string :=
  match fields with
  | [y; mo; d; h; mi; se] =>
      pad_left 4 (zs y) +:+ "-" +:+ two mo +:+ "-" +:+ two d +:+ " " +:+ two h +:+ ":" +:+ two mi +:+ ":" +:+ two se +:+ "." +:+
      pad_left 6 (zs micro) +:+ "Z"
  | _ => EmptyString
  end.
(** [- datetime.timedelta(n)]: n days *)
Definition minus_days (n : Z) (fields : list Z) : list Z :=
  match fields with
  | y :: mo :: d :: rest => let '(y', mo', d') := civil_of (days_of y mo d - n) in y' :: mo' :: d' :: rest
  | _ => fields
  end.

Section Admin.
Context {E : Env} {F : Fuel}.
Context (all_roles_of_type : context -> string -> list string)
        (split_user : string -> string * string)
        (urlparse : string -> pyval * option Z)
        (remote_name : remote -> string).
Abbreviation MG A := (M gw A).

(** ** Reading an answer *)
Definition at_ (v : pyval) (path : list string) : MG pyval := fold_ subscript path v.
Definition item (v : pyval) (i : nat) : MG pyval :=
  match v with
  | PList l => of_option IndexError (l !! i)
  | PDict _ => raise (KeyError (zs (Z.of_nat i)))
  | _ => raise (TypeError "object has no attribute '__getitem__'")
  end.
(** [v[...][i][field]] *)
Definition entry (v : pyval) (path : list string) (i : nat) (field : string) : MG pyval :=
  x <- at_ v path ;; y <- item x i ;; subscript y field.
(** [assert v[...] == want] and the like *)
Definition is_ (v : pyval) (path : list string) (want : pyval) : MG unit := x <- at_ v path ;; assert_ (deep_eq x want) "==".
Definition entry_is (v : pyval) (path : list string) (i : nat) (field : string) (want : string) : MG unit :=
  x <- entry v path i field ;; assert_ (eq_str x want) "==".
Definition entry_in_two (v : pyval) (path : list string) (field : string) (want : string) : MG unit :=
  x <- entry v path 0 field ;;
  if eq_str x want then ret tt else entry_is v path 1 field want.
Definition size_ (v : pyval) (path : list string) (ok : Z -> bool) : MG unit :=
  x <- at_ v path ;; n <- len_ x ;; assert_ (ok n) "len".
Definition has_size (v : pyval) (path : list string) (n : Z) : MG unit := size_ v path (fun k => k =? n).
Definition not_empty (v : pyval) (path : list string) : MG unit := size_ v path (fun k => 0 <? k).
Definition positive (v : pyval) (path : list string) : MG unit := x <- at_ v path ;; assert_ (py_gt x (PInt 0)) "> 0".
Definition suspended (v : pyval) (want : bool) : MG unit :=
  x <- subscript v "suspended" ;; assert_ (Bool.eqb (truthy x) want) "suspended".

(** ** The S3 client *)
Abbreviation handle := string.
Definition S3Connection (access secret host : string) (port : Z) : MG handle := call "S3Connection" [access; secret; zs port; host].
Definition create_bucket (conn : handle) (name : string) : MG handle := call "create_bucket" [conn; name].
Definition Key (bucket : handle) : MG handle := call "Key" [bucket].
Definition set_contents (key : handle) (s : string) : MG unit := call "set_contents_from_string" [key; s] ;; ret tt.
Definition delete (h : handle) : MG unit := call "delete" [h] ;; ret tt.
(** [bucket.get_key(name)], which may be [None] *)
Definition get_key (bucket : handle) (name : string) : MG (option handle) :=
  p <- emit (EvCall "get_key" [bucket; name]) ;; ret (if exitstatus p =? 0 then None else Some (stdout p)).
Definition get_contents (key : handle) : MG string := call "get_contents_as_string" [key].
(** The status of an [S3ResponseError] *)
Definition s3_status (e : exn) : option Z :=
  match e with OtherError m => if startswith "S3ResponseError " m then py_int (str_from 16 m) else None | _ => None end.
(** [try: m except S3ResponseError as e: assert e.status == status] *)
Definition may_fail (status : Z) (m : MG unit) : MG unit :=
  catch m (fun e => match s3_status e with Some z => assert_ (z =? status) "e.status" | None => raise e end).
(** [try: m except S3ResponseError: denied = True] *)
Definition denied (m : MG unit) : MG bool :=
  catch (m ;; ret false) (fun e => match s3_status e with Some _ => ret true | None => raise e end).
Definition create_presigned_url (conn method bucket_name key_name : string) (expiration : Z) : MG string :=
  call "generate_url" [conn; zs expiration; method; bucket_name; key_name].
(** The status of the response *)
Definition send_raw_http_request (conn method bucket_name key_name : string) : MG Z :=
  url <- create_presigned_url conn method bucket_name key_name 3600 ;;
  p <- emit (EvCall "Http.request" [url; method]) ;; ret (exitstatus p).
Definition get_acl (key : handle) : MG string :=
  raw_acl <- call "get_xml_acl" [key] ;; ret (remove_version (strip_nl raw_acl)).

(** ** Names both tasks use *)
Definition user1 : string := "foo".
Definition user2 : string := "fud".
Definition subuser1 : string := "foo:foo1".
Definition subuser2 : string := "foo:foo2".
Definition display_name1 : string := "Foo".
Definition display_name2 : string := "Fud".
Definition email : string := "foo@foo.com".
Definition email2 : string := "bar@bar.com".
Definition access_key : string := "9te6NH5mcdcq0Tc5i8i1".
Definition secret_key : string := "Ny4IOauQoL18Gp2zM7lC1vLmoawgqcYP/YGcWfXu".
Definition access_key2 : string := "p5YnriCv1nAtykxBrupQ".
Definition secret_key2 : string := "Q8Tk6Q/27hfbFSYdSkPtUqhqx1GgzvpXa4WARozh".
Definition swift_secret1 : string := "gpS2G9RREMrnbqlp29PP2D36kgPR1tm72n5fPYfL".
Definition swift_secret2 : string := "ri2VJQcKSYATOY6uaDUX7pxgkW+W1YmC6OCxPHwy".
Definition bucket_name : string := "myfoo".
Definition bucket_name2 : string := "mybar".
(** [config.keys()] *)
Definition admin_clients (config : pyval) : MG (list string) :=
  match config with
  | PNone => g <- get ;; ret (map (fun id_ => "client." +:+ id_) (all_roles_of_type (the_ctx g) "client"))
  | PList l => map_ as_str l
  | PDict d => ret (map fst d)
  | _ => raise (AssertionError "task s3tests only supports a list or dictionary for configuration")
  end.
(** The answer to [user info] for [user1] *)
Definition check_user (out : pyval) : MG unit :=
  is_ out ["user_id"] (PStr user1) ;;
  is_ out ["email"] (PStr email) ;;
  is_ out ["display_name"] (PStr display_name1) ;;
  has_size out ["keys"] 1 ;;
  entry_is out ["keys"] 0 "access_key" access_key ;;
  entry_is out ["keys"] 0 "secret_key" secret_key ;;
  suspended out false.

(** ** radosgw_admin.py *)

(** A command that must succeed, and its answer; one that must fail; one that may do either *)
Definition ok (client : string) (cmd : list string) : MG pyval := x <- rgwadmin client cmd None true ;; ret x.2.
Definition fails (client : string) (cmd : list string) : MG unit :=
  x <- rgwadmin client cmd None false ;; assert_ (negb (x.1 =? 0)) "err".
Definition try_ (client : string) (cmd : list string) : MG pyval := x <- rgwadmin client cmd None false ;; ret x.2.
Definition info (client uid : string) : MG pyval := ok client ["user"; "info"; "--uid"; uid].
(** [assert out is None] *)
Definition no_info (client uid : string) : MG unit :=
  out <- try_ client ["user"; "info"; "--uid"; uid] ;; assert_ (match out with PNone => true | _ => false end) "out is None".
Definition sync_all : MG unit := radosgw_agent_sync_all split_user false false.
Definition endpoint (client : string) : MG (string * Z) :=
  g <- get ;; of_option (KeyError client) (snd <$> find (fun e => String.eqb e.1 client) (g_endpoints g)).
(** [for agent_client, c_config in ctx.radosgw_agent.config.iteritems()] *)
Definition agents : MG dict := g <- get ;; a <- of_option (AttributeError "radosgw_agent") (g_agent g) ;; ret (ag_config a).
Definition for_agents (k : dict -> MG unit) : MG unit := l <- agents ;; for_ l (fun cc => d <- as_dict cc.2 ;; k d).
Definition end_of (which : string) (c_config : dict) : MG string := v <- subscript (PDict c_config) which ;; as_str v.
Definition for_ends (k : string -> string -> MG unit) : MG unit :=
  for_agents (fun d => source_client <- end_of "src" d ;; dest_client <- end_of "dest" d ;; k source_client dest_client).

Definition create_user1 (client : string) : MG unit :=
  ok client ["user"; "create"; "--uid"; user1; "--display-name"; display_name1; "--email"; email; "--access-key"; access_key;
             "--secret"; secret_key; "--max-buckets"; "4"] ;; ret tt.
Definition test_create (client : string) : MG unit :=
  fails client ["user"; "info"; "--uid"; user1] ;;
  create_user1 client ;;
  fails client ["user"; "create"; "--uid"; user2; "--display-name"; display_name2; "--email"; email] ;;
  out <- info client user1 ;;
  check_user out.

(** *** Several regions *)
Definition metadata (client what : string) : MG pyval := ok client ["metadata"; "get"; what].
Definition user_meta : string := "user:" +:+ user1.
Definition bucket_meta : string := "bucket:" +:+ bucket_name2.
(** The metadata are the same at both ends. *)
Definition same_metadata (what source_client dest_client : string) : MG (pyval * pyval) :=
  out1 <- metadata source_client what ;;
  out2 <- metadata dest_client what ;;
  assert_ (deep_eq out1 out2) "out1 == out2" ;;
  ret (out1, out2).
Definition sync_users (client : string) : MG unit :=
  sync_all ;;
  for_agents (fun d =>
    dest_client <- end_of "dest" d ;;
    try_ dest_client ["metadata"; "list"; "user"] ;;
    out <- info dest_client user1 ;;
    check_user out) ;;
  for_ends (fun source_client dest_client => same_metadata user_meta source_client dest_client ;; ret tt) ;;
  for_ends (fun source_client dest_client =>
    try_ source_client ["user"; "suspend"; "--uid"; user1] ;;
    sync_all ;;
    out <- info dest_client user1 ;;
    suspended out true) ;;
  for_ends (fun source_client dest_client =>
    ok source_client ["user"; "rm"; "--uid"; user1] ;;
    sync_all ;;
    no_info source_client user1 ;;
    no_info dest_client user1 ;;
    create_user1 client) ;;
  ok client ["user"; "create"; "--uid"; user2; "--display-name"; display_name2; "--email"; email2; "--access-key"; access_key2;
             "--secret"; secret_key2; "--max-buckets"; "4"] ;;
  out <- info client user2 ;;
  assert_ (match out with PNone => false | _ => true end) "out is not None".
(** [del v[...][key]] *)
Fixpoint del_in (path : list string) (key : string) (v : pyval) : MG pyval :=
  match path with
  | [] => subscript v key ;; d <- as_dict v ;; ret (PDict (dict_del key d))
  | k :: path' => x <- subscript v k ;; x' <- del_in path' key x ;; d <- as_dict v ;; ret (PDict (dict_set k x' d))
  end.
Definition without_pools (v : pyval) : MG pyval :=
  fold_ (fun v key => del_in ["data"; "bucket_info"; "bucket"] key v) ["pool"; "index_pool"; "data_extra_pool"] v.
Definition same_instances : MG unit :=
  for_ends (fun source_client dest_client =>
    outs <- same_metadata bucket_meta source_client dest_client ;;
    src_bucket_id <- at_ outs.1 ["data"; "bucket"; "bucket_id"] ;;
    dest_bucket_id <- at_ outs.2 ["data"; "bucket"; "bucket_id"] ;;
    out1 <- metadata source_client ("bucket.instance:" +:+ bucket_name2 +:+ ":" +:+ py_str src_bucket_id) ;;
    out2 <- metadata dest_client ("bucket.instance:" +:+ bucket_name2 +:+ ":" +:+ py_str dest_bucket_id) ;;
    out1 <- without_pools out1 ;;
    out2 <- without_pools out2 ;;
    assert_ (deep_eq out1 out2) "out1 == out2").
(** A request to another region is redirected; the agents whose ends are in one region are counted. *)
Definition redirected (bucket : handle) (same_region : Z) (cc : string * pyval) : MG Z :=
  d <- as_dict cc.2 ;;
  source_client <- end_of "src" d ;;
  dest_client <- end_of "dest" d ;;
  source_region <- region_for_client source_client ;;
  dest_region <- region_for_client dest_client ;;
  if deep_eq source_region dest_region then ret (same_region + 1)
  else
    hp <- endpoint dest_client ;;
    connection_dest <- S3Connection access_key secret_key hp.1 hp.2 ;;
    status <- send_raw_http_request connection_dest "DELETE" bucket_name2 EmptyString ;;
    assert_ (status =? 301) "r.status == 301" ;;
    delete bucket ;;
    sync_all ;;
    ret same_region.
Definition sync_buckets (connection connection2 : handle) : MG handle :=
  bucket <- create_bucket connection bucket_name2 ;;
  sync_all ;;
  same_instances ;;
  l <- agents ;;
  same_region <- fold_ (redirected bucket) l 0 ;;
  when (same_region =? Z.of_nat (length l)) (delete bucket ;; sync_all) ;;
  for_ends (fun source_client dest_client =>
    x <- rgwadmin source_client ["metadata"; "get"; bucket_meta] None false ;;
    y <- rgwadmin dest_client ["metadata"; "get"; bucket_meta] None false ;;
    assert_ (negb (x.1 =? 0)) "err1" ;;
    assert_ (negb (y.1 =? 0)) "err2") ;;
  bucket <- create_bucket connection bucket_name2 ;;
  sync_all ;;
  for_ends (fun source_client dest_client => same_metadata bucket_meta source_client dest_client ;; ret tt) ;;
  delete bucket ;;
  bucket <- create_bucket connection2 bucket_name2 ;;
  sync_all ;;
  for_ends (fun source_client dest_client =>
    outs <- same_metadata bucket_meta source_client dest_client ;;
    owner <- at_ outs.1 ["data"; "owner"] ;;
    assert_ (eq_str owner user2) "owner" ;;
    assert_ (negb (eq_str owner user1)) "owner") ;;
  ret bucket.
(** The metadata with another time *)
Definition shifted (orig_data : pyval) : MG pyval :=
  v <- subscript orig_data "mtime" ;;
  s <- as_str v ;;
  fm <- of_option (ValueError "time data does not match format") (parse_mtime s) ;;
  d <- as_dict orig_data ;;
  ret (PDict (dict_set "mtime" (PStr (mtime_text (minus_days 300 fm.1) fm.2)) d)).
Definition sync_metadata (bucket : handle) : MG unit :=
  for_ends (fun source_client dest_client =>
    orig_data <- metadata source_client bucket_meta ;;
    new_data <- shifted orig_data ;;
    assert_ (negb (deep_eq new_data orig_data)) "new_data != orig_data" ;;
    rgwadmin source_client ["metadata"; "put"; bucket_meta] (Some (Json.dumps new_data)) true ;;
    out <- metadata source_client bucket_meta ;;
    assert_ (deep_eq out new_data) "out == new_data" ;;
    sync_all ;;
    outs <- same_metadata bucket_meta source_client dest_client ;;
    assert_ (deep_eq outs.1 new_data) "out1 == new_data") ;;
  delete bucket ;;
  sync_all ;;
  for_ends (fun source_client dest_client =>
    ok source_client ["user"; "rm"; "--uid"; user2] ;;
    sync_all ;;
    no_info source_client user2 ;;
    no_info dest_client user2).
(** [for full in (True, False)] for the agents that take data; [time.sleep(safety_window)] *)
Definition for_data_agents (k : string -> string -> bool -> MG unit) : MG unit :=
  for_agents (fun d =>
    if truthy (dict_get "metadata-only" PNone d) then ret tt
    else for_ [true; false] (fun full =>
           source_client <- end_of "src" d ;; dest_client <- end_of "dest" d ;; k source_client dest_client full)).
Definition window_sleep (source_client : string) : MG Q :=
  safety_window <- radosgw_data_log_window source_client ;;
  d <- as_num safety_window ;;
  sleep d ;; ret d.
Definition dest_connection (dest_client : string) : MG handle :=
  hp <- endpoint dest_client ;; S3Connection access_key secret_key hp.1 hp.2.
(** The contents of a key of a bucket over a connection, which may not have it *)
Definition key_of (conn : handle) (bucket name : string) : MG (option handle) := b <- call "get_bucket" [conn; bucket] ;; get_key b name.
Definition contents_of (k : option handle) : MG string :=
  k <- of_option (AttributeError "'NoneType' object has no attribute 'get_contents_as_string'") k ;; get_contents k.
Definition gone (k : option handle) : MG unit := assert_ (match k with None => true | _ => false end) "object not deleted from destination zone".
Definition named_key (bucket : handle) (name : string) : MG handle := k <- Key bucket ;; call "set_key" [k; name] ;; ret k.
Definition sync_tiny_file (connection : handle) : MG unit :=
  bucket <- create_bucket connection (bucket_name +:+ "data") ;;
  for_data_agents (fun source_client dest_client full =>
    k <- named_key bucket "tiny_file" ;;
    set_contents k "123456789" ;;
    d <- window_sleep source_client ;;
    radosgw_agent_sync_all split_user full true ;;
    conn <- dest_connection dest_client ;;
    dest_k <- key_of conn (bucket_name +:+ "data") "tiny_file" ;;
    s <- get_contents k ;;
    t <- contents_of dest_k ;;
    assert_ (String.eqb s t) "==" ;;
    delete k ;;
    sleep d ;;
    radosgw_agent_sync_all split_user false true ;;
    dest_k <- key_of conn (bucket_name +:+ "data") "tiny_file" ;;
    gone dest_k) ;;
  delete bucket.
Definition repeat_str (n : nat) (s : string) : string := String.concat EmptyString (repeat s n).
Definition tiny_name (i : nat) : string := "tiny_file_" +:+ zs (Z.of_nat i).
Definition tiny_data (i : nat) : string := repeat_str 100 (zs (Z.of_nat i)).
Definition sync_many_files (connection : handle) : MG unit :=
  bucket <- create_bucket connection (bucket_name +:+ "data2") ;;
  for_data_agents (fun source_client dest_client full =>
    conn <- dest_connection dest_client ;;
    for_ (seq 0 20) (fun i => k <- named_key bucket (tiny_name i) ;; set_contents k (tiny_data i)) ;;
    d <- window_sleep source_client ;;
    radosgw_agent_sync_all split_user full true ;;
    for_ (seq 0 20) (fun i =>
      dest_k <- key_of conn (bucket_name +:+ "data2") (tiny_name i) ;;
      t <- contents_of dest_k ;;
      assert_ (String.eqb (tiny_data i) t) "==" ;;
      k <- named_key bucket (tiny_name i) ;;
      delete k) ;;
    sleep d ;;
    radosgw_agent_sync_all split_user false true ;;
    for_ (seq 0 20) (fun i => dest_k <- key_of conn (bucket_name +:+ "data2") (tiny_name i) ;; gone dest_k)) ;;
  delete bucket.
Definition multi_region (client connection connection2 : string) : MG unit :=
  sync_users client ;;
  bucket <- sync_buckets connection connection2 ;;
  sync_metadata bucket ;;
  sync_tiny_file connection ;;
  sync_many_files connection.

(** *** One user: suspending, keys and subusers *)
Definition test_suspend (client : string) : MG unit :=
  ok client ["user"; "suspend"; "--uid"; user1] ;;
  out <- info client user1 ;;
  suspended out true ;;
  ok client ["user"; "enable"; "--uid"; user1] ;;
  out <- info client user1 ;;
  suspended out false.
(** The only key that is left is the first. *)
Definition one_key (out : pyval) : MG unit :=
  has_size out ["keys"] 1 ;;
  entry_is out ["keys"] 0 "access_key" access_key ;;
  entry_is out ["keys"] 0 "secret_key" secret_key.
Definition two_keys (out : pyval) : MG unit :=
  has_size out ["keys"] 2 ;;
  entry_in_two out ["keys"] "access_key" access_key2 ;;
  entry_in_two out ["keys"] "secret_key" secret_key2.
Definition test_keys (client : string) : MG unit :=
  ok client ["key"; "create"; "--uid"; user1; "--access-key"; access_key2; "--secret"; secret_key2] ;;
  out <- info client user1 ;;
  two_keys out ;;
  out <- ok client ["key"; "rm"; "--uid"; user1; "--access-key"; access_key2] ;;
  one_key out.
Definition one_swift_key (out : pyval) : MG unit :=
  has_size out ["swift_keys"] 1 ;;
  entry_is out ["swift_keys"] 0 "user" subuser1 ;;
  entry_is out ["swift_keys"] 0 "secret_key" swift_secret1.
Definition two_swift_keys (out : pyval) : MG unit :=
  has_size out ["swift_keys"] 2 ;;
  entry_in_two out ["swift_keys"] "user" subuser2 ;;
  entry_in_two out ["swift_keys"] "secret_key" swift_secret2.
Definition test_subusers (client : string) : MG unit :=
  ok client ["subuser"; "create"; "--subuser"; subuser1; "--access"; "full"] ;;
  ok client ["subuser"; "modify"; "--subuser"; subuser1; "--secret"; swift_secret1; "--key-type"; "swift"] ;;
  out <- try_ client ["user"; "info"; "--uid"; user1] ;;
  entry_is out ["subusers"] 0 "permissions" "full-control" ;;
  out <- info client user1 ;;
  one_swift_key out ;;
  ok client ["subuser"; "create"; "--subuser"; subuser2; "--secret"; swift_secret2; "--key-type"; "swift"] ;;
  out <- info client user1 ;;
  two_swift_keys out ;;
  out <- ok client ["key"; "rm"; "--subuser"; subuser1; "--key-type"; "swift"] ;;
  has_size out ["swift_keys"] 1 ;;
  out <- ok client ["subuser"; "rm"; "--subuser"; subuser1] ;;
  has_size out ["subusers"] 1 ;;
  out <- ok client ["subuser"; "rm"; "--subuser"; subuser2; "--key-type"; "swift"; "--purge-keys"] ;;
  has_size out ["swift_keys"] 0 ;;
  has_size out ["subusers"] 0.

(** *** Buckets *)
(** [except Exception] *)
Definition raises (m : MG unit) : MG unit :=
  failed <- catch (m ;; ret false) (fun _ => ret true) ;; assert_ failed "failed".
Definition limit_buckets (connection : handle) : MG unit :=
  bucket2 <- create_bucket connection (bucket_name +:+ "2") ;;
  bucket3 <- create_bucket connection (bucket_name +:+ "3") ;;
  bucket4 <- create_bucket connection (bucket_name +:+ "4") ;;
  raises (create_bucket connection (bucket_name +:+ "5") ;; ret tt) ;;
  delete bucket2 ;;
  delete bucket3 ;;
  delete bucket4.
Definition bucket_stats (client : string) : MG pyval := ok client ["bucket"; "stats"; "--bucket"; bucket_name].
(** The bucket *)
Definition test_buckets (client connection : string) (multi_region_run : bool) : MG handle :=
  out <- ok client ["bucket"; "stats"; "--uid"; user1] ;;
  has_size out [] 0 ;;
  when multi_region_run sync_all ;;
  out <- ok client ["bucket"; "list"; "--uid"; user1] ;;
  has_size out [] 0 ;;
  bucket <- create_bucket connection bucket_name ;;
  out <- ok client ["bucket"; "list"; "--uid"; user1] ;;
  has_size out [] 1 ;;
  x <- item out 0 ;;
  assert_ (eq_str x bucket_name) "out[0] == bucket_name" ;;
  out <- ok client ["bucket"; "list"] ;;
  not_empty out [] ;;
  l <- as_list out ;;
  assert_ (existsb (fun x => eq_str x bucket_name) l) "bucket_name in out" ;;
  limit_buckets connection ;;
  out <- bucket_stats client ;;
  is_ out ["owner"] (PStr user1) ;;
  bucket_id <- subscript out "id" ;;
  out <- ok client ["bucket"; "stats"; "--uid"; user1] ;;
  has_size out [] 1 ;;
  x <- entry out [] 0 "id" ;;
  assert_ (deep_eq x bucket_id) "out[0]['id'] == bucket_id" ;;
  key <- Key bucket ;;
  set_contents key "one" ;;
  out <- bucket_stats client ;;
  is_ out ["id"] bucket_id ;;
  is_ out ["usage"; "rgw.main"; "num_objects"] (PInt 1) ;;
  positive out ["usage"; "rgw.main"; "size_kb"] ;;
  delete key ;;
  ok client ["bucket"; "unlink"; "--uid"; user1; "--bucket"; bucket_name] ;;
  ret bucket.
(** The identity of the bucket *)
Definition test_link (client : string) (bucket : handle) : MG pyval :=
  ok client ["user"; "create"; "--uid"; user2; "--display-name"; display_name2; "--access-key"; access_key2; "--secret"; secret_key2;
             "--max-buckets"; "1"] ;;
  key <- Key bucket ;;
  b <- denied (set_contents key "two") ;;
  assert_ (negb b) "not denied" ;;
  delete key ;;
  out <- metadata client ("bucket:" +:+ bucket_name) ;;
  bucket_data <- subscript out "data" ;;
  is_ bucket_data ["bucket"; "name"] (PStr bucket_name) ;;
  bucket_id <- at_ bucket_data ["bucket"; "bucket_id"] ;;
  ok client ["bucket"; "link"; "--uid"; user2; "--bucket"; bucket_name; "--bucket-id"; py_str bucket_id] ;;
  fails client ["user"; "rm"; "--uid"; user2] ;;
  ok client ["bucket"; "unlink"; "--uid"; user2; "--bucket"; bucket_name] ;;
  ok client ["bucket"; "link"; "--uid"; user1; "--bucket"; bucket_name; "--bucket-id"; py_str bucket_id] ;;
  ok client ["user"; "rm"; "--uid"; user2] ;;
  ret bucket_id.
Definition test_object (client : string) (bucket : handle) (bucket_id : pyval) : MG unit :=
  key <- call "Key" [bucket; "four"] ;;
  set_contents key "four" ;;
  ok client ["object"; "rm"; "--bucket"; bucket_name; "--object"; "four"] ;;
  out <- bucket_stats client ;;
  is_ out ["id"] bucket_id ;;
  is_ out ["usage"; "rgw.main"; "num_objects"] (PInt 0).

(** *** Logs and usage *)
Definition skipped_log (obj : string) : bool := startswith "meta" obj || startswith "data" obj || startswith "obj_delete_at_hint" obj.
Definition check_entry (bucket : string) (v : pyval) : MG unit :=
  is_ v ["bucket"] (PStr bucket) ;;
  x <- subscript v "user" ;;
  user <- as_str x ;;
  assert_ (String.eqb user user1 || endswith "system-user" user || bool_decide (bucket ∈ [bucket_name +:+ "5"; bucket_name2])) "user".
Definition check_log (client : string) (bucket_id : pyval) (v : pyval) : MG unit :=
  obj <- as_str v ;;
  if skipped_log obj then ret tt
  else
    rgwlog <- ok client ["log"; "show"; "--object"; obj] ;;
    not_empty rgwlog [] ;;
    x <- subscript rgwlog "bucket" ;;
    bucket <- as_str x ;;
    assert_ (startswith bucket_name bucket || startswith bucket_name2 bucket) "bucket" ;;
    (if negb (String.eqb bucket bucket_name) then ret tt else is_ rgwlog ["bucket_id"] bucket_id) ;;
    owner <- subscript rgwlog "bucket_owner" ;;
    assert_ (eq_str owner user1 || String.eqb bucket (bucket_name +:+ "5") || String.eqb bucket bucket_name2) "bucket_owner" ;;
    e <- subscript rgwlog "log_entries" ;;
    l <- as_list e ;;
    for_ l (check_entry bucket) ;;
    ok client ["log"; "rm"; "--object"; obj] ;; ret tt.
Definition test_logs (client : string) (bucket_id : pyval) : MG unit :=
  out <- ok client ["log"; "list"] ;;
  not_empty out [] ;;
  l <- as_list out ;;
  for_ l (check_log client bucket_id).
(** The wait for the usage to be flushed, by whatever [show] asks for it *)
Definition wait_limit : Z := 20 * 60.
Definition await_usage (show : MG pyval) : MG unit :=
  timestamp <- time ;;
  loop fuel (fun _ : unit =>
    t <- time ;;
    if Qle_bool (t - timestamp) (inject_Z wait_limit) then
      out <- show ;;
      n <- get_user_successful_ops out user1 ;;
      if py_gt n (PInt 0) then ret (inr tt) else sleep 1 ;; ret (inl tt)
    else ret (inr tt)) tt ;;
  t <- time ;;
  assert_ (Qle_bool (t - timestamp) (inject_Z wait_limit)) "time.time() - timestamp <= (20 * 60)".
Definition check_usage (out : pyval) : MG unit := not_empty out ["entries"] ;; not_empty out ["summary"].
Definition check_summary (out : pyval) : MG unit :=
  user_summary <- get_user_summary out user1 ;; positive user_summary ["total"; "successful_ops"].
Definition check_categories (out : pyval) : MG unit :=
  check_usage out ;;
  x <- subscript out "summary" ;;
  user_summary <- item x 0 ;;
  c <- subscript user_summary "categories" ;;
  l <- as_list c ;;
  for_ l (fun entry => positive entry ["successful_ops"]) ;;
  is_ user_summary ["user"] (PStr user1).
Definition test_categories : list string := ["create_bucket"; "put_obj"; "delete_obj"; "delete_bucket"].
Definition check_category (cat : string) (out : pyval) : MG unit :=
  not_empty out ["summary"] ;;
  x <- subscript out "summary" ;;
  user_summary <- item x 0 ;;
  is_ user_summary ["user"] (PStr user1) ;;
  has_size user_summary ["categories"] 1 ;;
  c <- subscript user_summary "categories" ;;
  entry <- item c 0 ;;
  is_ entry ["category"] (PStr cat) ;;
  positive entry ["successful_ops"].
Definition test_usage (client : string) : MG unit :=
  await_usage (try_ client ["usage"; "show"; "--categories"; "delete_obj"]) ;;
  out <- ok client ["usage"; "show"] ;;
  check_usage out ;;
  check_summary out ;;
  out <- ok client ["usage"; "show"; "--uid"; user1] ;;
  check_categories out ;;
  for_ test_categories (fun cat =>
    out <- ok client ["usage"; "show"; "--uid"; user1; "--categories"; cat] ;; check_category cat out) ;;
  sleep 35 ;;
  ok client ["usage"; "trim"; "--uid"; user1] ;;
  out <- ok client ["usage"; "show"; "--uid"; user1] ;;
  has_size out ["entries"] 0 ;;
  has_size out ["summary"] 0.

(** *** Suspended users, garbage, policies, capabilities *)

(** Thirty million characters are not written out. *)
Definition test_string : string := "'foo'*10000000".
(** The key that is written when the user is enabled again *)
Definition test_suspended_writes (client : string) (bucket : handle) : MG handle :=
  ok client ["user"; "suspend"; "--uid"; user1] ;;
  may_fail 403 (key <- Key bucket ;; set_contents key "five") ;;
  ok client ["user"; "enable"; "--uid"; user1] ;;
  key <- Key bucket ;;
  set_contents key "six" ;;
  ret key.
Definition test_gc (client : string) (bucket : handle) : MG unit :=
  big_key <- Key bucket ;;
  set_contents big_key test_string ;;
  delete big_key ;;
  sleep 15 ;;
  out <- try_ client ["gc"; "list"] ;;
  not_empty out [] ;;
  ok client ["gc"; "process"] ;;
  out <- try_ client ["gc"; "list"] ;;
  has_size out [] 0.
(** [rgwadmin(..., format='xml')] *)
Definition policy_xml (client : string) (bucket key : handle) : MG string :=
  name <- call "bucket.name" [bucket] ;;
  object <- call "key.key" [key] ;;
  g <- get ;;
  r <- lone (the_ctx g) client ;;
  p <- run r (["adjust-ulimits"; "zbkc-coverage"; testdir (the_ctx g) +:+ "/archive/coverage"; "radosgw-admin"; "--log-to-stderr";
               "--format"; "xml"; "-n"; client] ++ ["policy"; "--bucket"; name; "--object"; object]) true ;;
  as_str (if String.eqb (stdout p) EmptyString then PNone else default (PStr (stdout p)) (Json.loads (stdout p))).
Definition check_policy (client : string) (bucket key : handle) (acl : string) : MG unit :=
  call "set_acl" [key; acl] ;;
  out <- policy_xml client bucket key ;;
  acl <- get_acl key ;;
  assert_ (String.eqb acl (strip_nl out)) "acl".
(** The bucket with an object, which is deleted after its object *)
Definition delete_bucket (bucket key : handle) : MG unit :=
  may_fail 409 (delete bucket) ;;
  delete key ;;
  delete bucket.
Definition test_policy (client connection : string) : MG unit :=
  bucket <- create_bucket connection bucket_name ;;
  key <- Key bucket ;;
  set_contents key "seven" ;;
  check_policy client bucket key "private" ;;
  check_policy client bucket key "public-read".
Definition key_name : list string := ["eight"; "nine"; "ten"; "eleven"].
Definition fill_bucket (connection : handle) : MG unit :=
  bucket <- create_bucket connection bucket_name ;;
  for_ key_name (fun name => key <- Key bucket ;; set_contents key name).
Definition test_caps (client : string) : MG unit :=
  out <- try_ client ["caps"; "add"; "--uid"; user1; "--caps"; "user=read"] ;;
  entry_is out ["caps"] 0 "perm" "read" ;;
  out <- try_ client ["caps"; "rm"; "--uid"; user1; "--caps"; "user=read"] ;;
  c <- subscript out "caps" ;;
  assert_ (negb (truthy c)) "not out['caps']".
Definition test_remove (client connection : string) : MG unit :=
  bucket <- create_bucket connection bucket_name ;;
  Key bucket ;;
  fails client ["user"; "rm"; "--uid"; user1] ;;
  bucket <- create_bucket connection bucket_name ;;
  key <- Key bucket ;;
  set_contents key "twelve" ;;
  ok client ["user"; "rm"; "--uid"; user1; "--purge-data"] ;;
  fails client ["user"; "info"; "--uid"; user1].

(** *** The zone *)
Definition zone_get (client : string) : MG pyval :=
  g <- get ;;
  try_ client (["zone"; "get"] ++ match g_realm g with PNone => ["--rgw-zone"; "default"] | _ => [] end).
Definition new_rule : pyval :=
  PDict [("key", PStr "new-placement");
         ("val", PDict [("data_pool", PStr ".rgw.buckets.2"); ("index_pool", PStr ".rgw.buckets.index.2")])].
Definition test_zone (client : string) : MG unit :=
  out <- zone_get client ;;
  p <- subscript out "placement_pools" ;;
  orig_placement_pools <- len_ p ;;
  l <- as_list p ;;
  d <- as_dict out ;;
  rgwadmin client ["zone"; "set"] (Some (Json.dumps (PDict (dict_set "placement_pools" (PList (l ++ [new_rule])) d)))) true ;;
  out <- zone_get client ;;
  not_empty out [] ;;
  has_size out ["placement_pools"] (orig_placement_pools + 1).

Definition radosgw_admin_task (config : pyval) : MG unit :=
  clients <- admin_clients config ;;
  multi_region_run <- multi_region_enabled ;;
  c0 <- of_option IndexError (head clients) ;;
  client <- (if multi_region_run : bool then
               c <- get_master_client clients ;; of_option (KeyError "None") c
             else ret c0) ;;
  hp <- endpoint client ;;
  connection <- S3Connection access_key secret_key hp.1 hp.2 ;;
  connection2 <- S3Connection access_key2 secret_key2 hp.1 hp.2 ;;
  test_create client ;;
  when multi_region_run (multi_region client connection connection2) ;;
  test_suspend client ;;
  test_keys client ;;
  test_subusers client ;;
  bucket <- test_buckets client connection multi_region_run ;;
  bucket_id <- test_link client bucket ;;
  test_object client bucket bucket_id ;;
  test_logs client bucket_id ;;
  test_usage client ;;
  key <- test_suspended_writes client bucket ;;
  test_gc client bucket ;;
  fails client ["user"; "rm"; "--uid"; user1] ;;
  delete_bucket bucket key ;;
  test_policy client connection ;;
  fill_bucket connection ;;
  ok client ["bucket"; "rm"; "--bucket"; bucket_name; "--purge-objects"] ;;
  test_caps client ;;
  test_remove client connection ;;
  test_zone client.

(** ** radosgw_admin_rest.py *)
Abbreviation params := (list (string * pyval)).
(** Its own [rgwadmin], which does not say as whom it runs *)
Definition rest_rgwadmin (client : string) (cmd : list string) : MG (Z * pyval) :=
  g <- get ;;
  r <- lone (the_ctx g) client ;;
  p <- run r (["adjust-ulimits"; "zbkc-coverage"; testdir (the_ctx g) +:+ "/archive/coverage"; "radosgw-admin"; "--log-to-stderr";
               "--format"; "json"] ++ cmd) false ;;
  ret (exitstatus p,
       if (exitstatus p =? 0) && negb (String.eqb (stdout p) EmptyString)
       then default (PStr (stdout p)) (Json.loads (stdout p)) else PNone).
(** The HTTP method of a command, which also names the function of [requests] *)
Inductive http := PUT | DELETE | POST | GET.
Definition method_name (m : http) : string := match m with PUT => "PUT" | DELETE => "DELETE" | POST => "POST" | GET => "GET" end.
Definition handler_name (m : http) : string :=
  match m with PUT => "requests.put" | DELETE => "requests.delete" | POST => "requests.post" | GET => "requests.get" end.
Definition get_cmd_method (verb : string) : option http :=
  if bool_decide (verb ∈ ["create"; "link"; "add"]) then Some PUT
  else if bool_decide (verb ∈ ["trim"; "rm"; "process"]) then Some DELETE
  else if bool_decide (verb ∈ ["unlink"; "modify"]) then Some POST
  else if bool_decide (verb ∈ ["check"; "info"; "show"; "list"]) then Some GET
  else None.
(** The resource and the arguments of the query *)
Definition get_resource (noun : string) : option (string * string) :=
  let under resource := (resource, if String.eqb noun resource then EmptyString else noun) in
  if String.eqb noun "bucket" || bool_decide (noun ∈ ["object"; "policy"; "index"]) then Some (under "bucket")
  else if String.eqb noun "user" || bool_decide (noun ∈ ["subuser"; "key"; "caps"]) then Some (under "user")
  else if String.eqb noun "usage" then Some ("usage", EmptyString)
  else if String.eqb noun "zone" || bool_decide (noun ∈ ["pool"; "log"; "garbage"]) then Some (under "zone")
  else None.
Definition build_admin_request (conn : handle) (method resource query_args : string) : MG handle :=
  let query := if String.eqb query_args EmptyString then EmptyString else "?" +:+ query_args in
  path <- call "build_path_base" [conn; "admin"; resource] ;;
  auth_path <- call "build_auth_path" [conn; "admin"; resource] ;;
  host <- call "build_host" [conn; "admin"] ;;
  call "build_base_http_request" [conn; method; path +:+ query; auth_path +:+ query; host].
Definition rgwadmin_rest (connection : handle) (noun verb : string) (ps : params) : MG (Z * pyval) :=
  method <- of_option (TypeError "'NoneType' object is not iterable") (get_cmd_method verb) ;;
  rq <- of_option (TypeError "'NoneType' object is not iterable") (get_resource noun) ;;
  request <- build_admin_request connection (method_name method) rq.1 rq.2 ;;
  protocol <- call "request.protocol" [request] ;;
  host <- call "request.host" [request] ;;
  path <- call "request.path" [request] ;;
  call "request.authorize" [request; connection] ;;
  headers <- call "request.headers" [request] ;;
  result <- emit (EvCall (handler_name method)
              ((protocol +:+ "://" +:+ host +:+ path) :: headers :: concat (map (fun kv => [kv.1; py_str kv.2]) ps))) ;;
  j <- json_loads (stdout result) ;;
  ret (exitstatus result, j).
(** [(ret, out) = rgwadmin_rest(...)] and [assert ret == status]; then the answer *)
Definition rest (conn : handle) (noun verb : string) (ps : params) (status : Z) : MG pyval :=
  x <- rgwadmin_rest conn noun verb ps ;; assert_ (x.1 =? status) "ret" ;; ret x.2.
(** The same without a look at the status *)
Definition rest_any (conn : handle) (noun verb : string) (ps : params) : MG pyval := x <- rgwadmin_rest conn noun verb ps ;; ret x.2.
Definition sp (k v : string) : string * pyval := (k, PStr v).
Definition uid (u : string) : params := [sp "uid" u].
Definition admin_user : string := "ada".
Definition admin_access_key : string := "MH1WC2XQ1S8UISFDZC8W".
Definition admin_secret_key : string := "dQyrTPA0s248YeN5bBv4ukvKU0kh54LWWywkrpoG".
Definition create_admin (client : string) : MG Z :=
  x <- rest_rgwadmin client
    ["user"; "create"; "--uid"; admin_user; "--display-name"; "Ms. Admin User"; "--access-key"; admin_access_key; "--secret";
     admin_secret_key; "--max-buckets"; "0"; "--caps"; "users=read, write; usage=read, write; buckets=read, write; zone=read, write"] ;;
  assert_ (x.1 =? 0) "not err" ;;
  ret x.1.
(** [err] is still the status of the first command. *)
Definition rest_users (conn : handle) (err : Z) : MG unit :=
  rest conn "user" "info" (uid user1) 404 ;;
  rest conn "user" "create" (uid user1 ++ [sp "display-name" display_name1; sp "email" email; sp "access-key" access_key;
                                           sp "secret-key" secret_key; sp "max-buckets" "4"]) 200 ;;
  out <- rest_any conn "user" "info" (uid user1) ;;
  check_user out ;;
  rest conn "user" "modify" (uid user1 ++ [("suspended", PBool true)]) 200 ;;
  out <- rest conn "user" "info" (uid user1) 200 ;;
  suspended out true ;;
  rest_any conn "user" "modify" (uid user1 ++ [sp "suspended" "false"]) ;;
  assert_ (err =? 0) "not err" ;;
  out <- rest conn "user" "info" (uid user1) 200 ;;
  suspended out false ;;
  rest conn "key" "create" (uid user1 ++ [sp "access-key" access_key2; sp "secret-key" secret_key2]) 200 ;;
  out <- rest conn "user" "info" (uid user1) 200 ;;
  two_keys out ;;
  rest conn "key" "rm" (uid user1 ++ [sp "access-key" access_key2]) 200 ;;
  out <- rest_any conn "user" "info" (uid user1) ;;
  one_key out.
Definition rest_subusers (conn : handle) : MG unit :=
  rest conn "subuser" "create" [sp "subuser" subuser1; sp "secret-key" swift_secret1; sp "key-type" "swift"] 200 ;;
  out <- rest conn "user" "info" (uid user1) 200 ;;
  one_swift_key out ;;
  rest conn "subuser" "create" [sp "subuser" subuser2; sp "secret-key" swift_secret2; sp "key-type" "swift"] 200 ;;
  out <- rest conn "user" "info" (uid user1) 200 ;;
  two_swift_keys out ;;
  rest conn "key" "rm" [sp "subuser" subuser1; sp "key-type" "swift"] 200 ;;
  out <- rest_any conn "user" "info" (uid user1) ;;
  has_size out ["swift_keys"] 1 ;;
  rest conn "subuser" "rm" [sp "subuser" subuser1] 200 ;;
  out <- rest_any conn "user" "info" (uid user1) ;;
  has_size out ["subusers"] 1 ;;
  rest conn "subuser" "rm" [sp "subuser" subuser2; sp "key-type" "swift"; ("{purge-keys", PBool true)] 200 ;;
  out <- rest_any conn "user" "info" (uid user1) ;;
  has_size out ["swift_keys"] 0 ;;
  has_size out ["subusers"] 0.
Definition with_stats : params := [("stats", PBool true)].
Definition in_bucket : params := [sp "bucket" bucket_name].
(** The bucket and its identity *)
Definition rest_buckets (conn : handle) (remote_host : string) : MG (handle * handle * pyval) :=
  out <- rest conn "bucket" "info" (uid user1) 200 ;;
  has_size out [] 0 ;;
  connection <- S3Connection access_key secret_key remote_host 7280 ;;
  out <- rest conn "bucket" "info" (uid user1 ++ with_stats) 200 ;;
  has_size out [] 0 ;;
  bucket <- create_bucket connection bucket_name ;;
  out <- rest conn "bucket" "info" (uid user1) 200 ;;
  has_size out [] 1 ;;
  x <- item out 0 ;;
  assert_ (eq_str x bucket_name) "out[0] == bucket_name" ;;
  out <- rest conn "bucket" "info" (in_bucket ++ with_stats) 200 ;;
  is_ out ["owner"] (PStr user1) ;;
  bucket_id <- subscript out "id" ;;
  out <- rest conn "bucket" "info" (uid user1 ++ with_stats) 200 ;;
  has_size out [] 1 ;;
  x <- entry out [] 0 "id" ;;
  assert_ (deep_eq x bucket_id) "out[0]['id'] == bucket_id" ;;
  key <- Key bucket ;;
  set_contents key "one" ;;
  out <- rest conn "bucket" "info" (in_bucket ++ with_stats) 200 ;;
  is_ out ["id"] bucket_id ;;
  is_ out ["usage"; "rgw.main"; "num_objects"] (PInt 1) ;;
  positive out ["usage"; "rgw.main"; "size_kb"] ;;
  delete key ;;
  ret (connection, bucket, bucket_id).
Definition rest_link (conn bucket : handle) (bucket_id : pyval) : MG unit :=
  rest conn "bucket" "unlink" (uid user1 ++ in_bucket) 200 ;;
  rest conn "user" "create" (uid user2 ++ [sp "display-name" display_name2; sp "access-key" access_key2; sp "secret-key" secret_key2;
                                           sp "max-buckets" "1"]) 200 ;;
  key <- Key bucket ;;
  b <- denied (set_contents key "two") ;;
  assert_ (negb b) "not denied" ;;
  delete key ;;
  rest conn "bucket" "link" (uid user2 ++ in_bucket) 200 ;;
  key <- Key bucket ;;
  b <- denied (set_contents key "three") ;;
  assert_ b "denied" ;;
  rest conn "bucket" "link" (uid user1 ++ in_bucket) 200 ;;
  rest conn "user" "rm" (uid user2) 200 ;;
  key <- call "Key" [bucket; "four"] ;;
  set_contents key "four" ;;
  rest conn "object" "rm" (in_bucket ++ [sp "object" "four"]) 200 ;;
  out <- rest conn "bucket" "info" (in_bucket ++ with_stats) 200 ;;
  is_ out ["id"] bucket_id ;;
  is_ out ["usage"; "rgw.main"; "num_objects"] (PInt 0).
Definition rest_usage (conn connection : handle) : MG unit :=
  useless_bucket <- create_bucket connection "useless_bucket" ;;
  useless_key <- call "new_key" [useless_bucket; "useless_key"] ;;
  set_contents useless_key "useless string" ;;
  delete useless_key ;;
  delete useless_bucket ;;
  sleep 60 ;;
  await_usage (rest_any conn "usage" "show" [sp "categories" "delete_obj"]) ;;
  out <- rest conn "usage" "show" [] 200 ;;
  check_usage out ;;
  check_summary out ;;
  out <- rest conn "usage" "show" (uid user1) 200 ;;
  check_categories out ;;
  for_ test_categories (fun cat => out <- rest conn "usage" "show" (uid user1 ++ [sp "categories" cat]) 200 ;; check_category cat out) ;;
  rest conn "usage" "trim" (uid user1) 200 ;;
  out <- rest conn "usage" "show" (uid user1) 200 ;;
  has_size out ["entries"] 0 ;;
  has_size out ["summary"] 0.
Definition rest_policy (conn bucket key : handle) (acl : string) : MG unit :=
  call "set_acl" [key; acl] ;;
  name <- call "bucket.name" [bucket] ;;
  object <- call "key.key" [key] ;;
  out <- rest conn "policy" "show" [sp "bucket" name; sp "object" object] 200 ;;
  acl <- call "get_xml_acl" [key] ;;
  out <- as_str out ;;
  assert_ (String.eqb acl (strip_nl out)) "acl".
Definition rest_suspended (conn bucket : handle) : MG handle :=
  rest conn "user" "modify" (uid user1 ++ [("suspended", PBool true)]) 200 ;;
  may_fail 403 (key <- Key bucket ;; set_contents key "five") ;;
  rest conn "user" "modify" (uid user1 ++ [sp "suspended" "false"]) 200 ;;
  key <- Key bucket ;;
  set_contents key "six" ;;
  big_key <- Key bucket ;;
  set_contents big_key test_string ;;
  delete big_key ;;
  ret key.
Definition rest_remove (conn connection : handle) : MG unit :=
  bucket <- create_bucket connection bucket_name ;;
  key <- Key bucket ;;
  set_contents key "seven" ;;
  rest_policy conn bucket key "private" ;;
  rest_policy conn bucket key "public-read" ;;
  fill_bucket connection ;;
  rest conn "bucket" "rm" (in_bucket ++ [("purge-objects", PBool true)]) 200 ;;
  out <- rest conn "caps" "add" (uid user1 ++ [sp "user-caps" "usage=read"]) 200 ;;
  entry_is out [] 0 "perm" "read" ;;
  out <- rest conn "caps" "rm" (uid user1 ++ [sp "user-caps" "usage=read"]) 200 ;;
  assert_ (negb (truthy out)) "not out" ;;
  bucket <- create_bucket connection bucket_name ;;
  Key bucket ;;
  rest conn "user" "rm" (uid user1) 409 ;;
  bucket <- create_bucket connection bucket_name ;;
  key <- Key bucket ;;
  set_contents key "twelve" ;;
  rest conn "user" "rm" (uid user1 ++ [("purge-data", PBool true)]) 200 ;;
  rest conn "user" "info" (uid user1) 404 ;;
  ret tt.
Definition radosgw_admin_rest_task (config : pyval) : MG unit :=
  clients <- admin_clients config ;;
  client <- of_option IndexError (head clients) ;;
  err <- create_admin client ;;
  g <- get ;;
  r <- lone (the_ctx g) client ;;
  remote_host <- of_option IndexError (split_on "@"%char (remote_name r) !! 1%nat) ;;
  conn <- S3Connection admin_access_key admin_secret_key remote_host 7280 ;;
  rest_users conn err ;;
  rest_subusers conn ;;
  x <- rest_buckets conn remote_host ;;
  let '(connection, bucket, bucket_id) := x in
  rest_link conn bucket bucket_id ;;
  rest_usage conn connection ;;
  key <- rest_suspended conn bucket ;;
  rest conn "user" "rm" (uid user1) 409 ;;
  delete_bucket bucket key ;;
  rest_remove conn connection.
End Admin.

(** ** Dates *)

(** A day of the four centuries after which the calendar repeats: its year, and its place in the year *)
Lemma era_bounds doe q1 q2 q3 yoe q4 q5 : 0 <= doe < 146097 ->
  1460 * q1 <= doe < 1460 * q1 + 1460 -> 36524 * q2 <= doe < 36524 * q2 + 36524 -> 146096 * q3 <= doe < 146096 * q3 + 146096 ->
  365 * yoe <= doe - q1 + q2 - q3 < 365 * yoe + 365 -> 4 * q4 <= yoe < 4 * q4 + 4 -> 100 * q5 <= yoe < 100 * q5 + 100 ->
  0 <= yoe < 400 /\ 0 <= doe - (365 * yoe + q4 - q5) <= 366.
Proof.
  intros. assert (0 <= q3 <= 1) by lia. assert (0 <= q2 <= 4) by lia. assert (0 <= yoe < 400) by lia. split; [lia|].
  assert (q2 = 0 \/ q2 = 1 \/ q2 = 2 \/ q2 = 3 \/ q2 = 4) as [->|[->|[->|[->| ->]]]] by lia;
    assert (q3 = 0 \/ q3 = 1) as [->| ->] by lia; assert (q5 = 0 \/ q5 = 1 \/ q5 = 2 \/ q5 = 3) as [->|[->|[->| ->]]] by lia; lia.
Qed.
Lemma div_bounds a b : 0 < b -> b * (a / b) <= a < b * (a / b) + b.
Proof. intros Hb. pose proof (Z.div_mod a b ltac:(lia)). pose proof (Z.mod_pos_bound a b Hb). lia. Qed.
Lemma civil_days z : let '(y, m, d) := civil_of z in days_of y m d = z /\ 1 <= m <= 12 /\ 1 <= d <= 31.
Proof.
  unfold civil_of. set (era := z / 146097). set (doe := z - era * 146097).
  set (yoe := (doe - doe / 1460 + doe / 36524 - doe / 146096) / 365).
  assert (Hdoe : 0 <= doe < 146097) by (pose proof (div_bounds z 146097); unfold doe, era; lia).
  destruct (era_bounds doe (doe / 1460) (doe / 36524) (doe / 146096) yoe (yoe / 4) (yoe / 100) Hdoe) as [Hy Hd]; try (by apply div_bounds).
  cbv zeta. set (doy := doe - (365 * yoe + yoe / 4 - yoe / 100)) in *. set (mp := (5 * doy + 2) / 153).
  pose proof (div_bounds (5 * doy + 2) 153 ltac:(lia)) as Hm. fold mp in Hm.
  assert (Hmp : 0 <= mp <= 11) by lia. unfold days_of.
  assert (Hz : z = era * 146097 + (yoe * 365 + yoe / 4 - yoe / 100 + doy)) by (unfold doy, doe; lia).
  assert (Hday : 1 <= doy - (153 * mp + 2) / 5 + 1 <= 31) by (pose proof (div_bounds (153 * mp + 2) 5); lia).
  clearbody mp doy yoe. clearbody doe. clear Hdoe. destruct (Z.ltb_spec mp 10).
  - rewrite (proj2 (Z.leb_gt (mp + 3) 2)), (proj2 (Z.ltb_lt 2 (mp + 3))) by lia. replace ((0 + yoe + era * 400) / 400) with era by (rewrite Z.div_add, Z.div_small; lia).
    replace (mp + 3 - 3) with mp by lia. replace (0 + yoe + era * 400 - era * 400) with yoe by lia. lia.
  - rewrite (proj2 (Z.leb_le (mp - 9) 2)), (proj2 (Z.ltb_ge 2 (mp - 9))) by lia. replace (1 + yoe + era * 400 - 1) with (yoe + era * 400) by lia. rewrite Z.div_add, Z.div_small by lia.
    rewrite Z.add_0_l. replace (mp - 9 + 9) with mp by lia. replace (yoe + era * 400 - era * 400) with yoe by lia. lia.
Qed.
Lemma strptime_fields s fields : strptime s = Some fields -> exists y m d rest, fields = y :: m :: d :: rest.
Proof.
  unfold strptime. intros H. repeat (let x := fresh "x" in apply bind_Some in H as (x & _ & H); try destruct x as [? ?]; cbv beta iota in H).
  destruct (_ && _); [|done]. injection H as <-. by eexists _, _, _, _.
Qed.
(** The test of metadata updates moves the time of a bucket by 300 days: the new date is a date of the calendar, its day is
    the day of the old one less 300, and the time of day stays. *)
Theorem mtime_moved (n : Z) (s : string) (fields : list Z) (micro : Z) :
  parse_mtime s = Some (fields, micro) ->
  exists y m d rest y' m' d', fields = y :: m :: d :: rest /\ minus_days n fields = y' :: m' :: d' :: rest /\
    days_of y' m' d' = days_of y m d - n /\ 1 <= m' <= 12 /\ 1 <= d' <= 31.
Proof.
  intros Hp. assert (exists y m d rest, fields = y :: m :: d :: rest) as (y & m & d & rest & ->).
  { unfold parse_mtime in Hp. destruct (split_on _ s) as [|a [|b [|]]]; try done. destruct (strptime a) as [fs|] eqn:Ha; [|done].
    cbn in Hp. destruct (Json.take_digits b) as [ds r]. destruct (py_int ds); [|done]. cbn in Hp. destruct (_ && _); [|done].
    injection Hp as <- _. by apply strptime_fields in Ha. }
  pose proof (civil_days (days_of y m d - n)) as H. unfold minus_days. destruct (civil_of (days_of y m d - n)) as [[y' m'] d'].
  destruct H as (Hd & Hm & Hd'). by exists y, m, d, rest, y', m', d'.
Qed.

(** ** The wait for the usage *)
Section UsageFacts.
Context {E : Env} {EL : EnvLaws E} {F : Fuel}.
Abbreviation MG A := (M gw A).
Definition usage_round (t0 : Q) (show : MG pyval) (_ : unit) : MG (unit + unit) :=
  t <- time ;;
  if Qle_bool (t - t0) (inject_Z wait_limit) then
    out <- show ;;
    n <- get_user_successful_ops out user1 ;;
    if py_gt n (PInt 0) then ret (inr tt) else sleep 1 ;; ret (inl tt)
  else ret (inr tt).
Lemma ops_later out user : Runs true later (get_user_successful_ops out user).
Proof. runs_tac. Qed.
(** A round ends the wait or takes a second. *)
Lemma usage_round_later t0 show g w : Runs true later show ->
  wp (usage_round t0 show tt) (fun o _ w' => o <> Stuck /\ (now (w_env w) <= now (w_env w'))%Q /\
    (forall l, o = Ret (inl l) -> (now (w_env w) - t0 <= inject_Z wait_limit)%Q /\ (now (w_env w) + 1 <= now (w_env w'))%Q)) g w.
Proof.
  intros Hs. unfold usage_round. apply wp_bind, wp_time. unfold then_ at 1. destruct (Qle_bool _ _) eqn:Hle; [|apply wp_ret; split_and!; [done|apply Qle_refl|done]].
  apply Qle_bool_iff in Hle. apply wp_bind. eapply wp_conseq; [apply Hs|]. intros [out|e|] g1 w1 [H1 Ht]; unfold then_; [|by split_and!..|by destruct (Ht eq_refl)].
  apply wp_bind. eapply wp_conseq; [apply ops_later|].
  intros [n|e|] g2 w2 [H2 Ht2]; unfold then_; [|split_and!; [done|by eapply Qle_trans|done]|by destruct (Ht2 eq_refl)].
  pose proof (Qle_trans _ _ _ H1 H2) as H12. cbn in H12. destruct (py_gt n (PInt 0)); [by apply wp_ret|].
  unfold sleep. apply wp_bind, wp_bind, wp_emit. intros r c Hr. pose proof (sleep_passes 1 (w_env w2)) as Hp. rewrite Hr in Hp. cbn in Hp.
  destruct (raised r); unfold then_; [split_and!; [done|cbn; lra|done]|]. apply wp_ret, wp_ret. split_and!; [done|cbn; lra|]. intros l _. split; [done|cbn; lra].
Qed.
Lemma usage_loop_ends t0 show n g w : Runs true later show -> n <> 0%nat ->
  (inject_Z (wait_limit + 1 - Z.of_nat n) < now (w_env w) - t0)%Q ->
  wp (loop n (usage_round t0 show) tt) (fun o _ w' => o <> Stuck) g w.
Proof.
  intros Hs. revert g w. induction n as [|n IH]; intros g w Hn Ht; [done|]. cbn [loop]. apply wp_bind.
  eapply wp_conseq; [by apply usage_round_later|]. intros [[[]|[]]|e|] g1 w1 (Ho & _ & Hl); unfold then_; [|by apply wp_ret|done..].
  destruct (Hl tt eq_refl) as [Hle Hlt]. rewrite Nat2Z.inj_succ in Ht. apply IH.
  - intros ->. replace (wait_limit + 1 - Z.succ (Z.of_nat 0)) with wait_limit in Ht by (cbn; lia). lra.
  - replace (wait_limit + 1 - Z.of_nat n) with (wait_limit + 1 - Z.succ (Z.of_nat n) + 1) by lia. rewrite inject_Z_plus. change (inject_Z 1) with 1%Q. lra.
Qed.
(** The wait for the usage to be flushed, of both tasks, ends: whatever is asked for the usage, if that itself ends, it makes
    at most 1201 rounds, and it returns only within the twenty minutes. *)
Theorem usage_wait_ends (show : MG pyval) (g : gw) (w : world) :
  Runs true later show -> (1201 < fuel)%nat ->
  wp (await_usage show) (fun o _ w' => o <> Stuck /\ (is_ret o -> (now (w_env w') - now (w_env w) <= inject_Z 1200)%Q)) g w.
Proof.
  intros Hs Hf. unfold await_usage. apply wp_bind, wp_time. unfold then_ at 1. apply wp_bind.
  eapply wp_conseq; [apply (usage_loop_ends (now (w_env w)) show fuel); [done|lia|]|].
  - apply Qlt_le_trans with (inject_Z 0); [rewrite <- Zlt_Qlt; unfold wait_limit; lia|change (inject_Z 0) with 0%Q; lra].
  - intros [[]|e|] g1 w1 Ho; unfold then_; [|by split|done]. apply wp_bind, wp_time. unfold then_, assert_.
    destruct (Qle_bool _ _) eqn:Hle; [|by apply wp_raise]. apply wp_ret. split; [done|]. intros _. by apply Qle_bool_iff in Hle.
Qed.
Lemma rgwadmin_ends client cmd : Runs true later (try_ client cmd).
Proof. runs_tac. Qed.
Lemma rest_ends conn noun verb ps : Runs true later (rest_any conn noun verb ps).
Proof. runs_tac. Qed.
End UsageFacts.

(** ** The users of radosgw_admin.py *)

(** The users there are after the commands of a run *)
Definition admin_step (t : gset string) (ev : event) : gset string :=
  match ev with
  | EvRun _ ("adjust-ulimits" :: "zbkc-coverage" :: _ :: "radosgw-admin" :: "--log-to-stderr" :: "--format" :: _ :: "-n" :: _ ::
             "user" :: "create" :: "--uid" :: u :: _) => {[u]} ∪ t
  | EvRun _ ("adjust-ulimits" :: "zbkc-coverage" :: _ :: "radosgw-admin" :: "--log-to-stderr" :: "--format" :: _ :: "-n" :: _ ::
             "user" :: "rm" :: "--uid" :: u :: _) => t ∖ {[u]}
  | _ => t
  end.
Definition admin_users : list event -> gset string := after_events admin_step ∅.

Section UserFacts.
Context {E : Env} {F : Fuel}.
Context (all_roles_of_type : context -> string -> list string) (split_user : string -> string * string).
Abbreviation MG A := (M gw A).
Abbreviation utriple P m Q := (triple admin_step ∅ P m Q).
(** A user that is not there is not created. *)
Definition absent (u : string) (_ : gw) (t : gset string) : Prop := u ∉ t.
Definition keeps (u : string) (ev : event) : Prop := forall t, u ∉ t -> u ∉ admin_step t ev.
Abbreviation without u := (Runs false (emits (keeps u))).

Lemma keeps_triple {A : Type} u (m : MG A) : without u m -> utriple (absent u) m (fun _ => absent u).
Proof.
  intros Hm g w Hu. eapply wp_conseq; [apply Hm|]. intros o g' w' [(evs & He & Hf) _] a _. cbn in He. rewrite He. unfold absent in *. clear He o g' w' a.
  revert Hu. generalize (w_trace w) as l. induction Hf as [|ev evs Hev _ IH]; intros l Hl; [by rewrite app_nil_r|].
  change (ev :: evs) with ([ev] ++ evs). rewrite (assoc_L (++)). apply IH. rewrite after_events_snoc. by apply Hev.
Qed.
Lemma any_triple {A : Type} (P : gw -> gset string -> Prop) (m : MG A) : utriple P m (fun _ _ _ => True).
Proof. intros g w _. unfold wp. by destruct (m g w) as [[o g'] w']. Qed.
Lemma keeps_bind {A B : Type} u (m : MG A) (k : A -> MG B) Q :
  without u m -> (forall a, utriple (absent u) (k a) Q) -> utriple (absent u) (bind m k) Q.
Proof. intros Hm Hk. eapply triple_bind; [by apply keeps_triple|done]. Qed.
(** A user is gone when it was removed. *)
Lemma removed P client u rest : utriple P (ok client ("user" :: "rm" :: "--uid" :: u :: rest)) (fun _ => absent u).
Proof.
  unfold ok, rgwadmin. eapply (triple_bind _ _ _ _ _ (fun _ => absent u)); [|intros ?; by apply triple_ret]. apply triple_get. intros g.
  eapply triple_bind; [apply any_triple|]. intros r. cbv zeta. eapply (triple_bind _ _ _ _ _ (fun _ => absent u)); [|intros ?; by apply triple_ret].
  apply triple_run. intros p g' t _. unfold absent, rgwadmin_cmd. cbn [app admin_step]. set_solver.
Qed.
Ltac keeps_tac := repeat (runs_step || (apply emits_emit; intros ? ?; unfold rgwadmin_cmd; cbn [app admin_step] in *; set_solver)).
(** The parts of the script that come after a user was removed *)
Lemma object_keeps u client bucket bucket_id : without u (test_object client bucket bucket_id).
Proof. keeps_tac. Qed.
Lemma logs_keep u client bucket_id : without u (test_logs client bucket_id).
Proof. keeps_tac. Qed.
Lemma usage_keeps u client : without u (test_usage client).
Proof. keeps_tac. Qed.
Lemma writes_keep u client bucket : without u (test_suspended_writes client bucket).
Proof. keeps_tac. Qed.
Lemma gc_keeps u client bucket : without u (test_gc client bucket).
Proof. keeps_tac. Qed.
Lemma policy_keeps u client connection : without u (test_policy client connection).
Proof. keeps_tac. Qed.
Lemma zone_keeps u client : without u (test_zone client).
Proof. keeps_tac. Qed.
Lemma any_bind {A B : Type} P (m : MG A) (k : A -> MG B) Q : (forall a, utriple (fun _ _ => True) (k a) Q) -> utriple P (bind m k) Q.
Proof. intros Hk. eapply triple_bind; [apply any_triple|done]. Qed.
Lemma link_removes P client bucket : utriple P (test_link client bucket) (fun _ => absent user2).
Proof.
  unfold test_link. do 13 (apply any_bind; intros ?). eapply triple_bind; [apply removed|]. intros ?. by apply triple_ret.
Qed.
Lemma both_triple {A : Type} (P P' Q Q' : gw -> gset string -> Prop) (m : MG A) :
  utriple P m (fun _ => Q) -> utriple P' m (fun _ => Q') ->
  utriple (fun g t => P g t /\ P' g t) m (fun _ g t => Q g t /\ Q' g t).
Proof.
  intros H1 H2 g w [HP HP']. eapply wp_conseq; [apply wp_and; [by apply H1|by apply H2]|].
  intros o g' w' [H H'] x Hx. by split; [apply (H x)|apply (H' x)].
Qed.
Lemma remove_removes client connection :
  utriple (absent user2) (test_remove client connection) (fun _ g t => absent user1 g t /\ absent user2 g t).
Proof.
  unfold test_remove. do 6 (apply keeps_bind; [by keeps_tac|intros ?]).
  eapply triple_bind; [eapply triple_conseq; [apply (both_triple (fun _ _ => True) (absent user2) (absent user1) (absent user2))|..]|].
  - apply removed.
  - apply keeps_triple. keeps_tac.
  - by intros ??.
  - intros ??? H. exact H.
  - intros ?. apply both_triple; apply keeps_triple; keeps_tac.
Qed.
(** The test of radosgw-admin leaves none of its users: when it returns, with any number of regions and whatever the
    gateway answered, the last command about either of its two users was its removal. *)
Theorem admin_test_removes_users (config : pyval) (g : gw) (w : world) :
  wp (radosgw_admin_task all_roles_of_type split_user config)
    (fun o _ w' => is_ret o -> user1 ∉ admin_users (w_trace w') /\ user2 ∉ admin_users (w_trace w')) g w.
Proof.
  enough (H : utriple (fun _ _ => True) (radosgw_admin_task all_roles_of_type split_user config)
    (fun _ g t => absent user1 g t /\ absent user2 g t)).
  { eapply wp_conseq; [by apply H|]. intros [a|e|] g' w' H' Ho; [|done..]. exact (H' a eq_refl). }
  unfold radosgw_admin_task. do 13 (apply any_bind; intros ?). eapply triple_bind; [apply link_removes|]. intros ?.
  apply keeps_bind; [apply object_keeps|intros ?]. apply keeps_bind; [apply logs_keep|intros ?]. apply keeps_bind; [apply usage_keeps|intros ?].
  apply keeps_bind; [apply writes_keep|intros ?]. apply keeps_bind; [apply gc_keeps|intros ?].
  do 2 (apply keeps_bind; [by keeps_tac|intros ?]). apply keeps_bind; [apply policy_keeps|intros ?].
  do 3 (apply keeps_bind; [by keeps_tac|intros ?]). eapply triple_bind; [apply remove_removes|]. intros ?.
  apply both_triple; apply keeps_triple, zone_keeps.
Qed.
End UserFacts.
