(* ===== verification/RgwFacts.v ===== *)
(** * The object gateway: what the configuration comes to

    Theorems about [RgwUtil], [Rgw] and [RgwTask]. *)
From Stdlib Require Import Ascii QArith Qround Lqa.
From S2P Require Import Prelude PyVal World TraceState ZbkcManager Conf FsSetup Rados RgwUtil Rgw RgwTask.

(** ** Dictionaries *)
Lemma dict_update_lookup k (d e : dict) : NoDup e.*1 -> dict_lookup k (dict_update d e) = dict_lookup k e ∪ dict_lookup k d.
Proof.
  revert d; induction e as [|[k' v] e IH]; intros d Hnd; simpl.
  { unfold dict_update; simpl. by destruct (dict_lookup k d). }
  apply NoDup_cons in Hnd as [Hk Hnd]. unfold dict_update in *. cbn [fold_left fst snd]. rewrite (IH _ Hnd), dict_lookup_set.
  destruct (String.eqb_spec k k') as [->|]; [|done]. rewrite (dict_lookup_notin k' e Hk). by destruct (dict_lookup k' d).
Qed.

(** ** Settings that stay behind *)
Section Settings.
Context {E : Env}.
Context (sections : gmap string dict) (Hwf : map_Forall (fun _ d => NoDup d.*1) sections).

(** What a section of the configuration says *)
Definition own (s k : string) : option pyval := sections !! s ≫= dict_lookup k.
(** The cluster's configuration, in which [global] has become [d] *)
Definition globals (d : dict) (g : gw) : Prop := conf (g_ctx g) !! "zbkc" = Some (<["global" := d]> sections).
Definition absorb (d : dict) (s : string) : dict := dict_update d (default [] (sections !! s)).

Lemma absorb_lookup d s k : dict_lookup k (absorb d s) = own s k ∪ dict_lookup k d.
Proof.
  unfold absorb, own. destruct (sections !! s) as [e|] eqn:Hs; simpl; [|by destruct (dict_lookup k d)].
  apply dict_update_lookup. by apply (Hwf s).
Qed.
Lemma section_run s d g w : globals d g -> s <> "global" -> section s g w = (Ret (sections !! s), g, w).
Proof.
  intros Hg Hs. unfold section, cluster_conf, bind, get, of_option. change (the_ctx g) with (g_ctx g). rewrite Hg.
  unfold ret. by rewrite lookup_insert_ne.
Qed.
Lemma section_global d g w : globals d g -> section "global" g w = (Ret (Some d), g, w).
Proof.
  intros Hg. unfold section, cluster_conf, bind, get, of_option. change (the_ctx g) with (g_ctx g). rewrite Hg.
  unfold ret. by rewrite lookup_insert_eq.
Qed.
Lemma settings_run ks d g w : globals d g -> "global" ∉ ks ->
  exists g', settings_of ks g w = (Ret (fold_left absorb ks d), g', w) /\ globals (fold_left absorb ks d) g'.
Proof.
  intros Hg Hks. unfold settings_of, bind at 1. rewrite (section_global d) by done. cbn [default].
  rewrite bool_decide_true by eauto. cbn [when from_option id]. revert d g Hg.
  induction ks as [|k ks IH]; intros d g Hg; [by exists g|]. apply not_elem_of_cons in Hks as [Hk Hks].
  cbn [fold_ fold_left]. unfold bind at 1 2. rewrite (section_run k d) by done. cbv zeta.
  unfold bind, store_global, modify, ret. fold (absorb d k).
  destruct (IH Hks (absorb d k) (gw_set_ctx (with_conf (alter <["global" := absorb d k]> "zbkc") (g_ctx g)) g)) as (g' & He & Hg').
  { unfold globals, gw_set_ctx, with_conf. cbn [g_ctx conf]. rewrite lookup_alter_eq, Hg. cbn. by rewrite insert_insert_eq. }
  exists g'. split; [exact He|exact Hg'].
Qed.

Lemma zone_run client d g w : globals d g -> "global" <> client ->
  exists g', zone_for_client client g w = (Ret (dict_get "rgw zone" PNone (absorb (absorb d "client") client)), g', w) /\
    globals (absorb (absorb d "client") client) g'.
Proof.
  intros Hg Hc. destruct (settings_run ["client"; client] d g w Hg) as (g1 & He & Hg1); [set_solver|].
  exists g1. unfold zone_for_client, client_settings, bind. by rewrite He.
Qed.

(** What a client finds for [k] when [asked] have been asked about before: its own section
    comes first, then [client], then the sections of those who were asked, the latest first. *)
Fixpoint earlier (d : dict) (k : string) (asked : list string) : option pyval :=
  match asked with [] => dict_lookup k d | a :: l => own a k ∪ earlier d k l end.
Definition found (d : dict) (k : string) (asked : list string) (client : string) : option pyval :=
  own client k ∪ (own "client" k ∪ earlier d k (reverse asked)).

Lemma history_run asked d g w : globals d g -> "global" ∉ asked ->
  exists d' g', (for_ asked (fun c => zone_for_client c ;; ret tt)) g w = (Ret tt, g', w) /\ globals d' g' /\
    forall k, own "client" k ∪ dict_lookup k d' = own "client" k ∪ earlier d k (reverse asked).
Proof.
  revert d g. induction asked as [|a asked IH]; intros d g Hg Ha; [by exists d, g|].
  apply not_elem_of_cons in Ha as [Hna Ha]. cbn [for_]. unfold bind at 1 2.
  destruct (zone_run a d g w Hg Hna) as (g1 & -> & Hg1). cbn [ret].
  destruct (IH _ g1 Hg1 Ha) as (d' & g' & -> & Hg' & Hk). exists d', g'. split; [done|]. split; [done|].
  intros k. rewrite Hk, reverse_cons. clear -Hwf. induction (reverse asked) as [|b l IHl].
  - cbn [earlier app]. rewrite !absorb_lookup. by destruct (own "client" k), (own a k), (dict_lookup k d).
  - cbn [earlier app]. revert IHl. generalize (earlier d k (l ++ [a])) (earlier (absorb (absorb d "client") a) k l).
    intros x y. destruct (own "client" k), (own b k), x, y; cbn; congruence.
Qed.
End Settings.

Section Zones.
Context {E : Env}.
(** What is answered about a client depends on who was asked about before.  The zone of a
    client is the one its own section names, else the one of the section [client], else that of
    the client that was asked about last among those that name one, and only then the one of the
    section [global]: a client without a zone of its own gets that of another. *)
Theorem zone_for_client_history (sections : gmap string dict) (glob : dict) (asked : list string) (client : string)
  (g : gw) (w : world) :
  map_Forall (fun _ d => NoDup d.*1) sections -> conf (g_ctx g) !! "zbkc" = Some sections ->
  sections !! "global" = Some glob -> "global" ∉ client :: asked ->
  exists g', (for_ asked (fun c => zone_for_client c ;; ret tt) ;; zone_for_client client) g w =
    (Ret (default PNone (found sections glob "rgw zone" asked client)), g', w).
Proof.
  intros Hwf Hc Hgl [Hn Ha]%not_elem_of_cons.
  assert (Hg : globals sections glob g) by (unfold globals; by rewrite insert_id).
  destruct (history_run sections Hwf asked glob g w Hg Ha) as (d' & g' & He & Hg' & Hk). unfold bind at 1. rewrite He.
  destruct (zone_run sections Hwf client d' g' w Hg' Hn) as (g2 & -> & _). exists g2. unfold dict_get. by rewrite !absorb_lookup, Hk by done.
Qed.
End Zones.

(** ** Computations that only read *)
Section Reads.
Context {E : Env} {S : Type}.
(** [m] leaves the object and the world alone, and what it returns satisfies [Q]. *)
Definition Reads {A} (m : M S A) (s : S) (Q : A -> Prop) : Prop :=
  forall w, wp m (fun o s' w' => s' = s /\ w' = w /\ forall a, o = Ret a -> Q a) s w.

Lemma reads_wp {A} (m : M S A) s (Q : A -> Prop) w :
  Reads m s Q -> wp m (fun o s' w' => s' = s /\ w' = w /\ forall a, o = Ret a -> Q a) s w.
Proof. intros H. apply H. Qed.
Lemma reads_ret {A} (a : A) s (Q : A -> Prop) : Q a -> Reads (ret a) s Q.
Proof. intros H w. split; [done|]. split; [done|]. by intros ? [= <-]. Qed.
Lemma reads_get s (Q : S -> Prop) : Q s -> Reads get s Q.
Proof. intros H w. split; [done|]. split; [done|]. by intros ? [= <-]. Qed.
Lemma reads_raise {A} e s (Q : A -> Prop) : Reads (raise e) s Q.
Proof. by intros w. Qed.
Lemma reads_bind {A B} (m : M S A) (k : A -> M S B) s P Q :
  Reads m s P -> (forall a, P a -> Reads (k a) s Q) -> Reads (bind m k) s Q.
Proof.
  intros Hm Hk w. apply wp_bind. eapply wp_conseq; [apply Hm|]. intros [a|e|] s' w' (-> & -> & H); unfold then_; [|done..].
  by apply Hk, H.
Qed.
Lemma reads_option {A} e (o : option A) s (Q : A -> Prop) : (forall a, o = Some a -> Q a) -> Reads (of_option e o) s Q.
Proof. intros H. destruct o as [a|]; [by apply reads_ret, H|apply reads_raise]. Qed.
(** An invariant indexed by the elements that have been seen *)
Lemma reads_fold {A B} (I : list A -> B -> Prop) (f : B -> A -> M S B) l b s :
  I [] b -> (forall seen x rest b, l = seen ++ x :: rest -> I seen b -> Reads (f b x) s (I (seen ++ [x]))) ->
  Reads (fold_ f l b) s (I l).
Proof.
  intros Hb Hf. enough (H : forall rest seen b, l = seen ++ rest -> I seen b -> Reads (fold_ f rest b) s (I l)) by by apply (H l [] b).
  clear b Hb. induction rest as [|x rest IH]; intros seen b Hl Hb; cbn [fold_].
  { apply reads_ret. by rewrite Hl, app_nil_r. }
  eapply reads_bind; [by apply (Hf seen x rest b)|]. intros b' Hb'. apply (IH (seen ++ [x])); [|done].
  by rewrite <- (assoc_L (++)).
Qed.
End Reads.

(** ** Ordered dictionaries of any values *)
Section Assoc.
Context {V : Type}.
Implicit Types d : list (string * V).
Lemma assoc_set_lookup k k' v d : assoc k (assoc_set k' v d) = if String.eqb k k' then Some v else assoc k d.
Proof.
  induction d as [|[k1 v1] d IH]; simpl; [done|].
  destruct (String.eqb_spec k' k1) as [->|Hne]; simpl; [by destruct (String.eqb k k1)|].
  rewrite IH. destruct (String.eqb_spec k k1) as [->|]; [|done]. by destruct (String.eqb_spec k1 k'); [congruence|].
Qed.
Lemma assoc_set_keys k k' v d : k ∈ (assoc_set k' v d).*1 <-> k = k' \/ k ∈ d.*1.
Proof.
  induction d as [|[k1 v1] d IH]; simpl; [set_solver|]. destruct (String.eqb_spec k' k1) as [->|]; set_solver.
Qed.
Lemma assoc_set_nodup k v d : NoDup d.*1 -> NoDup (assoc_set k v d).*1.
Proof.
  induction d as [|[k1 v1] d IH]; simpl; [intros _; apply NoDup_singleton|]. intros [Hn Hd]%NoDup_cons.
  destruct (String.eqb_spec k k1) as [->|]; simpl; apply NoDup_cons; [done|]. split; [|by apply IH].
  rewrite assoc_set_keys. set_solver.
Qed.
Lemma assoc_set_values {W} (f : V -> W) k v d x : x ∈ f <$> (assoc_set k v d).*2 -> x = f v \/ x ∈ f <$> d.*2.
Proof.
  induction d as [|[k1 v1] d IH]; simpl; [set_solver|]. destruct (String.eqb_spec k k1) as [->|]; set_solver.
Qed.
(** A fresh value keeps the values apart. *)
Lemma assoc_set_fresh {W} (f : V -> W) k v d : f v ∉ f <$> d.*2 -> NoDup (f <$> d.*2) -> NoDup (f <$> (assoc_set k v d).*2).
Proof.
  induction d as [|[k1 v1] d IH]; simpl; [intros; apply NoDup_singleton|].
  intros [Hne Hf]%not_elem_of_cons [Hn Hd]%NoDup_cons. destruct (String.eqb_spec k k1) as [->|]; simpl; apply NoDup_cons; [done|].
  split; [|by apply IH]. intros [?|?]%assoc_set_values; [congruence|done].
Qed.
End Assoc.

(** ** Ports *)
Section Ports.
Context {E : Env} (remote_name : remote -> string).

(** The roles of the cluster, machine by machine *)
Definition roles_in (c : context) : list string := concat (map snd (cluster_roles c)).
(** After [seen] roles: the next port, and the end points so far *)
Definition ports_inv (config : dict) (seen : list string) (pe : Z * list (string * (string * Z))) : Prop :=
  pe.1 = 7280 + Z.of_nat (length (filter (fun r => dict_has r config = true) seen)) /\
  NoDup (snd <$> pe.2.*2) /\ Forall (fun p => 7280 <= p < pe.1) (snd <$> pe.2.*2) /\
  NoDup pe.2.*1 /\ (forall role, role ∈ pe.2.*1 <-> role ∈ seen /\ dict_has role config = true).
Lemma ports_step config seen role host pe :
  dict_has role config = true -> ports_inv config seen pe ->
  ports_inv config (seen ++ [role]) (pe.1 + 1, assoc_set role (host, pe.1) pe.2).
Proof.
  intros Hr (Hp & Hnd & Hall & Hk & Hm). unfold ports_inv; cbn [fst snd].
  rewrite filter_app, filter_cons_True, filter_nil, length_app by done. cbn [length].
  assert (Hf : pe.1 ∉ snd <$> pe.2.*2) by (intros Hin; rewrite Forall_forall in Hall; specialize (Hall _ Hin); lia).
  split; [lia|]. split; [by apply (assoc_set_fresh snd)|]. split; [|split; [by apply assoc_set_nodup|]].
  - apply Forall_forall. intros p Hin. rewrite Forall_forall in Hall. apply (assoc_set_values snd) in Hin as [->|Hin]; [cbn; lia|].
    specialize (Hall _ Hin). lia.
  - intros r. rewrite assoc_set_keys, Hm. set_solver.
Qed.
Lemma ports_skip config seen role pe :
  dict_has role config = false -> ports_inv config seen pe -> ports_inv config (seen ++ [role]) pe.
Proof.
  intros Hr (Hp & Hnd & Hall & Hk & Hm). unfold ports_inv.
  rewrite filter_app, filter_cons_False, filter_nil, app_nil_r by (by rewrite Hr). repeat (split; [done|]).
  intros r. rewrite Hm. split; [set_solver|]. intros [[?|Hx]%elem_of_app Hh]; [done|].
  apply list_elem_of_singleton in Hx as ->. congruence.
Qed.
(** Every gateway gets a port of its own: the end points name exactly the configured roles
    that some machine has, once each, and their ports are distinct and lie in the range that
    starts at 7280 and has one port for every configured role. *)
Theorem assign_ports_distinct (config : dict) (g : gw) (w : world) :
  wp (assign_ports remote_name config) (fun o g' w' => g' = g /\ w' = w /\ forall eps, o = Ret eps ->
    let configured := filter (fun r => dict_has r config = true) (roles_in (g_ctx g)) in
    NoDup (snd <$> eps.*2) /\ Forall (fun p => 7280 <= p < 7280 + Z.of_nat (length configured)) (snd <$> eps.*2) /\
    NoDup eps.*1 /\ (forall role, role ∈ eps.*1 <-> role ∈ configured)) g w.
Proof.
  apply reads_wp. unfold assign_ports.
  eapply (reads_bind _ _ _ (fun g' => g' = g)); [by apply reads_get|]. intros ? ->. cbv zeta.
  eapply (reads_bind _ _ _ (ports_inv config (roles_in (g_ctx g)))).
  - unfold roles_in. apply (reads_fold (fun seen => ports_inv config (concat (map snd seen)))).
    { split_and!; [done|constructor..|]. cbn. set_solver. }
    intros seen [r roles] rest pe _ Hpe. rewrite map_app, concat_app. cbn [map concat snd fst]. rewrite app_nil_r.
    apply (reads_fold (fun rs => ports_inv config (concat (map snd seen) ++ rs))); [by rewrite app_nil_r|].
    intros rs role rest' pe' _ Hpe'. rewrite (assoc_L (++)). destruct (dict_has role config) eqn:Hr.
    + eapply reads_bind; [by apply (reads_option _ _ _ (fun _ => True))|]. intros host _. by apply reads_ret, ports_step.
    + by apply reads_ret, ports_skip.
  - intros [p eps] (Hp & Hnd & Hall & Hk & Hm). apply reads_ret. cbn [fst snd] in *. subst p. split; [done|]. split; [done|].
    split; [done|]. intros role. rewrite Hm, list_elem_of_filter. tauto.
Qed.
End Ports.

(** ** The end points of the regions *)
Section Endpoints.
Context {E : Env}.

(** What is listed under a key of a region's description *)
Definition items (k : string) (c : dict) : list pyval := match dict_get k (PList []) c with PList l => l | _ => [] end.
Definition dropped (z : role_zone) : role_zone := RoleZone (rz_region z) (rz_zone z) (drop_log_keys (rz_info z)) (rz_user z).

Context (region_info : list (string * dict)) (role_zones : list (string * role_zone)).
(** The gateways whose client is in a region, and their entries there *)
Definition here (region : string) (eps : list (string * (string * Z))) : list (string * (string * Z)) :=
  filter (fun re => rz_region <$> assoc re.1 role_zones = Some region) eps.
Definition entry (re : string * (string * Z)) : pyval :=
  match assoc re.1 role_zones with
  | Some z => PDict (zone_payload (endpoint_url re.2) (rz_zone z) (rz_info z))
  | None => PNone
  end.
Definition listed (region : string) (eps : list (string * (string * Z))) (c0 c : dict) : Prop :=
  items "endpoints" c = items "endpoints" c0 ++ map (fun re => PStr (endpoint_url re.2)) (here region eps) /\
  items "zones" c = items "zones" c0 ++ map entry (here region eps).
Definition fill_inv (seen : list (string * (string * Z))) (st : list (string * dict) * list (string * role_zone)) : Prop :=
  (forall role, assoc role st.2 = if bool_decide (role ∈ seen.*1) then dropped <$> assoc role role_zones else assoc role role_zones) /\
  (forall region, match assoc region region_info, assoc region st.1 with
                  | Some c0, Some c => listed region seen c0 c
                  | None, None => True
                  | _, _ => False
                  end).

Lemma append_items (k : string) v c (g : gw) : Reads (dict_append k v c) g (fun c' =>
  items k c' = items k c ++ [v] /\ forall k', k' <> k -> items k' c' = items k' c).
Proof.
  unfold dict_append, items. destruct (dict_get k _ c) eqn:Hk; try apply reads_raise. apply reads_ret.
  unfold dict_get. split; [by rewrite dict_lookup_set, String.eqb_refl|].
  intros k' Hne. by rewrite dict_lookup_set, (proj2 (String.eqb_neq k' k)).
Qed.
Lemma here_snoc region eps re : here region (eps ++ [re]) =
  here region eps ++ (if bool_decide (rz_region <$> assoc re.1 role_zones = Some region) then [re] else []).
Proof.
  unfold here. rewrite filter_app. f_equal. case_bool_decide as H.
  - by rewrite filter_cons_True.
  - by rewrite filter_cons_False.
Qed.
(** C35: the description of the regions lists every gateway where it belongs: each region gets the
    end points of the gateways whose client is in it, in their order, and as many zones, each
    with the name, the end point and the logging settings of its client; regions are neither
    added nor lost, and the logging settings leave the description of the client's zone. *)
Theorem fill_in_endpoints_lists (eps : list (string * (string * Z))) (g : gw) (w : world) :
  NoDup eps.*1 ->
  wp (fill_in_endpoints region_info role_zones eps) (fun o g' w' => g' = g /\ w' = w /\ forall st, o = Ret st ->
    (forall role, assoc role st.2 = if bool_decide (role ∈ eps.*1) then dropped <$> assoc role role_zones else assoc role role_zones) /\
    (forall region, match assoc region region_info, assoc region st.1 with
                    | Some c0, Some c => listed region eps c0 c
                    | None, None => True
                    | _, _ => False
                    end)) g w.
Proof.
  intros Hnd. apply (reads_wp _ _ (fill_inv eps)). unfold fill_in_endpoints. apply (reads_fold fill_inv).
  { split; [done|]. intros region. cbn. destruct (assoc region region_info); [|done]. by split; rewrite app_nil_r. }
  intros seen [role hp] rest [ri rz] Hl [Hz Hr]. cbn [fst snd] in *.
  assert (Hnew : role ∉ seen.*1).
  { rewrite Hl, fmap_app in Hnd. apply NoDup_app in Hnd as (_ & Hd & _). intros Hin. apply (Hd _ Hin). cbn. set_solver. }
  eapply reads_bind; [apply (reads_option _ _ _ (fun z => assoc role role_zones = Some z))|].
  { intros z. by rewrite Hz, bool_decide_false. }
  intros z Hrole. eapply reads_bind; [by apply (reads_option _ _ _ (fun c => assoc (rz_region z) ri = Some c))|].
  intros c Hc. eapply reads_bind; [apply append_items|]. intros c1 [He1 Ho1].
  eapply reads_bind; [apply append_items|]. intros c2 [He2 Ho2]. apply reads_ret. split; cbn [fst snd].
  - intros role'. rewrite assoc_set_lookup, fmap_app, Hz. cbn [fmap list_fmap fst].
    destruct (String.eqb_spec role' role) as [->|Hne].
    + rewrite bool_decide_true by set_solver. by rewrite Hrole.
    + by rewrite (bool_decide_ext (role' ∈ seen.*1 ++ [role]) (role' ∈ seen.*1)) by set_solver.
  - intros region. specialize (Hr region). rewrite assoc_set_lookup. unfold listed. rewrite here_snoc, !map_app. cbn [fst snd].
    rewrite Hrole. cbn [fmap option_fmap option_map]. destruct (String.eqb_spec region (rz_region z)) as [->|Hne].
    + rewrite Hc in Hr. destruct (assoc _ region_info) as [c0|]; [|done]. destruct Hr as [H1 H2].
      rewrite bool_decide_true by done. cbn [map]. unfold entry at 2. cbn [fst snd]. rewrite Hrole, !(assoc_L (++)), <- H1, <- H2.
      rewrite (Ho2 "endpoints"), He1 by done. split; [done|]. by rewrite He2, (Ho1 "zones") by done.
    + rewrite bool_decide_false by congruence. cbn [map]. by rewrite !app_nil_r.
Qed.
End Endpoints.

(** ** Gateways that run *)

(** The clients whose gateway runs: [stop_daemons_of_type] stops them all. *)
Definition gateway_step (t : gset string) (ev : event) : gset string :=
  match ev with
  | EvDaemon (DAdd _ _) "rgw" id_ _ => {[id_]} ∪ t
  | EvCall "stop_daemons_of_type" ["rgw"] => ∅
  | _ => t
  end.
Definition gateways : list event -> gset string := after_events gateway_step ∅.
Ltac idle_gateways := repeat (runs_step || (apply emits_emit; by intros ?) || apply emits_nothing).

Section Gateways.
Context {E : Env}.
Context (all_roles_of_type : context -> string -> list string)
        (deep_merge : dict -> pyval -> dict)
        (get_valgrind_args : string -> string -> list string -> pyval -> list string)
        (get_first_mon : context -> dict -> string)
        (remote_name : remote -> string)
        (apache_conf : string -> list (string * string) -> string).
Abbreviation MG A := (M gw A).

(** When [m] returns no gateway runs, whatever ran before. *)
Definition Ends {A : Type} (m : MG A) : Prop := triple gateway_step ∅ (fun _ _ => True) m (fun _ _ t => t = ∅).
Lemma any_ends {A : Type} P (m : MG A) : triple gateway_step ∅ P m (fun _ _ _ => True).
Proof. intros s w _. unfold wp. by destruct (m s w) as [[? ?] ?]. Qed.
Lemma gw_ends_bind {A B : Type} (m : MG A) (k : A -> MG B) : (forall a, Ends (k a)) -> Ends (bind m k).
Proof. intros Hk. eapply (triple_bind _ _ _ _ _ (fun _ _ _ => True)); [apply any_ends|done]. Qed.
Lemma ends_finally {A : Type} (m : MG A) f : Ends m -> Runs false (emits (idle gateway_step)) f -> Ends (finally m f).
Proof. intros Hm Hf. eapply triple_finally; [exact Hm|]. intros a. by apply (triple_still _ _ (fun t => t = ∅)). Qed.

(** A subtask that keeps what its body achieves, and one that achieves it for every body *)
Definition Keeps {A : Type} (t : MG A -> MG A) : Prop := forall b, Ends b -> Ends (t b).
Definition Stops {A : Type} (t : MG A -> MG A) : Prop := forall b, Ends (t b).
Lemma start_rgw_stops {A : Type} config on_client except_client :
  Stops (A := A) (start_rgw get_valgrind_args config on_client except_client).
Proof.
  intros body. unfold start_rgw. apply gw_ends_bind. intros dir. do 2 (apply gw_ends_bind; intros ?).
  eapply triple_finally; [apply any_ends|]. intros ?. eapply triple_bind; [|intros ?; apply (triple_still _ _ (fun t => t = ∅)); idle_gateways].
  unfold call. eapply triple_bind; [by apply (triple_emit _ _ _ _ (fun _ _ t => t = ∅))|]. intros p. by apply triple_ret.
Qed.
Lemma dirs_keep {A : Type} config on_client except_client : Keeps (A := A) (create_apache_dirs config on_client except_client).
Proof.
  intros b Hb. unfold create_apache_dirs. apply gw_ends_bind; intros dir. apply gw_ends_bind; intros ?.
  apply ends_finally; [done|idle_gateways].
Qed.
Lemma configs_keep {A : Type} config eps on_client except_client :
  Keeps (A := A) (ship_apache_configs apache_conf config eps on_client except_client).
Proof.
  intros b Hb. unfold ship_apache_configs. apply gw_ends_bind; intros dir. apply gw_ends_bind; intros ?.
  apply ends_finally; [done|idle_gateways].
Qed.
Lemma apache_keeps {A : Type} config on_client except_client : Keeps (A := A) (start_apache config on_client except_client).
Proof.
  intros b Hb. unfold start_apache. apply gw_ends_bind; intros dir. apply gw_ends_bind; intros ps. apply ends_finally; [done|idle_gateways].
Qed.
Lemma servers_good {A : Type} config eps frontend on_client except_client :
  triple gateway_step ∅ (fun _ _ => True)
    (servers (A := A) get_valgrind_args apache_conf config eps frontend on_client except_client)
    (fun ts _ _ => Forall Keeps (ts.1 ++ ts.2) /\ Exists Stops ts.2).
Proof.
  assert (Hs : Keeps (A := A) (start_rgw get_valgrind_args config on_client except_client)) by (intros b _; apply start_rgw_stops).
  unfold servers. case_match; [|case_match]; [| |apply triple_raise]; apply triple_ret; intros _ _ _; cbn [fst snd app].
  - split; [repeat constructor; [apply dirs_keep|apply configs_keep|done|apply apache_keeps]|].
    apply Exists_cons_tl, Exists_cons_hd, start_rgw_stops.
  - split; [by repeat constructor|]. apply Exists_cons_hd, start_rgw_stops.
Qed.
Lemma keeps_then {A : Type} (setup : MG unit) : Keeps (A := A) (fun b => setup ;; b).
Proof. intros b Hb. apply gw_ends_bind. by intros ?. Qed.
Lemma subtasks_good {A : Type} config regions eps realm multi frontend :
  triple gateway_step ∅ (fun _ _ => True)
    (subtasks (A := A) get_valgrind_args get_first_mon apache_conf config regions eps realm multi frontend)
    (fun ts _ _ => Forall Keeps ts /\ Exists Stops ts).
Proof.
  unfold subtasks. destruct multi.
  - eapply triple_bind; [apply any_ends|]. intros m. cbv zeta.
    eapply triple_bind; [apply servers_good|]. intros first. apply triple_pure. intros s t [[Hk1 Hk2]%Forall_app He].
    eapply triple_bind; [eapply triple_conseq; [apply servers_good|done|intros ??? H; exact H]|].
    intros others. apply triple_pure. intros s' t' [[Ho1 Ho2]%Forall_app _]. apply triple_ret. intros _ _ _. split.
    + repeat (apply Forall_app; split); try done; repeat constructor; apply keeps_then.
    + do 3 (apply Exists_app; right). apply Exists_app; by left.
  - eapply triple_bind; [apply servers_good|]. intros all. apply triple_pure. intros s t [[Hk1 Hk2]%Forall_app He].
    apply triple_ret. intros _ _ _. split.
    + repeat (apply Forall_app; split); try done; repeat constructor; apply keeps_then.
    + do 2 (apply Exists_app; right). done.
Qed.
Lemma nested_ends {A : Type} (ts : list (MG A -> MG A)) body : Forall Keeps ts -> Exists Stops ts -> Ends (nested_all ts body).
Proof.
  intros Hk He. induction He as [t ts Hs|t ts He IH]; cbn [nested_all foldr]; [apply Hs|].
  apply Forall_cons in Hk as [Ht Hk]. by apply Ht, IH.
Qed.
(** C11: a task that returns leaves no gateway running: whatever the configuration, the front end,
    the number of regions and the body, every gateway that was started has been stopped. *)
Theorem rgw_task_stops_gateways {A : Type} (config : pyval) (body : MG A) (g : gw) (w : world) :
  wp (rgw_task all_roles_of_type deep_merge get_valgrind_args get_first_mon remote_name apache_conf config body)
    (fun o _ w' => is_ret o -> gateways (w_trace w') = ∅) g w.
Proof.
  enough (H : Ends (rgw_task all_roles_of_type deep_merge get_valgrind_args get_first_mon remote_name apache_conf config body)).
  { eapply wp_conseq; [by apply H|]. intros [a|e|] g' w' H1 Hr; [by apply (H1 a)|done..]. }
  unfold rgw_task. do 4 (apply gw_ends_bind; intros ?). case_match. do 3 (apply gw_ends_bind; intros ?).
  eapply triple_bind; [eapply triple_conseq; [apply subtasks_good|done|intros ??? H0; exact H0]|].
  intros ts. apply triple_pure. intros s t [Hk He]. eapply triple_conseq; [by apply nested_ends|done|done].
Qed.
End Gateways.
