(* ===== verification/Qemu.v ===== *)
(** * Tests inside a virtual machine: tasks/qemu.py

    A client's machine runs [qemu] on images of rbd; the guest writes its logs and its verdict
    to a directory that the machine exports over NFS.  The task runs on [gw], the part of
    teuthology's [ctx] the gateway tasks use too, since reading a client's settings updates the
    section [global] of the shared configuration in place.

    Arguments: what Rbd.v takes, the clients a configuration for all stands for, the kind of
    packages a machine has, and the texts of the files beside the source (tasks/userdata_setup.yaml
    with the export's directory filled in, tasks/userdata_teardown.yaml, tasks/metadata.yaml). *)
From Stdlib Require Import Ascii QArith Qround Lqa.
From S2P Require Import Prelude PyVal World ZbkcManager Conf FsSetup ClientMount ZbkcCluster Workunit Rbd RgwUtil RgwTask.

Definition DEFAULT_NUM_RBD : Z := 1.
Definition DEFAULT_IMAGE_URL : string := "http://zbkc.com/qa/ubuntu-12.04.qcow2".
Definition DEFAULT_MEM : Z := 4096.
Definition export_dir (client : string) : string := "/export/" +:+ client.
(** [chr(ord('b') + i)] *)
Definition dev_letter (i : Z) : string := String (Ascii.ascii_of_nat (98 + Z.to_nat i)) EmptyString.
Definition py_range (n : Z) : list Z := map Z.of_nat (seq 0 (Z.to_nat n)).

Section Qemu.
Context {E : Env}.
Context (default_image_name : string -> string)
        (replace_all_with_clients : context -> dict -> dict)
        (package_type : remote -> string)
        (setup_text : string -> string) (teardown_text metadata_text : string).
Abbreviation MG A := (M gw A).

Definition qdir : MG string := g <- get ;; ret (testdir (the_ctx g)).
(** [for client, client_config in config.iteritems()] *)
Definition each_client {A} (config : dict) (f : string -> dict -> MG A) : MG (list A) :=
  map_ (fun cc => d <- as_dict cc.2 ;; f cc.1 d) config.
Definition num_rbd (client_config : dict) : MG Z := as_int (dict_get "num_rbd" (PInt DEFAULT_NUM_RBD) client_config).
Definition clone_of (client_config : dict) : bool := truthy (dict_get "clone" (PBool false) client_config).
Definition image_of (client : string) (i : Z) : string := client +:+ "." +:+ zs i.

(** ** The images *)
Definition image_config (client : string) (clone : bool) (i : Z) : pyval :=
  PDict [(client, PDict [("image_name", PStr (image_of client i)); ("image_format", PInt (if clone then 2 else 1))])].
Definition clone_config (client : string) (i : Z) : pyval :=
  PDict [(client, PDict [("image_name", PStr (image_of client i +:+ "-clone")); ("parent_name", PStr (image_of client i))])].
Section Managers.
Context {A : Type}.
Definition create_images (config : dict) : MG (list (MG A -> MG A)) :=
  l <- each_client config (fun client cfg =>
    assert_ (py_gt (dict_get "num_rbd" (PInt 1) cfg) (PInt 0)) "at least one rbd device must be used" ;;
    n <- num_rbd cfg ;;
    ret (map (fun i => create_image default_image_name (image_config client (clone_of cfg) i)) (py_range n))) ;;
  ret (concat l).
Definition create_clones (config : dict) : MG (list (MG A -> MG A)) :=
  l <- each_client config (fun client cfg =>
    if clone_of cfg then
      n <- num_rbd cfg ;; ret (map (fun i => clone_image default_image_name (clone_config client i)) (py_range n))
    else ret []) ;;
  ret (concat l).

(** ** Directories and files *)
Definition needs_test (cfg : dict) : MG unit := assert_ (dict_has "test" cfg) "You must specify a test to run".
Definition create_dirs (config : dict) (body : MG A) : MG A :=
  dir <- qdir ;;
  each_client config (fun client cfg =>
    needs_test cfg ;;
    r <- remote_of client ;;
    run r ["install"; "-d"; "-m0755"; "--"; dir +:+ "/qemu"; dir +:+ "/archive/qemu"] true) ;;
  finally body
    (each_client config (fun client cfg =>
       needs_test cfg ;;
       r <- remote_of client ;;
       run r ["rmdir"; dir +:+ "/qemu"; "||"; "true"] true) ;; ret tt).

Definition mount_script (i : Z) : string :=
  let d := dev_letter i in
  script ["- |"; "  #!/bin/bash"; "  mkdir /mnt/test_" +:+ d; "  mkfs -t xfs /dev/vd" +:+ d;
          "  mount -t xfs /dev/vd" +:+ d +:+ " /mnt/test_" +:+ d].
Definition test_script : string :=
  script ["- |"; "  #!/bin/bash"; "  test -d /mnt/test_b && cd /mnt/test_b";
          "  /mnt/cdrom/test.sh > /mnt/log/test.log 2>&1 && touch /mnt/log/success"].
Definition user_data (client : string) (cfg : dict) : MG string :=
  mounts <- (if eq_str (dict_get "type" (PStr "filesystem") cfg) "filesystem"
             then n <- num_rbd cfg ;; ret (map mount_script (py_range n)) else ret []) ;;
  ret (setup_text (export_dir client) +:+ String.concat EmptyString mounts +:+ test_script +:+ teardown_text).
Definition userdata_path (dir client : string) : string := path_join (path_join dir "qemu") ("userdata." +:+ client).
Definition metadata_path (dir client : string) : string := path_join (path_join dir "qemu") ("metadata." +:+ client).
Definition test_file (dir client : string) : string := dir +:+ "/qemu/" +:+ client +:+ ".test.sh".
Definition iso_file (dir client : string) : string := dir +:+ "/qemu/" +:+ client +:+ ".iso".
Definition make_iso (dir client : string) (cfg : dict) : MG unit :=
  needs_test cfg ;;
  r <- remote_of client ;;
  data <- user_data client cfg ;;
  file (FWrite data) r (userdata_path dir client) ;;
  file (FWrite metadata_text) r (metadata_path dir client) ;;
  v <- subscript (PDict cfg) "test" ;;
  run r ["wget"; "-nv"; "-O"; test_file dir client; py_str v; "&&"; "chmod"; "755"; test_file dir client] true ;;
  run r ["genisoimage"; "-quiet"; "-input-charset"; "utf-8"; "-volid"; "cidata"; "-joliet"; "-rock"; "-o"; iso_file dir client;
         "-graft-points"; "user-data=" +:+ userdata_path dir client; "meta-data=" +:+ metadata_path dir client;
         "test.sh=" +:+ test_file dir client] true ;;
  ret tt.
Definition generate_iso (config : dict) (body : MG A) : MG A :=
  dir <- qdir ;;
  each_client config (make_iso dir) ;;
  finally body
    (for_ (map fst config) (fun client =>
       r <- remote_of client ;;
       run r ["rm"; "-f"; iso_file dir client; userdata_path dir client; metadata_path dir client; test_file dir client] true ;; ret tt)).
Definition base_file (dir client : string) : string := dir +:+ "/qemu/base." +:+ client +:+ ".qcow2".
Definition download_image (config : dict) (body : MG A) : MG A :=
  dir <- qdir ;;
  for_ (map fst config) (fun client =>
    r <- remote_of client ;; run r ["wget"; "-nv"; "-O"; base_file dir client; DEFAULT_IMAGE_URL] true ;; ret tt) ;;
  finally body
    (for_ (map fst config) (fun client => r <- remote_of client ;; run r ["rm"; "-f"; base_file dir client] true ;; ret tt)).

(** ** The export *)
Definition nfs_service (r : remote) (op : string) : MG unit :=
  run r (if String.eqb (package_type r) "deb" then ["sudo"; "service"; "nfs-kernel-server"; op]
         else ["sudo"; "systemctl"; op; "nfs"]) true ;;
  ret tt.
Definition on_host_ (r : remote) (args : list string) : MG unit := run r args true ;; ret tt.
Definition _setup_nfs_mount (r : remote) (client mount_dir : string) : MG unit :=
  let dir := export_dir client in
  on_host_ r ["sudo"; "mkdir"; "-p"; dir] ;;
  on_host_ r ["sudo"; "mount"; "--bind"; mount_dir; dir] ;;
  on_host_ r ["sudo"; "sed"; "-i"; "/^\/export\//d"; "/etc/exports"] ;;
  on_host_ r ["echo"; dir +:+ " *(rw,no_root_squash,no_subtree_check,insecure)"; "|"; "sudo"; "tee"; "-a"; "/etc/exports"] ;;
  nfs_service r "restart".
Definition _teardown_nfs_mount (r : remote) (client : string) : MG unit :=
  nfs_service r "stop" ;;
  on_host_ r ["sudo"; "umount"; export_dir client] ;;
  on_host_ r ["sudo"; "rm"; "-r"; "/export"] ;;
  on_host_ r ["sudo"; "sed"; "-i"; "$ d"; "/etc/exports"] ;;
  nfs_service r "start".

(** ** The virtual machines *)
Definition cache_mode (zbkc_config : dict) : string :=
  if truthy (dict_get "rbd cache" PNone zbkc_config) then
    if py_gt (dict_get "rbd cache max dirty" (PInt 1) zbkc_config) (PInt 0) then "writeback" else "writethrough"
  else "none".
Definition drive (client cachemode suffix : string) (i : Z) : list string :=
  ["-drive"; "file=rbd:rbd/" +:+ image_of client i +:+ suffix +:+ ":id=" +:+ str_from 7 client +:+
             ",format=raw,if=virtio,cache=" +:+ cachemode].
Definition qemu_args (dir client : string) (r : remote) (cfg : dict) (cachemode : string) (n : Z) : list string :=
  ["adjust-ulimits"; "zbkc-coverage"; dir +:+ "/archive/coverage"; "daemon-helper"; "term";
   if String.eqb (package_type r) "rpm" then "/usr/libexec/qemu-kvm" else "qemu-system-x86_64"; "-enable-kvm"; "-nographic";
   "-m"; py_str (dict_get "memory" (PInt DEFAULT_MEM) cfg); "-drive"; "file=" +:+ base_file dir client +:+ ",format=qcow2,if=virtio";
   "-cdrom"; iso_file dir client] ++
  concat (map (drive client cachemode (if clone_of cfg then "-clone" else EmptyString)) (py_range n)).
Definition log_dir (dir client : string) : string := dir +:+ "/archive/qemu/" +:+ client.
Definition start_qemu (dir client : string) (cfg : dict) : MG proc :=
  r <- remote_of client ;;
  run r ["mkdir"; log_dir dir client; "&&"; "sudo"; "modprobe"; "kvm"] true ;;
  _setup_nfs_mount r client (log_dir dir client) ;;
  on_host_ r ["sudo udevadm control --reload"] ;;
  on_host_ r ["sudo udevadm trigger /dev/kvm"] ;;
  on_host_ r ["ls -l /dev/kvm"] ;;
  zbkc_config <- client_settings client ;;
  n <- num_rbd cfg ;;
  start r (qemu_args dir client r cfg (cache_mode zbkc_config) n).
Definition finish_qemu (dir client : string) : MG unit :=
  r <- remote_of client ;;
  _teardown_nfs_mount r client ;;
  on_host_ r ["test"; "-f"; log_dir dir client +:+ "/success"].
Definition run_qemu (config : dict) (body : MG A) : MG A :=
  dir <- qdir ;;
  procs <- each_client config (start_qemu dir) ;;
  finally body (wait_all procs ;; for_ (map fst config) (finish_qemu dir)).
End Managers.

Definition qemu_task {A} (config : pyval) (body : MG A) : MG A :=
  g <- get ;;
  config <- match config with
            | PDict d => ret (replace_all_with_clients (the_ctx g) d)
            | _ => raise (AssertionError "task qemu only supports a dictionary for configuration")
            end ;;
  images <- create_images config ;;
  clones <- create_clones config ;;
  nested_all (images ++ [create_dirs config; generate_iso config; download_image config] ++ clones ++ [run_qemu config]) body.

End Qemu.

(** * The exports of the qemu task are taken down again *)
From S2P Require Import TraceState Claims.

(** The directories bound to others, by machine *)
Definition bind_step (t : gset (string * string)) (ev : event) : gset (string * string) :=
  match ev with
  | EvRun r ["sudo"; "mount"; "--bind"; _; dir] => {[(r, dir)]} ∪ t
  | EvRun r ["sudo"; "umount"; dir] => t ∖ {[(r, dir)]}
  | _ => t
  end.
Definition bound : list event -> gset (string * string) := after_events bind_step ∅.

Section Qemu.
Context {E : Env}.
Context (default_image_name : string -> string)
        (replace_all_with_clients : context -> dict -> dict)
        (package_type : remote -> string)
        (setup_text : string -> string) (teardown_text metadata_text : string).
Abbreviation MG A := (M gw A).
Variable roles : list (remote * list string).

Abbreviation steady := (steady bind_step).
Ltac steady_tac := repeat (runs_step || (apply steady_emit; by intros ?) || (by apply steady_modify)).

Abbreviation bound_in := (bound_in (K := string * string) roles).
Abbreviation btriple P m Q := (triple bind_step ∅ P m Q).
Abbreviation Around := (Around bind_step roles).

(** ** The other parts of the task *)
Lemma create_image_around {A : Type} config : Claims.Around bind_step roles (A := A) (create_image default_image_name config).
Proof.
  intros b Hb D. unfold create_image. apply steady_bind; [by steady_tac|intros images].
  apply (around_steady bind_step roles (for_ images (make_image default_image_name)) (for_ images (delete_image default_image_name))); [steady_tac|steady_tac|done].
Qed.
Lemma clone_image_around {A : Type} config : Claims.Around bind_step roles (A := A) (clone_image default_image_name config).
Proof.
  intros b Hb D. unfold clone_image. apply steady_bind; [by steady_tac|intros images].
  apply (around_steady bind_step roles (for_ images (make_clone default_image_name)) (for_ images (delete_clone default_image_name))); [steady_tac|steady_tac|done].
Qed.
Lemma create_dirs_around {A : Type} config : Claims.Around bind_step roles (A := A) (create_dirs config).
Proof.
  intros b Hb D. unfold create_dirs. apply steady_bind; [by steady_tac|intros dir]. apply steady_bind; [by steady_tac|intros ?].
  eapply triple_finally; [apply Hb|]. intros ?. apply steady_triple. steady_tac.
Qed.
Lemma generate_iso_around {A : Type} config : Claims.Around bind_step roles (A := A) (generate_iso setup_text teardown_text metadata_text config).
Proof.
  intros b Hb D. unfold generate_iso. apply steady_bind; [by steady_tac|intros dir]. apply steady_bind; [by steady_tac|intros ?].
  eapply triple_finally; [apply Hb|]. intros ?. apply steady_triple. steady_tac.
Qed.
Lemma download_image_around {A : Type} config : Claims.Around bind_step roles (A := A) (download_image config).
Proof.
  intros b Hb D. unfold download_image. apply steady_bind; [by steady_tac|intros dir]. apply steady_bind; [by steady_tac|intros ?].
  eapply triple_finally; [apply Hb|]. intros ?. apply steady_triple. steady_tac.
Qed.

(** ** The virtual machines *)
(** The export of a client, on its machine *)
Definition export_claim (client : string) : gset (string * string) :=
  match map fst (filter (fun rr => existsb (String.eqb client) rr.2 = true) roles) with [r] => {[(r, export_dir client)]} | _ => ∅ end.
Lemma remote_claim {B : Type} (D : gset (string * string)) client (k : remote -> MG B) Q :
  (forall r, export_claim client = {[(r, export_dir client)]} -> btriple (bound_in D) (k r) Q) ->
  btriple (bound_in D) (r <- remote_of client ;; k r) Q.
Proof.
  intros Hk g w [Hr Ht]. unfold remote_of, lone, wp, bind at 1 2, get. unfold only. cbn [the_ctx gw_ctx]. unfold the_ctx, gw_ctx. rewrite Hr.
  destruct (map fst _) as [|r [|]] eqn:Hm; [done| |done]. cbn [ret]. apply (Hk r); [|by split]. unfold export_claim. by rewrite Hm.
Qed.
Lemma on_host_steady {B : Type} (D : gset (string * string)) r args (k : unit -> MG B) Q : idle bind_step (EvRun r args) ->
  (forall u, btriple (bound_in D) (k u) Q) -> btriple (bound_in D) (u <- on_host_ r args ;; k u) Q.
Proof.
  intros Hi Hk. apply steady_bind; [|done]. unfold on_host_, run. repeat (runs_step || by apply steady_emit).
Qed.
Lemma nfs_steady r op : Runs false steady (nfs_service package_type r op).
Proof. unfold nfs_service. destruct (String.eqb _ _); steady_tac. Qed.
Lemma settings_steady client : Runs false steady (client_settings client).
Proof. steady_tac. Qed.
Lemma start_binds (D : gset (string * string)) dir client cfg :
  btriple (bound_in D) (start_qemu package_type dir client cfg) (fun _ => bound_in (D ∪ export_claim client)).
Proof.
  unfold start_qemu. apply remote_claim. intros r Hr. rewrite Hr. apply steady_bind; [by steady_tac|intros ?].
  eapply (triple_bind _ _ _ _ _ (fun _ => bound_in (D ∪ {[(r, export_dir client)]}))).
  { unfold _setup_nfs_mount. cbv zeta. apply on_host_steady; [by intros ?|intros ?].
    eapply (triple_bind _ _ _ _ _ (fun _ => bound_in (D ∪ {[(r, export_dir client)]}))).
    - unfold on_host_. eapply triple_bind; [apply (triple_run _ _ _ _ _ _ (fun _ => bound_in (D ∪ {[(r, export_dir client)]})))|intros ?; by apply triple_ret].
      intros p g t [Hg Ht]. split; [done|]. cbn [bind_step]. set_solver.
    - intros ?. do 2 (apply on_host_steady; [by intros ?|intros ?]). apply steady_triple, nfs_steady. }
  intros ?. do 3 (apply on_host_steady; [by intros ?|intros ?]). apply steady_bind; [apply settings_steady|intros ?].
  apply steady_bind; [by steady_tac|intros ?]. apply steady_triple. by steady_tac.
Qed.
Lemma finish_unbinds (D : gset (string * string)) dir client :
  btriple (bound_in (D ∪ export_claim client)) (finish_qemu package_type dir client) (fun _ => bound_in D).
Proof.
  unfold finish_qemu. apply remote_claim. intros r Hr. rewrite Hr. eapply (triple_bind _ _ _ _ _ (fun _ => bound_in D)).
  - unfold _teardown_nfs_mount. apply steady_bind; [apply nfs_steady|intros ?]. eapply (triple_bind _ _ _ _ _ (fun _ => bound_in D)).
    + unfold on_host_. eapply triple_bind; [apply (triple_run _ _ _ _ _ _ (fun _ => bound_in D))|intros ?; by apply triple_ret].
      intros p g t [Hg Ht]. split; [done|]. cbn [bind_step]. set_solver.
    + intros ?. do 2 (apply on_host_steady; [by intros ?|intros ?]). apply steady_triple, nfs_steady.
  - intros ?. apply steady_triple. by steady_tac.
Qed.
Definition claims (D : gset (string * string)) (config : dict) : gset (string * string) := foldr (fun cc X => X ∪ export_claim cc.1) D config.
Lemma start_all (D : gset (string * string)) dir config :
  btriple (bound_in D) (each_client config (start_qemu package_type dir)) (fun _ => bound_in (claims D config)).
Proof.
  unfold each_client. revert D. induction config as [|cc config IH]; intros D; cbn [map_]; [by apply triple_ret|].
  eapply (triple_bind _ _ _ _ _ (fun _ => bound_in (D ∪ export_claim cc.1))); [apply steady_bind; [by steady_tac|intros ?]; apply start_binds|].
  intros ?. eapply triple_bind; [apply IH|]. intros ?. apply triple_ret. intros g t [Hg Ht]. split; [done|].
  assert (claims (D ∪ export_claim cc.1) config ⊆ claims D (cc :: config)) as Hc; [|set_solver].
  clear. cbn [claims foldr]. fold (claims D config). induction config as [|c' config IH]; cbn [claims foldr]; [done|].
  fold (claims (D ∪ export_claim cc.1) config) (claims D config). set_solver.
Qed.
Lemma finish_all (D : gset (string * string)) dir (config : dict) :
  btriple (bound_in (claims D config)) (for_ (map fst config) (finish_qemu package_type dir)) (fun _ => bound_in D).
Proof.
  induction config as [|cc config IH]; cbn [map for_]; [by apply triple_ret|].
  eapply triple_bind; [apply (finish_unbinds (claims D config))|]. intros ?. apply IH.
Qed.
Lemma run_qemu_around {A : Type} config : Claims.Around bind_step roles (A := A) (run_qemu package_type config).
Proof.
  intros b Hb D. unfold run_qemu. apply steady_bind; [by steady_tac|intros dir]. eapply triple_bind; [apply start_all|]. intros procs.
  eapply triple_finally; [apply Hb|]. intros ?. apply steady_bind; [by steady_tac|intros ?]. apply finish_all.
Qed.
(** The context managers of the images *)
Lemma managers_around {A : Type} (D : gset (string * string)) config (f : string -> dict -> MG (list (MG A -> MG A))) :
  (forall client cfg, Runs false steady (f client cfg)) ->
  (forall client cfg D', btriple (bound_in D') (f client cfg) (fun l _ _ => Forall Around l)) ->
  btriple (bound_in D) (l <- each_client config f ;; ret (concat l)) (fun l g t => bound_in D g t /\ Forall Around l).
Proof.
  intros Hs Hf. eapply (triple_bind _ _ _ _ _ (fun l g t => bound_in D g t /\ Forall (Forall Around) l)).
  - unfold each_client. induction config as [|cc config IH]; cbn [map_]; [by apply triple_ret|].
    eapply (triple_bind _ _ _ _ _ (fun l g t => bound_in D g t /\ Forall Around l)).
    + apply steady_bind; [by steady_tac|intros d]. intros g w Hg.
      eapply wp_conseq; [apply wp_and; [apply (steady_triple bind_step roles D _ (Hs _ _)); exact Hg|apply (Hf _ _ D); exact Hg]|].
      intros o g' w' [H1 H2] a Ha. split; [by apply (H1 a)|by apply (H2 a)].
    + intros l. apply triple_pure. intros g t [Hg Hl]. eapply triple_bind; [eapply triple_conseq; [apply IH|by intros ?? [-> ->]|intros ??? H; exact H]|].
      intros ls. apply triple_ret. intros ?? [? ?]. split; [done|by constructor].
  - intros ls. apply triple_ret. intros g t [Hg Hl]. split; [done|]. clear -Hl. induction Hl; cbn; [constructor|]. by apply Forall_app.
Qed.
End Qemu.

Section QemuTask.
Context {E : Env}.
Context (default_image_name : string -> string)
        (replace_all_with_clients : context -> dict -> dict)
        (package_type : remote -> string)
        (setup_text : string -> string) (teardown_text metadata_text : string).
(** C14: A qemu task that returns has taken down every export it made: the directories bound to others are among those
    that were bound before, for every configuration and number of clients and a body that leaves them alone. *)
Theorem qemu_task_unbinds {A : Type} (config : pyval) (body : M gw A) (g : gw) (w : world) :
  Leaves bind_step (cluster_roles (g_ctx g)) body ->
  wp (qemu_task default_image_name replace_all_with_clients package_type setup_text teardown_text metadata_text config body)
    (fun o _ w' => is_ret o -> bound (w_trace w') ⊆ bound (w_trace w)) g w.
Proof.
  intros Hb. set (roles := cluster_roles (g_ctx g)) in *. set (D := bound (w_trace w)).
  enough (triple bind_step ∅ (bound_in roles D)
    (qemu_task default_image_name replace_all_with_clients package_type setup_text teardown_text metadata_text config body)
    (fun _ => bound_in roles D)) as H.
  { eapply wp_conseq; [by apply H|]. intros [a|e|] s' w' H' Hr; [|done..]. exact (proj2 (H' a eq_refl)). }
  unfold qemu_task. apply triple_get. intros g0. eapply triple_conseq; [|intros ?? [_ H]; exact H|intros ??? H; exact H].
  apply steady_bind; [destruct config; runs_tac; exact _|intros cfg].
  eapply (triple_bind _ _ _ _ _ (fun images g t => bound_in roles D g t /\ Forall (Around bind_step roles) images)).
  { apply managers_around.
    - intros client c. runs_tac.
    - intros client c D'. do 2 (apply steady_bind; [by runs_tac|intros ?]). apply triple_ret. intros ?? _.
      apply Forall_map, Forall_true. intros ?. apply create_image_around. }
  intros images. apply triple_pure. intros g1 t1 [H1 Hi]. eapply triple_bind.
  { eapply triple_conseq; [apply (managers_around roles D) with (f := fun client cfg => if clone_of cfg then
        n <- num_rbd cfg ;; ret (map (fun i => clone_image default_image_name (clone_config client i)) (py_range n)) else ret [])|by intros ?? [-> ->]|intros ??? H; exact H].
    - intros client c. runs_tac.
    - intros client c D'. case_match; [|by apply triple_ret]. apply steady_bind; [by runs_tac|intros ?]. apply triple_ret. intros ?? _.
      apply Forall_map, Forall_true. intros ?. apply clone_image_around. }
  intros clones. apply triple_pure. intros g2 t2 [H2 Hc]. eapply triple_conseq; [apply (nested_around bind_step roles); [|exact Hb]|by intros ?? [-> ->]|done].
  rewrite !Forall_app. split_and!; [done|repeat constructor|done|repeat constructor]; try apply create_dirs_around;
    try apply generate_iso_around; try apply download_image_around; apply run_qemu_around.
  Unshelve. all: exact package_type.
Qed.
End QemuTask.
