(* ===== verification/ObjectstoreTest.v ===== *)
(** * The test of the offline object store tool: tasks/zbkc_objectstore_tool.py

    Objects are written through the cluster, every OSD is stopped, and the program
    [zbkc-objectstore-tool] lists, reads, writes, exports, removes and imports what the OSDs
    keep.  The parts of the test return the number of errors they found; dictionaries keep the
    order in which they are filled. *)
From Stdlib Require Import Ascii QArith Qround Lqa.
From S2P Require Import Prelude PyVal World ZbkcManager ManagerWait Conf ClientMount Rados RgwUtil Rgw.

(** What is known of an object: [db[name]] *)
Record obj := Obj
  { o_xattr : list (string * string); o_omapheader : option string; o_omap : list (string * string);
    o_pg2json : option (list (string * string)) }.
Definition set_pg2json (l : list (string * string)) (o : obj) : obj := Obj (o_xattr o) (o_omapheader o) (o_omap o) (Some l).
Abbreviation objdb := (list (string * obj)).

Definition DATALINECOUNT : nat := Z.to_nat 10000.
Fixpoint repeat_str (n : nat) (s : string) : string :=
  match n with O => EmptyString | S k => s +:+ repeat_str k s end.
Definition object_name (base : string) (i : Z) : string := base +:+ zs i.
Definition object_data (name : string) : string := repeat_str DATALINECOUNT ("This is the data for " +:+ name +:+ nls).
(** [range(a, b)] *)
Definition zrange (a b : Z) : list Z := map (fun n => a + Z.of_nat n) (seq 0 (Z.to_nat (b - a))).

(** ** Commands *)
Definition FSPATH (osdid : Z) : string := "/var/lib/zbkc/osd/zbkc-" +:+ zs osdid.
Definition JPATH (osdid : Z) : string := FSPATH osdid +:+ "/journal".
Definition tool_prefix (osdid : Z) : string :=
  "sudo zbkc-objectstore-tool " +:+ "--data-path " +:+ FSPATH osdid +:+ " --journal-path " +:+ JPATH osdid +:+ " ".
Definition quoted (json : string) : string := "'" +:+ json +:+ "'".
(** A command on one object of a placement group *)
Definition object_cmd (osdid : Z) (pg json : string) (words : list string) : list string :=
  split_ws (tool_prefix osdid +:+ "--pgid " +:+ pg) ++ [quoted json] ++ words.
(** A command on a placement group, as words *)
Definition pg_cmd (osdid : Z) (op pg : string) : list string :=
  split_ws (tool_prefix osdid +:+ "--op " +:+ op +:+ " --pgid " +:+ pg).
Definition hinfo_script (osdid : Z) (pg json : string) : string :=
  let tool args := tool_prefix osdid +:+ " --pgid " +:+ pg +:+ " " +:+ quoted json +:+ " " +:+ args in
  let pad := "      " in
  nls +:+ pad +:+ "expected=$(" +:+ tool "get-attr hinfo_key | base64)" +:+ nls +:+
  pad +:+ "echo placeholder | " +:+ tool "set-attr hinfo_key -" +:+ nls +:+
  pad +:+ "test $(" +:+ tool "get-attr hinfo_key) = placeholder" +:+ nls +:+
  pad +:+ "echo $expected | base64 --decode |          " +:+ tool "set-attr hinfo_key -" +:+ nls +:+
  pad +:+ "test $(" +:+ tool "get-attr hinfo_key | base64) = $expected" +:+ nls +:+
  "                            ".

(** [s.strip('_')] *)
Fixpoint lstrip_char (a : ascii) (s : string) : string :=
  match s with String b s' => if Ascii.eqb a b then lstrip_char a s' else s | EmptyString => EmptyString end.
Fixpoint rstrip_char (a : ascii) (s : string) : string :=
  match s with
  | EmptyString => EmptyString
  | String b s' =>
      match rstrip_char a s' with
      | EmptyString => if Ascii.eqb a b then EmptyString else String b EmptyString
      | r => String b r
      end
  end.
Definition strip_char (a : ascii) (s : string) : string := rstrip_char a (lstrip_char a s).
(** [values.pop(key)] *)
Fixpoint assoc_del {V} (k : string) (d : list (string * V)) : list (string * V) :=
  match d with [] => [] | (k', v) :: d' => if String.eqb k k' then d' else (k', v) :: assoc_del k d' end.

Section Test.
Context {E : Env} {F : Fuel}.
Abbreviation MM A := (M mgr A).

(** The machines that have a role of a type, with their roles *)
Definition of_type (type_ : string) (c : context) : list (remote * list string) :=
  filter (fun rr => existsb (fun role => String.eqb (split_role role).1.2 type_) rr.2 = true) (cluster_roles c).
(** [for x in l: ERRORS += f(x)] *)
Definition total {A} (l : list A) (f : A -> MM Z) : MM Z := fold_ (fun n x => e <- f x ;; ret (n + e)) l 0.
Definition one_if (b : bool) : Z := if b then 1 else 0.
Definition failed (p : reply) : bool := negb (exitstatus p =? 0).

(** ** Setting the objects up *)
Definition cod_setup_local_data (n : Z) (dir base : string) : MM unit :=
  for_ (zrange 1 (n + 1)) (fun i =>
    let name := object_name base i in call "write_local_file" [path_join dir name; object_data name] ;; ret tt).
Definition cod_setup_remote_data (r : remote) (n : Z) (dir base : string) : MM unit :=
  for_ (zrange 1 (n + 1)) (fun i =>
    let name := object_name base i in
    run r ["rm"; "-f"; path_join dir name] true ;;
    file (FWrite (object_data name)) r (path_join dir name) ;; ret tt).
(** [remote.run(...)] checks the status, so that the errors counted after it never occur. *)
Definition set_pairs (r : remote) (pool cmd name prefix_k prefix_v : string) (i : Z) : MM (list (string * string) * Z) :=
  fold_ (fun (st : list (string * string) * Z) k =>
    let key := prefix_k +:+ zs i +:+ "-" +:+ zs k in
    let val := prefix_v +:+ zs i +:+ "-" +:+ zs k in
    p <- run r ["rados"; "-p"; pool; cmd; name; key; val] true ;;
    ret (assoc_set key val st.1, st.2 + one_if (failed p))) (zrange 1 i) ([], 0).
Definition cod_setup_one (r : remote) (dir base pool : string) (ec : bool) (i : Z) : MM (obj * Z) :=
  let name := object_name base i in
  p <- rados_nowait r ["-p"; pool; "put"; name; path_join dir name] ;;
  st <- wait_proc p false ;;
  when (failed st) (raise (OtherError "SystemExit")) ;;
  xe <- set_pairs r pool "setxattr" name "key" "val" i ;;
  if ec then ret (Obj xe.1 None [] None, xe.2)
  else
    he <- (if i =? 1 then ret (None, 0)
           else p <- run r ["rados"; "-p"; pool; "setomapheader"; name; "hdr" +:+ zs i] true ;;
                ret (Some ("hdr" +:+ zs i), one_if (failed p))) ;;
    oe <- set_pairs r pool "setomapval" name "okey" "oval" i ;;
    ret (Obj xe.1 he.1 oe.1 None, xe.2 + he.2).
Definition cod_setup (r : remote) (n : Z) (dir base pool : string) (ec : bool) : MM (objdb * Z) :=
  fold_ (fun (st : objdb * Z) i =>
    oe <- cod_setup_one r dir base pool ec i ;;
    ret (assoc_set (object_name base i) oe.1 st.1, st.2 + oe.2)) (zrange 1 (n + 1)) ([], 0).

(** [pgs.setdefault(osd, []).append(pgid)] *)
Fixpoint add_pg (osd : Z) (pgid : string) (pgs : list (Z * list string)) : list (Z * list string) :=
  match pgs with
  | [] => [(osd, [pgid])]
  | (o, l) :: pgs' => if osd =? o then (o, l ++ [pgid]) :: pgs' else (o, l) :: add_pg osd pgid pgs'
  end.
Fixpoint pgs_of (osd : Z) (pgs : list (Z * list string)) : option (list string) :=
  match pgs with [] => None | (o, l) :: pgs' => if osd =? o then Some l else pgs_of osd pgs' end.
Definition osd_pgs (pool : string) (pool_dump : pyval) (stats : list pyval) : MM (list (Z * list string)) :=
  repid <- subscript pool_dump "pool" ;;
  fold_ (fun pgs st =>
    p <- subscript st "pgid" ;; pgid <- as_str p ;;
    if negb (startswith (py_str repid +:+ ".") pgid) then ret pgs
    else
      ty <- subscript pool_dump "type" ;;
      a <- subscript st "acting" ;; acting <- as_list a ;;
      osds <- map_ as_int acting ;;
      if eq_int ty REPLICATED_POOL then ret (fold_left (fun pgs osd => add_pg osd pgid pgs) osds pgs)
      else if eq_int ty ERASURE_CODED_POOL then
        ret (fold_left (fun pgs (io : nat * Z) => add_pg io.2 (pgid +:+ "s" +:+ zs (Z.of_nat io.1)) pgs) (imap pair osds) pgs)
      else raise (PyException (pool +:+ " has an unexpected type " +:+ py_str ty))) stats [].

(** ** Every OSD of the cluster *)

(** [for remote in osds.remotes: for role in osds.remotes[remote]: ...], the number of an OSD's role *)
Definition osd_of_role (role : string) : MM Z :=
  t <- of_option IndexError (split_on "." role !! 1%nat) ;; of_option (ValueError "invalid literal for int()") (py_int t).
Definition each_osd (f : remote -> Z -> MM Z) : MM Z :=
  s <- get ;;
  total (of_type "osd" (ctx s)) (fun rr =>
    total rr.2 (fun role => if startswith "osd." role then osdid <- osd_of_role role ;; f rr.1 osdid else ret 0)).
(** ... that holds some of the placement groups *)
Definition each_holder (pgs : list (Z * list string)) (f : remote -> Z -> list string -> MM Z) : MM Z :=
  each_osd (fun r osdid => match pgs_of osdid pgs with Some l => f r osdid l | None => ret 0 end).
Definition each_pg (pgs : list (Z * list string)) (f : remote -> Z -> string -> MM Z) : MM Z :=
  each_holder pgs (fun r osdid l => total l (f r osdid)).
(** [for basename in db: ... for pg, JSON in db[basename]["pg2json"]: if pg in pgs[osdid]: ...] *)
Definition each_copy (db : objdb) (pgs : list (Z * list string)) (f : string -> obj -> remote -> Z -> string -> string -> MM Z)
  : MM Z :=
  total db (fun no => each_holder pgs (fun r osdid l =>
    jsons <- of_option (KeyError "pg2json") (o_pg2json no.2) ;;
    total jsons (fun pj => if bool_decide (pj.1 ∈ l) then f no.1 no.2 r osdid pj.1 pj.2 else ret 0))).

(** ** The parts of the test *)
Definition list_cmd_of (osdid : Z) : list string := split_ws (tool_prefix osdid +:+ "--op list").
(** One line of [--op list]: a placement group and an object *)
Definition read_line (st : objdb * list string) (line : string) : MM (objdb * list string) :=
  if String.eqb line EmptyString then ret st
  else
    v <- json_loads line ;;
    match v with
    | PList [pg; o] =>
        n <- subscript o "oid" ;; name <- as_str n ;;
        match assoc name st.1 with
        | Some ob =>
            p <- as_str pg ;;
            ret (assoc_set name (set_pg2json (assoc_set p (Json.dumps o) (default [] (o_pg2json ob))) ob) st.1,
                 if bool_decide (p ∈ st.2) then st.2 else st.2 ++ [p])
        | None => ret st
        end
    | _ => raise (ValueError "need exactly two values to unpack")
    end.
Definition list_osd (r : remote) (osdid : Z) (st : (objdb * list string) * Z) : MM ((objdb * list string) * Z) :=
  p <- run r (list_cmd_of osdid) false ;;
  if failed p then ret (st.1, st.2 + 1)
  else st' <- fold_ read_line (splitlines (stdout p)) st.1 ;; ret (st', st.2).
Definition test_list (db : objdb) : MM ((objdb * list string) * Z) :=
  s <- get ;;
  fold_ (fun st (rr : remote * list string) =>
    fold_ (fun st role => if startswith "osd." role then osdid <- osd_of_role role ;; list_osd rr.1 osdid st else ret st)
      rr.2 st) (of_type "osd" (ctx s)) ((db, []), 0).

(** Reading, writing and reading again the bytes of one copy of an object *)
Definition bytes_copy (dir name : string) (_ : obj) (r : remote) (osdid : Z) (pg json : string) : MM Z :=
  let path := path_join dir name in
  let getname := path_join dir "get" in
  let setname := path_join dir "set" in
  p <- run r (object_cmd osdid pg json ["get-bytes"; getname]) false ;;
  if failed p then run r ["rm"; "-f"; getname] true ;; ret 1
  else
    d <- run r ["diff"; "-q"; path; getname] true ;;
    run r ["rm"; "-f"; getname] true ;;
    let data := "put-bytes going into " +:+ path +:+ nls in
    file (FWrite data) r setname ;;
    p1 <- run r (object_cmd osdid pg json ["set-bytes"; setname]) false ;;
    p2 <- run r (object_cmd osdid pg json ["get-bytes"; "-"]) false ;;
    p3 <- run r (object_cmd osdid pg json ["set-bytes"; path]) false ;;
    ret (one_if (failed d) + one_if (failed p1) +
         one_if (failed p2 || negb (String.eqb data (stdout p2))) + one_if (failed p3)).
(** One key of [list-attrs]: the values not seen yet, and the errors *)
Definition attr_key (r : remote) (osdid : Z) (pg json : string) (st : list (string * string) * Z) (key : string)
  : MM (list (string * string) * Z) :=
  if bool_decide (key ∈ ["_"; "snapset"; "hinfo_key"]) then ret st
  else
    let key := strip_char "_" key in
    match assoc key st.1 with
    | None => ret (st.1, st.2 + 1)
    | Some exp =>
        p <- run r (object_cmd osdid pg json ["get-attr"; "_" +:+ key]) false ;;
        ret (assoc_del key st.1, st.2 + one_if (failed p || negb (String.eqb exp (stdout p))))
    end.
(** Values that are left over are logged, not counted. *)
Definition attrs_copy (_ : string) (o : obj) (r : remote) (osdid : Z) (pg json : string) : MM Z :=
  p <- run r (object_cmd osdid pg json ["list-attrs"]) false ;;
  if failed p then ret 1
  else
    let keys := split_ws (stdout p) in
    st <- fold_ (attr_key r osdid pg json) keys (o_xattr o, 0) ;;
    e <- (if bool_decide ("hinfo_key" ∈ keys)
          then p <- run r ["bash"; "-e"; "-x"; "-c"; hinfo_script osdid pg json] false ;; ret (one_if (failed p))
          else ret 0) ;;
    ret (st.2 + e).
(** The message of a failure names a field that is not given to [format]. *)
Definition info_pg (r : remote) (osdid : Z) (pg : string) : MM Z :=
  p <- run r (pg_cmd osdid "info" pg) false ;;
  if failed p then raise (KeyError "ret")
  else ret (one_if (negb (str_in pg (stdout p)))).
Definition log_pg (pgswithobjects : list string) (r : remote) (osdid : Z) (pg : string) : MM Z :=
  p <- run r (pg_cmd osdid "log" pg) false ;;
  if failed p then ret 1
  else ret (one_if (negb (Bool.eqb (bool_decide (pg ∈ pgswithobjects)) (str_in "modify" (stdout p))))).
(** These commands are given as one text. *)
Definition export_file (dir : string) (osdid : Z) (pg : string) : string := path_join dir ("osd" +:+ zs osdid +:+ "." +:+ pg).
Definition export_cmd (dir : string) (osdid : Z) (pg : string) : string :=
  tool_prefix osdid +:+ "--op export --pgid " +:+ pg +:+ " --file " +:+ export_file dir osdid pg.
Definition remove_cmd (osdid : Z) (pg : string) : string := tool_prefix osdid +:+ "--op remove --pgid " +:+ pg.
Definition import_cmd (dir : string) (osdid : Z) (pg : string) : string :=
  tool_prefix osdid +:+ "--op import --file " +:+ export_file dir osdid pg.
Definition text_cmd (r : remote) (cmd : string) : MM Z := p <- run r [cmd] false ;; ret (one_if (failed p)).
Definition verify_object (cli : remote) (dir base pool : string) (i : Z) : MM Z :=
  let name := object_name base i in
  let testname := path_join dir "gettest" in
  p <- rados_nowait cli ["-p"; pool; "get"; name; testname] ;;
  st <- wait_proc p false ;;
  if failed st then ret 1
  else text_cmd cli ("diff -q " +:+ testname +:+ " " +:+ path_join dir name).
(** The OSDs that still look up are started again, and the objects are read back. *)
Definition restart_and_verify (cli : remote) (n : Z) (dir base pool : string) : MM Z :=
  st <- get_osd_status ;;
  for_ (st_up st) revive ;;
  sleep 5 ;;
  total (zrange 1 (n + 1)) (verify_object cli dir base pool).

Definition all_remotes (c : context) (cli : remote) : list remote := remove_dups (cli :: map fst (of_type "osd" c)).
Definition test_objectstore (config : dict) (cli : remote) (pool base : string) (ec : bool) : MM Z :=
  s <- get ;;
  let dir := path_join (testdir (ctx s)) "zbkc.data" in
  n <- as_int (dict_get "objects" (PInt 10) config) ;;
  pool_dump <- get_pool_dump pool ;;
  localdir <- call "mkdtemp" ["cod"] ;;
  cod_setup_local_data n localdir base ;;
  for_ (all_remotes (ctx s) cli) (fun r => cod_setup_remote_data r n dir base) ;;
  de <- cod_setup cli n dir base pool ec ;;
  stats <- get_pg_stats ;;
  pgs <- osd_pgs pool pool_dump stats ;;
  st <- get_osd_status ;;
  for_ (st_up st) kill_osd ;;
  sleep 5 ;;
  le <- test_list de.1 ;;
  let '(db, pgswithobjects, e_list) := le in
  ty <- subscript pool_dump "type" ;;
  e_bytes <- (if eq_int ty REPLICATED_POOL then each_copy db pgs (bytes_copy dir) else ret 0) ;;
  e_attrs <- each_copy db pgs attrs_copy ;;
  e_info <- each_pg pgs info_pg ;;
  e_log <- each_pg pgs (log_pg pgswithobjects) ;;
  e_exp <- each_pg pgs (fun r osdid pg => text_cmd r (export_cmd dir osdid pg)) ;;
  e_rm <- each_pg pgs (fun r osdid pg => text_cmd r (remove_cmd osdid pg)) ;;
  e_imp <- (if (e_exp =? 0) && (e_rm =? 0)
            then each_pg pgs (fun r osdid pg => text_cmd r (import_cmd dir osdid pg)) else ret 0) ;;
  e_ver <- (if (e_exp =? 0) && (e_rm =? 0) && (e_imp =? 0) then restart_and_verify cli n dir base pool else ret 0) ;;
  ret (de.2 + e_list + e_bytes + e_attrs + e_info + e_log + e_exp + e_rm + e_imp + e_ver).

(** ** The task *)
(** [while len(status[a]) != len(status[b]): time.sleep(10)], two dumps a round *)
Definition wait_same (a b : osd_status -> nat) : MM unit :=
  while fuel (fun _ => x <- get_osd_status ;; y <- get_osd_status ;; ret (negb (Nat.eqb (a x) (b y)))) (fun _ => sleep 10) tt.
Definition objectstore_task {A} (config : pyval) (body : MM A) : MM A :=
  config <- match config with
            | PNone => ret []
            | PDict d => ret d
            | _ => raise (AssertionError "zbkc_objectstore_tool task only accepts a dict for configuration")
            end ;;
  s <- get ;;
  cli <- match of_type "client" (ctx s) with
         | [] => raise (AssertionError "Must specify at least 1 client")
         | rr :: _ => ret rr.1
         end ;;
  wait_same (fun st => length (st_up st)) (fun st => length (st_raw st)) ;;
  wait_same (fun st => length (st_in st)) (fun st => length (st_up st)) ;;
  raw_cluster_cmd ["osd"; "set"; "noout"] ;;
  raw_cluster_cmd ["osd"; "set"; "nodown"] ;;
  pgnum <- as_int (dict_get "pgnum" (PInt 12) config) ;;
  create_replicated_pool cli "rep_pool" pgnum ;;
  e1 <- test_objectstore config cli "rep_pool" "REPobject" false ;;
  create_ec_pool cli "ec_pool" "default" pgnum [] ;;
  e2 <- test_objectstore config cli "ec_pool" "ECobject" true ;;
  assert_ (e1 + e2 =? 0) "ERRORS == 0" ;;
  body.

End Test.

(** * The test of the object store tool: failures are counted

    Theorems about [ObjectstoreTest]. *)
From S2P Require Import Replies WaitFacts.

(** ** Commands of the tool *)
Definition tool_text : string := "sudo zbkc-objectstore-tool ".
(** A command runs the tool by words, by a text, or in the script for [hinfo_key], five times. *)
Definition is_tool (args : list string) : bool :=
  match args with
  | [cmd] => startswith tool_text cmd
  | ["bash"; "-e"; "-x"; "-c"; script] => str_in tool_text script
  | "sudo" :: "zbkc-objectstore-tool" :: _ => true
  | _ => false
  end.
(** An answer that says a command with the tool failed *)
Definition tool_failed (ev : event) (p : reply) : bool :=
  match ev with EvRun _ args => is_tool args && failed p | _ => false end.

Lemma hinfo_is_tool osdid pg json : is_tool ["bash"; "-e"; "-x"; "-c"; hinfo_script osdid pg json] = true.
Proof. reflexivity. Qed.
Lemma charged_tool {E : Env} r args chk : charged tool_failed (fun p => one_if (failed p)) (run r args chk : M mgr reply).
Proof. apply charged_run. intros p. cbn. by destruct (is_tool args), (failed p). Qed.
Ltac no_tool := repeat (runs_step || (apply answered_emit; by intros ?) || apply answered_nothing).

Ltac pays := apply charged_ret; cbv beta; cbn [one_if fst snd orb]; lia.
Ltac tool_step p := eapply charged_bind; [apply charged_tool|]; intros p; cbv beta.

Section Failures.
Context {E : Env} {F : Fuel}.
Abbreviation Charged v m := (charged tool_failed v m).
Abbreviation Never m := (Runs false (answered (never tool_failed)) m).
(** A part of the test counts at least the failures of the tool. *)
Abbreviation Counts m := (charged tool_failed (fun n : Z => n) m).

Lemma counts_total {A} (l : list A) (f : A -> M mgr Z) : (forall x, Counts (f x)) -> Counts (total l f).
Proof.
  intros Hf. eapply charged_mono; [apply (charged_fold _ (fun n : Z => n))|intros a; cbv beta; lia].
  intros n x. eapply charged_bind; [apply Hf|]. intros e. pays.
Qed.
Lemma counts_each_osd f : (forall r osdid, Counts (f r osdid)) -> Counts (each_osd f : M mgr Z).
Proof.
  intros Hf. unfold each_osd. apply charged_never; [no_tool|]. intros s. apply counts_total. intros rr. apply counts_total.
  intros role. case_match; [|by apply charged_ret]. apply charged_never; [no_tool|]. intros osdid. apply Hf.
Qed.
Lemma counts_each_holder pgs f : (forall r osdid l, Counts (f r osdid l)) -> Counts (each_holder pgs f : M mgr Z).
Proof. intros Hf. apply counts_each_osd. intros r osdid. case_match; [apply Hf|by apply charged_ret]. Qed.
Lemma counts_each_pg pgs f : (forall r osdid pg, Counts (f r osdid pg)) -> Counts (each_pg pgs f : M mgr Z).
Proof. intros Hf. apply counts_each_holder. intros r osdid l. apply counts_total, Hf. Qed.
Lemma counts_each_copy db pgs f :
  (forall name o r osdid pg json, Counts (f name o r osdid pg json)) -> Counts (each_copy db pgs f : M mgr Z).
Proof.
  intros Hf. apply counts_total. intros no. apply counts_each_holder. intros r osdid l.
  apply charged_never; [no_tool|]. intros jsons. apply counts_total. intros pj. case_match; [apply Hf|by apply charged_ret].
Qed.
Lemma counts_text r cmd : Counts (text_cmd r cmd : M mgr Z).
Proof. tool_step p. pays. Qed.
Lemma one_if_nonneg b : 0 <= one_if b <= 1.
Proof. by destruct b. Qed.
Lemma bytes_counts dir name o r osdid pg json : Counts (bytes_copy dir name o r osdid pg json).
Proof.
  unfold bytes_copy. cbv zeta. tool_step p. destruct (failed p) eqn:Hp.
  { apply charged_never; [no_tool|]. intros ?. pays. }
  apply charged_never; [no_tool|]. intros d. do 2 (apply charged_never; [no_tool|]; intros ?).
  tool_step p1. tool_step p2.
  tool_step p3. apply charged_ret. cbv beta.
  pose proof (one_if_nonneg (failed d)). destruct (failed p2); cbn in *; [lia|].
  pose proof (one_if_nonneg (negb (String.eqb ("put-bytes going into " +:+ path_join dir name +:+ nls) (stdout p2)))). lia.
Qed.
Lemma attr_counts r osdid pg json keys st :
  Charged (fun st' => st'.2 - st.2) (fold_ (attr_key r osdid pg json) keys st : M mgr (list (string * string) * Z)).
Proof.
  apply (charged_fold _ (fun st : list (string * string) * Z => st.2)). intros [vs n] key. unfold attr_key. cbn [fst snd].
  case_bool_decide; [pays|]. case_match; [|pays]. tool_step p. apply charged_ret. cbv beta.
  destruct (failed p); cbn [orb one_if snd]; [lia|]. pose proof (one_if_nonneg (negb (String.eqb s (stdout p)))). lia.
Qed.
Lemma attrs_counts name o r osdid pg json : Counts (attrs_copy name o r osdid pg json).
Proof.
  unfold attrs_copy. cbv zeta. tool_step p. destruct (failed p) eqn:Hp; [pays|].
  eapply charged_bind; [apply (attr_counts r osdid pg json _ (o_xattr o, 0))|]. intros st. cbn [snd].
  eapply (charged_bind _ (fun e : Z => e)).
  - case_bool_decide; [|pays]. tool_step q. pays.
  - intros e. pays.
Qed.
Lemma list_counts db : Charged (fun le => le.2) (test_list db : M mgr ((objdb * list string) * Z)).
Proof.
  unfold test_list. apply charged_never; [no_tool|]. intros s.
  eapply charged_mono; [apply (charged_fold _ (fun st : (objdb * list string) * Z => st.2))|intros a; cbn; lia].
  intros st rr. apply charged_fold. intros st' role. case_match; [|pays]. apply charged_never; [no_tool|]. intros osdid.
  unfold list_osd. tool_step p. destruct (failed p); [pays|].
  apply charged_never; [no_tool|]. intros st''. pays.
Qed.
Lemma restart_counts cli n dir base pool : Counts (restart_and_verify cli n dir base pool).
Proof.
  unfold restart_and_verify. do 3 (apply charged_never; [no_tool|]; intros ?). apply counts_total. intros i.
  unfold verify_object. cbv zeta. do 2 (apply charged_never; [no_tool|]; intros ?). case_match; [pays|apply counts_text].
Qed.
Lemma info_counts r osdid pg : Counts (info_pg r osdid pg : M mgr Z).
Proof.
  unfold info_pg. tool_step p. destruct (failed p); [apply charged_raise|]. apply charged_ret. cbv beta.
  pose proof (one_if_nonneg (negb (str_in pg (stdout p)))). cbn [one_if]. lia.
Qed.
Lemma log_counts l r osdid pg : Counts (log_pg l r osdid pg : M mgr Z).
Proof.
  unfold log_pg. tool_step p. destruct (failed p); [pays|]. apply charged_ret. cbv beta.
  pose proof (one_if_nonneg (negb (Bool.eqb (bool_decide (pg ∈ l)) (str_in "modify" (stdout p))))). cbn [one_if]. lia.
Qed.
Lemma pairs_count r pool cmd name pk pv i :
  Charged (fun st => st.2) (set_pairs r pool cmd name pk pv i : M mgr (list (string * string) * Z)).
Proof.
  eapply charged_mono; [apply (charged_fold _ (fun st : list (string * string) * Z => st.2))|intros a; cbn; lia].
  intros st k. cbv zeta. tool_step p. pays.
Qed.
Lemma setup_counts r n dir base pool ec : Charged (fun de => de.2) (cod_setup r n dir base pool ec : M mgr (objdb * Z)).
Proof.
  eapply charged_mono; [apply (charged_fold _ (fun st : objdb * Z => st.2))|intros a; cbn; lia]. intros st i.
  apply (charged_bind _ (fun oe : obj * Z => oe.2)); [|intros oe; pays].
  unfold cod_setup_one. do 3 (apply charged_never; [no_tool|]; intros ?).
  eapply charged_bind; [apply pairs_count|]. intros xe. destruct ec; [pays|].
  apply (charged_bind _ (fun he : option string * Z => he.2)).
  { case_match; [pays|]. tool_step p. pays. }
  intros he. eapply (charged_bind _ (fun _ => 0)).
  { apply charged_answered; [no_tool|done]. }
  intros oe. pays.
Qed.
(** C28: the test counts every failure it is told of: the number of errors that
    [test_objectstore] returns is at least the number of remote commands that run the tool, the
    script for [hinfo_key] included, and ended with a bad status, for every answer of the
    cluster; so it returns 0 only if all these commands succeeded.  (What the script does with
    its own five calls of the tool is up to the shell: its status says nothing of a call that
    fails on the left of a pipe.) *)
Theorem tool_failures_counted (config : dict) (cli : remote) (pool base : string) (ec : bool) (s : mgr) (w : world) :
  wp (test_objectstore config cli pool base ec) (fun o _ w' => exists evs, w_trace w' = w_trace w ++ evs /\
    w_env w' = env_after (w_env w) evs /\ forall n, o = Ret n -> hits tool_failed (w_env w) evs <= n) s w.
Proof.
  revert s w. change (Counts (test_objectstore config cli pool base ec)). unfold test_objectstore. cbv zeta.
  do 6 (apply charged_never; [no_tool|]; intros ?). eapply charged_bind; [apply setup_counts|]. intros de.
  do 5 (apply charged_never; [no_tool|]; intros ?). eapply charged_bind; [apply list_counts|]. intros [[db with_objects] e_list].
  apply charged_never; [no_tool|]. intros ty.
  eapply (charged_bind _ (fun e : Z => e)); [case_match; [apply counts_each_copy, bytes_counts|pays]|]. intros e_bytes.
  eapply (charged_bind _ (fun e : Z => e)); [apply counts_each_copy, attrs_counts|]. intros e_attrs.
  eapply (charged_bind _ (fun e : Z => e)); [apply counts_each_pg, info_counts|]. intros e_info.
  eapply (charged_bind _ (fun e : Z => e)); [apply counts_each_pg, log_counts|]. intros e_log.
  do 2 (eapply (charged_bind _ (fun e : Z => e)); [apply counts_each_pg; intros; apply counts_text|]; intros ?).
  eapply (charged_bind _ (fun e : Z => e)); [case_match; [apply counts_each_pg; intros; apply counts_text|pays]|]. intros e_imp.
  eapply (charged_bind _ (fun e : Z => e)); [case_match; [apply restart_counts|pays]|]. intros e_ver. pays.
Qed.
End Failures.
