(* ===== verification/Deploy.v ===== *)
(** * Clusters made by zbkc-deploy: tasks/zbkc_deploy.py

    The tasks change [ctx.cluster]: daemons get the names that [zbkc-deploy] gives them.
    Arguments are functions of teuthology: the first monitor, the roles of a type, merging, the
    name and the short name of a machine, and the address its programs are fetched from. *)
From Stdlib Require Import Ascii QArith Qround Lqa.
From S2P Require Import Prelude PyVal World ZbkcManager ManagerWait Conf FSStatus Filesystem FsOps FsSetup ZbkcCluster.

(** [l[-1]] of a split text, which is never empty *)
Definition last_of (l : list string) : string := List.last l EmptyString.
Definition first_of (l : list string) : string := List.hd EmptyString l.
(** [ctx.cluster.remotes = remotes] *)
Definition set_remotes (remotes : list (remote * list string)) (c : context) : context :=
  Context_ (testdir c) remotes (conf c) (roles_to_dev c) (roles_to_dev_mount_options c) (roles_to_dev_fstype c).

Section Deploy.
Context {E : Env} {F : Fuel}.
Context (get_first_mon : context -> dict -> string)
        (all_roles_of_type : context -> string -> list string)
        (roles_of_type : list string -> string -> list string)
        (client_remote_of : context -> string -> remote)
        (deep_merge : dict -> pyval -> dict)
        (remote_name shortname : remote -> string)
        (zbkc_git_base_url : string)
        (ship_utilities : M job unit -> M job unit).
Abbreviation MJ A := (M job A).

Definition run_on (rs : list remote) (args : list string) (chk : bool) : MJ unit :=
  for_ rs (fun r => run r args chk ;; ret tt).
Definition everywhere (args : list string) (chk : bool) : MJ unit :=
  j <- get ;; run_on (machines (j_ctx j)) args chk.

(** ** Fetching the program *)
Definition python_version (config : dict) : option string := py_str <$> dict_lookup "python_version" config.
(** The packages of Python, on all machines; the kind of the last administrator decides. *)
Definition install_python (admins : list remote) (py_ver : string) : MJ unit :=
  if negb (bool_decide (py_ver ∈ ["2"; "3"])) then
    raise (ValueError ("python_version must be: 2 or 3, not " +:+ py_ver))
  else
    types <- map_ (fun r => call "get_system_type" [r]) admins ;;
    system_type <- of_option (OtherError "UnboundLocalError") (last types) ;;
    if String.eqb system_type "rpm" then
      everywhere ["sudo"; "yum"; "-y"; "install"; if String.eqb py_ver "3" then "python34" else "python"; "python-virtualenv"] true
    else
      everywhere ["sudo"; "apt-get"; "-y"; "--force-yes"; "install"; if String.eqb py_ver "3" then "python3" else "python";
                  "python-virtualenv"] true.
Definition deploy_dir (c : context) : string := testdir c +:+ "/zbkc-deploy".
Definition download_zbkc_deploy (config : dict) (body : MJ unit) : MJ unit :=
  j <- get ;;
  let c := j_ctx j in
  let admins := only (String.eqb (get_first_mon c config)) c in
  match python_version config with Some v => install_python admins v | None => ret tt end ;;
  let branch := py_str (dict_get "zbkc-deploy-branch" (PStr "master") config) in
  run_on admins ["git"; "clone"; "-b"; branch; zbkc_git_base_url +:+ "zbkc-deploy.git"; deploy_dir c] true ;;
  run_on admins (["cd"; deploy_dir c; "&&"; "./bootstrap"] ++ option_list (python_version config)) true ;;
  finally body (run_on admins ["rm"; "-rf"; deploy_dir c] true).

(** ** Health *)

(** [out.split(None, 1)[0]] *)
Definition first_word (out : string) : MJ string := of_option IndexError (head (split_ws out)).
(** 90 rounds of 10 seconds *)
Definition is_healthy (config : dict) : MJ unit :=
  j <- get ;;
  let c := j_ctx j in
  r <- lone c (get_first_mon c config) ;;
  loop fuel (fun tries =>
    let tries := tries + 1 in
    if 90 <=? tries then
      run r ["cd"; testdir c; "&&"; "sudo"; "zbkc"; "report"] true ;;
      raise (RuntimeError "zbkc health was unable to get 'HEALTH_OK' after waiting 15 minutes")
    else
      p <- run r ["cd"; testdir c; "&&"; "sudo"; "zbkc"; "health"] true ;;
      word <- first_word (stdout p) ;;
      if String.eqb word "HEALTH_OK" then ret (inr tt) else sleep 10 ;; ret (inl tries)) 0.

(** ** Names of daemons, devices and machines *)

(** ["mon.a"] on the machine [ubuntu@foo23.front] becomes ["mon.foo23"]. *)
Definition fqdn (r : remote) : string := last_of (split_on "@" (remote_name r)).
Definition nodename (r : remote) : MJ string :=
  of_option IndexError (split_on "@" (first_of (split_on "." (remote_name r))) !! 1%nat).
Definition rename_role (target_role : string) (r : remote) (st : list string * list string) (svc_id : string)
  : MJ (list string * list string) :=
  if startswith (target_role +:+ ".") svc_id then
    n <- nodename r ;;
    ret (st.1 ++ [target_role +:+ "." +:+ n], st.2 ++ [if String.eqb target_role "mon" then fqdn r else n])
  else ret (st.1 ++ [svc_id], st.2).
Definition get_nodes_using_role (target_role : string) : MJ (list string) :=
  j <- get ;;
  st <- fold_ (fun (st : list (remote * list string) * list string) (rr : remote * list string) =>
    x <- fold_ (rename_role target_role rr.1) rr.2 ([], st.2) ;;
    ret (st.1 ++ [(rr.1, x.1)], x.2)) (cluster_roles (j_ctx j)) ([], []) ;;
  modify (fun j => set_ctx (set_remotes st.1 (j_ctx j)) j) ;;
  ret st.2.

Definition dev_short (dev : string) : string := last_of (split_on "/" dev).
(** [[(devs[0], devs[1]), (devs[2], devs[3]), ...]] for [n] pairs *)
Fixpoint pairs_of (n : nat) (devs : list string) : list (list string) :=
  match n, devs with
  | S k, d :: jd :: devs' => [dev_short d; dev_short jd] :: pairs_of k devs'
  | _, _ => []
  end.
(** A machine with the devices of each of its OSDs *)
Definition devs_of_host (separate_journal : bool) (r : remote) (roles devs : list string) : MJ (list (string * list string)) :=
  let short := first_of (split_on "." (last_of (split_on "@" (remote_name r)))) in
  let num_osds := length (roles_of_type roles "osd") in
  if separate_journal then
    assert_ (2 * num_osds <=? length devs)%nat ("fewer data and journal disks than required " +:+ short) ;;
    ret (map (pair short) (pairs_of num_osds devs))
  else
    assert_ (num_osds <=? length devs)%nat ("fewer disks than osds " +:+ short) ;;
    ret (map (fun d => (short, [dev_short d])) (take num_osds devs)).
Definition get_scratch_devs (r : remote) : MJ (list string) :=
  out <- call "get_scratch_devices" [r] ;; ret (split_ws out).
Definition get_dev_for_osd (config : dict) : MJ (list (string * list string)) :=
  j <- get ;;
  let separate := match dict_get "separate_journal_disk" PNone config with PNone => false | _ => true end in
  fold_ (fun l (rr : remote * list string) =>
    devs <- get_scratch_devs rr.1 ;;
    l' <- devs_of_host separate rr.1 rr.2 devs ;; ret (l ++ l')) (cluster_roles (j_ctx j)) [].
Definition get_all_nodes : MJ string :=
  j <- get ;;
  v <- subscript (PDict (j_config j)) "targets" ;;
  targets <- as_dict v ;;
  ret (str_join " " (map (fun tk => first_of (split_on "." (last_of (split_on "@" tk.1)))) targets)).

(** ** Building the cluster *)
Definition execute_zbkc_deploy (admin : remote) (cmd : string) : MJ Z :=
  j <- get ;;
  p <- run admin ["cd"; deploy_dir (j_ctx j); "&&"; cmd] false ;; ret (exitstatus p).
Definition deploy_or (admin : remote) (cmd what : string) : MJ unit :=
  st <- execute_zbkc_deploy admin cmd ;;
  when (negb (st =? 0)) (raise (RuntimeError what)).
(** [for var, val in branch.iteritems(): option = ...]: the last one stays *)
Definition branch_option (config : dict) : MJ (option string) :=
  match dict_get "branch" PNone config with
  | PNone => ret None
  | v => d <- as_dict v ;; ret ((fun kv : string * pyval => "--" +:+ kv.1 +:+ "=" +:+ py_str kv.2) <$> last d)
  end.
(** The lines of the configuration, appended one by one *)
Definition append_conf (r : remote) (path : string) (config : dict) : MJ unit :=
  match dict_get "conf" PNone config with
  | PNone => ret tt
  | v =>
      sections <- as_dict v ;;
      for_ sections (fun sk =>
        call "append_lines_to_file" [r; path; "[" +:+ sk.1 +:+ "]" +:+ nls] ;;
        keys <- as_dict sk.2 ;;
        for_ keys (fun kv => call "append_lines_to_file" [r; path; kv.1 +:+ " = " +:+ py_str kv.2 +:+ nls] ;; ret tt))
  end.
Definition gather_keys (admin : remote) (cmd : string) : MJ unit :=
  st <- execute_zbkc_deploy admin cmd ;;
  while fuel (fun l : Z * Z => ret (negb (l.1 =? 0)))
    (fun l =>
       let tries := l.2 + 1 in
       if 90 <=? tries then raise (RuntimeError "zbkc-deploy was not able to gatherkeys after 15 minutes")
       else st <- execute_zbkc_deploy admin cmd ;; sleep 10 ;; ret (st, tries)) (st, 0) ;;
  ret tt.
Definition create_osd (admin : remote) (config : dict) (nd : string * list string) : MJ unit :=
  for_ nd.2 (fun disk => deploy_or admin ("./zbkc-deploy disk zap " +:+ nd.1 +:+ ":" +:+ disk) "zbkc-deploy: Failed to zap osds") ;;
  deploy_or admin ("./zbkc-deploy osd create " +:+
                   (match dict_get "dmcrypt" PNone config with PNone => EmptyString | _ => "--dmcrypt " end) +:+
                   str_join ":" (nd.1 :: nd.2)) "zbkc-deploy: Failed to create osds".
(** The key of a client, on its own machine with the configuration and the administrator's key *)
Definition setup_client (mon0 : remote) (conf_data admin_keyring : string) (r : remote) (id_ : string) : MJ unit :=
  j <- get ;;
  let client_keyring := "/etc/zbkc/zbkc.client." +:+ id_ +:+ ".keyring" in
  run mon0 ["cd"; testdir (j_ctx j); "&&"; "sudo"; "bash"; "-c"; dqs; "zbkc"; "auth"; "get-or-create"; "client." +:+ id_;
            "mds"; "allow"; "mon"; "allow *"; "osd"; "allow *"; ">"; client_keyring; dqs] true ;;
  key_data <- file FGet mon0 client_keyring ;;
  for_ [(client_keyring, key_data); ("/etc/zbkc/zbkc.client.admin.keyring", admin_keyring); ("/etc/zbkc/zbkc.conf", conf_data)]
    (fun pd => call "sudo_write_file" [r; pd.1; pd.2; "0644"] ;; ret tt).
Definition machines_of_type (type_ : string) (c : context) : list (remote * list string) :=
  filter (fun rr => existsb (fun role => String.eqb (split_role role).1.2 type_) rr.2 = true) (cluster_roles c).
Definition setup_clients (config : dict) (mds_nodes : string) : MJ unit :=
  j <- get ;;
  let c := j_ctx j in
  mon0 <- lone c (get_first_mon c config) ;;
  conf_data <- file FGet mon0 "/etc/zbkc/zbkc.conf" ;;
  admin_keyring <- file FGet mon0 "/etc/zbkc/zbkc.client.admin.keyring" ;;
  for_ (machines_of_type "client" c) (fun rr =>
    for_ (roles_of_type rr.2 "client") (setup_client mon0 conf_data admin_keyring rr.1)) ;;
  when (negb (String.eqb mds_nodes EmptyString))
    (f <- new_filesystem get_first_mon all_roles_of_type client_remote_of c None None ;;
     fresh f (legacy <- legacy_configured ;; when (negb legacy) (create all_roles_of_type)) ;; ret tt).
Definition build (config : dict) (admin : remote) : MJ unit :=
  branch <- branch_option config ;;
  all_nodes <- get_all_nodes ;;
  mds_node <- get_nodes_using_role "mds" ;;
  let mds_nodes := str_join " " mds_node in
  mon_node <- get_nodes_using_role "mon" ;;
  let mon_nodes := str_join " " mon_node in
  deploy_or admin ("./zbkc-deploy new " +:+ mon_nodes) "zbkc-deploy: new command failed" ;;
  j <- get ;;
  append_conf admin (deploy_dir (j_ctx j) +:+ "/zbkc.conf") config ;;
  sha <- subscript (PDict (j_config j)) "sha1" ;;
  let option := default ("--dev-commit=" +:+ py_str sha) branch in
  deploy_or admin ("./zbkc-deploy install " +:+ option +:+ " " +:+ all_nodes) "zbkc-deploy: Failed to install zbkc" ;;
  deploy_or admin ("./zbkc-deploy install --tests " +:+ option +:+ " " +:+ all_nodes) "zbkc-deploy: Failed to install zbkc-test" ;;
  execute_zbkc_deploy admin "./zbkc-deploy mon create-initial" ;;
  gather_keys admin ("./zbkc-deploy gatherkeys " +:+ first_of (split_on " " mon_nodes)) ;;
  when (negb (String.eqb mds_nodes EmptyString))
    (deploy_or admin ("./zbkc-deploy mds create " +:+ mds_nodes) "zbkc-deploy: Failed to deploy mds") ;;
  match dict_get "test_mon_destroy" PNone config with
  | PNone => ret tt
  | _ => for_ (tail mon_node) (fun n => deploy_or admin ("./zbkc-deploy mon destroy " +:+ n) "zbkc-deploy: Failed to delete monitor")
  end ;;
  node_dev_list <- get_dev_for_osd config ;;
  for_ node_dev_list (create_osd admin config) ;;
  if truthy (dict_get "wait-for-healthy" (PBool true) config) && (2 <=? length node_dev_list)%nat then
    is_healthy [] ;; setup_clients config mds_nodes
  else if negb (truthy (dict_get "only_mon" PNone config)) then
    raise (RuntimeError "The cluster is NOT operational due to insufficient OSDs")
  else ret tt.

(** ** Taking it down *)
Definition stop_cmd : list string :=
  ["sudo"; "stop"; "zbkc-all"; "||"; "sudo"; "service"; "zbkc"; "stop"; "||"; "sudo"; "systemctl"; "stop"; "zbkc.target"].
Definition makedirs (path : string) : MJ unit := call "makedirs" [path] ;; ret tt.
Definition archive_cluster (archive : string) : MJ unit :=
  j <- get ;;
  let c := j_ctx j in
  makedirs (archive +:+ "/data") ;;
  for_ (machines_of_type "mon" c) (fun rr => for_ rr.2 (fun role =>
    when (startswith "mon." role)
      (call "pull_directory_tarball" [rr.1; "/var/lib/zbkc/mon"; archive +:+ "/data/" +:+ role +:+ ".tgz"] ;; ret tt))) ;;
  procs <- start_on (machines c)
    ["sudo"; "find"; "/var/log/zbkc"; "-name"; "*.log"; "-print0"; "|"; "sudo"; "xargs"; "-0"; "--no-run-if-empty"; "--"; "gzip"; "--"] ;;
  wait_all procs ;;
  makedirs (archive +:+ "/remote") ;;
  for_ (machines c) (fun r =>
    let sub := archive +:+ "/remote/" +:+ shortname r in
    makedirs sub ;; call "pull_directory" [r; "/var/log/zbkc"; sub +:+ "/log"] ;; ret tt).
Definition tear_down (admin : remote) : MJ unit :=
  everywhere stop_cmd true ;;
  everywhere ["sudo"; "status"; "zbkc-all"; "||"; "sudo"; "service"; "zbkc"; "status"; "||"; "sudo"; "systemctl"; "status"; "zbkc.target"] false ;;
  everywhere ["sudo"; "ps"; "aux"; "|"; "grep"; "-v"; "grep"; "|"; "grep"; "zbkc"] false ;;
  j <- get ;;
  match j_archive j with Some a => archive_cluster a | None => ret tt end ;;
  all_nodes <- get_all_nodes ;;
  execute_zbkc_deploy admin ("./zbkc-deploy purge " +:+ all_nodes) ;;
  execute_zbkc_deploy admin ("./zbkc-deploy purgedata " +:+ all_nodes) ;;
  ret tt.
(** With [keep_running] the [finally] clause returns, which drops the exception that passes
    through it: one of the body vanishes, and after one of the set-up the generator ends without
    having yielded. *)
Definition build_zbkc_cluster (config : dict) (body : MJ unit) : MJ unit :=
  j <- get ;;
  admin <- lone (j_ctx j) (get_first_mon (j_ctx j) config) ;;
  if truthy (dict_get "keep_running" PNone config) then
    catch (build config admin) (fun _ => raise (RuntimeError "generator didn't yield")) ;;
    catch body (fun _ => ret tt)
  else finally (build config admin ;; body) (tear_down admin).

Definition deploy_task (config : pyval) (body : MJ unit) : MJ unit :=
  config <- match config with
            | PNone => ret []
            | PDict d => ret d
            | _ => raise (AssertionError "task zbkc-deploy only supports a dictionary for configuration")
            end ;;
  j <- get ;;
  overrides <- as_dict (dict_get "overrides" (PDict []) (j_config j)) ;;
  let config := deep_merge config (dict_get "zbkc-deploy" (PDict []) overrides) in
  assert_ (match dict_get "branch" PNone config with PNone | PDict _ => true | _ => false end) "branch must be a dictionary" ;;
  ship_utilities (download_zbkc_deploy config (build_zbkc_cluster config body)).

(** ** The commands of the program, on one machine *)
Definition cdeploy (conf_dir : string) (path : option string) (admin : remote) (cmd : string) : MJ unit :=
  p <- run admin ["cd"; conf_dir; ";"; match path with Some d => d +:+ "/zbkc-deploy/zbkc-deploy" | None => "zbkc-deploy" end; cmd] false ;;
  when (negb (exitstatus p =? 0))
    (raise (RuntimeError ("failed during zbkc-deploy cmd: " +:+ cmd +:+ " , ec=" +:+ zs (exitstatus p)))).
(** The directory of every machine with a monitor; the last of them is the administrator. *)
Definition cli_admin (conf_dir : string) (c : context) : MJ remote :=
  for_ (machines_of_type "mon" c) (fun rr => run rr.1 ["mkdir"; conf_dir] false ;; ret tt) ;;
  of_option (OtherError "UnboundLocalError") (fst <$> last (machines_of_type "mon" c)).
(** Every machine with OSDs has three devices; the last one's are used. *)
Definition cli_devs (c : context) : MJ (remote * list string) :=
  l <- map_ (fun rr : remote * list string =>
    devs <- get_scratch_devs rr.1 ;;
    when (length devs <? 3)%nat (raise (RuntimeError "Needs minimum of 3 devices ")) ;;
    ret (rr.1, devs)) (machines_of_type "osd" c) ;;
  of_option (OtherError "UnboundLocalError") (last l).
Definition health_word (r : remote) : MJ string := p <- run r ["sudo"; "zbkc"; "health"] true ;; first_word (stdout p).
Definition wait_cli_healthy (r : remote) : MJ unit :=
  while fuel (fun done : bool => if done then ret false else ask (EvProceed 10 6 "check health"))
    (fun _ => word <- health_word r ;; ret (String.eqb word "HEALTH_OK")) false ;; ret tt.
Definition cli_clean (config : dict) (conf_dir : string) (path : option string) (admin : remote) (node : string)
  (rd : remote * list string) : MJ unit :=
  everywhere stop_cmd false ;;
  sleep 4 ;;
  for_ (take 3 rd.2) (fun d => run rd.1 ["sudo"; "umount"; d +:+ "1"] true ;; ret tt) ;;
  cdeploy conf_dir path admin ("purge " +:+ node) ;;
  cdeploy conf_dir path admin ("purgedata " +:+ node) ;;
  run admin ["rm"; "-rf"; conf_dir] false ;;
  when (truthy (dict_get "rhbuild" PNone config)) (run admin ["sudo"; "yum"; "remove"; "zbkc-deploy"; "-y"] true ;; ret tt).
Definition cli_test (config : dict) (body : MJ unit) : MJ unit :=
  j <- get ;;
  let c := j_ctx j in
  let conf_dir := testdir c +:+ "/cdtest" in
  let rhbuild := truthy (dict_get "rhbuild" PNone config) in
  let path := if rhbuild then None else Some (testdir c) in
  let branch := dict_get "branch" PNone (j_config j) in
  let test_branch := if negb rhbuild && truthy branch then " --dev=" +:+ py_str branch +:+ " " else EmptyString in
  admin <- cli_admin conf_dir c ;;
  let node := shortname admin in
  call "get_system_type" [admin] ;;
  when rhbuild (run admin ["sudo"; "yum"; "install"; "zbkc-deploy"; "-y"] true ;; ret tt) ;;
  rd <- cli_devs c ;;
  let exec := cdeploy conf_dir path admin in
  exec ("new " +:+ node) ;;
  append_conf admin (conf_dir +:+ "/zbkc.conf") config ;;
  exec ("install " +:+ test_branch +:+ " --mon " +:+ node) ;;
  exec ("install " +:+ test_branch +:+ " --osd " +:+ node) ;;
  exec ("install " +:+ test_branch +:+ " --cli " +:+ node) ;;
  exec "mon create-initial " ;;
  for_ (take 3 rd.2) (fun d => exec ("disk zap " +:+ node +:+ ":" +:+ d) ;; exec ("osd prepare " +:+ node +:+ ":" +:+ d)) ;;
  run admin ["ls"; "-lt"; conf_dir] true ;;
  run rd.1 ["sudo"; "zbkc"; "-s"] false ;;
  run rd.1 ["sudo"; "zbkc"; "health"] true ;;
  wait_cli_healthy rd.1 ;;
  exec ("install " +:+ test_branch +:+ " --rgw " +:+ node) ;;
  exec ("rgw create " +:+ node) ;;
  finally body (cli_clean config conf_dir path admin node rd).
Definition single_node_test (config : pyval) (body : MJ unit) : MJ unit :=
  base <- match config with PNone => ret [] | v => as_dict v end ;;
  j <- get ;;
  overrides <- as_dict (dict_get "overrides" (PDict []) (j_config j)) ;;
  let config := deep_merge base (dict_get "zbkc-deploy" (PDict []) overrides) in
  if truthy (dict_get "rhbuild" PNone config) then cli_test config body
  else ship_utilities (download_zbkc_deploy config (cli_test config body)).

End Deploy.
