(* ===== verification/DeployFacts.v ===== *)
(** * Clusters made by zbkc-deploy: theorems about [Deploy] *)
From Stdlib Require Import Ascii QArith Qround Lqa.
From S2P Require Import Prelude PyVal World ZbkcManager Conf FsSetup ZbkcCluster Rgw RgwFacts Deploy.

(** The end of a run that has not exceeded its bound *)
Ltac bounded := wp_run; split_ands; [done|lia|done].

Section Deploy.
Context {E : Env} {F : Fuel}.
Context (get_first_mon : context -> dict -> string)
        (all_roles_of_type : context -> string -> list string)
        (roles_of_type : list string -> string -> list string)
        (client_remote_of : context -> string -> remote)
        (remote_name shortname : remote -> string).

(** ** Waiting for health *)
(** The wait for a healthy cluster ends: with fuel for 90 rounds it never runs out of it,
    whatever the cluster answers; it runs at most 90 commands, and it returns only when the last
    answer of [zbkc health] began with [HEALTH_OK]. *)
Theorem is_healthy_ends (config : dict) (j : job) (w : world) :
  (90 <= fuel)%nat ->
  wp (is_healthy get_first_mon config) (fun o _ w' => o <> Stuck /\ (runs_made w' <= runs_made w + 90)%nat /\
    (is_ret o -> exists r c, head (split_ws (stdout (respond (EvRun r
       ["cd"; testdir (j_ctx j); "&&"; "sudo"; "zbkc"; "health"]) c).1)) = Some "HEALTH_OK")) j w.
Proof.
  intros Hf. unfold is_healthy. apply wp_bind, wp_get. cbv zeta. unfold then_, lone.
  destruct (only _ _) as [|r [|]]; [bounded| |bounded].
  apply wp_bind, wp_ret. unfold then_.
  apply (wp_loop_total (fun tries _ _ => Z.to_nat (89 - tries))
    (fun tries _ w' => 0 <= tries <= 89 /\ (runs_made w' = runs_made w + Z.to_nat tries)%nat)); [|split; lia|lia].
  intros tries s' w' [Ht Hr]. destruct (Z.leb_spec 90 (tries + 1)).
  - wp_step. apply wp_run_args. intros p c _ w1 -> Hm. unfold then_.
    destruct (raised p); [bounded|]. case_match; [bounded|]. bounded.
  - wp_step. apply wp_run_args. intros p c Hp w1 -> Hm. unfold then_.
    destruct (raised p); [bounded|]. case_match; [bounded|]. unfold first_word.
    wp_step. wp_step. destruct (head _) as [word|] eqn:Hw; wp_run; [| |bounded].
    + match goal with H : String.eqb _ _ = true |- _ => apply String.eqb_eq in H as -> end.
      split_ands; [done|lia|]. intros _. exists r, (w_env w'). by rewrite Hp.
    + apply wp_sleep. intros q c' _ w2 -> Hm2. destruct (raised q); unfold then_; [bounded|]. wp_run. split; lia.
Qed.

(** ** Names *)

(** The name of a role after the renaming, and what the machine of a renamed role is called *)
Definition node_of (r : remote) : string :=
  default EmptyString (split_on "@" (first_of (split_on "." (remote_name r))) !! 1%nat).
Definition is_a (target : string) (role : string) : bool := startswith (target +:+ ".") role.
Definition renamed (target : string) (r : remote) (role : string) : string :=
  if is_a target role then target +:+ "." +:+ node_of r else role.
Definition machine_label (target : string) (r : remote) : string :=
  if String.eqb target "mon" then fqdn remote_name r else node_of r.
Definition relabel (target : string) (roles : list (remote * list string)) : list (remote * list string) :=
  map (fun rr => (rr.1, map (renamed target rr.1) rr.2)) roles.
Definition labels (target : string) (roles : list (remote * list string)) : list string :=
  flat_map (fun rr => map (fun _ => machine_label target rr.1) (List.filter (is_a target) rr.2)) roles.

Lemma startswith_append (a b : string) : startswith a (a +:+ b) = true.
Proof.
  unfold startswith. induction a as [|x a IH]; [by destruct b|].
  change (String.prefix (String x a) (String x (a +:+ b)) = true). cbn [String.prefix]. by destruct (ascii_dec x x).
Qed.
Lemma renamed_is target r role : is_a target (renamed target r role) = is_a target role.
Proof.
  unfold renamed. destruct (is_a target role) eqn:H; [|done]. unfold is_a. rewrite <- append_assoc. apply startswith_append.
Qed.
Lemma relabel_idem target roles : relabel target (relabel target roles) = relabel target roles.
Proof.
  unfold relabel. rewrite map_map. apply map_ext. intros [r l]. cbn. f_equal. rewrite map_map. apply map_ext. intros role.
  unfold renamed at 1. rewrite renamed_is. unfold renamed. by destruct (is_a target role).
Qed.
Lemma labels_relabel target roles : labels target (relabel target roles) = labels target roles.
Proof.
  unfold labels, relabel. rewrite flat_map_concat_map, map_map, <- flat_map_concat_map. apply flat_map_ext. intros [r l]. cbn [fst snd].
  induction l as [|role l IH]; [done|]. cbn. rewrite renamed_is. by destruct (is_a target role); cbn; rewrite IH.
Qed.
Lemma rename_roles target r roles before ns (j : job) :
  Reads (fold_ (rename_role remote_name target r) roles (before, ns)) j (fun x =>
    x = (before ++ map (renamed target r) roles, ns ++ map (fun _ => machine_label target r) (List.filter (is_a target) roles))).
Proof.
  apply (reads_fold (fun seen x => x = (before ++ map (renamed target r) seen,
    ns ++ map (fun _ => machine_label target r) (List.filter (is_a target) seen)))); [by cbn; rewrite !app_nil_r|].
  intros seen role rest st _ ->. unfold rename_role. rewrite List.filter_app, !map_app, !(assoc_L (++)). cbn [List.filter map fst snd].
  assert (Hren : renamed target r role = if is_a target role then target +:+ "." +:+ node_of r else role) by done.
  rewrite Hren. destruct (is_a target role) eqn:Ha; unfold is_a in Ha; rewrite Ha.
  - unfold nodename. eapply reads_bind; [apply (reads_option _ _ _ (fun n => node_of r = n))|].
    { intros n Hn. unfold node_of. by rewrite Hn. }
    intros n <-. by apply reads_ret.
  - apply reads_ret. cbn. by rewrite app_nil_r.
Qed.
(** The renaming gives the daemons of a kind the names of their machines and leaves the others
    alone: on every machine the roles of the kind become one name each, the list that is returned
    has one machine for each of them, in order, and asking again changes nothing. *)
Theorem nodes_renamed (target : string) (j : job) (w : world) :
  wp (get_nodes_using_role remote_name target) (fun o j' w' => w' = w /\ forall ns, o = Ret ns ->
    let roles := cluster_roles (j_ctx j') in
    roles = relabel target (cluster_roles (j_ctx j)) /\ ns = labels target (cluster_roles (j_ctx j)) /\
    relabel target roles = roles /\ labels target roles = ns) j w.
Proof.
  unfold get_nodes_using_role. apply wp_bind, wp_get. unfold then_. apply wp_bind.
  eapply wp_conseq; [apply (reads_fold (fun seen x => x = (relabel target seen, labels target seen)))|].
  - done.
  - intros seen [r l] rest st _ ->. eapply reads_bind; [apply rename_roles|]. intros x ->. apply reads_ret. cbn [fst snd app].
    unfold relabel, labels. by rewrite map_app, flat_map_app; cbn [map flat_map fst snd]; rewrite app_nil_r.
  - intros [st|e|] j' w' (-> & -> & H); unfold then_; [|done..]. rewrite (H st eq_refl). wp_run. split; [done|].
    intros ns [= <-]. cbv zeta. cbn [fst snd j_ctx set_ctx cluster_roles set_remotes]. by rewrite relabel_idem, labels_relabel.
Qed.

(** ** Devices *)
Definition per_osd (separate : bool) : nat := if separate then 2 else 1.
Lemma pairs_of_take n devs : (2 * n <= length devs)%nat ->
  concat (pairs_of n devs) = map dev_short (take (2 * n) devs) /\ length (pairs_of n devs) = n /\
  Forall (fun l => length l = 2%nat) (pairs_of n devs).
Proof.
  revert devs; induction n as [|n IH]; intros [|d [|jd devs]]; cbn [pairs_of length] in *; try lia; try (by repeat constructor).
  intros Hl. destruct (IH devs) as (Hc & Hn & Hf); [lia|]. replace (2 * S n)%nat with (S (S (2 * n)))%nat by lia.
  cbn [concat app firstn map length]. rewrite Hc, Hn. split; [done|]. split; [done|]. by constructor.
Qed.
(** C36: no device is given to two OSDs: a machine whose devices have different names gives every
    OSD of its own the devices it needs, one or, with separate journals, two, and no name occurs
    twice; it fails only when it has fewer devices than are needed. *)
Theorem osd_devices_distinct (separate : bool) (r : remote) (roles devs : list string) (j : job) (w : world) :
  let n := length (roles_of_type roles "osd") in
  wp (devs_of_host roles_of_type remote_name separate r roles devs) (fun o j' w' => j' = j /\ w' = w /\
    (is_ret o <-> (per_osd separate * n <= length devs)%nat) /\ forall l, o = Ret l ->
      length l = n /\ Forall (fun nd => length nd.2 = per_osd separate) l /\
      (NoDup (map dev_short devs) -> NoDup (concat (map snd l)))) j w.
Proof.
  intros n. unfold devs_of_host. fold n. cbv zeta. destruct separate; cbn [per_osd].
  - destruct (Nat.leb_spec (2 * n) (length devs)) as [Hl|Hl]; wp_run; (split; [done|]); (split; [done|]); cbn [is_ret].
    + split; [tauto|]. intros l [= <-]. destruct (pairs_of_take n devs Hl) as (Hc & Hn & Hf). rewrite length_map.
      split; [done|]. rewrite Forall_map, map_map. cbn [snd]. split; [done|]. rewrite map_id, Hc. intros Hd.
      rewrite <- (take_drop (2 * n) devs), map_app in Hd. by apply NoDup_app in Hd as [].
    + split; [lia|done].
  - destruct (Nat.leb_spec n (length devs)) as [Hl|Hl]; wp_run; (split; [done|]); (split; [done|]); cbn [is_ret].
    + split; [lia|]. intros l [= <-]. rewrite length_map, length_take. split; [lia|]. rewrite Forall_map, map_map. cbn [snd].
      split; [by apply Forall_true|]. intros Hd. rewrite <- (take_drop n devs), map_app in Hd. apply NoDup_app in Hd as [Hd _].
      rewrite <- flat_map_concat_map. clear -Hd. by induction (take n devs) as [|d l IH]; cbn in *; [|apply NoDup_cons in Hd as []; constructor; [|apply IH]].
    + split; [lia|done].
Qed.

(** ** Failures that vanish *)
(** With [keep_running] no failure of the tests is reported: the only exceptions that leave the
    context manager are that the first monitor is not on one machine, and that the set-up of the
    cluster failed, of which only the missing [yield] is left. *)
Theorem keep_running_hides_failures (config : dict) (body : M job unit) (j : job) (w : world) :
  truthy (dict_get "keep_running" PNone config) = true ->
  wp (build_zbkc_cluster get_first_mon all_roles_of_type roles_of_type client_remote_of remote_name shortname config body)
    (fun o _ _ => forall e, o = Exc e ->
       e = ValueError "need exactly one value to unpack" \/ e = RuntimeError "generator didn't yield") j w.
Proof.
  intros Hk. unfold build_zbkc_cluster. apply wp_bind, wp_get. unfold then_, lone. rewrite Hk.
  destruct (only _ _) as [|r [|]]; [wp_run; naive_solver| |wp_run; naive_solver]. apply wp_bind, wp_ret. unfold then_.
  apply wp_bind, wp_catch. unfold wp at 1. destruct (build _ _ _ _ _ config r j w) as [[[u|e|] j1] w1]; [|wp_run; intros ? [= <-]; by right|by unfold then_; intros ?].
  unfold then_. apply wp_catch. unfold wp. by destruct (body j1 w1) as [[[u'|e|] j2] w2].
Qed.
End Deploy.
