(* ===== verification/OsdScenarios.v ===== *)
(** * Scripted OSD scenarios

    tasks/osd_backfill.py, osd_recovery.py, peer.py, object_source_down.py,
    resolve_stuck_peering.py and dump_stuck.py: scripts that take OSDs down and up in a
    fixed order and check what the cluster reports.  Each runs on the manager it builds
    ([first_mon_manager]) or on [ctx.managers['zbkc']], the state of the monad. *)
From Stdlib Require Import Ascii QArith Qround Lqa.
From S2P Require Import Prelude PyVal World ZbkcManager ManagerWait Scrub Rados.

Section OsdScenarios.
Context {E : Env} {F : Fuel}.
Context (get_first_mon : context -> dict -> string) (num_instances_of_type : context -> string -> Z).
(** [all_roles_of_type(ctx.cluster, 'osd')]: the ids of the OSDs, which are numbers *)
Context (osd_ids : context -> list Z).
Abbreviation MM A := (M mgr A).

(** The remote of the first monitor and a manager on it *)
Definition new_manager (config : dict) : MM remote :=
  s <- get ;;
  mon <- only_remote (get_first_mon (ctx s) config) ;;
  first_mon_manager get_first_mon (ctx s) config ;;
  ret mon.
Definition num_osds : MM Z := s <- get ;; ret (num_instances_of_type (ctx s) "osd").

(** ** osd_backfill.py *)

Definition bench (seconds : string) : list string :=
  ["-p"; "rbd"; "bench"; seconds; "write"; "-b"; "4096"; "--no-cleanup"].

Definition osd_backfill_task (config : dict) : MM unit :=
  s <- get ;;
  mon <- only_remote (get_first_mon (ctx s) config) ;;
  n <- num_osds ;;
  assert_ (n =? 3) "num_osds == 3" ;;
  first_mon_manager get_first_mon (ctx s) config ;;
  wait_for_osds_up 3 10 ;;
  flush_pg_stats 0 ;; flush_pg_stats 1 ;; flush_pg_stats 2 ;;
  wait_for_clean None ;;
  p <- rados_start mon (bench "15") ;;
  wait_proc p true ;;
  mark_out_osd 0 ;;
  kill_osd 0 ;;
  mark_down_osd 0 ;;
  flush_pg_stats 1 ;; flush_pg_stats 2 ;;
  wait_for_recovery None ;;
  p <- rados_start mon (bench "30") ;;
  sleep 15 ;;
  blackhole_kill_osd 1 ;;
  sleep 2 ;;
  revive 1 ;;
  wait_proc p true ;;
  flush_pg_stats 1 ;; flush_pg_stats 2 ;;
  wait_for_recovery None ;;
  revive 0 ;;
  flush_pg_stats 1 ;; flush_pg_stats 2 ;;
  wait_for_clean None.

(** ** osd_recovery.py *)

Definition osd_recovery_task (config : dict) : MM unit :=
  s <- get ;;
  mon <- only_remote (get_first_mon (ctx s) config) ;;
  n <- num_osds ;;
  assert_ (n =? 3) "num_osds == 3" ;;
  first_mon_manager get_first_mon (ctx s) config ;;
  wait_for_osds_up 3 10 ;;
  flush_pg_stats 0 ;; flush_pg_stats 1 ;; flush_pg_stats 2 ;;
  wait_for_clean None ;;
  (* some osdmap flags *)
  cmd_ ["osd"; "set"; "noin"] ;; cmd_ ["osd"; "set"; "noout"] ;;
  cmd_ ["osd"; "set"; "noup"] ;; cmd_ ["osd"; "set"; "nodown"] ;;
  cmd_ ["osd"; "unset"; "noin"] ;; cmd_ ["osd"; "unset"; "noout"] ;;
  cmd_ ["osd"; "unset"; "noup"] ;; cmd_ ["osd"; "unset"; "nodown"] ;;
  p <- rados_start mon (bench "20") ;;
  sleep 15 ;;
  (* a divergent target *)
  blackhole_kill_osd 1 ;;
  kill_osd 2 ;;
  sleep 2 ;;
  revive 1 ;;
  wait_proc p true ;;
  flush_pg_stats 0 ;; flush_pg_stats 1 ;;
  wait_for_active_or_down None ;;
  p <- rados_start mon ["-p"; "rbd"; "bench"; "15"; "write"; "-b"; "4096"] ;;
  wait_proc p true ;;
  revive 2 ;;
  wait_for_osds_up 3 2 ;;
  flush_pg_stats 0 ;; flush_pg_stats 1 ;; flush_pg_stats 2 ;;
  wait_for_clean None.

Definition flush_four : MM unit := flush_pg_stats 0 ;; flush_pg_stats 1 ;; flush_pg_stats 2 ;; flush_pg_stats 3.

Definition test_incomplete_pgs (config : dict) : MM unit :=
  s <- get ;;
  mon <- only_remote (get_first_mon (ctx s) config) ;;
  n <- num_osds ;;
  assert_ (n =? 4) "num_osds == 4" ;;
  first_mon_manager get_first_mon (ctx s) config ;;
  wait_for_osds_up 4 10 ;;
  flush_four ;;
  wait_for_clean None ;;
  for_range 0 4 (fun i => set_config i [("osd_recovery_delay_start", "1000")]) ;;
  (* move data off of osd.0, osd.1 *)
  cmd_ ["osd"; "out"; "0"; "1"] ;;
  flush_four ;;
  wait_for_clean None ;;
  p <- rados_start mon ["-p"; "rbd"; "bench"; "20"; "write"; "-b"; "1"; "--no-cleanup"] ;;
  wait_proc p true ;;
  for_range 1 20 (fun f =>
    p <- rados_start mon ["-p"; "rbd"; "put"; "foo." +:+ zs f; "/etc/passwd"] ;;
    wait_proc p true ;; ret tt) ;;
  (* move it back *)
  cmd_ ["osd"; "in"; "0"; "1"] ;;
  cmd_ ["osd"; "out"; "2"; "3"] ;;
  sleep 10 ;;
  flush_four ;;
  sleep 10 ;;
  wait_for_active None ;;
  clean <- is_clean ;; assert_ (negb clean) "not manager.is_clean()" ;;
  recovered <- is_recovered ;; assert_ (negb recovered) "not manager.is_recovered()" ;;
  kill_osd 2 ;;
  kill_osd 3 ;;
  cmd_ ["osd"; "down"; "2"; "3"] ;;
  flush_pg_stats 0 ;; flush_pg_stats 1 ;;
  wait_for_active_or_down None ;;
  down <- get_num_down ;; assert_ (0 <? down) "manager.get_num_down() > 0" ;;
  revive 2 ;;
  revive 3 ;;
  wait_for_osds_up 4 2 ;;
  for_range 0 4 (fun i => kick_recovery_wq i ;; ret tt) ;;
  wait_for_clean None.

(** ** peer.py *)

(** [l[i]] on a list *)
Definition item (l : list pyval) (i : nat) : MM pyval := of_option IndexError (l !! i).
(** [v == [z]] *)
Definition is_singleton (v : pyval) (z : Z) : bool :=
  match v with PList [x] => eq_int x z | _ => false end.

(** The recovery state of a pg that is down: blocked, on OSD 1 alone. *)
Definition blocked_on_osd1 (j : pyval) : MM unit :=
  v <- subscript j "recovery_state" ;; rs <- as_list v ;;
  assert_ (0 <? Z.of_nat (length rs)) "len(rs) > 0" ;;
  r0 <- item rs 0 ;; n0 <- subscript r0 "name" ;;
  assert_ (eq_str n0 "Started/Primary/Peering/GetInfo") "rs[0]['name']" ;;
  r1 <- item rs 1 ;; n1 <- subscript r1 "name" ;;
  assert_ (eq_str n1 "Started/Primary/Peering") "rs[1]['name']" ;;
  b <- subscript r1 "blocked" ;; assert_ (truthy b) "rs[1]['blocked']" ;;
  d <- subscript r1 "down_osds_we_would_probe" ;;
  assert_ (is_singleton d 1) "rs[1]['down_osds_we_would_probe'] == [1]" ;;
  bl <- subscript r1 "peering_blocked_by" ;; k <- len_ bl ;;
  assert_ (k =? 1) "len(rs[1]['peering_blocked_by']) == 1" ;;
  l <- as_list bl ;; x <- item l 0 ;; o <- subscript x "osd" ;;
  assert_ (eq_int o 1) "rs[1]['peering_blocked_by'][0]['osd'] == 1".

(** Query every pg; the number of them that are down. *)
Fixpoint look_for_down (pgs : list pyval) (num_down_pgs : Z) : MM Z :=
  match pgs with
  | [] => ret num_down_pgs
  | pg :: pgs' =>
      v <- subscript pg "pgid" ;; pgid <- as_str v ;;
      out <- raw_cluster_cmd ["pg"; pgid; "query"] ;;
      j <- json_loads out ;;
      st <- pg_state pg ;;
      n <- (if has "down" st then blocked_on_osd1 j ;; ret (num_down_pgs + 1) else ret num_down_pgs) ;;
      look_for_down pgs' n
  end.

Definition peer_task (config : dict) : MM unit :=
  mon <- new_manager config ;;
  wait_for_osds_up 3 10 ;;
  flush_pg_stats 0 ;; flush_pg_stats 1 ;; flush_pg_stats 2 ;;
  wait_for_clean None ;;
  for_range 0 3 (fun i => set_config i [("osd_recovery_delay_start", "120")]) ;;
  kill_and_mark_down 2 ;;
  (* kludge to make sure they get a map *)
  rados_ mon ["-p"; "data"; "get"; "dummy"; "-"] ;;
  flush_pg_stats 0 ;; flush_pg_stats 1 ;;
  wait_for_recovery None ;;
  (* kill another and revive 2, so that some pgs can't peer *)
  kill_and_mark_down 1 ;;
  revive 2 ;;
  wait_till_osd_is_up 2 None ;;
  flush_pg_stats 0 ;; flush_pg_stats 2 ;;
  wait_for_active_or_down None ;;
  flush_pg_stats 0 ;; flush_pg_stats 2 ;;
  pgs <- get_pg_stats ;;
  num_down_pgs <- look_for_down pgs 0 ;;
  assert_ (0 <? num_down_pgs) "num_down_pgs > 0" ;;
  (* bring it all back *)
  revive 1 ;;
  wait_till_osd_is_up 1 None ;;
  flush_pg_stats 0 ;; flush_pg_stats 1 ;; flush_pg_stats 2 ;;
  wait_for_clean None.

(** ** object_source_down.py *)

Definition delay_recovery (i : Z) : MM unit :=
  cmd_ ["tell"; osd_name i; "injectargs"; "--osd-recovery-delay-start 10000 --osd-min-pg-log-entries 100000000"].

Definition object_source_down_task (config : dict) : MM unit :=
  mon <- new_manager config ;;
  wait_for_osds_up 3 10 ;;
  wait_for_clean None ;;
  (* take 0, 1 out *)
  mark_out_osd 0 ;;
  mark_out_osd 1 ;;
  wait_for_clean None ;;
  delay_recovery 0 ;; delay_recovery 1 ;; delay_recovery 2 ;; delay_recovery 3 ;;
  rados_ mon ["-p"; "data"; "put"; "dummy"; "/etc/fstab"] ;;
  for_range 1 10 (fun f => rados_ mon ["-p"; "data"; "put"; "existing_" +:+ zs f; "/etc/fstab"]) ;;
  mark_out_osd 3 ;;
  wait_till_active None ;;
  mark_in_osd 0 ;;
  wait_till_active None ;;
  flush_pg_stats 2 ;; flush_pg_stats 0 ;;
  mark_out_osd 2 ;;
  wait_till_active None ;;
  (* bring up 1 *)
  mark_in_osd 1 ;;
  wait_till_active None ;;
  flush_pg_stats 1 ;; flush_pg_stats 0 ;;
  unfound <- get_num_unfound_objects ;;
  assert_ (negb (truthy unfound)) "not unfound" ;;
  kill_and_mark_down 2 ;;
  kill_and_mark_down 3 ;;
  flush_pg_stats 1 ;; flush_pg_stats 0 ;;
  unfound <- get_num_unfound_objects ;;
  assert_ (truthy unfound) "unfound".

(** ** resolve_stuck_peering.py *)

Definition py_remove_first (x : Z) (l : list Z) : MM (list Z) :=
  of_option (ValueError "list.remove(x): x not in list") (py_remove x l).
(** [stats['state']] of [manager.get_single_pg_stats(pgstr)] *)
Definition single_pg_state (pgstr : string) : MM pyval :=
  r <- get_single_pg_stats pgstr ;;
  stats <- of_option (TypeError "'NoneType' object has no attribute '__getitem__'") r ;;
  subscript stats "state".

Definition resolve_stuck_peering_task (config : dict) : MM unit :=
  wait_for_osds_up 3 10 ;;
  wait_for_clean None ;;
  cmd_ ["osd"; "pool"; "create"; "foo"; "1"] ;;
  set_pool_property "foo" "min_size" 1 ;;
  primary <- get_pg_primary "foo" "0" ;;
  others <- py_remove_first primary [0; 1; 2] ;;
  s <- get ;;
  mon <- only_remote (get_first_mon (ctx s) config) ;;
  for_range 0 100 (fun i => rados_ mon ["-p"; "foo"; "put"; "existing_" +:+ zs i; "/etc/fstab"]) ;;
  wait_for_clean None ;;
  for_ others (fun i => kill_osd i) ;;
  for_ others (fun i => mark_down_osd i) ;;
  for_range 0 100 (fun i => rados_ mon ["-p"; "foo"; "put"; "new_" +:+ zs i; "/etc/resolv.conf"]) ;;
  kill_and_mark_down primary ;;
  for_ others (fun i => revive i) ;;
  (* make sure that pg is down *)
  pgstr <- get_pgid "foo" "0" ;;
  st <- single_pg_state pgstr ;;
  start <- time ;;
  while fuel (fun st => t <- as_str st ;; ret (negb (str_in "down" t)))
    (fun _ =>
       now_ <- time ;;
       assert_ (Qlt_bool (now_ - start) 60) "failed to reach down state before timeout expired" ;;
       single_pg_state pgstr) st ;;
  cmd_ ["osd"; "lost"; zs primary; "--yes-i-really-mean-it"] ;;
  single_pg_state pgstr ;;
  start <- time ;;
  while fuel (fun _ => n <- get_num_down ;; ret (negb (n =? 0)))
    (fun _ =>
       now_ <- time ;;
       assert_ (Qlt_bool (now_ - start) 10) "failed to recover before timeout expired") tt.

(** ** dump_stuck.py *)

(** [re.search('(\d+)' + lit, s)]: the digits of the leftmost match *)
Fixpoint search_number (lit s : string) : option string :=
  match s with
  | EmptyString => None
  | String a s' =>
      let '(ds, rest) := Json.take_digits s in
      if negb (String.eqb ds EmptyString) && startswith lit rest then Some ds else search_number lit s'
  end.
(** [m = re.search(...); assert int(m.group(1)) == n] *)
Definition check_health (health what : string) (n : Z) : MM unit :=
  ds <- of_option (AttributeError "'NoneType' object has no attribute 'group'")
          (search_number (" pgs stuck " +:+ what) health) ;;
  k <- of_option (ValueError "invalid literal for int()") (py_int ds) ;;
  assert_ (k =? n) ("pgs stuck " +:+ what).

Definition check_stuck (num_inactive num_unclean num_stale : Z) : MM unit :=
  inactive <- get_stuck_pgs "inactive" 10 ;;
  unclean <- get_stuck_pgs "unclean" 10 ;;
  stale <- get_stuck_pgs "stale" 10 ;;
  li <- len_ inactive ;; lu <- len_ unclean ;; ls <- len_ stale ;;
  assert_ (li =? num_inactive) "len(inactive) == num_inactive" ;;
  assert_ (lu =? num_unclean) "len(unclean) == num_unclean" ;;
  assert_ (ls =? num_stale) "len(stale) == num_stale" ;;
  health <- raw_cluster_cmd ["health"] ;;
  when (0 <? num_inactive) (check_health health "inactive" num_inactive) ;;
  when (0 <? num_unclean) (check_health health "unclean" num_unclean) ;;
  when (0 <? num_stale) (check_health health "stale" num_stale).

(** Try again as long as an assertion fails, for up to 15 minutes. *)
Definition retry_check (check : MM unit) : MM unit :=
  starttime <- time ;;
  loop fuel (fun _ : unit =>
    done <- catch (check ;; ret true)
              (fun e => match e with
                        | AssertionError _ =>
                            t <- time ;; if Qlt_bool 900 (t - starttime) then raise e else ret false
                        | _ => raise e
                        end) ;;
    ret (if done : bool then inr tt else inl tt)) tt.

Definition dump_stuck_task : MM unit :=
  n <- num_osds ;;
  assert_ (n =? 2) "dump_stuck requires exactly 2 osds" ;;
  new_manager [] ;;
  flush_pg_stats 0 ;; flush_pg_stats 1 ;;
  wait_for_clean (Some 60%Q) ;;
  cmd_ ["tell"; "mon.0"; "injectargs"; "--"; "--mon-pg-stuck-threshold 10"] ;;
  check_stuck 0 0 0 ;;
  num_pgs <- get_num_pgs ;;
  mark_out_osd 0 ;;
  sleep 60 ;;
  flush_pg_stats 1 ;;
  wait_for_recovery (Some 60%Q) ;;
  check_stuck 0 num_pgs 0 ;;
  mark_in_osd 0 ;;
  flush_pg_stats 0 ;; flush_pg_stats 1 ;;
  wait_for_clean (Some 60%Q) ;;
  check_stuck 0 0 0 ;;
  kill_and_mark_down 0 ;;
  retry_check (check_stuck 0 num_pgs 0) ;;
  kill_and_mark_down 1 ;;
  retry_check (check_stuck 0 num_pgs num_pgs) ;;
  s <- get ;;
  for_ (osd_ids (ctx s)) (fun id_ => revive id_ ;; mark_in_osd id_) ;;
  loop fuel (fun _ : unit =>
    catch (flush_pg_stats 0 ;; flush_pg_stats 1 ;; ret (inr tt))
      (fun _ => sleep 1 ;; ret (inl tt))) tt ;;
  wait_for_clean (Some 60%Q) ;;
  check_stuck 0 0 0.

End OsdScenarios.
