(* ===== verification/LostUnfound.v ===== *)
(** * Unfound objects: tasks/lost_unfound.py, ec_lost_unfound.py, rep_lost_unfound_delete.py

    The three tasks write objects while some OSDs are down, declare one of them lost, and
    tell the cluster to revert or delete what it cannot find any more.  The steps they
    share are definitions of their own. *)
From Stdlib Require Import Ascii QArith Qround Lqa.
From S2P Require Import Prelude PyVal World ZbkcManager ManagerWait Scrub Rados OsdScenarios.

Section LostUnfound.
Context {E : Env} {F : Fuel}.
Context (get_first_mon : context -> dict -> string).
Abbreviation MM A := (M mgr A).

(** [for f in range(1, 10)]: objects that exist, and objects that existed once *)
Definition create_old_objects (mon : remote) (pool dummyfile : string) : MM unit :=
  for_range 1 10 (fun f =>
    rados_ mon ["-p"; pool; "put"; "existing_" +:+ zs f; dummyfile] ;;
    rados_ mon ["-p"; pool; "put"; "existed_" +:+ zs f; dummyfile] ;;
    rados_ mon ["-p"; pool; "rm"; "existed_" +:+ zs f]).
Definition create_new_objects (mon : remote) (pool dummyfile : string) : MM unit :=
  for_range 1 10 (fun f =>
    rados_ mon ["-p"; pool; "put"; "new_" +:+ zs f; dummyfile] ;;
    rados_ mon ["-p"; pool; "put"; "existed_" +:+ zs f; dummyfile] ;;
    rados_ mon ["-p"; pool; "put"; "existing_" +:+ zs f; dummyfile]).

(** Delay recovery on osd.1, so that the objects keep missing. *)
Definition delay_osd1 : MM unit :=
  cmd_ ["tell"; "osd.1"; "injectargs"; "--osd-recovery-delay-start 1000 --osd-min-pg-log-entries 100000000"].
(** [ctx.daemons.get_daemon('osd', 0).command_kwargs['args'].extend(...)]: the default
    cluster of [get_daemon] is 'zbkc' *)
Definition delay_osd0_restart : MM unit :=
  daemon (DExtendArgs ["--osd-recovery-delay-start"; "1000"]) "osd" "0" "zbkc".

Definition assert_unfound : MM unit :=
  unfound <- get_num_unfound_objects ;;
  fmt_d unfound ;;
  assert_ (truthy unfound) "unfound".

(** The benchmark in the background, when it is asked for; the list [procs] *)
Definition parallel_bench (mon : remote) (pool : string) (config : dict) : MM (list proc) :=
  s <- get ;;
  if truthy (dict_get "parallel_bench" (PBool true) config) then
    p <- start mon ["/bin/sh"; "-c";
      str_join " " ["adjust-ulimits"; "zbkc-coverage"; coverage s; "rados"; "--no-log-to-stderr";
        "--name"; "client.admin"; "-b"; "4096"; "-p"; pool; "-t"; "20"; "bench"; "240"; "write"]] ;;
    ret [p]
  else ret [].
(** [run.wait(procs)] *)
Definition wait_procs (procs : list proc) : MM unit := for_ procs (fun p => wait_proc p true ;; ret tt).

(** [num_unfound]: the objects listed without a location *)
Fixpoint count_unfound (objects : list pyval) (num_unfound : Z) : MM Z :=
  match objects with
  | [] => ret num_unfound
  | o :: objects' =>
      l <- subscript o "locations" ;; n <- len_ l ;;
      count_unfound objects' (if n =? 0 then num_unfound + 1 else num_unfound)
  end.

(** [pg['stat_sum']['num_objects_unfound']] *)
Definition pg_unfound (pg : pyval) : MM pyval :=
  sum <- subscript pg "stat_sum" ;; subscript sum "num_objects_unfound".
(** [log.info("no unfound in %s", pg['pgid'])] and the like *)
Definition pg_id (pg : pyval) : MM string := v <- subscript pg "pgid" ;; as_str v.

(** Check the missing objects of a pg, one by one, and have the lost ones reverted or
    deleted ([how]). *)
Definition mark_unfound_lost (how : string) (pg : pyval) : MM unit :=
  n <- pg_unfound pg ;;
  if py_gt n (PInt 0) then
    a <- subscript pg "acting" ;; acting <- as_list a ;; p <- item acting 0 ;; fmt_d p ;;
    id <- pg_id pg ;; subscript pg "state" ;;
    m <- list_pg_missing id ;;
    k <- subscript m "num_unfound" ;;
    assert_ (py_eq k n) "m['num_unfound'] == pg['stat_sum']['num_objects_unfound']" ;;
    o <- subscript m "objects" ;; objects <- as_list o ;;
    num_unfound <- count_unfound objects 0 ;;
    assert_ (py_eq k (PInt num_unfound)) "m['num_unfound'] == num_unfound" ;;
    cmd_ ["pg"; id; "mark_unfound_lost"; how]
  else subscript pg "pgid" ;; ret tt.
(** The same in ec_lost_unfound.py, which does not count the objects. *)
Definition mark_unfound_deleted (pg : pyval) : MM unit :=
  n <- pg_unfound pg ;;
  if py_gt n (PInt 0) then
    id <- pg_id pg ;; subscript pg "state" ;;
    m <- list_pg_missing id ;;
    k <- subscript m "num_unfound" ;;
    assert_ (py_eq k n) "m['num_unfound'] == pg['stat_sum']['num_objects_unfound']" ;;
    cmd_ ["pg"; id; "mark_unfound_lost"; "delete"]
  else subscript pg "pgid" ;; ret tt.

Definition kick (i : Z) : MM unit := cmd_ ["tell"; osd_name i; "debug"; "kick_recovery_wq"; "5"].

(** Read an object: the read must fail ([gone]), or must not. *)
Definition check_get (mon : remote) (pool name : string) (gone : bool) : MM unit :=
  err <- rados mon ["-p"; pool; "get"; name; "-"] ;;
  assert_ (Bool.eqb (negb (err =? 0)) gone) (if gone then "err" else "not err").
Definition verify_result (mon : remote) (pool : string) (existing_gone : bool) : MM unit :=
  for_range 1 10 (fun f =>
    check_get mon pool ("new_" +:+ zs f) true ;;
    check_get mon pool ("existed_" +:+ zs f) true ;;
    check_get mon pool ("existing_" +:+ zs f) existing_gone).

(** What lost_unfound.py and rep_lost_unfound_delete.py do between creating the pool and
    listing the unfound objects *)
Definition make_unfound (mon : remote) (POOL dummyfile : string) : MM unit :=
  (* take an osd out until the very end *)
  kill_osd 2 ;;
  mark_down_osd 2 ;;
  mark_out_osd 2 ;;
  rados_ mon ["-p"; POOL; "put"; "dummy"; dummyfile] ;;
  flush_pg_stats 0 ;; flush_pg_stats 1 ;;
  wait_for_recovery None ;;
  create_old_objects mon POOL dummyfile ;;
  delay_osd1 ;;
  kill_osd 0 ;;
  mark_down_osd 0 ;;
  create_new_objects mon POOL dummyfile ;;
  (* bring osd.0 back up, let it peer, but don't replicate the new objects *)
  delay_osd0_restart ;;
  revive 0 ;;
  mark_in_osd 0 ;;
  wait_till_osd_is_up 0 None ;;
  flush_pg_stats 1 ;; flush_pg_stats 0 ;;
  wait_till_active None ;;
  (* take out osd.1 and the only copy of those objects *)
  kill_osd 1 ;;
  mark_down_osd 1 ;;
  mark_out_osd 1 ;;
  cmd_ ["osd"; "lost"; "1"; "--yes-i-really-mean-it"] ;;
  (* bring up osd.2 so that things would otherwise recover *)
  revive 2 ;;
  mark_in_osd 2 ;;
  wait_till_osd_is_up 2 None ;;
  flush_pg_stats 0 ;; flush_pg_stats 2 ;;
  wait_till_active None ;;
  flush_pg_stats 0 ;; flush_pg_stats 2 ;;
  assert_unfound.

(** ... and from there to the end *)
Definition resolve_unfound (mon : remote) (POOL how : string) (existing_gone : bool) (config : dict) : MM unit :=
  procs <- parallel_bench mon POOL config ;;
  sleep 10 ;;
  pgs <- get_pg_stats ;;
  for_ pgs (mark_unfound_lost how) ;;
  kick 0 ;; kick 2 ;;
  flush_pg_stats 0 ;; flush_pg_stats 2 ;;
  wait_for_recovery None ;;
  verify_result mon POOL existing_gone ;;
  (* see if osd.1 can cope *)
  revive 1 ;;
  mark_in_osd 1 ;;
  wait_till_osd_is_up 1 None ;;
  wait_for_clean None ;;
  wait_procs procs.

Definition lost_unfound_task (config : dict) : MM unit :=
  let POOL := "unfound_pool" in
  mon <- new_manager get_first_mon config ;;
  wait_for_osds_up 3 10 ;;
  wait_for_clean None ;;
  create_pool POOL 16 None None false ;;
  make_unfound mon POOL "/etc/fstab" ;;
  resolve_unfound mon POOL "revert" false config.

Definition rep_lost_unfound_delete_task (config : dict) : MM unit :=
  let POOL := "unfounddel_pool" in
  mon <- new_manager get_first_mon config ;;
  wait_for_osds_up 3 10 ;;
  flush_pg_stats 0 ;; flush_pg_stats 1 ;; flush_pg_stats 2 ;;
  wait_for_clean None ;;
  create_pool POOL 16 None None false ;;
  make_unfound mon POOL "/etc/fstab" ;;
  resolve_unfound mon POOL "delete" true config.

(** ** ec_lost_unfound.py *)

(** The profile with its values as texts: [str(value)] in [cmd_erasure_code_profile] *)
Definition profile_of (v : pyval) : MM (list (string * string)) :=
  d <- as_dict v ;; ret (map (fun kv => (kv.1, py_str kv.2)) d).
Definition ec_default_profile : pyval :=
  PDict [("k", PStr "2"); ("m", PStr "2"); ("ruleset-failure-domain", PStr "osd")].

Definition ec_make_unfound (mon : remote) (pool dummyfile : string) : MM unit :=
  rados_ mon ["-p"; pool; "put"; "dummy"; dummyfile] ;;
  flush_pg_stats 0 ;; flush_pg_stats 1 ;;
  wait_for_recovery None ;;
  create_old_objects mon pool dummyfile ;;
  delay_osd1 ;;
  kill_osd 0 ;; mark_down_osd 0 ;;
  kill_osd 3 ;; mark_down_osd 3 ;;
  create_new_objects mon pool dummyfile ;;
  (* take out osd.1 and a necessary shard of those objects *)
  kill_osd 1 ;; mark_down_osd 1 ;;
  cmd_ ["osd"; "lost"; "1"; "--yes-i-really-mean-it"] ;;
  revive 0 ;;
  wait_till_osd_is_up 0 None ;;
  revive 3 ;;
  wait_till_osd_is_up 3 None ;;
  flush_pg_stats 0 ;; flush_pg_stats 2 ;; flush_pg_stats 3 ;;
  wait_till_active None ;;
  flush_pg_stats 0 ;; flush_pg_stats 2 ;; flush_pg_stats 3 ;;
  assert_unfound.

Definition ec_lost_unfound_task (config : dict) : MM unit :=
  mon <- new_manager get_first_mon config ;;
  wait_for_clean None ;;
  let p := dict_get "erasure_code_profile" ec_default_profile config in
  d <- as_dict p ;;
  profile_name <- as_str (dict_get "name" (PStr "lost_unfound") d) ;;
  profile <- profile_of p ;;
  create_erasure_code_profile profile_name profile ;;
  pool <- create_pool_with_unique_name 16 (Some profile_name) (Some 2) false ;;
  ec_make_unfound mon pool "/etc/group" ;;
  procs <- parallel_bench mon pool config ;;
  sleep 10 ;;
  pgs <- get_pg_stats ;;
  for_ pgs mark_unfound_deleted ;;
  kick 0 ;; kick 2 ;; kick 3 ;;
  flush_pg_stats 0 ;; flush_pg_stats 2 ;; flush_pg_stats 3 ;;
  wait_for_recovery None ;;
  when (negb (truthy (dict_get "parallel_bench" (PBool true) config))) (sleep 20) ;;
  verify_result mon pool true ;;
  revive 1 ;;
  wait_till_osd_is_up 1 None ;;
  wait_for_clean None ;;
  wait_procs procs.

End LostUnfound.
