(* ===== verification/Divergent.v ===== *)
(** * Divergent logs: tasks/divergent_priors.py, divergent_priors2.py, reg11184.py

    The tasks make the primary of a one-pg pool take writes that its replicas drop, and
    check that the cluster later agrees on one history.  The first part is the same in the
    three of them.  They run on [ctx.managers['zbkc']], the state of the monad. *)
From Stdlib Require Import Ascii QArith Qround Lqa.
From S2P Require Import Prelude PyVal World ZbkcManager ManagerWait Scrub Rados OsdScenarios.

Section Divergent.
Context {E : Env} {F : Fuel}.
Context (get_first_mon : context -> dict -> string).
Context (getpid : Z).                                (* os.getpid() *)
Abbreviation MM A := (M mgr A).

Definition three_osds : list Z := [0; 1; 2].

(** Up to the writing of the first objects: the primary, the others, the client's machine *)
Definition setup_divergent (config : dict) (dummyfile : string) : MM (Z * list Z * remote) :=
  wait_for_osds_up 3 10 ;;
  flush_pg_stats 0 ;; flush_pg_stats 1 ;; flush_pg_stats 2 ;;
  cmd_ ["osd"; "set"; "noout"] ;;
  cmd_ ["osd"; "set"; "noin"] ;;
  cmd_ ["osd"; "set"; "nodown"] ;;
  wait_for_clean None ;;
  (* create 1 pg pool *)
  cmd_ ["osd"; "pool"; "create"; "foo"; "1"] ;;
  for_ three_osds (fun i =>
    set_config i [("osd_min_pg_log_entries", "10")] ;;
    set_config i [("osd_max_pg_log_entries", "10")] ;;
    set_config i [("osd_pg_log_trim_min", "5")]) ;;
  divergent <- get_pg_primary "foo" "0" ;;
  non_divergent <- py_remove_first divergent three_osds ;;
  s <- get ;;
  mon <- only_remote (get_first_mon (ctx s) config) ;;
  for_range 0 100 (fun i => rados_ mon ["-p"; "foo"; "put"; "existing_" +:+ zs i; dummyfile]) ;;
  wait_for_clean None ;;
  ret (divergent, non_divergent, mon).

Definition DIVERGENT_WRITE : Z := 5.
Definition DIVERGENT_REMOVE : Z := 5.

(** Writes and removals that the blackholed replicas lose *)
Definition write_divergent (non_divergent : list Z) (mon : remote) (dummyfile2 : string) : MM unit :=
  for_ non_divergent (fun i => set_config i [("objectstore_blackhole", "1")]) ;;
  for_range 0 DIVERGENT_WRITE (fun i =>
    rados_nowait mon ["-p"; "foo"; "put"; "existing_" +:+ zs i; dummyfile2] ;; ret tt) ;;
  for_range 0 DIVERGENT_REMOVE (fun i =>
    rados_nowait mon ["-p"; "foo"; "rm"; "existing_" +:+ zs (i + DIVERGENT_WRITE)] ;; ret tt) ;;
  sleep 10 ;;
  run mon ["killall"; "-9"; "rados"] false ;;
  ret tt.

(** Stop everything, bring the others back and let them go on without the primary *)
Definition restart_non_divergent (non_divergent : list Z) (mon : remote) (dummyfile2 : string) : MM unit :=
  for_ three_osds (fun i => kill_osd i) ;;
  for_ three_osds (fun i => mark_down_osd i) ;;
  for_ non_divergent (fun i => mark_out_osd i) ;;
  for_ non_divergent (fun i => revive i) ;;
  for_ non_divergent (fun i => mark_in_osd i) ;;
  let objname := "existing_" +:+ zs (DIVERGENT_WRITE + DIVERGENT_REMOVE) in
  rados_ mon ["-p"; "foo"; "put"; objname; dummyfile2] ;;
  wait_for_recovery None ;;
  for_ non_divergent (fun i =>
    wait_run_admin_socket "osd" (zs i) ["set_recovery_delay"; "100000"] 75).

(** Bring in the divergent OSD, which must not recover yet *)
Definition revive_divergent (divergent : Z) (mon : remote) (dummyfile : string) : MM unit :=
  cmd_ ["osd"; "set"; "noup"] ;;
  revive divergent ;;
  wait_run_admin_socket "osd" (zs divergent) ["set_recovery_delay"; "100000"] 75 ;;
  cmd_ ["osd"; "unset"; "noup"] ;;
  wait_for_osds_up 3 10 ;;
  rados_ mon ["-p"; "foo"; "put"; "foo"; dummyfile].

(** The part the three tasks share *)
Definition diverge (config : dict) (dummyfile dummyfile2 : string) : MM (Z * list Z * remote) :=
  x <- setup_divergent config dummyfile ;;
  let '(divergent, non_divergent, mon) := x in
  write_divergent non_divergent mon dummyfile2 ;;
  restart_non_divergent non_divergent mon dummyfile2 ;;
  revive_divergent divergent mon dummyfile ;;
  ret x.

Definition allow_recovery : MM unit :=
  for_ three_osds (fun i => cmd_ ["tell"; osd_name i; "debug"; "kick_recovery_wq"; " 0"]).
Definition read_divergent (mon : remote) : MM unit :=
  for_range 0 (DIVERGENT_WRITE + DIVERGENT_REMOVE) (fun i =>
    exit_status <- rados mon ["-p"; "foo"; "get"; "existing_" +:+ zs i; "/tmp/existing"] ;;
    assert_ (exit_status =? 0) "exit_status is 0").

Definition divergent_priors_task (config : dict) : MM unit :=
  x <- diverge config "/etc/fstab" "/etc/resolv.conf" ;;
  let '(divergent, _, mon) := x in
  (* the divergent_priors should have been detected *)
  kill_osd divergent ;;
  revive divergent ;;
  sleep 20 ;;
  allow_recovery ;;
  read_divergent mon.

(** ** The object store tool on a stopped OSD *)

(** [prefix.format(id=...)], where [prefix] has [manager.get_filepath()] in it *)
Definition tool_prefix_of (cl : string) (id : Z) : string :=
  let fpath := "/var/lib/zbkc/osd/" +:+ cl +:+ "-" +:+ zs id in
  "sudo adjust-ulimits zbkc-objectstore-tool --data-path " +:+ fpath +:+
  " --journal-path " +:+ fpath +:+ "/journal --log-file=/var/log/zbkc/objectstore_tool.$$.log ".
(** [proc = exp_remote.run(args=cmd, check_status=False); assert proc.exitstatus == 0] *)
Definition tool_op (exp_remote : remote) (osd : Z) (args : string) : MM unit :=
  s <- get ;;
  p <- run exp_remote [tool_prefix_of (cluster s) osd +:+ args] false ;;
  assert_ (exitstatus p =? 0) "proc.exitstatus == 0".
Definition expfile (s : mgr) : string := testdir (ctx s) +:+ "/exp." +:+ zs getpid +:+ ".out".

Definition divergent_priors2_task (config : dict) : MM unit :=
  x <- diverge config "/etc/fstab" "/etc/resolv.conf" ;;
  let '(divergent, _, mon) := x in
  kill_osd divergent ;;
  exp_remote <- only_remote (osd_name divergent) ;;
  s <- get ;;
  tool_op exp_remote divergent ("--op export --pgid 1.0 --file " +:+ expfile s) ;;
  tool_op exp_remote divergent "--op remove --pgid 1.0" ;;
  tool_op exp_remote divergent ("--op import --file " +:+ expfile s) ;;
  revive divergent ;;
  wait_run_admin_socket "osd" (zs divergent) ["dump_ops_in_flight"] 75 ;;
  sleep 20 ;;
  allow_recovery ;;
  read_divergent mon ;;
  run exp_remote ["rm " +:+ expfile s] true ;;
  ret tt.

Definition reg11184_task (config : dict) : MM unit :=
  x <- diverge config "/etc/fstab" "/etc/resolv.conf" ;;
  let '(divergent, non_divergent, mon) := x in
  kill_osd divergent ;;
  (* split pgs for pool foo *)
  cmd_ ["osd"; "pool"; "set"; "foo"; "pg_num"; "2"] ;;
  sleep 5 ;;
  exp_remote <- only_remote (osd_name divergent) ;;
  s <- get ;;
  tool_op exp_remote divergent ("--op export --pgid 1.0 --file " +:+ expfile s) ;;
  tool_op exp_remote divergent "--op remove --pgid 1.0" ;;
  other <- of_option IndexError (non_divergent !! 1%nat) ;;
  kill_osd other ;;
  mark_down_osd other ;;
  tool_op exp_remote other ("--op import --file " +:+ expfile s) ;;
  revive divergent ;;
  mark_in_osd divergent ;;
  revive other ;;
  wait_for_osds_up 3 10 ;;
  set_config divergent [("osd_recovery_delay_start", "100000")] ;;
  mark_in_osd divergent ;;
  rados_ mon ["-p"; "foo"; "put"; "foo"; "/etc/fstab"] ;;
  kill_osd divergent ;;
  revive divergent ;;
  sleep 3 ;;
  allow_recovery ;;
  read_divergent mon ;;
  r <- only_remote (osd_name divergent) ;;
  run r ["rm " +:+ expfile s] true ;;
  ret tt.

End Divergent.
