(* ===== verification/Workloads.v ===== *)
(** * Workloads: tasks that put load on a cluster

    tasks/rados.py, radosbench.py, recovery_bench.py, thrash_pool_snaps.py,
    create_verify_lfn_objects.py, peering_speed_test.py, watch_notify_same_primary.py,
    manypools.py, populate_rbd_pool.py and die_on_err.py.  They run on
    [ctx.managers['zbkc']], the state of the monad, or on a manager of their own.
    [client_ids] stands for [teuthology.all_roles_of_type(ctx.cluster, 'client')].  The
    items of a dictionary come in the order they were put in. *)
From Stdlib Require Import Ascii QArith Qround Lqa.
From S2P Require Import Prelude PyVal World ZbkcManager ManagerWait Scrub Rados OsdScenarios LostUnfound.

Section Helpers.
Context {E : Env} {S : Type}.
(** An [int], as [range] and integer arithmetic take it *)
Definition as_Z (v : pyval) : M S Z :=
  match v with
  | PInt z => ret z
  | PBool b => ret (if b then 1 else 0)
  | _ => raise (TypeError "an integer is required")
  end.
(** [v / 2] in Python 2 *)
Definition half (v : pyval) : M S pyval :=
  match v with
  | PInt z => ret (PInt (z / 2))
  | PBool b => ret (PInt 0)
  | PFloat q => ret (PFloat (q / 2)%Q)
  | _ => raise (TypeError "unsupported operand type(s) for /")
  end.
(** [assert role.startswith('client.'); role[len('client.'):]] *)
Definition client_id (v : pyval) : M S (string * string) :=
  match v with
  | PStr role =>
      assert_ (startswith "client." role) "role.startswith(PREFIX)" ;; ret (role, str_from 7 role)
  | _ => raise (AssertionError "isinstance(role, basestring)")
  end.
(** [d[k] = v] on a dictionary of processes *)
Fixpoint set_proc (k : string) (p : proc) (d : list (string * proc)) : list (string * proc) :=
  match d with
  | [] => [(k, p)]
  | (k', p') :: d' => if String.eqb k k' then (k, p) :: d' else (k', p') :: set_proc k p d'
  end.
End Helpers.

(** ** rados.py *)

Section RadosTask.
Context {E : Env} {F : Fuel}.
Context (client_ids : context -> list string).
Abbreviation MM A := (M mgr A).

Definition flag_if (config : dict) (key : string) (arg : string) : list string :=
  if truthy (dict_get key (PBool false) config) then [arg] else [].
Definition model_args (s : mgr) (config : dict) (object_size : Z) : list string :=
  let str_of k d := py_str (dict_get k d config) in
  ["adjust-ulimits"; "zbkc-coverage"; coverage s; "zbkc_test_rados"] ++
  (if truthy (dict_get "ec_pool" (PBool false) config)
   then "--no-omap" :: (if truthy (dict_get "erasure_code_use_hacky_overwrites" (PBool false) config)
                        then ["--no-sparse"] else ["--ec-pool"])
   else []) ++
  flag_if config "write_fadvise_dontneed" "--write-fadvise-dontneed" ++
  flag_if config "pool_snaps" "--pool-snaps" ++
  ["--max-ops"; str_of "ops" (PInt 10000);
   "--objects"; str_of "objects" (PInt 500);
   "--max-in-flight"; str_of "max_in_flight" (PInt 16);
   "--size"; zs object_size;
   "--min-stride-size"; str_of "min_stride_size" (PInt (object_size / 10));
   "--max-stride-size"; str_of "max_stride_size" (PInt (object_size / 5));
   "--max-seconds"; str_of "max_seconds" (PInt 0)].

Definition op_fields : list string :=
  ["snap_create"; "snap_remove"; "rollback"; "setattr"; "rmattr"; "watch"; "copy_from"; "hit_set_list";
   "is_dirty"; "undirty"; "cache_flush"; "cache_try_flush"; "cache_evict"; "append"; "write"; "read"; "delete"].
Definition base_weights (op_weights : dict) : dict :=
  fold_left (fun weights field =>
    match dict_lookup field op_weights with Some w => dict_set field w weights | None => weights end)
    op_fields [("read", PInt 100); ("write", PInt 100); ("delete", PInt 10)].
(** [weights[op] = weights[op] / 2; weights[excl] = weights[op]], when [op] is there *)
Definition split_weight (op excl : string) (weights : dict) : MM dict :=
  match dict_lookup op weights with
  | None => ret weights
  | Some w => h <- half w ;; ret (dict_set excl h (dict_set op h weights))
  end.
Definition op_weights_of (config : dict) : MM dict :=
  op_weights <- as_dict (dict_get "op_weights" (PDict []) config) ;;
  let weights := base_weights op_weights in
  if truthy (dict_get "write_append_excl" (PBool true) config) then
    weights <- split_weight "write" "write_excl" weights ;;
    split_weight "append" "append_excl" weights
  else ret weights.
Definition weight_args (weights : dict) : list string :=
  concat (map (fun ow => ["--op"; ow.1; py_str ow.2]) weights).

(** The pool of one client: [existing_pools.pop()], or a new one.  A configured [pool] takes
    the second branch too.  The result is the pool, what is left of the existing ones, and
    the created ones. *)
Definition new_pool (config : dict) (profile_name : option string) : MM string :=
  name <- create_pool_with_unique_name 16 profile_name None
            (truthy (dict_get "erasure_code_use_hacky_overwrites" (PBool false) config)) ;;
  when (truthy (dict_get "fast_read" (PBool false) config)) (cmd_ ["osd"; "pool"; "set"; name; "fast_read"; "true"]) ;;
  ret name.
Definition client_pool (config : dict) (profile_name : option string) (existing : list pyval) (created : list string)
  : MM (string * list pyval * list string) :=
  match last existing with
  | Some p =>
      if truthy (dict_get "pool" PNone config)
      then name <- new_pool config profile_name ;; ret (name, existing, created ++ [name])
      else name <- as_str p ;; ret (name, removelast existing, created)
  | None => name <- new_pool config profile_name ;; ret (name, existing, created ++ [name])
  end.

(** One run over the clients; [tests] has a process for each id *)
Fixpoint run_clients (config : dict) (args : list string) (profile_name : option string) (roles : list pyval)
  (existing : list pyval) (created : list string) (tests : list (string * proc))
  : MM (list pyval * list string * list (string * proc)) :=
  match roles with
  | [] => ret (existing, created, tests)
  | v :: roles' =>
      ri <- client_id v ;;
      let '(role, id_) := ri in
      x <- client_pool config profile_name existing created ;;
      let '(pool, existing, created) := x in
      r <- only_remote role ;;
      p <- start r (["ZBKC_CLIENT_ID=" +:+ id_] ++ args ++ ["--pool"; pool]) ;;
      run_clients config args profile_name roles' existing created (set_proc id_ p tests)
  end.
(** [for i in range(int(config.get('runs', '1')))]: [existing_pools] is the list in [config],
    and what one run took from it is gone for the next. *)
Fixpoint rados_runs (n : nat) (config : dict) (args : list string) (profile_name : option string)
  (roles existing : list pyval) : MM unit :=
  match n with
  | O => ret tt
  | Datatypes.S k =>
      x <- run_clients config args profile_name roles existing [] [] ;;
      let '(existing, created, tests) := x in
      for_ tests (fun t => wait_proc t.2 true ;; ret tt) ;;
      for_ created remove_pool ;;
      rados_runs k config args profile_name roles existing
  end.
Definition rados_thread (config : dict) (args : list string) : MM unit :=
  s <- get ;;
  let clients := map (fun id => PStr ("client." +:+ id)) (client_ids (ctx s)) in
  profile_name <- (if truthy (dict_get "ec_pool" (PBool false) config) then
                     let p := dict_get "erasure_code_profile" (PDict []) config in
                     d <- as_dict p ;;
                     name <- as_str (dict_get "name" (PStr "teuthologyprofile") d) ;;
                     profile <- profile_of p ;;
                     create_erasure_code_profile name profile ;; ret (Some name)
                   else ret None) ;;
  runs <- as_int (dict_get "runs" (PStr "1") config) ;;
  roles <- as_list (dict_get "clients" (PList clients) config) ;;
  existing <- as_list (dict_get "pools" (PList []) config) ;;
  rados_runs (Z.to_nat runs) config args profile_name roles existing.

(** The task around the code it is entered for *)
Definition rados_args (config : dict) : MM (list string) :=
  object_size <- as_int (dict_get "object_size" (PInt 4000000) config) ;;
  s <- get ;;
  weights <- op_weights_of config ;;
  ret (model_args s config object_size ++ weight_args weights).
Definition rados_task {A} (config : dict) (body : MM A) : MM A :=
  rados_args config ;;
  emit (EvSpawn "rados") ;;
  finally body (emit (EvJoin "rados") ;; ret tt).
End RadosTask.

(** ** radosbench.py *)

Section Radosbench.
Context {E : Env} {F : Fuel}.
Abbreviation MM A := (M mgr A).

(** One client: the pool it writes to and the process *)
Definition bench_client (config : dict) (v : pyval) : MM (string * string * proc) :=
  ri <- client_id v ;;
  let '(role, id_) := ri in
  r <- only_remote role ;;
  profile_name <- (if truthy (dict_get "ec_pool" (PBool false) config) then
                     let p := dict_get "erasure_code_profile" (PDict []) config in
                     d <- as_dict p ;;
                     name <- as_str (dict_get "name" (PStr "teuthologyprofile") d) ;;
                     profile <- profile_of p ;;
                     create_erasure_code_profile name profile ;; ret (Some name)
                   else ret None) ;;
  let cleanup := if truthy (dict_get "cleanup" (PBool true) config) then [] else ["--no-cleanup"] in
  pool <- as_str (dict_get "pool" (PStr "data") config) ;;
  pool <- (if truthy (dict_get "create_pool" (PBool true) config) then
             if negb (String.eqb pool "data")
             then create_pool pool 16 profile_name None false ;; ret pool
             else create_pool_with_unique_name 16 profile_name None false
           else ret pool) ;;
  s <- get ;;
  p <- start r ["/bin/sh"; "-c";
    str_join " " (["adjust-ulimits"; "zbkc-coverage"; coverage s; "rados"; "--no-log-to-stderr"; "--name"; role;
                   "-b"; py_str (dict_get "size" (PInt 4194304) config); "-p"; pool;
                   "bench"; py_str (dict_get "time" (PInt 360) config); "write"] ++ cleanup)] ;;
  ret (pool, id_, p).
(** The loop over the clients: [pool] is the last one's, [radosbench] the processes. *)
Fixpoint bench_clients (config : dict) (roles : list pyval) (pool : option string) (procs : list (string * proc))
  : MM (option string * list (string * proc)) :=
  match roles with
  | [] => ret (pool, procs)
  | v :: roles' =>
      x <- bench_client config v ;;
      let '(name, id_, p) := x in
      bench_clients config roles' (Some name) (set_proc id_ p procs)
  end.
(** The end of the task: wait, and remove the one pool that [pool] still names.  With
    [create_pool] that name is not 'data', whose place a unique name took. *)
Definition bench_finish (config : dict) (pool : option string) (procs : list (string * proc)) : MM unit :=
  as_num (dict_get "time" (PInt 360) config) ;;
  for_ procs (fun t => wait_proc t.2 true ;; ret tt) ;;
  pool <- of_option (OtherError "UnboundLocalError") pool ;;
  when (negb (String.eqb pool "data") && truthy (dict_get "create_pool" (PBool true) config)) (remove_pool pool).
Definition radosbench_task {A} (config : dict) (body : MM A) : MM A :=
  roles <- as_list (dict_get "clients" (PList [PStr "client.0"]) config) ;;
  x <- bench_clients config roles None [] ;;
  finally body (bench_finish config x.1 x.2).
End Radosbench.

(** ** thrash_pool_snaps.py *)

Section PoolSnaps.
Context {E : Env} {F : Fuel}.
Abbreviation MM A := (M mgr A).

(** [remove_snap()] and [add_snap(snap)] on the list [snaps] *)
Definition remove_snap (pools : list string) (snaps : list Z) : MM (list Z) :=
  assert_ (0 <? Z.of_nat (length snaps)) "len(snaps) > 0" ;;
  snap <- choice snaps ;;
  for_ pools (fun pool => remove_pool_snap pool (zs snap)) ;;
  py_remove_first snap snaps.
Definition add_snap (pools : list string) (snaps : list Z) (snap : Z) : MM (list Z) :=
  for_ pools (fun pool => add_pool_snap pool (zs snap)) ;;
  ret (snaps ++ [snap]).
Definition snap_round (pools : list string) (max_snaps min_snaps : pyval) (period : Q) (l : Z * list Z)
  : MM (Z * list Z) :=
  let '(index, snaps) := l in
  let index := index + 1 in
  sleep period ;;
  let n := PInt (Z.of_nat (length snaps)) in
  snaps <- (if py_le n min_snaps then add_snap pools snaps index
            else if py_le max_snaps n then remove_snap pools snaps
            else
              add <- choice [true; false] ;;
              if add : bool then add_snap pools snaps index else remove_snap pools snaps) ;;
  ret (index, snaps).
Definition snaps_do_thrash (config : dict) : MM unit :=
  ps <- as_list (dict_get "pools" (PList []) config) ;; pools <- map_ as_str ps ;;
  let max_snaps := dict_get "max_snaps" (PInt 10) config in
  let min_snaps := dict_get "min_snaps" (PInt 5) config in
  period <- as_num (dict_get "period" (PInt 30) config) ;;
  while fuel (fun _ => b <- stopping ;; ret (negb b)) (snap_round pools max_snaps min_snaps period) (0, []) ;;
  ret tt.
(** There is no [try] around the [yield]. *)
Definition thrash_pool_snaps_task {A} (body : MM A) : MM A :=
  emit (EvSpawn "do_thrash") ;;
  a <- body ;;
  emit (EvJoin "do_thrash") ;;
  ret a.
End PoolSnaps.

(** ** create_verify_lfn_objects.py *)

Section LfnObjects.
Context {E : Env} {F : Fuel}.
Abbreviation MM A := (M mgr A).

(** [object_name(i)] for the length [l]: [nslength] is the length of the list [namespace] *)
Definition object_name (l : Z) (namespace : list pyval) (prefix : pyval) (i : Z) : MM string :=
  let nslength := Z.of_nat (length namespace) in
  let numstr := zs i in
  plen <- len_ prefix ;;
  let fillerlen := l - nslength - plen - Z.of_nat (String.length numstr) in
  assert_ (0 <=? fillerlen) "fillerlen >= 0" ;;
  pre <- as_str prefix ;;
  ret (pre +:+ String.concat EmptyString (repeat "a" (Z.to_nat fillerlen)) +:+ numstr).
Definition ns_of (v : pyval) : MM (option string) :=
  match v with PNone => ret None | _ => s <- as_str v ;; ret (Some s) end.
Definition lfn_objects (config : dict) : MM (list (option string * string)) :=
  num_objects <- as_Z (dict_get "num_objects" (PInt 10) config) ;;
  name_length <- as_list (dict_get "name_length" (PList [PInt 400]) config) ;;
  namespace <- as_list (dict_get "namespace" (PList [PNone]) config) ;;
  let prefix := dict_get "prefix" PNone config in
  ll <- map_ (fun lv =>
    l <- as_Z lv ;;
    nn <- map_ (fun nsv =>
      ns <- ns_of nsv ;;
      map_ (fun i => name <- object_name l namespace prefix i ;; ret (ns, name))
        (map Z.of_nat (seq 0 (Z.to_nat num_objects)))) namespace ;;
    ret (concat nn)) name_length ;;
  ret (concat ll).
Definition lfn_verify (pool : string) (objects : list (option string * string)) : MM unit :=
  for_ objects (fun o => err <- do_get pool o.2 "/dev/null" o.1 ;; assert_ (err =? 0) "err == 0") ;;
  for_ objects (fun o => err <- do_rm pool o.2 o.1 ;; assert_ (err =? 0) "err == 0") ;;
  for_ objects (fun o => err <- do_get pool o.2 "/dev/null" o.1 ;; assert_ (negb (err =? 0)) "err != 0").
Definition create_verify_lfn_objects_task {A} (config : dict) (body : MM A) : MM A :=
  pool <- as_str (dict_get "pool" (PStr "data") config) ;;
  objects <- lfn_objects config ;;
  for_ objects (fun o => err <- do_put pool o.2 "/etc/resolv.conf" o.1 ;; assert_ (err =? 0) "err == 0") ;;
  finally body (lfn_verify pool objects).
End LfnObjects.

(** ** recovery_bench.py *)

(** [float(v)], [None] for an exception *)
Definition float_opt (v : pyval) : option Q :=
  match v with
  | PStr s => match Json.number (str_strip s) with Some (n, EmptyString) => num_of n | _ => None end
  | _ => num_of v
  end.
Definition hashable (v : pyval) : bool := match v with PList _ | PDict _ => false | _ => true end.
(** The samples of each type, in [lat] *)
Abbreviation samples_of := (list (pyval * list Q)) (only parsing).
(** [lat.setdefault(k, [])] *)
Fixpoint lat_setdefault (k : pyval) (lat : samples_of) : samples_of :=
  match lat with
  | [] => [(k, [])]
  | (k', l) :: lat' => if py_eq k k' then (k', l) :: lat' else (k', l) :: lat_setdefault k lat'
  end.
Fixpoint lat_append (k : pyval) (x : Q) (lat : samples_of) : samples_of :=
  match lat with
  | [] => []
  | (k', l) :: lat' => if py_eq k k' then (k', l ++ [x]) :: lat' else (k', l) :: lat_append k x lat'
  end.
(** A line of the output; whatever raises leaves [lat] as it is by then. *)
Definition add_sample (lat : samples_of) (line : string) : samples_of :=
  match Json.loads line with
  | Some (PDict sample) =>
      match dict_lookup "type" sample with
      | Some ty =>
          if hashable ty then
            let lat := lat_setdefault ty lat in
            match dict_lookup "latency" sample with
            | Some v => match float_opt v with Some x => lat_append ty x lat | None => lat end
            | None => lat
            end
          else lat
      | None => lat
      end
  | _ => lat
  end.
(** [samples.sort()] *)
Fixpoint insert_Q (x : Q) (l : list Q) : list Q :=
  match l with
  | [] => [x]
  | y :: l' => if Qle_bool x y then x :: l else y :: insert_Q x l'
  end.
Definition sort_Q (l : list Q) : list Q := fold_right insert_Q [] l.

Record bencher := Bencher { rb_manager : mgr; rb_osds : list Z; rb_config : dict }.
Definition set_rb_manager (m : mgr) (b : bencher) : bencher := Bencher m (rb_osds b) (rb_config b).

Module RecoveryBencher.
Section RecoveryBencher.
Context {E : Env} {F : Fuel}.
Context (get_first_mon : context -> dict -> string) (num_instances_of_type : context -> string -> Z).
Abbreviation MB A := (M bencher A).
Definition rb_man {A} (m : M mgr A) : MB A := zoom rb_manager set_rb_manager m.

(** [l[i]] for an index that may be -1 *)
Definition nth_Q {S} (l : list Q) (i : Z) : M S Q :=
  of_option IndexError
    (if 0 <=? i then l !! Z.to_nat i
     else if - i <=? Z.of_nat (length l) then l !! Z.to_nat (Z.of_nat (length l) + i) else None).
(** Median and 99% of the sorted samples of a type *)
Definition summary {S} (samples : list Q) : M S (Q * Q) :=
  let samples := sort_Q samples in
  let num := Z.of_nat (length samples) in
  median <- (if Z.odd num then nth_Q samples (num / 2)
             else a <- nth_Q samples (num / 2) ;; b <- nth_Q samples (num / 2 - 1) ;; ret ((a + b) / 2)%Q) ;;
  ninety_nine <- nth_Q samples (Qfloor (inject_Z num * (99 # 100))) ;;
  ret (median, ninety_nine).
Definition process_samples {S} (input : string) : M S (list (pyval * (Q * Q))) :=
  let lat := fold_left add_sample (split_on nl input) [] in
  map_ (fun ts => r <- summary ts.2 ;; ret (ts.1, r)) lat.

Definition smalliobench (s : mgr) (args : list string) : list string :=
  ["adjust-ulimits"; "zbkc-coverage"; coverage s; "smalliobench"; "--use-prefix"; "recovery_bench"] ++ args.
Definition do_bench : MB unit :=
  b <- get ;;
  let duration := py_str (dict_get "duration" (PInt 60) (rb_config b)) in
  let num_objects := py_str (dict_get "num_objects" (PInt 500) (rb_config b)) in
  let io_size := py_str (dict_get "io_size" (PInt 4096) (rb_config b)) in
  o <- choice (rb_osds b) ;;
  let osd := zs o in
  osd_remote <- rb_man (only_remote ("osd." +:+ osd)) ;;
  let s := rb_manager b in
  run osd_remote (smalliobench s ["--init-only"; "1"; "--num-objects"; num_objects; "--io-size"; io_size]) true ;;
  let bench := smalliobench s ["--do-not-init"; "1"; "--duration"; duration; "--io-size"; io_size] in
  p <- run osd_remote bench true ;;
  process_samples (stderr p) ;;
  rb_man (cmd_ ["osd"; "out"; osd]) ;;
  sleep 5 ;;
  p <- run osd_remote bench true ;;
  process_samples (stderr p) ;;
  rb_man (cmd_ ["osd"; "in"; osd]).

Definition init (config : dict) : M mgr bencher :=
  wait_for_clean None ;;
  st <- get_osd_status ;;
  emit (EvSpawn "do_bench") ;;
  m <- get ;;
  ret (Bencher m (st_up st) config).
Definition task {A} (config : dict) (body : M mgr A) : M mgr A :=
  new_manager get_first_mon config ;;
  s <- get ;;
  wait_for_osds_up (num_instances_of_type (ctx s) "osd") 10 ;;
  init config ;;
  finally body (emit (EvJoin "do_bench") ;; ret tt).
End RecoveryBencher.
End RecoveryBencher.

(** ** peering_speed_test.py *)

(** The options [argify] reads, as numbers *)
Record peering_config := PeeringConfig
  { num_pgs : Z; max_time : Z; pt_runs : Z; num_objects : Z; object_size : Z; creation_time_limit : Z;
    create_threads : Z }.

Section PeeringSpeed.
Context {E : Env} {F : Fuel} (config : peering_config).
Abbreviation MM A := (M mgr A).
Definition peering_setup : MM unit :=
  clear_pools ;;
  create_pool "POOLNAME" (num_pgs config) None None false ;;
  rados_write_objects "POOLNAME" (num_objects config) (object_size config) (creation_time_limit config) false ;;
  ret tt.
(** [time_to_active] and [time_to_clean] *)
Definition peering_do_run : MM (Q * Q) :=
  start <- time ;;
  mark_in_osd 0 ;;
  rados_write_objects "POOLNAME" (num_pgs config) 1 (creation_time_limit config) true ;;
  peering_end <- time ;;
  wait_for_clean None ;;
  recovery_end <- time ;;
  when (negb (max_time config =? 0))
    (assert_ (Qlt_bool (peering_end - start) (inject_Z (max_time config))) "peering_end - start < config.max_time") ;;
  mark_out_osd 0 ;;
  wait_for_clean None ;;
  ret ((peering_end - start)%Q, (recovery_end - start)%Q).
Definition peering_speed_test_task : MM (list (Q * Q)) :=
  peering_setup ;;
  mark_out_osd 0 ;;
  wait_for_clean None ;;
  r <- map_ (fun _ => peering_do_run) (seq 0 (Z.to_nat (pt_runs config))) ;;
  mark_in_osd 0 ;;
  ret r.
End PeeringSpeed.

(** ** watch_notify_same_primary.py *)

Section WatchNotify.
Context {E : Env} {F : Fuel}.
Abbreviation MM A := (M mgr A).
Definition watch_obj (n : Z) : string := "foo-" +:+ zs n.
Definition start_watch (r : remote) (pool : string) (n : Z) : MM proc :=
  run r ["rados"; "-p"; pool; "put"; watch_obj n; "/etc/resolv.conf"] true ;;
  start r ["rados"; "-p"; pool; "watch"; watch_obj n].
(** [with safe_while() as proceed: while proceed(): ...] *)
Definition wait_registered (r : remote) (pool : string) (i : Z) : MM unit :=
  loop fuel (fun _ : unit =>
    go <- ask (EvProceed 6 10 "") ;;
    if go : bool then
      p <- run r ["rados"; "-p"; pool; "listwatchers"; watch_obj i] true ;;
      ret (if Nat.leb 1 (str_count "watcher=" (stdout p)) then inr tt else inl tt)
    else ret (inr tt)) tt.
Definition notify (r : remote) (pool msg : string) (n : Z) : MM unit :=
  run r ["rados"; "-p"; pool; "notify"; watch_obj n; msg] true ;; ret tt.
(** Every watcher must have seen both messages. *)
Definition check_watch (out : string) : MM unit :=
  let lines := split_on nl out in
  assert_ (existsb (str_in "notify1") lines && existsb (str_in "notify2") lines) "got1 and got2".
Definition watch_notify_same_primary_task {A} (config : dict) (body : MM A) : MM A :=
  clients <- as_list (dict_get "clients" (PList [PStr "client.0"]) config) ;;
  assert_ (Nat.eqb (length clients) 1) "len(clients) == 1" ;;
  v <- item clients 0 ;; ri <- client_id v ;;
  r <- only_remote ri.1 ;;
  cmd_ ["osd"; "set"; "noout"] ;;
  pool <- create_pool_with_unique_name 16 None None false ;;
  let nums := map Z.of_nat (seq 0 20) in
  watches <- map_ (start_watch r pool) nums ;;
  for_ nums (wait_registered r pool) ;;
  for_ nums (notify r pool "notify1") ;;
  kill_osd 0 ;;
  mark_down_osd 0 ;;
  for_ nums (notify r pool "notify2") ;;
  finally body
    (for_ watches (fun w => on_proc (PWrite nls) w ;; ret tt) ;;
     outs <- map_ (fun w => p <- wait_proc w true ;; ret (stdout p)) watches ;;
     for_ outs check_watch ;;
     revive 0 ;;
     remove_pool pool).
End WatchNotify.

(** ** manypools.py, populate_rbd_pool.py and die_on_err.py *)

Section ManyPools.
Context {E : Env} {F : Fuel}.
Context (get_first_mon : context -> dict -> string) (num_instances_of_type : context -> string -> Z).
Context (client_ids : context -> list string).
Abbreviation MM A := (M mgr A).

Definition mkpool (r : remote) (role : string) (poolnum : Z) : MM proc :=
  let name := "pool" +:+ zs poolnum in
  start r ["rados"; "--name"; role; "mkpool"; name; "-1"; "&&"; "rados"; "--name"; role; "--pool"; name;
           "bench"; "0"; "write"; "-t"; "16"; "--block-size"; "1"].
(** One pass over the clients: each takes the next pool as long as there is one. *)
Fixpoint create_round (creators : list (remote * string)) (remaining : Z) (procs : list (string * proc))
  : MM (Z * list (string * proc)) :=
  match creators with
  | [] => ret (remaining, procs)
  | (r, role) :: creators' =>
      let poolnum := remaining in
      let remaining := remaining - 1 in
      if remaining <? 0 then create_round creators' remaining procs
      else p <- mkpool r role poolnum ;; create_round creators' remaining (set_proc r p procs)
  end.
Definition manypools_task (config : pyval) : MM unit :=
  poolnum <- as_int config ;;
  s <- get ;;
  creators <- map_ (fun id =>
    let role := "client." +:+ id in r <- only_remote role ;; ret (r, role)) (client_ids (ctx s)) ;;
  while fuel (fun l => ret (0 <? l.1))
    (fun '(remaining, procs) =>
       x <- create_round creators remaining procs ;;
       for_ x.2 (fun t => wait_proc t.2 true ;; ret tt) ;;
       ret x) (poolnum, []) ;;
  ret tt.

Definition populate_rbd_pool_task {A} (config : dict) (body : MM A) : MM A :=
  let opt k d := dict_get k d config in
  client <- as_str (opt "client" (PStr "client.0")) ;;
  let pool_prefix := py_str (opt "pool_prefix" (PStr "foo")) in
  num_pools <- as_Z (opt "num_pools" (PInt 2)) ;;
  r <- only_remote client ;;
  for_range 0 num_pools (fun poolid =>
    let poolname := pool_prefix +:+ "-" +:+ zs poolid in
    create_pool poolname 16 None None false ;;
    num_images <- as_Z (opt "num_images" (PInt 20)) ;;
    for_range 0 num_images (fun imageid =>
      let imagename := "rbd-" +:+ zs imageid in
      let bench_run :=
        run r ["rbd"; "bench-write"; imagename; "--pool"; poolname;
               "--io-size"; py_str (opt "write_size" (PInt 1048576));
               "--io-threads"; py_str (opt "write_threads" (PInt 10));
               "--io-total"; py_str (opt "write_total_per_snap" (PInt 31457280));
               "--io-pattern"; "rand"] true ;; ret tt in
      run r ["rbd"; "create"; imagename; "--image-format"; "1";
             "--size"; py_str (opt "image_size" (PInt 100)); "--pool"; poolname] true ;;
      bench_run ;;
      num_snaps <- as_Z (opt "num_snaps" (PInt 4)) ;;
      for_range 0 num_snaps (fun snapid =>
        run r ["rbd"; "snap"; "create"; "--pool"; poolname; "--snap"; "snap-" +:+ zs snapid; imagename] true ;;
        bench_run))) ;;
  body.

(** [die_on_err]: look at every OSD, for ever *)
Definition check_osd_alive (i : Z) : MM unit :=
  s <- get ;;
  r <- only_remote (osd_name i) ;;
  p <- run r ["test"; "-e"; testdir (ctx s) +:+ "/err"] false ;;
  when (exitstatus p =? 0) (raise (PyException ("osd " +:+ zs i +:+ " error"))) ;;
  p <- run r ["tail"; "-1"; "/var/log/zbkc/osd." +:+ zs i +:+ ".log"; "|"; "grep"; "-q"; "end dump"] false ;;
  when (exitstatus p =? 0) (raise (PyException ("osd " +:+ zs i +:+ " dumped core"))).
Definition die_on_err_task (config : dict) : MM unit :=
  s <- get ;;
  let n := num_instances_of_type (ctx s) "osd" in
  new_manager get_first_mon config ;;
  wait_for_osds_up n 10 ;;
  loop fuel (fun _ : unit => for_range 0 n check_osd_alive ;; sleep 5 ;; ret (inl tt)) tt.
End ManyPools.
