(* ===== verification/SmallTasks.v ===== *)
(** * tasks/osd_failsafe_enospc.py, admin_socket.py and restart.py

    A script over the messages of a filling OSD, a tester for administration sockets, and a
    task that restarts daemons when a script asks for it. *)
From Stdlib Require Import Ascii QArith Qround Lqa.
From stdpp Require Import sorting.
From S2P Require Import Prelude PyVal World ZbkcManager ManagerWait Scrub Rados OsdScenarios LostUnfound.

(** ** Texts *)

(** [pipes.quote(s)] *)
Definition is_safe_char (a : ascii) : bool :=
  let n := Ascii.nat_of_ascii a in
  (Nat.leb 48 n && Nat.leb n 57) || (Nat.leb 65 n && Nat.leb n 90) || (Nat.leb 97 n && Nat.leb n 122) ||
  existsb (Ascii.eqb a) ["%"; "@"; "_"; "-"; "+"; "="; ":"; ","; "."; "/"]%char.
Fixpoint all_chars (p : ascii -> bool) (s : string) : bool :=
  match s with EmptyString => true | String a s' => p a && all_chars p s' end.
Fixpoint quote_body (s : string) : string :=
  match s with
  | EmptyString => EmptyString
  | String a s' =>
      (if Ascii.eqb a squote
       then String squote (String dquote (String squote (String dquote (String squote EmptyString))))
       else String a EmptyString) +:+ quote_body s'
  end.
Definition pipes_quote (s : string) : string :=
  let q := String squote EmptyString in
  if String.eqb s EmptyString then q +:+ q
  else if all_chars is_safe_char s then s
  else q +:+ quote_body s +:+ q.

(** [s.format(key=val)]: [{key}] is replaced, [{{] and [}}] stand for a brace, any other
    field raises ([None]) *)
Fixpoint format1_go (fuel : nat) (key val s : string) : option string :=
  match fuel with
  | O => None
  | Datatypes.S k =>
      let field := "{" +:+ key +:+ "}" in
      match s with
      | EmptyString => Some EmptyString
      | String a s' =>
          if startswith field s then (fun r => val +:+ r) <$> format1_go k key val (str_from (String.length field) s)
          else if startswith "{{" s then (fun r => "{" +:+ r) <$> format1_go k key val (str_from 2 s)
          else if startswith "}}" s then (fun r => "}" +:+ r) <$> format1_go k key val (str_from 2 s)
          else if Ascii.eqb a "{" || Ascii.eqb a "}" then None
          else String a <$> format1_go k key val s'
      end
  end.
Definition format1 (key val s : string) : option string := format1_go (Datatypes.S (String.length s)) key val s.

Section SmallTasks.
Context {E : Env} {F : Fuel}.
Context (get_first_mon : context -> dict -> string).
Abbreviation MM A := (M mgr A).

(** ** osd_failsafe_enospc.py *)

(** Watch the cluster log, with [action] in between; the lines that were written *)
Definition watch_log (mon : remote) (action : MM unit) : MM (list string) :=
  p <- start mon ["sudo"; "daemon-helper"; "kill"; "zbkc"; "-w"] ;;
  action ;;
  sleep 50 ;;
  on_proc PCloseStdin p ;;
  r <- wait_proc p true ;;
  ret (split_on nl (stdout r)).
Definition count_lines (msg : string) (lines : list string) : Z :=
  Z.of_nat (length (filter (fun line => str_in msg line = true) lines)).
Definition near_full := count_lines "[WRN] OSD near full".
Definition full := count_lines "[ERR] OSD full dropping all updates".
Definition inject (what : string) : MM unit := cmd_ ["tell"; "osd.0"; "injectargs"; what].
(** [mark(osd['osd'])] for every OSD but 0 *)
Definition but_osd0 (osds : list pyval) (mark : Z -> MM unit) : MM unit :=
  for_ osds (fun osd =>
    v <- subscript osd "osd" ;;
    when (negb (eq_int v 0)) (i <- as_int v ;; mark i)).

Definition osd_failsafe_enospc_task (config : dict) : MM unit :=
  osds <- get_osd_dump ;;
  but_osd0 osds mark_out_osd ;;
  create_pool "foo" 16 None None false ;;
  cmd_ ["osd"; "pool"; "set"; "foo"; "size"; "1"] ;;
  (* NONE -> NEAR *)
  s <- get ;;
  mon <- only_remote (get_first_mon (ctx s) config) ;;
  lines <- watch_log mon (inject "--osd_failsafe_nearfull_ratio .00001") ;;
  assert_ (near_full lines =? 2) "Incorrect number of warning messages expected 2" ;;
  assert_ (full lines =? 0) "Incorrect number of error messages expected 0" ;;
  (* NEAR -> FULL *)
  lines <- watch_log mon (inject "--osd_failsafe_full_ratio .00001") ;;
  assert_ (full lines =? 2) "Incorrect number of error messages expected 2" ;;
  err <- rados mon ["-p"; "foo"; "put"; "newfile1"; "/etc/fstab"] ;;
  assert_ (negb (err =? 0)) "Expected write failure but it succeeded with exit status 0" ;;
  inject "--osd_failsafe_full_ratio .97" ;;
  sleep 10 ;;
  (* FULL -> NEAR *)
  err <- rados mon ["-p"; "foo"; "put"; "newfile2"; "/etc/resolv.conf"] ;;
  assert_ (err =? 0) "Expected write to succeed" ;;
  lines <- watch_log mon (ret tt) ;;
  assert_ ((near_full lines =? 1) || (near_full lines =? 2)) "Incorrect number of warning messages expected 1 or 2" ;;
  assert_ (full lines =? 0) "Incorrect number of error messages expected 0" ;;
  inject "--osd_failsafe_nearfull_ratio .90" ;;
  sleep 10 ;;
  (* NONE -> FULL *)
  lines <- watch_log mon (inject "--osd_failsafe_full_ratio .00001") ;;
  assert_ (near_full lines =? 0) "Incorrect number of warning messages expected 0" ;;
  assert_ (full lines =? 2) "Incorrect number of error messages expected 2" ;;
  (* FULL -> NONE *)
  inject "--osd_failsafe_full_ratio .97" ;;
  sleep 10 ;;
  lines <- watch_log mon (ret tt) ;;
  assert_ (near_full lines =? 0) "Incorrect number of warning messages expected 0" ;;
  assert_ (full lines =? 0) "Incorrect number of error messages expected 0" ;;
  remove_pool "foo" ;;
  but_osd0 osds mark_in_osd.

(** ** admin_socket.py *)

Context (deep_merge : dict -> pyval -> dict) (replace_all_with_clients : context -> dict -> dict).

(** The output of every attempt goes to the same buffer [json_fp]. *)
Definition _socket_command (r : remote) (socket_path command : string) (args : list string) : MM pyval :=
  s <- get ;;
  out <- loop fuel (fun '(max_tries, json_fp) =>
    p <- run r (["sudo"; "adjust-ulimits"; "zbkc-coverage"; coverage s; "zbkc"; "--admin-daemon"; socket_path]
                  ++ split_on " " command ++ args) false ;;
    let json_fp := json_fp +:+ stdout p in
    if exitstatus p =? 0 then ret (inr json_fp)
    else
      assert_ (0 <? max_tries) "max_tries > 0" ;;
      sleep 1 ;;
      ret (inl (max_tries - 1, json_fp))) (120, EmptyString) ;;
  json_loads out.

(** One command with its configuration, [None] as the empty one *)
Definition run_test (r : remote) (tmp_dir socket_path : string) (overrides : pyval) (test : string * pyval) : MM unit :=
  let '(command, cv) := test in
  config <- match cv with PNone => ret [] | _ => as_dict cv end ;;
  let config := deep_merge config overrides in
  test_path <- match dict_lookup "test" config with
               | None => ret None
               | Some t =>
                   fmt <- as_str t ;;
                   url <- of_option (KeyError "field") (format1 "branch" (py_str (dict_get "branch" (PStr "master") config)) fmt) ;;
                   let test_path := tmp_dir +:+ "/" +:+ command in
                   run r ["wget"; "-q"; "-O"; test_path; "--"; url; "&&"; "chmod"; "u=rx"; "--"; test_path] true ;;
                   ret (Some test_path)
               end ;;
  args <- match dict_get "args" (PList []) config with
          | PList l => map_ as_str l
          | _ => raise (AssertionError "admin socket command args must be a list")
          end ;;
  sock_out <- _socket_command r socket_path command args ;;
  match test_path with Some t => run r [t] true ;; ret tt | None => ret tt end.

Definition _run_tests (overrides : pyval) (client : string) (tests : dict) : MM unit :=
  s <- get ;;
  r <- only_remote client ;;
  let socket_path := "/var/run/zbkc/zbkc-" +:+ client +:+ ".asok" in
  let tmp_dir := testdir (ctx s) +:+ "/admin_socket_" +:+ client in
  finally
    (run r ["mkdir"; "--"; tmp_dir; "&&"; "while"; "test"; "!"; "-e"; socket_path; ";"; "do"; "sleep"; "1"; ";"; "done"] true ;;
     for_ tests (run_test r tmp_dir socket_path overrides))
    (run r ["rm"; "-rf"; "--"; tmp_dir] true ;; ret tt).

(** [with parallel() as ptask]: a greenlet for each client, joined at the end *)
Definition admin_socket_task (config : dict) : MM unit :=
  s <- get ;;
  let config := replace_all_with_clients (ctx s) config in
  for_ config (fun ct => emit (EvSpawn ct.1) ;; ret tt) ;;
  for_ config (fun ct => emit (EvJoin ct.1) ;; ret tt).

(** ** restart.py *)

(** [zip(args[0::2], args[1::2])] *)
Fixpoint pairs (l : list string) : list (string * string) :=
  match l with k :: v :: l' => (k, v) :: pairs l' | _ => [] end.
Definition restart_daemon (role id_ : string) (args : list string) : MM unit :=
  catch (daemon DWaitForExit role id_ "zbkc")
    (fun e => match e with CommandFailedError _ => ret tt | _ => raise e end) ;;
  daemon (DRestart (match args with [] => [] | _ => map (fun kv => "--" +:+ kv.1 +:+ "=" +:+ kv.2) (pairs args) end))
    role id_ "zbkc".

Definition first_some (l : list pyval) (d : pyval) : pyval :=
  fold_right (fun v acc => match v with PNone => acc | _ => v end) d l.
Definition str_leb (a b : string) : bool := match str_cmp a b with Gt => false | _ => true end.
Definition str_le (a b : string) : Prop := str_leb a b = true.
#[local] Instance str_le_dec : RelDecision str_le := fun a b => decide (str_leb a b = true).
Definition get_tests (config : dict) (role : string) (r : remote) : MM (string * list string) :=
  s <- get ;;
  let tdir := testdir (ctx s) in
  let srcdir := tdir +:+ "/restart." +:+ role in
  let opt k := dict_get k PNone config in
  let refspec := first_some [opt "branch"; opt "sha1"; opt "tag"] (PStr "HEAD") in
  run r ["mkdir"; "--"; srcdir; "&&"; "git"; "archive"; "--remote=git://git.zbkc.com/zbkc.git";
         py_str refspec +:+ ":qa/workunits"; "|"; "tar"; "-C"; srcdir; "-x"; "-f-"; "&&"; "cd"; "--"; srcdir; "&&";
         "if"; "test"; "-e"; "Makefile"; ";"; "then"; "make"; ";"; "fi"; "&&";
         "find"; "-executable"; "-type"; "f"; "-printf"; "%P\0"; ">" +:+ tdir +:+ "/restarts.list"] true ;;
  out <- file FGet r (tdir +:+ "/restarts.list") ;;
  ret (srcdir, merge_sort str_le (split_on "000" out)).

(** [env.iteritems()] as assignments for the shell *)
Definition env_args (env : pyval) : MM (list string) :=
  match env with
  | PNone => ret []
  | _ => d <- as_dict env ;; map_ (fun kv => v <- as_str kv.2 ;; ret (kv.1 +:+ "=" +:+ pipes_quote v)) d
  end.

(** The commands the script prints: restart a daemon, until it is done. *)
Definition serve_script (p : proc) : MM unit :=
  loop fuel (fun _ : unit =>
    l <- on_proc PReadline p ;;
    if String.eqb (stdout l) EmptyString then ret (inr tt)
    else
      let cmd := split_on " " (str_strip (stdout l)) in
      c0 <- of_option IndexError (cmd !! 0%nat) ;;
      if String.eqb c0 "done" then ret (inr tt)
      else
        assert_ (String.eqb c0 "restart") "script sent invalid command request to kill task" ;;
        role <- of_option IndexError (cmd !! 1%nat) ;;
        id_ <- of_option IndexError (cmd !! 2%nat) ;;
        restart_daemon role id_ (drop 3 cmd) ;;
        on_proc (PWrite ("restarted" +:+ nls)) p ;;
        ret (inl tt)) tt.

Definition run_script (config : dict) (r : remote) (srcdir c : string) : MM unit :=
  s <- get ;;
  env <- env_args (dict_get "env" PNone config) ;;
  p <- start r (["TESTDIR=" +:+ dqs +:+ testdir (ctx s) +:+ dqs] ++ env ++
                ["adjust-ulimits"; "zbkc-coverage"; coverage s; srcdir +:+ "/" +:+ c]) ;;
  serve_script p ;;
  catch (wait_proc p true ;; ret tt)
    (fun e => match e with
              | CommandFailedError _ =>
                  raise (PyException ("restart task got non-zero exit status from script: " +:+ c))
              | _ => raise e
              end).

(** [restarts] that equal [task], a list, or have [task[0]] in them *)
Definition to_run (task : pyval) (restarts : list string) : MM (list string) :=
  v <- match task with
       | PList l => item l 0
       | PStr s => of_option IndexError ((fun a => PStr (String a EmptyString)) <$> String.get 0 s)
       | _ => raise (TypeError "object has no attribute '__getitem__'")
       end ;;
  ret (filter (fun w => (py_eq (PStr w) task || str_in (py_str v) w) = true) restarts).

(** The scripts of one role *)
Definition exec_role (config : dict) (r : remote) (role : string) (task : pyval) (srcdir : string)
  (restarts : list string) : MM unit :=
  todo <- to_run task restarts ;; for_ todo (run_script config r srcdir).

(** The [finally] clause: [remote] and [srcdir] are those of the last role reached; without
    one the names are unbound. *)
Definition cleanup_restart (cur : option (remote * string)) : MM unit :=
  s <- get ;;
  rs <- of_option (OtherError "UnboundLocalError") cur ;;
  run rs.1 ["rm"; "-rf"; "--"; testdir (ctx s) +:+ "/restarts.list"; rs.2] true ;; ret tt.
(** [for role, task in config['exec'].iteritems()], with the clean-up of the [finally] at
    whichever point the loop ends. *)
Fixpoint exec_roles (config : dict) (l : dict) (cur : option (remote * string)) : MM unit :=
  match l with
  | [] => cleanup_restart cur
  | (role, task) :: l' =>
      r <- catch (only_remote role) (fun e => cleanup_restart cur ;; raise e) ;;
      x <- catch (get_tests config role r)
             (fun e => cleanup_restart (match cur with Some c => Some (r, c.2) | None => None end) ;; raise e) ;;
      let '(srcdir, restarts) := x in
      catch (exec_role config r role task srcdir restarts)
        (fun e => cleanup_restart (Some (r, srcdir)) ;; raise e) ;;
      exec_roles config l' (Some (r, srcdir))
  end.
Definition restart_task (config : dict) : MM unit :=
  match dict_lookup "exec" config with
  | None => cleanup_restart None
  | Some v => d <- catch (as_dict v) (fun _ => cleanup_restart None ;; raise (AttributeError "iteritems")) ;;
              exec_roles config d None
  end.

End SmallTasks.
