(* ===== verification/MonScenarios.v ===== *)
(** * Scripted monitor scenarios

    tasks/mon_recovery.py, mon_seesaw.py and mon_clock_skew_check.py.
    [ctx.zbkc[cluster].conf] is shared by a task and its manager; the model keeps it in the
    manager's context.  What teuthology and ConfigObj provide is
    an argument: the names of the monitors of a cluster, a machine's address, the text of a
    configuration, [deep_merge]. *)
From Stdlib Require Import Ascii QArith Qround Qabs Lqa.
From stdpp Require Import sorting.
From S2P Require Import Prelude PyVal World ZbkcManager ManagerWait Conf Scrub Rados OsdScenarios.

Section MonScenarios.
Context {E : Env} {F : Fuel}.
Context (get_first_mon : context -> dict -> string) (get_mon_names : context -> string -> list string).
Context (ip_address : remote -> string) (render_conf : gmap string dict -> string).
Context (deep_merge : dict -> pyval -> dict).
Abbreviation MM A := (M mgr A).

(** ** mon_recovery.py *)

(** [f.split('.')[1]] *)
Definition mon_id (name : string) : MM string := of_option IndexError (split_on "." name !! 1%nat).

(** A monitor knows its state and sees all [n] monitors in the quorum. *)
Definition check_in_quorum (n : Z) (m : string) : MM unit :=
  s <- get_mon_status m ;;
  st <- subscript s "state" ;;
  assert_ (eq_str st "leader" || eq_str st "peon") "s['state'] == 'leader' or s['state'] == 'peon'" ;;
  q <- subscript s "quorum" ;; k <- len_ q ;;
  assert_ (k =? n) "len(s['quorum']) == len(mons)".

Definition restart_one (n : Z) (m : string) : MM unit :=
  kill_mon m ;;
  wait_for_mon_quorum_size (n - 1) None ;;
  revive_mon m ;;
  wait_for_mon_quorum_size n None.

(** The monitors come back one by one; from a majority on they must form a quorum. *)
Fixpoint add_monitors (qnum num : Z) (mons : list string) : MM unit :=
  match mons with
  | [] => ret tt
  | m :: mons' =>
      revive_mon m ;;
      when (qnum <=? num + 1) (wait_for_mon_quorum_size (num + 1) None) ;;
      add_monitors qnum (num + 1) mons'
  end.
Definition minimal_quorum (mons : list string) : MM unit :=
  for_ mons (fun m => kill_mon m) ;;
  add_monitors (Z.of_nat (length mons) / 2 + 1) 0 mons.

Definition remove_and_add (mons : list string) (rank : nat) : MM unit :=
  let n := Z.of_nat (length mons) in
  m <- of_option IndexError (mons !! rank) ;;
  kill_mon m ;;
  wait_for_mon_quorum_size (n - 1) None ;;
  for_range 1 30 (fun i => cmd_ ["log"; zs i +:+ " of 30"]) ;;
  revive_mon m ;;
  wait_for_mon_quorum_size n None.

(** [rmons = mons; rmons.reverse()] reverses the one list that both names denote: the two
    rounds of [for mons in mons, rmons] take the monitors in the same, reversed order. *)
Definition mon_recovery_task (config : dict) : MM unit :=
  new_manager get_first_mon config ;;
  s <- get ;;
  mons <- map_ mon_id (get_mon_names (ctx s) "zbkc") ;;
  let n := Z.of_nat (length mons) in
  wait_for_mon_quorum_size n None ;;
  for_ mons (check_in_quorum n) ;;
  for_ mons (restart_one n) ;;
  let rmons := rev mons in
  for_ [rmons; rmons] minimal_quorum ;;
  for_ [0%nat; 1%nat] (remove_and_add rmons).

(** ** mon_seesaw.py *)

Definition seesaw_mons (c : context) : list string := map (str_from 4) (get_mon_names c "zbkc").

(** The ports in use on the machine [ip] *)
Fixpoint used_ports (conf : gmap string dict) (ip : string) (names : list string) : MM (list Z) :=
  match names with
  | [] => ret []
  | name :: names' =>
      sec <- of_option (KeyError name) (conf !! name) ;;
      a <- of_option (KeyError "mon addr") (dict_lookup "mon addr" sec) ;;
      addr <- as_str a ;;
      match split_on ":" addr with
      | [mon_ip; mon_port] =>
          if negb (String.eqb mon_ip ip) then used_ports conf ip names'
          else
            p <- of_option (ValueError "invalid literal for int()") (py_int mon_port) ;;
            ps <- used_ports conf ip names' ;;
            ret (p :: ps)
      | _ => raise (ValueError "need exactly two values to unpack")
      end
  end.
(** [for p in used: if p != port: break; port += 1] over the sorted list *)
Fixpoint free_port (used : list Z) (port : Z) : Z :=
  match used with
  | [] => port
  | p :: used' => if p =? port then free_port used' (port + 1) else port
  end.
Definition next_port (used : list Z) : Z := free_port (merge_sort Z.le used) 6789.
Definition _get_next_port (ip cl : string) : MM Z :=
  s <- get ;;
  match get_mon_names (ctx s) cl with
  | [] => ret (next_port [])
  | names => c <- cluster_conf cl ;; used <- used_ports c ip names ;; ret (next_port used)
  end.

Definition _setup_mon (r : remote) (mon name data_path : string) (conf_path : option string) : MM unit :=
  s <- get ;;
  let cl := cluster s in
  run r ["sudo"; "mkdir"; "-p"; data_path] true ;;
  let keyring_path := "/etc/zbkc/" +:+ cl +:+ ".keyring" in
  let monmap_path := testdir (ctx s) +:+ "/" +:+ cl +:+ ".monmap" in
  cmd_ ["mon"; "getmap"; "-o"; monmap_path] ;;
  let elsewhere := negb (String.eqb (controller s) r) in
  when elsewhere
    (monmap <- file FGet (controller s) monmap_path ;;
     file (FWrite monmap) r monmap_path ;; ret tt) ;;
  run r ["sudo"; "zbkc-mon"; "--cluster"; cl; "--mkfs"; "-i"; mon; "--monmap"; monmap_path;
         "--keyring"; keyring_path] true ;;
  when elsewhere (file (FDelete false) r monmap_path ;; ret tt) ;;
  file (FDelete true) (controller s) monmap_path ;;
  match conf_path with
  | None => ret tt
  | Some conf_path =>
      let ip := ip_address r in
      port <- _get_next_port ip cl ;;
      c <- cluster_conf cl ;;
      modify (set_conf <[cl := <[name := [("mon addr", PStr (ip +:+ ":" +:+ zs port))]]> c]>) ;;
      write_conf render_conf conf_path cl
  end.

Definition _teardown_mon (r : remote) (name data_path conf_path : string) : MM unit :=
  s <- get ;;
  let cl := cluster s in
  c <- cluster_conf cl ;;
  when (bool_decide (c !! name = None)) (raise (KeyError name)) ;;
  modify (set_conf <[cl := delete name c]>) ;;
  write_conf render_conf conf_path cl ;;
  run r ["sudo"; "rm"; "-rf"; data_path] true ;;
  ret tt.

(** [with _prepare_mon(...): body]: an exception of the body skips the rest *)
Definition _prepare_mon {A} (r : remote) (mon : string) (body : MM A) : MM A :=
  s <- get ;;
  let cl := cluster s in
  let data_path := "/var/lib/zbkc/mon/" +:+ cl +:+ "-" +:+ mon in
  let conf_path := "/etc/zbkc/" +:+ cl +:+ ".conf" in
  let name := "mon." +:+ mon in
  _setup_mon r mon name data_path (Some conf_path) ;;
  a <- body ;;
  _teardown_mon r name data_path conf_path ;;
  ret a.

(** [with _run_daemon(...): body] *)
Definition _run_daemon {A} (r : remote) (cl type_ id_ : string) (body : MM A) : MM A :=
  s <- get ;;
  daemon (DAdd r ["sudo"; "adjust-ulimits"; "zbkc-coverage"; coverage s; "daemon-helper"; "kill";
                  "zbkc-" +:+ type_; "-f"; "--cluster"; cl; "-i"; id_]) type_ id_ cl ;;
  a <- body ;;
  daemon DStop type_ id_ cl ;;
  ret a.

(** Bring the victim back online, and remove the replacer from the map. *)
Definition readd_victim (r : remote) (victim replacer : string) (quorum : Z) : MM unit :=
  s <- get ;;
  let data_path := "/var/lib/zbkc/mon/" +:+ cluster s +:+ "-" +:+ victim in
  run r ["sudo"; "rm"; "-rf"; data_path] true ;;
  _setup_mon r victim ("mon." +:+ victim) data_path None ;;
  revive_mon victim ;;
  wait_for_mon_quorum_size (quorum + 1) (Some 10%Q) ;;
  cmd_ ["mon"; "remove"; replacer] ;;
  wait_for_mon_quorum_size quorum (Some 10%Q).

Definition mon_seesaw_task {A} (config overrides : dict) (body : MM A) : MM A :=
  new_manager get_first_mon config ;;
  let config := deep_merge config (dict_get "mon_seesaw" (PDict []) overrides) in
  s <- get ;;
  random_mon <- choice (seesaw_mons (ctx s)) ;;
  victim <- as_str (dict_get "victim" (PStr random_mon) config) ;;
  replacer <- as_str (dict_get "replacer" (PStr (victim +:+ "_prime")) config) ;;
  r <- find_remote "mon" victim ;;
  q <- get_mon_quorum ;;
  let quorum := Z.of_nat (length q) in
  _prepare_mon r replacer
    (_run_daemon r (cluster s) "mon" replacer
      (wait_for_mon_quorum_size (quorum + 1) (Some 10%Q) ;;
       cmd_ ["mon"; "remove"; victim] ;;
       wait_for_mon_quorum_size quorum (Some 10%Q) ;;
       daemon (DWaitFor 10) "mon" victim (cluster s) ;;
       finally body (readd_victim r victim replacer quorum))).

End MonScenarios.

(** ** mon_clock_skew_check.py *)

Record skew_check := SkewCheck
  { sk_manager : mgr;
    check_interval : Q;
    max_skew : pyval; expect_skew : pyval; never_fail : pyval;
    at_least_once : pyval; at_least_once_timeout : pyval }.
Definition set_sk_manager (m : mgr) (c : skew_check) : skew_check :=
  SkewCheck m (check_interval c) (max_skew c) (expect_skew c) (never_fail c) (at_least_once c)
    (at_least_once_timeout c).

Module ClockSkewCheck.
Section ClockSkewCheck.
Context {E : Env} {F : Fuel}.
Context (get_first_mon : context -> dict -> string) (get_mon_names : context -> string -> list string).
Abbreviation MK A := (M skew_check A).
Definition sk_man {A} (m : M mgr A) : MK A := zoom sk_manager set_sk_manager m.

Definition init (config : dict) : M mgr skew_check :=
  interval <- float_ (dict_get "interval" (PFloat 30) config) ;;
  s <- get ;;
  let first_mon := get_first_mon (ctx s) config in
  r <- of_option IndexError (head (only (String.eqb first_mon) (ctx s))) ;;
  p <- run r ["sudo"; "zbkc-mon"; "-i"; str_from 4 first_mon; "--show-config-value"; "mon_clock_drift_allowed"] true ;;
  drift <- float_ (PStr (stdout p)) ;;
  m <- get ;;
  ret (SkewCheck m interval (dict_get "max-skew" (PFloat drift) config)
         (dict_get "expect-skew" (PBool false) config) (dict_get "never-fail" (PBool false) config)
         (dict_get "at-least-once" (PBool true) config)
         (dict_get "at-least-once-timeout" (PFloat 600) config)).

Definition sleep_interval : MK unit :=
  c <- get ;; when (Qlt_bool 0 (check_interval c)) (sleep (check_interval c)).

(** [v % 2 == 0] *)
Definition is_even (v : pyval) : MK bool :=
  q <- as_num v ;; ret (Qeq_bool (inject_Z (Qfloor (q / 2))) (q / 2)).

(** One report: a skew above the maximum must be a health warning, and is recorded. *)
Definition record_skew (skews : dict) (check : pyval) : MK dict :=
  c <- get ;;
  v <- subscript check "skew" ;; mon_skew <- float_ v ;;
  mon_health <- subscript check "health" ;;
  n <- subscript check "name" ;; id <- as_str n ;;
  if py_gt (PFloat (Qabs mon_skew)) (max_skew c) then
    assert_ (eq_str mon_health "HEALTH_WARN") ("mon." +:+ id +:+ " health") ;;
    details <- subscript check "details" ;;
    ret (dict_set id (PDict [("skew", PFloat mon_skew); ("details", details)]) skews)
  else ret skews.
Fixpoint record_skews (skews : dict) (checks : list pyval) : MK dict :=
  match checks with
  | [] => ret skews
  | check :: checks' => skews' <- record_skew skews check ;; record_skews skews' checks'
  end.

(** The variables of the loop: [skews], [ran_once], [started_on] *)
Abbreviation local := (dict * bool * option Q)%type (only parsing).

(** The timeout that runs once the checker was told to stop without a finished round *)
Definition check_timeout (l : local) : MK local :=
  c <- get ;;
  let '(skews, ran_once, started_on) := l in
  stop <- (if truthy (at_least_once c) && negb ran_once then stopping else ret false) ;;
  if stop : bool then
    match started_on with
    | None => t <- time ;; ret (skews, ran_once, Some t)
    | Some t0 =>
        when (py_gt (at_least_once_timeout c) (PFloat 0))
          (t <- time ;;
           assert_ (py_gt (at_least_once_timeout c) (PFloat (t - t0)))
             "failed to obtain a timecheck before timeout expired") ;;
        ret l
    end
  else ret l.

(** [timechecks] has reports to look at: [Some clean_check], or [None] to try again. *)
Definition round_ready (timechecks : pyval) : MK (option bool) :=
  st <- subscript timechecks "round_status" ;;
  if eq_str st "finished" then
    v <- subscript timechecks "round" ;; even <- is_even v ;;
    assert_ even "timecheck marked as finished but round disagrees" ;;
    ret (Some true)
  else
    assert_ (eq_str st "on-going") "timecheck status expected 'on-going'" ;;
    d <- as_dict timechecks ;;
    match dict_lookup "mons" d with
    | Some mons => n <- len_ mons ;; ret (if 1 <? n then Some false else None)
    | None => ret None
    end.

Definition check_once (l : local) : MK local :=
  l <- check_timeout l ;;
  let '(skews, ran_once, started_on) := l in
  c <- get ;;
  sk_man (wait_for_mon_quorum_size (Z.of_nat (length (get_mon_names (ctx (sk_manager c)) "zbkc"))) None) ;;
  health <- sk_man get_mon_health ;;
  timechecks <- subscript health "timechecks" ;;
  ready <- round_ready timechecks ;;
  match ready with
  | None => sleep_interval ;; ret l
  | Some clean_check =>
      m <- subscript timechecks "mons" ;; n <- len_ m ;;
      assert_ (1 <? n) "there are not enough reported timechecks" ;;
      mons <- as_list m ;;
      skews <- record_skews skews mons ;;
      let ran_once :=
        if clean_check || (truthy (expect_skew c) && (0 <? Z.of_nat (length skews))) then true else ran_once in
      sleep_interval ;;
      ret (skews, ran_once, started_on)
  end.

(** The verdict over the skews found *)
Definition verdict (skews : dict) : MK unit :=
  c <- get ;;
  let total := Z.of_nat (length skews) in
  let found_error := if truthy (expect_skew c) then total =? 0 else 0 <? total in
  when (found_error && negb (truthy (never_fail c)))
    (raise (AssertionError
       (if truthy (expect_skew c) then "We were expecting a skew, but none was found!"
        else "We were not expecting a skew, but we did find it!"))).

Definition do_check : MK unit :=
  l <- while fuel
         (fun '(_, ran_once, _) =>
            c <- get ;;
            stop <- stopping ;;
            ret (negb stop || (truthy (at_least_once c) && negb ran_once)))
         check_once ([], false, None) ;;
  let '(skews, _, _) := l in verdict skews.

Definition task {A} (config : dict) (body : M mgr A) : M mgr A :=
  new_manager get_first_mon config ;;
  init config ;;
  emit (EvSpawn "do_check") ;;
  finally body (emit (EvJoin "do_check") ;; ret tt).

End ClockSkewCheck.
End ClockSkewCheck.
