(* ===== verification/Thrasher.v ===== *)
(** * [Thrasher] (tasks/zbkc_manager.py): random OSD failures

    The thrasher's fields are the record [thr]; each method is a definition of the
    same name.  An action chosen by [choose_action] is the constructor of
    [action] that names the method or the closure. *)
From Stdlib Require Import Ascii QArith Qround Lqa.
From S2P Require Import Prelude PyVal World ZbkcManager ManagerWait Scrub.

Record thr := Thr
  { zbkc_manager : mgr;
    in_osds : list Z; live_osds : list Z; out_osds : list Z; dead_osds : list Z;
    config : dict;
    revive_timeout : Q; clean_wait : Q; minin : Z; chance_move_pg : Q;
    sighup_delay : pyval; optrack_toggle_delay : pyval; dump_ops_enable : pyval;
    noscrub_toggle_delay : pyval;
    max_pgs : pyval;
    zbkc_objectstore_tool : bool; test_rm_past_intervals : bool }.

Definition set_manager (m : mgr) (t : thr) : thr :=
  Thr m (in_osds t) (live_osds t) (out_osds t) (dead_osds t) (config t) (revive_timeout t)
    (clean_wait t) (minin t) (chance_move_pg t) (sighup_delay t) (optrack_toggle_delay t)
    (dump_ops_enable t) (noscrub_toggle_delay t) (max_pgs t) (zbkc_objectstore_tool t)
    (test_rm_past_intervals t).
Definition set_in_out (i o : list Z) (t : thr) : thr :=
  Thr (zbkc_manager t) i (live_osds t) o (dead_osds t) (config t) (revive_timeout t)
    (clean_wait t) (minin t) (chance_move_pg t) (sighup_delay t) (optrack_toggle_delay t)
    (dump_ops_enable t) (noscrub_toggle_delay t) (max_pgs t) (zbkc_objectstore_tool t)
    (test_rm_past_intervals t).
Definition set_live_dead (l d : list Z) (t : thr) : thr :=
  Thr (zbkc_manager t) (in_osds t) l (out_osds t) d (config t) (revive_timeout t)
    (clean_wait t) (minin t) (chance_move_pg t) (sighup_delay t) (optrack_toggle_delay t)
    (dump_ops_enable t) (noscrub_toggle_delay t) (max_pgs t) (zbkc_objectstore_tool t)
    (test_rm_past_intervals t).

(** What [choose_action] can return: bound methods, and the two [lambda]s that
    call [inject_pause] with the variable [key] of the enclosing frame. *)
Inductive action :=
| AOut | AKill | ARmPastIntervals | AIn | ARevive | APrimaryAffinity | AReweight
| AGrowPool | AFixPgpNum | ATestPoolMinSize | ATestBackfillFull
| APauseShort | APauseLong.

#[export] Instance action_eq_dec : EqDecision action.
Proof. solve_decision. Defined.

(** [n * l] on a list *)
Fixpoint list_times {A} (n : nat) (l : list A) : list A :=
  match n with O => [] | S k => l ++ list_times k l end.

Section Thrasher.
Context {E : Env} {F : Fuel}.
Abbreviation MT A := (M thr A).

(** A method of [self.zbkc_manager] *)
Definition man {A} (m : M mgr A) : MT A := zoom zbkc_manager set_manager m.

Definition opt (key : string) (dflt : pyval) : MT pyval := gets (fun t => dict_get key dflt (config t)).
Definition opt_num (key : string) (dflt : Q) : MT Q := v <- opt key (PFloat dflt) ;; as_num v.
Definition opt_int (key : string) (dflt : Z) : MT Z := v <- opt key (PInt dflt) ;; as_int v.
(** A bound on a number of OSDs, which [%d] formats before it is compared: [n > q] for a float
    [q] is [n > floor(q)], and what is not a number raises. *)
Definition as_count (v : pyval) : MT Z :=
  match v with
  | PBool b => ret (if b then 1 else 0)
  | PInt z => ret z
  | PFloat q => ret (Qfloor q)
  | _ => raise (TypeError "%d format: a number is required")
  end.
Definition opt_count (key : string) (dflt : Z) : MT Z := v <- opt key (PInt dflt) ;; as_count v.
(** A value that [expand_pool] asserts to be an [int] *)
Definition int_only (v : pyval) : MT Z :=
  match v with
  | PBool b => ret (if b then 1 else 0)
  | PInt z => ret z
  | _ => raise (AssertionError "isinstance(by, int)")
  end.
(** [n > v]: in Python 2 a number is more than [None] and less than any text, list or dictionary. *)
Definition more_than (n : Z) (v : pyval) : bool :=
  match v with
  | PBool b => (if b then 1 else 0) <? n
  | PInt z => z <? n
  | PFloat q => Qfloor q <? n
  | PNone => true
  | _ => false
  end.
(** [config.get('timeout')] as the argument of a [wait_for_*] method *)
Definition opt_timeout : MT (option Q) :=
  v <- opt "timeout" PNone ;;
  match v with PNone => ret None | _ => q <- as_num v ;; ret (Some q) end.

Definition list_remove (x : Z) (l : list Z) : MT (list Z) :=
  of_option (ValueError "list.remove(x): x not in list") (py_remove x l).
Definition pick (osd : option Z) (l : thr -> list Z) : MT Z :=
  match osd with Some o => ret o | None => t <- get ;; choice (l t) end.

(** ** zbkc-objectstore-tool *)

(** [prefix.format(id=...)] *)
Definition tool_prefix (kv : bool) (cl id : string) : string :=
  let fpath := "/var/lib/zbkc/osd/" +:+ cl +:+ "-" +:+ id in
  "sudo adjust-ulimits zbkc-objectstore-tool --data-path " +:+ fpath +:+
  " --journal-path " +:+ fpath +:+ "/journal " +:+
  (if kv then "--type keyvaluestore " else "") +:+
  "--log-file=/var/log/zbkc/objectstore_tool.\$pid.log ".
Definition has_kv_backend : MT bool :=
  t <- get ;;
  let m := zbkc_manager t in
  c <- of_option (KeyError (cluster m)) (conf (ctx m) !! cluster m) ;;
  sec <- of_option (KeyError "osd") (c !! "osd") ;;
  ret (dict_has "keyvaluestore_backend" sec).

(** [proc.stdout.getvalue().split('\n')[:-1]] *)
Definition output_lines (p : reply) : list string := list_init (split_on nl (stdout p)).
Definition run_cmd (r : remote) (cmd : string) (check_status : bool) : MT reply :=
  run r [cmd] check_status.
(** [raise Exception(... format(ret=proc.exitstatus))] on a non-zero status *)
Definition fail_if (p : reply) (what : string) : MT unit :=
  when (negb (exitstatus p =? 0))
    (raise (PyException (what +:+ " failure with status " +:+ zs (exitstatus p)))).

(** Wait until the tool's binary is there. *)
Definition wait_for_tool (r : remote) : MT unit :=
  loop fuel (fun _ : unit =>
    go <- ask (EvProceed 15 40 "type zbkc-objectstore-tool") ;;
    if go : bool then
      p <- run r ["type"; "zbkc-objectstore-tool"] false ;;
      if exitstatus p =? 0 then ret (inr tt) else ret (inl tt)
    else ret (inr tt)) tt.

(** Export a pg of a dead OSD, remove it there, and import it again, on the OSD
    just killed when that one does not have the pg.  [None]: there was no pg. *)
Definition export_import (osd : Z) (remote_ : remote) : MT (option bool) :=
  t <- get ;;
  let cl := cluster (zbkc_manager t) in
  src <- (if (1 <? Z.of_nat (length (dead_osds t))) then
            r <- random ;;
            if Qlt_bool r (chance_move_pg t) then
              o <- choice (list_init (dead_osds t)) ;;
              rem <- man (find_remote "osd" (zs o)) ;;
              ret (o, rem)
            else ret (osd, remote_)
          else ret (osd, remote_)) ;;
  let '(exp_osd, exp_remote) := src in
  kv <- has_kv_backend ;;
  let pre id := tool_prefix kv cl (zs id) in
  wait_for_tool exp_remote ;;
  proc <- run_cmd exp_remote (pre exp_osd +:+ "--op list-pgs") false ;;
  fail_if proc "zbkc-objectstore-tool: exp list-pgs" ;;
  let pgs := output_lines proc in
  if (length pgs =? 0)%nat then ret None
  else
    pg <- choice pgs ;;
    let exp_path := testdir (ctx (zbkc_manager t)) +:+ "/" +:+ cl +:+ ".data/exp."
                      +:+ pg +:+ "." +:+ zs exp_osd in
    proc <- run_cmd exp_remote (pre exp_osd +:+ "--op export --pgid " +:+ pg +:+ " --file " +:+ exp_path) true ;;
    fail_if proc "zbkc-objectstore-tool: export" ;;
    proc <- run_cmd exp_remote (pre exp_osd +:+ "--op remove --pgid " +:+ pg) true ;;
    fail_if proc "zbkc-objectstore-tool: remove" ;;
    dst <- (if negb (exp_osd =? osd) then
              proc <- run_cmd remote_ (pre osd +:+ "--op list-pgs") false ;;
              fail_if proc "zbkc-objectstore-tool: imp list-pgs" ;;
              if bool_decide (pg ∈ output_lines proc) then ret (exp_osd, exp_remote)
              else
                when (negb (String.eqb remote_ exp_remote))
                  (emit (EvTransfer exp_remote remote_ exp_path) ;; ret tt) ;;
                ret (osd, remote_)
            else ret (osd, remote_)) ;;
    let '(imp_osd, imp_remote) := dst in
    proc <- run_cmd imp_remote (pre imp_osd +:+ "--op import --file " +:+ exp_path) false ;;
    (if (exitstatus proc =? 10) || (exitstatus proc =? 11) then ret tt
     else fail_if proc "zbkc-objectstore-tool: import") ;;
    run_cmd exp_remote ("rm -f " +:+ exp_path) true ;;
    when (negb (String.eqb imp_remote exp_remote))
      (run_cmd imp_remote ("rm -f " +:+ exp_path) true ;; ret tt) ;;
    ret (Some kv).

(** Low split settings on every pool of the OSD just killed. *)
Definition apply_layout_settings (kv : bool) (osd : Z) (remote_ : remote) : MT unit :=
  pools_ <- man list_pools ;;
  for_ pools_ (fun pool =>
    t <- get ;;
    let cmd := "ZBKC_ARGS='--filestore-merge-threshold 1 --filestore-split-multiple 1' sudo -E "
                 +:+ str_from 5 (tool_prefix kv (cluster (zbkc_manager t)) (zs osd))
                 +:+ "--op apply-layout-settings --pool " +:+ pool in
    proc <- run_cmd remote_ cmd false ;;
    if str_in "Couldn't find pool" (stderr proc) then ret tt
    else when (negb (exitstatus proc =? 0))
           (raise (PyException ("zbkc-objectstore-tool apply-layout-settings failed with "
                                  +:+ zs (exitstatus proc))))).

(** ** Marking OSDs *)

Definition out_osd (osd : option Z) : MT unit :=
  o <- pick osd in_osds ;;
  man (mark_out_osd o) ;;
  t <- get ;;
  ins <- list_remove o (in_osds t) ;;
  modify (set_in_out ins (out_osds t ++ [o])).

Definition kill_osd (osd : option Z) (mark_down mark_out : bool) : MT unit :=
  o <- pick osd live_osds ;;
  t <- get ;;
  live <- list_remove o (live_osds t) ;;
  modify (set_live_dead live (dead_osds t ++ [o])) ;;
  man (ManagerWait.kill_osd o) ;;
  when mark_down (man (mark_down_osd o)) ;;
  t <- get ;;
  when (mark_out && bool_decide (o ∈ in_osds t)) (out_osd (Some o)) ;;
  t <- get ;;
  when (zbkc_objectstore_tool t)
    (remote_ <- man (find_remote "osd" (zs o)) ;;
     moved <- export_import o remote_ ;;
     match moved with
     | Some kv => apply_layout_settings kv o remote_
     | None => ret tt
     end).

Definition blackhole_kill_osd (osd : option Z) : MT unit :=
  o <- pick osd live_osds ;;
  t <- get ;;
  live <- list_remove o (live_osds t) ;;
  modify (set_live_dead live (dead_osds t ++ [o])) ;;
  man (ManagerWait.blackhole_kill_osd o).

Definition rm_past_intervals (osd : option Z) : MT unit :=
  t <- get ;;
  when (test_rm_past_intervals t)
    (o <- pick osd dead_osds ;;
     remote_ <- man (find_remote "osd" (zs o)) ;;
     kv <- has_kv_backend ;;
     let pre := tool_prefix kv (cluster (zbkc_manager t)) (zs o) in
     proc <- run_cmd remote_ (pre +:+ "--op list-pgs") false ;;
     fail_if proc "zbkc_objectstore_tool: exp list-pgs" ;;
     let pgs := output_lines proc in
     if (length pgs =? 0)%nat then ret tt
     else
       pg <- choice pgs ;;
       proc <- run_cmd remote_ (pre +:+ "--op rm-past-intervals --pgid " +:+ pg) true ;;
       fail_if proc "zbkc_objectstore_tool: rm-past-intervals").

Definition revive_osd (osd : option Z) (skip_admin_check : bool) : MT unit :=
  o <- pick osd dead_osds ;;
  t <- get ;;
  man (ManagerWait.revive_osd o (revive_timeout t) skip_admin_check) ;;
  t <- get ;;
  dead <- list_remove o (dead_osds t) ;;
  modify (set_live_dead (live_osds t ++ [o]) dead).

Definition in_osd (osd : option Z) : MT unit :=
  o <- pick osd out_osds ;;
  t <- get ;;
  if bool_decide (o ∈ dead_osds t) then revive_osd (Some o) false
  else
    outs <- list_remove o (out_osds t) ;;
    modify (set_in_out (in_osds t ++ [o]) outs) ;;
    man (mark_in_osd o).

Definition reweight_osd_or_by_util (osd : option Z) : MT unit :=
  one <- match osd with Some _ => ret true | None => choice [true; false] end ;;
  if one : bool then
    o <- pick osd in_osds ;;
    val <- uniform (1 # 10) 1 ;;
    man (raw_cluster_cmd ["osd"; "reweight"; zs o; str_of_Q val]) ;; ret tt
  else
    for_ (seq 0 5) (fun _ =>
      max_change <- choice ["0.05"; "1.0"; "3.0"] ;;
      overage <- choice ["110"; "1000"] ;;
      type <- choice ["reweight-by-utilization"; "test-reweight-by-utilization"] ;;
      man (raw_cluster_cmd ["osd"; type; overage; max_change]) ;; ret tt).

Definition primary_affinity (osd : option Z) : MT unit :=
  o <- pick osd in_osds ;;
  r1 <- random ;;
  pa <- (if Qle_bool (1 # 2) r1 then r <- random ;; ret (str_of_Q r)
         else
           r2 <- random ;;
           if Qle_bool (1 # 2) r2 then ret "1" else ret "0") ;;
  man (raw_cluster_cmd ["osd"; "primary-affinity"; zs o; pa]) ;; ret tt.

(** Make sure all osds are up and not out. *)
Definition all_up : MT unit :=
  while fuel (fun _ => t <- get ;; ret (0 <? length (dead_osds t))%nat)
    (fun _ => revive_osd None false) tt ;;
  while fuel (fun _ => t <- get ;; ret (0 <? length (out_osds t))%nat)
    (fun _ => in_osd None) tt.

Definition grow_pool : MT unit :=
  pool <- man get_pool ;;
  v <- opt "pool_grow_by" (PInt 10) ;;
  by_ <- int_only v ;;
  t <- get ;;
  man (expand_pool pool by_ (max_pgs t)).
Definition fix_pgp_num : MT unit :=
  pool <- man get_pool ;;
  man (set_pool_pgpnum pool).

(** [self.log] takes one argument; a call with two is a TypeError. *)
Definition log_two_args : MT unit := raise (TypeError "<lambda>() takes exactly 1 argument (2 given)").

Definition test_pool_min_size : MT unit :=
  all_up ;;
  tmo <- opt_timeout ;;
  man (wait_for_recovery tmo) ;;
  t <- get ;;
  the_one <- choice (in_osds t) ;;
  log_two_args ;;
  t <- get ;;
  let to_kill := filter (fun x => x <> the_one) (in_osds t) in
  for_ to_kill (fun i => kill_osd (Some i) false false) ;;
  for_ to_kill (fun i => out_osd (Some i)) ;;
  d <- opt_num "test_pool_min_size_time" 10 ;;
  sleep d ;;
  kill_osd (Some the_one) false false ;;
  out_osd (Some the_one) ;;
  for_ to_kill (fun i => revive_osd (Some i) false) ;;
  for_ to_kill (fun i => in_osd (Some i)) ;;
  tmo <- opt_timeout ;;
  man (wait_for_recovery tmo).

Definition str_num (v : pyval) : MT string :=
  match v with
  | PInt z => ret (zs z)
  | PFloat q => ret (str_of_Q q)
  | PStr s => ret s
  | PBool b => ret (if b then "True" else "False")
  | PNone => ret "None"
  | _ => raise (TypeError "not a scalar option")
  end.
Definition inject_pause (conf_key : string) (duration check_after : pyval) (should_be_down : bool)
  : MT unit :=
  t <- get ;;
  the_one <- choice (live_osds t) ;;
  d <- str_num duration ;;
  man (set_config the_one [(conf_key, d)]) ;;
  if negb should_be_down then ret tt
  else
    after <- as_num check_after ;;
    sleep after ;;
    status <- man get_osd_status ;;
    assert_ (bool_decide (the_one ∈ st_down status)) "the_one in status['down']" ;;
    dur <- as_num duration ;;
    sleep (dur - after + 20) ;;
    status <- man get_osd_status ;;
    assert_ (negb (bool_decide (the_one ∈ st_down status))) "not the_one in status['down']".

(** [for i in range(30): ... break] *)
Fixpoint await_no_backfill (n : nat) : MT unit :=
  match n with
  | O => ret tt
  | S k =>
      status <- man compile_pg_status ;;
      if bool_decide (status !! "backfill" = None) then ret tt
      else sleep 1 ;; await_no_backfill k
  end.
Definition test_backfill_full : MT unit :=
  t <- get ;;
  for_ (live_osds t) (fun i =>
    b <- choice ["false"; "true"] ;;
    man (set_config i [("osd_debug_skip_full_check_in_backfill_reservation", b);
                       ("osd_backfill_full_ratio", "0")])) ;;
  await_no_backfill 30 ;;
  status <- man compile_pg_status ;;
  assert_ (bool_decide (status !! "backfill" = None)) "'backfill' not in status" ;;
  t <- get ;;
  for_ (live_osds t) (fun i =>
    man (set_config i [("osd_debug_skip_full_check_in_backfill_reservation", "false");
                       ("osd_backfill_full_ratio", "0.85")])).

Definition test_map_discontinuity : MT unit :=
  while fuel (fun _ => t <- get ;; ret (Z.of_nat (length (in_osds t)) <? minin t + 1))
    (fun _ => in_osd None) tt ;;
  tmo <- opt_timeout ;;
  man (wait_for_all_up tmo) ;;
  sleep 20 ;;
  man (wait_for_clean tmo) ;;
  sleep 20 ;;
  kill_osd None true true ;;
  man (wait_for_clean tmo) ;;
  d <- opt_int "map_discontinuity_sleep_time" 40 ;;
  sleep (inject_Z d) ;;
  revive_osd None false.

(** ** Choosing an action *)

Definition pause_keys : list string := ["heartbeat_inject_failure"; "filestore_inject_stall"].

(** The weighted list of actions, and the value the variable [key] has when the
    loop that builds the pause closures is over. *)
Definition actions : MT (string * list (action * Q)) :=
  t <- get ;;
  cd <- opt "chance_down" (PFloat (4 # 10)) ;;
  chance_test_min_size <- opt_num "chance_test_min_size" 0 ;;
  chance_test_backfill_full <- opt_num "chance_test_backfill_full" 0 ;;
  cdq <- as_num cd ;;
  let chance_down := match cd with PInt _ | PBool _ => (cdq / 100)%Q | _ => cdq end in
  minout <- opt_count "min_out" 0 ;;
  minlive <- opt_count "min_live" 2 ;;
  mindead <- opt_count "min_dead" 0 ;;
  affinity <- opt "thrash_primary_affinity" (PBool true) ;;
  reweight <- opt_num "reweight_osd" (1 # 2) ;;
  pgnum_grow <- opt_num "chance_pgnum_grow" 0 ;;
  pgpnum_fix <- opt_num "chance_pgpnum_fix" 0 ;;
  pause_short <- opt_num "chance_inject_pause_short" 1 ;;
  pause_long <- opt_num "chance_inject_pause_long" 0 ;;
  let len l := Z.of_nat (length l) in
  let acts :=
    (if minin t <? len (in_osds t) then [(AOut, 1%Q)] else []) ++
    (if (minlive <? len (live_osds t)) && Qlt_bool 0 chance_down then [(AKill, chance_down)] else []) ++
    (if 1 <? len (dead_osds t) then [(ARmPastIntervals, 1%Q)] else []) ++
    (if minout <? len (out_osds t) then [(AIn, (17 # 10)%Q)] else []) ++
    (if mindead <? len (dead_osds t) then [(ARevive, 1%Q)] else []) ++
    (if truthy affinity then [(APrimaryAffinity, 1%Q)] else []) ++
    [(AReweight, reweight); (AGrowPool, pgnum_grow); (AFixPgpNum, pgpnum_fix);
     (ATestPoolMinSize, chance_test_min_size); (ATestBackfillFull, chance_test_backfill_full)] in
  ret (fold_left (fun '(_, acts) key =>
                    (key, acts ++ [(APauseShort, pause_short); (APauseLong, pause_long)]))
         pause_keys ("", acts)).

Definition sumQ (l : list Q) : Q := fold_right Qplus 0%Q l.
(** [for (action, prob) in actions: if val < prob: return action; val -= prob] *)
Fixpoint select (acts : list (action * Q)) (val : Q) : option action :=
  match acts with
  | [] => None
  | (a, prob) :: acts' => if Qlt_bool val prob then Some a else select acts' (val - prob)%Q
  end.
Definition choose_action : MT (string * option action) :=
  ka <- actions ;;
  let '(key, acts) := ka in
  val <- uniform 0 (sumQ (map snd acts)) ;;
  ret (key, select acts val).

(** Calling the chosen action; [None] is not callable. *)
Definition call_action (key : string) (a : option action) : MT unit :=
  match a with
  | None => raise (TypeError "'NoneType' object is not callable")
  | Some AOut => out_osd None
  | Some AKill => kill_osd None false false
  | Some ARmPastIntervals => rm_past_intervals None
  | Some AIn => in_osd None
  | Some ARevive => revive_osd None false
  | Some APrimaryAffinity => primary_affinity None
  | Some AReweight => reweight_osd_or_by_util None
  | Some AGrowPool => grow_pool
  | Some AFixPgpNum => fix_pgp_num
  | Some ATestPoolMinSize => test_pool_min_size
  | Some ATestBackfillFull => test_backfill_full
  | Some APauseShort =>
      d <- opt "pause_short" (PInt 3) ;; inject_pause key d (PInt 0) false
  | Some APauseLong =>
      d <- opt "pause_long" (PInt 80) ;; a <- opt "pause_check_after" (PInt 70) ;;
      inject_pause key d a true
  end.

(** ** The thrashing loop *)

Definition thrash_clean_phase (cleanint scrubint : Q) (maxdead : pyval) (delay : Q) : MT unit :=
  while fuel (fun _ => t <- get ;; ret (more_than (Z.of_nat (length (dead_osds t))) maxdead))
    (fun _ => revive_osd None false) tt ;;
  t <- get ;;
  for_ (in_osds t) (fun osd => man (raw_cluster_cmd ["osd"; "reweight"; zs osd; "1"]) ;; ret tt) ;;
  u <- uniform 0 1 ;;
  c <- opt_num "chance_test_map_discontinuity" 0 ;;
  (if Qlt_bool u c then test_map_discontinuity
   else tmo <- opt_timeout ;; man (wait_for_recovery tmo)) ;;
  t <- get ;;
  sleep (clean_wait t) ;;
  when (Qlt_bool 0 scrubint)
    (u <- uniform 0 1 ;;
     p <- div_ delay scrubint ;;
     when (Qlt_bool u p) (man (Scrub.init (config t)) ;; ret tt)).

Definition thrash_iteration (cleanint scrubint : Q) (maxdead : pyval) (delay : Q) : MT unit :=
  u <- uniform 0 1 ;;
  p <- div_ delay cleanint ;;
  when (Qlt_bool u p) (thrash_clean_phase cleanint scrubint maxdead delay) ;;
  ka <- choose_action ;;
  call_action ka.1 ka.2 ;;
  sleep delay.

Definition do_thrash : MT unit :=
  cleanint <- opt_num "clean_interval" 60 ;;
  scrubint <- opt_num "scrub_interval" (-1) ;;
  maxdead <- opt "max_dead" (PInt 0) ;;
  delay <- opt_num "op_delay" 5 ;;
  while fuel (fun _ => b <- stopping ;; ret (negb b))
    (fun _ => thrash_iteration cleanint scrubint maxdead delay) tt ;;
  all_up.

(** ** The other greenlets of the thrasher *)

Definition SIGHUP : Z := 1.
Definition do_sighup : MT unit :=
  t <- get ;;
  delay <- float_ (sighup_delay t) ;;
  while fuel (fun _ => b <- stopping ;; ret (negb b))
    (fun _ =>
       t <- get ;;
       osd <- choice (live_osds t) ;;
       man (signal_osd osd SIGHUP) ;;
       sleep delay) tt.

Definition do_optrack_toggle : MT unit :=
  t <- get ;;
  delay <- float_ (optrack_toggle_delay t) ;;
  while fuel (fun _ => b <- stopping ;; ret (negb b))
    (fun osd_state : string =>
       let osd_state := if String.eqb osd_state "true" then "false" else "true" in
       man (raw_cluster_cmd_result
              ["tell"; "osd.*"; "injectargs"; "--osd_enable_op_tracker=" +:+ osd_state]) ;;
       sleep delay ;;
       ret osd_state) "true" ;;
  ret tt.

Definition do_dump_ops : MT unit :=
  while fuel (fun _ => b <- stopping ;; ret (negb b))
    (fun _ =>
       t <- get ;;
       for_ (live_osds t) (fun osd =>
         man (osd_admin_socket osd ["dump_ops_in_flight"] false 30) ;;
         man (osd_admin_socket osd ["dump_blocked_ops"] false 30) ;;
         man (osd_admin_socket osd ["dump_historic_ops"] false 30) ;; ret tt) ;;
       sleep 0) tt.

(** One round of the flag cycle: the command to send and the next state. *)
Definition noscrub_step (scrub_state : string) : list string * string :=
  if String.eqb scrub_state "none" then (["osd"; "set"; "noscrub"], "noscrub")
  else if String.eqb scrub_state "noscrub" then (["osd"; "set"; "nodeep-scrub"], "both")
  else if String.eqb scrub_state "both" then (["osd"; "unset"; "noscrub"], "nodeep-scrub")
  else (["osd"; "unset"; "nodeep-scrub"], "none").
Definition do_noscrub_toggle : MT unit :=
  t <- get ;;
  delay <- float_ (noscrub_toggle_delay t) ;;
  while fuel (fun _ => b <- stopping ;; ret (negb b))
    (fun scrub_state : string =>
       let '(cmd, scrub_state) := noscrub_step scrub_state in
       man (raw_cluster_cmd cmd) ;;
       sleep delay ;;
       ret scrub_state) "none" ;;
  man (raw_cluster_cmd ["osd"; "unset"; "noscrub"]) ;;
  man (raw_cluster_cmd ["osd"; "unset"; "nodeep-scrub"]) ;;
  ret tt.

(** [self.stopping = True] is seen by the loops as the answer to [EvStopping];
    here the greenlets are joined. *)
Definition do_join : MT unit :=
  emit (EvJoin "do_thrash") ;;
  t <- get ;;
  when (truthy (sighup_delay t)) (emit (EvJoin "do_sighup") ;; ret tt) ;;
  when (truthy (optrack_toggle_delay t)) (emit (EvJoin "do_optrack_toggle") ;; ret tt) ;;
  when (match dump_ops_enable t with PStr s => String.eqb s "true" | _ => false end)
    (emit (EvJoin "do_dump_ops") ;; ret tt) ;;
  when (truthy (noscrub_toggle_delay t)) (emit (EvJoin "do_noscrub_toggle") ;; ret tt).

(** ** Construction *)

Fixpoint all_have_cmd (cmd : string) (rs : list remote) : M mgr bool :=
  match rs with
  | [] => ret true
  | r :: rs' =>
      proc <- run r ["type"; cmd] false ;;
      if negb (exitstatus proc =? 0) then ret false else all_have_cmd cmd rs'
  end.
Definition cmd_exists_on_osds (cmd : string) : M mgr bool :=
  m <- get ;;
  all_have_cmd cmd (remove_dups (only (is_type "osd" (cluster m)) (ctx m))).

(** [v * l] for a list [l] *)
Definition times_list (v : pyval) (l : list Z) : M mgr pyval :=
  match v with
  | PInt n => ret (PList (list_times (Z.to_nat n) (map PInt l)))
  | PBool b => ret (PList (if b then map PInt l else []))
  | _ => raise (TypeError "can't multiply sequence by non-int")
  end.

Definition init (config : dict) : M mgr thr :=
  wait_for_clean None ;;
  st <- get_osd_status ;;
  rt <- as_num (dict_get "revive_timeout" (PInt 150) config) ;;
  let rt := if truthy (dict_get "powercycle" PNone config) then (rt + 120)%Q else rt in
  cw <- as_num (dict_get "clean_wait" (PInt 0) config) ;;
  mi <- as_int (dict_get "min_in" (PInt 3) config) ;;
  cm <- as_num (dict_get "chance_move_pg" (PFloat 1) config) ;;
  let sighup := dict_get "sighup_delay" PNone config in
  let optrack := dict_get "optrack_toggle_delay" PNone config in
  let dump_ops := dict_get "dump_ops_enable" PNone config in
  let noscrub := dict_get "noscrub_toggle_delay" PNone config in
  let num_osds := st_in st ++ st_out st in
  mp <- times_list (dict_get "max_pgs_per_pool_osd" (PInt 1200) config) num_osds ;;
  catch (raw_cluster_cmd ["--"; "tell"; "mon.*"; "injectargs"; "--mon-osd-down-out-interval 0"])
    (fun _ => raw_cluster_cmd ["--"; "mon"; "tell"; "*"; "injectargs"; "--mon-osd-down-out-interval 0"]) ;;
  emit (EvSpawn "do_thrash") ;;
  when (truthy sighup) (emit (EvSpawn "do_sighup") ;; ret tt) ;;
  when (truthy optrack) (emit (EvSpawn "do_optrack_toggle") ;; ret tt) ;;
  when (match dump_ops with PStr s => String.eqb s "true" | _ => false end)
    (emit (EvSpawn "do_dump_ops") ;; ret tt) ;;
  when (truthy noscrub) (emit (EvSpawn "do_noscrub_toggle") ;; ret tt) ;;
  off <- (if truthy (dict_get "powercycle" PNone config) then ret true
          else
            have <- cmd_exists_on_osds "zbkc-objectstore-tool" ;;
            ret (negb have || truthy (dict_get "disable_objectstore_tool_tests" (PBool false) config))) ;;
  let tool := negb off && truthy (dict_get "zbkc_objectstore_tool" (PBool true) config) in
  let rmpi := negb off && truthy (dict_get "test_rm_past_intervals" (PBool true) config) in
  m <- get ;;
  ret (Thr m (st_in st) (st_live st) (st_out st) (st_dead st) config rt cw mi cm
         sighup optrack dump_ops noscrub mp tool rmpi).

End Thrasher.
