(* ===== verification/ThrasherFacts.v ===== *)
(** * The OSD thrasher keeps its books

    Theorems about [Thrasher]: the lists [in_osds]/[out_osds] and
    [live_osds]/[dead_osds] stay two partitions of the same OSDs, [all_up] ends,
    and a finished run leaves every OSD in and live. *)
From Stdlib Require Import QArith Qround Lqa Permutation.
From S2P Require Import Prelude PyVal World ZbkcManager ManagerWait Sim WaitFacts Thrasher.

(** ** The bookkeeping preorder *)

(** What no method of the thrasher changes, and the two partitions. *)
Record books (t t' : thr) : Prop := Books
  { books_in_out : in_osds t' ++ out_osds t' ≡ₚ in_osds t ++ out_osds t;
    books_live_dead : live_osds t' ++ dead_osds t' ≡ₚ live_osds t ++ dead_osds t;
    books_config : config t' = config t;
    books_minin : minin t' = minin t;
    books_revive : revive_timeout t' = revive_timeout t;
    books_tool : zbkc_objectstore_tool t' = zbkc_objectstore_tool t;
    books_max_pgs : max_pgs t' = max_pgs t }.

#[export] Instance books_preorder : PreOrder books.
Proof.
  split.
  - intros t. by constructor.
  - intros t1 t2 t3 [] []. constructor; try congruence; etrans; eassumption.
Qed.

Lemma books_set_manager m t : books t (set_manager m t).
Proof. by constructor. Qed.
Lemma books_set_in_out i o t :
  i ++ o ≡ₚ in_osds t ++ out_osds t -> books t (set_in_out i o t).
Proof. by constructor. Qed.
Lemma books_set_live_dead l d t :
  l ++ d ≡ₚ live_osds t ++ dead_osds t -> books t (set_live_dead l d t).
Proof. by constructor. Qed.

(** The four moves of an OSD from one list to another. *)
Lemma books_out x ins t : py_remove x (in_osds t) = Some ins ->
  books t (set_in_out ins (out_osds t ++ [x]) t).
Proof.
  intros H%py_remove_perm. apply books_set_in_out. rewrite H, (assoc_L (++)).
  by rewrite (comm (++)).
Qed.
Lemma books_in x outs t : py_remove x (out_osds t) = Some outs ->
  books t (set_in_out (in_osds t ++ [x]) outs t).
Proof.
  intros H%py_remove_perm. apply books_set_in_out. by rewrite H, <- (assoc_L (++)).
Qed.
Lemma books_kill x l t : py_remove x (live_osds t) = Some l ->
  books t (set_live_dead l (dead_osds t ++ [x]) t).
Proof.
  intros H%py_remove_perm. apply books_set_live_dead. rewrite H, (assoc_L (++)).
  by rewrite (comm (++)).
Qed.
Lemma books_revive_osd x d t : py_remove x (dead_osds t) = Some d ->
  books t (set_live_dead (live_osds t ++ [x]) d t).
Proof.
  intros H%py_remove_perm. apply books_set_live_dead. by rewrite H, <- (assoc_L (++)).
Qed.

(** ** Operations follow the four moves

    A preorder on thrashers that allows some of the moves of an OSD from one list to
    another; every operation of the thrasher is related by such a preorder when it
    allows the moves the operation makes. *)
Class OnMan (R : relation thr) : Prop := on_man : forall m t, R t (set_manager m t).
Class OnOut (R : relation thr) : Prop := on_out : forall x l t,
  py_remove x (in_osds t) = Some l -> R t (set_in_out l (out_osds t ++ [x]) t).
Class OnIn (R : relation thr) : Prop := on_in : forall x l t,
  py_remove x (out_osds t) = Some l -> R t (set_in_out (in_osds t ++ [x]) l t).
Class OnKill (R : relation thr) : Prop := on_kill : forall x l t,
  py_remove x (live_osds t) = Some l -> R t (set_live_dead l (dead_osds t ++ [x]) t).
Class OnRevive (R : relation thr) : Prop := on_revive : forall x l t,
  py_remove x (dead_osds t) = Some l -> R t (set_live_dead (live_osds t ++ [x]) l t).

#[export] Instance books_man : OnMan books. Proof. exact books_set_manager. Qed.
#[export] Instance books_on_out : OnOut books. Proof. exact books_out. Qed.
#[export] Instance books_on_in : OnIn books. Proof. exact books_in. Qed.
#[export] Instance books_on_kill : OnKill books. Proof. exact books_kill. Qed.
#[export] Instance books_on_revive : OnRevive books. Proof. exact books_revive_osd. Qed.

Section Operations.
Context {E : Env} {F : Fuel} (R : relation thr) `{!PreOrder R}.

(** Reading a list, removing an element, and storing the result. *)
Lemma moves_update {A B} e (f : thr -> option A) (h : thr -> A -> thr -> thr) (k : thr -> A -> M thr B) :
  (forall t a, f t = Some a -> R t (h t a t)) -> (forall t a, Moves R (k t a)) ->
  Moves R (t <- get ;; a <- of_option e (f t) ;; (modify (h t a) ;; k t a)).
Proof.
  intros Hh Hk t w. wp_run; [|split; [|done]; unfold on_self; reflexivity].
  eapply wp_conseq; [apply Hk|]. intros o t' w' [H' ?]. split; [|done].
  unfold on_self in *; cbn in *. etrans; [by apply Hh|exact H'].
Qed.
Lemma moves_update_end {A} e (f : thr -> option A) (h : thr -> A -> thr -> thr) :
  (forall t a, f t = Some a -> R t (h t a t)) ->
  Moves R (t <- get ;; a <- of_option e (f t) ;; modify (h t a)).
Proof.
  intros Hh t w. wp_run; (split; [|done]); unfold on_self; cbn; [by apply Hh|reflexivity].
Qed.

Lemma moves_man `{!OnMan R} {A} (m : M mgr A) : Moves R (man m).
Proof. apply moves_zoom. intros. apply on_man. Qed.
#[local] Hint Resolve moves_man : runs.

Lemma moves_export_import `{!OnMan R} osd r : Moves R (export_import osd r).
Proof. unfold export_import. runs_tac. Qed.
Lemma moves_apply_layout `{!OnMan R} kv osd r : Moves R (apply_layout_settings kv osd r).
Proof. unfold apply_layout_settings. runs_tac. Qed.
#[local] Hint Resolve moves_export_import moves_apply_layout : runs.

Lemma moves_out_osd `{!OnMan R, !OnOut R} osd : Moves R (out_osd osd).
Proof.
  unfold out_osd, list_remove. apply runs_bind; [exact _|runs_tac|intros o].
  apply runs_bind; [exact _|runs_tac|intros _]. apply moves_update_end. intros. by apply on_out.
Qed.
#[local] Hint Resolve moves_out_osd : runs.

Lemma moves_kill_osd `{!OnMan R, !OnKill R} osd md mo :
  (mo = true -> OnOut R) -> Moves R (kill_osd osd md mo).
Proof.
  intros Ho. unfold kill_osd, list_remove. apply runs_bind; [exact _|runs_tac|intros o].
  apply moves_update; [intros; by apply on_kill|intros].
  destruct mo; [assert (OnOut R) by auto; runs_tac|]. runs_tac.
Qed.
Lemma moves_kill_only `{!OnMan R, !OnKill R} osd md : Moves R (kill_osd osd md false).
Proof. by apply moves_kill_osd. Qed.
Lemma moves_blackhole `{!OnMan R, !OnKill R} osd : Moves R (blackhole_kill_osd osd).
Proof.
  unfold blackhole_kill_osd, list_remove. apply runs_bind; [exact _|runs_tac|intros o].
  apply moves_update; [intros; by apply on_kill|intros; runs_tac].
Qed.
Lemma moves_revive_osd `{!OnMan R, !OnRevive R} osd b : Moves R (revive_osd osd b).
Proof.
  unfold revive_osd, list_remove. apply runs_bind; [exact _|runs_tac|intros o].
  apply runs_bind; [exact _|runs_tac|intros t0]. apply runs_bind; [exact _|runs_tac|intros _].
  apply moves_update_end. intros. by apply on_revive.
Qed.
#[local] Hint Resolve moves_kill_only moves_blackhole moves_revive_osd : runs.

Lemma moves_in_osd `{!OnMan R, !OnIn R, !OnRevive R} osd : Moves R (in_osd osd).
Proof.
  unfold in_osd, list_remove. apply runs_bind; [exact _|runs_tac|intros o].
  intros t w. wp_run; [apply moves_revive_osd| |split; [unfold on_self; reflexivity|done]].
  eapply wp_conseq; [apply moves_man|]. intros ? t' ? [Ht ?]. split; [|done].
  unfold on_self in *; cbn in *. etrans; [by apply on_in|exact Ht].
Qed.
#[local] Hint Resolve moves_in_osd : runs.

Section Workloads.
Context `{!OnMan R}.
Lemma moves_all_up `{!OnIn R, !OnRevive R} : Moves R all_up.
Proof. unfold all_up. runs_tac. Qed.
Lemma moves_rm_past osd : Moves R (rm_past_intervals osd).
Proof. unfold rm_past_intervals. runs_tac. Qed.
Lemma moves_reweight osd : Moves R (reweight_osd_or_by_util osd).
Proof. unfold reweight_osd_or_by_util. runs_tac. Qed.
Lemma moves_affinity osd : Moves R (primary_affinity osd).
Proof. unfold primary_affinity. runs_tac. Qed.
Lemma moves_grow : Moves R grow_pool.
Proof. unfold grow_pool. runs_tac. Qed.
Lemma moves_fix : Moves R fix_pgp_num.
Proof. unfold fix_pgp_num. runs_tac. Qed.
Lemma moves_pause k d a b : Moves R (inject_pause k d a b).
Proof. unfold inject_pause. runs_tac. Qed.
Lemma moves_await n : Moves R (await_no_backfill n).
Proof. induction n; simpl; runs_tac. Qed.
#[local] Hint Resolve moves_all_up moves_await : runs.
(** The calls after [log_two_args] are never reached. *)
Lemma moves_min_size `{!OnIn R, !OnRevive R} : Moves R test_pool_min_size.
Proof.
  unfold test_pool_min_size, log_two_args.
  do 5 (apply runs_bind; [exact _|runs_tac|intros ?]). apply runs_bind_raise. exact _.
Qed.
Lemma moves_backfill : Moves R test_backfill_full.
Proof. unfold test_backfill_full. runs_tac. Qed.
Lemma moves_choose : Moves R choose_action.
Proof. unfold choose_action, actions. runs_tac. Qed.
End Workloads.
#[local] Hint Resolve moves_all_up moves_rm_past moves_reweight moves_affinity moves_grow moves_fix
  moves_pause moves_min_size moves_backfill moves_choose : runs.

Lemma moves_map_disc `{!OnMan R, !OnIn R, !OnOut R, !OnKill R, !OnRevive R} : Moves R test_map_discontinuity.
Proof.
  unfold test_map_discontinuity. pose proof (moves_kill_osd None true true (fun _ => OnOut0)). runs_tac.
Qed.
#[local] Hint Resolve moves_map_disc : runs.
Lemma moves_call `{!OnMan R, !OnIn R, !OnRevive R} k a :
  (a = Some AOut -> OnOut R) -> (a = Some AKill -> OnKill R) -> Moves R (call_action k a).
Proof.
  intros Ho Hk. unfold call_action. destruct a as [[]|]; runs_tac.
Qed.
Lemma moves_iteration `{!OnMan R, !OnIn R, !OnOut R, !OnKill R, !OnRevive R} c s m d :
  Moves R (thrash_iteration c s m d).
Proof.
  unfold thrash_iteration, thrash_clean_phase.
  pose proof (fun k a => moves_call k a (fun _ => OnOut0) (fun _ => OnKill0)). runs_tac.
Qed.
#[local] Hint Resolve moves_iteration : runs.
Lemma moves_do_thrash `{!OnMan R, !OnIn R, !OnOut R, !OnKill R, !OnRevive R} : Moves R do_thrash.
Proof. unfold do_thrash. runs_tac. Qed.
End Operations.
#[export] Hint Resolve moves_man moves_export_import moves_apply_layout moves_out_osd moves_kill_only
  moves_blackhole moves_revive_osd moves_in_osd moves_all_up moves_rm_past moves_reweight moves_affinity
  moves_grow moves_fix moves_pause moves_await moves_min_size moves_backfill moves_choose : runs.
#[export] Hint Extern 0 (PreOrder _) => exact _ : runs.
#[export] Hint Extern 0 (OnMan _) => exact _ : runs.
#[export] Hint Extern 0 (OnOut _) => exact _ : runs.
#[export] Hint Extern 0 (OnIn _) => exact _ : runs.
#[export] Hint Extern 0 (OnKill _) => exact _ : runs.
#[export] Hint Extern 0 (OnRevive _) => exact _ : runs.

Section Facts.
Context {E : Env} {F : Fuel}.

(** The invariant a thrasher starts with when the two partitions agree. *)
Definition thrasher_inv (osds : list Z) (t : thr) : Prop :=
  in_osds t ++ out_osds t ≡ₚ osds /\ live_osds t ++ dead_osds t ≡ₚ osds /\ NoDup osds.

(** C1: [do_thrash], whatever the cluster answers, whatever is drawn and however it
    ends (return, exception, or interrupted after any number of rounds), leaves
    [in_osds]/[out_osds] and [live_osds]/[dead_osds] as two partitions of the same
    duplicate-free set of OSDs it started with. *)
Theorem do_thrash_partitions (osds : list Z) (t : thr) (w : world) :
  thrasher_inv osds t -> wp do_thrash (fun _ t' _ => thrasher_inv osds t') t w.
Proof.
  intros (Hio & Hld & Hnd). eapply wp_conseq; [apply (moves_self books _ false), moves_do_thrash; exact _|].
  intros o t' w' H. unfold thrasher_inv.
  by rewrite (books_in_out _ _ H), (books_live_dead _ _ H).
Qed.

(** ** Reviving everything *)

(** Reading options changes nothing. *)
Lemma wp_opt_num k d (Q : post thr Q) t w :
  (forall q, num_of (dict_get k (PFloat d) (config t)) = Some q -> Q (Ret q) t w) ->
  (forall e, Q (Exc e) t w) -> wp (opt_num k d) Q t w.
Proof. intros Hr He. unfold opt_num, opt, as_num. wp_run; auto. Qed.
Lemma wp_opt_int k d (Q : post thr Z) t w :
  (forall z, dict_get k (PInt d) (config t) = PInt z -> Q (Ret z) t w) ->
  ((forall z, dict_get k (PInt d) (config t) <> PInt z) -> forall z, Q (Ret z) t w) ->
  (forall e, Q (Exc e) t w) -> wp (opt_int k d) Q t w.
Proof.
  intros Hr Hx He. unfold opt_int, opt, as_int. wp_run; try (apply Hx; congruence); auto.
Qed.
Lemma wp_pick osd l (Q : post thr Z) t w :
  (forall o w', osd = Some o \/ o ∈ l t -> Q (Ret o) t w') ->
  (forall w', Q (Exc IndexError) t w') -> wp (pick osd l) Q t w.
Proof.
  intros Hr He. unfold pick. destruct osd as [o|]; wp_run; [by apply Hr; left|].
  unfold choice, wp, bind, random. cbn. destruct (l t !! _) eqn:Hl; [|by apply He].
  apply Hr. right. by eapply list_elem_of_lookup_2.
Qed.

Lemma wp_zoom {S T A} view put (m : M T A) (Q : post S A) s w :
  wp m (fun o t w' => Q o (put t s) w') (view s) w -> wp (zoom view put m) Q s w.
Proof. unfold wp, zoom. destruct (m (view s) w) as [[o t] w']. auto. Qed.

(** A call of the manager leaves the thrasher's own lists alone. *)
Lemma wp_man {A} (m : M mgr A) (Q : post thr A) t w :
  (forall o mg w', Q o (set_manager mg t) w') -> wp (man m) Q t w.
Proof. intros HQ. apply wp_zoom. unfold wp. destruct (m _ w) as [[o mg] w']. auto. Qed.

Lemma wp_man_total {A} (m : M mgr A) (Q : post thr A) t w :
  Total m -> (forall o mg w', o <> Stuck -> Q o (set_manager mg t) w') -> wp (man m) Q t w.
Proof.
  intros Hm HQ. apply wp_zoom. eapply wp_conseq; [apply Hm|]. intros o mg w' [_ Ho]. by apply HQ, Ho.
Qed.

(** A step of [revive_osd] and of [in_osd]: what changes on a normal return, and
    that nothing else does. *)
Lemma revive_osd_spec (P : outcome unit -> Prop) t w :
  (forall o, o <> Stuck -> P o) ->
  (P Stuck \/ (Z.to_nat (socket_tries (revive_timeout t)) < fuel)%nat) ->
  wp (revive_osd None false) (fun o t' _ =>
    P o /\ books t t' /\ out_osds t' = out_osds t /\
    (o = Ret tt -> length (dead_osds t) = S (length (dead_osds t')))) t w.
Proof.
  intros HP Hf. unfold revive_osd, list_remove. apply wp_bind, wp_pick.
  2: { intros w'. unfold then_. split_ands; [by apply HP|done..]. }
  intros o w1 [?|Ho]; [done|]. wp_run. apply wp_zoom.
  assert (Hm : wp (ManagerWait.revive_osd o (revive_timeout t) false)
                  (fun o _ _ => P Stuck \/ o <> Stuck) (zbkc_manager t) w1).
  { destruct Hf as [Hs|Hf]; [unfold wp; destruct (ManagerWait.revive_osd _ _ _ _ _) as [[]]; by left|].
    assert (Total (ManagerWait.revive_osd o (revive_timeout t) false)) as Ht.
    { pose proof (fun id args => wait_run_admin_socket_total "osd" id args (revive_timeout t) Hf). runs_tac. }
    eapply wp_conseq; [apply Ht|]. intros ??? [_ ?]. by right; auto. }
  eapply wp_conseq; [exact Hm|]. intros [[]|e|] mg w2 Hstuck; unfold then_.
  - wp_run; (split; [by apply HP|]); (split; [|split; [done|]]); [| |apply books_set_manager|done].
    + etrans; [apply books_set_manager|by apply books_revive_osd].
    + intros _. by apply py_remove_length in H.
  - split_ands; [by apply HP|apply books_set_manager|done|done].
  - split_ands; [by destruct Hstuck|apply books_set_manager|done|done].
Qed.

Lemma in_osd_spec t w :
  dead_osds t = [] ->
  wp (in_osd None) (fun o t' _ =>
    o <> Stuck /\ books t t' /\ dead_osds t' = [] /\
    (o = Ret tt -> length (out_osds t) = S (length (out_osds t')))) t w.
Proof.
  intros Hd. unfold in_osd, list_remove. apply wp_bind, wp_pick; [|intros w'; unfold then_; split_ands; done].
  intros o w1 [?|Ho]; [done|]. wp_run; [| |by split_ands].
  { apply bool_decide_eq_true in H. rewrite Hd in H. by apply not_elem_of_nil in H. }
  apply wp_man_total; [runs_tac|]. intros o' mg w2 Hns. split_ands; [done| |done|].
  - etrans; [by apply books_in|apply books_set_manager].
  - intros _. by eapply py_remove_length.
Qed.

(** C19: [all_up] always ends: it needs one round per dead OSD, one per OSD that is out,
    and the admin-socket retries of [revive_osd].  When it returns, no OSD is dead and
    none is out, and nothing was lost: every OSD is in and live. *)
Theorem all_up_restores (t : thr) (w : world) :
  (length (dead_osds t) < fuel)%nat -> (length (out_osds t) < fuel)%nat ->
  (Z.to_nat (socket_tries (revive_timeout t)) < fuel)%nat ->
  wp all_up (fun o t' _ =>
    match o with
    | Ret _ => dead_osds t' = [] /\ out_osds t' = [] /\
               in_osds t' ≡ₚ in_osds t ++ out_osds t /\ live_osds t' ≡ₚ live_osds t ++ dead_osds t
    | Exc _ => True
    | Stuck => False
    end) t w.
Proof.
  intros Hd Ho Ht. unfold all_up. apply wp_bind.
  apply wp_while_total with (v := fun _ t1 _ => length (dead_osds t1))
    (I := fun _ t1 _ => books t t1 /\ out_osds t1 = out_osds t); [|by split|done].
  intros [] t1 w1 [Hb1 Ho1]. wp_run. case_match.
  - eapply wp_conseq; [apply (revive_osd_spec (fun o => o <> Stuck)); [done|]|].
    { right. by rewrite (books_revive _ _ Hb1). }
    intros [[]|e|] t2 w2 (Hs & Hb2 & Ho2 & Hl); unfold then_; [|done|done].
    split; [split; [by etrans|congruence]|]. specialize (Hl eq_refl). lia.
  - assert (Hnil : dead_osds t1 = []) by (by destruct (dead_osds t1)).
    apply wp_while_total with (v := fun _ t1 _ => length (out_osds t1))
      (I := fun _ t2 _ => books t t2 /\ dead_osds t2 = []); [|by split|by rewrite Ho1].
    intros [] t2 w2 [Hb2 Hd2]. wp_run. case_match.
    + eapply wp_conseq; [by apply in_osd_spec|].
      intros [[]|e|] t3 w3 (Hs & Hb3 & Hd3 & Hl); unfold then_; [|done|done].
      split; [split; [by etrans|done]|]. specialize (Hl eq_refl). lia.
    + assert (Hnil2 : out_osds t2 = []) by (by destruct (out_osds t2)).
      pose proof (books_in_out _ _ Hb2) as Hio. pose proof (books_live_dead _ _ Hb2) as Hld.
      rewrite Hnil2, app_nil_r in Hio. rewrite Hd2, app_nil_r in Hld. done.
Qed.

(** When it returns, whatever fuel it was given, nothing is dead and nothing is out. *)
Lemma all_up_ret t w :
  wp all_up (fun o t' _ => o = Ret tt -> dead_osds t' = [] /\ out_osds t' = []) t w.
Proof.
  unfold all_up. apply wp_bind.
  apply wp_while with (I := fun _ _ _ => True); [|done..].
  intros [] t1 w1 _. wp_run. case_match.
  { unfold wp. destruct (revive_osd _ _ _ _) as [[[] ?] ?]; unfold then_; done. }
  apply wp_while with (I := fun _ t _ => dead_osds t = []); [|done|by destruct (dead_osds t1)].
  intros [] t2 w2 Hd. wp_run. case_match.
  - eapply wp_conseq; [by apply in_osd_spec|].
    intros [[]|e|] t3 w3 (? & _ & ? & _); unfold then_; done.
  - intros _. split; [done|]. by destruct (out_osds t2).
Qed.

(** C3: a [do_thrash] that returns leaves every OSD of the cluster in and live: nothing
    is dead, nothing is out, and no OSD was lost or duplicated on the way. *)
Theorem do_thrash_restores (osds : list Z) (t : thr) (w : world) :
  thrasher_inv osds t ->
  wp do_thrash (fun o t' _ => o = Ret tt ->
    dead_osds t' = [] /\ out_osds t' = [] /\ in_osds t' ≡ₚ osds /\ live_osds t' ≡ₚ osds) t w.
Proof.
  intros (Hio & Hld & Hnd).
  eapply wp_conseq; [apply wp_and; [apply (moves_self books _ false), moves_do_thrash; exact _|]|].
  - instantiate (1 := fun o t' _ => o = Ret tt -> dead_osds t' = [] /\ out_osds t' = []).
    unfold do_thrash. do 5 (apply wp_bind_any; [intros ???|done..]). apply all_up_ret.
  - intros o t' w' [Hb Hr] ->. destruct (Hr eq_refl) as [Hd Ho].
    pose proof (books_in_out _ _ Hb) as H1. pose proof (books_live_dead _ _ Hb) as H2.
    rewrite Ho, app_nil_r in H1. rewrite Hd, app_nil_r in H2.
    split_ands; [done..|by rewrite H1|by rewrite H2].
Qed.

End Facts.
