(* ===== verification/ThrasherChoice.v ===== *)
(** * What the OSD thrasher chooses, and the floors its choices respect

    Theorems about [Thrasher.choose_action] and the loop around it: an action is
    only chosen when its guard holds, some action is chosen whenever the weights
    allow one, the thrasher never takes the cluster below [min_in] OSDs in, nor, when
    map discontinuities are off, below [min_live] OSDs up; and the two places where
    the code does not do what it means to. *)
From Stdlib Require Import QArith Qround Lqa Permutation.
From S2P Require Import Prelude PyVal World ZbkcManager ManagerWait Sim WaitFacts Thrasher ThrasherFacts.

(** ** The weighted list *)

Definition count (l : list Z) : Z := Z.of_nat (length l).

Section Choice.
Context {E : Env} {F : Fuel}.

(** What an action needs of the thrasher's lists and its configuration. *)
Definition opt_is (k : string) (d : Z) (t : thr) (z : Z) : Prop :=
  forall w, opt_count k d t w = (Ret z, t, w).
Definition action_ok (t : thr) (a : action) : Prop :=
  match a with
  | AOut => minin t < count (in_osds t)
  | AKill => exists z, opt_is "min_live" 2 t z /\ z < count (live_osds t)
  | ARmPastIntervals => 1 < count (dead_osds t)
  | AIn => exists z, opt_is "min_out" 0 t z /\ z < count (out_osds t)
  | ARevive => exists z, opt_is "min_dead" 0 t z /\ z < count (dead_osds t)
  | _ => True
  end.

Lemma wp_opt_is k d (Q : post thr Z) t w :
  (forall z, opt_is k d t z -> Q (Ret z) t w) -> (forall e, Q (Exc e) t w) -> wp (opt_count k d) Q t w.
Proof.
  intros Hr He. unfold opt_is, opt_count, opt, gets, as_count, bind, ret, raise in *.
  unfold wp. repeat case_match; simplify_eq; auto.
Qed.

Lemma actions_spec t w :
  wp actions (fun o t' w' => t' = t /\ w' = w /\
    forall key acts, o = Ret (key, acts) ->
      key = "filestore_inject_stall" /\ forall a p, (a, p) ∈ acts -> action_ok t a) t w.
Proof.
  unfold actions, opt. wp_run.
  do 2 (apply wp_bind, wp_opt_num; [intros ? _|done]; unfold then_). wp_run.
  unfold as_num; wp_run; [|done]. 
  do 3 (apply wp_bind, wp_opt_is; [intros ? ?|done]; unfold then_). wp_run.
  do 5 (apply wp_bind, wp_opt_num; [intros ? _|done]; unfold then_). wp_run.
  split_ands; [done..|]. intros key acts [= <- <-]. split; [done|]. intros a p.
  rewrite !elem_of_app. intros Hin. 
  repeat match goal with H : _ \/ _ |- _ => destruct H as [H|H] end;
  repeat case_match; try (by apply not_elem_of_nil in Hin);
  rewrite ?elem_of_cons, ?elem_of_nil in Hin;
  repeat match goal with H : _ \/ _ |- _ => destruct H as [H|H] end; simplify_eq; simpl; unfold count;
  try done; try (eexists; split; [eassumption|]); lia.
Qed.

(** ** Selecting from it *)

Lemma select_in acts v a : select acts v = Some a -> exists p, (a, p) ∈ acts.
Proof.
  revert v; induction acts as [|[b q] acts IH]; intros v; simpl; [done|].
  case_match; [intros [= ->]; exists q; set_solver|]. intros [p Hp]%IH. exists p; set_solver.
Qed.
Lemma select_some acts v : (0 <= v)%Q -> (v < sumQ (map snd acts))%Q -> exists a, select acts v = Some a.
Proof.
  revert v; induction acts as [|[b q] acts IH]; intros v Hv Hs; simpl in *; [lra|].
  destruct (Qlt_bool v q) eqn:Hq; [by eexists|].
  apply Qlt_bool_false in Hq. apply IH; lra.
Qed.
Lemma uniform_range (r total : Q) :
  (0 <= r < 1)%Q -> (0 < total)%Q -> (0 <= 0 + (total - 0) * r < total)%Q.
Proof. intros [] ?. split; nra. Qed.

Lemma choose_action_spec `{EL : !EnvLaws E} t w :
  wp choose_action (fun o t' _ => t' = t /\ forall key a, o = Ret (key, a) ->
    key = "filestore_inject_stall" /\ (forall act, a = Some act -> action_ok t act) /\
    (forall acts, actions t w = (Ret (key, acts), t, w) -> (0 < sumQ (map snd acts))%Q -> a <> None)) t w.
Proof.
  unfold choose_action. apply wp_bind. pose proof (actions_spec t w) as Ha. unfold wp in *.
  destruct (actions t w) as [[o t1] w1] eqn:Hact. destruct Ha as (-> & -> & Ha).
  destruct o as [[key acts]|e|]; unfold then_; [|done..].
  destruct (Ha key acts eq_refl) as [Hk Hok]. unfold uniform.
  change (wp (val <- bind random (fun r => ret (0 + (sumQ (map snd acts) - 0) * r)%Q) ;;
              ret (key, select acts val)) (fun o t' _ => t' = t /\ forall key0 a, o = Ret (key0, a) ->
    key0 = "filestore_inject_stall" /\ (forall act, a = Some act -> action_ok t act) /\
    (forall acts0, (@Ret (string * list (action * Q)) (key, acts), t, w) = (Ret (key0, acts0), t, w) ->
       (0 < sumQ (map snd acts0))%Q -> a <> None)) t w).
  wp_run. split; [done|]. intros key0 a [= <- <-]. split_ands; [done| |].
  - intros act Hs. destruct (select_in _ _ _ Hs) as [p Hp]. by eapply Hok.
  - intros acts0 [= <-] Hpos Hnone. pose proof (draw_range (w_draws w)) as Hr.
    destruct (uniform_range _ _ Hr Hpos) as [H0 H1].
    destruct (select_some acts _ H0 H1) as [x Hx]. congruence.
Qed.

(** C18: [choose_action] changes nothing and only returns an action whose guard holds:
    taking an OSD out needs more than [min_in] in, a kill more than [min_live] live, a
    revival more than [min_dead] dead, an OSD put back in more than [min_out] out; and
    as soon as the weights add up to something positive it does return an action. *)
Theorem choose_action_enabled `{EL : !EnvLaws E} (t : thr) (w : world) :
  wp choose_action (fun o t' _ => t' = t /\ forall key a, o = Ret (key, a) ->
    (forall act, a = Some act -> action_ok t act) /\
    (forall acts, actions t w = (Ret (key, acts), t, w) -> (0 < sumQ (map snd acts))%Q -> a <> None)) t w.
Proof.
  eapply wp_conseq; [apply choose_action_spec|]. intros o t' w' [? H]. split; [done|].
  intros key a Ho. by apply H.
Qed.

(** ** The pauses *)

(** The admin-socket command that sets the option [k]. *)
Definition sets_option (k : string) (ev : event) : Prop :=
  match ev with
  | EvRun _ args => exists pre v, args = pre ++ ["config"; "set"; k; v]
  | _ => False
  end.
Definition is_pause (a : option action) : bool :=
  match a with Some APauseShort | Some APauseLong => true | _ => false end.
Abbreviation no_heartbeat := (emits (fun ev => ~ sets_option "heartbeat_inject_failure" ev)).

Lemma runs_status_quiet : Runs false (S := mgr) no_heartbeat get_osd_status.
Proof.
  unfold get_osd_status, osds_with. runs_tac. apply emits_emit. simpl. intros (pre & v & H).
  apply (f_equal (@rev string)) in H. rewrite !rev_app_distr in H. simpl in H. congruence.
Qed.
Lemma runs_config_quiet osd k v :
  k <> "heartbeat_inject_failure" -> Runs false (S := mgr) no_heartbeat (set_config osd [(k, v)]).
Proof.
  intros Hk. unfold set_config. simpl. runs_tac; apply emits_emit; [|simpl; tauto]. simpl. intros (pre & v' & H).
  apply (f_equal (@rev string)) in H. rewrite ?rev_app_distr in H. simpl in H. congruence.
Qed.

Lemma runs_man_quiet {A} (m : M mgr A) : Runs false no_heartbeat m -> Runs false no_heartbeat (man m).
Proof. apply runs_zoom. auto. Qed.
Lemma runs_pause_quiet key d after down :
  key <> "heartbeat_inject_failure" -> Runs false no_heartbeat (inject_pause key d after down).
Proof.
  intros Hk. pose proof (fun o v => runs_man_quiet _ (runs_config_quiet o key v Hk)).
  pose proof (runs_man_quiet _ runs_status_quiet).
  unfold inject_pause. runs_tac; apply emits_emit; simpl; tauto.
Qed.

(** A pause never injects a heartbeat failure.  The list names both
    [heartbeat_inject_failure] and [filestore_inject_stall], but the closures read the
    loop variable [key] when they are called, after the loop has ended: every pause, short
    or long, sets [filestore_inject_stall]. *)
Theorem pauses_never_fail_heartbeats `{EL : !EnvLaws E} (t : thr) (w : world) :
  wp (ka <- choose_action ;; if is_pause ka.2 then call_action ka.1 ka.2 else ret tt)
     (fun _ t' w' => no_heartbeat (t, w) (t', w')) t w.
Proof.
  assert (Hc : Runs false no_heartbeat choose_action) by (unfold choose_action, actions; runs_tac).
  apply wp_bind. eapply wp_conseq; [apply wp_and; [apply choose_action_spec|apply Hc]|].
  intros [[key a]|e|] t1 w1 [[-> H] [Hq _]]; unfold then_; [|done..].
  destruct (H key a eq_refl) as (-> & _ & _). cbn [fst snd].
  assert (Hp : Runs false no_heartbeat
    (if is_pause a then call_action "filestore_inject_stall" a else ret tt)).
  { pose proof (fun d x b => runs_pause_quiet "filestore_inject_stall" d x b ltac:(done)).
    destruct a as [[]|]; simpl; runs_tac. }
  eapply wp_conseq; [apply Hp|]. intros o t' w' [Hq' _]. by etrans.
Qed.

End Choice.

(** ** Floors *)

(** The options stay, and the list [f] does not shrink below [z]. *)
Record keeps (z : Z) (f : thr -> list Z) (t t' : thr) : Prop := Keeps
  { keeps_config : config t' = config t;
    keeps_minin : minin t' = minin t;
    keeps_floor : z <= count (f t) -> z <= count (f t') }.
#[export] Instance keeps_preorder z f : PreOrder (keeps z f).
Proof.
  split; [by constructor|]. intros t1 t2 t3 [] []. constructor; [congruence..|auto].
Qed.
#[export] Instance keeps_in_man z : OnMan (keeps z in_osds). Proof. by constructor. Qed.
#[export] Instance keeps_in_kill z : OnKill (keeps z in_osds). Proof. by constructor. Qed.
#[export] Instance keeps_in_revive z : OnRevive (keeps z in_osds). Proof. by constructor. Qed.
#[export] Instance keeps_in_in z : OnIn (keeps z in_osds).
Proof. intros x l t _. constructor; [done..|]. unfold count; cbn. rewrite length_app. lia. Qed.
#[export] Instance keeps_live_man z : OnMan (keeps z live_osds). Proof. by constructor. Qed.
#[export] Instance keeps_live_out z : OnOut (keeps z live_osds). Proof. by constructor. Qed.
#[export] Instance keeps_live_in z : OnIn (keeps z live_osds). Proof. by constructor. Qed.
#[export] Instance keeps_live_revive z : OnRevive (keeps z live_osds).
Proof. intros x l t _. constructor; [done..|]. unfold count; cbn. rewrite length_app. lia. Qed.

Section Floors.
Context {E : Env} {EL : EnvLaws E} {F : Fuel} (z : Z).

Lemma keeps_trans f t1 t2 t3 : keeps z f t1 t2 -> keeps z f t2 t3 -> keeps z f t1 t3.
Proof. intros; by etrans. Qed.

(** Continue with code that keeps the floor. *)
Lemma wp_keeps {A} f (m : M thr A) t0 t w :
  keeps z f t0 t -> Moves (keeps z f) m -> wp m (fun _ t' _ => keeps z f t0 t') t w.
Proof.
  intros Ht Hm. eapply wp_conseq; [apply (moves_self (keeps z f) _ false), Hm|].
  intros o t' w' H. by eapply keeps_trans.
Qed.

Lemma wp_seq {A B} f (m : M thr A) (k : A -> M thr B) t0 t w :
  wp m (fun _ t' _ => keeps z f t0 t') t w ->
  (forall a t1 w1, keeps z f t0 t1 -> wp (k a) (fun _ t' _ => keeps z f t0 t') t1 w1) ->
  wp (bind m k) (fun _ t' _ => keeps z f t0 t') t w.
Proof.
  intros Hm Hk. apply wp_bind. eapply wp_conseq; [exact Hm|].
  intros [a|e|] t1 w1 H1; unfold then_; auto.
Qed.

Lemma out_osd_keeps osd t0 t w :
  keeps z in_osds t0 t -> z < count (in_osds t) ->
  wp (out_osd osd) (fun _ t' _ => keeps z in_osds t0 t') t w.
Proof.
  intros Ht Hz. unfold out_osd, list_remove. apply wp_bind, wp_pick; [|by intros].
  intros o w1 _. unfold then_. apply wp_bind, wp_man.
  intros [[]|e|] mg w2; unfold then_; wp_run; try (by eapply keeps_trans; [exact Ht|apply keeps_in_man]).
  eapply keeps_trans; [exact Ht|]. constructor; [done..|]. intros _. cbn.
  apply py_remove_length in H. unfold count in *; cbn in *. lia.
Qed.

(** A kill that also marks the OSD out takes at most one OSD out. *)
Lemma kill_out_keeps t0 t w :
  keeps z in_osds t0 t -> z < count (in_osds t) ->
  wp (kill_osd None true true) (fun _ t' _ => keeps z in_osds t0 t') t w.
Proof.
  intros Ht Hz. unfold kill_osd, list_remove. apply wp_bind, wp_pick; [|by intros].
  intros o w1 _. wp_run; [|done].
  assert (Hrest : forall t1 w1, keeps z in_osds t0 t1 ->
    wp (t <- get ;; when (zbkc_objectstore_tool t)
      (remote_ <- man (find_remote "osd" (zs o)) ;; moved <- export_import o remote_ ;;
       match moved with Some kv => apply_layout_settings kv o remote_ | None => ret tt end))
       (fun _ t' _ => keeps z in_osds t0 t') t1 w1).
  { intros t1 w2 H1. apply wp_keeps; [done|].
    runs_tac. }
  apply wp_man. intros [[]|e|] mg w2; unfold then_; try (by eapply keeps_trans; [exact Ht|constructor]).
  apply wp_bind. unfold when at 1. apply wp_man.
  intros [[]|e|] mg' w3; unfold then_; try (by eapply keeps_trans; [exact Ht|constructor]).
  apply wp_bind, wp_get. unfold then_ at 1. apply wp_bind. unfold when at 1. case_match.
  2: { apply wp_ret, Hrest. by eapply keeps_trans; [exact Ht|constructor]. }
  eapply wp_conseq; [apply out_osd_keeps with (t0 := t0); [by eapply keeps_trans; [exact Ht|constructor]|done]|].
  intros [[]|e|] t3 w4 H3; unfold then_; [|done..]. by apply Hrest.
Qed.

(** Code that takes nothing out leaves the spare OSD there. *)
Lemma wp_spare {A B} (m : M thr A) (k : A -> M thr B) t0 t w :
  keeps z in_osds t0 t -> z < count (in_osds t) -> Moves (keeps (z + 1) in_osds) m ->
  (forall a t1 w1, keeps z in_osds t0 t1 -> z < count (in_osds t1) ->
     wp (k a) (fun _ t' _ => keeps z in_osds t0 t') t1 w1) ->
  wp (bind m k) (fun _ t' _ => keeps z in_osds t0 t') t w.
Proof.
  intros Ht Hz Hm Hk. apply wp_bind.
  eapply wp_conseq; [apply (moves_self (keeps (z + 1) in_osds) _ false), Hm|].
  intros o t1 w1 [H1 H2 H3]. specialize (H3 ltac:(lia)).
  assert (keeps z in_osds t0 t1) by (destruct Ht; constructor; [congruence..|lia]).
  destruct o; unfold then_; [apply Hk; [done|lia]|done..].
Qed.

Lemma map_discontinuity_keeps t w :
  z = minin t -> wp test_map_discontinuity (fun _ t' _ => keeps z in_osds t t') t w.
Proof.
  intros Hz. unfold test_map_discontinuity. apply wp_bind.
  apply wp_while with (I := fun _ t' _ => keeps z in_osds t t'); [|done|done].
  intros [] t1 w1 H1. wp_run. case_match eqn:Hlt.
  { pose proof (moves_in_osd (keeps z in_osds) None) as Hm.
    eapply wp_conseq; [apply (wp_keeps in_osds _ t t1 w1 H1 Hm)|]. by intros [[]|e|] t2 w2 H2; unfold then_. }
  unfold then_. assert (Hn : z < count (in_osds t1)).
  { rewrite (keeps_minin _ _ _ _ H1), <- Hz in Hlt. unfold count. lia. }
  do 5 (apply wp_spare; [done|done|runs_tac|clear dependent t1; intros ? t1 ? H1 Hn]).
  apply wp_bind. eapply wp_conseq; [by apply kill_out_keeps|].
  intros [[]|e|] t2 ? H2; unfold then_; [|done..]. apply wp_keeps; [done|]. runs_tac.
Qed.

Lemma clean_phase_keeps_in c s m d t0 t w :
  z = minin t0 -> keeps z in_osds t0 t ->
  wp (thrash_clean_phase c s m d) (fun _ t' _ => keeps z in_osds t0 t') t w.
Proof.
  intros Hz Ht. unfold thrash_clean_phase.
  do 5 (apply wp_seq; [apply wp_keeps; [exact Ht|runs_tac]|clear dependent t; intros ? t ? Ht]).
  apply wp_seq; [|intros; apply wp_keeps; [done|runs_tac]].
  case_match; [|apply wp_keeps; [done|runs_tac]].
  eapply wp_conseq; [apply map_discontinuity_keeps; by rewrite (keeps_minin _ _ _ _ Ht)|].
  intros o t' w' H'. by eapply keeps_trans.
Qed.

(** One round of the loop keeps [min_in]. *)
Lemma iteration_keeps_in c s m d t0 t w :
  z = minin t0 -> keeps z in_osds t0 t -> wp (thrash_iteration c s m d) (fun _ t' _ => keeps z in_osds t0 t') t w.
Proof.
  intros Hz Ht. unfold thrash_iteration.
  do 2 (apply wp_seq; [apply wp_keeps; [exact Ht|runs_tac]|clear dependent t; intros ? t ? Ht]).
  apply wp_seq; [unfold when; case_match; [by apply clean_phase_keeps_in|by wp_run]|].
  clear dependent t; intros _ t w2 Ht. apply wp_bind. eapply wp_conseq; [apply choose_action_spec|].
  intros [[key act]|e|] t1 w3 [-> H]; unfold then_; [|done..].
  destruct (H key act eq_refl) as (_ & Hok & _). clear H. cbn [fst snd].
  apply wp_seq; [|intros; apply wp_keeps; [done|runs_tac]].
  destruct (decide (act = Some AOut)) as [->|Hne].
  - specialize (Hok AOut eq_refl). simpl in Hok. apply out_osd_keeps; [done|].
    by rewrite (keeps_minin _ _ _ _ Ht), <- Hz in Hok.
  - apply wp_keeps; [done|]. by apply moves_call; [exact _..| |].
Qed.

Lemma kill_keeps t0 t w :
  keeps z live_osds t0 t -> z < count (live_osds t) ->
  wp (kill_osd None false false) (fun _ t' _ => keeps z live_osds t0 t') t w.
Proof.
  intros Ht Hz. unfold kill_osd, list_remove. apply wp_bind, wp_pick; [|by intros].
  intros o w1 _. unfold then_. apply wp_bind, wp_get. unfold then_. apply wp_bind, wp_of_option; [|done].
  intros l Hl. unfold then_. apply wp_bind, wp_modify. unfold then_. apply wp_keeps; [|runs_tac].
  eapply keeps_trans; [exact Ht|]. constructor; [done..|]. intros _. cbn.
  apply py_remove_length in Hl. unfold count in *. lia.
Qed.

(** No map discontinuities are tested: the chance is zero or less, as by default. *)
Definition no_discontinuity (c : dict) : Prop :=
  forall q, num_of (dict_get "chance_test_map_discontinuity" (PFloat 0) c) = Some q -> (q <= 0)%Q.

Lemma clean_phase_keeps_live c s m d t0 t w :
  no_discontinuity (config t0) -> keeps z live_osds t0 t ->
  wp (thrash_clean_phase c s m d) (fun _ t' _ => keeps z live_osds t0 t') t w.
Proof.
  intros Hno Ht. unfold thrash_clean_phase.
  do 3 (apply wp_seq; [apply wp_keeps; [exact Ht|runs_tac]|clear dependent t; intros ? t ? Ht]).
  unfold uniform. do 4 wp_step. do 2 wp_step. apply wp_bind, wp_opt_num; [|done]. intros q Hq. unfold then_.
  rewrite (keeps_config _ _ _ _ Ht) in Hq. apply Hno in Hq.
  match goal with |- context [Qlt_bool ?u q] => destruct (Qlt_bool u q) eqn:Hlt end.
  - apply Qlt_bool_iff in Hlt. destruct (draw_range (w_draws w2)). nra.
  - apply wp_keeps; [done|]. runs_tac.
Qed.

Lemma iteration_keeps_live c s m d t0 t w :
  opt_is "min_live" 2 t0 z -> no_discontinuity (config t0) -> keeps z live_osds t0 t ->
  wp (thrash_iteration c s m d) (fun _ t' _ => keeps z live_osds t0 t') t w.
Proof.
  intros Hz Hno Ht. unfold thrash_iteration.
  do 2 (apply wp_seq; [apply wp_keeps; [exact Ht|runs_tac]|clear dependent t; intros ? t ? Ht]).
  apply wp_seq; [unfold when; case_match; [by apply clean_phase_keeps_live|by wp_run]|].
  clear dependent t; intros _ t w2 Ht. apply wp_bind. eapply wp_conseq; [apply choose_action_spec|].
  intros [[key act]|e|] t1 w3 [-> H]; unfold then_; [|done..].
  destruct (H key act eq_refl) as (_ & Hok & _). clear H. cbn [fst snd].
  apply wp_seq; [|intros; apply wp_keeps; [done|runs_tac]].
  destruct (decide (act = Some AKill)) as [->|Hne].
  - destruct (Hok AKill eq_refl) as (z' & Hz' & Hlt). apply kill_keeps; [done|].
    enough (z' = z) by congruence. specialize (Hz w). specialize (Hz' w).
    unfold opt_count, opt, gets, bind in Hz, Hz'. rewrite (keeps_config _ _ _ _ Ht) in Hz'.
    unfold as_count, ret, raise in *. repeat case_match; simplify_eq; done.
  - apply wp_keeps; [done|]. by apply moves_call; [exact _..| |].
Qed.

(** The loop of [do_thrash] keeps a floor when each round does. *)
Lemma do_thrash_keeps f t w :
  PreOrder (keeps z f) -> OnMan (keeps z f) -> OnIn (keeps z f) -> OnRevive (keeps z f) ->
  (forall c s m d t1 w1, keeps z f t t1 ->
     wp (thrash_iteration c s m d) (fun _ t' _ => keeps z f t t') t1 w1) ->
  wp do_thrash (fun _ t' _ => keeps z f t t') t w.
Proof.
  intros HP HM HI HR Hit. unfold do_thrash.
  do 4 (apply wp_bind; first [apply wp_opt_num; [intros ? _|done]|apply wp_gets]; unfold then_).
  apply wp_bind. apply wp_while with (I := fun _ t' _ => keeps z f t t'); [|done|done].
  intros [] t1 w1 H1. apply wp_bind. unfold stopping, ask. apply wp_bind, wp_emit. intros r c' _.
  destruct (raised r); [done|]. wp_run. case_match.
  - eapply wp_conseq; [by apply Hit|]. by intros [[]|e|] t2 w2 H2.
  - unfold then_. apply wp_keeps; [done|]. runs_tac.
Qed.
End Floors.

Section FloorTheorems.
Context {E : Env} {EL : EnvLaws E} {F : Fuel}.

(** C4: [do_thrash] never has fewer than [min_in] OSDs in, if it started with that many:
    not at its end, not when it raises, and not when it is interrupted after any number of
    rounds. *)
Theorem do_thrash_min_in (t : thr) (w : world) :
  minin t <= count (in_osds t) ->
  wp do_thrash (fun _ t' _ => minin t' = minin t /\ minin t <= count (in_osds t')) t w.
Proof.
  intros H. eapply wp_conseq; [apply (do_thrash_keeps (minin t) in_osds); [exact _..|]|].
  - intros. by apply iteration_keeps_in.
  - intros o t' w' [_ Hm Hk]. auto.
Qed.

(** C17: with map-discontinuity tests off (the default), [do_thrash] never has fewer than
    [min_live] OSDs running, if it started with that many, however it ends. *)
Theorem do_thrash_min_live (t : thr) (w : world) (z : Z) :
  opt_is "min_live" 2 t z -> no_discontinuity (config t) -> z <= count (live_osds t) ->
  wp do_thrash (fun _ t' _ => z <= count (live_osds t')) t w.
Proof.
  intros Hz Hno H. eapply wp_conseq; [apply (do_thrash_keeps z live_osds); [exact _..|]|].
  - intros. by apply iteration_keeps_live.
  - intros o t' w' [_ Hm Hk]. auto.
Qed.
End FloorTheorems.
