(* ===== verification/ThrasherRuns.v ===== *)
(** * The OSD thrasher: moving placement groups, flags, and the minimum-size test

    Theorems about single workloads of [Thrasher]: the order in which a placement
    group is exported, removed and imported, the scrub flags left by the toggling
    greenlet, the test of [min_size] that never gets to its point, and the table of
    pools that the thrasher grows. *)
From Stdlib Require Import QArith Qround Lqa Permutation.
From S2P Require Import Prelude PyVal World ZbkcManager ManagerWait Sim WaitFacts PoolFacts PgFacts.
From S2P Require Import Thrasher ThrasherFacts Daemons.

(** ** The minimum-size test *)

(** No more OSDs are dead or out than before. *)
Record recovering (t t' : thr) : Prop := Recovering
  { rec_dead : (length (dead_osds t') <= length (dead_osds t))%nat;
    rec_out : (length (out_osds t') <= length (out_osds t))%nat }.
#[export] Instance recovering_preorder : PreOrder recovering.
Proof. split; [by constructor|]. intros t1 t2 t3 [] []. constructor; lia. Qed.
#[export] Instance recovering_man : OnMan recovering. Proof. by constructor. Qed.
#[export] Instance recovering_in : OnIn recovering.
Proof. intros x l t H%py_remove_length. constructor; cbn; lia. Qed.
#[export] Instance recovering_revive : OnRevive recovering.
Proof. intros x l t H%py_remove_length. constructor; cbn; lia. Qed.

Section Runs.
Context {E : Env} {F : Fuel}.

(** [test_pool_min_size] never completes and never kills or takes out an OSD: after
    bringing everything up it calls [self.log] with two arguments, which raises. *)
Theorem test_pool_min_size_fails (t : thr) (w : world) :
  wp test_pool_min_size (fun o t' _ => (forall u, o <> Ret u) /\
    (length (dead_osds t') <= length (dead_osds t))%nat /\
    (length (out_osds t') <= length (out_osds t))%nat) t w.
Proof.
  eapply wp_conseq; [apply wp_and; [apply (moves_self recovering _ false), moves_min_size; exact _|]|].
  - instantiate (1 := fun o _ _ => forall u, o <> Ret u). unfold test_pool_min_size.
    do 5 (apply wp_bind_any; [intros ???|done..]). apply wp_bind. unfold log_two_args. by apply wp_raise.
  - intros o t' w' [[] ?]. done.
Qed.

(** ** Scrub flags *)

(** The flags (noscrub, nodeep-scrub) after a sequence of events. *)
Definition flag_step (f : bool * bool) (ev : event) : bool * bool :=
  match ev with
  | EvRun _ args =>
      match rev args with
      | flag :: op :: "osd" :: _ =>
          let v := String.eqb op "set" in
          if String.eqb op "set" || String.eqb op "unset" then
            if String.eqb flag "noscrub" then (v, f.2)
            else if String.eqb flag "nodeep-scrub" then (f.1, v) else f
          else f
      | _ => f
      end
  | _ => f
  end.
Definition flags (evs : list event) : bool * bool := fold_left flag_step evs (false, false).
Lemma flags_snoc evs ev : flags (evs ++ [ev]) = flag_step (flags evs) ev.
Proof. unfold flags. by rewrite fold_left_app. Qed.
(** What the greenlet's variable [scrub_state] says. *)
Definition flags_of (scrub_state : string) : bool * bool :=
  (String.eqb scrub_state "noscrub" || String.eqb scrub_state "both",
   String.eqb scrub_state "nodeep-scrub" || String.eqb scrub_state "both").
Definition scrub_states : list string := ["none"; "noscrub"; "both"; "nodeep-scrub"].

Lemma noscrub_step_flags st s w_tr :
  st ∈ scrub_states -> flags w_tr = flags_of st ->
  flags (w_tr ++ [cluster_cmd s (noscrub_step st).1]) = flags_of (noscrub_step st).2 /\
  (noscrub_step st).2 ∈ scrub_states.
Proof.
  unfold scrub_states. intros Hst Hf. rewrite flags_snoc, Hf.
  repeat (apply elem_of_cons in Hst as [->|Hst]); [..|by apply not_elem_of_nil in Hst];
    (split; [reflexivity|set_solver]).
Qed.

Lemma wp_man_cmd args (Q : post thr string) t w :
  (forall out w', w_trace w' = w_trace w ++ [cluster_cmd (zbkc_manager t) args] -> Q (Ret out) t w') ->
  (forall e t' w', Q (Exc e) t' w') -> wp (man (raw_cluster_cmd args)) Q t w.
Proof.
  intros Hr He. apply wp_zoom. apply wp_cmd; [|by intros]. intros out w' Hw.
  assert (set_manager (zbkc_manager t) t = t) as -> by (by destruct t). by apply Hr.
Qed.

Lemma wp_float v (t : thr) w : wp (float_ v) (fun _ t' w' => t' = t /\ w' = w) t w.
Proof. unfold float_, as_num. wp_run; done. Qed.

(** [do_noscrub_toggle], from a cluster with neither flag set, leaves neither flag set
    when it returns, whatever the number of rounds and wherever in its cycle of four
    states it was stopped. *)
Theorem noscrub_toggle_clears (t : thr) (w : world) :
  flags (w_trace w) = (false, false) ->
  wp do_noscrub_toggle (fun o _ w' => o = Ret tt -> flags (w_trace w') = (false, false)) t w.
Proof.
  intros Hf. unfold do_noscrub_toggle. apply wp_bind, wp_get. unfold then_. apply wp_bind.
  eapply wp_conseq; [apply wp_float|]. intros [delay|e|] t1 w1 [-> ->]; unfold then_; [|done..]. apply wp_bind.
  apply wp_while with (I := fun st _ w1 => st ∈ scrub_states /\ flags (w_trace w1) = flags_of st);
    [|done|split; [apply list_elem_of_here|exact Hf]].
  intros st t1 w1 [Hst Hfl]. unfold stopping, ask. apply wp_bind, wp_bind, wp_emit. intros r c _.
  destruct (raised r); [done|]. wp_run. case_match.
  - destruct (noscrub_step st) as [cmd st'] eqn:Hstep.
    apply wp_bind, wp_man_cmd; [|done]. intros out w2 Hw2. unfold then_.
    assert (Hfl2 : flags (w_trace w2) = flags_of st' /\ st' ∈ scrub_states).
    { rewrite Hw2. pose proof (noscrub_step_flags st (zbkc_manager t1)
        (w_trace (World c (w_draws w1) (w_trace w1 ++ [EvStopping]))) Hst) as Hn.
      rewrite Hstep in Hn. apply Hn. cbn [w_trace]. rewrite flags_snoc. exact Hfl. }
    apply wp_bind, wp_sleep. intros r2 c2 _ w3 -> _. destruct (raised r2); [done|]. wp_run.
    destruct Hfl2 as [Hfl2 Hst2]. split; [done|]. cbn [after w_trace]. by rewrite flags_snoc.
  - unfold then_. apply wp_bind, wp_man_cmd; [|done]. intros out w2 Hw2. unfold then_.
    apply wp_bind, wp_man_cmd; [|done]. intros out3 w3 Hw3. unfold then_. wp_run. intros _.
    rewrite Hw3, Hw2, !flags_snoc. reflexivity.
Qed.

(** ** Growing pools *)

Lemma init_max_pgs cfg m w :
  wp (init cfg) (fun o _ _ => forall t, o = Ret t -> exists l, max_pgs t = PList l) m w.
Proof.
  unfold init. do 6 (apply wp_bind_any; [intros ???|done..]). apply wp_bind.
  apply wp_conseq with (P := fun o _ _ => forall v, o = Ret v -> exists l, v = PList l).
  { unfold times_list. wp_run; try done; intros v [= <-]; by eexists. }
  intros [v|e|] ? ? H; unfold then_; [|done..]. destruct (H v eq_refl) as [l ->].
  do 7 (apply wp_bind_any; [intros ???|done..]). wp_run. intros ? [= <-]. by eexists.
Qed.

(** The bound [max_pgs_per_pool_osd] is never applied: the thrasher multiplies it by a
    list of OSDs instead of their number, and Python 2 orders every number below every
    list, so that a thrasher made by its constructor grows a pool whatever its size. *)
Theorem thrasher_pool_bound_ignored (cfg : dict) (m m' : mgr) (t : thr) (w w' : world)
  (name : string) (by_ cur : Z) (s : mgr) (w1 w2 w3 : world) :
  init cfg m w = (Ret t, m', w') ->
  pools s !! name = Some cur -> get_num_creating s w1 = (Ret 0, s, w2) ->
  set_pool_property name "pg_num" (cur + by_) s w2 = (Ret tt, s, w3) ->
  expand_pool name by_ (max_pgs t) s w1 = (Ret tt, set_pools <[name := cur + by_]> s, w3).
Proof.
  intros Hinit Hcur Hnum Hset. pose proof (init_max_pgs cfg m w) as Hl. unfold wp in Hl. rewrite Hinit in Hl.
  destruct (Hl t eq_refl) as [l ->]. unfold expand_pool.
  rewrite (bind_run _ _ _ _ _ _ _ eq_refl). rewrite bool_decide_eq_true_2 by eauto.
  rewrite (bind_run _ _ _ _ _ _ _ eq_refl), (bind_run _ _ _ _ _ _ _ Hnum). change (0 <? 0) with false. cbv iota.
  rewrite (bind_run _ _ _ _ _ _ _ eq_refl). rewrite Hcur, (bind_run _ _ _ _ _ _ _ eq_refl).
  rewrite (py_gt_num_list _ (inject_Z (cur + by_))) by done.
  by rewrite (bind_run _ _ _ _ _ _ _ Hset).
Qed.

(** ** Moving a placement group *)

(** The events since [w0] contain [L], in this order. *)
Definition seen (L : list event) (w0 w : world) : Prop :=
  exists evs, w_trace w = w_trace w0 ++ evs /\ sublist L evs.
Lemma seen_emits (L : list event) (w0 w w' : world) (t t' : thr) :
  seen L w0 w -> emits (fun _ => True) (t, w) (t', w') -> seen L w0 w'.
Proof.
  intros (e1 & H1 & Hs) (e2 & H2 & _). exists (e1 ++ e2). cbn in H2. rewrite H2, H1, (assoc_L (++)).
  split; [done|]. by apply sublist_inserts_r.
Qed.
Lemma seen_snoc (L : list event) (w0 w w' : world) ev :
  seen L w0 w -> w_trace w' = w_trace w ++ [ev] -> seen (L ++ [ev]) w0 w'.
Proof.
  intros (e1 & H1 & Hs) H2. exists (e1 ++ [ev]). rewrite H2, H1, (assoc_L (++)).
  split; [done|]. by apply sublist_app.
Qed.

(** Only what a return brings matters in this section. *)
Definition on_ret {A} (P : A -> thr -> world -> Prop) : post thr A :=
  fun o t w => match o with Ret a => P a t w | _ => True end.
Lemma on_ret_bind {A B} (m : M thr A) (k : A -> M thr B) P (Q : A -> thr -> world -> Prop) t w :
  wp m (on_ret Q) t w -> (forall a t1 w1, Q a t1 w1 -> wp (k a) (on_ret P) t1 w1) ->
  wp (bind m k) (on_ret P) t w.
Proof.
  intros Hm Hk. apply wp_bind. eapply wp_conseq; [exact Hm|]. intros [a|e|] t1 w1 H; unfold then_; [|done..].
  by apply Hk.
Qed.
Abbreviation any_events := (keeping (fun t => t) (fun _ => True)).
(** Code that leaves the thrasher alone, whatever it runs *)
Lemma on_ret_skip {A} (m : M thr A) (L : list event) w0 t w :
  seen L w0 w -> Runs false any_events m ->
  wp m (on_ret (fun _ t' w' => t' = t /\ seen L w0 w')) t w.
Proof.
  intros Hs Hm. eapply wp_conseq; [apply Hm|]. intros [a|e|] t' w' [[Ht He] _]; [|done..].
  cbn in Ht. split; [done|]. by eapply seen_emits.
Qed.
Lemma on_ret_run r cmd chk (L : list event) w0 t w :
  seen L w0 w ->
  wp (run_cmd r cmd chk) (on_ret (fun _ t' w' => t' = t /\ seen (L ++ [EvRun r [cmd]]) w0 w')) t w.
Proof.
  intros Hs. unfold run_cmd. apply wp_run_args. intros p c _ w' -> _.
  destruct (raised p); [done|]. case_match; [done|]. split; [done|]. by eapply seen_snoc.
Qed.
Lemma find_remote_any osd : Runs false any_events (man (find_remote "osd" osd)).
Proof.
  apply runs_zoom with (R' := quiet (fun _ => True)).
  - intros t m w w' [H1 H2]. cbn in H1. subst m. split; [by destruct t|done].
  - runs_tac.
Qed.
#[local] Hint Resolve find_remote_any : runs.
Ltac skip := eapply on_ret_bind; [apply on_ret_skip; [eassumption|runs_tac; by apply keeping_emit]|].

(** Where the placement group comes from: the OSD just killed, or another dead one. *)
Lemma source_spec osd r t w :
  wp (if (1 <? Z.of_nat (length (dead_osds t))) then
        x <- random ;;
        if Qlt_bool x (chance_move_pg t) then
          o <- choice (list_init (dead_osds t)) ;;
          rem <- man (find_remote "osd" (zs o)) ;;
          ret (o, rem)
        else ret (osd, r)
      else ret (osd, r))
    (on_ret (fun p t' w' => t' = t /\ seen [] w w' /\ (p.1 = osd \/ p.1 ∈ dead_osds t))) t w.
Proof.
  assert (Hs0 : seen [] w w) by (exists []; by rewrite app_nil_r).
  case_match; [|wp_run; unfold on_ret; split_ands; by auto].
  apply wp_bind, wp_random. unfold then_. case_match; [|wp_run; unfold on_ret; split_ands; by auto].
  set (w1 := World _ _ _). assert (Hs1 : seen [] w w1) by exact Hs0. clearbody w1.
  eapply on_ret_bind with (Q := fun o t' w' => t' = t /\ seen [] w w' /\ o ∈ dead_osds t).
  - unfold choice. apply wp_bind, wp_random. unfold then_. apply wp_of_option; [|done].
    intros o Ho. unfold on_ret. split_ands; [done|exact Hs1|]. apply list_elem_of_lookup_2 in Ho.
    unfold list_init in Ho. destruct (dead_osds t) as [|x l] using rev_ind; [done|].
    rewrite removelast_last in Ho. set_solver.
  - intros o t1 w2 (-> & Hs2 & Ho). skip. intros rem t1 w3 [-> Hs3]. wp_run. unfold on_ret. split_ands; by auto.
Qed.

(** Where it goes: back when the OSD just killed has it already, else there. *)
Lemma destination_spec L pre src srcr osd r pg path w0 t w :
  seen L w0 w ->
  wp (if negb (src =? osd) then
        proc <- run_cmd r pre false ;;
        fail_if proc "zbkc-objectstore-tool: imp list-pgs" ;;
        if bool_decide (pg ∈ output_lines proc) then ret (src, srcr)
        else
          when (negb (String.eqb r srcr)) (emit (EvTransfer srcr r path) ;; ret tt) ;;
          ret (osd, r)
      else ret (osd, r))
    (on_ret (fun d t' w' => t' = t /\ seen L w0 w' /\ (d.1 = src \/ d.1 = osd))) t w.
Proof.
  intros Hs. case_match; [|wp_run; unfold on_ret; split_ands; by auto].
  skip. clear w Hs. intros p t1 w [-> Hs]. skip. clear w Hs. intros _ t1 w [-> Hs].
  case_match; [wp_run; unfold on_ret; split_ands; by auto|].
  skip. intros _ t1 w1 [-> Hs1]. wp_run. unfold on_ret. split_ands; by auto.
Qed.

(** From [w] to [w'] a placement group was exported, removed and imported, in this order. *)
Definition pg_moved (osd : Z) (t : thr) (w : world) (kv : bool) (w' : world) : Prop :=
  exists src srcr dst dstr pg path,
    let pre id := tool_prefix kv (cluster (zbkc_manager t)) (zs id) in
    seen [EvRun srcr [pre src +:+ "--op export --pgid " +:+ pg +:+ " --file " +:+ path];
          EvRun srcr [pre src +:+ "--op remove --pgid " +:+ pg];
          EvRun dstr [pre dst +:+ "--op import --file " +:+ path]] w w' /\
    (src = osd \/ src ∈ dead_osds t) /\ (dst = src \/ dst = osd).

(** C20: when a dead OSD's placement group is moved, it is exported to a file, then removed,
    then imported from that file, in this order and under the same name; it comes from
    the OSD just killed or from another dead one, and goes to one of these two. *)
Theorem export_import_order (osd : Z) (r : remote) (t : thr) (w : world) :
  wp (export_import osd r) (fun o _ w' => forall kv, o = Ret (Some kv) -> pg_moved osd t w kv w') t w.
Proof.
  apply wp_conseq with (P := on_ret (fun res _ w' => forall kv, res = Some kv -> pg_moved osd t w kv w')).
  2: { intros [a|e|] t' w' H kv; [intros [= ->]; by apply H|done..]. }
  unfold export_import. apply wp_bind, wp_get. unfold then_.
  eapply on_ret_bind; [apply source_spec|]. intros [src srcr] t1 w1 (-> & H1 & Hsrc). cbn [fst] in Hsrc.
  eapply on_ret_bind; [apply on_ret_skip; [exact H1|unfold has_kv_backend; runs_tac]|].
  clear w1 H1. intros kv t1 w1 [-> H1].
  skip. clear w1 H1. intros _ t1 w1 [-> H1].
  skip. clear w1 H1. intros p t1 w1 [-> H1].
  skip. clear w1 H1. intros _ t1 w1 [-> H1].
  case_match; [by wp_run|].
  skip. clear w1 H1. intros pg t1 w1 [-> H1].
  eapply on_ret_bind; [by apply on_ret_run|]. clear w1 H1. intros p2 t1 w1 [-> H1].
  skip. clear w1 H1. intros _ t1 w1 [-> H1].
  eapply on_ret_bind; [by apply on_ret_run|]. clear w1 H1. intros p3 t1 w1 [-> H1].
  skip. clear w1 H1. intros _ t1 w1 [-> H1].
  eapply on_ret_bind; [apply destination_spec; exact H1|].
  clear w1 H1. intros [dst dstr] t1 w1 (-> & H1 & Hdst). cbn [fst] in Hdst.
  eapply on_ret_bind; [by apply on_ret_run|]. clear w1 H1. intros p4 t1 w1 [-> H1].
  do 3 (skip; clear w1 H1; intros ? t1 w1 [-> H1]). wp_run. intros ? [= <-].
  do 6 eexists. split; [exact H1|done].
Qed.
End Runs.
