(* ===== verification/ThrasherSpec.v ===== *)
(** * The OSD thrasher refines an abstract machine

    The abstract machine knows which OSDs are in and which are live, and nothing of lists,
    managers, weights or randomness.  Its steps move one OSD at a time; taking one out or
    stopping one is guarded by the two minima, and where tests of map gaps are asked for, one
    OSD at a time may be stopped below them.  Every run of [do_thrash], wherever it is cut off,
    is a sequence of these steps. *)
From Stdlib Require Import QArith Qround Lqa Permutation.
From S2P Require Import Prelude PyVal World ZbkcManager ManagerWait Sim WaitFacts.
From S2P Require Import Thrasher ThrasherFacts ThrasherChoice.

(** ** The machine *)

(** The OSDs that are in, those that are live, and whether one of them is down for a test of a
    map gap *)
Record abs := Abs { a_in : gset Z; a_live : gset Z; a_gap : bool }.

(** [gaps]: whether map gaps are tested at all *)
Inductive astep (gaps : Prop) (osds : gset Z) (min_in min_live : Z) : abs -> abs -> Prop :=
| step_out x a : x ∈ a_in a -> min_in < Z.of_nat (size (a_in a)) ->
    astep gaps osds min_in min_live a (Abs (a_in a ∖ {[x]}) (a_live a) (a_gap a))
| step_in x a : x ∈ osds -> x ∉ a_in a ->
    astep gaps osds min_in min_live a (Abs ({[x]} ∪ a_in a) (a_live a) (a_gap a))
| step_kill x a : x ∈ a_live a -> min_live < Z.of_nat (size (a_live a)) -> a_gap a = false ->
    astep gaps osds min_in min_live a (Abs (a_in a) (a_live a ∖ {[x]}) false)
| step_revive x a : x ∈ osds -> x ∉ a_live a -> a_gap a = false ->
    astep gaps osds min_in min_live a (Abs (a_in a) ({[x]} ∪ a_live a) false)
| step_gap x a : gaps -> x ∈ a_live a -> min_in < Z.of_nat (size (a_in a)) -> a_gap a = false ->
    astep gaps osds min_in min_live a (Abs (a_in a) (a_live a ∖ {[x]}) true)
| step_close x a : x ∈ osds -> x ∉ a_live a -> a_gap a = true ->
    astep gaps osds min_in min_live a (Abs (a_in a) ({[x]} ∪ a_live a) false).
Abbreviation asteps gaps osds min_in min_live := (rtc (astep gaps osds min_in min_live)).

(** The machine stays among its OSDs and above its minima, one OSD less during a gap: rule
    induction. *)
Lemma size_remove (x : Z) (s : gset Z) : x ∈ s -> Z.of_nat (size (s ∖ {[x]})) = Z.of_nat (size s) - 1.
Proof.
  intros Hx. rewrite size_difference by set_solver. rewrite size_singleton.
  assert (size s <> 0)%nat by (rewrite size_non_empty_iff; set_solver). lia.
Qed.
Definition above (min_live : Z) (a : abs) : Prop :=
  min_live <= Z.of_nat (size (a_live a)) + (if a_gap a then 1 else 0).
Lemma astep_floors gaps osds min_in min_live a a' :
  astep gaps osds min_in min_live a a' ->
  (min_in <= Z.of_nat (size (a_in a)) -> min_in <= Z.of_nat (size (a_in a'))) /\
  (above min_live a -> above min_live a') /\
  (a_in a ⊆ osds -> a_in a' ⊆ osds) /\ (a_live a ⊆ osds -> a_live a' ⊆ osds).
Proof.
  unfold above.
  destruct 1 as [x a Hx Hm|x a Hx Hn|x a Hx Hm Hg|x a Hx Hn Hg|x a Hs Hx Hm Hg|x a Hx Hn Hg]; cbn [a_in a_live a_gap];
    rewrite ?Hg, ?size_remove, ?size_union, ?size_singleton by set_solver; split_ands; intros; first [lia|set_solver].
Qed.
Lemma asteps_floors gaps osds min_in min_live a a' :
  asteps gaps osds min_in min_live a a' ->
  (min_in <= Z.of_nat (size (a_in a)) -> min_in <= Z.of_nat (size (a_in a'))) /\
  (above min_live a -> above min_live a') /\
  (a_in a ⊆ osds -> a_in a' ⊆ osds) /\ (a_live a ⊆ osds -> a_live a' ⊆ osds).
Proof. induction 1 as [|a1 a2 a3 H1 _ IH]; [done|]. pose proof (astep_floors _ _ _ _ _ _ H1). naive_solver. Qed.
(** Without tests of map gaps no gap is ever open. *)
Lemma asteps_no_gap osds min_in min_live a a' :
  asteps False osds min_in min_live a a' -> a_gap a = false -> a_gap a' = false.
Proof. induction 1 as [|a1 a2 a3 H1 _ IH]; [done|]. intros Hg. apply IH. by destruct H1. Qed.

(** ** Runs of the thrasher under guards

    A preorder that allows bringing OSDs back, taking one out while more than [zi] are in,
    and stopping one while more than [zl] are live, relates the ends of every run that
    returns; [R'] is what holds where a run is cut off. *)
Definition discontinuities (c : dict) : Prop :=
  exists q, num_of (dict_get "chance_test_map_discontinuity" (PFloat 0) c) = Some q /\ (0 < q)%Q.

(** Code that follows a preorder, from a state that is already related to the first one *)
Section Follows.
Context {E : Env} {F : Fuel} (R P : relation thr) `{!PreOrder R}.
Hypothesis P_R : forall t0 t t', P t0 t -> R t t' -> P t0 t'.
Lemma wp_follows {A} (m : M thr A) t0 t w : P t0 t -> Moves R m -> wp m (fun _ t' _ => P t0 t') t w.
Proof.
  intros Ht Hm. eapply wp_conseq; [apply (moves_self R _ false), Hm|]. intros o t' w' H. by eapply P_R.
Qed.
Lemma wp_follows_seq {A B} (m : M thr A) (k : A -> M thr B) t0 t w :
  wp m (fun _ t' _ => P t0 t') t w -> (forall a t1 w1, P t0 t1 -> wp (k a) (fun _ t' _ => P t0 t') t1 w1) ->
  wp (bind m k) (fun _ t' _ => P t0 t') t w.
Proof. intros Hm Hk. apply wp_bind. eapply wp_conseq; [exact Hm|]. intros [a|e|] t1 w1 H1; unfold then_; auto. Qed.
End Follows.

Section Guarded.
Context {E : Env} {EL : EnvLaws E} {F : Fuel} (R R' : relation thr) (zi zl : Z).
Context `{!PreOrder R, !OnMan R, !OnIn R, !OnRevive R}.
Hypothesis R_opts : forall t t', R t t' -> config t' = config t /\ minin t' = minin t.
Hypothesis R_out : forall x l t, py_remove x (in_osds t) = Some l -> zi < count (in_osds t) ->
  R t (set_in_out l (out_osds t ++ [x]) t).
Hypothesis R_kill : forall x l t, py_remove x (live_osds t) = Some l -> zl < count (live_osds t) ->
  R t (set_live_dead l (dead_osds t ++ [x]) t).
Hypothesis R_cut : forall t t', R t t' -> R' t t'.
Abbreviation ends t0 := (fun o t' _ => match o with Ret _ => R t0 t' | _ => R' t0 t' end).
Hypothesis R_gap : forall t0 t w, R t0 t -> minin t = zi -> discontinuities (config t) ->
  wp test_map_discontinuity (ends t0) t w.

Lemma wp_ends {A} (m : M thr A) t0 t w : wp m (fun _ t' _ => R t0 t') t w -> wp m (ends t0) t w.
Proof. intros H. eapply wp_conseq; [exact H|]. intros [] ??; auto. Qed.
Lemma wp_R {A} (m : M thr A) t0 t w : R t0 t -> Moves R m -> wp m (ends t0) t w.
Proof.
  intros Ht Hm. apply wp_ends. apply (wp_follows R R); [intros; by etrans|done..].
Qed.
Lemma wp_R_seq {A B} (m : M thr A) (k : A -> M thr B) t0 t w :
  wp m (ends t0) t w -> (forall a t1 w1, R t0 t1 -> wp (k a) (ends t0) t1 w1) -> wp (bind m k) (ends t0) t w.
Proof. intros Hm Hk. apply wp_bind. eapply wp_conseq; [exact Hm|]. intros [a|e|] t1 w1 H1; unfold then_; auto. Qed.

Lemma guarded_out t0 t w : R t0 t -> zi < count (in_osds t) -> wp (out_osd None) (ends t0) t w.
Proof.
  intros Ht Hz. apply wp_ends. unfold out_osd, list_remove. apply wp_bind, wp_pick; [|by intros].
  intros o w1 _. unfold then_. apply wp_bind, wp_man.
  intros [[]|e|] mg w2; unfold then_; wp_run; try (by etrans; [exact Ht|apply on_man]).
  etrans; [exact Ht|]. etrans; [apply (on_man mg)|]. by apply R_out.
Qed.
Lemma guarded_kill t0 t w : R t0 t -> zl < count (live_osds t) -> wp (kill_osd None false false) (ends t0) t w.
Proof.
  intros Ht Hz. unfold kill_osd, list_remove. apply wp_bind, wp_pick; [|by intros; apply R_cut].
  intros o w1 _. unfold then_. apply wp_bind, wp_get. unfold then_. apply wp_bind, wp_of_option; [|intros; by apply R_cut].
  intros l Hl. unfold then_. apply wp_bind, wp_modify. unfold then_. apply wp_R; [|runs_tac].
  etrans; [exact Ht|]. by apply R_kill.
Qed.
Lemma guarded_clean_phase c s m d t0 t w :
  minin t0 = zi -> R t0 t -> wp (thrash_clean_phase c s m d) (ends t0) t w.
Proof.
  intros Hi Ht. unfold thrash_clean_phase.
  do 3 (apply wp_R_seq; [apply wp_R; [exact Ht|runs_tac]|clear dependent t; intros ? t ? Ht]).
  unfold uniform. do 4 wp_step. do 2 wp_step. apply wp_bind, wp_opt_num; [|by intros; apply R_cut]. intros q Hq. unfold then_.
  apply wp_R_seq; [|intros; apply wp_R; [done|runs_tac]].
  match goal with |- context [Qlt_bool ?u q] => destruct (Qlt_bool u q) eqn:Hlt end; [|apply wp_R; [done|runs_tac]].
  apply R_gap; [done|by rewrite (proj2 (R_opts _ _ Ht))|]. exists q. split; [done|].
  apply Qlt_bool_iff in Hlt. destruct (draw_range (w_draws w2)). nra.
Qed.
Lemma guarded_iteration c s m d t0 t w :
  minin t0 = zi -> opt_is "min_live" 2 t0 zl -> R t0 t -> wp (thrash_iteration c s m d) (ends t0) t w.
Proof.
  intros Hi Hz Ht. unfold thrash_iteration.
  do 2 (apply wp_R_seq; [apply wp_R; [exact Ht|runs_tac]|clear dependent t; intros ? t ? Ht]).
  apply wp_R_seq; [unfold when; case_match; [by apply guarded_clean_phase|by wp_run]|].
  clear dependent t; intros _ t w2 Ht. apply wp_bind. eapply wp_conseq; [apply choose_action_spec|].
  intros [[key act]|e|] t1 w3 [-> H]; unfold then_; [|by apply R_cut..].
  destruct (H key act eq_refl) as (_ & Hok & _). clear H. cbn [fst snd].
  apply wp_R_seq; [|intros; apply wp_R; [done|runs_tac]]. destruct (R_opts _ _ Ht) as [Hc Hm].
  destruct (decide (act = Some AOut)) as [->|Hno1]; [|destruct (decide (act = Some AKill)) as [->|Hnk]].
  - specialize (Hok AOut eq_refl). simpl in Hok. apply guarded_out; [done|]. congruence.
  - destruct (Hok AKill eq_refl) as (z' & Hz' & Hlt). apply guarded_kill; [done|].
    enough (z' = zl) by congruence. specialize (Hz w). specialize (Hz' w).
    unfold opt_count, opt, gets, bind in Hz, Hz'. rewrite Hc in Hz'.
    unfold as_count, ret, raise in *. repeat case_match; simplify_eq; done.
  - apply wp_R; [done|]. by apply moves_call; [exact _..| |].
Qed.
Lemma guarded_do_thrash t w :
  minin t = zi -> opt_is "min_live" 2 t zl -> wp do_thrash (ends t) t w.
Proof.
  intros Hi Hz. unfold do_thrash. assert (Hr : R' t t) by (apply R_cut; reflexivity).
  do 4 (apply wp_bind; first [apply wp_opt_num; [intros ? _|done]|apply wp_gets]; unfold then_).
  apply wp_bind. apply wp_while with (I := fun _ t' _ => R t t'); [|intros; by apply R_cut|reflexivity].
  intros [] t1 w1 H1. apply wp_bind. unfold stopping, ask. apply wp_bind, wp_emit. intros r c' _.
  destruct (raised r); [by apply R_cut|]. wp_run. case_match.
  - eapply wp_conseq; [by apply guarded_iteration|]. by intros [[]|e|] t2 w2 H2.
  - unfold then_. apply wp_R; [done|]. runs_tac.
Qed.
End Guarded.

(** ** The refinement *)

(** What the machine sees of a thrasher. *)
Definition abs_of (gap : bool) (t : thr) : abs := Abs (list_to_set (in_osds t)) (list_to_set (live_osds t)) gap.

(** A step of the thrasher: options unchanged, partitions kept, and steps of the machine. *)
Definition simulated (cfg : dict) (osds : list Z) (zi zl : Z) (g g' : bool) (t t' : thr) : Prop :=
  (config t' = config t /\ minin t' = minin t) /\
  (thrasher_inv osds t -> config t = cfg ->
   thrasher_inv osds t' /\ asteps (discontinuities cfg) (list_to_set osds) zi zl (abs_of g t) (abs_of g' t')).

Section Simulation.
Context (cfg : dict) (osds : list Z) (zi zl : Z).
Abbreviation sim := (simulated cfg osds zi zl).
Lemma sim_trans g1 g2 g3 t1 t2 t3 : sim g1 g2 t1 t2 -> sim g2 g3 t2 t3 -> sim g1 g3 t1 t3.
Proof.
  intros [[Hc1 Hm1] H1] [[Hc2 Hm2] H2]. split; [split; congruence|]. intros H Hc.
  destruct (H1 H Hc) as [H' S1]. destruct (H2 H' ltac:(congruence)) as [H'' S2]. split; [done|]. by etrans.
Qed.
#[export] Instance simulated_preorder g : PreOrder (sim g g).
Proof.
  split; [|intros ???; apply sim_trans]. intros t. split; [done|]. intros H _. split; [done|]. constructor.
Qed.
(** Lists without duplicates stand for sets of the same size. *)
Lemma parts_nodup (l k : list Z) : l ++ k ≡ₚ osds -> NoDup osds ->
  NoDup l /\ NoDup k /\ (forall x, x ∈ l -> x ∉ k) /\ (forall x, x ∈ l -> x ∈ osds) /\ (forall x, x ∈ k -> x ∈ osds).
Proof.
  intros Hp Hn. rewrite <- Hp in Hn. apply NoDup_app in Hn as (? & ? & ?). split_ands; try done;
    intros x Hx; rewrite <- Hp; set_solver.
Qed.
Lemma removed_in x (l l' : list Z) : py_remove x l = Some l' -> x ∈ l.
Proof. intros H%py_remove_perm. rewrite H. set_solver. Qed.
Lemma removed_set x (l l' : list Z) : NoDup l -> py_remove x l = Some l' ->
  x ∈ l /\ (list_to_set l' : gset Z) = list_to_set l ∖ {[x]}.
Proof.
  intros Hn Hr. pose proof (removed_in _ _ _ Hr) as Hx. apply py_remove_perm in Hr.
  split; [done|]. rewrite Hr in Hn. apply NoDup_cons in Hn as [Hn _].
  apply set_eq. intros y. rewrite Hr. set_solver.
Qed.
Lemma added_set x (l : list Z) : (list_to_set (l ++ [x]) : gset Z) = {[x]} ∪ list_to_set l.
Proof. set_solver. Qed.
Lemma count_size (l : list Z) : NoDup l -> Z.of_nat (size (list_to_set l : gset Z)) = count l.
Proof. intros H. by rewrite size_list_to_set. Qed.
(** A move that keeps the books and is at most one step of the machine. *)
Lemma simulated_move g g' t t' : books t t' ->
  (thrasher_inv osds t -> config t = cfg -> abs_of g' t' = abs_of g t \/
     astep (discontinuities cfg) (list_to_set osds) zi zl (abs_of g t) (abs_of g' t')) -> sim g g' t t'.
Proof.
  intros Hb Hs. split; [split; apply Hb|]. intros Hi Hc. split.
  - destruct Hi as (Hio & Hld & Hn). unfold thrasher_inv.
    by rewrite (books_in_out _ _ Hb), (books_live_dead _ _ Hb).
  - destruct (Hs Hi Hc) as [->|H]; [constructor|by apply rtc_once].
Qed.
#[export] Instance simulated_man g : OnMan (sim g g).
Proof. intros m t. apply simulated_move; [apply books_set_manager|by left]. Qed.
#[export] Instance simulated_in g : OnIn (sim g g).
Proof.
  intros x l t Hr. apply simulated_move; [by apply books_in|]. intros (Hio & _ & Hn) _. right.
  destruct (parts_nodup _ _ Hio Hn) as (_ & _ & Hd & _ & Ho). pose proof (removed_in _ _ _ Hr) as Hx.
  unfold abs_of. cbn [in_osds live_osds set_in_out]. rewrite added_set.
  apply (step_in _ _ _ _ x (Abs _ _ _)); cbn [a_in]; [set_solver|].
  rewrite elem_of_list_to_set. intros H. by apply (Hd x).
Qed.
(** A dead OSD comes back, in the course of the thrashing or at the end of a gap. *)
Lemma simulated_back g x l t : py_remove x (dead_osds t) = Some l ->
  sim g false t (set_live_dead (live_osds t ++ [x]) l t).
Proof.
  intros Hr. apply simulated_move; [by apply books_revive_osd|]. intros (_ & Hld & Hn) _. right.
  destruct (parts_nodup _ _ Hld Hn) as (_ & _ & Hd & _ & Ho). pose proof (removed_in _ _ _ Hr) as Hx.
  unfold abs_of. cbn [in_osds live_osds set_live_dead]. rewrite added_set.
  assert (Hl : x ∉ (list_to_set (live_osds t) : gset Z)) by (rewrite elem_of_list_to_set; intros H; by apply (Hd x)).
  assert (Hxo : x ∈ (list_to_set osds : gset Z)) by set_solver.
  destruct g; [by apply (step_close _ _ _ _ x (Abs _ _ true))|by apply (step_revive _ _ _ _ x (Abs _ _ false))].
Qed.
#[export] Instance simulated_revive : OnRevive (sim false false).
Proof. intros x l t Hr. by apply simulated_back. Qed.
Lemma simulated_out g x l t : py_remove x (in_osds t) = Some l -> zi < count (in_osds t) ->
  sim g g t (set_in_out l (out_osds t ++ [x]) t).
Proof.
  intros Hr Hz. apply simulated_move; [by apply books_out|]. intros (Hio & _ & Hn) _. right.
  destruct (parts_nodup _ _ Hio Hn) as (Hl & _). destruct (removed_set _ _ _ Hl Hr) as [Hx He].
  unfold abs_of. cbn [in_osds live_osds set_in_out]. rewrite He.
  apply (step_out _ _ _ _ x (Abs _ _ _)); cbn [a_in]; [set_solver|]. by rewrite count_size.
Qed.
Lemma simulated_kill x l t : py_remove x (live_osds t) = Some l -> zl < count (live_osds t) ->
  sim false false t (set_live_dead l (dead_osds t ++ [x]) t).
Proof.
  intros Hr Hz. apply simulated_move; [by apply books_kill|]. intros (_ & Hld & Hn) _. right.
  destruct (parts_nodup _ _ Hld Hn) as (Hl & _). destruct (removed_set _ _ _ Hl Hr) as [Hx He].
  unfold abs_of. cbn [in_osds live_osds set_live_dead]. rewrite He.
  apply (step_kill _ _ _ _ x (Abs _ _ _)); cbn [a_live]; [set_solver| |done]. by rewrite count_size.
Qed.
Lemma simulated_gap x l t : py_remove x (live_osds t) = Some l -> zi < count (in_osds t) ->
  discontinuities (config t) -> sim false true t (set_live_dead l (dead_osds t ++ [x]) t).
Proof.
  intros Hr Hz Hd. apply simulated_move; [by apply books_kill|]. intros (Hio & Hld & Hn) Hc. right.
  destruct (parts_nodup _ _ Hld Hn) as (Hl & _). destruct (removed_set _ _ _ Hl Hr) as [Hx He].
  destruct (parts_nodup _ _ Hio Hn) as (Hi & _).
  unfold abs_of. cbn [in_osds live_osds set_live_dead]. rewrite He.
  apply (step_gap _ _ _ _ x (Abs _ _ _)); cbn [a_live a_in]; [by rewrite <- Hc|set_solver| |done]. by rewrite count_size.
Qed.

Section Gap.
Context {E : Env} {EL : EnvLaws E} {F : Fuel}.
(** Inside of a gap *)
Lemma wp_gapped {A} (m : M thr A) t0 t w :
  sim false true t0 t -> Moves (sim true true) m -> wp m (fun _ t' _ => sim false true t0 t') t w.
Proof. apply wp_follows. intros ???. apply sim_trans. Qed.
Lemma gapped_out osd t0 t w : sim false true t0 t -> zi < count (in_osds t) ->
  wp (out_osd osd) (fun _ t' _ => sim false true t0 t') t w.
Proof.
  intros Ht Hz. unfold out_osd, list_remove. apply wp_bind, wp_pick; [|by intros].
  intros o w1 _. unfold then_. apply wp_bind, wp_man.
  intros [[]|e|] mg w2; unfold then_; wp_run; try (by eapply sim_trans; [exact Ht|apply on_man]).
  eapply sim_trans; [exact Ht|]. eapply sim_trans; [apply (on_man mg)|]. by apply simulated_out.
Qed.
(** The kill that opens a gap: nothing happened when it is not made. *)
Lemma gap_opens t0 t w : sim false false t0 t -> zi < count (in_osds t) -> discontinuities (config t) ->
  wp (kill_osd None true true) (fun o t' _ => sim false true t0 t' \/ (sim false false t0 t' /\ exists e, o = Exc e)) t w.
Proof.
  intros Ht Hz Hdis. unfold kill_osd, list_remove. apply wp_bind, wp_pick; [|intros; right; eauto].
  intros o w1 _. unfold then_. apply wp_bind, wp_get. unfold then_. apply wp_bind, wp_of_option; [|intros; right; eauto].
  intros l Hl. unfold then_. apply wp_bind, wp_modify. unfold then_. set (t1 := set_live_dead _ _ _).
  assert (H1 : sim false true t0 t1) by (eapply sim_trans; [exact Ht|by apply simulated_gap]).
  assert (Hz1 : zi < count (in_osds t1)) by done. clearbody t1. clear Ht Hz Hdis Hl.
  match goal with |- wp ?m _ _ _ => enough (wp m (fun _ t' _ => sim false true t0 t') t1 w1) as H end.
  { eapply wp_conseq; [exact H|]. intros; by left. }
  apply wp_bind, wp_man. intros [[]|e|] mg w2; unfold then_; try (by eapply sim_trans; [exact H1|apply on_man]).
  apply wp_bind. unfold when at 1. apply wp_man.
  intros [[]|e|] mg' w3; unfold then_; try (by eapply sim_trans; [exact H1|]; eapply sim_trans; [apply (on_man mg)|apply on_man]).
  assert (H2 : sim false true t0 (set_manager mg' (set_manager mg t1)))
    by (eapply sim_trans; [exact H1|]; eapply sim_trans; [apply (on_man mg)|apply on_man]).
  apply wp_bind, wp_get. unfold then_ at 1. eapply (wp_follows_seq (sim false true)); [unfold when at 1; case_match|].
  - by apply gapped_out.
  - by apply wp_ret.
  - intros _ t3 w4 H3. apply wp_gapped; [done|]. runs_tac.
Qed.
Lemma gap_closes t0 t w : sim false true t0 t ->
  wp (revive_osd None false) (fun o t' _ => match o with Ret _ => sim false false t0 t' | _ => sim false true t0 t' end) t w.
Proof.
  intros Ht. unfold revive_osd, list_remove. apply wp_bind, wp_pick; [|by intros].
  intros o w1 _. wp_run. apply wp_man.
  intros [[]|e|] mg w2; unfold then_; wp_run; try (by eapply sim_trans; [exact Ht|apply on_man]).
  eapply sim_trans; [exact Ht|]. eapply sim_trans; [apply (on_man mg)|]. by apply simulated_back.
Qed.
(** Code that takes nothing out leaves the spare OSD there. *)
Lemma wp_spare_sim {A B} (m : M thr A) (k : A -> M thr B) (Q : post thr B) t0 t w :
  sim false false t0 t -> zi < count (in_osds t) ->
  Moves (sim false false) m -> Moves (keeps (zi + 1) in_osds) m ->
  (forall o t1 w1, sim false false t0 t1 -> (forall a, o <> Ret a) -> Q o t1 w1) ->
  (forall a t1 w1, sim false false t0 t1 -> config t1 = config t -> zi < count (in_osds t1) -> wp (k a) Q t1 w1) ->
  wp (bind m k) Q t w.
Proof.
  intros Ht Hz Hm Hm' Hcut Hk. apply wp_bind.
  eapply wp_conseq; [apply wp_and; [apply (moves_self (sim false false) _ false), Hm|apply (moves_self (keeps (zi + 1) in_osds) _ false), Hm']|].
  intros o t1 w1 [H1 [Hc _ H3]]. specialize (H3 ltac:(lia)).
  assert (sim false false t0 t1) by (by eapply sim_trans).
  destruct o; unfold then_; [apply Hk; [done..|lia]|by apply Hcut..].
Qed.
Lemma gap_simulated t0 t w : sim false false t0 t -> minin t = zi -> discontinuities (config t) ->
  wp test_map_discontinuity (fun o t' _ => match o with
    | Ret _ => sim false false t0 t' | _ => exists g, sim false g t0 t' end) t w.
Proof.
  intros Ht Hz Hd. unfold test_map_discontinuity. apply wp_bind.
  apply wp_while with (I := fun _ t' _ => sim false false t0 t' /\ minin t' = zi /\ discontinuities (config t'));
    [|intros [] t' w' (? & _); by exists false|done].
  intros [] t1 w1 (H1 & Hz1 & Hd1). wp_run. case_match eqn:Hlt.
  { eapply wp_conseq; [apply (moves_self (sim false false) _ false), moves_in_osd; exact _|].
    intros [[]|e|] t2 w2 H2; unfold then_; [|exists false; by eapply sim_trans..].
    destruct (H2) as [[Hc Hm] _]. split; [by eapply sim_trans|]. by rewrite Hc, Hm. }
  unfold then_. assert (Hn : zi < count (in_osds t1)) by (unfold count; lia).
  clear Hlt Hz1 Ht Hz Hd.
  do 5 (apply (wp_spare_sim _ _ _ t0); [done|done|runs_tac|runs_tac|
    intros o' ??? Hno; destruct o'; [by destruct (Hno _ eq_refl)|by exists false..]|
    let H := fresh in intros ? t2 ? H Hc ?; rewrite <- Hc in Hd1; clear dependent t1; rename t2 into t1, H into H1]).
  apply wp_bind. eapply wp_conseq; [by apply (gap_opens t0)|].
  intros o t2 ? [H2|[H2 [e ->]]]; [|unfold then_; by exists false].
  destruct o as [[]|e|]; unfold then_; [|by exists true..].
  do 3 (apply wp_bind; eapply wp_conseq; [apply wp_gapped; [exact H2|runs_tac]|];
        clear dependent t2; intros o t2 ? H2; destruct o; unfold then_; [|by exists true..]).
  eapply wp_conseq; [by apply (gap_closes t0)|]. intros o ???; destruct o; [done|by exists true..].
Qed.
End Gap.

(** C2: [do_thrash] refines the abstract machine, whatever its options: from a thrasher whose
    lists are partitions of its OSDs, whatever the cluster answers, whatever is drawn and
    wherever the run is cut off, what became of the sets of OSDs that are in and that are live
    is a sequence of moves of one OSD each.  An OSD is taken out only above [min_in] and killed
    only above [min_live], but for the one kill of a map-discontinuity test, which happens only
    when the options ask for such tests, never twice before an OSD is revived, and is over when
    [do_thrash] returns; so at least [min_live - 1] OSDs are live at any time. *)
Theorem do_thrash_refines {E : Env} {EL : EnvLaws E} {F : Fuel} (t : thr) (w : world) :
  thrasher_inv osds t -> config t = cfg -> minin t = zi -> opt_is "min_live" 2 t zl ->
  wp do_thrash (fun o t' _ => exists gap, (is_ret o -> gap = false) /\
    asteps (discontinuities cfg) (list_to_set osds) zi zl (abs_of false t) (abs_of gap t') /\
    (zl <= count (live_osds t) -> zl - (if gap then 1 else 0) <= count (live_osds t'))) t w.
Proof.
  intros Hi Hc Hz Hl. eapply wp_conseq.
  - apply (guarded_do_thrash (sim false false) (fun t t' => exists g, sim false g t t') zi zl); try exact _; try done.
    + by intros t1 t2 [].
    + apply simulated_out.
    + exact simulated_kill.
    + intros t1 t2 H. by exists false.
    + intros. by apply gap_simulated.
  - intros o t' w' H. assert (exists g, (is_ret o -> g = false) /\ sim false g t t') as (g & Hg & _ & Hs).
    { destruct o; [by exists false|destruct H as [g H]; exists g; by split..]. }
    destruct (Hs Hi Hc) as [Hi' Hst]. exists g. split; [done|]. split; [done|].
    destruct (asteps_floors _ _ _ _ _ _ Hst) as (_ & Hf & _). unfold above, abs_of in Hf; cbn [a_live a_gap] in Hf.
    destruct Hi as (_ & Hld & Hn), Hi' as (_ & Hld' & _).
    destruct (parts_nodup _ _ Hld Hn) as (Hn1 & _), (parts_nodup _ _ Hld' Hn) as (Hn2 & _).
    rewrite !count_size in Hf by done. lia.
Qed.
End Simulation.
