(* ===== verification/ObjectStoreTool.v ===== *)
(** * [ObjectStoreTool] (tasks/zbkc_manager.py): the tool run on a stopped OSD

    The model of the class, and what a run does to the OSD: it is started again
    whatever the tool answers, except in the two cases where the code does not get
    that far. *)
From Stdlib Require Import Ascii QArith Qround Lqa.
From S2P Require Import Prelude PyVal World ZbkcManager ManagerWait Daemons.

(** The argument [osd]: missing, a number, a number as a text, or the word "primary". *)
Inductive which_osd := OsdNone | OsdNum (n : Z) | OsdText (n : Z) | OsdPrimary.
Record ost := Ost
  { ot_manager : mgr; ot_pool : string; ot_osd : Z; ot_object : option string; do_revive : bool;
    pgid : string; ot_remote : remote; paths : string }.
Definition set_ot_manager (m : mgr) (t : ost) : ost :=
  Ost m (ot_pool t) (ot_osd t) (ot_object t) (do_revive t) (pgid t) (ot_remote t) (paths t).

Section ObjectStoreTool.
Context {E : Env} {F : Fuel}.
Abbreviation MO A := (M ost A).
Definition oman {A} (m : M mgr A) : MO A := zoom ot_manager set_ot_manager m.

(** [assert self.osd]: the number 0 is false, the text is not.  A "primary" that was not resolved names
    no machine. *)
Definition init (pool : string) (osd : which_osd) (object_name : option string) (do_revive : bool) : M mgr ost :=
  let named := match object_name with Some n => negb (String.eqb n EmptyString) | None => false end in
  osd <- match osd with
         | OsdPrimary =>
             if negb (String.eqb pool EmptyString) && named
             then n <- get_object_primary pool (default EmptyString object_name) ;; ret (OsdNum n)
             else ret OsdPrimary
         | _ => ret osd
         end ;;
  assert_ (match osd with OsdNone => false | OsdNum n => negb (n =? 0) | OsdText _ | OsdPrimary => true end) "self.osd" ;;
  match osd with
  | OsdNum n | OsdText n =>
      pg <- (if named then get_object_pg_with_shard pool (default EmptyString object_name) n
             else ret EmptyString) ;;
      m <- get ;;
      r <- of_option IndexError (head (only (String.eqb ("osd." +:+ zs n)) (ctx m))) ;;
      let path := "/var/lib/zbkc/osd/" +:+ cluster m +:+ "-" +:+ zs n in
      ret (Ost m pool n (if named then object_name else None) do_revive pg r
             ("--data-path " +:+ path +:+ " --journal-path " +:+ path +:+ "/journal"))
  | _ => raise IndexError
  end.

(** [base64.encode(stdin)] has one argument too few. *)
Definition build_cmd (options args : string) (stdin : option string) : MO string :=
  t <- get ;;
  let '(lines, args, options) :=
    match ot_object t with
    | Some name =>
        (["object=$(sudo adjust-ulimits zbkc-objectstore-tool " +:+ paths t +:+ " --pgid " +:+ pgid t +:+
          " --op list |grep '" +:+ dqs +:+ "oid" +:+ dqs +:+ ":" +:+ dqs +:+ name +:+ dqs +:+ "')"],
         dqs +:+ "$object" +:+ dqs +:+ " " +:+ args,
         options +:+ " --pgid " +:+ pgid t)
    | None => ([], args, options)
    end in
  let cmd := "sudo adjust-ulimits zbkc-objectstore-tool " +:+ paths t +:+ " " +:+ options +:+ " " +:+ args in
  when (match stdin with Some s => negb (String.eqb s EmptyString) | None => false end)
    (raise (TypeError "encode() takes exactly 2 arguments (1 given)")) ;;
  ret (str_join nls (lines ++ [cmd])).

Definition run_tool (options args : string) (stdin : option string) : MO unit :=
  t <- get ;;
  oman (kill_osd (ot_osd t)) ;;
  cmd <- build_cmd options args stdin ;;
  finally
    (proc <- run (ot_remote t) ["bash"; "-e"; "-x"; "-c"; cmd] false ;;
     when (negb (exitstatus proc =? 0)) (raise (PyException (stdout proc +:+ " " +:+ stderr proc))))
    (when (do_revive t) (oman (revive_osd (ot_osd t) 150 false))).

(** [ZbkcManager.objectstore_tool(pool, options, args, osd=..., object_name=..., do_revive=...)] *)
Definition objectstore_tool (pool options args : string) (osd : which_osd) (object_name : option string)
  (do_revive : bool) : M mgr unit :=
  t <- init pool osd object_name do_revive ;;
  zoom (fun m => set_ot_manager m t) (fun t' _ => ot_manager t') (run_tool options args None).

End ObjectStoreTool.

(** ** What a run does to the OSD *)
Section Facts.
Context {E : Env} {F : Fuel}.

(** OSDs are stopped and started as daemons: no power cycling, no injected crashes. *)
Definition plain_kills (m : mgr) : Prop :=
  truthy (dict_get "powercycle" PNone (config m)) = false /\
  truthy (dict_get "bdev_inject_crash" PNone (config m)) = false.
Definition osd_event (op : daemon_op) (t : ost) : event :=
  EvDaemon op "osd" (zs (ot_osd t)) (cluster (ot_manager t)).

Lemma oman_same t : set_ot_manager (ot_manager t) t = t.
Proof. by destruct t. Qed.
Lemma kill_stops t w :
  plain_kills (ot_manager t) ->
  wp (oman (kill_osd (ot_osd t)))
    (fun o t' w' => t' = t /\ o <> Stuck /\ exists c, w' = after (osd_event DStop t) c w) t w.
Proof.
  intros [Hp Hc]. unfold oman, wp, zoom, kill_osd, cfg.
  do 3 rewrite (bind_run _ _ _ _ _ _ _ eq_refl). rewrite Hp, Hc. cbn [andb].
  unfold daemon_of, daemon, bind, get, emit, ret. fold (osd_event DStop t).
  destruct (respond (osd_event DStop t) (w_env w)) as [r c]. destruct (raised r); rewrite oman_same; eauto.
Qed.
Definition powercycled (m : mgr) : Prop := truthy (dict_get "powercycle" PNone (config m)) = true.
(** What a run adds to the trace *)
Abbreviation adds w evs w' := (w_trace w' = w_trace w ++ evs).
Abbreviation Plain m := (Runs true (quiet (fun _ => True)) m).
Ltac plain_tac := runs_tac; by apply quiet_emit.
Lemma kill_plain osd : Plain (kill_osd osd).
Proof. plain_tac. Qed.
Lemma wait_plain args : Runs false (quiet (fun _ => True)) (wait_run_admin_socket "osd" args ["dump_ops_in_flight"] 150).
Proof. plain_tac. Qed.
(** Restarting sends its event before it waits; only powering the machine up comes before it. *)
Lemma revive_restarts osd m w :
  wp (revive_osd osd 150 false) (fun o _ w' => exists evs, adds w evs w' /\
    (EvDaemon (DRestart []) "osd" (zs osd) (cluster m) ∈ evs \/ (powercycled m /\ exists e, o = Exc e))) m w.
Proof.
  unfold revive_osd, cfg. apply wp_bind, wp_gets. unfold then_. apply wp_bind.
  match goal with |- wp ?p _ _ _ => assert (Hup : Plain p) by plain_tac end.
  assert (Hno : truthy (dict_get "powercycle" PNone (config m)) = false \/ powercycled m)
    by (unfold powercycled; destruct (truthy _); auto).
  match goal with |- wp ?p _ _ _ => assert (Hpc : wp p (fun o m' w1 => m' = m /\ exists evs, adds w evs w1 /\ o <> Stuck /\
    (forall e, o = Exc e -> powercycled m)) m w) end.
  { destruct Hno as [Hf|Hpc].
    - rewrite Hf. split; [done|]. exists []. rewrite app_nil_r. done.
    - eapply wp_conseq; [apply Hup|]. intros o m1 w1 [[Hm (evs & He & _)] Hns]. cbn in Hm, He. subst m1. eauto 8. }
  eapply wp_conseq; [exact Hpc|]. clear Hpc Hup Hno. intros o m1 w1 (-> & evs & He & Hns & Hx).
  destruct o as [u|e|]; unfold then_; [|exists evs; split; [done|]; right; by eauto|done].
  apply wp_bind. unfold daemon_of, daemon. apply wp_bind, wp_get. unfold then_ at 1. apply wp_bind, wp_emit. intros r c _.
  set (ev := EvDaemon _ _ _ _). assert (Hin : forall l, ev ∈ evs ++ [ev] ++ l) by set_solver.
  destruct (raised r); unfold then_; [exists (evs ++ [ev]); cbn; rewrite He, (assoc_L (++)); split; [done|]; left; apply (Hin [])|].
  apply wp_ret. unfold then_, when. cbn [negb]. eapply wp_conseq; [apply wait_plain|]. intros o m1 w2 [[_ (evs' & He' & _)] _]. cbn in He'.
  exists (evs ++ [ev] ++ evs'). rewrite He', He. split; [by rewrite !(assoc_L (++))|]. left. apply Hin.
Qed.

Lemma build_cmd_pure options args stdin t w :
  wp (build_cmd options args stdin) (fun o t' w' => t' = t /\ w' = w /\ o <> Stuck /\
    (forall s, stdin = Some s -> s <> EmptyString -> o = Exc (TypeError "encode() takes exactly 2 arguments (1 given)")) /\
    (stdin = None -> exists cmd, o = Ret cmd)) t w.
Proof.
  unfold build_cmd. apply wp_bind, wp_get. unfold then_.
  destruct stdin as [s0|]; [destruct (String.eqb_spec s0 EmptyString)|]; destruct (ot_object t); cbn [negb];
    wp_run; split_ands; try done; try (by intros ? [= <-]); by eauto.
Qed.

(** C21: [ObjectStoreTool.run], without input for the tool, with every option.  When the OSD
    could not be stopped, the tool is not run.  Otherwise it is run, once; after it, whatever
    came of it, a run that is to revive the OSD sends it its restart, also when the tool fails,
    the connection breaks or the restarted OSD never answers, and the only way not to get there
    is a machine that is power-cycled and does not come back, which raises; a run that is not to
    revive it does nothing more. *)
Theorem tool_restarts_osd (options args : string) (t : ost) (w : world) (stopped : outcome unit) (m1 : mgr) (w1 : world) :
  kill_osd (ot_osd t) (ot_manager t) w = (stopped, m1, w1) ->
  wp (run_tool options args None) (fun o _ w' =>
    match stopped with
    | Ret _ => exists cmd evs, adds w1 (EvRun (ot_remote t) ["bash"; "-e"; "-x"; "-c"; cmd] :: evs) w' /\
        (do_revive t = true -> osd_event (DRestart []) t ∈ evs \/ (powercycled (ot_manager t) /\ exists e, o = Exc e)) /\
        (do_revive t = false -> evs = [])
    | _ => o = stopped /\ w' = w1
    end) t w.
Proof.
  intros Hk. unfold run_tool. apply wp_bind, wp_get. unfold then_. apply wp_bind.
  pose proof (kill_plain (ot_osd t) (ot_manager t) w) as Hs. unfold wp in Hs. rewrite Hk in Hs.
  destruct Hs as [[Hm _] Hns]. cbn in Hm. subst m1. unfold oman at 1, wp at 1, zoom. rewrite Hk, oman_same.
  destruct stopped as [[]|e|]; unfold then_; [|done|by destruct (Hns eq_refl)].
  apply wp_bind. eapply wp_conseq; [apply build_cmd_pure|].
  intros o t1 w2 (-> & -> & _ & _ & Hret). destruct (Hret eq_refl) as [cmd ->]. unfold then_. clear Hret Hns.
  apply wp_finally. set (ev := EvRun (ot_remote t) ["bash"; "-e"; "-x"; "-c"; cmd]).
  eapply (wp_conseq _ (fun o t' w' => t' = t /\ o <> Stuck /\ adds w1 [ev] w')).
  { apply wp_bind. unfold run. apply wp_bind, wp_emit. intros r c _. destruct (raised r); [done|].
    unfold then_; wp_run; done. }
  intros o t1 w2 (-> & Hns & He). destruct (do_revive t) eqn:Hr; cbn [when].
  - assert (Hrev : wp (oman (revive_osd (ot_osd t) 150 false)) (fun o _ w' => exists evs, adds w1 (ev :: evs) w' /\
      (osd_event (DRestart []) t ∈ evs \/ (powercycled (ot_manager t) /\ exists e, o = Exc e))) t w2).
    { pose proof (revive_restarts (ot_osd t) (ot_manager t) w2) as H. unfold oman, zoom, wp in *.
      destruct (revive_osd _ _ _ _ _) as [[o' m'] w']. destruct H as (evs & He' & H). exists evs.
      by rewrite He', He, <- (assoc_L (++)). }
    destruct o as [[]|e|]; [| |done]; (eapply wp_conseq; [exact Hrev|]); intros [] ? ? (evs & ? & H); exists cmd, evs;
      (split; [done|]); (split; [|done]); intros _; destruct H as [?|[? [? ?]]]; simplify_eq; eauto.
  - destruct o as [[]|e|]; [| |done]; apply wp_ret; by exists cmd, [].
Qed.

(** With input for the tool, [ObjectStoreTool.run] raises a TypeError after it has
    stopped the OSD and before the [try] whose [finally] would start it again: the OSD is
    left down. *)
Theorem tool_stdin_leaves_osd_down (options args input : string) (t : ost) (w : world) :
  plain_kills (ot_manager t) -> input <> EmptyString ->
  wp (run_tool options args (Some input)) (fun o t' w' => t' = t /\ (forall u, o <> Ret u) /\
    exists c, w' = after (osd_event DStop t) c w /\ zs (ot_osd t) ∈ down "osd" (w_trace w')) t w.
Proof.
  intros Hp Hi. unfold run_tool. apply wp_bind, wp_get. unfold then_. apply wp_bind.
  eapply wp_conseq; [by apply kill_stops|]. intros o t1 w1 (-> & Hns & c & ->).
  assert (Hd1 : zs (ot_osd t) ∈ down "osd" (w_trace (after (osd_event DStop t) c w))).
  { cbn [after w_trace]. rewrite down_snoc. simpl. set_solver. }
  destruct o as [[]|e|]; unfold then_; [|by eauto|done].
  apply wp_bind. eapply wp_conseq; [apply build_cmd_pure|].
  intros o t1 w1 (-> & -> & _ & Hexc & _). rewrite (Hexc input eq_refl Hi). unfold then_. by eauto.
Qed.

(** OSD 0 cannot be used: [assert self.osd] takes the number 0 for a missing OSD, also
    when 0 is the primary the cluster itself names. *)
Theorem tool_rejects_osd_zero (pool name : string) (do_revive : bool) (object : option string)
  (m : mgr) (w : world) :
  init pool (OsdNum 0) object do_revive m w = (Exc (AssertionError "self.osd"), m, w) /\
  (forall m' w', pool <> EmptyString -> name <> EmptyString ->
    get_object_primary pool name m w = (Ret 0, m', w') ->
    init pool OsdPrimary (Some name) do_revive m w = (Exc (AssertionError "self.osd"), m', w')).
Proof.
  split; [done|]. intros m' w' Hp Hn Hg. unfold init.
  destruct (String.eqb_spec pool EmptyString); [done|]. destruct (String.eqb_spec name EmptyString); [done|].
  cbn [negb andb default]. erewrite bind_run; [|rewrite (bind_run _ _ _ _ _ _ _ Hg); reflexivity]. done.
Qed.
End Facts.
