(* ===== verification/ScenarioFacts.v ===== *)
(** * What the scripted scenarios leave behind

    [scene role D m Q]: when [m] starts with exactly the daemons [D] of [role] stopped, and
    returns [a], then [Q a D'] holds of the daemons [D'] stopped at the end.  The rules
    follow the scripts; a step that stops and starts nothing is [calm]. *)
From Stdlib Require Import QArith Qround Lqa.
From S2P Require Import Prelude PyVal World ZbkcManager ManagerWait Conf Scrub Daemons Sim WaitFacts.
From S2P Require Import Rados OsdScenarios LostUnfound Divergent MonScenarios ObjectStoreTool.

(** The event neither stops nor restarts a daemon of [role]. *)
Definition idle (role : string) (ev : event) : Prop := forall D, down_step role D ev = D.
Lemma idle_down role evs evs' : Forall (idle role) evs' -> down role (evs ++ evs') = down role evs.
Proof.
  revert evs; induction evs' as [|ev evs' IH]; intros evs H; [by rewrite app_nil_r|].
  apply Forall_cons in H as [Hev H]. change (ev :: evs') with ([ev] ++ evs').
  by rewrite (assoc_L (++)), (IH (evs ++ [ev]) H), down_snoc.
Qed.

Section Calm.
Context {E : Env} (role : string).
(** Daemons are stopped as daemons before and after, and none of [role] is stopped or started. *)
Definition calm : relation (mgr * world) :=
  fun p q => (plain_kills p.1 -> plain_kills q.1) /\ emits (idle role) p q.
#[export] Instance calm_rel : WorldRel calm.
Proof.
  split.
  - split; [intros p; by split|]. intros p1 p2 p3 [] []. split; [tauto|by etrans].
  - intros s w. split; [done|]. apply draw_ok.
Qed.
Lemma calm_emit ev : idle role ev -> EmitOk calm ev.
Proof. intros H s w. split; [done|]. by apply emits_emit. Qed.
Lemma calm_modify s s' w : (plain_kills s -> plain_kills s') -> calm (s, w) (s', w).
Proof. intros H. split; [done|]. exists []. by rewrite app_nil_r. Qed.
End Calm.
#[export] Hint Extern 0 (EmitOk (calm _) _) => apply calm_emit; by intros ? : runs.
Ltac calm_tac := repeat (runs_step || (apply calm_emit; by intros ?) || (apply calm_modify; (done || by intros _))).

(** ** Steps that stop and start nothing *)
Section Quiet.
Context {E : Env} {F : Fuel} (role : string).
Abbreviation Calm m := (Runs false (calm role) m).

Lemma calm_cmd args : Calm (raw_cluster_cmd args).
Proof. calm_tac. Qed.
Lemma calm_init_pools : Calm init_pools.
Proof. calm_tac. Qed.
Lemma calm_first_mon gfm c config : Calm (first_mon_manager gfm c config).
Proof. pose proof calm_init_pools. calm_tac. Qed.
Lemma calm_clean t : Calm (wait_for_clean t).
Proof. calm_tac. Qed.
Lemma calm_recovery t : Calm (wait_for_recovery t).
Proof. calm_tac. Qed.
Lemma calm_active t : Calm (wait_for_active t).
Proof. calm_tac. Qed.
Lemma calm_active_or_down t : Calm (wait_for_active_or_down t).
Proof. calm_tac. Qed.
Lemma calm_till_active t : Calm (wait_till_active t).
Proof. calm_tac. Qed.
Lemma calm_osds_up n d : Calm (wait_for_osds_up n d).
Proof. calm_tac. Qed.
Lemma calm_till_up i t : Calm (wait_till_osd_is_up i t).
Proof. calm_tac. Qed.
Lemma calm_set_config i l : Calm (set_config i l).
Proof. calm_tac. Qed.
Lemma calm_pg_missing p : Calm (list_pg_missing p).
Proof. calm_tac. Qed.
Lemma calm_quorum n t : Calm (wait_for_mon_quorum_size n t).
Proof. calm_tac. Qed.
Lemma calm_create_pool a b c d e : Calm (create_pool a b c d e).
Proof. calm_tac. Qed.
End Quiet.
#[export] Hint Resolve calm_cmd calm_first_mon calm_clean calm_recovery calm_active calm_active_or_down
  calm_till_active calm_osds_up calm_till_up calm_set_config calm_pg_missing calm_quorum calm_create_pool : runs.

(** ** Scenes *)
Section Scene.
Context {E : Env} {F : Fuel} (role : string).
Implicit Types D : gset string.

Definition scene {A} D (m : M mgr A) (Q : A -> gset string -> Prop) : Prop :=
  forall s w, plain_kills s -> down role (w_trace w) = D ->
  wp m (fun o s' w' => forall a, o = Ret a -> plain_kills s' /\ Q a (down role (w_trace w'))) s w.

Lemma scene_bind {A B} D (m : M mgr A) (k : A -> M mgr B) Q R :
  scene D m Q -> (forall a D', Q a D' -> scene D' (k a) R) -> scene D (bind m k) R.
Proof.
  intros Hm Hk s w Hs Hd. apply wp_bind. eapply wp_conseq; [by apply Hm|].
  intros [a|e|] s' w' H; unfold then_; [|done..]. destruct (H a eq_refl) as [Hs' HQ].
  by apply (Hk a _ HQ).
Qed.
Lemma scene_ret {A} D (a : A) (Q : A -> gset string -> Prop) : Q a D -> scene D (ret a) Q.
Proof. intros HQ s w Hs <-. by intros ? [= <-]. Qed.
Lemma scene_raise {A} D e (Q : A -> gset string -> Prop) : scene D (raise e) Q.
Proof. by intros s w _ _. Qed.
(** A last step is one that returns. *)
Lemma scene_last {A} D (m : M mgr A) Q : scene D (bind m ret) Q -> scene D m Q.
Proof.
  intros H s w Hs Hd. specialize (H s w Hs Hd). unfold wp, bind in *. by destruct (m s w) as [[[]?]?].
Qed.
Lemma scene_assoc {A B C} D (m : M mgr A) (k : A -> M mgr B) (h : B -> M mgr C) Q :
  scene D (bind m (fun a => bind (k a) h)) Q -> scene D (bind (bind m k) h) Q.
Proof.
  intros H s w Hs Hd. specialize (H s w Hs Hd). unfold wp, bind in *. by destruct (m s w) as [[[]?]?].
Qed.
Lemma scene_calm {A B} D (m : M mgr A) (k : A -> M mgr B) Q :
  Runs false (calm role) m -> (forall a, scene D (k a) Q) -> scene D (bind m k) Q.
Proof.
  intros Hm Hk. apply scene_bind with (Q := fun _ D' => D' = D); [|by intros a D' ->].
  intros s w Hs <-. eapply wp_conseq; [apply Hm|]. intros o s' w' [[Hp (evs & He & Hall)] _] a ->.
  cbn in He, Hp. split; [by apply Hp|]. rewrite He. by apply idle_down.
Qed.
Lemma scene_get {B} D (k : mgr -> M mgr B) Q : (forall s, scene D (k s) Q) -> scene D (bind get k) Q.
Proof. apply scene_calm. by calm_tac. Qed.
Lemma scene_for {A} D (I : list A -> gset string) (body : A -> M mgr unit) l :
  (forall x l', scene (I (x :: l')) (body x) (fun _ D' => D' = I l')) ->
  scene (I l) (for_ l body) (fun _ D' => D' = I []).
Proof.
  intros H. induction l as [|x l IH]; simpl; [by apply scene_ret|].
  eapply scene_bind; [apply H|]. by intros _ D' ->.
Qed.
Lemma scene_conseq {A} D (m : M mgr A) (Q R : A -> gset string -> Prop) :
  scene D m Q -> (forall a D', Q a D' -> R a D') -> scene D m R.
Proof.
  intros Hm HQ s w Hs Hd. eapply wp_conseq; [by apply Hm|]. intros o s' w' H a ->.
  destruct (H a eq_refl). auto.
Qed.
End Scene.

(** ** Stopping and starting *)
Section Steps.
Context {E : Env} {F : Fuel}.
Implicit Types D : gset string.

(** A step that is one event to a daemon, whatever it is answered *)
Lemma scene_send {S0} role D (m : M mgr S0) op r (id : string) :
  (forall s w, plain_kills s -> exists k, m s w = (x <- daemon op r id (cluster s) ;; k x) s w /\
     forall x, Runs false (calm role) (k x)) ->
  scene role D m (fun _ D' => D' = down_step role D (EvDaemon op r id EmptyString)).
Proof.
  intros Hm s w Hs <-. destruct (Hm s w Hs) as (k & Hk & Hc).
  unfold wp. rewrite Hk. unfold daemon, bind, emit.
  destruct (respond (EvDaemon op r id (cluster s)) (w_env w)) as [p c]. destruct (raised p); [done|].
  unfold ret. set (w1 := World _ _ _). specialize (Hc tt s w1). unfold wp in Hc.
  destruct (k tt s w1) as [[o s'] w']. destruct Hc as [[Hp (evs & He & Hall)] _]. intros a ->.
  cbn in Hp, He. split; [by apply Hp|]. rewrite He, (idle_down role _ _ Hall), down_snoc. by destruct op.
Qed.
Lemma scene_stop role D r id : scene role D (daemon_of DStop r id) (fun _ D' => D' = down_step role D (EvDaemon DStop r id EmptyString)).
Proof.
  apply scene_send. intros s w _. exists ret. split; [|by calm_tac].
  unfold daemon_of. rewrite (bind_run _ _ _ _ _ _ _ eq_refl). unfold daemon, bind. by destruct (emit _ _ _) as [[[]?]?].
Qed.
(** On a plain manager the two kills are the stop of a daemon. *)
Lemma kill_osd_plain i s w : plain_kills s -> kill_osd i s w = daemon_of DStop "osd" (zs i) s w.
Proof.
  intros [Hp Hc]. unfold kill_osd, cfg. do 3 rewrite (bind_run _ _ _ _ _ _ _ eq_refl). by rewrite Hp, Hc.
Qed.
Lemma kill_mon_plain m s w : plain_kills s -> kill_mon m s w = daemon_of DStop "mon" m s w.
Proof. intros [Hp Hc]. unfold kill_mon, cfg. rewrite (bind_run _ _ _ _ _ _ _ eq_refl). by rewrite Hp. Qed.
Lemma scene_kill D i : scene "osd" D (kill_osd i) (fun _ D' => D' = {[zs i]} ∪ D).
Proof. intros s w Hs Hd. unfold wp. rewrite kill_osd_plain by done. by apply (scene_stop "osd" D "osd" (zs i)). Qed.
Lemma scene_kill_mon D m : scene "mon" D (kill_mon m) (fun _ D' => D' = {[m]} ∪ D).
Proof. intros s w Hs Hd. unfold wp. rewrite kill_mon_plain by done. by apply (scene_stop "mon" D "mon" m). Qed.
Lemma scene_revive D i : scene "osd" D (revive i) (fun _ D' => D' = D ∖ {[zs i]}).
Proof.
  refine (scene_send "osd" D _ (DRestart []) "osd" (zs i) _). intros s w [Hp _].
  exists (fun _ => when (negb false) (wait_run_admin_socket "osd" (zs i) ["dump_ops_in_flight"] 150)).
  split; [|by calm_tac]. unfold revive, revive_osd, cfg. rewrite (bind_run _ _ _ _ _ _ _ eq_refl). by rewrite Hp.
Qed.
Lemma scene_revive_mon D m : scene "mon" D (revive_mon m) (fun _ D' => D' = D ∖ {[m]}).
Proof.
  refine (scene_send "mon" D _ (DRestart []) "mon" m _). intros s w [Hp _].
  exists ret. split; [|by calm_tac]. unfold revive_mon, cfg. rewrite (bind_run _ _ _ _ _ _ _ eq_refl). rewrite Hp.
  unfold when. rewrite (bind_run _ _ _ _ _ _ _ eq_refl). unfold daemon_of. rewrite (bind_run _ _ _ _ _ _ _ eq_refl).
  unfold daemon, bind. by destruct (emit _ _ _) as [[[]?]?].
Qed.

(** The same in front of the rest of a script *)
Lemma scene_then {A B} role D D1 (m : M mgr A) (k : A -> M mgr B) Q :
  scene role D m (fun _ D' => D' = D1) -> (forall a, scene role D1 (k a) Q) -> scene role D (bind m k) Q.
Proof. intros Hm Hk. eapply scene_bind; [exact Hm|]. by intros a D' ->. Qed.
Lemma scene_blackhole D i : scene "osd" D (blackhole_kill_osd i) (fun _ D' => D' = {[zs i]} ∪ D).
Proof.
  unfold blackhole_kill_osd. apply scene_calm; [by calm_tac|intros _]. apply scene_calm; [by calm_tac|intros _].
  apply (scene_stop "osd" D "osd" (zs i)).
Qed.
Lemma scene_kill_all D l : scene "osd" D (for_ l (fun i => kill_osd i)) (fun _ D' => D' = list_to_set (map zs l) ∪ D).
Proof.
  revert D; induction l as [|i l IH]; intros D; simpl; [apply scene_ret; set_solver|].
  eapply scene_then; [apply scene_kill|intros _]. eapply scene_conseq; [apply IH|]. set_solver.
Qed.
Lemma scene_revive_all D l : scene "osd" D (for_ l (fun i => revive i)) (fun _ D' => D' = D ∖ list_to_set (map zs l)).
Proof.
  revert D; induction l as [|i l IH]; intros D; simpl; [apply scene_ret; set_solver|].
  eapply scene_then; [apply scene_revive|intros _]. eapply scene_conseq; [apply IH|]. set_solver.
Qed.
Lemma scene_kill_mons D l : scene "mon" D (for_ l (fun m => kill_mon m)) (fun _ D' => D' = list_to_set l ∪ D).
Proof.
  revert D; induction l as [|i l IH]; intros D; simpl; [apply scene_ret; set_solver|].
  eapply scene_then; [apply scene_kill_mon|intros _]. eapply scene_conseq; [apply IH|]. set_solver.
Qed.
End Steps.

Create HintDb scenes discriminated.
#[export] Hint Resolve scene_kill scene_kill_mon scene_revive scene_revive_mon scene_blackhole scene_kill_all
  scene_revive_all scene_kill_mons : scenes.

(** [scene_tac] walks down a script: a step with a lemma in [scenes], a calm step, a choice. *)
Ltac scene_step :=
  match goal with
  | |- scene _ _ (bind (bind _ _) _) _ => apply scene_assoc
  | |- scene _ _ (bind (ret _) _) _ => apply scene_calm; [by calm_tac|intros ?]
  | |- scene _ _ (bind _ _) _ => eapply scene_then; [solve [eauto 2 with scenes]|intros ?]
  | |- scene _ _ (bind (kill_and_mark_down _) _) _ => unfold kill_and_mark_down at 1
  | |- scene _ _ (bind _ _) _ => apply scene_calm; [solve [calm_tac]|intros ?]
  | |- scene _ _ (ret _) _ => apply scene_ret
  | |- scene _ _ (raise _) _ => apply scene_raise
  | |- scene _ _ (match _ with _ => _ end) _ => case_match
  | |- scene _ _ (let '(_, _) := ?x in _) _ => destruct x
  | |- scene _ _ _ _ => apply scene_last
  end.
Ltac scene_tac := repeat scene_step.
(** The calm steps up to the choice of the primary *)
Ltac calm_steps :=
  repeat match goal with
         | |- scene _ _ (bind (py_remove_first _ _) _) _ => fail 1
         | _ => apply scene_calm; [solve [calm_tac]|intros ?]
         end.

(** ** Every script that returns has its OSDs up again *)
Section Osds.
Context {E : Env} {F : Fuel}.
Context (get_first_mon : context -> dict -> string) (num_instances_of_type : context -> string -> Z).
Context (osd_ids : context -> list Z) (getpid : Z).
Abbreviation returns_to D m := (scene "osd" ∅ m (fun _ D' => D' = D)).

Lemma osd_backfill_up config : returns_to ∅ (osd_backfill_task get_first_mon num_instances_of_type config).
Proof. unfold osd_backfill_task. scene_tac. vm_compute. reflexivity. Qed.
Lemma osd_recovery_up config : returns_to ∅ (osd_recovery_task get_first_mon num_instances_of_type config).
Proof. unfold osd_recovery_task. scene_tac. vm_compute. reflexivity. Qed.
Lemma test_incomplete_up config : returns_to ∅ (test_incomplete_pgs get_first_mon num_instances_of_type config).
Proof. unfold test_incomplete_pgs. scene_tac. vm_compute. reflexivity. Qed.

Lemma calm_look_for_down role pgs n : Runs false (calm role) (look_for_down pgs n).
Proof. revert n; induction pgs as [|pg pgs IH]; intros n; simpl; calm_tac. Qed.
Hint Resolve calm_look_for_down : runs.
Lemma peer_up config : returns_to ∅ (peer_task get_first_mon config).
Proof. unfold peer_task. scene_tac. vm_compute. reflexivity. Qed.
Lemma object_source_down_leaves config :
  returns_to {["2"; "3"]} (object_source_down_task get_first_mon config).
Proof. unfold object_source_down_task. scene_tac. vm_compute. reflexivity. Qed.

Lemma calm_count_unfound role l n : Runs false (calm role) (count_unfound l n).
Proof. revert n; induction l as [|pg l IH]; intros n; simpl; calm_tac. Qed.
Hint Resolve calm_count_unfound : runs.
Lemma make_unfound_down mon pool file : returns_to {["1"]} (make_unfound mon pool file).
Proof. unfold make_unfound. scene_tac. vm_compute. reflexivity. Qed.
Lemma resolve_unfound_up mon pool how b config :
  scene "osd" {["1"]} (resolve_unfound mon pool how b config) (fun _ D' => D' = ∅).
Proof. unfold resolve_unfound. scene_tac. vm_compute. reflexivity. Qed.
Hint Resolve make_unfound_down resolve_unfound_up : scenes.
Lemma lost_unfound_up config : returns_to ∅ (lost_unfound_task get_first_mon config).
Proof. unfold lost_unfound_task. by scene_tac. Qed.
Lemma rep_lost_unfound_up config : returns_to ∅ (rep_lost_unfound_delete_task get_first_mon config).
Proof. unfold rep_lost_unfound_delete_task. by scene_tac. Qed.
Lemma ec_make_unfound_down mon pool file : returns_to {["1"]} (ec_make_unfound mon pool file).
Proof. unfold ec_make_unfound. scene_tac. vm_compute. reflexivity. Qed.
Hint Resolve ec_make_unfound_down : scenes.
Lemma ec_lost_unfound_up config : returns_to ∅ (ec_lost_unfound_task get_first_mon config).
Proof. unfold ec_lost_unfound_task. scene_tac; vm_compute; reflexivity. Qed.

(** The primary that goes its own way, and the other two *)
Definition split_osds : list (Z * list Z) := [(0, [1; 2]); (1, [0; 2]); (2, [0; 1])].
Lemma remove_first_split d :
  scene "osd" ∅ (py_remove_first d three_osds) (fun nd D' => D' = ∅ /\ (d, nd) ∈ split_osds).
Proof.
  unfold py_remove_first. destruct (py_remove d three_osds) as [nd|] eqn:Hr; [|apply scene_raise].
  apply scene_ret. split; [done|]. unfold three_osds, split_osds in *. simpl in Hr.
  destruct (Z.eqb_spec d 0) as [->|]; [simplify_eq/=; set_solver|].
  destruct (Z.eqb_spec d 1) as [->|]; [simplify_eq/=; set_solver|].
  destruct (Z.eqb_spec d 2) as [->|]; [simplify_eq/=; set_solver|]. done.
Qed.
Abbreviation diverged := (fun (x : Z * list Z * string) (D' : gset string) => D' = ∅ /\ x.1 ∈ split_osds).
Lemma setup_divergent_up config file : scene "osd" ∅ (setup_divergent get_first_mon config file) diverged.
Proof.
  unfold setup_divergent. calm_steps.
  eapply scene_bind; [apply remove_first_split|]. intros nd D' [-> Hs]. by scene_tac.
Qed.
Lemma calm_write_divergent role nd mon file : Runs false (calm role) (write_divergent nd mon file).
Proof. calm_tac. Qed.
Hint Resolve calm_write_divergent : runs.
Lemma restart_non_divergent_down d nd mon file :
  (d, nd) ∈ split_osds ->
  scene "osd" ∅ (restart_non_divergent nd mon file) (fun _ D' => D' = {[zs d]}).
Proof.
  intros Hs. unfold restart_non_divergent. scene_tac. unfold split_osds in Hs.
  repeat (apply elem_of_cons in Hs as [[= -> ->]|Hs]; [vm_compute; reflexivity|]). by apply elem_of_nil in Hs.
Qed.
Lemma revive_divergent_up d mon file :
  scene "osd" {[zs d]} (revive_divergent d mon file) (fun _ D' => D' = ∅).
Proof. unfold revive_divergent. scene_tac. set_solver. Qed.
Lemma diverge_up config f1 f2 : scene "osd" ∅ (diverge get_first_mon config f1 f2) diverged.
Proof.
  unfold diverge. eapply scene_bind; [apply setup_divergent_up|]. intros [[d nd] mon] D' [-> Hs].
  apply scene_calm; [apply calm_write_divergent|intros _].
  eapply scene_then; [by eapply restart_non_divergent_down|intros _].
  eapply scene_then; [apply revive_divergent_up|intros _]. by apply scene_ret.
Qed.
Lemma divergent_priors_up config : returns_to ∅ (divergent_priors_task get_first_mon config).
Proof.
  unfold divergent_priors_task. eapply scene_bind; [apply diverge_up|]. intros [[d nd] mon] D' [-> Hs].
  scene_tac. set_solver.
Qed.
Lemma divergent_priors2_up config : returns_to ∅ (divergent_priors2_task get_first_mon getpid config).
Proof.
  unfold divergent_priors2_task. eapply scene_bind; [apply diverge_up|]. intros [[d nd] mon] D' [-> Hs].
  scene_tac. set_solver.
Qed.
Lemma reg11184_up config : returns_to ∅ (reg11184_task get_first_mon getpid config).
Proof.
  unfold reg11184_task. eapply scene_bind; [apply diverge_up|]. intros [[d nd] mon] D' [-> Hs].
  scene_tac. set_solver.
Qed.

Lemma remove_first_others d :
  scene "osd" ∅ (py_remove_first d [0; 1; 2]) (fun nd D' => D' = ∅ /\ (d, nd) ∈ split_osds).
Proof. apply remove_first_split. Qed.
(** The primary of the pool stays down: nothing in resolve_stuck_peering.py starts it again. *)
Lemma resolve_stuck_peering_leaves config :
  scene "osd" ∅ (resolve_stuck_peering_task get_first_mon config) (fun _ D' => exists i, 0 <= i <= 2 /\ D' = {[zs i]}).
Proof.
  unfold resolve_stuck_peering_task. calm_steps.
  eapply scene_bind; [apply remove_first_others|]. intros nd D' [-> Hs]. scene_tac.
  all: exists a3; unfold split_osds in Hs.
  all: repeat (apply elem_of_cons in Hs as [[= -> ->]|Hs]; [split; [lia|vm_compute; reflexivity]|]).
  all: by apply elem_of_nil in Hs.
Qed.

(** dump_stuck.py revives the OSDs teuthology lists. *)
Lemma calm_check_stuck role a b c : Runs false (calm role) (check_stuck a b c).
Proof. calm_tac. Qed.
Hint Resolve calm_check_stuck : runs.
Lemma revive_and_mark_in_all D l :
  scene "osd" D (for_ l (fun i => revive i ;; mark_in_osd i)) (fun _ D' => D' = D ∖ list_to_set (map zs l)).
Proof.
  revert D; induction l as [|i l IH]; intros D; simpl; [apply scene_ret; set_solver|].
  apply scene_assoc. eapply scene_then; [apply scene_revive|intros _]. apply scene_calm; [by calm_tac|intros _].
  eapply scene_conseq; [apply IH|]. set_solver.
Qed.
Hint Resolve revive_and_mark_in_all : scenes.
Lemma dump_stuck_up :
  (forall c, 0 ∈ osd_ids c /\ 1 ∈ osd_ids c) ->
  returns_to ∅ (dump_stuck_task get_first_mon num_instances_of_type osd_ids).
Proof.
  intros Hids. unfold dump_stuck_task. scene_tac.
  match goal with s : mgr |- _ => destruct (Hids (ctx s)) as [H0 H1] end.
  apply (list_elem_of_fmap_2 zs) in H0, H1. set_solver.
Qed.

(** The scripts that take OSDs down and bring them back *)
Definition osd_scripts (config : dict) : list (M mgr unit) :=
  [osd_backfill_task get_first_mon num_instances_of_type config;
   osd_recovery_task get_first_mon num_instances_of_type config;
   test_incomplete_pgs get_first_mon num_instances_of_type config;
   peer_task get_first_mon config;
   lost_unfound_task get_first_mon config;
   rep_lost_unfound_delete_task get_first_mon config;
   ec_lost_unfound_task get_first_mon config;
   divergent_priors_task get_first_mon config;
   divergent_priors2_task get_first_mon getpid config;
   reg11184_task get_first_mon getpid config;
   dump_stuck_task get_first_mon num_instances_of_type osd_ids].
Lemma osd_scripts_up config m :
  (forall c, 0 ∈ osd_ids c /\ 1 ∈ osd_ids c) -> m ∈ osd_scripts config -> returns_to ∅ m.
Proof.
  intros Hids Hm. unfold osd_scripts in Hm. repeat (apply elem_of_cons in Hm as [->|Hm]).
  - apply osd_backfill_up.
  - apply osd_recovery_up.
  - apply test_incomplete_up.
  - apply peer_up.
  - apply lost_unfound_up.
  - apply rep_lost_unfound_up.
  - apply ec_lost_unfound_up.
  - apply divergent_priors_up.
  - apply divergent_priors2_up.
  - apply reg11184_up.
  - by apply dump_stuck_up.
  - by apply elem_of_nil in Hm.
Qed.
Lemma scene_wp {A} role D (m : M mgr A) (Q : gset string -> Prop) s w :
  scene role D m (fun _ => Q) -> plain_kills s -> down role (w_trace w) = D ->
  wp m (fun o _ w' => is_ret o -> Q (down role (w_trace w'))) s w.
Proof.
  intros Hm Hs Hd. eapply wp_conseq; [by apply Hm|]. intros [a|e|] s' w' H; [|done..].
  intros _. by destruct (H a eq_refl).
Qed.

(** C15: each of the eleven scripted OSD scenarios (osd_backfill, osd_recovery with its
    incomplete-pg test, peer, the three unfound-object tasks, the three divergence tasks,
    dump_stuck) that returns has started every OSD it stopped: started with no OSD stopped,
    it ends with none stopped, for every answer of the cluster.  (OSDs 0 and 1 exist, and OSDs
    are stopped as daemons: no power cycling, no injected crash.) *)
Theorem scripts_restart_osds (config : dict) (m : M mgr unit) (s : mgr) (w : world) :
  (forall c, 0 ∈ osd_ids c /\ 1 ∈ osd_ids c) -> plain_kills s -> down "osd" (w_trace w) = ∅ ->
  m ∈ osd_scripts config ->
  wp m (fun o _ w' => is_ret o -> down "osd" (w_trace w') = ∅) s w.
Proof. intros Hids Hs Hd Hm. apply (scene_wp "osd" ∅ m (fun D => D = ∅)); [by eapply osd_scripts_up|done..]. Qed.

(** Two scripts do not: object_source_down.py returns with OSDs 2 and 3 stopped, and
    resolve_stuck_peering.py with the primary of its pool stopped. *)
Theorem scripts_leave_osds_down (config : dict) (s : mgr) (w : world) :
  plain_kills s -> down "osd" (w_trace w) = ∅ ->
  wp (object_source_down_task get_first_mon config)
    (fun o _ w' => is_ret o -> down "osd" (w_trace w') = {["2"; "3"]}) s w /\
  wp (resolve_stuck_peering_task get_first_mon config)
    (fun o _ w' => is_ret o -> exists i, 0 <= i <= 2 /\ down "osd" (w_trace w') = {[zs i]}) s w.
Proof.
  intros Hs Hd. split.
  - apply (scene_wp "osd" ∅ _ (fun D => D = {["2"; "3"]})); [apply object_source_down_leaves|done..].
  - apply (scene_wp "osd" ∅ _ (fun D => exists i, 0 <= i <= 2 /\ D = {[zs i]}));
      [apply resolve_stuck_peering_leaves|done..].
Qed.
End Osds.

(** ** Monitors *)
Section Mons.
Context {E : Env} {F : Fuel}.
Context (get_first_mon : context -> dict -> string) (get_mon_names : context -> string -> list string).

Lemma restart_one_up D n m : scene "mon" D (restart_one n m) (fun _ D' => D' = D ∖ {[m]}).
Proof. unfold restart_one. scene_tac. set_solver. Qed.
Lemma restart_all_up n l : scene "mon" ∅ (for_ l (restart_one n)) (fun _ D' => D' = ∅).
Proof.
  apply (scene_for "mon" ∅ (fun _ => ∅)). intros m l'. eapply scene_conseq; [apply restart_one_up|].
  intros _ D' ->. set_solver.
Qed.
Lemma add_monitors_up D q n l : scene "mon" D (add_monitors q n l) (fun _ D' => D' = D ∖ list_to_set l).
Proof.
  revert D n; induction l as [|m l IH]; intros D n; simpl; [apply scene_ret; set_solver|].
  eapply scene_then; [apply scene_revive_mon|intros _]. apply scene_calm; [by calm_tac|intros _].
  eapply scene_conseq; [apply IH|]. set_solver.
Qed.
Lemma minimal_quorum_up l : scene "mon" ∅ (minimal_quorum l) (fun _ D' => D' = ∅).
Proof.
  unfold minimal_quorum. eapply scene_then; [apply scene_kill_mons|intros _].
  eapply scene_conseq; [apply add_monitors_up|]. intros _ D' ->. set_solver.
Qed.
Lemma remove_and_add_up l rank : scene "mon" ∅ (remove_and_add l rank) (fun _ D' => D' = ∅).
Proof. unfold remove_and_add. scene_tac. set_solver. Qed.

(** Mon_recovery.py stops monitors one at a time, then all of them, twice, and then
    two in turn; when it returns every monitor is running. *)
Theorem mon_recovery_restarts_mons (config : dict) (s : mgr) (w : world) :
  plain_kills s -> down "mon" (w_trace w) = ∅ ->
  wp (mon_recovery_task get_first_mon get_mon_names config)
    (fun o _ w' => is_ret o -> down "mon" (w_trace w') = ∅) s w.
Proof.
  intros Hs Hd. apply (scene_wp "mon" ∅ _ (fun D => D = ∅)); [|done..]. unfold mon_recovery_task.
  do 5 (apply scene_calm; [solve [calm_tac]|intros ?]).
  eapply scene_then; [apply restart_all_up|intros _].
  eapply scene_then; [apply (scene_for "mon" ∅ (fun _ => ∅)); intros; apply minimal_quorum_up|intros _].
  apply (scene_for "mon" ∅ (fun _ => ∅)). intros. apply remove_and_add_up.
Qed.
End Mons.
