(* ===== verification/MonScenarioFacts.v ===== *)
(** * mon_seesaw.py: ports and the shared configuration; the clock checker's verdict *)
From Stdlib Require Import QArith Qround Qabs Lqa.
From stdpp Require Import sorting.
From S2P Require Import Prelude PyVal World ZbkcManager ManagerWait Conf Scrub Daemons Sim WaitFacts.
From S2P Require Import Rados OsdScenarios MonScenarios.

(** ** The next free port *)
Section Ports.

Lemma free_port_ge used port : port <= free_port used port.
Proof. revert port; induction used as [|p used IH]; intros port; simpl; [lia|]. case_match; [|lia]. specialize (IH (port + 1)). lia. Qed.
(** Every port below the result, from the first one on, is in use. *)
Lemma free_port_all used port q : port <= q < free_port used port -> q ∈ used.
Proof.
  revert port; induction used as [|p used IH]; intros port; simpl; [lia|].
  destruct (Z.eqb_spec p port) as [->|]; [|lia]. intros Hq. destruct (decide (q = port)) as [->|]; [set_solver|].
  apply elem_of_cons. right. apply (IH (port + 1)). lia.
Qed.
(** On a strictly increasing list of ports from [port] on, the result is not in use. *)
Lemma free_port_unused used port :
  StronglySorted Z.lt used -> (forall p, p ∈ used -> port <= p) -> free_port used port ∉ used.
Proof.
  intros Hs. revert port; induction Hs as [|p used Hs IH Hlt]; intros port Hge; simpl; [set_solver|].
  rewrite Forall_forall in Hlt. destruct (Z.eqb_spec p port) as [->|Hne].
  - apply not_elem_of_cons. split; [pose proof (free_port_ge used (port + 1)); lia|].
    apply IH. intros q Hq. specialize (Hlt q Hq). lia.
  - apply not_elem_of_cons. split; [done|]. intros Hin. specialize (Hlt _ Hin). specialize (Hge p). set_solver by lia.
Qed.
Lemma sorted_strict l : NoDup l -> StronglySorted Z.le l -> StronglySorted Z.lt l.
Proof.
  intros Hnd Hs. induction Hs as [|p l Hs IH Hle]; [constructor|]. apply NoDup_cons in Hnd as [Hp Hnd].
  constructor; [by apply IH|]. rewrite Forall_forall in *. intros q Hq. specialize (Hle q Hq).
  destruct (decide (p = q)) as [->|]; [done|lia].
Qed.
Lemma next_port_least used :
  NoDup used -> (forall p, p ∈ used -> 6789 <= p) ->
  (next_port used ∉ used) /\ 6789 <= next_port used /\ forall q, 6789 <= q < next_port used -> q ∈ used.
Proof.
  intros Hnd Hge. unfold next_port. pose proof (merge_sort_Permutation Z.le used) as Hp.
  assert (Hin : forall x, x ∈ merge_sort Z.le used <-> x ∈ used) by (intros x; by rewrite Hp).
  split_ands.
  - rewrite <- Hin. apply free_port_unused.
    + apply sorted_strict; [by rewrite Hp|]. apply (StronglySorted_merge_sort Z.le).
    + intros p. rewrite Hin. apply Hge.
  - apply free_port_ge.
  - intros q Hq. rewrite <- Hin. by eapply free_port_all.
Qed.
End Ports.

(** ** The configuration while a monitor is replaced *)
Section Conf.
Context {E : Env} {F : Fuel}.
Context (get_first_mon : context -> dict -> string) (get_mon_names : context -> string -> list string).
Context (ip_address : string -> string) (render_conf : gmap string dict -> string).
Context (deep_merge : dict -> pyval -> dict).

(** The port [_get_next_port] picks for a new monitor on a machine is free, and the
    first free one from 6789 on, when the ports in use there are distinct and none is
    below 6789. *)
Theorem get_next_port_free (ip cl : string) (c : gmap string dict) (used : list Z) (s : mgr) (w : world) :
  conf (ctx s) !! cl = Some c ->
  used_ports c ip (get_mon_names (ctx s) cl) s w = (Ret used, s, w) ->
  NoDup used -> (forall p, p ∈ used -> 6789 <= p) ->
  exists p, _get_next_port get_mon_names ip cl s w = (Ret p, s, w) /\
    (p ∉ used) /\ 6789 <= p /\ forall q, 6789 <= q < p -> q ∈ used.
Proof.
  intros Hc Hu Hnd Hge. exists (next_port used). split; [|by apply next_port_least].
  unfold _get_next_port. rewrite (bind_run _ _ _ _ _ _ _ eq_refl).
  destruct (get_mon_names (ctx s) cl) as [|n names]; [simpl in Hu; by injection Hu as <-|].
  erewrite bind_run; [|unfold cluster_conf; rewrite (bind_run _ _ _ _ _ _ _ eq_refl); unfold the_ctx, mgr_ctx; rewrite Hc; reflexivity].
  by rewrite (bind_run _ _ _ _ _ _ _ Hu).
Qed.

(** Otherwise it may not be: a monitor on a port below 6789 ends the search at 6789,
    in use or not, and so does a port that is listed twice. *)
Theorem next_port_may_be_used :
  next_port [6788; 6789] = 6789 /\ 6789 ∈ [6788; 6789] /\
  next_port [6789; 6789; 6790] = 6790 /\ 6790 ∈ [6789; 6789; 6790].
Proof. split_ands; [reflexivity|set_solver|reflexivity|set_solver]. Qed.

(** What a step keeps: the configuration and the cluster's name *)
Definition same_conf : relation mgr := fun s s' => conf (ctx s) = conf (ctx s') /\ cluster s = cluster s'.
#[export] Instance same_conf_pre : PreOrder same_conf.
Proof. split; [by intros s|]. intros ??? [][]. split; congruence. Qed.
Abbreviation Keeps m := (Moves same_conf m).
Definition conf_is (cl : string) (c : gmap string (gmap string dict)) (s : mgr) : Prop :=
  conf (ctx s) = c /\ cluster s = cl.
Lemma hoare_keeps {A} cl c (m : M mgr A) : Keeps m -> hoare (conf_is cl c) m (fun _ => conf_is cl c).
Proof.
  intros Hm s w [Hc Hcl]. eapply wp_conseq; [apply Hm|]. intros o s' w' [[H1 H2] _] a _.
  cbn in H1, H2. split; congruence.
Qed.
Lemma hoare_keeps_bind {A B} cl c (m : M mgr A) (k : A -> M mgr B) R :
  Keeps m -> (forall a, hoare (conf_is cl c) (k a) R) -> hoare (conf_is cl c) (bind m k) R.
Proof. intros Hm Hk. eapply hoare_bind; [by apply hoare_keeps|done]. Qed.
Lemma keeps_write_conf path cl : Keeps (write_conf render_conf path cl).
Proof. runs_tac. Qed.
Lemma keeps_used c ip names : Keeps (used_ports c ip names).
Proof. induction names as [|n names IH]; simpl; runs_tac. Qed.
Hint Resolve keeps_write_conf keeps_used : runs.
Lemma keeps_setup_none r mon name dp :
  Keeps (_setup_mon get_mon_names ip_address render_conf r mon name dp None).
Proof. runs_tac. Qed.
Hint Resolve keeps_setup_none : runs.

Lemma read_conf cl c :
  hoare (conf_is cl c) (cluster_conf cl) (fun sections s => c !! cl = Some sections /\ conf_is cl c s).
Proof.
  intros s w [Hc Hcl]. unfold cluster_conf. apply wp_bind, wp_get. unfold then_, the_ctx, mgr_ctx. rewrite Hc.
  apply wp_of_option; [|done]. by intros a Ha a' [= <-].
Qed.
Abbreviation setup := (_setup_mon get_mon_names ip_address render_conf).
(** [_setup_mon] with a path writes the new monitor's section. *)
Lemma setup_adds cl c r mon name dp path :
  hoare (conf_is cl c) (setup r mon name dp (Some path)) (fun _ s =>
    exists sections a, c !! cl = Some sections /\ conf_is cl (<[cl := <[name := a]> sections]> c) s).
Proof.
  unfold _setup_mon. apply hoare_get. intros s0 [_ Hcl]. rewrite Hcl. cbv zeta.
  do 6 (apply hoare_keeps_bind; [by runs_tac|intros ?]). apply hoare_keeps_bind; [by runs_tac|intros port].
  eapply hoare_bind with (Q := fun sections s => c !! cl = Some sections /\ conf_is cl c s).
  { apply read_conf. }
  intros sections.
  eapply hoare_bind with (Q := fun _ s => exists a, c !! cl = Some sections /\
    conf_is cl (<[cl := <[name := a]> sections]> c) s).
  { intros s1 w1 (Hs & <- & Hcl1). apply wp_modify. intros _ _. eexists. split; [exact Hs|]. by split. }
  intros _ s1 w1 (addr & Hs & HP1). eapply wp_conseq; [by apply hoare_keeps; [apply keeps_write_conf|]|].
  intros o s2 w2 H u ->. exists sections, addr. split; [done|by apply (H u)].
Qed.
Lemma teardown_removes cl c r name dp path :
  hoare (conf_is cl c) (_teardown_mon render_conf r name dp path) (fun _ s =>
    exists sections, c !! cl = Some sections /\ conf_is cl (<[cl := delete name sections]> c) s).
Proof.
  unfold _teardown_mon. apply hoare_get. intros s0 [_ Hcl]. rewrite Hcl. cbv zeta.
  eapply hoare_bind; [apply read_conf|]. intros sections.
  eapply hoare_bind with (Q := fun _ s => c !! cl = Some sections /\ conf_is cl c s).
  { intros s w [Hs HP]. unfold when. case_bool_decide; wp_run; [done|]. intros _ _. by split. }
  intros _. eapply hoare_bind with (Q := fun _ s => c !! cl = Some sections /\
    conf_is cl (<[cl := delete name sections]> c) s).
  { intros s1 w1 (Hs & <- & Hcl'). apply wp_modify. intros _ _. split; [exact Hs|]. by split. }
  intros _ s1 w1 (Hs & HP1). eapply wp_conseq.
  { apply (hoare_keeps cl (<[cl:=delete name sections]> c)); [by runs_tac|done]. }
  intros o s2 w2 H u ->. exists sections. split; [done|by apply (H u)].
Qed.

(** [_prepare_mon] around a body that leaves the configuration alone *)
Lemma prepare_restores {A} cl c r mon (body : M mgr A) :
  (forall c', hoare (conf_is cl c') body (fun _ => conf_is cl c')) ->
  hoare (conf_is cl c) (_prepare_mon get_mon_names ip_address render_conf r mon body) (fun _ s =>
    exists sections, c !! cl = Some sections /\ conf_is cl (<[cl := delete ("mon." +:+ mon) sections]> c) s).
Proof.
  intros Hbody. unfold _prepare_mon. apply hoare_get. intros s0 [_ Hcl]. rewrite Hcl. cbv zeta.
  eapply hoare_bind; [apply setup_adds|]. intros _ s w (sections & a & Hs & HP). revert s w HP.
  match goal with |- forall s w, _ s -> wp ?m _ s w => change (hoare (conf_is cl (<[cl:=<["mon." +:+ mon:=a]> sections]> c)) m
    (fun _ s => exists sections, c !! cl = Some sections /\ conf_is cl (<[cl := delete ("mon." +:+ mon) sections]> c) s)) end.
  eapply hoare_bind; [apply Hbody|]. intros x. eapply hoare_bind; [apply teardown_removes|].
  intros _ s w (sec & Hsec & HP). apply wp_ret. intros _ _. exists sections. split; [done|].
  rewrite lookup_insert_eq in Hsec. injection Hsec as <-. rewrite insert_insert_eq in HP.
  by rewrite delete_insert_eq in HP.
Qed.

Lemma first_mon_conf config s w :
  wp (new_manager get_first_mon config)
    (fun o s' _ => forall r, o = Ret r -> conf_is "zbkc" (conf (ctx s)) s') s w.
Proof.
  unfold new_manager. apply wp_bind, wp_get. unfold then_. apply wp_bind.
  unfold only_remote. apply wp_bind, wp_get. unfold then_, first_mon_manager.
  destruct (only _ (ctx s)) as [|r [|]]; [done| |done]. apply wp_ret, wp_bind, wp_bind, wp_modify. unfold then_.
  assert (Hk : Keeps init_pools) by runs_tac.
  eapply wp_conseq; [apply (hoare_keeps "zbkc" (conf (ctx s)) _ Hk); by split|].
  intros [u|e|] s' w' H; [|done..]. apply wp_ret. intros r1 _. by apply (H u).
Qed.

(** Mon_seesaw.py adds a section for the new monitor to the cluster's configuration
    and takes it out again: when the task returns, around a body that leaves the
    configuration alone, only the section of the replacing monitor may be gone, and the
    configuration is what it was when there was none before. *)
Theorem seesaw_restores_conf {A} (config overrides : dict) (body : M mgr A) (s : mgr) (w : world) :
  Moves same_conf body ->
  wp (mon_seesaw_task get_first_mon get_mon_names ip_address render_conf deep_merge config overrides body)
    (fun o s' _ => is_ret o -> exists replacer sections,
       conf (ctx s) !! "zbkc" = Some sections /\
       conf (ctx s') = <["zbkc" := delete ("mon." +:+ replacer) sections]> (conf (ctx s)) /\
       (sections !! ("mon." +:+ replacer) = None -> conf (ctx s') = conf (ctx s))) s w.
Proof.
  intros Hb. unfold mon_seesaw_task. apply wp_bind. eapply wp_conseq; [apply first_mon_conf|].
  intros [r0|e|] s1 w1 H1; unfold then_; [|done..]. specialize (H1 r0 eq_refl).
  set (c := conf (ctx s)) in *.
  match goal with |- wp ?m _ s1 w1 => assert (Hh : hoare (conf_is "zbkc" c) m (fun _ s' => exists replacer sections,
    c !! "zbkc" = Some sections /\ conf_is "zbkc" (<["zbkc" := delete ("mon." +:+ replacer) sections]> c) s')) end.
  { cbv zeta. apply hoare_get. intros s2 [_ Hcl]. rewrite Hcl.
    do 5 (apply hoare_keeps_bind; [by runs_tac|intros ?]).
    eapply hoare_conseq; [apply prepare_restores|done|by intros x s3 (sec & H2 & H3); exists a1, sec].
    intros c'. unfold _run_daemon. do 2 (apply hoare_keeps_bind; [by runs_tac|intros ?]).
    eapply hoare_bind; [|intros; apply hoare_keeps; by runs_tac].
    do 4 (apply hoare_keeps_bind; [by runs_tac|intros ?]).
    eapply hoare_finally; [by apply hoare_keeps|]. intros x. apply hoare_keeps. unfold readd_victim. runs_tac. }
  eapply wp_conseq; [by apply Hh|]. intros [x|e|] s2 w2 H; [|done..]. intros _.
  destruct (H x eq_refl) as (replacer & sections & Hs & Hc & _). exists replacer, sections. split_ands; [done..|].
  intros Hn. rewrite Hc. rewrite delete_id by done. by apply insert_id.
Qed.
End Conf.

(** ** The clock checker *)
Section Skew.
Context {E : Env} {F : Fuel}.
Import ClockSkewCheck.

(** A monitor's report, as the health document has it *)
Record report := Report { rp_name : string; rp_skew : Q; rp_health : string; rp_details : pyval }.
Definition report_doc (r : report) : pyval :=
  PDict [("name", PStr (rp_name r)); ("skew", PFloat (rp_skew r)); ("health", PStr (rp_health r));
         ("details", rp_details r)].
Definition exceeds (max : Q) (r : report) : bool := Qlt_bool max (Qabs (rp_skew r)).
(** What a monitor reports above the maximum is a warning. *)
Definition warns (max : Q) (r : report) : Prop := exceeds max r = true -> rp_health r = "HEALTH_WARN".

Lemma py_gt_float (a b : Q) : py_gt (PFloat a) (PFloat b) = Qlt_bool b a.
Proof.
  unfold py_gt. simpl. symmetry. destruct (Qcompare_spec a b) as [H|H|H].
  - apply Qlt_bool_false. rewrite H. apply Qle_refl.
  - apply Qlt_bool_false. by apply Qlt_le_weak.
  - by apply Qlt_bool_iff.
Qed.
Lemma dict_set_nonempty k v d : dict_set k v d <> [].
Proof. destruct d as [|[k' v'] d]; simpl; [done|]. by case_match. Qed.
Lemma record_skew_run max skews r c w :
  max_skew c = PFloat max -> warns max r ->
  exists skews', record_skew skews (report_doc r) c w = (Ret skews', c, w) /\
    (skews' = [] <-> skews = [] /\ exceeds max r = false).
Proof.
  intros Hm Hw. unfold record_skew. rewrite (bind_run _ _ _ _ _ _ _ eq_refl).
  do 5 rewrite (bind_run _ _ _ _ _ _ _ eq_refl). rewrite Hm, py_gt_float. fold (exceeds max r).
  destruct (exceeds max r) eqn:He; [|by exists skews; split; [|tauto]].
  unfold eq_str. rewrite (Hw He). cbn [String.eqb]. eexists. split; [reflexivity|].
  split; [by intros ?%dict_set_nonempty|by intros []].
Qed.
Lemma record_skews_run max rs c w skews :
  max_skew c = PFloat max -> Forall (warns max) rs ->
  exists skews', record_skews skews (map report_doc rs) c w = (Ret skews', c, w) /\
    (skews' = [] <-> skews = [] /\ Forall (fun r => exceeds max r = false) rs).
Proof.
  intros Hm Hw. revert skews; induction Hw as [|r rs Hr Hw IH]; intros skews; simpl.
  { exists skews. split; [done|]. rewrite Forall_nil. tauto. }
  destruct (record_skew_run max skews r c w Hm Hr) as (s1 & H1 & H2). rewrite (bind_run _ _ _ _ _ _ _ H1).
  destruct (IH s1) as (s2 & H3 & H4). exists s2. split; [done|]. rewrite Forall_cons. tauto.
Qed.

(** The verdict of the clock checker over the monitors' reports: it passes exactly when
    skews are never to fail the run, or when the maximum is exceeded by some monitor and a
    skew is expected, or by none and no skew is expected. *)
Theorem skew_verdict (max : Q) (rs : list report) (c : skew_check) (w : world) :
  max_skew c = PFloat max -> Forall (warns max) rs ->
  is_ret ((skews <- record_skews [] (map report_doc rs) ;; verdict skews) c w).1.1 <->
  truthy (never_fail c) = true \/
  (if truthy (expect_skew c) then Exists (fun r => exceeds max r = true) rs
   else Forall (fun r => exceeds max r = false) rs).
Proof.
  intros Hm Hw. destruct (record_skews_run max rs c w [] Hm Hw) as (skews & H1 & H2).
  rewrite (bind_run _ _ _ _ _ _ _ H1). unfold verdict. rewrite (bind_run _ _ _ _ _ _ _ eq_refl).
  assert (H3 : (Z.of_nat (length skews) =? 0) = bool_decide (skews = [])) by by destruct skews.
  assert (H4 : (0 <? Z.of_nat (length skews)) = negb (bool_decide (skews = []))) by by destruct skews.
  rewrite H3, H4. unfold when.
  assert (Hx : Exists (fun r => exceeds max r = true) rs <-> ~ Forall (fun r => exceeds max r = false) rs).
  { rewrite Exists_exists, Forall_forall. split; [intros (r & Hr & He) Hf; specialize (Hf r Hr); congruence|].
    intros Hn. destruct (decide (Exists (fun r => exceeds max r = true) rs)) as [Hy|Hy]; [by apply Exists_exists|].
    destruct Hn. intros r Hr. apply not_true_is_false. intros He. apply Hy, Exists_exists. eauto. }
  destruct (truthy (never_fail c)); cbn [negb]; [rewrite andb_false_r; split; [by left|done]|].
  rewrite andb_true_r. destruct (truthy (expect_skew c)); case_bool_decide as Hs; rewrite ?Hx; cbn [negb]; cbv [ret raise is_ret fst]; naive_solver.
Qed.
End Skew.
