(* ===== verification/RepairTests.v ===== *)
(** * Damaged objects: tasks/scrub_test.py and tasks/repair_test.py

    The tasks damage copies of objects, have the placement group scrubbed, and check that
    the damage is found, reported, and repaired.  [mktemp] stands for [tempfile.mktemp]. *)
From Stdlib Require Import Ascii QArith Qround Lqa.
From S2P Require Import Prelude PyVal World ZbkcManager ManagerWait Scrub Rados OsdScenarios Daemons ObjectStoreTool.

(** [os.path.join(a, b)] *)
Definition path_join (a b : string) : string :=
  if startswith "/" b then b
  else match String.get (pred (String.length a)) a with
       | None => b
       | Some c => if Ascii.eqb c "/" then a +:+ b else a +:+ "/" +:+ b
       end.
(** [s.endswith(pat)] *)
Definition endswith (pat s : string) : bool :=
  let n := String.length s in let k := String.length pat in
  Nat.leb k n && String.eqb (str_from (n - k) s) pat.
(** [s[s.find(c) + 1:]], [None] when [c] is not in [s] *)
Fixpoint after_first (c : ascii) (s : string) : option string :=
  match s with
  | EmptyString => None
  | String a s' => if Ascii.eqb a c then Some s' else after_first c s'
  end.

Section Values.
Context {E : Env} {S : Type}.
(** [name in v] *)
Definition contains (name : string) (v : pyval) : M S bool :=
  match v with
  | PList l => ret (existsb (fun x => eq_str x name) l)
  | PDict d => ret (dict_has name d)
  | PStr s => ret (str_in name s)
  | _ => raise (TypeError "argument is not iterable")
  end.
(** [osd in acting] *)
Definition in_list (v : pyval) (l : list pyval) : bool := existsb (py_eq v) l.
End Values.

(** ** What a scrub must report: [InconsistentObjChecker] *)

Record checker := Checker { ck_osd : pyval; ck_acting : list pyval; ck_obj : string }.

Module InconsistentObjChecker.
Section InconsistentObjChecker.
Context {E : Env} {S : Type} (self : checker).
Abbreviation MS A := (M S A).

Definition basic_checks (inc : pyval) : MS unit :=
  o <- subscript inc "object" ;;
  name <- subscript o "name" ;; assert_ (eq_str name (ck_obj self)) "inc['object']['name'] == self.obj" ;;
  snap <- subscript o "snap" ;; assert_ (eq_str snap "head") "inc['object']['snap']" ;;
  sh <- subscript inc "shards" ;; n <- len_ sh ;;
  assert_ (n =? Z.of_nat (length (ck_acting self)))
    "the number of returned shard does not match with the acting set".

(** [bad_found] and [good_found] over the shards *)
Fixpoint check_errors_go (err_name : string) (shards : list pyval) (bad_found good_found : bool)
  : MS (bool * bool) :=
  match shards with
  | [] => ret (bad_found, good_found)
  | shard :: shards' =>
      has_osd <- contains "osd" shard ;; assert_ has_osd "'osd' in shard" ;;
      osd <- subscript shard "osd" ;;
      errors <- subscript shard "errors" ;; err <- contains err_name errors ;;
      if py_eq osd (ck_osd self) then
        assert_ (negb bad_found) "multiple entries found for the given OSD" ;;
        assert_ err "Didn't find it in errors" ;;
        check_errors_go err_name shards' true good_found
      else
        assert_ (in_list osd (ck_acting self)) "shard not in acting set" ;;
        assert_ (negb err) "Expected it in errors" ;;
        check_errors_go err_name shards' bad_found true
  end.
Definition _check_errors (inc : pyval) (err_name : string) : MS unit :=
  sh <- subscript inc "shards" ;; shards <- as_list sh ;;
  r <- check_errors_go err_name shards false false ;;
  assert_ r.1 "Shard not found" ;;
  assert_ r.2 "No other acting shards found".

Definition is_none (v : pyval) : bool := match v with PNone => true | _ => false end.
(** [bad_attr] and [good_attr] over the shards *)
Fixpoint check_attrs_go (attr_name : string) (shards : list pyval) (bad_attr good_attr : pyval)
  : MS (pyval * pyval) :=
  match shards with
  | [] => ret (bad_attr, good_attr)
  | shard :: shards' =>
      has_osd <- contains "osd" shard ;; assert_ has_osd "'osd' in shard" ;;
      osd <- subscript shard "osd" ;;
      d <- as_dict shard ;;
      let attr := dict_get attr_name (PBool false) d in
      if py_eq osd (ck_osd self) then
        assert_ (is_none bad_attr) "multiple entries found for the given OSD" ;;
        check_attrs_go attr_name shards' attr good_attr
      else
        assert_ (in_list osd (ck_acting self)) "shard not in acting set" ;;
        assert_ (is_none good_attr || py_eq good_attr attr) "multiple good attrs found" ;;
        check_attrs_go attr_name shards' bad_attr attr
  end.
Definition _check_attrs (inc : pyval) (attr_name : string) : MS unit :=
  sh <- subscript inc "shards" ;; shards <- as_list sh ;;
  r <- check_attrs_go attr_name shards PNone PNone ;;
  assert_ (negb (is_none r.1)) "bad attr not found" ;;
  assert_ (negb (is_none r.2)) "good attr not found" ;;
  assert_ (negb (py_eq r.2 r.1)) "bad attr is identical to the good ones".

Definition reports (inc : pyval) (field err_name : string) : MS unit :=
  v <- subscript inc field ;; b <- contains err_name v ;; assert_ b (err_name +:+ " in " +:+ field).
Definition data_digest_mismatch (inc : pyval) : MS unit :=
  reports inc "errors" "data_digest_mismatch" ;; _check_attrs inc "data_digest".
Definition missing (inc : pyval) : MS unit :=
  reports inc "union_shard_errors" "missing" ;; _check_errors inc "missing".
Definition size_mismatch (inc : pyval) : MS unit :=
  reports inc "errors" "size_mismatch" ;; _check_attrs inc "size".
Definition omap_digest_mismatch (inc : pyval) : MS unit :=
  reports inc "errors" "omap_digest_mismatch" ;; _check_attrs inc "omap_digest".

(** [getattr(self, check)(inc)] *)
Definition run_check (check : string) (inc : pyval) : MS unit :=
  if String.eqb check "data_digest_mismatch" then data_digest_mismatch inc
  else if String.eqb check "missing" then missing inc
  else if String.eqb check "size_mismatch" then size_mismatch inc
  else if String.eqb check "omap_digest_mismatch" then omap_digest_mismatch inc
  else if String.eqb check "basic_checks" then basic_checks inc
  else raise (AttributeError check).
End InconsistentObjChecker.
End InconsistentObjChecker.

(** ** scrub_test.py *)

Record messup := Messup
  { mu_remote : remote; mu_pool : string; mu_osd_id : Z; mu_obj : string; mu_path : string;
    omap_key : string; omap_val : string }.

Section ScrubTest.
Context {E : Env} {F : Fuel}.
Context (get_first_mon : context -> dict -> string) (num_instances_of_type : context -> string -> Z).
Context (mktemp : cstate -> string).
Abbreviation MM A := (M mgr A).

Definition victim_of (pg : pyval) : MM (option (pyval * pyval)) :=
  sum <- subscript pg "stat_sum" ;; size <- subscript sum "num_bytes" ;;
  if py_gt size (PInt 0) then
    victim <- subscript pg "pgid" ;; acting <- subscript pg "acting" ;; ret (Some (victim, acting))
  else ret None.
Definition wait_for_victim_pg : MM (pyval * pyval) :=
  loop fuel (fun _ : unit =>
    stats <- get_pg_stats ;;
    r <- for_return stats victim_of ;;
    match r with Some v => ret (inr v) | None => sleep 3 ;; ret (inl tt) end) tt.

Definition find_victim_object (pg : string) (osd : Z) : MM (remote * string * string) :=
  osd_remote <- only_remote (osd_name osd) ;;
  let data_path := "/var/lib/zbkc/osd/zbkc-" +:+ zs osd +:+ "/fuse/" +:+ pg +:+ "_head/all" in
  p <- run osd_remote ["sudo"; "ls"; data_path] true ;;
  osdfilename <- of_option (OtherError "StopIteration")
    (head (filter (fun line => endswith "::::head#" line = false) (split_on nl (stdout p)))) ;;
  objname <- of_option IndexError (split_on ":" osdfilename !! 4%nat) ;;
  ret (osd_remote, path_join data_path osdfilename, objname).

Definition corrupt_file (osd_remote : remote) (path : string) : MM unit :=
  run osd_remote ["sudo"; "dd"; "if=/dev/zero"; "of=" +:+ path +:+ "/data"; "bs=1"; "count=1"; "conv=notrunc"] true ;;
  ret tt.
Definition get_pgnum (pgid : string) : MM string := of_option (AssertionError "pos != -1") (after_first "." pgid).

(** [stats['state'].find('+inconsistent') != -1] of [manager.get_single_pg_stats(victim)] *)
Definition victim_inconsistent (victim : string) : MM bool :=
  v <- single_pg_state victim ;; st <- as_str v ;; ret (str_in "+inconsistent" st).
Definition deep_scrub (victim pool : string) : MM unit :=
  pgnum <- get_pgnum victim ;;
  do_pg_scrub pool pgnum "deep-scrub" ;;
  inconsistent <- victim_inconsistent victim ;;
  assert_ inconsistent "inconsistent".
Definition repair (victim pool : string) : MM unit :=
  pgnum <- get_pgnum victim ;;
  do_pg_scrub pool pgnum "repair" ;;
  inconsistent <- victim_inconsistent victim ;;
  assert_ (negb inconsistent) "not inconsistent".

Definition test_repair_corrupted_obj (pg : string) (osd_remote : remote) (obj_path pool : string) : MM unit :=
  corrupt_file osd_remote obj_path ;;
  deep_scrub pg pool ;;
  repair pg pool.

(** [manager.osd_admin_socket(osd, command)] *)
Definition osd_socket (osd : Z) (command : list string) : MM unit := osd_admin_socket osd command true 0 ;; ret tt.

Definition test_repair_bad_omap (pg : string) (osd : Z) (objname : string) : MM unit :=
  osd_socket osd ["rmomapkey"; "rbd"; objname; "key"] ;;
  osd_socket osd ["setomapval"; "rbd"; objname; "badkey"; "badval"] ;;
  osd_socket osd ["setomapheader"; "rbd"; objname; "badhdr"] ;;
  deep_scrub pg "rbd" ;;
  osd_socket osd ["setomapheader"; "rbd"; objname; "hdr"] ;;
  osd_socket osd ["rmomapkey"; "rbd"; objname; "badkey"] ;;
  osd_socket osd ["setomapval"; "rbd"; objname; "key"; "val"] ;;
  repair pg "rbd".

(** [MessUp]: each method is a context manager that damages the object, gives the checks
    that must hold meanwhile, and undoes the damage unless the body raised. *)
Section MessUp.
Context {A : Type} (self : messup) (body : list string -> MM A).
Definition _test_with_file (messup_cmd : string) (checks : list string) : MM A :=
  temp <- observe mktemp ;;
  run (mu_remote self) ["sudo"; "cp"; path_join (mu_path self) "data"; temp] true ;;
  run (mu_remote self) (split_ws messup_cmd) true ;;
  a <- body checks ;;
  run (mu_remote self) ["sudo"; "mkdir"; mu_path self] false ;;
  run (mu_remote self) ["sudo"; "cp"; temp; path_join (mu_path self) "data"] true ;;
  ret a.
Definition remove : MM A := _test_with_file ("sudo rmdir " +:+ mu_path self) ["missing"].
Definition append : MM A :=
  _test_with_file ("sudo dd if=/dev/zero of=" +:+ mu_path self +:+ "/data bs=1 count=1 conv=notrunc oflag=append")
    ["data_digest_mismatch"; "size_mismatch"].
Definition truncate : MM A :=
  _test_with_file ("sudo dd if=/dev/null of=" +:+ mu_path self +:+ "/data") ["data_digest_mismatch"; "size_mismatch"].
Definition change_obj : MM A :=
  _test_with_file ("sudo dd if=/dev/zero of=" +:+ mu_path self +:+ "/data bs=1 count=1 conv=notrunc")
    ["data_digest_mismatch"].
Definition with_omap (before after : list string) : MM A :=
  osd_socket (mu_osd_id self) before ;;
  a <- body ["omap_digest_mismatch"] ;;
  osd_socket (mu_osd_id self) after ;;
  ret a.
Definition rm_omap : MM A :=
  with_omap ["rmomapkey"; mu_pool self; mu_obj self; omap_key self]
    ["setomapval"; mu_pool self; mu_obj self; omap_key self; omap_val self].
Definition add_omap : MM A :=
  with_omap ["setomapval"; mu_pool self; mu_obj self; "badkey"; "badval"]
    ["rmomapkey"; mu_pool self; mu_obj self; "badkey"].
Definition change_omap : MM A :=
  with_omap ["setomapval"; mu_pool self; mu_obj self; omap_key self; "badval"]
    ["setomapval"; mu_pool self; mu_obj self; omap_key self; omap_val self].
End MessUp.

(** [mon.run(args=cmd.split(), stdout=out); json.loads(out.getvalue())] *)
Definition run_json (mon : remote) (cmd : string) : MM pyval :=
  p <- run mon (split_ws cmd) true ;; json_loads (stdout p).

(** The body of [with test() as checks] *)
Definition check_inconsistent (mon : remote) (pool pg : string) (ck : MM checker) (checks : list string) : MM unit :=
  deep_scrub pg pool ;;
  pgs <- run_json mon ("rados list-inconsistent-pg " +:+ pool +:+ " --format=json") ;;
  assert_ (py_eq pgs (PList [PStr pg])) "pgs == [pg]" ;;
  objs <- run_json mon ("rados list-inconsistent-obj " +:+ pg +:+ " --format=json") ;;
  i <- subscript objs "inconsistents" ;; n <- len_ i ;;
  assert_ (n =? 1) "len(objs['inconsistents']) == 1" ;;
  self <- ck ;;
  l <- as_list i ;; inc_obj <- item l 0 ;;
  InconsistentObjChecker.basic_checks self inc_obj ;;
  for_ checks (fun check => InconsistentObjChecker.run_check self check inc_obj).
(** [InconsistentObjChecker(osd_id, acting, obj_name)] *)
Definition new_checker (osd_id : Z) (acting : list pyval) (obj_name : string) : MM checker :=
  assert_ (in_list (PInt osd_id) acting) "self.osd in self.acting" ;;
  ret (Checker (PInt osd_id) acting obj_name).

Definition test_list_inconsistent_obj (osd_remote : remote) (pg : string) (acting : list pyval) (osd_id : Z)
  (obj_name obj_path : string) : MM unit :=
  s <- get ;;
  let mon := controller s in
  do_rados mon ["-p"; "rbd"; "setomapval"; obj_name; "key"; "val"] true ;;
  pgnum <- get_pgnum pg ;;
  do_pg_scrub "rbd" pgnum "deep-scrub" ;;
  let self := Messup osd_remote "rbd" osd_id obj_name obj_path "key" "val" in
  let body := check_inconsistent mon "rbd" pg (new_checker osd_id acting obj_name) in
  for_ [rm_omap self body; add_omap self body; change_omap self body; append self body; truncate self body;
        change_obj self body; remove self body] (fun test => test).

Definition scrub_test_task (config : dict) : MM unit :=
  s <- get ;;
  mon <- only_remote (get_first_mon (ctx s) config) ;;
  let n := num_instances_of_type (ctx s) "osd" in
  first_mon_manager get_first_mon (ctx s) config ;;
  wait_for_osds_up n 10 ;;
  for_range 0 n (fun i => cmd_ ["tell"; osd_name i; "injectargs"; "--"; "--osd-objectstore-fuse"]) ;;
  for_range 0 n flush_pg_stats ;;
  wait_for_clean None ;;
  do_rados mon ["-p"; "rbd"; "bench"; "--no-cleanup"; "1"; "write"; "-b"; "4096"] true ;;
  v <- wait_for_victim_pg ;;
  acting <- as_list v.2 ;;
  a0 <- item acting 0 ;; fmt_d a0 ;; osd <- as_int a0 ;;
  pg <- as_str v.1 ;;
  x <- find_victim_object pg osd ;;
  let '(osd_remote, obj_path, obj_name) := x in
  do_rados mon ["-p"; "rbd"; "setomapval"; obj_name; "key"; "val"] true ;;
  do_rados mon ["-p"; "rbd"; "setomapheader"; obj_name; "hdr"] true ;;
  pgnum <- get_pgnum pg ;;
  do_pg_scrub "rbd" pgnum "deep-scrub" ;;
  test_repair_corrupted_obj pg osd_remote obj_path "rbd" ;;
  test_repair_bad_omap pg osd obj_name ;;
  test_list_inconsistent_obj osd_remote pg acting osd obj_name obj_path ;;
  for_range 0 n (fun i => cmd_ ["tell"; osd_name i; "injectargs"; "--"; "--no-osd-objectstore-fuse"]) ;;
  sleep 5.
End ScrubTest.

(** ** repair_test.py *)

Section RepairTest.
Context {E : Env} {F : Fuel}.
Context (get_first_mon : context -> dict -> string).
Abbreviation MM A := (M mgr A).

Definition choose_primary (pool num : string) : MM Z := get_pg_primary pool num.
Definition choose_replica (pool num : string) : MM Z := get_pg_replica pool num.
Definition trunc (osd : Z) (pool obj : string) : MM unit := osd_socket osd ["truncobj"; pool; obj; "1"].
Definition dataerr (osd : Z) (pool obj : string) : MM unit := osd_socket osd ["injectdataerr"; pool; obj].
Definition mdataerr (osd : Z) (pool obj : string) : MM unit := osd_socket osd ["injectmdataerr"; pool; obj].
Definition omaperr (osd : Z) (pool obj : string) : MM unit :=
  osd_socket osd ["setomapval"; pool; obj; "badkey"; "badval"].

(** [assert manager.pg_inconsistent(pool, 0)], or that it is not *)
Definition assert_inconsistent (pool : string) (b : bool) : MM unit :=
  i <- pg_inconsistent pool "0" ;; assert_ (Bool.eqb i b) "manager.pg_inconsistent(pool, 0)".
(** [manager.do_put(pool, obj, '/etc/hosts')] *)
Definition put_hosts (pool obj : string) : MM unit := do_put pool obj "/etc/hosts" None ;; ret tt.
(** Scrub, find the damage, repair, scrub again, find none *)
Definition scrub_and_repair (pool scrub_type : string) : MM unit :=
  do_pg_scrub pool "0" scrub_type ;;
  assert_inconsistent pool true ;;
  do_pg_scrub pool "0" "repair" ;;
  do_pg_scrub pool "0" scrub_type ;;
  assert_inconsistent pool false.

Definition repair_test_1 (corrupter : Z -> string -> string -> MM unit) (chooser : string -> string -> MM Z)
  (scrub_type : string) : MM unit :=
  let pool_ := "repair_pool_1" in
  wait_for_clean None ;;
  pool pool_ 1 None
    (victim_osd <- chooser pool_ "0" ;;
     put_hosts pool_ "repair_test_obj" ;;
     corrupter victim_osd pool_ "repair_test_obj" ;;
     scrub_and_repair pool_ scrub_type).

Definition repair_test_2 (config : dict) (chooser : string -> string -> MM Z) : MM unit :=
  let pool_ := "repair_pool_2" in
  wait_for_clean None ;;
  pool pool_ 1 None
    (victim_osd <- chooser pool_ "0" ;;
     s <- get ;;
     mon <- only_remote (get_first_mon (ctx s) config) ;;
     put_hosts pool_ "file1" ;;
     do_rados mon ["-p"; pool_; "setomapval"; "file1"; "key"; "val"] true ;;
     put_hosts pool_ "file2" ;; put_hosts pool_ "file3" ;; put_hosts pool_ "file4" ;; put_hosts pool_ "file5" ;;
     do_rados mon ["-p"; pool_; "setomapval"; "file5"; "key"; "val"] true ;;
     put_hosts pool_ "file6" ;;
     omaperr victim_osd pool_ "file1" ;;
     do_pg_scrub pool_ "0" "deep-scrub" ;;
     assert_inconsistent pool_ true ;;
     (* still inconsistent after a scrub *)
     do_pg_scrub pool_ "0" "scrub" ;;
     assert_inconsistent pool_ true ;;
     dataerr victim_osd pool_ "file1" ;;
     mdataerr victim_osd pool_ "file2" ;;
     trunc victim_osd pool_ "file3" ;;
     omaperr victim_osd pool_ "file6" ;;
     do_pg_scrub pool_ "0" "deep-scrub" ;;
     assert_inconsistent pool_ true ;;
     do_pg_scrub pool_ "0" "repair" ;;
     sleep 10 ;;
     assert_inconsistent pool_ false ;;
     do_pg_scrub pool_ "0" "deep-scrub" ;;
     assert_inconsistent pool_ false).

Definition hinfoerr (victim : which_osd) (pool obj : string) : MM unit :=
  objectstore_tool pool "" "rm-attr hinfo_key" victim (Some obj) true.

Definition repair_test_erasure_code (corrupter : which_osd -> string -> string -> MM unit) (victim : which_osd)
  (scrub_type : string) : MM unit :=
  let pool_ := "repair_pool_3" in
  wait_for_clean None ;;
  pool pool_ 1 (Some "default")
    (put_hosts pool_ "repair_test_obj" ;;
     corrupter victim pool_ "repair_test_obj" ;;
     scrub_and_repair pool_ scrub_type).

Definition repair_test_task (config : dict) : MM unit :=
  wait_for_all_up None ;;
  cmd_ ["osd"; "set"; "noscrub"] ;;
  cmd_ ["osd"; "set"; "nodeep-scrub"] ;;
  repair_test_1 mdataerr choose_primary "scrub" ;;
  repair_test_1 mdataerr choose_replica "scrub" ;;
  repair_test_1 dataerr choose_primary "deep-scrub" ;;
  repair_test_1 dataerr choose_replica "deep-scrub" ;;
  repair_test_1 trunc choose_primary "scrub" ;;
  repair_test_1 trunc choose_replica "scrub" ;;
  repair_test_2 config choose_primary ;;
  repair_test_2 config choose_replica ;;
  repair_test_erasure_code hinfoerr OsdPrimary "deep-scrub".
End RepairTest.

(** * What the scrub checks accept

    [InconsistentObjChecker] of scrub_test.py against a direct statement of what a report of
    one damaged copy must look like, and the tests of repair_test.py: their pools are
    removed again. *)
From S2P Require Import Sim WaitFacts PoolFacts.


(** A shard of a report: the OSD that holds it and the errors found *)
Record shard := Shard { sh_osd : Z; sh_errors : list string }.
Definition shard_doc (s : shard) : pyval :=
  PDict [("osd", PInt (sh_osd s)); ("errors", PList (map PStr (sh_errors s)))].
Definition inc_doc (shards : list shard) : pyval := PDict [("shards", PList (map shard_doc shards))].
Definition checker_of (osd : Z) (acting : list Z) (obj : string) : checker :=
  Checker (PInt osd) (map PInt acting) obj.

(** The damaged copy, and it alone, has the error, and every other copy is one of the acting OSDs. *)
Definition shard_ok (osd : Z) (acting : list Z) (err : string) (s : shard) : Prop :=
  if sh_osd s =? osd then err ∈ sh_errors s else sh_osd s ∈ acting /\ err ∉ sh_errors s.
Definition bad_shards (osd : Z) (shards : list shard) : list shard := List.filter (fun s => sh_osd s =? osd) shards.
Definition good_shards (osd : Z) (shards : list shard) : list shard :=
  List.filter (fun s => negb (sh_osd s =? osd)) shards.

Lemma py_eq_int (a b : Z) : py_eq (PInt a) (PInt b) = (a =? b).
Proof.
  unfold py_eq. simpl. unfold Qcompare, inject_Z. simpl. rewrite !Z.mul_1_r.
  destruct (Z.compare_spec a b); symmetry; [by apply Z.eqb_eq|apply Z.eqb_neq; lia..].
Qed.
Lemma in_list_ints (a : Z) (l : list Z) : in_list (PInt a) (map PInt l) = bool_decide (a ∈ l).
Proof.
  unfold in_list. apply eq_true_iff_eq. rewrite bool_decide_eq_true, existsb_exists. split.
  - intros (v & Hv & He). apply in_map_iff in Hv as (b & <- & Hb). rewrite py_eq_int in He.
    apply Z.eqb_eq in He as ->. by apply list_elem_of_In.
  - intros H. exists (PInt a). rewrite py_eq_int, Z.eqb_refl. split; [|done]. apply in_map. by apply list_elem_of_In.
Qed.
Lemma contains_strs {E : Env} {S} (x : string) (l : list string) (s : S) w :
  contains x (PList (map PStr l)) s w = (Ret (bool_decide (x ∈ l)), s, w).
Proof.
  unfold contains, ret. do 3 f_equal. apply eq_true_iff_eq. rewrite bool_decide_eq_true, existsb_exists. split.
  - intros (v & Hv & He). apply in_map_iff in Hv as (b & <- & Hb). simpl in He.
    apply String.eqb_eq in He as ->. by apply list_elem_of_In.
  - intros H. exists (PStr x). simpl. rewrite String.eqb_refl. split; [|done]. apply in_map. by apply list_elem_of_In.
Qed.

Lemma bad_shards_cons osd sh l :
  bad_shards osd (sh :: l) = if sh_osd sh =? osd then sh :: bad_shards osd l else bad_shards osd l.
Proof. done. Qed.
Lemma good_shards_cons osd sh l :
  good_shards osd (sh :: l) = if negb (sh_osd sh =? osd) then sh :: good_shards osd l else good_shards osd l.
Proof. done. Qed.
Lemma bind_raise {E : Env} {S A B} e (k : A -> M S B) s w : bind (raise e) k s w = (Exc e, s, w).
Proof. done. Qed.

Lemma bind_exc {E : Env} {S A B} (m : M S A) (k : A -> M S B) e s w s' w' :
  m s w = (Exc e, s', w') -> bind m k s w = (Exc e, s', w').
Proof. unfold bind. by intros ->. Qed.
#[export] Instance shard_ok_dec osd acting err sh : Decision (shard_ok osd acting err sh).
Proof. unfold shard_ok. case_match; apply _. Defined.

Section Checker.
Context {E : Env} {S : Type}.
Import InconsistentObjChecker.

(** The loop over the shards succeeds exactly when every shard is as it must be and none is
    a second one of the damaged OSD; the flags say which kinds were seen. *)
Lemma check_errors_go_run osd acting obj err shards bad good (s : S) w :
  let run := check_errors_go (checker_of osd acting obj) err (map shard_doc shards) bad good s w in
  let ok := Forall (shard_ok osd acting err) shards /\ (length (bad_shards osd shards) + Nat.b2n bad <= 1)%nat in
  (ok -> run = (Ret (bad || negb (bool_decide (bad_shards osd shards = [])),
                     good || negb (bool_decide (good_shards osd shards = []))), s, w)) /\
  (~ ok -> exists e, run = (Exc e, s, w)).
Proof.
  revert bad good. induction shards as [|sh shards IH]; intros bad good; cbn zeta.
  { split; [intros _; simpl; by rewrite !orb_false_r|]. intros Hn. destruct Hn. split; [done|]. destruct bad; simpl; lia. }
  cbn [map check_errors_go]. do 4 rewrite (bind_run _ _ _ _ _ _ _ eq_refl).
  rewrite (bind_run _ _ _ _ _ _ _ (contains_strs _ _ _ _)).
  change (ck_osd (checker_of osd acting obj)) with (PInt osd).
  change (ck_acting (checker_of osd acting obj)) with (map PInt acting). rewrite py_eq_int, in_list_ints.
  rewrite Forall_cons, bad_shards_cons, good_shards_cons.
  assert (Hsh : shard_ok osd acting err sh <-> if sh_osd sh =? osd then err ∈ sh_errors sh
    else sh_osd sh ∈ acting /\ err ∉ sh_errors sh) by done.
  rewrite Hsh. clear Hsh. destruct (sh_osd sh =? osd); cbn [negb length].
  - destruct bad; cbn [negb assert_ Nat.b2n].
    { rewrite bind_raise. split; [intros [_ ?]; lia|]. eauto. }
    rewrite (bind_run _ _ _ _ _ _ _ eq_refl).
    destruct (decide (err ∈ sh_errors sh)) as [He|He];
      [rewrite (bool_decide_true (err ∈ sh_errors sh)) by done|rewrite (bool_decide_false (err ∈ sh_errors sh)) by done];
      cbn [assert_].
    + rewrite (bind_run _ _ _ _ _ _ _ eq_refl). destruct (IH true good) as [H1 H2]. split.
      * intros [[_ Hf] Hl]. rewrite H1; [|split; [done|simpl; lia]]. simpl. done.
      * intros Hn. apply H2. intros [Hf Hl]. apply Hn. simpl in Hl. split; [done|lia].
    + split; [by intros [[? _] _]|]. rewrite bind_raise. eauto.
  - destruct (decide (sh_osd sh ∈ acting)) as [Ha|Ha];
      [rewrite (bool_decide_true (sh_osd sh ∈ acting)) by done
      |rewrite (bool_decide_false (sh_osd sh ∈ acting)) by done; split; [by intros [[[? _] _] _]|]; eauto].
    cbn [assert_]. rewrite (bind_run _ _ _ _ _ _ _ eq_refl).
    destruct (decide (err ∈ sh_errors sh)) as [He|He];
      [rewrite (bool_decide_true (err ∈ sh_errors sh)) by done; split; [by intros [[[_ ?] _] _]|]; eauto
      |rewrite (bool_decide_false (err ∈ sh_errors sh)) by done].
    cbn [negb assert_]. rewrite (bind_run _ _ _ _ _ _ _ eq_refl). destruct (IH bad true) as [H1 H2]. split.
    + intros [[_ Hf] Hl]. rewrite H1 by done. simpl. by rewrite !orb_true_r.
    + intros Hn. apply H2. intros [Hf Hl]. apply Hn. by split_ands.
Qed.

(** C39: [_check_errors] accepts a report of a damaged object if and only if exactly one
    shard is the damaged OSD's, it has the error, there is another shard, and every other
    shard belongs to the acting set and does not have the error. *)
Theorem check_errors_spec (osd : Z) (acting : list Z) (obj err : string) (shards : list shard) (s : S) (w : world) :
  is_ret (_check_errors (checker_of osd acting obj) (inc_doc shards) err s w).1.1 <->
  length (bad_shards osd shards) = 1%nat /\ good_shards osd shards <> [] /\
  Forall (fun sh => if sh_osd sh =? osd then err ∈ sh_errors sh
                    else sh_osd sh ∈ acting /\ err ∉ sh_errors sh) shards.
Proof.
  destruct (check_errors_go_run osd acting obj err shards false false s w) as [Hok Hbad]. fold (shard_ok osd acting err).
  unfold _check_errors. do 2 rewrite (bind_run _ _ _ _ _ _ _ eq_refl).
  set (ok := Forall (shard_ok osd acting err) shards /\ (length (bad_shards osd shards) + Nat.b2n false <= 1)%nat) in *.
  destruct (decide (length (bad_shards osd shards) <= 1)%nat) as [Hl|Hl].
  2: { destruct Hbad as [e He]; [intros [_ ?]; simpl in *; lia|]. erewrite bind_exc by exact He.
       split; [done|]. intros [? _]. lia. }
  destruct (decide (Forall (shard_ok osd acting err) shards)) as [Hf|Hf].
  2: { destruct Hbad as [e He]; [by intros [? _]|]. erewrite bind_exc by exact He. split; [done|]. by intros (_ & _ & ?). }
  rewrite (bind_run _ _ _ _ _ _ _ (Hok ltac:(split; [done|simpl; lia]))). cbn [orb fst snd].
  destruct (bad_shards osd shards) as [|b bs]; cbn [length] in *.
  { split; [done|]. by intros [? _]. }
  destruct (good_shards osd shards) as [|g gs]; [split; [done|]; by intros (_ & ? & _)|].
  split; [|done]. intros _. split_ands; [lia|done|exact Hf].
Qed.
End Checker.
