(* ===== verification/Mondb.v ===== *)
(** * Rebuilding the monitors' store from the OSDs: tasks/rebuild_mondb.py

    All monitors are stopped and their stores removed; the maps are collected from one OSD after
    the other with the object store tool, which stops the OSD; the first monitor gets the new
    store, the others an empty one; monitors and OSDs are started again.

    The functions of [tempfile], [shutil] and teuthology that work on the local machine are
    calls.  A role's type is the second part [split_role] gives ([is_type] without a cluster);
    the ids of OSDs are numbers.  [assert mons] holds of any cluster object. *)
From Stdlib Require Import Ascii QArith Qround Lqa.
From S2P Require Import Prelude PyVal World ZbkcManager ManagerWait Rados OsdScenarios ObjectStoreTool ClientMount.

Section Mondb.
Context {E : Env} {F : Fuel}.
Context (get_first_mon : context -> dict -> string).
Abbreviation MM A := (M mgr A).

Definition mkstemp : MM string := call "tempfile.mkstemp" [".tgz"; "rebuild_mondb-"].
(** The name of the remote file is one that is free on the local machine. *)
Definition push_directory (path : string) (r : remote) (remote_dir : string) : MM unit :=
  local_temp_path <- mkstemp ;;
  call "teuthology.sh" [str_join " " ["tar"; "cz"; "-f"; local_temp_path; "-C"; path; "--"; "."]] ;;
  remote_temp_path <- mkstemp ;;
  call "put_file" [r; local_temp_path; remote_temp_path] ;;
  call "os.remove" [local_temp_path] ;;
  run r ["sudo"; "tar"; "xz"; "-C"; remote_dir; "-f"; remote_temp_path] true ;;
  run r ["sudo"; "rm"; "-fr"; remote_temp_path] true ;;
  ret tt.

(** The roles of a type with their machines, in the order of the loops *)
Definition instances (type_ : string) (c : context) : list (remote * string) :=
  concat (map (fun rr => map (pair rr.1) (filter (fun role => String.eqb (split_role role).1.2 type_ = true) rr.2)) (cluster_roles c)).
Definition id_of (role : string) : string := (split_role role).2.
Definition cluster_of (role : string) : string := (split_role role).1.1.
Definition mon_dir (cl m : string) : string := path_join "/var/lib/zbkc/mon/" (cl +:+ "-" +:+ m).

(** [cluster_name] and [mon_id], unset before the first monitor *)
Abbreviation noted := (option (string * string)).
Definition stop_mon (first : noted) (rr : remote * string) : MM noted :=
  let cl := cluster_of rr.2 in
  let m := id_of rr.2 in
  let fm := default (cl, m) first in
  assert_ (String.eqb fm.1 cl) "cluster_name == cluster" ;;
  kill_mon m ;;
  run rr.1 ["sudo"; "rm"; "-r";
            if String.eqb m fm.2 then path_join (mon_dir fm.1 m) "store.db" else mon_dir fm.1 m] true ;;
  ret (Some fm).
Definition name_of (first : noted) : string := default "None" (fst <$> first).
Definition mon_of (first : noted) : string := default "None" (snd <$> first).
(** [cluster_name == cluster], where the first may be [None] *)
Definition same_cluster (first : noted) (role : string) : bool :=
  match first with Some fm => String.eqb fm.1 (cluster_of role) | None => false end.

Definition osd_number (role : string) : MM Z := of_option (ValueError "invalid literal for int()") (py_int (id_of role)).
(** The store goes to the OSD's machine, is updated there and comes back. *)
Definition collect_maps (first : noted) (local_mstore : string) (rr : remote * string) : MM string :=
  assert_ (same_cluster first rr.2) "cluster_name == cluster" ;;
  s <- get ;;
  osd_id <- osd_number rr.2 ;;
  let osd_mstore := path_join (testdir (ctx s)) "mon-store" in
  run rr.1 ["sudo"; "mkdir"; "-m"; "o+x"; "-p"; osd_mstore] true ;;
  push_directory local_mstore rr.1 osd_mstore ;;
  call "shutil.rmtree" [local_mstore] ;;
  objectstore_tool EmptyString ("--op update-mon-db --mon-store-path " +:+ osd_mstore) EmptyString (OsdText osd_id) None false ;;
  local_mstore <- call "tempfile.mkdtemp" [] ;;
  call "teuthology.pull_directory" [rr.1; osd_mstore; local_mstore] ;;
  run rr.1 ["sudo"; "rm"; "-fr"; osd_mstore] true ;;
  ret local_mstore.

Definition authtool (mon : remote) (keyring_path : string) (args : list string) : MM unit :=
  run mon (["sudo"; "zbkc-authtool"; keyring_path; "-n"] ++ args) true ;; ret tt.
Definition install_store (mon : remote) (first : noted) (local_mstore : string) (keyring_path : string) : MM unit :=
  let mon_store_dir := path_join "/var/lib/zbkc/mon" (name_of first +:+ "-" +:+ mon_of first) in
  push_directory local_mstore mon mon_store_dir ;;
  run mon ["sudo"; "chown"; "-R"; "zbkc:zbkc"; mon_store_dir] true ;;
  call "shutil.rmtree" [local_mstore] ;;
  authtool mon keyring_path ["mon."; "--cap"; "mon"; "allow *"] ;;
  authtool mon keyring_path ["client.admin"; "--cap"; "mon"; "allow *"; "--cap"; "osd"; "allow *"; "--cap"; "mds"; "allow *"] ;;
  run mon ["sudo"; "-u"; "zbkc"; "zbkc-monstore-tool"; mon_store_dir; "rebuild"; "--"; "--keyring"; keyring_path] true ;;
  ret tt.
Definition start_mon (first : noted) (keyring_path : string) (rr : remote * string) : MM unit :=
  let m := id_of rr.2 in
  assert_ (same_cluster first rr.2) "cluster_name == cluster" ;;
  when (negb (String.eqb (mon_of first) m))
    (run rr.1 ["sudo"; "zbkc-mon"; "--cluster"; cluster_of rr.2; "--mkfs"; "-i"; m; "--keyring"; keyring_path] true ;; ret tt) ;;
  revive_mon m.

Definition rebuild_mondb_task (config : pyval) : MM unit :=
  config <- match config with
            | PNone => ret []
            | PDict d => ret d
            | _ => raise (AssertionError "task only accepts a dict for configuration")
            end ;;
  mon <- new_manager get_first_mon config ;;
  s <- get ;;
  let mons := instances "mon" (ctx s) in
  let osds := instances "osd" (ctx s) in
  first <- fold_ stop_mon mons None ;;
  local_mstore <- call "tempfile.mkdtemp" [] ;;
  local_mstore <- fold_ (collect_maps first) osds local_mstore ;;
  keyring_path <- as_str (dict_get "keyring_path" (PStr ("/etc/zbkc/" +:+ name_of first +:+ ".keyring")) config) ;;
  install_store mon first local_mstore keyring_path ;;
  for_ mons (start_mon first keyring_path) ;;
  wait_for_mon_quorum_size (Z.of_nat (length mons)) (Some 30%Q) ;;
  for_ osds (fun rr => n <- osd_number rr.2 ;; revive_osd n 150 false).

End Mondb.

(** * Rebuilding the monitors' store starts every daemon it stopped *)
From S2P Require Import Daemons ScenarioFacts.

Section Mondb.
Context {E : Env} {F : Fuel}.
Context (get_first_mon : context -> dict -> string).
Implicit Types D : gset string.

(** The tool leaves the OSD it stopped down when it is told to. *)
Lemma init_text n s w : wp (init EmptyString (OsdText n) None false) (fun o s' w' => s' = s /\ w' = w /\
  forall t, o = Ret t -> ot_manager t = s /\ ot_osd t = n /\ do_revive t = false) s w.
Proof.
  unfold init. wp_run; (split; [done|split; [done|]]); intros t Ht; by simplify_eq.
Qed.
Lemma run_tool_stops options args t w : plain_kills (ot_manager t) -> do_revive t = false ->
  wp (run_tool options args None) (fun o t' w' => forall a, o = Ret a -> plain_kills (ot_manager t') /\
    down "osd" (w_trace w') = {[zs (ot_osd t)]} ∪ down "osd" (w_trace w)) t w.
Proof.
  intros Hp Hr. unfold run_tool. apply wp_bind, wp_get. unfold then_. apply wp_bind. eapply wp_conseq; [by apply kill_stops|].
  intros o t1 w1 (-> & _ & c & ->). destruct o; unfold then_; [|done..]. apply wp_bind. eapply wp_conseq; [apply build_cmd_pure|].
  intros o t1 w1 (-> & -> & _). destruct o as [cmd| |]; unfold then_; [|done..]. rewrite Hr. cbn [when].
  assert (Hq : Runs false (keeping (fun x : ost => x) no_daemon)
    (finally (proc <- run (ot_remote t) ["bash"; "-e"; "-x"; "-c"; cmd] false ;;
     when (negb (exitstatus proc =? 0)) (raise (PyException (stdout proc +:+ " " +:+ stderr proc)))) (ret tt))).
  { runs_tac; by apply keeping_emit. }
  eapply wp_conseq; [apply Hq|]. intros o t1 w1 [[Ht (evs & He & Hall)] _] u _. cbn in Ht, He. subst t1. split; [done|].
  rewrite He, no_daemon_down by done. cbn [after w_trace]. by rewrite down_snoc.
Qed.
Lemma tool_stops_osd D options args n :
  scene "osd" D (objectstore_tool EmptyString options args (OsdText n) None false) (fun _ D' => D' = {[zs n]} ∪ D).
Proof.
  intros s w Hs <-. unfold objectstore_tool. apply wp_bind. eapply wp_conseq; [apply init_text|]. intros o s' w' (-> & -> & Ht).
  destruct o as [t| |]; unfold then_; [|done..]. destruct (Ht t eq_refl) as (Hm & <- & Hr). rewrite <- Hm in Hs.
  pose proof (run_tool_stops options args t w Hs Hr) as H. unfold wp, zoom in *. rewrite <- Hm, oman_same.
  by destruct (run_tool options args None t w) as [[o t'] w'].
Qed.
Lemma push_calm role path r dir : Runs false (calm role) (push_directory path r dir).
Proof. calm_tac. Qed.
Hint Resolve push_calm : runs.
Hint Resolve tool_stops_osd : scenes.

(** ** The monitors *)
Lemma stop_mons D first l : scene "mon" D (fold_ stop_mon l first) (fun _ D' => D' = list_to_set (map (fun rr => id_of rr.2) l) ∪ D).
Proof.
  revert D first; induction l as [|rr l IH]; intros D first; simpl; [apply scene_ret; set_solver|].
  eapply scene_then with (D1 := {[id_of rr.2]} ∪ D).
  { unfold stop_mon. apply scene_calm; [by calm_tac|intros ?]. eapply scene_then; [apply scene_kill_mon|intros ?]. scene_tac. done. }
  intros a. eapply scene_conseq; [apply IH|]. set_solver.
Qed.
Lemma start_mons D first kp l : scene "mon" D (for_ l (start_mon first kp)) (fun _ D' => D' = D ∖ list_to_set (map (fun rr => id_of rr.2) l)).
Proof.
  revert D; induction l as [|rr l IH]; intros D; simpl; [apply scene_ret; set_solver|].
  eapply scene_then with (D1 := D ∖ {[id_of rr.2]}).
  { unfold start_mon. apply scene_calm; [by calm_tac|intros ?]. apply scene_calm; [by calm_tac|intros ?]. apply scene_revive_mon. }
  intros a. eapply scene_conseq; [apply IH|]. set_solver.
Qed.
(** ** The OSDs *)
(** What the roles are as numbers; a role that is none stops the script. *)
Definition numbers (l : list (remote * string)) : list string := map zs (omap (fun rr => py_int (id_of rr.2)) l).
Lemma osd_number_spec D {B} role (k : Z -> M mgr B) Q :
  (forall n, py_int (id_of role) = Some n -> scene "osd" D (k n) Q) -> scene "osd" D (n <- osd_number role ;; k n) Q.
Proof.
  intros H s w Hs Hd. unfold osd_number. apply wp_bind, wp_of_option; [|done]. intros n Hn. unfold then_. by apply H.
Qed.
Lemma collect_all D first ms l : scene "osd" D (fold_ (collect_maps first) l ms) (fun _ D' => D' = list_to_set (numbers l) ∪ D).
Proof.
  revert D ms; induction l as [|rr l IH]; intros D ms; simpl; [apply scene_ret; set_solver|].
  unfold collect_maps at 1. apply scene_assoc, scene_calm; [by calm_tac|intros ?]. apply scene_assoc, scene_get. intros s.
  apply scene_assoc, osd_number_spec. intros n Hn. cbv zeta. do 3 (apply scene_assoc, scene_calm; [by calm_tac|intros ?]).
  apply scene_assoc. eapply scene_then; [apply tool_stops_osd|intros ?]. do 3 (apply scene_assoc, scene_calm; [by calm_tac|intros ?]).
  apply scene_calm; [by calm_tac|intros ?]. eapply scene_conseq; [apply IH|]. cbn. intros _ D' ->. unfold numbers. cbn. rewrite Hn. cbn. set_solver.
Qed.
Lemma revive_all D l : scene "osd" D (for_ l (fun rr => n <- osd_number rr.2 ;; revive_osd n 150 false)) (fun _ D' => D' = D ∖ list_to_set (numbers l)).
Proof.
  revert D; induction l as [|rr l IH]; intros D; simpl; [apply scene_ret; set_solver|].
  apply scene_assoc, osd_number_spec. intros n Hn. eapply scene_then; [apply scene_revive|intros ?]. eapply scene_conseq; [apply IH|].
  cbn. intros _ D' ->. unfold numbers. cbn. rewrite Hn. cbn. set_solver.
Qed.
(** Nothing the rest of the script does touches a daemon of the other kind. *)
Lemma calm_kill_mon m : Runs false (calm "osd") (kill_mon m).
Proof. calm_tac. Qed.
Lemma calm_revive_mon m : Runs false (calm "osd") (revive_mon m).
Proof. calm_tac. Qed.
Lemma calm_kill_osd i : Runs false (calm "mon") (kill_osd i).
Proof. calm_tac. Qed.
Lemma calm_revive_osd i t b : Runs false (calm "mon") (revive_osd i t b).
Proof. calm_tac. Qed.
Definition calm_tool_rel : relation (ost * world) :=
  fun p q => (plain_kills (ot_manager p.1) -> plain_kills (ot_manager q.1)) /\ emits (idle "mon") p q.
#[local] Instance calm_tool_world : WorldRel calm_tool_rel.
Proof.
  split; [split|].
  - intros p. by split.
  - intros p1 p2 p3 [] []. split; [tauto|by etrans].
  - intros s w. split; [done|]. apply draw_ok.
Qed.
Lemma calm_tool_emit ev : idle "mon" ev -> EmitOk calm_tool_rel ev.
Proof. intros H s w. split; [done|]. by apply emits_emit. Qed.
Lemma calm_oman {A} (m : M mgr A) : Runs false (calm "mon") m -> Runs false calm_tool_rel (oman m).
Proof. intros H. apply runs_zoom with (R' := calm "mon"); [|done]. intros t m' w w' [Hp He]. split; [by intros ?; apply Hp|exact He]. Qed.
Lemma calm_tool options args n : Runs false (calm "mon") (objectstore_tool EmptyString options args (OsdText n) None false).
Proof.
  unfold objectstore_tool. apply runs_bind; [exact _|calm_tac|]. intros t.
  apply runs_zoom with (R' := calm_tool_rel); [intros s t' w w' [Hp He]; split; [by intros ?; apply Hp|exact He]|].
  pose proof (calm_oman _ (calm_kill_osd (ot_osd t))). unfold run_tool.
  repeat (runs_step || (apply calm_tool_emit; by intros ?) || (apply calm_oman; (apply calm_kill_osd || apply calm_revive_osd))).
Qed.
Hint Resolve calm_tool calm_kill_mon calm_revive_mon calm_kill_osd calm_revive_osd : runs.
Lemma calm_stop_mon first rr : Runs false (calm "osd") (stop_mon first rr).
Proof. calm_tac. Qed.
Lemma calm_start_mon first kp rr : Runs false (calm "osd") (start_mon first kp rr).
Proof. calm_tac. Qed.
Lemma calm_collect first ms rr : Runs false (calm "mon") (collect_maps first ms rr).
Proof. calm_tac. Qed.
Lemma calm_install role mon first ms kp : Runs false (calm role) (install_store mon first ms kp).
Proof. calm_tac. Qed.
Lemma calm_new_manager role config : Runs false (calm role) (new_manager get_first_mon config).
Proof. calm_tac. Qed.
Hint Resolve calm_stop_mon calm_start_mon calm_collect calm_install calm_new_manager : runs.

Lemma rebuild_mons_up config : scene "mon" ∅ (rebuild_mondb_task get_first_mon config) (fun _ D' => D' = ∅).
Proof.
  unfold rebuild_mondb_task. do 2 (apply scene_calm; [by calm_tac|intros ?]). apply scene_get. intros s. cbv zeta.
  eapply scene_then; [apply stop_mons|intros first]. do 4 (apply scene_calm; [by calm_tac|intros ?]).
  eapply scene_then; [apply start_mons|intros ?]. do 1 (apply scene_calm; [by calm_tac|intros ?]). apply scene_last, scene_calm; [by calm_tac|intros ?].
  apply scene_ret. set_solver.
Qed.
Lemma rebuild_osds_up config : scene "osd" ∅ (rebuild_mondb_task get_first_mon config) (fun _ D' => D' = ∅).
Proof.
  unfold rebuild_mondb_task. do 2 (apply scene_calm; [by calm_tac|intros ?]). apply scene_get. intros s. cbv zeta.
  do 2 (apply scene_calm; [by calm_tac|intros ?]). eapply scene_then; [apply collect_all|intros ?]. do 4 (apply scene_calm; [by calm_tac|intros ?]).
  eapply scene_conseq; [apply revive_all|]. set_solver.
Qed.
(** C16: A rebuild of the monitors' store that returns has started every monitor and every OSD again that it stopped, for
    every answer of the cluster: all monitors were stopped first, and every OSD by the object store tool, which was
    told not to start it.  (Nothing was stopped before, and OSDs are stopped as daemons: no power cycling, no injected
    crash.) *)
Theorem rebuild_mondb_restarts (config : pyval) (s : mgr) (w : world) :
  plain_kills s -> down "mon" (w_trace w) = ∅ -> down "osd" (w_trace w) = ∅ ->
  wp (rebuild_mondb_task get_first_mon config)
    (fun o _ w' => is_ret o -> down "mon" (w_trace w') = ∅ /\ down "osd" (w_trace w') = ∅) s w.
Proof.
  intros Hs Hm Ho. eapply wp_conseq; [apply wp_and; [by apply rebuild_mons_up|by apply rebuild_osds_up]|].
  intros [u|e|] s' w' [H1 H2] Hr; [|done..]. by split; [apply (H1 u)|apply (H2 u)].
Qed.
End Mondb.
