(* ===== verification/TaskFacts.v ===== *)
(** * What the workloads leave behind, and what they compute

    Pools and snapshots that the tasks of Workloads.v create, the pools manypools.py makes,
    the retries of admin_socket.py, names of long objects, latency summaries. *)
From Stdlib Require Import Ascii QArith Qround Lqa.
From S2P Require Import Prelude PyVal World ZbkcManager ManagerWait Scrub Daemons Sim WaitFacts PoolFacts.
From S2P Require Import Rados OsdScenarios LostUnfound Workloads SmallTasks.

(** ** rados.py: every pool it makes is removed *)
Section RadosPools.
Context {E : Env} {F : Fuel}.
Implicit Types p : gmap string Z.

Lemma hoare_create_unique p ec ms h :
  hoare (fun s => pools s = p) (create_pool_with_unique_name 16 ec ms h)
    (fun name s => pools s = <[name := 16]> p /\ p !! name = None).
Proof.
  intros s w Hp. unfold create_pool_with_unique_name. wp_run.
  eapply wp_conseq; [apply create_pool_cases|]. cbn [pools set_next_pool_id]. rewrite Hp.
  intros o s1 w1 H. destruct (p !! _) eqn:Hn; [destruct H as (-> & _); by wp_run|].
  destruct o as [u|e|]; [destruct H as [-> _]|by wp_run|done]. wp_run. intros a Ha. injection Ha as <-.
  cbn [pools set_pools set_next_pool_id]. by rewrite Hp.
Qed.
Lemma hoare_remove p name :
  hoare (fun s => pools s = p) (remove_pool name) (fun _ s => pools s = delete name p).
Proof.
  intros s w Hp. unfold remove_pool. wp_run; [|done]. rewrite <- Hp.
  assert (Hk : Moves same_pools (do_rados (controller s) ["rmpool"; name; name; "--yes-i-really-really-mean-it"] true))
    by runs_tac.
  eapply wp_conseq; [apply Hk|]. intros [r|e|] s1 w1 [H1 _]; unfold then_; [|done..]. wp_run. by intros _ _.
Qed.
Abbreviation keeps_pools m := (Moves same_pools m).
Lemma hoare_pools p {A} (m : M mgr A) : keeps_pools m -> hoare (fun s => pools s = p) m (fun _ s => pools s = p).
Proof. intros Hm. eapply hoare_moves; [exact Hm|]. unfold same_pools. congruence. Qed.
Lemma hoare_pools_bind p {A B} (m : M mgr A) (k : A -> M mgr B) Q :
  keeps_pools m -> (forall a, hoare (fun s => pools s = p) (k a) Q) -> hoare (fun s => pools s = p) (bind m k) Q.
Proof. intros Hm Hk. eapply hoare_bind; [by apply hoare_pools|done]. Qed.

(** What is left of the table when the created pools are taken out of it *)
Definition without (created : list string) p : gmap string Z := fold_left (fun m n => delete n m) created p.
Lemma without_insert created name n p :
  p !! name = None -> without (created ++ [name]) (<[name := n]> p) = without created p.
Proof.
  intros Hn. unfold without. rewrite fold_left_app. simpl.
  enough (H : forall q : gmap string Z, q !! name = None -> delete name (fold_left (fun m n => delete n m) created (<[name := n]> q))
    = fold_left (fun m n => delete n m) created q) by by apply H.
  induction created as [|c created IH]; intros q Hq; simpl; [by rewrite delete_insert_id|].
  destruct (decide (c = name)) as [->|Hne].
  - rewrite delete_insert_eq, (delete_id q) by done.
    clear IH. enough (H : forall q : gmap string Z, q !! name = None -> fold_left (fun m n => delete n m) created q !! name = None).
    { by apply delete_id, H. }
    induction created as [|c created IH]; intros r Hr; simpl; [done|]. apply IH. by rewrite lookup_delete_None; right.
  - rewrite delete_insert_ne by done. apply IH. by rewrite lookup_delete_ne.
Qed.

Lemma hoare_new_pool p config prof :
  hoare (fun s => pools s = p) (new_pool config prof) (fun name s => pools s = <[name := 16]> p /\ p !! name = None).
Proof.
  unfold new_pool. eapply hoare_bind; [apply hoare_create_unique|]. intros name s w [Hp Hn].
  assert (Hk : keeps_pools (when (truthy (dict_get "fast_read" (PBool false) config))
    (cmd_ ["osd"; "pool"; "set"; name; "fast_read"; "true"]))) by runs_tac.
  apply wp_bind. eapply wp_conseq; [apply (hoare_pools (<[name := 16]> p) _ Hk); exact Hp|].
  intros [u|e|] s1 w1 H; unfold then_; [|done..]. wp_run. intros a Ha. injection Ha as <-. by split; [apply (H u)|].
Qed.
Definition tracks p (created : list string) (s : mgr) : Prop := without created (pools s) = p.
Lemma hoare_client_pool p config prof existing created :
  hoare (tracks p created) (client_pool config prof existing created)
    (fun x s => tracks p x.2 s).
Proof.
  intros s w Ht. assert (Hnew : forall s w, tracks p created s ->
    wp (name <- new_pool config prof;; ret (name, existing, created ++ [name]))
      (fun o s' _ => forall x : string * list pyval * list string, o = Ret x -> tracks p x.2 s') s w).
  { clear s w Ht. intros s w Ht. apply wp_bind. eapply wp_conseq; [by apply (hoare_new_pool (pools s))|].
    intros [name|e|] s1 w1 H; unfold then_; [|done..]. destruct (H name eq_refl) as [H1 H2]. wp_run.
    intros x Hx. injection Hx as <-. unfold tracks in *. cbn [snd]. rewrite H1. by rewrite without_insert. }
  unfold client_pool. destruct (last existing) as [v|]; [|by apply Hnew].
  destruct (truthy _); [by apply Hnew|]. apply wp_bind. unfold as_str. destruct v; wp_run; try done.
  intros x Hx. by injection Hx as <-.
Qed.
Lemma hoare_tracks p created {A} (m : M mgr A) :
  keeps_pools m -> hoare (tracks p created) m (fun _ => tracks p created).
Proof. intros Hm. eapply hoare_moves; [exact Hm|]. unfold same_pools, tracks. congruence. Qed.
Lemma hoare_run_clients p config args prof roles existing created tests :
  hoare (tracks p created) (run_clients config args prof roles existing created tests)
    (fun x => tracks p x.1.2).
Proof.
  revert existing created tests. induction roles as [|v roles IH]; intros existing created tests; simpl.
  { by apply hoare_ret. }
  eapply hoare_bind; [apply (hoare_tracks p created); runs_tac|]. intros [role id].
  eapply hoare_bind; [apply hoare_client_pool|]. intros [[pool existing1] created1]. cbn [snd].
  eapply hoare_bind; [apply (hoare_tracks p created1); runs_tac|]. intros r.
  eapply hoare_bind; [apply (hoare_tracks p created1); runs_tac|]. intros h. apply IH.
Qed.
Lemma hoare_remove_all p created :
  hoare (tracks p created) (for_ created remove_pool) (fun _ s => pools s = p).
Proof.
  unfold tracks. induction created as [|c created IH]; simpl; [by apply hoare_ret|].
  intros s w Hs. apply wp_bind. eapply wp_conseq; [by apply (hoare_remove (pools s))|].
  intros [u|e|] s1 w1 H; unfold then_; [|done..]. apply IH. by rewrite (H u eq_refl).
Qed.
Lemma hoare_rados_runs p n config args prof roles existing :
  hoare (fun s => pools s = p) (rados_runs n config args prof roles existing) (fun _ s => pools s = p).
Proof.
  revert existing. induction n as [|n IH]; intros existing; simpl; [by apply hoare_ret|].
  eapply hoare_bind; [eapply hoare_conseq; [apply (hoare_run_clients p)|by unfold tracks|done]|].
  intros [[existing1 created] tests]. cbn [fst snd].
  eapply hoare_bind; [apply (hoare_tracks p created); runs_tac|]. intros u.
  eapply hoare_bind; [apply hoare_remove_all|]. intros u1. apply IH.
Qed.

(** The pools that rados.py creates for its clients are all removed again: when its
    thread returns, after any number of runs, the table of pools is what it was. *)
Theorem rados_thread_removes_pools (client_ids : context -> list string) (config : dict) (args : list string)
  (s : mgr) (w : world) :
  wp (rados_thread client_ids config args) (fun o s' _ => is_ret o -> pools s' = pools s) s w.
Proof.
  enough (H : hoare (fun s1 => pools s1 = pools s) (rados_thread client_ids config args) (fun _ s1 => pools s1 = pools s)).
  { eapply wp_conseq; [by apply H|]. intros [u|e|] s' w' H1; [|done..]. intros _. by apply (H1 u). }
  unfold rados_thread. do 5 (apply hoare_pools_bind; [by runs_tac|intros ?]). apply hoare_rados_runs.
Qed.
End RadosPools.

(** ** radosbench.py: only the last pool is removed *)

Definition bench_config : dict := [("clients", PList [PStr "client.0"; PStr "client.1"]); ("time", PInt 1)].
Definition bench_ctx : context :=
  Context_ "/home/ubuntu/zbkctest" [("host0", ["mon.a"; "client.0"]); ("host1", ["client.1"])] ∅ ∅ ∅ ∅.
(** With two clients radosbench.py makes two pools and removes one: [pool] names the
    last of them when the task ends, and the other stays. *)
Theorem radosbench_leaves_pool :
  exists w', radosbench_task (E := sim) bench_config (ret tt) (Mgr bench_ctx "host0" "zbkc" [] 0 ∅) (sim_world 0 []) =
    (Ret tt, Mgr bench_ctx "host0" "zbkc" [] 2 {[ "unique_pool_0" := 16 ]}, w').
Proof. eexists. vm_compute. reflexivity. Qed.

(** ** thrash_pool_snaps.py: the list of snapshots is what exists *)
Section Snaps.
Context {E : Env} {F : Fuel}.

(** A command that makes ([true]) or removes ([false]) a snapshot of a pool *)
Definition snap_cmd (ev : event) : option (bool * string * string) :=
  match ev with
  | EvRun _ args =>
      match drop 9 args with
      | ["osd"; "pool"; "mksnap"; p; x] => Some (true, p, x)
      | ["osd"; "pool"; "rmsnap"; p; x] => Some (false, p, x)
      | _ => None
      end
  | _ => None
  end.
(** The snapshots of [pool] after a sequence of events *)
Definition snap_step (pool : string) (d : gset string) (ev : event) : gset string :=
  match snap_cmd ev with
  | Some (true, p, x) => if String.eqb p pool then {[x]} ∪ d else d
  | Some (false, p, x) => if String.eqb p pool then d ∖ {[x]} else d
  | None => d
  end.
Definition snaps_on (pool : string) (evs : list event) : gset string := fold_left (snap_step pool) evs ∅.
Lemma snaps_on_snoc pool evs ev : snaps_on pool (evs ++ [ev]) = snap_step pool (snaps_on pool evs) ev.
Proof. unfold snaps_on. by rewrite fold_left_app. Qed.

(** Making or removing [x], on the set of a pool *)
Definition upd (add : bool) (x : string) (d : gset string) : gset string := if add then {[x]} ∪ d else d ∖ {[x]}.
Definition snap_pool (add : bool) (pool x : string) : M mgr unit :=
  if add then add_pool_snap pool x else remove_pool_snap pool x.
Lemma snap_pool_step add pool x pool0 s w (Q : post mgr unit) :
  (forall w', snaps_on pool0 (w_trace w') =
     (if String.eqb pool pool0 then upd add x (snaps_on pool0 (w_trace w)) else snaps_on pool0 (w_trace w)) ->
     Q (Ret tt) s w') ->
  (forall e w', Q (Exc e) s w') -> wp (snap_pool add pool x) Q s w.
Proof.
  intros Hr He. unfold snap_pool, add_pool_snap, remove_pool_snap, upd in *. destruct add;
    apply wp_cmd_unit; try done; intros w' Hw; apply Hr; rewrite Hw, snaps_on_snoc; unfold snap_step, snap_cmd, cluster_cmd; by simpl.
Qed.
(** The loop over the pools treats each of them. *)
Lemma snap_pools_loop add x pools pool0 s w (d : gset string) :
  pool0 ∈ pools -> snaps_on pool0 (w_trace w) = d ->
  wp (for_ pools (fun pool => snap_pool add pool x))
    (fun o _ w' => is_ret o -> snaps_on pool0 (w_trace w') = upd add x d) s w.
Proof.
  intros Hin Hd.
  apply wp_for_rest with (I := fun rest _ w1 =>
    snaps_on pool0 (w_trace w1) = upd add x d \/ (snaps_on pool0 (w_trace w1) = d /\ pool0 ∈ rest)); [| |by right].
  - intros p rest s1 w1 HI. apply (snap_pool_step _ _ _ pool0); [|intros e w2; unfold then_; by intros []]. intros w2 Hw. unfold then_. rewrite Hw.
    destruct (String.eqb_spec p pool0) as [->|Hne].
    + left. destruct HI as [->|[-> _]]; [|done]. unfold upd. destruct add; set_solver.
    + destruct HI as [?|[? ?]]; [by left|right]. set_solver.
  - intros s1 w1 [HI|[_ HI]]; [done|by apply elem_of_nil in HI].
Qed.

Definition snap_bound (max_snaps min_snaps : Z) : Z := Z.max 0 (Z.max (min_snaps + 1) max_snaps).
Record snaps_inv (pools : list string) (bound : Z) (index : Z) (snaps : list Z) (w : world) : Prop := SnapsInv
  { si_index : 0 <= index; si_range : forall x, x ∈ snaps -> 1 <= x <= index; si_nodup : NoDup snaps;
    si_bound : Z.of_nat (length snaps) <= bound;
    si_exist : forall pool, pool ∈ pools -> snaps_on pool (w_trace w) = list_to_set (map zs snaps) }.

Lemma zs_elem x l : zs x ∈ map zs l -> x ∈ l.
Proof. intros (y & Hy & Hin)%list_elem_of_fmap. by apply (inj pretty) in Hy as ->. Qed.
Lemma add_snap_inv pools bound index snaps s w :
  snaps_inv pools bound index snaps w -> Z.of_nat (length snaps) < bound ->
  wp (add_snap pools snaps (index + 1)) (fun o _ w' =>
    forall snaps', o = Ret snaps' -> snaps_inv pools bound (index + 1) snaps' w') s w.
Proof.
  intros [Hi Hr Hn Hb He] Hlt. unfold add_snap. apply wp_bind.
  eapply wp_conseq.
  { apply wp_with_eq. instantiate (1 := fun _ _ _ => True). unfold wp. by destruct (for_ _ _ _ _) as [[]]. }
  intros [u|e|] s1 w1 [Heq _]; unfold then_; [|done..]. wp_run. intros snaps' Hs. injection Hs as <-.
  constructor; [lia| | | |].
  - intros x [Hx|Hx%list_elem_of_singleton]%elem_of_app; [apply Hr in Hx; lia|lia].
  - apply NoDup_app. split_ands; [done| |by apply NoDup_singleton].
    intros x Hx Hx1%list_elem_of_singleton. apply Hr in Hx. lia.
  - rewrite length_app. simpl. lia.
  - intros pool Hp. pose proof (snap_pools_loop true (zs (index + 1)) pools pool s w _ Hp (He pool Hp)) as Hl.
    unfold wp in Hl. unfold snap_pool in Hl. rewrite Heq in Hl. rewrite (Hl I). unfold upd.
    rewrite map_app, list_to_set_app_L. simpl. set_solver.
Qed.
Lemma remove_snap_inv pools bound index snaps s w :
  snaps_inv pools bound index snaps w ->
  wp (remove_snap pools snaps) (fun o _ w' =>
    forall snaps', o = Ret snaps' -> snaps_inv pools bound (index + 1) snaps' w') s w.
Proof.
  intros [Hi Hr Hn Hb He]. unfold remove_snap. apply wp_bind. unfold assert_. case_match; [|done].
  wp_run. unfold choice. apply wp_bind, wp_random. unfold then_. apply wp_of_option; [|done].
  intros x Hx%list_elem_of_lookup_2. set (w0 := World _ _ _).
  apply wp_bind. eapply wp_conseq.
  { apply wp_with_eq. instantiate (1 := fun _ _ _ => True). unfold wp. by destruct (for_ _ _ _ _) as [[]]. }
  intros [u|e|] s1 w1 [Heq _]; unfold then_; [|done..]. unfold py_remove_first.
  apply wp_of_option; [|done]. intros l Hl%py_remove_perm snaps' Hs. injection Hs as <-.
  assert (Hxl : x ∉ l). { rewrite Hl in Hn. by apply NoDup_cons in Hn as [? _]. }
  constructor; [lia| | | |].
  - intros y Hy. assert (Hy' : y ∈ snaps) by (rewrite Hl; set_solver). apply Hr in Hy'. lia.
  - rewrite Hl in Hn. by apply NoDup_cons in Hn as [_ ?].
  - apply Permutation_length in Hl. simpl in Hl. lia.
  - intros pool Hp.
    pose proof (snap_pools_loop false (zs x) pools pool s w0 _ Hp (He pool Hp)) as Hlo.
    unfold wp, snap_pool in Hlo. rewrite Heq in Hlo. rewrite (Hlo I). unfold upd.
    assert (Hset : (list_to_set (map zs snaps) : gset string) = {[zs x]} ∪ list_to_set (map zs l)).
    { apply set_eq. intros y. rewrite elem_of_list_to_set, elem_of_union, elem_of_singleton, elem_of_list_to_set.
      rewrite (Permutation_map zs Hl). simpl. by rewrite elem_of_cons. }
    rewrite Hset. assert (zs x ∉ (list_to_set (map zs l) : gset string)); [|set_solver].
    rewrite elem_of_list_to_set. by intros ?%zs_elem.
Qed.
Lemma py_le_ints (a b : Z) : py_le (PInt a) (PInt b) = (a <=? b).
Proof.
  unfold py_le. simpl. unfold Qcompare, inject_Z. simpl. rewrite !Z.mul_1_r.
  destruct (Z.compare_spec a b); symmetry; first [apply Z.leb_le; lia|apply Z.leb_gt; lia].
Qed.
Lemma snap_round_inv pools max_snaps min_snaps period index snaps s w :
  snaps_inv pools (snap_bound max_snaps min_snaps) index snaps w ->
  wp (snap_round pools (PInt max_snaps) (PInt min_snaps) period (index, snaps)) (fun o _ w' =>
    forall l, o = Ret l -> snaps_inv pools (snap_bound max_snaps min_snaps) l.1 l.2 w') s w.
Proof.
  intros Hinv. unfold snap_round. apply wp_bind, wp_sleep. intros r c _ w1 -> _.
  destruct (raised r); [done|]. unfold then_.
  assert (Hinv1 : snaps_inv pools (snap_bound max_snaps min_snaps) index snaps (after (EvSleep period) c w)).
  { destruct Hinv as [Hi Hr Hn Hb He]. constructor; try done. intros pool Hp. cbn [after w_trace].
    rewrite snaps_on_snoc. by apply He. }
  rewrite !py_le_ints. clear Hinv. set (w1 := after _ _ _) in *. clearbody w1.
  assert (Hend : forall (m : M mgr (list Z)) s w, wp m (fun o _ w' => forall snaps', o = Ret snaps' ->
      snaps_inv pools (snap_bound max_snaps min_snaps) (index + 1) snaps' w') s w ->
    wp (snaps <- m ;; ret (index + 1, snaps)) (fun o _ w' => forall l, o = Ret l ->
      snaps_inv pools (snap_bound max_snaps min_snaps) l.1 l.2 w') s w).
  { intros m s0 w0 Hm. apply wp_bind. eapply wp_conseq; [exact Hm|]. intros [x|e|] s2 w2 H; unfold then_; [|done..].
    wp_run. intros l Hl. injection Hl as <-. by apply H. }
  apply Hend. destruct (Z.leb_spec (Z.of_nat (length snaps)) min_snaps).
  { apply add_snap_inv; [done|]. unfold snap_bound. lia. }
  destruct (Z.leb_spec max_snaps (Z.of_nat (length snaps))); [by apply remove_snap_inv|].
  apply wp_bind. unfold choice. apply wp_bind, wp_random. unfold then_. set (w2 := World _ _ _).
  assert (Hinv2 : snaps_inv pools (snap_bound max_snaps min_snaps) index snaps w2) by by destruct Hinv1.
  apply wp_of_option; [|done]. intros [|] _; [|by apply remove_snap_inv].
  apply add_snap_inv; [done|]. unfold snap_bound. lia.
Qed.

(** Thrash_pool_snaps.py keeps track of the snapshots it made: after any number of
    rounds its list has no repetition, never more than [max(min_snaps + 1, max_snaps)]
    entries, and names exactly the snapshots that exist on every listed pool. *)
Theorem snaps_are_tracked (pools : list string) (max_snaps min_snaps : Z) (period : Q) (s : mgr) (w : world) :
  (forall pool, pool ∈ pools -> snaps_on pool (w_trace w) = ∅) ->
  wp (while fuel (fun _ => b <- stopping ;; ret (negb b))
        (snap_round pools (PInt max_snaps) (PInt min_snaps) period) (0, []))
    (fun o _ w' => forall index snaps, o = Ret (index, snaps) ->
       NoDup snaps /\ Z.of_nat (length snaps) <= Z.max 0 (Z.max (min_snaps + 1) max_snaps) /\
       forall pool, pool ∈ pools -> snaps_on pool (w_trace w') = list_to_set (map zs snaps)) s w.
Proof.
  intros He. apply wp_while with (I := fun l _ w1 => snaps_inv pools (snap_bound max_snaps min_snaps) l.1 l.2 w1).
  - intros l s1 w1 Hinv. unfold stopping, ask. apply wp_bind, wp_bind, wp_emit. intros r c _.
    destruct (raised r); [unfold then_; done|]. unfold then_. wp_run. set (w2 := World _ _ _).
    assert (Hinv2 : snaps_inv pools (snap_bound max_snaps min_snaps) l.1 l.2 w2).
    { destruct Hinv as [Hi Hr Hn Hb Hx]. constructor; try done. intros pool Hp. unfold w2; cbn [w_trace].
      rewrite snaps_on_snoc. by apply Hx. }
    destruct (negb _).
    + destruct l as [index snaps]. eapply wp_conseq; [by apply snap_round_inv|].
      intros [l|e|] s3 w3 H; unfold then_; [by apply H|done..].
    + intros index snaps Hl. injection Hl as ->. by destruct Hinv2.
  - done.
  - constructor; [done|set_solver|constructor|unfold snap_bound; simpl; lia|]. intros pool Hp. by rewrite He.
Qed.
End Snaps.

(** ** manypools.py: every pool is created once *)
Section ManyPoolsFacts.
Context {E : Env} {F : Fuel} (client_ids : context -> list string).

Definition pool_started (ev : event) : option string :=
  match ev with
  | EvProc PStart _ _ ("rados" :: "--name" :: _ :: "mkpool" :: name :: _) => Some name
  | _ => None
  end.
(** The pools whose creation was started, in order *)
Definition started (evs : list event) : list string := omap pool_started evs.
(** [pool<hi>], [pool<hi - 1>], ..., down to [pool<lo + 1>] *)
Definition pool_names (lo hi : Z) : list string :=
  map (fun i => "pool" +:+ zs (hi - Z.of_nat i)) (seq 0 (Z.to_nat (hi - lo))).
Lemma pool_names_snoc lo hi : lo < hi -> pool_names lo hi = pool_names (lo + 1) hi ++ ["pool" +:+ zs (lo + 1)].
Proof.
  intros H. unfold pool_names. replace (Z.to_nat (hi - lo)) with (S (Z.to_nat (hi - (lo + 1)))) by lia.
  rewrite seq_S, map_app. simpl. do 4 f_equal. lia.
Qed.
Lemma pool_names_nil lo hi : hi <= lo -> pool_names lo hi = [].
Proof. intros H. unfold pool_names. by replace (Z.to_nat (hi - lo)) with 0%nat by lia. Qed.

Lemma wp_start_proc {S} r args (Q : post S proc) s w :
  (forall h c, Q (Ret h) s (after (EvProc PStart (length (w_trace w)) r args) c w)) ->
  (forall e c, Q (Exc e) s (after (EvProc PStart (length (w_trace w)) r args) c w)) ->
  wp (start r args) Q s w.
Proof.
  intros Hr He. unfold wp, start, bind, emit. cbn [pid].
  destruct (respond _ (w_env w)) as [p c]. destruct (raised p); [apply He|apply Hr].
Qed.
Lemma started_snoc evs ev : started (evs ++ [ev]) = started evs ++ option_list (pool_started ev).
Proof. unfold started. rewrite omap_app. simpl. by destruct (pool_started ev). Qed.
Lemma started_quiet (p q : mgr * world) :
  emits (fun ev => pool_started ev = None) p q -> started (w_trace q.2) = started (w_trace p.2).
Proof.
  intros (evs & -> & Hf). unfold started. rewrite omap_app.
  enough (omap pool_started evs = []) as -> by by rewrite app_nil_r.
  induction Hf as [|ev evs H Hf IH]; simpl; [done|]. by rewrite H.
Qed.

Lemma wp_map_length {S A B} (f : A -> M S B) l s w :
  wp (map_ f l) (fun o _ _ => forall ys, o = Ret ys -> length ys = length l) s w.
Proof.
  revert s w; induction l as [|x l IH]; intros s w; simpl; [apply wp_ret; by intros ys [= <-]|].
  apply wp_bind_any; [|done..]. intros y s1 w1. apply wp_bind. eapply wp_conseq; [apply IH|].
  intros [ys|e|] s2 w2 H; unfold then_; [|done..]. wp_run. intros zs Hz. injection Hz as <-. simpl. by rewrite (H ys).
Qed.
(** What one pass over the clients creates, and what remains *)
Lemma create_round_spec creators top r procs s w (st : list string) :
  r <= top -> started (w_trace w) = st ++ pool_names (Z.max 0 r) top ->
  wp (create_round creators r procs) (fun o s' w' => o <> Stuck /\ forall x, o = Ret x ->
    x.1 = r - Z.of_nat (length creators) /\ started (w_trace w') = st ++ pool_names (Z.max 0 x.1) top) s w.
Proof.
  revert r procs s w. induction creators as [|[m role] creators IH]; intros r procs s w Hr Hst; cbn [create_round].
  { wp_run. split; [done|]. intros x Hx. injection Hx as <-. cbn [fst length]. split; [lia|done]. }
  assert (Hgo : forall procs w1, started (w_trace w1) = st ++ pool_names (Z.max 0 (r - 1)) top ->
    wp (create_round creators (r - 1) procs) (fun o s' w' => o <> Stuck /\ forall x, o = Ret x ->
      x.1 = r - Z.of_nat (length ((m, role) :: creators)) /\
      started (w_trace w') = st ++ pool_names (Z.max 0 x.1) top) s w1).
  { intros procs1 w1 Hw1. eapply wp_conseq; [apply IH; [lia|exact Hw1]|]. intros o s' w' [Ho H]. split; [done|].
    intros x Hx. destruct (H x Hx) as [-> ->]. cbn [length]. split; [lia|done]. }
  cbv zeta. destruct (Z.ltb_spec (r - 1) 0).
  { apply Hgo. rewrite Hst. by replace (Z.max 0 (r - 1)) with (Z.max 0 r) by lia. }
  apply wp_bind. unfold mkpool. apply wp_start_proc; [intros h c; unfold then_|intros e c; unfold then_; split; [done|by intros]].
  apply Hgo. cbn [after w_trace]. rewrite started_snoc, Hst. cbn [pool_started option_list].
  rewrite (Z.max_r 0 r), (Z.max_r 0 (r - 1)) by lia. rewrite (pool_names_snoc (r - 1) top) by lia.
  replace (r - 1 + 1) with r by lia. by rewrite (assoc_L (++)).
Qed.

(** Given the number [n], manypools.py ends, with [n] rounds at most, when there is a
    client, and when it returns it has created exactly the pools [pool<n>] down to
    [pool1], each of them once and in this order. *)
Theorem manypools_creates_each (n : Z) (s : mgr) (w : world) :
  0 <= n -> client_ids (ctx s) <> [] -> started (w_trace w) = [] -> (Z.to_nat n < fuel)%nat ->
  wp (manypools_task client_ids (PInt n)) (fun o _ w' => o <> Stuck /\
    (is_ret o -> started (w_trace w') =
       map (fun i => "pool" +:+ zs (n - Z.of_nat i)) (seq 0 (Z.to_nat n)))) s w.
Proof.
  intros Hn Hc Hst Hf. unfold manypools_task. apply wp_bind. apply wp_ret. unfold then_. apply wp_bind, wp_get. unfold then_.
  apply wp_bind.
  assert (Hq : Runs true (emits (S := mgr) (fun ev => pool_started ev = None)) (map_ (fun id =>
    let role := "client." +:+ id in r <- only_remote role ;; ret (r, role)) (client_ids (ctx s)))) by (cbv zeta; runs_tac).
  eapply wp_conseq; [apply wp_and; [apply Hq|apply wp_map_length]|].
  intros [creators|e|] s1 w1 [[He Hs] Hl]; unfold then_; [|by split|by destruct (Hs eq_refl)].
  specialize (Hl creators eq_refl). apply started_quiet in He. cbn in He. rewrite Hst in He.
  assert (Hcl : (0 < length creators)%nat) by (destruct (client_ids (ctx s)); simpl in *; [done|lia]). clear Hl Hq Hs Hc Hst.
  apply wp_bind. apply wp_while_total with
    (v := fun l _ _ => Z.to_nat l.1)
    (I := fun l _ w1 => l.1 <= n /\ started (w_trace w1) = [] ++ pool_names (Z.max 0 l.1) n); [|cbn [fst]|simpl; lia].
  - intros [r procs] s2 w2 [Hr Hw2]. cbn [fst] in *. apply wp_ret. unfold then_. destruct (Z.ltb_spec 0 r).
    2: { wp_run. split; [done|]. intros _. rewrite Hw2. unfold pool_names. simpl. rewrite Z.max_l by lia.
         by rewrite Z.sub_0_r. }
    apply wp_bind. eapply wp_conseq; [by apply create_round_spec|].
    intros [[r1 procs1]|e|] s3 w3 [Ho H3]; unfold then_; [|by split|done].
    destruct (H3 _ eq_refl) as [H4 H5]. cbn [fst] in *. apply wp_bind.
    assert (Hq : Runs true (emits (S := mgr) (fun ev => pool_started ev = None))
      (for_ procs1 (fun t => wait_proc t.2 true ;; ret tt))) by (runs_tac; by apply emits_emit).
    eapply wp_conseq; [apply Hq|]. intros [u|e|] s4 w4 [He4 Hs4]; unfold then_; [|by split|by destruct (Hs4 eq_refl)].
    apply started_quiet in He4. cbn in He4. wp_run. cbn [fst]. rewrite He4, H5. split_ands; [lia|done|lia].
  - split; [lia|]. rewrite He, pool_names_nil by lia. done.
Qed.
End ManyPoolsFacts.

(** ** admin_socket.py: the retries *)
Section Socket.
Context {E : Env} {F : Fuel}.

(** [_socket_command] runs the command at most 121 times and then gives up; it never
    changes the manager. *)
Theorem socket_command_bounded (r : string) (path command : string) (args : list string) (s : mgr) (w : world) :
  (121 < fuel)%nat ->
  wp (_socket_command r path command args) (fun o s' w' =>
    o <> Stuck /\ s' = s /\ (runs_made w' <= runs_made w + 121)%nat) s w.
Proof.
  intros Hf. unfold _socket_command. apply wp_bind, wp_get. unfold then_. apply wp_bind.
  apply wp_loop_total with (v := fun l _ _ => Z.to_nat l.1)
    (I := fun l s1 w1 => s1 = s /\ 0 <= l.1 <= 120 /\ (runs_made w1 + Z.to_nat l.1 <= runs_made w + 120)%nat);
    [|cbn [fst]; split_ands; [done|lia..]|cbn [fst]; lia].
  intros [k out] s1 w1 (-> & Hk & Hr). cbn [fst] in *. apply wp_bind, wp_run_args. intros p c _ w2 _ Hr2.
  destruct (raised p); [unfold then_; ands|]. rewrite andb_false_l. unfold then_.
  destruct (exitstatus p =? 0).
  { wp_run. unfold json_loads, of_option. destruct (Json.loads _); wp_run; ands. }
  destruct (Z.ltb_spec 0 k); cbn [assert_]; [|wp_run; ands]. wp_run. apply wp_sleep. intros q c1 _ w3 _ Hr3.
  destruct (raised q); wp_run; cbn [fst]; ands.
Qed.
End Socket.

(** The output of an attempt that failed stays in the buffer: a socket that answers
    well on the second attempt is reported as no JSON at all when the first one printed
    something. *)
Theorem socket_output_accumulates :
  let run script := (_socket_command (E := sim) (F := 10%nat) "host2" "/var/run/zbkc/zbkc-client.0.asok" "perf dump" []
                       sim_mgr (sim_world 0 script)).1.1 in
  let answer := "{" +:+ dqs +:+ "a" +:+ dqs +:+ ": 1}" in
  run [Reply 1 "" "" None; ok_reply answer] = Ret (PDict [("a", PInt 1)]) /\
  run [Reply 1 "not yet" "" None; ok_reply answer] = Exc (ValueError "No JSON object could be decoded").
Proof. split; vm_compute; reflexivity. Qed.

(** ** create_verify_lfn_objects.py: names *)
Section Lfn.
Context {E : Env} {F : Fuel}.

Lemma length_filler n : String.length (String.concat EmptyString (repeat "a" n)) = n.
Proof.
  induction n as [|n IH]; [done|]. cbn [repeat]. destruct n as [|n]; [done|].
  change (String.concat EmptyString ("a" :: repeat "a" (S n)))
    with ("a" +:+ (EmptyString +:+ String.concat EmptyString (repeat "a" (S n)))).
  rewrite !length_append, IH. simpl. lia.
Qed.

(** The names of create_verify_lfn_objects.py for the length [l] are shorter than [l]:
    by the number of namespaces in the configuration, not by the length of the namespace
    the object is in. *)
Theorem lfn_name_length (l i : Z) (namespace : list pyval) (prefix name : string) (s : mgr) (w : world) :
  object_name l namespace (PStr prefix) i s w = (Ret name, s, w) ->
  Z.of_nat (String.length name) = l - Z.of_nat (length namespace).
Proof.
  unfold object_name. rewrite (bind_run _ _ _ _ _ _ _ eq_refl). cbv zeta. unfold assert_.
  destruct (Z.leb_spec 0 (l - Z.of_nat (length namespace) - Z.of_nat (String.length prefix) -
    Z.of_nat (String.length (zs i)))); [|done].
  do 2 rewrite (bind_run _ _ _ _ _ _ _ eq_refl). unfold ret. intros H1. injection H1 as <-.
  rewrite !length_append, length_filler. lia.
Qed.

(** Without a [prefix] in the configuration create_verify_lfn_objects.py fails at
    once, before anything is written: its default is [None], which has no length. *)
Theorem lfn_needs_prefix {A} (pool : string) (body : M mgr A) (s : mgr) (w : world) :
  create_verify_lfn_objects_task [("pool", PStr pool)] body s w = (Exc (TypeError "object has no len()"), s, w).
Proof. reflexivity. Qed.
End Lfn.

(** ** recovery_bench.py: summaries *)
Section Bench.
Context {E : Env} {S : Type}.
Import RecoveryBencher.

Lemma insert_Q_perm x l : insert_Q x l ≡ₚ x :: l.
Proof.
  induction l as [|y l IH]; simpl; [done|]. case_match; [done|]. rewrite IH. by rewrite Permutation_swap.
Qed.
Lemma sort_Q_perm l : sort_Q l ≡ₚ l.
Proof. induction l as [|x l IH]; simpl; [done|]. by rewrite insert_Q_perm, IH. Qed.
Lemma nth_Q_in l i (s : S) w : 0 <= i < Z.of_nat (length l) -> exists x, nth_Q l i s w = (Ret x, s, w) /\ x ∈ l.
Proof.
  intros Hi. unfold nth_Q. destruct (Z.leb_spec 0 i); [|lia].
  destruct (lookup_lt_is_Some_2 l (Z.to_nat i)) as [x Hx]; [lia|]. rewrite Hx. exists x. split; [done|].
  by eapply list_elem_of_lookup_2.
Qed.
Lemma floor99 n : 0 < n -> 0 <= Qfloor (inject_Z n * (99 # 100)) < n.
Proof. intros Hn. unfold Qfloor, Qmult, inject_Z. simpl. split; [apply Z.div_pos; lia|apply Z.div_lt_upper_bound; lia]. Qed.

(** The summary of a type's latencies: with no sample it is an IndexError, otherwise
    the 99% value is one of the samples and the median lies between two of them. *)
Theorem summary_spec (samples : list Q) (s : S) (w : world) :
  match samples with
  | [] => summary samples s w = (Exc IndexError, s, w)
  | _ => exists median p99 lo hi, summary samples s w = (Ret (median, p99), s, w) /\
           p99 ∈ samples /\ lo ∈ samples /\ hi ∈ samples /\
           ((lo <= median)%Q /\ (median <= hi)%Q \/ (hi <= median)%Q /\ (median <= lo)%Q)
  end.
Proof.
  destruct samples as [|x l]; [reflexivity|]. set (samples := x :: l). unfold summary.
  pose proof (sort_Q_perm samples) as Hp. pose proof (Permutation_length Hp) as Hl. set (t := sort_Q samples) in *.
  assert (Hin : forall y, y ∈ t -> y ∈ samples) by (intros y; by rewrite Hp).
  assert (Hn : 0 < Z.of_nat (length t)) by (rewrite Hl; simpl; lia).
  destruct (nth_Q_in t (Qfloor (inject_Z (Z.of_nat (length t)) * (99 # 100))) s w) as (p & Hp99 & Hpin);
    [by apply floor99|].
  destruct (Z.odd (Z.of_nat (length t))) eqn:Ho.
  - destruct (nth_Q_in t (Z.of_nat (length t) / 2) s w) as (m & Hm & Hmin);
      [split; [apply Z.div_pos; lia|apply Z.div_lt; lia]|].
    rewrite (bind_run _ _ _ _ _ _ _ Hm), (bind_run _ _ _ _ _ _ _ Hp99).
    exists m, p, m, m. split_ands; [done|by apply Hin..|]. left. split; apply Qle_refl.
  - assert (2 <= Z.of_nat (length t)). { destruct (length t) as [|[|k]]; [done|done|lia]. }
    destruct (nth_Q_in t (Z.of_nat (length t) / 2) s w) as (a & Ha & Hain);
      [split; [apply Z.div_pos; lia|apply Z.div_lt; lia]|].
    destruct (nth_Q_in t (Z.of_nat (length t) / 2 - 1) s w) as (b & Hb & Hbin);
      [split; [|pose proof (Z.div_lt (Z.of_nat (length t)) 2); lia];
       pose proof (Z.div_le_lower_bound (Z.of_nat (length t)) 2 1); lia|].
    erewrite bind_run; [|rewrite (bind_run _ _ _ _ _ _ _ Ha), (bind_run _ _ _ _ _ _ _ Hb); reflexivity].
    rewrite (bind_run _ _ _ _ _ _ _ Hp99). exists ((a + b) / 2)%Q, p, a, b. split_ands; [done|by apply Hin..|].
    unfold Qdiv. change (/ 2)%Q with (1 # 2)%Q. destruct (Qlt_le_dec a b); [left|right]; split; lra.
Qed.

(** A single line of output that names its type and no latency makes
    [process_samples] fail, although every exception of reading a line is caught. *)
Theorem sample_without_latency (s : S) (w : world) :
  process_samples ("{" +:+ dqs +:+ "type" +:+ dqs +:+ ": " +:+ dqs +:+ "write" +:+ dqs +:+ "}") s w =
  (Exc IndexError, s, w).
Proof. vm_compute. reflexivity. Qed.
End Bench.
