(* ===== verification/BenchTasks.v ===== *)
(** * Benchmarks and wrappers around other programs

    tasks/radosbenchsweep.py, multibench.py, rbd_fio.py, rbd_mirror.py, autotest.py and aver.py.
    They run on [ctx.manager], the state of the monad, which has the job's [ctx].  Files on the
    machine that runs the job are written by calls.  What teuthology provides
    ([num_instances_of_type], [get_first_mon], [get_system_type], [get_valgrind_args],
    [replace_all_with_clients], a machine's [shortname]) and [ctx.archive] are arguments. *)
From Stdlib Require Import Ascii QArith Qround Lqa.
From S2P Require Import Prelude PyVal World ZbkcManager ManagerWait Conf ClientMount Workunit Rados OsdScenarios Workloads.

(** ** Text *)

(** What is left of the line, and of the text after the first occurrence of [pat] with it *)
Fixpoint to_line_end (s : string) : string :=
  match s with
  | EmptyString => EmptyString
  | String a s' => if Ascii.eqb a nl then EmptyString else String a (to_line_end s')
  end.
(** [re.search(pat + '.*', s).group(0)] for a [pat] that stands for itself *)
Fixpoint search_line (pat s : string) : option string :=
  if startswith pat s then Some (to_line_end s)
  else match s with EmptyString => None | String _ s' => search_line pat s' end.
(** [re.sub(pat, '', s)], likewise *)
Fixpoint remove_from (pat : string) (skip : nat) (s : string) : string :=
  match s with
  | EmptyString => EmptyString
  | String a s' =>
      match skip with
      | Datatypes.S k => remove_from pat k s'
      | O => if startswith pat s then remove_from pat (pred (String.length pat)) s' else String a (remove_from pat 0 s')
      end
  end.
Definition remove_all (pat s : string) : string := remove_from pat 0 s.
(** The digits at the start of a text *)
Fixpoint digits (s : string) : string :=
  match s with
  | String a s' => match digit_of a with Some _ => String a (digits s') | None => EmptyString end
  | EmptyString => EmptyString
  end.
(** [re.search(r'(/dev/rbd\d+)', s).group(1)] *)
Fixpoint search_dev (s : string) : option string :=
  match (if startswith "/dev/rbd" s then digits (str_from 8 s) else EmptyString) with
  | EmptyString => match s with EmptyString => None | String _ s' => search_dev s' end
  | d => Some ("/dev/rbd" +:+ d)
  end.

Section Bench.
Context {E : Env} {F : Fuel}.
Context (get_first_mon : context -> dict -> string)
        (num_instances_of_type : context -> string -> Z)
        (replace_all_with_clients : context -> dict -> dict)
        (get_system_type shortname : remote -> string)
        (get_valgrind_args : string -> string -> list string -> pyval -> list string)
        (archive : string).
Abbreviation MM A := (M mgr A).

(** What a loop over [v] goes through *)
Definition py_iter (v : pyval) : MM (list pyval) :=
  match v with
  | PList l => ret l
  | PStr s => ret (map (fun a => PStr (String a EmptyString)) (String.list_ascii_of_string s))
  | PDict d => ret (map (fun kv => PStr kv.1) d)
  | _ => raise (TypeError "object is not iterable")
  end.

(** ** radosbenchsweep.py *)

Definition all_columns : list string :=
  ["rep"; "num_osd"; "num_replica"; "avg_throughput"; "avg_latency"; "stdev_throughput"; "stdev_latency"].
(** The columns [conf['columns']] has afterwards; the header is their names *)
Definition get_csv_header (conf : dict) : MM (list string) :=
  let given := dict_get "columns" PNone conf in
  if truthy given then
    len_ given ;;
    cols <- py_iter given ;;
    map_ (fun column =>
      match column with
      | PStr c => if bool_decide (c ∈ all_columns) then ret c else raise (PyException ("Unknown column " +:+ c))
      | _ => raise (TypeError "cannot concatenate 'str' and other objects")
      end) cols
  else ret all_columns.

Definition wait_until_healthy (config : dict) : MM unit :=
  s <- get ;;
  mon <- only_remote (get_first_mon (ctx s) config) ;;
  call "wait_until_healthy" [mon] ;; ret tt.

(** The value of a line of the summary *)
Definition summary (label out : string) : MM string :=
  line <- of_option (AttributeError "'NoneType' object has no attribute 'group'") (search_line (label +:+ ":") out) ;;
  ret (remove_all (label +:+ ": ") line).
Definition all_values (out : string) (num_osds replica rep : Z) : MM (list (string * string)) :=
  a <- summary "Stddev Bandwidth" out ;;
  b <- summary "Stddev Latency" out ;;
  c <- summary "Bandwidth (MB/sec)" out ;;
  d <- summary "Average Latency" out ;;
  ret [("stdev_throughput", a); ("stdev_latency", b); ("avg_throughput", c); ("avg_latency", d);
       ("rep", zs rep); ("num_osd", zs num_osds); ("num_replica", zs replica)].
Definition column_value (values : list (string * string)) (column : string) : MM string :=
  of_option (KeyError column) (snd <$> find (fun kv => String.eqb kv.1 column) values).

Definition bench_cmd (s : mgr) (config : dict) (role pool : string) (size : pyval) : list string :=
  ["adjust-ulimits"; "zbkc-coverage"; testdir (ctx s) +:+ "/archive/coverage"; "rados"; "--no-log-to-stderr"; "--name"; role;
   "-b"; py_str size; "-p"; pool; "bench"; py_str (dict_get "time" (PInt 120) config); "write"].
Definition sweep_client (config : dict) (columns : list string) (fname pool : string) (num_osds : Z) (size : pyval)
  (replica rep : Z) (v : pyval) : MM unit :=
  ri <- client_id v ;;
  r <- only_remote ri.1 ;;
  s <- get ;;
  p <- start r (bench_cmd s config ri.1 pool size) ;;
  out <- wait_proc p true ;;
  values <- all_values (stdout out) num_osds replica rep ;;
  row <- map_ (column_value values) columns ;;
  call "write" [fname; str_join "," row +:+ nls] ;; ret tt.
Definition run_radosbench (config : dict) (columns : list string) (fname : string) (num_osds : Z) (size : pyval)
  (replica rep : Z) : MM unit :=
  pool <- create_pool_with_unique_name 16 None None false ;;
  set_pool_property pool "size" replica ;;
  wait_until_healthy config ;;
  roles <- py_iter (dict_get "clients" (PList [PStr "client.0"]) config) ;;
  for_ roles (sweep_client config columns fname pool num_osds size replica rep) ;;
  remove_pool pool.

(** One OSD more is taken out; [osds_out] are, counted from OSD 0. *)
Definition take_out (config : dict) (osds_out : Z) : MM unit :=
  raw_cluster_cmd ["osd"; "reweight"; zs (osds_out - 1); "0.0"] ;;
  wait_until_healthy config.
Abbreviation params := (pyval * Z * Z)%type.
(** The loop over the parameters, left when no OSD is in any more *)
Fixpoint sweep (config : dict) (total : Z) (min_num_osds max_num_osds : pyval) (bench : Z -> params -> MM unit)
  (l : list (Z * params)) (current_osds_out : Z) : MM unit :=
  match l with
  | [] => ret tt
  | (osds_out, p) :: l' =>
      let osds_in := total - osds_out in
      if osds_in =? 0 then ret tt
      else
        when (negb (current_osds_out =? osds_out)) (take_out config osds_out) ;;
        lo <- as_Z min_num_osds ;;
        hi <- as_Z max_num_osds ;;
        when ((lo <=? osds_in) && (osds_in <=? hi) && negb (osds_in <? p.1.2)) (bench osds_in p) ;;
        sweep config total min_num_osds max_num_osds bench l' osds_out
  end.
(** [product(sizes, replicas, reps)] and [range(a, b)] *)
Definition z_range (a b : Z) : list Z := map (fun i => a + Z.of_nat i) (seq 0 (Z.to_nat (b - a))).
Definition product3 (sizes : list pyval) (replicas reps : list Z) : list params :=
  concat (map (fun size => concat (map (fun replica => map (fun rep => (size, replica, rep)) reps) replicas)) sizes).
Definition product4 (osds : list Z) (ps : list params) : list (Z * params) :=
  concat (map (fun o => map (pair o) ps) osds).

(** The configuration, checked *)
Definition check_clients (config : dict) : MM unit :=
  n <- len_ (dict_get "clients" (PList []) config) ;;
  when (negb (n =? 1)) (raise (PyException "Only one client can be specified")) ;;
  when (negb (py_eq (dict_get "mode" (PStr "write") config) (PStr "write")))
    (raise (PyException "Only 'write' mode supported for now.")).
Definition py_lt (a b : pyval) : bool := py_gt b a.
Definition check_osds (total : Z) (lo hi : pyval) : MM unit :=
  when (py_gt hi (PInt total)) (raise (PyException "max_num_osds cannot be greater than total in cluster")) ;;
  when (py_lt lo (PInt 1)) (raise (PyException "min_num_osds cannot be less than 1")) ;;
  when (py_gt lo hi) (raise (PyException "min_num_osds cannot be greater than max_num_osd")).
Definition check_replicas (lo hi max_num_osds : pyval) : MM unit :=
  when (py_lt lo (PInt 1)) (raise (PyException "min_num_replicas cannot be less than 1")) ;;
  when (py_gt lo hi) (raise (PyException "min_num_replicas cannot be greater than max_replicas")) ;;
  when (py_gt hi max_num_osds) (raise (PyException "max_num_replicas cannot be greater than max_num_osds")).

Definition radosbenchsweep_task {A} (config : pyval) (body : MM A) : MM A :=
  config <- match config with PDict d => ret d | _ => raise (AssertionError "expecting dictionary for configuration") end ;;
  check_clients config ;;
  s <- get ;;
  let total := num_instances_of_type (ctx s) "osd" in
  let min_num_osds := dict_get "min_num_osds" (PInt total) config in
  let max_num_osds := dict_get "max_num_osds" (PInt total) config in
  check_osds total min_num_osds max_num_osds ;;
  let min_num_replicas := dict_get "min_num_replicas" (PInt 3) config in
  let max_num_replicas := dict_get "max_num_replicas" (PInt 3) config in
  check_replicas min_num_replicas max_num_replicas max_num_osds ;;
  lo <- as_Z min_num_replicas ;;
  hi <- as_Z max_num_replicas ;;
  n <- as_Z (dict_get "repetitions" (PInt 1) config) ;;
  let fname := archive +:+ "/" +:+ py_str (dict_get "file" (PStr "radosbench.csv") config) in
  call "open" [fname; "w"] ;;
  columns <- get_csv_header config ;;
  call "write" [fname; str_join "," columns +:+ nls] ;;
  set_pool_property "data" "size" 1 ;;
  set_pool_property "metadata" "size" 1 ;;
  set_pool_property "rbd" "size" 1 ;;
  sizes <- py_iter (dict_get "size" (PList [PInt 4194304]) config) ;;
  let ps := product3 sizes (z_range lo (hi + 1)) (z_range 0 n) in
  sweep config total min_num_osds max_num_osds
    (fun osds_in p => run_radosbench config columns fname osds_in p.1.1 p.1.2 p.2)
    (product4 (z_range 0 (total + 1)) ps) 0 ;;
  call "close" [fname] ;;
  body.

(** ** multibench.py *)

(** [time.sleep()] without an argument *)
Definition bare_sleep {A} : MM A := raise (TypeError "sleep() takes exactly 1 argument (0 given)").
(** A segment: [benchcontext] is a copy of the configuration of radosbench *)
Definition run_one (config : dict) (num : Z) : MM unit :=
  start <- time ;;
  let bench := dict_get "radosbench" PNone config in
  while fuel
    (fun _ => t <- time ;; limit <- as_int (dict_get "time" (PInt 600) config) ;; ret (Qlt_bool (t - start) (inject_Z limit)))
    (fun l : Z * pyval =>
       d <- match l.2 with PDict d => ret d | _ => raise (TypeError "object does not support item assignment") end ;;
       let benchcontext := dict_set "pool" (PStr (zs num +:+ "-" +:+ zs l.1)) d in
       radosbench_task benchcontext (bare_sleep (A := unit)) ;;
       ret (l.1 + 1, PDict benchcontext)) (0, if truthy bench then bench else PDict []) ;;
  ret tt.
(** The segments are greenlets of their own, each running [run_one]. *)
Definition segment_name (i : Z) : string := "multibench." +:+ zs i.
Definition multibench_task {A} (config : pyval) (body : MM A) : MM A :=
  config <- match config with PDict d => ret d | _ => raise (AssertionError "please list clients to run on") end ;;
  n <- as_int (dict_get "segments" (PInt 3) config) ;;
  for_ (z_range 0 n) (fun i => emit (EvSpawn (segment_name i)) ;; ret tt) ;;
  finally body (for_ (z_range 0 n) (fun i => emit (EvJoin (segment_name i)) ;; ret tt)).

(** ** rbd_fio.py *)

(** [config.get(key)] when it is set to something, and otherwise the default *)
Definition option_or (config : dict) (key : string) (dflt : pyval) : pyval :=
  let v := dict_get key PNone config in if truthy v then v else dflt.
Definition line (key : string) (v : pyval) : string := key +:+ "=" +:+ py_str v +:+ nls.
Definition fio_global (config : dict) : string :=
  "[global]" +:+ nls +:+ line "ioengine" (option_or config "io-engine" (PStr "sync")) +:+
  line "bs" (option_or config "bs" (PStr "4k")) +:+ "iodepth=2" +:+ nls +:+
  line "size" (option_or config "fio-io-size" (PStr "100m")) +:+ "time_based" +:+ nls +:+
  line "runtime" (option_or config "runtime" (PInt 1800)) +:+ "allow_file_create=0" +:+ nls.
Definition default_formats : pyval := PList [PInt 1; PInt 2].
Definition default_features : pyval :=
  PList [PList [PStr "layering"]; PList [PStr "striping"]; PList [PStr "exclusive-lock"; PStr "object-map"]].
(** [rw] is only bound when it is configured. *)
Definition bound_rw (config : dict) : MM pyval :=
  let rw := dict_get "rw" PNone config in
  if truthy rw then ret rw else raise (OtherError "UnboundLocalError").
(** A job, and one more on the clone *)
Definition fio_job (key name : string) (rw : pyval) : string :=
  "[" +:+ name +:+ "]" +:+ nls +:+ line "rw" rw +:+ line key (PStr name).
Definition fio_jobs (config : dict) (key name clone_name : string) : MM string :=
  let job := fio_job key name (option_or config "rw" (PStr "randrw")) in
  if truthy (dict_get "test-clone-io" PNone config) then
    rw <- bound_rw config ;; ret (job +:+ fio_job key clone_name rw)
  else ret job.
Definition run_on_ (r : remote) (args : list string) : MM unit := run r args true ;; ret tt.
Definition make_clone (r : remote) (snap clone : string) : MM unit :=
  run_on_ r ["rbd"; "snap"; "create"; snap] ;;
  run_on_ r ["rbd"; "snap"; "protect"; snap] ;;
  run_on_ r ["rbd"; "clone"; snap; clone].
(** What [rbd map] printed, after what [out] had *)
Definition map_image (r : remote) (out name : string) : MM string :=
  p <- run r ["sudo"; "rbd"; "map"; name] true ;; ret (out +:+ stdout p).
Definition device_in (out : string) : MM string :=
  of_option (AttributeError "'NoneType' object has no attribute 'group'") (search_dev out).
(** The jobs of a mapped image: the device of the clone is looked for in the output of both [map]s. *)
Definition mapped_jobs (r : remote) (config : dict) (name snap clone : string) : MM string :=
  out <- map_image r EmptyString name ;;
  rbd_dev <- device_in out ;;
  clone_dev <- (if truthy (dict_get "test-clone-io" PNone config) then
                  make_clone r snap clone ;;
                  out <- map_image r out clone ;;
                  device_in out
                else ret EmptyString) ;;
  fio_jobs config "filename" rbd_dev clone_dev.
Definition rbd_jobs (r : remote) (config : dict) (name snap clone : string) : MM string :=
  when (truthy (dict_get "test-clone-io" PNone config)) (make_clone r snap clone) ;;
  fio_jobs config "rbdname" name clone.
(** One image for a format and a list of features; the jobs on it *)
Definition fio_image (r : remote) (config : dict) (rbd_engine : bool) (frmt : pyval) (feature : pyval) : MM string :=
  l <- as_list feature ;; feature <- map_ as_str l ;;
  let name := "i" +:+ py_str frmt +:+ "f" +:+ str_join "-" feature +:+ shortname r in
  run_on_ r (["rbd"; "create"; "--size"; py_str (option_or config "image_size" (PInt 10240)); "--image"; name;
              "--image-format"; py_str frmt] ++ concat (map (fun x => ["--image-feature"; x]) feature)) ;;
  run_on_ r ["rbd"; "info"; name] ;;
  let snap := name +:+ "@" +:+ name +:+ "Snap" in
  if rbd_engine then rbd_jobs r config name snap (name +:+ "Clone") else mapped_jobs r config name snap (name +:+ "Clone").
Definition librbd (op : string) (r : remote) : MM unit :=
  if String.eqb (get_system_type r) "rpm" then run_on_ r ["sudo"; "yum"; op; "librbd1-devel"; "-y"]
  else run_on_ r (if String.eqb op "install" then ["sudo"; "apt-get"; "-y"; "--force-yes"; "install"; "librbd-dev"]
                  else ["sudo"; "apt-get"; "-y"; "remove"; "librbd-dev"]).
Definition unmap_images (r : remote) : MM unit :=
  p <- run r ["rbd"; "showmapped"; "--format=json"] true ;;
  mapped_images <- json_loads (stdout p) ;;
  when (truthy mapped_images)
    (d <- as_dict mapped_images ;;
     for_ d (fun image =>
       dev <- subscript image.2 "device" ;; run_on_ r ["sudo"; "rbd"; "unmap"; py_str dev])).
Definition run_fio (rbd_test_dir : string) (r : remote) (config : pyval) : MM unit :=
  fio_config <- call "NamedTemporaryFile" ["fio_rbd_"; "/tmp/"] ;;
  config <- as_dict config ;;
  let ioengine := dict_get "io-engine" PNone config in
  when (negb (truthy ioengine)) (raise (OtherError "UnboundLocalError")) ;;
  let rbd_engine := eq_str ioengine "rbd" in
  when rbd_engine (librbd "install" r) ;;
  formats <- py_iter (option_or config "formats" default_formats) ;;
  jobs <- map_ (fun frmt =>
    features <- py_iter (option_or config "features" default_features) ;;
    js <- map_ (fio_image r config rbd_engine frmt) features ;; ret (String.concat EmptyString js)) formats ;;
  let text := fio_global config +:+ "norandommap" +:+ nls +:+ (if rbd_engine then "invalidate=0" +:+ nls else EmptyString) +:+
              (if rbd_engine then "clientname=admin" +:+ nls +:+ "pool=rbd" +:+ nls else EmptyString) +:+
              String.concat EmptyString jobs in
  call "write" [fio_config; text] ;;
  call "put_file" [r; fio_config; fio_config] ;;
  let fio_version := py_str (option_or config "fio-version" (PStr "2.7")) in
  finally
    (run_on_ r ["mkdir"; rbd_test_dir] ;;
     run_on_ r ["cd"; rbd_test_dir; ";"; "wget"; "https://github.com/axboe/fio/archive/fio-" +:+ fio_version +:+ ".tar.gz"; ";";
                "tar -xvf fio*tar.gz"; ";"; "cd fio-fio*"; "configure"; ";"; "make"] ;;
     run_on_ r ["zbkc"; "-s"] ;;
     run_on_ r ["sudo"; rbd_test_dir +:+ "/fio-fio-" +:+ fio_version +:+ "/fio " +:+ fio_config] ;;
     run_on_ r ["zbkc"; "-s"])
    (unmap_images r ;;
     run_on_ r ["rm"; "-rf"; rbd_test_dir] ;;
     when rbd_engine (librbd "remove" r)).
(** [client_config] is set by [all], and by the loop over the names of clients: on the next
    machine it is there, and is the last of the names. *)
Fixpoint fio_machines (rbd_test_dir : string) (config : dict) (client_config : option pyval) (l : list (remote * list string)) : MM unit :=
  match l with
  | [] => ret tt
  | (r, roles) :: l' =>
      match client_config with
      | Some cfg =>
          parallel [run_fio rbd_test_dir r cfg] ;;
          fio_machines rbd_test_dir config client_config l'
      | None =>
          for_ config (fun kv => when (bool_decide (kv.1 ∈ roles)) (parallel [run_fio rbd_test_dir r kv.2])) ;;
          fio_machines rbd_test_dir config (PStr <$> last (map fst config)) l'
      end
  end.
Definition client_machines (c : context) : list (remote * list string) :=
  filter (fun rr => existsb (fun role => String.eqb (split_role role).1.2 "client") rr.2 = true) (cluster_roles c).
Definition rbd_fio_task {A} (config : pyval) (body : MM A) : MM A :=
  config <- as_dict config ;;
  let all := dict_get "all" PNone config in
  s <- get ;;
  fio_machines (testdir (ctx s) +:+ "/rbd_fio_test") config (if truthy all then Some all else None) (client_machines (ctx s)) ;;
  body.

(** ** rbd_mirror.py *)

(** The fields of the task object *)
Record mirror := Mirror { mr_client : string; mr_cluster : string; mr_id : string; mr_remote : remote }.
Definition mirror_setup (config : dict) : MM mirror :=
  v <- of_option (OtherError "ConfigError: rbd-mirror requires a client to connect with") (dict_lookup "client" config) ;;
  client <- as_str v ;;
  let '(cl, type_, id_) := split_role client in
  when (negb (String.eqb type_ "client")) (raise (OtherError ("ConfigError: client role (" +:+ client +:+ ") must be a client"))) ;;
  r <- get_remote_for_role client ;;
  ret (Mirror client cl id_ r).
Definition mirror_args (dir : string) (config : dict) (m : mirror) : list string :=
  let signal := if dict_has "coverage" config || dict_has "valgrind" config then "term" else "kill" in
  let args := ["adjust-ulimits"; "zbkc-coverage"; dir +:+ "/archive/coverage"; "daemon-helper"; signal] in
  (if dict_has "valgrind" config then get_valgrind_args dir ("rbd-mirror-" +:+ mr_client m) args (dict_get "valgrind" PNone config)
   else args) ++ ["rbd-mirror"; "--cluster"; mr_cluster m; "--id"; mr_id m].
Definition mirror_begin (config : dict) (m : mirror) : MM unit :=
  s <- get ;;
  daemon (DAdd (mr_remote m) (mirror_args (testdir (ctx s)) config m)) "rbd-mirror" (mr_client m) (mr_cluster m).
Definition mirror_end (m : mirror) : MM unit := daemon DStop "rbd-mirror" (mr_client m) (mr_cluster m).
(** A task object is entered by [setup] and [begin] and left by [end]. *)
Definition rbd_mirror_task {A} (config : dict) (body : MM A) : MM A :=
  m <- mirror_setup config ;;
  mirror_begin config m ;;
  finally body (mirror_end m).

(** ** autotest.py *)
Definition autotest_download (dir : string) (r : remote) : MM unit :=
  run_on_ r ["mkdir"; dir +:+ "/archive/autotest"; "&&"; "mkdir"; dir +:+ "/autotest"; "&&"; "wget"; "-nv"; "--no-check-certificate";
             "https://github.com/zbkc/autotest/tarball/zbkc"; "-O-"; "|"; "tar"; "-C"; dir +:+ "/autotest"; "-x"; "-z"; "-f-";
             "--strip-components=1"].
Definition scratch_of (dir id_ : string) : string := path_join (path_join dir ("mnt." +:+ id_)) ("client." +:+ id_).
(** The keys of the dictionary are written in the order given here. *)
Definition control_text (testname : pyval) (scratch : string) : string :=
  "import json; data=json.loads(" +:+ repr_str (Json.dumps (PDict [("url", testname); ("dir", PStr scratch)])) +:+
  "); job.run_test(**data)".
Definition autotest_one (dir : string) (r : remote) (id_ : string) (idx : nat) (testname : pyval) : MM unit :=
  let tag := "client." +:+ id_ +:+ ".num" +:+ zs (Z.of_nat idx) +:+ "." +:+ py_str testname in
  let control := dir +:+ "/control." +:+ tag in
  file (FWrite (control_text testname (scratch_of dir id_))) r control ;;
  run_on_ r [dir +:+ "/autotest/client/bin/autotest"; "--verbose"; "--harness=simple"; "--tag=" +:+ tag; control; "3>&1"] ;;
  run_on_ r ["rm"; "-rf"; "--"; control] ;;
  run_on_ r ["mv"; "--"; dir +:+ "/autotest/client/results/" +:+ tag; dir +:+ "/archive/autotest/" +:+ tag].
Definition autotest_tests (dir : string) (r : remote) (role : string) (tests : pyval) : MM unit :=
  ri <- client_id (PStr role) ;;
  l <- match tests with PList l => ret l | _ => raise (AssertionError "isinstance(tests, list)") end ;;
  for_ (imap pair l) (fun it => autotest_one dir r ri.2 it.1 it.2) ;;
  run_on_ r ["rm"; "-rf"; "--"; dir +:+ "/autotest"].
Definition autotest_task (config : pyval) : MM unit :=
  s <- get ;;
  let dir := testdir (ctx s) in
  config <- match config with
            | PDict d => ret (replace_all_with_clients (ctx s) d)
            | _ => raise (AssertionError "isinstance(config, dict)")
            end ;;
  machines <- map_ (fun kv => r <- only_remote kv.1 ;; ret (r, kv)) config ;;
  parallel (map (fun m => autotest_download dir m.1) machines) ;;
  for_ config (fun kv =>
    ri <- client_id (PStr kv.1) ;;
    r <- only_remote kv.1 ;;
    run_on_ r ["sudo"; "install"; "-d"; "-m"; "0755"; "--owner=ubuntu"; "--"; scratch_of dir ri.2]) ;;
  parallel (map (fun m => autotest_tests dir m.1 m.2.1 m.2.2) machines).

(** ** aver.py *)
Definition aver_path : string := archive +:+ "/aver".
Definition aver_url : string := "https://github.com/ivotron/aver/releases/download/v0.3.0/aver-linux-amd64.tar.bz2".
Definition aver_validate (input validation : pyval) : MM unit :=
  i <- as_str input ;;
  v <- as_str validation ;;
  out <- call "Popen" [aver_path +:+ " -s -i " +:+ archive +:+ "/" +:+ i +:+ " " +:+ dqs +:+ v +:+ dqs] ;;
  when (negb (String.eqb (str_strip out) "true")) (raise (PyException ("Failed validation: " +:+ v))).
Definition aver_task {A} (config : pyval) (body : MM A) : MM A :=
  config <- match config with PDict d => ret d | _ => raise (AssertionError "expecting dictionary for configuration") end ;;
  input <- of_option (PyException "Expecting 'input' option") (dict_lookup "input" config) ;;
  let validations := dict_get "validations" (PList []) config in
  n <- len_ validations ;;
  when (n <? 1) (raise (PyException "Expecting at least one entry in 'validations'")) ;;
  call "check_call" ["wget"; "-O"; aver_path +:+ ".tbz"; aver_url] ;;
  call "check_call" ["tar"; "xfj"; aver_path +:+ ".tbz"; "-C"; archive] ;;
  call "Popen" [aver_path; "-v"] ;;
  l <- py_iter validations ;;
  for_ l (aver_validate input) ;;
  finally body (call "check_call" ["rm"; aver_path; aver_path +:+ ".tbz"] ;; ret tt).
End Bench.

(** * Facts *)
From S2P Require Import Daemons PoolFacts TaskFacts.

(** ** The sweep *)
Section Sweep.
Context {E : Env} {F : Fuel}.
Context (get_first_mon : context -> dict -> string).
Context (config : dict) (total lo hi : Z) (bench : Z -> pyval * Z * Z -> M mgr unit).
Abbreviation take_out := (take_out get_first_mon config).
Abbreviation sweep := (sweep get_first_mon config total (PInt lo) (PInt hi) bench).

(** What is run with [osds_out] OSDs out *)
Definition benches (ps : list (pyval * Z * Z)) (osds_out : Z) : M mgr unit :=
  let osds_in := total - osds_out in
  when ((lo <=? osds_in) && (osds_in <=? hi)) (for_ (List.filter (fun p => p.1.2 <=? osds_in) ps) (bench osds_in)).
(** The sweep as it is meant: the OSDs are taken out one by one, and with each number of them that was asked for the
    benchmark runs with every size, number of replicas and repetition that is possible. *)
Definition planned (ps : list (pyval * Z * Z)) : M mgr unit :=
  for_ (z_range 0 total) (fun osds_out => when (0 <? osds_out) (take_out osds_out) ;; benches ps osds_out).

Lemma sweep_same ps o rest s w : total - o <> 0 ->
  sweep (map (pair o) ps ++ rest) o s w = (benches ps o ;; sweep rest o) s w.
Proof.
  intros Ho. revert s w. unfold benches. induction ps as [|p ps IH]; intros s w; cbn [map app List.filter for_ BenchTasks.sweep].
  { by destruct (_ && _). }
  rewrite (proj2 (Z.eqb_neq _ _) Ho), Z.eqb_refl, <- Z.leb_antisym. cbn [negb]. unfold when, as_Z, bind, ret in *.
  destruct ((lo <=? total - o) && (total - o <=? hi)); cbn [andb] in *; [|apply IH].
  destruct (p.1.2 <=? total - o); cbn [for_] in *; unfold bind in *; [|apply IH].
  destruct (bench (total - o) p s w) as [[[[]|e|] s1] w1]; [apply IH|done..].
Qed.
(** The next OSD is taken out before its first benchmark, whether one is run or not. *)
Lemma sweep_next ps c o rest s w : total - o <> 0 -> ps <> [] ->
  sweep (map (pair o) ps ++ rest) c s w = (when (negb (c =? o)) (take_out o) ;; benches ps o ;; sweep rest o) s w.
Proof.
  intros Ho Hps. destruct ps as [|p ps]; [done|]. cbn [map app BenchTasks.sweep]. rewrite (proj2 (Z.eqb_neq _ _) Ho).
  unfold bind at 1 5. destruct (when _ _ s w) as [[[[]|e|] s1] w1]; [|done..].
  rewrite <- sweep_same by done. cbn [map app BenchTasks.sweep]. by rewrite (proj2 (Z.eqb_neq _ _) Ho), Z.eqb_refl.
Qed.
Lemma sweep_rest ps k i c s w : ps <> [] -> Z.of_nat (i + k) = total -> (c = 0 /\ i = 0%nat \/ c = Z.of_nat i - 1 /\ (0 < i)%nat) ->
  sweep (product4 (map Z.of_nat (seq i k) ++ [total]) ps) c s w =
  for_ (map Z.of_nat (seq i k)) (fun o => when (0 <? o) (take_out o) ;; benches ps o) s w.
Proof.
  intros Hps. revert i c s w. induction k as [|k IH]; intros i c s w Hi Hc; cbn [seq map app for_]; unfold product4; cbn [map concat].
  { destruct ps as [|p ps]; [done|]. cbn. by rewrite Z.sub_diag. }
  rewrite sweep_next by (done || lia). assert (negb (c =? Z.of_nat i) = (0 <? Z.of_nat i)) as -> by lia.
  unfold bind. destruct (when _ _ s w) as [[[[]|e|] s1] w1]; [|done..].
  destruct (benches ps _ s1 w1) as [[[[]|e|] s2] w2]; [|done..]. apply IH; lia.
Qed.
Lemma z_range_seq a n : z_range a (a + Z.of_nat n) = map (fun i => a + Z.of_nat i) (seq 0 n).
Proof. unfold z_range. by replace (Z.to_nat (a + Z.of_nat n - a)) with n by lia. Qed.
Lemma z_range_0 n : z_range 0 (Z.of_nat n) = map Z.of_nat (seq 0 n).
Proof. rewrite <- (Z.add_0_l (Z.of_nat n)), z_range_seq. by apply map_ext. Qed.

(** C31: the sweep of radosbenchsweep.py runs exactly the benchmarks that were asked for: it behaves as the plan that takes the
    OSDs out one after the other, each once and in order, and with every number of OSDs between the bounds runs every
    combination of size, replicas and repetition for which there are enough OSDs, in order; it stops before the last OSD
    is taken out. *)
Theorem sweep_planned (ps : list (pyval * Z * Z)) (s : mgr) (w : world) :
  0 <= total -> ps <> [] ->
  sweep (product4 (z_range 0 (total + 1)) ps) 0 s w = planned ps s w.
Proof.
  intros Ht Hps. pose proof (sweep_rest ps (Z.to_nat total) 0 0 s w Hps ltac:(lia) ltac:(lia)) as H.
  unfold planned. replace (z_range 0 total) with (map Z.of_nat (seq 0 (Z.to_nat total))) by (rewrite <- z_range_0; f_equal; lia).
  replace (total + 1) with (Z.of_nat (Datatypes.S (Z.to_nat total))) by lia.
  rewrite z_range_0, seq_S, map_app. cbn [map]. by rewrite Nat.add_0_l, Z2Nat.id.
Qed.
End Sweep.

Section BenchFacts.
Context {E : Env} {F : Fuel}.
Context (get_first_mon : context -> dict -> string)
        (num_instances_of_type : context -> string -> Z)
        (get_system_type shortname : remote -> string)
        (archive : string).
Implicit Types p : gmap string Z.

(** ** The pools of the sweep *)
Lemma run_radosbench_pools p config columns fname n size replica rep :
  hoare (fun s => pools s = p) (run_radosbench get_first_mon config columns fname n size replica rep) (fun _ s => pools s = p).
Proof.
  unfold run_radosbench. eapply hoare_bind; [apply hoare_create_unique|]. intros name s w [Hp Hn].
  enough (H : hoare (fun s => pools s = <[name := 16]> p)
    (set_pool_property name "size" replica ;; wait_until_healthy get_first_mon config ;;
     roles <- py_iter (dict_get "clients" (PList [PStr "client.0"]) config) ;;
     for_ roles (sweep_client config columns fname name n size replica rep) ;; remove_pool name) (fun _ s => pools s = p)) by by apply H.
  do 4 (apply hoare_pools_bind; [runs_tac|intros ?]).
  eapply hoare_conseq; [apply (hoare_remove (<[name := 16]> p))|done|]. intros _ s1 ->. by rewrite delete_insert_id.
Qed.
Lemma sweep_pools p config total lo hi bench l c :
  (forall n x, hoare (fun s => pools s = p) (bench n x) (fun _ s => pools s = p)) ->
  hoare (fun s => pools s = p) (sweep get_first_mon config total lo hi bench l c) (fun _ s => pools s = p).
Proof.
  intros Hb. revert c. induction l as [|[o x] l IH]; intros c; cbn [sweep]; [by apply hoare_ret|].
  destruct (_ =? 0); [by apply hoare_ret|]. do 3 (apply hoare_pools_bind; [runs_tac|intros ?]).
  eapply hoare_bind; [|intros ?; apply IH]. unfold when. destruct (_ && _); [apply Hb|by apply hoare_ret].
Qed.
(** A sweep leaves no pool behind: when a radosbenchsweep task returns, the table of pools is the one its body left,
    however many benchmarks were run. *)
Theorem sweep_removes_pools {A} (config : pyval) (body : M mgr A) (p : gmap string Z) :
  hoare (fun s => pools s = p) body (fun _ s => pools s = p) ->
  hoare (fun s => pools s = p) (radosbenchsweep_task get_first_mon num_instances_of_type archive config body) (fun _ s => pools s = p).
Proof.
  intros Hb. unfold radosbenchsweep_task. do 2 (apply hoare_pools_bind; [runs_tac|intros ?]).
  apply hoare_pools_bind; [runs_tac|intros s]. do 12 (apply hoare_pools_bind; [runs_tac|intros ?]).
  cbv zeta. eapply hoare_bind; [apply sweep_pools; intros; apply run_radosbench_pools|]. intros ?.
  by apply hoare_pools_bind; [runs_tac|intros ?].
Qed.

(** ** multibench.py *)

(** Nothing is returned: an exception, or a loop that does not end *)
Definition never {S A} (m : M S A) : Prop := forall s w, wp m (fun o _ _ => ~ is_ret o) s w.
Lemma never_raise {S A} e : never (raise e : M S A).
Proof. by intros s w H. Qed.
Lemma never_bind {S A B} (m : M S A) (k : A -> M S B) : (forall a, never (k a)) -> never (bind m k).
Proof. intros Hk s w. apply wp_bind_any; [intros; apply Hk|by intros ??? []|by intros ?? []]. Qed.
Lemma never_first {S A B} (m : M S A) (k : A -> M S B) : never m -> never (bind m k).
Proof. intros Hm s w. apply wp_bind. eapply wp_conseq; [apply Hm|]. by intros [a|e|] s1 w1 H; unfold then_; [destruct H|intros []..]. Qed.
Lemma never_finally {S A} (m : M S A) (f : M S unit) : never m -> never (finally m f).
Proof.
  intros Hm s w. specialize (Hm s w). unfold wp, finally in *. destruct (m s w) as [[[a|e|] s1] w1]; [by destruct Hm|..|done].
  by destruct (f s1 w1) as [[[u|e'|] s2] w2].
Qed.
Lemma never_wp {S A B} (m : M S A) (k : A -> M S B) s w : never m -> 
  wp m (then_ (fun a => wp (k a) (fun o _ _ => ~ is_ret o)) (fun (o : outcome B) _ _ => ~ is_ret o)) s w.
Proof. intros Hm. eapply wp_conseq; [apply Hm|]. by intros [a|e|] s1 w1 H; unfold then_; [destruct H|intros []..]. Qed.
Lemma radosbench_never {A} config (body : M mgr A) : never body -> never (radosbench_task config body).
Proof. intros Hb. unfold radosbench_task. apply never_bind. intros roles. apply never_bind. intros x. by apply never_finally. Qed.
(** No segment of multibench.py ever completes: with a time above 0 it starts radosbench once, and the pause around which
    radosbench runs is an error, so that the segment ends in an exception, whatever the configuration. *)
Theorem multibench_segments_fail (config : dict) (num limit : Z) (s : mgr) (w : world) :
  dict_get "time" (PInt 600) config = PInt limit -> 0 < limit ->
  wp (run_one config num) (fun o _ _ => ~ is_ret o) s w.
Proof.
  intros Ht Hl. unfold run_one. rewrite Ht. apply wp_bind, wp_time. unfold then_ at 1. apply wp_bind.
  assert (Hpass : Qlt_bool (now (w_env w) - now (w_env w)) (inject_Z limit) = true).
  { apply Qlt_bool_iff. rewrite Zlt_Qlt in Hl. change (inject_Z 0) with 0%Q in Hl. lra. }
  destruct fuel as [|n]; cbn [while]; [by intros H|]. apply wp_bind, wp_bind, wp_time. unfold then_ at 1 2.
  apply wp_bind. unfold as_int. apply wp_ret. unfold then_ at 1. apply wp_ret. unfold then_ at 1. rewrite Hpass.
  apply never_wp, never_first. apply never_bind. intros d. cbv zeta. apply never_first, radosbench_never, never_raise.
Qed.

(** ** rbd_fio.py *)
Lemma never_parallel {S} `{!HasCtx S} (m : M S unit) : never m -> never (parallel [m]).
Proof.
  intros Hm s w. unfold parallel. apply wp_bind. cbn [run_all_of]. apply wp_bind, wp_catch, wp_bind. eapply wp_conseq; [apply Hm|].
  intros [a|e|] s1 w1 H; unfold then_; [by destruct H|..|by intros []]. by apply wp_ret.
Qed.
(** Rbd_fio.py without a configuration for all clients fails on every cluster with clients on two machines: the variable of
    the loop over the first machine's clients is taken for the configuration of the second. *)
Theorem fio_second_machine_fails {A} (config : dict) (body : M mgr A) (s : mgr) (w : world) :
  truthy (dict_get "all" PNone config) = false -> config <> [] -> (1 < length (client_machines (ctx s)))%nat ->
  wp (rbd_fio_task get_system_type shortname (PDict config) body) (fun o _ _ => ~ is_ret o) s w.
Proof.
  intros Ha Hc Hl. unfold rbd_fio_task. apply wp_bind. unfold as_dict. apply wp_ret. unfold then_ at 1. cbv zeta. rewrite Ha.
  apply wp_bind, wp_get. unfold then_ at 1. apply never_first. destruct (client_machines (ctx s)) as [|[r1 l1] [|[r2 l2] l]]; cbn in Hl; [lia..|].
  cbn [fio_machines]. apply never_bind. intros _.
  assert (exists k, last (map fst config) = Some k) as [k ->].
  { destruct (last (map fst config)) eqn:Hk; [by eexists|]. by apply last_None, map_eq_nil in Hk. }
  cbn [fmap option_fmap option_map]. apply never_first, never_parallel. unfold run_fio. apply never_bind. intros f.
  apply never_first, never_raise.
Qed.

(** *** Devices in the output of [rbd map], which is a line *)
Lemma prefix_line pat s t : every (is_not nl) pat = true -> startswith pat ((s +:+ nls) +:+ t) = startswith pat s.
Proof.
  revert s. induction pat as [|a pat IH]; intros s H; [by destruct s|]. cbn in H. apply andb_true_iff in H as [Ha Hp].
  destruct s as [|b s].
  - change (startswith (String a pat) (String nl t) = false). cbn. destruct (ascii_dec a nl) as [->|]; [|done]. unfold is_not in Ha. by rewrite Ascii.eqb_refl in Ha.
  - change (startswith (String a pat) (String b ((s +:+ nls) +:+ t)) = startswith (String a pat) (String b s)). cbn.
    destruct (ascii_dec a b); [by apply IH|done].
Qed.
Lemma prefix_split pat s : startswith pat s = true -> s = pat +:+ str_from (String.length pat) s.
Proof.
  revert s. induction pat as [|a pat IH]; intros [|b s]; cbn; try done. destruct (ascii_dec a b) as [->|]; [|done].
  intros H. by rewrite (IH _ H) at 1.
Qed.
Lemma from_app pat x : str_from (String.length pat) (pat +:+ x) = x.
Proof. by induction pat. Qed.
Lemma digits_line x t : digits ((x +:+ nls) +:+ t) = digits x.
Proof.
  induction x as [|a x IH]; [done|]. change (digits (String a ((x +:+ nls) +:+ t)) = digits (String a x)). cbn [digits].
  by rewrite IH.
Qed.
Definition dev_here (s : string) : string := if startswith "/dev/rbd" s then digits (str_from 8 s) else EmptyString.
Lemma dev_here_line s t : dev_here ((s +:+ nls) +:+ t) = dev_here s.
Proof.
  unfold dev_here. rewrite prefix_line by done. destruct (startswith _ s) eqn:Hs; [|done].
  apply prefix_split in Hs. change (String.length "/dev/rbd") with 8%nat in Hs. set (x := str_from 8 s) in *. rewrite Hs, !append_assoc.
  pose proof (from_app "/dev/rbd" (x +:+ nls +:+ t)) as H. change (String.length "/dev/rbd") with 8%nat in H.
  rewrite H, <- append_assoc. apply digits_line.
Qed.
Lemma search_dev_line s t : search_dev ((s +:+ nls) +:+ t) = match search_dev s with Some d => Some d | None => search_dev t end.
Proof.
  induction s as [|a s IH]; [done|]. change ((String a s +:+ nls) +:+ t) with (String a ((s +:+ nls) +:+ t)).
  pose proof (dev_here_line (String a s) t) as H. change ((String a s +:+ nls) +:+ t) with (String a ((s +:+ nls) +:+ t)) in H.
  unfold dev_here in H. cbn [search_dev]. rewrite H. clear H.
  by destruct (if startswith "/dev/rbd" (String a s) then _ else _).
Qed.
Section Clone.
(** [rbd map] prints a line. *)
Context (r : remote) (map_prints_line : forall c n, exists t, stdout (respond (EvRun r ["sudo"; "rbd"; "map"; n]) c).1 = t +:+ nls).
Lemma map_image_line out name s w :
  wp (map_image r out name) (fun o _ _ => forall x, o = Ret x -> exists t, x = out +:+ (t +:+ nls)) s w.
Proof.
  unfold map_image, run, emit. apply wp_bind, wp_bind. unfold wp at 1. destruct (map_prints_line (w_env w) name) as [t Ht].
  destruct (respond _ (w_env w)) as [p c1]. cbn [fst] in Ht. destruct (raised p); unfold then_ at 1 2; [done|].
  destruct (_ && _); [by apply wp_raise|]. apply wp_ret. unfold then_. apply wp_ret. intros x [= <-]. exists t. by rewrite Ht.
Qed.
Lemma device_in_ret out s w : wp (device_in out) (fun o _ _ => forall d, o = Ret d -> search_dev out = Some d) s w.
Proof. unfold device_in. apply wp_of_option; [|done]. by intros d Hd d' [= <-]. Qed.
(** Rbd_fio.py never tests a clone: the device it takes for the clone is that of the image, since it looks at the output of
    both [rbd map]s from the start. *)
Theorem fio_clone_not_tested (config : dict) (name snap clone : string) (s : mgr) (w : world) :
  truthy (dict_get "test-clone-io" PNone config) = true ->
  wp (mapped_jobs r config name snap clone) (fun o _ _ => forall text, o = Ret text ->
    exists dev rw rw', text = fio_job "filename" dev rw +:+ fio_job "filename" dev rw') s w.
Proof.
  intros Hc. unfold mapped_jobs. rewrite Hc. apply wp_bind. eapply wp_conseq; [apply map_image_line|].
  intros [out|e|] s1 w1 H; unfold then_; [|done..]. destruct (H out eq_refl) as [t ->]. change (EmptyString +:+ (t +:+ nls)) with (t +:+ nls).
  apply wp_bind. eapply wp_conseq; [apply device_in_ret|]. intros [d|e|] s2 w2 Hd; unfold then_; [|done..]. specialize (Hd d eq_refl).
  rewrite <- (append_nil (t +:+ nls)), search_dev_line in Hd. destruct (search_dev t) as [d'|] eqn:Hs; [|done]. injection Hd as ->.
  apply wp_bind. apply wp_bind_any; [|done..]. intros ? s3 w3. apply wp_bind. eapply wp_conseq; [apply map_image_line|].
  intros [out|e|] s4 w4 H4; unfold then_; [|done..]. destruct (H4 out eq_refl) as [t' ->].
  eapply wp_conseq; [apply device_in_ret|]. intros [d'|e|] s5 w5 Hd; [|done..]. specialize (Hd d' eq_refl).
  rewrite search_dev_line, Hs in Hd. injection Hd as <-. unfold fio_jobs. rewrite Hc. apply wp_bind. unfold bound_rw.
  destruct (truthy (dict_get "rw" PNone config)); [apply wp_ret; unfold then_|by apply wp_raise]. apply wp_ret. intros text [= <-]. by eexists _, _, _.
Qed.
End Clone.
End BenchFacts.
