(* ===== verification/InstallTasks.v ===== *)
(** * Tasks that install other programs

    tasks/calamari_setup.py, calamari_nosetests.py, devstack.py and buildpackages.py, on [gw], the
    job's [ctx].  What teuthology knows of a machine (its operating system with name, version and
    package type, its short and full name, how it is printed), the order in which Python goes
    through a set, [deep_merge], YAML and the surroundings of the job are arguments; the calls into
    OpenStack, [ConfigParser], [requests] and teuthology's packaging are events. *)
From Stdlib Require Import Ascii QArith Qround Lqa.
From S2P Require Import Prelude PyVal World TraceState ZbkcManager Conf FsSetup ClientMount Rbd RgwUtil RgwTask ClientTasks Claims.

(** ** devstack.py: the table that an OpenStack client prints *)
Section Table.
Context {E : Env}.
Abbreviation MG A := (M gw A).
Definition table_line (out_dict : dict) (line : string) : MG dict :=
  if startswith "|" line then
    let items := split_ws line in
    v <- of_option IndexError (items !! 3%nat) ;;
    k <- of_option IndexError (items !! 1%nat) ;;
    ret (dict_set k (PStr v) out_dict)
  else ret out_dict.
Definition parse_os_table (table_str : string) : MG dict := fold_ table_line (split_on nl table_str) [].
End Table.

(** What [ctx.cluster.remotes] says of the machines: the first that has a role in [p] *)
Definition find_machine (p : string -> bool) (c : context) : option remote := head (only p c).

Section Installs.
Context {E : Env}.
Context (remote_str remote_os os_name os_version package_type system_type shortname hostname : remote -> string)
        (set_iter : list string -> list string)
        (deep_merge : dict -> pyval -> dict)
        (yaml_text : dict -> string).
Abbreviation MG A := (M gw A).

Definition machines_ : MG (list (remote * list string)) := g <- get ;; ret (cluster_roles (the_ctx g)).
(** [remote.run(args=cmd)] with one string, and its status *)
Definition sh_ (r : remote) (cmd : string) : MG unit := run_ r [cmd].
Definition status_of (r : remote) (args : list string) : MG Z := p <- run r args true ;; ret (exitstatus p).
(** [for cmd in cmds: if remote.run(args=cmd).exitstatus: return False] *)
Fixpoint all_succeed (r : remote) (cmds : list (list string)) : MG bool :=
  match cmds with
  | [] => ret true
  | cmd :: cmds' => z <- status_of r cmd ;; if z =? 0 then all_succeed r cmds' else ret false
  end.

(** ** calamari_setup.py *)

(** *** Package repositories *)
Definition repos : string := "/etc/yum.repos.d".
Definition repos_old : string := "/etc/yum.repos.d.old".
(** The title of a repository, its name and its path, by the operating system *)
Definition yum_repo_params (distro : string) : option (string * string * string) :=
  if String.eqb distro "rhel 6.4" || String.eqb distro "rhel 6.5" then Some ("rhel6-server", "RHEL", "rhel6repo-server")
  else if String.eqb distro "rhel 7.0" then Some ("rhel7-server", "RHEL", "rhel7repo/server")
  else None.
Definition repo_contents (title name path : string) : string :=
  str_join nls ["[" +:+ title +:+ "]"; "name=" +:+ name +:+ " $releasever - $basearch";
                "baseurl=http://apt-mirror.front.sepia.zbkc.com/" +:+ path; "gpgcheck=0"; "enabled=1"].
Definition restore_yum_repos (r : remote) : MG bool :=
  all_succeed r [["sudo"; "rm"; "-rf"; repos]; ["sudo"; "mv"; repos_old; repos]].
Definition fix_yum_repos (r : remote) (distro : string) : MG bool :=
  ok <- (if startswith "centos" distro then
           sh_ r "sudo yum -y install lttng-tools" ;;
           all_succeed r [["sudo"; "mkdir"; repos_old]; ["sudo"; "cp"; repos +:+ "/*"; repos_old]; ["sudo"; "rm"; repos +:+ "/epel*"]]
         else
           ok <- all_succeed r [["sudo"; "mv"; repos; repos_old]; ["sudo"; "mkdir"; repos]] ;;
           if ok : bool then
             x <- of_option (KeyError distro) (yum_repo_params distro) ;;
             let '(title, name, path) := x in
             call "sudo_write_file" [r; repos +:+ "/" +:+ title +:+ ".repo"; repo_contents title name path] ;;
             ret true
           else ret false) ;;
  if ok : bool then all_succeed r [["sudo"; "yum"; "clean"; "all"]; ["sudo"; "yum"; "makecache"]] else ret false.
Definition uses_yum (cal_svr : remote) (no_epel : pyval) : bool :=
  (startswith "rhel" (remote_os cal_svr) || startswith "centos" (remote_os cal_svr)) && truthy no_epel.
Definition adjust_yum_repos {A} (cal_svr : remote) (no_epel : pyval) (body : MG A) : MG A :=
  when (uses_yum cal_svr no_epel)
    (l <- machines_ ;; for_ (map fst l) (fun r => fix_yum_repos r (remote_os cal_svr) ;; ret tt)) ;;
  finally body
    (when (uses_yum cal_svr no_epel) (l <- machines_ ;; for_ (map fst l) (fun r => restore_yum_repos r ;; ret tt))).
Definition remove_epel {A} (no_epel : pyval) (body : MG A) : MG A :=
  when (truthy no_epel)
    (l <- machines_ ;;
     for_ (map fst l) (fun r => when (startswith "centos" (os_name r)) (run_ r ["sudo"; "rm"; "-f"; repos +:+ "/epel*"]))) ;;
  body.

(** *** The server *)
Definition base_name (path : string) : string := default EmptyString (last (split_on "/"%char path)).
Definition get_iceball_with_http (url destdir : string) : MG string :=
  ok <- ask (EvCall "requests.get" [url]) ;;
  when (negb ok) (raise (RuntimeError ("Failed to download " +:+ url))) ;;
  let filename := path_join destdir (base_name url) in
  call "copyfileobj" [url; filename] ;;
  ret filename.
(** What follows the first [@], unless it is the first character *)
Definition host_part (s : string) : string :=
  match s with
  | EmptyString => EmptyString
  | String a s' => if Ascii.eqb a "@"%char then s else default s (after_char "@"%char s')
  end.
Inductive ice := Tarball | Iso.
Definition icetype_of (file : string) : MG ice :=
  if endswith ".tar.gz" file then ret Tarball
  else if endswith ".iso" file then ret Iso
  else raise (RuntimeError ("Cant handle iceball " +:+ file)).
Definition iso_mountpoint : string := "/mnt/".
(** [if ret.exitstatus: raise RuntimeError(msg)] *)
Definition must_succeed (p : reply) (msg : string) : MG unit := when (negb (exitstatus p =? 0)) (raise (RuntimeError msg)).
Definition unpack (cal_svr : remote) (icetype : ice) (file : string) : MG unit :=
  match icetype with
  | Tarball => p <- run cal_svr ["gunzip"; "<"; file; "|"; "tar"; "xvf"; "-"] true ;; must_succeed p "remote iceball untar failed"
  | Iso => run_ cal_svr ["sudo"; "mount"; "-o"; "loop"; "-r"; file; iso_mountpoint]
  end.
Definition package_command (system_type : string) : option string :=
  if String.eqb system_type "deb" then Some "sudo dpkg -i /mnt/ice-setup*deb"
  else if String.eqb system_type "rpm" then Some "sudo yum -y localinstall /mnt/ice_setup*rpm"
  else None.
(** ice_setup and the initialisation of calamari, which read their answers *)
Definition initialize (config : dict) (cal_svr : remote) (icetype : ice) : MG unit :=
  let client_id := host_part (remote_str cal_svr) in
  cmd <- of_option (RuntimeError (remote_str cal_svr +:+ ": unknown system type")) (package_command (system_type cal_svr)) ;;
  p <- run cal_svr [cmd] true ;;
  must_succeed p "ice_setup package install failed" ;;
  p <- run_input cal_svr [match icetype with Tarball => "sudo python ice_setup.py" | Iso => "sudo ice_setup -d /mnt" end]
         ("yes" +:+ nls +:+ nls +:+ client_id +:+ nls +:+ "http" +:+ nls) true ;;
  must_succeed p "ice_setup failed" ;;
  user <- subscript (PDict config) "calamari_user" ;;
  email <- subscript (PDict config) "email" ;;
  password <- subscript (PDict config) "calamari_password" ;;
  p <- run_input cal_svr ["sudo"; "calamari-ctl"; "initialize"]
         (py_str user +:+ nls +:+ py_str email +:+ nls +:+ py_str password +:+ nls +:+ py_str password +:+ nls) true ;;
  must_succeed p "calamari-ctl initialize failed".
Definition calamari_install {A} (config : dict) (cal_svr : remote) (body : MG A) : MG A :=
  test_image <- subscript (PDict config) "test_image" ;;
  when (negb (truthy test_image)) (raise (RuntimeError "Must supply test image")) ;;
  test_image <- as_str test_image ;;
  let delete_iceball := startswith "http" test_image in
  iceball_file <- (if delete_iceball then get_iceball_with_http test_image "/tmp" else ret test_image) ;;
  let remote_iceball_file := path_join "/tmp" (base_name iceball_file) in
  call "put_file" [cal_svr; iceball_file; remote_iceball_file] ;;
  icetype <- icetype_of iceball_file ;;
  unpack cal_svr icetype remote_iceball_file ;;
  initialize config cal_svr icetype ;;
  finally body
    (match icetype with Iso => run_ cal_svr ["sudo"; "umount"; iso_mountpoint] | Tarball => ret tt end ;;
     when delete_iceball (call "os.unlink" [iceball_file] ;; ret tt)).

(** *** zbkc on the machines *)

(** The roles of all machines, each as its type and its number, with the name of the machine *)
Definition role_parts (name role : string) : MG (string * string * string) :=
  match split_on "."%char role with [t; n] => ret (name, t, n) | _ => raise (ValueError "too many values to unpack") end.
Definition all_roles (l : list (remote * list string)) : MG (list (string * string * string)) :=
  parts <- map_ (fun rr => map_ (role_parts (shortname rr.1)) rr.2) l ;; ret (concat parts).
Definition hosts_of (type_ : string) (parts : list (string * string * string)) : list string :=
  set_iter (map (fun x => x.1.1) (filter (fun x => x.1.2 = type_) parts)).
(** [osd_to_name] *)
Definition osd_names (parts : list (string * string * string)) : dict :=
  fold_left (fun d x => if String.eqb x.1.2 "osd" then dict_set x.2 (PStr x.1.1) d else d) parts [].
Definition deploy_cmds (use_install_repo : bool) (machines mons osds : list string) : list string :=
  let on cmd hosts := cmd +:+ str_join " " hosts in
  [on "zbkc-deploy new " mons] ++
  (if use_install_repo then
     [on "zbkc-deploy repo zbkc-mon " mons; on "zbkc-deploy install --no-adjust-repos --mon " mons;
      on "zbkc-deploy repo zbkc-osd " osds; on "zbkc-deploy install --no-adjust-repos --osd " osds;
      "zbkc-deploy install --no-adjust-repos --cli `hostname`"]
   else [on "zbkc-deploy install " machines]) ++
  ["zbkc-deploy mon create-initial"].
(** One command for every OSD; its disk goes by how many the machine has had so far *)
Definition disk_labels : string := "_dcba".
Definition deploy_step (cal_svr : remote) (cmd_pts : list string) (cnt : gmap string nat) (osd_mac : string) : MG (gmap string nat) :=
  let n := Datatypes.S (default 0%nat (cnt !! osd_mac)) in
  label <- of_option IndexError (String.get n disk_labels) ;;
  let disk_id := osd_mac +:+ ":vd" +:+ String label EmptyString in
  let disk_id := if bool_decide ("activate" ∈ cmd_pts) then disk_id +:+ "1" else disk_id in
  run_ cal_svr ("zbkc-deploy" :: cmd_pts ++ [disk_id]) ;;
  ret (<[osd_mac := n]> cnt).
Definition deploy_osds (cal_svr : remote) (osds : list string) : MG unit :=
  for_ [["disk"; "zap"]; ["osd"; "prepare"]; ["osd"; "activate"]] (fun cmd_pts =>
    fold_ (deploy_step cal_svr cmd_pts) osds ∅ ;; ret tt).
Definition deploy_zbkc (cal_svr : remote) : MG unit :=
  l <- machines_ ;;
  parts <- all_roles l ;;
  p <- run cal_svr ["/usr/bin/test -d /mnt/MON"] false ;;
  for_ (deploy_cmds (exitstatus p =? 0) (set_iter (map (fun rr => shortname rr.1) l)) (hosts_of "mon" parts) (hosts_of "osd" parts))
    (sh_ cal_svr) ;;
  deploy_osds cal_svr (map (fun kv => py_str kv.2) (osd_names parts)).
(** [ret &= status], from [True] *)
Definition undeploy_zbkc (cal_svr : remote) : MG Z :=
  l <- machines_ ;;
  let used := filter (fun rr => existsb (fun role => str_in "osd" role || str_in "mon" role) rr.2 = true) l in
  let and_status r args (ret_ : Z) := z <- status_of r args ;; ret (Z.land ret_ z) in
  n <- fold_ (fun n rr => and_status rr.1 ["sudo"; "stop"; "zbkc-all"; "||"; "sudo"; "service"; "zbkc"; "stop"] n) used 1 ;;
  let all_machines := set_iter (map (fun rr => shortname rr.1) used) in
  n <- and_status cal_svr (["zbkc-deploy"; "uninstall"] ++ all_machines) n ;;
  n <- and_status cal_svr (["zbkc-deploy"; "purge"] ++ all_machines) n ;;
  fold_ (fun n rr => and_status rr.1 ["sudo"; "rm"; "-rf"; ".ssh/known_hosts"] n) l n.
(** [x.keys()[0] for x in ctx.config['tasks']] *)
Definition task_names : MG (list string) :=
  g <- get ;;
  v <- subscript (PDict (g_config g)) "tasks" ;; l <- as_list v ;;
  map_ (fun x => d <- as_dict x ;; kv <- of_option IndexError (head d) ;; ret kv.1) l.
Definition zbkc_install {A} (cal_svr : remote) (body : MG A) : MG A :=
  names <- task_names ;;
  let loc_inst := negb (bool_decide ("install" ∈ names)) in
  when loc_inst (deploy_zbkc cal_svr) ;;
  finally body (when loc_inst (undeploy_zbkc cal_svr ;; ret tt)).
Definition calamari_connect {A} (cal_svr : remote) (body : MG A) : MG A :=
  l <- machines_ ;;
  p <- run cal_svr (["zbkc-deploy"; "calamari"; "connect"] ++
                    map (fun rr => shortname rr.1) (filter (fun rr => "client.0" ∉ rr.2) l)) true ;;
  must_succeed p "calamari connect failed" ;;
  body.
Definition browser {A} (start_browser : pyval) (web_page : string) (body : MG A) : MG A :=
  when (truthy start_browser) (call "webbrowser.open" ["http://" +:+ web_page] ;; ret tt) ;;
  body.
Definition DEFAULTS : dict :=
  [("version", PStr "v0.80.9"); ("test_image", PNone); ("start_browser", PBool false); ("email", PStr "x@y.com");
   ("no_epel", PBool true); ("calamari_user", PStr "admin"); ("calamari_password", PStr "admin")].
(** [defaults] is what [DEFAULTS] has become; the configuration is that dictionary, updated in place. *)
Definition setup_config (defaults config : dict) : dict := dict_update defaults config.
Definition calamari_setup_task {A} (defaults config : dict) (body : MG A) : MG A :=
  let config := setup_config defaults config in
  g <- get ;;
  cal_svr <- of_option (RuntimeError "client.0 not found in roles") (find_machine (String.eqb "client.0") (the_ctx g)) ;;
  no_epel <- subscript (PDict config) "no_epel" ;;
  start_browser <- subscript (PDict config) "start_browser" ;;
  nested_all
    [adjust_yum_repos cal_svr no_epel; calamari_install config cal_svr; zbkc_install cal_svr; remove_epel no_epel;
     calamari_connect cal_svr; browser start_browser (hostname cal_svr)] body.

(** ** calamari_nosetests.py *)
Definition EXTRA_PKGS : list string := ["git"].
Definition EXTRA_NOSETEST_PKGS : list string := ["python-psutil"; "python-mock"].
Definition find_client0 (c : context) : option remote := find_machine (String.eqb "client.0") c.
Definition install_package (client : remote) (pkg : string) : MG unit := call "install_package" [pkg; client] ;; ret tt.
Definition remove_package (client : remote) (pkg : string) : MG unit := call "remove_package" [pkg; client] ;; ret tt.
Definition create_file (sudo : bool) (client : remote) (path data : string) : MG unit := call "create_file" [client; path; data; py_bool sudo] ;; ret tt.
Definition delete_file (sudo : bool) (client : remote) (path : string) : MG unit := call "delete_file" [client; path; py_bool sudo] ;; ret tt.
Definition pip (r : remote) (package venv : string) (uninstall force : bool) : MG unit :=
  run_ r (["sudo"; if String.eqb venv EmptyString then "pip" else path_join (path_join venv "bin") "pip"] ++
          (if uninstall then ["uninstall"; "-y"] else "install" :: (if force then ["-I"] else [])) ++ [package]).
Definition epel_repo : string := "/etc/yum.repos.d/epel.repo".
Definition epel_text (version : string) : string :=
  script ["[epel]"; "name=epel" +:+ version;
          "metalink=http://mirrors.fedoraproject.org/metalink?repo=epel-" +:+ version +:+ "&arch=$basearch"; "enabled=0"; "gpgcheck=0"].
Definition install_epel {A} (r : remote) (body : MG A) : MG A :=
  if String.eqb (package_type r) "deb" then body
  else
    finally
      (create_file true r epel_repo (epel_text (default EmptyString (head (split_on "."%char (os_version r))))) ;;
       sh_ r "sudo yum clean all" ;;
       body)
      (delete_file true r epel_repo).
Definition enable_epel (r : remote) (enable : bool) : MG unit :=
  run_ r ["sudo"; "sed"; "-i"; if enable then "s/enabled=0/enabled=1/" else "s/enabled=1/enabled=0/"; epel_repo] ;;
  sh_ r "sudo yum clean all".
Definition install_extra_pkgs {A} (client : remote) (body : MG A) : MG A :=
  finally (for_ EXTRA_PKGS (install_package client) ;; body) (for_ EXTRA_PKGS (remove_package client)).
Definition clone_calamari {A} (config : dict) (client : remote) (body : MG A) : MG A :=
  let branch := py_str (dict_get "calamari_branch" (PStr "master") config) in
  let url := py_str (dict_get "calamari_giturl" (PStr "git://github.com/zbkc/calamari") config) in
  finally
    (p <- run client ["git ls-remote " +:+ url +:+ " " +:+ branch] true ;;
     when (String.eqb (stdout p) EmptyString) (raise (RuntimeError ("Calamari branch " +:+ branch +:+ " doesn't exist"))) ;;
     sh_ client ("git clone -b " +:+ branch +:+ " " +:+ url) ;;
     body)
    (sh_ client "sudo rm -rf calamari").
Definition info_of (l : list (remote * list string)) : dict :=
  [("cluster", PDict (map (fun rr => (rr.1, PDict [("roles", PList (map PStr rr.2))])) l))].
Definition info_yaml : string := "calamari/info.yaml".
Definition write_info_yaml {A} (client : remote) (body : MG A) : MG A :=
  finally (l <- machines_ ;; create_file false client info_yaml (yaml_text (info_of l)) ;; body) (delete_file false client info_yaml).
Definition test_conf : string := "calamari/tests/test.conf".
Definition test_conf_text : string :=
  script ["[testing]"; EmptyString; "calamari_control = external"; "zbkc_control = external"; "bootstrap = False"; "api_username = admin";
          "api_password = admin"; "embedded_timeout_factor = 1"; "external_timeout_factor = 3"; "external_cluster_path = info.yaml"].
Definition write_test_conf {A} (client : remote) (body : MG A) : MG A :=
  finally (create_file false client test_conf test_conf_text ;; body) (delete_file false client test_conf).
Definition venv_ : string := "/opt/calamari/venv".
Definition develop (undo : list string) : list string :=
  ["cd"; "calamari/rest-api"; ";"; "sudo"; "/opt/calamari/venv/bin/python"; "setup.py"; "develop"] ++ undo.
Definition prepare_nosetest_env {A} (client : remote) (body : MG A) : MG A :=
  let rpm := String.eqb (package_type client) "rpm" in
  finally
    (when rpm (enable_epel client true) ;;
     for_ EXTRA_NOSETEST_PKGS (install_package client) ;;
     when rpm (enable_epel client false) ;;
     pip client "nose" venv_ false true ;;
     pip client "requests" venv_ false true ;;
     run_ client (develop []) ;;
     run_ client ["sudo"; "chmod"; "a+x"; "."; "./calamari"; "./calamari/rest-api"] ;;
     sh_ client "wget -q -O /dev/null http://localhost" ;;
     sh_ client ("sudo chmod a+w /var/log/calamari" +:+ "/*") ;;
     body)
    (run_ client (develop ["-u"]) ;;
     for_ ["nose"; "requests"] (fun pkg => pip client pkg venv_ true false) ;;
     for_ EXTRA_NOSETEST_PKGS (remove_package client)).
Definition run_nosetests {A} (client : remote) (body : MG A) : MG A :=
  run_ client ["cd"; "calamari"; ";"; "CALAMARI_CONFIG=/etc/calamari/calamari.conf"; "/opt/calamari/venv/bin/nosetests"; "-v"; "tests/"] ;;
  body.
Definition calamari_nosetests_task {A} (config : dict) (body : MG A) : MG A :=
  g <- get ;;
  client0 <- of_option (RuntimeError "must have client.0 role") (find_client0 (the_ctx g)) ;;
  nested_all
    [install_epel client0; install_extra_pkgs client0; clone_calamari config client0; write_info_yaml client0; write_test_conf client0;
     prepare_nosetest_env client0; run_nosetests client0] body.

(** ** devstack.py *)
Definition DS_STABLE_BRANCHES : list string := ["havana"; "grizzly"].
Definition is_devstack_node (role : string) : bool := startswith "devstack" role.
Definition is_osd_node (role : string) : bool := startswith "osd" role.
(** [ctx.cluster.only(p).remotes.keys()[0]] *)
Definition first_node (p : string -> bool) : MG remote := g <- get ;; of_option IndexError (find_machine p (the_ctx g)).
Definition devstack_branch (branch : string) : string :=
  if bool_decide (branch ∈ DS_STABLE_BRANCHES) && negb (startswith "stable" branch) then "stable/" +:+ branch else branch.
Definition install_devstack (node : remote) (branch : string) : MG unit :=
  run_ node ["git"; "clone"; "https://github.com/openstack-dev/devstack.git"] ;;
  when (negb (String.eqb branch "master")) (sh_ node ("cd devstack && git checkout " +:+ devstack_branch branch)) ;;
  run_ node ["cd"; "devstack"; "&&"; "./stack.sh"].
Definition create_pools (zbkc_node : remote) (pool_size : pyval) : MG unit :=
  for_ ["volumes"; "images"; "backups"] (fun pool_name =>
    run_ zbkc_node ["sudo"; "zbkc"; "osd"; "pool"; "create"; pool_name; py_str pool_size]).
Definition sudo_write_file (r : remote) (path data : string) : MG unit := call "sudo_write_file" [r; path; data] ;; ret tt.
Definition distribute_zbkc_conf (devstack_node zbkc_node : remote) : MG unit :=
  zbkc_conf <- file FGet zbkc_node "/etc/zbkc/zbkc.conf" ;;
  sudo_write_file devstack_node "/etc/zbkc/zbkc.conf" zbkc_conf.
Definition auth_cmd (key osd_caps : string) : list string :=
  ["sudo"; "zbkc"; "auth"; "get-or-create"; key; "mon"; "allow r"; "osd"; "allow class-read object_prefix rbd_children, " +:+ osd_caps].
Definition generate_zbkc_keys (zbkc_node : remote) : MG unit :=
  for_ [auth_cmd "client.cinder" "allow rwx pool=volumes, allow rx pool=images"; auth_cmd "client.glance" "allow rwx pool=images";
        auth_cmd "client.cinder-backup" "allow rwx pool=backups"] (run_ zbkc_node).
Definition copy_key (from_remote to_remote : remote) (key_name dest_path : string) : MG unit :=
  p <- run from_remote ["sudo"; "zbkc"; "auth"; "get-or-create"; key_name] true ;;
  sudo_write_file to_remote dest_path (stdout p).
Definition distribute_zbkc_keys (devstack_node zbkc_node : remote) : MG unit :=
  for_ [("client.glance", "/etc/zbkc/zbkc.client.glance.keyring"); ("client.cinder", "/etc/zbkc/zbkc.client.cinder.keyring");
        ("client.cinder-backup", "/etc/zbkc/zbkc.client.cinder-backup.keyring")]
    (fun key => copy_key zbkc_node devstack_node key.1 key.2).
Definition secret_text (uuid : string) : string :=
  nls +:+ str_join nls
    ["<secret ephemeral='no' private='no'>"; "    <uuid>" +:+ uuid +:+ "</uuid>"; "    <usage type='zbkc'>";
     "        <name>client.cinder secret</name>"; "    </usage>"; "</secret>"].
Definition set_libvirt_secret (devstack_node zbkc_node : remote) : MG string :=
  p <- run zbkc_node ["sudo"; "zbkc"; "auth"; "get-key"; "client.cinder"] true ;;
  let cinder_key := str_strip (stdout p) in
  p <- run devstack_node ["uuidgen"] true ;;
  let uuid := str_strip (stdout p) in
  sudo_write_file devstack_node "/tmp/secret.xml" (secret_text uuid) ;;
  run_ devstack_node ["sudo"; "virsh"; "secret-define"; "--file"; "/tmp/secret.xml"] ;;
  run_ devstack_node ["sudo"; "virsh"; "secret-set-value"; "--secret"; uuid; "--base64"; cinder_key] ;;
  ret uuid.
Definition config_updates (secret_uuid : string) : list (string * list (string * string)) :=
  [("/etc/glance/glance-api.conf",
    [("default_store", "rbd"); ("rbd_store_user", "glance"); ("rbd_store_pool", "images"); ("show_image_direct_url", "True")]);
   ("/etc/cinder/cinder.conf",
    [("volume_driver", "cinder.volume.drivers.rbd.RBDDriver"); ("rbd_pool", "volumes"); ("rbd_zbkc_conf", "/etc/zbkc/zbkc.conf");
     ("rbd_flatten_volume_from_snapshot", "false"); ("rbd_max_clone_depth", "5"); ("glance_api_version", "2"); ("rbd_user", "cinder");
     ("rbd_secret_uuid", secret_uuid); ("backup_driver", "cinder.backup.drivers.zbkc"); ("backup_zbkc_conf", "/etc/zbkc/zbkc.conf");
     ("backup_zbkc_user", "cinder-backup"); ("backup_zbkc_chunk_size", "134217728"); ("backup_zbkc_pool", "backups");
     ("backup_zbkc_stripe_unit", "0"); ("backup_zbkc_stripe_count", "0"); ("restore_discard_excess_bytes", "true")]);
   ("/etc/nova/nova.conf",
    [("libvirt_images_type", "rbd"); ("libvirt_images_rbd_pool", "volumes"); ("libvirt_images_rbd_zbkc_conf", "/etc/zbkc/zbkc.conf");
     ("rbd_user", "cinder"); ("rbd_secret_uuid", secret_uuid); ("libvirt_inject_password", "false"); ("libvirt_inject_key", "false");
     ("libvirt_inject_partition", "-2")])].
Definition update_config (config_str : string) (options : list (string * string)) : MG string :=
  call "ConfigParser.read_file" [config_str] ;;
  for_ options (fun kv => call "ConfigParser.set" ["DEFAULT"; kv.1; kv.2] ;; ret tt) ;;
  call "ConfigParser.write" [].
Definition update_devstack_config_files (node : remote) (secret_uuid : string) : MG unit :=
  for_ (config_updates secret_uuid) (fun update =>
    config_str <- file FGet node update.1 ;;
    run_ node ["cp"; "-f"; update.1; update.1 +:+ ".orig.teuth"] ;;
    new <- update_config config_str update.2 ;;
    sudo_write_file node update.1 new).
Definition set_apache_servername (node : remote) : MG unit :=
  sudo_write_file node "/etc/apache2/conf.d/servername" ("ServerName " +:+ hostname node).
Definition start_devstack (node : remote) : MG unit :=
  sh_ node "cd devstack && sed -ie 's/screen -c/screen -dm -c/' rejoin-stack.sh" ;;
  sh_ node "cd devstack && ./rejoin-stack.sh" ;;
  sleep 30.
Definition restart_apache (node : remote) : MG unit := run_ node ["sudo"; "/etc/init.d/apache2"; "restart"].
Definition configure_devstack_and_zbkc (config : dict) (devstack_node zbkc_node : remote) : MG unit :=
  create_pools zbkc_node (dict_get "pool_size" (PStr "128") config) ;;
  distribute_zbkc_conf devstack_node zbkc_node ;;
  generate_zbkc_keys zbkc_node ;;
  distribute_zbkc_keys devstack_node zbkc_node ;;
  secret_uuid <- set_libvirt_secret devstack_node zbkc_node ;;
  update_devstack_config_files devstack_node secret_uuid ;;
  set_apache_servername devstack_node ;;
  call "reboot" [devstack_node] ;;
  start_devstack devstack_node ;;
  restart_apache devstack_node.
Definition install {A} (config : dict) (body : MG A) : MG A :=
  devstack_node <- first_node is_devstack_node ;;
  an_osd_node <- first_node is_osd_node ;;
  branch <- as_str (dict_get "branch" (PStr "master") config) ;;
  install_devstack devstack_node branch ;;
  configure_devstack_and_zbkc config devstack_node an_osd_node ;;
  body.
Definition exercise {A} (body : MG A) : MG A :=
  devstack_node <- first_node is_devstack_node ;;
  sh_ devstack_node "cd devstack && ./exercise.sh" ;;
  body.
Definition create_devstack_archive (node : remote) : MG string :=
  dir <- tdir_ ;;
  let devstack_archive_dir := dir +:+ "/archive/devstack" in
  sh_ node ("mkdir -p " +:+ devstack_archive_dir) ;;
  ret devstack_archive_dir.
(** What both listings printed, the first of which may fail *)
Definition list_volumes (zbkc_node : remote) : MG string :=
  p <- run zbkc_node ["rbd --id cinder ls -l volumes"] false ;;
  if exitstatus p =? 0 then ret (stdout p)
  else p' <- run zbkc_node ["rbd ls -l volumes"] true ;; ret (stdout p +:+ stdout p').
Definition create_volume (devstack_node zbkc_node : remote) (vol_name : string) (size : Z) : MG string :=
  p <- run devstack_node ["source"; "devstack/openrc"; "&&"; "cinder"; "create"; "--display-name"; vol_name; zs size] true ;;
  vol_info <- parse_os_table (stdout p) ;;
  listing <- list_volumes zbkc_node ;;
  id_ <- subscript (PDict vol_info) "id" ;;
  assert_ (str_in (py_str id_) listing) "Volume not found on Zbkc cluster" ;;
  vol_size <- subscript (PDict vol_info) "size" ;;
  assert_ (eq_str vol_size (zs size)) "Volume size on Zbkc cluster is different than specified" ;;
  ret (py_str id_).
Definition smoke {A} (body : MG A) : MG A :=
  devstack_node <- first_node is_devstack_node ;;
  an_osd_node <- first_node is_osd_node ;;
  create_volume devstack_node an_osd_node "smoke0" 1 ;;
  body.
Definition devstack_task {A} (config : pyval) (body : MG A) : MG A :=
  config <- match config with PNone => ret [] | PDict d => ret d | _ => raise (TypeError "config must be a dict") end ;;
  nested_all [install config; smoke] body.

(** ** buildpackages.py *)

(** The flavor, the tag, the branch and the commit to build *)
Abbreviation build := (pyval * pyval * pyval * pyval)%type.
Definition get_pkg_type (os_type : string) : string :=
  if bool_decide (os_type ∈ ["centos"; "fedora"; "opensuse"; "rhel"; "sles"]) then "rpm" else "deb".
Definition apply_overrides (config : pyval) : MG dict :=
  config <- match config with
            | PNone => ret []
            | PDict d => ret d
            | _ => raise (AssertionError "task install only supports a dictionary for configuration")
            end ;;
  let project := py_str (dict_get "project" (PStr "zbkc") config) in
  g <- get ;;
  let overrides := dict_get "overrides" PNone (g_config g) in
  if truthy overrides then
    o <- as_dict overrides ;;
    install_overrides <- as_dict (dict_get "install" (PDict []) o) ;;
    ret (deep_merge config (dict_get project (PDict []) install_overrides))
  else ret config.
Definition get_config_install (config : pyval) : MG (list build) :=
  config <- apply_overrides config ;;
  ret [(dict_get "flavor" (PStr "basic") config, dict_get "tag" (PStr EmptyString) config, dict_get "branch" (PStr EmptyString) config,
        dict_get "sha1" PNone config)].
(** What is overridden are only defaults here. *)
Definition upgrade_build (role_config : pyval) : MG build :=
  role_config <- match role_config with PNone => ret [] | v => as_dict v end ;;
  o <- apply_overrides (PDict role_config) ;;
  ret (dict_get "flavor" (PStr "basic") o, dict_get "tag" (dict_get "tag" (PStr EmptyString) o) role_config,
       dict_get "branch" (dict_get "branch" (PStr EmptyString) o) role_config, dict_get "sha1" (dict_get "sha1" PNone o) role_config).
Definition get_config_install_upgrade (config : pyval) : MG (list build) :=
  d <- as_dict config ;; map_ (fun kv => upgrade_build kv.2) d.
(** [GET_CONFIG_FUNCTIONS[key]] *)
Definition get_config (key : string) (value : pyval) : MG (list build) :=
  if String.eqb key "install" then get_config_install value else get_config_install_upgrade value.
Definition is_install (key : string) : bool := String.eqb key "install" || String.eqb key "install.upgrade".
Fixpoint lookup_configs (node : pyval) : MG (list build) :=
  match node with
  | PList l =>
      (fix leaves l := match l with
                       | [] => ret []
                       | leaf :: l' => a <- lookup_configs leaf ;; b <- leaves l' ;; ret (a ++ b)
                       end) l
  | PDict d =>
      (fix items d := match d with
                      | [] => ret []
                      | (key, value) :: d' =>
                          a <- (if is_install key then get_config key value
                                else if String.eqb key "overrides" then ret []
                                else lookup_configs value) ;;
                          b <- items d' ;;
                          ret (a ++ b)
                      end) d
  | _ => ret []
  end.

Section Build.
(** [get_zbkc_git_url()], the directory of the tasks, [$HOME], the distribution and its version, the name a builder has for them
    and the machine type OpenStack takes when none is configured *)
Context (zbkc_git_url tasks_dir home os_type os_version_ dist default_arch : string).
Definition get_sha1 (ref : string) : MG string :=
  ls_remote <- call "sh" ["git ls-remote " +:+ zbkc_git_url +:+ " " +:+ ref] ;;
  of_option IndexError (head (split_ws ls_remote)).
(** [tag], or else [branch], decides the commit when it is set; a commit that is none cannot be printed. *)
Definition commit_of (b : build) : MG string :=
  let '(_, tag, branch, sha1) := b in
  if truthy tag then t <- as_str tag ;; get_sha1 t
  else if truthy branch then t <- as_str branch ;; get_sha1 t
  else as_str sha1.
Definition build_dir : string := path_join tasks_dir "buildpackages".
Definition target_of (arch flavor sha1 : string) : string :=
  "zbkc-" +:+ get_pkg_type os_type +:+ "-" +:+ dist +:+ "-" +:+ arch +:+ "-" +:+ flavor +:+ "-" +:+ sha1.
Definition make_cmd (network arch sha1 tag branch flavor build_flavor http_flavor http_arch : string) : string :=
  ". " +:+ home +:+ "/.ssh_agent ; " +:+ " flock --close " +:+ "/tmp/buildpackages-" +:+ sha1 +:+ "-" +:+ os_type +:+ "-" +:+ os_version_ +:+
  " make -C " +:+ build_dir +:+ network +:+ " ZBKC_GIT_URL=" +:+ zbkc_git_url +:+ " ZBKC_PKG_TYPE=" +:+ get_pkg_type os_type +:+
  " ZBKC_OS_TYPE=" +:+ os_type +:+ " ZBKC_OS_VERSION=" +:+ os_version_ +:+ " ZBKC_DIST=" +:+ dist +:+ " ZBKC_ARCH=" +:+ arch +:+
  " ZBKC_SHA1=" +:+ sha1 +:+ " ZBKC_TAG=" +:+ tag +:+ " ZBKC_BRANCH=" +:+ branch +:+ " ZBKC_FLAVOR=" +:+ flavor +:+
  " BUILD_FLAVOR=" +:+ build_flavor +:+ " HTTP_FLAVOR=" +:+ http_flavor +:+ " HTTP_ARCH=" +:+ http_arch +:+
  " " +:+ target_of arch flavor sha1 +:+ " ".
Definition build_one (config : dict) (arch : string) (b : build) : MG unit :=
  sha1 <- commit_of b ;;
  let '(flavor, tag, branch, _) := b in
  flavor <- as_str flavor ;; tag <- as_str tag ;; branch <- as_str branch ;;
  call "set_provider" [] ;;
  provider <- call "provider" [] ;;
  let select := if String.eqb provider "ovh" then "^(vps|hg)-.*ssd" else EmptyString in
  net <- call "net" [] ;;
  let network := if String.eqb net EmptyString then EmptyString else " OPENSTACK_NETWORK='" +:+ net +:+ "' " in
  call "image" [os_type; os_version_; arch] ;;
  min_machine <- subscript (PDict config) "min_machine" ;;
  good_machine <- subscript (PDict config) "good_machine" ;;
  build_flavor <- call "flavor_range" [py_str min_machine; py_str good_machine; arch; select] ;;
  http_flavor <- call "flavor" [py_str (PDict [("disk", PInt 30); ("ram", PInt 1024); ("cpus", PInt 1)]); default_arch; select] ;;
  call "sh" [make_cmd network arch sha1 tag branch flavor build_flavor http_flavor default_arch] ;;
  ret tt.
(** The last [openstack] of the loop is used after it. *)
Definition buildpackages_task (config : pyval) : MG unit :=
  config <- match config with
            | PNone => ret []
            | PDict d => ret d
            | _ => raise (AssertionError "task only accepts a dict for config not ")
            end ;;
  g <- get ;;
  o <- as_dict (dict_get "overrides" (PDict []) (g_config g)) ;;
  let config := deep_merge config (dict_get "buildpackages" (PDict []) o) in
  arch <- as_str (dict_get "arch" (PStr default_arch) (g_config g)) ;;
  call "sh" ["flock --close /tmp/buildpackages " +:+ "make -C " +:+ build_dir +:+ " " +:+ home +:+ "/.ssh_agent"] ;;
  builds <- lookup_configs (PDict (g_config g)) ;;
  for_ builds (build_one config arch) ;;
  when (match builds with [] => true | _ => false end) (raise (OtherError "UnboundLocalError")) ;;
  call "get_ip" ["packages-repository"; EmptyString] ;;
  ret tt.
End Build.
End Installs.

(** ** Computations that no run tells apart *)
Section Same.
Context {E : Env} {S : Type}.
Definition same {A} : relation (M S A) := fun m m' => forall s w, m s w = m' s w.
#[export] Instance same_equivalence {A} : Equivalence (same (A := A)).
Proof. split; [by intros m s w|by intros m m' H s w|]. intros m1 m2 m3 H1 H2 s w. by rewrite H1. Qed.
#[export] Instance bind_same {A B} : Proper (same ==> pointwise_relation A same ==> same) (bind (S := S) (A := A) (B := B)).
Proof. intros m m' Hm k k' Hk s w. unfold bind. rewrite (Hm s w). destruct (m' s w) as [[[a|e|] s1] w1]; [apply Hk|done..]. Qed.
Lemma bind_assoc {A B C} (m : M S A) (k : A -> M S B) (h : B -> M S C) :
  same (bind (bind m k) h) (bind m (fun a => bind (k a) h)).
Proof. intros s w. unfold bind. by destruct (m s w) as [[[a|e|] s1] w1]. Qed.
Lemma ret_bind {A B} (a : A) (k : A -> M S B) : same (bind (ret a) k) (k a).
Proof. by intros s w. Qed.
Lemma bind_ret {A} (m : M S A) : same (bind m ret) m.
Proof. intros s w. unfold bind. by destruct (m s w) as [[[a|e|] s1] w1]. Qed.
(** The results of a loop over two lists, put together *)
Definition collect_ {A B} (f : A -> M S (list B)) (l : list A) : M S (list B) := ls <- map_ f l ;; ret (concat ls).
Lemma collect_cons {A B} (f : A -> M S (list B)) x l :
  same (collect_ f (x :: l)) (a <- f x ;; b <- collect_ f l ;; ret (a ++ b)).
Proof.
  unfold collect_. cbn [map_]. rewrite bind_assoc. apply bind_same; [done|intros a]. rewrite !bind_assoc.
  apply bind_same; [done|intros ls]. by rewrite !ret_bind.
Qed.
Lemma collect_one {A B} (f : A -> M S (list B)) x : same (collect_ f [x]) (f x).
Proof.
  rewrite collect_cons. rewrite <- (bind_ret (f x)) at 2. apply bind_same; [done|intros a]. unfold collect_. cbn [map_ concat].
  rewrite !ret_bind. cbn. by rewrite app_nil_r.
Qed.
Lemma collect_app {A B} (f : A -> M S (list B)) l l' :
  same (collect_ f (l ++ l')) (a <- collect_ f l ;; b <- collect_ f l' ;; ret (a ++ b)).
Proof.
  induction l as [|x l IH]; cbn [app].
  - unfold collect_ at 2. cbn [map_]. rewrite !ret_bind. cbn [concat app]. by rewrite bind_ret.
  - rewrite !collect_cons, bind_assoc. apply bind_same; [done|intros a]. rewrite IH, !bind_assoc.
    apply bind_same; [done|intros b]. rewrite ret_bind, bind_assoc. apply bind_same; [done|intros c]. by rewrite ret_bind, (assoc_L (++)).
Qed.
End Same.

(** ** The tasks of a job that install packages *)

(** The install tasks below a node, in order: what is under [overrides], or inside an install task, does not count *)
Fixpoint installs (node : pyval) : list (string * pyval) :=
  match node with
  | PList l => (fix leaves l := match l with [] => [] | leaf :: l' => installs leaf ++ leaves l' end) l
  | PDict d =>
      (fix items d := match d with
                      | [] => []
                      | (key, value) :: d' =>
                          (if is_install key then [(key, value)]
                           else if String.eqb key "overrides" then [] else installs value) ++ items d'
                      end) d
  | _ => []
  end.
Inductive install_in : pyval -> string -> pyval -> Prop :=
| in_leaf l leaf k v : leaf ∈ l -> install_in leaf k v -> install_in (PList l) k v
| in_task d k v : (k, v) ∈ d -> is_install k = true -> install_in (PDict d) k v
| in_item d key value k v : (key, value) ∈ d -> is_install key = false -> key <> "overrides" -> install_in value k v ->
    install_in (PDict d) k v.

Section Node.
(** The induction that goes below the nodes of a document *)
Context (P : pyval -> Prop)
        (leaf : forall v, (forall l, v <> PList l) -> (forall d, v <> PDict d) -> P v)
        (at_list : forall l, Forall P l -> P (PList l))
        (at_dict : forall d : dict, Forall (fun kv => P kv.2) d -> P (PDict d)).
Fixpoint node_ind (v : pyval) : P v.
Proof.
  destruct v as [| | | | |l|d]; try (apply leaf; congruence).
  - apply at_list. induction l as [|x l IH]; constructor; [apply node_ind|exact IH].
  - apply at_dict. induction d as [|x d IH]; constructor; [apply node_ind|exact IH].
Defined.
End Node.

Lemma item_installs key x k v : (forall k v, (k, v) ∈ installs x <-> install_in x k v) ->
  (k, v) ∈ (if is_install key then [(key, x)] else if String.eqb key "overrides" then [] else installs x) <->
  is_install key = true /\ (key, x) = (k, v) \/ is_install key = false /\ key <> "overrides" /\ install_in x k v.
Proof.
  intros Hx. destruct (is_install key) eqn:Hk; [|destruct (String.eqb_spec key "overrides")].
  - rewrite list_elem_of_singleton. naive_solver.
  - rewrite elem_of_nil. naive_solver.
  - rewrite Hx. naive_solver.
Qed.
Lemma installs_in node k v : (k, v) ∈ installs node <-> install_in node k v.
Proof.
  revert k v. induction node as [x Hl Hd|l IH|d IH] using node_ind; intros k v.
  - split; [|by inversion 1; subst; [destruct (Hl l)|destruct (Hd d)..]].
    destruct x; try (by intros ?%not_elem_of_nil); [by destruct (Hl l)|by destruct (Hd d)].
  - transitivity (exists x, x ∈ l /\ install_in x k v); [|split; [intros (x & ? & ?); by econstructor|intros Hi; inversion Hi; eauto]].
    induction IH as [|x l Hx _ IHl]; cbn [installs]; [set_solver|]. rewrite elem_of_app, Hx, IHl. set_solver.
  - transitivity (exists key x, (key, x) ∈ d /\ (is_install key = true /\ (key, x) = (k, v) \/
      is_install key = false /\ key <> "overrides" /\ install_in x k v)).
    + induction IH as [|[key x] d Hx _ IHd]; cbn [installs]; [set_solver|]. rewrite elem_of_app, IHd, item_installs by done.
      setoid_rewrite elem_of_cons. clear. naive_solver.
    + split.
      * intros (key & x & Hy & [[? [= -> ->]]|(? & ? & ?)]); [by apply in_task|by eapply in_item].
      * intros Hi. inversion Hi; subst; eexists _, _; eauto 6.
Qed.

Section Lookup.
Context {E : Env} (deep_merge : dict -> pyval -> dict).
Abbreviation get_config := (get_config deep_merge).
Abbreviation lookup_configs := (lookup_configs deep_merge).
Lemma lookup_collects node : same (lookup_configs node) (collect_ (fun kv => get_config kv.1 kv.2) (installs node)).
Proof.
  induction node as [x Hl Hd|l IH|d IH] using node_ind.
  - destruct x; try done; [by destruct (Hl l)|by destruct (Hd d)].
  - induction IH as [|x l Hx _ IHl]; [done|]. cbn [InstallTasks.lookup_configs installs] in *. rewrite collect_app.
    apply bind_same; [done|intros a]. apply bind_same; [apply IHl|done].
  - induction IH as [|[key x] d Hx _ IHd]; [done|]. cbn [InstallTasks.lookup_configs installs] in *. rewrite collect_app.
    apply bind_same; [|intros a; apply bind_same; [apply IHd|done]]. destruct (is_install key); [by rewrite collect_one|].
    by destruct (String.eqb key "overrides").
Qed.
(** C32: buildpackages.py finds the packages to build by walking through the whole job: what it collects are the configurations
    of exactly the install and install.upgrade tasks at any depth, outside overrides and other install tasks, in order. *)
Theorem lookup_configs_spec (node : pyval) :
  (forall key value, (key, value) ∈ installs node <-> install_in node key value) /\
  forall s w, lookup_configs node s w = (ls <- map_ (fun kv => get_config kv.1 kv.2) (installs node) ;; ret (concat ls)) s w.
Proof. split; [intros; apply installs_in|apply lookup_collects]. Qed.

(** A job without an install task: there is no [openstack] to ask for the address of the packages. *)
Theorem nothing_to_build_fails (url dir home os ver dist arch : string) (config : pyval) (g : gw) (w : world) :
  installs (PDict (g_config g)) = [] ->
  wp (buildpackages_task deep_merge url dir home os ver dist arch config) (fun o _ _ => ~ is_ret o) g w.
Proof.
  intros Hn. unfold buildpackages_task. destruct config; try (by intros []).
  all: apply wp_bind, wp_ret; unfold then_ at 1; apply wp_bind, wp_get; unfold then_ at 1.
  all: do 3 (apply wp_bind_any; [intros ? ? ?|by intros ??? []|by intros ?? []]).
  all: apply wp_bind; unfold wp at 1; rewrite lookup_collects, Hn; unfold collect_; cbn; by intros [].
Qed.
End Lookup.

(** ** Printing a table and reading it back *)
Section Tables.
Context {E : Env}.
(** The padding before and after a cell, which its column decides *)
Context (pad : string -> nat * nat).
Definition cell (s : string) : string := padding (pad s).1 +:+ (s +:+ padding (pad s).2).
Definition os_row (kv : string * string) : string := "| " +:+ cell kv.1 +:+ " | " +:+ cell kv.2 +:+ " |".
Definition os_table (rule : string) (rows : list (string * string)) : string := str_join nls (rule :: map os_row rows ++ [rule]).
Definition words_ok (kv : string * string) : Prop := is_word kv.1 = true /\ is_word kv.2 = true.

Lemma cell_words s : is_word s = true -> split_ws (cell s) = [s].
Proof. intros Hs. unfold cell. by rewrite split_ws_padding, split_ws_padded. Qed.
Lemma os_row_words kv : words_ok kv -> split_ws (os_row kv) = ["|"; kv.1; "|"; kv.2; "|"].
Proof.
  intros [Hk Hv]. unfold os_row.
  change (split_ws ("|" +:+ String " "%char (cell kv.1 +:+ String " "%char ("|" +:+ String " "%char (cell kv.2 +:+ String " "%char "|")))) =
          ["|"; kv.1; "|"; kv.2; "|"]).
  rewrite !split_ws_app, !cell_words by done. done.
Qed.
Lemma padding_line n : every (is_not nl) (padding n) = true.
Proof. by induction n. Qed.
Lemma word_line s : is_word s = true -> every (is_not nl) s = true.
Proof.
  intros [_ Hs]%andb_true_iff. revert Hs. apply every_impl. intros a. unfold is_not. destruct (Ascii.eqb_spec a nl) as [->|]; [|done]. by intros ?.
Qed.
Lemma os_row_line kv : words_ok kv -> every (is_not nl) (os_row kv) = true.
Proof.
  intros [Hk%word_line Hv%word_line]. unfold os_row, cell. rewrite !every_append, !padding_line, Hk, Hv. done.
Qed.
(** Parse_os_table reads back what the OpenStack clients print: from a table with any padding, between lines that are no
    rows, it gives every property with its value, the last one when a property is repeated. *)
Theorem parse_os_table_reads (rule : string) (rows : list (string * string)) (g : gw) (w : world) :
  startswith "|" rule = false -> every (is_not nl) rule = true -> Forall words_ok rows ->
  parse_os_table (os_table rule rows) g w = (Ret (fold_left (fun d kv => dict_set kv.1 (PStr kv.2) d) rows []), g, w).
Proof.
  intros Hr Hl Hrows. unfold parse_os_table, os_table. change nls with (String nl EmptyString). rewrite split_on_join; [|done|].
  - cbn [fold_]. unfold table_line at 1. rewrite Hr. unfold bind at 1, ret at 1. generalize (@nil (string * pyval)) as d.
    induction Hrows as [|kv rows Hkv Hrows IH]; intros d; cbn [map app fold_ fold_left].
    + unfold table_line. by rewrite Hr.
    + unfold table_line at 1. change (startswith "|" (os_row kv)) with true. cbv iota. rewrite os_row_words by done. cbn. apply IH.
  - constructor; [done|]. apply Forall_app. split; [|by repeat constructor]. apply Forall_map. eapply Forall_impl; [done|]. by intros; apply os_row_line.
Qed.
End Tables.

(** ** Disks of the OSDs *)
Lemma append_cancel a b s : a +:+ s = b +:+ s -> a = b.
Proof.
  intros H. assert (Hl : String.length a = String.length b).
  { apply (f_equal String.length) in H. rewrite !length_append in H. lia. }
  revert b H Hl. induction a as [|x a IH]; intros [|y b] H Hl; try done. cbn in Hl.
  change (String x (a +:+ s) = String y (b +:+ s)) in H. injection H as -> H. f_equal. apply IH; [done|lia].
Qed.
Lemma append_snoc_inj a b x y : a +:+ String x EmptyString = b +:+ String y EmptyString -> a = b /\ x = y.
Proof.
  revert b. induction a as [|c a IH]; intros [|d b] H.
  - by injection H.
  - change (String x EmptyString = String d (b +:+ String y EmptyString)) in H. injection H as _ H.
    apply (f_equal String.length) in H. rewrite length_append in H. cbn in H. lia.
  - change (String c (a +:+ String x EmptyString) = String y EmptyString) in H. injection H as _ H.
    apply (f_equal String.length) in H. rewrite length_append in H. cbn in H. lia.
  - change (String c (a +:+ String x EmptyString) = String d (b +:+ String y EmptyString)) in H. injection H as -> H.
    by destruct (IH _ H) as [-> ->].
Qed.
Definition disk (mac : string) (label : ascii) : string := mac +:+ ":vd" +:+ String label EmptyString.
Lemma disk_inj mac mac' l l' : disk mac l = disk mac' l' -> mac = mac' /\ l = l'.
Proof. unfold disk. rewrite <- !append_assoc. intros [H ->]%append_snoc_inj. split; [|done]. by apply append_cancel in H. Qed.
Lemma label_inj n m l : String.get n disk_labels = Some l -> String.get m disk_labels = Some l -> n = m.
Proof. destruct n as [|[|[|[|[|n]]]]], m as [|[|[|[|[|m]]]]]; cbn; congruence. Qed.

(** The disks of the OSDs on the given machines, when the machines have had [cnt] of them *)
Fixpoint disks (cnt : gmap string nat) (osds : list string) : option (list string) :=
  match osds with
  | [] => Some []
  | mac :: osds' =>
      let n := Datatypes.S (default 0%nat (cnt !! mac)) in
      label ← String.get n disk_labels;
      rest ← disks (<[mac := n]> cnt) osds';
      Some (disk mac label :: rest)
  end.
Lemma disks_above cnt osds ds d : disks cnt osds = Some ds -> d ∈ ds ->
  exists mac n label, mac ∈ osds /\ d = disk mac label /\ String.get n disk_labels = Some label /\ (default 0 (cnt !! mac) < n)%nat.
Proof.
  revert cnt ds. induction osds as [|mac osds IH]; intros cnt ds; cbn [disks]; [by intros [= <-] ?%not_elem_of_nil|].
  intros (label & Hl & (rest & Hr & [= <-])%bind_Some)%bind_Some [->|Hd]%elem_of_cons.
  - exists mac. eexists _, label. split_and!; [set_solver|done|exact Hl|lia].
  - destruct (IH _ _ Hr Hd) as (mac' & n & label' & Hin & -> & Hn & Hlt). exists mac', n, label'. split_and!; [set_solver|done..|].
    destruct (decide (mac = mac')) as [->|Hne]; [rewrite lookup_insert_eq in Hlt; cbn in Hlt; lia|by rewrite lookup_insert_ne in Hlt].
Qed.
Lemma disks_nodup cnt osds ds : disks cnt osds = Some ds -> NoDup ds.
Proof.
  revert cnt ds. induction osds as [|mac osds IH]; intros cnt ds; cbn [disks]; [intros [= <-]; constructor|].
  intros (label & Hl & (rest & Hr & [= <-])%bind_Some)%bind_Some. constructor; [|by eapply IH].
  intros Hin. destruct (disks_above _ _ _ _ Hr Hin) as (mac' & n & label' & _ & [-> ->]%disk_inj & Hn & Hlt).
  rewrite lookup_insert_eq in Hlt. rewrite (label_inj _ _ _ Hl Hn) in Hlt. cbn in Hlt. lia.
Qed.
Lemma disks_machines cnt osds ds : disks cnt osds = Some ds -> Forall2 (fun mac d => exists label, d = disk mac label) osds ds.
Proof.
  revert cnt ds. induction osds as [|mac osds IH]; intros cnt ds; cbn [disks]; [by intros [= <-]|].
  intros (label & Hl & (rest & Hr & [= <-])%bind_Some)%bind_Some. constructor; [by exists label|by eapply IH].
Qed.
(** A machine has four disks. *)
Lemma disks_few cnt osds ds mac : disks cnt osds = Some ds -> (default 0 (cnt !! mac) <= 4)%nat ->
  (default 0 (cnt !! mac) + length (filter (eq mac) osds) <= 4)%nat.
Proof.
  revert cnt ds. induction osds as [|m osds IH]; intros cnt ds; cbn [disks]; [intros; cbn; lia|].
  intros (label & Hl & (rest & Hr & [= <-])%bind_Some)%bind_Some Hc.
  assert (Hn : (Datatypes.S (default 0 (cnt !! m)) <= 4)%nat).
  { destruct (default 0 (cnt !! m))%nat as [|[|[|[|[|k]]]]]; cbn in Hl; lia || done. }
  specialize (IH _ _ Hr). destruct (decide (mac = m)) as [->|Hne].
  - rewrite filter_cons_True by done. rewrite lookup_insert_eq in IH. specialize (IH Hn). cbn [length]. change (default 0%nat (Some ?n)) with n in IH. lia.
  - rewrite filter_cons_False by done. rewrite lookup_insert_ne in IH by done. by apply IH.
Qed.

Section Deploy.
Context {E : Env}.
Definition suffix_of (cmd_pts : list string) : string := if bool_decide ("activate" ∈ cmd_pts) then "1" else EmptyString.
Definition disk_cmds (cal_svr : remote) (cmd_pts : list string) (ds : list string) : list event :=
  map (fun d => EvRun cal_svr ("zbkc-deploy" :: cmd_pts ++ [d +:+ suffix_of cmd_pts])) ds.
Lemma deploy_fold cal_svr cmd_pts osds cnt g w :
  wp (fold_ (deploy_step cal_svr cmd_pts) osds cnt)
    (fun o _ w' => is_ret o -> exists ds, disks cnt osds = Some ds /\ w_trace w' = w_trace w ++ disk_cmds cal_svr cmd_pts ds) g w.
Proof.
  revert cnt g w. induction osds as [|mac osds IH]; intros cnt g w; cbn [fold_ disks].
  { apply wp_ret. intros _. exists []. by rewrite app_nil_r. }
  apply wp_bind. unfold deploy_step. cbv zeta. apply wp_bind, wp_of_option; [|by intros _ []]. intros label Hl. unfold then_ at 1.
  apply wp_bind. unfold run_. apply wp_bind, wp_run_args. intros p c Hp w1 -> _. unfold then_ at 1 2 3 4 5 6.
  destruct (raised p); [by intros []|]. destruct (_ && _); [by intros []|]. apply wp_ret, wp_ret. eapply wp_conseq; [apply IH|].
  intros o g' w' H Ho. destruct (H Ho) as (ds & Hd & Ht). exists (disk mac label :: ds). rewrite Hl. cbn [mbind option_bind]. rewrite Hd.
  split; [done|]. rewrite Ht. cbn [after w_trace]. rewrite <- (assoc_L (++)). cbn [disk_cmds map app]. do 3 f_equal.
  unfold suffix_of, disk. case_bool_decide; [done|]. by rewrite append_nil.
Qed.
Lemma deploy_round cal_svr cmd_pts osds (k : M gw unit) (T : world -> Prop) g w :
  (forall g' w' ds, disks ∅ osds = Some ds -> w_trace w' = w_trace w ++ disk_cmds cal_svr cmd_pts ds ->
     wp k (fun o _ w2 => is_ret o -> T w2) g' w') ->
  wp ((fold_ (deploy_step cal_svr cmd_pts) osds ∅ ;; ret tt) ;; k) (fun o _ w2 => is_ret o -> T w2) g w.
Proof.
  intros Hk. apply wp_bind, wp_bind. eapply wp_conseq; [apply deploy_fold|].
  intros [a|e|] g' w' H; unfold then_; [|by intros []..]. apply wp_ret. destruct (H I) as (ds & ? & ?). by eapply Hk.
Qed.
(** C24: deploying OSDs for Calamari zaps, prepares and activates the same disks: when it returns, it has run the three commands
    for one disk per OSD, on the OSD's machine, no disk twice, in the same order each time, and no machine has more than four. *)
Theorem deploy_same_disks (cal_svr : remote) (osds : list string) (g : gw) (w : world) :
  wp (deploy_osds cal_svr osds) (fun o _ w' => is_ret o -> exists ds,
    NoDup ds /\ Forall2 (fun mac d => exists label, d = disk mac label) osds ds /\
    (forall mac, (length (filter (eq mac) osds) <= 4)%nat) /\
    w_trace w' = w_trace w ++ map (fun d => EvRun cal_svr ["zbkc-deploy"; "disk"; "zap"; d]) ds ++
                 map (fun d => EvRun cal_svr ["zbkc-deploy"; "osd"; "prepare"; d]) ds ++
                 map (fun d => EvRun cal_svr ["zbkc-deploy"; "osd"; "activate"; d +:+ "1"]) ds) g w.
Proof.
  unfold deploy_osds. cbn [for_]. apply deploy_round. intros g1 w1 ds Hd H1. apply deploy_round. intros g2 w2 ds2 Hd2 H2.
  apply deploy_round. intros g3 w3 ds3 Hd3 H3. apply wp_ret. intros _.
  rewrite Hd in Hd2, Hd3. injection Hd2 as <-. injection Hd3 as <-. exists ds.
  split_and!; [by eapply disks_nodup|by eapply disks_machines|intros mac|].
  { pose proof (disks_few ∅ osds ds mac Hd) as H. rewrite lookup_empty in H. apply H. cbn. lia. }
  rewrite H3, H2, H1, <- !(assoc_L (++)). unfold disk_cmds, suffix_of. do 2 f_equal; [|f_equal]; apply map_ext; intros d; cbn; by rewrite ?append_nil.
Qed.
End Deploy.

(** ** What Calamari's set-up leaves behind *)

(** The copies of the package repositories and the mounts, read off the trace *)
Definition setup_step (t : gset (string * string)) (ev : event) : gset (string * string) :=
  match ev with
  | EvRun r ["sudo"; "mv"; "/etc/yum.repos.d"; old] => {[(r, old)]} ∪ t
  | EvRun r ["sudo"; "mkdir"; "/etc/yum.repos.d.old"] => {[(r, repos_old)]} ∪ t
  | EvRun r ["sudo"; "mv"; old; "/etc/yum.repos.d"] => t ∖ {[(r, old)]}
  | EvRun r ["sudo"; "mount"; "-o"; "loop"; "-r"; _; dir] => {[(r, dir)]} ∪ t
  | EvRun r ["sudo"; "umount"; dir] => t ∖ {[(r, dir)]}
  | _ => t
  end.
Definition set_up : list event -> gset (string * string) := after_events setup_step ∅.

Lemma one_word_idle r cmd : idle setup_step (EvRun r [cmd]).
Proof. intros t. cbn. by repeat case_match. Qed.

Section SetupFacts.
Context {E : Env}.
Context (remote_str remote_os os_name system_type shortname hostname : remote -> string)
        (set_iter : list string -> list string).
Variable roles : list (remote * list string).
Abbreviation MG A := (M gw A).
Implicit Types D : gset (string * string).
Abbreviation steady := (steady setup_step).
Abbreviation bound_in := (bound_in (K := string * string) roles).
Abbreviation btriple P m Q := (triple setup_step ∅ P m Q).
Ltac steady_tac := repeat (runs_step || (apply steady_emit; (by intros ?) || apply one_word_idle) || (by apply steady_modify)).

(** A command that is checked has status 0. *)
Lemma status_zero r args s w : wp (status_of r args) (fun o (_ : gw) _ => forall z, o = Ret z -> z = 0) s w.
Proof.
  unfold status_of. apply wp_bind, wp_run_args. intros p c Hp w1 -> _. unfold then_. destruct (raised p); [done|].
  destruct (Z.eqb_spec (exitstatus p) 0) as [H|H]; cbn; [|done]. apply wp_ret. by intros z [= <-].
Qed.
Lemma status_claims D D' r args : (forall t, t ⊆ D -> setup_step t (EvRun r args) ⊆ D') ->
  btriple (bound_in D) (status_of r args) (fun z g t => z = 0 /\ bound_in D' g t).
Proof.
  intros Hs g w Hg. eapply wp_conseq; [apply wp_and; [apply status_zero|]|].
  - assert (H : btriple (bound_in D) (status_of r args) (fun _ => bound_in D')); [|by apply H].
    unfold status_of. eapply triple_bind; [by apply (run_claims setup_step roles D D')|]. intros p. by apply triple_ret.
  - intros o g' w' [H1 H2] z Hz. split; [by apply (H1 z)|by apply (H2 z)].
Qed.
Lemma all_claims D D' r args cmds : (forall t, t ⊆ D -> setup_step t (EvRun r args) ⊆ D') ->
  forall D2, btriple (bound_in D') (all_succeed r cmds) (fun _ => bound_in D2) ->
  btriple (bound_in D) (all_succeed r (args :: cmds)) (fun _ => bound_in D2).
Proof.
  intros Hs D2 Hrest. cbn [all_succeed]. eapply triple_bind; [by apply (status_claims D D')|]. intros z g w [-> Hg]. by apply Hrest.
Qed.
Lemma fix_claims D r distro : btriple (bound_in D) (fix_yum_repos r distro) (fun _ => bound_in ({[(r, repos_old)]} ∪ D)).
Proof.
  unfold fix_yum_repos. eapply (triple_bind _ _ _ _ _ (fun _ => bound_in ({[(r, repos_old)]} ∪ D))).
  - destruct (startswith "centos" distro).
    + apply steady_bind; [by steady_tac|intros _]. apply (all_claims D ({[(r, repos_old)]} ∪ D)); [cbn; set_solver|].
      apply steady_triple. steady_tac.
    + eapply (triple_bind _ _ _ _ _ (fun _ => bound_in ({[(r, repos_old)]} ∪ D))).
      * apply (all_claims D ({[(r, repos_old)]} ∪ D)); [cbn; set_solver|]. apply steady_triple. steady_tac.
      * intros []; [|by apply triple_ret]. apply steady_triple. steady_tac.
  - intros ok. apply steady_triple. destruct ok; steady_tac.
Qed.
Lemma restore_claims D r : btriple (bound_in ({[(r, repos_old)]} ∪ D)) (restore_yum_repos r) (fun _ => bound_in D).
Proof.
  unfold restore_yum_repos. apply (all_claims _ ({[(r, repos_old)]} ∪ D)); [cbn; set_solver|].
  apply (all_claims _ D); [cbn; set_solver|]. by apply triple_ret.
Qed.
(** The copies on the given machines *)
Definition copies (l : list remote) D : gset (string * string) := list_to_set (map (fun r => (r, repos_old)) l) ∪ D.
Lemma fix_all D distro l :
  btriple (bound_in D) (for_ l (fun r => fix_yum_repos r distro ;; ret tt)) (fun _ => bound_in (copies l D)).
Proof.
  revert D. induction l as [|r l IH]; intros D; cbn [for_].
  - apply triple_ret. intros g t [? ?]. split; [done|]. unfold copies. set_solver.
  - eapply (triple_bind _ _ _ _ _ (fun _ => bound_in ({[(r, repos_old)]} ∪ D))).
    + eapply triple_bind; [apply fix_claims|intros ?; by apply triple_ret].
    + intros _. eapply triple_conseq; [apply IH|done|]. intros ? g t [? Ht]. split; [done|]. etrans; [exact Ht|]. unfold copies. set_solver.
Qed.
Lemma restore_all D l :
  btriple (bound_in (copies l D)) (for_ l (fun r => restore_yum_repos r ;; ret tt)) (fun _ => bound_in D).
Proof.
  induction l as [|r l IH]; cbn [for_].
  - apply triple_ret. intros g t [? Ht]. split; [done|]. etrans; [exact Ht|]. unfold copies. set_solver.
  - eapply (triple_bind _ _ _ _ _ (fun _ => bound_in (copies l D))); [|done].
    eapply (triple_bind _ _ _ _ _ (fun _ => bound_in (copies l D))); [|intros ?; by apply triple_ret]. eapply triple_conseq; [apply (restore_claims (copies l D))| |done].
    intros g t [? Ht]. split; [done|]. etrans; [exact Ht|]. unfold copies. set_solver.
Qed.
Lemma machines_claims {B : Type} D D' (k : list (remote * list string) -> MG B) :
  btriple (bound_in D) (k roles) (fun _ => bound_in D') -> btriple (bound_in D) (l <- machines_ ;; k l) (fun _ => bound_in D').
Proof.
  intros Hk g w Hg. unfold machines_. apply wp_bind, wp_bind, wp_get. unfold then_ at 1. apply wp_ret. unfold then_ at 1.
  unfold the_ctx, gw_ctx. rewrite (proj1 Hg). by apply Hk.
Qed.
Lemma adjust_around {A : Type} cal_svr no_epel : Claims.Around setup_step roles (A := A) (adjust_yum_repos remote_os cal_svr no_epel).
Proof.
  intros b Hb D. unfold adjust_yum_repos. destruct (uses_yum remote_os cal_svr no_epel); cbn [when].
  - eapply (triple_bind _ _ _ _ _ (fun _ => bound_in (copies (map fst roles) D))); [apply machines_claims, fix_all|intros _].
    eapply triple_finally; [apply Hb|]. intros a. apply machines_claims, restore_all.
  - by apply (around_steady setup_step roles (ret tt) (ret tt)); [steady_tac..|].
Qed.
Lemma initialize_steady config cal_svr icetype : Runs false steady (initialize remote_str system_type config cal_svr icetype).
Proof. steady_tac. Qed.
Lemma install_around {A : Type} config cal_svr :
  Claims.Around setup_step roles (A := A) (calamari_install remote_str system_type config cal_svr).
Proof.
  intros b Hb D. unfold calamari_install. do 2 (apply steady_bind; [by steady_tac|intros ?]).
  apply steady_bind; [by steady_tac|intros test_image]. apply steady_bind; [by steady_tac|intros file]. cbv zeta.
  apply steady_bind; [by steady_tac|intros ?]. apply steady_bind; [by steady_tac|intros icetype].
  set (D' := match icetype with Iso => {[(cal_svr, iso_mountpoint)]} ∪ D | Tarball => D end).
  eapply (triple_bind _ _ _ _ _ (fun _ => bound_in D')).
  { unfold unpack, D'. destruct icetype; [apply steady_triple; steady_tac|]. unfold run_.
    eapply triple_bind; [apply (run_claims setup_step roles D ({[(cal_svr, iso_mountpoint)]} ∪ D)); cbn; set_solver|intros ?; by apply triple_ret]. }
  intros _. apply steady_bind; [apply initialize_steady|intros _]. eapply triple_finally; [apply Hb|]. intros ?.
  eapply (triple_bind _ _ _ _ _ (fun _ => bound_in D)); [|intros ?; apply steady_triple; steady_tac].
  unfold D'. destruct icetype; [by apply triple_ret|]. unfold run_.
  eapply triple_bind; [apply (run_claims setup_step roles _ D); cbn; set_solver|intros ?; by apply triple_ret].
Qed.
Lemma deploy_steady cal_svr : Runs false steady (deploy_zbkc shortname set_iter cal_svr).
Proof. steady_tac. Qed.
Lemma undeploy_steady cal_svr : Runs false steady (undeploy_zbkc shortname set_iter cal_svr).
Proof. steady_tac. Qed.
Lemma zbkc_install_around {A : Type} cal_svr : Claims.Around setup_step roles (A := A) (zbkc_install shortname set_iter cal_svr).
Proof.
  intros b Hb D. unfold zbkc_install. apply steady_bind; [by steady_tac|intros names].
  apply (around_steady setup_step roles (when _ _) (when _ _)); [| |done]; destruct (negb _); cbn [when].
  - apply deploy_steady.
  - steady_tac.
  - apply runs_bind; [exact _|apply undeploy_steady|steady_tac].
  - steady_tac.
Qed.
(** The set-up of a Calamari server takes back what it changed: when calamari_setup returns around a body that does the same,
    no machine has a saved copy of its package repositories that it did not have before, and no image is mounted. *)
Theorem calamari_setup_restores {A : Type} (defaults config : dict) (body : M gw A) (g : gw) (w : world) :
  cluster_roles (g_ctx g) = roles -> Leaves setup_step roles body ->
  wp (calamari_setup_task remote_str remote_os os_name system_type shortname hostname set_iter defaults config body)
    (fun o _ w' => is_ret o -> set_up (w_trace w') ⊆ set_up (w_trace w)) g w.
Proof.
  intros Hr Hb. set (D := set_up (w_trace w)).
  enough (H : btriple (bound_in D)
    (calamari_setup_task remote_str remote_os os_name system_type shortname hostname set_iter defaults config body) (fun _ => bound_in D)).
  { eapply wp_conseq; [by apply H|]. intros [a|e|] s' w' H' Ho; [|done..]. exact (proj2 (H' a eq_refl)). }
  unfold calamari_setup_task. cbv zeta. apply triple_get. intros g0. eapply triple_conseq; [|intros ?? [_ H]; exact H|intros ??? H; exact H].
  do 3 (apply steady_bind; [by steady_tac|intros ?]). apply (nested_around setup_step roles); [|exact Hb].
  do 3 (apply Forall_cons_2; [first [apply adjust_around|apply install_around|apply zbkc_install_around]|]).
  apply Forall_cons_2; [|apply Forall_cons_2; [|apply Forall_cons_2; [|constructor]]]; intros b Hb' D'.
  - unfold remove_epel. apply steady_bind; [by steady_tac|intros _; apply Hb'].
  - unfold calamari_connect. do 3 (apply steady_bind; [by steady_tac|intros ?]). apply Hb'.
  - unfold browser. apply steady_bind; [by steady_tac|intros _; apply Hb'].
Qed.

(** The clean-up of a deployment reports failure exactly when it succeeded: when every command of undeploy_zbkc succeeds the
    result is 0, which zbkc_install takes for a failure, and otherwise nothing is returned. *)
Theorem undeploy_reports_failure (cal_svr : remote) (g : gw) (w : world) :
  wp (undeploy_zbkc shortname set_iter cal_svr) (fun o _ _ => forall z, o = Ret z -> z = 0) g w.
Proof.
  enough (H : hoare (fun _ : gw => True) (undeploy_zbkc shortname set_iter cal_svr) (fun z _ => z = 0)) by by apply H.
  assert (Hs : forall r args n (P : gw -> Prop), hoare P (z <- status_of r args ;; ret (Z.land n z)) (fun z _ => z = 0)).
  { intros r args n P. eapply hoare_bind; [intros s0 w0 _; apply (status_zero r args)|]. intros z. apply hoare_ret. intros ? ->. apply Z.land_0_r. }
  assert (Hany : forall (A : Type) (m : MG A), hoare (fun _ => True) m (fun _ _ => True)).
  { intros A m s0 w0 _. unfold wp. by destruct (m s0 w0) as [[o s1] w1]. }
  unfold undeploy_zbkc. eapply hoare_bind; [apply Hany|intros l]. eapply hoare_bind; [apply Hany|intros n]. cbv zeta.
  eapply hoare_bind; [apply Hany|intros n1]. eapply hoare_bind; [apply (Hs _ _ _ (fun _ => True))|intros n2].
  induction l as [|rr l IH] in n2 |- *; cbn [fold_]; [by apply hoare_ret|]. eapply hoare_bind; [apply Hs|intros n3; apply IH].
Qed.
End SetupFacts.

(** ** What the tests of Calamari leave behind *)

(** The files, packages and sources on the machines, read off the trace *)
Definition nose_step (t : gset (string * string)) (ev : event) : gset (string * string) :=
  match ev with
  | EvCall "create_file" (r :: path :: _) => {[(r, path)]} ∪ t
  | EvCall "delete_file" (r :: path :: _) => t ∖ {[(r, path)]}
  | EvCall "install_package" [pkg; r] => {[(r, pkg)]} ∪ t
  | EvCall "remove_package" [pkg; r] => t ∖ {[(r, pkg)]}
  | EvRun r [cmd] =>
      if String.eqb cmd "sudo rm -rf calamari" then t ∖ {[(r, "calamari")]}
      else if startswith "git clone " cmd then {[(r, "calamari")]} ∪ t else t
  | _ => t
  end.
Definition nose_things : list event -> gset (string * string) := after_events nose_step ∅.

Section NoseFacts.
Context {E : Env}.
Context (os_version package_type : remote -> string) (yaml_text : dict -> string).
Variable roles : list (remote * list string).
Abbreviation MG A := (M gw A).
Implicit Types D : gset (string * string).
Abbreviation steady := (steady nose_step).
Abbreviation bound_in := (bound_in (K := string * string) roles).
Abbreviation btriple P m Q := (triple nose_step ∅ P m Q).
Ltac steady_tac := repeat (runs_step || (apply steady_emit; by intros ?) || (by apply steady_modify)).

(** A manager that first adds [C], and removes it however the rest ends *)
Lemma claim_around {A : Type} (setup cleanup : MG unit) (C : gset (string * string)) :
  (forall D, btriple (bound_in D) setup (fun _ => bound_in (C ∪ D))) ->
  (forall D, btriple (bound_in (C ∪ D)) cleanup (fun _ => bound_in D)) ->
  Claims.Around nose_step roles (A := A) (fun b => finally (setup ;; b) cleanup).
Proof. intros Hs Hc b Hb D. eapply triple_finally; [eapply triple_bind; [apply Hs|intros ?; apply Hb]|]. intros ?. apply Hc. Qed.
Lemma call_adds D f args x : (forall t, nose_step t (EvCall f args) = {[x]} ∪ t) ->
  btriple (bound_in D) (call f args ;; ret tt) (fun _ => bound_in ({[x]} ∪ D)).
Proof.
  intros Hs. eapply triple_bind; [apply (call_claims nose_step roles D ({[x]} ∪ D)); intros t ?; rewrite Hs; clear Hs; set_solver|].
  intros ?. by apply triple_ret.
Qed.
Lemma call_takes D f args x : (forall t, nose_step t (EvCall f args) = t ∖ {[x]}) ->
  btriple (bound_in ({[x]} ∪ D)) (call f args ;; ret tt) (fun _ => bound_in D).
Proof.
  intros Hs. eapply triple_bind; [apply (call_claims nose_step roles _ D); intros t ?; rewrite Hs; clear Hs; set_solver|].
  intros ?. by apply triple_ret.
Qed.
Lemma packages_added D client l :
  btriple (bound_in D) (for_ l (install_package client)) (fun _ => bound_in (list_to_set (map (pair client) l) ∪ D)).
Proof.
  revert D. induction l as [|pkg l IH]; intros D; cbn [for_].
  - apply triple_ret. intros g t [? ?]. split; [done|]. set_solver.
  - eapply triple_bind; [by apply (call_adds _ _ _ (client, pkg))|]. intros ?. eapply triple_conseq; [apply IH|done|].
    intros ? g t [? Ht]. split; [done|]. etrans; [exact Ht|]. cbn. set_solver.
Qed.
Lemma packages_removed D client l :
  btriple (bound_in (list_to_set (map (pair client) l) ∪ D)) (for_ l (remove_package client)) (fun _ => bound_in D).
Proof.
  induction l as [|pkg l IH]; cbn [for_].
  - apply triple_ret. intros g t [? Ht]. split; [done|]. etrans; [exact Ht|]. cbn. set_solver.
  - eapply (triple_bind _ _ _ _ _ (fun _ => bound_in (list_to_set (map (pair client) l) ∪ D))); [|done].
    eapply triple_conseq; [apply (call_takes (list_to_set (map (pair client) l) ∪ D) _ _ (client, pkg)); by intros t| |intros ??? H; exact H].
    intros g t [? Ht]. split; [done|]. etrans; [exact Ht|]. cbn. set_solver.
Qed.
Lemma file_around {A : Type} sudo client path (setup : MG unit) (data : MG string) :
  Runs false steady setup -> Runs false steady data ->
  Claims.Around nose_step roles (A := A) (fun b => finally (x <- data ;; create_file sudo client path x ;; setup ;; b) (delete_file sudo client path)).
Proof.
  intros Hs Hd b Hb D. eapply (triple_finally _ _ _ _ _ (fun _ => bound_in ({[(client, path)]} ∪ D))).
  - apply steady_bind; [done|intros x]. eapply triple_bind; [by apply (call_adds _ _ _ (client, path))|intros ?].
    apply steady_bind; [done|intros ?; apply Hb].
  - intros ?. by apply (call_takes _ _ _ (client, path)).
Qed.
Lemma epel_around {A : Type} r : Claims.Around nose_step roles (A := A) (install_epel os_version package_type r).
Proof.
  intros b Hb. unfold install_epel. destruct (String.eqb _ _); [done|].
  apply (file_around true r epel_repo (sh_ r "sudo yum clean all") (ret _)); [steady_tac..|done].
Qed.
Lemma extra_around {A : Type} client : Claims.Around nose_step roles (A := A) (install_extra_pkgs client).
Proof.
  apply (claim_around _ _ (list_to_set (map (pair client) EXTRA_PKGS))); intros D; [apply packages_added|apply packages_removed].
Qed.
Lemma clone_around {A : Type} config client : Claims.Around nose_step roles (A := A) (clone_calamari config client).
Proof.
  intros b Hb D. unfold clone_calamari. cbv zeta. eapply (triple_finally _ _ _ _ _ (fun _ => bound_in ({[(client, "calamari")]} ∪ D))).
  - do 2 (apply steady_bind; [by steady_tac|intros ?]).
    eapply (triple_bind _ _ _ _ _ (fun _ => bound_in ({[(client, "calamari")]} ∪ D))); [|intros ?; apply Hb].
    unfold sh_, run_. eapply triple_bind; [apply (run_claims nose_step roles D ({[(client, "calamari")]} ∪ D))|intros ?; by apply triple_ret].
    intros t Ht. change ({[(client, "calamari")]} ∪ t ⊆ {[(client, "calamari")]} ∪ D). set_solver.
  - intros ?. unfold sh_, run_. eapply triple_bind; [apply (run_claims nose_step roles _ D)|intros ?; by apply triple_ret].
    intros t Ht. change (t ∖ {[(client, "calamari")]} ⊆ D). set_solver.
Qed.
Lemma info_around {A : Type} client : Claims.Around nose_step roles (A := A) (write_info_yaml yaml_text client).
Proof.
  intros b Hb D. unfold write_info_yaml. eapply (triple_finally _ _ _ _ _ (fun _ => bound_in ({[(client, info_yaml)]} ∪ D))).
  - apply steady_bind; [by steady_tac|intros l]. eapply triple_bind; [by apply (call_adds _ _ _ (client, info_yaml))|intros ?; apply Hb].
  - intros ?. by apply (call_takes _ _ _ (client, info_yaml)).
Qed.
Lemma conf_around {A : Type} client : Claims.Around nose_step roles (A := A) (write_test_conf client).
Proof.
  apply (claim_around _ _ {[(client, test_conf)]}); intros D; [by apply call_adds|by apply (call_takes _ _ _ (client, test_conf))].
Qed.
Lemma env_around {A : Type} client : Claims.Around nose_step roles (A := A) (prepare_nosetest_env package_type client).
Proof.
  intros b Hb D. unfold prepare_nosetest_env. cbv zeta. set (C := list_to_set (map (pair client) EXTRA_NOSETEST_PKGS) : gset (string * string)).
  eapply (triple_finally _ _ _ _ _ (fun _ => bound_in (C ∪ D))).
  - apply steady_bind; [by steady_tac|intros ?]. eapply triple_bind; [apply packages_added|intros ?]. fold C.
    do 7 (apply steady_bind; [by steady_tac|intros ?]). apply Hb.
  - intros ?. do 2 (apply steady_bind; [by steady_tac|intros ?]). apply packages_removed.
Qed.
(** The tests of Calamari clean up after themselves: when calamari_nosetests returns around a body that does the same, there
    is no file, package or source tree of Calamari on any machine that was not there before. *)
Theorem nosetests_clean_up {A : Type} (config : dict) (body : M gw A) (g : gw) (w : world) :
  cluster_roles (g_ctx g) = roles -> Leaves nose_step roles body ->
  wp (calamari_nosetests_task os_version package_type yaml_text config body)
    (fun o _ w' => is_ret o -> nose_things (w_trace w') ⊆ nose_things (w_trace w)) g w.
Proof.
  intros Hr Hb. set (D := nose_things (w_trace w)).
  enough (H : btriple (bound_in D) (calamari_nosetests_task os_version package_type yaml_text config body) (fun _ => bound_in D)).
  { eapply wp_conseq; [by apply H|]. intros [a|e|] s' w' H' Ho; [|done..]. exact (proj2 (H' a eq_refl)). }
  unfold calamari_nosetests_task. apply triple_get. intros g0. eapply triple_conseq; [|intros ?? [_ H]; exact H|intros ??? H; exact H].
  apply steady_bind; [by steady_tac|intros client]. apply (nested_around nose_step roles); [|exact Hb].
  apply Forall_cons_2; [apply epel_around|]. apply Forall_cons_2; [apply extra_around|]. apply Forall_cons_2; [apply clone_around|].
  apply Forall_cons_2; [apply info_around|]. apply Forall_cons_2; [apply conf_around|]. apply Forall_cons_2; [apply env_around|].
  apply Forall_cons_2; [|constructor]. intros b Hb' D'. unfold run_nosetests. apply steady_bind; [by steady_tac|intros ?; apply Hb'].
Qed.
End NoseFacts.
