(* ===== verification/MonThrash.v ===== *)
(** * [MonitorThrasher] (tasks/mon_thrash.py): killing and freezing monitors

    The fields are the record [mthr].  [teuthology.get_mon_names] and
    [get_first_mon] are not part of the sources and are arguments of the section;
    the thrasher's own generator [self.rng] draws from the environment like the
    module-level one. *)
From Stdlib Require Import Ascii QArith Qround Lqa.
From S2P Require Import Prelude PyVal World ZbkcManager ManagerWait Scrub.

Record mthr := MThr
  { mt_ctx : context;
    manager : mgr;
    random_seed : Z;
    revive_delay : Q; thrash_delay : Q;
    thrash_many : pyval; maintain_quorum : pyval; scrub : pyval;
    freeze_mon_probability : Q; freeze_mon_duration : Q;
    store_thrash : pyval; store_thrash_probability : Z }.
Definition set_mt_manager (m : mgr) (t : mthr) : mthr :=
  MThr (mt_ctx t) m (random_seed t) (revive_delay t) (thrash_delay t) (thrash_many t) (maintain_quorum t)
    (scrub t) (freeze_mon_probability t) (freeze_mon_duration t) (store_thrash t) (store_thrash_probability t).

Definition SIGSTOP : Z := 19.
Definition SIGCONT : Z := 18.

Section MonitorThrasher.
Context {E : Env} {F : Fuel}.
Context (get_mon_names : context -> list string) (get_first_mon : context -> dict -> string).
Abbreviation MO A := (M mthr A).

Definition mon_man {A} (m : M mgr A) : MO A := zoom manager set_mt_manager m.

Definition _get_mons (c : context) : list string := map (str_from 4) (get_mon_names c).

(** The most monitors that may be killed at once, out of [m]: [ceil(m / 2.0) - 1]
    keeps a majority. *)
Definition max_killable_of (maintain_quorum : pyval) (m : Z) : Z :=
  if truthy maintain_quorum then Z.max (Qceiling (inject_Z m / 2) - 1) 0 else m.
Definition max_killable : MO Z :=
  t <- get ;; ret (max_killable_of (maintain_quorum t) (Z.of_nat (length (_get_mons (mt_ctx t))))).

Definition should_thrash_store : MO bool :=
  t <- get ;;
  if negb (truthy (store_thrash t)) then ret false
  else r <- randrange 0 101 ;; ret (r <? store_thrash_probability t).

Definition thrash_store (mon : string) : MO unit :=
  t <- get ;;
  c <- of_option (KeyError "zbkc") (conf (mt_ctx t) !! "zbkc") ;;
  sec <- of_option (KeyError ("mon." +:+ mon)) (c !! ("mon." +:+ mon)) ;;
  a <- of_option (KeyError "mon addr") (dict_lookup "mon addr" sec) ;;
  addr <- as_str a ;;
  out <- mon_man (raw_cluster_cmd ["-m"; addr; "sync"; "force"]) ;;
  j <- json_loads out ;;
  r <- subscript j "ret" ;;
  assert_ (eq_int r 0) ("error forcing store sync on mon." +:+ mon +:+ ":" +:+ nls +:+ out).

Definition should_freeze_mon : MO bool :=
  t <- get ;; r <- randrange 0 101 ;; ret (Qlt_bool (inject_Z r) (freeze_mon_probability t)).
Definition freeze_mon (mon : string) : MO unit := mon_man (signal_mon mon SIGSTOP).
Definition unfreeze_mon (mon : string) : MO unit := mon_man (signal_mon mon SIGCONT).
Definition kill_mon (mon : string) : MO unit := mon_man (ManagerWait.kill_mon mon).
Definition revive_mon (mon : string) : MO unit := mon_man (ManagerWait.revive_mon mon).

(** Every monitor of [mons] answers as leader or peon of a quorum of [size]. *)
Definition check_mons (mons : list string) (size : Z) : MO unit :=
  for_ mons (fun m =>
    s <- mon_man (get_mon_status m) ;;
    st <- subscript s "state" ;;
    assert_ (eq_str st "leader" || eq_str st "peon") "s['state'] == 'leader' or s['state'] == 'peon'" ;;
    q <- subscript s "quorum" ;;
    n <- len_ q ;;
    assert_ (n =? size) "len(s['quorum']) == size").

(** The monitors to freeze: those not killed, each with its chance. *)
Fixpoint choose_frozen (mons kill : list string) : MO (list string) :=
  match mons with
  | [] => ret []
  | mon :: mons' =>
      if bool_decide (mon ∈ kill) then choose_frozen mons' kill
      else
        b <- should_freeze_mon ;;
        rest <- choose_frozen mons' kill ;;
        ret (if b : bool then mon :: rest else rest)
  end.

Definition freeze_for_a_while (mons_to_freeze : list string) : MO unit :=
  match mons_to_freeze with
  | [] => ret tt
  | _ =>
      for_ mons_to_freeze freeze_mon ;;
      t <- get ;;
      sleep (freeze_mon_duration t) ;;
      for_ mons_to_freeze unfreeze_mon
  end.

(** The second half of a round: kill and freeze, check the rest, revive, check all. *)
Definition thrash_mons (mons mons_to_kill mons_to_freeze : list string) : MO unit :=
  t <- get ;;
  let len l := Z.of_nat (length l) in
  for_ mons_to_kill (fun mon =>
    b <- should_thrash_store ;;
    when (b && truthy (maintain_quorum t)) (thrash_store mon) ;;
    kill_mon mon) ;;
  freeze_for_a_while mons_to_freeze ;;
  when (truthy (maintain_quorum t))
    (mon_man (wait_for_mon_quorum_size (len mons - len mons_to_kill) (Some 300%Q)) ;;
     check_mons (filter (fun m => m ∉ mons_to_kill) mons) (len mons - len mons_to_kill)) ;;
  sleep (revive_delay t) ;;
  for_ mons_to_kill revive_mon ;;
  freeze_for_a_while mons_to_freeze ;;
  mon_man (wait_for_mon_quorum_size (len mons) (Some 300%Q)) ;;
  check_mons mons (len mons) ;;
  when (truthy (scrub t))
    (catch (mon_man (raw_cluster_cmd ["scrub"]) ;; ret tt) (fun _ => ret tt)) ;;
  when (Qlt_bool 0 (thrash_delay t)) (sleep (thrash_delay t)).

(** One round of the loop: all monitors are in the quorum; choose the monitors to
    kill and, among the others, those to freeze. *)
Definition thrash_round : MO unit :=
  t <- get ;;
  let mons := _get_mons (mt_ctx t) in
  mon_man (wait_for_mon_quorum_size (Z.of_nat (length mons)) (Some 300%Q)) ;;
  check_mons mons (Z.of_nat (length mons)) ;;
  k <- max_killable ;;
  kill_up_to <- randrange 1 (k + 1) ;;
  mons_to_kill <- sample mons kill_up_to ;;
  mons_to_freeze <- choose_frozen mons mons_to_kill ;;
  thrash_mons mons mons_to_kill mons_to_freeze.

Definition do_thrash : MO unit :=
  while fuel (fun _ => b <- stopping ;; ret (negb b)) (fun _ => thrash_round) tt.

Definition do_join : MO unit := emit (EvJoin "do_thrash") ;; ret tt.

(** [MonitorThrasher(ctx, manager, config, logger)]; an empty [config] stands for [None] too. *)
Definition init (c : context) (config : dict) : M mgr mthr :=
  wait_for_clean None ;;
  let seed := dict_get "seed" PNone config in
  seed <- match seed with
          | PNone => t <- time ;; ret (if Qle_bool 0 t then Qfloor t else Qceiling t)
          | _ => as_int seed
          end ;;
  rd <- float_ (dict_get "revive_delay" (PFloat 10) config) ;;
  td <- float_ (dict_get "thrash_delay" (PFloat 0) config) ;;
  let mq := dict_get "maintain_quorum" (PBool true) config in
  fp <- float_ (dict_get "freeze_mon_probability" (PInt 10) config) ;;
  fd <- float_ (dict_get "freeze_mon_duration" (PFloat 15) config) ;;
  assert_ (0 <? max_killable_of mq (Z.of_nat (length (_get_mons c))))
    "Unable to kill at least one monitor with the current config." ;;
  let st := dict_get "store_thrash" (PBool false) config in
  stp <- as_int (dict_get "store_thrash_probability" (PInt 50) config) ;;
  when (truthy st)
    (assert_ (0 <? stp) "store_thrash is set, probability must be > 0" ;;
     assert_ (truthy mq) "store_thrash = true must imply maintain_quorum = true") ;;
  emit (EvSpawn "do_thrash") ;;
  m <- get ;;
  ret (MThr c m seed rd td (dict_get "thrash_many" (PBool false) config) mq
         (dict_get "scrub" (PBool true) config) fp fd st stp).

(** The task: the code between [try] and [finally] runs while the monitors are
    thrashed. *)
Definition task {A} (c : context) (config : dict) (body : M mgr A) : M mgr A :=
  assert_ (2 <? Z.of_nat (length (_get_mons c))) "mon_thrash task requires at least 3 monitors" ;;
  first_mon_manager get_first_mon c config ;;
  init c config ;;
  finally body
    (emit (EvJoin "do_thrash") ;;
     wait_for_mon_quorum_size (Z.of_nat (length (_get_mons c))) (Some 300%Q)).

End MonitorThrasher.
