(* ===== verification/MonFacts.v ===== *)
(** * The monitor thrasher keeps a quorum

    Theorems about [MonThrash]: which monitors are stopped and frozen is read off
    the events sent to the daemons; with [maintain_quorum] a majority is running at
    every moment, and a round that ends leaves no monitor stopped or frozen. *)
From Stdlib Require Import QArith Qround Lqa.
From S2P Require Import Prelude PyVal World ZbkcManager ManagerWait Sim WaitFacts Daemons MonThrash.

(** ** Frozen monitors *)

Definition frozen_step (d : gset string) (ev : event) : gset string :=
  match ev with
  | EvDaemon (DSignal sig) role id _ =>
      if String.eqb role "mon" then
        if sig =? SIGSTOP then {[id]} ∪ d else if sig =? SIGCONT then d ∖ {[id]} else d
      else d
  | _ => d
  end.
(** The monitors that are frozen after a sequence of events. *)
Definition frozen (evs : list event) : gset string := fold_left frozen_step evs ∅.
Lemma frozen_snoc evs ev : frozen (evs ++ [ev]) = frozen_step (frozen evs) ev.
Proof. unfold frozen. by rewrite fold_left_app. Qed.
Lemma frozen_stop s x cl : frozen_step s (EvDaemon (DSignal SIGSTOP) "mon" x cl) = {[x]} ∪ s.
Proof. done. Qed.
Lemma frozen_cont s x cl : frozen_step s (EvDaemon (DSignal SIGCONT) "mon" x cl) = s ∖ {[x]}.
Proof. done. Qed.
Abbreviation mons_down := (down "mon").
Lemma no_daemon_same evs evs' :
  Forall no_daemon evs' -> mons_down (evs ++ evs') = mons_down evs /\ frozen (evs ++ evs') = frozen evs.
Proof.
  intros Hall. split; [by apply no_daemon_down|]. revert evs Hall.
  induction evs' as [|ev evs' IH]; intros evs H; [by rewrite app_nil_r|].
  apply Forall_cons in H as [Hev H]. change (ev :: evs') with ([ev] ++ evs').
  rewrite (assoc_L (++)), (IH (evs ++ [ev]) H), frozen_snoc. by destruct ev.
Qed.

(** ** How many may be killed *)

Lemma half_ceiling (m : Z) : Qceiling (inject_Z m / 2) = (m + 1) / 2.
Proof.
  unfold Qceiling, Qfloor, Qdiv, Qinv, Qmult, Qopp, inject_Z. simpl.
  Z.div_mod_to_equations. lia.
Qed.

Lemma max_killable_spec (maintain_quorum : pyval) (m k : Z) :
  truthy maintain_quorum = true -> 0 < m -> 0 <= k ->
  k <= max_killable_of maintain_quorum m <-> m < 2 * (m - k).
Proof.
  intros Hq Hm Hk. unfold max_killable_of. rewrite Hq, half_ceiling.
  Z.div_mod_to_equations. lia.
Qed.

(** [max_killable] is exactly the largest number of monitors that can be killed with
    a strict majority left: [k] monitors out of [m] may be killed if and only if more
    than half of the [m] survive. *)
Theorem max_killable_majority (maintain_quorum : pyval) (m k : Z) :
  truthy maintain_quorum = true -> 0 < m -> 0 <= k ->
  k <= max_killable_of maintain_quorum m <-> m < 2 * (m - k).
Proof. apply max_killable_spec. Qed.

(** ** A round *)
Section Round.
Context {E : Env} {EL : EnvLaws E} {F : Fuel} (get_mon_names : context -> list string).

Abbreviation still P := (keeping (fun t : mthr => t) P).
Lemma zoom_same {A} P total (m : M mgr A) :
  Runs total (quiet P) m -> Runs total (still P) (mon_man m).
Proof.
  apply runs_zoom. intros s t w w' [H1 H2]. cbn in H1. subst t. split; [by destruct s|done].
Qed.

(** What only talks to the cluster. *)
Ltac quiet_tac :=
  repeat match goal with
         | |- Runs _ _ (mon_man _) => apply zoom_same
         | |- EmitOk (quiet _) _ => by apply quiet_emit
         | |- EmitOk (keeping _ _) _ => by apply keeping_emit
         | |- _ => runs_step
         end.
Lemma quiet_quorum size tmo : Runs false (still no_daemon) (mon_man (wait_for_mon_quorum_size size tmo)).
Proof. quiet_tac. Qed.
Lemma quiet_check mons size : Runs false (still no_daemon) (check_mons mons size).
Proof. unfold check_mons. quiet_tac. Qed.
Lemma quiet_store mon : Runs false (still no_daemon) (thrash_store mon).
Proof. unfold thrash_store. quiet_tac. Qed.
Lemma quiet_frozen mons kill : Runs false (still no_daemon) (choose_frozen mons kill).
Proof. induction mons as [|m mons IH]; simpl; quiet_tac. Qed.

Definition no_powercycle (t : mthr) : Prop := truthy (dict_get "powercycle" PNone (config (manager t))) = false.

(** Commands to a monitor's daemon, on their own. *)
Abbreviation sends op mon m t w :=
  (wp m (fun _ t' w' => t = t' /\ exists c, w' = after (EvDaemon op "mon" mon (cluster (manager t))) c w) t w).
Lemma daemon_sends op mon t w : sends op mon (mon_man (daemon_of op "mon" mon)) t w.
Proof.
  unfold mon_man, daemon_of, daemon, wp, zoom, bind, get, emit, ret.
  destruct (respond _ (w_env w)) as [r c].
  assert (Ht : set_mt_manager (manager t) t = t) by (by destruct t).
  destruct (raised r); cbn; rewrite Ht; eauto.
Qed.
Lemma kill_sends mon t w : no_powercycle t -> sends DStop mon (kill_mon mon) t w.
Proof.
  intros Hp. pose proof (daemon_sends DStop mon t w) as H.
  unfold kill_mon, ManagerWait.kill_mon, mon_man, cfg, wp, zoom in *.
  rewrite (bind_run _ _ _ _ _ _ _ eq_refl). by rewrite Hp.
Qed.
Lemma revive_sends mon t w : no_powercycle t -> sends (DRestart []) mon (revive_mon mon) t w.
Proof.
  intros Hp. pose proof (daemon_sends (DRestart []) mon t w) as H.
  unfold revive_mon, ManagerWait.revive_mon, mon_man, cfg, wp, zoom in *.
  rewrite (bind_run _ _ _ _ _ _ _ eq_refl). rewrite Hp. unfold when.
  by rewrite (bind_run _ _ _ _ _ _ _ eq_refl).
Qed.

(** The monitors stopped now are in [d], those frozen now in [g]. *)
Definition names (l : list string) : gset string := list_to_set l.
Definition within (d g : gset string) (tr : list event) : Prop := mons_down tr ⊆ d /\ frozen tr ⊆ g.
Lemma within_quiet d g tr evs : Forall no_daemon evs -> within d g tr -> within d g (tr ++ evs).
Proof. intros Hall. unfold within. by destruct (no_daemon_same tr evs Hall) as [-> ->]. Qed.
Lemma within_snoc d g d' g' ev tr :
  (mons_down tr ⊆ d -> down_step "mon" (mons_down tr) ev ⊆ d') ->
  (frozen tr ⊆ g -> frozen_step (frozen tr) ev ⊆ g') -> within d g tr -> within d' g' (tr ++ [ev]).
Proof. intros Hd Hg [H1 H2]. unfold within. rewrite down_snoc, frozen_snoc. auto. Qed.

Section Tracking.
Context (ks : list string) (t0 : mthr) (w0 : world) (Hp : no_powercycle t0).
Abbreviation trk I := (track (fun t : mthr => t) ks t0 w0 I).
Abbreviation trp I := (tri (fun t : mthr => t) ks t0 w0 I).

Lemma mon_quiet {A} d g (m : M mthr A) t w :
  Runs false (still no_daemon) m -> trk (within d g) t w -> wp m (trp (within d g)) t w.
Proof. intros Hm. apply track_quiet; [|done]. intros. by apply within_quiet. Qed.

Lemma track_freeze fs d t w : trk (within d ∅) t w -> wp (freeze_for_a_while fs) (trp (within d ∅)) t w.
Proof.
  intros H. unfold freeze_for_a_while. destruct fs as [|x fs]; [by apply track_ret|].
  remember (x :: fs) as l eqn:Hl; clear x fs Hl.
  eapply track_seq with (I := within d (names l)).
  { apply track_each; [|destruct H as (? & ? & ?); split; [done|]; split; [done|set_solver]].
    intros x t1 w1 Hx H1. eapply track_send; [apply daemon_sends|done| |exact H1].
    apply within_snoc; [done|]. rewrite frozen_stop. clear -Hx. unfold names. set_solver. }
  intros _ t1 w1 H1. apply wp_bind, wp_get. unfold then_.
  eapply track_seq; [apply mon_quiet; [|exact H1]; unfold sleep; quiet_tac|].
  intros _ t2 w2 H2.
  apply track_for with (I := fun r => within d (names r)); [|exact H2].
  intros x r t3 w3 H3. eapply track_send; [apply daemon_sends|done| |exact H3].
  apply within_snoc; [done|]. rewrite frozen_cont. clear. unfold names. set_solver.
Qed.

Lemma track_kills (mq : pyval) t w :
  trk (within (names ks) ∅) t w ->
  wp (for_ ks (fun mon => b <- should_thrash_store ;;
        when (b && truthy mq) (thrash_store mon) ;; kill_mon mon)) (trp (within (names ks) ∅)) t w.
Proof.
  apply track_each. intros x t1 w1 Hx H1.
  eapply track_seq; [apply mon_quiet; [|exact H1]; unfold should_thrash_store; quiet_tac|].
  intros b t2 w2 H2. eapply track_seq; [apply mon_quiet; [|exact H2]|].
  { unfold when. case_match; [apply quiet_store|quiet_tac]. }
  intros _ t3 w3 H3. eapply track_send; [apply kill_sends; by destruct H3 as [[<- _] _]|done| |exact H3].
  apply within_snoc; [|done]. clear -Hx. simpl. unfold names. set_solver.
Qed.

(** The second half of a round stops nothing but [ks] and undoes all of it. *)
Lemma track_thrash mons fs t w :
  trk (within ∅ ∅) t w -> wp (thrash_mons mons ks fs) (trp (within ∅ ∅)) t w.
Proof.
  intros H. unfold thrash_mons. apply wp_bind, wp_get. unfold then_.
  eapply track_seq with (I := within (names ks) ∅).
  { apply track_kills. destruct H as (Hb & Hd & Hf). split; [done|]; split; [set_solver|done]. }
  intros _ t1 w1 H1. eapply track_seq; [by apply track_freeze|]. clear H H1 t1 w1. intros _ t1 w1 H.
  eapply track_seq.
  { apply mon_quiet; [|exact H]. unfold when. case_match; [|quiet_tac].
    apply runs_bind; [exact _|apply quiet_quorum|intros; apply quiet_check]. }
  clear H t1 w1. intros _ t1 w1 H.
  eapply track_seq; [apply mon_quiet; [|exact H]; unfold sleep; quiet_tac|].
  clear H t1 w1. intros _ t1 w1 H.
  eapply track_seq with (I := within ∅ ∅).
  { apply track_for with (I := fun r => within (names r) ∅); [|exact H].
    intros x r t2 w2 H2. eapply track_send; [apply revive_sends; by destruct H2 as [[<- _] _]|done| |exact H2].
    apply within_snoc; [|done]. clear. simpl. unfold names. set_solver. }
  clear H t1 w1. intros _ t1 w1 H. eapply track_seq; [by apply track_freeze|].
  clear H t1 w1. intros _ t1 w1 H. apply mon_quiet; [|exact H].
  apply runs_bind; [exact _|apply quiet_quorum|intros _].
  apply runs_bind; [exact _|apply quiet_check|intros _]. quiet_tac.
Qed.
End Tracking.

Lemma wp_still_seq {A B} (p0 : mthr * world) (m : M mthr A) (k : A -> M mthr B) (Q : post mthr B) s w :
  still no_daemon p0 (s, w) -> Runs false (still no_daemon) m ->
  (forall o s1 w1, ~ is_ret o -> still no_daemon p0 (s1, w1) -> Q o s1 w1) ->
  (forall a s1 w1, still no_daemon p0 (s1, w1) -> wp (k a) Q s1 w1) -> wp (bind m k) Q s w.
Proof.
  intros H0 Hm Hearly Hk. apply wp_bind. eapply wp_conseq; [apply Hm|].
  intros [a|e|] s1 w1 [H1 _]; unfold then_; [apply Hk|apply Hearly; [tauto|]..]; by etrans.
Qed.

(** At every moment from [w] to [w'] more than half of the [n] monitors were running. *)
Definition majority_up (n : Z) : world -> world -> Prop :=
  always (fun tr => n < 2 * (n - Z.of_nat (size (mons_down tr)))).

Lemma majority_of_stops n ks (w w' : world) (t t' : mthr) :
  n < 2 * (n - Z.of_nat (length ks)) -> mons_down (w_trace w) = ∅ ->
  emits (stops_only ks) (t, w) (t', w') -> majority_up n w w'.
Proof. intros Hn. apply (always_of_stops _ "mon" ks). intros tr Htr. lia. Qed.

(** A round that starts with nothing stopped and nothing frozen. *)
Lemma round_spec t w :
  no_powercycle t -> truthy (maintain_quorum t) = true -> _get_mons get_mon_names (mt_ctx t) <> [] ->
  mons_down (w_trace w) = ∅ -> frozen (w_trace w) = ∅ ->
  wp (thrash_round get_mon_names) (fun o t' w' => t' = t /\
    majority_up (Z.of_nat (length (_get_mons get_mon_names (mt_ctx t)))) w w' /\
    (is_ret o -> mons_down (w_trace w') = ∅ /\ frozen (w_trace w') = ∅)) t w.
Proof.
  intros Hp Hmq Hne Hd Hf. set (mons := _get_mons get_mon_names (mt_ctx t)).
  assert (Hlen : 0 < Z.of_nat (length mons)).
  { subst mons. destruct (_get_mons get_mon_names (mt_ctx t)); simpl; [done|lia]. }
  set (Q := fun (o : outcome unit) (t' : mthr) (w' : world) => _).
  assert (Hearly : forall (o : outcome unit) t1 w1, ~ is_ret o -> still no_daemon (t, w) (t1, w1) -> Q o t1 w1).
  { intros o t1 w1 Ho [Ht He]. split; [done|]. split; [|done].
    apply (majority_of_stops _ [] w w1 t t1); [simpl; lia|done|].
    eapply emits_mono; [|exact He]. by intros []. }
  unfold thrash_round. apply wp_bind, wp_get. unfold then_.
  assert (H0 : still no_daemon (t, w) (t, w)) by reflexivity.
  eapply wp_still_seq; [exact H0|apply quiet_quorum|apply Hearly|]. clear H0. intros _ t1 w1 H1.
  eapply wp_still_seq; [exact H1|apply quiet_check|apply Hearly|]. clear H1 t1 w1. intros _ t1 w1 H1.
  unfold max_killable. wp_run. destruct (H1) as [Ht1 (evs & He & Hall)]. cbn in Ht1, He. subst t1.
  apply wp_randrange; [|intros; apply Hearly; [tauto|done]]. intros r w2 Hr ->. unfold then_.
  apply wp_bind, wp_sample; [|intros e w3 Hw _; apply Hearly; [tauto|]; split; [done|]; exists evs; cbn; by rewrite Hw].
  intros ks w3 Hks Hin Hw3 _. unfold then_. cbn [w_trace] in Hw3.
  assert (Hmaj : Z.of_nat (length mons) < 2 * (Z.of_nat (length mons) - Z.of_nat (length ks))).
  { apply (max_killable_spec (maintain_quorum t)); [done|lia|lia|]. fold mons in Hr. lia. }
  assert (H3 : still no_daemon (t, w) (t, w3)) by (split; [done|]; exists evs; cbn; by rewrite Hw3).
  eapply wp_still_seq; [exact H3|apply quiet_frozen|apply Hearly|].
  clear H1 H3 He Hall Hw3 evs w3 w1. intros fs t1 w1 [Ht1 (evs & He & Hall)]. cbn in Ht1, He. subst t1.
  destruct (no_daemon_same (w_trace w) evs Hall) as [Hd1 Hf1]. rewrite <- He in Hd1, Hf1.
  eapply wp_conseq; [apply (track_thrash ks t w Hp)|].
  - split; [split; [done|]|unfold within; rewrite Hd1, Hf1, Hd, Hf; done].
    apply emits_stops. by exists evs.
  - intros o t2 w2 [[<- Hem] Hret]. split; [done|]. split; [by eapply majority_of_stops|].
    intros Ho. destruct (Hret Ho) as (H1 & H2). clear -H1 H2. set_solver.
Qed.

Lemma majority_up_quiet n (w w' : world) (t t' : mthr) :
  0 < n -> mons_down (w_trace w) = ∅ -> emits no_daemon (t, w) (t', w') -> majority_up n w w'.
Proof.
  intros Hn Hd He. apply (majority_of_stops n [] w w' t t'); [simpl; lia|done|].
  eapply emits_mono; [|exact He]. by intros [].
Qed.
Lemma emits_same (w w' : world) (t t' : mthr) :
  emits no_daemon (t, w) (t', w') -> mons_down (w_trace w') = mons_down (w_trace w) /\ frozen (w_trace w') = frozen (w_trace w).
Proof. intros (evs & He & Hall). cbn in He. rewrite He. by apply no_daemon_same. Qed.

(** C5: the monitor thrasher, with [maintain_quorum], at least one monitor, no power cycling
    and no monitor stopped or frozen when it starts, has at
    every moment of [do_thrash] stopped fewer than half of the monitors, so that a strict
    majority is not stopped (a frozen monitor is a running process here), whatever the
    cluster answers, whatever is drawn, and however the run ends; and when it returns
    every monitor it stopped was restarted and every monitor it froze was continued. *)
Theorem mon_thrash_keeps_quorum (t : mthr) (w : world) :
  no_powercycle t -> truthy (maintain_quorum t) = true -> _get_mons get_mon_names (mt_ctx t) <> [] ->
  mons_down (w_trace w) = ∅ -> frozen (w_trace w) = ∅ ->
  wp (do_thrash get_mon_names) (fun o _ w' =>
    majority_up (Z.of_nat (length (_get_mons get_mon_names (mt_ctx t)))) w w' /\
    (o = Ret tt -> mons_down (w_trace w') = ∅ /\ frozen (w_trace w') = ∅)) t w.
Proof.
  intros Hp Hmq Hne Hd Hf. set (n := Z.of_nat _).
  assert (Hn : 0 < n) by (subst n; destruct (_get_mons _ _); simpl; [done|lia]).
  unfold do_thrash.
  apply wp_while with (I := fun _ t1 w1 => t1 = t /\ majority_up n w w1 /\
    mons_down (w_trace w1) = ∅ /\ frozen (w_trace w1) = ∅).
  - intros [] t1 w1 (-> & Hm & Hd1 & Hf1). apply wp_bind.
    assert (Hs : Runs false (quiet no_daemon) (S := mthr) stopping) by (runs_tac; by apply quiet_emit).
    eapply wp_conseq; [apply Hs|]. intros o t2 w2 [[Ht2 He] _]. cbn in Ht2. subst t2.
    assert (Hm2 : majority_up n w w2) by (by eapply always_trans, majority_up_quiet).
    destruct (emits_same _ _ _ _ He) as [Hd2 Hf2].
    destruct o as [b|e|]; unfold then_; [|done..]. apply wp_ret. case_match; [|by rewrite Hd2, Hf2].
    eapply wp_conseq; [apply round_spec; [done..| |]; by rewrite ?Hd2, ?Hf2|].
    intros [[]|e|] t3 w3 (-> & Hm3 & Hr); unfold then_.
    + split; [done|]. split; [by eapply always_trans|by apply Hr].
    + split; [by eapply always_trans|done].
    + split; [by eapply always_trans|done].
  - intros [] t1 w1 (_ & Hm & _). done.
  - split; [done|]. split; [|done]. apply (majority_up_quiet n w w t t); [done..|]. reflexivity.
Qed.

(** Freezing does not spare the quorum: with a freeze probability above 100 every
    monitor that is not about to be killed is chosen to be frozen, [maintain_quorum] or
    not. *)
Theorem freezing_ignores_quorum (mons kill : list string) (t : mthr) (w : world) :
  (100 < freeze_mon_probability t)%Q ->
  wp (choose_frozen mons kill) (fun o t' _ => t' = t /\ o = Ret (filter (fun m => m ∉ kill) mons)) t w.
Proof.
  intros Hp. revert w; induction mons as [|m mons IH]; intros w; simpl; [by wp_run|].
  rewrite filter_cons. destruct (bool_decide_reflect (m ∈ kill)) as [Hin|Hin].
  { rewrite decide_False by tauto. apply IH. }
  rewrite decide_True by done. unfold should_freeze_mon. apply wp_bind, wp_bind, wp_get. unfold then_ at 1.
  apply wp_bind, wp_randrange; [|lia]. intros r w1 Hr _. wp_run.
  eapply wp_conseq; [apply IH|]. intros o t1 w2 [-> ->]. unfold then_. wp_run. split; [done|].
  assert (Qlt_bool (inject_Z r) (freeze_mon_probability t) = true) as ->; [|done].
  apply Qlt_bool_iff. eapply Qle_lt_trans; [|exact Hp]. change 100%Q with (inject_Z 100).
  rewrite <- Zle_Qle. lia.
Qed.
End Round.
