(* ===== verification/MdsThrash.v ===== *)
(** * [MDSThrasher] (tasks/mds_thrash.py): killing metadata servers

    The fields are the record [mdst]; [md_stats] is the local dict [stats] and
    [md_count] the local [count] of the loop over ranks.  The event [self.stopping]
    is read through [EvStopping], and [self.stopping.wait] is [EvWait]. *)
From Stdlib Require Import Ascii QArith Qround Lqa.
From S2P Require Import Prelude PyVal World ZbkcManager ManagerWait FSStatus Filesystem FsOps FsSetup.

Record mds_stats := Stats { stat_max_mds : Z; stat_deactivate : Z; stat_kill : Z }.
Record mdst := Mdst
  { md_ctx : context;
    md_config : dict;
    fs : fsys;
    md_max_mds : Z;                      (* self.max_mds: the one at the start *)
    randomize : bool;
    thrash_max_mds : Q; max_thrash : Z; max_thrash_delay : Q;
    thrash_in_replay : Q; max_replay_thrash_delay : Q; max_revive_delay : Q;
    md_stats : mds_stats; md_count : Z }.
Definition set_fs (f : fsys) (t : mdst) : mdst :=
  Mdst (md_ctx t) (md_config t) f (md_max_mds t) (randomize t) (thrash_max_mds t) (max_thrash t)
    (max_thrash_delay t) (thrash_in_replay t) (max_replay_thrash_delay t) (max_revive_delay t)
    (md_stats t) (md_count t).
Definition set_stats (f : mds_stats -> mds_stats) (c : Z) (t : mdst) : mdst :=
  Mdst (md_ctx t) (md_config t) (fs t) (md_max_mds t) (randomize t) (thrash_max_mds t) (max_thrash t)
    (max_thrash_delay t) (thrash_in_replay t) (max_replay_thrash_delay t) (max_revive_delay t)
    (f (md_stats t)) c.

(** [range(a, b)] *)
Definition zrange (a b : Z) : list Z := map (fun n => a + Z.of_nat n) (seq 0 (Z.to_nat (b - a))).

Section MDSThrasher.
Context {E : Env} {F : Fuel}.
Abbreviation MD A := (M mdst A).

Definition on_fs {A} (m : M fsys A) : MD A := zoom fs set_fs m.
Definition fsid : MD pyval := gets (fun t => id (fs t)).
Definition bump (f : mds_stats -> mds_stats) : MD unit := modify (fun t => set_stats f (md_count t) t).

(** [(remote,) = ctx.cluster.only(role).remotes.iterkeys()] *)
Definition lone_remote (role : string) : MD remote :=
  t <- get ;;
  match only (String.eqb role) (md_ctx t) with
  | [r] => ret r
  | _ => raise (ValueError "need exactly one value to unpack")
  end.
Definition _assert_ipmi (r : remote) : MD unit :=
  assert_ (has_ipmi_credentials r)
    "powercycling requested but RemoteConsole is not initialized.  Check ipmi config.".

Definition kill_mds (mds : string) : MD unit :=
  t <- get ;;
  if truthy (dict_get "powercycle" PNone (md_config t)) then
    r <- lone_remote ("mds." +:+ mds) ;;
    _assert_ipmi r ;;
    emit (EvConsole PowerOff r) ;; ret tt
  else daemon DStop "mds" mds "zbkc".

(** [self.manager.make_admin_daemon_dir(self.ctx, remote)]: the method takes one argument. *)
Definition make_admin_daemon_dir_two_args : MD unit :=
  raise (TypeError "make_admin_daemon_dir() takes exactly 2 arguments (3 given)").
Definition revive_mds (mds : string) (standby_for_rank : option string) : MD unit :=
  t <- get ;;
  when (truthy (dict_get "powercycle" PNone (md_config t)))
    (r <- lone_remote ("mds." +:+ mds) ;;
     _assert_ipmi r ;;
     emit (EvConsole PowerOn r) ;;
     make_admin_daemon_dir_two_args) ;;
  let args := match standby_for_rank with
              | Some r => if String.eqb r EmptyString then [] else ["--hot-standby"; r]
              | None => []
              end in
  daemon (DRestart args) "mds" mds "zbkc".

(** [status.get_fsmap(self.fs.id)['mdsmap'][k]] *)
Definition mdsmap_field (status : pyval) (k : string) : MD pyval :=
  i <- fsid ;; f <- get_fsmap status i ;; m <- mdsmap_of f ;; subscript m k.
Definition int_ (v : pyval) : MD Z :=
  match v with
  | PInt z => ret z
  | PBool b => ret (if b then 1 else 0)
  | _ => raise (TypeError "an integer is required")
  end.

(** Rank [rank] is held by another daemon than [gid]: its name. *)
Definition taken_over (status rank gid : pyval) : MD (option string) :=
  catch
    (i <- fsid ;;
     info <- get_rank status i rank ;;
     g <- subscript info "gid" ;;
     if py_eq g gid then ret None
     else n <- subscript info "name" ;; s <- as_str n ;; ret (Some s))
    (fun _ => ret None).
(** The number of ranks that are active and not laggy *)
Definition stable_count (status : pyval) : MD Z :=
  i <- fsid ;;
  l <- collect (get_ranks status i) ;;
  oks <- map_ (fun info =>
    st <- subscript info "state" ;;
    if eq_str st "up:active" then d <- as_dict info ;; ret (negb (dict_has "laggy_since" d)) else ret false) l ;;
  ret (Z.of_nat (length (List.filter (fun b => b) oks))).

Definition wait_for_stable (rank_gid : option (pyval * pyval)) : MD (pyval * option string) :=
  status <- on_fs fs_status ;;
  loop fuel (fun '(status, itercount) =>
    max_mds <- mdsmap_field status "max_mds" ;;
    found <- match rank_gid with
             | Some (PNone, _) | None =>
                 count <- stable_count status ;;
                 ret (if py_le max_mds (PInt count) then Some None else None)
             | Some (rank, gid) =>
                 n <- taken_over status rank gid ;;
                 ret (match n with Some s => Some (Some s) | None => None end)
             end ;;
    match found with
    | Some n => ret (inr (status, n))
    | None =>
        let itercount := itercount + 1 in
        when (10 <? itercount) (on_fs fs_status ;; ret tt) ;;
        sleep 2 ;;
        status <- on_fs fs_status ;;
        ret (inl (status, itercount))
    end) (status, 0).

(** [random.randrange(0.0, d)] when randomizing, else [d] *)
Definition pick_delay (d : Q) : MD Q :=
  t <- get ;;
  if randomize t then n <- randrange_float 0 d ;; ret (inject_Z n) else ret d.

(** Choose another [max_mds] and deactivate ranks when it shrinks. *)
Definition thrash_max (status : pyval) : MD pyval :=
  m <- mdsmap_field status "max_mds" ;; max_mds <- int_ m ;;
  t <- get ;;
  let options := zrange 1 max_mds ++ zrange (max_mds + 1) (md_max_mds t + 1) in
  match options with
  | [] => ret status
  | _ =>
      s <- sample options 1 ;;
      new_max_mds <- of_option IndexError (head s) ;;
      on_fs (set_max_mds new_max_mds) ;;
      bump (fun st => Stats (stat_max_mds st + 1) (stat_deactivate st) (stat_kill st)) ;;
      ranks <- sample (zrange 1 max_mds) (Z.max 0 (max_mds - new_max_mds)) ;;
      for_ ranks (fun rank =>
        on_fs (deactivate rank) ;;
        bump (fun st => Stats (stat_max_mds st) (stat_deactivate st + 1) (stat_kill st))) ;;
      r <- wait_for_stable None ;;
      ret r.1
  end.

(** Wait until the monitors see the daemon as laggy, failed or gone. *)
Definition wait_down (name : string) : MD unit :=
  loop fuel (fun _ : unit =>
    status <- on_fs fs_status ;;
    info <- get_mds status name ;;
    match info with
    | None => ret (inr tt)
    | Some i =>
        if negb (truthy i) then ret (inr tt)
        else
          d <- as_dict i ;;
          if dict_has "laggy_since" d then ret (inr tt)
          else
            failed <- mdsmap_field status "failed" ;; l <- as_list failed ;;
            if existsb (fun f => eq_str f name) l then ret (inr tt)
            else sleep 2 ;; ret (inl tt)
    end) tt.
Definition wait_standby (name : string) : MD unit :=
  loop fuel (fun _ : unit =>
    status <- on_fs fs_status ;;
    info <- get_mds status name ;;
    ok <- match info with
          | Some i =>
              if truthy i then
                st <- subscript i "state" ;; ret (eq_str st "up:standby" || eq_str st "up:standby-replay")
              else ret false
          | None => ret false
          end ;;
    if ok : bool then ret (inr tt) else sleep 2 ;; ret (inl tt)) tt.

(** Kill one daemon, wait for a takeover, revive it, wait until it is a standby. *)
Definition thrash_one (name : string) (rank gid : pyval) : MD unit :=
  kill_mds name ;;
  bump (fun st => Stats (stat_max_mds st) (stat_deactivate st) (stat_kill st + 1)) ;;
  wait_down name ;;
  wait_for_stable (Some (rank, gid)) ;;
  t <- get ;;
  delay <- pick_delay (max_revive_delay t) ;;
  sleep delay ;;
  revive_mds name None ;;
  wait_standby name.

Definition weight_of (label : string) : MD pyval :=
  t <- get ;;
  match dict_lookup "thrash_weights" (md_config t) with
  | None => ret (PFloat 1)
  | Some w => d <- as_dict w ;; ret (dict_get label (PStr "0.0") d)
  end.
(** [Some tt] is [break]. *)
Definition thrash_info (info : pyval) : MD (option unit) :=
  n <- subscript info "name" ;; name <- as_str n ;;
  rank <- subscript info "rank" ;;
  gid <- subscript info "gid" ;;
  modify (fun t => set_stats (fun st => st) (md_count t + 1) t) ;;
  t <- get ;;
  if negb (dict_has "thrash_weights" (md_config t)) && (max_thrash t <? md_count t) then ret (Some tt)
  else
    weight <- weight_of ("mds." +:+ name) ;;
    skip <- randrange_float 0 1 ;;
    if py_le weight (PInt skip) then ret None
    else thrash_one name rank gid ;; ret None.

(** One iteration of the main loop after its delay *)
Definition thrash_pass : MD unit :=
  t <- get ;;
  status <- on_fs fs_status ;;
  r <- randrange_float 0 1 ;;
  status <- (if Qle_bool (inject_Z r) (thrash_max_mds t) then thrash_max status else ret status) ;;
  modify (fun t => set_stats (fun st => st) 0 t) ;;
  i <- fsid ;;
  get_ranks status i thrash_info ;;
  ret tt.

Definition do_thrash : MD unit :=
  modify (set_stats (fun _ => Stats 0 0 0) 0) ;;
  while fuel (fun _ => b <- stopping ;; ret (negb b))
    (fun _ =>
       t <- get ;;
       delay <- pick_delay (max_thrash_delay t) ;;
       stop <- (if Qlt_bool 0 delay then emit (EvWait delay) ;; stopping else ret false) ;;
       if stop : bool then ret tt else thrash_pass) tt.

(** [MDSThrasher(ctx, manager, config, logger, fs, max_mds)] *)
Definition init (c : context) (config : dict) (f : fsys) (max_mds : Z) : M mgr mdst :=
  clean <- is_clean ;;
  assert_ clean "self.manager.is_clean()" ;;
  tmm <- float_ (dict_get "thrash_max_mds" (PFloat (1 # 4)) config) ;;
  mt <- as_int (dict_get "max_thrash" (PInt 1) config) ;;
  mtd <- float_ (dict_get "thrash_delay" (PFloat 120) config) ;;
  tir <- float_ (dict_get "thrash_in_replay" (PBool false) config) ;;
  assert_ (Qle_bool 0 tir && Qle_bool tir 1) "thrash_in_replay must be between [0.0, 1.0]" ;;
  mrtd <- float_ (dict_get "max_replay_thrash_delay" (PFloat 4) config) ;;
  mrd <- float_ (dict_get "max_revive_delay" (PFloat 10) config) ;;
  ret (Mdst c config f max_mds (truthy (dict_get "randomize" (PBool true) config)) tmm mt mtd tir mrtd mrd
         (Stats 0 0 0) 0).

(** ** The task *)

(** Every daemon is active or a standby. *)
Definition steady (status : pyval) : M mgr bool :=
  r <- get_all status (fun info =>
    st <- subscript info "state" ;;
    ret (if existsb (eq_str st) healthy_states then None else Some tt)) ;;
  ret (match r with Some _ => false | None => true end).
(** Run on the cluster's own manager: wait for a steady status. *)
Definition wait_steady : M mgr pyval :=
  st <- status ;;
  loop fuel (fun st =>
    b <- steady st ;;
    if b : bool then ret (inr st)
    else sleep 2 ;; st <- status ;; ret (inl st)) st.

Section Task.
Context (get_first_mon : context -> dict -> string).
Context (all_roles_of_type : context -> string -> list string) (client_remote_of : context -> string -> remote).

(** The random seed: the configured one or the time *)
Definition seed_of {S} (config : dict) : M S Z :=
  match dict_lookup "seed" config with
  | Some v => as_int v
  | None => t <- time ;; ret (Qfloor t)
  end.
(** One thrasher for each file system, started under its name *)
Definition start_thrasher {S} (c : context) (m : mgr) (config : dict) (fs : pyval) : M S string :=
  mm <- subscript fs "mdsmap" ;; v <- subscript mm "fs_name" ;; n <- as_str v ;;
  i <- subscript fs "id" ;;
  f <- new_filesystem get_first_mon all_roles_of_type client_remote_of c (Some i) None ;;
  mx <- subscript mm "max_mds" ;; max_mds <- as_int mx ;;
  fresh m (init c config f max_mds) ;;
  emit (EvSpawn n) ;;
  ret n.
(** [thrashers[name].stop()], [.get()] and [.join()] *)
Definition join_thrasher {S} (n : string) : M S unit :=
  call "stop" [n] ;; emit (EvJoin n) ;; emit (EvJoin n) ;; ret tt.

Definition task {S A} (c : context) (config : dict) (body : M S A) : M S A :=
  mds_cluster <- new_mds_cluster get_first_mon all_roles_of_type c ;;
  let mdslist := all_roles_of_type c "mds" in
  assert_ (1 <? Z.of_nat (length mdslist)) "mds_thrash task requires at least 2 metadata servers" ;;
  seed_of config ;;
  first_mds <- of_option IndexError (head mdslist) ;;
  first <- lone c ("mds." +:+ first_mds) ;;
  manager <- make_manager c first "zbkc" ;;
  st <- fresh mds_cluster.1 wait_steady ;;
  x <- fresh manager (wait_for_clean None) ;;
  fss <- subscript_list st.1 "filesystems" ;;
  names <- map_ (start_thrasher c x.2 config) fss ;;
  finally body (for_ (remove_dups names) join_thrasher).
End Task.

End MDSThrasher.
