(* ===== verification/MdsFacts.v ===== *)
(** * The MDS thrasher

    Theorems about [MdsThrash]: at most one metadata server is down at any moment and
    a finished run leaves none down; and two
    options that do not do what their documentation says. *)
From Stdlib Require Import QArith Qround Lqa.
From S2P Require Import Prelude PyVal World ZbkcManager ManagerWait FSStatus Filesystem FsOps Daemons.
From S2P Require Import MdsThrash.

Abbreviation mds_down := (down "mds").
Definition no_powercycle (t : mdst) : Prop := truthy (dict_get "powercycle" PNone (md_config t)) = false.

Section Kills.
Context {E : Env} {F : Fuel}.
Abbreviation calm P := (keeping md_config P).

Lemma on_fs_keeping {A} P (m : M fsys A) : Runs false (emits P) m -> Runs false (calm P) (on_fs m).
Proof. apply runs_zoom. intros s t w w' H. by split. Qed.
#[local] Hint Extern 1 (Runs _ (keeping md_config _) (on_fs _)) => (apply on_fs_keeping; runs_tac) : runs.
#[local] Hint Extern 1 (EmitOk (keeping _ _) _) => (by apply keeping_emit) : runs.
#[local] Hint Extern 1 (EmitOk (emits _) _) => (by apply emits_emit) : runs.

Lemma fman_emits {A} P (m : M mgr A) : Runs false (emits P) m -> Runs false (emits P) (fman m).
Proof. apply runs_zoom. auto. Qed.
#[local] Hint Extern 1 (Runs _ (emits _) (fman _)) => (apply fman_emits; runs_tac) : runs.

Lemma wait_for_stable_quiet rg : Runs false (calm no_daemon) (wait_for_stable rg).
Proof. unfold wait_for_stable. runs_tac; by apply keeping_emit. Qed.
Lemma wait_down_quiet name : Runs false (calm no_daemon) (wait_down name).
Proof. unfold wait_down. runs_tac; by apply keeping_emit. Qed.
Lemma wait_standby_quiet name : Runs false (calm no_daemon) (wait_standby name).
Proof. unfold wait_standby. runs_tac; by apply keeping_emit. Qed.
#[local] Hint Resolve wait_for_stable_quiet wait_down_quiet wait_standby_quiet : runs.
Lemma stats_keeping P g h : Runs false (calm P) (modify (fun t => set_stats (g t) (h t) t)).
Proof.
  apply runs_modify. intros t w. split; [done|]. exists []. by rewrite app_nil_r.
Qed.
Lemma bump_keeping P g : Runs false (calm P) (bump g).
Proof. apply stats_keeping. Qed.
#[local] Hint Resolve stats_keeping bump_keeping : runs.
Lemma thrash_max_quiet st : Runs false (calm no_daemon) (thrash_max st).
Proof. unfold thrash_max. runs_tac; by apply keeping_emit. Qed.
Lemma pick_delay_quiet d : Runs false (calm no_daemon) (pick_delay d).
Proof. runs_tac. Qed.

(** Commands to a metadata server's daemon, on their own *)
Abbreviation sends op mds m t w :=
  (wp m (fun _ t' w' => md_config t = md_config t' /\ exists c, w' = after (EvDaemon op "mds" mds "zbkc") c w) t w).
Lemma mds_daemon_sends op mds t w : sends op mds (daemon op "mds" mds "zbkc") t w.
Proof. unfold daemon. apply wp_bind, wp_emit. intros r c _. destruct (raised r); wp_run; eauto. Qed.
Lemma mds_kill_sends mds t w : no_powercycle t -> sends DStop mds (kill_mds mds) t w.
Proof.
  intros Hp. unfold kill_mds. apply wp_bind, wp_get. unfold then_. rewrite Hp. apply mds_daemon_sends.
Qed.
Lemma mds_revive_sends mds t w : no_powercycle t -> sends (DRestart []) mds (revive_mds mds None) t w.
Proof.
  intros Hp. unfold revive_mds. apply wp_bind, wp_get. unfold then_. rewrite Hp. unfold when.
  apply wp_bind, wp_ret. unfold then_. apply mds_daemon_sends.
Qed.

Definition downs (X : gset string) (tr : list event) : Prop := mds_down tr = X.
Lemma downs_quiet {A} ks t0 w0 X (m : M mdst A) t w :
  Runs false (calm no_daemon) m -> track md_config ks t0 w0 (downs X) t w ->
  wp m (tri md_config ks t0 w0 (downs X)) t w.
Proof.
  intros Hm. apply track_quiet; [|done]. intros tr evs Hall <-. by apply no_daemon_down.
Qed.

(** Killing one daemon, until it is back. *)
Lemma thrash_one_spec name rank gid t w :
  no_powercycle t -> downs ∅ (w_trace w) ->
  wp (thrash_one name rank gid) (tri md_config [name] t w (downs ∅)) t w.
Proof.
  intros Hp Hd. unfold thrash_one. eapply track_seq with (I := downs {[name]}).
  { eapply track_send with (I := downs ∅); [by apply mds_kill_sends|simpl; set_solver| |].
    - unfold downs. intros H. rewrite down_snoc, H. simpl. set_solver.
    - split; [split; [done|reflexivity]|done]. }
  intros _ t1 w1 H1. do 3 (eapply track_seq; [apply downs_quiet; [solve [auto with runs]|exact H1]|];
    clear H1 t1 w1; intros ? t1 w1 H1).
  apply wp_bind, wp_get. unfold then_.
  eapply track_seq; [apply downs_quiet; [apply pick_delay_quiet|exact H1]|].
  clear H1 t1 w1; intros ? t1 w1 H1.
  eapply track_seq; [apply downs_quiet; [|exact H1]; unfold sleep; runs_tac; by apply keeping_emit|].
  clear H1 t1 w1; intros ? t1 w1 H1.
  eapply track_seq with (I := downs ∅).
  { eapply track_send; [apply mds_revive_sends| | |exact H1]; [|done|].
    - destruct H1 as [[Hc _] _]. unfold no_powercycle. by rewrite <- Hc.
    - unfold downs. intros H. rewrite down_snoc, H. simpl. set_solver. }
  clear H1 t1 w1; intros ? t1 w1 H1. apply downs_quiet; [apply wait_standby_quiet|exact H1].
Qed.

(** One more than nothing: at every moment at most one daemon is down. *)
Definition one_down : world -> world -> Prop := always (fun tr => (size (mds_down tr) <= 1)%nat).
Definition fine (t : mdst) (w : world) {A} : post mdst A :=
  fun o t' w' => md_config t' = md_config t /\ one_down w w' /\ (is_ret o -> mds_down (w_trace w') = ∅).

Lemma one_down_stops {S} name (s s' : S) (w w' : world) :
  mds_down (w_trace w) = ∅ -> emits (stops_only [name]) (s, w) (s', w') -> one_down w w'.
Proof. apply always_of_stops. simpl. lia. Qed.
Lemma fine_quiet {A} (m : M mdst A) t w :
  mds_down (w_trace w) = ∅ -> Runs false (calm no_daemon) m -> wp m (fine t w) t w.
Proof.
  intros Hd Hm. eapply wp_conseq; [apply Hm|]. intros o t' w' [[Hc He] _]. split; [done|]. split.
  - eapply one_down_stops with (name := ""); [done|]. by apply emits_stops.
  - intros _. destruct He as (evs & Heq & Hall). cbn in Heq. rewrite Heq. by rewrite no_daemon_down.
Qed.
Lemma fine_seq {A B} (m : M mdst A) (k : A -> M mdst B) t w :
  wp m (fine t w) t w ->
  (forall a t1 w1, md_config t1 = md_config t -> mds_down (w_trace w1) = ∅ -> wp (k a) (fine t1 w1) t1 w1) ->
  wp (bind m k) (fine t w) t w.
Proof.
  intros Hm Hk. apply wp_bind. eapply wp_conseq; [exact Hm|].
  intros [a|e|] t1 w1 (Hc & Ho & Hd); unfold then_; [|split; [done|]; split; [done|]; tauto..].
  specialize (Hd I). eapply wp_conseq; [by apply Hk|]. intros o t2 w2 (Hc2 & Ho2 & Hd2).
  split; [congruence|]. split; [by eapply always_trans|done].
Qed.

Lemma fine_next {A B} (m : M mdst A) (k : A -> M mdst B) t w :
  no_powercycle t -> mds_down (w_trace w) = ∅ -> Runs false (calm no_daemon) m ->
  (forall a t1 w1, no_powercycle t1 -> mds_down (w_trace w1) = ∅ -> wp (k a) (fine t1 w1) t1 w1) ->
  wp (bind m k) (fine t w) t w.
Proof.
  intros Hp Hd Hm Hk. apply fine_seq; [by apply fine_quiet|]. intros a t1 w1 Hc Hd1.
  apply Hk; [|done]. unfold no_powercycle in *. congruence.
Qed.

Lemma fine_while {L} n (cond : L -> M mdst bool) body :
  (forall l t w, no_powercycle t -> mds_down (w_trace w) = ∅ -> wp (cond l) (fine t w) t w) ->
  (forall l t w, no_powercycle t -> mds_down (w_trace w) = ∅ -> wp (body l) (fine t w) t w) ->
  forall l t w, no_powercycle t -> mds_down (w_trace w) = ∅ -> wp (while n cond body l) (fine t w) t w.
Proof.
  intros Hcond Hbody. induction n as [|n IH]; intros l t w Hp Hd; simpl; [by apply fine_quiet; [|runs_tac]|].
  apply fine_seq; [by apply Hcond|]. intros b t1 w1 Hc Hd1.
  assert (Hp1 : no_powercycle t1) by (unfold no_powercycle in *; congruence).
  destruct b; [|by apply fine_quiet; [|runs_tac]].
  apply fine_seq; [by apply Hbody|]. intros l2 t2 w2 Hc2 Hd2. apply IH; [|done].
  unfold no_powercycle in *; congruence.
Qed.

Lemma thrash_info_fine info t w :
  no_powercycle t -> mds_down (w_trace w) = ∅ -> wp (thrash_info info) (fine t w) t w.
Proof.
  intros Hp Hd. unfold thrash_info, weight_of.
  do 5 (apply fine_next; [assumption..|runs_tac|intros]).
  apply wp_bind, wp_get. unfold then_. case_match; [by apply fine_quiet; [done|runs_tac]|].
  do 2 (apply fine_next; [assumption..|runs_tac|intros]).
  case_match; [by apply fine_quiet; [done|runs_tac]|].
  apply fine_seq; [|intros; apply fine_quiet; [done|runs_tac]].
  eapply wp_conseq; [by apply thrash_one_spec|]. intros o t' w' [[Hc He] Hr].
  split; [done|]. split; [by eapply one_down_stops|done].
Qed.
Lemma infos_fine infos t w :
  no_powercycle t -> mds_down (w_trace w) = ∅ ->
  wp (for_return infos (fun info => r <- subscript info "rank" ;;
        if py_le (PInt 0) r then thrash_info info else ret None)) (fine t w) t w.
Proof.
  revert t w; induction infos as [|i l IH]; intros t w Hp Hd; simpl; [by apply fine_quiet; [done|runs_tac]|].
  apply fine_seq.
  - apply fine_next; [assumption..|runs_tac|intros]. case_match; [by apply thrash_info_fine|].
    apply fine_quiet; [done|runs_tac].
  - intros a t1 w1 Hc Hd1. assert (no_powercycle t1) by (unfold no_powercycle in *; congruence).
    destruct a; [by apply fine_quiet; [done|runs_tac]|by apply IH].
Qed.
Lemma thrash_pass_fine t w :
  no_powercycle t -> mds_down (w_trace w) = ∅ -> wp thrash_pass (fine t w) t w.
Proof.
  intros Hp Hd. unfold thrash_pass, get_ranks. apply wp_bind, wp_get. unfold then_.
  do 2 (apply fine_next; [assumption..|runs_tac|intros]).
  apply fine_next; [assumption..|case_match; [apply thrash_max_quiet|runs_tac]|intros].
  do 2 (apply fine_next; [assumption..|runs_tac|intros]).
  apply fine_seq; [|intros; apply fine_quiet; [done|runs_tac]].
  do 2 (apply fine_next; [assumption..|runs_tac|intros]). by apply infos_fine.
Qed.

(** C6: the MDS thrasher, when it does not power cycle and starts with none down, never has
    more than one metadata server down: each one it kills is started again and seen as a standby before the
    next is killed, at every moment of [do_thrash] and however it ends; when it returns,
    none is down. *)
Theorem mds_thrash_one_at_a_time (t : mdst) (w : world) :
  no_powercycle t -> mds_down (w_trace w) = ∅ ->
  wp do_thrash (fun o _ w' =>
    always (fun tr => (size (mds_down tr) <= 1)%nat) w w' /\
    (o = Ret tt -> mds_down (w_trace w') = ∅)) t w.
Proof.
  intros Hp Hd. apply wp_conseq with (P := fine t w); [|intros o t' w' (_ & Ho & Hr)].
  2: { split; [exact Ho|]. intros ->. by apply Hr. }
  unfold do_thrash. apply fine_next; [done..|apply stats_keeping|]. intros.
  apply fine_while; [intros; apply fine_quiet; [done|runs_tac; by apply keeping_emit]| |done..].
  clear. intros _ t w Hp Hd. apply wp_bind, wp_get. unfold then_.
  apply fine_next; [assumption..|apply pick_delay_quiet|intros].
  apply fine_next; [assumption..|runs_tac; by apply keeping_emit|intros].
  case_match; [by apply fine_quiet; [done|runs_tac]|by apply thrash_pass_fine].
Qed.
End Kills.

(** ** Options *)
Section Options.
Context {E : Env} {EL : EnvLaws E} {F : Fuel}.

Definition drawn (w : world) : world := World (w_env w) (S (w_draws w)) (w_trace w).

(** [random.randrange(0.0, 1.0)] is always 0. *)
Lemma randrange_unit {S} (s : S) (w : world) : randrange_float 0 1 s w = (Ret 0, s, drawn w).
Proof.
  assert (H : wp (randrange 0 1) (fun o s' w' => o = Ret 0 /\ s' = s /\ w' = drawn w) s w).
  { apply wp_randrange; [|lia]. intros r w' Hr ->. split; [f_equal; lia|done]. }
  change (randrange_float 0 1 s w) with (randrange 0 1 s w). unfold wp in H.
  destruct (randrange 0 1 s w) as [[o s'] w']. by destruct H as (-> & -> & ->).
Qed.

(** An MDS that [thrash_weights] does not list is thrashed in every pass, although
    the documentation gives it weight 0.0: its default weight is the string '0.0', which
    Python 2 orders above every number, so the skip test never succeeds. *)
Theorem unlisted_mds_thrashed (i weights : dict) (name : string) (rank gid : pyval) (t : mdst) (w : world) :
  dict_lookup "thrash_weights" (md_config t) = Some (PDict weights) ->
  dict_lookup ("mds." +:+ name) weights = None ->
  dict_lookup "name" i = Some (PStr name) -> dict_lookup "rank" i = Some rank -> dict_lookup "gid" i = Some gid ->
  thrash_info (PDict i) t w =
    (thrash_one name rank gid ;; ret None) (set_stats (fun st => st) (md_count t + 1) t) (drawn w).
Proof.
  intros Hw Hl Hn Hr Hg. unfold thrash_info, subscript. rewrite Hn, Hr, Hg.
  do 6 (rewrite (bind_run _ _ _ _ _ _ _ eq_refl)). unfold dict_has. cbn [set_stats md_config].
  rewrite Hw. cbn [negb andb].
  erewrite bind_run.
  2: { unfold weight_of. rewrite (bind_run _ _ _ _ _ _ _ eq_refl). cbn [set_stats md_config]. rewrite Hw.
       rewrite (bind_run _ _ _ _ _ _ _ eq_refl). unfold dict_get. rewrite Hl. reflexivity. }
  erewrite bind_run; [|apply randrange_unit]. reflexivity.
Qed.

(** Every pass of the MDS thrasher changes [max_mds], whatever likelihood
    [thrash_max_mds] gives (zero included): the draw it is compared with,
    [randrange(0.0, 1.0)], is always 0. *)
Theorem max_mds_always_thrashed (t : mdst) (w : world) :
  (0 <= thrash_max_mds t)%Q ->
  thrash_pass t w =
    (status <- on_fs fs_status ;;
     randrange_float 0 1 ;;
     status <- thrash_max status ;;
     modify (fun t => set_stats (fun st => st) 0 t) ;;
     i <- fsid ;;
     get_ranks status i thrash_info ;;
     ret tt) t w.
Proof.
  intros H. unfold thrash_pass. rewrite (bind_run _ _ _ _ _ _ _ eq_refl).
  unfold bind at 1 7. destruct (on_fs fs_status t w) as [[[st|e|] t1] w1]; [|done..].
  rewrite !(bind_run _ _ _ _ _ _ _ (randrange_unit t1 w1)). change (inject_Z 0) with 0%Q.
  apply Qle_bool_iff in H. by rewrite H.
Qed.
End Options.
