(* ===== verification/Thrashosds.v ===== *)
(** * The thrashosds task (tasks/thrashosds.py): a [Thrasher] around other tasks

    [teuthology.deep_merge] is not part of the sources and is an argument of the
    section, as are the job's configuration [ctx.config] and [ctx.teuthology_config].
    [ctx.managers[cluster]] is the object the task runs on. *)
From Stdlib Require Import Ascii QArith Qround Lqa.
From S2P Require Import Prelude PyVal World ZbkcManager ManagerWait Thrasher.

Section Task.
Context {E : Env} {F : Fuel}.
Context (deep_merge : dict -> pyval -> dict) (job_config teuthology_config : dict).
Abbreviation MM A := (M mgr A).

(** The configuration with its defaults, and the job's overrides merged into it. *)
Definition with_defaults (config : dict) : dict :=
  let set k v c := dict_set k (dict_get k v c) c in
  set "noscrub_toggle_delay" (PFloat 2)
    (set "dump_ops_enable" (PStr "true")
      (set "optrack_toggle_delay" (PFloat 2)
        (set "sighup_delay" (PFloat (1 # 10)) config))).
Definition task_config (config : dict) : MM dict :=
  let config := with_defaults config in
  overrides <- as_dict (dict_get "overrides" (PDict []) job_config) ;;
  ret (deep_merge config (dict_get "thrashosds" (PDict []) overrides)).

(** Before power cycling: sync every machine, look at every console, and insist on
    a console for each machine with an OSD. *)
Definition check_consoles (cl : string) : MM unit :=
  m <- get ;;
  for_ (map fst (cluster_roles (ctx m))) (fun r => run r ["sync"] true ;; ret tt) ;;
  when (dict_has "ipmi_user" teuthology_config)
    (for_ (map fst (cluster_roles (ctx m))) (fun r => ask (EvConsole (CheckStatus None) r) ;; ret tt) ;;
     for_ (only (is_type "osd" cl) (ctx m)) (fun r =>
       when (negb (has_ipmi_credentials r))
         (raise (PyException ("IPMI console required for powercycling, but not available on osd role: " +:+ r))))).

(** [cluster_manager.config[f] = config.get(f)] for the two options the manager reads. *)
Definition set_mgr_config (k : string) (v : pyval) (m : mgr) : mgr :=
  Mgr (ctx m) (controller m) (cluster m) (dict_set k v (ZbkcManager.config m)) (next_pool_id m) (pools m).
Definition configure_manager (config : dict) : MM unit :=
  for_ ["powercycle"; "bdev_inject_crash"] (fun f =>
    let v := dict_get f PNone config in
    when (truthy v) (modify (set_mgr_config f v))).

Definition timeout_of (v : pyval) : MM (option Q) :=
  match v with PNone => ret None | _ => q <- as_num v ;; ret (Some q) end.

Definition task {A} (config : dict) (body : MM A) : MM A :=
  config <- task_config config ;;
  cl <- as_str (dict_get "cluster" (PStr "zbkc") config) ;;
  when (dict_has "powercycle" config) (check_consoles cl) ;;
  configure_manager config ;;
  thrash_proc <- Thrasher.init config ;;
  finally body
    (zoom (fun m => set_manager m thrash_proc) (fun t _ => zbkc_manager t) Thrasher.do_join ;;
     tmo <- timeout_of (dict_get "timeout" (PInt 360) config) ;;
     wait_for_recovery tmo).

End Task.

(** ** Crash injection *)

Section Crash.
Context {E : Env} {F : Fuel}.
Abbreviation prob m := (dict_lookup "bdev_inject_crash_probability" (ZbkcManager.config m)).

Lemma configure_keeps config m w :
  wp (configure_manager config) (fun _ m' w' => prob m' = prob m /\ w' = w) m w.
Proof.
  unfold configure_manager. simpl. wp_run; split; try done; cbn; by rewrite ?dict_lookup_set.
Qed.

(** What [kill_osd] comes to without a probability. *)
Definition plain_kill (m : mgr) (osd : Z) : M mgr unit :=
  if truthy (dict_get "powercycle" PNone (ZbkcManager.config m)) then
    r <- find_remote "osd" (zs osd) ;; _assert_ipmi r ;; emit (EvConsole PowerOff r) ;; ret tt
  else daemon_of DStop "osd" (zs osd).
Lemma kill_without_probability osd m w :
  prob m = None -> ManagerWait.kill_osd osd m w = plain_kill m osd m w.
Proof.
  intros Hp. unfold ManagerWait.kill_osd, cfg. do 3 rewrite (bind_run _ _ _ _ _ _ _ eq_refl).
  assert (dict_get "bdev_inject_crash_probability" PNone (ZbkcManager.config m) = PNone) as ->.
  { unfold dict_get. by rewrite Hp. }
  rewrite andb_false_r. done.
Qed.

(** Thrashosds never injects a crash into a block device: it hands the manager
    [bdev_inject_crash] but not [bdev_inject_crash_probability], without which [kill_osd]
    stops the OSD (or powers the machine off) and runs no command. *)
Theorem thrashosds_never_injects_crash (config : dict) (osd : Z) (m : mgr) (w : world) :
  prob m = None ->
  wp (configure_manager config ;; ManagerWait.kill_osd osd)
     (fun _ _ w' => runs_made w' = runs_made w) m w.
Proof.
  intros Hp. apply wp_bind. eapply wp_conseq; [apply configure_keeps|].
  intros [[]|e|] m1 w1 [Hp1 ->]; unfold then_; [|done..].
  assert (Hr : Runs false (emits (fun ev => is_run ev = false)) (plain_kill m1 osd))
    by (unfold plain_kill; runs_tac; by apply emits_emit).
  specialize (Hr m1 w). unfold wp in *. rewrite kill_without_probability by congruence.
  destruct (plain_kill m1 osd m1 w) as [[o m2] w2]. destruct Hr as [(evs & He & Hall) _].
  cbn in He. unfold runs_made, count_run. rewrite He, List.filter_app, length_app.
  assert (List.filter is_run evs = []) as ->; [|simpl; lia].
  clear He. induction Hall as [|ev evs Hev Hall IH]; [done|]. simpl. by rewrite Hev.
Qed.
End Crash.
