(* ===== verification/Witnesses.v ===== *)
(** * Witnesses

    The theorems applied at concrete inputs: the simulated environment [sim], a small
    cluster of four OSDs and three monitors, and scripts of replies.  Where a theorem
    speaks of a run, the run is also evaluated, so that the hypotheses are seen to hold
    of runs that do something. *)
From Stdlib Require Import QArith Qround Lqa Permutation Sorting.Sorted.
From S2P Require Import Prelude PyVal World ZbkcManager ManagerWait Scrub FSStatus Filesystem FsOps.
From S2P Require Import FsFacts Daemons Sim WaitFacts PoolFacts PgFacts Thrasher ThrasherFacts ThrasherChoice.
From S2P Require Import ThrasherRuns ThrasherSpec ObjectStoreTool MonThrash MonFacts MdsThrash MdsFacts Thrashosds.

#[local] Existing Instance sim.
#[local] Instance sim_fuel : Fuel := 60%nat.

(** How a run ended *)
Definition ends {S A} (m : M S A) (s : S) (w : world) : outcome A := (m s w).1.1.

(** Four OSDs, the last of them dead and out. *)
Definition sim_thr : thr :=
  Thr sim_mgr [0; 1; 2] [0; 1; 2] [3] [3] [] 150 0 2 1 PNone PNone PNone (PFloat 2) (PInt 4800) false false.

Lemma sim_inv : thrasher_inv [0; 1; 2; 3] sim_thr.
Proof.
  split; [done|]. split; [done|]. repeat constructor; set_solver.
Qed.

Lemma do_thrash_partitions_witness :
  wp Thrasher.do_thrash (fun _ t' _ => thrasher_inv [0; 1; 2; 3] t') sim_thr (sim_world 3 []).
Proof. apply (do_thrash_partitions [0; 1; 2; 3]). exact sim_inv. Defined.

Lemma do_thrash_refines_witness :
  wp Thrasher.do_thrash (fun o t' _ => exists gap, (is_ret o -> gap = false) /\
    asteps (discontinuities (config sim_thr)) (list_to_set [0; 1; 2; 3]) (minin sim_thr) 2 (abs_of false sim_thr) (abs_of gap t') /\
    (2 <= count (live_osds sim_thr) -> 2 - (if gap then 1 else 0) <= count (live_osds t'))) sim_thr (sim_world 3 []).
Proof.
  apply (do_thrash_refines (config sim_thr) [0; 1; 2; 3] (minin sim_thr) 2 sim_thr);
    [exact sim_inv|reflexivity|reflexivity|by intros w].
Defined.

Lemma do_thrash_restores_witness :
  ends Thrasher.do_thrash sim_thr (sim_world 3 []) = Ret tt /\
  wp Thrasher.do_thrash (fun o t' _ => o = Ret tt ->
    dead_osds t' = [] /\ out_osds t' = [] /\ in_osds t' ≡ₚ [0; 1; 2; 3] /\ live_osds t' ≡ₚ [0; 1; 2; 3])
    sim_thr (sim_world 3 []).
Proof. split; [vm_compute; reflexivity|]. apply (do_thrash_restores [0; 1; 2; 3]). exact sim_inv. Defined.

Lemma all_up_restores_witness :
  wp all_up (fun o t' _ =>
    match o with
    | Ret _ => dead_osds t' = [] /\ out_osds t' = [] /\
               in_osds t' ≡ₚ [0; 1; 2] ++ [3] /\ live_osds t' ≡ₚ [0; 1; 2] ++ [3]
    | Exc _ => True
    | Stuck => False
    end) sim_thr (sim_world 0 []).
Proof. apply (all_up_restores sim_thr); vm_compute; lia. Defined.

Lemma choose_action_enabled_witness :
  exists key act, ends choose_action sim_thr (sim_world 0 []) = Ret (key, Some act) /\ action_ok sim_thr act.
Proof.
  pose proof (choose_action_enabled sim_thr (sim_world 0 [])) as H. unfold wp in H.
  destruct (choose_action sim_thr (sim_world 0 [])) as [[o t'] w'] eqn:Heq. destruct H as [_ H].
  assert (Ho : ends choose_action sim_thr (sim_world 0 []) = o) by (unfold ends; by rewrite Heq).
  rewrite Ho. vm_compute in Ho. subst o. do 2 eexists. split; [reflexivity|]. by eapply H.
Defined.

Lemma pauses_never_fail_heartbeats_witness :
  wp (ka <- choose_action ;; if is_pause ka.2 then call_action ka.1 ka.2 else ret tt)
     (fun _ t' w' => emits (fun ev => ~ sets_option "heartbeat_inject_failure" ev)
                       (sim_thr, sim_world 0 []) (t', w')) sim_thr (sim_world 0 []).
Proof. apply (pauses_never_fail_heartbeats sim_thr (sim_world 0 [])). Defined.

Lemma do_thrash_min_in_witness :
  wp Thrasher.do_thrash (fun _ t' _ => minin t' = 2 /\ 2 <= count (in_osds t')) sim_thr (sim_world 3 []).
Proof. apply (do_thrash_min_in sim_thr). vm_compute. discriminate. Defined.

Lemma do_thrash_min_live_witness :
  wp Thrasher.do_thrash (fun _ t' _ => 2 <= count (live_osds t')) sim_thr (sim_world 3 []).
Proof.
  apply (do_thrash_min_live sim_thr _ 2); [by intros w|intros q [= <-]; discriminate|vm_compute; discriminate].
Defined.

Lemma noscrub_toggle_clears_witness :
  ends do_noscrub_toggle sim_thr (sim_world 3 []) = Ret tt /\
  wp do_noscrub_toggle (fun o _ w' => o = Ret tt -> flags (w_trace w') = (false, false)) sim_thr (sim_world 3 []).
Proof. split; [vm_compute; reflexivity|]. apply (noscrub_toggle_clears sim_thr). reflexivity. Defined.

(** ** The manager *)

Lemma wait_run_admin_socket_bounded_witness :
  wp (wait_run_admin_socket "osd" "0" ["dump_ops_in_flight"] 150)
     (fun o s' w' => o <> Stuck /\ s' = sim_mgr /\
        (runs_made w' <= runs_made (sim_world 0 []) + Z.to_nat (socket_tries 150))%nat) sim_mgr (sim_world 0 []).
Proof. apply (wait_run_admin_socket_bounded "osd" "0"). vm_compute. lia. Defined.

Lemma waits_end_by_timeout_witness :
  wp (wait_for_all_up (Some 60%Q)) (fun o _ _ => o <> Stuck) sim_mgr (sim_world 0 []).
Proof.
  assert (Hf : (Z.to_nat (rounds 60) < fuel)%nat) by (vm_compute; lia).
  exact (proj1 (waits_end_by_timeout 60 0 3 sim_mgr (sim_world 0 []) Hf)).
Defined.

Lemma unique_pool_names_witness :
  wp (a <- create_pool_with_unique_name 8 None None false ;; ret tt ;;
      b <- create_pool_with_unique_name 8 None None false ;; ret (a, b))
     (fun o _ _ => forall a b, o = Ret (a, b) -> a <> b) sim_mgr (sim_world 0 []).
Proof. apply (unique_pool_names (ret tt)). runs_tac. Defined.

(** A body that raises *)
Definition failing_body : M mgr unit := raise (RuntimeError "workload").

Lemma pool_round_trip_witness :
  ends (pool "data" 8 None failing_body) sim_mgr (sim_world 0 []) = Exc (RuntimeError "workload") /\
  exists s1 w1, create_pool "data" 8 None None false sim_mgr (sim_world 0 []) = (Ret tt, s1, w1) /\
    pool "data" 8 None failing_body sim_mgr (sim_world 0 []) = (Exc (RuntimeError "workload"), s1, w1) /\
    pools s1 = <["data" := 8]> (pools sim_mgr).
Proof.
  split; [vm_compute; reflexivity|].
  destruct (create_pool "data" 8 None None false sim_mgr (sim_world 0 [])) as [[o s1] w1] eqn:Heq.
  assert (Ho : ends (create_pool "data" 8 None None false) sim_mgr (sim_world 0 []) = o)
    by (unfold ends; by rewrite Heq).
  vm_compute in Ho. subst o. exists s1, w1. split; [reflexivity|].
  destruct (pool_round_trip failing_body "data" 8 None sim_mgr (sim_world 0 [])) as [_ H];
    [unfold failing_body; runs_tac|vm_compute; reflexivity|].
  by apply (H _ _ _ _ _ Heq).
Defined.

Definition status_reply (st : Z) (out : string) : reply := Reply st out "" None.

Definition json_reply (v : pyval) : reply := ok_reply (nls +:+ Json.dumps v).

(** The third answer is not EAGAIN any more; then the connection is lost at the second. *)
Definition busy_twice : list reply := [status_reply 11 ""; status_reply 11 ""; ok_reply ""].
Definition lost : list reply := [status_reply 11 ""; Reply 0 "" "" (Some (OtherError "ConnectionLostError"))].
Lemma set_pool_property_retries_witness :
  let run replies := attempts (cluster_cmd sim_mgr ["osd"; "pool"; "set"; "rbd"; "pg_num"; "74"]) 51 (w_env (sim_world 0 replies)) in
  run busy_twice = (Accepted, 3%nat) /\ run lost = (Broken (OtherError "ConnectionLostError"), 2%nat) /\
  wp (set_pool_property "rbd" "pg_num" 74) (fun o s' w' => s' = sim_mgr /\
    o = attempts_outcome (eagain_timeout "rbd" "pg_num" 74) (run lost).1 /\
    runs_made w' = (runs_made (sim_world 0 lost) + (run lost).2)%nat) sim_mgr (sim_world 0 lost).
Proof.
  cbv zeta. split; [vm_compute; reflexivity|]. split; [vm_compute; reflexivity|].
  apply (set_pool_property_retries "rbd" "pg_num" 74 sim_mgr (sim_world 0 lost)). unfold fuel, sim_fuel. lia.
Defined.

(** EINVAL is taken for success. *)
Lemma set_pool_property_accepts_failure_witness :
  ends (set_pool_property "rbd" "pg_num" 74) sim_mgr (sim_world 0 [status_reply 22 ""]) = Ret tt.
Proof.
  unfold ends. erewrite set_pool_property_accepts_failure; [reflexivity|reflexivity|reflexivity|discriminate|].
  unfold fuel, sim_fuel. lia.
Defined.

Definition sim_pgs : list pyval :=
  [PDict [("pgid", PStr "0.0"); ("state", PStr "active+clean")];
   PDict [("pgid", PStr "0.1"); ("state", PStr "active+recovering")];
   PDict [("pgid", PStr "0.2"); ("state", PStr "down+peering")]].
Definition sim_states : list string := ["active+clean"; "active+recovering"; "down+peering"].

Lemma pg_counters_nested_witness :
  exists clean recovered active down active_down : Z,
    count_states is_active_clean sim_pgs 0 sim_mgr (sim_world 0 []) = (Ret clean, sim_mgr, sim_world 0 []) /\
    count_states is_active_recovered sim_pgs 0 sim_mgr (sim_world 0 []) = (Ret recovered, sim_mgr, sim_world 0 []) /\
    count_states is_active_pg sim_pgs 0 sim_mgr (sim_world 0 []) = (Ret active, sim_mgr, sim_world 0 []) /\
    count_states is_down_pg sim_pgs 0 sim_mgr (sim_world 0 []) = (Ret down, sim_mgr, sim_world 0 []) /\
    count_states is_active_down sim_pgs 0 sim_mgr (sim_world 0 []) = (Ret active_down, sim_mgr, sim_world 0 []) /\
    clean <= active /\ recovered <= active /\ active <= active_down /\ down <= active_down /\
    active_down <= active + down /\ active_down <= 3.
Proof. apply (pg_counters_nested sim_pgs sim_states). vm_compute. reflexivity. Defined.

Lemma all_pgs_clean_iff_witness :
  count_states is_active_clean sim_pgs 0 sim_mgr (sim_world 0 []) = (Ret 3, sim_mgr, sim_world 0 []) <->
  Forall (fun st => str_in "active" st = true /\ str_in "clean" st = true /\ str_in "stale" st = false) sim_states.
Proof. apply (all_pgs_clean_iff sim_pgs sim_states). vm_compute. reflexivity. Defined.

Lemma compile_states_histogram_witness :
  exists hist, compile_states sim_pgs ∅ sim_mgr (sim_world 0 []) = (Ret hist, sim_mgr, sim_world 0 []) /\
    hist !! "active" = Some 2.
Proof.
  destruct (compile_states_histogram sim_pgs sim_states sim_mgr (sim_world 0 [])) as (hist & Heq & Hk);
    [vm_compute; reflexivity|]. exists hist. split; [exact Heq|]. rewrite Hk. vm_compute. reflexivity.
Defined.

Lemma expand_pool_respects_bound_witness :
  wp (expand_pool "rbd" 10 (PInt 70)) (fun _ s' _ => exists n, pools s' !! "rbd" = Some n /\ n <= 70)
    sim_mgr (sim_world 0 [json_reply (PDict [("pg_stats", PList sim_pgs)])]).
Proof. apply (expand_pool_respects_bound "rbd" 10 64 70); [vm_compute; reflexivity|lia]. Defined.

Definition missing_page (oid : string) (more : Z) : pyval :=
  PDict [("objects", PList [PDict [("oid", PStr oid)]]); ("more", PInt more)].
Lemma list_pg_missing_all_pages_witness :
  let w := sim_world 0 [ok_reply (Json.dumps (missing_page "a" 1)); ok_reply (Json.dumps (missing_page "b" 0))] in
  exists r, (list_pg_missing "1.0" sim_mgr w).1.1 = Ret r /\
    page_objects r = Some [PDict [("oid", PStr "a")]; PDict [("oid", PStr "b")]].
Proof.
  cbv zeta. set (w := sim_world 0 _).
  destruct (list_pg_missing_all_pages "1.0" [[PDict [("oid", PStr "a")]]; [PDict [("oid", PStr "b")]]]
              sim_mgr w (list_pg_missing "1.0" sim_mgr w).2) as (r & Heq & Hobj).
  - eapply pages_more; [vm_compute; reflexivity|vm_compute; reflexivity|vm_compute; reflexivity|reflexivity
      |reflexivity|reflexivity|].
    eapply pages_last; [vm_compute; reflexivity|vm_compute; reflexivity|vm_compute; reflexivity|reflexivity].
  - vm_compute. lia.
  - exists r. split; [by rewrite Heq|exact Hobj].
Defined.

Lemma do_pg_scrub_bounded_witness :
  wp (do_pg_scrub "rbd" "0" "scrub") (fun o s' w' =>
    o <> Stuck /\ (requests "scrub" w' <= requests "scrub" (sim_world 0 []) + 3)%nat /\
    (o = Ret tt -> exists stamp s1 w1 stamp' s2 w2,
       get_last_scrub_stamp "rbd" "0" sim_mgr (sim_world 0 []) = (Ret stamp, s1, w1) /\
       get_last_scrub_stamp "rbd" "0" s2 w2 = (Ret stamp', s', w') /\ py_eq stamp stamp' = false))
    sim_mgr (sim_world 0 []).
Proof. apply (do_pg_scrub_bounded "rbd" "0" "scrub"); [discriminate|vm_compute; lia]. Defined.

(** ** Constructing a thrasher, and growing a pool with it *)

Definition clean_pgs : pyval := PDict [("pg_stats", PList [PDict [("state", PStr "active+clean")]])].
Definition init_script : list reply :=
  [json_reply clean_pgs; json_reply clean_pgs;
   ok_reply (Json.dumps (PDict [("pgmap", PDict [("num_pgs", PInt 1)])]));
   ok_reply ("osd.0 up   in  weight 1" +:+ nls +:+ "osd.1 up   in  weight 1" +:+ nls)].
(** A configuration that allows no more than one pg per OSD *)
Definition tight : dict := [("max_pgs_per_pool_osd", PInt 1)].

Lemma thrasher_pool_bound_ignored_witness :
  exists t, ends (Thrasher.init tight) sim_mgr (sim_world 0 init_script) = Ret t /\
    pools (expand_pool "rbd" 10 (max_pgs t) sim_mgr (sim_world 0 [json_reply clean_pgs])).1.2 !! "rbd" = Some 74.
Proof.
  set (r := Thrasher.init tight sim_mgr (sim_world 0 init_script)).
  destruct (r.1.1) as [t| |] eqn:Hr; [|vm_compute in Hr; discriminate..].
  exists t. split; [exact Hr|].
  set (w1 := sim_world 0 [json_reply clean_pgs]).
  rewrite (thrasher_pool_bound_ignored tight sim_mgr r.1.2 t (sim_world 0 init_script) r.2 "rbd" 10 64
             sim_mgr w1 (get_num_creating sim_mgr w1).2
             (set_pool_property "rbd" "pg_num" 74 sim_mgr (get_num_creating sim_mgr w1).2).2).
  - vm_compute. reflexivity.
  - fold r. destruct r as [[o m'] w']. simpl in Hr. by subst o.
  - vm_compute. reflexivity.
  - vm_compute. reflexivity.
  - vm_compute. reflexivity.
Defined.

(** ** The object store tool *)

Definition sim_tool : ost :=
  Ost sim_mgr "rbd" 1 None true "" "host0" "--data-path /var/lib/zbkc/osd/zbkc-1".
(** The OSD stops, the tool fails, the OSD starts. *)
Definition failing_tool : list reply := [ok_reply ""; status_reply 1 "no such object"].

Lemma tool_restarts_osd_witness :
  let w := sim_world 0 failing_tool in let killed := ManagerWait.kill_osd 1 sim_mgr w in
  killed.1.1 = Ret tt /\ ends (run_tool "" "list" None) sim_tool w = Exc (PyException "no such object ") /\
  wp (run_tool "" "list" None) (fun o _ w' =>
    match killed.1.1 with
    | Ret _ => exists cmd evs, w_trace w' = w_trace killed.2 ++ EvRun "host0" ["bash"; "-e"; "-x"; "-c"; cmd] :: evs /\
        (true = true -> osd_event (DRestart []) sim_tool ∈ evs \/ (powercycled sim_mgr /\ exists e, o = Exc e)) /\
        (true = false -> evs = [])
    | _ => o = killed.1.1 /\ w' = killed.2
    end) sim_tool w.
Proof.
  cbv zeta. split; [vm_compute; reflexivity|]. split; [vm_compute; reflexivity|].
  apply (tool_restarts_osd "" "list" sim_tool (sim_world 0 failing_tool) _ (ManagerWait.kill_osd 1 sim_mgr (sim_world 0 failing_tool)).1.2).
  by destruct (ManagerWait.kill_osd _ _ _) as [[??]?].
Defined.

Lemma tool_stdin_leaves_osd_down_witness :
  wp (run_tool "" "set-bytes" (Some "data")) (fun o t' w' => t' = sim_tool /\ (forall u, o <> Ret u) /\
    exists c, w' = after (osd_event DStop sim_tool) c (sim_world 0 []) /\ "1" ∈ down "osd" (w_trace w'))
    sim_tool (sim_world 0 []).
Proof.
  apply (tool_stdin_leaves_osd_down "" "set-bytes" "data" sim_tool); [split; vm_compute; reflexivity|discriminate].
Defined.

(** ** Monitors *)

Definition sim_mon_names (_ : context) : list string := ["mon.a"; "mon.b"; "mon.c"].
Definition mon_conf : context :=
  Context_ "/home/ubuntu/zbkctest" [("host0", ["mon.a"]); ("host1", ["mon.b"]); ("host2", ["mon.c"])]
    {[ "zbkc" := {[ "mon.a" := [("mon addr", PStr "10.0.0.1")]; "mon.b" := [("mon addr", PStr "10.0.0.2")];
                    "mon.c" := [("mon addr", PStr "10.0.0.3")] ]} ]} ∅ ∅ ∅.
Definition sim_mthr : mthr :=
  MThr mon_conf (Mgr mon_conf "host0" "zbkc" [] 0 ∅) 7 10 0 (PBool false) (PBool true) (PBool true) 0 15
    (PBool false) 50.
Definition quorum (n : nat) : pyval := PDict [("state", PStr "peon"); ("quorum", PList (repeat (PInt 0) n))].
Definition quorum_reply (n : nat) : reply := ok_reply (Json.dumps (quorum n)).
(** A round: the quorum of three is checked, one monitor stops, the two others are
    checked, it starts again, the three are checked, and a scrub is triggered. *)
Definition mon_script : list reply :=
  [quorum_reply 3; quorum_reply 3; quorum_reply 3; quorum_reply 3; ok_reply "";
   quorum_reply 2; quorum_reply 2; quorum_reply 2; ok_reply "";
   quorum_reply 3; quorum_reply 3; quorum_reply 3; quorum_reply 3; ok_reply ""].

Lemma mon_thrash_keeps_quorum_witness :
  ends (MonThrash.do_thrash sim_mon_names) sim_mthr (sim_world 1 mon_script) = Ret tt /\
  wp (MonThrash.do_thrash sim_mon_names) (fun o _ w' =>
    majority_up 3 (sim_world 1 mon_script) w' /\
    (o = Ret tt -> down "mon" (w_trace w') = ∅ /\ frozen (w_trace w') = ∅)) sim_mthr (sim_world 1 mon_script).
Proof.
  split; [vm_compute; reflexivity|].
  apply (mon_thrash_keeps_quorum sim_mon_names sim_mthr); try (vm_compute; reflexivity). discriminate.
Defined.

Lemma max_killable_majority_witness : 2 <= max_killable_of (PBool true) 5 <-> 5 < 2 * (5 - 2).
Proof. apply (max_killable_majority (PBool true) 5 2); [reflexivity|lia|lia]. Defined.

Definition freezing_mthr : mthr :=
  MThr mon_conf (Mgr mon_conf "host0" "zbkc" [] 0 ∅) 7 10 0 (PBool false) (PBool true) (PBool true) 101 15
    (PBool false) 50.
Lemma freezing_ignores_quorum_witness :
  wp (choose_frozen ["a"; "b"; "c"] ["b"]) (fun o t' _ => t' = freezing_mthr /\ o = Ret ["a"; "c"])
    freezing_mthr (sim_world 0 []).
Proof. apply (freezing_ignores_quorum ["a"; "b"; "c"] ["b"] freezing_mthr). reflexivity. Defined.

(** ** Metadata servers *)

Definition mds_entry (name : string) (rank gid : Z) (state : string) : pyval :=
  PDict [("name", PStr name); ("rank", PInt rank); ("gid", PInt gid); ("state", PStr state)].
Definition fsmap (standbys infos : list pyval) : pyval :=
  PDict [("standbys", PList standbys);
         ("filesystems", PList [PDict [("id", PInt 1); ("mdsmap", PDict
            [("max_mds", PInt 1); ("fs_name", PStr "zbkcfs"); ("failed", PList []);
             ("info", PDict (map (fun i => ("mds", i)) infos))])]])].
Definition fs_reply (standbys infos : list pyval) : reply := ok_reply (Json.dumps (fsmap standbys infos)).
Definition sim_fs : fsys := Fsys sim_mgr ["a"; "b"] "0" "host2" (PInt 1) (Some "zbkcfs") None None.
Definition sim_mdst (cfg : dict) : mdst := Mdst sim_ctx cfg sim_fs 1 false (1 # 4) 1 0 0 4 10 (Stats 0 0 0) 0.
(** A pass: [a] is active and stopped, [b] takes its rank, [a] is started and becomes a
    standby. *)
Definition mds_script : list reply :=
  [fs_reply [] [mds_entry "a" 0 1 "up:active"]; ok_reply "";
   fs_reply [] [mds_entry "b" 0 2 "up:active"]; fs_reply [] [mds_entry "b" 0 2 "up:active"]; ok_reply "";
   fs_reply [mds_entry "a" (-1) 3 "up:standby"] [mds_entry "b" 0 2 "up:active"]].

Lemma mds_thrash_one_at_a_time_witness :
  ends MdsThrash.do_thrash (sim_mdst []) (sim_world 1 mds_script) = Ret tt /\
  wp MdsThrash.do_thrash (fun o _ w' =>
    always (fun tr => (size (down "mds" tr) <= 1)%nat) (sim_world 1 mds_script) w' /\
    (o = Ret tt -> down "mds" (w_trace w') = ∅)) (sim_mdst []) (sim_world 1 mds_script).
Proof.
  split; [vm_compute; reflexivity|]. apply (mds_thrash_one_at_a_time (sim_mdst [])); vm_compute; reflexivity.
Defined.

(** Only [b] is listed; [a] is thrashed. *)
Definition weights_of_b : dict := [("thrash_weights", PDict [("mds.b", PFloat 1)])].
Lemma unlisted_mds_thrashed_witness :
  thrash_info (mds_entry "a" 0 1 "up:active") (sim_mdst weights_of_b) (sim_world 0 []) =
    (thrash_one "a" (PInt 0) (PInt 1) ;; ret None)
      (set_stats (fun st => st) 1 (sim_mdst weights_of_b)) (drawn (sim_world 0 [])).
Proof.
  apply (unlisted_mds_thrashed _ [("mds.b", PFloat 1)] "a" (PInt 0) (PInt 1) (sim_mdst weights_of_b));
    reflexivity.
Defined.

Definition never_max : mdst := Mdst sim_ctx [] sim_fs 1 false 0 1 0 0 4 10 (Stats 0 0 0) 0.
Lemma max_mds_always_thrashed_witness :
  thrash_pass never_max (sim_world 0 mds_script) =
    (status <- on_fs fs_status ;;
     randrange_float 0 1 ;;
     status <- thrash_max status ;;
     modify (fun t => set_stats (fun st => st) 0 t) ;;
     i <- fsid ;;
     get_ranks status i thrash_info ;;
     ret tt) never_max (sim_world 0 mds_script).
Proof. apply (max_mds_always_thrashed never_max). discriminate. Defined.

(** ** Filesystems *)

Definition infos_ab : dict :=
  [("1", mds_entry "b" 1 2 "up:active"); ("2", mds_entry "a" 0 1 "up:active");
   ("3", mds_entry "c" (-1) 3 "up:standby")].
Definition mdsmap_ab : dict := [("max_mds", PInt 2); ("fs_name", PStr "zbkcfs"); ("info", PDict infos_ab)].
Definition health_script : list reply :=
  [ok_reply (Json.dumps (PDict [("filesystems", PList [PDict [("id", PInt 1); ("mdsmap", PDict mdsmap_ab)]])]))].
(** Two active daemons, as many as [max_mds]: the answer is what they say themselves. *)
Lemma are_daemons_healthy_spec_witness :
  are_daemons_healthy sim_fs (sim_world 0 health_script) =
    confirm_active infos_ab.*2 sim_fs (read_mds_map sim_fs (sim_world 0 health_script)).2.
Proof.
  erewrite (are_daemons_healthy_spec sim_fs (sim_world 0 health_script) mdsmap_ab infos_ab 2 sim_fs);
    [|vm_compute; reflexivity|reflexivity|reflexivity|repeat constructor; by eexists].
  reflexivity.
Defined.

Lemma wait_for_daemons_bounded_witness :
  wp (wait_for_daemons (Some 30%Q)) (fun o f' w' => o <> Stuck /\
    (o = Ret tt -> exists f0 w0, are_daemons_healthy f0 w0 = (Ret true, f', w'))) sim_fs (sim_world 0 []).
Proof. apply (wait_for_daemons_bounded (Some 30%Q)). vm_compute. lia. Defined.

Lemma sorted_infos_by_rank_witness :
  exists l, sorted_infos (PDict mdsmap_ab) sim_fs (sim_world 0 []) = (Ret l, sim_fs, sim_world 0 []) /\
    l ≡ₚ infos_ab.*2 /\ StronglySorted (fun a b => rank_of a <= rank_of b) l.
Proof. apply (sorted_infos_by_rank mdsmap_ab infos_ab); [reflexivity|repeat constructor; by eexists]. Defined.

Definition sim_data_fs : fsys :=
  Fsys sim_mgr ["a"; "b"] "0" "host2" (PInt 1) (Some "zbkcfs") (Some "zbkcfs_metadata")
    (Some [(PInt 2, "zbkcfs_data")]).
Definition ls_script : list reply := [ok_reply ("100.00000000" +:+ nls +:+ "100.00000001")].
Lemma data_objects_decided_witness :
  exists present absent,
    ends (data_objects_present (fun _ => "host0") 256 5000000) sim_data_fs (sim_world 0 ls_script) = Ret present /\
    ends (data_objects_absent (fun _ => "host0") 256 5000000) sim_data_fs (sim_world 0 ls_script) = Ret absent /\
    (present = true <-> forall off, 0 <= off < 5000000 ->
       object_name 256 (off / stripe_size) ∈ ["100.00000000"; "100.00000001"]) /\
    (absent = true <-> forall off, 0 <= off < 5000000 ->
       object_name 256 (off / stripe_size) ∉ ["100.00000000"; "100.00000001"]).
Proof.
  set (r := _enumerate_data_objects (fun _ => "host0") 256 5000000 sim_data_fs (sim_world 0 ls_script)).
  destruct (data_objects_decided (fun _ => "host0") 256 5000000 sim_data_fs r.1.2 (sim_world 0 ls_script) r.2
              (want_objects 256 5000000) ["100.00000000"; "100.00000001"]) as (p & a & Hp & Ha & H);
    [lia|vm_compute; reflexivity|].
  exists p, a. unfold ends. rewrite Hp, Ha. done.
Defined.

(** ** The thrashosds task *)

Lemma thrashosds_never_injects_crash_witness :
  wp (configure_manager [("bdev_inject_crash", PInt 2)] ;; ManagerWait.kill_osd 1)
     (fun _ _ w' => runs_made w' = 0%nat) sim_mgr (sim_world 0 []).
Proof. apply (thrashosds_never_injects_crash [("bdev_inject_crash", PInt 2)] 1 sim_mgr). reflexivity. Defined.
