(* ===== verification/TaskWitnesses.v ===== *)
(** * Witnesses for the scripted tasks

    A second concrete environment, [well]: a cluster of three OSDs and three monitors that
    does what it is asked for.  The monitors' quorum is those that are not stopped, pgs are
    clean, from a given time on every OSD is up, and later the background loops stop.  The scripts run to their end there. *)
From Stdlib Require Import Ascii QArith Qround Lqa Qminmax.
From S2P Require Import Prelude PyVal World ZbkcManager ManagerWait Conf Scrub Daemons Sim WaitFacts.
From S2P Require Import Rados OsdScenarios LostUnfound Divergent MonScenarios Workloads SmallTasks.
From S2P Require Import Thrasher ThrasherFacts ThrasherChoice ThrasherSpec ScenarioFacts MonScenarioFacts TaskFacts Mondb.

(** JSON texts are written with single quotes. *)
Fixpoint json_text (s : string) : string :=
  match s with
  | EmptyString => EmptyString
  | String a s' => String (if Ascii.eqb a squote then dquote else a) (json_text s')
  end.
Definition osd_lines_of : string :=
  str_join nls ["epoch 1"; "osd.0 up   in  weight 1"; "osd.1 up   in  weight 1"; "osd.2 up   in  weight 1"; ""].
Definition pg_dump_of : string :=
  nls +:+ json_text "{'pg_stats': [{'pgid': '1.0', 'state': 'active+clean', 'acting': [1, 0, 2], 'last_scrub_stamp': '2016-01-02 03:04:05.67'}]}".
Definition osd_dump_of (up : bool) : string :=
  let u := if up then "1" else "0" in
  nls +:+ json_text ("{'pools': [{'pool': 1, 'pool_name': 'foo'}], 'osds': [{'osd': 0, 'up': " +:+ u +:+
    "}, {'osd': 1, 'up': 1}, {'osd': 2, 'up': 1}]}").
Definition status_of : string := json_text "{'pgmap': {'num_pgs': 1}}".
(** A quorum of the monitors that run *)
Definition quorum_of (mons : list string) : string :=
  json_text ("{'state': 'peon', 'quorum': [" +:+ str_join "," (map (fun _ => "0") mons) +:+ "]}").

(** The clock, and the monitors that run *)
Record wellstate := Well { wl_clock : Q; wl_mons : list string }.
Definition join_mon (id : string) (c : wellstate) : wellstate := Well (wl_clock c) (id :: wl_mons c).
Definition leave_mon (id : string) (c : wellstate) : wellstate :=
  Well (wl_clock c) (filter (fun x => x <> id) (wl_mons c)).
Definition well_answer (args : list string) (c : wellstate) : string :=
  match drop 9 args with
  | ["osd"; "dump"] => osd_lines_of
  | ["osd"; "dump"; _] => osd_dump_of (Qle_bool 10 (wl_clock c))
  | ["pg"; "dump"; _] => pg_dump_of
  | ["status"; _] => status_of
  | ["quorum_status"] | [_; _; "mon_status"] => quorum_of (wl_mons c)
  | "osd" :: "pool" :: "get" :: _ => "pg_num: 8"
  | _ => EmptyString
  end.
Definition well_respond (ev : event) (c : wellstate) : reply * wellstate :=
  match ev with
  | EvSleep d => (ok_reply "", Well (wl_clock c + Qmax 0 d) (wl_mons c))
  | EvRun _ args =>
      (ok_reply (well_answer args c), match drop 9 args with ["mon"; "remove"; id] => leave_mon id c | _ => c end)
  | EvDaemon DStop "mon" id _ => (ok_reply "", leave_mon id c)
  | EvDaemon (DRestart _) "mon" id _ | EvDaemon (DAdd _ _) "mon" id _ => (ok_reply "", join_mon id c)
  | EvCall "get_wwn_id_map" _ => (ok_reply "/dev/vdb /dev/vdc", c)
  | EvStopping => (Reply (if Qle_bool 100 (wl_clock c) then 1 else 0) "" "" None, c)
  | _ => (ok_reply "", c)
  end.
Definition well : Env := {|
  cstate := wellstate; respond := well_respond; now := wl_clock; draw := fun _ => (1 # 2)%Q;
  daemons_of := fun _ _ _ => [(0, true); (1, true); (2, true)];
  has_ipmi_credentials := fun _ => false;
  split_role := sim_split_role;
  is_type := fun t c role => let '(rc, rt, _) := sim_split_role role in String.eqb rc c && String.eqb rt t
|}.
#[local] Existing Instance well.
#[local] Instance well_fuel : Fuel := 10%nat.
Definition well_world : world := World (Well 0 ["a"; "b"; "c"]) 0 [].
Definition late_world : world := World (Well 20 ["a"; "b"; "c"]) 0 [].
Definition first_mon (_ : context) (_ : dict) : string := "mon.a".
Definition mon_names (_ : context) (_ : string) : list string := ["mon.a"; "mon.b"; "mon.c"].
Definition well_ctx : context :=
  Context_ "/home/ubuntu/zbkctest"
    [("host0", ["mon.a"; "osd.0"]); ("host1", ["mon.b"; "osd.1"]); ("host2", ["mon.c"; "osd.2"; "client.0"])]
    {[ "zbkc" := {[ "mon.a" := [("mon addr", PStr "10.0.0.1:6789")];
                    "mon.b" := [("mon addr", PStr "10.0.0.2:6789")];
                    "mon.c" := [("mon addr", PStr "10.0.0.3:6789")] ]} ]} ∅ ∅ ∅.
Definition well_mgr : mgr := Mgr well_ctx "host0" "zbkc" [] 0 ∅.
(** How a run ended *)
Definition outcome_of {S A} (m : M S A) (s : S) (w : world) : outcome A := (m s w).1.1.

#[export] Instance well_laws : EnvLaws well.
Proof.
  split.
  - intros n; simpl; split; lra.
  - intros ev c; simpl. destruct ev; simpl; try lra.
    3: pose proof (Q.le_max_l 0 d); lra.
    all: repeat (case_match; simpl; try lra).
  - intros d c; simpl. pose proof (Q.le_max_r 0 d). lra.
Qed.

Lemma scripts_restart_osds_witness :
  outcome_of (osd_backfill_task first_mon (fun _ _ => 3) []) well_mgr late_world = Ret tt /\
  outcome_of (divergent_priors_task first_mon []) well_mgr late_world = Ret tt /\
  wp (osd_backfill_task first_mon (fun _ _ => 3) [])
    (fun o _ w' => is_ret o -> down "osd" (w_trace w') = ∅) well_mgr late_world.
Proof.
  split; [vm_compute; reflexivity|]. split; [vm_compute; reflexivity|].
  apply (scripts_restart_osds first_mon (fun _ _ => 3) (fun _ => [0; 1; 2]) 1 []).
  - intros c. set_solver.
  - by split.
  - reflexivity.
  - left.
Defined.

Lemma rebuild_mondb_restarts_witness :
  outcome_of (rebuild_mondb_task first_mon PNone) well_mgr late_world = Ret tt /\
  wp (rebuild_mondb_task first_mon PNone)
    (fun o _ w' => is_ret o -> down "mon" (w_trace w') = ∅ /\ down "osd" (w_trace w') = ∅) well_mgr late_world.
Proof.
  split; [vm_compute; reflexivity|]. apply (rebuild_mondb_restarts first_mon PNone well_mgr late_world); [by split|reflexivity..].
Defined.

Lemma mon_recovery_restarts_mons_witness :
  outcome_of (mon_recovery_task first_mon mon_names []) well_mgr well_world = Ret tt /\
  wp (mon_recovery_task first_mon mon_names [])
    (fun o _ w' => is_ret o -> down "mon" (w_trace w') = ∅) well_mgr well_world.
Proof.
  split; [vm_compute; reflexivity|]. apply (mon_recovery_restarts_mons first_mon mon_names []); [by split|reflexivity].
Defined.

(** The replacing monitor [b_prime] runs beside [b], on the same machine. *)
Definition seesaw : M mgr unit :=
  mon_seesaw_task first_mon mon_names (fun _ => "10.0.0.2") (fun _ => "") (fun d _ => d) [("victim", PStr "b")] [] (ret tt).
Lemma seesaw_restores_conf_witness :
  outcome_of seesaw well_mgr late_world = Ret tt /\
  wp seesaw (fun o s' _ => is_ret o -> exists replacer sections,
       conf (ctx well_mgr) !! "zbkc" = Some sections /\
       conf (ctx s') = <["zbkc" := delete ("mon." +:+ replacer) sections]> (conf (ctx well_mgr)) /\
       (sections !! ("mon." +:+ replacer) = None -> conf (ctx s') = conf (ctx well_mgr))) well_mgr late_world.
Proof.
  split; [vm_compute; reflexivity|].
  apply (seesaw_restores_conf first_mon mon_names (fun _ => "10.0.0.2") (fun _ => "") (fun d _ => d)). runs_tac.
Defined.

Lemma get_next_port_free_witness :
  exists p, _get_next_port mon_names "10.0.0.2" "zbkc" well_mgr well_world = (Ret p, well_mgr, well_world) /\
    (p ∉ [6789]) /\ 6789 <= p /\ forall q, 6789 <= q < p -> q ∈ [6789].
Proof.
  eapply (get_next_port_free mon_names "10.0.0.2" "zbkc").
  - vm_compute; reflexivity.
  - vm_compute; reflexivity.
  - repeat constructor; set_solver.
  - set_solver by lia.
Defined.

Definition skewed : skew_check :=
  SkewCheck well_mgr 30 (PFloat (1 # 20)) (PBool true) (PBool false) (PBool true) (PFloat 600).
Lemma skew_verdict_witness :
  let rs := [Report "a" 0 "HEALTH_OK" PNone; Report "b" (1 # 2) "HEALTH_WARN" (PStr "off")] in
  is_ret ((skews <- ClockSkewCheck.record_skews [] (map report_doc rs) ;; ClockSkewCheck.verdict skews)
            skewed well_world).1.1.
Proof.
  apply (skew_verdict (1 # 20)); [reflexivity| |].
  - repeat constructor; vm_compute; intros; congruence.
  - right. cbn. apply Exists_cons_tl, Exists_cons_hd. vm_compute; reflexivity.
Defined.

Lemma snaps_are_tracked_witness :
  let thrash := while fuel (fun _ => b <- stopping ;; ret (negb b))
        (snap_round ["data"] (PInt 10) (PInt 5) 30) (0, []) in
  outcome_of thrash well_mgr well_world = Ret (4, [1; 2; 3; 4]) /\
  wp thrash (fun o _ w' => forall index snaps, o = Ret (index, snaps) ->
       NoDup snaps /\ Z.of_nat (length snaps) <= Z.max 0 (Z.max (5 + 1) 10) /\
       forall pool, pool ∈ ["data"] -> snaps_on pool (w_trace w') = list_to_set (map zs snaps)) well_mgr well_world.
Proof.
  split; [vm_compute; reflexivity|]. apply (snaps_are_tracked ["data"] 10 5 30). intros pool _. vm_compute; reflexivity.
Defined.

Lemma manypools_creates_each_witness :
  outcome_of (manypools_task (fun _ => ["0"]) (PInt 3)) well_mgr well_world = Ret tt /\
  wp (manypools_task (fun _ => ["0"]) (PInt 3)) (fun o _ w' => o <> Stuck /\
    (is_ret o -> started (w_trace w') =
       map (fun i => "pool" +:+ zs (3 - Z.of_nat i)) (seq 0 (Z.to_nat 3)))) well_mgr well_world.
Proof.
  split; [vm_compute; reflexivity|]. apply (manypools_creates_each (fun _ => ["0"]) 3); try done; vm_compute; lia.
Defined.

Lemma socket_command_bounded_witness :
  wp (_socket_command (F := 200%nat) "host2" "/var/run/zbkc/zbkc-client.0.asok" "perf dump" [])
    (fun o s' w' => o <> Stuck /\ s' = well_mgr /\ (runs_made w' <= runs_made well_world + 121)%nat) well_mgr well_world.
Proof. apply (socket_command_bounded (F := 200%nat)). vm_compute; lia. Defined.

(** From time 10 on all the OSDs are up. *)
Lemma well_dump (s : mgr) (w : world) : exists w', w_env w' = w_env w /\
  raw_cluster_cmd ["osd"; "dump"; "--format=json"] s w = (Ret (osd_dump_of (Qle_bool 10 (wl_clock (w_env w)))), s, w').
Proof. eexists. split; [|reflexivity]. reflexivity. Qed.
Lemma well_settles : settles 10 are_all_osds_up.
Proof.
  intros s w. destruct (well_dump s w) as (w' & Hw & Hd). unfold are_all_osds_up, get_osd_dump, get_osd_dump_json.
  do 3 apply wp_bind. unfold wp at 1. rewrite Hd. unfold then_ at 1.
  assert (Hlater : later (s, w) (s, w')) by (unfold later; cbn; rewrite Hw; lra).
  destruct (Qle_bool 10 (wl_clock (w_env w))) eqn:Hq; (split; [exact Hlater|]); eexists; (split; [vm_compute; reflexivity|]).
  - done.
  - intros Hle. apply Qle_bool_iff in Hle. cbn in Hle. congruence.
Qed.
Lemma waits_return_on_recovery_witness :
  wp (wait_for_all_up None) (fun o _ _ => o = Ret tt) well_mgr well_world.
Proof.
  destruct (waits_return_on_recovery 10 0 well_mgr well_world) as [H _].
  - intros d c. reflexivity.
  - vm_compute; lia.
  - apply H. exact well_settles.
Defined.
