(* ===== verification/ZbkcWitnesses.v ===== *)
(** * Witnesses for the zbkc task

    The task brings a cluster up and down in the environment [well]: three machines with a
    monitor and an OSD each, and two scratch devices on every machine. *)
From Stdlib Require Import Ascii QArith Qround Lqa.
From S2P Require Import Prelude PyVal World ZbkcManager ManagerWait Conf FSStatus Filesystem FsOps FsSetup Sim WaitFacts.
From S2P Require Import ZbkcCluster ZbkcTask ZbkcFacts ZbkcOrder TaskWitnesses.

#[local] Existing Instance well.
#[local] Instance zbkc_fuel : Fuel := 40%nat.
Definition first_mon_of (_ : context) (_ : string) : string := "mon.a".
Definition roles_of_type (roles : list string) (t cl : string) : list string :=
  filter (fun role => is_type t cl role = true) roles.
Definition plain_conf (_ : context) (_ : list (list string)) (_ : list string) (_ : string) : gmap string dict :=
  {[ "global" := [("auth supported", PStr "zbkcx")] ]}.
Definition job0 (config : dict) : job := Job well_ctx ∅ ∅ false true None config None.
Definition job_mgr : job := Job well_ctx ∅ {[ "zbkc" := well_mgr ]} true true None [] None.
Definition cc0 : cluster_config := ClusterConfig [("osd", [("debug osd", PInt 20)])] (Some "xfs") None None true false [] "zbkc" None None.
Abbreviation cluster0 := (ZbkcCluster.cluster first_mon_of roles_of_type (fun role => role) plain_conf (fun r => r) (fun _ _ => 3) (fun a b => b ∪ a) (fun _ => "conf") cc0).
Abbreviation nested0 := (nested first_mon_of roles_of_type (fun role => role) plain_conf (fun r => r) (fun _ _ => 3) (fun a b => b ∪ a) (fun _ => "conf")
  (fun _ _ => []) (fun _ r => r) (fun _ _ cmd _ => cmd) (fun _ => [2016; 1; 1; 0; 0; 0])).
(** What is mounted while the body runs *)
Definition mounted_in_body : outcome Z :=
  outcome_of (cluster0 (fun j w => (Ret (Z.of_nat (size (mounted (w_trace w)))), j, w))) (job0 []) late_world.

Lemma cluster_unmounts_witness :
  mounted_in_body = Ret 3 /\ outcome_of (cluster0 (ret tt)) (job0 []) late_world = Ret tt /\
  wp (cluster0 (ret tt)) (fun o _ w' => forall a, o = Ret a -> mounted (w_trace w') ⊆ ∅) (job0 []) late_world.
Proof.
  split; [vm_compute; reflexivity|]. split; [vm_compute; reflexivity|].
  apply (cluster_unmounts first_mon_of roles_of_type (fun role => role) plain_conf (fun r => r) (fun _ _ => 3)
           (fun a b => b ∪ a) (fun _ => "conf") cc0 (ret tt) (job0 []) late_world). mounts_tac.
Defined.

Lemma existing_cluster_fails_witness :
  wp (cluster0 (ret tt)) (fun o _ _ => ~ is_ret o) (job0 [("use_existing_cluster", PBool true)]) late_world.
Proof.
  apply (existing_cluster_fails first_mon_of roles_of_type (fun role => role) plain_conf (fun r => r) (fun _ _ => 3)
           (fun a b => b ∪ a) (fun _ => "conf")). reflexivity.
Defined.

Lemma block_journals_witness :
  let data := assign_devs ["osd.0"; "osd.1"] ["/dev/vdb"; "/dev/vdc"] in
  assign_devs ["osd.0"; "osd.1"] (journal_devs data ["/dev/vdb"; "/dev/vdc"]) = data.
Proof.
  apply (block_journals ["osd.0"; "osd.1"] ["/dev/vdb"; "/dev/vdc"]); [apply (bool_decide_unpack _); vm_compute; exact I..|].
  simpl; lia.
Defined.

Lemma validate_config_spec_witness : validate_config (job0 []) well_world = (Ret tt, job0 [], well_world).
Proof.
  destruct (validate_config_spec (job0 []) well_world) as (o & Ho & [[-> _]|[-> _]]).
  - apply (bool_decide_unpack _). vm_compute. exact I.
  - exact Ho.
  - vm_compute in Ho. discriminate.
Defined.

(** The cluster reports one pg. *)
Lemma well_few_pgs : few_pgs 1.
Proof.
  intros s w. unfold get_pg_stats. apply wp_bind.
  assert (Hd : exists w', raw_cluster_cmd ["pg"; "dump"; "--format=json"] s w = (Ret pg_dump_of, s, w')) by (eexists; reflexivity).
  destruct Hd as [w' Hd]. unfold wp at 1. rewrite Hd. unfold then_. intros l H. vm_compute in H. injection H as <-. simpl. lia.
Qed.
Definition scrub0 : M job unit := osd_scrub_pgs roles_of_type (fun _ => [2016; 1; 1; 0; 0; 0]) [("cluster", PStr "zbkc")].
Lemma osd_scrub_pgs_ends_witness :
  outcome_of scrub0 job_mgr well_world = Ret tt /\ wp scrub0 (fun o _ _ => o <> Stuck) job_mgr well_world.
Proof.
  split; [vm_compute; reflexivity|]. apply (osd_scrub_pgs_ends roles_of_type _ 1); [apply well_few_pgs|vm_compute; lia].
Defined.

Abbreviation task0 := (task first_mon_of roles_of_type (fun role => role) plain_conf (fun r => r) (fun _ _ => 3) (fun a b => b ∪ a) (fun _ => "conf")
  (fun _ _ => []) (fun _ r => r) (fun d _ => d) (fun _ _ cmd _ => cmd) (fun _ => [2016; 1; 1; 0; 0; 0])).
Definition existing0 : dict := [("use_existing_cluster", PBool true)].
Lemma task_in_order_witness :
  outcome_of (task0 [] (ret tt)) (job0 []) late_world = Ret tt /\
  outcome_of (task0 [] (ret tt)) (job0 existing0) late_world = Exc (RuntimeError "generator didn't stop") /\
  wp (task0 [] (ret tt)) (fun o _ w' => exists evs, w_trace w' = w_trace late_world ++ evs /\
    shaped (use_existing (job0 [])) [("cluster", PStr "zbkc")] o evs) (job0 []) late_world.
Proof.
  split; [vm_compute; reflexivity|]. split; [vm_compute; reflexivity|].
  apply (task_in_order first_mon_of roles_of_type (fun role => role) plain_conf (fun r => r) (fun _ _ => 3)
           (fun a b => b ∪ a) (fun _ => "conf") (fun _ _ => []) (fun _ r => r) (fun d _ => d) (fun _ _ cmd _ => cmd)
           (fun _ => [2016; 1; 1; 0; 0; 0]) [] (ret tt) (job0 []) late_world).
  order_tac.
Defined.
