(* ===== verification/MountWitnesses.v ===== *)
(** * Witnesses for the client mounts and the block-device images

    A third environment, [desk]: a machine on which a FUSE client gets a connection when its
    process starts and loses it on [fusermount -u], and every other command works. *)
From Stdlib Require Import Ascii QArith Qround Lqa.
From S2P Require Import Prelude PyVal World TraceState ZbkcManager ClientMount FuseMount KernelMount MountTasks MountFacts Conf Workunit Rbd ClientFacts Sim.

Record deskstate := Desk { dk_clock : Q; dk_conns : list Z }.
Definition desk_respond (ev : event) (c : deskstate) : reply * deskstate :=
  match ev with
  | EvSleep d => (ok_reply "", Desk (dk_clock c + d) (dk_conns c))
  | EvRun _ ["ls"; "/sys/fs/fuse/connections"] => (ok_reply (str_join nls (map str_of_Z (dk_conns c))), c)
  | EvRun _ ["sudo"; "fusermount"; "-u"; _] => (ok_reply "", Desk (dk_clock c) (tail (dk_conns c)))
  | EvProc PStart _ _ args =>
      (ok_reply "", if bool_decide ("zbkc-fuse" ∈ args) then Desk (dk_clock c) (40 + Z.of_nat (length (dk_conns c)) :: dk_conns c) else c)
  | EvProc PWait _ _ ("stat" :: _) => (ok_reply (match dk_conns c with [_] => "ext4" | _ => "fuseblk" end +:+ nls), c)
  | _ => (ok_reply "", c)
  end.
Definition desk : Env := {|
  cstate := deskstate; respond := desk_respond; now := dk_clock; draw := fun _ => (1 # 2)%Q;
  daemons_of := fun _ _ _ => []; has_ipmi_credentials := fun _ => true; split_role := sim_split_role;
  is_type := fun _ _ _ => true |}.
#[local] Existing Instance desk.
#[local] Instance desk_fuel : Fuel := 40%nat.
(** One connection is there already. *)
Definition desk_world : world := World (Desk 0 [7]) 0 [].
Definition fuse0 : fuse := init_fuse [] "/home/ubuntu/zbkctest" "0" "host0".
Definition no_valgrind (_ _ : string) (cmd : list string) (_ : pyval) : list string := cmd.
Definition conn_of (r : outcome unit * fuse * world) : option Z := _fuse_conn r.1.2.

Lemma fuse_mount_ends_witness :
  conn_of (fuse_mount no_valgrind None None fuse0 desk_world) = Some 41 /\
  wp (fuse_mount no_valgrind None None) (fun o f' _ => o <> Stuck /\ (is_ret o -> exists c p,
    _fuse_conn f' = Some c /\ fuse_daemon f' = Some p /\ f_base f' = f_base fuse0 /\
    p_remote p = "host0" /\ p_args p = fuse_cmd no_valgrind fuse0 None None)) fuse0 desk_world.
Proof.
  split; [vm_compute; reflexivity|]. apply (fuse_mount_ends no_valgrind None None 30); [reflexivity|vm_compute; lia].
Defined.

(** A client with a process in the background is mounted, and torn down. *)
Definition busy : M fuse unit :=
  fuse_mount no_valgrind None None ;; open_background (ClientMount0 := fuse_client no_valgrind) "file" ;; ret tt.
Definition after_busy : fuse * world := let r := busy fuse0 desk_world in (r.1.2, r.2).
Definition gone : outcome unit * fuse * world := fuse_teardown after_busy.1 after_busy.2.
Lemma fuse_teardown_gone_witness :
  length (background_procs (f_base after_busy.1)) = 1%nat /\ background_procs (f_base gone.1.2) = [].
Proof.
  split; [vm_compute; reflexivity|].
  apply (fuse_teardown_gone after_busy.1 after_busy.2 gone.1.2 gone.2). vm_compute. reflexivity.
Defined.

Definition store0 : clients :=
  Clients (Context_ "/home/ubuntu/zbkctest" [("host0", ["mon.a"; "client.0"]); ("host1", ["client.1"])] ∅ ∅ ∅ ∅) [] [] [] None.
Definition two_clients (_ : context) (_ : list string) : list (string * remote) := [("0", "host0"); ("1", "host1")].
Abbreviation kclient0 body := (kclient_task no_valgrind two_clients (fun _ _ => ["0"; "1"]) (fun _ => ["10.0.0.1"]) (fun d _ => d) PNone body).
(** What the kernels have mounted while the body runs *)
Definition mounted_during : outcome Z :=
  (kclient0 (fun s w => (Ret (Z.of_nat (size (kernel_mounts (w_trace w)))), s, w)) store0 desk_world).1.1.
Lemma kclient_unmounts_witness :
  mounted_during = Ret 2 /\
  wp (kclient0 (ret tt)) (fun o _ w' => is_ret o ->
    kernel_mounts (w_trace w') ⊆ kernel_mounts (w_trace desk_world) ∪
      overwritten "/home/ubuntu/zbkctest" (two_clients (cl_ctx store0) ["client.0"; "client.1"]) /\
    (NoDup ["0"; "1"] -> kernel_mounts (w_trace w') ⊆ kernel_mounts (w_trace desk_world))) store0 desk_world.
Proof.
  split; [vm_compute; reflexivity|].
  apply (kclient_unmounts no_valgrind two_clients (fun _ _ => ["0"; "1"]) (fun _ => ["10.0.0.1"]) (fun d _ => d) PNone (ret tt) store0 desk_world).
  calm_tac.
Defined.
(** Clients of two clusters with one id, on two machines: the first stays mounted. *)
Definition same_id (_ : context) (_ : list string) : list (string * remote) := [("0", "host0"); ("0", "host1")].
Definition after_same_id : list (string * string) :=
  elements (kernel_mounts (w_trace
    (kclient_task no_valgrind same_id (fun _ _ => ["0"; "0"]) (fun _ => ["10.0.0.1"]) (fun d _ => d) PNone (ret tt) store0 desk_world).2)).
Example kclient_forgets : after_same_id = [("host0", "/home/ubuntu/zbkctest/mnt.0")].
Proof. vm_compute. reflexivity. Qed.

(** Two images on two machines *)
Definition image0 (role : string) : string := "testimage." +:+ role.
Definition images0 : pyval := PDict [("client.0", PNone); ("client.1", PDict [("image_name", PStr "foo"); ("image_format", PInt 2)])].
Abbreviation rbd0 body := (Rbd.task image0 (fun _ d => d) (fun _ _ b => b) (fun _ _ b => b) images0 body).
Abbreviation xfs0 body := (xfstests image0 (fun _ d => d) (PList [PStr "client.0"; PStr "client.1"]) body).
Definition mgr0 : mgr :=
  Mgr (Context_ "/home/ubuntu/zbkctest" [("host0", ["mon.a"; "client.0"]); ("host1", ["client.1"])] ∅ ∅ ∅ ∅) "host0" "zbkc" [] 0 ∅.
(** What exists and what is mapped while the body runs *)
Definition taken (m : M mgr (Z * Z) -> M mgr (Z * Z)) : outcome (Z * Z) :=
  (m (fun s w => let t := rbd_state (w_trace w) in (Ret (Z.of_nat (size t.1), Z.of_nat (size t.2)), s, w)) mgr0 desk_world).1.1.
Lemma rbd_task_restores_witness :
  (taken (fun body => rbd0 body) = Ret (2, 2)) /\ is_ret (rbd0 (ret tt) mgr0 desk_world).1.1 /\
  wp (rbd0 (ret tt)) (fun o _ w' => is_ret o ->
    below (rbd_state (w_trace w')) (rbd_state (w_trace desk_world))) mgr0 desk_world.
Proof.
  split; [vm_compute; reflexivity|]. split; [vm_compute; exact I|].
  apply (rbd_task_restores image0 (fun _ d => d) (fun _ _ b => b) (fun _ _ b => b) (the_ctx mgr0)); [done..|].
  apply restores_calm. calm_units.
Defined.
Lemma xfstests_restores_witness :
  (taken (fun body => xfs0 body) = Ret (4, 4)) /\ is_ret (xfs0 (ret tt) mgr0 desk_world).1.1 /\
  wp (xfs0 (ret tt)) (fun o _ w' => is_ret o ->
    below (rbd_state (w_trace w')) (rbd_state (w_trace desk_world))) mgr0 desk_world.
Proof.
  split; [vm_compute; reflexivity|]. split; [vm_compute; exact I|].
  apply (xfstests_restores image0 (fun _ d => d) (the_ctx mgr0)); [done|]. apply restores_calm. calm_units.
Defined.
