(* ===== verification/RgwWitnesses.v ===== *)
(** * Witnesses for the object gateway and for zbkc-deploy

    The environment is the one of MountWitnesses.v: every command works. *)
From Stdlib Require Import Ascii QArith Qround Lqa.
From S2P Require Import Prelude PyVal World TraceState ZbkcManager Conf FsSetup ZbkcCluster Rados RgwUtil Rgw RgwTask RgwFacts.
From S2P Require Import Deploy DeployFacts MountWitnesses.
#[local] Existing Instance desk.
#[local] Instance gateway_fuel : Fuel := 100%nat.

(** Two clients, of which only the first names a zone *)
Definition sections0 : gmap string dict :=
  {[ "global" := [("fsid", PStr "x")]; "client.0" := [("rgw zone", PStr "foo-1")]; "client.1" := [("debug rgw", PInt 20)] ]}.
Definition gw0 : gw :=
  Gw (Context_ "/home/ubuntu/zbkctest" [("ubuntu@host0.lab", ["mon.a"; "client.0"]); ("ubuntu@host1.lab", ["client.1"])]
        {[ "zbkc" := sections0 ]} ∅ ∅ ∅)
     [] [] [] PNone false [] 30 false (PStr "civetweb") true None.
Lemma zone_for_client_history_witness :
  found sections0 [("fsid", PStr "x")] "rgw zone" [] "client.1" = None /\
  exists g', (for_ ["client.0"] (fun c => zone_for_client c ;; ret tt) ;; zone_for_client "client.1") gw0 desk_world =
    (Ret (PStr "foo-1"), g', desk_world).
Proof.
  split; [vm_compute; reflexivity|].
  apply (zone_for_client_history sections0 [("fsid", PStr "x")] ["client.0"] "client.1" gw0 desk_world).
  - apply (bool_decide_unpack _). vm_compute. exact I.
  - reflexivity.
  - reflexivity.
  - apply (bool_decide_unpack _). vm_compute. exact I.
Defined.

Definition regions0 : list (string * dict) := [("foo", [("name", PStr "foo")]); ("bar", [("name", PStr "bar")])].
Definition zones0 : list (string * role_zone) :=
  [("client.0", RoleZone "foo" "foo-1" [("rgw log meta", PStr "true")] None); ("client.1", RoleZone "bar" "bar-1" [] None)].
Definition endpoints0 : list (string * (string * Z)) := [("client.0", ("host0.lab", 7280)); ("client.1", ("host1.lab", 7281))].
Definition filled0 : outcome (list (string * dict) * list (string * role_zone)) :=
  (fill_in_endpoints regions0 zones0 endpoints0 gw0 desk_world).1.1.
Lemma fill_in_endpoints_lists_witness :
  (match filled0 with Ret st => items "endpoints" <$> assoc "foo" st.1 | _ => None end) =
    Some [PStr "http://host0.lab:7280/"] /\
  wp (fill_in_endpoints regions0 zones0 endpoints0) (fun o g' w' => g' = gw0 /\ w' = desk_world /\ forall st, o = Ret st ->
    (forall role, assoc role st.2 = if bool_decide (role ∈ endpoints0.*1) then dropped <$> assoc role zones0 else assoc role zones0) /\
    (forall region, match assoc region regions0, assoc region st.1 with
                    | Some c0, Some c => listed zones0 region endpoints0 c0 c
                    | None, None => True
                    | _, _ => False
                    end)) gw0 desk_world.
Proof.
  split; [vm_compute; reflexivity|]. apply (fill_in_endpoints_lists regions0 zones0 endpoints0 gw0 desk_world).
  apply (bool_decide_unpack _). vm_compute. exact I.
Defined.

Definition deploy_job : job := Job (g_ctx gw0) ∅ ∅ true true None [("sha1", PStr "abc"); ("targets", PDict [])] None.
Definition mon_a (_ : context) (_ : dict) : string := "mon.a".
Lemma is_healthy_ends_witness :
  (90 <= fuel)%nat /\
  wp (is_healthy mon_a []) (fun o _ w' => o <> Stuck /\ (runs_made w' <= runs_made desk_world + 90)%nat /\
    (is_ret o -> exists r c, head (split_ws (stdout (respond (EvRun r
       ["cd"; testdir (j_ctx deploy_job); "&&"; "sudo"; "zbkc"; "health"]) c).1)) = Some "HEALTH_OK")) deploy_job desk_world.
Proof. split; [vm_compute; lia|]. apply (is_healthy_ends mon_a [] deploy_job desk_world). vm_compute. lia. Defined.

(** A cluster of monitors only is kept running, and the tests fail. *)
Definition kept : dict := [("keep_running", PBool true); ("only_mon", PBool true)].
Abbreviation kept_running body :=
  (build_zbkc_cluster mon_a (fun _ _ => []) (fun _ _ => []) (fun _ r => r) (fun r => r) (fun r => r) kept body).
Lemma keep_running_hides_failures_witness :
  (kept_running (raise (AssertionError "the tests fail")) deploy_job desk_world).1.1 = Ret tt /\
  wp (kept_running (raise (AssertionError "the tests fail"))) (fun o _ _ => forall e, o = Exc e ->
    e = ValueError "need exactly one value to unpack" \/ e = RuntimeError "generator didn't yield") deploy_job desk_world.
Proof.
  split; [vm_compute; reflexivity|].
  apply (keep_running_hides_failures mon_a (fun _ _ => []) (fun _ _ => []) (fun _ r => r) (fun r => r) (fun r => r) kept
           (raise (AssertionError "the tests fail")) deploy_job desk_world). reflexivity.
Defined.

(** A job with two gateways: they run while the body does. *)
Definition gateways_during : outcome Z :=
  (rgw_task (fun _ _ => ["0"; "1"]) (fun d _ => d) (fun _ _ cmd _ => cmd) mon_a (fun r => r) (fun _ _ => EmptyString) PNone
     (fun g w => (Ret (Z.of_nat (size (gateways (w_trace w)))), g, w)) gw0 desk_world).1.1.
Example two_gateways : gateways_during = Ret 2.
Proof. vm_compute. reflexivity. Qed.
