(* ===== verification/TestWitnesses.v ===== *)
(** * Witnesses for the test cases and their runners, qemu, the local runner and the S3 tasks

    The environment is the one of MountWitnesses.v: every command works. *)
From Stdlib Require Import Ascii QArith Qround Lqa.
From S2P Require Import Prelude PyVal World TraceState ZbkcManager Conf FSStatus Filesystem FsSetup ClientMount FuseMount KernelMount MountTasks TestCase TestRunner TestFacts TaskFacts BenchTasks.
From S2P Require Import Daemons ScenarioFacts Mondb Sim MountWitnesses RgwUtil Claims Qemu Vstart VstartFacts S3Tasks RgwAdmin InstallTasks RgwWitnesses.
#[local] Existing Instance desk.
#[local] Instance test_fuel : Fuel := 40%nat.

(** A condition that never holds: five looks, four pauses. *)
Definition never : M unit bool := run "host0" ["true"] true ;; ret false.
Lemma wait_until_true_polls_witness :
  count_run (w_trace (wait_until_true never 20 tt desk_world).2) = 5%nat /\
  wait_until_true never 20 tt desk_world = poll (sleeps_within 20) 0 never tt desk_world.
Proof. split; [vm_compute; reflexivity|]. apply (wait_until_true_polls never 20 tt desk_world). vm_compute. lia. Defined.

(** An environment in which the cluster has no file systems, is not full and knows no clients *)
Definition tidy_answer : string :=
  nls +:+ Json.dumps (PDict [("pools", PList []); ("filesystems", PList []); ("flags", PStr ""); ("auth_dump", PList []);
    ("osd_mon_report_interval_max", PStr "1")]).
Definition tidy : Env := {|
  cstate := deskstate;
  respond := fun ev c => match ev with EvRun _ _ => (ok_reply tidy_answer, c) | _ => desk_respond ev c end;
  now := dk_clock; draw := fun _ => (1 # 2)%Q; daemons_of := fun _ _ _ => []; has_ipmi_credentials := fun _ => true;
  split_role := sim_split_role; is_type := fun _ _ _ => true |}.

(** A test with one client makes a setting, replaces another, and changes its client's id. *)
Definition conf0 : gmap string (gmap string dict) := {[ "zbkc" := {[ "mds" := [("debug mds", PInt 20); ("mds cache size", PInt 5)] ]} ]}.
Definition test_mgr : mgr := Mgr (Context_ "/t" [("host0", ["mon.a"; "osd.0"; "mds.a"; "client.0"])] conf0 ∅ ∅ ∅) "host0" "zbkc" [] 0 ∅.
Definition test_fs : fsys := Fsys test_mgr [] "0" "host0" PNone None None None.
Definition test_clients : clients := Clients (ctx test_mgr) [] [AKernel (init_kernel ["10.0.0.1"] "/t" "0" "host0")] [] None.
Definition test0 : tcase := TCase "test_x" test_mgr (Some test_fs) None test_clients [0%nat] None [] None None [].
Definition render0 (c : gmap string dict) : string := str_join nls (map fst (map_to_list c)).
Definition test_needs : needs := Needs 1 0 false false false false [].
Lemma test_fs_ok : conf_ok test_fs.
Proof.
  intros c s d. cbn. unfold conf0. rewrite lookup_singleton_Some. intros [_ <-]. rewrite lookup_singleton_Some. intros [_ <-].
  apply (bool_decide_unpack _). vm_compute. exact I.
Qed.
Section Tidy.
#[local] Existing Instance tidy.
Definition tidy_world : world := World (Desk 0 [41; 7]) 0 [].
Abbreviation began :=
  (fs_setUp no_valgrind (fun _ _ => "mon.a") (fun _ _ => ["0"]) (fun _ r => r) (fun r => r) (fun l => l) test_needs test0 tidy_world).
Abbreviation made_one := (TestCase.set_conf render0 "mds" "mds log max segments" (PStr "10") began.1.2 began.2).
Abbreviation made_two := (TestCase.set_conf render0 "mds" "debug mds" (PInt 1) made_one.1.2 made_one.2).
Abbreviation renamed := (set_tc_clients (set_objs [AKernel (init_kernel ["10.0.0.1"] "/t" "bad" "host0")] (tc_clients made_two.1.2)) made_two.1.2).
Abbreviation ended := (fs_tearDown no_valgrind render0 renamed made_two.2).
(** A run is what is read off it, with the outcome it has. *)
Lemma run_of {A B C : Type} (x : A * B * C) (o : A) : x.1.1 = o -> x = (o, x.1.2, x.2).
Proof. intros <-. by destruct x as [[??]?]. Qed.
Ltac ran := apply run_of; vm_compute; reflexivity.
Definition test_made : gset (string * string) := {[("mds", "mds log max segments")]} ∪ ({[("mds", "debug mds")]} ∪ ∅).
Lemma tear_down_restores_witness :
  setting_of renamed "mds" "debug mds" = Some (PInt 1) /\ id_at renamed 0 = Some "bad" /\
  setting_of ended.1.2 "mds" "mds cache size" = Some (PInt 5) /\
  (forall o, o ∈ [0%nat] -> id_at ended.1.2 o = id_at test0 o) /\
  (forall subsys key, setting_of ended.1.2 subsys key = if decide ((subsys, key) ∈ test_made) then None else setting test_fs subsys key).
Proof.
  split; [vm_compute; reflexivity|]. split; [vm_compute; reflexivity|]. split; [vm_compute; reflexivity|].
  apply (tear_down_restores no_valgrind (fun _ _ => "mon.a") (fun _ _ => ["0"]) (fun _ r => r) render0 (fun r => r) (fun l => l)
           test_needs test_made test_fs test0 began.1.2 renamed ended.1.2 tidy_world began.2 made_two.2 ended.2).
  - apply NoDup_singleton.
  - reflexivity.
  - exact test_fs_ok.
  - ran.
  - apply (test_sets render0 "mds" "mds log max segments" (PStr "10") made_one.1.1 _ _ made_one.1.2 made_one.2);
      [by apply run_of|].
    apply (test_sets render0 "mds" "debug mds" (PInt 1) made_two.1.1 _ _ made_two.1.2 made_two.2);
      [by apply run_of|].
    apply (test_other _ _ _ renamed made_two.2); [generalize made_two.1.2; intros t; repeat split|]. apply test_done.
  - ran.
Defined.

(** Two tests, of which the second fails; nothing comes after it. *)
Definition good_case : case_class := CaseClass "test_good" (ret tt) (ret tt) (ret tt).
Definition bad_case_ : case_class := CaseClass "test_bad" (ret tt) (raise (AssertionError "1 != 2")) (ret tt).
Definition skipped_case : case_class := CaseClass "test_kernel" (raise (SkipTest "no kernel client")) (ret tt) (ret tt).
Definition suite_run (interactive fail_on_skip : bool) (l : list case_class) :=
  run_suite interactive fail_on_skip None l no_result test0 tidy_world.
Definition result_of (x : outcome result * tcase * world) : result := match x.1.1 with Ret r => r | _ => no_result end.
(** The task on tests that are found under their names; the job has neither MDSs nor managers. *)
Definition load0 (n : string) : list case_class := if String.eqb n "good" then [good_case; skipped_case] else [good_case; bad_case_; good_case].
Definition runner0 (config job : dict) : outcome Z * clients * world :=
  runner_task (fun _ _ => "mon.a") (fun _ _ => []) (fun _ r => r) load0 [good_case] (PDict config) (ret 7)
    (Clients (ctx test_mgr) job (objs test_clients) [] None) tidy_world.
Definition modules0 (n : string) : string * pyval := ("modules", PList [PStr n]).
Abbreviation prepared0 := (prepare (fun _ _ => "mon.a") (fun _ _ => []) (fun _ r => r) load0 [good_case] (PDict [modules0 "bad"]) test_clients tidy_world).
Definition objects0 : objects := Objects test_mgr None None None [].
Definition bad_suite0 : list case_class := [good_case; bad_case_; good_case].
Definition start0 : tcase * world := (first_test objects0 prepared0.1.2, prepared0.2).
Definition tested := run_suite false true None bad_suite0 no_result start0.1 start0.2.
Lemma runner_task_verdict_witness :
  (runner0 [modules0 "good"; ("fail_on_skip", PBool false)] []).1.1 = Ret 7 /\
  (runner0 [modules0 "good"] []).1.1 = Exc (RuntimeError "Test failure: test_kernel") /\
  (runner0 [modules0 "bad"] [("interactive-on-error", PBool true)]).1.1 = Ret 7 /\
  bad_tests (result_of tested) = ["test_bad"] /\
  (let '(o, t2, w2) := tested in
   match o with
   | Ret r =>
       (all_accepted false true None bad_suite0 start0 (t2, w2) /\ runner0 [modules0 "bad"] [] = (Ret 7, tc_clients t2, w2)) \/
       ((forall q, ~ all_accepted false true None bad_suite0 start0 q) /\ bad_tests r <> [] /\
        runner0 [modules0 "bad"] [] = (Exc (RuntimeError ("Test failure: " +:+ str_join ", " (bad_tests r))), tc_clients t2, w2))
   | Exc e => (forall q, ~ all_accepted false true None bad_suite0 start0 q) /\ runner0 [modules0 "bad"] [] = (Exc e, tc_clients t2, w2)
   | Stuck => (forall q, ~ all_accepted false true None bad_suite0 start0 q) /\ exists s2, runner0 [modules0 "bad"] [] = (Stuck, s2, w2)
   end).
Proof.
  do 4 (split; [vm_compute; reflexivity|]).
  apply (runner_task_verdict (fun _ _ => "mon.a") (fun _ _ => []) (fun _ r => r) load0 [good_case] (PDict [modules0 "bad"]) (ret 7)
    test_clients prepared0.1.2 tidy_world prepared0.2 objects0 [modules0 "bad"] bad_suite0).
  ran.
Defined.
Abbreviation hidden := (suite_run true false [bad_case_; bad_case_]).
Lemma interactive_hides_failures_witness : was_successful (result_of hidden) = true.
Proof.
  apply (interactive_hides_failures None [bad_case_; bad_case_] test0 tidy_world _ hidden.1.2 hidden.2).
  ran.
Defined.
End Tidy.

(** The body of a qemu task starts a program of its own. *)
Definition qemu_body : M gw unit := run "host0" ["uptime"] true ;; ret tt.
Definition qemu_config : pyval := PDict [("client.0", PDict [("test", PStr "http://git.zbkc.com/test.sh")])].
Definition qemu_at (config : pyval) : M gw unit :=
  qemu_task (fun c => "image." +:+ c) (fun _ d => d) (fun _ => "deb") (fun m => m) EmptyString EmptyString config qemu_body.
Lemma qemu_body_leaves roles : Leaves bind_step roles qemu_body.
Proof.
  intros D. apply steady_triple. unfold qemu_body.
  repeat (runs_step || (apply steady_emit; by intros ?)).
Qed.
Lemma qemu_task_unbinds_witness :
  (qemu_at qemu_config gw0 desk_world).1.1 = Ret tt /\
  wp (qemu_at qemu_config) (fun o _ w' => is_ret o -> bound (w_trace w') ⊆ bound (w_trace desk_world)) gw0 desk_world.
Proof.
  split; [vm_compute; reflexivity|].
  apply (qemu_task_unbinds (fun c => "image." +:+ c) (fun _ d => d) (fun _ => "deb") (fun m => m) EmptyString EmptyString
           qemu_config qemu_body gw0 desk_world). apply qemu_body_leaves.
Defined.

(** A setting that was there before is commented out; a second test's settings replace those of the first. *)
Definition vstart_conf : string :=
  str_join nls ["[global]"; "        mon pg warn min per osd = 3"; "[osd]"; "        osd journal size = 100"; "[mds]"; "        debug mds = 1"; ""].
Definition first_settings : list (string * dict) := [("osd", [("osd journal size", PStr "5")]); ("mds", [("mds log max segments", PStr "10")])].
Definition second_settings : list (string * dict) := [("mds", [("debug mds", PStr "20")])].
Example settings_written :
  Text.new_conf first_settings vstart_conf =
  str_join nls ["[global]"; "        mon pg warn min per osd = 3"; "[osd]"; "        #osd journal size = 100"; "[mds]"; "        debug mds = 1"; "";
                "#LOCAL_TEST"; ""; "[osd]"; "osd journal size = 5"; ""; "[mds]"; "mds log max segments = 10"; ""].
Proof. vm_compute. reflexivity. Qed.
(** A setting that is not indented is only found below an empty line. *)
Example unindented_not_found :
  Text.comment_out "osd" "a" (str_join nls ["[osd]"; "a = 1"; ""]) = str_join nls ["[osd]"; "a = 1"; ""].
Proof. vm_compute. reflexivity. Qed.
Lemma conf_rewritten_witness :
  one_line first_settings = true /\
  drop_hash (Text.new_conf second_settings (Text.new_conf first_settings vstart_conf)) = drop_hash (Text.new_conf second_settings vstart_conf).
Proof. split; [vm_compute; reflexivity|]. apply (conf_rewritten first_settings second_settings vstart_conf); vm_compute; reflexivity. Defined.

(** A long test, a test that needs to trim and an ordinary one, in a suite of their own *)
Definition long_test : vtest := VTest "tasks.zbkcfs.test_scan.test_long" true false.
Definition trim_test : vtest := VTest "tasks.zbkcfs.test_limits.test_trim" false true.
Definition plain_test : vtest := VTest "tasks.zbkcfs.test_basic.test_ls" false false.
Definition suites : list suite := [Case long_test; Suite [Case trim_test; Case plain_test]; Case long_test].
Lemma disable_exact_witness :
  methods (disable 1000 [] (Suite suites)) = [plain_test] /\
  methods (disable 1000 ["tasks.zbkcfs.test_limits.test_trim"] (Suite suites)) =
    List.filter (fun t => negb (victim 1000 ["tasks.zbkcfs.test_limits.test_trim"] t)) (methods (Suite suites)).
Proof.
  split; [vm_compute; reflexivity|]. apply (disable_exact 1000 ["tasks.zbkcfs.test_limits.test_trim"] suites).
  intros t u Ht Hu. cbn in Ht, Hu. rewrite !elem_of_cons in Ht, Hu.
  destruct Ht as [->|[->|[->|[->|Ht]]]]; [..|by apply not_elem_of_nil in Ht];
    (destruct Hu as [->|[->|[->|[->|Hu]]]]; [..|by apply not_elem_of_nil in Hu]); done.
Defined.

(** A process that is asked about, waited for twice and killed *)
Definition a_proc : lproc := LProc ["sleep"; "1"] (Proc 0 local ["sleep"; "1"]) true EmptyString EmptyString None.
Lemma communicates_once_witness :
  communications (w_trace (for_ [OFinished; OWait; OWait; OKill] do_op a_proc desk_world).2) = 1%nat /\
  wp (for_ [OFinished; OWait; OWait; OKill] do_op) (fun o s' w' => o = Ret tt /\ exists evs, w_trace w' = w_trace desk_world ++ evs /\
    (communications evs <= 1)%nat /\ (is_Some (l_exitstatus a_proc) -> s' = a_proc /\ evs = [])) a_proc desk_world.
Proof.
  split; [vm_compute; reflexivity|]. apply communicates_once. intros p r args c. cbn. by destruct args as [|? [|? ?]]; repeat case_match.
Defined.

(** The programs run for two clients; one names its user. *)
Definition s3_users : list (string * dict) :=
  [("client.0", [("DEFAULT", PDict []); ("s3", PDict [("user_id", PStr "mine")])]); ("client.1", [("DEFAULT", PDict []); ("s3", PDict [])])].
Definition s3_body (_ : list (string * dict)) : M gw Z := fun g w => (Ret (Z.of_nat (size (users (w_trace w)))), g, w).
Lemma readwrite_users_removed_witness :
  (readwrite_create_users ["client.0"; "client.1"] s3_users s3_body gw0 desk_world).1.1 = Ret 2 /\
  Leaves user_step (cluster_roles (g_ctx gw0)) (readwrite_create_users ["client.0"; "client.1"] s3_users s3_body).
Proof.
  split; [vm_compute; reflexivity|]. apply readwrite_users_removed.
  - apply (bool_decide_unpack _). vm_compute. exact I.
  - by repeat constructor.
  - intros confs D g w Hg ? _. exact Hg.
Defined.
(** s3roundtrip leaves a user its configuration names. *)
Example named_user_left :
  users (w_trace (roundtrip_create_users ["client.0"; "client.1"] s3_users s3_body gw0 desk_world).2) = {["mine"]}.
Proof. vm_compute. reflexivity. Qed.

(** ** A sweep over two OSDs with one and two replicas: three benchmarks *)
Definition bench_summary : string :=
  str_join nls ["Bandwidth (MB/sec): 97.5"; "Stddev Bandwidth: 1.5"; "Average Latency: 0.2"; "Stddev Latency: 0.1"; ""].
Definition sweep_config : dict :=
  [("clients", PList [PStr "client.0"]); ("min_num_osds", PInt 1); ("min_num_replicas", PInt 1); ("max_num_replicas", PInt 2);
   ("columns", PList [PStr "num_osd"; PStr "num_replica"; PStr "avg_throughput"])].
Definition sweep_world : @world sim := sim_world 0 (repeat (ok_reply bench_summary) 200).
Definition first_mon_ (_ : context) (_ : dict) : string := "mon.a".
Definition rows (t : list event) : list string :=
  omap (fun ev => match ev with EvCall "write" [_; row] => Some row | _ => None end) t.
Definition sweep_bench (n : Z) (p : pyval * Z * Z) : @M sim mgr unit :=
  run_radosbench (E := sim) first_mon_ sweep_config ["num_osd"; "num_replica"; "avg_throughput"] "radosbench.csv" n p.1.1 p.1.2 p.2.
Definition sweep_params : list (pyval * Z * Z) := product3 [PInt 4194304] [1; 2] [0].
Lemma sweep_planned_witness :
  rows (w_trace (sweep (E := sim) first_mon_ sweep_config 2 (PInt 1) (PInt 2) sweep_bench (product4 (z_range 0 3) sweep_params) 0 sim_mgr sweep_world).2)
  = ["2,1,97.5" +:+ nls; "2,2,97.5" +:+ nls; "1,1,97.5" +:+ nls] /\
  sweep (E := sim) first_mon_ sweep_config 2 (PInt 1) (PInt 2) sweep_bench (product4 (z_range 0 (2 + 1)) sweep_params) 0 sim_mgr sweep_world
  = planned (E := sim) first_mon_ sweep_config 2 1 2 sweep_bench sweep_params sim_mgr sweep_world.
Proof. split; [vm_compute; reflexivity|]. apply (sweep_planned (E := sim) first_mon_ sweep_config 2 1 2 sweep_bench sweep_params); [lia|done]. Defined.
Definition sweep_job (config : pyval) : @M sim mgr unit :=
  radosbenchsweep_task (E := sim) first_mon_ (fun _ _ => 2) "/archive" config (ret tt).
Lemma sweep_removes_pools_witness :
  (sweep_job (PDict sweep_config) sim_mgr sweep_world).1.1 = Ret tt /\
  hoare (fun s => pools s = pools sim_mgr) (sweep_job (PDict sweep_config)) (fun _ s => pools s = pools sim_mgr).
Proof.
  split; [vm_compute; reflexivity|]. apply (sweep_removes_pools (E := sim) first_mon_ (fun _ _ => 2) "/archive" (PDict sweep_config)).
  by apply hoare_ret.
Defined.
(** Two machines with clients, the configuration by client *)
Definition fio_config : dict := [("client.0", PDict [("io-engine", PStr "rbd")]); ("client.1", PDict [("io-engine", PStr "rbd")])].
Lemma fio_second_machine_fails_witness :
  wp (rbd_fio_task (E := sim) (fun _ => "deb") (fun r => r) (PDict fio_config) (ret tt)) (fun o _ _ => ~ is_ret o)
    (Mgr bench_ctx "host0" "zbkc" [] 0 ∅) (sim_world 0 []).
Proof. apply (fio_second_machine_fails (E := sim)); [done|done|vm_compute; lia]. Defined.
Lemma multibench_segments_fail_witness :
  (run_one (E := sim) [("time", PInt 10)] 0 (Mgr bench_ctx "host0" "zbkc" [] 0 ∅) (sim_world 0 [])).1.1
    = Exc (TypeError "sleep() takes exactly 1 argument (0 given)") /\
  wp (run_one (E := sim) [("time", PInt 10)] 0) (fun o _ _ => ~ is_ret o) (Mgr bench_ctx "host0" "zbkc" [] 0 ∅) (sim_world 0 []).
Proof. split; [vm_compute; reflexivity|]. apply (multibench_segments_fail (E := sim) _ 0 10); [done|lia]. Defined.

(** ** Three machines on which Calamari is installed and tested *)
Definition cal_gw : gw :=
  Gw sim_ctx [("tasks", PList [PDict [("calamari_setup", PNone)]]); ("roles", PList [])] [] [] PNone false [] 0 false PNone false None.
Definition cal_body : @M sim gw unit := run "host0" ["uptime"] true ;; ret tt.
Definition cal_world : @world sim := sim_world 0 (repeat (ok_reply "abc") 200).
Definition cal_setup (os : string) : @M sim gw unit :=
  calamari_setup_task (E := sim) (fun r => "ubuntu@" +:+ r) (fun _ => os) (fun _ => "centos") (fun _ => "rpm") (fun r => r) (fun r => r)
    (fun l => remove_dups l) DEFAULTS [("test_image", PStr "/images/ice-1.3.iso")] cal_body.
Lemma cal_body_leaves (step : gset (string * string) -> event -> gset (string * string)) roles : (forall t, step t (EvRun "host0" ["uptime"]) = t) -> Leaves (E := sim) step roles cal_body.
Proof.
  intros Hi D. apply steady_triple. unfold cal_body. repeat (runs_step || (apply steady_emit; by intros ?)).
Qed.
Lemma calamari_setup_restores_witness :
  (cal_setup "rhel 7.0" cal_gw cal_world).1.1 = Ret tt /\
  wp (cal_setup "rhel 7.0") (fun o _ w' => is_ret o -> set_up (w_trace w') ⊆ set_up (w_trace cal_world)) cal_gw cal_world.
Proof.
  split; [vm_compute; reflexivity|].
  apply (calamari_setup_restores (E := sim) (fun r => "ubuntu@" +:+ r) (fun _ => "rhel 7.0") (fun _ => "centos") (fun _ => "rpm")
           (fun r => r) (fun r => r) (fun l => remove_dups l) (cluster_roles sim_ctx)); [done|by apply cal_body_leaves].
Defined.
(** On a version that is not in the table the repositories stay where they were moved. *)
Example unknown_version_not_restored :
  (cal_setup "rhel 7.1" cal_gw cal_world).1.1 = Exc (KeyError "rhel 7.1") /\
  set_up (w_trace (cal_setup "rhel 7.1" cal_gw cal_world).2) = {[("host0", "/etc/yum.repos.d.old")]}.
Proof. split; vm_compute; reflexivity. Qed.
Example deploys_disks :
  omap (fun ev => match ev with EvRun _ ["zbkc-deploy"; "osd"; "activate"; d] => Some d | _ => None end)
    (w_trace (cal_setup "rhel 7.0" cal_gw cal_world).2) = ["host0:vdd1"; "host0:vdc1"; "host1:vdd1"; "host1:vdc1"].
Proof. vm_compute. reflexivity. Qed.
Definition cal_tests (pkg : string) : @M sim gw unit :=
  calamari_nosetests_task (E := sim) (fun _ => "7.0") (fun _ => pkg) (fun _ => "cluster: ...") [] cal_body.
Lemma nosetests_clean_up_witness :
  (cal_tests "rpm" cal_gw cal_world).1.1 = Ret tt /\
  wp (cal_tests "rpm") (fun o _ w' => is_ret o -> nose_things (w_trace w') ⊆ nose_things (w_trace cal_world)) cal_gw cal_world.
Proof.
  split; [vm_compute; reflexivity|].
  apply (nosetests_clean_up (E := sim) (fun _ => "7.0") (fun _ => "rpm") (fun _ => "cluster: ...") (cluster_roles sim_ctx));
    [done|by apply cal_body_leaves].
Defined.

(** ** A table as the cinder client prints it, and a job with two packages to build *)
Definition volume_rows : list (string * string) := [("Property", "Value"); ("id", "5aa119a8"); ("size", "1")].
Definition rule_line : string := "+----------+----------+".
Lemma parse_os_table_reads_witness :
  parse_os_table (E := sim) (os_table (fun s => (1, 8 - String.length s)%nat) rule_line volume_rows) cal_gw cal_world
  = (Ret [("Property", PStr "Value"); ("id", PStr "5aa119a8"); ("size", PStr "1")], cal_gw, cal_world).
Proof.
  apply (parse_os_table_reads (E := sim) (fun s => (1, 8 - String.length s)%nat) rule_line volume_rows); [done|done|].
  by repeat constructor.
Defined.
Definition build_job : pyval :=
  PDict [("overrides", PDict [("install", PDict [("zbkc", PDict [("sha1", PStr "f00d")])])]);
         ("tasks", PList [PDict [("install", PNone)]; PDict [("parallel", PList [PDict [("install.upgrade", PDict [("osd.0", PDict [("tag", PStr "v10")])])]])]])].
Example builds_found :
  (lookup_configs (E := sim) (fun d _ => d) build_job cal_gw cal_world).1.1 =
  Ret [(PStr "basic", PStr "", PStr "", PNone); (PStr "basic", PStr "v10", PStr "", PNone)].
Proof. vm_compute. reflexivity. Qed.

(** ** A gateway that answers the whole test of radosgw-admin *)
Definition js (v : pyval) : reply := ok_reply (Json.dumps v).
Definition done_ (n : nat) : list reply := repeat (ok_reply EmptyString) n.
Definition refused : reply := Reply 1 EmptyString EmptyString None.
Definition s3_error (status : string) : reply := Reply 0 EmptyString EmptyString (Some (OtherError ("S3ResponseError " +:+ status))).
Definition key_doc (a s : string) : pyval := PDict [("access_key", PStr a); ("secret_key", PStr s)].
Definition swift_doc (u s : string) : pyval := PDict [("user", PStr u); ("secret_key", PStr s)].
Definition user_doc (keys swift : list pyval) (subusers : Z) (susp : bool) : pyval :=
  PDict [("user_id", PStr user1); ("email", PStr email); ("display_name", PStr display_name1); ("keys", PList keys);
         ("swift_keys", PList swift); ("suspended", PBool susp);
         ("subusers", PList (repeat (PDict [("permissions", PStr "full-control")]) (Z.to_nat subusers)))].
Definition doc1 (swift : list pyval) (subusers : Z) : reply := js (user_doc [key_doc access_key secret_key] swift subusers false).
Definition swift1 : pyval := swift_doc subuser1 swift_secret1.
Definition swift2 : pyval := swift_doc subuser2 swift_secret2.
Definition stats_doc (n : Z) : pyval :=
  PDict [("owner", PStr user1); ("id", PStr "b.1"); ("usage", PDict [("rgw.main", PDict [("num_objects", PInt n); ("size_kb", PInt 1)])])].
Definition usage_doc (cats : list string) : pyval :=
  PDict [("entries", PList [PNone]);
         ("summary", PList [PDict [("user", PStr user1); ("total", PDict [("successful_ops", PInt 3)]);
                                   ("categories", PList (map (fun c => PDict [("category", PStr c); ("successful_ops", PInt 1)]) cats))]])].
Definition log_doc : pyval :=
  PDict [("bucket", PStr bucket_name); ("bucket_id", PStr "b.1"); ("bucket_owner", PStr user1);
         ("log_entries", PList [PDict [("bucket", PStr bucket_name); ("user", PStr user1)]])].
Definition policy_replies : list reply := done_ 3 ++ [ok_reply ("<acl/>" +:+ nls); ok_reply (xml_version +:+ "<acl/>" +:+ nls)].
Definition admin_script : list reply :=
  done_ 2 ++ [refused] ++ done_ 1 ++ [refused; doc1 [] 0] ++
  done_ 1 ++ [js (user_doc [] [] 0 true)] ++ done_ 1 ++ [doc1 [] 0] ++
  done_ 1 ++ [js (user_doc [key_doc access_key secret_key; key_doc access_key2 secret_key2] [] 0 false); doc1 [] 0] ++
  done_ 2 ++ [doc1 [swift1] 1; doc1 [swift1] 1] ++ done_ 1 ++ [doc1 [swift1; swift2] 2; doc1 [swift2] 2; doc1 [swift2] 1; doc1 [] 0] ++
  [js (PList []); js (PList [])] ++ done_ 1 ++ [js (PList [PStr bucket_name]); js (PList [PStr bucket_name])] ++
  done_ 3 ++ [s3_error "400"] ++ done_ 3 ++ [js (stats_doc 0); js (PList [stats_doc 0])] ++ done_ 2 ++ [js (stats_doc 1)] ++ done_ 2 ++
  done_ 4 ++ [js (PDict [("data", PDict [("bucket", PDict [("name", PStr bucket_name); ("bucket_id", PStr "b.1")])])])] ++
  done_ 1 ++ [refused] ++ done_ 3 ++
  done_ 3 ++ [js (stats_doc 0)] ++
  [js (PList [PStr "meta.log"; PStr "2016-01-01-myfoo"]); js log_doc] ++ done_ 1 ++
  [js (usage_doc []); js (usage_doc []); js (usage_doc test_categories)] ++ map (fun c => js (usage_doc [c])) test_categories ++
  done_ 1 ++ [js (PDict [("entries", PList []); ("summary", PList [])])] ++
  done_ 2 ++ [s3_error "403"] ++ done_ 3 ++
  done_ 3 ++ [js (PList [PStr "tail"])] ++ done_ 1 ++ [js (PList [])] ++
  [refused; s3_error "409"] ++ done_ 2 ++
  done_ 3 ++ policy_replies ++ policy_replies ++
  done_ 9 ++ done_ 1 ++
  [js (PDict [("caps", PList [PDict [("perm", PStr "read")]])]); js (PDict [("caps", PList [])])] ++
  done_ 2 ++ [refused] ++ done_ 4 ++ [refused] ++
  [js (PDict [("placement_pools", PList [])])] ++ done_ 4 ++ [js (PDict [("placement_pools", PList [new_rule])])].
Definition admin_gw : gw :=
  Gw sim_ctx [("roles", PList [])] [("client.0", ("host2", 7280))] [] PNone false [] 0 false PNone false None.
Definition admin_run : outcome unit * gw * @world sim :=
  radosgw_admin_task (E := sim) (F := 2000%nat) (fun _ _ => ["0"]) (fun s => (EmptyString, s)) PNone admin_gw (sim_world 0 admin_script).
Example admin_test_returns : admin_run.1.1 = Ret tt /\ sim_script (w_env admin_run.2) = [] /\ admin_users (w_trace admin_run.2) = ∅.
Proof. split_and!; vm_compute; reflexivity. Qed.
Lemma mtime_moved_witness :
  parse_mtime "2016-02-29 10:11:12.250000Z" = Some ([2016; 2; 29; 10; 11; 12], 250000) /\
  mtime_text (minus_days 300 [2016; 2; 29; 10; 11; 12]) 250000 = "2015-05-05 10:11:12.250000Z" /\
  exists y m d rest y' m' d', [2016; 2; 29; 10; 11; 12] = y :: m :: d :: rest /\
    minus_days 300 [2016; 2; 29; 10; 11; 12] = y' :: m' :: d' :: rest /\
    days_of y' m' d' = days_of y m d - 300 /\ 1 <= m' <= 12 /\ 1 <= d' <= 31.
Proof.
  split; [vm_compute; reflexivity|]. split; [vm_compute; reflexivity|].
  apply (mtime_moved 300 "2016-02-29 10:11:12.250000Z" [2016; 2; 29; 10; 11; 12] 250000). vm_compute. reflexivity.
Defined.
Lemma usage_wait_ends_witness :
  wp (await_usage (E := sim) (F := 2000%nat) (rest_any (E := sim) "c" "usage" "show" []))
    (fun o _ w' => o <> Stuck /\ (is_ret o -> (now (w_env w') - 0 <= inject_Z 1200)%Q)) admin_gw (sim_world 0 []).
Proof. apply (usage_wait_ends (E := sim) (F := 2000%nat)); [apply rest_ends|unfold fuel; lia]. Defined.
